(* ===== verification/_CoqProject ===== *)
-Q . S2P
Prelude.v
Crc32.v
CInit.v
BoardTables.v
BoardParms.v
FlashApi.v
CfiTypes.v
CfiFlash.v
CfiGeometry.v
AmdFlash.v
AmdChip.v
SpiFlash.v
SpiSst.v
SpiProofs.v
SpiContract.v
SpiClaims.v
RamFlash.v
KerFlash.v
CText.v
MacAddr.v
MacProofs.v
MacClaims.v
FlashAreas.v
FlashClaims.v
ImageSet.v
ImageTag.v
TagProofs.v
TagClaims.v
TagWitness.v
ScratchPad.v
PadProofs.v
PadClaims.v
Led.v
LedProofs.v
LedClaims.v
LedReach.v
Gpio.v
Buttons.v
DyingGasp.v
GaspProofs.v
GaspClaims.v
BoardIoctl.v
IoctlClaims.v
Restore.v
Irq.v
IrqClaims.v
Serial.v
SerialClaims.v
Setup.v
Pci.v
SetupClaims.v
PciClaims.v
BoardDev.v
DevClaims.v
DhcpPacket.v
DhcpOptions.v
DhcpLease.v
DhcpFiles.v
DhcpVi.v
DhcpServer.v
DhcpMain.v
DhcpTable.v
DhcpReply.v
DhcpFind.v
DhcpExcl.v
DhcpRun.v
DhcpClaims.v
DhcpConf.v
DhcpStart.v
DhcpConfProofs.v
DhcpConfRead.v
DhcpBootClaims.v
DhcpArp.v
DhcpScript.v
DhcpClient.v
DhcpClientRead.v
DhcpClientSend.v
DhcpClientTime.v
DhcpClientRoutes.v
DhcpClientClaims.v
