(* ===== verification/Prelude.v ===== *)
(** * The board-support software of the Huawei EchoLife HG553

    The repository is the firmware of an ADSL router: a Linux kernel, many
    third-party user programs, and the software that makes them run on this
    hardware and serve its users, written or reworked by Broadcom and Huawei.
    This development models the last part, in the configuration of the product:
    chip BCM96358 (a 32-bit big-endian MIPS), board "HW553", kernel build (not
    the CFE boot loader), parallel NOR flash, and the DHCP server and client in the
    build of the same product.

    ** The program and its parts

    Shared by boot loader and kernel, under [src/shared/opensource]:
    - [boardparms/bcm963xx/boardparms.c]: a table of parameters per board,
      [BpSetBoardId] that selects one, and about sixty access functions;
    - [flash/flash_api.c]: the flash interface; it picks a driver at start and
      dispatches through a record of functions;
    - [flash/cfiflash.c]: the driver of parallel flash parts with AMD, Intel or
      SST command sets;
    - [flash/spiflash.c]: the driver of serial flash parts behind the chip's SPI
      controller.

    The board driver, under
    [src/bcmdrivers/opensource/char/board/bcm963xx/impl1]:
    - [bcm63xx_flash.c]: the layout of the flash, the parameter areas (NVRAM, PSI,
      PSI backup, fix, avail, variable) and the scratch pad, a store of named
      tokens;
    - [bcm63xx_led.c]: the LEDs, driven by requests and by two timers;
    - [board.c]: MAC addresses, image upgrade and boot selection, pins, buttons,
      the watch over data card and USB ports, the dying gasp, the restoring of
      the default settings, and the device file with its requests.

    The platform code of the kernel, under [src/kernel/linux/arch/mips] and
    [src/bcmdrivers/opensource/char/serial]: [irq.c], [setup.c] and [prom.c] of
    the board, [ops-], [pci-] and [fixup-bcm63xx.c] for PCI, and the serial
    console [bcm63xx_cons.c].

    The DHCP server and client, under [src/userapps/opensource/udhcp]: the server
    gives addresses to the home network, the client gets the router's own address
    from the provider; both use the same code for options and packets.

    The storage functions call the flash API, which calls a driver, which talks
    to the part over a bus.  The layout reads the board parameters and the CRC-32
    of the NVRAM; MAC addresses come from the NVRAM; the upgrade writes images
    through the storage functions and the boot selection reads them back; the
    device file offers storage, upgrade, MAC addresses, pins and LEDs to
    programs; a long press of the reset button clears the areas.  The LED map is
    built from the board parameters.  The PCI functions work on the windows that
    the setup opens; interrupts reach the drivers through [irq.c].

    ** The files

    - [Prelude]: machine integers, the outcome monad, total-correctness triples,
      byte buffers, memory by address, automation.
    - [Crc32]: [getCrc32] and its table ([bcmTag.h]).
    - [CInit], [BoardTables], [BoardParms]: aggregate initialisation in C, the
      ten tables of the BCM96358 build written as their initialisers, and the
      functions of [boardparms.c].  [g_pCurrentBp] is an [option].
    - [FlashApi]: [flash_api.c]; the class [FlashContract] states what a driver
      promises: a geometry, the contents of the part as a function of the
      address, and what each operation returns and changes.
    - [CfiTypes], [CfiFlash]: the data and the functions of [cfiflash.c].  The
      file-scope variables are the record [cfi_state]; the part on the bus is a
      value of any type with bus operations (class [NorBus]).  [CfiGeometry]: the
      sector table and the queries on it.
    - [AmdFlash]: the driver on an AMD part.  The behaviour of the part that data
      sheets promise (command sequences, polling, programming, erasing) is the
      class [AmdPart]; the driver is shown to implement [FlashContract].
      [AmdChip] is a concrete part that satisfies the class.
    - [SpiFlash]: the functions of [spiflash.c] on any controller (class
      [SpiBus]).  [SpiSst]: the command set of the SST25VF parts (class
      [SstPart]).  [SpiProofs], [SpiContract], [SpiClaims]: the driver on such a
      part implements [FlashContract].
    - [RamFlash]: a flash in memory, a third implementation of the contract.
    - [KerFlash]: the layout and the parameter areas of [bcm63xx_flash.c] as
      explicit state ([kstate]: the flash, [fInfo], the selected board, the
      allocator's calls and the number of live buffers).  [FlashAreas] and
      [FlashClaims] prove it against the flash contract only.
    - [ImageSet]: the image upgrade, [kerSysBcmImageSet], on the same state.
    - [ScratchPad], [PadProofs], [PadClaims]: the scratch pad; the
      representation [pad_rep] relates its bytes to a list of tokens.
    - [CText]: numbers in text ([board_atoi], [board_xtoi], [simple_strtoul],
      the decimal and hexadecimal formats of [sprintf]).
    - [MacAddr], [MacProofs], [MacClaims]: the MAC addresses, on the bytes of the
      kernel buffer [g_pNvramInfo].
    - [ImageTag], [TagProofs], [TagClaims], [TagWitness]: image tags,
      [flashFsKernelImage] and the choice of the image to boot.
    - [Led], [LedProofs], [LedClaims], [LedReach]: the LED driver; its globals
      and registers are the record [lstate].
    - [Gpio], [Buttons]: pins, version straps, the polling of the buttons and the
      watch timer; a poll is a function of the static variables and the pins.
    - [DyingGasp], [GaspProofs], [GaspClaims]: the table of handlers as linked
      nodes in memory, the test for a power loss and the shutdown; the class
      [GaspHw] gives the voltage and the clock.
    - [Restore]: [restore_do_tasklet], the work of a long press.
    - [BoardIoctl], [IoctlClaims]: [board_ioctl] and its lock.
    - [BoardDev], [DevClaims]: open, close, poll and read of the device file with
      the WPS event, the memory dump, chip selects, the link monitor's hook.
    - [Irq], [IrqClaims]: [irq.c], with the kernel's flow of a level interrupt.
    - [Serial], [SerialClaims]: [bcm63xx_cons.c], with the circular buffer of the
      serial core; the class [UartHw] is the UART.
    - [Setup], [SetupClaims]: [setup.c] and [prom.c].
    - [Pci], [PciClaims]: the PCI functions; the classes [PciBus] and [PciDevices]
      state what the devices on the bus do, and [PciBridge] what the address windows
      of the bridge do with the values that the setup stores in its registers.
    - [DhcpPacket]: messages and options ([options.c], [packet.c]).
      [DhcpLease]: the state of the server ([dhcpd]) and [leases.c].  [DhcpFiles],
      [DhcpVi]: lease files, rules for IP phones and option 125.  [DhcpServer]:
      [serverpacket.c].  [DhcpMain]: the rounds of the main loop of [dhcpd.c].
    - [DhcpOptions], [DhcpTable], [DhcpReply], [DhcpFind]: what the parts of the server do.  [DhcpExcl]: the ledger of
      promises and the invariant; [DhcpRun]: every round keeps it; [DhcpClaims]:
      the theorems.
    - [DhcpConf], [DhcpStart]: the parser of the configuration file ([files.c]) and
      the start, the signals and the pid file of the server ([dhcpd.c],
      [pidfile.c]).  [DhcpConfProofs], [DhcpConfRead] and [DhcpBootClaims]
      prove them.  [DhcpArp]: [arpping.c].
    - [DhcpScript]: the child of the client, which turns a reply into files and the
      environment of a script ([script.c]); its static buffers are a function from
      [static_buf], and messages to the TR-069 client are recorded in its world.
      [DhcpClient]: the state of the client ([dhcpc]) and its messages, replies, signals, timers and main loop
      ([dhcpc.c], [clientpacket.c], [run_staticRoute] of [script.c]); a round of
      the loop is [client_round], what happens in it a [cevent].
    - [DhcpClientRead]: the client reads what the server has sent;
      [DhcpClientSend]: what its messages carry, and how the server reads them; [DhcpClientTime]: the timers of a lease follow an abstract clock;
      [DhcpClientRoutes]: static routes; [DhcpClientClaims]: the theorems.

    ** How code is modelled

    A function that reads or writes state is an action of the monad [M]: it
    takes the state and returns normally ([Done]), accesses an object out of
    bounds ([Fault]), waits for something that never comes ([Blocked]) or
    exhausts the bound of a loop ([NoFuel]).  Integers are [Z] with the
    conversions of C written out where a value can leave its type.  Buffers are
    lists of bytes with checked accesses; memory that is allocated, linked and
    freed is a map from addresses, so that a use of freed memory is a [Fault].

    ** What the theorems show

    - CRC: the table-driven CRC is the bit-serial one, on every input.
    - Board tables: string order, selection, listing of ids within the caller's
      buffer; the configuration of the HG553; the tables of the other boards
      have shifted fields.
    - CFI driver: the block query inverts the sector table; the sector table is
      built as the part reports it; write and erase terminate and change exactly
      the bytes they should; the driver refines the flash contract.  Defects:
      the retry after a failed verify waits for the driver's own semaphore, and
      with a signal leaves its count wrong, the
      test for the CFI letters, a scan before the start of the table.
    - SPI driver: from the initialisation on, the driver refines the flash
      contract on every SST25VF part.  Defects: other parts and inputs, in
      [SpiClaims].
    - Storage: the layout places the areas one below the other without overlap;
      for every area a Set followed by a Get returns the data, other areas are
      isolated, Clear clears exactly the area, requests that are too long or
      find no memory are refused; no kernel buffer is lost.  The status of a Set
      of the PSI and of its backup is stated for parts without the eight small
      sectors at the top.  Defects: the unchecked offset, the inverted status on
      the parts with them (the 8K path), the lost buffer of
      the last allocation attempt.
    - Scratch pad: Set and Get implement a table of named tokens, and a round
      trip.  Defects: the ignored buffer length, buffers that are not freed, a
      full pad, long names.
    - Upgrade: an image that stays clear of the shared sector is written whole
      and nothing else changes but the erased rest of its last sector; an
      upgraded normal system boots, and a boot line that names another image is
      set to the latest one; the small system boots when the normal one
      is damaged, foreign images are refused.  Defects: the merge buffer freed
      twice, and those at the end of [TagClaims].
    - MAC addresses: an owner keeps its address and no two owners share one,
      whatever is requested and released.  Defect: the overrun of the table.
    - LEDs: an invariant of every reachable state (pointers in range, an active
      LED has the timer running, requests and the timer return); the timer
      treats LEDs independently; blinking has its period; On, Off and Fail light
      the right pin.  Defects: unchecked LED names, very slow blinking lost.
    - Dying gasp: the linked list implements the table of handlers; the interrupt
      ends its test, and calls the handlers in their order or none.
    - Board driver: storage round trip through requests, at most one writer under
      any interleaving, with the refusal during a call and the release on every
      path; refusals leave the flash alone, the WPS event has one
      pending record for each listener, the dump prints what memory holds; the
      restoring of the defaults.  Defects: lost status values, in [IoctlClaims].
    - Interrupts: a level interrupt is served once and masked meanwhile; a call
      of the dispatcher serves everything that is pending; no line starves.
    - Serial port: characters go out and come in in order, on any UART; the
      divisor of the rate is the nearest; the console sends exactly its text.
    - Setup and PCI: memory size, the card in the slot for each of its wirings,
      the configuration round trip and isolation, the sizing of base addresses,
      and that the addresses given to drivers reach the device.
    - DHCP server: over every run with one pool, no address that is promised to
      a client is offered or acknowledged to another one; [get_option] stays in
      the message; options are found again; checksums are right; the search for
      an address ends and is right in both directions.  The configuration file:
      the settings written to a file are read back, every line is safe apart from
      the reserved addresses, and the start reaches a state from which the
      exclusivity holds.  Defects: the lease file is written and read with
      different record sizes, and those of [DhcpBootClaims].
    - DHCP client: an offer of the server is taken, and the request that follows is
      read by the server as the request for what it has offered; renewals are read
      as such; a client without an answer gives its lease up in at most 26 rounds
      and not after its end; the routes of option 121, in the encoding of RFC 3442,
      become the commands that install them and are deleted with the next lease.

    ** Bounds

    Loops over counters recurse on the counter and need no bound.  The polling
    loops of the flash drivers take a bound; the classes [AmdPart] and [SstPart]
    have the number of polls after which a part is ready, and the theorems show
    termination for every bound above it.  The busy-wait of the serial LED
    register takes the bound [polls], with the hypothesis [serial_ready].  The
    searches of the scratch pad get the length of the pad as fuel: each step
    advances by at least 20 bytes.  The image loop gets the size of the image:
    each round writes at least one byte.  The test for a power loss has at most
    302 rounds on a clock that runs ([GaspHw]).  The search for the next
    interrupt looks at 32 lines, and the dispatcher needs at most 35 rounds when
    handlers take their request back.  The waits of the console are bounded by
    the law that the UART empties its FIFO.  [get_option] moves at least one byte
    per round and gets more rounds than a message has bytes; the search for an
    address gets the number of addresses of the range and two more; the checksum
    needs four folds.  A line of the configuration gets a round more than it has
    characters, the file a line more than it has bytes; the text of an option 256
    rounds, since each takes a byte of it; the routes of option 121 a round more
    than it has bytes.  In each case the theorems show that the bound is enough.

    ** Parameters

    The flash parts and the buses, the success of [kmalloc] and [malloc] at each
    call, the contents of uninitialised memory, the memory-mapped view of the
    flash, GPIO input, the serial LED register, the hardware LED handlers, the
    handlers of interrupts and of the dying gasp, the UART, the PCI devices and
    the wiring of a card are arguments of the definitions.  The answers of the
    system to the DHCP server (clock, files, interface, ARP, sending) are the
    record [dhcp_env]; those to the client (random numbers, serial number, sockets,
    [fork], the store of temporary values) are the records [client_env] and
    [script_env].  Time passes for the client while it waits or sleeps, and a
    signal is taken while it waits.  [inet_aton] is a parameter of the parser.
    Scheduling hints ([schedule], [need_resched]) and
    [printk] have no effect on the state and are left out.  A call of the LED
    driver from the flash code is recorded in the trace [k_leds].

    ** Not modelled

    Code of other chips in the files above; the request GET_NR_PAGES (disabled in
    the source); 64-bit base addresses in the kernel's probe; the order of the
    calls in [brcm_board_init]; [create_root_nfs_cmdline].  Of udhcp:
    the socket calls below [read], [sendto] and [select], the usage text,
    the retries of the message queue behind the store of temporary values, the
    variants of other products (vendor tables, MAC and IP tables), the empty message with which the server
    wakes the TR-069 client after a change of the table of option 125, [dumpleases.c]
    and [frontend.c].  Exclusivity of leases is proved for one address
    pool: with the second pool of the IP phones a client has a lease in each
    table.  The Linux kernel and the other user programs are third-party code. *)

From stdpp Require Import base numbers list strings.
From Stdlib Require Import ZArith Lia.

#[global] Open Scope Z_scope.

(** ** Machine integers

    The target is a 32-bit big-endian MIPS: [char] is 8 bits, [short] 16,
    [int], [long] and pointers 32.  A value of an unsigned type is a [Z] in
    [0, 2^w), a value of a signed type a [Z] in [-2^(w-1), 2^(w-1)); the
    conversions below are the ones C performs on assignment. *)

Definition u8 (z : Z) : Z := z mod 2 ^ 8.
Definition u16 (z : Z) : Z := z mod 2 ^ 16.
Definition u32 (z : Z) : Z := z mod 2 ^ 32.
Definition s32 (z : Z) : Z := (z + 2 ^ 31) mod 2 ^ 32 - 2 ^ 31.

Lemma u32_range z : 0 ≤ u32 z < 2 ^ 32.
Proof. apply Z.mod_pos_bound. lia. Qed.

Lemma u32_small z : 0 ≤ z < 2 ^ 32 → u32 z = z.
Proof. apply Z.mod_small. Qed.

Lemma u16_small z : 0 ≤ z < 2 ^ 16 → u16 z = z.
Proof. apply Z.mod_small. Qed.

Lemma s32_range z : - 2 ^ 31 ≤ s32 z < 2 ^ 31.
Proof. unfold s32. pose proof (Z.mod_pos_bound (z + 2 ^ 31) (2 ^ 32)). lia. Qed.

Lemma s32_small z : - 2 ^ 31 ≤ z < 2 ^ 31 → s32 z = z.
Proof. intros. unfold s32. rewrite Z.mod_small; lia. Qed.

(** Fields put together with [|]. *)
Lemma lor_high n c k : 0 ≤ k → 0 ≤ n < 2 ^ k → Z.lor n (Z.shiftl c k) = n + c * 2 ^ k.
Proof.
  intros Hk Hn. rewrite <- Z.shiftl_mul_pow2 by done. symmetry.
  assert (Z.land n (Z.shiftl c k) = 0) as E.
  { apply Z.bits_inj'. intros i Hi. rewrite Z.land_spec, Z.bits_0.
    destruct (decide (i < k)); [by rewrite (Z.shiftl_spec_low c k i), andb_false_r|].
    destruct (decide (n = 0)) as [->|]; [by rewrite Z.testbit_0_l|].
    rewrite (Z.bits_above_log2 n i); [done|lia|]. apply Z.log2_lt_pow2; [lia|].
    apply (Z.lt_le_trans _ (2 ^ k)); [lia|]. apply Z.pow_le_mono_r; lia. }
  by rewrite Z.add_nocarry_lxor, Z.lxor_lor by done.
Qed.

Definition s8 (z : Z) : Z := (z + 2 ^ 7) mod 2 ^ 8 - 2 ^ 7.

(** The characters of a C string literal, without the terminating NUL. *)
Definition cstr (s : string) : list Z :=
  map (λ a, Z.of_N (Ascii.N_of_ascii a)) (String.list_ascii_of_string s).

(** [is_byte b]: [b] is a value of [unsigned char]. *)
Definition is_byte (b : Z) : Prop := 0 ≤ b < 256.

#[global] Instance is_byte_dec b : Decision (is_byte b) := _.

(** ** Outcomes of driver code

    [Done] is a normal return.  [Fault] is an access outside the object a
    pointer points into (or another undefined operation), [Blocked] a call
    that waits for something no other part of the modelled system provides,
    and [NoFuel] a polling loop cut off by its bound. *)

Inductive outcome (A : Type) : Type :=
| Done (a : A)
| Fault
| Blocked
| NoFuel.

Arguments Done {A} a.
Arguments Fault {A}.
Arguments Blocked {A}.
Arguments NoFuel {A}.

(** Driver code reads and writes global variables and device registers: a
    state-and-outcome monad over the component's state record. *)
Definition M (S A : Type) : Type := S → outcome (A * S).

#[global] Instance M_ret S : MRet (M S) := λ A a s, Done (a, s).

#[global] Instance M_bind S : MBind (M S) := λ A B f m s,
  match m s with
  | Done (a, s') => f a s'
  | Fault => Fault
  | Blocked => Blocked
  | NoFuel => NoFuel
  end.

Definition get {S} : M S S := λ s, Done (s, s).
Definition gets {S A} (f : S → A) : M S A := λ s, Done (f s, s).
Definition modify {S} (f : S → S) : M S unit := λ s, Done (tt, f s).
Definition fault {S A} : M S A := λ _, Fault.
Definition blocked {S A} : M S A := λ _, Blocked.
Definition nofuel {S A} : M S A := λ _, NoFuel.

(** [of_option o]: continue with the value of [o], or fault: [o] is the result
    of a bounds-checked access. *)
Definition of_option {S A} (o : option A) : M S A :=
  match o with Some a => mret a | None => fault end.

Section monad_laws.
Context {S A B C : Type}.

Lemma bind_Done (m : M S A) (f : A → M S B) s a s' :
  m s = Done (a, s') → (m ≫= f) s = f a s'.
Proof. intros H. unfold mbind, M_bind. by rewrite H. Qed.

Lemma bind_ret (a : A) (f : A → M S B) s : (mret a ≫= f) s = f a s.
Proof. done. Qed.

Lemma bind_gets (g : S → A) (f : A → M S B) s : (gets g ≫= f) s = f (g s) s.
Proof. done. Qed.

Lemma bind_get (f : S → M S B) s : (get ≫= f) s = f s s.
Proof. done. Qed.

Lemma bind_modify (g : S → S) (f : unit → M S B) s : (modify g ≫= f) s = f tt (g s).
Proof. done. Qed.

Lemma bind_Done_inv (m : M S A) (f : A → M S B) s b s' :
  (m ≫= f) s = Done (b, s') →
  ∃ a s1, m s = Done (a, s1) ∧ f a s1 = Done (b, s').
Proof.
  unfold mbind, M_bind. intros H.
  destruct (m s) as [[a s1]| | |]; [by eauto|done..].
Qed.

Lemma bind_assoc (m : M S A) (f : A → M S B) (g : B → M S C) s :
  ((m ≫= f) ≫= g) s = (m ≫= (λ a, f a ≫= g)) s.
Proof. unfold mbind, M_bind. by destruct (m s) as [[??]| | |]. Qed.

Lemma bind_Blocked (m : M S A) (f : A → M S B) s :
  m s = Blocked → (m ≫= f) s = Blocked.
Proof. intros H. unfold mbind, M_bind. by rewrite H. Qed.
End monad_laws.

(** ** Total-correctness triples

    [triple P m Q]: from every state in [P] the action [m] returns normally,
    with a value and a state in [Q]. *)
Definition triple {S A} (P : S → Prop) (m : M S A) (Q : A → S → Prop) : Prop :=
  ∀ s, P s → ∃ a s', m s = Done (a, s') ∧ Q a s'.

Section triples.
Context {S A B : Type}.
Implicit Types P : S → Prop.

Lemma triple_bind P (m : M S A) Q (f : A → M S B) R :
  triple P m Q → (∀ a, triple (Q a) (f a) R) → triple P (m ≫= f) R.
Proof.
  intros Hm Hf s Hs. destruct (Hm s Hs) as (a&s1&E1&HQ).
  destruct (Hf a s1 HQ) as (b&s2&E2&HR). exists b, s2.
  by rewrite (bind_Done _ _ _ _ _ E1).
Qed.

(** The first action returns a known value. *)
Lemma triple_bind_eq P (m : M S A) v (Q : S → Prop) (f : A → M S B) R :
  triple P m (λ a s, a = v ∧ Q s) → triple Q (f v) R → triple P (m ≫= f) R.
Proof. intros Hm Hf. eapply triple_bind; [exact Hm|]. intros a s [-> Hs]. by apply Hf. Qed.

Lemma triple_ret P (a : A) (Q : A → S → Prop) :
  (∀ s, P s → Q a s) → triple P (mret a) Q.
Proof. intros H s Hs. exists a, s. split; [done|auto]. Qed.

Lemma triple_conseq P P' (m : M S A) Q Q' :
  triple P' m Q' → (∀ s, P s → P' s) → (∀ a s, Q' a s → Q a s) → triple P m Q.
Proof. intros H HP HQ s Hs. destruct (H s (HP s Hs)) as (a&s'&E&?). exists a, s'. auto. Qed.

Lemma triple_pure P (φ : Prop) (m : M S A) Q :
  (∀ s, P s → φ) → (φ → triple P m Q) → triple P m Q.
Proof. intros Hφ H s Hs. exact (H (Hφ s Hs) s Hs). Qed.
End triples.

(** ** Loops over counters *)

(** [sum_from f i n] is [f i + f (i+1) + ... + f (i+n-1)], the value the
    [for]-loops of the flash code accumulate over consecutive sectors. *)
Fixpoint sum_from (f : Z → Z) (i : Z) (n : nat) : Z :=
  match n with
  | O => 0
  | S n' => f i + sum_from f (i + 1) n'
  end.

Lemma sum_from_app f i n m :
  sum_from f i (n + m) = sum_from f i n + sum_from f (i + Z.of_nat n) m.
Proof.
  revert i. induction n as [|n IH]; intros i; cbn [sum_from Nat.add].
  - by replace (i + Z.of_nat 0) with i by lia.
  - rewrite IH. replace (i + 1 + Z.of_nat n) with (i + Z.of_nat (S n)) by lia. lia.
Qed.

Lemma sum_from_snoc f i n :
  sum_from f i (S n) = sum_from f i n + f (i + Z.of_nat n).
Proof. replace (S n) with (n + 1)%nat by lia. rewrite sum_from_app. simpl. lia. Qed.

Lemma sum_from_ext f g i n :
  (∀ j, i ≤ j < i + Z.of_nat n → f j = g j) → sum_from f i n = sum_from g i n.
Proof.
  revert i. induction n as [|n IH]; intros i H; simpl; [done|].
  rewrite H by lia. rewrite (IH (i + 1)); [done|]. intros. apply H. lia.
Qed.

Lemma sum_from_nonneg f i n :
  (∀ j, i ≤ j < i + Z.of_nat n → 0 ≤ f j) → 0 ≤ sum_from f i n.
Proof.
  revert i. induction n as [|n IH]; intros i H; simpl; [lia|].
  pose proof (H i ltac:(lia)).
  pose proof (IH (i + 1) ltac:(intros; apply H; lia)). lia.
Qed.

(** ** Byte buffers

    A C buffer is the list of the bytes of the object; accesses that leave it
    are [None]. *)

(** [memcpy (dst, buf + off, n)] as the bytes that are read. *)
Definition buf_read (buf : list Z) (off n : Z) : option (list Z) :=
  if decide (0 ≤ off ∧ 0 ≤ n ∧ off + n ≤ Z.of_nat (length buf))
  then Some (take (Z.to_nat n) (drop (Z.to_nat off) buf)) else None.

(** [memcpy (buf + off, src, n)] where [src] lists the [n] bytes copied. *)
Definition buf_write (buf : list Z) (off : Z) (src : list Z) : option (list Z) :=
  if decide (0 ≤ off ∧ off + Z.of_nat (length src) ≤ Z.of_nat (length buf))
  then Some (take (Z.to_nat off) buf ++ src ++ drop (Z.to_nat off + length src) buf)
  else None.

(** [memset (buf + off, b, n)]. *)
Definition buf_fill (buf : list Z) (off : Z) (b n : Z) : option (list Z) :=
  if decide (0 ≤ n) then buf_write buf off (replicate (Z.to_nat n) b) else None.

Section buffers.
Implicit Types buf src : list Z.

Lemma buf_read_Some buf off n :
  0 ≤ off → 0 ≤ n → off + n ≤ Z.of_nat (length buf) →
  buf_read buf off n = Some (take (Z.to_nat n) (drop (Z.to_nat off) buf)).
Proof. intros. unfold buf_read. by rewrite decide_True. Qed.

Lemma buf_write_Some buf off src :
  0 ≤ off → off + Z.of_nat (length src) ≤ Z.of_nat (length buf) →
  buf_write buf off src =
    Some (take (Z.to_nat off) buf ++ src ++ drop (Z.to_nat off + length src) buf).
Proof. intros. unfold buf_write. by rewrite decide_True. Qed.

Lemma buf_write_inv buf off src buf' :
  buf_write buf off src = Some buf' →
  0 ≤ off ∧ off + Z.of_nat (length src) ≤ Z.of_nat (length buf) ∧
  buf' = take (Z.to_nat off) buf ++ src ++ drop (Z.to_nat off + length src) buf.
Proof. unfold buf_write. case_decide; naive_solver. Qed.

Lemma buf_write_length buf off src buf' :
  buf_write buf off src = Some buf' → length buf' = length buf.
Proof.
  intros (?&?&->)%buf_write_inv.
  rewrite !length_app, length_take, length_drop. lia.
Qed.

(** Byte [i] of a buffer after a write: the new byte inside the written
    range, the old one outside. *)
Lemma buf_write_lookup buf off src buf' (i : nat) :
  buf_write buf off src = Some buf' →
  buf' !! i =
    if decide (off ≤ Z.of_nat i < off + Z.of_nat (length src))
    then src !! (i - Z.to_nat off)%nat else buf !! i.
Proof.
  intros (?&?&->)%buf_write_inv. case_decide.
  - rewrite lookup_app_r by (rewrite length_take; lia).
    rewrite length_take, Nat.min_l by lia. by rewrite lookup_app_l by lia.
  - destruct (decide (Z.of_nat i < off)).
    + rewrite lookup_app_l by (rewrite length_take; lia).
      by rewrite lookup_take_lt by lia.
    + rewrite lookup_app_r by (rewrite length_take; lia).
      rewrite length_take, Nat.min_l by lia.
      rewrite lookup_app_r by lia. rewrite lookup_drop. f_equal. lia.
Qed.

Lemma buf_read_write_same buf off src buf' :
  buf_write buf off src = Some buf' →
  buf_read buf' off (Z.of_nat (length src)) = Some src.
Proof.
  intros H. pose proof (buf_write_length _ _ _ _ H) as Hl.
  apply buf_write_inv in H as (?&?&->).
  rewrite buf_read_Some; [|lia|lia|rewrite Hl; lia].
  rewrite Nat2Z.id, drop_app_length' by (rewrite length_take; lia).
  by rewrite take_app_length.
Qed.

Lemma buf_read_length buf off n bs :
  buf_read buf off n = Some bs → Z.of_nat (length bs) = n.
Proof.
  unfold buf_read. case_decide; [|done]. intros [= <-].
  rewrite length_take, length_drop. lia.
Qed.

Lemma buf_read_lookup buf off n bs (i : nat) :
  buf_read buf off n = Some bs → Z.of_nat i < n →
  bs !! i = buf !! (Z.to_nat off + i)%nat.
Proof.
  unfold buf_read. case_decide; [|done]. intros [= <-] ?.
  rewrite lookup_take_lt by lia. by rewrite lookup_drop.
Qed.
End buffers.

(** ** Reading and writing in the middle of a buffer *)

Section middle.
Implicit Types pre x y post : list Z.

Lemma buf_read_mid pre x post off n :
  off = Z.of_nat (length pre) → n = Z.of_nat (length x) →
  buf_read (pre ++ x ++ post) off n = Some x.
Proof.
  intros -> ->. rewrite buf_read_Some by (rewrite ?length_app; lia).
  by rewrite !Nat2Z.id, drop_app_length, take_app_length.
Qed.

Lemma buf_write_mid pre x y post off :
  off = Z.of_nat (length pre) → length x = length y →
  buf_write (pre ++ x ++ post) off y = Some (pre ++ y ++ post).
Proof.
  intros -> Hl. rewrite buf_write_Some by (rewrite ?length_app; lia).
  rewrite Nat2Z.id, take_app_length. f_equal. f_equal. f_equal.
  rewrite app_assoc, drop_app_length' by (rewrite length_app; lia). done.
Qed.

Lemma buf_write_head x y post : length x = length y →
  buf_write (x ++ post) 0 y = Some (y ++ post).
Proof. by apply (buf_write_mid []). Qed.
End middle.

(** ** Numbers and strings in buffers *)

(** A big-endian [unsigned long] in a structure. *)
Definition be32 (bs : list Z) : Z :=
  foldl (λ acc b, acc * 256 + b) 0 (take 4 bs).

(** The string at the start of a buffer, up to its NUL. *)
Fixpoint c_string (bs : list Z) : list Z :=
  match bs with
  | [] => []
  | b :: bs' => if b =? 0 then [] else b :: c_string bs'
  end.

(** The bytes of a long. *)
Definition be_bytes (v : Z) : list Z :=
  [u8 (Z.shiftr v 24); u8 (Z.shiftr v 16); u8 (Z.shiftr v 8); u8 v].

Lemma be32_be_bytes v t : 0 ≤ v < 2 ^ 32 → be32 (be_bytes v ++ t) = v.
Proof.
  intros Hv. unfold be32, be_bytes, u8. cbn -[Z.modulo Z.shiftr Z.pow Z.mul Z.add].
  rewrite !Z.shiftr_div_pow2 by lia.
  change (2 ^ 24) with 16777216. change (2 ^ 16) with 65536. change (2 ^ 8) with 256.
  change (2 ^ 32) with 4294967296 in Hv.
  pose proof (Z.div_div v 65536 256 ltac:(lia) ltac:(lia)).
  pose proof (Z.div_div v 256 256 ltac:(lia) ltac:(lia)).
  change (65536 * 256) with 16777216 in *. change (256 * 256) with 65536 in *.
  pose proof (Z.div_mod (v / 65536) 256). pose proof (Z.div_mod (v / 256) 256).
  pose proof (Z.div_mod v 256). rewrite (Z.mod_small (v / 16777216)); [rewrite take_0; cbn [foldl]; lia|].
  split; [apply Z.div_pos; lia|apply Z.div_lt_upper_bound; lia].
Qed.

Lemma be_bytes_byte v : Forall is_byte (be_bytes v).
Proof. unfold be_bytes, u8, is_byte. repeat constructor; apply Z.mod_pos_bound; lia. Qed.

(** ** Memory by address

    The contents of a device as a function of the address. *)

Section memory.
Implicit Types c : Z → Z.

(** The bytes [c p], [c (p+1)], ... *)
Definition bytes_at (c : Z → Z) (p : Z) (n : nat) : list Z :=
  map (λ i, c (p + Z.of_nat i)) (seq 0 n).

Lemma bytes_at_S c p n : bytes_at c p (S n) = c p :: bytes_at c (p + 1) n.
Proof.
  unfold bytes_at. simpl. f_equal; [f_equal; lia|].
  rewrite <- seq_shift, map_map. apply map_ext. intros i. f_equal. lia.
Qed.

Lemma bytes_at_length c p n : length (bytes_at c p n) = n.
Proof. unfold bytes_at. by rewrite length_map, length_seq. Qed.

Lemma bytes_at_app c p n m :
  bytes_at c p (n + m) = bytes_at c p n ++ bytes_at c (p + Z.of_nat n) m.
Proof.
  revert p. induction n as [|n IH]; intros p; [by rewrite Z.add_0_r|].
  cbn [Nat.add]. rewrite !bytes_at_S, IH. cbn [app]. do 3 f_equal. lia.
Qed.

(** The contents [c] with the bytes [bs] stored from [p] on. *)
Definition stored (c : Z → Z) (p : Z) (bs : list Z) (a : Z) : Z :=
  if decide (p ≤ a < p + Z.of_nat (length bs)) then nth (Z.to_nat (a - p)) bs 0 else c a.

Lemma stored_nil c p a : stored c p [] a = c a.
Proof. unfold stored. rewrite decide_False; [done|]. simpl. lia. Qed.

Lemma bytes_at_stored c p bs : bytes_at (stored c p bs) p (length bs) = bs.
Proof.
  apply list_eq. intros i. unfold bytes_at.
  destruct (decide (i < length bs)%nat) as [Hi|Hi].
  - destruct (lookup_lt_is_Some_2 bs i Hi) as [x Hx]. rewrite Hx.
    rewrite list_lookup_fmap, lookup_seq_lt by done. simpl. f_equal. unfold stored.
    rewrite decide_True by lia. replace (Z.to_nat (p + Z.of_nat i - p)) with i by lia.
    by apply nth_lookup_Some.
  - rewrite !lookup_ge_None_2; [done|lia|]. rewrite length_map, length_seq. lia.
Qed.

Lemma stored_out c p bs a :
  ¬ p ≤ a < p + Z.of_nat (length bs) → stored c p bs a = c a.
Proof. intros. unfold stored. by rewrite decide_False. Qed.

Lemma stored_in c p bs a :
  p ≤ a < p + Z.of_nat (length bs) → stored c p bs a = nth (Z.to_nat (a - p)) bs 0.
Proof. intros. unfold stored. by rewrite decide_True. Qed.

Lemma bytes_at_ext c c' p n :
  (∀ a, p ≤ a < p + Z.of_nat n → c a = c' a) → bytes_at c p n = bytes_at c' p n.
Proof.
  intros H. unfold bytes_at. apply map_ext_in. intros i Hi%in_seq. apply H. lia.
Qed.

Lemma bytes_at_nth c p n i : (i < n)%nat → nth i (bytes_at c p n) 0 = c (p + Z.of_nat i).
Proof.
  intros. unfold bytes_at. rewrite nth_lookup, list_lookup_fmap, lookup_seq_lt by done. done.
Qed.

Lemma bytes_at_read c p n off m :
  0 ≤ off → 0 ≤ m → off + m ≤ Z.of_nat n →
  buf_read (bytes_at c p n) off m = Some (bytes_at c (p + off) (Z.to_nat m)).
Proof.
  intros Ho Hm Hn. rewrite buf_read_Some by (rewrite ?bytes_at_length; lia). f_equal.
  replace n with (Z.to_nat off + (Z.to_nat m + (n - Z.to_nat off - Z.to_nat m)))%nat by lia.
  rewrite !bytes_at_app. rewrite drop_app_length' by (by rewrite bytes_at_length).
  rewrite take_app_length' by (by rewrite bytes_at_length). f_equal. lia.
Qed.
End memory.

(** ** Automation *)

Create HintDb hg.
#[export] Hint Resolve u32_range s32_range : hg.
Create Rewrite HintDb hgw.
#[export] Hint Rewrite u32_small u16_small s32_small using lia : hgw.

(** [tstep H]: the first action of the program of the triple satisfies [H]. *)
Tactic Notation "tstep" uconstr(H) := eapply triple_bind; [exact H|]; cbn beta; intros ?.

(** [mstep H]: the first action of the program in the goal returns as [H]
    says. *)
Tactic Notation "mstep" uconstr(H) := erewrite (bind_Done _ _ _ _ _ H); cbn beta iota.
