(* ===== verification/Crc32.v ===== *)
(** * CRC-32 of NVRAM and image data

    [getCrc32] of bcm63xx_flash.c and the table [Crc32_table] of bcmTag.h it
    looks up.  The theorems relate the table-driven routine to the bit-serial
    definition of the reflected CRC-32 (polynomial 0xEDB88320). *)

From stdpp Require Import base numbers list.
From Stdlib Require Import ZArith Lia.
From S2P Require Import Prelude.

Definition CRC32_INIT_VALUE : Z := 0xffffffff.

Definition Crc32_table : list Z :=
  [
   0x00000000; 0x77073096; 0xEE0E612C; 0x990951BA;
   0x076DC419; 0x706AF48F; 0xE963A535; 0x9E6495A3;
   0x0EDB8832; 0x79DCB8A4; 0xE0D5E91E; 0x97D2D988;
   0x09B64C2B; 0x7EB17CBD; 0xE7B82D07; 0x90BF1D91;
   0x1DB71064; 0x6AB020F2; 0xF3B97148; 0x84BE41DE;
   0x1ADAD47D; 0x6DDDE4EB; 0xF4D4B551; 0x83D385C7;
   0x136C9856; 0x646BA8C0; 0xFD62F97A; 0x8A65C9EC;
   0x14015C4F; 0x63066CD9; 0xFA0F3D63; 0x8D080DF5;
   0x3B6E20C8; 0x4C69105E; 0xD56041E4; 0xA2677172;
   0x3C03E4D1; 0x4B04D447; 0xD20D85FD; 0xA50AB56B;
   0x35B5A8FA; 0x42B2986C; 0xDBBBC9D6; 0xACBCF940;
   0x32D86CE3; 0x45DF5C75; 0xDCD60DCF; 0xABD13D59;
   0x26D930AC; 0x51DE003A; 0xC8D75180; 0xBFD06116;
   0x21B4F4B5; 0x56B3C423; 0xCFBA9599; 0xB8BDA50F;
   0x2802B89E; 0x5F058808; 0xC60CD9B2; 0xB10BE924;
   0x2F6F7C87; 0x58684C11; 0xC1611DAB; 0xB6662D3D;
   0x76DC4190; 0x01DB7106; 0x98D220BC; 0xEFD5102A;
   0x71B18589; 0x06B6B51F; 0x9FBFE4A5; 0xE8B8D433;
   0x7807C9A2; 0x0F00F934; 0x9609A88E; 0xE10E9818;
   0x7F6A0DBB; 0x086D3D2D; 0x91646C97; 0xE6635C01;
   0x6B6B51F4; 0x1C6C6162; 0x856530D8; 0xF262004E;
   0x6C0695ED; 0x1B01A57B; 0x8208F4C1; 0xF50FC457;
   0x65B0D9C6; 0x12B7E950; 0x8BBEB8EA; 0xFCB9887C;
   0x62DD1DDF; 0x15DA2D49; 0x8CD37CF3; 0xFBD44C65;
   0x4DB26158; 0x3AB551CE; 0xA3BC0074; 0xD4BB30E2;
   0x4ADFA541; 0x3DD895D7; 0xA4D1C46D; 0xD3D6F4FB;
   0x4369E96A; 0x346ED9FC; 0xAD678846; 0xDA60B8D0;
   0x44042D73; 0x33031DE5; 0xAA0A4C5F; 0xDD0D7CC9;
   0x5005713C; 0x270241AA; 0xBE0B1010; 0xC90C2086;
   0x5768B525; 0x206F85B3; 0xB966D409; 0xCE61E49F;
   0x5EDEF90E; 0x29D9C998; 0xB0D09822; 0xC7D7A8B4;
   0x59B33D17; 0x2EB40D81; 0xB7BD5C3B; 0xC0BA6CAD;
   0xEDB88320; 0x9ABFB3B6; 0x03B6E20C; 0x74B1D29A;
   0xEAD54739; 0x9DD277AF; 0x04DB2615; 0x73DC1683;
   0xE3630B12; 0x94643B84; 0x0D6D6A3E; 0x7A6A5AA8;
   0xE40ECF0B; 0x9309FF9D; 0x0A00AE27; 0x7D079EB1;
   0xF00F9344; 0x8708A3D2; 0x1E01F268; 0x6906C2FE;
   0xF762575D; 0x806567CB; 0x196C3671; 0x6E6B06E7;
   0xFED41B76; 0x89D32BE0; 0x10DA7A5A; 0x67DD4ACC;
   0xF9B9DF6F; 0x8EBEEFF9; 0x17B7BE43; 0x60B08ED5;
   0xD6D6A3E8; 0xA1D1937E; 0x38D8C2C4; 0x4FDFF252;
   0xD1BB67F1; 0xA6BC5767; 0x3FB506DD; 0x48B2364B;
   0xD80D2BDA; 0xAF0A1B4C; 0x36034AF6; 0x41047A60;
   0xDF60EFC3; 0xA867DF55; 0x316E8EEF; 0x4669BE79;
   0xCB61B38C; 0xBC66831A; 0x256FD2A0; 0x5268E236;
   0xCC0C7795; 0xBB0B4703; 0x220216B9; 0x5505262F;
   0xC5BA3BBE; 0xB2BD0B28; 0x2BB45A92; 0x5CB36A04;
   0xC2D7FFA7; 0xB5D0CF31; 0x2CD99E8B; 0x5BDEAE1D;
   0x9B64C2B0; 0xEC63F226; 0x756AA39C; 0x026D930A;
   0x9C0906A9; 0xEB0E363F; 0x72076785; 0x05005713;
   0x95BF4A82; 0xE2B87A14; 0x7BB12BAE; 0x0CB61B38;
   0x92D28E9B; 0xE5D5BE0D; 0x7CDCEFB7; 0x0BDBDF21;
   0x86D3D2D4; 0xF1D4E242; 0x68DDB3F8; 0x1FDA836E;
   0x81BE16CD; 0xF6B9265B; 0x6FB077E1; 0x18B74777;
   0x88085AE6; 0xFF0F6A70; 0x66063BCA; 0x11010B5C;
   0x8F659EFF; 0xF862AE69; 0x616BFFD3; 0x166CCF45;
   0xA00AE278; 0xD70DD2EE; 0x4E048354; 0x3903B3C2;
   0xA7672661; 0xD06016F7; 0x4969474D; 0x3E6E77DB;
   0xAED16A4A; 0xD9D65ADC; 0x40DF0B66; 0x37D83BF0;
   0xA9BCAE53; 0xDEBB9EC5; 0x47B2CF7F; 0x30B5FFE9;
   0xBDBDF21C; 0xCABAC28A; 0x53B39330; 0x24B4A3A6;
   0xBAD03605; 0xCDD70693; 0x54DE5729; 0x23D967BF;
   0xB3667A2E; 0xC4614AB8; 0x5D681B02; 0x2A6F2B94;
   0xB40BBE37; 0xC30C8EA1; 0x5A05DF1B; 0x2D02EF8D
  ].

(** [crc = (crc >> 8) ^ Crc32_table[(crc ^ *pdata++) & 0xff]]. *)
Definition crc_byte (crc b : Z) : Z :=
  Z.lxor (Z.shiftr crc 8)
         (nth (Z.to_nat (Z.land (Z.lxor crc b) 0xff)) Crc32_table 0).

(** [getCrc32 (pdata, size, crc)], [pdata] listing the [size] bytes read. *)
Fixpoint getCrc32 (pdata : list Z) (crc : Z) : Z :=
  match pdata with
  | [] => crc
  | b :: pdata' => getCrc32 pdata' (crc_byte crc b)
  end.

(** ** Reference definition: one bit at a time *)

Definition crc_bit (c : Z) : Z :=
  if Z.testbit c 0 then Z.lxor (Z.shiftr c 1) 0xEDB88320 else Z.shiftr c 1.

Definition crc_bits (n : nat) (c : Z) : Z := Nat.iter n crc_bit c.

Definition crc_byte_spec (crc b : Z) : Z := crc_bits 8 (Z.lxor crc b).

Definition crc_spec (pdata : list Z) (crc : Z) : Z := foldl crc_byte_spec crc pdata.

(** ** The table is the reference applied to every byte *)

Lemma Crc32_table_spec :
  Crc32_table = map (λ i, crc_bits 8 (Z.of_nat i)) (seq 0 256).
Proof. vm_compute. reflexivity. Qed.

Lemma Crc32_table_nth i :
  0 ≤ i < 256 → nth (Z.to_nat i) Crc32_table 0 = crc_bits 8 i.
Proof.
  intros Hi. rewrite Crc32_table_spec.
  rewrite (nth_indep _ 0 (crc_bits 8 (Z.of_nat 0)))
    by (rewrite length_map, length_seq; lia).
  pose proof (map_nth (λ i, crc_bits 8 (Z.of_nat i)) (seq 0 256) 0%nat (Z.to_nat i)) as E.
  cbn beta in E. rewrite E, seq_nth by lia. f_equal. lia.
Qed.

(** ** Linearity of the bit step *)

Lemma crc_bit_lxor a b : crc_bit (Z.lxor a b) = Z.lxor (crc_bit a) (crc_bit b).
Proof.
  unfold crc_bit. rewrite Z.lxor_spec.
  destruct (Z.testbit a 0), (Z.testbit b 0); simpl xorb; cbv iota;
    rewrite Z.shiftr_lxor; apply Z.bits_inj'; intros n Hn;
    rewrite ?Z.lxor_spec;
    destruct (Z.testbit (Z.shiftr a 1) n), (Z.testbit (Z.shiftr b 1) n),
      (Z.testbit 0xEDB88320 n); reflexivity.
Qed.

Lemma crc_bits_lxor n a b :
  crc_bits n (Z.lxor a b) = Z.lxor (crc_bits n a) (crc_bits n b).
Proof.
  induction n as [|n IH]; [done|].
  unfold crc_bits in *. simpl. by rewrite IH, crc_bit_lxor.
Qed.

(** A value whose low [n] bits are clear is only shifted. *)
Lemma crc_bits_shift n h :
  crc_bits n (Z.shiftl h (Z.of_nat n)) = h.
Proof.
  revert h. induction n as [|n IH]; intros h; [by rewrite Z.shiftl_0_r|].
  unfold crc_bits in *. rewrite Nat.iter_succ_r.
  rewrite <- (IH h) at 2. f_equal. unfold crc_bit.
  replace (Z.shiftl h (Z.of_nat (S n))) with (Z.shiftl (Z.shiftl h (Z.of_nat n)) 1)
    by (rewrite Z.shiftl_shiftl by lia; f_equal; lia).
  rewrite Z.shiftl_spec, Z.testbit_neg_r by lia. cbv iota.
  rewrite Z.shiftr_shiftl_l by lia. by rewrite Z.shiftl_0_r.
Qed.

Lemma split_byte x :
  x = Z.lxor (Z.shiftl (Z.shiftr x 8) 8) (Z.land x 0xff).
Proof.
  apply Z.bits_inj'. intros n Hn. change 0xff with (Z.ones 8).
  rewrite Z.lxor_spec, Z.shiftl_spec, Z.land_spec by lia.
  rewrite Z.testbit_ones by lia.
  destruct (decide (n < 8)).
  - rewrite (Z.testbit_neg_r _ (n - 8)) by lia.
    rewrite (proj2 (Z.leb_le 0 n)), (proj2 (Z.ltb_lt n 8)) by lia.
    by destruct (Z.testbit x n).
  - rewrite Z.shiftr_spec by lia. replace (n - 8 + 8) with n by lia.
    rewrite (proj2 (Z.ltb_ge n 8)) by lia.
    by rewrite andb_false_r, andb_false_r, xorb_false_r.
Qed.

Lemma shiftr_byte_0 b : is_byte b → Z.shiftr b 8 = 0.
Proof. intros [??]. rewrite Z.shiftr_div_pow2 by lia. apply Z.div_small. lia. Qed.

(** One table step is eight bit steps. *)
Lemma crc_byte_correct crc b :
  is_byte b → crc_byte crc b = crc_byte_spec crc b.
Proof.
  intros Hb. unfold crc_byte, crc_byte_spec.
  rewrite (split_byte (Z.lxor crc b)) at 2.
  rewrite crc_bits_lxor.
  rewrite (crc_bits_shift 8 (Z.shiftr (Z.lxor crc b) 8) : crc_bits 8 (Z.shiftl _ 8) = _).
  rewrite Z.shiftr_lxor, (shiftr_byte_0 b Hb), Z.lxor_0_r.
  rewrite Crc32_table_nth; [done|].
  change 0xff with (Z.ones 8). rewrite Z.land_ones by lia.
  apply Z.mod_pos_bound. lia.
Qed.

Lemma lxor_range n a b :
  0 ≤ n → 0 ≤ a < 2 ^ n → 0 ≤ b < 2 ^ n → 0 ≤ Z.lxor a b < 2 ^ n.
Proof.
  intros Hn Ha Hb. assert (H : Z.lxor a b mod 2 ^ n = Z.lxor a b).
  { apply Z.bits_inj'. intros i Hi. destruct (Z.lt_ge_cases i n).
    - by rewrite Z.mod_pow2_bits_low.
    - rewrite Z.mod_pow2_bits_high, Z.lxor_spec by lia.
      rewrite <- (Z.mod_small a (2 ^ n)), <- (Z.mod_small b (2 ^ n)) by done.
      by rewrite !Z.mod_pow2_bits_high by lia. }
  rewrite <- H. apply Z.mod_pos_bound. lia.
Qed.

Lemma Crc32_table_range i : 0 ≤ nth i Crc32_table 0 < 2 ^ 32.
Proof.
  assert (HF : Forall (λ x, 0 ≤ x < 2 ^ 32) Crc32_table).
  { apply Forall_forall. intros x Hx. assert (HB : forallb (λ x, (0 <=? x) && (x <? 2 ^ 32)) Crc32_table = true)
      by (vm_compute; reflexivity).
    rewrite forallb_forall in HB. apply list_elem_of_In, HB in Hx.
    apply andb_prop in Hx. rewrite Z.leb_le, Z.ltb_lt in Hx. done. }
  rewrite nth_lookup. destruct (Crc32_table !! i) eqn:E; simpl; [|lia].
  by apply (Forall_lookup_1 _ _ _ _ HF E).
Qed.

(** A CRC is a 32-bit number. *)
Lemma getCrc32_range pdata crc : 0 ≤ crc < 2 ^ 32 → 0 ≤ getCrc32 pdata crc < 2 ^ 32.
Proof.
  revert crc; induction pdata as [|b pdata IH]; intros crc Hc; [done|]. simpl. apply IH.
  unfold crc_byte. apply lxor_range; [lia| |apply Crc32_table_range].
  rewrite Z.shiftr_div_pow2 by lia.
  split; [apply Z.div_pos; lia|apply Z.div_lt_upper_bound; lia].
Qed.

(** [C26] [getCrc32] computes the reflected CRC-32: on every list of bytes and
    every starting value, the table-driven loop returns the bit-serial CRC with
    polynomial 0xEDB88320. *)
Theorem getCrc32_correct pdata crc :
  Forall is_byte pdata → getCrc32 pdata crc = crc_spec pdata crc.
Proof.
  intros H. revert crc. induction H as [|b pdata Hb _ IH]; intros crc; [done|].
  simpl. rewrite IH. unfold crc_spec. simpl. by rewrite crc_byte_correct.
Qed.

Lemma getCrc32_correct_witness :
  Forall is_byte [49; 50; 51; 52; 53; 54; 55; 56; 57] ∧
  getCrc32 [49; 50; 51; 52; 53; 54; 55; 56; 57] CRC32_INIT_VALUE =
  crc_spec [49; 50; 51; 52; 53; 54; 55; 56; 57] CRC32_INIT_VALUE.
Proof.
  split; [repeat constructor; cbv; congruence|].
  apply getCrc32_correct. repeat constructor; cbv; congruence.
Defined.
