(* ===== verification/CInit.v ===== *)
(** * C initialisers

    boardparms.c describes its boards by brace-enclosed initialisers of
    [BOARD_PARAMETERS].  This file gives the part of the C initialisation rules
    those tables exercise, so that a table can be written down as it stands in
    the source and its value computed:

    - a brace-enclosed list initialises the members of an aggregate in order,
      members without an initialiser are zero;
    - a scalar initialiser that meets an aggregate member descends into it
      (brace elision) and leaves the remaining initialisers to the members that
      follow;
    - braces around the initialiser of a scalar are dropped, and elements beyond
      the first are ignored (the compiler accepts both with a warning). *)

From stdpp Require Import base numbers list strings.
From Stdlib Require Import ZArith.
From S2P Require Import Prelude.

(** Initialisers: an expression, a string literal, a brace-enclosed list. *)
Inductive cinit : Type :=
| E (z : Z)
| Str (s : list Z)
| B (l : list cinit).

(** Object types: an integer with the conversion its type applies, a character
    array (kept as the string it holds), a structure or array given by the types
    of its members. *)
Inductive ctype : Type :=
| TInt (conv : Z → Z)
| TChars
| TAgg (members : list ctype).

(** Values of objects. *)
Inductive cval : Type :=
| VInt (z : Z)
| VChars (s : list Z)
| VAgg (l : list cval).

Definition TArray (n : nat) (t : ctype) : ctype := TAgg (replicate n t).

(** The expression that reaches a scalar through any braces around it. *)
Fixpoint scalar_of (i : cinit) : Z :=
  match i with
  | E z => z
  | Str _ => 0
  | B [] => 0
  | B (i' :: _) => scalar_of i'
  end.

(** [consume t items]: initialise an object of type [t] from the initialisers
    that are left at this brace level, returning those not used. *)
Fixpoint consume (t : ctype) (items : list cinit) {struct t} : cval * list cinit :=
  match t with
  | TInt conv =>
      match items with
      | [] => (VInt (conv 0), [])
      | it :: rest => (VInt (conv (scalar_of it)), rest)
      end
  | TChars =>
      match items with
      | Str s :: rest => (VChars s, rest)
      | _ => (VChars [], items)
      end
  | TAgg members =>
      let fix fill (ts : list ctype) (items : list cinit) : list cval * list cinit :=
        match ts with
        | [] => ([], items)
        | t' :: ts' =>
            let '(v, rest) := consume t' items in
            let '(vs, rest') := fill ts' rest in
            (v :: vs, rest')
        end in
      match items with
      | B l :: rest => (VAgg (fill members l).1, rest)
      | _ => let '(vs, rest) := fill members items in (VAgg vs, rest)
      end
  end.

(** The object of type [t] defined with initialiser [i]. *)
Definition initialise (t : ctype) (i : cinit) : cval := (consume t [i]).1.

(** Access to the members of a value. *)
Definition v_int (v : cval) : Z := match v with VInt z => z | _ => 0 end.
Definition v_chars (v : cval) : list Z := match v with VChars s => s | _ => [] end.
Definition v_list (v : cval) : list cval := match v with VAgg l => l | _ => [] end.
Definition v_nth (v : cval) (n : nat) : cval := nth n (v_list v) (VInt 0).
