(* ===== verification/BoardTables.v ===== *)
(** * Board parameter types and tables (boardparms.h, boardparms.c)

    The constants and structures of boardparms.h and the ten board tables that
    boardparms.c compiles for the BCM96358 (the chip of the 96358GWV profile).
    A table is its initialiser exactly as the source writes it; its value is
    what the C initialisation rules of [CInit] make of it. *)

From stdpp Require Import base numbers list strings.
From Stdlib Require Import ZArith.
From S2P Require Import Prelude CInit.

(** ** Constants *)

Definition BP_SUCCESS : Z := 0.
Definition BP_BOARD_ID_NOT_FOUND : Z := 1.
Definition BP_VALUE_NOT_DEFINED : Z := 2.
Definition BP_BOARD_ID_NOT_SET : Z := 3.
Definition BP_MEMORY_8MB_1_CHIP : Z := 0.
Definition BP_MEMORY_16MB_1_CHIP : Z := 1.
Definition BP_MEMORY_32MB_1_CHIP : Z := 2.
Definition BP_MEMORY_64MB_2_CHIP : Z := 3.
Definition BP_MEMORY_32MB_2_CHIP : Z := 4.
Definition BP_MEMORY_16MB_2_CHIP : Z := 5.
Definition BP_MEMORY_64MB_1_CHIP : Z := 6.
Definition BP_ENET_NO_PHY : Z := 0.
Definition BP_ENET_INTERNAL_PHY : Z := 1.
Definition BP_ENET_EXTERNAL_PHY : Z := 2.
Definition BP_ENET_EXTERNAL_SWITCH : Z := 3.
Definition BP_ENET_INTERNAL_PHY_SWITCH : Z := 4.
Definition BP_ENET_CONFIG_MDIO : Z := 0.
Definition BP_ENET_CONFIG_MDIO_PSEUDO_PHY : Z := 1.
Definition BP_ENET_CONFIG_SPI_SSB_0 : Z := 2.
Definition BP_ENET_CONFIG_SPI_SSB_1 : Z := 3.
Definition BP_ENET_CONFIG_SPI_SSB_2 : Z := 4.
Definition BP_ENET_CONFIG_SPI_SSB_3 : Z := 5.
Definition BP_ENET_CONFIG_MMAP : Z := 6.
Definition BP_ENET_CONFIG_SMI : Z := 7.
Definition BP_ENET_NO_REVERSE_MII : Z := 0.
Definition BP_ENET_REVERSE_MII : Z := 1.
Definition BP_VOIP_NO_DSP : Z := 0.
Definition BP_VOIP_DSP : Z := 1.
Definition BP_VOIP_MIPS : Z := 2.
Definition BP_GPIO_NUM_MASK : Z := 0x00FF.
Definition BP_ACTIVE_MASK : Z := 0x8000.
Definition BP_ACTIVE_HIGH : Z := 0x0000.
Definition BP_ACTIVE_LOW : Z := 0x8000.
Definition BP_GPIO_SERIAL : Z := 0x4000.
Definition BP_GPIO_0_AH : Z := 0.
Definition BP_GPIO_0_AL : Z := (Z.lor 0 BP_ACTIVE_LOW).
Definition BP_GPIO_1_AH : Z := 1.
Definition BP_GPIO_1_AL : Z := (Z.lor 1 BP_ACTIVE_LOW).
Definition BP_GPIO_2_AH : Z := 2.
Definition BP_GPIO_2_AL : Z := (Z.lor 2 BP_ACTIVE_LOW).
Definition BP_GPIO_3_AH : Z := 3.
Definition BP_GPIO_3_AL : Z := (Z.lor 3 BP_ACTIVE_LOW).
Definition BP_GPIO_4_AH : Z := 4.
Definition BP_GPIO_4_AL : Z := (Z.lor 4 BP_ACTIVE_LOW).
Definition BP_GPIO_5_AH : Z := 5.
Definition BP_GPIO_5_AL : Z := (Z.lor 5 BP_ACTIVE_LOW).
Definition BP_GPIO_6_AH : Z := 6.
Definition BP_GPIO_6_AL : Z := (Z.lor 6 BP_ACTIVE_LOW).
Definition BP_GPIO_7_AH : Z := 7.
Definition BP_GPIO_7_AL : Z := (Z.lor 7 BP_ACTIVE_LOW).
Definition BP_GPIO_8_AH : Z := 8.
Definition BP_GPIO_8_AL : Z := (Z.lor 8 BP_ACTIVE_LOW).
Definition BP_GPIO_9_AH : Z := 9.
Definition BP_GPIO_9_AL : Z := (Z.lor 9 BP_ACTIVE_LOW).
Definition BP_GPIO_10_AH : Z := 10.
Definition BP_GPIO_10_AL : Z := (Z.lor 10 BP_ACTIVE_LOW).
Definition BP_GPIO_11_AH : Z := 11.
Definition BP_GPIO_11_AL : Z := (Z.lor 11 BP_ACTIVE_LOW).
Definition BP_GPIO_12_AH : Z := 12.
Definition BP_GPIO_12_AL : Z := (Z.lor 12 BP_ACTIVE_LOW).
Definition BP_GPIO_13_AH : Z := 13.
Definition BP_GPIO_13_AL : Z := (Z.lor 13 BP_ACTIVE_LOW).
Definition BP_GPIO_14_AH : Z := 14.
Definition BP_GPIO_14_AL : Z := (Z.lor 14 BP_ACTIVE_LOW).
Definition BP_GPIO_15_AH : Z := 15.
Definition BP_GPIO_15_AL : Z := (Z.lor 15 BP_ACTIVE_LOW).
Definition BP_GPIO_16_AH : Z := 16.
Definition BP_GPIO_16_AL : Z := (Z.lor 16 BP_ACTIVE_LOW).
Definition BP_GPIO_17_AH : Z := 17.
Definition BP_GPIO_17_AL : Z := (Z.lor 17 BP_ACTIVE_LOW).
Definition BP_GPIO_18_AH : Z := 18.
Definition BP_GPIO_18_AL : Z := (Z.lor 18 BP_ACTIVE_LOW).
Definition BP_GPIO_19_AH : Z := 19.
Definition BP_GPIO_19_AL : Z := (Z.lor 19 BP_ACTIVE_LOW).
Definition BP_GPIO_20_AH : Z := 20.
Definition BP_GPIO_20_AL : Z := (Z.lor 20 BP_ACTIVE_LOW).
Definition BP_GPIO_21_AH : Z := 21.
Definition BP_GPIO_21_AL : Z := (Z.lor 21 BP_ACTIVE_LOW).
Definition BP_GPIO_22_AH : Z := 22.
Definition BP_GPIO_22_AL : Z := (Z.lor 22 BP_ACTIVE_LOW).
Definition BP_GPIO_23_AH : Z := 23.
Definition BP_GPIO_23_AL : Z := (Z.lor 23 BP_ACTIVE_LOW).
Definition BP_GPIO_24_AH : Z := 24.
Definition BP_GPIO_24_AL : Z := (Z.lor 24 BP_ACTIVE_LOW).
Definition BP_GPIO_25_AH : Z := 25.
Definition BP_GPIO_25_AL : Z := (Z.lor 25 BP_ACTIVE_LOW).
Definition BP_GPIO_26_AH : Z := 26.
Definition BP_GPIO_26_AL : Z := (Z.lor 26 BP_ACTIVE_LOW).
Definition BP_GPIO_27_AH : Z := 27.
Definition BP_GPIO_27_AL : Z := (Z.lor 27 BP_ACTIVE_LOW).
Definition BP_GPIO_28_AH : Z := 28.
Definition BP_GPIO_28_AL : Z := (Z.lor 28 BP_ACTIVE_LOW).
Definition BP_GPIO_29_AH : Z := 29.
Definition BP_GPIO_29_AL : Z := (Z.lor 29 BP_ACTIVE_LOW).
Definition BP_GPIO_30_AH : Z := 30.
Definition BP_GPIO_30_AL : Z := (Z.lor 30 BP_ACTIVE_LOW).
Definition BP_GPIO_31_AH : Z := 31.
Definition BP_GPIO_31_AL : Z := (Z.lor 31 BP_ACTIVE_LOW).
Definition BP_GPIO_32_AH : Z := 32.
Definition BP_GPIO_32_AL : Z := (Z.lor 32 BP_ACTIVE_LOW).
Definition BP_GPIO_33_AH : Z := 33.
Definition BP_GPIO_33_AL : Z := (Z.lor 33 BP_ACTIVE_LOW).
Definition BP_GPIO_34_AH : Z := 34.
Definition BP_GPIO_34_AL : Z := (Z.lor 34 BP_ACTIVE_LOW).
Definition BP_GPIO_35_AH : Z := 35.
Definition BP_GPIO_35_AL : Z := (Z.lor 35 BP_ACTIVE_LOW).
Definition BP_GPIO_36_AH : Z := 36.
Definition BP_GPIO_36_AL : Z := (Z.lor 36 BP_ACTIVE_LOW).
Definition BP_GPIO_37_AH : Z := 37.
Definition BP_GPIO_37_AL : Z := (Z.lor 37 BP_ACTIVE_LOW).
Definition BP_SERIAL_GPIO_0_AH : Z := (Z.lor 0 BP_GPIO_SERIAL).
Definition BP_SERIAL_GPIO_0_AL : Z := (Z.lor (Z.lor 0 BP_GPIO_SERIAL) BP_ACTIVE_LOW).
Definition BP_SERIAL_GPIO_1_AH : Z := (Z.lor 1 BP_GPIO_SERIAL).
Definition BP_SERIAL_GPIO_1_AL : Z := (Z.lor (Z.lor 1 BP_GPIO_SERIAL) BP_ACTIVE_LOW).
Definition BP_SERIAL_GPIO_2_AH : Z := (Z.lor 2 BP_GPIO_SERIAL).
Definition BP_SERIAL_GPIO_2_AL : Z := (Z.lor (Z.lor 2 BP_GPIO_SERIAL) BP_ACTIVE_LOW).
Definition BP_SERIAL_GPIO_3_AH : Z := (Z.lor 3 BP_GPIO_SERIAL).
Definition BP_SERIAL_GPIO_3_AL : Z := (Z.lor (Z.lor 3 BP_GPIO_SERIAL) BP_ACTIVE_LOW).
Definition BP_SERIAL_GPIO_4_AH : Z := (Z.lor 4 BP_GPIO_SERIAL).
Definition BP_SERIAL_GPIO_4_AL : Z := (Z.lor (Z.lor 4 BP_GPIO_SERIAL) BP_ACTIVE_LOW).
Definition BP_SERIAL_GPIO_5_AH : Z := (Z.lor 5 BP_GPIO_SERIAL).
Definition BP_SERIAL_GPIO_5_AL : Z := (Z.lor (Z.lor 5 BP_GPIO_SERIAL) BP_ACTIVE_LOW).
Definition BP_SERIAL_GPIO_6_AH : Z := (Z.lor 6 BP_GPIO_SERIAL).
Definition BP_SERIAL_GPIO_6_AL : Z := (Z.lor (Z.lor 6 BP_GPIO_SERIAL) BP_ACTIVE_LOW).
Definition BP_SERIAL_GPIO_7_AH : Z := (Z.lor 7 BP_GPIO_SERIAL).
Definition BP_SERIAL_GPIO_7_AL : Z := (Z.lor (Z.lor 7 BP_GPIO_SERIAL) BP_ACTIVE_LOW).
Definition BP_EXT_INTR_0 : Z := 0.
Definition BP_EXT_INTR_1 : Z := 1.
Definition BP_EXT_INTR_2 : Z := 2.
Definition BP_EXT_INTR_3 : Z := 3.
Definition BP_EXT_INTR_4 : Z := 4.
Definition BP_EXT_INTR_5 : Z := 5.
Definition BP_CS_0 : Z := 0.
Definition BP_CS_1 : Z := 1.
Definition BP_CS_2 : Z := 2.
Definition BP_CS_3 : Z := 3.
Definition BP_OVERLAY_PCI : Z := (Z.shiftl 1 0).
Definition BP_OVERLAY_CB : Z := (Z.shiftl 1 1).
Definition BP_OVERLAY_SPI_EXT_CS : Z := (Z.shiftl 1 2).
Definition BP_OVERLAY_MII2 : Z := (Z.shiftl 1 3).
Definition BP_OVERLAY_UTOPIA : Z := (Z.shiftl 1 4).
Definition BP_OVERLAY_UART1 : Z := (Z.shiftl 1 5).
Definition BP_OVERLAY_LED : Z := (Z.shiftl 1 6).
Definition BP_OVERLAY_PHY : Z := (Z.shiftl 1 7).
Definition BP_OVERLAY_SERIAL_LEDS : Z := (Z.shiftl 1 8).
Definition BP_OVERLAY_EPHY_LED_0 : Z := (Z.shiftl 1 9).
Definition BP_OVERLAY_EPHY_LED_1 : Z := (Z.shiftl 1 10).
Definition BP_OVERLAY_EPHY_LED_2 : Z := (Z.shiftl 1 11).
Definition BP_OVERLAY_EPHY_LED_3 : Z := (Z.shiftl 1 12).
Definition BP_OVERLAY_INET_LED : Z := (Z.shiftl 1 13).
Definition BP_NOT_DEFINED : Z := 0xffff.
Definition BP_HW_DEFINED : Z := 0xfff0.
Definition BP_UNEQUIPPED : Z := 0xfff1.
Definition BP_HW_DEFINED_AL : Z := 0xfff0.
Definition BP_HW_DEFINED_AH : Z := 0xfff2.
Definition BP_BOARD_ID_LEN : Z := 16.
Definition BP_MAX_ENET_MACS : Z := 2.
Definition BP_MAX_SWITCH_PORTS : Z := 8.
Definition BP_MAX_VOIP_DSP : Z := 2.
Definition BP_WLAN_ANT_MAIN : Z := 0.
Definition BP_WLAN_ANT_AUX : Z := 1.
Definition BP_WLAN_ANT_BOTH : Z := 3.
Definition GPIO_SERIAL_MODE_MASK : Z := 0x1.
Definition GPIO_LED_MODE_MMASK : Z := 0x2.
Definition GPIO_GET_PCB_VER_MASK : Z := 0x4.
Definition GPIO_GET_BOARD_VER_MASK : Z := 0x8.
Definition PCB_VERSION_BIT0 : Z := 0.
Definition PCB_VERSION_BIT1 : Z := 1.
Definition BOARD_VERSION_BIT0 : Z := 0.
Definition BOARD_VERSION_BIT1 : Z := 1.
Definition BOARD_VERSION_BIT2 : Z := 2.
Definition MAX_VIRT_LEDS : Z := 15.


(** Default persistent storage size in K bytes. *)
Definition BP_PSI_DEFAULT_SIZE : Z := 64.

(** [SLIC_TYPE], [DAA_TYPE] and [VCOPE_PIN_TYPES]. *)
Definition Silicon_Labs_3210 : Z := 0.
Definition Silicon_Labs_3215 : Z := 1.
Definition Legerity_88221 : Z := 2.
Definition Legerity_89116 : Z := 3.
Definition Slic_Not_Defined : Z := 4.
Definition DAA_CIRCUIT : Z := 0.
Definition Silicon_Labs_3050 : Z := 1.
Definition Legerity_88010 : Z := 2.
Definition DAA_Not_Defined : Z := 3.
Definition BCM6505_RESET_GPIO : Z := 1.
Definition VCOPE_RELAY_GPIO : Z := 2.
Definition HPI_CS : Z := 3.
Definition VCOPE_BOARD_REV : Z := 4.

(** ** Structures

    Each structure is a record with its fields, the [ctype] that drives the
    initialisation, and the reading of a value of that type as the record. *)

Record ETHERNET_SW_INFO : Type := {
  port_map : Z;
  phy_id : list Z
}.

Definition ETHERNET_SW_INFO_type : ctype := TAgg [
  TInt s32;
  TArray (Z.to_nat BP_MAX_SWITCH_PORTS) (TInt s32)
].

Definition ETHERNET_SW_INFO_of (v : cval) : ETHERNET_SW_INFO := {|
  port_map := v_int (v_nth v 0);
  phy_id := map v_int (v_list (v_nth v 1))
|}.

Record ETHERNET_MAC_INFO : Type := {
  ucPhyType : Z;
  ucPhyAddress : Z;
  usGpioPhyReset : Z;
  usGpioPhyLinkSpeed : Z;
  usConfigType : Z;
  usReverseMii : Z;
  sw : ETHERNET_SW_INFO
}.

Definition ETHERNET_MAC_INFO_type : ctype := TAgg [
  TInt u8;
  TInt u8;
  TInt u16;
  TInt u16;
  TInt u16;
  TInt u16;
  ETHERNET_SW_INFO_type
].

Definition ETHERNET_MAC_INFO_of (v : cval) : ETHERNET_MAC_INFO := {|
  ucPhyType := v_int (v_nth v 0);
  ucPhyAddress := v_int (v_nth v 1);
  usGpioPhyReset := v_int (v_nth v 2);
  usGpioPhyLinkSpeed := v_int (v_nth v 3);
  usConfigType := v_int (v_nth v 4);
  usReverseMii := v_int (v_nth v 5);
  sw := ETHERNET_SW_INFO_of (v_nth v 6)
|}.

Record VOIP_DSP_INFO : Type := {
  ucDspType : Z;
  ucDspAddress : Z;
  usExtIntrVoip : Z;
  usGpioVoipReset : Z;
  usGpioVoipIntr : Z;
  usGpioLedVoip : Z;
  usGpioLedPSTN : Z;
  usGpioLedLine0 : Z;
  usGpioLedLine1 : Z;
  usCsVoip : Z;
  usGpioRelayCtl : Z;
  usGpioRingDetc : Z;
  usGpioLoopDetc : Z;
  slicType : Z;
  daaType : Z
}.

Definition VOIP_DSP_INFO_type : ctype := TAgg [
  TInt u8;
  TInt u8;
  TInt u16;
  TInt u16;
  TInt u16;
  TInt u16;
  TInt u16;
  TInt u16;
  TInt u16;
  TInt u16;
  TInt u16;
  TInt u16;
  TInt u16;
  TInt s32;
  TInt s32
].

Definition VOIP_DSP_INFO_of (v : cval) : VOIP_DSP_INFO := {|
  ucDspType := v_int (v_nth v 0);
  ucDspAddress := v_int (v_nth v 1);
  usExtIntrVoip := v_int (v_nth v 2);
  usGpioVoipReset := v_int (v_nth v 3);
  usGpioVoipIntr := v_int (v_nth v 4);
  usGpioLedVoip := v_int (v_nth v 5);
  usGpioLedPSTN := v_int (v_nth v 6);
  usGpioLedLine0 := v_int (v_nth v 7);
  usGpioLedLine1 := v_int (v_nth v 8);
  usCsVoip := v_int (v_nth v 9);
  usGpioRelayCtl := v_int (v_nth v 10);
  usGpioRingDetc := v_int (v_nth v 11);
  usGpioLoopDetc := v_int (v_nth v 12);
  slicType := v_int (v_nth v 13);
  daaType := v_int (v_nth v 14)
|}.

Record PCB_VERSION : Type := {
  usPcbVer_Low : Z;
  usPcbVer_High : Z
}.

Definition PCB_VERSION_type : ctype := TAgg [
  TInt u16;
  TInt u16
].

Definition PCB_VERSION_of (v : cval) : PCB_VERSION := {|
  usPcbVer_Low := v_int (v_nth v 0);
  usPcbVer_High := v_int (v_nth v 1)
|}.

Record BOARD_VERSION : Type := {
  usBoardVer_Low : Z;
  usBoardVer_Mid : Z;
  usBoardVer_High : Z;
  usReserve : Z
}.

Definition BOARD_VERSION_type : ctype := TAgg [
  TInt u16;
  TInt u16;
  TInt u16;
  TInt u16
].

Definition BOARD_VERSION_of (v : cval) : BOARD_VERSION := {|
  usBoardVer_Low := v_int (v_nth v 0);
  usBoardVer_Mid := v_int (v_nth v 1);
  usBoardVer_High := v_int (v_nth v 2);
  usReserve := v_int (v_nth v 3)
|}.

Record BOARD_PARAMETERS : Type := {
  szBoardId : list Z;
  usGPIOOverlay : Z;
  EnetMacInfos : list ETHERNET_MAC_INFO;
  VoIPDspInfo : list VOIP_DSP_INFO;
  usSdramSize : Z;
  usPsiSize : Z;
  usGpioRj11InnerPair : Z;
  usGpioRj11OuterPair : Z;
  usGpioPressAndHoldReset : Z;
  usGpioUartRts : Z;
  usGpioUartCts : Z;
  usGpioLedAdsl : Z;
  usGpioLedAdslFail : Z;
  usGpioLedWireless : Z;
  usGpioLedWirelessFail : Z;
  usGpioLedUsb : Z;
  usGpioLedHpna : Z;
  usGpioLedWanData : Z;
  usGpioLedWanDataFail : Z;
  usGpioLedHspa : Z;
  usGpioLedHspaFail : Z;
  usGpioLedInternet : Z;
  usGpioLedInternetFail : Z;
  usGpioLedPpp : Z;
  usGpioLedPppFail : Z;
  usGpioLedBlPowerOn : Z;
  usGpioLedBlResetCfg : Z;
  usGpioLedBlStop : Z;
  usExtIntrAdslDyingGasp : Z;
  usExtIntrHpna : Z;
  usCsHpna : Z;
  usAntInUseWireless : Z;
  usGpioSesBtnWireless : Z;
  usExtIntrSesBtnWireless : Z;
  usGpioLedSesWireless : Z;
  usCsHpi : Z;
  usVcopeResetGpio : Z;
  usVcopeRelayGpio : Z;
  usVcopeBoardRev : Z;
  usCMTThead : Z;
  usHardwareCfg : Z;
  stPcbVersion : PCB_VERSION;
  stBoardVersion : BOARD_VERSION;
  usWirelessFlags : Z
}.

Definition BOARD_PARAMETERS_type : ctype := TAgg [
  TChars;
  TInt u16;
  TArray (Z.to_nat BP_MAX_ENET_MACS) ETHERNET_MAC_INFO_type;
  TArray (Z.to_nat BP_MAX_VOIP_DSP) VOIP_DSP_INFO_type;
  TInt u16;
  TInt u16;
  TInt u16;
  TInt u16;
  TInt u16;
  TInt u16;
  TInt u16;
  TInt u16;
  TInt u16;
  TInt u16;
  TInt u16;
  TInt u16;
  TInt u16;
  TInt u16;
  TInt u16;
  TInt u16;
  TInt u16;
  TInt u16;
  TInt u16;
  TInt u16;
  TInt u16;
  TInt u16;
  TInt u16;
  TInt u16;
  TInt u16;
  TInt u16;
  TInt u16;
  TInt u16;
  TInt u16;
  TInt u16;
  TInt u16;
  TInt u16;
  TInt u16;
  TInt u16;
  TInt u16;
  TInt u16;
  TInt u16;
  PCB_VERSION_type;
  BOARD_VERSION_type;
  TInt u16
].

Definition BOARD_PARAMETERS_of (v : cval) : BOARD_PARAMETERS := {|
  szBoardId := v_chars (v_nth v 0);
  usGPIOOverlay := v_int (v_nth v 1);
  EnetMacInfos := map ETHERNET_MAC_INFO_of (v_list (v_nth v 2));
  VoIPDspInfo := map VOIP_DSP_INFO_of (v_list (v_nth v 3));
  usSdramSize := v_int (v_nth v 4);
  usPsiSize := v_int (v_nth v 5);
  usGpioRj11InnerPair := v_int (v_nth v 6);
  usGpioRj11OuterPair := v_int (v_nth v 7);
  usGpioPressAndHoldReset := v_int (v_nth v 8);
  usGpioUartRts := v_int (v_nth v 9);
  usGpioUartCts := v_int (v_nth v 10);
  usGpioLedAdsl := v_int (v_nth v 11);
  usGpioLedAdslFail := v_int (v_nth v 12);
  usGpioLedWireless := v_int (v_nth v 13);
  usGpioLedWirelessFail := v_int (v_nth v 14);
  usGpioLedUsb := v_int (v_nth v 15);
  usGpioLedHpna := v_int (v_nth v 16);
  usGpioLedWanData := v_int (v_nth v 17);
  usGpioLedWanDataFail := v_int (v_nth v 18);
  usGpioLedHspa := v_int (v_nth v 19);
  usGpioLedHspaFail := v_int (v_nth v 20);
  usGpioLedInternet := v_int (v_nth v 21);
  usGpioLedInternetFail := v_int (v_nth v 22);
  usGpioLedPpp := v_int (v_nth v 23);
  usGpioLedPppFail := v_int (v_nth v 24);
  usGpioLedBlPowerOn := v_int (v_nth v 25);
  usGpioLedBlResetCfg := v_int (v_nth v 26);
  usGpioLedBlStop := v_int (v_nth v 27);
  usExtIntrAdslDyingGasp := v_int (v_nth v 28);
  usExtIntrHpna := v_int (v_nth v 29);
  usCsHpna := v_int (v_nth v 30);
  usAntInUseWireless := v_int (v_nth v 31);
  usGpioSesBtnWireless := v_int (v_nth v 32);
  usExtIntrSesBtnWireless := v_int (v_nth v 33);
  usGpioLedSesWireless := v_int (v_nth v 34);
  usCsHpi := v_int (v_nth v 35);
  usVcopeResetGpio := v_int (v_nth v 36);
  usVcopeRelayGpio := v_int (v_nth v 37);
  usVcopeBoardRev := v_int (v_nth v 38);
  usCMTThead := v_int (v_nth v 39);
  usHardwareCfg := v_int (v_nth v 40);
  stPcbVersion := PCB_VERSION_of (v_nth v 41);
  stBoardVersion := BOARD_VERSION_of (v_nth v 42);
  usWirelessFlags := v_int (v_nth v 43)
|}.

(** ** Tables *)

(** The object a table's initialiser defines. *)
Definition board_of_init (i : cinit) : BOARD_PARAMETERS :=
  BOARD_PARAMETERS_of (initialise BOARD_PARAMETERS_type i).

(** [SW_INFO_DEFAULT(n)]. *)
Definition SW_INFO_DEFAULT (n : Z) : cinit :=
  B [E (Z.shiftl 0x00000001 n - 1); B [E 0; E 0; E 0; E 0; E 0; E 0; E 0; E 0]].

Definition g_hw96358gw_a : BOARD_PARAMETERS := board_of_init
  (B [Str (cstr "HW6358GW_A");
      B [B [E BP_ENET_INTERNAL_PHY;
            E 0x01;
            E BP_NOT_DEFINED;
            E BP_NOT_DEFINED;
            E BP_NOT_DEFINED;
            E BP_NOT_DEFINED;
            E BP_NOT_DEFINED;
            E 0x01;
            E BP_ENET_CONFIG_MDIO;
            E BP_NOT_DEFINED];
         B [E BP_ENET_EXTERNAL_SWITCH;
            E 0x0;
            E BP_NOT_DEFINED;
            E BP_NOT_DEFINED;
            E BP_NOT_DEFINED;
            E BP_NOT_DEFINED;
            E BP_NOT_DEFINED;
            E 0x03;
            E BP_ENET_CONFIG_MDIO_PSEUDO_PHY;
            E BP_ENET_REVERSE_MII]];
      B [B [E BP_VOIP_NO_DSP];
         B [E BP_VOIP_NO_DSP]];
      E BP_MEMORY_32MB_1_CHIP;
      E BP_PSI_DEFAULT_SIZE;
      E BP_NOT_DEFINED;
      E BP_NOT_DEFINED;
      E BP_NOT_DEFINED;
      E BP_NOT_DEFINED;
      E BP_NOT_DEFINED;
      E BP_NOT_DEFINED;
      E BP_NOT_DEFINED;
      E BP_NOT_DEFINED;
      E BP_NOT_DEFINED;
      E BP_NOT_DEFINED;
      E BP_NOT_DEFINED;
      E BP_GPIO_2_AH;
      E BP_NOT_DEFINED;
      E BP_NOT_DEFINED;
      E BP_NOT_DEFINED;
      E BP_NOT_DEFINED;
      E BP_NOT_DEFINED;
      E BP_NOT_DEFINED;
      E BP_SERIAL_GPIO_2_AH;
      E BP_SERIAL_GPIO_0_AH;
      E BP_NOT_DEFINED;
      E BP_SERIAL_GPIO_1_AH;
      E BP_HW_DEFINED;
      E BP_NOT_DEFINED;
      E BP_NOT_DEFINED;
      E BP_WLAN_ANT_MAIN;
      E BP_GPIO_37_AL;
      E BP_EXT_INTR_3;
      E BP_GPIO_11_AL;
      E BP_CS_1;
      E BP_GPIO_9_AL;
      E BP_GPIO_10_AL;
      E 3;
      E 0;
      E GPIO_SERIAL_MODE_MASK;
      B [E BP_NOT_DEFINED;
         E BP_NOT_DEFINED];
      B [E BP_NOT_DEFINED;
         E BP_NOT_DEFINED;
         E BP_NOT_DEFINED;
         E BP_NOT_DEFINED]]).

Definition g_huawei96358gw_b : BOARD_PARAMETERS := board_of_init
  (B [Str (cstr "HW6358GW_B");
      B [B [E BP_ENET_NO_PHY];
         B [E BP_ENET_EXTERNAL_SWITCH;
            E 0x0;
            E BP_NOT_DEFINED;
            E BP_NOT_DEFINED;
            E BP_NOT_DEFINED;
            E BP_NOT_DEFINED;
            E BP_NOT_DEFINED;
            E 0x04;
            E BP_ENET_CONFIG_MDIO_PSEUDO_PHY;
            E BP_ENET_REVERSE_MII]];
      B [B [E BP_VOIP_NO_DSP];
         B [E BP_VOIP_NO_DSP]];
      E BP_MEMORY_32MB_1_CHIP;
      E BP_PSI_DEFAULT_SIZE;
      E BP_NOT_DEFINED;
      E BP_NOT_DEFINED;
      E BP_GPIO_37_AL;
      E BP_NOT_DEFINED;
      E BP_NOT_DEFINED;
      E BP_NOT_DEFINED;
      E BP_NOT_DEFINED;
      E BP_NOT_DEFINED;
      E BP_NOT_DEFINED;
      E BP_NOT_DEFINED;
      E BP_NOT_DEFINED;
      E BP_GPIO_32_AL;
      E BP_NOT_DEFINED;
      E BP_NOT_DEFINED;
      E BP_NOT_DEFINED;
      E BP_NOT_DEFINED;
      E BP_NOT_DEFINED;
      E BP_NOT_DEFINED;
      E BP_NOT_DEFINED;
      E BP_NOT_DEFINED;
      E BP_NOT_DEFINED;
      E BP_NOT_DEFINED;
      E BP_HW_DEFINED;
      E BP_NOT_DEFINED;
      E BP_NOT_DEFINED;
      E BP_WLAN_ANT_MAIN;
      E BP_NOT_DEFINED;
      E BP_EXT_INTR_3;
      E BP_NOT_DEFINED;
      E BP_CS_1;
      E BP_GPIO_9_AL;
      E BP_NOT_DEFINED;
      E 3;
      E 0;
      E (Z.lor GPIO_GET_PCB_VER_MASK GPIO_GET_BOARD_VER_MASK);
      B [E BP_GPIO_10_AL;
         E BP_GPIO_11_AL];
      B [E BP_GPIO_6_AL;
         E BP_GPIO_7_AL;
         E BP_GPIO_8_AL;
         E BP_NOT_DEFINED]]).

Definition g_huawei96358gw_HG550 : BOARD_PARAMETERS := board_of_init
  (B [Str (cstr "HW550");
      B [B [E BP_ENET_NO_PHY];
         B [E BP_ENET_EXTERNAL_SWITCH;
            E 0x0;
            E BP_NOT_DEFINED;
            E BP_NOT_DEFINED;
            E BP_NOT_DEFINED;
            E BP_NOT_DEFINED;
            E BP_NOT_DEFINED;
            E 0x04;
            E BP_ENET_CONFIG_MDIO_PSEUDO_PHY;
            E BP_ENET_REVERSE_MII]];
      B [B [E BP_VOIP_DSP;
            E 0;
            E 0;
            E 0;
            E 0;
            E BP_GPIO_23_AL;
            E BP_GPIO_4_AL;
            E BP_GPIO_25_AL;
            E BP_GPIO_26_AL;
            E 0;
            E BP_GPIO_14_AH;
            E BP_GPIO_15_AH;
            E BP_GPIO_16_AL;
            E Silicon_Labs_3210;
            E DAA_Not_Defined];
         B [E BP_VOIP_NO_DSP]];
      E BP_MEMORY_32MB_1_CHIP;
      E BP_PSI_DEFAULT_SIZE;
      E BP_NOT_DEFINED;
      E BP_NOT_DEFINED;
      E BP_GPIO_37_AL;
      E BP_NOT_DEFINED;
      E BP_NOT_DEFINED;
      E BP_GPIO_22_AL;
      E BP_NOT_DEFINED;
      E BP_NOT_DEFINED;
      E BP_NOT_DEFINED;
      E BP_NOT_DEFINED;
      E BP_NOT_DEFINED;
      E BP_GPIO_34_AL;
      E BP_NOT_DEFINED;
      E BP_NOT_DEFINED;
      E BP_NOT_DEFINED;
      E BP_NOT_DEFINED;
      E BP_NOT_DEFINED;
      E BP_NOT_DEFINED;
      E BP_NOT_DEFINED;
      E BP_NOT_DEFINED;
      E BP_NOT_DEFINED;
      E BP_NOT_DEFINED;
      E BP_HW_DEFINED;
      E BP_NOT_DEFINED;
      E BP_NOT_DEFINED;
      E BP_WLAN_ANT_MAIN;
      E BP_NOT_DEFINED;
      E BP_EXT_INTR_3;
      E BP_NOT_DEFINED;
      E BP_NOT_DEFINED;
      E BP_NOT_DEFINED;
      E BP_NOT_DEFINED;
      E BP_NOT_DEFINED;
      E 1;
      E (Z.lor GPIO_GET_PCB_VER_MASK GPIO_GET_BOARD_VER_MASK);
      B [E BP_GPIO_10_AL;
         E BP_GPIO_11_AL];
      B [E BP_GPIO_6_AL;
         E BP_GPIO_7_AL;
         E BP_GPIO_8_AL;
         E BP_NOT_DEFINED]]).

Definition g_huawei96358gw_HG550_FXO : BOARD_PARAMETERS := board_of_init
  (B [Str (cstr "HW550_FXO");
      B [B [E BP_ENET_NO_PHY];
         B [E BP_ENET_EXTERNAL_SWITCH;
            E 0x20;
            E BP_NOT_DEFINED;
            E BP_NOT_DEFINED;
            E BP_NOT_DEFINED;
            E BP_NOT_DEFINED;
            E BP_NOT_DEFINED;
            E 0x04;
            E BP_ENET_CONFIG_SMI;
            E BP_ENET_REVERSE_MII]];
      B [B [E BP_VOIP_DSP;
            E 0;
            E 0;
            E 0;
            E 0;
            E BP_GPIO_23_AL;
            E BP_GPIO_4_AL;
            E BP_GPIO_25_AL;
            E BP_GPIO_26_AL;
            E 0;
            E BP_GPIO_14_AH;
            E BP_GPIO_35_AH;
            E BP_GPIO_36_AH;
            E Silicon_Labs_3215;
            E DAA_CIRCUIT];
         B [E BP_VOIP_NO_DSP]];
      E BP_MEMORY_32MB_1_CHIP;
      E BP_PSI_DEFAULT_SIZE;
      E BP_NOT_DEFINED;
      E BP_NOT_DEFINED;
      E BP_GPIO_37_AL;
      E BP_NOT_DEFINED;
      E BP_NOT_DEFINED;
      E BP_GPIO_22_AL;
      E BP_NOT_DEFINED;
      E BP_GPIO_9_AL;
      E BP_NOT_DEFINED;
      E BP_NOT_DEFINED;
      E BP_NOT_DEFINED;
      E BP_GPIO_34_AL;
      E BP_NOT_DEFINED;
      E BP_NOT_DEFINED;
      E BP_NOT_DEFINED;
      E BP_NOT_DEFINED;
      E BP_NOT_DEFINED;
      E BP_NOT_DEFINED;
      E BP_NOT_DEFINED;
      E BP_NOT_DEFINED;
      E BP_NOT_DEFINED;
      E BP_NOT_DEFINED;
      E BP_HW_DEFINED;
      E BP_NOT_DEFINED;
      E BP_NOT_DEFINED;
      E BP_WLAN_ANT_MAIN;
      E BP_NOT_DEFINED;
      E BP_EXT_INTR_3;
      E BP_NOT_DEFINED;
      E BP_NOT_DEFINED;
      E BP_NOT_DEFINED;
      E BP_NOT_DEFINED;
      E BP_NOT_DEFINED;
      E 1;
      E (Z.lor (Z.lor GPIO_GET_PCB_VER_MASK GPIO_GET_BOARD_VER_MASK) GPIO_LED_MODE_MMASK);
      B [E BP_GPIO_10_AL;
         E BP_GPIO_11_AL];
      B [E BP_GPIO_6_AL;
         E BP_GPIO_7_AL;
         E BP_GPIO_8_AL;
         E BP_NOT_DEFINED]]).

Definition g_huawei96358gw_HG553 : BOARD_PARAMETERS := board_of_init
  (B [Str (cstr "HW553");
      E (Z.lor BP_OVERLAY_PCI BP_OVERLAY_SPI_EXT_CS);
      B [B [E BP_ENET_NO_PHY];
         B [E BP_ENET_EXTERNAL_SWITCH;
            E 0x0;
            E BP_NOT_DEFINED;
            E BP_NOT_DEFINED;
            E BP_ENET_CONFIG_MDIO_PSEUDO_PHY;
            E BP_ENET_REVERSE_MII;
            SW_INFO_DEFAULT 4]];
      B [B [E BP_VOIP_DSP;
            E 0;
            E 0;
            E 0;
            E 0;
            E BP_NOT_DEFINED;
            E BP_NOT_DEFINED;
            E BP_NOT_DEFINED;
            E BP_NOT_DEFINED;
            E 0;
            E BP_NOT_DEFINED;
            E BP_NOT_DEFINED;
            E BP_NOT_DEFINED;
            E Legerity_88221;
            E DAA_Not_Defined];
         B [E BP_VOIP_NO_DSP]];
      E BP_MEMORY_64MB_1_CHIP;
      E BP_PSI_DEFAULT_SIZE;
      E BP_NOT_DEFINED;
      E BP_NOT_DEFINED;
      E BP_GPIO_37_AL;
      E BP_NOT_DEFINED;
      E BP_NOT_DEFINED;
      E BP_GPIO_23_AL;
      E BP_GPIO_22_AL;
      E BP_GPIO_9_AL;
      E BP_GPIO_25_AL;
      E BP_NOT_DEFINED;
      E BP_NOT_DEFINED;
      E BP_NOT_DEFINED;
      E BP_NOT_DEFINED;
      E BP_GPIO_13_AL;
      E BP_GPIO_12_AL;
      E BP_GPIO_35_AL;
      E BP_GPIO_34_AL;
      E BP_NOT_DEFINED;
      E BP_NOT_DEFINED;
      E BP_GPIO_4_AL;
      E BP_NOT_DEFINED;
      E BP_GPIO_5_AL;
      E BP_NOT_DEFINED;
      E BP_NOT_DEFINED;
      E BP_NOT_DEFINED;
      E BP_WLAN_ANT_MAIN;
      E BP_GPIO_9_AL;
      E BP_EXT_INTR_3;
      E BP_NOT_DEFINED;
      E BP_NOT_DEFINED;
      E BP_NOT_DEFINED;
      E BP_NOT_DEFINED;
      E BP_NOT_DEFINED;
      E 1;
      E (Z.lor GPIO_GET_BOARD_VER_MASK GPIO_LED_MODE_MMASK);
      B [E BP_NOT_DEFINED;
         E BP_NOT_DEFINED];
      B [E BP_GPIO_7_AL;
         E BP_NOT_DEFINED;
         E BP_NOT_DEFINED;
         E BP_NOT_DEFINED]]).

Definition g_bcm96358vw : BOARD_PARAMETERS := board_of_init
  (B [Str (cstr "96358VW");
      B [B [E BP_ENET_INTERNAL_PHY;
            E 0x01;
            E BP_NOT_DEFINED;
            E BP_NOT_DEFINED;
            E BP_NOT_DEFINED;
            E BP_NOT_DEFINED;
            E BP_NOT_DEFINED;
            E 0x01;
            E BP_ENET_CONFIG_MDIO;
            E BP_NOT_DEFINED];
         B [E BP_ENET_EXTERNAL_SWITCH;
            E 0x0;
            E BP_NOT_DEFINED;
            E BP_NOT_DEFINED;
            E BP_NOT_DEFINED;
            E BP_NOT_DEFINED;
            E BP_NOT_DEFINED;
            E 0x03;
            E BP_ENET_CONFIG_MDIO_PSEUDO_PHY;
            E BP_ENET_REVERSE_MII]];
      B [B [E BP_VOIP_DSP;
            E 0;
            E 0;
            E 0;
            E 0;
            E BP_GPIO_23_AL;
            E BP_GPIO_4_AL;
            E BP_GPIO_25_AL;
            E BP_GPIO_26_AL;
            E BP_GPIO_14_AH;
            E BP_GPIO_15_AH;
            E BP_GPIO_16_AL;
            E Legerity_88221;
            E DAA_Not_Defined];
         B [E BP_VOIP_NO_DSP]];
      E BP_MEMORY_32MB_1_CHIP;
      E BP_PSI_DEFAULT_SIZE;
      E BP_NOT_DEFINED;
      E BP_NOT_DEFINED;
      E BP_NOT_DEFINED;
      E BP_NOT_DEFINED;
      E BP_NOT_DEFINED;
      E BP_NOT_DEFINED;
      E BP_GPIO_15_AL;
      E BP_NOT_DEFINED;
      E BP_NOT_DEFINED;
      E BP_GPIO_3_AL;
      E BP_NOT_DEFINED;
      E BP_GPIO_22_AL;
      E BP_NOT_DEFINED;
      E BP_NOT_DEFINED;
      E BP_NOT_DEFINED;
      E BP_NOT_DEFINED;
      E BP_NOT_DEFINED;
      E BP_GPIO_22_AL;
      E BP_GPIO_23_AL;
      E BP_GPIO_4_AL;
      E BP_GPIO_22_AL;
      E BP_GPIO_5_AL;
      E BP_HW_DEFINED;
      E BP_NOT_DEFINED;
      E BP_NOT_DEFINED;
      E BP_WLAN_ANT_MAIN;
      E BP_GPIO_37_AL;
      E BP_EXT_INTR_3;
      E BP_SERIAL_GPIO_7_AL;
      E BP_NOT_DEFINED;
      E BP_NOT_DEFINED;
      E BP_NOT_DEFINED;
      E BP_NOT_DEFINED;
      E 1;
      E 0;
      B [E BP_NOT_DEFINED;
         E BP_NOT_DEFINED];
      B [E BP_NOT_DEFINED;
         E BP_NOT_DEFINED;
         E BP_NOT_DEFINED;
         E BP_NOT_DEFINED]]).

Definition g_bcm96358vw16 : BOARD_PARAMETERS := board_of_init
  (B [Str (cstr "96358VW-16");
      B [B [E BP_ENET_INTERNAL_PHY;
            E 0x01;
            E BP_NOT_DEFINED;
            E BP_NOT_DEFINED;
            E BP_NOT_DEFINED;
            E BP_NOT_DEFINED;
            E BP_NOT_DEFINED;
            E 0x01;
            E BP_ENET_CONFIG_MDIO;
            E BP_NOT_DEFINED];
         B [E BP_ENET_EXTERNAL_SWITCH;
            E 0x0;
            E BP_NOT_DEFINED;
            E BP_NOT_DEFINED;
            E BP_NOT_DEFINED;
            E BP_NOT_DEFINED;
            E BP_NOT_DEFINED;
            E 0x03;
            E BP_ENET_CONFIG_MDIO_PSEUDO_PHY;
            E BP_ENET_REVERSE_MII]];
      B [B [E BP_VOIP_NO_DSP];
         B [E BP_VOIP_NO_DSP]];
      E BP_MEMORY_16MB_1_CHIP;
      E BP_PSI_DEFAULT_SIZE;
      E BP_NOT_DEFINED;
      E BP_NOT_DEFINED;
      E BP_NOT_DEFINED;
      E BP_NOT_DEFINED;
      E BP_NOT_DEFINED;
      E BP_NOT_DEFINED;
      E BP_GPIO_15_AL;
      E BP_NOT_DEFINED;
      E BP_NOT_DEFINED;
      E BP_NOT_DEFINED;
      E BP_NOT_DEFINED;
      E BP_GPIO_22_AL;
      E BP_NOT_DEFINED;
      E BP_NOT_DEFINED;
      E BP_NOT_DEFINED;
      E BP_NOT_DEFINED;
      E BP_NOT_DEFINED;
      E BP_GPIO_22_AL;
      E BP_GPIO_23_AL;
      E BP_GPIO_4_AL;
      E BP_GPIO_22_AL;
      E BP_GPIO_5_AL;
      E BP_HW_DEFINED;
      E BP_NOT_DEFINED;
      E BP_NOT_DEFINED;
      E BP_WLAN_ANT_MAIN;
      E BP_NOT_DEFINED;
      E BP_EXT_INTR_3;
      E BP_SERIAL_GPIO_7_AL;
      E BP_NOT_DEFINED;
      E BP_NOT_DEFINED;
      E BP_NOT_DEFINED;
      E BP_NOT_DEFINED;
      E 1;
      E 0;
      B [E BP_NOT_DEFINED;
         E BP_NOT_DEFINED];
      B [E BP_NOT_DEFINED;
         E BP_NOT_DEFINED;
         E BP_NOT_DEFINED;
         E BP_NOT_DEFINED]]).

Definition g_bcm96358gw : BOARD_PARAMETERS := board_of_init
  (B [Str (cstr "96358GW");
      B [B [E BP_ENET_INTERNAL_PHY;
            E 0x01;
            E BP_NOT_DEFINED;
            E BP_NOT_DEFINED;
            E BP_NOT_DEFINED;
            E BP_NOT_DEFINED;
            E BP_NOT_DEFINED;
            E 0x01;
            E BP_ENET_CONFIG_MDIO;
            E BP_NOT_DEFINED];
         B [E BP_ENET_EXTERNAL_SWITCH;
            E 0x0;
            E BP_NOT_DEFINED;
            E BP_NOT_DEFINED;
            E BP_NOT_DEFINED;
            E BP_NOT_DEFINED;
            E BP_NOT_DEFINED;
            E 0x03;
            E BP_ENET_CONFIG_MDIO_PSEUDO_PHY;
            E BP_ENET_REVERSE_MII]];
      B [B [E BP_VOIP_NO_DSP];
         B [E BP_VOIP_NO_DSP]];
      E BP_MEMORY_32MB_1_CHIP;
      E BP_PSI_DEFAULT_SIZE;
      E BP_NOT_DEFINED;
      E BP_NOT_DEFINED;
      E BP_NOT_DEFINED;
      E BP_NOT_DEFINED;
      E BP_NOT_DEFINED;
      E BP_NOT_DEFINED;
      E BP_GPIO_15_AL;
      E BP_NOT_DEFINED;
      E BP_NOT_DEFINED;
      E BP_NOT_DEFINED;
      E BP_NOT_DEFINED;
      E BP_GPIO_22_AL;
      E BP_NOT_DEFINED;
      E BP_NOT_DEFINED;
      E BP_NOT_DEFINED;
      E BP_NOT_DEFINED;
      E BP_NOT_DEFINED;
      E BP_GPIO_22_AL;
      E BP_GPIO_23_AL;
      E BP_GPIO_4_AL;
      E BP_GPIO_22_AL;
      E BP_GPIO_5_AL;
      E BP_HW_DEFINED;
      E BP_NOT_DEFINED;
      E BP_NOT_DEFINED;
      E BP_WLAN_ANT_MAIN;
      E BP_GPIO_37_AL;
      E BP_EXT_INTR_3;
      E BP_SERIAL_GPIO_7_AL;
      E BP_NOT_DEFINED;
      E BP_NOT_DEFINED;
      E BP_NOT_DEFINED;
      E BP_NOT_DEFINED;
      E 0;
      E 0;
      B [E BP_NOT_DEFINED;
         E BP_NOT_DEFINED];
      B [E BP_NOT_DEFINED;
         E BP_NOT_DEFINED;
         E BP_NOT_DEFINED;
         E BP_NOT_DEFINED]]).

Definition g_bcm96358gw16 : BOARD_PARAMETERS := board_of_init
  (B [Str (cstr "96358GW-16");
      B [B [E BP_ENET_INTERNAL_PHY;
            E 0x01;
            E BP_NOT_DEFINED;
            E BP_NOT_DEFINED;
            E BP_NOT_DEFINED;
            E BP_NOT_DEFINED;
            E BP_NOT_DEFINED;
            E 0x01;
            E BP_ENET_CONFIG_MDIO;
            E BP_NOT_DEFINED];
         B [E BP_ENET_EXTERNAL_SWITCH;
            E 0x0;
            E BP_NOT_DEFINED;
            E BP_NOT_DEFINED;
            E BP_NOT_DEFINED;
            E BP_NOT_DEFINED;
            E BP_NOT_DEFINED;
            E 0x03;
            E BP_ENET_CONFIG_MDIO_PSEUDO_PHY;
            E BP_ENET_REVERSE_MII]];
      B [B [E BP_VOIP_NO_DSP];
         B [E BP_VOIP_NO_DSP]];
      E BP_MEMORY_16MB_1_CHIP;
      E BP_PSI_DEFAULT_SIZE;
      E BP_NOT_DEFINED;
      E BP_NOT_DEFINED;
      E BP_NOT_DEFINED;
      E BP_NOT_DEFINED;
      E BP_NOT_DEFINED;
      E BP_NOT_DEFINED;
      E BP_GPIO_15_AL;
      E BP_NOT_DEFINED;
      E BP_NOT_DEFINED;
      E BP_NOT_DEFINED;
      E BP_NOT_DEFINED;
      E BP_GPIO_22_AL;
      E BP_NOT_DEFINED;
      E BP_NOT_DEFINED;
      E BP_NOT_DEFINED;
      E BP_NOT_DEFINED;
      E BP_NOT_DEFINED;
      E BP_GPIO_22_AL;
      E BP_GPIO_23_AL;
      E BP_GPIO_4_AL;
      E BP_GPIO_22_AL;
      E BP_GPIO_5_AL;
      E BP_HW_DEFINED;
      E BP_NOT_DEFINED;
      E BP_NOT_DEFINED;
      E BP_WLAN_ANT_MAIN;
      E BP_GPIO_37_AL;
      E BP_EXT_INTR_3;
      E BP_SERIAL_GPIO_7_AL;
      E BP_NOT_DEFINED;
      E BP_NOT_DEFINED;
      E BP_NOT_DEFINED;
      E BP_NOT_DEFINED;
      E 0;
      E 0;
      B [E BP_NOT_DEFINED;
         E BP_NOT_DEFINED];
      B [E BP_NOT_DEFINED;
         E BP_NOT_DEFINED;
         E BP_NOT_DEFINED;
         E BP_NOT_DEFINED]]).

Definition g_bcm96358m : BOARD_PARAMETERS := board_of_init
  (B [Str (cstr "96358M");
      B [B [E BP_ENET_INTERNAL_PHY;
            E 0x01;
            E BP_NOT_DEFINED;
            E BP_NOT_DEFINED;
            E BP_NOT_DEFINED;
            E BP_NOT_DEFINED;
            E BP_NOT_DEFINED;
            E 0x01;
            E BP_ENET_CONFIG_MDIO;
            E BP_NOT_DEFINED];
         B [E BP_ENET_EXTERNAL_SWITCH;
            E 0x0;
            E BP_NOT_DEFINED;
            E BP_NOT_DEFINED;
            E BP_NOT_DEFINED;
            E BP_NOT_DEFINED;
            E BP_NOT_DEFINED;
            E 0x03;
            E BP_ENET_CONFIG_MDIO_PSEUDO_PHY;
            E BP_ENET_REVERSE_MII]];
      B [B [E BP_VOIP_NO_DSP];
         B [E BP_VOIP_NO_DSP]];
      E BP_MEMORY_32MB_1_CHIP;
      E BP_PSI_DEFAULT_SIZE;
      E BP_NOT_DEFINED;
      E BP_NOT_DEFINED;
      E BP_NOT_DEFINED;
      E BP_NOT_DEFINED;
      E BP_NOT_DEFINED;
      E BP_SERIAL_GPIO_3_AL;
      E BP_NOT_DEFINED;
      E BP_NOT_DEFINED;
      E BP_NOT_DEFINED;
      E BP_NOT_DEFINED;
      E BP_NOT_DEFINED;
      E BP_GPIO_2_AH;
      E BP_NOT_DEFINED;
      E BP_NOT_DEFINED;
      E BP_NOT_DEFINED;
      E BP_NOT_DEFINED;
      E BP_NOT_DEFINED;
      E BP_GPIO_2_AH;
      E BP_SERIAL_GPIO_3_AL;
      E BP_SERIAL_GPIO_0_AL;
      E BP_SERIAL_GPIO_2_AL;
      E BP_SERIAL_GPIO_1_AL;
      E BP_HW_DEFINED;
      E BP_NOT_DEFINED;
      E BP_NOT_DEFINED;
      E BP_WLAN_ANT_MAIN;
      E BP_GPIO_37_AL;
      E BP_EXT_INTR_3;
      E BP_GPIO_11_AL;
      E BP_CS_1;
      E BP_GPIO_9_AL;
      E BP_GPIO_10_AL;
      E 3;
      E 0;
      E GPIO_SERIAL_MODE_MASK;
      B [E BP_NOT_DEFINED;
         E BP_NOT_DEFINED];
      B [E BP_NOT_DEFINED;
         E BP_NOT_DEFINED;
         E BP_NOT_DEFINED;
         E BP_NOT_DEFINED]]).

(** The list of supported boards, in the order they are searched. *)
Definition g_BoardParms : list BOARD_PARAMETERS :=
  [g_hw96358gw_a; g_huawei96358gw_b; g_huawei96358gw_HG550; g_huawei96358gw_HG553;
   g_huawei96358gw_HG550_FXO; g_bcm96358vw; g_bcm96358vw16; g_bcm96358gw;
   g_bcm96358gw16; g_bcm96358m].
