(* ===== verification/BoardParms.v ===== *)
(** * Board parameter access functions (boardparms.c)

    The state of the component is the pointer [g_pCurrentBp] to the table of
    the selected board, [None] until [BpSetBoardId] succeeds; it is an argument
    of every access function.  An access function returns the pair of its return
    code and of what it stores through its output pointer; an output that some
    path leaves unwritten is an [option]. *)

From stdpp Require Import base numbers list strings sets.
From Stdlib Require Import ZArith Lia.
From S2P Require Import Prelude CInit BoardTables.

(** ** String comparison *)

(** [bpstrcmp]: the arguments are the characters before the terminating NUL;
    [char] is signed on the target. *)
Fixpoint bpstrcmp (dest src : list Z) : Z :=
  match dest, src with
  | [], [] => 0
  | _ :: _, [] => 1
  | [], _ :: _ => -1
  | d :: dest', s :: src' =>
      if s8 d <? s8 s then -1
      else if s8 d >? s8 s then 1
      else bpstrcmp dest' src'
  end.

(** ** Selecting the board *)

Fixpoint find_board (ppBp : list BOARD_PARAMETERS) (pszBoardId : list Z)
  : option BOARD_PARAMETERS :=
  match ppBp with
  | [] => None
  | bp :: ppBp' =>
      if bpstrcmp (szBoardId bp) pszBoardId =? 0 then Some bp
      else find_board ppBp' pszBoardId
  end.

Definition BpSetBoardId (pszBoardId : list Z) (cur : option BOARD_PARAMETERS)
  : Z * option BOARD_PARAMETERS :=
  match find_board g_BoardParms pszBoardId with
  | Some bp => (BP_SUCCESS, Some bp)
  | None => (BP_BOARD_ID_NOT_FOUND, cur)
  end.

(** [BpGetBoardIds]: [buf] is the caller's buffer; [None] is a store outside
    it.  [n] counts down the slots the caller says it has. *)
Fixpoint board_ids_loop (ppBp : list BOARD_PARAMETERS) (n i : Z) (buf : list Z)
  : option (Z * list Z) :=
  match ppBp with
  | [] => Some (i, buf)
  | bp :: ppBp' =>
      if n =? 0 then Some (i, buf)
      else match buf_write buf (i * BP_BOARD_ID_LEN) (szBoardId bp ++ [0]) with
           | Some buf' => board_ids_loop ppBp' (n - 1) (i + 1) buf'
           | None => None
           end
  end.

Definition BpGetBoardIds (buf : list Z) (nBoardIdsSize : Z) : option (Z * list Z) :=
  board_ids_loop g_BoardParms nBoardIdsSize 0 buf.

(** ** Plain board values *)

(** The common body of the access functions that return one field. *)
Definition bp_value (field : BOARD_PARAMETERS → Z) (cur : option BOARD_PARAMETERS)
  : Z * Z :=
  match cur with
  | Some bp =>
      (if field bp =? BP_NOT_DEFINED then BP_VALUE_NOT_DEFINED else BP_SUCCESS, field bp)
  | None => (BP_BOARD_ID_NOT_SET, BP_NOT_DEFINED)
  end.

Definition BpGetGPIOverlays : option BOARD_PARAMETERS → Z * Z := bp_value usGPIOOverlay.
Definition BpGetPressAndHoldResetGpio : option BOARD_PARAMETERS → Z * Z := bp_value usGpioPressAndHoldReset.
Definition BpGetAdslLedGpio : option BOARD_PARAMETERS → Z * Z := bp_value usGpioLedAdsl.
Definition BpGetAdslFailLedGpio : option BOARD_PARAMETERS → Z * Z := bp_value usGpioLedAdslFail.
Definition BpGetWirelessLedGpio : option BOARD_PARAMETERS → Z * Z := bp_value usGpioLedWireless.
Definition BpGetWirelessFailLedGpio : option BOARD_PARAMETERS → Z * Z := bp_value usGpioLedWirelessFail.
Definition BpGetWirelessAntInUse : option BOARD_PARAMETERS → Z * Z := bp_value usAntInUseWireless.
Definition BpGetWirelessFlags : option BOARD_PARAMETERS → Z * Z := bp_value usWirelessFlags.
Definition BpGetWirelessSesBtnGpio : option BOARD_PARAMETERS → Z * Z := bp_value usGpioSesBtnWireless.
Definition BpGetWirelessSesExtIntr : option BOARD_PARAMETERS → Z * Z := bp_value usExtIntrSesBtnWireless.
Definition BpGetWirelessSesLedGpio : option BOARD_PARAMETERS → Z * Z := bp_value usGpioLedSesWireless.
Definition BpGetUsbLedGpio : option BOARD_PARAMETERS → Z * Z := bp_value usGpioLedUsb.
Definition BpGetHpnaLedGpio : option BOARD_PARAMETERS → Z * Z := bp_value usGpioLedHpna.
Definition BpGetWanDataFailLedGpio : option BOARD_PARAMETERS → Z * Z := bp_value usGpioLedWanDataFail.
Definition BpGetWanDataLedGpio : option BOARD_PARAMETERS → Z * Z := bp_value usGpioLedWanData.
Definition BpGetHspaLedGpio : option BOARD_PARAMETERS → Z * Z := bp_value usGpioLedHspa.
Definition BpGetHspaFailLedGpio : option BOARD_PARAMETERS → Z * Z := bp_value usGpioLedHspaFail.
Definition BpGetInternetLedGpio : option BOARD_PARAMETERS → Z * Z := bp_value usGpioLedInternet.
Definition BpGetInternetFailLedGpio : option BOARD_PARAMETERS → Z * Z := bp_value usGpioLedInternetFail.
Definition BpGetPppLedGpio : option BOARD_PARAMETERS → Z * Z := bp_value usGpioLedPpp.
Definition BpGetPppFailLedGpio : option BOARD_PARAMETERS → Z * Z := bp_value usGpioLedPppFail.
Definition BpGetBootloaderPowerOnLedGpio : option BOARD_PARAMETERS → Z * Z := bp_value usGpioLedBlPowerOn.
Definition BpGetBootloaderResetCfgLedGpio : option BOARD_PARAMETERS → Z * Z := bp_value usGpioLedBlResetCfg.
Definition BpGetBootloaderStopLedGpio : option BOARD_PARAMETERS → Z * Z := bp_value usGpioLedBlStop.
Definition BpGetAdslDyingGaspExtIntr : option BOARD_PARAMETERS → Z * Z := bp_value usExtIntrAdslDyingGasp.
Definition BpGetHpnaExtIntr : option BOARD_PARAMETERS → Z * Z := bp_value usExtIntrHpna.
Definition BpGetHpnaChipSelect : option BOARD_PARAMETERS → Z * Z := bp_value usCsHpna.
Definition BpGetCMTThread : option BOARD_PARAMETERS → Z * Z := bp_value usCMTThead.

(** [BpGetSdramSize] and [BpGetPsiSize] do not check for an undefined value. *)
Definition BpGetSdramSize (cur : option BOARD_PARAMETERS) : Z * Z :=
  match cur with
  | Some bp => (BP_SUCCESS, usSdramSize bp)
  | None => (BP_BOARD_ID_NOT_SET, BP_NOT_DEFINED)
  end.

Definition BpGetPsiSize (cur : option BOARD_PARAMETERS) : Z * Z :=
  match cur with
  | Some bp => (BP_SUCCESS, usPsiSize bp)
  | None => (BP_BOARD_ID_NOT_SET, BP_NOT_DEFINED)
  end.

Definition pair_value (f1 f2 : BOARD_PARAMETERS → Z) (cur : option BOARD_PARAMETERS)
  : Z * Z * Z :=
  match cur with
  | Some bp =>
      (if negb (f1 bp =? BP_NOT_DEFINED) && negb (f2 bp =? BP_NOT_DEFINED)
       then BP_SUCCESS else BP_VALUE_NOT_DEFINED, f1 bp, f2 bp)
  | None => (BP_BOARD_ID_NOT_SET, BP_NOT_DEFINED, BP_NOT_DEFINED)
  end.

Definition BpGetRj11InnerOuterPairGpios : option BOARD_PARAMETERS → Z * Z * Z :=
  pair_value usGpioRj11InnerPair usGpioRj11OuterPair.

Definition BpGetRtsCtsUartGpios : option BOARD_PARAMETERS → Z * Z * Z :=
  pair_value usGpioUartRts usGpioUartCts.

(** [BpGetVcopeGpio] returns the value itself. *)
Definition BpGetVcopeGpio (pio_idx : Z) (cur : option BOARD_PARAMETERS) : Z :=
  match cur with
  | Some bp =>
      if pio_idx =? BCM6505_RESET_GPIO then usVcopeResetGpio bp
      else if pio_idx =? VCOPE_RELAY_GPIO then usVcopeRelayGpio bp
      else if pio_idx =? HPI_CS then usCsHpi bp
      else if pio_idx =? VCOPE_BOARD_REV then usVcopeBoardRev bp
      else BP_NOT_DEFINED
  | None => BP_NOT_DEFINED
  end.

(** ** Ethernet MACs *)

Definition with_phy_type (e : ETHERNET_MAC_INFO) (t : Z) : ETHERNET_MAC_INFO :=
  {| ucPhyType := t;
     ucPhyAddress := ucPhyAddress e;
     usGpioPhyReset := usGpioPhyReset e;
     usGpioPhyLinkSpeed := usGpioPhyLinkSpeed e;
     usConfigType := usConfigType e;
     usReverseMii := usReverseMii e;
     sw := sw e |}.

(** [BpGetEthernetMacInfo] fills the caller's array [pEnetInfos] of
    [nNumEnetInfos] entries: entries of the board first, [BP_ENET_NO_PHY] in the
    others. *)
Fixpoint enet_fill (infos : list ETHERNET_MAC_INFO) (src : list ETHERNET_MAC_INFO)
  : list ETHERNET_MAC_INFO :=
  match infos, src with
  | [], _ => []
  | _ :: infos', s :: src' => s :: enet_fill infos' src'
  | e :: infos', [] => with_phy_type e BP_ENET_NO_PHY :: enet_fill infos' []
  end.

Definition BpGetEthernetMacInfo (pEnetInfos : list ETHERNET_MAC_INFO)
  (cur : option BOARD_PARAMETERS) : Z * list ETHERNET_MAC_INFO :=
  match cur with
  | Some bp =>
      (BP_SUCCESS, enet_fill pEnetInfos (take (Z.to_nat BP_MAX_ENET_MACS) (EnetMacInfos bp)))
  | None => (BP_BOARD_ID_NOT_SET, enet_fill pEnetInfos [])
  end.

(** ** VoIP DSPs *)

Fixpoint find_dsp (infos : list VOIP_DSP_INFO) (dspNum : Z) : option VOIP_DSP_INFO :=
  match infos with
  | [] => None
  | d :: infos' =>
      if negb (ucDspType d =? BP_VOIP_NO_DSP) && (ucDspAddress d =? dspNum) then Some d
      else find_dsp infos' dspNum
  end.

Definition BpGetVoipDspConfig (dspNum : Z) (cur : option BOARD_PARAMETERS)
  : option VOIP_DSP_INFO :=
  match cur with
  | Some bp => find_dsp (take (Z.to_nat BP_MAX_VOIP_DSP) (VoIPDspInfo bp)) dspNum
  | None => None
  end.

(** The common body of the access functions that return one DSP field. *)
Definition dsp_value (field : VOIP_DSP_INFO → Z) (dspNum : Z)
  (cur : option BOARD_PARAMETERS) : Z * Z :=
  match cur with
  | Some _ =>
      match BpGetVoipDspConfig dspNum cur with
      | Some d =>
          (if field d =? BP_NOT_DEFINED then BP_VALUE_NOT_DEFINED else BP_SUCCESS, field d)
      | None => (BP_BOARD_ID_NOT_FOUND, BP_NOT_DEFINED)
      end
  | None => (BP_BOARD_ID_NOT_SET, BP_NOT_DEFINED)
  end.

Definition BpGetVoipIntrGpio (dspNum : Z) : option BOARD_PARAMETERS → Z * Z :=
  dsp_value usGpioVoipIntr dspNum.
Definition BpGetVoipLedGpio : option BOARD_PARAMETERS → Z * Z := dsp_value usGpioLedVoip 0.
Definition BpGetVoipExtIntr (dspNum : Z) : option BOARD_PARAMETERS → Z * Z :=
  dsp_value usExtIntrVoip dspNum.
Definition BpGetVoipChipSelect (dspNum : Z) : option BOARD_PARAMETERS → Z * Z :=
  dsp_value usCsVoip dspNum.
Definition BpGetTelLine0LedGpio : option BOARD_PARAMETERS → Z * Z := dsp_value usGpioLedLine0 0.
Definition BpGetTelLine1LedGpio : option BOARD_PARAMETERS → Z * Z := dsp_value usGpioLedLine1 0.
Definition BpGetPstnLedGpio : option BOARD_PARAMETERS → Z * Z := dsp_value usGpioLedPSTN 0.

Definition BpGetVoipResetGpio (dspNum : Z) (cur : option BOARD_PARAMETERS) : Z * Z :=
  match cur with
  | Some _ =>
      match BpGetVoipDspConfig dspNum cur with
      | Some d =>
          let v := usGpioVoipReset d in
          (if negb (v =? BP_NOT_DEFINED) || (v =? BP_UNEQUIPPED)
           then BP_SUCCESS else BP_VALUE_NOT_DEFINED, v)
      | None => (BP_BOARD_ID_NOT_FOUND, BP_NOT_DEFINED)
      end
  | None => (BP_BOARD_ID_NOT_SET, BP_NOT_DEFINED)
  end.

(** The common body of the three FXO pin functions: nothing is stored when no
    board is set. *)
Definition fxo_value (field : VOIP_DSP_INFO → Z) (cur : option BOARD_PARAMETERS)
  : Z * option Z :=
  match cur with
  | Some _ =>
      match BpGetVoipDspConfig 0 cur with
      | Some d =>
          (if field d =? BP_NOT_DEFINED then BP_VALUE_NOT_DEFINED else BP_SUCCESS,
           Some (field d))
      | None => (BP_VALUE_NOT_DEFINED, Some 0xFF)
      end
  | None => (BP_BOARD_ID_NOT_SET, None)
  end.

Definition BpGetFxoRelayCtlGpio : option BOARD_PARAMETERS → Z * option Z :=
  fxo_value usGpioRelayCtl.
Definition BpGetFxoRingDetcGpio : option BOARD_PARAMETERS → Z * option Z :=
  fxo_value usGpioRingDetc.
Definition BpGetFxoLoopDetcGpio : option BOARD_PARAMETERS → Z * option Z :=
  fxo_value usGpioLoopDetc.

Definition BpGetSlicType (cur : option BOARD_PARAMETERS) : Z * Z :=
  match cur with
  | Some _ =>
      match BpGetVoipDspConfig 0 cur with
      | Some d =>
          let v := u16 (slicType d) in
          (if v =? Slic_Not_Defined then BP_VALUE_NOT_DEFINED else BP_SUCCESS, v)
      | None => (BP_BOARD_ID_NOT_FOUND, Slic_Not_Defined)
      end
  | None => (BP_BOARD_ID_NOT_SET, Slic_Not_Defined)
  end.

Definition BpGetDAAType (cur : option BOARD_PARAMETERS) : Z * Z :=
  match cur with
  | Some _ =>
      match BpGetVoipDspConfig 0 cur with
      | Some d =>
          let v := u16 (daaType d) in
          (if v =? DAA_Not_Defined then BP_VALUE_NOT_DEFINED else BP_SUCCESS, v)
      | None => (BP_BOARD_ID_NOT_FOUND, DAA_Not_Defined)
      end
  | None => (BP_BOARD_ID_NOT_SET, DAA_Not_Defined)
  end.

(** ** Version pins and hardware options *)

Definition BpGetPCBVesionGpio (ucPcbVerBit : Z) (cur : option BOARD_PARAMETERS)
  : Z * option Z :=
  match cur with
  | None => (BP_BOARD_ID_NOT_SET, Some BP_NOT_DEFINED)
  | Some bp =>
      let done v :=
        (if v =? BP_NOT_DEFINED then BP_VALUE_NOT_DEFINED else BP_SUCCESS, Some v) in
      if ucPcbVerBit =? PCB_VERSION_BIT0 then done (usPcbVer_Low (stPcbVersion bp))
      else if ucPcbVerBit =? PCB_VERSION_BIT1 then done (usPcbVer_High (stPcbVersion bp))
      else (BP_VALUE_NOT_DEFINED, None)
  end.

Definition BpGetBoardVesionGpio (ucBoardVerBit : Z) (cur : option BOARD_PARAMETERS)
  : Z * Z :=
  match cur with
  | None => (BP_BOARD_ID_NOT_SET, BP_NOT_DEFINED)
  | Some bp =>
      let done v :=
        (if v =? BP_NOT_DEFINED then BP_VALUE_NOT_DEFINED else BP_SUCCESS, v) in
      if ucBoardVerBit =? BOARD_VERSION_BIT0 then done (usBoardVer_Low (stBoardVersion bp))
      else if ucBoardVerBit =? BOARD_VERSION_BIT1 then done (usBoardVer_Mid (stBoardVersion bp))
      else if ucBoardVerBit =? BOARD_VERSION_BIT2 then done (usBoardVer_High (stBoardVersion bp))
      else (BP_VALUE_NOT_DEFINED, 0)
  end.

Definition hw_option (mask : Z) (cur : option BOARD_PARAMETERS) : Z :=
  match cur with
  | Some bp =>
      if Z.land (usHardwareCfg bp) mask =? 0 then BP_VALUE_NOT_DEFINED else BP_SUCCESS
  | None => BP_BOARD_ID_NOT_SET
  end.

Definition BpIsSupportSerialGpioMode : option BOARD_PARAMETERS → Z :=
  hw_option GPIO_SERIAL_MODE_MASK.
Definition BpIsSupportLedGpioMode : option BOARD_PARAMETERS → Z :=
  hw_option GPIO_LED_MODE_MMASK.
Definition BpIsSupportPcbVersion : option BOARD_PARAMETERS → Z :=
  hw_option GPIO_GET_PCB_VER_MASK.
Definition BpIsSupportBoardVersion : option BOARD_PARAMETERS → Z :=
  hw_option GPIO_GET_BOARD_VER_MASK.

(** ** Wireless SROM patches *)

Record WLAN_SROM_ENTRY : Type := {
  srom_name : list Z;
  wordOffset : Z;
  srom_value : Z
}.

Record WLAN_SROM_PATCH_INFO : Type := {
  srom_szboardId : list Z;
  usWirelessChipId : Z;
  usNeededSize : Z;
  srom_entries : list WLAN_SROM_ENTRY
}.

(** The entries before the terminating one with an empty name. *)
Definition pa_entries : list WLAN_SROM_ENTRY :=
  [{| srom_name := cstr "pa0b0"; wordOffset := 47; srom_value := 0x14ae |};
   {| srom_name := cstr "pa0b1"; wordOffset := 48; srom_value := 0xfad4 |};
   {| srom_name := cstr "pa0b2"; wordOffset := 49; srom_value := 0xfe82 |}].

Definition wlanPaInfo : list WLAN_SROM_PATCH_INFO :=
  [{| srom_szboardId := cstr "96348W3-10"; usWirelessChipId := 0x4318;
      usNeededSize := 49; srom_entries := pa_entries |};
   {| srom_szboardId := cstr "96348W3"; usWirelessChipId := 0x4318;
      usNeededSize := 49; srom_entries := pa_entries |}].

(** Store the entries into the SROM image [base]; [None] is a store outside
    it. *)
Fixpoint srom_patch (es : list WLAN_SROM_ENTRY) (base : list Z) : option (list Z) :=
  match es with
  | [] => Some base
  | e :: es' =>
      match buf_write base (wordOffset e) [srom_value e] with
      | Some base' => srom_patch es' base'
      | None => None
      end
  end.

Fixpoint srom_search (infos : list WLAN_SROM_PATCH_INFO) (bp : BOARD_PARAMETERS)
  (chipID sizeInWords : Z) : option WLAN_SROM_PATCH_INFO :=
  match infos with
  | [] => None
  | p :: infos' =>
      if (bpstrcmp (szBoardId bp) (srom_szboardId p) =? 0)
         && (usWirelessChipId p =? chipID) && (usNeededSize p <=? sizeInWords)
      then Some p else srom_search infos' bp chipID sizeInWords
  end.

(** [BpUpdateWirelessSromMap]: [pBase] is [None] for a null pointer.  The board
    pointer is dereferenced without a check. *)
Definition BpUpdateWirelessSromMap (chipID : Z) (pBase : option (list Z))
  (sizeInWords : Z) (cur : option BOARD_PARAMETERS) : outcome (Z * option (list Z)) :=
  match pBase with
  | None => Done (BP_BOARD_ID_NOT_FOUND, None)
  | Some base =>
      if (chipID =? 0) || (sizeInWords <=? 0) then Done (BP_BOARD_ID_NOT_FOUND, pBase)
      else match cur with
           | None => Fault
           | Some bp =>
               match srom_search wlanPaInfo bp chipID sizeInWords with
               | None => Done (BP_BOARD_ID_NOT_FOUND, pBase)
               | Some p =>
                   match srom_patch (srom_entries p) base with
                   | Some base' => Done (BP_SUCCESS, Some base')
                   | None => Fault
                   end
               end
           end
  end.

(** ** Properties of the string comparison *)

Lemma s8_inj a b : is_byte a → is_byte b → s8 a = s8 b → a = b.
Proof. unfold is_byte, s8. intros. Z.div_mod_to_equations. lia. Qed.

Lemma bpstrcmp_refl s : bpstrcmp s s = 0.
Proof.
  induction s as [|c s IH]; [done|]. simpl.
  rewrite Z.ltb_irrefl. unfold Z.gtb. by rewrite Z.compare_refl.
Qed.

Lemma bpstrcmp_eq_0 d s :
  Forall is_byte d → Forall is_byte s → bpstrcmp d s = 0 → d = s.
Proof.
  intros Hd. revert s. induction Hd as [|c d Hc Hd IH]; intros [|c' s] Hs H;
    simpl in H; try done.
  inversion Hs as [|?? Hc' Hs']; subst. rewrite Z.gtb_ltb in H.
  destruct (Z.ltb_spec (s8 c) (s8 c')); [done|].
  destruct (Z.ltb_spec (s8 c') (s8 c)); [done|].
  f_equal; [apply s8_inj; [done..|lia]|by apply IH].
Qed.

Lemma bpstrcmp_antisym d s : bpstrcmp d s = - bpstrcmp s d.
Proof.
  revert s. induction d as [|c d IH]; intros [|c' s]; simpl; try done.
  rewrite !Z.gtb_ltb, IH.
  destruct (Z.ltb_spec (s8 c) (s8 c')), (Z.ltb_spec (s8 c') (s8 c)); lia.
Qed.

Lemma bpstrcmp_range d s : bpstrcmp d s = -1 ∨ bpstrcmp d s = 0 ∨ bpstrcmp d s = 1.
Proof.
  revert s. induction d as [|c d IH]; intros [|c' s]; simpl; try by auto.
  destruct (s8 c <? s8 c'); [by auto|]. destruct (s8 c >? s8 c'); [by auto|]. apply IH.
Qed.

Lemma bpstrcmp_lt_trans a b c :
  bpstrcmp a b = -1 → bpstrcmp b c = -1 → bpstrcmp a c = -1.
Proof.
  revert b c. induction a as [|x a IH]; intros [|y b] [|z c]; simpl; try done.
  rewrite !Z.gtb_ltb.
  destruct (Z.ltb_spec (s8 x) (s8 y)), (Z.ltb_spec (s8 y) (s8 x)),
    (Z.ltb_spec (s8 y) (s8 z)), (Z.ltb_spec (s8 z) (s8 y)),
    (Z.ltb_spec (s8 x) (s8 z)), (Z.ltb_spec (s8 z) (s8 x));
    intros; try done; try lia; eauto.
Qed.

(** [bpstrcmp] is a total order on byte strings: it returns -1, 0 or 1,
    returns 0 exactly on equal strings, swapping the arguments negates the
    result, and "less than" is transitive. *)
Theorem bpstrcmp_total_order a b c :
  Forall is_byte a → Forall is_byte b → Forall is_byte c →
  (bpstrcmp a b = -1 ∨ bpstrcmp a b = 0 ∨ bpstrcmp a b = 1) ∧
  (bpstrcmp a b = 0 ↔ a = b) ∧
  bpstrcmp b a = - bpstrcmp a b ∧
  (bpstrcmp a b = -1 → bpstrcmp b c = -1 → bpstrcmp a c = -1).
Proof.
  intros Ha Hb _. split; [apply bpstrcmp_range|]. split; [|split].
  - split; [by apply bpstrcmp_eq_0|]. intros ->. apply bpstrcmp_refl.
  - apply bpstrcmp_antisym.
  - apply bpstrcmp_lt_trans.
Qed.

Lemma bpstrcmp_total_order_witness :
  bpstrcmp (cstr "HW550") (cstr "HW553") = -1 ∧
  bpstrcmp (cstr "HW553") (cstr "HW550") = - bpstrcmp (cstr "HW550") (cstr "HW553").
Proof.
  split; [reflexivity|].
  apply (bpstrcmp_total_order (cstr "HW550") (cstr "HW553") []);
    repeat constructor; cbv; congruence.
Defined.

(** ** Board selection *)

Definition board_ids : list (list Z) :=
  map cstr ["HW6358GW_A"; "HW6358GW_B"; "HW550"; "HW553"; "HW550_FXO"; "96358VW";
            "96358VW-16"; "96358GW"; "96358GW-16"; "96358M"]%string.

Lemma board_ids_eq : map szBoardId g_BoardParms = board_ids.
Proof. vm_compute. reflexivity. Qed.

Lemma board_ids_NoDup : NoDup (map szBoardId g_BoardParms).
Proof. rewrite board_ids_eq. by apply (bool_decide_unpack _); vm_compute. Qed.

Lemma board_ids_bytes bp : bp ∈ g_BoardParms → Forall is_byte (szBoardId bp).
Proof.
  intros H. assert (szBoardId bp ∈ board_ids) as Hid.
  { rewrite <- board_ids_eq. apply list_elem_of_fmap. eauto. }
  revert Hid. generalize (szBoardId bp). apply Forall_forall.
  by apply (bool_decide_unpack _); vm_compute.
Qed.

Lemma find_board_hit l id bp :
  NoDup (map szBoardId l) → (∀ b, b ∈ l → Forall is_byte (szBoardId b)) →
  bp ∈ l → id = szBoardId bp → find_board l id = Some bp.
Proof.
  intros Hnd Hb Hin ->. induction l as [|b l IH]; [by apply not_elem_of_nil in Hin|].
  cbn [map] in Hnd. apply NoDup_cons in Hnd as [Hni Hnd]. simpl.
  destruct (Z.eqb_spec (bpstrcmp (szBoardId b) (szBoardId bp)) 0) as [E|E].
  - apply bpstrcmp_eq_0 in E; [|apply Hb; set_solver..].
    apply elem_of_cons in Hin as [->|Hin]; [done|].
    exfalso. apply Hni. rewrite E. apply list_elem_of_fmap. eauto.
  - apply elem_of_cons in Hin as [->|Hin]; [by rewrite bpstrcmp_refl in E|].
    apply IH; [done| |done]. intros. apply Hb. set_solver.
Qed.

Lemma find_board_miss l id :
  Forall is_byte id → (∀ b, b ∈ l → Forall is_byte (szBoardId b)) →
  (∀ b, b ∈ l → id ≠ szBoardId b) → find_board l id = None.
Proof.
  intros Hid. induction l as [|b l IH]; intros Hb Hne; simpl; [done|].
  destruct (Z.eqb_spec (bpstrcmp (szBoardId b) id) 0) as [E|E].
  - apply bpstrcmp_eq_0 in E; [|apply Hb; set_solver|done].
    by destruct (Hne b ltac:(set_solver)).
  - apply IH; intros; [apply Hb|apply Hne]; set_solver.
Qed.

(** [BpSetBoardId] selects the table whose id is the argument and reports
    success; for an id of no table it reports [BP_BOARD_ID_NOT_FOUND] and keeps
    the board that was selected. *)
Theorem BpSetBoardId_correct id cur :
  Forall is_byte id →
  (∀ bp, bp ∈ g_BoardParms → szBoardId bp = id →
     BpSetBoardId id cur = (BP_SUCCESS, Some bp)) ∧
  ((∀ bp, bp ∈ g_BoardParms → szBoardId bp ≠ id) →
     BpSetBoardId id cur = (BP_BOARD_ID_NOT_FOUND, cur)).
Proof.
  intros Hid. unfold BpSetBoardId. split.
  - intros bp Hin E.
    by rewrite (find_board_hit _ _ bp board_ids_NoDup board_ids_bytes).
  - intros Hne. rewrite find_board_miss; [done|done|apply board_ids_bytes|].
    intros b Hb E. by destruct (Hne b Hb).
Qed.

Lemma BpSetBoardId_correct_witness :
  BpSetBoardId (cstr "96358M") None = (BP_SUCCESS, Some g_bcm96358m) ∧
  BpSetBoardId (cstr "HG630") (Some g_bcm96358m) =
    (BP_BOARD_ID_NOT_FOUND, Some g_bcm96358m).
Proof.
  split.
  - apply (BpSetBoardId_correct (cstr "96358M") None);
      [repeat constructor; cbv; congruence| |reflexivity].
    unfold g_BoardParms. set_solver.
  - apply (BpSetBoardId_correct (cstr "HG630") (Some g_bcm96358m));
      [repeat constructor; cbv; congruence|].
    intros bp Hin E. assert (szBoardId bp ∈ board_ids) as Hid.
    { rewrite <- board_ids_eq. apply list_elem_of_fmap. eauto. }
    rewrite E in Hid. revert Hid. by apply (bool_decide_unpack _).
Defined.

(** ** The list of board ids *)

(** [slot_holds buf i s]: the slot [i] of the buffer holds the string [s] with
    its terminating NUL. *)
Definition slot_holds (buf : list Z) (i : nat) (s : list Z) : Prop :=
  ∀ k c, (s ++ [0]) !! k = Some c → buf !! (16 * i + k)%nat = Some c.

Lemma board_ids_loop_correct l n i buf :
  (∀ b, b ∈ l → (length (szBoardId b) < 16)%nat) →
  0 ≤ n → length buf = (16 * (i + Z.to_nat n))%nat →
  ∃ buf', board_ids_loop l n (Z.of_nat i) buf =
            Some (Z.of_nat (i + Nat.min (Z.to_nat n) (length l)), buf') ∧
    length buf' = length buf ∧
    (∀ k, (k < 16 * i)%nat → buf' !! k = buf !! k) ∧
    (∀ j b, l !! j = Some b → (j < Z.to_nat n)%nat → slot_holds buf' (i + j) (szBoardId b)).
Proof.
  revert n i buf. induction l as [|b l IH]; intros n i buf Hlen Hn Hbuf; cbn [board_ids_loop].
  { exists buf. rewrite Nat.min_0_r, Nat.add_0_r. split_and!; by try done. }
  destruct (Z.eqb_spec n 0) as [->|Hn0].
  { exists buf. rewrite Nat.add_0_r. split_and!; try done. intros. simpl in *. lia. }
  assert (length (szBoardId b) < 16)%nat as Hb by (apply Hlen; set_solver).
  change BP_BOARD_ID_LEN with 16.
  destruct (buf_write buf (Z.of_nat i * 16) (szBoardId b ++ [0])) as [buf1|] eqn:E.
  2:{ rewrite buf_write_Some in E; [done|lia|rewrite length_app; simpl; lia]. }
  pose proof (buf_write_length _ _ _ _ E) as Hl1.
  destruct (IH (n - 1) (S i) buf1) as (buf'&Heq&Hl'&Hold&Hnew);
    [intros; apply Hlen; set_solver|lia|lia|].
  replace (Z.of_nat i + 1) with (Z.of_nat (S i)) by lia.
  exists buf'. split_and!.
  - rewrite Heq. do 2 f_equal. cbn [length]. lia.
  - lia.
  - intros k Hk. rewrite Hold by lia. rewrite (buf_write_lookup _ _ _ _ _ E).
    rewrite decide_False; [done|]. lia.
  - intros [|j] b' Hj Hjn; simpl in Hj.
    + injection Hj as <-. intros k c Hk. rewrite Nat.add_0_r.
      pose proof (lookup_lt_Some _ _ _ Hk) as Hkl.
      pose proof Hkl as Hkl'. rewrite length_app in Hkl'. simpl in Hkl'.
      rewrite Hold by lia. rewrite (buf_write_lookup _ _ _ _ _ E).
      rewrite decide_True by lia. rewrite <- Hk. f_equal. lia.
    + replace (i + S j)%nat with (S i + j)%nat by lia. apply Hnew; [done|lia].
Qed.

(** [BpGetBoardIds] on a buffer of [n] slots stores inside the buffer only,
    returns the number of ids stored (all ten, or [n] if fewer) and leaves in
    slot [j] the NUL-terminated id of table [j]. *)
Theorem BpGetBoardIds_correct buf n :
  0 ≤ n → Z.of_nat (length buf) = BP_BOARD_ID_LEN * n →
  ∃ buf', BpGetBoardIds buf n = Some (Z.min n 10, buf') ∧
    length buf' = length buf ∧
    ∀ j b, g_BoardParms !! j = Some b → Z.of_nat j < n →
      slot_holds buf' j (szBoardId b).
Proof.
  intros Hn Hbuf. change BP_BOARD_ID_LEN with 16 in Hbuf. unfold BpGetBoardIds.
  destruct (board_ids_loop_correct g_BoardParms n 0 buf) as (buf'&Heq&Hl&_&Hslot).
  - intros b Hb. assert (szBoardId b ∈ board_ids) as Hid.
    { rewrite <- board_ids_eq. apply list_elem_of_fmap. eauto. }
    revert Hid. generalize (szBoardId b). apply Forall_forall.
    by apply (bool_decide_unpack _); vm_compute.
  - done.
  - lia.
  - exists buf'. split_and!; [|done|].
    + change 0 with (Z.of_nat 0) at 1. rewrite Heq. do 2 f_equal.
      change (length g_BoardParms) with 10%nat. lia.
    + intros j b Hj Hjn. apply (Hslot j b Hj). lia.
Qed.

Lemma BpGetBoardIds_correct_witness :
  ∃ buf', BpGetBoardIds (replicate 64 0) 4 = Some (Z.min 4 10, buf') ∧
    length buf' = length (replicate 64 0) ∧
    ∀ j b, g_BoardParms !! j = Some b → Z.of_nat j < 4 → slot_holds buf' j (szBoardId b).
Proof. apply BpGetBoardIds_correct; [lia|reflexivity]. Defined.

(** ** The HG553 board *)

(** The configuration the drivers see on the product's board: after
    [BpSetBoardId("HW553")] the access functions report a 64 MB SDRAM, 64 KB of
    persistent storage, the reset button on GPIO 37 and the LEDs on the pins of
    the table (all active low), no PCB version pins, and the LED and
    board-version options. *)
Theorem HW553_configuration cur :
  let bp := (BpSetBoardId (cstr "HW553") cur).2 in
  (BpSetBoardId (cstr "HW553") cur).1 = BP_SUCCESS ∧
  BpGetSdramSize bp = (BP_SUCCESS, BP_MEMORY_64MB_1_CHIP) ∧
  BpGetPsiSize bp = (BP_SUCCESS, 64) ∧
  BpGetGPIOverlays bp = (BP_SUCCESS, Z.lor BP_OVERLAY_PCI BP_OVERLAY_SPI_EXT_CS) ∧
  BpGetPressAndHoldResetGpio bp = (BP_SUCCESS, BP_GPIO_37_AL) ∧
  BpGetAdslLedGpio bp = (BP_SUCCESS, BP_GPIO_23_AL) ∧
  BpGetAdslFailLedGpio bp = (BP_SUCCESS, BP_GPIO_22_AL) ∧
  BpGetWirelessFailLedGpio bp = (BP_SUCCESS, BP_GPIO_25_AL) ∧
  BpGetHspaLedGpio bp = (BP_SUCCESS, BP_GPIO_13_AL) ∧
  BpGetHspaFailLedGpio bp = (BP_SUCCESS, BP_GPIO_12_AL) ∧
  BpGetInternetLedGpio bp = (BP_SUCCESS, BP_GPIO_35_AL) ∧
  BpGetInternetFailLedGpio bp = (BP_SUCCESS, BP_GPIO_34_AL) ∧
  BpGetUsbLedGpio bp = (BP_VALUE_NOT_DEFINED, BP_NOT_DEFINED) ∧
  BpGetVoipLedGpio bp = (BP_VALUE_NOT_DEFINED, BP_NOT_DEFINED) ∧
  BpGetSlicType bp = (BP_SUCCESS, Legerity_88221) ∧
  BpGetDAAType bp = (BP_VALUE_NOT_DEFINED, DAA_Not_Defined) ∧
  BpGetPCBVesionGpio PCB_VERSION_BIT0 bp = (BP_VALUE_NOT_DEFINED, Some BP_NOT_DEFINED) ∧
  BpGetBoardVesionGpio BOARD_VERSION_BIT0 bp = (BP_SUCCESS, BP_GPIO_7_AL) ∧
  BpIsSupportLedGpioMode bp = BP_SUCCESS ∧
  BpIsSupportBoardVersion bp = BP_SUCCESS ∧
  BpIsSupportSerialGpioMode bp = BP_VALUE_NOT_DEFINED ∧
  BpIsSupportPcbVersion bp = BP_VALUE_NOT_DEFINED.
Proof. split_and!; vm_compute; reflexivity. Qed.

(** The LED fields of a board, normal and failure pins. *)
Definition led_fields (bp : BOARD_PARAMETERS) : list Z :=
  [usGpioLedAdsl bp; usGpioLedAdslFail bp; usGpioLedWireless bp; usGpioLedWirelessFail bp;
   usGpioLedUsb bp; usGpioLedHpna bp; usGpioLedWanData bp; usGpioLedWanDataFail bp;
   usGpioLedHspa bp; usGpioLedHspaFail bp; usGpioLedInternet bp; usGpioLedInternetFail bp;
   usGpioLedPpp bp; usGpioLedPppFail bp; usGpioLedBlPowerOn bp; usGpioLedBlResetCfg bp;
   usGpioLedBlStop bp; usGpioLedSesWireless bp].

Definition led_pins (bp : BOARD_PARAMETERS) : list Z :=
  map (λ v, Z.land v BP_GPIO_NUM_MASK)
      (filter (λ v, v ≠ BP_NOT_DEFINED) (led_fields bp)).

(** On the HG553 board no two LED functions share a GPIO pin, every LED
    pin is one of the 38 pins of the chip, and no LED is on the reset button's
    pin. *)
Theorem HW553_led_pins_disjoint :
  NoDup (led_pins g_huawei96358gw_HG553) ∧
  Forall (λ p, 0 ≤ p ≤ 37) (led_pins g_huawei96358gw_HG553) ∧
  Z.land (usGpioPressAndHoldReset g_huawei96358gw_HG553) BP_GPIO_NUM_MASK
    ∉ led_pins g_huawei96358gw_HG553.
Proof. split_and!; apply (bool_decide_unpack _); vm_compute; exact I. Qed.

(** Every other table of the list still has the layout from before the
    field [usGPIOOverlay] was added, so its initialisers land in the wrong
    fields: although all ten tables write 64 ([BP_PSI_DEFAULT_SIZE]) for the
    persistent storage size, selecting any board other than HW553 makes
    [BpGetPsiSize] report success with another value (a chip select or
    [BP_NOT_DEFINED]). *)
Theorem only_HW553_reports_its_psi_size bp cur :
  bp ∈ g_BoardParms → szBoardId bp ≠ cstr "HW553" →
  ∃ k, BpGetPsiSize (BpSetBoardId (szBoardId bp) cur).2 = (BP_SUCCESS, k) ∧
       (k = BP_CS_1 ∨ k = BP_NOT_DEFINED).
Proof.
  intros Hin Hne. revert Hne. change (bp ∈ g_BoardParms) in Hin.
  repeat (apply elem_of_cons in Hin as [->|Hin];
    [first [intros []; vm_compute; reflexivity
           |intros _; vm_compute; eexists; split; [reflexivity|auto]]|]).
  by apply not_elem_of_nil in Hin.
Qed.

Lemma only_HW553_reports_its_psi_size_witness :
  ∃ k, BpGetPsiSize (BpSetBoardId (szBoardId g_bcm96358gw) None).2 = (BP_SUCCESS, k) ∧
       (k = BP_CS_1 ∨ k = BP_NOT_DEFINED).
Proof.
  apply (only_HW553_reports_its_psi_size g_bcm96358gw None).
  - unfold g_BoardParms. set_solver.
  - vm_compute. congruence.
Defined.

(** ** Wireless SROM patches *)

Lemma srom_search_96358 bp chipID size :
  bp ∈ g_BoardParms → srom_search wlanPaInfo bp chipID size = None.
Proof.
  intros Hin. unfold srom_search, wlanPaInfo. cbn [srom_szboardId].
  assert (Forall (λ s, (bpstrcmp s (cstr "96348W3-10") =? 0) = false ∧
                       (bpstrcmp s (cstr "96348W3") =? 0) = false) board_ids) as H.
  { repeat constructor. }
  rewrite Forall_forall in H. destruct (H (szBoardId bp)) as [E1 E2].
  { rewrite <- board_ids_eq. apply list_elem_of_fmap. eauto. }
  by rewrite E1, E2.
Qed.

(** In the BCM96358 build [BpUpdateWirelessSromMap] never patches: with
    any of the boards selected it reports [BP_BOARD_ID_NOT_FOUND] and leaves the
    SROM image as it was; without a selected board (and with usable arguments)
    it dereferences a null pointer. *)
Theorem BpUpdateWirelessSromMap_96358 chipID base size :
  chipID ≠ 0 → 0 < size →
  (∀ bp, bp ∈ g_BoardParms →
     BpUpdateWirelessSromMap chipID (Some base) size (Some bp) =
       Done (BP_BOARD_ID_NOT_FOUND, Some base)) ∧
  BpUpdateWirelessSromMap chipID (Some base) size None = Fault.
Proof.
  intros Hc Hs. unfold BpUpdateWirelessSromMap.
  rewrite (proj2 (Z.eqb_neq chipID 0)), (proj2 (Z.leb_gt size 0)) by lia. simpl orb.
  split; [|done]. intros bp Hin. cbv iota. by rewrite srom_search_96358.
Qed.

Lemma BpUpdateWirelessSromMap_96358_witness :
  BpUpdateWirelessSromMap 0x4318 (Some [1; 2]) 2 None = Fault.
Proof. apply (BpUpdateWirelessSromMap_96358 0x4318 [1; 2] 2); lia. Defined.

Lemma srom_search_96348W3 bp size :
  szBoardId bp = cstr "96348W3" → 49 ≤ size →
  ∃ p, srom_search wlanPaInfo bp 0x4318 size = Some p ∧ srom_entries p = pa_entries.
Proof.
  intros E Hs. unfold wlanPaInfo. cbn [srom_search srom_szboardId usWirelessChipId usNeededSize].
  rewrite E, (proj2 (Z.leb_le 49 size)) by lia. by eexists.
Qed.

(** The size a patch asks for is one word short: for the board "96348W3"
    an SROM image of exactly [usNeededSize] = 49 words passes the size check and
    the last entry (word offset 49) is stored behind its end; with 50 words the
    three words are patched. *)
Theorem srom_needed_size_off_by_one bp base :
  szBoardId bp = cstr "96348W3" →
  (Z.of_nat (length base) = 49 →
     BpUpdateWirelessSromMap 0x4318 (Some base) 49 (Some bp) = Fault) ∧
  (Z.of_nat (length base) = 50 →
     BpUpdateWirelessSromMap 0x4318 (Some base) 50 (Some bp) =
       Done (BP_SUCCESS, Some (take 47 base ++ [0x14ae; 0xfad4; 0xfe82]))).
Proof.
  intros E. split; intros Hl.
  - destruct (srom_search_96348W3 bp 49 E ltac:(lia)) as (p&Hp&He).
    unfold BpUpdateWirelessSromMap. cbn [orb Z.eqb Z.leb Z.compare]. rewrite Hp, He.
    destruct (srom_patch pa_entries base) as [b|] eqn:Ep; [exfalso|done].
    unfold srom_patch, pa_entries in Ep. cbn [wordOffset srom_value] in Ep.
    destruct (buf_write base 47 [0x14ae]) as [b1|] eqn:E1; [|done].
    destruct (buf_write b1 48 [0xfad4]) as [b2|] eqn:E2; [|done].
    destruct (buf_write b2 49 [0xfe82]) as [b3|] eqn:E3; [|done].
    apply buf_write_length in E1, E2. apply buf_write_inv in E3 as (_&E3&_).
    simpl in E3. lia.
  - destruct (srom_search_96348W3 bp 50 E ltac:(lia)) as (p&Hp&He).
    unfold BpUpdateWirelessSromMap. cbn [orb Z.eqb Z.leb Z.compare]. rewrite Hp, He.
    clear Hp He. assert (50 = length base)%nat as Hn by lia. clear Hl.
    do 50 (destruct base as [|? base]; [discriminate Hn|]). destruct base; [|discriminate Hn].
    reflexivity.
Qed.

Lemma srom_needed_size_off_by_one_witness :
  BpUpdateWirelessSromMap 0x4318 (Some (replicate 49 0)) 49
    (Some (board_of_init (B [Str (cstr "96348W3")]))) = Fault.
Proof. apply srom_needed_size_off_by_one; vm_compute; reflexivity. Defined.
