(* ===== verification/FlashApi.v ===== *)
(** * The flash device interface (flash_api.h, flash_api.c)

    [flash_device_info_t] is the record of function pointers a flash driver
    fills in; [flash_api.c] dispatches to the driver found by [flash_init].
    [FlashContract] states what the rest of the software relies on: a linear
    array of bytes divided into sectors, read anywhere, erased by sector, written
    where it is erased.  Clients are proved against the contract; the CFI driver
    discharges it in [CfiFlash]. *)

From stdpp Require Import base numbers list strings.
From Stdlib Require Import ZArith Lia.
From S2P Require Import Prelude.

Definition FLASH_API_OK : Z := 1.
Definition FLASH_API_ERROR : Z := -1.

(** A driver over the state [S].  [fn_flash_read_buf sector offset numbytes]
    returns its code and the bytes it stored into the caller's buffer ([None]
    when it stores nothing); [fn_flash_write_buf sector offset buffer numbytes]
    is given the bytes from the caller's pointer on. *)
Record flash_device_info_t (S : Type) : Type := {
  flash_device_id : S → Z;
  flash_device_name : S → list Z;
  fn_flash_sector_erase_int : Z → M S Z;
  fn_flash_read_buf : Z → Z → Z → M S (Z * option (list Z));
  fn_flash_write_buf : Z → Z → list Z → Z → M S Z;
  fn_flash_get_numsectors : M S Z;
  fn_flash_get_sector_size : Z → M S Z;
  fn_flash_get_memptr : Z → M S Z;
  fn_flash_get_blk : Z → M S Z;
  fn_flash_get_total_size : M S Z;
  fn_flash_get_total_memory_mapped_size : M S Z
}.

Arguments flash_device_id {S}.
Arguments flash_device_name {S}.
Arguments fn_flash_sector_erase_int {S}.
Arguments fn_flash_read_buf {S}.
Arguments fn_flash_write_buf {S}.
Arguments fn_flash_get_numsectors {S}.
Arguments fn_flash_get_sector_size {S}.
Arguments fn_flash_get_memptr {S}.
Arguments fn_flash_get_blk {S}.
Arguments fn_flash_get_total_size {S}.
Arguments fn_flash_get_total_memory_mapped_size {S}.

(** ** Dispatch *)

Section dispatch.
Context {S : Type}.
Abbreviation dev := (flash_device_info_t S).

(** [g] is [g_flash_info]. *)
Definition flash_sector_erase_int (g : option dev) (sector : Z) : M S Z :=
  match g with
  | Some d => fn_flash_sector_erase_int d sector
  | None => mret FLASH_API_ERROR
  end.

Definition flash_read_buf (g : option dev) (sector offset numbytes : Z)
  : M S (Z * option (list Z)) :=
  match g with
  | Some d => fn_flash_read_buf d sector offset numbytes
  | None => mret (FLASH_API_ERROR, None)
  end.

Definition flash_write_buf (g : option dev) (sector offset : Z) (buffer : list Z)
  (numbytes : Z) : M S Z :=
  match g with
  | Some d => fn_flash_write_buf d sector offset buffer numbytes
  | None => mret FLASH_API_ERROR
  end.

Definition flash_get_numsectors (g : option dev) : M S Z :=
  match g with
  | Some d => fn_flash_get_numsectors d
  | None => mret FLASH_API_ERROR
  end.

Definition flash_get_sector_size (g : option dev) (sector : Z) : M S Z :=
  match g with
  | Some d => fn_flash_get_sector_size d sector
  | None => mret FLASH_API_ERROR
  end.

Definition flash_get_memptr (g : option dev) (sector : Z) : M S Z :=
  match g with
  | Some d => fn_flash_get_memptr d sector
  | None => mret 0
  end.

Definition flash_get_blk (g : option dev) (addr : Z) : M S Z :=
  match g with
  | Some d => fn_flash_get_blk d addr
  | None => mret FLASH_API_ERROR
  end.

Definition flash_get_total_size (g : option dev) : M S Z :=
  match g with
  | Some d => fn_flash_get_total_size d
  | None => mret FLASH_API_ERROR
  end.

Definition flash_get_total_memory_mapped_size (g : option dev) : M S Z :=
  match g with
  | Some d => fn_flash_get_total_memory_mapped_size d
  | None => mret FLASH_API_ERROR
  end.

(** ** Initialisation *)

(** What [flash_init] prints. *)
Inductive flash_report : Type :=
| FlashFound (parallel : bool) (name : list Z) (id kbytes : Z)
| ParallelNotSupported (id : Z)
| SerialNotSupported (id : Z)
| FlashNotFound.

(** [flash_init]: [cfi_flash_init] and [spi_flash_init] return their code and
    the device record they hand out; the include flags are those of the build.
    Returns the code, the new [g_flash_info] and the report. *)
Definition flash_init (include_cfi include_spi : bool)
  (cfi_flash_init spi_flash_init : M S (Z * option dev)) (g0 : option dev)
  : M S (Z * option dev * flash_report) :=
  '(ret1, g1, cfi_devid) ←
    (if include_cfi then
       '(ret, info) ← cfi_flash_init;
       if ret =? FLASH_API_OK then mret (ret, info, 0xffff)
       else match info with
            | Some d => s ← get; mret (ret, g0, flash_device_id d s)
            | None => mret (ret, g0, 0xffff)
            end
     else mret (FLASH_API_ERROR, g0, 0xffff));
  '(ret2, g2, spi_devid) ←
    (if negb (ret1 =? FLASH_API_OK) && include_spi then
       '(ret, info) ← spi_flash_init;
       if ret =? FLASH_API_OK then mret (ret, info, 0xffff)
       else match info with
            | Some d => s ← get; mret (ret, g1, flash_device_id d s)
            | None => mret (ret, g1, 0xffff)
            end
     else mret (ret1, g1, 0xffff));
  if ret2 =? FLASH_API_OK then
    match g2 with
    | Some d =>
        size ← flash_get_total_size g2;
        s ← get;
        mret (ret2, g2, FlashFound (ret1 =? FLASH_API_OK) (flash_device_name d s)
                          (flash_device_id d s) (Z.quot size 1024))
    | None => fault
    end
  else
    mret (ret2, g2,
      if negb (cfi_devid =? 0xffff) && negb (cfi_devid =? 0) then
        ParallelNotSupported cfi_devid
      else if negb (spi_devid =? 0xffff) && negb (spi_devid =? 0) then
        SerialNotSupported spi_devid
      else FlashNotFound).
End dispatch.

(** ** The contract *)

(** Sector [k] starts at the sum of the sizes before it. *)
Definition sec_base (size : Z → Z) (k : Z) : Z := sum_from size 0 (Z.to_nat k).

(** [FlashContract FB d]: [d] drives a flash mapped at address [FB].  The state
    is good in [fc_ok]; [fc_mem] is its contents by byte offset. *)
Class FlashContract {S : Type} (FB : Z) (d : flash_device_info_t S) : Type := {
  fc_ok : S → Prop;
  fc_mem : S → Z → Z;
  fc_num : Z;
  fc_size : Z → Z;
  fc_num_range : 0 < fc_num ≤ 65536;
  fc_size_pos : ∀ k, 0 ≤ k < fc_num → 0 < fc_size k ∧ Z.even (fc_size k) = true;
  fc_total_range : sec_base fc_size fc_num < 2 ^ 31;
  fc_mem_byte : ∀ s a, fc_ok s → 0 ≤ a < sec_base fc_size fc_num → is_byte (fc_mem s a);
  fc_numsectors : ∀ s, fc_ok s → fn_flash_get_numsectors d s = Done (fc_num, s);
  fc_sector_size : ∀ s k, fc_ok s → 0 ≤ k < fc_num →
    fn_flash_get_sector_size d k s = Done (fc_size k, s);
  fc_memptr : ∀ s k, fc_ok s → 0 ≤ k < fc_num →
    fn_flash_get_memptr d k s = Done (u32 (FB + sec_base fc_size k), s);
  fc_total_size : ∀ s, fc_ok s →
    fn_flash_get_total_size d s = Done (sec_base fc_size fc_num, s);
  fc_blk : ∀ s k a, fc_ok s → 0 ≤ k < fc_num →
    sec_base fc_size k ≤ a < sec_base fc_size k + fc_size k →
    fn_flash_get_blk d (s32 (FB + a)) s = Done (k, s);
  fc_blk_end : ∀ s a, fc_ok s → sec_base fc_size fc_num ≤ a < 2 ^ 31 →
    fn_flash_get_blk d (s32 (FB + a)) s = Done (-1, s);
  (** Reading returns the contents and changes nothing. *)
  fc_read : ∀ s k off n, fc_ok s → 0 ≤ k < fc_num → 0 ≤ off → 0 ≤ n →
    sec_base fc_size k + off + n ≤ sec_base fc_size fc_num →
    ∃ s', fn_flash_read_buf d k off n s =
      Done ((FLASH_API_OK,
             Some (map (λ i, fc_mem s (sec_base fc_size k + off + Z.of_nat i))
                       (seq 0 (Z.to_nat n)))), s') ∧
      fc_ok s' ∧
      ∀ a, fc_mem s' a = fc_mem s a;
  (** Erasing sets the bytes of the sector to 0xff and no others. *)
  fc_erase : ∀ s k, fc_ok s → 0 ≤ k < fc_num →
    ∃ s', fn_flash_sector_erase_int d k s = Done (FLASH_API_OK, s') ∧
      fc_ok s' ∧
      ∀ a, fc_mem s' a =
        if decide (sec_base fc_size k ≤ a < sec_base fc_size k + fc_size k)
        then 255 else fc_mem s a;
  (** Writing an even number of bytes at an even offset of an erased part of a
      sector stores them there, changes nothing else and returns the number of
      bytes. *)
  fc_write : ∀ s k off buf n, fc_ok s → 0 ≤ k < fc_num → 0 ≤ off → 0 ≤ n →
    Z.even off = true → Z.even n = true → off + n ≤ fc_size k →
    n ≤ Z.of_nat (length buf) → Forall is_byte buf →
    (∀ a, sec_base fc_size k + off ≤ a < sec_base fc_size k + off + n →
       fc_mem s a = 255) →
    ∃ s', fn_flash_write_buf d k off buf n s = Done (n, s') ∧
      fc_ok s' ∧
      ∀ a, fc_mem s' a =
        if decide (sec_base fc_size k + off ≤ a < sec_base fc_size k + off + n)
        then nth (Z.to_nat (a - sec_base fc_size k - off)) buf 0 else fc_mem s a
}.

(** ** Sector arithmetic *)

Lemma sec_base_0 size : sec_base size 0 = 0.
Proof. done. Qed.

Lemma sec_base_succ size k :
  0 ≤ k → sec_base size (k + 1) = sec_base size k + size k.
Proof.
  intros Hk. unfold sec_base.
  replace (Z.to_nat (k + 1)) with (S (Z.to_nat k)) by lia.
  rewrite sum_from_snoc. f_equal. f_equal. lia.
Qed.

Lemma sec_base_mono size n j k :
  (∀ i, 0 ≤ i < n → 0 < size i) → 0 ≤ j ≤ k → k ≤ n →
  sec_base size j + (k - j) ≤ sec_base size k.
Proof.
  intros Hpos [Hj Hjk] Hkn. revert Hkn.
  pattern k. apply (Zlt_lower_bound_ind _ j); [|lia].
  intros x IH Hx Hxn. destruct (decide (x = j)) as [->|]; [lia|].
  replace x with (x - 1 + 1) by lia. rewrite sec_base_succ by lia.
  pose proof (IH (x - 1) ltac:(lia) ltac:(lia)).
  pose proof (Hpos (x - 1) ltac:(lia)). lia.
Qed.

(** Every offset of the device lies in exactly one sector. *)
Lemma sec_find size n a :
  (∀ i, 0 ≤ i < n → 0 < size i) → 0 ≤ n → 0 ≤ a < sec_base size n →
  ∃ k, 0 ≤ k < n ∧ sec_base size k ≤ a < sec_base size k + size k.
Proof.
  intros Hpos Hn. pattern n. apply (Zlt_lower_bound_ind _ 0); [|done].
  clear Hn. intros x IH Hx Ha. destruct (decide (x = 0)) as [->|].
  { rewrite sec_base_0 in Ha. lia. }
  destruct (decide (a < sec_base size (x - 1))).
  - destruct (IH (x - 1)) as (k&?&?); [lia..|]. exists k. lia.
  - exists (x - 1). replace x with (x - 1 + 1) in Ha by lia.
    rewrite sec_base_succ in Ha by lia. lia.
Qed.

Lemma sum_from_base size j k :
  0 ≤ j ≤ k → sum_from size j (Z.to_nat (k - j)) = sec_base size k - sec_base size j.
Proof.
  intros. unfold sec_base.
  replace (Z.to_nat k) with (Z.to_nat j + Z.to_nat (k - j))%nat by lia.
  rewrite sum_from_app. replace (0 + Z.of_nat (Z.to_nat j)) with j by lia. lia.
Qed.

Lemma sec_base_ext f g k : (∀ j, 0 ≤ j < k → f j = g j) → 0 ≤ k → sec_base f k = sec_base g k.
Proof. intros H Hk. apply sum_from_ext. intros j Hj. apply H. lia. Qed.

Lemma sec_base_uniform c k : 0 ≤ k → sec_base (λ _, c) k = c * k.
Proof.
  intros Hk. unfold sec_base. rewrite <- (Z2Nat.id k Hk) at 2. clear Hk.
  generalize 0. induction (Z.to_nat k) as [|n IH]; intros z; simpl sum_from; [lia|].
  rewrite IH. lia.
Qed.
