(* ===== verification/CfiTypes.v ===== *)
(** * Data of the CFI flash driver (cfiflash.c)

    Device ids, the table of supported parts, the stored CFI answers for parts
    without a CFI query, and the driver's global variables.  The flash part is
    not part of the program: it is a parameter, the bus [NorBus] through which
    the driver reads and writes 16-bit words. *)

From stdpp Require Import base numbers list strings.
From Stdlib Require Import ZArith Lia.
From S2P Require Import Prelude.

Definition MANUFACTURER_ID_SPANSION : Z := 0x01.
Definition MANUFACTURER_ID_AMD : Z := 0x01.
Definition MANUFACTURER_ID_MXIC : Z := 0xC2.
Definition MANUFACTURER_ID_SST : Z := 0x00.
Definition MANUFACTURER_ID_INTEL : Z := 0x00.
Definition ID_AM29DL800T : Z := 0x224A.
Definition ID_AM29DL800B : Z := 0x22CB.
Definition ID_AM29LV800T : Z := 0x22DA.
Definition ID_AM29LV800B : Z := 0x225B.
Definition ID_AM29LV400B : Z := 0x22BA.
Definition ID_AM29LV200BT : Z := 0x223B.
Definition ID_AM29LV160B : Z := 0x2249.
Definition ID_AM29LV160T : Z := 0x22C4.
Definition ID_AM29LV320T : Z := 0x22F6.
Definition ID_MX29LV320AT : Z := 0x22A7.
Definition ID_AM29LV320B : Z := 0x22F9.
Definition ID_MX29LV320AB : Z := 0x22A8.
Definition ID_MX29LV640BT : Z := 0x22C9.
Definition ID_COMMON_DEVICE_ID_227E : Z := 0x227E.
Definition ID_COMMON_DEVICE_ID_2200 : Z := 0x2200.
Definition ID_COMMON_DEVICE_ID_2201 : Z := 0x2201.
Definition ID_MX29LV128DB : Z := 0x227A.
Definition ID_MX29LV128DT : Z := 0x227E.
Definition ID_S29GL128N : Z := 0x2201.
Definition ID_AM29LV320MB : Z := 0x2200.
Definition ID_AM29LV320MT : Z := 0x2201.
Definition ID_AM29LV320DB : Z := 0x22F9.
Definition ID_AM29LV320DT : Z := 0x22F6.
Definition ID_MX29LV320M : Z := 0x2200.
Definition ID_MX29LV640FT : Z := 0x22ED.
Definition ID_SST39VF200A : Z := 0x2789.
Definition ID_SST39VF400A : Z := 0x2780.
Definition ID_SST39VF800A : Z := 0x2781.
Definition ID_SST39VF1601 : Z := 0x234B.
Definition ID_SST39VF3201 : Z := 0x235B.
Definition ID_I28F160C3T : Z := 0x88C2.
Definition ID_I28F160C3B : Z := 0x88C3.
Definition ID_I28F320C3T : Z := 0x88C4.
Definition ID_I28F320C3B : Z := 0x88C5.
Definition ID_I28F640J3 : Z := 0x8916.

Definition MAXSECTORS : Z := 1024.

(** The kinds of flash, and the commands of [cfi_flash_command]. *)
Inductive flash_family : Type := FLASH_UNDEFINED | FLASH_AMD | FLASH_INTEL | FLASH_SST.

Inductive flash_cmd : Type :=
| FLASH_RESET | FLASH_READ_ID | FLASH_CFIQUERY | FLASH_UB | FLASH_PROG
| FLASH_UBRESET | FLASH_SERASE | FLASH_SUSPEND | FLASH_RESUME.

Definition STATUS_READY : Z := 0.
Definition STATUS_TIMEOUT : Z := 1.

#[export] Instance flash_family_eq_dec : EqDecision flash_family.
Proof. solve_decision. Defined.

(** ** Supported parts *)

Record flash_name_from_id : Type := {
  fnfi_id : Z;
  fnfi_name : list Z;
  manuf_id : Z
}.

(** The entries before the terminating [{0, ""}]. *)
Definition CFI_FLASH_DEVICES : list flash_name_from_id :=
  [{| fnfi_id := ID_MX29LV128DT; fnfi_name := cstr "MX29LV128DT"; manuf_id := MANUFACTURER_ID_MXIC |};
   {| fnfi_id := ID_MX29LV128DB; fnfi_name := cstr "mx29LV128DB"; manuf_id := MANUFACTURER_ID_MXIC |};
   {| fnfi_id := ID_S29GL128N; fnfi_name := cstr "S29GL128N"; manuf_id := MANUFACTURER_ID_SPANSION |};
   {| fnfi_id := ID_AM29DL800T; fnfi_name := cstr "AM29DL800T"; manuf_id := MANUFACTURER_ID_AMD |};
   {| fnfi_id := ID_AM29DL800B; fnfi_name := cstr "AM29DL800B"; manuf_id := MANUFACTURER_ID_AMD |};
   {| fnfi_id := ID_AM29LV800T; fnfi_name := cstr "AM29LV800T"; manuf_id := MANUFACTURER_ID_AMD |};
   {| fnfi_id := ID_AM29LV800B; fnfi_name := cstr "AM29LV800B"; manuf_id := MANUFACTURER_ID_AMD |};
   {| fnfi_id := ID_AM29LV400B; fnfi_name := cstr "AM29LV400B"; manuf_id := MANUFACTURER_ID_AMD |};
   {| fnfi_id := ID_AM29LV200BT; fnfi_name := cstr "AM29LV200BT"; manuf_id := MANUFACTURER_ID_AMD |};
   {| fnfi_id := ID_AM29LV160B; fnfi_name := cstr "AM29LV160B"; manuf_id := MANUFACTURER_ID_AMD |};
   {| fnfi_id := ID_AM29LV160T; fnfi_name := cstr "AM29LV160T"; manuf_id := MANUFACTURER_ID_AMD |};
   {| fnfi_id := ID_AM29LV320T; fnfi_name := cstr "AM29LV320T"; manuf_id := MANUFACTURER_ID_AMD |};
   {| fnfi_id := ID_MX29LV320AT; fnfi_name := cstr "MX29LV320AT"; manuf_id := MANUFACTURER_ID_MXIC |};
   {| fnfi_id := ID_AM29LV320B; fnfi_name := cstr "AM29LV320B"; manuf_id := MANUFACTURER_ID_AMD |};
   {| fnfi_id := ID_MX29LV320AB; fnfi_name := cstr "MX29LV320AB"; manuf_id := MANUFACTURER_ID_MXIC |};
   {| fnfi_id := ID_AM29LV320MB; fnfi_name := cstr "AM29LV320MB"; manuf_id := MANUFACTURER_ID_AMD |};
   {| fnfi_id := ID_AM29LV320MT; fnfi_name := cstr "AM29LV320MT"; manuf_id := MANUFACTURER_ID_AMD |};
   {| fnfi_id := ID_MX29LV320M; fnfi_name := cstr "MX29LV320M"; manuf_id := MANUFACTURER_ID_MXIC |};
   {| fnfi_id := ID_MX29LV640BT; fnfi_name := cstr "MX29LV640BT"; manuf_id := MANUFACTURER_ID_MXIC |};
   {| fnfi_id := ID_MX29LV640FT; fnfi_name := cstr "MX29LV640FT"; manuf_id := MANUFACTURER_ID_MXIC |};
   {| fnfi_id := ID_SST39VF200A; fnfi_name := cstr "SST39VF200A"; manuf_id := MANUFACTURER_ID_SST |};
   {| fnfi_id := ID_SST39VF400A; fnfi_name := cstr "SST39VF400A"; manuf_id := MANUFACTURER_ID_SST |};
   {| fnfi_id := ID_SST39VF800A; fnfi_name := cstr "SST39VF800A"; manuf_id := MANUFACTURER_ID_SST |};
   {| fnfi_id := ID_SST39VF1601; fnfi_name := cstr "SST39VF1601"; manuf_id := MANUFACTURER_ID_SST |};
   {| fnfi_id := ID_SST39VF3201; fnfi_name := cstr "SST39VF3201"; manuf_id := MANUFACTURER_ID_SST |};
   {| fnfi_id := ID_I28F160C3T; fnfi_name := cstr "I28F160C3T"; manuf_id := MANUFACTURER_ID_INTEL |};
   {| fnfi_id := ID_I28F160C3B; fnfi_name := cstr "I28F160C3B"; manuf_id := MANUFACTURER_ID_INTEL |};
   {| fnfi_id := ID_I28F320C3T; fnfi_name := cstr "I28F320C3T"; manuf_id := MANUFACTURER_ID_INTEL |};
   {| fnfi_id := ID_I28F320C3B; fnfi_name := cstr "I28F320C3B"; manuf_id := MANUFACTURER_ID_INTEL |};
   {| fnfi_id := ID_I28F640J3; fnfi_name := cstr "I28F640J3"; manuf_id := MANUFACTURER_ID_INTEL |}].

Definition cfi_data_struct_29W160 : list Z :=
  [0x0020; 0x0049; 0xffff; 0xffff; 0xffff; 0xffff; 0xffff; 0xffff;
   0xffff; 0xffff; 0xffff; 0xffff; 0xffff; 0xffff; 0xffff; 0xffff;
   0x0051; 0x0052; 0x0059; 0x0002; 0x0000; 0x0040; 0x0000; 0x0000;
   0x0000; 0x0000; 0x0000; 0x0027; 0x0036; 0x0000; 0x0000; 0x0004;
   0x0000; 0x000a; 0x0000; 0x0004; 0x0000; 0x0003; 0x0000; 0x0015;
   0x0002; 0x0000; 0x0000; 0x0000; 0x0004; 0x0000; 0x0000; 0x0040;
   0x0000; 0x0001; 0x0000; 0x0020; 0x0000; 0x0000; 0x0000; 0x0080;
   0x0000; 0x001e; 0x0000; 0x0000; 0x0001; 0xffff; 0xffff; 0xffff;
   0x0050; 0x0052; 0x0049; 0x0031; 0x0030; 0x0000; 0x0002; 0x0001;
   0x0001; 0x0004; 0x0000; 0x0000; 0x0000; 0xffff; 0xffff; 0x0002;
   0xffff; 0xffff; 0xffff; 0xffff; 0xffff; 0xffff; 0xffff; 0xffff;
   0xffff; 0xffff; 0xffff; 0xffff; 0xffff; 0xffff; 0xffff; 0xffff;
   0xffff; 0x0888; 0x252b; 0x8c84; 0x7dbc; 0xffff; 0xffff; 0xffff;
   0xffff; 0xffff; 0xffff; 0xffff; 0xffff; 0xffff; 0xffff; 0xffff;
   0xffff; 0xffff; 0xffff; 0xffff; 0xffff; 0xffff; 0xffff; 0xffff;
   0xffff; 0xffff; 0xffff; 0xffff; 0xffff; 0xffff; 0xffff; 0xffff].

Definition cfi_data_struct_29W200 : list Z :=
  [0x0020; 0x0049; 0xffff; 0xffff; 0xffff; 0xffff; 0xffff; 0xffff;
   0xffff; 0xffff; 0xffff; 0xffff; 0xffff; 0xffff; 0xffff; 0xffff;
   0x0051; 0x0052; 0x0059; 0x0002; 0x0000; 0x0040; 0x0000; 0x0000;
   0x0000; 0x0000; 0x0000; 0x0027; 0x0036; 0x0000; 0x0000; 0x0004;
   0x0000; 0x000a; 0x0000; 0x0004; 0x0000; 0x0003; 0x0000; 0x0015;
   0x0002; 0x0000; 0x0000; 0x0000; 0x0004; 0x0000; 0x0000; 0x0040;
   0x0000; 0x0001; 0x0000; 0x0020; 0x0000; 0x0000; 0x0000; 0x0080;
   0x0000; 0x0002; 0x0000; 0x0000; 0x0001; 0xffff; 0xffff; 0xffff;
   0x0050; 0x0052; 0x0049; 0x0031; 0x0030; 0x0000; 0x0002; 0x0001;
   0x0001; 0x0004; 0x0000; 0x0000; 0x0000; 0xffff; 0xffff; 0x0002;
   0xffff; 0xffff; 0xffff; 0xffff; 0xffff; 0xffff; 0xffff; 0xffff;
   0xffff; 0xffff; 0xffff; 0xffff; 0xffff; 0xffff; 0xffff; 0xffff;
   0xffff; 0x0888; 0x252b; 0x8c84; 0x7dbc; 0xffff; 0xffff; 0xffff;
   0xffff; 0xffff; 0xffff; 0xffff; 0xffff; 0xffff; 0xffff; 0xffff;
   0xffff; 0xffff; 0xffff; 0xffff; 0xffff; 0xffff; 0xffff; 0xffff;
   0xffff; 0xffff; 0xffff; 0xffff; 0xffff; 0xffff; 0xffff; 0xffff].

Definition cfi_data_struct_26LV800B : list Z :=
  [0x0020; 0x0049; 0xffff; 0xffff; 0xffff; 0xffff; 0xffff; 0xffff;
   0xffff; 0xffff; 0xffff; 0xffff; 0xffff; 0xffff; 0xffff; 0xffff;
   0x0051; 0x0052; 0x0059; 0x0002; 0x0000; 0x0040; 0x0000; 0x0000;
   0x0000; 0x0000; 0x0000; 0x0027; 0x0036; 0x0000; 0x0000; 0x0004;
   0x0000; 0x000a; 0x0000; 0x0004; 0x0000; 0x0003; 0x0000; 0x0015;
   0x0002; 0x0000; 0x0000; 0x0000; 0x0004; 0x0000; 0x0000; 0x0040;
   0x0000; 0x0001; 0x0000; 0x0020; 0x0000; 0x0000; 0x0000; 0x0080;
   0x0000; 0x000e; 0x0000; 0x0000; 0x0001; 0xffff; 0xffff; 0xffff;
   0x0050; 0x0052; 0x0049; 0x0031; 0x0030; 0x0000; 0x0002; 0x0001;
   0x0001; 0x0004; 0x0000; 0x0000; 0x0000; 0xffff; 0xffff; 0x0002;
   0xffff; 0xffff; 0xffff; 0xffff; 0xffff; 0xffff; 0xffff; 0xffff;
   0xffff; 0xffff; 0xffff; 0xffff; 0xffff; 0xffff; 0xffff; 0xffff;
   0xffff; 0x0888; 0x252b; 0x8c84; 0x7dbc; 0xffff; 0xffff; 0xffff;
   0xffff; 0xffff; 0xffff; 0xffff; 0xffff; 0xffff; 0xffff; 0xffff;
   0xffff; 0xffff; 0xffff; 0xffff; 0xffff; 0xffff; 0xffff; 0xffff;
   0xffff; 0xffff; 0xffff; 0xffff; 0xffff; 0xffff; 0xffff; 0xffff].

(** ** Driver state *)

(** One entry of [meminfo.sec]. *)
Record sector : Type := { sec_size : Z; sec_start : Z; sec_bank : Z }.

Definition no_sector : sector := {| sec_size := 0; sec_start := 0; sec_bank := 0 |}.

(** [struct flashinfo]; the fixed-size array [sec] is a function of the index,
    and every access checks [0 <= index < MAXSECTORS]. *)
Record flashinfo : Type := {
  mi_addr : Z;
  mi_areg : Z;
  mi_nsect : Z;
  mi_bank1start : Z;
  mi_bank2start : Z;
  mi_sec : Z → sector
}.

Record erase_block_t : Type := { sector_size : Z; num_sectors : Z }.

(** [struct cfi_query] with its eight [erase_block] entries. *)
Record cfi_query : Type := {
  num_erase_blocks : Z;
  device_size : Z;
  erase_block : list erase_block_t
}.

(** The bus to the flash part: [nor_rd] and [nor_wr] are 16-bit accesses by
    word address, [nor_rd8] is a byte access by byte address.  A read can change
    the part (status polling). *)
Class NorBus (D : Type) : Type := {
  nor_rd : Z → D → Z * D;
  nor_rd8 : Z → D → Z * D;
  nor_wr : Z → Z → D → D
}.

(** The global variables of cfiflash.c with the part behind the bus.
    [write_sem] is the count of [write_sem_lock]; [in_irq] is [in_interrupt()];
    [signalled] says that a signal comes to the process if it sleeps;
    [ebi_cs0] is the external bus register at 0xfffe2004. *)
Record cfi_state (D : Type) : Type := {
  part : D;
  meminfo : flashinfo;
  flashFamily : flash_family;
  totalSize : Z;
  query : cfi_query;
  g_ManufId : Z;
  g_FlashTopDevice : Z;
  dev_id : Z;
  dev_name : list Z;
  write_sem : Z;
  in_irq : bool;
  signalled : bool;
  ebi_cs0 : Z
}.

Arguments part {D}.
Arguments meminfo {D}.
Arguments flashFamily {D}.
Arguments totalSize {D}.
Arguments query {D}.
Arguments g_ManufId {D}.
Arguments g_FlashTopDevice {D}.
Arguments dev_id {D}.
Arguments dev_name {D}.
Arguments write_sem {D}.
Arguments in_irq {D}.
Arguments signalled {D}.
Arguments ebi_cs0 {D}.

Section setters.
Context {D : Type}.
Implicit Types s : cfi_state D.

Definition set_part (d : D) s : cfi_state D :=
  {| part := d; meminfo := meminfo s; flashFamily := flashFamily s;
     totalSize := totalSize s; query := query s; g_ManufId := g_ManufId s;
     g_FlashTopDevice := g_FlashTopDevice s; dev_id := dev_id s; dev_name := dev_name s;
     write_sem := write_sem s; in_irq := in_irq s; signalled := signalled s; ebi_cs0 := ebi_cs0 s |}.

Definition set_meminfo (m : flashinfo) s : cfi_state D :=
  {| part := part s; meminfo := m; flashFamily := flashFamily s;
     totalSize := totalSize s; query := query s; g_ManufId := g_ManufId s;
     g_FlashTopDevice := g_FlashTopDevice s; dev_id := dev_id s; dev_name := dev_name s;
     write_sem := write_sem s; in_irq := in_irq s; signalled := signalled s; ebi_cs0 := ebi_cs0 s |}.

Definition set_family (f : flash_family) s : cfi_state D :=
  {| part := part s; meminfo := meminfo s; flashFamily := f;
     totalSize := totalSize s; query := query s; g_ManufId := g_ManufId s;
     g_FlashTopDevice := g_FlashTopDevice s; dev_id := dev_id s; dev_name := dev_name s;
     write_sem := write_sem s; in_irq := in_irq s; signalled := signalled s; ebi_cs0 := ebi_cs0 s |}.

Definition set_total (t : Z) s : cfi_state D :=
  {| part := part s; meminfo := meminfo s; flashFamily := flashFamily s;
     totalSize := t; query := query s; g_ManufId := g_ManufId s;
     g_FlashTopDevice := g_FlashTopDevice s; dev_id := dev_id s; dev_name := dev_name s;
     write_sem := write_sem s; in_irq := in_irq s; signalled := signalled s; ebi_cs0 := ebi_cs0 s |}.

Definition set_query (q : cfi_query) s : cfi_state D :=
  {| part := part s; meminfo := meminfo s; flashFamily := flashFamily s;
     totalSize := totalSize s; query := q; g_ManufId := g_ManufId s;
     g_FlashTopDevice := g_FlashTopDevice s; dev_id := dev_id s; dev_name := dev_name s;
     write_sem := write_sem s; in_irq := in_irq s; signalled := signalled s; ebi_cs0 := ebi_cs0 s |}.

Definition set_manuf (m : Z) s : cfi_state D :=
  {| part := part s; meminfo := meminfo s; flashFamily := flashFamily s;
     totalSize := totalSize s; query := query s; g_ManufId := m;
     g_FlashTopDevice := g_FlashTopDevice s; dev_id := dev_id s; dev_name := dev_name s;
     write_sem := write_sem s; in_irq := in_irq s; signalled := signalled s; ebi_cs0 := ebi_cs0 s |}.

Definition set_top (t : Z) s : cfi_state D :=
  {| part := part s; meminfo := meminfo s; flashFamily := flashFamily s;
     totalSize := totalSize s; query := query s; g_ManufId := g_ManufId s;
     g_FlashTopDevice := t; dev_id := dev_id s; dev_name := dev_name s;
     write_sem := write_sem s; in_irq := in_irq s; signalled := signalled s; ebi_cs0 := ebi_cs0 s |}.

Definition set_dev (i : Z) (n : list Z) s : cfi_state D :=
  {| part := part s; meminfo := meminfo s; flashFamily := flashFamily s;
     totalSize := totalSize s; query := query s; g_ManufId := g_ManufId s;
     g_FlashTopDevice := g_FlashTopDevice s; dev_id := i; dev_name := n;
     write_sem := write_sem s; in_irq := in_irq s; signalled := signalled s; ebi_cs0 := ebi_cs0 s |}.

Definition set_sem (n : Z) s : cfi_state D :=
  {| part := part s; meminfo := meminfo s; flashFamily := flashFamily s;
     totalSize := totalSize s; query := query s; g_ManufId := g_ManufId s;
     g_FlashTopDevice := g_FlashTopDevice s; dev_id := dev_id s; dev_name := dev_name s;
     write_sem := n; in_irq := in_irq s; signalled := signalled s; ebi_cs0 := ebi_cs0 s |}.

Definition set_ebi (e : Z) s : cfi_state D :=
  {| part := part s; meminfo := meminfo s; flashFamily := flashFamily s;
     totalSize := totalSize s; query := query s; g_ManufId := g_ManufId s;
     g_FlashTopDevice := g_FlashTopDevice s; dev_id := dev_id s; dev_name := dev_name s;
     write_sem := write_sem s; in_irq := in_irq s; signalled := signalled s; ebi_cs0 := e |}.
End setters.
