(* ===== verification/CfiFlash.v ===== *)
(** * The CFI flash driver (cfiflash.c)

    Every function of the driver, in the order of the source, for the Linux
    build on the BCM96358 ([_CFE_] undefined, [CONFIG_BCM96358] defined).
    [FLASH_BASE] is the address the part is mapped at.  The polling loops of
    [cfi_flash_wait] are cut off after [fuel] reads. *)

From stdpp Require Import base numbers list strings.
From Stdlib Require Import ZArith Lia.
From S2P Require Import Prelude CfiTypes FlashApi.

Section driver.
Context {D : Type} {bus : NorBus D}.
Context (FLASH_BASE : Z) (fuel : nat).
Abbreviation st := (cfi_state D).

(** ** Bus accesses *)

Definition rd (w : Z) : M st Z := λ s,
  let '(v, d) := nor_rd w (part s) in Done (v, set_part d s).

Definition rd8 (a : Z) : M st Z := λ s,
  let '(v, d) := nor_rd8 a (part s) in Done (v, set_part d s).

Definition wr (w v : Z) : M st unit := modify (λ s, set_part (nor_wr w v (part s)) s).

(** [meminfo.sec[i]]. *)
Definition get_sec (i : Z) : M st sector :=
  if decide (0 ≤ i < MAXSECTORS) then gets (λ s, mi_sec (meminfo s) i) else fault.

Definition set_sec (i : Z) (e : sector) : M st unit :=
  if decide (0 ≤ i < MAXSECTORS) then
    modify (λ s, let m := meminfo s in
      set_meminfo {| mi_addr := mi_addr m; mi_areg := mi_areg m; mi_nsect := mi_nsect m;
                     mi_bank1start := mi_bank1start m; mi_bank2start := mi_bank2start m;
                     mi_sec := λ j, if j =? i then e else mi_sec m j |} s)
  else fault.

Definition set_nsect (n : Z) : M st unit :=
  modify (λ s, let m := meminfo s in
    set_meminfo {| mi_addr := mi_addr m; mi_areg := mi_areg m; mi_nsect := n;
                   mi_bank1start := mi_bank1start m; mi_bank2start := mi_bank2start m;
                   mi_sec := mi_sec m |} s).

(** [down_interruptible] and [up] on [write_sem_lock], skipped in interrupt
    context.  A caller that finds the count at zero waits.  The model has no
    other process that could raise it, so the wait ends only when a signal
    comes: then the call gives [-EINTR] and leaves the count, and the driver,
    which does not look at the result, goes on without the lock. *)
Definition sem_down : M st unit := λ s,
  if in_irq s then Done (tt, s)
  else if 0 <? write_sem s then Done (tt, set_sem (write_sem s - 1) s)
  else if signalled s then Done (tt, s)
  else Blocked.

Definition sem_up : M st unit := λ s,
  if in_irq s then Done (tt, s) else Done (tt, set_sem (write_sem s + 1) s).

(** ** Sector queries *)

Definition cfi_flash_get_numsectors : M st Z := gets (λ s, mi_nsect (meminfo s)).

Definition cfi_flash_get_sector_size (sector : Z) : M st Z :=
  e ← get_sec (u16 sector); mret (sec_size e).

(** The offset of a sector from [FLASH_BASE], and its address. *)
Definition sector_offset (sector : Z) : M st Z :=
  e ← get_sec (u16 sector); mret (sec_start e).

Definition cfi_flash_get_memptr (sector : Z) : M st Z :=
  o ← sector_offset sector; mret (u32 (FLASH_BASE + o)).

(** The loop of [cfi_flash_get_blk]: [n] bounds the iterations by the number of
    sectors left. *)
Fixpoint get_blk_loop (n : nat) (blk_start i relative_addr : Z) : M st (Z * Z) :=
  match n with
  | O => mret (blk_start, i)
  | S n' =>
      if i <? relative_addr then
        size ← cfi_flash_get_sector_size blk_start;
        get_blk_loop n' (blk_start + 1) (s32 (i + size)) relative_addr
      else mret (blk_start, i)
  end.

Definition cfi_flash_get_blk (addr : Z) : M st Z :=
  last_blk ← cfi_flash_get_numsectors;
  let relative_addr := s32 (addr - s32 FLASH_BASE) in
  '(blk_start, i) ← get_blk_loop (Z.to_nat last_blk) 0 0 relative_addr;
  if i >? relative_addr then mret (blk_start - 1)
  else if blk_start =? last_blk then mret (-1)
  else mret blk_start.

Definition cfi_flash_get_total_size : M st Z := gets totalSize.

(** ** Commands *)

(** [cfi_flash_command (command, sector, offset, data)]: [flashptr[i]] is the
    word [i] of the sector, [flashbase[i]] the word [i] of sector 0. *)
Definition cfi_flash_command (command : flash_cmd) (sector offset data : Z) : M st unit :=
  flashptr ← sector_offset sector;
  flashbase ← sector_offset 0;
  let p i v := wr (flashptr / 2 + i) v in
  let b i v := wr (flashbase / 2 + i) v in
  family ← gets flashFamily;
  match family with
  | FLASH_UNDEFINED =>
      match command with
      | FLASH_RESET => p 0 0xF0;; p 0 0xFF
      | FLASH_READ_ID => p 0x5555 0xAA;; p 0x2AAA 0x55;; p 0x5555 0x90
      | FLASH_CFIQUERY => b 0x5555 0xAA;; b 0x2AAA 0x55;; b 0x5555 0x90
      | _ => mret tt
      end
  | FLASH_AMD =>
      match command with
      | FLASH_RESET => p 0 0xF0
      | FLASH_READ_ID => p 0x555 0xAA;; p 0x2AA 0x55;; p 0x555 0x90
      | FLASH_CFIQUERY => p 0x55 0x98
      | FLASH_UB => p 0x555 0xAA;; p 0x2AA 0x55;; p 0x555 0x20
      | FLASH_PROG => p 0 0xA0;; p (Z.quot offset 2) data
      | FLASH_UBRESET => p 0 0x90;; p 0 0x00
      | FLASH_SERASE =>
          p 0x555 0xAA;; p 0x2AA 0x55;; p 0x555 0x80;;
          p 0x555 0xAA;; p 0x2AA 0x55;; p 0 0x30
      | FLASH_SUSPEND => p 0 0xB0
      | FLASH_RESUME => p 0 0x30
      end
  | FLASH_INTEL =>
      match command with
      | FLASH_RESET => p 0 0xFF
      | FLASH_READ_ID => p 0 0x90
      | FLASH_CFIQUERY => p 0 0x98
      | FLASH_PROG => p 0 0x40;; p (Z.quot offset 2) data
      | FLASH_SERASE => p 0 0x60;; p 0 0xD0;; p 0 0x20;; p 0 0xD0
      | _ => mret tt
      end
  | FLASH_SST =>
      match command with
      | FLASH_RESET => b 0x5555 0xAA;; b 0x2AAA 0x55;; b 0x5555 0xf0
      | FLASH_READ_ID => b 0x5555 0xAA;; b 0x2AAA 0x55;; b 0x5555 0x90
      | FLASH_CFIQUERY => b 0x5555 0xAA;; b 0x2AAA 0x55;; b 0x5555 0x98
      | FLASH_PROG =>
          b 0x5555 0xAA;; b 0x2AAA 0x55;; b 0x5555 0xa0;; p (Z.quot offset 2) data
      | FLASH_SERASE =>
          b 0x5555 0xAA;; b 0x2AAA 0x55;; b 0x5555 0x80;;
          b 0x5555 0xAA;; b 0x2AAA 0x55;; p 0 0x30
      | _ => mret tt
      end
  end.

(** ** Waiting for completion *)

(** [do { d1 = flashptr[offset/2]; if (d1 == data) return; }
     while (!(d1 & 0x20));] returns whether the data was seen. *)
Fixpoint poll_data (n : nat) (w data : Z) : M st bool :=
  match n with
  | O => nofuel
  | S n' =>
      d1 ← rd w;
      if d1 =? data then mret true
      else if Z.testbit d1 5 then mret false
      else poll_data n' w data
  end.

(** The extra reads after a timeout: [n] of them, 100 us apart. *)
Fixpoint poll_again (n : nat) (w data : Z) : M st bool :=
  match n with
  | O => mret false
  | S n' => d1 ← rd w; if d1 =? data then mret true else poll_again n' w data
  end.

(** [do { } while (!( *flashptr & 0x80));] of the Intel parts. *)
Fixpoint poll_intel (n : nat) (w : Z) : M st unit :=
  match n with
  | O => nofuel
  | S n' => d ← rd w; if Z.testbit d 7 then mret tt else poll_intel n' w
  end.

Definition cfi_flash_wait (sector offset data : Z) : M st Z :=
  flashptr ← sector_offset sector;
  family ← gets flashFamily;
  match family with
  | FLASH_AMD | FLASH_SST =>
      let w := flashptr / 2 + Z.quot offset 2 in
      ready ← poll_data fuel w data;
      if (ready : bool) then mret STATUS_READY
      else
        d1 ← rd w;
        if d1 =? data then mret STATUS_READY
        else
          again ← poll_again 1000 w data;
          if (again : bool) then mret STATUS_READY
          else
            d1' ← rd w;
            if d1' =? data then mret STATUS_READY
            else cfi_flash_command FLASH_RESET 0 0 0;; mret STATUS_TIMEOUT
  | FLASH_INTEL =>
      let w := flashptr / 2 in
      wr w 0x70;;
      poll_intel fuel w;;
      d ← rd w;
      if negb (Z.land d 0x30 =? 0) then
        wr w 0x50;; cfi_flash_command FLASH_RESET 0 0 0;; mret STATUS_TIMEOUT
      else
        wr w 0x50;; cfi_flash_command FLASH_RESET 0 0 0;; mret STATUS_READY
  | FLASH_UNDEFINED => mret STATUS_READY
  end.

(** ** Erasing *)

(** [for (i = 0; i < 3; i++) { erase; if (wait == READY) break; }] *)
Fixpoint erase_tries (n : nat) (sector : Z) : M st unit :=
  match n with
  | O => mret tt
  | S n' =>
      cfi_flash_command FLASH_SERASE sector 0 0;;
      r ← cfi_flash_wait sector 0 0xffff;
      if r =? STATUS_READY then mret tt else erase_tries n' sector
  end.

Definition cfi_flash_sector_erase_int (sector : Z) : M st Z :=
  sem_down;; erase_tries 3 sector;; sem_up;; mret FLASH_API_OK.

(** ** Reading *)

(** [while (numbytes) { *buffer++ = *(fwp + offset); numbytes--; fwp++; }]: a
    negative count does not stop before the reads leave the part. *)
Fixpoint read_bytes (n : nat) (a : Z) : M st (list Z) :=
  match n with
  | O => mret []
  | S n' => b ← rd8 a; bs ← read_bytes n' (a + 1); mret (b :: bs)
  end.

Definition cfi_flash_read_buf (sector offset numbytes : Z) : M st (Z * option (list Z)) :=
  sem_down;;
  fwp ← sector_offset sector;
  (if numbytes <? 0 then fault else mret tt);;
  bs ← read_bytes (Z.to_nat numbytes) (fwp + offset);
  sem_up;;
  mret (FLASH_API_OK, Some bs).

(** ** Writing *)

(** The 16-bit word at the start of a byte buffer (big-endian). *)
Definition src_word (buf : list Z) : option Z :=
  match buf with
  | hi :: lo :: _ => Some (hi * 256 + lo)
  | _ => None
  end.

(** The loop of [cfi_flash_write]; [done] counts the bytes written.  [n] bounds
    the number of words. *)
Fixpoint write_words (n : nat) (sector offset : Z) (src : list Z) (nbytes done : Z)
  : M st Z :=
  match n with
  | O => mret done
  | S n' =>
      if 0 <? nbytes then
        w ← of_option (src_word src);
        cfi_flash_command FLASH_PROG sector offset w;;
        r ← cfi_flash_wait sector offset w;
        if negb (r =? STATUS_READY) then mret done
        else write_words n' sector (offset + 2) (drop 2 src) (nbytes - 2) (done + 2)
      else mret done
  end.

Definition cfi_flash_write (sector offset : Z) (buf : list Z) (nbytes : Z) : M st Z :=
  if Z.testbit (Z.lor nbytes offset) 0 then mret FLASH_API_ERROR
  else
    cfi_flash_command FLASH_UB 0 0 0;;
    r ← write_words (S (Z.to_nat nbytes)) sector offset buf nbytes 0;
    cfi_flash_command FLASH_UBRESET 0 0 0;;
    mret r.

(** [cfi_memcmp_sched (flash + a, buf, nb)] in chunks of 1024 bytes, as the
    answer to "are they equal"; the flash is read byte by byte. *)
Fixpoint memcmp_flash (n : nat) (a : Z) (buf : list Z) : M st bool :=
  match n with
  | O => mret true
  | S n' =>
      match buf with
      | [] => fault
      | c :: buf' =>
          b ← rd8 a;
          if b =? c then memcmp_flash n' (a + 1) buf' else mret false
      end
  end.

Fixpoint memcmp_chunks (k : nat) (a : Z) (buf : list Z) (nb : Z) : M st bool :=
  match k with
  | O => mret true
  | S k' =>
      if 0 <? nb then
        eq ← memcmp_flash (Z.to_nat (if nb >? 1024 then 1024 else nb)) a buf;
        if (eq : bool) then memcmp_chunks k' (a + 1024) (drop 1024 buf) (nb - 1024)
        else mret false
      else mret true
  end.

Definition cfi_memcmp_sched (a : Z) (buf : list Z) (nb : Z) : M st bool :=
  memcmp_chunks (S (Z.to_nat nb)) a buf nb.

(** The three attempts of [cfi_flash_write_buf].  The erase takes the semaphore
    that the caller already holds. *)
Fixpoint write_tries (n : nat) (p sector offset : Z) (buffer : list Z) (numbytes ret : Z)
  : M st Z :=
  match n with
  | O => mret ret
  | S n' =>
      r ← cfi_flash_write sector offset buffer numbytes;
      eq ← cfi_memcmp_sched p buffer numbytes;
      if (eq : bool) then mret r
      else
        cfi_flash_sector_erase_int sector;;
        write_tries n' p sector offset buffer numbytes FLASH_API_ERROR
  end.

Definition cfi_flash_write_buf (sector offset : Z) (buffer : list Z) (numbytes : Z)
  : M st Z :=
  sem_down;;
  o ← sector_offset sector;
  ret ← write_tries 3 (o + offset) sector offset buffer numbytes FLASH_API_ERROR;
  sem_up;;
  mret ret.

(** ** Identification *)

Definition cfi_flash_get_device_id : M st Z :=
  fwp ← sector_offset 0;
  cfi_flash_command FLASH_READ_ID 0 0 0;;
  manuf ← rd (fwp / 2);
  modify (set_manuf manuf);;
  answer ← rd (fwp / 2 + 1);
  answer' ←
    (if answer =? ID_COMMON_DEVICE_ID_227E then
       rd (fwp / 2 + 0xe);;
       a ← rd (fwp / 2 + 0xf);
       if negb (a =? ID_COMMON_DEVICE_ID_2200) && negb (a =? ID_COMMON_DEVICE_ID_2201)
       then mret ID_MX29LV128DT else mret a
     else mret answer);
  cfi_flash_command FLASH_RESET 0 0 0;;
  mret answer'.

(** [fwp[i]]: the flash window, or a stored CFI answer. *)
Definition fwp_rd (cfi_struct : option (list Z)) (i : Z) : M st Z :=
  match cfi_struct with
  | None => o ← sector_offset 0; rd (o / 2 + i)
  | Some l => of_option (l !! Z.to_nat i)
  end.

(** The erase-block entries [i], [i+1], ... of the query; the array has room
    for eight. *)
Fixpoint read_erase_blocks (n : nat) (fwp : Z → M st Z) (i : Z)
  : M st (list erase_block_t) :=
  match n with
  | O => mret []
  | S n' =>
      if i <? 8 then
        a ← fwp (0x2D + 4 * i);
        b ← fwp (0x2E + 4 * i);
        c ← fwp (0x30 + 4 * i);
        d ← fwp (0x2F + 4 * i);
        rest ← read_erase_blocks n' fwp (i + 1);
        mret ({| num_sectors := a + Z.shiftl b 8 + 1;
                 sector_size := u32 (256 * (256 * c + d)) |} :: rest)
      else fault
  end.

Definition empty_block : erase_block_t := {| sector_size := 0; num_sectors := 0 |}.

Definition cfi_flash_get_cfi (cfi_struct : option (list Z)) (family : flash_family)
  : M st Z :=
  cfi_flash_command FLASH_CFIQUERY 0 0 0;;
  let fwp := fwp_rd cfi_struct in
  modify (λ s, set_query {| num_erase_blocks := num_erase_blocks (query s);
                            device_size := device_size (query s);
                            erase_block := replicate 8 empty_block |} s);;
  q ← fwp 0x10;
  absent ←
    (if negb (q =? 81) then
       r ← fwp 0x11;
       if negb (r =? 82) then y ← fwp 0x12; mret (negb (y =? 89)) else mret false
     else mret false);
  if (absent : bool) then
    cfi_flash_command FLASH_RESET 0 0 0;; mret FLASH_API_ERROR
  else
    temp ← fwp 0x27;
    (if 32 <=? temp then fault else mret tt);;
    n ← fwp 0x2C;
    let num := if decide (family = FLASH_SST) then 1 else n in
    blocks ← read_erase_blocks (Z.to_nat num) fwp 0;
    modify (set_query {| num_erase_blocks := num;
                         device_size := s32 (Z.shiftl 1 temp);
                         erase_block := blocks ++ replicate (8 - length blocks) empty_block |});;
    cfi_flash_command FLASH_RESET 0 0 0;;
    mret FLASH_API_OK.

(** ** Initialisation *)

Definition family_of_id (device_id : Z) : option flash_family :=
  if bool_decide (device_id ∈ [ID_I28F160C3B; ID_I28F320C3B; ID_I28F160C3T; ID_I28F320C3T;
                               ID_I28F640J3])
  then Some FLASH_INTEL
  else if bool_decide (device_id ∈
      [ID_AM29DL800B; ID_AM29LV800B; ID_AM29LV400B; ID_AM29LV160B; ID_AM29LV320B;
       ID_MX29LV320AB; ID_MX29LV128DB; ID_COMMON_DEVICE_ID_2200; ID_AM29DL800T;
       ID_AM29LV800T; ID_AM29LV160T; ID_AM29LV320T; ID_MX29LV320AT; ID_MX29LV128DT;
       ID_COMMON_DEVICE_ID_2201; ID_AM29LV200BT; ID_MX29LV640BT; ID_MX29LV640FT])
  then Some FLASH_AMD
  else if bool_decide (device_id ∈
      [ID_SST39VF200A; ID_SST39VF400A; ID_SST39VF800A; ID_SST39VF1601; ID_SST39VF3201])
  then Some FLASH_SST
  else None.

(** Whether the part is a top-boot part, whose CFI geometry is listed from the
    other end ([flipCFIGeometry]). *)
Definition flip_of_id (device_id : Z) : option bool :=
  if bool_decide (device_id ∈
      [ID_AM29DL800B; ID_AM29LV800B; ID_AM29LV160B; ID_AM29LV320B; ID_MX29LV320AB;
       ID_MX29LV128DB; ID_AM29LV320MB; ID_I28F160C3B; ID_I28F320C3B; ID_I28F640J3;
       ID_I28F160C3T; ID_I28F320C3T; ID_SST39VF3201; ID_SST39VF200A; ID_SST39VF400A;
       ID_SST39VF800A])
  then Some false
  else if bool_decide (device_id ∈
      [ID_AM29LV400B; ID_AM29DL800T; ID_AM29LV800T; ID_AM29LV160T; ID_AM29LV320T;
       ID_MX29LV320AT; ID_MX29LV128DT; ID_AM29LV320MT; ID_AM29LV200BT; ID_SST39VF1601;
       ID_MX29LV640BT; ID_MX29LV640FT])
  then Some true
  else None.

(** The inner loop over the sectors of one erase block: [n] sectors of
    [size] bytes from entry [count] and offset [base] on. *)
Fixpoint add_sectors (n : nat) (size count base : Z) : M st (Z * Z) :=
  match n with
  | O => mret (count, base)
  | S n' =>
      e ← get_sec count;
      set_sec count {| sec_size := s32 size; sec_start := base; sec_bank := sec_bank e |};;
      add_sectors n' size (count + 1) (s32 (base + s32 size))
  end.

(** The outer loop, over the blocks in the order they are laid out. *)
Fixpoint add_blocks (blocks : list erase_block_t) (dsize count base : Z) : M st (Z * Z) :=
  match blocks with
  | [] => mret (count, base)
  | b :: blocks' =>
      if base <? dsize then
        '(count', base') ← add_sectors (Z.to_nat (num_sectors b)) (sector_size b) count base;
        add_blocks blocks' dsize count' base'
      else mret (count, base)
  end.

Fixpoint lookup_name (l : list flash_name_from_id) (manuf device_id : Z) : list Z :=
  match l with
  | [] => []
  | f :: l' =>
      if (manuf_id f =? manuf) && (fnfi_id f =? device_id) then fnfi_name f
      else lookup_name l' manuf device_id
  end.

(** [for (i = count-8; i < count; i++) if (sec[i].size != 8*1024) ...]: [n]
    entries from [i] on. *)
Fixpoint check_top (n : nat) (i : Z) : M st unit :=
  match n with
  | O => mret tt
  | S n' =>
      e ← get_sec i;
      if sec_size e =? 8 * 1024 then check_top n' (i + 1)
      else modify (set_top 0)
  end.

(** The stored CFI answers tried when the part does not answer the query; the
    name of the MX26LV800B is set here. *)
Definition cfi_fallback (device_id : Z) (family : flash_family) : M st bool :=
  if (device_id =? ID_AM29LV160T) || (device_id =? ID_AM29LV160B) then
    cfi_flash_get_cfi (Some cfi_data_struct_29W160) family;; mret true
  else if device_id =? ID_AM29LV200BT then
    cfi_flash_get_cfi (Some cfi_data_struct_29W200) family;; mret true
  else if device_id =? ID_AM29LV800B then
    cfi_flash_get_cfi (Some cfi_data_struct_26LV800B) family;;
    modify (set_dev device_id (cstr "MX26LV800B"));; mret true
  else mret false.

(** From the query to the sector table: lines 501-528 of the source. *)
Definition build_table (flip : bool) : M st Z :=
  q ← gets query;
  let blocks := take (Z.to_nat (num_erase_blocks q)) (erase_block q) in
  '(count, _) ← add_blocks (if flip then reverse blocks else blocks) (device_size q) 0 0;
  set_nsect count;;
  e ← get_sec (count - 1);
  modify (set_total (s32 (sec_start e + sec_size e)));;
  mret count.

Definition cfi_flash_init : M st Z :=
  s0 ← get;
  modify (set_meminfo
    {| mi_addr := 0; mi_areg := 0; mi_nsect := 1; mi_bank1start := 0; mi_bank2start := 0;
       mi_sec := λ j, if j =? 0 then {| sec_size := 8192; sec_start := 0; sec_bank := 1 |}
                      else mi_sec (meminfo s0) j |});;
  cfi_flash_command FLASH_RESET 0 0 0;;
  device_id ← cfi_flash_get_device_id;
  modify (set_dev device_id []);;
  match family_of_id device_id with
  | None => mret FLASH_API_ERROR
  | Some family =>
      modify (set_family family);;
      r ← cfi_flash_get_cfi None family;
      ok ← (if r =? -1 then cfi_fallback device_id family else mret true);
      if negb ok then mret FLASH_API_ERROR
      else
        match flip_of_id device_id with
        | None => mret FLASH_API_ERROR
        | Some flip =>
            count ← build_table flip;
            s ← get;
            (if decide (dev_name s = []) then
               modify (set_dev device_id
                         (lookup_name CFI_FLASH_DEVICES (g_ManufId s) device_id))
             else mret tt);;
            (if (device_id =? ID_AM29LV320MB) || (device_id =? ID_AM29LV320MT)
                || (device_id =? ID_S29GL128N)
             then modify (λ s, set_ebi (Z.lor (ebi_cs0 s) 6) s) else mret tt);;
            check_top 8 (count - 8);;
            mret FLASH_API_OK
        end
  end.

(** [flash_cfi_dev]. *)
Definition flash_cfi_dev : flash_device_info_t st := {|
  flash_device_id := dev_id;
  flash_device_name := dev_name;
  fn_flash_sector_erase_int := λ k, cfi_flash_sector_erase_int (u16 k);
  fn_flash_read_buf := λ k, cfi_flash_read_buf (u16 k);
  fn_flash_write_buf := λ k, cfi_flash_write_buf (u16 k);
  fn_flash_get_numsectors := cfi_flash_get_numsectors;
  fn_flash_get_sector_size := cfi_flash_get_sector_size;
  fn_flash_get_memptr := cfi_flash_get_memptr;
  fn_flash_get_blk := cfi_flash_get_blk;
  fn_flash_get_total_size := cfi_flash_get_total_size;
  fn_flash_get_total_memory_mapped_size := cfi_flash_get_total_size
|}.
End driver.
