(* ===== verification/CfiGeometry.v ===== *)
(** * The sector table of the CFI driver

    The table [meminfo.sec] that [cfi_flash_init] builds from the answer of
    the part, and the queries on it.  [table_ok] is the invariant the rest of
    the driver relies on: the sectors tile the part from offset 0.
    [build_table_ok] establishes it, [get_blk_sector] and [get_blk_end] use
    it. *)

From stdpp Require Import base numbers list strings.
From Stdlib Require Import ZArith Lia.
From S2P Require Import Prelude CfiTypes FlashApi CfiFlash.

(** The size of entry [k] of the sector table. *)
Definition tsize (m : flashinfo) (k : Z) : Z := sec_size (mi_sec m k).

(** The sectors are contiguous from 0, non-empty, of even size, and the part
    fits the positive range of [int]. *)
Record table_ok {D} (s : cfi_state D) : Prop := {
  tk_num : 0 < mi_nsect (meminfo s) ≤ MAXSECTORS;
  tk_pos : ∀ k, 0 ≤ k < mi_nsect (meminfo s) →
    0 < tsize (meminfo s) k ∧ Z.even (tsize (meminfo s) k) = true;
  tk_start : ∀ k, 0 ≤ k < mi_nsect (meminfo s) →
    sec_start (mi_sec (meminfo s) k) = sec_base (tsize (meminfo s)) k;
  tk_total : totalSize s = sec_base (tsize (meminfo s)) (mi_nsect (meminfo s));
  tk_range : totalSize s < 2 ^ 31
}.

Section queries.
Context {D : Type} {bus : NorBus D} (FLASH_BASE : Z).
Implicit Types s : cfi_state D.

Lemma get_sec_Done s k :
  0 ≤ k < MAXSECTORS → get_sec k s = Done (mi_sec (meminfo s) k, s).
Proof. intros. unfold get_sec. by rewrite decide_True. Qed.

Lemma table_pos s : table_ok s →
  ∀ i, 0 ≤ i < mi_nsect (meminfo s) → 0 < tsize (meminfo s) i.
Proof. intros H i Hi. by apply H. Qed.

Lemma table_base_le s j k : table_ok s → 0 ≤ j ≤ k → k ≤ mi_nsect (meminfo s) →
  sec_base (tsize (meminfo s)) j + (k - j) ≤ sec_base (tsize (meminfo s)) k.
Proof. intros H. apply (sec_base_mono _ (mi_nsect (meminfo s))). by apply table_pos. Qed.

Lemma table_base_range s k : table_ok s → 0 ≤ k ≤ mi_nsect (meminfo s) →
  0 ≤ sec_base (tsize (meminfo s)) k ≤ totalSize s.
Proof.
  intros H Hk. rewrite (tk_total s H).
  pose proof (table_base_le s 0 k H ltac:(lia) ltac:(lia)) as H1.
  pose proof (table_base_le s k (mi_nsect (meminfo s)) H ltac:(lia) ltac:(lia)).
  rewrite sec_base_0 in H1. lia.
Qed.

Lemma get_sector_size_Done s k : table_ok s → 0 ≤ k < mi_nsect (meminfo s) →
  cfi_flash_get_sector_size k s = Done (tsize (meminfo s) k, s).
Proof.
  intros H Hk. pose proof (tk_num s H). unfold MAXSECTORS in *.
  unfold cfi_flash_get_sector_size. rewrite u16_small by lia.
  by mstep (get_sec_Done s k ltac:(unfold MAXSECTORS; lia)).
Qed.

Lemma sector_offset_Done s k : table_ok s → 0 ≤ k < mi_nsect (meminfo s) →
  sector_offset k s = Done (sec_base (tsize (meminfo s)) k, s).
Proof.
  intros H Hk. pose proof (tk_num s H). unfold MAXSECTORS in *.
  unfold sector_offset. rewrite u16_small by lia.
  mstep (get_sec_Done s k ltac:(unfold MAXSECTORS; lia)). by rewrite (tk_start s H) by lia.
Qed.

(** The loop of [cfi_flash_get_blk] stops at the first sector that starts at or
    after the address, or at the end of the table. *)
Lemma get_blk_loop_spec s (r : Z) : table_ok s → ∀ n b,
  0 ≤ b → b + Z.of_nat n = mi_nsect (meminfo s) →
  ∃ b', b ≤ b' ≤ mi_nsect (meminfo s) ∧
    get_blk_loop n b (sec_base (tsize (meminfo s)) b) r s =
      Done ((b', sec_base (tsize (meminfo s)) b'), s) ∧
    (b' < mi_nsect (meminfo s) → r ≤ sec_base (tsize (meminfo s)) b') ∧
    (b < b' → sec_base (tsize (meminfo s)) (b' - 1) < r).
Proof.
  intros H. induction n as [|n IH]; intros b Hb Hn; cbn [get_blk_loop].
  { exists b. repeat split; lia. }
  destruct (sec_base (tsize (meminfo s)) b <? r) eqn:E; [|exists b; repeat split; lia].
  mstep (get_sector_size_Done s b H ltac:(lia)).
  rewrite s32_small.
  2: { rewrite <- sec_base_succ by lia.
       pose proof (table_base_range s (b + 1) H). pose proof (tk_range s H). lia. }
  rewrite <- sec_base_succ by lia.
  destruct (IH (b + 1)) as (b'&?&Hd&?&Hlt); [lia..|].
  exists b'. rewrite Hd. repeat split; [lia..|]. intros _.
  destruct (decide (b' = b + 1)) as [->|]; [|apply Hlt; lia].
  by replace (b + 1 - 1) with b by lia; apply Z.ltb_lt.
Qed.

Lemma relative_addr_eq (a : Z) : 0 ≤ a < 2 ^ 31 →
  s32 (s32 (FLASH_BASE + a) - s32 FLASH_BASE) = a.
Proof.
  intros. unfold s32.
  replace ((FLASH_BASE + a + 2 ^ 31) mod 2 ^ 32 - 2 ^ 31 -
           ((FLASH_BASE + 2 ^ 31) mod 2 ^ 32 - 2 ^ 31) + 2 ^ 31)
    with ((FLASH_BASE + a + 2 ^ 31) mod 2 ^ 32 -
          (FLASH_BASE + 2 ^ 31) mod 2 ^ 32 + 2 ^ 31) by lia.
  rewrite <- Zplus_mod_idemp_l, <- Zminus_mod, Zplus_mod_idemp_l.
  replace (FLASH_BASE + a + 2 ^ 31 - (FLASH_BASE + 2 ^ 31) + 2 ^ 31) with (a + 2 ^ 31) by lia.
  rewrite Z.mod_small; lia.
Qed.

(** Inside the part the answer is the sector that holds the offset. *)
Lemma get_blk_inside s a k : table_ok s → 0 ≤ k < mi_nsect (meminfo s) →
  sec_base (tsize (meminfo s)) k ≤ a <
    sec_base (tsize (meminfo s)) k + tsize (meminfo s) k →
  cfi_flash_get_blk FLASH_BASE (s32 (FLASH_BASE + a)) s = Done (k, s).
Proof.
  intros H Hk Ha. pose proof (tk_num s H). pose proof (tk_range s H).
  pose proof (table_base_range s k H) as ?. pose proof (table_base_range s (k + 1) H) as Hk1.
  rewrite sec_base_succ in Hk1 by lia.
  unfold cfi_flash_get_blk, cfi_flash_get_numsectors.
  rewrite (bind_Done _ _ _ _ _ (eq_refl : gets _ s = Done (_, s))). cbn beta.
  rewrite relative_addr_eq by lia.
  destruct (get_blk_loop_spec s a H (Z.to_nat (mi_nsect (meminfo s))) 0)
    as (b'&?&Hd&Hge&Hlt); [lia..|].
  rewrite sec_base_0 in Hd. mstep Hd.
  assert (Hb : b' = k ∧ sec_base (tsize (meminfo s)) k = a ∨
               b' = k + 1 ∧ a < sec_base (tsize (meminfo s)) b').
  { assert (b' < k ∨ b' = k ∨ b' = k + 1 ∨ k + 2 ≤ b') as [?|[->|[->|?]]] by lia.
    - pose proof (table_base_le s b' k H). lia.
    - left. lia.
    - right. rewrite sec_base_succ by lia. lia.
    - pose proof (table_base_le s (k + 1) (b' - 1) H ltac:(lia) ltac:(lia)) as Hle.
      rewrite sec_base_succ in Hle by lia. lia. }
  destruct Hb as [[-> ?]|[-> ?]].
  - destruct (Z.gtb_spec (sec_base (tsize (meminfo s)) k) a); [lia|].
    by rewrite (proj2 (Z.eqb_neq k _)) by lia.
  - destruct (Z.gtb_spec (sec_base (tsize (meminfo s)) (k + 1)) a); [|lia].
    unfold mret, M_ret. do 2 f_equal. lia.
Qed.

(** From the end of the part on the answer is -1. *)
Lemma get_blk_outside s a : table_ok s → totalSize s ≤ a < 2 ^ 31 →
  cfi_flash_get_blk FLASH_BASE (s32 (FLASH_BASE + a)) s = Done (-1, s).
Proof.
  intros H Ha. pose proof (tk_num s H). pose proof (tk_total s H) as Ht.
  pose proof (table_base_range s (mi_nsect (meminfo s)) H).
  unfold cfi_flash_get_blk, cfi_flash_get_numsectors.
  rewrite (bind_Done _ _ _ _ _ (eq_refl : gets _ s = Done (_, s))). cbn beta.
  rewrite relative_addr_eq by lia.
  destruct (get_blk_loop_spec s a H (Z.to_nat (mi_nsect (meminfo s))) 0)
    as (b'&?&Hd&Hge&Hlt); [lia..|].
  rewrite sec_base_0 in Hd. mstep Hd.
  assert (b' = mi_nsect (meminfo s)) as ->.
  { destruct (decide (b' = mi_nsect (meminfo s))); [done|].
    pose proof (table_base_le s b' (mi_nsect (meminfo s)) H). lia. }
  destruct (Z.gtb_spec (sec_base (tsize (meminfo s)) (mi_nsect (meminfo s))) a); [lia|].
  by rewrite Z.eqb_refl.
Qed.
End queries.

(** ** Building the table *)

Definition zsum (l : list Z) : Z := foldr Z.add 0 l.

Lemma length_pos_ne {A} (l : list A) : l ≠ [] → (0 < length l)%nat.
Proof. destruct l; simpl; [done|lia]. Qed.

Lemma zsum_app l k : zsum (l ++ k) = zsum l + zsum k.
Proof. unfold zsum. induction l; simpl; lia. Qed.

Lemma zsum_replicate n z : zsum (replicate n z) = Z.of_nat n * z.
Proof. unfold zsum. induction n; simpl; lia. Qed.

Lemma zsum_pos l : Forall (λ z, 0 < z) l → 0 ≤ zsum l.
Proof. unfold zsum. induction 1; simpl; lia. Qed.

(** The sizes of the sectors of a list of erase blocks, in order. *)
Definition block_sizes (b : erase_block_t) : list Z :=
  replicate (Z.to_nat (num_sectors b)) (sector_size b).

Definition sizes_of (bs : list erase_block_t) : list Z := concat (map block_sizes bs).

(** [laid l count base m m']: [m'] is [m] with sectors of the sizes [l] stored
    from entry [count] on, starting at offset [base]. *)
Record laid (l : list Z) (count base : Z) (m m' : flashinfo) : Prop := {
  ld_addr : mi_addr m' = mi_addr m;
  ld_areg : mi_areg m' = mi_areg m;
  ld_nsect : mi_nsect m' = mi_nsect m;
  ld_b1 : mi_bank1start m' = mi_bank1start m;
  ld_b2 : mi_bank2start m' = mi_bank2start m;
  ld_old : ∀ j, ¬ count ≤ j < count + Z.of_nat (length l) → mi_sec m' j = mi_sec m j;
  ld_new : ∀ i z, l !! i = Some z →
    mi_sec m' (count + Z.of_nat i) =
      {| sec_size := z; sec_start := base + zsum (take i l);
         sec_bank := sec_bank (mi_sec m (count + Z.of_nat i)) |}
}.

Lemma laid_nil count base m : laid [] count base m m.
Proof. by constructor. Qed.

Lemma laid_app l1 l2 count base m1 m2 m3 :
  laid l1 count base m1 m2 →
  laid l2 (count + Z.of_nat (length l1)) (base + zsum l1) m2 m3 →
  laid (l1 ++ l2) count base m1 m3.
Proof.
  intros [] []. constructor; try congruence.
  - intros j Hj. rewrite length_app in Hj. rewrite ld_old1 by lia. apply ld_old0. lia.
  - intros i z Hi. destruct (decide (i < length l1)%nat).
    + rewrite lookup_app_l in Hi by lia. rewrite ld_old1 by lia.
      rewrite (ld_new0 _ _ Hi). f_equal. f_equal. f_equal. by rewrite take_app_le by lia.
    + rewrite lookup_app_r in Hi by lia. specialize (ld_new1 _ _ Hi).
      replace (count + Z.of_nat (length l1) + Z.of_nat (i - length l1))
        with (count + Z.of_nat i) in ld_new1 by lia.
      rewrite ld_new1. f_equal.
      * rewrite take_app_ge by lia. rewrite zsum_app. lia.
      * rewrite ld_old0 by lia. done.
Qed.

Section building.
Context {D : Type}.
Implicit Types s : cfi_state D.

(** One sector. *)
Lemma set_sec_laid s count size base :
  0 ≤ count < MAXSECTORS →
  ∃ m', set_sec count {| sec_size := size; sec_start := base;
                         sec_bank := sec_bank (mi_sec (meminfo s) count) |} s
          = Done (tt, set_meminfo m' s) ∧
        laid [size] count base (meminfo s) m'.
Proof.
  intros. unfold set_sec. rewrite decide_True by done. eexists. split; [reflexivity|].
  constructor; try done.
  - intros j Hj. simpl in *. by rewrite (proj2 (Z.eqb_neq j count)) by lia.
  - intros [|i] z [= <-]. simpl. rewrite Z.add_0_r, Z.eqb_refl. f_equal. lia.
Qed.

Lemma add_sectors_spec size n : 0 < size < 2 ^ 31 → ∀ s count base,
  0 ≤ count → count + Z.of_nat n ≤ MAXSECTORS →
  0 ≤ base → base + Z.of_nat n * size < 2 ^ 31 →
  ∃ m', add_sectors n size count base s =
      Done ((count + Z.of_nat n, base + Z.of_nat n * size), set_meminfo m' s) ∧
    laid (replicate n size) count base (meminfo s) m'.
Proof.
  intros Hsz. induction n as [|n IH]; intros s count base Hc Hn Hb Ht; cbn [add_sectors].
  { exists (meminfo s). split; [|apply laid_nil]. unfold mret, M_ret.
    replace (count + Z.of_nat 0) with count by lia.
    replace (base + Z.of_nat 0 * size) with base by lia. by destruct s. }
  mstep (get_sec_Done s count ltac:(lia)).
  rewrite Nat2Z.inj_succ, Z.mul_succ_l in Ht |- *.
  assert (0 ≤ Z.of_nat n * size) by nia.
  rewrite (s32_small size), (s32_small (base + size)) by lia.
  destruct (set_sec_laid s count size base) as (m1&H1&L1); [lia|]. mstep H1.
  destruct (IH (set_meminfo m1 s) (count + 1) (base + size)) as (m2&H2&L2); [lia..|].
  exists m2. rewrite H2. split.
  - do 2 f_equal. f_equal; lia.
  - apply (laid_app [size] (replicate n size) _ _ _ m1); [done|].
    replace (base + zsum [size]) with (base + size) by (simpl; lia). done.
Qed.

Definition block_ok (b : erase_block_t) : Prop :=
  0 < num_sectors b ∧ 0 < sector_size b ∧ Z.even (sector_size b) = true.

Lemma sizes_of_pos bs : Forall block_ok bs → Forall (λ z, 0 < z ∧ Z.even z = true) (sizes_of bs).
Proof.
  unfold sizes_of. induction 1 as [|b bs Hb _ IH]; simpl; [done|].
  apply Forall_app. split; [|done]. apply Forall_replicate. by destruct Hb.
Qed.

Lemma sizes_of_sum_pos bs : Forall block_ok bs → 0 ≤ zsum (sizes_of bs).
Proof.
  intros H. apply zsum_pos. eapply Forall_impl; [by apply sizes_of_pos|]. by intros ? [].
Qed.

Lemma add_blocks_spec bs dsize : Forall block_ok bs → ∀ s count base,
  0 ≤ count → count + Z.of_nat (length (sizes_of bs)) ≤ MAXSECTORS →
  0 ≤ base → base + zsum (sizes_of bs) ≤ dsize → dsize < 2 ^ 31 →
  ∃ m', add_blocks bs dsize count base s =
      Done ((count + Z.of_nat (length (sizes_of bs)), base + zsum (sizes_of bs)),
            set_meminfo m' s) ∧
    laid (sizes_of bs) count base (meminfo s) m'.
Proof.
  induction 1 as [|b bs [Hn [Hs He]] Hbs IH]; intros s count base Hc Hl Hb Ht Hd;
    cbn [add_blocks].
  { exists (meminfo s). split; [|apply laid_nil]. unfold mret, M_ret.
    simpl. rewrite !Z.add_0_r. by destruct s. }
  change (sizes_of (b :: bs))
    with (replicate (Z.to_nat (num_sectors b)) (sector_size b) ++ sizes_of bs) in *.
  rewrite length_app, length_replicate in Hl. rewrite zsum_app, zsum_replicate in Ht.
  pose proof (sizes_of_sum_pos bs Hbs) as Hp.
  rewrite (proj2 (Z.ltb_lt base dsize)) by nia.
  destruct (add_sectors_spec (sector_size b) (Z.to_nat (num_sectors b)) ltac:(nia) s count base)
    as (m1&H1&L1); [lia..|]. mstep H1.
  destruct (IH (set_meminfo m1 s) (count + Z.of_nat (Z.to_nat (num_sectors b)))
              (base + Z.of_nat (Z.to_nat (num_sectors b)) * sector_size b))
    as (m2&H2&L2); [lia..|].
  exists m2. rewrite H2, length_app, length_replicate, zsum_app, zsum_replicate. split.
  - do 2 f_equal. f_equal; lia.
  - eapply laid_app; [exact L1|]. rewrite length_replicate, zsum_replicate. done.
Qed.

(** A laid-out table is well formed. *)
Lemma laid_base l m m' k : laid l 0 0 m m' → 0 ≤ k ≤ Z.of_nat (length l) →
  sec_base (tsize m') k = zsum (take (Z.to_nat k) l).
Proof.
  intros HL [Hk Hle]. revert Hle. pattern k. apply (natlike_ind _); [by intros| |done].
  clear k Hk. intros k Hk IH Hle. unfold Z.succ. rewrite sec_base_succ, IH by lia.
  destruct (lookup_lt_is_Some_2 l (Z.to_nat k)) as [z Hz]; [lia|].
  replace (Z.to_nat (k + 1)) with (S (Z.to_nat k)) by lia.
  rewrite (take_S_r _ _ _ Hz), zsum_app. f_equal.
  unfold tsize. pose proof (ld_new _ _ _ _ _ HL _ _ Hz) as E.
  replace (0 + Z.of_nat (Z.to_nat k)) with k in E by lia. rewrite E. simpl. lia.
Qed.

Lemma laid_lookup l m m' k : laid l 0 0 m m' → 0 ≤ k < Z.of_nat (length l) →
  ∃ z, l !! Z.to_nat k = Some z ∧ tsize m' k = z ∧
    sec_start (mi_sec m' k) = zsum (take (Z.to_nat k) l).
Proof.
  intros HL Hk. destruct (lookup_lt_is_Some_2 l (Z.to_nat k)) as [z Hz]; [lia|].
  exists z. pose proof (ld_new _ _ _ _ _ HL _ _ Hz) as E.
  replace (0 + Z.of_nat (Z.to_nat k)) with k in E by lia. unfold tsize. by rewrite E.
Qed.

(** The blocks in the order the driver lays them out. *)
Definition ordered_blocks (flip : bool) (q : cfi_query) : list erase_block_t :=
  let bs := take (Z.to_nat (num_erase_blocks q)) (erase_block q) in
  if flip then reverse bs else bs.

Lemma table_of_laid (s : cfi_state D) l m' :
  laid l 0 0 (meminfo s) m' → l ≠ [] → Forall (λ z, 0 < z ∧ Z.even z = true) l →
  Z.of_nat (length l) ≤ MAXSECTORS → zsum l < 2 ^ 31 →
  table_ok (set_total (zsum l) (set_meminfo
    {| mi_addr := mi_addr m'; mi_areg := mi_areg m'; mi_nsect := Z.of_nat (length l);
       mi_bank1start := mi_bank1start m'; mi_bank2start := mi_bank2start m';
       mi_sec := mi_sec m' |} s)).
Proof.
  intros HL Hne Hpos Hmax Hsum.
  set (m2 := {| mi_nsect := Z.of_nat (length l) |}).
  assert (HL2 : laid l 0 0 {| mi_addr := mi_addr (meminfo s); mi_areg := mi_areg (meminfo s);
     mi_nsect := Z.of_nat (length l); mi_bank1start := mi_bank1start (meminfo s);
     mi_bank2start := mi_bank2start (meminfo s); mi_sec := mi_sec (meminfo s) |} m2).
  { destruct HL. by constructor. }
  assert (0 < length l)%nat by (by apply length_pos_ne).
  constructor; cbn -[sec_base]; fold m2; try done.
  - lia.
  - intros k Hk. destruct (laid_lookup _ _ _ k HL2 Hk) as (z&Hz&->&_).
    by apply (Forall_lookup_1 _ _ _ _ Hpos Hz).
  - intros k Hk. destruct (laid_lookup _ _ _ k HL2 Hk) as (z&Hz&_&E).
    rewrite (laid_base _ _ _ k HL2) by lia. exact E.
  - rewrite (laid_base _ _ _ _ HL2) by lia. by rewrite Nat2Z.id, firstn_all.
Qed.

End building.

(** ** The claims *)

Section claims.
Context {D : Type} {bus : NorBus D}.

(** [cfi_flash_get_blk] is the inverse of the sector table: on a
    well-formed table every address of the part gets the one sector that holds
    it, and every address from the end of the part on gets -1; it never faults
    and changes nothing. *)
Theorem cfi_flash_get_blk_correct (FLASH_BASE : Z) (s : cfi_state D) (a : Z) :
  table_ok s → 0 ≤ a < 2 ^ 31 →
  ∃ b, cfi_flash_get_blk FLASH_BASE (s32 (FLASH_BASE + a)) s = Done (b, s) ∧
    (0 ≤ b < mi_nsect (meminfo s) ∧
       sec_start (mi_sec (meminfo s) b) ≤ a
         < sec_start (mi_sec (meminfo s) b) + sec_size (mi_sec (meminfo s) b)
     ∨ b = -1 ∧ totalSize s ≤ a).
Proof.
  intros H Ha. destruct (decide (totalSize s ≤ a)) as [|Hlt].
  { exists (-1). split; [apply get_blk_outside; [done|lia]|]. by right. }
  pose proof (tk_num s H).
  destruct (sec_find (tsize (meminfo s)) (mi_nsect (meminfo s)) a) as (k&Hk&Hin).
  { by apply table_pos. } { lia. } { rewrite <- (tk_total s H). lia. }
  exists k. split; [by apply get_blk_inside|]. left. split; [done|].
  rewrite (tk_start s H) by done. exact Hin.
Qed.

(** Building the sector table.  When the erase blocks the part reports
    are non-empty, even-sized, fit the 1024-entry table and do not exceed the
    reported size, the driver (bottom-boot or, with the order reversed, top-boot)
    stores exactly one entry per sector in the right order; the table is
    contiguous, its size is the sum of the sectors and the part is not
    touched. *)
Theorem build_table_correct (flip : bool) (s : cfi_state D) :
  let bs := ordered_blocks flip (query s) in
  bs ≠ [] → Forall block_ok bs →
  Z.of_nat (length (sizes_of bs)) ≤ MAXSECTORS →
  zsum (sizes_of bs) ≤ device_size (query s) < 2 ^ 31 →
  ∃ s', build_table flip s = Done (Z.of_nat (length (sizes_of bs)), s') ∧
    table_ok s' ∧
    mi_nsect (meminfo s') = Z.of_nat (length (sizes_of bs)) ∧
    totalSize s' = zsum (sizes_of bs) ∧
    (∀ i z, sizes_of bs !! i = Some z → sec_size (mi_sec (meminfo s') (Z.of_nat i)) = z) ∧
    part s' = part s ∧ flashFamily s' = flashFamily s ∧ write_sem s' = write_sem s.
Proof.
  intros bs Hne Hok Hmax Hsum. unfold build_table.
  rewrite (bind_Done _ _ _ _ _ (eq_refl : gets query s = Done (_, s))). cbn beta.
  fold (ordered_blocks flip (query s)). fold bs.
  destruct (add_blocks_spec bs (device_size (query s)) Hok s 0 0) as (m'&H1&L); [lia..|].
  mstep H1. rewrite !Z.add_0_l.
  assert (Hl : sizes_of bs ≠ []).
  { destruct bs as [|b bs']; [done|]. inversion Hok as [|?? [Hn _] _]; subst.
    intros E. apply (f_equal length) in E. unfold sizes_of in E. simpl in E.
    rewrite length_app in E. unfold block_sizes in E. rewrite length_replicate in E. lia. }
  pose proof (table_of_laid s _ _ L Hl (sizes_of_pos bs Hok) Hmax ltac:(lia)) as Hok'.
  assert (0 < length (sizes_of bs))%nat by (by apply length_pos_ne).
  destruct (laid_lookup _ _ _ (Z.of_nat (length (sizes_of bs)) - 1) L) as (z&Hz&Hts&Hst); [lia|].
  unfold set_nsect. rewrite (bind_Done _ _ _ _ _ eq_refl).
  erewrite (bind_Done _ _ _ _ _ (get_sec_Done _ _ _)). Unshelve. 2: lia.
  cbn -[zsum]. rewrite Hst. unfold tsize in Hts. rewrite Hts.
  assert (Esum : zsum (take (Z.to_nat (Z.of_nat (length (sizes_of bs)) - 1)) (sizes_of bs)) + z
                 = zsum (sizes_of bs)).
  { rewrite <- (firstn_all (sizes_of bs)) at 3.
    replace (length (sizes_of bs)) with (S (Z.to_nat (Z.of_nat (length (sizes_of bs)) - 1)))
      at 2 by lia.
    rewrite (take_S_r _ _ _ Hz), zsum_app. simpl. lia. }
  rewrite Esum. pose proof (sizes_of_sum_pos bs Hok).
  rewrite s32_small by lia. eexists. split; [reflexivity|]. split; [exact Hok'|].
  repeat split; try done. intros i y Hy.
  pose proof (lookup_lt_Some _ _ _ Hy).
  destruct (laid_lookup _ _ _ (Z.of_nat i) L) as (z'&Hz'&E&_); [lia|].
  rewrite Nat2Z.id in Hz'. unfold tsize in E. cbn. congruence.
Qed.

(** A list of ids all of which satisfy a decidable property. *)
Lemma ids_all (P : Z → bool) (l : list Z) d : forallb P l = true → d ∈ l → P d = true.
Proof. rewrite forallb_forall. intros H ?. apply H. by apply list_elem_of_In. Qed.

(** The identification tables agree: an id gets a command set exactly when
    it gets a boot-block order, and exactly when the table of names has an entry
    for it. *)
Theorem identification_consistent (device_id : Z) :
  (is_Some (family_of_id device_id) ↔ device_id ∈ map fnfi_id CFI_FLASH_DEVICES) ∧
  (is_Some (flip_of_id device_id) ↔ device_id ∈ map fnfi_id CFI_FLASH_DEVICES).
Proof.
  set (named := λ d, bool_decide (d ∈ map fnfi_id CFI_FLASH_DEVICES)).
  assert (H : ∀ l, forallb named l = true → device_id ∈ l →
              device_id ∈ map fnfi_id CFI_FLASH_DEVICES).
  { intros l Hl Hd. by apply (proj1 (bool_decide_eq_true _) (ids_all named l _ Hl Hd)). }
  split; split.
  - unfold family_of_id. intros [f Hf].
    repeat case_bool_decide; try done; (eapply H; [|eassumption]); by vm_compute.
  - intros Hd.
    assert (Hall : forallb (λ d, bool_decide (is_Some (family_of_id d)))
                     (map fnfi_id CFI_FLASH_DEVICES) = true) by by vm_compute.
    by apply (proj1 (bool_decide_eq_true _) (ids_all _ _ _ Hall Hd)).
  - unfold flip_of_id. intros [f Hf].
    repeat case_bool_decide; try done; (eapply H; [|eassumption]); by vm_compute.
  - intros Hd.
    assert (Hall : forallb (λ d, bool_decide (is_Some (flip_of_id d)))
                     (map fnfi_id CFI_FLASH_DEVICES) = true) by by vm_compute.
    by apply (proj1 (bool_decide_eq_true _) (ids_all _ _ _ Hall Hd)).
Qed.

(** Commands change the part and nothing else of the driver. *)
Lemma fwp_rd_stored (l : list Z) i (s : cfi_state D) :
  fwp_rd (Some l) i s = match l !! Z.to_nat i with Some v => Done (v, s) | None => Fault end.
Proof. unfold fwp_rd, of_option. by destruct (l !! Z.to_nat i). Qed.

Lemma cfi_get_cfi_reset_OK (m : M (cfi_state D) unit) r (s s' : cfi_state D) (z : Z) :
  (m;; mret r) s = Done (z, s') → z = r.
Proof. intros (?&?&_&[= -> _])%bind_Done_inv. done. Qed.

(** The test for a CFI part: an answer is refused only when all three of
    the letters Q, R, Y are missing; one matching letter is enough for the
    driver to use the rest of the answer. *)
Theorem cfi_query_one_letter_suffices (l : list Z) (f : flash_family) (s s' : cfi_state D)
  (r q1 q2 q3 : Z) :
  l !! 0x10%nat = Some q1 → l !! 0x11%nat = Some q2 → l !! 0x12%nat = Some q3 →
  cfi_flash_get_cfi (Some l) f s = Done (r, s') →
  r = (if decide (q1 ≠ 81 ∧ q2 ≠ 82 ∧ q3 ≠ 89) then FLASH_API_ERROR else FLASH_API_OK).
Proof.
  intros H1 H2 H3 H. unfold cfi_flash_get_cfi in H.
  apply bind_Done_inv in H as ([]&s1&_&H).
  apply bind_Done_inv in H as ([]&s2&_&H).
  assert (E : ∀ i v t, l !! Z.to_nat i = Some v → fwp_rd (Some l) i t = Done (v, t)).
  { intros i v t Ei. rewrite fwp_rd_stored. by rewrite Ei. }
  rewrite (bind_Done _ _ _ _ _ (E 0x10 _ _ H1)) in H.
  assert (Ha : ((if negb (q1 =? 81) then
       r ← fwp_rd (Some l) 0x11;
       if negb (r =? 82) then y ← fwp_rd (Some l) 0x12; mret (negb (y =? 89)) else mret false
     else mret false) : M (cfi_state D) bool) s2
     = Done (bool_decide (q1 ≠ 81 ∧ q2 ≠ 82 ∧ q3 ≠ 89), s2)).
  { clear H. destruct (Z.eqb_spec q1 81); cbn [negb].
    { rewrite bool_decide_eq_false_2 by lia. done. }
    rewrite (bind_Done _ _ _ _ _ (E 0x11 _ _ H2)).
    destruct (Z.eqb_spec q2 82); cbn [negb].
    { rewrite bool_decide_eq_false_2 by lia. done. }
    rewrite (bind_Done _ _ _ _ _ (E 0x12 _ _ H3)). unfold mret, M_ret. do 2 f_equal.
    destruct (Z.eqb_spec q3 89); case_bool_decide; try done; lia. }
  rewrite (bind_Done _ _ _ _ _ Ha) in H.
  destruct (decide (q1 ≠ 81 ∧ q2 ≠ 82 ∧ q3 ≠ 89)) as [Hd|Hd].
  - rewrite bool_decide_eq_true_2 in H by done. by apply cfi_get_cfi_reset_OK in H.
  - rewrite bool_decide_eq_false_2 in H by done.
    repeat (apply bind_Done_inv in H as (?&?&_&H)). by injection H as <- _.
Qed.

(** The scan for eight 8K boot sectors at the top reads before the table
    on a part with fewer than eight sectors: with the stored answer for the
    AM29LV200BT the table has seven, and the driver reads [meminfo.sec[-1]]. *)
Theorem AM29LV200BT_scan_out_of_bounds (s : cfi_state D) :
  flashFamily s = FLASH_AMD →
  (cfi_flash_get_cfi (Some cfi_data_struct_29W200) FLASH_AMD;;
   count ← build_table true;
   check_top 8 (count - 8)) s = Fault.
Proof. intros H. destruct s. simpl in H. subst. vm_compute. reflexivity. Qed.
End claims.

(** ** Witnesses *)

(** A part with nothing behind the bus, for the statements that do not use the
    part. *)
#[export] Instance null_bus : NorBus unit := {
  nor_rd := λ _ d, (0, d);
  nor_rd8 := λ _ d, (0, d);
  nor_wr := λ _ _ d, d
}.

(** Driver states: [n] sectors of 64K, and one whose part answered with the
    geometry [bs]. *)
Definition uniform_info (n c : Z) : flashinfo :=
  {| mi_addr := 0; mi_areg := 0; mi_nsect := n; mi_bank1start := 0; mi_bank2start := 0;
     mi_sec := λ k, {| sec_size := c; sec_start := c * k; sec_bank := 1 |} |}.

Definition demo_state (m : flashinfo) (total : Z) (bs : list erase_block_t) (dsize : Z)
  : cfi_state unit :=
  {| part := tt; meminfo := m; flashFamily := FLASH_AMD; totalSize := total;
     query := {| num_erase_blocks := Z.of_nat (length bs); device_size := dsize;
                 erase_block := bs ++ replicate (8 - length bs) empty_block |};
     g_ManufId := MANUFACTURER_ID_MXIC; g_FlashTopDevice := 1; dev_id := ID_MX29LV128DT;
     dev_name := []; write_sem := 1; in_irq := false; signalled := false; ebi_cs0 := 0 |}.

Lemma uniform_table_ok {D} (s : cfi_state D) n c :
  meminfo s = uniform_info n c → totalSize s = c * n →
  0 < n ≤ MAXSECTORS → 0 < c → Z.even c = true → c * n < 2 ^ 31 → table_ok s.
Proof.
  intros Em Et Hn Hc He Hr.
  constructor; rewrite ?Em, ?Et; unfold tsize; cbn -[sec_base]; try done.
  - intros k Hk. by rewrite sec_base_uniform by lia.
  - by rewrite sec_base_uniform by lia.
Qed.

Lemma cfi_flash_get_blk_correct_witness :
  let s := demo_state (uniform_info 4 65536) (65536 * 4) [] 0 in
  cfi_flash_get_blk 0xBE000000 (s32 (0xBE000000 + 70000)) s = Done (1, s) ∧
  ∃ b, cfi_flash_get_blk 0xBE000000 (s32 (0xBE000000 + 70000)) s = Done (b, s) ∧
    (0 ≤ b < mi_nsect (meminfo s) ∧
       sec_start (mi_sec (meminfo s) b) ≤ 70000
         < sec_start (mi_sec (meminfo s) b) + sec_size (mi_sec (meminfo s) b)
     ∨ b = -1 ∧ totalSize s ≤ 70000).
Proof.
  intros s. split; [vm_compute; reflexivity|].
  apply (cfi_flash_get_blk_correct 0xBE000000 s 70000); [|lia].
  apply (uniform_table_ok s 4 65536); try done.
Defined.

(** A top-boot part: eight sectors of 8K listed first, fifteen of 64K. *)
Definition demo_blocks : list erase_block_t :=
  [{| num_sectors := 8; sector_size := 8192 |}; {| num_sectors := 15; sector_size := 65536 |}].

Lemma build_table_correct_witness :
  ∃ s', build_table true (demo_state (uniform_info 1 8192) 0 demo_blocks (2 ^ 20))
          = Done (23, s') ∧
    table_ok s' ∧ mi_nsect (meminfo s') = 23 ∧ totalSize s' = 1048576.
Proof.
  destruct (build_table_correct true (demo_state (uniform_info 1 8192) 0 demo_blocks (2 ^ 20)))
    as (s'&H1&H2&H3&H4&_).
  - discriminate.
  - repeat constructor.
  - vm_compute. discriminate.
  - vm_compute. split; [discriminate|reflexivity].
  - exists s'. split; [exact H1|]. split; [exact H2|]. split; [exact H3|]. exact H4.
Defined.

(** An answer with only the letter Q right. *)
Definition only_Q : list Z := <[17%nat := 0]> (<[18%nat := 0]> cfi_data_struct_29W160).

Lemma cfi_query_one_letter_suffices_witness :
  ∃ s', cfi_flash_get_cfi (Some only_Q) FLASH_AMD (demo_state (uniform_info 1 8192) 0 [] 0)
          = Done (FLASH_API_OK, s').
Proof.
  destruct (cfi_flash_get_cfi (Some only_Q) FLASH_AMD (demo_state (uniform_info 1 8192) 0 [] 0))
    as [[r s']| | |] eqn:E; [|vm_compute in E; discriminate..].
  exists s'.
  pose proof (cfi_query_one_letter_suffices only_Q FLASH_AMD _ s' r 81 0 0
                eq_refl eq_refl eq_refl E) as ->. reflexivity.
Defined.

Lemma AM29LV200BT_scan_out_of_bounds_witness :
  (cfi_flash_get_cfi (Some cfi_data_struct_29W200) FLASH_AMD;;
   count ← build_table true;
   check_top 8 (count - 8)) (demo_state (uniform_info 1 8192) 0 [] 0) = Fault.
Proof. apply AM29LV200BT_scan_out_of_bounds. reflexivity. Defined.
