(* ===== verification/AmdFlash.v ===== *)
(** * The CFI driver on an AMD-command-set part

    The flash part is not in the sources.  [AmdPart] states what the data sheet
    of such a part documents and the driver relies on: the command sequences,
    programming of erased cells, sector erase, and the status read back while
    the part is busy.  Against these laws the driver's read, write and erase
    terminate and do what [FlashContract] promises; [cfi_contract] is the
    instance the rest of the software uses.  A concrete part that satisfies the
    laws is in [AmdChip]. *)

From stdpp Require Import base numbers list strings.
From Stdlib Require Import ZArith Lia.
From S2P Require Import Prelude CfiTypes FlashApi CfiFlash CfiGeometry.

(** ** The part *)

(** The states of the command interface that the driver's sequences go
    through. *)
Inductive amd_mode : Type :=
| AmdRead | AmdUnlock1 | AmdUnlock2
| AmdErase1 | AmdErase2 | AmdErase3
| AmdBypass | AmdProgSetup | AmdBypassExit
| AmdProgBusy (w v : Z)
| AmdEraseBusy (w : Z).

#[export] Instance amd_mode_eq_dec : EqDecision amd_mode.
Proof. solve_decision. Defined.

(** The command table: the part decodes the low eleven address bits of the
    unlock cycles and ignores the address of the others. *)
Definition amd_cmd (m : amd_mode) (w v : Z) : option amd_mode :=
  let a := w mod 2048 in
  match m with
  | AmdRead =>
      if (a =? 0x555) && (v =? 0xAA) then Some AmdUnlock1
      else if v =? 0xF0 then Some AmdRead else None
  | AmdUnlock1 => if (a =? 0x2AA) && (v =? 0x55) then Some AmdUnlock2 else None
  | AmdUnlock2 =>
      if (a =? 0x555) && (v =? 0x20) then Some AmdBypass
      else if (a =? 0x555) && (v =? 0x80) then Some AmdErase1 else None
  | AmdErase1 => if (a =? 0x555) && (v =? 0xAA) then Some AmdErase2 else None
  | AmdErase2 => if (a =? 0x2AA) && (v =? 0x55) then Some AmdErase3 else None
  | AmdBypass =>
      if v =? 0xA0 then Some AmdProgSetup
      else if v =? 0x90 then Some AmdBypassExit else None
  | AmdBypassExit => if v =? 0x00 then Some AmdRead else None
  | _ => None
  end.

(** Array data can be read in read mode and in unlock-bypass mode. *)
Definition amd_quiet (m : amd_mode) : bool :=
  match m with AmdRead | AmdBypass => true | _ => false end.

(** [amd_cell d a] is byte [a] of the array, [amd_sector a] the byte range of
    the erase sector that holds [a], [amd_busy d] the number of status reads
    until the running operation is over, at most [amd_tmax]. *)
Class AmdPart (D : Type) {bus : NorBus D} : Type := {
  amd_mode_of : D → amd_mode;
  amd_cell : D → Z → Z;
  amd_busy : D → nat;
  amd_tmax : nat;
  amd_sector : Z → Z * Z;
  amd_busy_max : ∀ d, (amd_busy d ≤ amd_tmax)%nat;
  amd_cell_byte : ∀ d a, is_byte (amd_cell d a);
  (** Command writes. *)
  amd_wr_cmd : ∀ d w v m', amd_cmd (amd_mode_of d) w v = Some m' →
    amd_mode_of (nor_wr w v d) = m' ∧
    ∀ a, amd_cell (nor_wr w v d) a = amd_cell d a;
  (** Programming an erased word. *)
  amd_wr_prog : ∀ d w v, amd_mode_of d = AmdProgSetup → 0 ≤ v < 65536 →
    amd_cell d (2 * w) = 255 → amd_cell d (2 * w + 1) = 255 →
    amd_mode_of (nor_wr w v d) = AmdProgBusy w v ∧
    ∀ a, amd_cell (nor_wr w v d) a =
      if decide (a = 2 * w) then v / 256
      else if decide (a = 2 * w + 1) then v mod 256 else amd_cell d a;
  (** Erasing the sector that holds word [w]. *)
  amd_wr_erase : ∀ d w, amd_mode_of d = AmdErase3 →
    amd_mode_of (nor_wr w 0x30 d) = AmdEraseBusy w ∧
    ∀ a, amd_cell (nor_wr w 0x30 d) a =
      if decide (fst (amd_sector (2 * w)) ≤ a < snd (amd_sector (2 * w))) then 255
      else amd_cell d a;
  (** Reads of array data. *)
  amd_rd : ∀ d w, amd_quiet (amd_mode_of d) = true →
    fst (nor_rd w d) = 256 * amd_cell d (2 * w) + amd_cell d (2 * w + 1) ∧
    amd_mode_of (snd (nor_rd w d)) = amd_mode_of d ∧
    ∀ a, amd_cell (snd (nor_rd w d)) a = amd_cell d a;
  amd_rd8 : ∀ d a, amd_quiet (amd_mode_of d) = true →
    fst (nor_rd8 a d) = amd_cell d a ∧
    amd_mode_of (snd (nor_rd8 a d)) = amd_mode_of d ∧
    ∀ b, amd_cell (snd (nor_rd8 a d)) b = amd_cell d b;
  (** Status reads: DQ7 is the complement of the data and DQ5 is clear while the
      part is busy; then the data is read. *)
  amd_poll_prog : ∀ d w v, amd_mode_of d = AmdProgBusy w v →
    (∀ a, amd_cell (snd (nor_rd w d)) a = amd_cell d a) ∧
    match amd_busy d with
    | O => fst (nor_rd w d) = v ∧ amd_mode_of (snd (nor_rd w d)) = AmdBypass
    | S n =>
        Z.testbit (fst (nor_rd w d)) 7 = negb (Z.testbit v 7) ∧
        Z.testbit (fst (nor_rd w d)) 5 = false ∧
        amd_mode_of (snd (nor_rd w d)) = AmdProgBusy w v ∧
        amd_busy (snd (nor_rd w d)) = n
    end;
  amd_poll_erase : ∀ d w, amd_mode_of d = AmdEraseBusy w →
    (∀ a, amd_cell (snd (nor_rd w d)) a = amd_cell d a) ∧
    match amd_busy d with
    | O => fst (nor_rd w d) = 0xffff ∧ amd_mode_of (snd (nor_rd w d)) = AmdRead
    | S n =>
        Z.testbit (fst (nor_rd w d)) 7 = false ∧
        Z.testbit (fst (nor_rd w d)) 5 = false ∧
        amd_mode_of (snd (nor_rd w d)) = AmdEraseBusy w ∧
        amd_busy (snd (nor_rd w d)) = n
    end
}.

(** ** The driver's actions *)

Section driver.
Context {D : Type} {bus : NorBus D} {chip : AmdPart D}.
Context (FLASH_BASE : Z) (fuel : nat) (m0 : flashinfo) (total : Z).
Abbreviation st := (cfi_state D).
Abbreviation base := (sec_base (tsize m0)).
Abbreviation nsect := (mi_nsect m0).

(** [drv sem m c s]: the driver has the table [m0] of an AMD part, outside
    interrupt context with [write_sem_lock] at [sem]; the part is in mode [m] and
    holds the bytes [c]. *)
Record drv (sem : Z) (m : amd_mode) (c : Z → Z) (s : st) : Prop := {
  dv_table : table_ok s;
  dv_info : meminfo s = m0;
  dv_total : totalSize s = total;
  dv_family : flashFamily s = FLASH_AMD;
  dv_irq : in_irq s = false;
  dv_sem : write_sem s = sem;
  dv_mode : amd_mode_of (part s) = m;
  dv_cell : ∀ a, amd_cell (part s) a = c a
}.

(** The table is the part's: sector boundaries are aligned to the command
    addresses, and the part erases what the table calls a sector. *)
Context (Halign : ∀ k, 0 ≤ k < nsect → base k mod 4096 = 0).
Context (Hsector : ∀ k, 0 ≤ k < nsect → amd_sector (base k) = (base k, base k + tsize m0 k)).
Context (Hfuel : (amd_tmax < fuel)%nat).

Lemma drv_cell_byte sem m c s a : drv sem m c s → is_byte (c a).
Proof. intros H. rewrite <- (dv_cell _ _ _ _ H). apply amd_cell_byte. Qed.

Lemma drv_ext sem m c c' s : (∀ a, c a = c' a) → drv sem m c s → drv sem m c' s.
Proof. intros E []. constructor; try done. intros. by rewrite dv_cell0. Qed.

(** Only the part changes. *)
Lemma drv_part sem m c m' c' s d' :
  drv sem m c s → amd_mode_of d' = m' → (∀ a, amd_cell d' a = c' a) →
  drv sem m' c' (set_part d' s).
Proof. intros [[] ????] ??. constructor; try done; by constructor. Qed.

Lemma drv_set_sem sem sem' m c s : drv sem m c s → drv sem' m c (set_sem sem' s).
Proof. intros [[] ????]. constructor; try done; by constructor. Qed.

Lemma t_sem_down m c : triple (drv 1 m c) sem_down (λ _, drv 0 m c).
Proof.
  intros s Hs. exists tt, (set_sem 0 s). split; [|by eapply drv_set_sem].
  unfold sem_down. by rewrite (dv_irq _ _ _ _ Hs), (dv_sem _ _ _ _ Hs).
Qed.

Lemma t_sem_up m c : triple (drv 0 m c) sem_up (λ _, drv 1 m c).
Proof.
  intros s Hs. exists tt, (set_sem 1 s). split; [|by eapply drv_set_sem].
  unfold sem_up. by rewrite (dv_irq _ _ _ _ Hs), (dv_sem _ _ _ _ Hs).
Qed.

Lemma drv_offset sem m c s k : drv sem m c s → 0 ≤ k < nsect →
  sector_offset k s = Done (base k, s).
Proof.
  intros Hs Hk. rewrite sector_offset_Done; [|apply Hs|]; by rewrite (dv_info _ _ _ _ Hs).
Qed.

Lemma t_offset sem m c k : 0 ≤ k < nsect →
  triple (drv sem m c) (sector_offset k) (λ o s, o = base k ∧ drv sem m c s).
Proof. intros Hk s Hs. exists (base k), s. split; [|done]. by eapply drv_offset. Qed.

Lemma drv_nsect sem m c s : drv sem m c s → 0 < nsect.
Proof. intros H. pose proof (tk_num s (dv_table _ _ _ _ H)). rewrite (dv_info _ _ _ _ H) in *. lia. Qed.

Lemma t_wr_cmd sem m c w v m' : amd_cmd m w v = Some m' →
  triple (drv sem m c) (wr w v) (λ _, drv sem m' c).
Proof.
  intros Hc s Hs. eexists tt, _. split; [reflexivity|].
  destruct (amd_wr_cmd (part s) w v m') as [? Hcell]; [by rewrite (dv_mode _ _ _ _ Hs)|].
  apply (drv_part _ _ _ _ _ _ _ Hs); [done|]. intros a. rewrite Hcell. apply Hs.
Qed.

(** Unlock cycles at a sector boundary are decoded as such. *)
Lemma align_word k i : 0 ≤ k < nsect → 0 ≤ i < 2048 → (base k / 2 + i) mod 2048 = i.
Proof.
  intros Hk Hi. pose proof (Halign k Hk) as Ha.
  apply Z.mod_divide in Ha as [q Hq]; [|lia].
  replace (base k / 2) with (q * 2048) by (rewrite Hq; replace (q * 4096) with (q * 2048 * 2) by lia;
    by rewrite Z.div_mul).
  rewrite Z.add_comm, Z.mod_add by lia. by apply Z.mod_small.
Qed.

Lemma base_even k : 0 ≤ k < nsect → base k = 2 * (base k / 2).
Proof.
  intros Hk. pose proof (Halign k Hk) as Ha. apply Z.mod_divide in Ha as [q Hq]; [|lia].
  rewrite Hq. replace (q * 4096) with (2 * (q * 2048)) by lia.
  rewrite Z.mul_comm at 2. rewrite Z.div_mul by lia. lia.
Qed.

(** The word writes of [cfi_flash_command] for the AMD family, on the sector at
    offset [b]. *)
Definition amd_seq (b : Z) (cmd : flash_cmd) (off data : Z) : M st unit :=
  let p i v := wr (b / 2 + i) v in
  match cmd with
  | FLASH_UB => p 0x555 0xAA;; p 0x2AA 0x55;; p 0x555 0x20
  | FLASH_PROG => p 0 0xA0;; p (Z.quot off 2) data
  | FLASH_UBRESET => p 0 0x90;; p 0 0x00
  | FLASH_SERASE =>
      p 0x555 0xAA;; p 0x2AA 0x55;; p 0x555 0x80;;
      p 0x555 0xAA;; p 0x2AA 0x55;; p 0 0x30
  | _ => fault
  end.

Definition amd_used (cmd : flash_cmd) : bool :=
  match cmd with FLASH_UB | FLASH_PROG | FLASH_UBRESET | FLASH_SERASE => true | _ => false end.

Lemma t_command sem m c cmd k off data Q :
  0 ≤ k < nsect → amd_used cmd = true →
  triple (drv sem m c) (amd_seq (base k) cmd off data) Q →
  triple (drv sem m c) (cfi_flash_command cmd k off data) Q.
Proof.
  intros Hk Hcmd H s Hs. destruct (H s Hs) as (a&s'&E&HQ). exists a, s'. split; [|done].
  pose proof (drv_nsect _ _ _ _ Hs) as H0.
  unfold cfi_flash_command. mstep (drv_offset _ _ _ _ k Hs Hk).
  mstep (drv_offset _ _ _ _ 0 Hs ltac:(lia)).
  rewrite (bind_Done _ _ _ _ _ (eq_refl : gets flashFamily s = Done (_, s))). cbn beta.
  rewrite (dv_family _ _ _ _ Hs).
  by destruct cmd.
Qed.

(** A chain of command writes. *)
Ltac cmds :=
  repeat first
    [ apply t_wr_cmd; cbn [amd_cmd]; rewrite ?align_word by (lia || assumption); reflexivity
    | eapply triple_bind; [|intros []] ].

Lemma t_UB sem c : triple (drv sem AmdRead c) (cfi_flash_command FLASH_UB 0 0 0)
  (λ _, drv sem AmdBypass c).
Proof.
  apply (triple_pure _ (0 < nsect)); [intros s; apply drv_nsect|]. intros Hn.
  apply t_command; [lia|done|]. unfold amd_seq. cmds.
Qed.

Lemma t_UBRESET sem c : triple (drv sem AmdBypass c) (cfi_flash_command FLASH_UBRESET 0 0 0)
  (λ _, drv sem AmdRead c).
Proof.
  apply (triple_pure _ (0 < nsect)); [intros s; apply drv_nsect|]. intros Hn.
  apply t_command; [lia|done|]. unfold amd_seq. cmds.
Qed.

(** Storing the word [v] at word address [w] in the contents [c]. *)
Definition put_word (c : Z → Z) (w v : Z) (a : Z) : Z :=
  if decide (a = 2 * w) then v / 256
  else if decide (a = 2 * w + 1) then v mod 256 else c a.

Lemma t_PROG sem c k off v : 0 ≤ k < nsect → 0 ≤ v < 65536 →
  let w := base k / 2 + Z.quot off 2 in
  c (2 * w) = 255 → c (2 * w + 1) = 255 →
  triple (drv sem AmdBypass c) (cfi_flash_command FLASH_PROG k off v)
    (λ _, drv sem (AmdProgBusy w v) (put_word c w v)).
Proof.
  intros Hk Hv w Hc1 Hc2. apply t_command; [lia|done|]. unfold amd_seq.
  eapply triple_bind; [cmds|intros []]. intros s Hs. eexists tt, _. split; [reflexivity|].
  destruct (amd_wr_prog (part s) w v) as [? Hcell];
    [apply Hs|done|by rewrite (dv_cell _ _ _ _ Hs)..|].
  apply (drv_part _ _ _ _ _ _ _ Hs); [done|]. intros a. rewrite Hcell. unfold put_word.
  by rewrite (dv_cell _ _ _ _ Hs).
Qed.

Lemma t_SERASE sem c k : 0 ≤ k < nsect →
  triple (drv sem AmdRead c) (cfi_flash_command FLASH_SERASE k 0 0)
    (λ _, drv sem (AmdEraseBusy (base k / 2))
       (λ a, if decide (base k ≤ a < base k + tsize m0 k) then 255 else c a)).
Proof.
  intros Hk. apply t_command; [lia|done|]. unfold amd_seq.
  do 5 (eapply triple_bind; [cmds|intros []]). rewrite Z.add_0_r.
  intros s Hs. eexists tt, _. split; [reflexivity|].
  destruct (amd_wr_erase (part s) (base k / 2)) as [? Hcell]; [apply Hs|].
  rewrite <- base_even, (Hsector k Hk) in Hcell by done. simpl in Hcell.
  apply (drv_part _ _ _ _ _ _ _ Hs); [done|]. intros a. rewrite Hcell.
  by rewrite (dv_cell _ _ _ _ Hs).
Qed.

(** ** Waiting *)

Lemma t_poll_prog sem c w v n s :
  drv sem (AmdProgBusy w v) c s → (amd_busy (part s) < n)%nat →
  ∃ s', poll_data n w v s = Done (true, s') ∧ drv sem AmdBypass c s'.
Proof.
  revert s. induction n as [|n IH]; intros s Hs Hn; [lia|]. cbn [poll_data].
  pose proof (amd_poll_prog (part s) w v (dv_mode _ _ _ _ Hs)) as [Hcell Hpoll].
  unfold mbind, M_bind, rd at 1. destruct (nor_rd w (part s)) as [d1 d'] eqn:E.
  simpl fst in *; simpl snd in *.
  assert (Hc : ∀ a, amd_cell d' a = c a) by (intros a; rewrite Hcell; apply Hs).
  destruct (amd_busy (part s)) as [|b].
  - destruct Hpoll as [-> Hm]. rewrite Z.eqb_refl.
    eexists. split; [reflexivity|]. by apply (drv_part _ _ _ _ _ _ _ Hs).
  - destruct Hpoll as (H7&H5&Hm&Hb).
    destruct (Z.eqb_spec d1 v) as [->|_]; [by destruct (Z.testbit v 7)|]. rewrite H5.
    apply IH; [by apply (drv_part _ _ _ _ _ _ _ Hs)|]. simpl. lia.
Qed.

Lemma t_poll_erase sem c w n s :
  drv sem (AmdEraseBusy w) c s → (amd_busy (part s) < n)%nat →
  ∃ s', poll_data n w 0xffff s = Done (true, s') ∧ drv sem AmdRead c s'.
Proof.
  revert s. induction n as [|n IH]; intros s Hs Hn; [lia|]. cbn [poll_data].
  pose proof (amd_poll_erase (part s) w (dv_mode _ _ _ _ Hs)) as [Hcell Hpoll].
  unfold mbind, M_bind, rd at 1. destruct (nor_rd w (part s)) as [d1 d'] eqn:E.
  simpl fst in *; simpl snd in *.
  assert (Hc : ∀ a, amd_cell d' a = c a) by (intros a; rewrite Hcell; apply Hs).
  destruct (amd_busy (part s)) as [|b].
  - destruct Hpoll as [-> Hm]. rewrite Z.eqb_refl.
    eexists. split; [reflexivity|]. by apply (drv_part _ _ _ _ _ _ _ Hs).
  - destruct Hpoll as (H7&H5&Hm&Hb).
    destruct (Z.eqb_spec d1 0xffff) as [->|_]; [done|]. rewrite H5.
    apply IH; [by apply (drv_part _ _ _ _ _ _ _ Hs)|]. simpl. lia.
Qed.

(** [cfi_flash_wait] reports what the polling loop saw. *)
Lemma t_wait sem m c m' c' k off v : 0 ≤ k < nsect →
  (∀ s, drv sem m c s →
     ∃ s', poll_data fuel (base k / 2 + Z.quot off 2) v s = Done (true, s') ∧ drv sem m' c' s') →
  triple (drv sem m c) (cfi_flash_wait fuel k off v)
    (λ r s, r = STATUS_READY ∧ drv sem m' c' s).
Proof.
  intros Hk H s Hs. destruct (H s Hs) as (s'&E&Hs'). exists STATUS_READY, s'.
  split; [|done]. unfold cfi_flash_wait.
  mstep (drv_offset _ _ _ _ k Hs Hk).
  rewrite (bind_Done _ _ _ _ _ (eq_refl : gets flashFamily s = Done (_, s))). cbn beta.
  rewrite (dv_family _ _ _ _ Hs). mstep E. done.
Qed.

Lemma t_wait_prog sem c k off v : 0 ≤ k < nsect →
  triple (drv sem (AmdProgBusy (base k / 2 + Z.quot off 2) v) c) (cfi_flash_wait fuel k off v)
    (λ r s, r = STATUS_READY ∧ drv sem AmdBypass c s).
Proof.
  intros Hk. apply t_wait; [done|]. intros s Hs. apply t_poll_prog; [done|].
  pose proof (amd_busy_max (part s)). lia.
Qed.

Lemma t_wait_erase sem c k : 0 ≤ k < nsect →
  triple (drv sem (AmdEraseBusy (base k / 2)) c) (cfi_flash_wait fuel k 0 0xffff)
    (λ r s, r = STATUS_READY ∧ drv sem AmdRead c s).
Proof.
  intros Hk. apply t_wait; [done|]. intros s Hs. rewrite Z.quot_0_l, Z.add_0_r by lia.
  apply t_poll_erase; [done|]. pose proof (amd_busy_max (part s)). lia.
Qed.

(** ** Erase and read *)

Lemma t_erase c k : 0 ≤ k < nsect →
  triple (drv 1 AmdRead c) (cfi_flash_sector_erase_int fuel k)
    (λ r s, r = FLASH_API_OK ∧
       drv 1 AmdRead (λ a, if decide (base k ≤ a < base k + tsize m0 k) then 255 else c a) s).
Proof.
  intros Hk. unfold cfi_flash_sector_erase_int. tstep (t_sem_down _ _).
  eapply (triple_bind _ _ (λ _, drv 0 AmdRead _)).
  { cbn [erase_tries]. tstep (t_SERASE _ _ k Hk).
    eapply triple_bind_eq; [by apply t_wait_erase|]. by apply triple_ret. }
  intros []. tstep (t_sem_up _ _). by apply triple_ret.
Qed.

Lemma t_rd8 sem m c a : amd_quiet m = true →
  triple (drv sem m c) (rd8 a) (λ v s, v = c a ∧ drv sem m c s).
Proof.
  intros Hm s Hs. destruct (amd_rd8 (part s) a) as (Hv&Hmode&Hcell).
  { by rewrite (dv_mode _ _ _ _ Hs). }
  unfold rd8. destruct (nor_rd8 a (part s)) as [v d]. simpl in *. eexists _, _.
  split; [reflexivity|]. split; [rewrite Hv; apply Hs|].
  apply (drv_part _ _ _ _ _ _ _ Hs); [by rewrite Hmode; apply Hs|].
  intros b. rewrite Hcell. apply Hs.
Qed.

Lemma t_read_bytes sem m c n : amd_quiet m = true → ∀ a,
  triple (drv sem m c) (read_bytes n a) (λ bs s, bs = bytes_at c a n ∧ drv sem m c s).
Proof.
  intros Hm. induction n as [|n IH]; intros a; cbn [read_bytes].
  { apply triple_ret. intros s Hs. split; [reflexivity|done]. }
  eapply triple_bind_eq; [by apply t_rd8|].
  eapply triple_bind_eq; [apply IH|].
  apply triple_ret. intros s Hs. by rewrite bytes_at_S.
Qed.

Lemma t_read c k off n : 0 ≤ k < nsect → 0 ≤ n →
  triple (drv 1 AmdRead c) (cfi_flash_read_buf k off n)
    (λ r s, r = (FLASH_API_OK, Some (bytes_at c (base k + off) (Z.to_nat n))) ∧
            drv 1 AmdRead c s).
Proof.
  intros Hk Hn. unfold cfi_flash_read_buf. tstep (t_sem_down _ _).
  eapply triple_bind_eq; [by apply (t_offset _ _ _ k)|].
  rewrite (proj2 (Z.ltb_ge n 0)) by done.
  eapply (triple_bind _ _ (λ _, drv 0 AmdRead c)); [by apply triple_ret|]. intros _.
  eapply triple_bind_eq; [by apply t_read_bytes|].
  tstep (t_sem_up _ _). by apply triple_ret.
Qed.

(** ** Write *)

Lemma stored_word c w hi lo bs a : is_byte hi → is_byte lo →
  stored (put_word c w (hi * 256 + lo)) (2 * w + 2) bs a = stored c (2 * w) (hi :: lo :: bs) a.
Proof.
  unfold is_byte, stored, put_word. intros Hhi Hlo.
  cbn [length]. rewrite !Nat2Z.inj_succ.
  destruct (decide (a = 2 * w)) as [->|Hn1].
  { rewrite decide_False, decide_True by lia. rewrite Z.sub_diag. simpl.
    rewrite Z.div_add_l by lia. rewrite Z.div_small; lia. }
  destruct (decide (a = 2 * w + 1)) as [->|Hn2].
  { rewrite decide_False, decide_True by lia.
    replace (2 * w + 1 - 2 * w) with 1 by lia. simpl.
    rewrite Z.add_comm, Z.mod_add by lia. apply Z.mod_small. lia. }
  destruct (decide (2 * w + 2 ≤ a < 2 * w + 2 + Z.of_nat (length bs))).
  - rewrite decide_True by lia.
    replace (Z.to_nat (a - 2 * w)) with (S (S (Z.to_nat (a - (2 * w + 2))))) by lia. done.
  - by rewrite decide_False by lia.
Qed.

(** The loop of [cfi_flash_write], on a buffer [bs] of the [2*n] bytes to be
    written followed by [rest]. *)
Lemma t_write_words sem k (bs rest : list Z) : 0 ≤ k < nsect → Forall is_byte bs →
  ∀ c n fl off done,
  length bs = (2 * n)%nat → (n < fl)%nat → 0 ≤ off → Z.even off = true →
  (∀ a, base k + off ≤ a < base k + off + Z.of_nat (length bs) → c a = 255) →
  triple (drv sem AmdBypass c)
    (write_words fuel fl k off (bs ++ rest) (Z.of_nat (length bs)) done)
    (λ r s, r = done + Z.of_nat (length bs) ∧ drv sem AmdBypass (stored c (base k + off) bs) s).
Proof.
  intros Hk Hb c n. revert bs Hb c.
  induction n as [|n IH]; intros bs Hb c fl off done Hlen Hfl Hoff Hev Hc.
  { destruct bs; [|done]. destruct fl as [|fl]; [lia|]. simpl. apply triple_ret.
    intros s Hs. split; [lia|]. eapply drv_ext; [|exact Hs]. intros. by rewrite stored_nil. }
  destruct fl as [|fl]; [lia|].
  destruct bs as [|hi [|lo bs]]; [simpl in Hlen; lia..|].
  apply Forall_cons in Hb as [Hhi Hb]. apply Forall_cons in Hb as [Hlo Hb].
  cbn [length] in *. cbn [write_words]. rewrite (proj2 (Z.ltb_lt 0 _)) by lia.
  apply Zeven_bool_iff, Zeven_ex in Hev as [h ->].
  set (w := base k / 2 + Z.quot (2 * h) 2).
  assert (Hw : base k + 2 * h = 2 * w).
  { unfold w. pose proof (base_even k Hk).
    replace (Z.quot (2 * h) 2) with h by (rewrite Z.mul_comm, Z.quot_mul; lia). lia. }
  unfold is_byte in Hhi, Hlo.
  eapply triple_bind_eq; [by apply (triple_ret _ (hi * 256 + lo)); intros s Hs|].
  eapply triple_bind.
  { apply t_PROG; [done|lia|apply Hc; lia|apply Hc; lia]. }
  intros []. cbn beta.
  eapply triple_bind_eq; [by apply t_wait_prog|]. cbn [negb STATUS_READY Z.eqb].
  fold w.
  replace (Z.of_nat (S (S (length bs))) - 2) with (Z.of_nat (length bs)) by lia.
  eapply triple_conseq.
  { apply (IH bs Hb (put_word c w (hi * 256 + lo)) fl (2 * h + 2) (done + 2)); [lia..| |].
    - by rewrite Z.even_add, Z.even_mul.
    - intros a Ha. unfold put_word. rewrite !decide_False by lia. apply Hc. lia. }
  { done. }
  intros r s [-> Hs]. split; [lia|]. eapply drv_ext; [|exact Hs]. intros a.
  replace (base k + (2 * h + 2)) with (2 * w + 2) by lia. rewrite Hw.
  by apply stored_word.
Qed.

Lemma even_lor n off : Z.even n = true → Z.even off = true → Z.testbit (Z.lor n off) 0 = false.
Proof.
  rewrite Z.lor_spec, !Z.bit0_odd, <- !Z.negb_even. by intros -> ->.
Qed.

Lemma t_write c k off buf n : 0 ≤ k < nsect → 0 ≤ off → 0 ≤ n →
  Z.even off = true → Z.even n = true → n ≤ Z.of_nat (length buf) → Forall is_byte buf →
  (∀ a, base k + off ≤ a < base k + off + n → c a = 255) →
  triple (drv 0 AmdRead c) (cfi_flash_write fuel k off buf n)
    (λ r s, r = n ∧ drv 0 AmdRead (stored c (base k + off) (take (Z.to_nat n) buf)) s).
Proof.
  intros Hk Hoff Hn Heo Hen Hlen Hb Hc. unfold cfi_flash_write.
  rewrite even_lor by done. tstep (t_UB _ _).
  set (bs := take (Z.to_nat n) buf).
  assert (Hbs : Z.of_nat (length bs) = n) by (unfold bs; rewrite length_take; lia).
  apply Zeven_bool_iff, Zeven_ex in Hen as [h Hh].
  eapply triple_bind_eq.
  { rewrite <- (take_drop (Z.to_nat n) buf). fold bs. rewrite <- Hbs at 3.
    apply (t_write_words 0 k bs _ Hk) with (n := Z.to_nat h); try done.
    - by apply Forall_take.
    - lia.
    - lia.
    - by rewrite Hbs. }
  tstep (t_UBRESET _ _). apply triple_ret. intros s Hs. split; [lia|done].
Qed.

(** ** Verify *)

Lemma t_memcmp_flash sem m c n : amd_quiet m = true → ∀ a buf, (n ≤ length buf)%nat →
  triple (drv sem m c) (memcmp_flash n a buf)
    (λ b s, b = bool_decide (bytes_at c a n = take n buf) ∧ drv sem m c s).
Proof.
  intros Hm. induction n as [|n IH]; intros a buf Hl; cbn [memcmp_flash].
  { by apply triple_ret. }
  destruct buf as [|x buf]; simpl in Hl; [lia|].
  eapply triple_bind_eq; [by apply t_rd8|]. rewrite bytes_at_S. cbn [take].
  destruct (Z.eqb_spec (c a) x) as [->|Hne].
  - eapply triple_conseq; [apply (IH (a + 1) buf); lia|done|].
    intros b s [-> Hs]. split; [|done]. apply bool_decide_ext.
    split; [congruence|by intros [= ?]].
  - apply triple_ret. intros s Hs. split; [|done]. symmetry.
    apply bool_decide_eq_false. by intros [= ?].
Qed.

Lemma t_memcmp_chunks sem m c kk : amd_quiet m = true → ∀ a buf nb,
  0 ≤ nb → nb < Z.of_nat kk → nb ≤ Z.of_nat (length buf) →
  triple (drv sem m c) (memcmp_chunks kk a buf nb)
    (λ b s, b = bool_decide (bytes_at c a (Z.to_nat nb) = take (Z.to_nat nb) buf) ∧
            drv sem m c s).
Proof.
  intros Hm. induction kk as [|kk IH]; intros a buf nb Hnb Hk Hl; [lia|]. cbn [memcmp_chunks].
  destruct (Z.ltb_spec 0 nb) as [Hpos|]; cycle 1.
  { assert (nb = 0) as -> by lia. by apply triple_ret. }
  set (ch := if nb >? 1024 then 1024 else nb).
  assert (Hch : 0 < ch ≤ nb ∧ ch ≤ 1024 ∧ (ch < nb → ch = 1024)).
  { unfold ch. destruct (Z.gtb_spec nb 1024); lia. }
  eapply triple_bind_eq; [by apply t_memcmp_flash; [done|lia]|].
  assert (Hsplit : bytes_at c a (Z.to_nat nb) = take (Z.to_nat nb) buf ↔
    bytes_at c a (Z.to_nat ch) = take (Z.to_nat ch) buf ∧
    bytes_at c (a + ch) (Z.to_nat (nb - ch)) = take (Z.to_nat (nb - ch)) (drop (Z.to_nat ch) buf)).
  { replace (Z.to_nat nb) with (Z.to_nat ch + Z.to_nat (nb - ch))%nat by lia.
    rewrite bytes_at_app, <- take_take_drop, Z2Nat.id by lia. split.
    - intros E. apply app_inj_1 in E; [done|]. rewrite bytes_at_length, length_take. lia.
    - by intros [-> ->]. }
  case_bool_decide as E1; cycle 1.
  { apply triple_ret. intros s Hs. split; [|done]. symmetry.
    apply bool_decide_eq_false. intros HH. by apply Hsplit in HH as []. }
  destruct (decide (ch = nb)) as [->|Hlt].
  - destruct kk as [|kk]; [lia|]. cbn [memcmp_chunks].
    destruct (Z.ltb_spec 0 (nb - 1024)) as [|_]; [lia|].
    apply triple_ret. intros s Hs. split; [|done]. symmetry. by apply bool_decide_eq_true.
  - assert (ch = 1024) as Ec by lia. rewrite Ec in *. eapply triple_conseq.
    { apply (IH (a + 1024) (drop 1024 buf) (nb - 1024)); [lia..|]. rewrite length_drop. lia. }
    { done. }
    intros b s [-> Hs]. split; [|done]. apply bool_decide_ext. rewrite Hsplit. tauto.
Qed.

Lemma t_write_buf c k off buf n : 0 ≤ k < nsect → 0 ≤ off → 0 ≤ n →
  Z.even off = true → Z.even n = true → n ≤ Z.of_nat (length buf) → Forall is_byte buf →
  (∀ a, base k + off ≤ a < base k + off + n → c a = 255) →
  triple (drv 1 AmdRead c) (cfi_flash_write_buf fuel k off buf n)
    (λ r s, r = n ∧ drv 1 AmdRead (stored c (base k + off) (take (Z.to_nat n) buf)) s).
Proof.
  intros Hk Hoff Hn Heo Hen Hlen Hb Hc. unfold cfi_flash_write_buf.
  tstep (t_sem_down _ _). eapply triple_bind_eq; [by apply (t_offset _ _ _ k)|].
  eapply triple_bind_eq.
  { cbn [write_tries]. eapply triple_bind_eq; [by apply t_write|].
    eapply triple_bind_eq.
    { apply t_memcmp_chunks; [done|lia..]. }
    rewrite bool_decide_eq_true_2.
    2: { rewrite <- (bytes_at_stored c (base k + off) (take (Z.to_nat n) buf)) at 2.
         f_equal. rewrite length_take. lia. }
    by apply triple_ret. }
  tstep (t_sem_up _ _). by apply triple_ret.
Qed.

(** ** The contract *)

Context (s0 : st) (Htab : table_ok s0) (Hinfo : meminfo s0 = m0) (Htot : totalSize s0 = total).
Abbreviation dev := (flash_cfi_dev FLASH_BASE fuel).

Lemma nsect_range : 0 < nsect ≤ 1024.
Proof. pose proof (tk_num s0 Htab). rewrite Hinfo in *. exact H. Qed.

Lemma fits_u16 k : 0 ≤ k < nsect → u16 k = k.
Proof. intros Hk. pose proof nsect_range. apply u16_small. lia. Qed.

(** The driver behind [flash_cfi_dev] implements the flash contract. *)
#[refine] Definition cfi_contract : FlashContract FLASH_BASE dev := {|
  fc_ok := λ s, drv 1 AmdRead (amd_cell (part s)) s;
  fc_mem := λ s, amd_cell (part s);
  fc_num := nsect;
  fc_size := tsize m0
|}.
Proof.
  - pose proof nsect_range. lia.
  - intros k Hk. rewrite <- Hinfo in *. by apply Htab.
  - rewrite <- Hinfo, <- (tk_total s0 Htab). apply Htab.
  - intros s a _ _. apply amd_cell_byte.
  - intros s Hs. simpl. unfold cfi_flash_get_numsectors, gets. by rewrite (dv_info _ _ _ _ Hs).
  - intros s k Hs Hk. simpl. rewrite get_sector_size_Done; [|apply Hs|];
      by rewrite (dv_info _ _ _ _ Hs).
  - intros s k Hs Hk. simpl. unfold cfi_flash_get_memptr.
    by mstep (drv_offset _ _ _ _ k Hs Hk).
  - intros s Hs. simpl. unfold cfi_flash_get_total_size, gets.
    by rewrite (tk_total s (dv_table _ _ _ _ Hs)), (dv_info _ _ _ _ Hs).
  - intros s k a Hs Hk Ha. simpl. apply get_blk_inside; [apply Hs|..];
      by rewrite (dv_info _ _ _ _ Hs).
  - intros s a Hs Ha. simpl. apply get_blk_outside; [apply Hs|].
    by rewrite (tk_total s (dv_table _ _ _ _ Hs)), (dv_info _ _ _ _ Hs).
  - intros s k off n Hs Hk Hoff Hn Hr. simpl. rewrite fits_u16 by done.
    destruct (t_read _ k off n Hk Hn s Hs) as (r&s'&E&->&Hs'). exists s'.
    split; [exact E|]. split; [|apply Hs']. eapply drv_ext; [|exact Hs'].
    intros a. symmetry. apply Hs'.
  - intros s k Hs Hk. simpl. rewrite fits_u16 by done.
    destruct (t_erase _ k Hk s Hs) as (r&s'&E&->&Hs'). exists s'.
    split; [exact E|]. split; [|apply Hs']. eapply drv_ext; [|exact Hs'].
    intros a. symmetry. apply Hs'.
  - intros s k off buf n Hs Hk Hoff Hn Heo Hen Hr Hlen Hb Hc. simpl. rewrite fits_u16 by done.
    destruct (t_write_buf _ k off buf n Hk Hoff Hn Heo Hen Hlen Hb Hc s Hs)
      as (r&s'&E&->&Hs'). exists s'. split; [exact E|]. split.
    { eapply drv_ext; [|exact Hs']. intros a. symmetry. apply Hs'. }
    intros a. rewrite (dv_cell _ _ _ _ Hs'). unfold stored.
    assert (Hlt : Z.of_nat (length (take (Z.to_nat n) buf)) = n) by (rewrite length_take; lia).
    rewrite Hlt. case_decide; [|done].
    replace (a - sec_base (tsize m0) k - off) with (a - (sec_base (tsize m0) k + off)) by lia.
    rewrite !nth_lookup, lookup_take_lt by lia. done.
Defined.
End driver.

(** ** A verify failure

    [keeps m]: the action [m] does not touch the semaphore. *)
Section semaphore.
Context {D : Type} {bus : NorBus D} (fuel : nat).
Abbreviation st := (cfi_state D).

Definition keeps {A} (m : M st A) : Prop :=
  ∀ s a s', m s = Done (a, s') → write_sem s' = write_sem s ∧ in_irq s' = in_irq s ∧ signalled s' = signalled s.

Lemma keeps_bind {A B} (m : M st A) (f : A → M st B) :
  keeps m → (∀ a, keeps (f a)) → keeps (m ≫= f).
Proof.
  intros Hm Hf s b s' (a&s1&E1&E2)%bind_Done_inv.
  destruct (Hm _ _ _ E1) as (<-&<-&<-). by apply (Hf _ _ _ _ E2).
Qed.

Lemma keeps_ret {A} (a : A) : keeps (mret a).
Proof. by intros s b s' [= _ <-]. Qed.

Lemma keeps_fault {A} : keeps (fault : M st A).
Proof. by intros s b s'. Qed.

Lemma keeps_nofuel {A} : keeps (nofuel : M st A).
Proof. by intros s b s'. Qed.

Lemma keeps_gets {A} (f : st → A) : keeps (gets f).
Proof. by intros s b s' [= _ <-]. Qed.

Lemma keeps_rd w : keeps (rd w).
Proof. intros s b s'. unfold rd. destruct (nor_rd w (part s)). by intros [= _ <-]. Qed.

Lemma keeps_rd8 w : keeps (rd8 w).
Proof. intros s b s'. unfold rd8. destruct (nor_rd8 w (part s)). by intros [= _ <-]. Qed.

Lemma keeps_wr w v : keeps (wr w v).
Proof. by intros s b s' [= _ <-]. Qed.

Lemma keeps_get_sec i : keeps (get_sec i).
Proof. unfold get_sec. case_decide; [apply keeps_gets|apply keeps_fault]. Qed.

Create HintDb keeps.
#[local] Hint Resolve keeps_bind keeps_ret keeps_fault keeps_nofuel keeps_gets keeps_rd keeps_rd8
  keeps_wr keeps_get_sec : keeps.

(** Walk through the binds and branches of an action. *)
Ltac keeps :=
  repeat first
    [ progress intros
    | solve [eauto with keeps nocore]
    | apply keeps_bind
    | match goal with
      | |- keeps (if ?b then _ else _) => destruct b
      | |- keeps (match ?b with _ => _ end) => destruct b
      end ].

Lemma keeps_offset k : keeps (sector_offset k).
Proof. unfold sector_offset. keeps. Qed.
#[local] Hint Resolve keeps_offset : keeps.

Lemma keeps_command cmd k off data : keeps (cfi_flash_command cmd k off data).
Proof. unfold cfi_flash_command. keeps. Qed.
#[local] Hint Resolve keeps_command : keeps.

Lemma keeps_poll_data n w v : keeps (poll_data n w v).
Proof. induction n; cbn [poll_data]; keeps. Qed.

Lemma keeps_poll_again n w v : keeps (poll_again n w v).
Proof. induction n; cbn [poll_again]; keeps. Qed.

Lemma keeps_poll_intel n w : keeps (poll_intel n w).
Proof. induction n; cbn [poll_intel]; keeps. Qed.
#[local] Hint Resolve keeps_poll_data keeps_poll_again keeps_poll_intel : keeps.

Lemma keeps_wait k off v : keeps (cfi_flash_wait fuel k off v).
Proof. unfold cfi_flash_wait. keeps. Qed.
#[local] Hint Resolve keeps_wait : keeps.

Lemma keeps_write_words n k off src nb dn : keeps (write_words fuel n k off src nb dn).
Proof.
  revert off src nb dn. induction n; intros; cbn [write_words]; unfold of_option; keeps.
Qed.
#[local] Hint Resolve keeps_write_words : keeps.

Lemma keeps_write k off buf n : keeps (cfi_flash_write fuel k off buf n).
Proof. unfold cfi_flash_write. keeps. Qed.

Lemma keeps_memcmp_flash n a buf : keeps (memcmp_flash n a buf).
Proof. revert a buf. induction n; intros; cbn [memcmp_flash]; keeps. Qed.
#[local] Hint Resolve keeps_memcmp_flash : keeps.

Lemma keeps_memcmp a buf n : keeps (cfi_memcmp_sched a buf n).
Proof.
  unfold cfi_memcmp_sched. generalize (S (Z.to_nat n)) as k. intros k. revert a buf n.
  induction k; intros; cbn [memcmp_chunks]; keeps.
Qed.

Lemma keeps_erase_tries n k : keeps (erase_tries fuel n k).
Proof. induction n; cbn [erase_tries]; keeps. Qed.

(** The semaphore outside interrupt context: [c] is the count and [g] says
    whether a signal has come. *)
Definition lock_is (c : Z) (g : bool) (s : st) : Prop := write_sem s = c ∧ in_irq s = false ∧ signalled s = g.

Lemma keeps_lock {A} (m : M st A) c g s a s' : keeps m → m s = Done (a, s') → lock_is c g s → lock_is c g s'.
Proof. intros Hm E (E1&E2&E3). destruct (Hm _ _ _ E) as (F1&F2&F3). unfold lock_is. by rewrite F1, F2, F3. Qed.

Lemma lock_set c c' g s : lock_is c g s → lock_is c' g (set_sem c' s).
Proof. by intros (_&E2&E3). Qed.

Lemma sem_down_free c g s : 0 < c → lock_is c g s → sem_down s = Done (tt, set_sem (c - 1) s).
Proof. intros Hc (E1&E2&_). unfold sem_down. by rewrite E2, E1, (proj2 (Z.ltb_lt _ _)). Qed.

Lemma sem_down_taken g s : lock_is 0 g s → sem_down s = if g then Done (tt, s) else Blocked.
Proof. intros (E1&E2&E3). unfold sem_down. by rewrite E2, E1, E3. Qed.

Lemma sem_up_lock c g s : lock_is c g s → sem_up s = Done (tt, set_sem (c + 1) s).
Proof. intros (E1&E2&_). unfold sem_up. by rewrite E2, E1. Qed.

(** An erase with the lock free, as the later attempts find it. *)
Lemma erase_int_lock k s r s' : lock_is 1 true s →
  cfi_flash_sector_erase_int fuel k s = Done (r, s') → lock_is 1 true s'.
Proof.
  intros Hl. unfold cfi_flash_sector_erase_int. mstep (sem_down_free 1 true s eq_refl Hl).
  intros ([]&s1&E1&E)%bind_Done_inv. apply (keeps_lock _ 0 true) in E1; [|apply keeps_erase_tries|by eapply lock_set].
  revert E. mstep (sem_up_lock _ _ _ E1). intros [= _ <-]. by eapply lock_set.
Qed.

Lemma write_tries_lock n p k off buf nb ret s r s' : lock_is 1 true s →
  write_tries fuel n p k off buf nb ret s = Done (r, s') → lock_is 1 true s'.
Proof.
  revert ret s. induction n as [|n IH]; intros ret s Hl; cbn [write_tries]; [by intros [= _ <-]|].
  intros (w&s1&E1&E)%bind_Done_inv. apply (keeps_lock _ _ _ _ _ _ (keeps_write _ _ _ _) E1) in Hl as H1.
  apply bind_Done_inv in E as (eq&s2&E2&E). apply (keeps_lock _ _ _ _ _ _ (keeps_memcmp _ _ _) E2) in H1 as H2.
  destruct eq; [by injection E as _ <-|]. apply bind_Done_inv in E as (x&s3&E3&E).
  apply (IH _ _ (erase_int_lock _ _ _ _ H2 E3) E).
Qed.

(** An attempt whose verify fails goes on with the erase. *)
Lemma write_tries_fails m p k off buf n ret r s s1 s2 {A} (f : Z → M st A) :
  cfi_flash_write fuel k off buf n s = Done (r, s1) → cfi_memcmp_sched p buf n s1 = Done (false, s2) →
  (write_tries fuel (S m) p k off buf n ret ≫= f) s =
    (cfi_flash_sector_erase_int fuel k;; write_tries fuel m p k off buf n FLASH_API_ERROR ≫= f) s2.
Proof.
  intros Hw Hc. cbn [write_tries]. rewrite bind_assoc. mstep Hw. rewrite bind_assoc. mstep Hc. by rewrite bind_assoc.
Qed.

(** [C40] The retry of [cfi_flash_write_buf] is never safe outside interrupt
    context.  When the verify after the first write fails, the driver calls the
    erase, which waits for [write_sem_lock], which was free before the call and
    which the caller itself now holds.  As
    long as no signal comes the call does not go on: it neither retries nor
    returns the error.  A signal ends the wait, whose result is ignored: once
    the erase is done the second attempt runs with the lock given back, so
    that another process could enter, and when the call returns the count of
    the lock is two, so that from then on two processes can be in the driver at
    the same time. *)
Theorem write_retry_loses_lock (k off n r o : Z) (buf : list Z) (s s1 s2 : st) :
  in_irq s = false → write_sem s = 1 →
  sector_offset k s = Done (o, s) →
  cfi_flash_write fuel k off buf n (set_sem 0 s) = Done (r, s1) →
  cfi_memcmp_sched (o + off) buf n s1 = Done (false, s2) →
  (signalled s = false → cfi_flash_write_buf fuel k off buf n s = Blocked) ∧
  (signalled s = true →
     (∀ s3, erase_tries fuel 3 k s2 = Done (tt, s3) → write_sem s3 = 0 ∧
        cfi_flash_write_buf fuel k off buf n s =
          (ret ← write_tries fuel 2 (o + off) k off buf n FLASH_API_ERROR; sem_up;; mret ret) (set_sem 1 s3)) ∧
     (∀ ret s', cfi_flash_write_buf fuel k off buf n s = Done (ret, s') → write_sem s' = 2)).
Proof.
  intros Hirq Hsem Ho Hw Hc.
  assert (Hl : lock_is 0 (signalled s) (set_sem 0 s)) by done.
  apply (keeps_lock _ _ _ _ _ _ (keeps_write _ _ _ _) Hw) in Hl.
  apply (keeps_lock _ _ _ _ _ _ (keeps_memcmp _ _ _) Hc) in Hl.
  assert (Ho' : sector_offset k (set_sem 0 s) = Done (o, set_sem 0 s)).
  { revert Ho. unfold sector_offset, get_sec. case_decide; [|done]. by intros [= <-]. }
  assert (Hd : sem_down s = Done (tt, set_sem 0 s)) by (by apply (sem_down_free 1 (signalled s))).
  assert (E : cfi_flash_write_buf fuel k off buf n s =
    (cfi_flash_sector_erase_int fuel k;;
     ret ← write_tries fuel 2 (o + off) k off buf n FLASH_API_ERROR; sem_up;; mret ret) s2).
  { unfold cfi_flash_write_buf. mstep Hd. mstep Ho'. by apply (write_tries_fails 2 _ _ _ _ _ _ r _ s1). }
  rewrite E. unfold cfi_flash_sector_erase_int. rewrite bind_assoc. split; intros Eg; rewrite Eg in Hl.
  { apply bind_Blocked. by rewrite (sem_down_taken _ _ Hl). }
  assert (E' : sem_down s2 = Done (tt, s2)) by (by rewrite (sem_down_taken _ _ Hl)).
  mstep E'. rewrite bind_assoc. split.
  - intros s3 E3. apply (keeps_lock _ _ _ _ _ _ (keeps_erase_tries _ _) E3) in Hl as H3. split; [apply H3|].
    mstep E3. rewrite bind_assoc. by mstep (sem_up_lock _ _ _ H3).
  - intros ret s' ([]&s3&E3&E4)%bind_Done_inv.
    apply (keeps_lock _ _ _ _ _ _ (keeps_erase_tries _ _) E3) in Hl as H3. revert E4. rewrite bind_assoc.
    mstep (sem_up_lock _ _ _ H3). rewrite bind_ret. intros (r'&s4&E4&E5)%bind_Done_inv.
    apply write_tries_lock in E4; [|by eapply lock_set]. revert E5. mstep (sem_up_lock _ _ _ E4). by intros [= _ <-].
Qed.
End semaphore.

(** ** The claims *)

Section claims.
Context {D : Type} {bus : NorBus D} {chip : AmdPart D} (FLASH_BASE : Z) (fuel : nat).
Abbreviation st := (cfi_state D).

(** The driver after a successful [cfi_flash_init] on an AMD part, at rest:
    its table is the part's geometry, the lock is free, the part is in read
    mode, and the polling bound exceeds the longest busy time. *)
Record amd_ready (s : st) : Prop := {
  ar_table : table_ok s;
  ar_family : flashFamily s = FLASH_AMD;
  ar_irq : in_irq s = false;
  ar_sem : write_sem s = 1;
  ar_mode : amd_mode_of (part s) = AmdRead;
  ar_align : ∀ k, 0 ≤ k < mi_nsect (meminfo s) →
    sec_base (tsize (meminfo s)) k mod 4096 = 0;
  ar_sector : ∀ k, 0 ≤ k < mi_nsect (meminfo s) →
    amd_sector (sec_base (tsize (meminfo s)) k) =
      (sec_base (tsize (meminfo s)) k,
       sec_base (tsize (meminfo s)) k + tsize (meminfo s) k);
  ar_fuel : (amd_tmax < fuel)%nat
}.

Lemma ready_drv s : amd_ready s → drv (meminfo s) (totalSize s) 1 AmdRead (amd_cell (part s)) s.
Proof. by intros []. Qed.

Lemma drv_ready s c s' : amd_ready s → drv (meminfo s) (totalSize s) 1 AmdRead c s' →
  amd_ready s'.
Proof. intros [] []. constructor; rewrite ?dv_info0; done. Qed.

Lemma ready_start s k : amd_ready s → 0 ≤ k < mi_nsect (meminfo s) →
  sec_start (mi_sec (meminfo s) k) = sec_base (tsize (meminfo s)) k.
Proof. intros H Hk. by apply (tk_start s (ar_table s H)). Qed.

(** Writing: on a part in the state above, a write of an even number of
    bytes at an even offset of an erased stretch of a sector terminates, returns
    the number of bytes, leaves exactly these bytes in the part and every other
    byte as it was, and leaves the driver at rest. *)
Theorem cfi_flash_write_correct (s : st) (k off n : Z) (buf : list Z) :
  amd_ready s → 0 ≤ k < mi_nsect (meminfo s) → 0 ≤ off → 0 ≤ n →
  Z.even off = true → Z.even n = true → n ≤ Z.of_nat (length buf) → Forall is_byte buf →
  let p := sec_start (mi_sec (meminfo s) k) + off in
  (∀ a, p ≤ a < p + n → amd_cell (part s) a = 255) →
  ∃ s', cfi_flash_write_buf fuel k off buf n s = Done (n, s') ∧ amd_ready s' ∧
    ∀ a, amd_cell (part s') a =
      if decide (p ≤ a < p + n) then nth (Z.to_nat (a - p)) buf 0 else amd_cell (part s) a.
Proof.
  intros Hr Hk Hoff Hn Heo Hen Hlen Hb p. unfold p. rewrite (ready_start s k Hr Hk). intros Hc.
  destruct (t_write_buf fuel (meminfo s) (totalSize s) (ar_align s Hr) (ar_fuel s Hr)
              (amd_cell (part s)) k off buf n Hk Hoff Hn Heo Hen Hlen Hb Hc s (ready_drv s Hr))
    as (r&s'&E&->&Hs').
  exists s'. split; [exact E|]. split; [by eapply drv_ready|]. intros a.
  rewrite (dv_cell _ _ _ _ _ _ Hs'). unfold stored.
  assert (Hlt : Z.of_nat (length (take (Z.to_nat n) buf)) = n) by (rewrite length_take; lia).
  rewrite Hlt. case_decide; [|done]. rewrite !nth_lookup, lookup_take_lt by lia. done.
Qed.

(** Erasing: the erase of a sector terminates, reports success, sets every
    byte of that sector to 0xff and no other byte, and leaves the driver at
    rest. *)
Theorem cfi_flash_erase_correct (s : st) (k : Z) :
  amd_ready s → 0 ≤ k < mi_nsect (meminfo s) →
  let p := sec_start (mi_sec (meminfo s) k) in
  ∃ s', cfi_flash_sector_erase_int fuel k s = Done (FLASH_API_OK, s') ∧ amd_ready s' ∧
    ∀ a, amd_cell (part s') a =
      if decide (p ≤ a < p + sec_size (mi_sec (meminfo s) k)) then 255
      else amd_cell (part s) a.
Proof.
  intros Hr Hk p. unfold p. rewrite (ready_start s k Hr Hk).
  destruct (t_erase fuel (meminfo s) (totalSize s) (ar_align s Hr) (ar_sector s Hr) (ar_fuel s Hr)
              (amd_cell (part s)) k Hk s (ready_drv s Hr)) as (r&s'&E&->&Hs').
  exists s'. split; [exact E|]. split; [by eapply drv_ready|]. apply Hs'.
Qed.

(** [C1] Refinement: the device record [flash_cfi_dev] implements the flash
    contract (reads, sector erases, writes, size and address queries) for the
    geometry of its table and the contents of the part.  The driver has found a
    part with the AMD command set, and is at rest: the lock is free, the part in
    read mode, and no interrupt is being served ([amd_ready]). *)
Theorem cfi_driver_refines_contract (s : st) :
  amd_ready s →
  ∃ C : FlashContract FLASH_BASE (flash_cfi_dev FLASH_BASE fuel),
    @fc_ok _ _ _ C s ∧
    @fc_num _ _ _ C = mi_nsect (meminfo s) ∧
    (∀ k, @fc_size _ _ _ C k = sec_size (mi_sec (meminfo s) k)) ∧
    (∀ s' a, @fc_mem _ _ _ C s' a = amd_cell (part s') a).
Proof.
  intros Hr.
  exists (cfi_contract FLASH_BASE fuel (meminfo s) (totalSize s) (ar_align s Hr)
            (ar_sector s Hr) (ar_fuel s Hr) s (ar_table s Hr) eq_refl).
  split; [by apply ready_drv|]. done.
Qed.
End claims.
