(* ===== verification/AmdChip.v ===== *)
(** * A concrete AMD part

    A small executable flash part that satisfies the laws of [AmdPart]: it shows
    that the laws can hold and serves as the part of the witnesses.  It decodes
    the commands by [amd_cmd], programs by clearing bits, erases sectors of
    64K, and stays busy for two status reads. *)

From stdpp Require Import base numbers list strings.
From Stdlib Require Import ZArith Lia.
From S2P Require Import Prelude CfiTypes FlashApi CfiFlash CfiGeometry AmdFlash.

Record demo_chip : Type := {
  ch_mode : amd_mode;
  ch_mem : Z → Z;
  ch_busy : nat
}.

Definition chip_cell (d : demo_chip) (a : Z) : Z := ch_mem d a mod 256.

Definition chip_busy (d : demo_chip) : nat := Nat.min (ch_busy d) 3.

Definition chip_sector (a : Z) : Z * Z := (a / 65536 * 65536, a / 65536 * 65536 + 65536).

Definition chip_wr (w v : Z) (d : demo_chip) : demo_chip :=
  match amd_cmd (ch_mode d) w v with
  | Some m => {| ch_mode := m; ch_mem := ch_mem d; ch_busy := 0 |}
  | None =>
      match ch_mode d with
      | AmdProgSetup =>
          {| ch_mode := AmdProgBusy w v;
             ch_mem := λ a,
               if decide (a = 2 * w) then Z.land (v / 256) (chip_cell d a)
               else if decide (a = 2 * w + 1) then Z.land (v mod 256) (chip_cell d a)
               else ch_mem d a;
             ch_busy := 2 |}
      | AmdErase3 =>
          {| ch_mode := AmdEraseBusy w;
             ch_mem := λ a,
               if decide (fst (chip_sector (2 * w)) ≤ a < snd (chip_sector (2 * w)))
               then 255 else ch_mem d a;
             ch_busy := 2 |}
      | _ => d
      end
  end.

(** DQ7 is the complement of the data bit, DQ6 toggles, DQ5 is clear. *)
Definition chip_status (v : Z) (n : nat) : Z :=
  (if Z.testbit v 7 then 0 else 128) + (if Nat.even n then 64 else 0).

Definition chip_rd (w : Z) (d : demo_chip) : Z * demo_chip :=
  match ch_mode d, chip_busy d with
  | AmdProgBusy w' v, S n =>
      (chip_status v n, {| ch_mode := ch_mode d; ch_mem := ch_mem d; ch_busy := n |})
  | AmdProgBusy w' v, O =>
      (v, {| ch_mode := AmdBypass; ch_mem := ch_mem d; ch_busy := 0 |})
  | AmdEraseBusy w', S n =>
      (chip_status 0xffff n, {| ch_mode := ch_mode d; ch_mem := ch_mem d; ch_busy := n |})
  | AmdEraseBusy w', O =>
      (0xffff, {| ch_mode := AmdRead; ch_mem := ch_mem d; ch_busy := 0 |})
  | _, _ => (256 * chip_cell d (2 * w) + chip_cell d (2 * w + 1), d)
  end.

#[export] Instance demo_bus : NorBus demo_chip := {
  nor_rd := chip_rd;
  nor_rd8 := λ a d, (chip_cell d a, d);
  nor_wr := chip_wr
}.

Lemma chip_status_bits v n :
  Z.testbit (chip_status v n) 7 = negb (Z.testbit v 7) ∧
  Z.testbit (chip_status v n) 5 = false.
Proof. unfold chip_status. by destruct (Z.testbit v 7), (Nat.even n). Qed.

Lemma chip_cell_byte d a : is_byte (chip_cell d a).
Proof. apply Z.mod_pos_bound. lia. Qed.

Lemma land_255 z : 0 ≤ z < 256 → Z.land z 255 mod 256 = z.
Proof.
  intros. change 255 with (Z.ones 8). rewrite Z.land_ones by lia. change (2 ^ 8) with 256.
  by rewrite !Z.mod_small by (rewrite ?Z.mod_small; lia).
Qed.

Lemma chip_prog d w v : ch_mode d = AmdProgSetup → 0 ≤ v < 65536 →
  chip_cell d (2 * w) = 255 → chip_cell d (2 * w + 1) = 255 →
  ch_mode (chip_wr w v d) = AmdProgBusy w v ∧
  ∀ a, chip_cell (chip_wr w v d) a =
    if decide (a = 2 * w) then v / 256
    else if decide (a = 2 * w + 1) then v mod 256 else chip_cell d a.
Proof.
  intros Hm Hv H1 H2. unfold chip_wr. rewrite Hm. cbn [amd_cmd]. split; [done|].
  intros a. unfold chip_cell at 1. cbn [ch_mem].
  case_decide as E1; [subst; rewrite H1; apply land_255|].
  { split; [by apply Z.div_pos; lia|]. apply Z.div_lt_upper_bound; lia. }
  case_decide as E2; [subst; rewrite H2; apply land_255|done].
  apply Z.mod_pos_bound. lia.
Qed.

#[export] #[refine] Instance demo_part : AmdPart demo_chip := {|
  amd_mode_of := ch_mode;
  amd_cell := chip_cell;
  amd_busy := chip_busy;
  amd_tmax := 3;
  amd_sector := chip_sector
|}.
Proof.
  - intros d. unfold chip_busy. lia.
  - apply chip_cell_byte.
  - intros d w v m' H. simpl. unfold chip_wr. by rewrite H.
  - apply chip_prog.
  - intros d w H. simpl nor_wr. unfold chip_wr. rewrite H. cbn [amd_cmd]. split; [done|].
    intros a. unfold chip_cell at 1. cbn [ch_mem]. by case_decide.
  - intros d w H. simpl nor_rd. unfold chip_rd.
    by destruct (ch_mode d) eqn:E; simpl; rewrite ?E.
  - done.
  - intros d w v H. simpl nor_rd. unfold chip_rd. rewrite H.
    destruct (chip_busy d) as [|n] eqn:E; [done|]. split; [done|]. simpl.
    destruct (chip_status_bits v n). repeat split; try done.
    unfold chip_busy in *. simpl. lia.
  - intros d w H. simpl nor_rd. unfold chip_rd. rewrite H.
    destruct (chip_busy d) as [|n] eqn:E; [done|]. split; [done|]. simpl.
    destruct (chip_status_bits 0xffff n) as [E7 E5].
    split; [exact E7|]. split; [exact E5|]. split; [done|].
    unfold chip_busy in *. simpl. lia.
Defined.

(** ** Witnesses *)

(** The driver at rest on [n] sectors of 64K, contents [f]. *)
Definition demo_flash (n : Z) (f : Z → Z) : cfi_state demo_chip :=
  {| part := {| ch_mode := AmdRead; ch_mem := f; ch_busy := 0 |};
     meminfo := uniform_info n 65536; flashFamily := FLASH_AMD; totalSize := 65536 * n;
     query := {| num_erase_blocks := 0; device_size := 0; erase_block := [] |};
     g_ManufId := MANUFACTURER_ID_MXIC; g_FlashTopDevice := 0; dev_id := ID_MX29LV128DT;
     dev_name := []; write_sem := 1; in_irq := false; signalled := false; ebi_cs0 := 0 |}.

Definition demo_driver : (Z → Z) → cfi_state demo_chip := demo_flash 4.

(** The same when a signal comes to the process. *)
Definition set_signalled (g : bool) (s : cfi_state demo_chip) : cfi_state demo_chip :=
  {| part := part s; meminfo := meminfo s; flashFamily := flashFamily s;
     totalSize := totalSize s; query := query s; g_ManufId := g_ManufId s;
     g_FlashTopDevice := g_FlashTopDevice s; dev_id := dev_id s; dev_name := dev_name s;
     write_sem := write_sem s; in_irq := in_irq s; signalled := g; ebi_cs0 := ebi_cs0 s |}.

Lemma demo_table_ok n f : 0 < n ≤ MAXSECTORS → table_ok (demo_flash n f).
Proof. intros. apply (uniform_table_ok _ n 65536); try done. unfold MAXSECTORS in *. lia. Qed.

Lemma uniform_base n k : 0 ≤ k → sec_base (tsize (uniform_info n 65536)) k = 65536 * k.
Proof. intros. by apply (sec_base_uniform 65536). Qed.

Lemma uniform_align n k : 0 ≤ k < n → sec_base (tsize (uniform_info n 65536)) k mod 4096 = 0.
Proof.
  intros. rewrite uniform_base by lia. replace (65536 * k) with (k * 16 * 4096) by lia.
  apply Z.mod_mul. lia.
Qed.

Lemma uniform_sector n k : 0 ≤ k < n →
  chip_sector (sec_base (tsize (uniform_info n 65536)) k) =
    (sec_base (tsize (uniform_info n 65536)) k,
     sec_base (tsize (uniform_info n 65536)) k + 65536).
Proof.
  intros. rewrite uniform_base by lia. unfold chip_sector.
  by rewrite (Z.mul_comm 65536 k), Z.div_mul by lia.
Qed.

Lemma demo_flash_ready n f : 0 < n ≤ MAXSECTORS → amd_ready 5 (demo_flash n f).
Proof.
  intros Hn. constructor; try done.
  - by apply demo_table_ok.
  - apply uniform_align.
  - apply uniform_sector.
  - simpl. lia.
Qed.

Lemma demo_driver_ready f : amd_ready 5 (demo_driver f).
Proof. by apply demo_flash_ready. Qed.

(** The flash contract of a driver with sixteen sectors. *)
Lemma demo_fuel : (amd_tmax < 5)%nat.
Proof. simpl. lia. Qed.

Lemma sixteen_fit : 0 < 16 ≤ MAXSECTORS.
Proof. done. Qed.

Definition demo_contract : FlashContract 0xBE000000 (flash_cfi_dev 0xBE000000 5) :=
  cfi_contract 0xBE000000 5 (uniform_info 16 65536) (65536 * 16) (uniform_align 16)
    (uniform_sector 16) demo_fuel (demo_flash 16 (λ _, 255))
    (demo_table_ok 16 (λ _, 255) sixteen_fit) eq_refl.

Lemma cfi_flash_write_correct_witness :
  ∃ s', cfi_flash_write_buf 5 1 4 [0x12; 0x34; 0x56; 0x78] 4 (demo_driver (λ _, 255))
          = Done (4, s') ∧ amd_ready 5 s' ∧
    map (amd_cell (part s')) [65539; 65540; 65541; 65542; 65543; 65544]
      = [255; 0x12; 0x34; 0x56; 0x78; 255].
Proof.
  destruct (cfi_flash_write_correct 5 (demo_driver (λ _, 255)) 1 4 4 [0x12; 0x34; 0x56; 0x78])
    as (s'&E&Hr&Hc);
    [apply demo_driver_ready|split; [lia|reflexivity]|lia|lia|reflexivity|reflexivity|simpl; lia
    |by repeat constructor|intros a _; reflexivity|].
  exists s'. split; [exact E|]. split; [exact Hr|]. cbn [map]. by rewrite !Hc.
Defined.

Lemma cfi_flash_erase_correct_witness :
  ∃ s', cfi_flash_sector_erase_int 5 2 (demo_driver (λ _, 7)) = Done (FLASH_API_OK, s') ∧
    amd_ready 5 s' ∧
    map (amd_cell (part s')) [131071; 131072; 196607; 196608] = [7; 255; 255; 7].
Proof.
  destruct (cfi_flash_erase_correct 5 (demo_driver (λ _, 7)) 2) as (s'&E&Hr&Hc);
    [apply demo_driver_ready|split; [lia|reflexivity]|].
  exists s'. split; [exact E|]. split; [exact Hr|]. cbn [map]. by rewrite !Hc.
Defined.

Lemma cfi_driver_refines_contract_witness :
  ∃ C : FlashContract 0xBE000000 (flash_cfi_dev 0xBE000000 5),
    @fc_ok _ _ _ C (demo_driver (λ _, 255)) ∧ @fc_num _ _ _ C = 4.
Proof.
  destruct (cfi_driver_refines_contract 0xBE000000 5 (demo_driver (λ _, 255)))
    as (C&Hok&Hn&_); [apply demo_driver_ready|].
  exists C. split; [exact Hok|exact Hn].
Defined.

(** Writing an odd number of bytes: nothing is programmed, the verify fails.
    The process waits for itself, and with a signal it comes back with the error
    and with the count of the lock at two. *)
Lemma write_retry_loses_lock_witness :
  cfi_flash_write_buf 5 1 0 [0x12] 1 (demo_driver (λ _, 255)) = Blocked ∧
  ∃ s', cfi_flash_write_buf 5 1 0 [0x12] 1 (set_signalled true (demo_driver (λ _, 255))) = Done (FLASH_API_ERROR, s') ∧
    write_sem s' = 2.
Proof.
  split.
  - apply (write_retry_loses_lock 5 1 0 1 FLASH_API_ERROR 65536 [0x12]
           (demo_driver (λ _, 255)) (set_sem 0 (demo_driver (λ _, 255)))
           (set_sem 0 (demo_driver (λ _, 255)))); reflexivity.
  - assert (match cfi_flash_write_buf 5 1 0 [0x12] 1 (set_signalled true (demo_driver (λ _, 255))) with
            | Done (r, _) => Some r | _ => None end = Some FLASH_API_ERROR) as Er by (vm_compute; reflexivity).
    destruct (cfi_flash_write_buf 5 1 0 [0x12] 1 (set_signalled true (demo_driver (λ _, 255)))) as [[r s']| | |] eqn:E;
      try discriminate Er.
    exists s'. split; [by injection Er as ->|].
    apply (write_retry_loses_lock 5 1 0 1 FLASH_API_ERROR 65536 [0x12] (set_signalled true (demo_driver (λ _, 255)))
           (set_sem 0 (set_signalled true (demo_driver (λ _, 255))))
           (set_sem 0 (set_signalled true (demo_driver (λ _, 255))))) with r;
      [reflexivity..|exact E].
Defined.
