(* ===== verification/SpiFlash.v ===== *)
(** * The SPI flash driver (spiflash.c)

    Every function of the driver that the build compiles, for the BCM96358,
    whose SPI controller has a message buffer of 542 bytes.  The controller's
    registers and the part behind them are a value of a type [D] with register
    accesses ([SpiBus]).  [FLASH_BASE] is the address the part is mapped at.  The
    waits for the controller and for the part are cut off after [fuel] rounds. *)

From stdpp Require Import base numbers list strings.
From Stdlib Require Import ZArith Lia.
From S2P Require Import Prelude FlashApi.

(** ** Data *)

Definition SPI_MAXSECTORS : Z := 1024.
Definition FLASH_PAGE_SIZE : Z := 256.
Definition SECTOR_SIZE_4K : Z := 4 * 1024.
Definition SECTOR_SIZE_32K : Z := 32 * 1024.
Definition SECTOR_SIZE_64K : Z := 64 * 1024.
Definition MAX_READ : Z := 60.
Definition CMD_LEN_1 : Z := 1.
Definition CMD_LEN_4 : Z := 4.
Definition SPI_STATUS_OK : Z := 0.

(** Command codes. *)
Definition SPI_FLASH_READ : Z := 0x03.
Definition SPI_FLASH_PROG : Z := 0x02.
Definition FLASH_WREN : Z := 0x06.
Definition FLASH_WRDI : Z := 0x04.
Definition FLASH_RDSR : Z := 0x05.
Definition FLASH_WRST : Z := 0x01.
Definition FLASH_EWSR : Z := 0x50.
Definition FLASH_WORD_AAI : Z := 0xAD.
Definition FLASH_AAI : Z := 0xAF.
Definition SST_FLASH_SERASE : Z := 0x20.
Definition SST_FLASH_RDID : Z := 0x90.
Definition ATMEL_FLASH_SERASE : Z := 0x52.
Definition ATMEL_FLASH_RDID : Z := 0x15.
Definition AMD_FLASH_SERASE : Z := 0xD8.
Definition AMD_FLASH_RDID : Z := 0xAB.

(** Status bits. *)
Definition SR_WPEN : Z := 0x80.
Definition SR_BP2 : Z := 0x10.
Definition SR_BP1 : Z := 0x08.
Definition SR_BP0 : Z := 0x04.
Definition SR_WEN : Z := 0x02.
Definition SR_RDY : Z := 0x01.

(** Return codes of [spi_flash_status]. *)
Inductive spi_status : Type :=
| STATUS_READY
| STATUS_BUSY
| STATUS_TIMEOUT
| STATUS_ERROR.

Inductive spi_family : Type :=
| SPI_UNDEFINED
| SPI_SST
| SPI_ATMEL
| SPI_AMD.

Definition ATMELPART : Z := 0x1F.
Definition ID_AT25F512 : Z := 0x60.
Definition ID_AT25F2048 : Z := 0x63.
Definition AMD_S25FL002D : Z := 0x11.
Definition SSTPART : Z := 0xBF.
Definition ID_SST25VF016B : Z := 0x41.
Definition ID_SST25VF020 : Z := 0x43.
Definition ID_SST25VF040 : Z := 0x44.
Definition ID_SST25VF080 : Z := 0x80.

Definition SPI_MAKE_ID (a b : Z) : Z := Z.lor (Z.shiftl (u16 a) 8) (Z.land (u16 b) 0xff).

Definition SPI_FLASH_DEVICES : list (Z * list Z) :=
  [(SPI_MAKE_ID ATMELPART ID_AT25F512, cstr "AT25F512");
   (SPI_MAKE_ID ATMELPART ID_AT25F2048, cstr "AT25F2048");
   (SPI_MAKE_ID AMD_S25FL002D 0, cstr "AMD_S25FL002D");
   (SPI_MAKE_ID SSTPART ID_SST25VF016B, cstr "SST25VF016B");
   (SPI_MAKE_ID SSTPART ID_SST25VF020, cstr "SST25VF020");
   (SPI_MAKE_ID SSTPART ID_SST25VF040, cstr "SST25VF040");
   (SPI_MAKE_ID SSTPART ID_SST25VF080, cstr "SST25VF080");
   (0, [])].

(** The registers of the SPI controller the driver uses. *)
Inductive spi_reg : Type :=
| spiMsgCtl
| spiMsgData (i : Z)
| spiRxDataFifo (i : Z)
| spiCmd
| spiIntStatus.

Definition sizeof_spiMsgData : Z := 0x21e.
Definition sizeof_spiRxDataFifo : Z := 0x220.
Definition HALF_DUPLEX_W : Z := 1.
Definition HALF_DUPLEX_R : Z := 2.
Definition SPI_MSG_TYPE_SHIFT : Z := 14.
Definition SPI_BYTE_CNT_SHIFT : Z := 0.
Definition SPI_CMD_START_IMMEDIATE : Z := 3.
Definition SPI_CMD_COMMAND_SHIFT : Z := 0.
Definition SPI_CMD_DEVICE_ID_SHIFT : Z := 4.
Definition SPI_CMD_PREPEND_BYTE_CNT_SHIFT : Z := 8.
Definition SPI_INTR_CMD_DONE : Z := 0x01.
Definition SPI_INTR_CLEAR_ALL : Z := 0x1f.
Definition SPI_CLK_EN : Z := Z.shiftl 1 9.

(** Register accesses; a read may change the device. *)
Class SpiBus (D : Type) : Type := {
  spi_rd : spi_reg → D → Z * D;
  spi_wr : spi_reg → Z → D → D
}.

Record spi_sector : Type := { ss_size : Z; ss_base : Z }.

(** [struct flashinfo] ([name] is not used). *)
Record spi_flashinfo : Type := {
  si_addr : Z;
  si_nsect : Z;
  si_sec : Z → spi_sector
}.

(** The driver's variables, [PERF->blkEnables] and the device. *)
Record spi_state (D : Type) : Type := {
  spi_part : D;
  spi_meminfo : spi_flashinfo;
  spi_totalSize : Z;
  spi_flashFamily : spi_family;
  sstAaiWordProgram : bool;
  spi_dev_id : Z;
  spi_dev_name : list Z;
  blkEnables : Z
}.

Arguments spi_part {D}.
Arguments spi_meminfo {D}.
Arguments spi_totalSize {D}.
Arguments spi_flashFamily {D}.
Arguments sstAaiWordProgram {D}.
Arguments spi_dev_id {D}.
Arguments spi_dev_name {D}.
Arguments blkEnables {D}.

Section setters.
Context {D : Type}.
Implicit Types s : spi_state D.

Definition spi_set_part (d : D) s : spi_state D :=
  {| spi_part := d; spi_meminfo := spi_meminfo s; spi_totalSize := spi_totalSize s;
     spi_flashFamily := spi_flashFamily s; sstAaiWordProgram := sstAaiWordProgram s;
     spi_dev_id := spi_dev_id s; spi_dev_name := spi_dev_name s; blkEnables := blkEnables s |}.
Definition spi_set_info (m : spi_flashinfo) s : spi_state D :=
  {| spi_part := spi_part s; spi_meminfo := m; spi_totalSize := spi_totalSize s;
     spi_flashFamily := spi_flashFamily s; sstAaiWordProgram := sstAaiWordProgram s;
     spi_dev_id := spi_dev_id s; spi_dev_name := spi_dev_name s; blkEnables := blkEnables s |}.
Definition spi_set_total (z : Z) s : spi_state D :=
  {| spi_part := spi_part s; spi_meminfo := spi_meminfo s; spi_totalSize := z;
     spi_flashFamily := spi_flashFamily s; sstAaiWordProgram := sstAaiWordProgram s;
     spi_dev_id := spi_dev_id s; spi_dev_name := spi_dev_name s; blkEnables := blkEnables s |}.
Definition spi_set_family (f : spi_family) s : spi_state D :=
  {| spi_part := spi_part s; spi_meminfo := spi_meminfo s; spi_totalSize := spi_totalSize s;
     spi_flashFamily := f; sstAaiWordProgram := sstAaiWordProgram s;
     spi_dev_id := spi_dev_id s; spi_dev_name := spi_dev_name s; blkEnables := blkEnables s |}.
Definition spi_set_word (b : bool) s : spi_state D :=
  {| spi_part := spi_part s; spi_meminfo := spi_meminfo s; spi_totalSize := spi_totalSize s;
     spi_flashFamily := spi_flashFamily s; sstAaiWordProgram := b;
     spi_dev_id := spi_dev_id s; spi_dev_name := spi_dev_name s; blkEnables := blkEnables s |}.
Definition spi_set_id (z : Z) s : spi_state D :=
  {| spi_part := spi_part s; spi_meminfo := spi_meminfo s; spi_totalSize := spi_totalSize s;
     spi_flashFamily := spi_flashFamily s; sstAaiWordProgram := sstAaiWordProgram s;
     spi_dev_id := z; spi_dev_name := spi_dev_name s; blkEnables := blkEnables s |}.
Definition spi_set_name (n : list Z) s : spi_state D :=
  {| spi_part := spi_part s; spi_meminfo := spi_meminfo s; spi_totalSize := spi_totalSize s;
     spi_flashFamily := spi_flashFamily s; sstAaiWordProgram := sstAaiWordProgram s;
     spi_dev_id := spi_dev_id s; spi_dev_name := n; blkEnables := blkEnables s |}.
Definition spi_set_blk (z : Z) s : spi_state D :=
  {| spi_part := spi_part s; spi_meminfo := spi_meminfo s; spi_totalSize := spi_totalSize s;
     spi_flashFamily := spi_flashFamily s; sstAaiWordProgram := sstAaiWordProgram s;
     spi_dev_id := spi_dev_id s; spi_dev_name := spi_dev_name s; blkEnables := z |}.
End setters.

Section driver.
Context {D : Type} {bus : SpiBus D}.
Context (FLASH_BASE : Z) (fuel : nat).
Abbreviation st := (spi_state D).

(** ** The controller *)

(** Register accesses; the message buffer and the receive FIFO are arrays. *)
Definition reg_ok (r : spi_reg) : bool :=
  match r with
  | spiMsgData i => (0 <=? i) && (i <? sizeof_spiMsgData)
  | spiRxDataFifo i => (0 <=? i) && (i <? sizeof_spiRxDataFifo)
  | _ => true
  end.

Definition spi_get (r : spi_reg) : M st Z := λ s,
  if reg_ok r then let '(v, d) := spi_rd r (spi_part s) in Done (v, spi_set_part d s) else Fault.

Definition spi_put (r : spi_reg) (v : Z) : M st unit := λ s,
  if reg_ok r then Done (tt, spi_set_part (spi_wr r v (spi_part s)) s) else Fault.

(** [for (i = 0; i < n; i++) SPI->spiMsgData[i] = msg_buf[i];] *)
Fixpoint spi_load (n : nat) (i : nat) (msg_buf : list Z) : M st unit :=
  match n with
  | O => mret tt
  | S n' =>
      v ← of_option (msg_buf !! i);
      spi_put (spiMsgData (Z.of_nat i)) v;;
      spi_load n' (S i) msg_buf
  end.

(** [for (i = 0; i < n; i++) msg_buf[i] = SPI->spiRxDataFifo[i];] *)
Fixpoint spi_recv (n : nat) (i : nat) (msg_buf : list Z) : M st (list Z) :=
  match n with
  | O => mret msg_buf
  | S n' =>
      v ← spi_get (spiRxDataFifo (Z.of_nat i));
      msg_buf' ← of_option (buf_write msg_buf (Z.of_nat i) [v]);
      spi_recv n' (S i) msg_buf'
  end.

(** [while (!(SPI->spiIntStatus & SPI_INTR_CMD_DONE));] *)
Fixpoint spi_wait_done (n : nat) : M st unit :=
  match n with
  | O => nofuel
  | S n' =>
      v ← spi_get spiIntStatus;
      if Z.land v SPI_INTR_CMD_DONE =? 0 then spi_wait_done n' else mret tt
  end.

Definition spi_start (prependcnt : Z) : Z :=
  Z.lor (Z.lor (Z.shiftl SPI_CMD_START_IMMEDIATE SPI_CMD_COMMAND_SHIFT)
               (Z.shiftl 0 SPI_CMD_DEVICE_ID_SHIFT))
        (Z.shiftl prependcnt SPI_CMD_PREPEND_BYTE_CNT_SHIFT).

(** Returns the status and the buffer with the answer in it. *)
Definition spi_read (msg_buf : list Z) (prependcnt nbytes : Z) : M st (Z * list Z) :=
  spi_put spiMsgCtl (u16 (Z.lor (Z.shiftl nbytes SPI_BYTE_CNT_SHIFT)
                                (Z.shiftl HALF_DUPLEX_R SPI_MSG_TYPE_SHIFT)));;
  spi_load (Z.to_nat prependcnt) 0 msg_buf;;
  spi_put spiIntStatus SPI_INTR_CLEAR_ALL;;
  spi_put spiCmd (u16 (spi_start prependcnt));;
  spi_wait_done fuel;;
  spi_put spiIntStatus SPI_INTR_CLEAR_ALL;;
  msg_buf' ← spi_recv (Z.to_nat nbytes) 0 msg_buf;
  mret (SPI_STATUS_OK, msg_buf').

Definition spi_write (msg_buf : list Z) (nbytes : Z) : M st Z :=
  spi_put spiMsgCtl (u16 (Z.lor (Z.shiftl nbytes SPI_BYTE_CNT_SHIFT)
                                (Z.shiftl HALF_DUPLEX_W SPI_MSG_TYPE_SHIFT)));;
  spi_load (Z.to_nat nbytes) 0 msg_buf;;
  spi_put spiCmd (u16 (spi_start 0));;
  spi_wait_done fuel;;
  spi_put spiIntStatus SPI_INTR_CLEAR_ALL;;
  mret SPI_STATUS_OK.

(** The bytes of an uninitialised [unsigned char buf[n]]; every function stores
    the bytes it sends before it sends them. *)
Definition fresh_buf (n : Z) : list Z := replicate (Z.to_nat n) 0.

(** [buf[i] = v0; buf[i+1] = v1; ...] *)
Definition poke (buf : list Z) (i : Z) (vs : list Z) : M st (list Z) :=
  of_option (buf_write buf i vs).

(** ** Status *)

(** The body of [spi_flash_status]: [n] is [retry]. *)
Fixpoint status_loop (n : nat) (buf : list Z) : M st spi_status :=
  buf ← poke buf 0 [FLASH_RDSR];
  '(rc, buf) ← spi_read buf 1 1;
  if rc =? SPI_STATUS_OK then
    b ← of_option (buf !! 0%nat);
    if Z.land b SR_RDY =? 0 then mret STATUS_READY
    else match n with
         | O => mret STATUS_TIMEOUT
         | S n' => status_loop n' buf
         end
  else mret STATUS_ERROR.

Definition spi_flash_status : M st spi_status := status_loop 10 (fresh_buf 4).

(** [while (spi_flash_status() != STATUS_READY) {}] *)
Fixpoint wait_ready (n : nat) : M st unit :=
  match n with
  | O => nofuel
  | S n' =>
      r ← spi_flash_status;
      match r with
      | STATUS_READY => mret tt
      | _ => wait_ready n'
      end
  end.

Definition spi_flash_reset_ub : M st Z :=
  family ← gets spi_flashFamily;
  match family with
  | SPI_UNDEFINED => mret FLASH_API_ERROR
  | _ =>
      buf ← poke (fresh_buf 4) 0 [FLASH_WRDI];
      spi_write buf 1;;
      wait_ready fuel;;
      mret FLASH_API_OK
  end.

Definition spi_flash_reset : M st Z :=
  family ← gets spi_flashFamily;
  match family with
  | SPI_UNDEFINED => mret FLASH_API_ERROR
  | _ =>
      spi_flash_reset_ub;;
      wait_ready fuel;;
      mret FLASH_API_OK
  end.

Definition SR_PROTECT : Z := Z.lor (Z.lor SR_BP2 SR_BP1) SR_BP0.

Definition spi_flash_write_status (status : Z) : M st Z :=
  family ← gets spi_flashFamily;
  match family with
  | SPI_UNDEFINED => mret FLASH_API_ERROR
  | _ =>
      '(rc, buf) ←
        match family with
        | SPI_SST =>
            buf ← poke (fresh_buf 4) 0 [FLASH_EWSR];
            rc ← spi_write buf 1;
            mret (rc, buf)
        | _ => mret (SPI_STATUS_OK, fresh_buf 4)
        end;
      (if rc =? SPI_STATUS_OK then
         buf ← poke buf 0 [FLASH_WRST; Z.land status (Z.lor SR_WPEN SR_PROTECT)];
         rc ← spi_write buf 2;
         if rc =? SPI_STATUS_OK then wait_ready fuel else mret tt
       else mret tt);;
      mret FLASH_API_OK
  end.

(** The first loop of [spi_flash_ub]: clear the protection bits until they read
    as zero. *)
Fixpoint ub_unprotect (n : nat) (buf : list Z) : M st (list Z) :=
  match n with
  | O => nofuel
  | S n' =>
      buf ← poke buf 0 [FLASH_RDSR];
      '(rc, buf) ← spi_read buf 1 1;
      if rc =? SPI_STATUS_OK then
        wait_ready fuel;;
        b ← of_option (buf !! 0%nat);
        if Z.land b SR_PROTECT =? 0 then mret buf
        else
          spi_flash_write_status (u8 (Z.lnot (Z.lor SR_WPEN SR_PROTECT)));;
          ub_unprotect n' buf
      else mret buf
  end.

(** The second loop: wait for the write-enable latch. *)
Fixpoint ub_wait_wen (n : nat) (buf : list Z) : M st unit :=
  match n with
  | O => nofuel
  | S n' =>
      buf ← poke buf 0 [FLASH_RDSR];
      '(rc, buf) ← spi_read buf 1 1;
      if rc =? SPI_STATUS_OK then
        wait_ready fuel;;
        b ← of_option (buf !! 0%nat);
        if Z.land b SR_WEN =? 0 then ub_wait_wen n' buf else mret tt
      else mret tt
  end.

Definition spi_flash_ub (sector : Z) : M st Z :=
  buf ← ub_unprotect fuel (fresh_buf 4);
  buf ← poke buf 0 [FLASH_WREN];
  rc ← spi_write buf 1;
  (if rc =? SPI_STATUS_OK then wait_ready fuel;; ub_wait_wen fuel buf else mret tt);;
  mret FLASH_API_OK.

(** ** Sector queries *)

Definition spi_get_sec (i : Z) : M st spi_sector :=
  if decide (0 ≤ i < SPI_MAXSECTORS) then gets (λ s, si_sec (spi_meminfo s) i) else fault.

Definition spi_set_sec (i : Z) (e : spi_sector) : M st unit :=
  if decide (0 ≤ i < SPI_MAXSECTORS) then
    modify (λ s, let m := spi_meminfo s in
      spi_set_info {| si_addr := si_addr m; si_nsect := si_nsect m;
                      si_sec := λ j, if j =? i then e else si_sec m j |} s)
  else fault.

Definition spi_set_table (addr nsect : Z) : M st unit :=
  modify (λ s, spi_set_info {| si_addr := addr; si_nsect := nsect;
                               si_sec := si_sec (spi_meminfo s) |} s).

Definition spi_flash_get_numsectors : M st Z := gets (λ s, si_nsect (spi_meminfo s)).

Definition spi_flash_get_sector_size (sector : Z) : M st Z :=
  e ← spi_get_sec (u16 sector); mret (ss_size e).

Definition spi_get_flash_memptr (sector : Z) : M st Z :=
  e ← spi_get_sec (u16 sector); mret (u32 (FLASH_BASE + ss_base e)).

Definition spi_flash_get_memptr (sector : Z) : M st Z := spi_get_flash_memptr sector.

Fixpoint spi_get_blk_loop (n : nat) (blk_start i relative_addr : Z) : M st (Z * Z) :=
  match n with
  | O => mret (blk_start, i)
  | S n' =>
      if i <? relative_addr then
        size ← spi_flash_get_sector_size blk_start;
        spi_get_blk_loop n' (blk_start + 1) (s32 (i + size)) relative_addr
      else mret (blk_start, i)
  end.

Definition spi_flash_get_blk (addr : Z) : M st Z :=
  last_blk ← spi_flash_get_numsectors;
  let relative_addr := s32 (addr - s32 FLASH_BASE) in
  '(blk_start, i) ← spi_get_blk_loop (Z.to_nat last_blk) 0 0 relative_addr;
  if u32 i >? u32 relative_addr then mret (blk_start - 1)
  else if blk_start =? last_blk then mret (-1)
  else mret blk_start.

Definition spi_flash_get_total_size : M st Z := gets spi_totalSize.

Definition MAX_MEMORY_MAPPED_SIZE : Z := 0.

Definition spi_flash_get_total_memory_mapped_size : M st Z :=
  gets (λ s, if spi_totalSize s <? MAX_MEMORY_MAPPED_SIZE then spi_totalSize s
             else MAX_MEMORY_MAPPED_SIZE).

(** ** Erase and read *)

(** The three address bytes of a command. *)
Definition addr_bytes (addr : Z) : list Z :=
  [u8 (Z.shiftr (Z.land addr 0x00ff0000) 16); u8 (Z.shiftr (Z.land addr 0x0000ff00) 8);
   u8 (Z.land addr 0x000000ff)].

Definition spi_flash_sector_erase_int (sector : Z) : M st Z :=
  family ← gets spi_flashFamily;
  match family with
  | SPI_UNDEFINED => mret FLASH_API_ERROR
  | _ =>
      spi_flash_reset;;
      spi_flash_ub sector;;
      buf ← poke (fresh_buf 4) 0
              [match family with
               | SPI_SST => SST_FLASH_SERASE
               | SPI_ATMEL => ATMEL_FLASH_SERASE
               | _ => AMD_FLASH_SERASE
               end];
      addr ← spi_get_flash_memptr sector;
      buf ← poke buf 1 (addr_bytes addr);
      rc ← spi_write buf 4;
      (if rc =? SPI_STATUS_OK then wait_ready fuel else mret tt);;
      mret FLASH_API_OK
  end.

(** The loop of [spi_flash_read_buf]; the result lists the bytes stored into the
    caller's buffer.  The comparison with [sizeof(buf)] is unsigned. *)
Fixpoint read_loop (n : nat) (addr numbytes : Z) (buf : list Z) : M st (list Z) :=
  if numbytes =? 0 then mret []
  else
    match n with
    | O => nofuel
    | S n' =>
        let maxread := if u32 numbytes <? MAX_READ then numbytes else MAX_READ in
        buf ← poke buf 0 (SPI_FLASH_READ :: addr_bytes addr);
        '(_, buf) ← spi_read buf 4 maxread;
        wait_ready fuel;;
        bs ← of_option (buf_read buf 0 maxread);
        rest ← read_loop n' (u32 (addr + maxread)) (numbytes - maxread) buf;
        mret (bs ++ rest)
    end.

Definition spi_flash_read_buf (sector offset numbytes : Z) : M st (Z * option (list Z)) :=
  family ← gets spi_flashFamily;
  match family with
  | SPI_UNDEFINED => mret (FLASH_API_ERROR, None)
  | _ =>
      spi_flash_reset;;
      addr ← spi_get_flash_memptr sector;
      bs ← read_loop (Z.to_nat numbytes) (u32 (addr + offset)) numbytes (fresh_buf MAX_READ);
      mret (FLASH_API_OK, Some bs)
  end.

(** ** Write *)

(** The byte-program loop: [i] is [pbuf - buf].  Each round reads a byte of the
    caller's buffer, so [length buf] rounds and a fault are all there can be. *)
Fixpoint aai_loop (n : nat) (wbuf buf : list Z) (i : nat) (dst nbytes : Z) : M st Z :=
  if nbytes =? 0 then mret (Z.of_nat i)
  else
    b ← of_option (buf !! i);
    match n with
    | O => fault
    | S n' =>
        '(wbuf, cmdlen) ←
          (if decide (i ≠ 0%nat) then
             w ← poke wbuf 1 [b]; mret (w, CMD_LEN_1)
           else
             w ← poke wbuf 1 (addr_bytes dst ++ [b]); mret (w, CMD_LEN_4));
        spi_write wbuf (1 + cmdlen);;
        wait_ready fuel;;
        aai_loop n' wbuf buf (S i) dst (nbytes - 1)
    end.

(** The word-program loop. *)
Fixpoint word_aai_loop (n : nat) (wbuf buf : list Z) (i : nat) (dst nbytes : Z) : M st Z :=
  if nbytes =? 0 then mret (Z.of_nat i)
  else
    b0 ← of_option (buf !! i);
    b1 ← of_option (buf !! S i);
    match n with
    | O => fault
    | S n' =>
        '(wbuf, cmdlen) ←
          (if decide (i ≠ 0%nat) then
             w ← poke wbuf 1 [b0; b1]; mret (w, 3)
           else
             w ← poke wbuf 1 (addr_bytes dst ++ [b0; b1]); mret (w, 6));
        spi_write wbuf cmdlen;;
        wait_ready fuel;;
        word_aai_loop n' wbuf buf (S (S i)) dst (nbytes - 2)
    end.

(** The page-program loop of the Atmel and AMD parts. *)
Fixpoint page_loop (n : nat) (sector : Z) (wbuf buf : list Z) (i dst nbytes : Z) : M st Z :=
  if nbytes =? 0 then mret i
  else
    match n with
    | O => nofuel
    | S n' =>
        spi_flash_ub sector;;
        let room := sizeof_spiMsgData - CMD_LEN_4 in
        let maxwrite := if u32 nbytes <? room then nbytes else room in
        let pagelimit := FLASH_PAGE_SIZE - Z.land dst 0x000000ff in
        let maxwrite := if maxwrite <? pagelimit then maxwrite else pagelimit in
        wbuf ← poke wbuf 0 (SPI_FLASH_PROG :: addr_bytes dst);
        src ← of_option (buf_read buf i maxwrite);
        wbuf ← poke wbuf 4 src;
        spi_write wbuf (maxwrite + CMD_LEN_4);;
        wait_ready fuel;;
        page_loop n' sector wbuf buf (i + maxwrite) (u32 (dst + maxwrite)) (nbytes - maxwrite)
    end.

Definition sizeof_wbuf : Z := 64.

Definition spi_flash_write (sector offset : Z) (buf : list Z) (nbytes : Z) : M st Z :=
  addr ← spi_get_flash_memptr sector;
  let dst := u32 (addr + offset) in
  family ← gets spi_flashFamily;
  match family with
  | SPI_SST =>
      word ← gets sstAaiWordProgram;
      if word : bool then
        spi_flash_ub sector;;
        wbuf ← poke (fresh_buf sizeof_wbuf) 0 [FLASH_WORD_AAI];
        n ← word_aai_loop (length buf) wbuf buf 0 dst nbytes;
        spi_flash_reset_ub;;
        wait_ready fuel;;
        mret n
      else
        spi_flash_ub sector;;
        wbuf ← poke (fresh_buf sizeof_wbuf) 0 [FLASH_AAI];
        n ← aai_loop (length buf) wbuf buf 0 dst nbytes;
        spi_flash_reset_ub;;
        wait_ready fuel;;
        mret n
  | SPI_ATMEL | SPI_AMD =>
      page_loop (Z.to_nat nbytes) sector (fresh_buf sizeof_wbuf) buf 0 dst nbytes
  | SPI_UNDEFINED => mret 0
  end.

Definition spi_flash_write_buf (sector offset : Z) (buffer : list Z) (numbytes : Z) : M st Z :=
  family ← gets spi_flashFamily;
  match family with
  | SPI_UNDEFINED => mret FLASH_API_ERROR
  | _ => spi_flash_write sector offset buffer numbytes
  end.

(** ** Identification *)

(** One of the three loops of [spi_flash_get_device_id]: the identification
    command [cmd] is sent up to [n] times; [inl] returns from the function. *)
Fixpoint rdid_loop (n : nat) (cmd : list Z) (prependcnt maker : Z) (buf : list Z)
  : M st (Z + list Z) :=
  match n with
  | O => mret (inr buf)
  | S n' =>
      buf ← poke buf 0 cmd;
      '(_, buf) ← spi_read buf prependcnt 2;
      wait_ready fuel;;
      b0 ← of_option (buf !! 0%nat);
      b1 ← of_option (buf !! 1%nat);
      if b0 =? maker then mret (inl (256 * b0 + b1)) else rdid_loop n' cmd prependcnt maker buf
  end.

Definition MAX_RETRY : nat := 3.

Definition spi_flash_get_device_id (sector : Z) : M st Z :=
  r ← rdid_loop MAX_RETRY [SST_FLASH_RDID; 0; 0; 0] 4 SSTPART (fresh_buf 4);
  match r with
  | inl id => mret id
  | inr buf =>
      r ← rdid_loop MAX_RETRY [ATMEL_FLASH_RDID] 1 ATMELPART buf;
      match r with
      | inl id => mret id
      | inr buf =>
          r ← rdid_loop MAX_RETRY [AMD_FLASH_RDID; 0; 0; 0] 4 AMD_S25FL002D buf;
          match r with
          | inl id => mret id
          | inr buf =>
              b0 ← of_option (buf !! 0%nat);
              b1 ← of_option (buf !! 1%nat);
              mret (256 * b0 + b1)
          end
      end
  end.

(** The family and the geometry of a device id: family, number of sectors, sector
    size, word programming, and the id the name is looked up by. *)
Definition spi_identify (device_id : Z) : option (spi_family * Z * Z * bool * Z) :=
  let maker := s8 (Z.shiftr device_id 8) in
  if maker =? s8 ATMELPART then
    let dev := s8 (Z.land device_id 0xff) in
    if dev =? ID_AT25F512 then Some (SPI_ATMEL, 2, SECTOR_SIZE_32K, false, device_id)
    else if dev =? ID_AT25F2048 then Some (SPI_ATMEL, 4, SECTOR_SIZE_64K, false, device_id)
    else Some (SPI_ATMEL, 0, 0, false, device_id)
  else if maker =? s8 SSTPART then
    let dev := u8 (Z.land device_id 0xff) in
    if dev =? ID_SST25VF016B then Some (SPI_SST, 512, SECTOR_SIZE_4K, true, device_id)
    else if dev =? ID_SST25VF080 then Some (SPI_SST, 256, SECTOR_SIZE_4K, false, device_id)
    else if dev =? ID_SST25VF040 then Some (SPI_SST, 128, SECTOR_SIZE_4K, false, device_id)
    else Some (SPI_SST, 64, SECTOR_SIZE_4K, false, device_id)
  else if maker =? s8 AMD_S25FL002D then
    Some (SPI_AMD, 4, SECTOR_SIZE_64K, false, Z.land device_id 0xff00)
  else None.

(** The sector table. *)
Fixpoint spi_add_sectors (n : nat) (i sectorsize basecount : Z) : M st unit :=
  match n with
  | O => mret tt
  | S n' =>
      spi_set_sec i {| ss_size := sectorsize; ss_base := basecount |};;
      spi_add_sectors n' (i + 1) sectorsize (basecount + sectorsize)
  end.

Fixpoint spi_name (fnfi : list (Z * list Z)) (device_id : Z) : option (list Z) :=
  match fnfi with
  | (id, name) :: rest =>
      if id =? 0 then None
      else if id =? device_id then Some name else spi_name rest device_id
  | [] => None
  end.

(** [blkEnables] is read into an [unsigned short]. *)
Definition spi_enable_clock : M st unit :=
  modify (λ s, let blk := u16 (blkEnables s) in
    if Z.land blk SPI_CLK_EN =? 0 then spi_set_blk (Z.lor blk SPI_CLK_EN) s else s).

Definition spi_flash_init : M st Z :=
  spi_enable_clock;;
  device_id ← spi_flash_get_device_id 0;
  modify (spi_set_id device_id);;
  match spi_identify device_id with
  | None =>
      spi_set_table 0 1;;
      spi_set_sec 0 {| ss_size := SECTOR_SIZE_4K; ss_base := 0 |};;
      mret FLASH_API_ERROR
  | Some (family, numsector, sectorsize, word, name_id) =>
      modify (spi_set_family family);;
      (if word : bool then modify (spi_set_word true) else mret tt);;
      spi_set_table 0 numsector;;
      spi_add_sectors (Z.to_nat numsector) 0 sectorsize 0;;
      e ← spi_get_sec (numsector - 1);
      modify (spi_set_total (ss_base e + ss_size e));;
      match spi_name SPI_FLASH_DEVICES name_id with
      | Some name => modify (spi_set_name name)
      | None => mret tt
      end;;
      mret FLASH_API_OK
  end.

(** [flash_spi_dev]. *)
Definition flash_spi_dev : flash_device_info_t st := {|
  flash_device_id := spi_dev_id;
  flash_device_name := spi_dev_name;
  fn_flash_sector_erase_int := λ k, spi_flash_sector_erase_int (u16 k);
  fn_flash_read_buf := λ k, spi_flash_read_buf (u16 k);
  fn_flash_write_buf := λ k, spi_flash_write_buf (u16 k);
  fn_flash_get_numsectors := spi_flash_get_numsectors;
  fn_flash_get_sector_size := spi_flash_get_sector_size;
  fn_flash_get_memptr := spi_flash_get_memptr;
  fn_flash_get_blk := spi_flash_get_blk;
  fn_flash_get_total_size := spi_flash_get_total_size;
  fn_flash_get_total_memory_mapped_size := spi_flash_get_total_memory_mapped_size
|}.
End driver.
