(* ===== verification/SpiSst.v ===== *)
(** * The SPI flash driver on an SST25VF part

    The SPI controller and the flash part are not in the sources.  [sst_xfer] is
    the command set the data sheets of the SST25VF parts document, as far as the
    driver uses it: status register, write enable, block protection, sector
    erase, auto-address-increment programming by bytes or by words; [view_wr] and
    [view_rd] are the controller's message registers.  [SstPart] says that a
    device follows them, with any delays up to [sst_tmax].  Against these laws
    the driver implements [FlashContract]. *)

From stdpp Require Import base numbers list strings.
From Stdlib Require Import ZArith Lia.
From S2P Require Import Prelude FlashApi SpiFlash.

(** ** The part *)

(** [t_wip] is the number of status reads that will still report a write in
    progress, [t_bp] the three protection bits, [t_aai] the next address in
    auto-increment mode. *)
Record sst : Type := {
  t_cell : Z → Z;
  t_wel : bool;
  t_ewsr : bool;
  t_bp : Z;
  t_aai : option Z;
  t_wip : nat
}.

Definition t_set_wip (n : nat) (p : sst) : sst :=
  {| t_cell := t_cell p; t_wel := t_wel p; t_ewsr := t_ewsr p; t_bp := t_bp p;
     t_aai := t_aai p; t_wip := n |}.
Definition t_set_wel (b : bool) (p : sst) : sst :=
  {| t_cell := t_cell p; t_wel := b; t_ewsr := t_ewsr p; t_bp := t_bp p;
     t_aai := t_aai p; t_wip := t_wip p |}.
Definition t_set_ewsr (b : bool) (p : sst) : sst :=
  {| t_cell := t_cell p; t_wel := t_wel p; t_ewsr := b; t_bp := t_bp p;
     t_aai := t_aai p; t_wip := t_wip p |}.
Definition t_set_bp (z : Z) (p : sst) : sst :=
  {| t_cell := t_cell p; t_wel := t_wel p; t_ewsr := t_ewsr p; t_bp := z;
     t_aai := t_aai p; t_wip := t_wip p |}.
Definition t_set_aai (o : option Z) (p : sst) : sst :=
  {| t_cell := t_cell p; t_wel := t_wel p; t_ewsr := t_ewsr p; t_bp := t_bp p;
     t_aai := o; t_wip := t_wip p |}.
Definition t_set_cell (c : Z → Z) (p : sst) : sst :=
  {| t_cell := c; t_wel := t_wel p; t_ewsr := t_ewsr p; t_bp := t_bp p;
     t_aai := t_aai p; t_wip := t_wip p |}.

Definition sst_status (p : sst) : Z :=
  (if decide (t_wip p = 0%nat) then 0 else 1) + (if t_wel p then 2 else 0) + 4 * t_bp p
  + (if t_aai p then 64 else 0).

(** Programming can only clear bits. *)
Definition program (c : Z → Z) (a b : Z) (x : Z) : Z := if x =? a then Z.land (c x) b else c x.

Section command_set.
(** The device id, whether the part programs words, and its size in bytes. *)
Context (id : Z) (word : bool) (len : Z).

(** The address a part of [len] bytes decodes. *)
Definition sst_addr (a2 a1 a0 : Z) : Z := (65536 * a2 + 256 * a1 + a0) mod len.

(** A programming step at [a] that takes [t]. *)
Definition sst_byte (t : nat) (a b : Z) (p : sst) : sst :=
  t_set_wip t (t_set_aai (Some (a + 1)) (t_set_cell (program (t_cell p) a b) p)).
Definition sst_word (t : nat) (a b0 b1 : Z) (p : sst) : sst :=
  t_set_wip t (t_set_aai (Some (a + 2))
    (t_set_cell (program (program (t_cell p) a b0) (a + 1) b1) p)).

(** One chip-select cycle: the bytes sent, the number of bytes then read.  [None]
    is anything the driver has no business sending. *)
Definition sst_xfer (t : nat) (p : sst) (msg : list Z) (n : nat) : option (list Z * sst) :=
  match msg, n with
  | [c], 1%nat =>
      if c =? FLASH_RDSR then Some ([sst_status p], t_set_wip (pred (t_wip p)) p) else None
  | _, _ =>
      if decide (t_wip p ≠ 0%nat) then None
      else
        match msg, n with
        | [c], O =>
            if c =? FLASH_WRDI then Some ([], t_set_wel false (t_set_aai None p))
            else if t_aai p then None
            else if c =? FLASH_WREN then Some ([], t_set_wel true p)
            else if c =? FLASH_EWSR then Some ([], t_set_ewsr true p)
            else None
        | [c; v], O =>
            match t_aai p with
            | None =>
                if (c =? FLASH_WRST) && t_ewsr p then
                  Some ([], t_set_wip t (t_set_ewsr false (t_set_bp (Z.land v 0x1c / 4) p)))
                else None
            | Some a =>
                if (c =? FLASH_AAI) && negb word && (a <? len) then Some ([], sst_byte t a v p)
                else None
            end
        | [c; b0; b1], O =>
            match t_aai p with
            | Some a =>
                if (c =? FLASH_WORD_AAI) && word && (a + 1 <? len)
                then Some ([], sst_word t a b0 b1 p) else None
            | None => None
            end
        | [c; a2; a1; a0], _ =>
            let a := sst_addr a2 a1 a0 in
            if t_aai p then None
            else if (c =? SPI_FLASH_READ) && (a + Z.of_nat n <=? len) then
              Some (bytes_at (t_cell p) a n, p)
            else if (c =? SST_FLASH_RDID) && (a =? 0) && (Z.of_nat n =? 2) then
              Some ([SSTPART; id], p)
            else if (c =? SST_FLASH_SERASE) && (Z.of_nat n =? 0) && t_wel p && (t_bp p =? 0) then
              Some ([], t_set_wip t (t_set_wel false (t_set_cell
                (λ x, if decide (a / 4096 * 4096 ≤ x < a / 4096 * 4096 + 4096) then 255
                      else t_cell p x) p)))
            else None
        | [c; a2; a1; a0; b], O =>
            let a := sst_addr a2 a1 a0 in
            if t_aai p then None
            else if (c =? FLASH_AAI) && negb word && t_wel p && (t_bp p =? 0) then
              Some ([], sst_byte t a b p)
            else None
        | [c; a2; a1; a0; b0; b1], O =>
            let a := sst_addr a2 a1 a0 in
            if t_aai p then None
            else if (c =? FLASH_WORD_AAI) && word && t_wel p && (t_bp p =? 0) && Z.even a then
              Some ([], sst_word t a b0 b1 p)
            else None
        | _, _ => None
        end
  end.

(** ** The controller *)

(** [v_run] is [None] when no message was started since the interrupts were
    cleared, else the number of status reads until the command is done. *)
Record spi_view : Type := {
  v_ctl : Z;
  v_msg : Z → Z;
  v_rx : Z → Z;
  v_run : option nat;
  v_dev : sst
}.

(** Starting a message of type and length [ctl] with [prep] bytes prepended: the
    bytes of the message buffer go out, the answer comes into the FIFO. *)
Definition view_start (t w : nat) (prep : Z) (v : spi_view) : option spi_view :=
  let cnt := v_ctl v mod 2 ^ 14 in
  let '(sent, n) :=
    if v_ctl v / 2 ^ 14 =? HALF_DUPLEX_W then (cnt, 0) else (prep, cnt) in
  match sst_xfer t (v_dev v) (bytes_at (v_msg v) 0 (Z.to_nat sent)) (Z.to_nat n) with
  | Some (reply, p) =>
      Some {| v_ctl := v_ctl v; v_msg := v_msg v; v_rx := λ i, nth (Z.to_nat i) reply 0;
              v_run := Some w; v_dev := p |}
  | None => None
  end.

Definition view_wr (t w : nat) (r : spi_reg) (x : Z) (v : spi_view) : option spi_view :=
  match r with
  | spiMsgCtl =>
      Some {| v_ctl := x; v_msg := v_msg v; v_rx := v_rx v; v_run := v_run v; v_dev := v_dev v |}
  | spiMsgData i =>
      Some {| v_ctl := v_ctl v; v_msg := λ j, if j =? i then x else v_msg v j;
              v_rx := v_rx v; v_run := v_run v; v_dev := v_dev v |}
  | spiIntStatus =>
      match v_run v with
      | Some (S _) => None
      | _ =>
          if x =? SPI_INTR_CLEAR_ALL then
            Some {| v_ctl := v_ctl v; v_msg := v_msg v; v_rx := v_rx v; v_run := None;
                    v_dev := v_dev v |}
          else None
      end
  | spiCmd =>
      match v_run v with
      | None => if x mod 256 =? SPI_CMD_START_IMMEDIATE then view_start t w (x / 256) v else None
      | Some _ => None
      end
  | spiRxDataFifo _ => None
  end.

Definition view_rd (r : spi_reg) (v : spi_view) : option ((Z → Prop) * spi_view) :=
  match r with
  | spiIntStatus =>
      match v_run v with
      | Some (S k) =>
          Some (λ x, Z.land x SPI_INTR_CMD_DONE = 0,
                {| v_ctl := v_ctl v; v_msg := v_msg v; v_rx := v_rx v; v_run := Some k;
                   v_dev := v_dev v |})
      | Some O => Some (λ x, Z.land x SPI_INTR_CMD_DONE ≠ 0, v)
      | None => None
      end
  | spiRxDataFifo i => Some (λ x, x = v_rx v i, v)
  | _ => None
  end.
End command_set.

(** A device that follows the command set. *)
Class SstPart (D : Type) {bus : SpiBus D} : Type := {
  sst_id : Z;
  sst_words : bool;
  sst_len : Z;
  sst_tmax : nat;
  sst_view : D → spi_view;
  sst_wr : ∀ d r x, ∃ t w, (t ≤ sst_tmax)%nat ∧ (w ≤ sst_tmax)%nat ∧
    ∀ v, view_wr sst_id sst_words sst_len t w r x (sst_view d) = Some v →
         sst_view (spi_wr r x d) = v;
  sst_rd : ∀ d r P v, view_rd r (sst_view d) = Some (P, v) →
    P (fst (spi_rd r d)) ∧ sst_view (snd (spi_rd r d)) = v
}.

(** ** The driver's actions *)

Section actions.
Context {D : Type} {bus : SpiBus D} {chip : SstPart D}.
Context (fuel : nat) (Hfuel : (sst_tmax + 2 < fuel)%nat).
Abbreviation st := (spi_state D).
Abbreviation xfer := (sst_xfer sst_id sst_words sst_len).

(** The driver's variables, without the device. *)
Definition vars (s : st) : spi_flashinfo * Z * spi_family * bool :=
  (spi_meminfo s, spi_totalSize s, spi_flashFamily s, sstAaiWordProgram s).

(** [sdrv vs p s]: the driver's variables are [vs], no message is under way and
    the part is in state [p]. *)
Record sdrv (vs : spi_flashinfo * Z * spi_family * bool) (p : sst) (s : st) : Prop := {
  dr_vars : vars s = vs;
  dr_run : v_run (sst_view (spi_part s)) = None;
  dr_dev : v_dev (sst_view (spi_part s)) = p
}.

Implicit Types vs : spi_flashinfo * Z * spi_family * bool.

(** [viewed vs v s]: variables [vs], controller and part [v]. *)
Definition viewed vs (v : spi_view) (s : st) : Prop :=
  vars s = vs ∧ sst_view (spi_part s) = v.

Lemma t_put vs v r x :
  reg_ok r = true →
  (∀ t w, (t ≤ sst_tmax)%nat → (w ≤ sst_tmax)%nat →
     is_Some (view_wr sst_id sst_words sst_len t w r x v)) →
  triple (viewed vs v) (spi_put r x) (λ _ s, ∃ t w v',
    (t ≤ sst_tmax)%nat ∧ (w ≤ sst_tmax)%nat ∧
    view_wr sst_id sst_words sst_len t w r x v = Some v' ∧ viewed vs v' s).
Proof.
  intros Hr Hd s [Hv Hs]. destruct (sst_wr (spi_part s) r x) as (t&w&Ht&Hw&H).
  rewrite Hs in H. destruct (Hd t w Ht Hw) as [v' E].
  eexists tt, _. unfold spi_put. rewrite Hr. split; [reflexivity|].
  exists t, w, v'. do 2 (split; [done|]). split; [done|]. split; [done|]. by apply H.
Qed.

(** A register write whose effect on the view does not depend on delays. *)
Lemma t_put_det vs v v' r x :
  reg_ok r = true →
  (∀ t w, view_wr sst_id sst_words sst_len t w r x v = Some v') →
  triple (viewed vs v) (spi_put r x) (λ _, viewed vs v').
Proof.
  intros Hr Hd. eapply triple_conseq; [apply (t_put vs v r x Hr)|done|].
  - intros t w _ _. by rewrite Hd.
  - intros _ s (t&w&v1&_&_&E&H). rewrite Hd in E. by simplify_eq.
Qed.

Lemma t_get vs v v' P r : reg_ok r = true → view_rd r v = Some (P, v') →
  triple (viewed vs v) (spi_get r) (λ x s, P x ∧ viewed vs v' s).
Proof.
  intros Hr Hd s [Hv Hs]. unfold spi_get. rewrite Hr.
  destruct (sst_rd (spi_part s) r P v') as [HP Hv']; [by rewrite Hs|].
  destruct (spi_rd r (spi_part s)) as [x d] eqn:E.
  eexists x, _. split; [reflexivity|]. done.
Qed.

(** ** Messages *)

Definition v_set_msg (m : Z → Z) (v : spi_view) : spi_view :=
  {| v_ctl := v_ctl v; v_msg := m; v_rx := v_rx v; v_run := v_run v; v_dev := v_dev v |}.
Definition v_set_run (o : option nat) (v : spi_view) : spi_view :=
  {| v_ctl := v_ctl v; v_msg := v_msg v; v_rx := v_rx v; v_run := o; v_dev := v_dev v |}.
Definition v_set_ctl (x : Z) (v : spi_view) : spi_view :=
  {| v_ctl := x; v_msg := v_msg v; v_rx := v_rx v; v_run := v_run v; v_dev := v_dev v |}.

Lemma t_load vs buf n : ∀ i v, (i + n ≤ length buf)%nat → (i + n ≤ 542)%nat →
  triple (viewed vs v) (spi_load n i buf) (λ _ s, ∃ m, viewed vs (v_set_msg m v) s ∧
    ∀ j : nat, m (Z.of_nat j) =
      if decide (i ≤ j < i + n)%nat then nth j buf 0 else v_msg v (Z.of_nat j)).
Proof.
  induction n as [|n IH]; intros i v Hl Hm; cbn [spi_load].
  { apply triple_ret. intros s Hs. exists (v_msg v). split; [by destruct v|].
    intros j. rewrite decide_False by lia. done. }
  destruct (lookup_lt_is_Some_2 buf i) as [b Hb]; [lia|]. rewrite Hb. cbn [of_option].
  apply (triple_bind_eq _ _ b (viewed vs v)); [by apply triple_ret|].
  eapply triple_bind.
  { apply t_put_det; [|done]. unfold reg_ok, sizeof_spiMsgData. lia. }
  intros []. cbn beta. eapply triple_conseq; [apply IH; lia|done|].
  intros _ s (m&Hs&Hj). exists m. split; [done|]. intros j. rewrite Hj. cbn [v_msg].
  destruct (decide (S i ≤ j < S i + n)%nat).
  { by rewrite decide_True by lia. }
  destruct (Z.eqb_spec (Z.of_nat j) (Z.of_nat i)) as [Eq|Ne].
  - assert (j = i) as -> by lia. rewrite decide_True by lia.
    by rewrite nth_lookup, Hb.
  - by rewrite decide_False by lia.
Qed.

Lemma t_wait_done vs k : ∀ n v, v_run v = Some k → (k < n)%nat →
  triple (viewed vs v) (spi_wait_done n) (λ _, viewed vs (v_set_run (Some 0%nat) v)).
Proof.
  induction k as [|k IH]; intros [|n] v Hr Hn; [lia| |lia|]; cbn [spi_wait_done].
  - eapply triple_bind.
    { eapply t_get; [done|]. cbn [view_rd]. by rewrite Hr. }
    intros x. cbn beta. apply (triple_pure _ (Z.land x SPI_INTR_CMD_DONE ≠ 0)); [by intros s []|].
    intros Hx. rewrite (proj2 (Z.eqb_neq _ _) Hx). apply triple_ret. intros s [_ Hs].
    replace (v_set_run (Some 0%nat) v) with v; [done|]. destruct v; simpl in *. by subst.
  - eapply triple_bind.
    { eapply t_get; [done|]. cbn [view_rd]. by rewrite Hr. }
    intros x. cbn beta. apply (triple_pure _ (Z.land x SPI_INTR_CMD_DONE = 0)); [by intros s []|].
    intros Hx. rewrite Hx. cbn [Z.eqb].
    eapply triple_conseq; [apply (IH n (v_set_run (Some k) v)); [done|lia]|by intros s []|].
    intros [] s Hs. exact Hs.
Qed.

Lemma t_recv vs v n : ∀ i buf, (i + n ≤ length buf)%nat → (i + n ≤ 544)%nat →
  triple (viewed vs v) (spi_recv n i buf) (λ buf' s, viewed vs v s ∧ length buf' = length buf ∧
    ∀ j : nat, buf' !! j = if decide (i ≤ j < i + n)%nat then Some (v_rx v (Z.of_nat j))
                           else buf !! j).
Proof.
  induction n as [|n IH]; intros i buf Hl Hm; cbn [spi_recv].
  { apply triple_ret. intros s Hs. split_and!; [done|done|]. intros j.
    by rewrite decide_False by lia. }
  eapply triple_bind.
  { apply (t_get vs v v (λ x, x = v_rx v (Z.of_nat i)) (spiRxDataFifo (Z.of_nat i))); [|done].
    unfold reg_ok, sizeof_spiRxDataFifo. lia. }
  intros x. cbn beta. apply (triple_pure _ (x = v_rx v (Z.of_nat i))); [by intros s []|].
  intros ->. destruct (buf_write buf (Z.of_nat i) [v_rx v (Z.of_nat i)]) as [b1|] eqn:E; cycle 1.
  { rewrite buf_write_Some in E; [done|lia|simpl; lia]. }
  cbn [of_option]. apply (triple_bind_eq _ _ b1 (viewed vs v)).
  { apply triple_ret. by intros s [_ ?]. }
  pose proof (buf_write_length _ _ _ _ E) as Hl1.
  eapply triple_conseq; [apply (IH (S i) b1); lia|done|].
  intros buf' s (Hs&Hl'&Hj). split_and!; [done|lia|]. intros j. rewrite Hj.
  rewrite (buf_write_lookup _ _ _ _ j E). cbn [length].
  destruct (decide (S i ≤ j < S i + n)%nat); [by rewrite decide_True by lia|].
  destruct (decide (Z.of_nat i ≤ Z.of_nat j < Z.of_nat i + Z.of_nat 1)).
  - assert (j = i) as -> by lia. rewrite decide_True by lia.
    by replace (i - Z.to_nat (Z.of_nat i))%nat with 0%nat by lia.
  - by rewrite decide_False by lia.
Qed.

Lemma triple_view {A} vs p (m : M st A) Q :
  (∀ v, v_run v = None → v_dev v = p → triple (viewed vs v) m Q) → triple (sdrv vs p) m Q.
Proof. intros H s []. by apply (H (sst_view (spi_part s))). Qed.

Lemma viewed_drv vs v p s : viewed vs v s → v_run v = None → v_dev v = p → sdrv vs p s.
Proof. intros [? <-]. by constructor. Qed.

Lemma ctl_value n c : 0 ≤ n < 2 ^ 14 → 0 ≤ c < 4 →
  u16 (Z.lor (Z.shiftl n SPI_BYTE_CNT_SHIFT) (Z.shiftl c SPI_MSG_TYPE_SHIFT)) = n + c * 2 ^ 14.
Proof.
  intros Hn Hc. unfold SPI_BYTE_CNT_SHIFT, SPI_MSG_TYPE_SHIFT. rewrite Z.shiftl_0_r.
  rewrite lor_high by lia. apply u16_small. lia.
Qed.

(** After a start: wait for the end and clear the interrupt. *)
Lemma t_finish {A} vs v w (m : M st A) Q : v_run v = Some w → (w ≤ sst_tmax)%nat →
  triple (viewed vs (v_set_run None v)) m Q →
  triple (viewed vs v) (spi_wait_done fuel;; spi_put spiIntStatus SPI_INTR_CLEAR_ALL;; m) Q.
Proof.
  intros Hr Hw Hm. eapply triple_bind; [apply (t_wait_done vs w); [done|lia]|]. intros [].
  eapply triple_bind; [by apply (t_put_det vs _ (v_set_run None v))|]. by intros [].
Qed.

Lemma msg_sent m buf n : (n ≤ length buf)%nat →
  (∀ j : nat, (j < n)%nat → m (Z.of_nat j) = nth j buf 0) → bytes_at m 0 n = take n buf.
Proof.
  intros Hl Hm. apply list_eq. intros j. unfold bytes_at.
  destruct (decide (j < n)%nat).
  - rewrite list_lookup_fmap, lookup_seq_lt, lookup_take_lt by done. cbn [fmap option_fmap option_map].
    rewrite Nat.add_0_l in *. rewrite Z.add_0_l. rewrite Hm, nth_lookup by done.
    by destruct (lookup_lt_is_Some_2 buf j) as [b ->]; [lia|].
  - rewrite !lookup_ge_None_2; [done|rewrite length_take; lia|rewrite length_map, length_seq; lia].
Qed.

Lemma t_spi_write vs p buf n msg (R : sst → Prop) :
  (n ≤ length buf)%nat → (n ≤ 542)%nat → take n buf = msg →
  (∀ t, (t ≤ sst_tmax)%nat → ∃ p', xfer t p msg 0 = Some ([], p') ∧ R p') →
  triple (sdrv vs p) (spi_write fuel buf (Z.of_nat n))
    (λ r s, r = SPI_STATUS_OK ∧ ∃ p', R p' ∧ sdrv vs p' s).
Proof.
  intros Hl Hn Hmsg Hx. apply triple_view. intros v Hrun Hdev. unfold spi_write.
  rewrite ctl_value by (unfold HALF_DUPLEX_W; lia). rewrite Nat2Z.id.
  eapply triple_bind; [by apply (t_put_det vs _ (v_set_ctl (Z.of_nat n + HALF_DUPLEX_W * 2 ^ 14) v))|].
  intros []. eapply triple_bind; [apply t_load; lia|]. intros [] s (m&Hs&Hm).
  assert (bytes_at m 0 n = msg) as Hb.
  { rewrite <- Hmsg. apply msg_sent; [done|]. intros j Hj. rewrite Hm. by rewrite decide_True by lia. }
  revert s Hs. set (v1 := v_set_msg m _).
  assert (∀ t w, view_wr sst_id sst_words sst_len t w spiCmd (u16 (spi_start 0)) v1 =
     match xfer t p msg 0 with
     | Some (reply, p') => Some {| v_ctl := v_ctl v1; v_msg := m; v_rx := λ i, nth (Z.to_nat i) reply 0;
                                   v_run := Some w; v_dev := p' |}
     | None => None
     end) as Hw.
  { intros t w. unfold view_wr. cbn [v_run v1 v_set_msg v_set_ctl]. rewrite Hrun.
    change (u16 (spi_start 0) mod 256 =? SPI_CMD_START_IMMEDIATE) with true. cbn match.
    unfold view_start. cbn [v_ctl v1 v_set_msg v_set_ctl v_msg v_dev].
    replace ((Z.of_nat n + HALF_DUPLEX_W * 2 ^ 14) / 2 ^ 14) with HALF_DUPLEX_W.
    2: { rewrite Z.div_add by lia. rewrite Z.div_small; [done|lia]. }
    rewrite Z.eqb_refl.
    replace ((Z.of_nat n + HALF_DUPLEX_W * 2 ^ 14) mod 2 ^ 14) with (Z.of_nat n).
    2: { rewrite Z.mod_add by lia. rewrite Z.mod_small; lia. }
    rewrite Nat2Z.id, Hb, Hdev. done. }
  apply (triple_bind _ _ (λ _ s, ∃ t w v', (t ≤ sst_tmax)%nat ∧ (w ≤ sst_tmax)%nat ∧
    view_wr sst_id sst_words sst_len t w spiCmd (u16 (spi_start 0)) v1 = Some v' ∧ viewed vs v' s)).
  { apply t_put; [done|]. intros t w Ht _. rewrite Hw. by destruct (Hx t Ht) as (p'&->&_). }
  intros [] s (t&w&v'&Ht&Hwt&E&Hs). rewrite Hw in E. destruct (Hx t Ht) as (p'&E'&HR).
  rewrite E' in E. simplify_eq. revert s Hs. apply (t_finish vs _ w); [done|done|].
  apply triple_ret. intros s Hs. split; [done|]. exists p'. split; [done|]. by eapply viewed_drv.
Qed.

Lemma start_read prep : prep = 1 ∨ prep = 4 →
  u16 (spi_start prep) mod 256 = SPI_CMD_START_IMMEDIATE ∧ u16 (spi_start prep) / 256 = prep.
Proof. by intros [-> | ->]. Qed.

Lemma t_spi_read vs p buf prep n msg (R : list Z → sst → Prop) :
  prep = 1 ∨ prep = 4 → (Z.to_nat prep ≤ length buf)%nat → (n ≤ length buf)%nat → (n ≤ 544)%nat →
  take (Z.to_nat prep) buf = msg →
  (∀ t, (t ≤ sst_tmax)%nat → ∃ reply p', xfer t p msg n = Some (reply, p') ∧
     length reply = n ∧ R reply p') →
  triple (sdrv vs p) (spi_read fuel buf prep (Z.of_nat n))
    (λ rb s, rb.1 = SPI_STATUS_OK ∧ length rb.2 = length buf ∧
       ∃ p', R (take n rb.2) p' ∧ sdrv vs p' s).
Proof.
  intros Hp Hl Hn Hn' Hmsg Hx. apply triple_view. intros v Hrun Hdev. unfold spi_read.
  rewrite ctl_value by (unfold HALF_DUPLEX_R; lia). rewrite Nat2Z.id.
  eapply triple_bind; [by apply (t_put_det vs _ (v_set_ctl (Z.of_nat n + HALF_DUPLEX_R * 2 ^ 14) v))|].
  intros []. eapply triple_bind; [apply t_load; lia|]. intros [] s (m&Hs&Hm).
  assert (bytes_at m 0 (Z.to_nat prep) = msg) as Hb.
  { rewrite <- Hmsg. apply msg_sent; [done|]. intros j Hj. rewrite Hm. by rewrite decide_True by lia. }
  revert s Hs. set (v1 := v_set_msg m _).
  eapply triple_bind.
  { apply (t_put_det vs _ v1); [done|]. intros t w. unfold view_wr, v1, v_set_msg, v_set_ctl.
    cbn [v_run]. by rewrite Hrun, Z.eqb_refl. }
  intros []. destruct (start_read prep Hp) as [Hs1 Hs2].
  assert (∀ t w, view_wr sst_id sst_words sst_len t w spiCmd (u16 (spi_start prep)) v1 =
     match xfer t p msg n with
     | Some (reply, p') => Some {| v_ctl := v_ctl v1; v_msg := m; v_rx := λ i, nth (Z.to_nat i) reply 0;
                                   v_run := Some w; v_dev := p' |}
     | None => None
     end) as Hw.
  { intros t w. unfold view_wr. cbn [v_run v1 v_set_msg v_set_ctl]. rewrite Hrun, Hs1, Z.eqb_refl, Hs2.
    unfold view_start. cbn [v_ctl v1 v_set_msg v_set_ctl v_msg v_dev].
    replace ((Z.of_nat n + HALF_DUPLEX_R * 2 ^ 14) / 2 ^ 14) with HALF_DUPLEX_R.
    2: { rewrite Z.div_add by lia. rewrite Z.div_small; [done|lia]. }
    change (HALF_DUPLEX_R =? HALF_DUPLEX_W) with false. cbn match.
    replace ((Z.of_nat n + HALF_DUPLEX_R * 2 ^ 14) mod 2 ^ 14) with (Z.of_nat n).
    2: { rewrite Z.mod_add by lia. rewrite Z.mod_small; lia. }
    rewrite Nat2Z.id, Hb, Hdev. done. }
  apply (triple_bind _ _ (λ _ s, ∃ t w v', (t ≤ sst_tmax)%nat ∧ (w ≤ sst_tmax)%nat ∧
    view_wr sst_id sst_words sst_len t w spiCmd (u16 (spi_start prep)) v1 = Some v' ∧ viewed vs v' s)).
  { apply t_put; [done|]. intros t w Ht _. rewrite Hw. by destruct (Hx t Ht) as (r&p'&->&_). }
  intros [] s (t&w&v'&Ht&Hwt&E&Hs). rewrite Hw in E. destruct (Hx t Ht) as (reply&p'&E'&Hlen&HR).
  rewrite E' in E. simplify_eq. revert s Hs. apply (t_finish vs _ w); [done|done|].
  eapply triple_bind; [apply t_recv; lia|]. intros buf'. apply triple_ret.
  intros s (Hs&Hl'&Hj). split_and!; [done|done|]. exists p'. split; [|by eapply viewed_drv].
  cbn [snd]. cut (take (length reply) buf' = reply); [by intros -> |]. apply list_eq. intros j.
  destruct (decide (j < length reply)%nat).
  - rewrite lookup_take_lt, Hj, decide_True by lia. cbn [v_rx v_set_run]. rewrite Nat2Z.id.
    destruct (lookup_lt_is_Some_2 reply j) as [x Ex]; [done|]. by rewrite Ex, (nth_lookup_Some _ _ _ _ Ex).
  - rewrite !lookup_ge_None_2; [done|lia|rewrite length_take; lia].
Qed.
End actions.
