(* ===== verification/SpiProofs.v ===== *)
(** * The operations of the SPI driver on an SST25VF part

    Status polling, write enable, reads, erases and the two programming loops,
    each as a triple over the state of the part; then the flash contract. *)

From stdpp Require Import base numbers list strings.
From Stdlib Require Import ZArith Znumtheory Lia.
From S2P Require Import Prelude FlashApi SpiFlash SpiSst.

Section operations.
Context {D : Type} {bus : SpiBus D} {chip : SstPart D}.
Context (FB : Z) (fuel : nat) (Hfuel : (sst_tmax + 2 < fuel)%nat).
Context (m0 : spi_flashinfo) (total : Z).
Abbreviation st := (spi_state D).
Abbreviation xfer := (sst_xfer sst_id sst_words sst_len).
Abbreviation vs := (m0, total, SPI_SST, sst_words).
Implicit Types p : sst.

(** ** Status *)

Definition bp_ok p : Prop := 0 ≤ t_bp p < 8.

Lemma status_bits p : bp_ok p →
  (Z.land (sst_status p) SR_RDY =? 0) = bool_decide (t_wip p = 0%nat) ∧
  (Z.land (sst_status p) SR_WEN =? 0) = negb (t_wel p) ∧
  (Z.land (sst_status p) SR_PROTECT =? 0) = (t_bp p =? 0).
Proof.
  clear Hfuel.
  unfold bp_ok, sst_status. destruct p as [c wel e bp aai wip]. cbn [t_bp t_wip t_wel t_aai].
  intros Hb.
  assert (bp = 0 ∨ bp = 1 ∨ bp = 2 ∨ bp = 3 ∨ bp = 4 ∨ bp = 5 ∨ bp = 6 ∨ bp = 7) as H by lia.
  destruct wip, wel, aai; naive_solver.
Qed.

Lemma set_wip_0 p : t_wip p = 0%nat → t_set_wip 0 p = p.
Proof. destruct p; simpl. by intros ->. Qed.

Lemma poke_head {A} (P : st → Prop) buf bs (f : list Z → M st A) Q :
  (length bs ≤ length buf)%nat → triple P (f (bs ++ drop (length bs) buf)) Q →
  triple P (poke buf 0 bs ≫= f) Q.
Proof.
  clear Hfuel.
  intros Hl H. unfold poke. rewrite buf_write_Some by lia. cbn [of_option].
  intros s Hs. destruct (H s Hs) as (a&s'&E&HQ). exists a, s'. split; [exact E|done].
Qed.

Lemma t_rdsr vars p buf : (0 < length buf)%nat →
  triple (sdrv vars p) (spi_read fuel (FLASH_RDSR :: drop 1 buf) 1 1)
    (λ rb s, rb.1 = SPI_STATUS_OK ∧ (length rb.2 = length buf ∧ rb.2 !! 0%nat = Some (sst_status p)) ∧
       sdrv vars (t_set_wip (pred (t_wip p)) p) s).
Proof.
  intros Hl. assert (length (FLASH_RDSR :: drop 1 buf) = length buf) as Hlen
    by (simpl; rewrite length_drop; lia).
  eapply triple_conseq.
  { apply (t_spi_read fuel Hfuel vars p (FLASH_RDSR :: drop 1 buf) 1 1 [FLASH_RDSR]
      (λ reply p', reply = [sst_status p] ∧ p' = t_set_wip (pred (t_wip p)) p));
      [by left|simpl; lia..|lia|done|].
    intros t _. by eexists _, _. }
  { done. }
  intros [r b] s (Hr&Hb&p'&[Ht ->]&Hs). split_and!; [done|congruence| |done].
  cbn [snd] in *. destruct b as [|x b]; [done|]. simpl in Ht. by simplify_eq.
Qed.

Lemma t_status_loop vars n : ∀ p buf, bp_ok p → (0 < length buf)%nat →
  triple (sdrv vars p) (status_loop fuel n buf) (λ r s,
    if decide (t_wip p ≤ n)%nat then r = STATUS_READY ∧ sdrv vars (t_set_wip 0 p) s
    else r = STATUS_TIMEOUT ∧ sdrv vars (t_set_wip (t_wip p - S n) p) s).
Proof.
  induction n as [|n IH]; intros p buf Hp Hl; cbn [status_loop].
  all: apply poke_head; [simpl; lia|]; cbn [app length].
  all: destruct (status_bits p Hp) as (Hbit&_&_).
  all: eapply triple_bind; [by apply t_rdsr|]; intros [r b]; cbn [fst snd].
  all: apply (triple_pure _ (r = SPI_STATUS_OK ∧ length b = length buf ∧ b !! 0%nat = Some (sst_status p)));
    [naive_solver|]; intros (->&Hlb&Hb0).
  all: change (SPI_STATUS_OK =? SPI_STATUS_OK) with true; cbn match; rewrite Hb0; cbn [of_option].
  all: intros s (_&_&Hs); rewrite bind_ret, Hbit.
  - destruct (t_wip p) as [|w] eqn:Ew; rewrite ?bool_decide_true, ?bool_decide_false by done.
    + eexists _, s. split; [reflexivity|]. done.
    + eexists _, s. split; [reflexivity|]. rewrite decide_False by lia. split; [done|].
      replace (S w - 1)%nat with w by lia. done.
  - destruct (t_wip p) as [|w] eqn:Ew; rewrite ?bool_decide_true, ?bool_decide_false by done.
    + eexists _, s. split; [reflexivity|]. by rewrite decide_True by lia.
    + destruct (IH (t_set_wip w p) b Hp ltac:(lia) s Hs) as (r&s'&E&HQ).
      exists r, s'. split; [exact E|]. cbn [t_wip t_set_wip] in HQ.
      destruct (decide (w ≤ n)%nat); [by rewrite decide_True by lia|].
      rewrite decide_False by lia. by replace (S w - S (S n))%nat with (w - S n)%nat by lia.
Qed.

Lemma t_wait_ready vars n : ∀ p, bp_ok p → (t_wip p < n)%nat →
  triple (sdrv vars p) (wait_ready fuel n) (λ _, sdrv vars (t_set_wip 0 p)).
Proof.
  induction n as [|n IH]; intros p Hp Hn; [lia|]. cbn [wait_ready].
  eapply triple_bind; [apply (t_status_loop vars 10 p (fresh_buf 4) Hp); simpl; lia|].
  intros r s Hs. cbn beta in Hs. case_decide.
  - destruct Hs as [-> Hs]. by exists tt, s.
  - destruct Hs as [-> Hs]. destruct (IH (t_set_wip (t_wip p - 11) p) Hp) with (s := s)
      as (a&s'&E&HQ); [simpl; lia|done|]. by exists a, s'.
Qed.

(** A command that takes up to [sst_tmax] and the wait after it. *)
Lemma t_cmd {A} vars p p' buf n msg (m : M st A) Q :
  (n ≤ length buf)%nat → (n ≤ 542)%nat → take n buf = msg → bp_ok p' → t_wip p' = 0%nat →
  (∀ t, (t ≤ sst_tmax)%nat → ∃ t', (t' ≤ sst_tmax)%nat ∧
     xfer t p msg 0 = Some ([], t_set_wip t' p')) →
  triple (sdrv vars p') m Q →
  triple (sdrv vars p) (spi_write fuel buf (Z.of_nat n) ≫= λ _, wait_ready fuel fuel ≫= λ _, m) Q.
Proof.
  intros Hl Hn Hmsg Hb Hw Hx Hm. eapply triple_bind.
  { apply (t_spi_write fuel Hfuel vars p buf n msg
      (λ q, ∃ t', (t' ≤ sst_tmax)%nat ∧ q = t_set_wip t' p')); [done..|].
    intros t Ht. destruct (Hx t Ht) as (t'&Ht'&E). eauto. }
  intros r s (_&q&(t'&Ht'&->)&Hs).
  destruct (t_wait_ready vars fuel (t_set_wip t' p') Hb) with (s := s) as ([]&s1&E1&H1);
    [simpl; lia|done|].
  destruct (Hm s1) as (a&s2&E2&HQ).
  { replace p' with (t_set_wip 0 p'); [exact H1|]. by apply set_wip_0. }
  exists a, s2. split; [|done]. by mstep E1.
Qed.

Lemma t_cmd_rc {A} vars p p' buf n msg (m : M st A) Q :
  (n ≤ length buf)%nat → (n ≤ 542)%nat → take n buf = msg → bp_ok p' → t_wip p' = 0%nat →
  (∀ t, (t ≤ sst_tmax)%nat → ∃ t', (t' ≤ sst_tmax)%nat ∧
     xfer t p msg 0 = Some ([], t_set_wip t' p')) →
  triple (sdrv vars p') m Q →
  triple (sdrv vars p) (spi_write fuel buf (Z.of_nat n) ≫= λ rc,
    (if rc =? SPI_STATUS_OK then wait_ready fuel fuel else mret tt) ≫= λ _, m) Q.
Proof.
  intros Hl Hn Hmsg Hb Hw Hx Hm s Hs.
  destruct (t_cmd vars p p' buf n msg m Q Hl Hn Hmsg Hb Hw Hx Hm s Hs) as (a&s'&E&HQ).
  exists a, s'. split; [|done]. apply bind_Done_inv in E as (rc&s1&E1&E2). mstep E1.
  destruct (t_spi_write fuel Hfuel vars p buf n msg (λ _, True) Hl Hn Hmsg) with (s := s)
    as (rc'&s1'&E1'&->&_); [|done|].
  { intros t Ht. destruct (Hx t Ht) as (t'&_&->). eauto. }
  rewrite E1' in E1. by simplify_eq.
Qed.

Lemma triple_gets {A B} (P : st → Prop) (g : st → B) v (f : B → M st A) Q :
  (∀ s, P s → g s = v) → triple P (f v) Q → triple P (gets g ≫= f) Q.
Proof. intros Hg H s Hs. rewrite bind_gets, (Hg s Hs). by apply H. Qed.

Lemma drv_family p s : sdrv vs p s → spi_flashFamily s = SPI_SST.
Proof. intros H. pose proof (dr_vars _ _ _ H) as E. unfold vars in E. by simplify_eq. Qed.

(** ** Write disable, reset, block protection, write enable *)

Definition disabled p : sst := t_set_wel false (t_set_aai None p).

Lemma t_reset_ub p : bp_ok p → t_wip p = 0%nat →
  triple (sdrv vs p) (spi_flash_reset_ub fuel) (λ r s, r = FLASH_API_OK ∧ sdrv vs (disabled p) s).
Proof.
  intros Hb Hw. unfold spi_flash_reset_ub. eapply triple_gets; [apply drv_family|].
  apply poke_head; [simpl; lia|].
  apply (t_cmd vs p (disabled p) _ 1 [FLASH_WRDI]); [simpl; lia..|done|done|done| |].
  - intros t _. exists 0%nat. split; [lia|]. unfold sst_xfer. rewrite decide_False by lia.
    rewrite set_wip_0 by done. done.
  - by apply triple_ret.
Qed.

(** Waiting for a part that is ready. *)
Lemma t_ready {A} vars p (m : M st A) Q : bp_ok p → t_wip p = 0%nat →
  triple (sdrv vars p) m Q → triple (sdrv vars p) (wait_ready fuel fuel ≫= λ _, m) Q.
Proof.
  intros Hb Hw Hm. eapply triple_bind; [apply t_wait_ready; [done|lia]|].
  intros []. by rewrite set_wip_0.
Qed.

Lemma t_reset p : bp_ok p → t_wip p = 0%nat →
  triple (sdrv vs p) (spi_flash_reset fuel) (λ r s, r = FLASH_API_OK ∧ sdrv vs (disabled p) s).
Proof.
  intros Hb Hw. unfold spi_flash_reset. eapply triple_gets; [apply drv_family|].
  eapply triple_bind; [by apply t_reset_ub|]. intros r.
  eapply (triple_conseq _ (sdrv vs (disabled p))); [|by intros s []|exact (λ _ _ H, H)].
  apply t_ready; [done|done|]. by apply triple_ret.
Qed.

(** A part between two operations of the driver. *)
Record quiet p : Prop := {
  q_bp : bp_ok p;
  q_wip : t_wip p = 0%nat;
  q_aai : t_aai p = None;
  q_ewsr : t_ewsr p = false
}.

Lemma t_unprotect p status : quiet p →
  Z.land status (Z.lor SR_WPEN SR_PROTECT) = 0 →
  triple (sdrv vs p) (spi_flash_write_status fuel status)
    (λ r s, r = FLASH_API_OK ∧ sdrv vs (t_set_bp 0 p) s).
Proof.
  intros [Hb Hw Ha He] Hst. unfold spi_flash_write_status.
  eapply triple_gets; [apply drv_family|]. cbn match. rewrite Hst.
  eapply (triple_bind _ _ (λ rb s, rb = (SPI_STATUS_OK, FLASH_EWSR :: replicate 3 0) ∧
    sdrv vs (t_set_ewsr true p) s)).
  { apply poke_head; [simpl; lia|]. eapply triple_bind.
    { apply (t_spi_write fuel Hfuel vs p _ 1 [FLASH_EWSR] (λ q, q = t_set_ewsr true p));
        [simpl; lia..|done|]. intros t _. eexists. split; [|reflexivity].
      unfold sst_xfer. rewrite decide_False by lia.  rewrite Ha. done. }
    intros rc. apply triple_ret. intros s (->&q&->&Hs). done. }
  intros [rc buf]. apply (triple_pure _ ((rc, buf) = (SPI_STATUS_OK, FLASH_EWSR :: replicate 3 0)));
    [by intros s []|]. intros [= -> ->].
  eapply (triple_conseq _ (sdrv vs (t_set_ewsr true p))); [|by intros s []|exact (λ _ _ H, H)].
  change (SPI_STATUS_OK =? SPI_STATUS_OK) with true. cbn match.
  eapply (triple_bind _ _ (λ _, sdrv vs (t_set_bp 0 p))).
  { apply poke_head; [simpl; lia|].
    intros s Hs. destruct (t_cmd_rc vs (t_set_ewsr true p) (t_set_bp 0 p)
      ([FLASH_WRST; 0] ++ drop (length [FLASH_WRST; 0]) (FLASH_EWSR :: replicate 3 0)) 2
      [FLASH_WRST; 0] (mret tt) (λ _, sdrv vs (t_set_bp 0 p))) with (s := s)
      as ([]&s'&E&HQ); [simpl; lia..|done| |done| | |done|].
    - split; simpl; lia.
    - intros t Ht. exists t. split; [done|]. unfold sst_xfer. cbn [t_wip t_set_ewsr].
      rewrite decide_False by lia. cbn [t_aai t_ewsr t_set_ewsr]. rewrite Ha. cbn.
      do 2 f_equal. destruct p; simpl in *. by subst.
    - by apply triple_ret.
    - exists tt, s'. split; [|done]. apply bind_Done_inv in E as (rc&s1&E1&E2). mstep E1.
      apply bind_Done_inv in E2 as ([]&s2&E2&E3). unfold mret, M_ret in E3. by simplify_eq. }
  intros []. by apply triple_ret.
Qed.

Lemma set_bp_0 p : t_bp p = 0 → t_set_bp 0 p = p.
Proof. destruct p; simpl. by intros ->. Qed.

(** Reading the status of a quiet part changes nothing. *)
Lemma t_rdsr_quiet {A} p buf (f : Z * list Z → M st A) Q : quiet p → (0 < length buf)%nat →
  (∀ b, length b = length buf → b !! 0%nat = Some (sst_status p) →
     triple (sdrv vs p) (f (SPI_STATUS_OK, b)) Q) →
  triple (sdrv vs p) (poke buf 0 [FLASH_RDSR] ≫= λ buf, spi_read fuel buf 1 1 ≫= f) Q.
Proof.
  intros [Hb Hw Ha He] Hl H. apply poke_head; [simpl; lia|].
  eapply triple_bind; [by apply t_rdsr|]. intros [r b]. cbn [fst snd].
  apply (triple_pure _ (r = SPI_STATUS_OK ∧ length b = length buf ∧ b !! 0%nat = Some (sst_status p)));
    [naive_solver|]. intros (->&Hlb&Hb0).
  eapply triple_conseq; [by apply H| |exact (λ _ _ H, H)].
  intros s (_&_&Hs). by rewrite Hw, set_wip_0 in Hs.
Qed.

Lemma t_ub_unprotect_0 n p buf : quiet p → t_bp p = 0 → (0 < length buf)%nat →
  triple (sdrv vs p) (ub_unprotect fuel (S n) buf)
    (λ b s, length b = length buf ∧ sdrv vs p s).
Proof.
  intros Hq H0 Hl. cbn [ub_unprotect]. apply t_rdsr_quiet; [done..|]. intros b Hlb Hb0.
  change (SPI_STATUS_OK =? SPI_STATUS_OK) with true. cbn match.
  apply t_ready; [apply Hq..|]. rewrite Hb0. cbn [of_option].
  apply (triple_bind_eq _ _ (sst_status p) (sdrv vs p)); [by apply triple_ret|].
  destruct (status_bits p (q_bp p Hq)) as (_&_&->). rewrite H0. cbn [Z.eqb].
  by apply triple_ret.
Qed.

Lemma quiet_bp_0 p : quiet p → quiet (t_set_bp 0 p).
Proof. clear Hfuel. intros []. constructor; [|done..]. split; simpl; lia. Qed.

Lemma t_ub_unprotect n p buf : quiet p → (0 < length buf)%nat →
  triple (sdrv vs p) (ub_unprotect fuel (S (S n)) buf)
    (λ b s, length b = length buf ∧ sdrv vs (t_set_bp 0 p) s).
Proof.
  intros Hq Hl. destruct (decide (t_bp p = 0)) as [H0|H0].
  { rewrite set_bp_0 by done. by apply t_ub_unprotect_0. }
  change (ub_unprotect fuel (S (S n)) buf) with
    (poke buf 0 [FLASH_RDSR] ≫= λ buf, spi_read fuel buf 1 1 ≫= λ '(rc, buf),
      if rc =? SPI_STATUS_OK then
        wait_ready fuel fuel;;
        b ← of_option (buf !! 0%nat);
        if Z.land b SR_PROTECT =? 0 then mret buf
        else
          spi_flash_write_status fuel (u8 (Z.lnot (Z.lor SR_WPEN SR_PROTECT)));;
          ub_unprotect fuel (S n) buf
      else mret buf : M st (list Z)).
  apply t_rdsr_quiet; [done..|]. intros b Hlb Hb0.
  change (SPI_STATUS_OK =? SPI_STATUS_OK) with true. cbn match.
  apply t_ready; [apply Hq..|]. rewrite Hb0. cbn [of_option].
  apply (triple_bind_eq _ _ (sst_status p) (sdrv vs p)); [by apply triple_ret|].
  destruct (status_bits p (q_bp p Hq)) as (_&_&->). rewrite (proj2 (Z.eqb_neq _ _) H0).
  eapply triple_bind; [by apply t_unprotect|]. intros r.
  eapply triple_conseq; [apply (t_ub_unprotect_0 n (t_set_bp 0 p) b)| |].
  - by apply quiet_bp_0.
  - done.
  - lia.
  - by intros s [].
  - intros b' s [? ?]. split; [lia|done].
Qed.

Definition enabled p : sst := t_set_wel true (t_set_bp 0 p).

Lemma quiet_enabled p : quiet p → quiet (enabled p).
Proof. intros H%quiet_bp_0. by destruct H. Qed.

Lemma t_ub p sector : quiet p →
  triple (sdrv vs p) (spi_flash_ub fuel sector)
    (λ r s, r = FLASH_API_OK ∧ sdrv vs (enabled p) s).
Proof.
  intros Hq. pose proof (quiet_bp_0 p Hq) as Hq0. pose proof (quiet_enabled p Hq) as Hqe.
  unfold spi_flash_ub. assert (fuel = S (S (fuel - 2))) as Ef by lia.
  eapply triple_bind; [rewrite Ef at 2; apply (t_ub_unprotect _ p); [done|simpl; lia]|].
  intros b. apply (triple_pure _ (length b = 4%nat)); [by intros s []|]. intros Hlb.
  eapply (triple_conseq _ (sdrv vs (t_set_bp 0 p))); [|by intros s []|exact (λ _ _ H, H)].
  apply poke_head; [simpl; lia|].
  set (buf := [FLASH_WREN] ++ _).
  assert (length buf = 4%nat) as Hlb' by (unfold buf; rewrite length_app, length_drop; simpl; lia).
  assert (triple (sdrv vs (enabled p)) (ub_wait_wen fuel fuel buf) (λ _, sdrv vs (enabled p))) as Hwen.
  { rewrite Ef at 2. cbn [ub_wait_wen]. apply t_rdsr_quiet; [done|lia|]. intros b' _ Hb0.
    change (SPI_STATUS_OK =? SPI_STATUS_OK) with true. cbn match.
    apply t_ready; [apply Hqe..|]. rewrite Hb0. cbn [of_option].
    apply (triple_bind_eq _ _ (sst_status (enabled p)) (sdrv vs (enabled p))); [by apply triple_ret|].
    destruct (status_bits (enabled p) (q_bp _ Hqe)) as (_&->&_). by apply triple_ret. }
  eapply (triple_bind _ _ (λ rc s, rc = SPI_STATUS_OK ∧ sdrv vs (enabled p) s)).
  { eapply triple_conseq; [apply (t_spi_write fuel Hfuel vs (t_set_bp 0 p) buf 1 [FLASH_WREN]
      (λ q, q = enabled p))|done|].
    - lia.
    - lia.
    - done.
    - intros t _. eexists. split; [|reflexivity]. unfold sst_xfer.
      rewrite decide_False by (rewrite (q_wip _ Hq0); lia). by rewrite (q_aai _ Hq0).
    - intros r s (->&q&->&Hs). done. }
  intros rc. apply (triple_pure _ (rc = SPI_STATUS_OK)); [by intros s []|]. intros ->.
  eapply (triple_conseq _ (sdrv vs (enabled p))); [|by intros s []|exact (λ _ _ H, H)].
  change (SPI_STATUS_OK =? SPI_STATUS_OK) with true. cbn match.
  eapply triple_bind; [apply t_ready; [apply Hqe..|exact Hwen]|]. intros [].
  by apply triple_ret.
Qed.

(** ** Addresses *)

(** The table describes the part: uniform sectors of 4K from offset 0, and the
    part decodes the addresses of the window it is mapped at. *)
Record geometry : Prop := {
  ge_num : 0 < si_nsect m0 ≤ SPI_MAXSECTORS;
  ge_sec : ∀ k, 0 ≤ k < si_nsect m0 → si_sec m0 k = {| ss_size := 4096; ss_base := 4096 * k |};
  ge_total : total = 4096 * si_nsect m0;
  ge_len : sst_len = total;
  ge_24 : (total | 2 ^ 24);
  ge_base : (total | FB)
}.

Context (G : geometry).

Lemma total_pos : 0 < total.
Proof. clear Hfuel. rewrite (ge_total G). pose proof (ge_num G). lia. Qed.

Lemma addr_bytes_value a : 0 ≤ a →
  ∃ a2 a1 a0, addr_bytes a = [a2; a1; a0] ∧ 65536 * a2 + 256 * a1 + a0 = a mod 2 ^ 24.
Proof.
  clear Hfuel.
  intros Ha. unfold addr_bytes. eexists _, _, _. split; [reflexivity|].
  assert (∀ k, 0 ≤ k → u8 (Z.shiftr (Z.land a (Z.shiftl 0xff k)) k) = (a / 2 ^ k) mod 256) as E.
  { intros k Hk. rewrite Z.shiftr_land. rewrite (Z.shiftr_shiftl_l 0xff k k) by done.
    rewrite Z.sub_diag, Z.shiftl_0_r. change 0xff with (Z.ones 8).
    rewrite Z.land_ones, Z.shiftr_div_pow2 by done. unfold u8. apply Z.mod_mod. done. }
  pose proof (E 16 ltac:(done)) as E2. pose proof (E 8 ltac:(done)) as E1.
  change (Z.shiftl 0xff 16) with 0x00ff0000 in E2. change (Z.shiftl 0xff 8) with 0x0000ff00 in E1.
  rewrite E2, E1. change (0x000000ff) with (Z.ones 8). rewrite Z.land_ones by done.
  unfold u8. rewrite Z.mod_mod by done.
  change (2 ^ 24) with (256 * (256 * 256)).
  rewrite (Z.rem_mul_r a 256 (256 * 256)) by done. rewrite (Z.rem_mul_r (a / 256) 256 256) by done.
  rewrite Z.div_div by done. change (2 ^ 16) with (256 * 256). change (2 ^ 8) with 256. lia.
Qed.

Lemma decode q : 0 ≤ q < total →
  ∃ a2 a1 a0, addr_bytes (u32 (FB + q)) = [a2; a1; a0] ∧ sst_addr sst_len a2 a1 a0 = q.
Proof.
  clear Hfuel.
  intros Hq. pose proof total_pos as Ht.
  destruct (addr_bytes_value (u32 (FB + q))) as (a2&a1&a0&E&Ev); [pose proof (u32_range (FB + q)); lia|].
  exists a2, a1, a0. split; [done|]. unfold sst_addr. rewrite Ev, (ge_len G). unfold u32.
  rewrite <- (Zmod_div_mod (2 ^ 24) (2 ^ 32)); [|done|done|by exists 256].
  rewrite <- (Zmod_div_mod total (2 ^ 24)); [|done|done|apply G].
  destruct (ge_base G) as [c ->]. rewrite Z.add_comm, Z.mod_add by lia. by apply Z.mod_small.
Qed.

Lemma drv_info p s : sdrv vs p s → spi_meminfo s = m0.
Proof. intros H. pose proof (dr_vars _ _ _ H) as E. unfold vars in E. by simplify_eq. Qed.

Lemma t_memptr p k : 0 ≤ k < si_nsect m0 →
  triple (sdrv vs p) (spi_get_flash_memptr FB k) (λ a s, a = u32 (FB + 4096 * k) ∧ sdrv vs p s).
Proof.
  clear Hfuel.
  intros Hk s Hs. pose proof (ge_num G) as Hn. unfold SPI_MAXSECTORS in Hn.
  exists (u32 (FB + 4096 * k)), s. split; [|done].
  unfold spi_get_flash_memptr, spi_get_sec, SPI_MAXSECTORS. rewrite u16_small by lia.
  rewrite decide_True by lia. rewrite bind_gets, (drv_info _ _ Hs), (ge_sec G) by done. done.
Qed.

(** ** Erase *)

Definition erased p k : sst :=
  t_set_wel false (t_set_cell (λ x, if decide (4096 * k ≤ x < 4096 * k + 4096) then 255
                                    else t_cell p x) (enabled (disabled p))).

Lemma quiet_disabled p : quiet p → quiet (disabled p).
Proof. by intros []. Qed.

Lemma t_spi_erase p k : quiet p → 0 ≤ k < si_nsect m0 →
  triple (sdrv vs p) (spi_flash_sector_erase_int FB fuel k)
    (λ r s, r = FLASH_API_OK ∧ sdrv vs (erased p k) s).
Proof.
  intros Hq Hk. unfold spi_flash_sector_erase_int.
  eapply triple_gets; [apply drv_family|]. cbn match.
  eapply triple_bind; [apply t_reset; apply Hq|]. intros r.
  eapply (triple_conseq _ (sdrv vs (disabled p))); [|by intros s []|exact (λ _ _ H, H)].
  eapply triple_bind; [by apply t_ub, quiet_disabled|]. intros r'.
  eapply (triple_conseq _ (sdrv vs (enabled (disabled p)))); [|by intros s []|exact (λ _ _ H, H)].
  apply poke_head; [simpl; lia|].
  eapply triple_bind_eq; [by apply (t_memptr _ k)|].
  assert (0 ≤ 4096 * k < total) as Hr by (rewrite (ge_total G); lia).
  destruct (decode (4096 * k) Hr) as (a2&a1&a0&Ea&Ed). rewrite Ea.
  pose proof (quiet_enabled _ (quiet_disabled p Hq)) as Hqe.
  unfold poke. rewrite buf_write_Some by (simpl; lia). cbn [of_option].
  intros s Hs. rewrite bind_ret. revert s Hs.
  apply (t_cmd_rc vs (enabled (disabled p)) (erased p k) _ 4 [SST_FLASH_SERASE; a2; a1; a0]);
    [simpl; lia..|done|split; simpl; lia|apply Hq| |].
  - intros t Ht. exists t. split; [done|]. unfold sst_xfer. rewrite decide_False by (rewrite (q_wip _ Hqe); lia).
    rewrite Ed, (q_aai _ Hqe). change (Z.of_nat 0) with 0.
    change (SST_FLASH_SERASE =? SPI_FLASH_READ) with false.
    change (SST_FLASH_SERASE =? SST_FLASH_RDID) with false. cbn.
    replace (4096 * k / 4096 * 4096) with (4096 * k); [done|].
    rewrite (Z.mul_comm 4096 k), Z.div_mul by lia. done.
  - by apply triple_ret.
Qed.

(** ** Read *)

Lemma u32_add_l a b : u32 (u32 a + b) = u32 (a + b).
Proof. unfold u32. by rewrite Zplus_mod_idemp_l. Qed.

Lemma t_read_chunk p q n buf : quiet p → 0 ≤ q → (0 < n ≤ 60)%nat → q + Z.of_nat n ≤ total →
  length buf = 60%nat →
  triple (sdrv vs p) (spi_read fuel ((SPI_FLASH_READ :: addr_bytes (u32 (FB + q))) ++ drop 4 buf)
                       4 (Z.of_nat n))
    (λ rb s, length rb.2 = 60%nat ∧ take n rb.2 = bytes_at (t_cell p) q n ∧ sdrv vs p s).
Proof.
  intros Hq Hq0 Hn Ht Hl. destruct (decode q) as (a2&a1&a0&Ea&Ed); [lia|].
  rewrite Ea. cbn [app].
  eapply triple_conseq.
  { apply (t_spi_read fuel Hfuel vs p _ 4 n [SPI_FLASH_READ; a2; a1; a0]
      (λ reply p', reply = bytes_at (t_cell p) q n ∧ p' = p)).
    - by right.
    - simpl. lia.
    - simpl. rewrite length_drop. lia.
    - lia.
    - done.
    - intros t _. exists (bytes_at (t_cell p) q n), p. split_and!; [|apply bytes_at_length|done|done].
      unfold sst_xfer. rewrite decide_False by (rewrite (q_wip _ Hq); lia).
      rewrite Ed, (q_aai _ Hq), (ge_len G). rewrite (proj2 (Z.leb_le _ _)) by lia. done. }
  { done. }
  intros [r b] s (_&Hb&p'&[Hb' ->]&Hs). split_and!; [|done|done].
  cbn [snd] in *. rewrite Hb. simpl. rewrite length_drop. lia.
Qed.

Lemma t_read_loop p n : quiet p → ∀ q nb buf, 0 ≤ q → 0 ≤ nb ≤ Z.of_nat n → q + nb ≤ total →
  length buf = 60%nat →
  triple (sdrv vs p) (read_loop fuel n (u32 (FB + q)) nb buf)
    (λ bs s, bs = bytes_at (t_cell p) q (Z.to_nat nb) ∧ sdrv vs p s).
Proof.
  intros Hq. assert (total < 2 ^ 32) as Htot.
  { pose proof (ge_num G). rewrite (ge_total G). unfold SPI_MAXSECTORS in *. lia. }
  induction n as [|n IH]; intros q nb buf Hq0 Hnb Ht Hl; cbn [read_loop].
  { assert (nb = 0) as -> by lia. by apply triple_ret. }
  destruct (Z.eqb_spec nb 0) as [->|Hz]; [by apply triple_ret|].
  rewrite (u32_small nb) by lia.
  set (m := if nb <? MAX_READ then nb else MAX_READ).
  assert (0 < m ≤ 60 ∧ m ≤ nb) as [Hm Hmn]
    by (unfold m, MAX_READ; destruct (Z.ltb_spec nb 60); lia).
  apply poke_head; [unfold addr_bytes; simpl; lia|].
  change (length (SPI_FLASH_READ :: addr_bytes (u32 (FB + q)))) with 4%nat.
  replace m with (Z.of_nat (Z.to_nat m)) at 1 by lia.
  eapply triple_bind; [apply t_read_chunk; [done..|lia|lia|done]|].
  intros [r b]. cbn [snd].
  apply (triple_pure _ (length b = 60%nat ∧ take (Z.to_nat m) b = bytes_at (t_cell p) q (Z.to_nat m)));
    [naive_solver|]. intros [Hlb Hbb].
  eapply (triple_conseq _ (sdrv vs p)); [|naive_solver|exact (λ _ _ H, H)].
  apply t_ready; [apply Hq..|].
  rewrite buf_read_Some by lia. cbn [of_option]. rewrite drop_0, Hbb.
  eapply triple_bind_eq; [by apply (triple_ret (sdrv vs p))|].
  rewrite u32_add_l, <- Z.add_assoc.
  eapply triple_bind_eq; [apply (IH (q + m) (nb - m)); [lia..|done]|].
  apply triple_ret. intros s Hs. split; [|done].
  replace (Z.to_nat nb) with (Z.to_nat m + Z.to_nat (nb - m))%nat by lia.
  rewrite bytes_at_app. replace (q + Z.of_nat (Z.to_nat m)) with (q + m) by lia. by rewrite Hbb.
Qed.

Lemma t_spi_read_buf p k off n : quiet p → 0 ≤ k < si_nsect m0 → 0 ≤ off → 0 ≤ n →
  4096 * k + off + n ≤ total →
  triple (sdrv vs p) (spi_flash_read_buf FB fuel k off n) (λ r s,
    r = (FLASH_API_OK, Some (bytes_at (t_cell p) (4096 * k + off) (Z.to_nat n))) ∧
    sdrv vs (disabled p) s).
Proof.
  intros Hq Hk Ho Hn Ht. unfold spi_flash_read_buf.
  eapply triple_gets; [apply drv_family|]. cbn match.
  eapply triple_bind; [apply t_reset; apply Hq|]. intros r.
  eapply (triple_conseq _ (sdrv vs (disabled p))); [|by intros s []|exact (λ _ _ H, H)].
  eapply triple_bind_eq; [by apply (t_memptr _ k)|].
  rewrite u32_add_l, <- Z.add_assoc.
  eapply triple_bind_eq.
  { apply (t_read_loop (disabled p) (Z.to_nat n) (quiet_disabled p Hq) (4096 * k + off) n);
      [lia..|done]. }
  by apply triple_ret.
Qed.

(** ** Programming *)

(** The part in the middle of programming [bs] from [q] on, over the contents
    [c]. *)
Record progress (c : Z → Z) (q : Z) (bs : list Z) (p : sst) : Prop := {
  pg_wel : t_wel p = true;
  pg_bp : t_bp p = 0;
  pg_ewsr : t_ewsr p = false;
  pg_wip : t_wip p = 0%nat;
  pg_aai : t_aai p = match bs with [] => None | _ => Some (q + Z.of_nat (length bs)) end;
  pg_cell : ∀ x, t_cell p x = stored c q bs x
}.

Lemma program_stored c c' q bs b : (∀ x, c' x = stored c q bs x) →
  c (q + Z.of_nat (length bs)) = 255 → is_byte b →
  ∀ x, program c' (q + Z.of_nat (length bs)) b x = stored c q (bs ++ [b]) x.
Proof.
  clear Hfuel.
  intros Hc He Hb x. unfold program. rewrite Hc. unfold stored. rewrite length_app. cbn [length].
  destruct (Z.eqb_spec x (q + Z.of_nat (length bs))) as [->|Hx].
  - rewrite decide_False by lia. rewrite decide_True by lia. rewrite He.
    rewrite app_nth2 by lia. replace (_ - _)%nat with 0%nat by lia. cbn [nth].
    rewrite Z.land_comm. change 255 with (Z.ones 8). rewrite Z.land_ones by done.
    apply Z.mod_small. exact Hb.
  - case_decide.
    + rewrite decide_True by lia. by rewrite app_nth1 by lia.
    + by rewrite decide_False by lia.
Qed.

Lemma progress_byte c q bs b p : progress c q bs p →
  c (q + Z.of_nat (length bs)) = 255 → is_byte b →
  progress c q (bs ++ [b]) (sst_byte 0 (q + Z.of_nat (length bs)) b p).
Proof.
  clear Hfuel.
  intros [] He Hb. constructor; try done.
  - rewrite length_app. cbn [t_aai sst_byte t_set_wip t_set_aai length].
    destruct bs; simpl; f_equal; lia.
  - by apply program_stored.
Qed.

Lemma progress_word c q bs b0 b1 p : progress c q bs p →
  c (q + Z.of_nat (length bs)) = 255 → c (q + Z.of_nat (length bs) + 1) = 255 →
  is_byte b0 → is_byte b1 →
  progress c q (bs ++ [b0; b1]) (sst_word 0 (q + Z.of_nat (length bs)) b0 b1 p).
Proof.
  clear Hfuel.
  intros Hp He He1 Hb0 Hb1. pose proof (progress_byte c q bs b0 p Hp He Hb0) as H1.
  assert (q + Z.of_nat (length (bs ++ [b0])) = q + Z.of_nat (length bs) + 1) as El
    by (rewrite length_app; simpl; lia).
  pose proof (progress_byte c q (bs ++ [b0]) b1 _ H1 ltac:(by rewrite El) Hb1) as H2.
  rewrite <- app_assoc, El in H2. destruct Hp. destruct H2. constructor; try done.
  rewrite length_app. cbn [t_aai sst_word t_set_wip t_set_aai length].
  destruct bs; simpl; f_equal; lia.
Qed.

Lemma wip_sst_byte t a b p : sst_byte t a b p = t_set_wip t (sst_byte 0 a b p).
Proof. done. Qed.

Lemma wip_sst_word t a b0 b1 p : sst_word t a b0 b1 p = t_set_wip t (sst_word 0 a b0 b1 p).
Proof. done. Qed.

(** [wbuf[1..] = bs] behind the command byte. *)
Lemma poke_tail {A} (P : st → Prop) wbuf c bs (f : list Z → M st A) Q :
  take 1 wbuf = [c] → (length bs + 1 ≤ length wbuf)%nat →
  (∀ w, take 1 w = [c] → length w = length wbuf → take (1 + length bs) w = c :: bs →
     triple P (f w) Q) →
  triple P (poke wbuf 1 bs ≫= f) Q.
Proof.
  clear Hfuel.
  intros Hc Hl H. unfold poke. rewrite buf_write_Some by lia. cbn [of_option].
  change (Z.to_nat 1) with 1%nat. rewrite Hc. intros s Hs. rewrite bind_ret.
  apply H; [|..|done].
  - done.
  - rewrite !length_app, length_drop. simpl. lia.
  - cbn [app take Nat.add]. f_equal. apply take_app_length.
Qed.

(** One round of a programming loop: the command byte is followed by [bs], sent,
    and the part is waited for. *)
Lemma t_send {A} p p' wbuf cmd bs (l : Z) (len : Z → Z) (f : list Z → M st A) Q :
  take 1 wbuf = [cmd] → length wbuf = 64%nat → (length bs < 64)%nat →
  len l = Z.of_nat (1 + length bs) → bp_ok p' → t_wip p' = 0%nat →
  (∀ t, xfer t p (cmd :: bs) 0 = Some ([], t_set_wip t p')) →
  (∀ w, take 1 w = [cmd] → length w = 64%nat → triple (sdrv vs p') (f w) Q) →
  triple (sdrv vs p) ((poke wbuf 1 bs ≫= λ w, mret (w, l)) ≫= λ '(w, cmdlen),
    spi_write fuel w (len cmdlen) ≫= λ _, wait_ready fuel fuel ≫= λ _, f w) Q.
Proof.
  intros Hc Hl Hb Hlen Hbp Hw Hx Hf.
  apply (triple_bind _ _ (λ wl s, (wl.2 = l ∧ take 1 wl.1 = [cmd] ∧ length wl.1 = 64%nat ∧
    take (1 + length bs) wl.1 = cmd :: bs) ∧ sdrv vs p s)).
  { apply (poke_tail _ wbuf cmd); [done|lia|]. intros w H1 H2 H3.
    apply triple_ret. intros s Hs. split; [|done]. cbn [fst snd]. rewrite H2. done. }
  intros [w l']. cbn [fst snd].
  match goal with |- triple (λ s, ?φ ∧ _) _ _ => apply (triple_pure _ φ); [by intros s []|] end.
  intros (->&Hw1&Hlw1&Hw2). rewrite Hlen.
  eapply (triple_conseq _ (sdrv vs p)); [|by intros s []|exact (λ _ _ H, H)].
  apply (t_cmd vs p p' w (1 + length bs) (cmd :: bs)); [lia|lia|done|done|done| |by apply Hf].
  intros t Ht. exists t. split; [done|]. apply Hx.
Qed.

Section loops.
Context (c : Z → Z) (q : Z) (buf : list Z) (N : nat).
Context (Hq0 : 0 ≤ q) (HqN : q + Z.of_nat N ≤ total) (HN : (N ≤ length buf)%nat).
Context (Hbytes : Forall is_byte buf) (Herased : ∀ x, q ≤ x < q + Z.of_nat N → c x = 255).

Lemma length_taken i : (i ≤ N)%nat → length (take i buf) = i.
Proof. intros. rewrite length_take. lia. Qed.

Lemma progress_bp i p : progress c q (take i buf) p → bp_ok p.
Proof. intros []. unfold bp_ok. lia. Qed.

Lemma buf_byte i b : buf !! i = Some b → is_byte b.
Proof. intros H. by eapply Forall_lookup_1. Qed.

Lemma aai_at i p : i ≠ 0%nat → (i ≤ N)%nat → progress c q (take i buf) p →
  t_aai p = Some (q + Z.of_nat i).
Proof.
  intros Hi HiN Hp. rewrite (pg_aai _ _ _ _ Hp), (length_taken i HiN).
  pose proof (length_taken i HiN). destruct (take i buf); [simpl in *; lia|done].
Qed.

Lemma t_aai_loop n : sst_words = false → ∀ i wbuf p,
  (n + i = length buf)%nat → (i ≤ N)%nat → length wbuf = 64%nat → take 1 wbuf = [FLASH_AAI] →
  progress c q (take i buf) p →
  triple (sdrv vs p) (aai_loop fuel n wbuf buf i (u32 (FB + q)) (Z.of_nat (N - i)))
    (λ r s, r = Z.of_nat N ∧ ∃ p', progress c q (take N buf) p' ∧ sdrv vs p' s).
Proof.
  intros Hwd. induction n as [|n IH]; intros i wbuf p Hni HiN Hlw Hw Hp; cbn [aai_loop].
  all: destruct (Z.eqb_spec (Z.of_nat (N - i)) 0) as [Hz|Hz];
    [assert (i = N) as -> by lia; apply triple_ret; eauto|].
  { lia. }
  destruct (lookup_lt_is_Some_2 buf i) as [b Hb]; [lia|]. rewrite Hb. cbn [of_option].
  eapply triple_bind_eq; [by apply (triple_ret (sdrv vs p))|].
  pose proof (progress_byte c q (take i buf) b p Hp) as Hp'.
  rewrite (length_taken i HiN), <- (take_S_r _ _ _ Hb) in Hp'.
  specialize (Hp' ltac:(apply Herased; lia) (buf_byte _ _ Hb)).
  destruct (decode q) as (a2&a1&a0&Ea&Ed); [lia|].
  destruct (decide (i ≠ 0%nat)) as [Hi|Hi].
  - apply (t_send p (sst_byte 0 (q + Z.of_nat i) b p) wbuf FLASH_AAI [b] CMD_LEN_1 (λ l, 1 + l));
      [done|done|simpl; lia|done|by apply (progress_bp _ _ Hp')|done| |].
    + intros t. unfold sst_xfer. rewrite decide_False by (rewrite (pg_wip _ _ _ _ Hp); lia).
      rewrite (aai_at i p Hi HiN Hp), Hwd, (ge_len G). by rewrite (proj2 (Z.ltb_lt _ _)) by lia.
    + intros w ??. replace (Z.of_nat (N - i) - 1) with (Z.of_nat (N - S i)) by lia.
      apply IH; [lia..|done|done].
  - assert (i = 0%nat) as -> by lia. rewrite Ea.
    apply (t_send p (sst_byte 0 (q + Z.of_nat 0) b p) wbuf FLASH_AAI [a2; a1; a0; b] CMD_LEN_4
             (λ l, 1 + l)); [done|done|simpl; lia|done|by apply (progress_bp _ _ Hp')|done| |].
    + intros t. unfold sst_xfer. rewrite decide_False by (rewrite (pg_wip _ _ _ _ Hp); lia).
      rewrite (pg_aai _ _ _ _ Hp), Hwd, (pg_wel _ _ _ _ Hp), (pg_bp _ _ _ _ Hp), Ed.
      by replace (q + Z.of_nat 0) with q by lia.
    + intros w ??.
      replace (Z.of_nat (N - 0) - 1) with (Z.of_nat (N - 1)) by lia. apply IH; [lia..|done|done].
Qed.

Lemma t_word_loop n : sst_words = true → Z.even q = true → ∀ i wbuf p,
  (N ≤ n + i)%nat → (∃ h, N = i + 2 * h)%nat → length wbuf = 64%nat →
  take 1 wbuf = [FLASH_WORD_AAI] → progress c q (take i buf) p →
  triple (sdrv vs p) (word_aai_loop fuel n wbuf buf i (u32 (FB + q)) (Z.of_nat (N - i)))
    (λ r s, r = Z.of_nat N ∧ ∃ p', progress c q (take N buf) p' ∧ sdrv vs p' s).
Proof.
  intros Hwd Hqe. induction n as [|n IH]; intros i wbuf p Hni [h Hh] Hlw Hw Hp;
    cbn [word_aai_loop].
  all: destruct (Z.eqb_spec (Z.of_nat (N - i)) 0) as [Hz|Hz];
    [assert (i = N) as -> by lia; apply triple_ret; eauto|].
  { lia. }
  assert (i + 2 ≤ N)%nat as Hi2 by lia. assert (i ≤ N)%nat as HiN by lia.
  destruct (lookup_lt_is_Some_2 buf i) as [b0 Hb0]; [lia|]. rewrite Hb0.
  destruct (lookup_lt_is_Some_2 buf (S i)) as [b1 Hb1]; [lia|]. rewrite Hb1. cbn [of_option].
  eapply triple_bind_eq; [by apply (triple_ret (sdrv vs p))|].
  eapply triple_bind_eq; [by apply (triple_ret (sdrv vs p))|].
  pose proof (progress_word c q (take i buf) b0 b1 p Hp) as Hp'.
  rewrite (length_taken i HiN) in Hp'.
  replace (take i buf ++ [b0; b1]) with (take (S (S i)) buf) in Hp'.
  2: { rewrite (take_S_r _ _ _ Hb1), (take_S_r _ _ _ Hb0). by rewrite <- app_assoc. }
  specialize (Hp' ltac:(apply Herased; lia) ltac:(apply Herased; lia) (buf_byte _ _ Hb0)
                (buf_byte _ _ Hb1)).
  destruct (decode q) as (a2&a1&a0&Ea&Ed); [lia|].
  assert (∃ h', N = S (S i) + 2 * h')%nat as Hh' by (exists (h - 1)%nat; lia).
  replace (Z.of_nat (N - i) - 2) with (Z.of_nat (N - S (S i))) by lia.
  destruct (decide (i ≠ 0%nat)) as [Hi|Hi].
  - apply (t_send p (sst_word 0 (q + Z.of_nat i) b0 b1 p) wbuf FLASH_WORD_AAI [b0; b1] 3 (λ l, l));
      [done|done|simpl; lia|done|by apply (progress_bp _ _ Hp')|done| |].
    + intros t. unfold sst_xfer. rewrite decide_False by (rewrite (pg_wip _ _ _ _ Hp); lia).
      rewrite (aai_at i p Hi HiN Hp), Hwd, (ge_len G). by rewrite (proj2 (Z.ltb_lt _ _)) by lia.
    + intros w ??. apply IH; [lia|done|done|done|done].
  - assert (i = 0%nat) as -> by lia. rewrite Ea.
    apply (t_send p (sst_word 0 (q + Z.of_nat 0) b0 b1 p) wbuf FLASH_WORD_AAI
             [a2; a1; a0; b0; b1] 6 (λ l, l));
      [done|done|simpl; lia|done|by apply (progress_bp _ _ Hp')|done| |].
    + intros t. unfold sst_xfer. rewrite decide_False by (rewrite (pg_wip _ _ _ _ Hp); lia).
      rewrite (pg_aai _ _ _ _ Hp), Hwd, (pg_wel _ _ _ _ Hp), (pg_bp _ _ _ _ Hp), Ed, Hqe.
      by replace (q + Z.of_nat 0) with q by lia.
    + intros w ??. apply IH; [lia|done|done|done|done].
Qed.
End loops.

Lemma progress_start p : quiet p → progress (t_cell p) 0 [] (enabled p).
Proof. intros []. constructor; try done. intros x. by rewrite stored_nil. Qed.

Lemma progress_done c q bs p : progress c q bs p → quiet (disabled p).
Proof. intros []. constructor; try done. by split; cbn; rewrite pg_bp0. Qed.

Lemma t_spi_write_buf p k off buf (n : nat) : quiet p → 0 ≤ k < si_nsect m0 → 0 ≤ off →
  Z.even off = true → Z.even (Z.of_nat n) = true → off + Z.of_nat n ≤ 4096 →
  (n ≤ length buf)%nat → Forall is_byte buf →
  (∀ a, 4096 * k + off ≤ a < 4096 * k + off + Z.of_nat n → t_cell p a = 255) →
  triple (sdrv vs p) (spi_flash_write FB fuel k off buf (Z.of_nat n)) (λ r s, r = Z.of_nat n ∧
    ∃ p', quiet p' ∧ (∀ a, t_cell p' a = stored (t_cell p) (4096 * k + off) (take n buf) a) ∧
      sdrv vs p' s).
Proof.
  intros Hq Hk Ho Hoe Hne Hfit Hl Hb Her. unfold spi_flash_write.
  set (q := 4096 * k + off) in *.
  assert (q + Z.of_nat n ≤ total) as Hqt by (rewrite (ge_total G); lia).
  assert (Z.even q = true) as Hqe.
  { unfold q. rewrite Z.even_add, Z.even_mul, Hoe. done. }
  eapply triple_bind_eq; [by apply (t_memptr _ k)|].
  rewrite u32_add_l, <- Z.add_assoc. fold q.
  eapply triple_gets; [apply drv_family|]. cbn match.
  eapply (triple_gets _ sstAaiWordProgram sst_words).
  { intros s Hs. pose proof (dr_vars _ _ _ Hs) as E. unfold vars in E. by simplify_eq. }
  pose proof (progress_start p Hq) as Hp0.
  assert (progress (t_cell p) q (take 0 buf) (enabled p)) as Hp.
  { destruct Hp0. constructor; try done. intros x. by rewrite take_0, stored_nil. }
  assert (∀ r, triple (λ s, r = Z.of_nat n ∧ ∃ p', progress (t_cell p) q (take n buf) p' ∧ sdrv vs p' s)
    (spi_flash_reset_ub fuel ≫= λ _, wait_ready fuel fuel ≫= λ _, mret r)
    (λ r s, r = Z.of_nat n ∧ ∃ p', quiet p' ∧
      (∀ a, t_cell p' a = stored (t_cell p) q (take n buf) a) ∧ sdrv vs p' s)) as Hend.
  { intros r s (->&p'&Hp'&Hs). pose proof (progress_done _ _ _ _ Hp') as Hqd.
    revert s Hs. eapply triple_bind; [apply t_reset_ub; [apply Hqd|apply Hp']|]. intros r.
    eapply (triple_conseq _ (sdrv vs (disabled p'))); [|by intros s []|exact (λ _ _ H, H)].
    apply t_ready; [apply Hqd..|]. apply triple_ret. intros s Hs. split; [done|].
    exists (disabled p'). split_and!; [done|apply Hp'|done]. }
  match goal with |- triple ?P (if ?b then ?A else ?B) ?Q =>
    assert (b = true → triple P A Q) as HA; [intros Ewd|
    assert (b = false → triple P B Q) as HB; [intros Ewd|
    clear -HA HB; destruct b; auto]] end.
  - eapply triple_bind; [by apply t_ub|]. intros r.
    eapply (triple_conseq _ (sdrv vs (enabled p))); [|by intros s []|exact (λ _ _ H, H)].
    apply poke_head; [simpl; lia|].
    eapply triple_bind; [|exact Hend].
    replace (Z.of_nat n) with (Z.of_nat (n - 0)) at 1 by lia.
    apply (t_word_loop (t_cell p) q buf n); try done; try lia.
    apply Z.even_spec in Hne as [h Hh]. exists (Z.to_nat h). lia.
  - eapply triple_bind; [by apply t_ub|]. intros r.
    eapply (triple_conseq _ (sdrv vs (enabled p))); [|by intros s []|exact (λ _ _ H, H)].
    apply poke_head; [simpl; lia|].
    eapply triple_bind; [|exact Hend].
    replace (Z.of_nat n) with (Z.of_nat (n - 0)) at 1 by lia.
    apply (t_aai_loop (t_cell p) q buf n); try done; lia.
Qed.
End operations.
