(* ===== verification/SpiContract.v ===== *)
(** * The SPI flash driver implements the flash contract

    The queries on the sector table, the contract for an SST25VF part, the
    initialisation that establishes it, and the defects of the driver. *)

From stdpp Require Import base numbers list strings.
From Stdlib Require Import ZArith Znumtheory Lia.
From S2P Require Import Prelude FlashApi CfiTypes CfiFlash CfiGeometry SpiFlash SpiSst SpiProofs.

Section contract.
Context {D : Type} {bus : SpiBus D} {chip : SstPart D}.
Context (FB : Z) (fuel : nat) (Hfuel : (sst_tmax + 2 < fuel)%nat).
Context (m0 : spi_flashinfo) (total : Z) (G : geometry FB m0 total).
Abbreviation st := (spi_state D).
Abbreviation vs := (m0, total, SPI_SST, sst_words).
Abbreviation nsect := (si_nsect m0).

Lemma spi_nsect_range : 0 < nsect ≤ 1024.
Proof. exact (ge_num _ _ _ G). Qed.

Lemma spi_size_Done p s k : sdrv vs p s → 0 ≤ k < nsect →
  spi_flash_get_sector_size k s = Done (4096, s).
Proof.
  intros Hs Hk. pose proof spi_nsect_range. unfold spi_flash_get_sector_size, spi_get_sec, SPI_MAXSECTORS.
  rewrite u16_small by lia. rewrite decide_True by lia.
  by rewrite bind_gets, (drv_info m0 total _ _ Hs), (ge_sec _ _ _ G).
Qed.

Lemma spi_blk_loop p s r : sdrv vs p s → ∀ n b, 0 ≤ b → b + Z.of_nat n = nsect →
  ∃ b', b ≤ b' ≤ nsect ∧ spi_get_blk_loop n b (4096 * b) r s = Done ((b', 4096 * b'), s) ∧
    (b' < nsect → r ≤ 4096 * b') ∧ (b < b' → 4096 * (b' - 1) < r).
Proof.
  intros Hs. pose proof spi_nsect_range. induction n as [|n IH]; intros b Hb Hn; cbn [spi_get_blk_loop].
  { exists b. repeat split; lia. }
  destruct (Z.ltb_spec (4096 * b) r); [|exists b; repeat split; lia].
  mstep (spi_size_Done p s b Hs ltac:(lia)). rewrite s32_small by lia.
  replace (4096 * b + 4096) with (4096 * (b + 1)) by lia.
  destruct (IH (b + 1)) as (b'&?&Hd&?&Hlt); [lia..|].
  exists b'. rewrite Hd. repeat split; [lia..|]. intros _.
  destruct (decide (b' = b + 1)) as [->|]; [lia|apply Hlt; lia].
Qed.

Lemma spi_blk_inside p s a k : sdrv vs p s → 0 ≤ k < nsect → 4096 * k ≤ a < 4096 * k + 4096 →
  spi_flash_get_blk FB (s32 (FB + a)) s = Done (k, s).
Proof.
  intros Hs Hk Ha. pose proof spi_nsect_range.
  unfold spi_flash_get_blk, spi_flash_get_numsectors.
  rewrite bind_gets, (drv_info m0 total _ _ Hs), relative_addr_eq by lia.
  destruct (spi_blk_loop p s a Hs (Z.to_nat nsect) 0) as (b'&?&Hd&Hge&Hlt); [lia..|].
  mstep Hd. rewrite !u32_small by lia.
  assert (b' = k ∧ 4096 * k = a ∨ b' = k + 1 ∧ a < 4096 * b') as [[-> ?]|[-> ?]] by lia.
  - rewrite Z.gtb_ltb, (proj2 (Z.ltb_ge _ _)) by lia. by rewrite (proj2 (Z.eqb_neq k _)) by lia.
  - rewrite Z.gtb_ltb, (proj2 (Z.ltb_lt _ _)) by lia. unfold mret, M_ret. do 2 f_equal. lia.
Qed.

Lemma spi_blk_outside p s a : sdrv vs p s → 4096 * nsect ≤ a < 2 ^ 31 →
  spi_flash_get_blk FB (s32 (FB + a)) s = Done (-1, s).
Proof.
  intros Hs Ha. pose proof spi_nsect_range.
  unfold spi_flash_get_blk, spi_flash_get_numsectors.
  rewrite bind_gets, (drv_info m0 total _ _ Hs), relative_addr_eq by lia.
  destruct (spi_blk_loop p s a Hs (Z.to_nat nsect) 0) as (b'&?&Hd&Hge&Hlt); [lia..|].
  mstep Hd. rewrite !u32_small by lia. assert (b' = nsect) as -> by lia.
  rewrite Z.gtb_ltb, (proj2 (Z.ltb_ge _ _)) by lia. by rewrite Z.eqb_refl.
Qed.

(** The driver is at rest: its variables describe the part, which is quiet. *)
Definition at_rest (s : st) : Prop :=
  ∃ p, quiet p ∧ (∀ a, is_byte (t_cell p a)) ∧ sdrv vs p s.

Definition spi_cells (s : st) : Z → Z := t_cell (v_dev (sst_view (spi_part s))).

Lemma rest_cells s p : sdrv vs p s → spi_cells s = t_cell p.
Proof. intros []. unfold spi_cells. by rewrite dr_dev. Qed.

Lemma stored_is_byte c q bs a : (∀ x, is_byte (c x)) → Forall is_byte bs → is_byte (stored c q bs a).
Proof.
  intros Hc Hb. unfold stored. case_decide; [|done]. rewrite nth_lookup.
  destruct (bs !! Z.to_nat (a - q)) eqn:E; simpl; [by eapply Forall_lookup_1|done].
Qed.

#[refine] Definition spi_contract : FlashContract FB (flash_spi_dev FB fuel) := {|
  fc_ok := at_rest;
  fc_mem := spi_cells;
  fc_num := nsect;
  fc_size := λ _, 4096
|}.
Proof.
  all: pose proof spi_nsect_range as Hn.
  - lia.
  - done.
  - rewrite sec_base_uniform; lia.
  - intros s a (p&_&Hb&Hs) _. by rewrite (rest_cells s p Hs).
  - intros s (p&_&_&Hs). cbn. unfold spi_flash_get_numsectors, gets.
    by rewrite (drv_info m0 total _ _ Hs).
  - intros s k (p&_&_&Hs) Hk. by apply (spi_size_Done p).
  - intros s k (p&_&_&Hs) Hk. rewrite sec_base_uniform by lia.
    destruct (t_memptr FB m0 total G p k Hk s Hs) as (a&s'&E&->&_). cbn.
    unfold spi_flash_get_memptr, spi_get_flash_memptr in *. rewrite E.
    apply bind_Done_inv in E as (e&s1&E1&E2). unfold spi_get_sec, gets, fault in E1.
    case_decide; simplify_eq. unfold mret, M_ret in E2. by simplify_eq.
  - intros s (p&_&_&Hs). rewrite sec_base_uniform by lia. cbn.
    unfold spi_flash_get_total_size, gets. pose proof (dr_vars _ _ _ Hs) as E.
    unfold vars in E. simplify_eq. by rewrite (ge_total _ _ _ G).
  - intros s k a (p&_&_&Hs) Hk Ha. rewrite sec_base_uniform in Ha by lia.
    by apply (spi_blk_inside p).
  - intros s a (p&_&_&Hs) Ha. rewrite sec_base_uniform in Ha by lia.
    by apply (spi_blk_outside p).
  - intros s k off n (p&Hq&Hb&Hs) Hk Ho Hnn Hr. rewrite !sec_base_uniform in * by lia.
    destruct (t_spi_read_buf FB fuel Hfuel m0 total G p k off n Hq Hk Ho Hnn) with (s := s)
      as (r&s'&E&->&Hs'); [rewrite (ge_total _ _ _ G); lia|done|].
    exists s'. cbn. rewrite u16_small by lia. rewrite E, (rest_cells s p Hs).
    split_and!; [done| |].
    + exists (disabled p). split_and!; [by apply quiet_disabled|done|done].
    + intros a. by rewrite (rest_cells s' _ Hs').
  - intros s k (p&Hq&Hb&Hs) Hk. rewrite !sec_base_uniform by lia.
    destruct (t_spi_erase FB fuel Hfuel m0 total G p k Hq Hk s Hs) as (r&s'&E&->&Hs').
    exists s'. cbn. rewrite u16_small by lia. rewrite E. split_and!; [done| |].
    + exists (erased p k). split_and!; [|intros a; cbn; by case_decide|done].
      destruct Hq. constructor; try done.
    + intros a. rewrite (rest_cells s' _ Hs'), (rest_cells s p Hs). done.
  - intros s k off buf n (p&Hq&Hb&Hs) Hk Ho Hnn Hoe Hne Hfit Hl Hbuf He.
    rewrite !sec_base_uniform in * by lia. rewrite (rest_cells s p Hs) in *.
    destruct (t_spi_write_buf FB fuel Hfuel m0 total G p k off buf (Z.to_nat n)) with (s := s)
      as (r&s'&E&->&p'&Hq'&Hc&Hs'); rewrite ?Z2Nat.id by lia; try done; try lia.
    exists s'. cbn. rewrite u16_small by lia. rewrite Z2Nat.id in E by lia.
    unfold spi_flash_write_buf. rewrite bind_gets, (drv_family m0 total _ _ Hs), E.
    split_and!; [done| |].
    + exists p'. split_and!; [done| |done]. intros a. rewrite Hc. apply stored_is_byte; [done|].
      by apply Forall_take.
    + intros a. rewrite (rest_cells s' _ Hs'), Hc. unfold stored.
      rewrite length_take, Nat.min_l by lia. rewrite Z2Nat.id by lia.
      case_decide; [|done]. rewrite !nth_lookup, lookup_take_lt by lia. do 2 f_equal. lia.
Defined.
End contract.
