(* ===== verification/SpiClaims.v ===== *)
(** * The SPI flash driver: initialisation and defects

    [spi_flash_init] on each supported SST part ends in a state from which the
    driver implements the flash contract; a concrete part; and what goes wrong
    on other parts and inputs. *)

From stdpp Require Import base numbers list strings.
From Stdlib Require Import ZArith Znumtheory Lia.
From S2P Require Import Prelude FlashApi SpiFlash SpiSst SpiProofs SpiContract.

Section init.
Context {D : Type} {bus : SpiBus D} {chip : SstPart D}.
Context (FB : Z) (fuel : nat) (Hfuel : (sst_tmax + 2 < fuel)%nat).
Abbreviation st := (spi_state D).

Lemma t_device_id vars p k : quiet p →
  triple (sdrv vars p) (spi_flash_get_device_id fuel k)
    (λ id s, id = 256 * SSTPART + sst_id ∧ sdrv vars p s).
Proof.
  intros Hq. unfold spi_flash_get_device_id, MAX_RETRY.
  apply (triple_bind_eq _ _ (inl (256 * SSTPART + sst_id)) (sdrv vars p));
    [|by apply triple_ret].
  cbn [rdid_loop]. apply poke_head; [simpl; lia|].
  eapply triple_bind.
  { apply (t_spi_read fuel Hfuel vars p _ 4 2 [SST_FLASH_RDID; 0; 0; 0]
      (λ reply p', reply = [SSTPART; sst_id] ∧ p' = p)); [by right|simpl; lia..|done|].
    intros t _. exists [SSTPART; sst_id], p. split_and!; [|done..].
    unfold sst_xfer. rewrite decide_False by (rewrite (q_wip _ Hq); lia).
    rewrite (q_aai _ Hq). unfold sst_addr. change (65536 * 0 + 256 * 0 + 0) with 0.
    rewrite Zmod_0_l. done. }
  intros [r b]. cbn [snd].
  apply (triple_pure _ (take 2 b = [SSTPART; sst_id])); [naive_solver|]. intros Hb.
  eapply (triple_conseq _ (sdrv vars p)); [|naive_solver|exact (λ _ _ H, H)].
  apply t_ready; [done|apply Hq..|].
  assert (b !! 0%nat = Some SSTPART ∧ b !! 1%nat = Some sst_id) as [-> ->].
  { destruct b as [|x [|y b]]; [done..|]. simpl in Hb. by simplify_eq. }
  cbn [of_option]. eapply triple_bind_eq; [by apply (triple_ret (sdrv vars p))|].
  eapply triple_bind_eq; [by apply (triple_ret (sdrv vars p))|].
  rewrite Z.eqb_refl. by apply triple_ret.
Qed.

(** The loop that fills the sector table. *)
Lemma spi_add_sectors_spec n : ∀ i (s : st), 0 ≤ i → i + Z.of_nat n ≤ SPI_MAXSECTORS →
  ∃ m, spi_add_sectors n i 4096 (4096 * i) s = Done (tt, spi_set_info m s) ∧
    si_nsect m = si_nsect (spi_meminfo s) ∧
    (∀ k, i ≤ k < i + Z.of_nat n → si_sec m k = {| ss_size := 4096; ss_base := 4096 * k |}) ∧
    (∀ k, k < i → si_sec m k = si_sec (spi_meminfo s) k).
Proof.
  induction n as [|n IH]; intros i s Hi Hn; cbn [spi_add_sectors].
  { exists (spi_meminfo s). split_and!; [by destruct s|done|lia|done]. }
  unfold spi_set_sec. rewrite decide_True by lia. rewrite bind_modify. cbn beta zeta.
  replace (4096 * i + 4096) with (4096 * (i + 1)) by lia.
  match goal with |- context [spi_add_sectors n (i + 1) _ _ ?s1] =>
    destruct (IH (i + 1) s1) as (m&E&Hns&Hk&Hk'); [lia..|] end.
  exists m. split_and!; [exact E|exact Hns| |].
  - intros k Hki. destruct (decide (k = i)) as [->|]; [|apply Hk; lia].
    rewrite Hk' by lia. cbn. by rewrite Z.eqb_refl.
  - intros k Hki. rewrite Hk' by lia. cbn. by rewrite (proj2 (Z.eqb_neq k i)) by lia.
Qed.

(** The parts the driver knows. *)
Definition sst_known (id : Z) (words : bool) (len : Z) : Prop :=
  (id, words, len) ∈ [(ID_SST25VF016B, true, 512 * 4096); (ID_SST25VF080, false, 256 * 4096);
                      (ID_SST25VF040, false, 128 * 4096); (ID_SST25VF020, false, 64 * 4096)].

Lemma identify_known : sst_known sst_id sst_words sst_len →
  spi_identify (256 * SSTPART + sst_id) =
    Some (SPI_SST, sst_len / 4096, SECTOR_SIZE_4K, sst_words, 256 * SSTPART + sst_id) ∧
  0 < sst_len / 4096 ≤ 512 ∧ sst_len = 4096 * (sst_len / 4096) ∧ (sst_len | 2 ^ 24).
Proof.
  unfold sst_known. rewrite !elem_of_cons, elem_of_nil.
  intros [[= -> -> ->]|[[= -> -> ->]|[[= -> -> ->]|[[= -> -> ->]|[]]]]].
  all: split_and!; [done|done|done|done|].
  - by exists 8.
  - by exists 16.
  - by exists 32.
  - by exists 64.
Qed.

(** The driver's variables are statically initialised, the controller is idle and
    the part is in any state it can be in after power-up or a completed
    operation, write-protected or not. *)
Record spi_reset (s : st) : Prop := {
  sr_word : sstAaiWordProgram s = false;
  sr_run : v_run (sst_view (spi_part s)) = None;
  sr_quiet : quiet (v_dev (sst_view (spi_part s)));
  sr_bytes : ∀ a, is_byte (spi_cells s a)
}.

(** [C10] On every SST25VF part the driver supports, [spi_flash_init] succeeds,
    leaves the contents alone, and from then on [flash_spi_dev] implements the
    flash contract (reads, erases, writes and queries terminate and do what the
    contract says) with 4K sectors over the whole part, whether the part is
    programmed by bytes or by words and whether or not it was write-protected. *)
Theorem spi_flash_init_correct (s : st) :
  sst_known sst_id sst_words sst_len → (sst_len | FB) → spi_reset s →
  ∃ s' (C : FlashContract FB (flash_spi_dev FB fuel)),
    spi_flash_init fuel s = Done (FLASH_API_OK, s') ∧
    @fc_ok _ _ _ C s' ∧ @fc_num _ _ _ C = sst_len / 4096 ∧ (∀ k, @fc_size _ _ _ C k = 4096) ∧
    (∀ a, @fc_mem _ _ _ C s' a = spi_cells s a) ∧ (∀ s1 a, @fc_mem _ _ _ C s1 a = spi_cells s1 a).
Proof.
  intros Hk HFB [Hw Hr Hq Hb]. destruct (identify_known Hk) as (Hid&Hn&Hlen&H24).
  set (n := sst_len / 4096) in *.
  unfold spi_flash_init, spi_enable_clock. rewrite bind_modify. cbn zeta.
  set (s1 := if Z.land _ _ =? 0 then _ else s).
  assert (sdrv (vars s) (v_dev (sst_view (spi_part s))) s1) as Hs1.
  { unfold s1. case_match; by constructor. }
  destruct (t_device_id (vars s) _ 0 Hq s1 Hs1) as (id&s2&E2&->&Hs2). mstep E2.
  rewrite bind_modify, Hid, bind_modify.
  match goal with |- context [spi_set_family SPI_SST ?x] => set (s3 := spi_set_family SPI_SST x) end.
  assert (∀ A (f : unit → M st A), ((if sst_words then modify (spi_set_word true) else mret tt) ≫= f) s3
    = f tt (spi_set_word sst_words s3)) as Hword.
  { intros A f. assert (sstAaiWordProgram s3 = false) as Ef.
    { pose proof (dr_vars _ _ _ Hs2) as E. unfold vars in E. cbn. simplify_eq. congruence. }
    destruct sst_words; [done|]. rewrite bind_ret. f_equal. destruct s3; cbn in *. by subst. }
  rewrite Hword. unfold spi_set_table. rewrite bind_modify.
  match goal with |- context [spi_set_info ?mi (spi_set_word sst_words s3)] =>
    set (s4 := spi_set_info mi (spi_set_word sst_words s3)) end.
  destruct (spi_add_sectors_spec (Z.to_nat n) 0 s4) as (m&E&Hns&Hsec&_);
    [lia|unfold SPI_MAXSECTORS; lia|].
  change (4096 * 0) with 0 in E. mstep E.
  assert (geometry FB m sst_len) as G.
  { assert (si_nsect m = n) as Hm by done. constructor; rewrite ?Hm; try done.
    - unfold SPI_MAXSECTORS. lia.
    - intros k Hki. apply Hsec. lia. }
  unfold spi_get_sec. rewrite decide_True by (unfold SPI_MAXSECTORS; lia).
  rewrite bind_gets. cbn [spi_meminfo spi_set_info]. rewrite Hsec by lia. rewrite bind_modify.
  cbn [ss_base ss_size]. replace (4096 * (n - 1) + 4096) with sst_len by lia.
  match goal with |- context [spi_set_total sst_len ?x] => set (s5 := spi_set_total sst_len x) end.
  set (s' := match spi_name SPI_FLASH_DEVICES (256 * SSTPART + sst_id) with
             | Some name => spi_set_name name s5 | None => s5 end).
  assert (sdrv (m, sst_len, SPI_SST, sst_words) (v_dev (sst_view (spi_part s))) s') as Hs'.
  { destruct Hs2. unfold s'. destruct (spi_name _ _); by constructor. }
  exists s', (spi_contract FB fuel Hfuel m sst_len G).
  split_and!; [by unfold s'; destruct (spi_name _ _)| |done|done| |done].
  - exists (v_dev (sst_view (spi_part s))). done.
  - intros a. cbn. unfold spi_cells. by rewrite (dr_dev _ _ _ Hs').
Qed.
End init.

(** ** Defects *)

Section defects.
Context {D : Type} {bus : SpiBus D}.
Context (FB : Z) (fuel : nat).
Abbreviation st := (spi_state D).

(** Stack overflow on Atmel and AMD parts: the chunk of a page program is
    bounded by the controller's message buffer (542 bytes on the BCM96358) and
    by the 256-byte page, but it is copied into a 64-byte local buffer.  Any
    write of more than 60 bytes that does not start near the end of a page
    leaves the buffer. *)
Theorem spi_page_write_overflows (s s1 : st) (k off addr r : Z) (buf : list Z) (n : Z) :
  spi_flashFamily s = SPI_ATMEL ∨ spi_flashFamily s = SPI_AMD →
  spi_get_flash_memptr FB k s = Done (addr, s) → spi_flash_ub fuel k s = Done (r, s1) →
  60 < n < 2 ^ 31 → n ≤ Z.of_nat (length buf) → Z.land (u32 (addr + off)) 0xff < 196 →
  spi_flash_write_buf FB fuel k off buf n s = Fault.
Proof.
  intros Hf Ha Hu Hn Hl Hpage.
  assert (page_loop fuel (Z.to_nat n) k (fresh_buf sizeof_wbuf) buf 0 (u32 (addr + off)) n s = Fault)
    as Hloop.
  { replace (Z.to_nat n) with (S (Z.to_nat (n - 1))) by lia. cbn [page_loop].
    rewrite (proj2 (Z.eqb_neq n 0)) by lia. mstep Hu.
    rewrite u32_small by lia.
    set (room := sizeof_spiMsgData - CMD_LEN_4).
    set (m := if n <? room then n else room).
    assert (60 < m ≤ n) as Hm by (unfold m, room, sizeof_spiMsgData, CMD_LEN_4;
      destruct (Z.ltb_spec n (0x21e - 4)); lia).
    set (lim := FLASH_PAGE_SIZE - _).
    set (m' := if m <? lim then m else lim).
    assert (60 < m' ≤ n) as Hm' by (unfold m', lim, FLASH_PAGE_SIZE; case_match; lia).
    assert (∃ w, buf_write (fresh_buf sizeof_wbuf) 0 (SPI_FLASH_PROG :: addr_bytes (u32 (addr + off)))
                 = Some w ∧ length w = 64%nat) as (w&Ew&Hlw).
    { destruct (buf_write _ _ _) as [w|] eqn:E.
      - exists w. split; [done|]. by rewrite (buf_write_length _ _ _ _ E).
      - rewrite buf_write_Some in E; [done|lia|done]. }
    unfold poke. rewrite Ew. cbn [of_option]. rewrite bind_ret.
    rewrite buf_read_Some by lia. cbn [of_option]. rewrite bind_ret, drop_0.
    unfold buf_write at 1. rewrite decide_False; [done|].
    rewrite length_take, Hlw. lia. }
  unfold spi_flash_write_buf, spi_flash_write. rewrite bind_gets.
  destruct Hf as [Hf|Hf]; rewrite Hf; mstep Ha; rewrite bind_gets, Hf; exact Hloop.
Qed.

(** On the SST25VF016B a write of an odd number of bytes never returns: the
    count steps over zero and the loop runs on through the caller's memory. *)
Theorem spi_odd_word_write_never_returns (s : st) (k off : Z) (buf : list Z) (n : Z) :
  spi_flashFamily s = SPI_SST → sstAaiWordProgram s = true → Z.odd n = true →
  ∀ r, spi_flash_write_buf FB fuel k off buf n s ≠ Done r.
Proof.
  intros Hf Hw Hn [r s'] E. unfold spi_flash_write_buf in E. rewrite bind_gets, Hf in E.
  unfold spi_flash_write, spi_get_flash_memptr, spi_get_sec in E. case_decide; [|done].
  rewrite bind_assoc, bind_gets, bind_ret, bind_gets, Hf, bind_gets, Hw in E.
  apply bind_Done_inv in E as (x1&s1&_&E). apply bind_Done_inv in E as (w&s2&_&E).
  apply bind_Done_inv in E as (x3&s3&E&_).
  revert E. generalize (length buf) at 1. intros m. revert w s2. generalize 0%nat as i.
  revert n Hn. induction m as [|m IH]; intros n Hn i w s2; cbn [word_aai_loop].
  all: rewrite (proj2 (Z.eqb_neq n 0)) by (by intros ->); intros E.
  all: apply bind_Done_inv in E as (b0&?&_&E); apply bind_Done_inv in E as (b1&?&_&E).
  { done. }
  apply bind_Done_inv in E as ([w' l]&?&_&E). apply bind_Done_inv in E as (?&?&_&E).
  apply bind_Done_inv in E as (?&?&_&E). revert E. apply IH.
  rewrite Z.odd_sub, Hn. done.
Qed.

(** Enabling the SPI clock reads the 32-bit register of the block clocks into
    16 bits and writes that back: when the clock was off, the clocks of the
    Ethernet MACs and PHY and of USB (bits 17 to 21) are switched off. *)
Theorem spi_clock_enable_loses_clocks (s : st) :
  Z.land (blkEnables s) SPI_CLK_EN = 0 →
  ∃ s', spi_enable_clock s = Done (tt, s') ∧ Z.testbit (blkEnables s') 9 = true ∧
    ∀ i, 16 ≤ i → Z.testbit (blkEnables s') i = false.
Proof.
  intros H. unfold spi_enable_clock, modify. eexists. split; [reflexivity|].
  assert (Z.land (u16 (blkEnables s)) SPI_CLK_EN = 0) as E.
  { unfold u16. rewrite <- Z.land_ones by done. rewrite <- Z.land_assoc.
    change (Z.land (Z.ones 16) SPI_CLK_EN) with SPI_CLK_EN. done. }
  rewrite E. cbn [Z.eqb blkEnables spi_set_blk]. split.
  - rewrite Z.lor_spec. by rewrite orb_true_r.
  - intros i Hi. rewrite Z.lor_spec. unfold u16. rewrite <- Z.land_ones, Z.land_spec by done.
    rewrite Z.ones_spec_high by lia. rewrite andb_false_r. unfold SPI_CLK_EN.
    rewrite Z.shiftl_1_l, Z.pow2_bits_false by lia. done.
Qed.
End defects.

(** ** A concrete part *)

(** A device that is its own view, every operation with a delay of one. *)
Section chip.
Context (id : Z) (words : bool) (len : Z).

Definition sst_chip_wr (r : spi_reg) (x : Z) (v : spi_view) : spi_view :=
  match view_wr id words len 1 1 r x v with Some v' => v' | None => v end.

Definition sst_chip_rd (r : spi_reg) (v : spi_view) : Z * spi_view :=
  match r with
  | spiIntStatus =>
      match v_run v with
      | Some (S n) => (0, v_set_run (Some n) v)
      | _ => (1, v)
      end
  | spiRxDataFifo i => (v_rx v i, v)
  | _ => (0, v)
  end.

Definition chip_bus : SpiBus spi_view := {| spi_rd := sst_chip_rd; spi_wr := sst_chip_wr |}.

#[refine] Definition sst_chip : @SstPart spi_view chip_bus := {|
  sst_id := id; sst_words := words; sst_len := len; sst_tmax := 1; sst_view := λ v, v
|}.
Proof.
  - intros d r x. exists 1%nat, 1%nat. do 2 (split; [lia|]). intros v E. cbn.
    unfold sst_chip_wr. by rewrite E.
  - intros d r P v H. destruct r; try done; cbn in *; [by simplify_eq|].
    destruct (v_run d) as [[|k]|]; by simplify_eq.
Defined.
End chip.

Definition blank_part : sst :=
  {| t_cell := λ _, 255; t_wel := false; t_ewsr := false; t_bp := 7; t_aai := None; t_wip := 0 |}.

Definition blank_spi (blk : Z) (family : spi_family) (word : bool) : spi_state spi_view :=
  {| spi_part := {| v_ctl := 0; v_msg := λ _, 0; v_rx := λ _, 0; v_run := None; v_dev := blank_part |};
     spi_meminfo := {| si_addr := 0; si_nsect := 4;
                       si_sec := λ k, {| ss_size := 65536; ss_base := 65536 * k |} |};
     spi_totalSize := 0; spi_flashFamily := family; sstAaiWordProgram := word;
     spi_dev_id := 0xffff; spi_dev_name := []; blkEnables := blk |}.

(** A write-protected SST25VF016B. *)
Lemma spi_flash_init_correct_witness :
  ∃ s', @spi_flash_init _ (chip_bus ID_SST25VF016B true (512 * 4096)) 4
          (blank_spi 0 SPI_UNDEFINED false) = Done (FLASH_API_OK, s').
Proof.
  destruct (@spi_flash_init_correct _ _ (sst_chip ID_SST25VF016B true (512 * 4096)) 0xBE000000 4
              ltac:(simpl; lia) (blank_spi 0 SPI_UNDEFINED false)) as (s'&C&E&_).
  - unfold sst_known. cbn. left.
  - by exists 1520.
  - constructor; [reflexivity|reflexivity| |].
    + constructor; [|reflexivity..]. split; vm_compute; [discriminate|reflexivity].
    + intros a. split; [discriminate|reflexivity].
  - exists s'. exact E.
Defined.

Lemma spi_page_write_overflows_witness :
  @spi_flash_write_buf _ (chip_bus ID_SST25VF020 false (64 * 4096)) 0xBE000000 4 0 0
    (replicate 64 1) 64 (spi_set_part
      {| v_ctl := 0; v_msg := λ _, 0; v_rx := λ _, 0; v_run := None;
         v_dev := t_set_bp 0 blank_part |} (blank_spi 0 SPI_ATMEL false)) = Fault.
Proof.
  eapply spi_page_write_overflows.
  - by left.
  - reflexivity.
  - vm_compute. reflexivity.
  - done.
  - done.
  - done.
Defined.

Lemma spi_odd_word_write_never_returns_witness :
  ∀ r, @spi_flash_write_buf _ (chip_bus ID_SST25VF016B true (512 * 4096)) 0xBE000000 4 0 0
    [1; 2; 3; 4] 3 (blank_spi 0 SPI_SST true) ≠ Done r.
Proof. apply spi_odd_word_write_never_returns; reflexivity. Defined.

(** The Ethernet clocks on, the SPI clock off. *)
Lemma spi_clock_enable_loses_clocks_witness :
  ∃ s', spi_enable_clock (blank_spi 0x3E0000 SPI_UNDEFINED false) = Done (tt, s') ∧
    Z.testbit (blkEnables s') 21 = false.
Proof.
  destruct (spi_clock_enable_loses_clocks (blank_spi 0x3E0000 SPI_UNDEFINED false)) as (s'&E&_&H);
    [reflexivity|].
  exists s'. split; [exact E|]. apply H. lia.
Defined.
