(* ===== verification/RamFlash.v ===== *)
(** * A flash device in memory

    The simplest device that meets the flash contract: [n] sectors of [c] bytes
    held in a function.  It is the device of witnesses that need a geometry other
    than the one of [AmdChip]. *)

From stdpp Require Import base numbers list strings.
From Stdlib Require Import ZArith Lia.
From S2P Require Import Prelude FlashApi CfiTypes CfiFlash CfiGeometry.

Section ram.
Context (FB n c : Z).

Definition ram_erase (k : Z) : M (Z → Z) Z := λ m,
  Done (FLASH_API_OK, λ a, if decide (c * k ≤ a < c * k + c) then 255 else m a).

Definition ram_read (k off len : Z) : M (Z → Z) (Z * option (list Z)) := λ m,
  Done ((FLASH_API_OK, Some (bytes_at m (c * k + off) (Z.to_nat len))), m).

Definition ram_write (k off : Z) (buf : list Z) (len : Z) : M (Z → Z) Z := λ m,
  Done (len, stored m (c * k + off) (take (Z.to_nat len) buf)).

Definition ram_blk (addr : Z) : M (Z → Z) Z :=
  let r := s32 (addr - s32 FB) in
  mret (if r <? c * n then r / c else -1).

Definition ram_dev : flash_device_info_t (Z → Z) := {|
  flash_device_id := λ _, 0;
  flash_device_name := λ _, [];
  fn_flash_sector_erase_int := ram_erase;
  fn_flash_read_buf := ram_read;
  fn_flash_write_buf := ram_write;
  fn_flash_get_numsectors := mret n;
  fn_flash_get_sector_size := λ _, mret c;
  fn_flash_get_memptr := λ k, mret (u32 (FB + c * k));
  fn_flash_get_blk := ram_blk;
  fn_flash_get_total_size := mret (c * n);
  fn_flash_get_total_memory_mapped_size := mret (c * n)
|}.

Context (Hn : 0 < n ≤ 65536) (Hc : 0 < c) (He : Z.even c = true) (Hr : c * n < 2 ^ 31).

Lemma stored_bytes m p bs a : (∀ x, is_byte (m x)) → Forall is_byte bs → is_byte (stored m p bs a).
Proof.
  intros Hm Hb. unfold stored. case_decide; [|done]. rewrite nth_lookup.
  destruct (bs !! Z.to_nat (a - p)) eqn:E; simpl; [by eapply Forall_lookup_1|]. done.
Qed.

#[refine] Definition ram_contract : FlashContract FB ram_dev := {|
  fc_ok := λ m, ∀ a, is_byte (m a);
  fc_mem := λ m, m;
  fc_num := n;
  fc_size := λ _, c
|}.
Proof.
  - done.
  - done.
  - by rewrite sec_base_uniform by lia.
  - intros s a H _. apply H.
  - done.
  - done.
  - intros s k H Hk. by rewrite sec_base_uniform by lia.
  - intros s H. by rewrite sec_base_uniform by lia.
  - intros s k a H Hk Ha. rewrite sec_base_uniform in Ha by lia. simpl. unfold ram_blk.
    rewrite relative_addr_eq by nia. rewrite (proj2 (Z.ltb_lt _ _)) by nia.
    unfold mret, M_ret. do 2 f_equal. symmetry. apply (Z.div_unique _ _ _ (a - c * k)); lia.
  - intros s a H Ha. rewrite sec_base_uniform in Ha by lia. simpl. unfold ram_blk.
    rewrite relative_addr_eq by nia. by rewrite (proj2 (Z.ltb_ge _ _)) by lia.
  - intros s k off len H Hk Ho Hl Hfit. exists s. split; [|done]. simpl. unfold ram_read.
    rewrite sec_base_uniform by lia. done.
  - intros s k H Hk. eexists. split; [reflexivity|]. rewrite sec_base_uniform by lia.
    split; [|done]. intros a. simpl. by case_decide.
  - intros s k off buf len H Hk Ho Hl Heo Hel Hfit Hlen Hb _. eexists. split; [reflexivity|].
    split; [intros a; apply stored_bytes; [done|by apply Forall_take]|].
    intros a. rewrite sec_base_uniform by lia. unfold stored.
    assert (El : Z.of_nat (length (take (Z.to_nat len) buf)) = len) by (rewrite length_take; lia).
    rewrite El. case_decide; [|done]. rewrite !nth_lookup, lookup_take_lt by lia.
    do 3 f_equal. lia.
Defined.
End ram.
