(* ===== verification/KerFlash.v ===== *)
(** * Flash storage areas (bcm63xx_flash.c)

    The kernel's view of the flash: seven areas (NVRAM, PSI, PSI backup, fix,
    avail, variable, scratch pad) placed on the flash by [kerSysFlashInit], and
    the functions that read, write and clear them through copies of whole
    sectors.  The scratch-pad functions are in [ScratchPad]. *)

From stdpp Require Import base numbers list strings.
From Stdlib Require Import ZArith Lia.
From S2P Require Import Prelude Crc32 BoardTables BoardParms FlashApi.

Definition ONEK : Z := 1024.
Definition NVRAM_PSI_DEFAULT : Z := 64.
Definition FLASH_LENGTH_BOOT_ROM : Z := 128 * ONEK.
Definition FLASH_RESERVED_AT_END : Z := 7 * 128 * ONEK.
Definition NVRAM_LENGTH : Z := ONEK.
Definition NVRAM_DATA_OFFSET : Z := 0x0580.
Definition SP_MAX_LEN : Z := 8 * 1024.
Definition VA_MAX_LEN : Z := 8 * 1024.
Definition FIX_MAX_LEN : Z := 8 * 1024.
Definition AVAIL_MAX_LEN : Z := 16 * 1024.

(** [NVRAM_DATA] as its bytes: the size of the structure and the offsets of the
    board id and the checksum in it. *)
Definition sizeof_NVRAM_DATA : Z := 332.
Definition offsetof_szBoardId : Z := 260.
Definition offsetof_ulCheckSum : Z := 328.

(** The four fields [FLASH_ADDR_INFO] has for each area. *)
Record area : Type := {
  start_blk : Z;
  number_blk : Z;
  area_length : Z;
  blk_offset : Z
}.

Definition no_area : area :=
  {| start_blk := 0; number_blk := 0; area_length := 0; blk_offset := 0 |}.

Record FLASH_ADDR_INFO : Type := {
  flash_persistent : area;
  flash_psi_backup : area;
  flash_fix : area;
  flash_avail : area;
  flash_variable : area;
  flash_scratch_pad : area;
  flash_nvram : area
}.

(** The global state the functions use: the flash driver's state and
    [g_flash_info], [flashInitialized], [fInfo], [g_pCurrentBp]; the number of
    calls of [kmalloc] so far and the number of kernel buffers allocated and
    not freed; the LED changes asked for, latest first. *)
Record kstate (S : Type) : Type := {
  k_flash : S;
  g_flash_info : option (flash_device_info_t S);
  flashInitialized : Z;
  fInfo : FLASH_ADDR_INFO;
  g_pCurrentBp : option BOARD_PARAMETERS;
  k_calls : nat;
  k_live : Z;
  k_leds : list (Z * Z)
}.

Arguments k_flash {S}.
Arguments g_flash_info {S}.
Arguments flashInitialized {S}.
Arguments fInfo {S}.
Arguments g_pCurrentBp {S}.
Arguments k_calls {S}.
Arguments k_live {S}.
Arguments k_leds {S}.

(** ** Kernel services and state updates *)

Section kernel.
Context {S : Type}.
Abbreviation ks := (kstate S).

Definition set_flash (f : S) (k : ks) : ks :=
  {| k_flash := f; g_flash_info := g_flash_info k; flashInitialized := flashInitialized k;
     fInfo := fInfo k; g_pCurrentBp := g_pCurrentBp k; k_calls := k_calls k;
     k_live := k_live k; k_leds := k_leds k |}.

Definition set_gflash (g : option (flash_device_info_t S)) (k : ks) : ks :=
  {| k_flash := k_flash k; g_flash_info := g; flashInitialized := flashInitialized k;
     fInfo := fInfo k; g_pCurrentBp := g_pCurrentBp k; k_calls := k_calls k;
     k_live := k_live k; k_leds := k_leds k |}.

Definition set_init (z : Z) (k : ks) : ks :=
  {| k_flash := k_flash k; g_flash_info := g_flash_info k; flashInitialized := z;
     fInfo := fInfo k; g_pCurrentBp := g_pCurrentBp k; k_calls := k_calls k;
     k_live := k_live k; k_leds := k_leds k |}.

Definition set_fInfo (i : FLASH_ADDR_INFO) (k : ks) : ks :=
  {| k_flash := k_flash k; g_flash_info := g_flash_info k;
     flashInitialized := flashInitialized k;
     fInfo := i; g_pCurrentBp := g_pCurrentBp k; k_calls := k_calls k;
     k_live := k_live k; k_leds := k_leds k |}.

Definition set_bp (b : option BOARD_PARAMETERS) (k : ks) : ks :=
  {| k_flash := k_flash k; g_flash_info := g_flash_info k;
     flashInitialized := flashInitialized k;
     fInfo := fInfo k; g_pCurrentBp := b; k_calls := k_calls k;
     k_live := k_live k; k_leds := k_leds k |}.

Definition set_alloc (calls : nat) (live : Z) (k : ks) : ks :=
  {| k_flash := k_flash k; g_flash_info := g_flash_info k;
     flashInitialized := flashInitialized k;
     fInfo := fInfo k; g_pCurrentBp := g_pCurrentBp k; k_calls := calls;
     k_live := live; k_leds := k_leds k |}.

Definition kerSysLedCtrl (led state : Z) : M ks unit := modify (λ k,
  {| k_flash := k_flash k; g_flash_info := g_flash_info k;
     flashInitialized := flashInitialized k;
     fInfo := fInfo k; g_pCurrentBp := g_pCurrentBp k; k_calls := k_calls k;
     k_live := k_live k; k_leds := (led, state) :: k_leds k |}).

(** A call of the flash API. *)
Definition flash {A} (f : option (flash_device_info_t S) → M S A) : M ks A := λ k,
  match f (g_flash_info k) (k_flash k) with
  | Done (a, s') => Done (a, set_flash s' k)
  | Fault => Fault
  | Blocked => Blocked
  | NoFuel => NoFuel
  end.

(** [kmalloc n] tells whether the [n]-th call of [kmalloc] succeeds. *)
Context (kmalloc : nat → bool).

(** The loop of [retriedKmalloc]: [n] is 1001 minus [tryCount].  The result is
    [tryCount] after the loop and whether the last call succeeded. *)
Fixpoint retry_loop (n : nat) (tryCount : Z) : M ks (Z * bool) := λ k,
  let calls := Datatypes.S (k_calls k) in
  if kmalloc (k_calls k) then
    Done ((tryCount, true), set_alloc calls (k_live k + 1) k)
  else
    match n with
    | O => Done ((tryCount + 1, false), set_alloc calls (k_live k) k)
    | Datatypes.S n' => retry_loop n' (tryCount + 1) (set_alloc calls (k_live k) k)
    end.

(** [retriedKmalloc]: the zeroed buffer, or [None] for NULL. *)
Definition retriedKmalloc (size : Z) : M ks (option (list Z)) :=
  '(tryCount, _) ← retry_loop 1000 0;
  if 1000 <=? tryCount then mret None
  else mret (Some (replicate (Z.to_nat size) 0)).

Definition retriedKfree : M ks unit := modify (λ k, set_alloc (k_calls k) (k_live k - 1) k).

(** ** Sectors *)

(** [for (i = start; i < start + n; i++) used += flash_get_sector_size(i);] *)
Fixpoint blk_sizes (n : nat) (i used : Z) : M ks Z :=
  match n with
  | O => mret used
  | Datatypes.S n' =>
      size ← flash (λ g, flash_get_sector_size g (u16 i));
      blk_sizes n' (i + 1) (s32 (used + size))
  end.

(** The copy loop of [getSharedBlks]: sectors [i], [i+1], ... to position [pos]
    of the buffer. *)
Fixpoint read_blks (n : nat) (i pos : Z) (pBuf : list Z) : M ks (list Z) :=
  match n with
  | O => mret pBuf
  | Datatypes.S n' =>
      sect_size ← flash (λ g, flash_get_sector_size g (u16 i));
      '(_, bytes) ← flash (λ g, flash_read_buf g (u16 i) 0 sect_size);
      pBuf' ← match bytes with
              | Some bs => of_option (buf_write pBuf pos bs)
              | None => mret pBuf
              end;
      read_blks n' (i + 1) (pos + sect_size) pBuf'
  end.

Definition getSharedBlks (start_blk end_blk : Z) : M ks (option (list Z)) :=
  let n := Z.to_nat (end_blk - start_blk) in
  usedBlkSize ← blk_sizes n start_blk 0;
  pTempBuf ← retriedKmalloc usedBlkSize;
  match pTempBuf with
  | None => mret None
  | Some buf => buf' ← read_blks n start_blk 0 buf; mret (Some buf')
  end.

(** The loop of [setSharedBlks], from position [pos] of the buffer. *)
Fixpoint write_blks (n : nat) (i pos : Z) (pTempBuf : list Z) : M ks Z :=
  match n with
  | O => mret 0
  | Datatypes.S n' =>
      sect_size ← flash (λ g, flash_get_sector_size g (u16 i));
      flash (λ g, flash_sector_erase_int g (u16 i));;
      r ← flash (λ g, flash_write_buf g (u16 i) 0 (drop (Z.to_nat pos) pTempBuf) sect_size);
      if negb (r =? sect_size) then mret (-1)
      else write_blks n' (i + 1) (pos + sect_size) pTempBuf
  end.

Definition setSharedBlks (start_blk end_blk : Z) (pTempBuf : list Z) : M ks Z :=
  write_blks (Z.to_nat (end_blk - start_blk)) start_blk 0 pTempBuf.

(** ** Initialisation *)

(** [FLASH_BASE] is the address of the flash; [mapped s a] is the byte at
    address [a] of the memory-mapped flash; [flash_init_] is [flash_init] with
    its drivers; [gpio] reads a GPIO pin; [top_device] is
    [g_FlashTopDevice]. *)
Context (FLASH_BASE : Z) (mapped : S → Z → Z).
Context (flash_init_ : option (flash_device_info_t S) →
                       M S (Z * option (flash_device_info_t S) * flash_report)).
Context (gpio : Z → Z) (top_device : S → Z).

Definition GetBoardVersion : Z := u8 (gpio BP_GPIO_7_AH).

Definition GetHarewareType : Z := GetBoardVersion.

Definition get_nvram_start_addr : M ks Z :=
  i ← gets fInfo;
  p ← flash (λ g, flash_get_memptr g (u16 (start_blk (flash_nvram i))));
  mret (u32 (p + blk_offset (flash_nvram i))).

Definition get_scratch_pad_start_addr : M ks Z :=
  i ← gets fInfo;
  p ← flash (λ g, flash_get_memptr g (u16 (start_blk (flash_scratch_pad i))));
  mret (u32 (p + blk_offset (flash_scratch_pad i))).

(** One area of [fInfo]: [length] bytes that end where block [end_blk] starts;
    [startAddr] is the offset of the area.  Returns the area and the size of
    its blocks. *)
Definition place_area (startAddr length end_blk : Z) : M ks (area * Z) :=
  blk ← flash (λ g, flash_get_blk g (s32 (startAddr + FLASH_BASE)));
  let number := end_blk - blk in
  used ← blk_sizes (Z.to_nat number) blk 0;
  mret ({| start_blk := blk; number_blk := number; area_length := length;
           blk_offset := u32 (used - length) |}, used).

Definition nvram_area : area :=
  {| start_blk := 0; number_blk := 1; area_length := NVRAM_LENGTH;
     blk_offset := NVRAM_DATA_OFFSET |}.

Definition set_nvram_area (i : FLASH_ADDR_INFO) : FLASH_ADDR_INFO :=
  {| flash_persistent := flash_persistent i; flash_psi_backup := flash_psi_backup i;
     flash_fix := flash_fix i; flash_avail := flash_avail i; flash_variable := flash_variable i;
     flash_scratch_pad := flash_scratch_pad i; flash_nvram := nvram_area |}.

(** From the NVRAM data to the current board and the length of the PSI in K: the
    board's if the NVRAM is intact and the board id known, else the default. *)
Definition psi_of_nvram (nvramData : list Z) (bp : option BOARD_PARAMETERS)
  : Z * option BOARD_PARAMETERS :=
  let savedCrc := be32 (drop (Z.to_nat offsetof_ulCheckSum) nvramData) in
  let nvramData0 := take (Z.to_nat offsetof_ulCheckSum) nvramData ++ [0; 0; 0; 0] in
  let crc := getCrc32 nvramData0 CRC32_INIT_VALUE in
  let bp' := snd (BpSetBoardId (c_string (drop (Z.to_nat offsetof_szBoardId) nvramData0)) bp) in
  if negb (savedCrc =? crc) then (NVRAM_PSI_DEFAULT, bp')
  else
    let '(sts, ulPsiSize) := BpGetPsiSize bp' in
    (if sts =? BP_SUCCESS then s32 ulPsiSize else NVRAM_PSI_DEFAULT, bp').

(** The bytes of [NVRAM_DATA] at address [addr] of the mapped flash. *)
Definition nvram_bytes (s : S) (addr : Z) : list Z :=
  map (λ j, mapped s (u32 (addr + Z.of_nat j))) (seq 0 (Z.to_nat sizeof_NVRAM_DATA)).

Definition psi_length : M ks Z :=
  addr ← get_nvram_start_addr;
  s ← gets k_flash;
  bp ← gets g_pCurrentBp;
  let '(psi, bp') := psi_of_nvram (nvram_bytes s addr) bp in
  modify (set_bp bp');;
  mret psi.

Definition kerSysFlashInit : M ks unit :=
  initialized ← gets flashInitialized;
  if negb (initialized =? 0) then mret tt
  else
    modify (set_init 1);;
    g0 ← gets g_flash_info;
    '(_, g, _) ← flash (λ _, flash_init_ g0);
    modify (set_gflash g);;
    totalBlks ← flash flash_get_numsectors;
    totalSize ← flash flash_get_total_size;
    modify (λ k, set_fInfo (set_nvram_area (fInfo k)) k);;
    psi ← psi_length;
    let len := s32 (psi * ONEK) in
    '(a_psi, used1) ← place_area (totalSize - len) len totalBlks;
    '(a_bak, used2) ← place_area (totalSize - used1 - len) len (start_blk a_psi);
    '(a_fix, used3) ← place_area (totalSize - (used1 + used2) - FIX_MAX_LEN) FIX_MAX_LEN
                        (start_blk a_bak);
    '(a_avl, used4) ← place_area (totalSize - (used1 + used2 + used3) - AVAIL_MAX_LEN)
                        AVAIL_MAX_LEN (start_blk a_fix);
    '(a_var, used5) ← place_area (totalSize - (used1 + used2 + used3 + used4) - VA_MAX_LEN)
                        VA_MAX_LEN (start_blk a_avl);
    '(a_sp, _) ← place_area (totalSize - (used1 + used2 + used3 + used4 + used5) - SP_MAX_LEN)
                   SP_MAX_LEN (start_blk a_var);
    modify (set_fInfo
      {| flash_persistent := a_psi; flash_psi_backup := a_bak; flash_fix := a_fix;
         flash_avail := a_avl; flash_variable := a_var; flash_scratch_pad := a_sp;
         flash_nvram := nvram_area |}).

(** [kerSysFlashAddrInfoGet] copies the NVRAM and PSI fields. *)
Definition kerSysFlashAddrInfoGet (pflash_addr_info : FLASH_ADDR_INFO) : M ks FLASH_ADDR_INFO :=
  i ← gets fInfo;
  mret {| flash_persistent := flash_persistent i;
          flash_psi_backup := flash_psi_backup pflash_addr_info;
          flash_fix := flash_fix pflash_addr_info;
          flash_avail := flash_avail pflash_addr_info;
          flash_variable := flash_variable pflash_addr_info;
          flash_scratch_pad := flash_scratch_pad pflash_addr_info;
          flash_nvram := flash_nvram i |}.

(** ** Reading, writing and clearing an area *)

Definition shared (a : area) : M ks (option (list Z)) :=
  getSharedBlks (start_blk a) (start_blk a + number_blk a).

Definition unshared (a : area) (pBuf : list Z) : M ks Z :=
  setSharedBlks (start_blk a) (start_blk a + number_blk a) pBuf.

(** The common body of the Get functions; [limit] is the length the request is
    checked against.  Returns the status and the bytes copied to the caller. *)
Definition area_get (a : area) (limit strLen offset : Z) : M ks (Z * option (list Z)) :=
  if strLen >? limit then mret (-1, None)
  else
    pBuf ← shared a;
    match pBuf with
    | None => mret (-1, None)
    | Some buf =>
        bs ← of_option (buf_read buf (blk_offset a + offset) strLen);
        retriedKfree;;
        mret (0, Some bs)
    end.

(** The common body of the Set functions. *)
Definition area_set (a : area) (limit : Z) (string : list Z) (strLen offset : Z) : M ks Z :=
  if strLen >? limit then mret (-1)
  else
    pBuf ← shared a;
    match pBuf with
    | None => mret (-1)
    | Some buf =>
        src ← of_option (buf_read string 0 strLen);
        buf' ← of_option (buf_write buf (blk_offset a + offset) src);
        r ← unshared a buf';
        retriedKfree;;
        mret (if negb (r =? 0) then -1 else 0)
    end.

(** The common body of the Clear functions. *)
Definition area_clear (a : area) : M ks Z :=
  if area_length a =? 0 then mret (-1)
  else
    pShareBuf ← shared a;
    match pShareBuf with
    | None => mret (-1)
    | Some buf =>
        buf' ← of_option (buf_fill buf (blk_offset a) 0 (area_length a));
        r ← unshared a buf';
        retriedKfree;;
        mret r
    end.

(** [kerSysPersistentSet] and [kerSysPsiBackupSet] on a part with eight 8K
    sectors at its end. *)
Definition area_set_8K (a : area) (string : list Z) (strLen offset : Z) : M ks Z :=
  let iStartBlock := s32 (start_blk a + u32 (offset + blk_offset a) mod (8 * ONEK)) in
  let iEndBlock := s32 (iStartBlock + Z.quot (strLen + 8 * ONEK - 1) (8 * ONEK)) in
  pBuf ← getSharedBlks iStartBlock iEndBlock;
  match pBuf with
  | None => mret (-1)
  | Some buf =>
      src ← of_option (buf_read string 0 strLen);
      buf' ← of_option (buf_write buf (blk_offset a + offset) src);
      r ← setSharedBlks iStartBlock iEndBlock buf';
      retriedKfree;;
      mret (if r =? 0 then -1 else 0)
  end.

(** [JudgeFlashIsTopDevice8K]. *)
Definition JudgeFlashIsTopDevice8K : M ks Z := gets (λ k, top_device (k_flash k)).

Definition area_set_top (a : area) (string : list Z) (strLen offset : Z) : M ks Z :=
  if strLen >? area_length a then mret (-1)
  else
    top ← JudgeFlashIsTopDevice8K;
    if top =? 1 then area_set_8K a string strLen offset
    else area_set a (area_length a) string strLen offset.

Definition kerSysNvRamGet (strLen offset : Z) : M ks (Z * option (list Z)) :=
  initialized ← gets flashInitialized;
  (if initialized =? 0 then kerSysFlashInit else mret tt);;
  a ← gets (λ k, flash_nvram (fInfo k));
  area_get a NVRAM_LENGTH strLen offset.

Definition kerSysNvRamSet (string : list Z) (strLen offset : Z) : M ks Z :=
  a ← gets (λ k, flash_nvram (fInfo k)); area_set a NVRAM_LENGTH string strLen offset.

Definition kerSysEraseNvRam : M ks Z :=
  tempStorage ← retriedKmalloc NVRAM_LENGTH;
  match tempStorage with
  | None => mret 0
  | Some _ =>
      r ← kerSysNvRamSet (replicate (Z.to_nat NVRAM_LENGTH) 0xff) NVRAM_LENGTH 0;
      retriedKfree;;
      mret (if negb (r =? 0) then 0 else 1)
  end.

Definition kerSysPersistentGet (strLen offset : Z) : M ks (Z * option (list Z)) :=
  a ← gets (λ k, flash_persistent (fInfo k)); area_get a (area_length a) strLen offset.

Definition kerSysPersistentSet (string : list Z) (strLen offset : Z) : M ks Z :=
  a ← gets (λ k, flash_persistent (fInfo k)); area_set_top a string strLen offset.

Definition kerSysPersistentClear : M ks Z :=
  a ← gets (λ k, flash_persistent (fInfo k)); area_clear a.

Definition kerSysPsiBackupGet (strLen offset : Z) : M ks (Z * option (list Z)) :=
  a ← gets (λ k, flash_psi_backup (fInfo k)); area_get a (area_length a) strLen offset.

Definition kerSysPsiBackupSet (string : list Z) (strLen offset : Z) : M ks Z :=
  a ← gets (λ k, flash_psi_backup (fInfo k)); area_set_top a string strLen offset.

Definition kerSysPsiBackupClear : M ks Z :=
  a ← gets (λ k, flash_psi_backup (fInfo k)); area_clear a.

Definition kerSysVariableGet (strLen offset : Z) : M ks (Z * option (list Z)) :=
  a ← gets (λ k, flash_variable (fInfo k)); area_get a (area_length a) strLen offset.

Definition kerSysVariableSet (string : list Z) (strLen offset : Z) : M ks Z :=
  a ← gets (λ k, flash_variable (fInfo k)); area_set a (area_length a) string strLen offset.

Definition kerSysFixGet (strLen offset : Z) : M ks (Z * option (list Z)) :=
  a ← gets (λ k, flash_fix (fInfo k)); area_get a (area_length a) strLen offset.

Definition kerSysFixSet (string : list Z) (strLen offset : Z) : M ks Z :=
  a ← gets (λ k, flash_fix (fInfo k)); area_set a (area_length a) string strLen offset.

Definition kerSysFixClear : M ks Z :=
  a ← gets (λ k, flash_fix (fInfo k)); area_clear a.

Definition kerSysAvailGet (strLen offset : Z) : M ks (Z * option (list Z)) :=
  a ← gets (λ k, flash_avail (fInfo k)); area_get a (area_length a) strLen offset.

Definition kerSysAvailSet (string : list Z) (strLen offset : Z) : M ks Z :=
  a ← gets (λ k, flash_avail (fInfo k)); area_set a (area_length a) string strLen offset.

Definition kerSysAvailClear : M ks Z :=
  a ← gets (λ k, flash_avail (fInfo k)); area_clear a.

(** ** Sizes and raw reads *)

Definition kerSysFlashSizeGet : M ks Z := flash flash_get_total_size.

Definition kerSysMemoryMappedFlashSizeGet : M ks Z := flash flash_get_total_memory_mapped_size.

Definition kerSysReadFromFlash (fromaddr len : Z) : M ks (Z * option (list Z)) :=
  sect ← flash (λ g, flash_get_blk g (s32 fromaddr));
  start ← flash (λ g, flash_get_memptr g (u16 sect));
  '(_, bytes) ← flash (λ g, flash_read_buf g (u16 sect) (s32 (s32 fromaddr - s32 start)) (s32 len));
  mret (len, bytes).
End kernel.
