(* ===== verification/CText.v ===== *)
(** * Numbers in text

    Image tags carry numbers in ASCII.  [simple_strtoul] with base 10 is the
    kernel's; [board_atoi] and [board_xtoi] are [board.c]'s own; [sprintf_lu] and
    [sprintf_d] are what [sprintf] writes for "%lu" and "%d" (without the NUL).
    A conversion reads bytes up to the first one that is not a digit; [None] is a
    read beyond the bytes given. *)

From stdpp Require Import base numbers list.
From Stdlib Require Import ZArith Lia Bool.
From S2P Require Import Prelude.

Definition isdigit (c : Z) : bool := (48 <=? c) && (c <=? 57).

Fixpoint strtoul_from (cp : list Z) (result : Z) : option Z :=
  match cp with
  | [] => None
  | c :: cp' => if isdigit c then strtoul_from cp' (u32 (result * 10 + (c - 48))) else Some result
  end.

Definition simple_strtoul (cp : list Z) : option Z := strtoul_from cp 0.

Fixpoint xtoi_from (dest : list Z) (x : Z) : option Z :=
  match dest with
  | [] => None
  | c :: dest' =>
      if c =? 0 then Some x
      else if (48 <=? c) && (c <=? 57) then xtoi_from dest' (u32 (x * 16 + (c - 48)))
      else if (65 <=? c) && (c <=? 70) then xtoi_from dest' (u32 (x * 16 + (10 + c - 65)))
      else if (97 <=? c) && (c <=? 102) then xtoi_from dest' (u32 (x * 16 + (10 + c - 97)))
      else Some x
  end.

Definition board_xtoi (dest : list Z) : option Z :=
  match dest with
  | 48 :: 120 :: dest' => xtoi_from dest' 0
  | 48 :: [] => None
  | _ => xtoi_from dest 0
  end.

Fixpoint atoi_from (dest : list Z) (x : Z) : option Z :=
  match dest with
  | [] => None
  | c :: dest' =>
      if c =? 0 then Some x
      else if (48 <=? c) && (c <=? 57) then atoi_from dest' (s32 (s32 (x * 10) + (c - 48)))
      else Some x
  end.

Definition board_atoi (dest : list Z) : option Z :=
  match dest with
  | 48 :: 120 :: dest' => s32 <$> board_xtoi dest'
  | 48 :: [] => None
  | _ => atoi_from dest 0
  end.

(** The digits of [v], at most [n] of them. *)
Fixpoint dec_digits (n : nat) (v : Z) : list Z :=
  match n with
  | O => []
  | S n' => if v <? 10 then [48 + v] else dec_digits n' (v / 10) ++ [48 + v mod 10]
  end.

(** A 32-bit number has at most ten digits. *)
Definition sprintf_lu (v : Z) : list Z := dec_digits 10 v.

Definition sprintf_d (v : Z) : list Z :=
  if v <? 0 then 45 :: dec_digits 10 (- v) else dec_digits 10 v.

(** ** Printing and reading *)

Lemma dec_digits_step n v : dec_digits (S n) v = if v <? 10 then [48 + v] else dec_digits n (v / 10) ++ [48 + v mod 10].
Proof. done. Qed.

Lemma dec_digits_Forall n v : 0 ≤ v → Forall (λ c, 48 ≤ c ≤ 57) (dec_digits n v).
Proof.
  revert v; induction n as [|n IH]; intros v Hv; [constructor|]. rewrite dec_digits_step.
  destruct (Z.ltb_spec v 10); [by apply Forall_singleton; lia|].
  apply Forall_app. split; [apply IH, Z.div_pos; lia|].
  apply Forall_singleton. pose proof (Z.mod_pos_bound v 10). lia.
Qed.

Lemma dec_digits_length n v : (0 < n)%nat → (1 ≤ length (dec_digits n v) ≤ n)%nat.
Proof.
  revert v; induction n as [|n IH]; intros v Hn; [lia|]. rewrite dec_digits_step.
  destruct (v <? 10); [simpl; lia|]. rewrite length_app. simpl.
  destruct n as [|n]; [simpl; lia|]. pose proof (IH (v / 10)). lia.
Qed.

(** A number needs as many digits as its decimal logarithm says. *)
Lemma dec_digits_lower n m v : (0 < n)%nat → 10 ^ Z.of_nat m ≤ v → (m ≤ n)%nat →
  v < 10 ^ Z.of_nat n → (m < length (dec_digits n v))%nat.
Proof.
  revert m v; induction n as [|n IH]; intros m v Hn Hv Hm Hlt; [lia|].
  destruct m as [|m]; [pose proof (dec_digits_length (S n) v); lia|].
  rewrite Nat2Z.inj_succ, Z.pow_succ_r in Hv, Hlt by lia.
  rewrite dec_digits_step. pose proof (Z.pow_pos_nonneg 10 (Z.of_nat m)).
  destruct (Z.ltb_spec v 10); [lia|].
  rewrite length_app. simpl. destruct n as [|n]; [simpl in *; lia|].
  assert (m < length (dec_digits (S n) (v / 10)))%nat; [|lia]. apply IH; [lia| |lia|].
  - apply Z.div_le_lower_bound; lia.
  - apply Z.div_lt_upper_bound; lia.
Qed.

Lemma isdigit_digit c : 48 ≤ c ≤ 57 → isdigit c = true.
Proof. intros. apply andb_true_iff. rewrite !Z.leb_le. lia. Qed.

Lemma strtoul_digits n v t : 0 ≤ v < 10 ^ Z.of_nat n → (0 < n)%nat →
  strtoul_from (dec_digits n v ++ t) 0 = strtoul_from t (u32 v).
Proof.
  revert v t; induction n as [|n IH]; intros v t Hv Hn; [lia|].
  rewrite Nat2Z.inj_succ, Z.pow_succ_r in Hv by lia. rewrite dec_digits_step.
  destruct (Z.ltb_spec v 10).
  { simpl. rewrite isdigit_digit by lia. f_equal. f_equal. lia. }
  pose proof (Z.mod_pos_bound v 10 ltac:(lia)).
  destruct n as [|n]; [simpl in Hv; lia|].
  rewrite <- app_assoc, IH; [|split; [apply Z.div_pos; lia|apply Z.div_lt_upper_bound; lia]|lia].
  cbn [app strtoul_from]. rewrite isdigit_digit by lia. f_equal. unfold u32.
  change (2 ^ 32) with 4294967296. Z.to_euclidean_division_equations; lia.
Qed.

(** Reading back what [sprintf] wrote. *)
Lemma strtoul_sprintf_lu v c t : 0 ≤ v < 2 ^ 32 → isdigit c = false →
  simple_strtoul (sprintf_lu v ++ c :: t) = Some v.
Proof.
  intros Hv Hc. unfold simple_strtoul, sprintf_lu.
  rewrite strtoul_digits by (change (10 ^ Z.of_nat 10) with 10000000000; lia).
  simpl. by rewrite Hc, u32_small.
Qed.

Lemma strtoul_sprintf_d v c t : 0 ≤ v < 2 ^ 31 → isdigit c = false →
  simple_strtoul (sprintf_d v ++ c :: t) = Some v.
Proof.
  intros Hv Hc. unfold sprintf_d. destruct (Z.ltb_spec v 0); [lia|].
  apply strtoul_sprintf_lu; [lia|done].
Qed.

Lemma atoi_digits n v t : 0 ≤ v < 10 ^ Z.of_nat n → (0 < n)%nat →
  atoi_from (dec_digits n v ++ t) 0 = atoi_from t (s32 v).
Proof.
  revert v t; induction n as [|n IH]; intros v t Hv Hn; [lia|].
  rewrite Nat2Z.inj_succ, Z.pow_succ_r in Hv by lia. rewrite dec_digits_step.
  assert (Hd : ∀ c x, 48 ≤ c ≤ 57 → atoi_from (c :: t) x = atoi_from t (s32 (s32 (x * 10) + (c - 48)))).
  { intros c x Hc. simpl. destruct (Z.eqb_spec c 0); [lia|].
    change ((48 <=? c) && (c <=? 57)) with (isdigit c). by rewrite isdigit_digit. }
  destruct (Z.ltb_spec v 10).
  { cbn [app]. rewrite Hd by lia. f_equal. change (s32 (0 * 10)) with 0. f_equal. lia. }
  pose proof (Z.mod_pos_bound v 10 ltac:(lia)).
  destruct n as [|n]; [simpl in Hv; lia|].
  rewrite <- app_assoc, IH; [|split; [apply Z.div_pos; lia|apply Z.div_lt_upper_bound; lia]|lia].
  cbn [app]. rewrite Hd by lia. f_equal. unfold s32.
  change (2 ^ 32) with 4294967296. change (2 ^ 31) with 2147483648.
  Z.to_euclidean_division_equations; lia.
Qed.

Lemma atoi_sprintf_lu v t : 0 ≤ v < 2 ^ 32 →
  board_atoi (sprintf_lu v ++ 0 :: t) = Some (s32 v).
Proof.
  intros Hv. unfold sprintf_lu.
  assert (E : atoi_from (dec_digits 10 v ++ 0 :: t) 0 = Some (s32 v)).
  { rewrite atoi_digits by (change (10 ^ Z.of_nat 10) with 10000000000; lia). done. }
  pose proof (dec_digits_Forall 10 v ltac:(lia)) as HF.
  pose proof (dec_digits_length 10 v ltac:(lia)) as HL.
  destruct (dec_digits 10 v) as [|c l]; [simpl in HL; lia|]. cbn [app] in *. rewrite <- E.
  assert (Hx : ∃ y t', l ++ 0 :: t = y :: t' ∧ y ≠ 120).
  { destruct l as [|y l]; [by exists 0, t|]. exists y, (l ++ 0 :: t). split; [done|].
    apply Forall_cons in HF as [_ HF]. apply Forall_cons in HF as [HF _]. lia. }
  destruct Hx as (y & t' & -> & Hy). unfold board_atoi.
  repeat (case_match; try done).
Qed.
