(* ===== verification/MacAddr.v ===== *)
(** * The MAC addresses of the board

    [board.c]: the NVRAM information kept in memory ([NVRAM_INFO]), its set-up
    ([InitNvramInfo]) and the table from which the network drivers get their MAC
    addresses ([kerSysGetMacAddress], [kerSysReleaseMacAddress]).  The state is
    [g_pNvramInfo]: [None] when the pointer is NULL.  The structure is one
    allocation of [ni_size] bytes; every access to a field of a table entry is
    checked against it.  The proofs are in [MacProofs]. *)

From stdpp Require Import base numbers list.
From Stdlib Require Import ZArith Lia.
From S2P Require Import Prelude.
From S2P Require Import BoardTables.
From S2P Require Import BoardParms.
From S2P Require Import KerFlash.

Definition NVRAM_MAC_ADDRESS_LEN : Z := 6.
Definition NVRAM_MAC_COUNT_MAX : Z := 32.
Definition RESERVE_MAC_MASK : Z := 0xFF000000.
Definition NO_RESERVE_MAC : Z := 0xFFFFFFFF.
Definition MAC_ADDRESS_ANY : Z := 2 ^ 32 - 1.
Definition EADDRNOTAVAIL : Z := 126.
Definition EINVAL : Z := 22.

(** [MAC_ADDR_INFO]; the three reserved bytes are never read. *)
Record MAC_ADDR_INFO : Type := { ulId : Z; chInUse : Z }.

Definition sizeof_MAC_ADDR_INFO : Z := 8.
Definition sizeof_NVRAM_INFO : Z := 60.
Definition offsetof_MacAddrs : Z := 52.

(** [NVRAM_INFO].  [MacAddrs] has one element per address of the board, as the
    code indexes it, whether or not the allocation has room for them. *)
Record NVRAM_INFO : Type := {
  ni_size : Z;
  ulSdramSize : Z;
  ulPsiSize : Z;
  ulNumMacAddrs : Z;
  ucaBaseMacAddr : list Z;
  MacAddrs : list MAC_ADDR_INFO;
}.

Definition set_MacAddrs (l : list MAC_ADDR_INFO) (n : NVRAM_INFO) : NVRAM_INFO :=
  {| ni_size := ni_size n; ulSdramSize := ulSdramSize n; ulPsiSize := ulPsiSize n;
     ulNumMacAddrs := ulNumMacAddrs n; ucaBaseMacAddr := ucaBaseMacAddr n; MacAddrs := l |}.

(** The state: the pointer [g_pNvramInfo]. *)
Notation nvs := (option NVRAM_INFO).

Definition g_pNvramInfo : M nvs NVRAM_INFO := λ s,
  match s with Some n => Done (n, s) | None => Fault end.

(** The field at [offset] of entry [i] ([bytes] long) lies in the allocation. *)
Definition field_ok (n : NVRAM_INFO) (i offset bytes : Z) : bool :=
  offsetof_MacAddrs + sizeof_MAC_ADDR_INFO * i + offset + bytes <=? ni_size n.

Definition mai_ulId (i : Z) : M nvs Z :=
  n ← g_pNvramInfo;
  if field_ok n i 0 4 then of_option (ulId <$> MacAddrs n !! Z.to_nat i) else fault.

Definition mai_chInUse (i : Z) : M nvs Z :=
  n ← g_pNvramInfo;
  if field_ok n i 4 1 then of_option (chInUse <$> MacAddrs n !! Z.to_nat i) else fault.

Definition mai_update (i : Z) (f : MAC_ADDR_INFO → MAC_ADDR_INFO) : M nvs unit :=
  n ← g_pNvramInfo;
  modify (λ _, Some (set_MacAddrs (alter f (Z.to_nat i) (MacAddrs n)) n)).

Definition mai_set_ulId (i id : Z) : M nvs unit :=
  n ← g_pNvramInfo;
  if field_ok n i 0 4 then mai_update i (λ m, {| ulId := id; chInUse := chInUse m |}) else fault.

Definition mai_set_chInUse (i v : Z) : M nvs unit :=
  n ← g_pNvramInfo;
  if field_ok n i 4 1 then mai_update i (λ m, {| ulId := ulId m; chInUse := v |}) else fault.

(** [constMacAddrIncIndex]: the last three bytes form the counter. *)
Definition constMacAddrIncIndex : nat := 3.

(** The last three bytes of an address as a 24-bit integer: they are copied into
    the high bytes of a long (big-endian), which is shifted down. *)
Definition mac_low24 (mac : list Z) : Z :=
  Z.shiftr (be32 (take 3 (drop constMacAddrIncIndex mac) ++ [0])) 8.

(** The three high bytes of a long in memory. *)
Definition high_bytes (l : Z) : list Z :=
  [u8 (Z.shiftr l 24); u8 (Z.shiftr l 16); u8 (Z.shiftr l 8)].

(** The address of entry [i], as the caller's buffer gets it. *)
Definition mac_of_entry (base : list Z) (i : Z) : list Z :=
  let baseMacAddr := u32 (Z.shiftl (u32 (mac_low24 base + i)) 8) in
  take constMacAddrIncIndex base ++ high_bytes baseMacAddr.

(** The index a reserved id asks for, or [NO_RESERVE_MAC]. *)
Definition reserved_index (id : Z) : Z :=
  let reservedId := Z.land id RESERVE_MAC_MASK in
  if RESERVE_MAC_MASK =? reservedId then 0
  else
    let r := Z.shiftr reservedId 24 in
    if negb (r =? 2) && negb (r =? 3) && negb (r =? 4) && negb (r =? 5)
    then NO_RESERVE_MAC else r.

(** The search: [inl i] for an entry that already has the id, else the first
    usable entry that never had an owner ([pMaiFreeNoId]) and the first one that
    was released ([pMaiFreeId]). *)
Fixpoint mac_scan (n : nat) (i id reservedId : Z) (freeNoId freeId : option Z)
  : M nvs (Z + option Z * option Z) :=
  match n with
  | O => mret (inr (freeNoId, freeId))
  | S n' =>
      own ← mai_ulId i;
      if (id =? own) || (id =? MAC_ADDRESS_ANY) then mret (inl i)
      else
        used ← mai_chInUse i;
        let ok := (NO_RESERVE_MAC =? reservedId) || (i =? reservedId) in
        if used =? 0 then
          if (own =? 0) && bool_decide (freeNoId = None) then
            mac_scan n' (i + 1) id reservedId (if ok then Some i else freeNoId) freeId
          else if negb (own =? 0) && bool_decide (freeId = None) then
            mac_scan n' (i + 1) id reservedId freeNoId (if ok then Some i else freeId)
          else mac_scan n' (i + 1) id reservedId freeNoId freeId
        else mac_scan n' (i + 1) id reservedId freeNoId freeId
  end.

(** Entry [i] gets the owner [id]. *)
Definition take_entry (i id : Z) : M nvs (Z * option (list Z)) :=
  info ← g_pNvramInfo;
  mai_set_ulId i id;;
  mai_set_chInUse i 1;;
  mret (0, Some (mac_of_entry (ucaBaseMacAddr info) i)).

(** The result and the address written to the caller's buffer; [None] when the
    buffer is not written. *)
Definition kerSysGetMacAddress (id : Z) : M nvs (Z * option (list Z)) :=
  info ← g_pNvramInfo;
  r ← mac_scan (Z.to_nat (ulNumMacAddrs info)) 0 id (reserved_index id) None None;
  match r with
  | inl i =>
      mai_set_chInUse i 1;;
      mret (0, Some (mac_of_entry (ucaBaseMacAddr info) i))
  | inr (Some i, _) => take_entry i id
  | inr (None, Some i) => take_entry i id
  | inr (None, None) => mret (- EADDRNOTAVAIL, None)
  end.

Definition kerSysReleaseMacAddress (pucaMacAddr : list Z) : M nvs Z :=
  info ← g_pNvramInfo;
  let ulIdx := u32 (mac_low24 pucaMacAddr - mac_low24 (ucaBaseMacAddr info)) in
  if ulIdx <? ulNumMacAddrs info then
    used ← mai_chInUse ulIdx;
    if used =? 1 then mai_set_chInUse ulIdx 0;; mret 0
    else mret (- EINVAL)
  else mret (- EINVAL).

Definition kerSysGetSdramSize : M nvs Z :=
  info ← g_pNvramInfo;
  mret (s32 (ulSdramSize info)).

(** The loop of [InitNvramInfo] that reserves entries 0 and 2 to 5. *)
Fixpoint reserve_macs (n : nat) (i : Z) : M nvs unit :=
  match n with
  | O => mret tt
  | S n' =>
      (if i =? 0 then kerSysGetMacAddress RESERVE_MAC_MASK;; mret tt
       else if (i =? 2) || (i =? 3) || (i =? 4) || (i =? 5)
       then kerSysGetMacAddress (Z.land RESERVE_MAC_MASK (Z.shiftl i 24));; mret tt
       else mret tt);;
      reserve_macs n' (i + 1)
  end.

Definition offsetof_ulNumMacAddrs : nat := 284.
Definition offsetof_ucaBaseMacAddr : nat := 288.

(** [pNvramData] are the bytes of [NVRAM_DATA] at [get_nvram_start_addr ()],
    [bp] is the selected board, [memory_size] is [getMemorySize ()] and
    [kmalloc_ok] whether the allocation succeeds. *)
Definition InitNvramInfo (pNvramData : list Z) (bp : option BOARD_PARAMETERS)
  (memory_size : Z) (kmalloc_ok : bool) : M nvs unit :=
  let n := be32 (drop offsetof_ulNumMacAddrs pNvramData) in
  if (0 <? n) && (n <=? NVRAM_MAC_COUNT_MAX) then
    if kmalloc_ok then
      let '(sts, psi) := BpGetPsiSize bp in
      let psi' := if negb (sts =? BP_SUCCESS) then NVRAM_PSI_DEFAULT else psi in
      modify (λ _, Some
        {| ni_size := sizeof_NVRAM_INFO + (sizeof_MAC_ADDR_INFO - 1) * n;
           ulSdramSize := memory_size;
           ulPsiSize := u32 (psi' * 1024);
           ulNumMacAddrs := n;
           ucaBaseMacAddr := take 6 (drop offsetof_ucaBaseMacAddr pNvramData);
           MacAddrs := replicate (Z.to_nat n) {| ulId := 0; chInUse := 0 |} |});;
      reserve_macs (Z.to_nat n) 0
    else modify (λ _, None)
  else mret tt.
