(* ===== verification/MacProofs.v ===== *)
(** * Proofs about the MAC address table

    [mac_spec] is the allocation policy: the entry that already has the id, else
    the first usable entry that never had an owner, else the first usable
    released one.  The code of [MacAddr] is shown to compute it, and the
    properties of the policy give those of the code. *)

From stdpp Require Import base numbers list.
From Stdlib Require Import ZArith Lia Bool.
From S2P Require Import Prelude.
From S2P Require Import BoardTables.
From S2P Require Import BoardParms.
From S2P Require Import KerFlash.
From S2P Require Import MacAddr.

(** ** The first element with a property *)

Fixpoint first {A} (P : Z → A → bool) (i : Z) (l : list A) : option Z :=
  match l with
  | [] => None
  | e :: l' => if P i e then Some i else first P (i + 1) l'
  end.

Lemma first_Some {A} (P : Z → A → bool) i l j :
  first P i l = Some j →
  i ≤ j < i + Z.of_nat (length l) ∧ ∃ e, l !! Z.to_nat (j - i) = Some e ∧ P j e = true.
Proof.
  revert i; induction l as [|e l IH]; intros i H; simpl in *; [done|].
  destruct (P i e) eqn:HP; simplify_eq.
  - split; [lia|]. exists e. by replace (Z.to_nat (j - j)) with O by lia.
  - destruct (IH _ H) as (Hj & x & Hx & HPx). split; [lia|]. exists x. split; [|done].
    by replace (Z.to_nat (j - i)) with (S (Z.to_nat (j - (i + 1)))) by lia.
Qed.

Lemma first_None {A} (P : Z → A → bool) i l k e :
  first P i l = None → l !! k = Some e → P (i + Z.of_nat k) e = false.
Proof.
  revert i k; induction l as [|x l IH]; intros i k H Hk; simpl in *; [done|].
  destruct (P i x) eqn:HP; [done|]. destruct k as [|k]; simplify_eq/=.
  - by rewrite Z.add_0_r.
  - replace (i + Z.of_nat (S k)) with (i + 1 + Z.of_nat k) by lia. by apply IH.
Qed.

(** ** The allocation policy *)

Definition owns (id : Z) (_ : Z) (e : MAC_ADDR_INFO) : bool :=
  (id =? ulId e) || (id =? MAC_ADDRESS_ANY).

Definition usable (r i : Z) : bool := (NO_RESERVE_MAC =? r) || (i =? r).

Definition fresh (r i : Z) (e : MAC_ADDR_INFO) : bool :=
  (chInUse e =? 0) && (ulId e =? 0) && usable r i.

Definition released (r i : Z) (e : MAC_ADDR_INFO) : bool :=
  (chInUse e =? 0) && negb (ulId e =? 0) && usable r i.

Definition use_entry (e : MAC_ADDR_INFO) : MAC_ADDR_INFO := {| ulId := ulId e; chInUse := 1 |}.
Definition own_entry (id : Z) (e : MAC_ADDR_INFO) : MAC_ADDR_INFO := {| ulId := id; chInUse := 1 |}.

(** The entry chosen for [id] and the table afterwards. *)
Definition mac_spec (l : list MAC_ADDR_INFO) (id : Z) : option (Z * list MAC_ADDR_INFO) :=
  match first (owns id) 0 l with
  | Some i => Some (i, alter use_entry (Z.to_nat i) l)
  | None =>
      match first (fresh (reserved_index id)) 0 l, first (released (reserved_index id)) 0 l with
      | Some i, _ | None, Some i => Some (i, alter (own_entry id) (Z.to_nat i) l)
      | None, None => None
      end
  end.

(** A table whose fields lie in its allocation. *)
Record mac_wf (n : NVRAM_INFO) : Prop := {
  mw_num : 0 < ulNumMacAddrs n ≤ NVRAM_MAC_COUNT_MAX;
  mw_len : length (MacAddrs n) = Z.to_nat (ulNumMacAddrs n);
  mw_room : offsetof_MacAddrs + sizeof_MAC_ADDR_INFO * (ulNumMacAddrs n - 1) + 5 ≤ ni_size n;
  mw_base : length (ucaBaseMacAddr n) = 6%nat;
  mw_bytes : Forall is_byte (ucaBaseMacAddr n);
}.

Lemma nvinfo n : g_pNvramInfo (Some n) = Done (n, Some n).
Proof. done. Qed.

Section scan.
Context (n : NVRAM_INFO) (W : mac_wf n).

Lemma field_ok_id i : i < ulNumMacAddrs n → field_ok n i 0 4 = true.
Proof.
  intros Hi. pose proof (mw_room n W). unfold field_ok, offsetof_MacAddrs, sizeof_MAC_ADDR_INFO in *.
  apply Z.leb_le. lia.
Qed.

Lemma field_ok_use i : i < ulNumMacAddrs n → field_ok n i 4 1 = true.
Proof.
  intros Hi. pose proof (mw_room n W). unfold field_ok, offsetof_MacAddrs, sizeof_MAC_ADDR_INFO in *.
  apply Z.leb_le. lia.
Qed.

Lemma mai_ulId_ok i e :
  MacAddrs n !! Z.to_nat i = Some e → i < ulNumMacAddrs n →
  mai_ulId i (Some n) = Done (ulId e, Some n).
Proof.
  intros He Hi. unfold mai_ulId. mstep (nvinfo n). rewrite (field_ok_id _ Hi), He. done.
Qed.

Lemma mai_chInUse_ok i e :
  MacAddrs n !! Z.to_nat i = Some e → i < ulNumMacAddrs n →
  mai_chInUse i (Some n) = Done (chInUse e, Some n).
Proof.
  intros He Hi. unfold mai_chInUse. mstep (nvinfo n). rewrite (field_ok_use _ Hi), He. done.
Qed.

Lemma mac_scan_spec l i id r fno fid :
  0 ≤ i → drop (Z.to_nat i) (MacAddrs n) = l →
  mac_scan (length l) i id r fno fid (Some n) =
    Done (match first (owns id) i l with
          | Some j => inl j
          | None => inr (from_option Some (first (fresh r) i l) fno,
                         from_option Some (first (released r) i l) fid)
          end, Some n).
Proof.
  revert i fno fid; induction l as [|e l IH]; intros i fno fid Hi Hl;
    cbn [mac_scan first length].
  { by destruct fno, fid. }
  assert (He : MacAddrs n !! Z.to_nat i = Some e).
  { rewrite <- (Nat.add_0_r (Z.to_nat i)), <- lookup_drop, Hl. done. }
  assert (Hn : i < ulNumMacAddrs n).
  { apply lookup_lt_Some in He. rewrite (mw_len n W) in He. lia. }
  assert (Hd : drop (Z.to_nat (i + 1)) (MacAddrs n) = l).
  { replace (Z.to_nat (i + 1)) with (Z.to_nat i + 1)%nat by lia. by rewrite <- drop_drop, Hl. }
  mstep (mai_ulId_ok i e He Hn). unfold owns at 1.
  destruct ((id =? ulId e) || (id =? MAC_ADDRESS_ANY)); [done|].
  rewrite (bind_Done _ _ _ _ _ (mai_chInUse_ok i e He Hn)). unfold fresh at 1, released at 1.
  fold (usable r i).
  destruct (chInUse e =? 0), (ulId e =? 0), (usable r i), fno, fid; simpl;
    rewrite (IH (i + 1) _ _ ltac:(lia) Hd); by destruct (first (owns id) (i + 1) l).
Qed.

Lemma mai_set_chInUse_ok i v :
  i < ulNumMacAddrs n →
  mai_set_chInUse i v (Some n) =
    Done (tt, Some (set_MacAddrs (alter (λ m, {| ulId := ulId m; chInUse := v |}) (Z.to_nat i)
                                        (MacAddrs n)) n)).
Proof. intros Hi. unfold mai_set_chInUse. mstep (nvinfo n). by rewrite (field_ok_use _ Hi). Qed.

Lemma mai_set_ulId_ok i v :
  i < ulNumMacAddrs n →
  mai_set_ulId i v (Some n) =
    Done (tt, Some (set_MacAddrs (alter (λ m, {| ulId := v; chInUse := chInUse m |}) (Z.to_nat i)
                                        (MacAddrs n)) n)).
Proof. intros Hi. unfold mai_set_ulId. mstep (nvinfo n). by rewrite (field_ok_id _ Hi). Qed.

End scan.

Lemma mac_wf_set n l :
  mac_wf n → length l = length (MacAddrs n) → mac_wf (set_MacAddrs l n).
Proof. intros [] Hl. split; simpl; congruence || done. Qed.

Lemma take_entry_ok n i id :
  mac_wf n → i < ulNumMacAddrs n →
  take_entry i id (Some n) =
    Done ((0, Some (mac_of_entry (ucaBaseMacAddr n) i)),
          Some (set_MacAddrs (alter (own_entry id) (Z.to_nat i) (MacAddrs n)) n)).
Proof.
  intros W Hi. unfold take_entry. mstep (nvinfo n).
  mstep (mai_set_ulId_ok n W i id Hi).
  assert (W' := mac_wf_set n (alter (λ m, {| ulId := id; chInUse := chInUse m |})
                                (Z.to_nat i) (MacAddrs n)) W ltac:(apply length_alter)).
  mstep (mai_set_chInUse_ok _ W' i 1 Hi). unfold mret, M_ret, set_MacAddrs. cbn.
  do 4 f_equal. rewrite list_alter_alter_eq. by apply list_alter_ext.
Qed.

(** The code computes the policy. *)
Lemma get_mac_spec n id :
  mac_wf n →
  kerSysGetMacAddress id (Some n) =
    match mac_spec (MacAddrs n) id with
    | Some (i, l) => Done ((0, Some (mac_of_entry (ucaBaseMacAddr n) i)), Some (set_MacAddrs l n))
    | None => Done ((- EADDRNOTAVAIL, None), Some n)
    end.
Proof.
  intros W. unfold kerSysGetMacAddress, mac_spec. mstep (nvinfo n).
  assert (Hb : ∀ P j, first P 0 (MacAddrs n) = Some j → j < ulNumMacAddrs n).
  { intros P j Hj. destruct (first_Some _ _ _ _ Hj) as [Hr _].
    rewrite (mw_len n W) in Hr. pose proof (mw_num n W). lia. }
  rewrite <- (mw_len n W).
  mstep (mac_scan_spec n W (MacAddrs n) 0 id (reserved_index id) None None
           ltac:(lia) eq_refl).
  destruct (first (owns id) 0 (MacAddrs n)) as [i|] eqn:H1.
  { mstep (mai_set_chInUse_ok n W i 1 (Hb _ _ H1)). done. }
  simpl. destruct (first (fresh _) 0 _) as [i|] eqn:H2; [by apply take_entry_ok; eauto|].
  destruct (first (released _) 0 _) as [i|] eqn:H3; [by apply take_entry_ok; eauto|done].
Qed.

(** ** Addresses *)

Lemma mac_low24_bytes a b c x y z :
  is_byte x → is_byte y → is_byte z →
  mac_low24 [a; b; c; x; y; z] = (x * 256 + y) * 256 + z.
Proof.
  unfold is_byte, mac_low24, be32. intros. cbn -[Z.shiftr Z.mul Z.add].
  rewrite Z.shiftr_div_pow2 by lia. change (2 ^ 8) with 256.
  rewrite Z.add_0_r, Z.div_mul by lia. lia.
Qed.

(** The bytes of a 24-bit counter shifted into the high part of a long. *)
Lemma high_bytes_24 v :
  mac_low24 ([0; 0; 0] ++ high_bytes (u32 (Z.shiftl (u32 v) 8))) = v mod 2 ^ 24 ∧
  Forall is_byte (high_bytes (u32 (Z.shiftl (u32 v) 8))).
Proof.
  assert (HF : ∀ l, Forall is_byte (high_bytes l)).
  { intros l. unfold high_bytes, u8, is_byte. repeat constructor; apply Z.mod_pos_bound; lia. }
  split; [|apply HF]. pose proof (HF (u32 (Z.shiftl (u32 v) 8))) as HB.
  unfold high_bytes in *. rewrite !Forall_cons in HB. destruct HB as (H1 & H2 & H3 & _).
  cbn [app]. rewrite mac_low24_bytes by done.
  unfold u8, u32. rewrite Z.shiftl_mul_pow2, !Z.shiftr_div_pow2 by lia.
  change (2 ^ 24) with 16777216. change (2 ^ 16) with 65536. change (2 ^ 8) with 256.
  change (2 ^ 32) with 4294967296. zify; Z.to_euclidean_division_equations; lia.
Qed.

Lemma mac_low24_range mac : Forall is_byte mac → length mac = 6%nat → 0 ≤ mac_low24 mac < 2 ^ 24.
Proof.
  intros HB HL. do 7 (destruct mac as [|? mac]; try done).
  rewrite !Forall_cons in HB. destruct HB as (?&?&?&?&?&?&_).
  rewrite mac_low24_bytes by done. unfold is_byte in *. lia.
Qed.

Lemma mac_low24_skip a b c l : mac_low24 ([a; b; c] ++ l) = mac_low24 ([0; 0; 0] ++ l).
Proof. done. Qed.

Lemma mac_of_entry_shape base i :
  length base = 6%nat → Forall is_byte base →
  length (mac_of_entry base i) = 6%nat ∧ Forall is_byte (mac_of_entry base i) ∧
  take 3 (mac_of_entry base i) = take 3 base ∧
  mac_low24 (mac_of_entry base i) = (mac_low24 base + i) mod 2 ^ 24.
Proof.
  intros HL HB. unfold mac_of_entry. generalize (mac_low24 base + i) as v. intros v.
  do 7 (destruct base as [|? base]; try done). unfold constMacAddrIncIndex. cbn [take].
  destruct (high_bytes_24 v) as [E F].
  split; [done|]. split; [|split; [done|by rewrite mac_low24_skip]].
  rewrite !Forall_cons in HB. destruct HB as (?&?&?&_).
  apply Forall_app. split; [|done]. by apply Forall_cons; split; [|apply Forall_cons; split; [|apply Forall_singleton]].
Qed.

Lemma mac_of_entry_inj base i j :
  length base = 6%nat → Forall is_byte base → 0 ≤ i < 2 ^ 24 → 0 ≤ j < 2 ^ 24 →
  mac_of_entry base i = mac_of_entry base j → i = j.
Proof.
  intros HL HB Hi Hj E. apply (f_equal mac_low24) in E.
  destruct (mac_of_entry_shape base i HL HB) as (_&_&_&Ei).
  destruct (mac_of_entry_shape base j HL HB) as (_&_&_&Ej).
  rewrite Ei, Ej in E. pose proof (mac_low24_range base HB HL).
  change (2 ^ 24) with 16777216 in *. Z.to_euclidean_division_equations; lia.
Qed.

(** ** The policy: what is kept, what is distinct *)

(** Two entries never have the same owner. *)
Definition ids_distinct (l : list MAC_ADDR_INFO) : Prop :=
  ∀ i j e e', l !! i = Some e → l !! j = Some e' → ulId e = ulId e' → ulId e ≠ 0 → i = j.

(** Entry [i] is in use with owner [id]. *)
Definition holds (l : list MAC_ADDR_INFO) (i id : Z) : Prop :=
  l !! Z.to_nat i = Some {| ulId := id; chInUse := 1 |}.

Inductive mac_step (l : list MAC_ADDR_INFO) (id i : Z) : list MAC_ADDR_INFO → Prop :=
| step_again e : l !! Z.to_nat i = Some e → ulId e = id ∨ id = MAC_ADDRESS_ANY →
    mac_step l id i (alter use_entry (Z.to_nat i) l)
| step_take e : l !! Z.to_nat i = Some e → chInUse e = 0 → id ≠ MAC_ADDRESS_ANY →
    (∀ j e', l !! j = Some e' → ulId e' ≠ id) →
    (NO_RESERVE_MAC = reserved_index id ∨ i = reserved_index id) →
    mac_step l id i (alter (own_entry id) (Z.to_nat i) l).

Lemma mac_spec_step l id i l' :
  l ≠ [] →
  mac_spec l id = Some (i, l') → 0 ≤ i < Z.of_nat (length l) ∧ mac_step l id i l'.
Proof.
  intros Hne. unfold mac_spec. destruct (first (owns id) 0 l) as [j|] eqn:H1.
  - intros [= <- <-]. destruct (first_Some _ _ _ _ H1) as (Hj & e & He & HP).
    rewrite Z.sub_0_r in He. split; [lia|]. apply (step_again _ _ _ e He).
    apply orb_true_iff in HP. rewrite !Z.eqb_eq in HP. naive_solver.
  - assert (Hno : ∀ k e', l !! k = Some e' → ulId e' ≠ id ∧ id ≠ MAC_ADDRESS_ANY).
    { intros k e' Hk. pose proof (first_None _ _ _ _ _ H1 Hk) as HF.
      apply orb_false_iff in HF. rewrite !Z.eqb_neq in HF. naive_solver. }
    assert (Hcase : ∀ own j, first own 0 l = Some j →
      (∀ k e', own k e' = true → chInUse e' = 0 ∧ usable (reserved_index id) k = true) →
      0 ≤ j < Z.of_nat (length l) ∧ mac_step l id j (alter (own_entry id) (Z.to_nat j) l)).
    { intros own j Hj Hown. destruct (first_Some _ _ _ _ Hj) as (Hr & e & He & HP).
      rewrite Z.sub_0_r in He. destruct (Hown _ _ HP) as [H0 Hu]. split; [lia|].
      apply (step_take _ _ _ e He H0); [naive_solver|naive_solver|].
      apply orb_true_iff in Hu. rewrite !Z.eqb_eq in Hu. naive_solver. }
    destruct (first (fresh (reserved_index id)) 0 l) as [j|] eqn:H2.
    { intros [= <- <-]. apply (Hcase _ _ H2). intros k e'. unfold fresh.
      rewrite !andb_true_iff, Z.eqb_eq. naive_solver. }
    destruct (first (released (reserved_index id)) 0 l) as [j|] eqn:H3; [|done].
    intros [= <- <-]. apply (Hcase _ _ H3). intros k e'. unfold released.
    rewrite !andb_true_iff, Z.eqb_eq. naive_solver.
Qed.

Lemma mac_step_distinct l id i l' : mac_step l id i l' → ids_distinct l → ids_distinct l'.
Proof.
  intros [e He _|e He _ _ Hno _] D j k x y Hj Hk E N0;
    rewrite list_lookup_alter in Hj, Hk; repeat case_decide; subst; try done;
    rewrite ?He in Hj; rewrite ?He in Hk; simplify_eq/=; try (by eapply D; eauto).
  - by edestruct Hno.
  - by edestruct Hno.
Qed.

Lemma mac_step_holds l id i l' :
  mac_step l id i l' → id ≠ MAC_ADDRESS_ANY → holds l' i id.
Proof.
  intros [e He Ho|e He _ _ _ _] Hany; unfold holds; rewrite list_lookup_alter_eq, He; simpl;
    unfold use_entry, own_entry; destruct e; naive_solver.
Qed.

Lemma mac_step_keeps l id i l' j id' :
  mac_step l id i l' → holds l j id' → holds l' j id'.
Proof.
  unfold holds. intros [e He Ho|e He Hf _ _ _] H; rewrite list_lookup_alter;
    case_decide as E; try done; rewrite <- ?E, ?He in *; by simplify_eq/=.
Qed.
