(* ===== verification/MacClaims.v ===== *)
(** * What holds of the MAC addresses

    Addresses of different owners differ, whatever the drivers do in between;
    an owner gets its address back; [InitNvramInfo] builds the table with its
    reserved entries, or overruns its allocation. *)

From stdpp Require Import base numbers list.
From Stdlib Require Import ZArith Lia Bool.
From S2P Require Import Prelude.
From S2P Require Import BoardTables.
From S2P Require Import BoardParms.
From S2P Require Import KerFlash.
From S2P Require Import MacAddr.
From S2P Require Import MacProofs.

(** Calls of the drivers, in any order. *)
Inductive mac_op : Type :=
| GetMac (id : Z)
| ReleaseMac (mac : list Z).

Definition mac_exec (o : mac_op) : M nvs unit :=
  match o with
  | GetMac id => kerSysGetMacAddress id;; mret tt
  | ReleaseMac mac => kerSysReleaseMacAddress mac;; mret tt
  end.

Fixpoint mac_run (os : list mac_op) : M nvs unit :=
  match os with
  | [] => mret tt
  | o :: os' => mac_exec o;; mac_run os'
  end.

Definition is_mac (mac : list Z) : Prop := length mac = 6%nat ∧ Forall is_byte mac.

Definition op_ok (o : mac_op) : Prop :=
  match o with GetMac _ => True | ReleaseMac mac => is_mac mac end.

(** [o] does not release [mac]: releasing looks at the last three bytes. *)
Definition not_release (mac : list Z) (o : mac_op) : Prop :=
  match o with GetMac _ => True | ReleaseMac m => mac_low24 m ≠ mac_low24 mac end.

Definition mac_inv (n : NVRAM_INFO) : Prop := mac_wf n ∧ ids_distinct (MacAddrs n).

Definition free_entry (m : MAC_ADDR_INFO) : MAC_ADDR_INFO := {| ulId := ulId m; chInUse := 0 |}.

Lemma free_lookup (l : list MAC_ADDR_INFO) (i m : nat) x :
  alter free_entry i l !! m = Some x → ∃ x', l !! m = Some x' ∧ ulId x' = ulId x.
Proof.
  rewrite list_lookup_alter. case_decide; subst; [|by eauto].
  destruct (l !! m); intros; simplify_eq/=; eauto.
Qed.

Section table.
Context (n : NVRAM_INFO) (I : mac_inv n).
Let base := ucaBaseMacAddr n.

Lemma inv_wf : mac_wf n.
Proof using I. apply I. Qed.

Lemma macs_nonempty : MacAddrs n ≠ [].
Proof using I.
  pose proof (mw_num n inv_wf). intros E. pose proof (mw_len n inv_wf) as L. rewrite E in L. simpl in L. lia.
Qed.

(** A call that returns an address: the entry it came from and the new table. *)
Lemma get_mac_inv id r s :
  kerSysGetMacAddress id (Some n) = Done (r, s) →
  (r = (- EADDRNOTAVAIL, None) ∧ s = Some n ∧ mac_spec (MacAddrs n) id = None) ∨
  ∃ i l, r = (0, Some (mac_of_entry base i)) ∧ s = Some (set_MacAddrs l n) ∧
    0 ≤ i < ulNumMacAddrs n ∧ mac_step (MacAddrs n) id i l.
Proof using I.
  rewrite (get_mac_spec n id inv_wf). destruct (mac_spec (MacAddrs n) id) as [[i l]|] eqn:E; intros [= <- <-].
  - right. exists i, l. destruct (mac_spec_step _ _ _ _ macs_nonempty E) as [Hi Hs].
    rewrite (mw_len n inv_wf) in Hi. pose proof (mw_num n inv_wf). repeat split; try done; lia.
  - by left.
Qed.

Lemma mac_step_inv id i l : mac_step (MacAddrs n) id i l → mac_inv (set_MacAddrs l n).
Proof using I.
  intros Hs. split.
  - apply mac_wf_set; [apply I|]. destruct Hs; apply length_alter.
  - apply (mac_step_distinct _ _ _ _ Hs). apply I.
Qed.

Lemma get_mac_total id :
  ∃ r n', kerSysGetMacAddress id (Some n) = Done (r, Some n') ∧ mac_inv n' ∧
    ucaBaseMacAddr n' = base ∧ ulNumMacAddrs n' = ulNumMacAddrs n ∧
    (∀ j id', holds (MacAddrs n) j id' → holds (MacAddrs n') j id').
Proof using I.
  rewrite (get_mac_spec n id inv_wf). destruct (mac_spec (MacAddrs n) id) as [[i l]|] eqn:E.
  - destruct (mac_spec_step _ _ _ _ macs_nonempty E) as [Hi Hs]. do 2 eexists. split; [done|].
    split; [by apply (mac_step_inv id i)|]. repeat split.
    intros j id'. by apply (mac_step_keeps _ _ _ _ _ _ Hs).
  - do 2 eexists. split; [done|]. split; [done|]. done.
Qed.

Lemma entry_exists i : 0 ≤ i < ulNumMacAddrs n → ∃ e, MacAddrs n !! Z.to_nat i = Some e.
Proof using I. intros Hi. apply lookup_lt_is_Some. rewrite (mw_len n inv_wf). lia. Qed.

Lemma release_spec mac :
  let i := u32 (mac_low24 mac - mac_low24 base) in
  (∃ id, i < ulNumMacAddrs n ∧ holds (MacAddrs n) i id ∧
     kerSysReleaseMacAddress mac (Some n) =
       Done (0, Some (set_MacAddrs (alter free_entry (Z.to_nat i) (MacAddrs n)) n))) ∨
  ((ulNumMacAddrs n ≤ i ∨ ∀ id, ¬ holds (MacAddrs n) i id) ∧
   kerSysReleaseMacAddress mac (Some n) = Done (- EINVAL, Some n)).
Proof using I.
  intros i. unfold kerSysReleaseMacAddress. mstep (nvinfo n). fold base i.
  destruct (i <? ulNumMacAddrs n) eqn:Hi; [|apply Z.ltb_ge in Hi; by auto].
  apply Z.ltb_lt in Hi. assert (Hi0 : 0 ≤ i) by apply u32_range.
  destruct (entry_exists i (conj Hi0 Hi)) as [e He].
  mstep (mai_chInUse_ok n inv_wf i e He Hi). destruct (chInUse e =? 1) eqn:E1.
  - left. apply Z.eqb_eq in E1. exists (ulId e). split; [done|]. split.
    { unfold holds. rewrite He. destruct e; simpl in *; by subst. }
    by mstep (mai_set_chInUse_ok n inv_wf i 0 Hi).
  - right. apply Z.eqb_neq in E1. split; [|done]. right. unfold holds. intros id.
    rewrite He. intros [= ->]. done.
Qed.

Lemma release_keeps_inv i : mac_inv (set_MacAddrs (alter free_entry i (MacAddrs n)) n).
Proof using I.
  split; [apply mac_wf_set; [apply I|apply length_alter]|].
  intros j k x y Hj Hk E N0.
  apply free_lookup in Hj as (x' & Hx & Ex). apply free_lookup in Hk as (y' & Hy & Ey).
  apply (proj2 I j k x' y' Hx Hy); congruence.
Qed.

Lemma release_total mac i id :
  is_mac mac → 0 ≤ i < ulNumMacAddrs n → mac_low24 mac ≠ mac_low24 (mac_of_entry base i) →
  holds (MacAddrs n) i id →
  ∃ r n', kerSysReleaseMacAddress mac (Some n) = Done (r, Some n') ∧ mac_inv n' ∧
    ucaBaseMacAddr n' = base ∧ ulNumMacAddrs n' = ulNumMacAddrs n ∧ holds (MacAddrs n') i id.
Proof using I.
  intros [HL HB] Hi Hne Hh.
  destruct (release_spec mac) as [(id' & Hlt & _ & E)|(_ & E)]; rewrite E; do 2 eexists;
    (split; [done|]); [|by auto].
  split; [by apply release_keeps_inv|]. do 2 (split; [done|]). unfold holds. simpl.
  rewrite list_lookup_alter_ne; [done|]. intros Heq. apply Hne.
  destruct (mac_of_entry_shape base i (mw_base n inv_wf) (mw_bytes n inv_wf)) as (_ & _ & _ & ->).
  pose proof (mac_low24_range mac HB HL). pose proof (mac_low24_range base (mw_bytes n inv_wf) (mw_base n inv_wf)).
  pose proof (mw_num n inv_wf). unfold NVRAM_MAC_COUNT_MAX, u32 in *.
  change (2 ^ 32) with 4294967296 in *. change (2 ^ 24) with 16777216 in *.
  Z.to_euclidean_division_equations; lia.
Qed.

(** The owner of an entry gets that entry. *)
Lemma get_own id i e :
  MacAddrs n !! Z.to_nat i = Some e → ulId e = id → 0 ≤ i → id ≠ 0 → id ≠ MAC_ADDRESS_ANY →
  ∃ n', kerSysGetMacAddress id (Some n) = Done ((0, Some (mac_of_entry base i)), Some n').
Proof using I.
  intros He Ho Hi H0 Hany.
  rewrite (get_mac_spec n id inv_wf). unfold mac_spec.
  destruct (first (owns id) 0 (MacAddrs n)) as [j|] eqn:E.
  - destruct (first_Some _ _ _ _ E) as (Hj & x & Hx & HP). rewrite Z.sub_0_r in Hx.
    apply orb_true_iff in HP. rewrite !Z.eqb_eq in HP. destruct HP as [HP|]; [|done].
    assert (Z.to_nat j = Z.to_nat i) by (apply (proj2 I _ _ x e Hx He); congruence).
    assert (j = i) as -> by lia. by eexists.
  - exfalso. pose proof (first_None _ _ _ _ _ E He) as HF. unfold owns in HF.
    apply orb_false_iff in HF. rewrite Z.eqb_neq in HF. naive_solver.
Qed.

End table.

(** Any calls that do not release the address of entry [i] leave it to its owner. *)
Lemma mac_run_holds os n i id :
  mac_inv n → holds (MacAddrs n) i id → 0 ≤ i < ulNumMacAddrs n →
  Forall op_ok os → Forall (not_release (mac_of_entry (ucaBaseMacAddr n) i)) os →
  ∃ n', mac_run os (Some n) = Done (tt, Some n') ∧ mac_inv n' ∧ holds (MacAddrs n') i id ∧
    ucaBaseMacAddr n' = ucaBaseMacAddr n ∧ ulNumMacAddrs n' = ulNumMacAddrs n.
Proof.
  revert n; induction os as [|o os IH]; intros n I Hh Hi Hok Hnr; simpl; [by eauto 10|].
  apply Forall_cons in Hok as [Ho Hok]. apply Forall_cons in Hnr as [Hn Hnr].
  assert (∃ n1, mac_exec o (Some n) = Done (tt, Some n1) ∧ mac_inv n1 ∧ holds (MacAddrs n1) i id ∧
     ucaBaseMacAddr n1 = ucaBaseMacAddr n ∧ ulNumMacAddrs n1 = ulNumMacAddrs n)
    as (n1 & E1 & I1 & H1 & B1 & N1).
  { destruct o as [id'|mac]; simpl in *.
    - destruct (get_mac_total n I id') as (r & n1 & E & ?&?&?& Hk). exists n1. mstep E. naive_solver.
    - destruct (release_total n I mac i id) as (r & n1 & E & ?&?&?&?); try done.
      exists n1. mstep E. naive_solver. }
  mstep E1. destruct (IH n1 I1 H1) as (n' & E' & I' & H' & B' & N'); try done; [by rewrite N1|by rewrite B1|].
  exists n'. rewrite E', B', N', B1, N1. done.
Qed.

(** [C5] An owner keeps its MAC address.  After [kerSysGetMacAddress] gave [m1]
    to [id1], any sequence of further calls that does not release [m1] runs
    without an access outside the table; afterwards [id1] still gets [m1], and an
    address given to another id is a different one. *)
Theorem mac_addresses_unique n id1 id2 m1 n1 os :
  mac_inv n → id1 ≠ id2 → id1 ≠ 0 → id1 ≠ MAC_ADDRESS_ANY → id2 ≠ MAC_ADDRESS_ANY →
  kerSysGetMacAddress id1 (Some n) = Done ((0, Some m1), Some n1) →
  Forall op_ok os → Forall (not_release m1) os →
  ∃ n2, mac_run os (Some n1) = Done (tt, Some n2) ∧
    (∃ n3, kerSysGetMacAddress id1 (Some n2) = Done ((0, Some m1), Some n3)) ∧
    (∀ m2 s3, kerSysGetMacAddress id2 (Some n2) = Done ((0, Some m2), s3) → m1 ≠ m2).
Proof.
  intros I Hne H0 Ha1 Ha2 E1 Hok Hnr.
  destruct (get_mac_inv n I _ _ _ E1) as [(?&_)|(i & l & [= ->] & [= ->] & Hi & Hs)]; [done|].
  destruct (mac_run_holds os (set_MacAddrs l n) i id1) as (n2 & E2 & I2 & H2 & B2 & N2); try done.
  { by apply (mac_step_inv n I id1 i). }
  { by apply (mac_step_holds (MacAddrs n)). }
  simpl in B2, N2. exists n2. split; [done|]. split.
  - destruct (get_own n2 I2 id1 i _ H2 eq_refl (proj1 Hi) H0 Ha1) as [n3 E3].
    exists n3. by rewrite E3, B2.
  - intros m2 s3 E3 Hm.
    destruct (get_mac_inv n2 I2 _ _ _ E3) as [(?&_)|(j & l' & [= Ej] & _ & Hj & Hs')]; [done|].
    rewrite <- Hm, B2 in Ej. rewrite N2 in Hj. pose proof (mw_num n (inv_wf n I)) as Hnum.
    unfold NVRAM_MAC_COUNT_MAX in Hnum.
    apply mac_of_entry_inj in Ej; [|apply (inv_wf n I)|apply (inv_wf n I)|lia|lia].
    subst j. pose proof (mac_step_keeps _ _ _ _ _ _ Hs' H2) as K1.
    pose proof (mac_step_holds _ _ _ _ Hs' Ha2) as K2. unfold holds in *. congruence.
Qed.

(** Release and get again.  When the addresses of the board do not carry out
    of the last three bytes, an address that was given out is released with
    success, and its owner gets the same address at the next call. *)
Theorem mac_release_get n id m n1 :
  mac_inv n → id ≠ 0 → id ≠ MAC_ADDRESS_ANY →
  mac_low24 (ucaBaseMacAddr n) + ulNumMacAddrs n ≤ 2 ^ 24 →
  kerSysGetMacAddress id (Some n) = Done ((0, Some m), Some n1) →
  ∃ n2 n3, kerSysReleaseMacAddress m (Some n1) = Done (0, Some n2) ∧
    kerSysGetMacAddress id (Some n2) = Done ((0, Some m), Some n3).
Proof.
  intros I H0 Hany Hc E1.
  destruct (get_mac_inv n I _ _ _ E1) as [(?&_)|(i & l & [= ->] & [= ->] & Hi & Hs)]; [done|].
  pose proof (mac_step_inv n I id i l Hs) as I1.
  pose proof (mac_step_holds _ _ _ _ Hs Hany) as H1.
  destruct (mac_of_entry_shape (ucaBaseMacAddr n) i (mw_base n (inv_wf n I)) (mw_bytes n (inv_wf n I)))
    as (_ & _ & _ & Elow).
  pose proof (mac_low24_range _ (mw_bytes n (inv_wf n I)) (mw_base n (inv_wf n I))) as Hb.
  pose proof (release_spec (set_MacAddrs l n) I1 (mac_of_entry (ucaBaseMacAddr n) i)) as R.
  simpl in R. rewrite Elow, Z.mod_small in R by lia.
  replace (mac_low24 (ucaBaseMacAddr n) + i - mac_low24 (ucaBaseMacAddr n)) with i in R by lia.
  rewrite u32_small in R by lia.
  destruct R as [(id' & _ & Hh & ->)|([?|Hno] & _)]; [|lia|by destruct (Hno id)].
  edestruct (get_own _ (release_keeps_inv _ I1 (Z.to_nat i)) id i) as [n3 E3]; try done; [| |lia|].
  - simpl. rewrite list_lookup_alter_eq. unfold holds in H1. by rewrite H1.
  - done.
  - eexists _, n3. split; [done|]. exact E3.
Qed.

(** An address that carries out of its last three bytes cannot be released:
    the call answers [-EINVAL] and the entry stays in use. *)
Theorem mac_carry_not_released n i :
  mac_inv n → 0 ≤ i < ulNumMacAddrs n → 2 ^ 24 ≤ mac_low24 (ucaBaseMacAddr n) + i →
  kerSysReleaseMacAddress (mac_of_entry (ucaBaseMacAddr n) i) (Some n) = Done (- EINVAL, Some n).
Proof.
  intros I Hi Hc. pose proof (inv_wf n I) as W.
  destruct (mac_of_entry_shape (ucaBaseMacAddr n) i (mw_base n W) (mw_bytes n W)) as (_ & _ & _ & Elow).
  pose proof (mac_low24_range _ (mw_bytes n W) (mw_base n W)) as Hb.
  pose proof (mw_num n W) as Hn. unfold NVRAM_MAC_COUNT_MAX in Hn.
  destruct (release_spec n I (mac_of_entry (ucaBaseMacAddr n) i)) as [(id & Hlt & _)|[_ E]]; [|done].
  exfalso. rewrite Elow in Hlt. unfold u32 in Hlt.
  change (2 ^ 32) with 4294967296 in *. change (2 ^ 24) with 16777216 in *.
  Z.to_euclidean_division_equations; lia.
Qed.

(** ** Set-up *)

(** The table after [InitNvramInfo]: entries 0 and 2 to 5 are in use. *)
Definition reserved_entry (i : nat) : MAC_ADDR_INFO :=
  match i with
  | 0%nat => {| ulId := RESERVE_MAC_MASK; chInUse := 1 |}
  | 2%nat | 3%nat | 4%nat | 5%nat => {| ulId := Z.of_nat i * 2 ^ 24; chInUse := 1 |}
  | _ => {| ulId := 0; chInUse := 0 |}
  end.

Definition nvram_info_of (pNvramData : list Z) (bp : option BOARD_PARAMETERS) (memory_size : Z)
  (l : list MAC_ADDR_INFO) : NVRAM_INFO :=
  let n := be32 (drop offsetof_ulNumMacAddrs pNvramData) in
  {| ni_size := sizeof_NVRAM_INFO + (sizeof_MAC_ADDR_INFO - 1) * n;
     ulSdramSize := memory_size;
     ulPsiSize := match bp with Some b => u32 (usPsiSize b * 1024) | None => 64 * 1024 end;
     ulNumMacAddrs := n;
     ucaBaseMacAddr := take 6 (drop offsetof_ucaBaseMacAddr pNvramData);
     MacAddrs := l |}.

Lemma InitNvramInfo_eq d bp mem s :
  let n := be32 (drop offsetof_ulNumMacAddrs d) in
  0 < n ≤ NVRAM_MAC_COUNT_MAX →
  InitNvramInfo d bp mem true s =
    reserve_macs (Z.to_nat n) 0
      (Some (nvram_info_of d bp mem (replicate (Z.to_nat n) {| ulId := 0; chInUse := 0 |}))).
Proof.
  intros n Hn. unfold InitNvramInfo. fold n.
  destruct (Z.ltb_spec 0 n); [|lia]. destruct (Z.leb_spec n NVRAM_MAC_COUNT_MAX); [|lia].
  destruct bp; reflexivity.
Qed.

(** The loop on a table of [n] entries, evaluated. *)
Lemma reserve_macs_small (m : nat) sd psi base :
  (m < 12)%nat →
  let info l := Some {| ni_size := 60 + 7 * Z.of_nat m; ulSdramSize := sd; ulPsiSize := psi;
                        ulNumMacAddrs := Z.of_nat m; ucaBaseMacAddr := base; MacAddrs := l |} in
  reserve_macs m 0 (info (replicate m {| ulId := 0; chInUse := 0 |})) =
    Done (tt, info (reserved_entry <$> seq 0 m)).
Proof. intros Hm info. unfold info. do 12 (destruct m as [|m]; [vm_compute; reflexivity|]). lia. Qed.

Lemma reserve_macs_large (m : nat) sd psi base :
  (12 ≤ m ≤ 32)%nat →
  let info l := Some {| ni_size := 60 + 7 * Z.of_nat m; ulSdramSize := sd; ulPsiSize := psi;
                        ulNumMacAddrs := Z.of_nat m; ucaBaseMacAddr := base; MacAddrs := l |} in
  reserve_macs m 0 (info (replicate m {| ulId := 0; chInUse := 0 |})) = Fault.
Proof.
  intros Hm info. unfold info. do 12 (destruct m as [|m]; [lia|]).
  do 21 (destruct m as [|m]; [vm_compute; reflexivity|]). lia.
Qed.

Lemma reserved_distinct m : ids_distinct (reserved_entry <$> seq 0 m).
Proof.
  assert (A : ∀ a b, ulId (reserved_entry a) = ulId (reserved_entry b) →
                     ulId (reserved_entry a) ≠ 0 → a = b).
  { intros a b E N0. unfold RESERVE_MAC_MASK in *.
    do 6 (destruct a as [|a]; [do 6 (destruct b as [|b]; [done || (by vm_compute in E)|]);
          by vm_compute in E|]). done. }
  intros i j x y Hi Hj E N0. rewrite !list_lookup_fmap in *.
  rewrite !fmap_Some in *. destruct Hi as (a & Ha & ->), Hj as (b & Hb & ->).
  apply lookup_seq in Ha, Hb. destruct Ha, Hb. simpl in *. subst. by apply A.
Qed.

(** [InitNvramInfo] with up to eleven addresses returns with a well-formed
    table of distinct owners, in which entries 0 and 2 to 5 are reserved, each
    under the id that asks for it, and the PSI size of the selected board. *)
Theorem InitNvramInfo_correct d bp mem s :
  let n := be32 (drop offsetof_ulNumMacAddrs d) in
  0 < n ≤ 11 → length d = 332%nat → Forall is_byte d →
  ∃ info, InitNvramInfo d bp mem true s = Done (tt, Some info) ∧ mac_inv info ∧
    info = nvram_info_of d bp mem (reserved_entry <$> seq 0 (Z.to_nat n)) ∧
    (∀ i, i ∈ [0; 2; 3; 4; 5] → i < n →
       ∃ id, reserved_index id = i ∧ holds (MacAddrs info) i id).
Proof.
  intros n Hn HL HB.
  exists (nvram_info_of d bp mem (reserved_entry <$> seq 0 (Z.to_nat n))). split; [|split; [|split; [done|]]].
  - rewrite InitNvramInfo_eq by (unfold NVRAM_MAC_COUNT_MAX; fold n; lia). fold n.
    unfold nvram_info_of. fold n. clearbody n.
    replace n with (Z.of_nat (Z.to_nat n)) by lia. rewrite Nat2Z.id. apply reserve_macs_small. lia.
  - split; [|apply reserved_distinct]. split; simpl; fold n.
    + unfold NVRAM_MAC_COUNT_MAX. lia.
    + by rewrite length_fmap, length_seq.
    + unfold offsetof_MacAddrs, sizeof_MAC_ADDR_INFO, sizeof_NVRAM_INFO. lia.
    + rewrite length_take, length_drop, HL. done.
    + by apply Forall_take, Forall_drop.
  - intros i Hi Hlt. rewrite !elem_of_cons, elem_of_nil in Hi. simpl. exists (if decide (i = 0) then RESERVE_MAC_MASK else i * 2 ^ 24).
    unfold holds. rewrite list_lookup_fmap, lookup_seq_lt by lia.
    by destruct Hi as [->|[->|[->|[->|[->| []]]]]].
Qed.

(** With twelve or more addresses, all of which the range check admits,
    [InitNvramInfo] reads beyond the memory it allocated: the size is computed
    with seven bytes per entry and an entry has eight. *)
Theorem InitNvramInfo_overrun d bp mem s :
  12 ≤ be32 (drop offsetof_ulNumMacAddrs d) ≤ NVRAM_MAC_COUNT_MAX →
  InitNvramInfo d bp mem true s = Fault.
Proof.
  set (n := be32 _). unfold NVRAM_MAC_COUNT_MAX. intros Hn.
  rewrite InitNvramInfo_eq by (unfold NVRAM_MAC_COUNT_MAX; fold n; lia). fold n.
  unfold nvram_info_of. fold n. clearbody n.
  replace n with (Z.of_nat (Z.to_nat n)) by lia. rewrite Nat2Z.id. apply reserve_macs_large. lia.
Qed.

(** ** Witnesses *)

(** NVRAM data with base address 00:1E:10:x:00:FC and [k] addresses. *)
Definition sample_nvram (x k : Z) : list Z :=
  replicate 284 0 ++ [0; 0; 0; k] ++ [0; 0x1E; 0x10; x; 0xFF; 0xFC] ++ replicate 38 0.

Definition sample_info (x : Z) : NVRAM_INFO :=
  nvram_info_of (sample_nvram x 8) (Some g_huawei96358gw_HG553) 0x2000000
    (reserved_entry <$> seq 0 8).

Lemma sample_inv x : is_byte x → mac_inv (sample_info x).
Proof.
  intros Hx. split; [|apply reserved_distinct]. split; simpl; try done.
  repeat (apply Forall_cons; split; [done || (vm_compute; done)|]). done.
Qed.

Lemma mac_addresses_unique_witness :
  ∃ n2, mac_run [GetMac 7; ReleaseMac [0; 0x1E; 0x10; 0x11; 0xFF; 0xFC]; GetMac 9; GetMac 3]
          (Some (match kerSysGetMacAddress 5 (Some (sample_info 0x11)) with
                 | Done (_, Some n1) => n1 | _ => sample_info 0x11 end)) = Done (tt, Some n2) ∧
    (∀ m2 s3, kerSysGetMacAddress 6 (Some n2) = Done ((0, Some m2), s3) →
              [0; 0x1E; 0x10; 0x11; 0xFF; 0xFD] ≠ m2).
Proof.
  destruct (mac_addresses_unique (sample_info 0x11) 5 6 [0; 0x1E; 0x10; 0x11; 0xFF; 0xFD]
    (match kerSysGetMacAddress 5 (Some (sample_info 0x11)) with
     | Done (_, Some n1) => n1 | _ => sample_info 0x11 end)
    [GetMac 7; ReleaseMac [0; 0x1E; 0x10; 0x11; 0xFF; 0xFC]; GetMac 9; GetMac 3])
    as (n2 & E & _ & H).
  - by apply sample_inv.
  - done.
  - done.
  - done.
  - done.
  - vm_compute. reflexivity.
  - repeat constructor; vm_compute; done.
  - repeat constructor; vm_compute; done.
  - exists n2. split; [exact E|exact H].
Defined.

Lemma mac_release_get_witness :
  ∃ m n1 n2 n3, kerSysGetMacAddress 5 (Some (sample_info 0x11)) = Done ((0, Some m), Some n1) ∧
    kerSysReleaseMacAddress m (Some n1) = Done (0, Some n2) ∧
    kerSysGetMacAddress 5 (Some n2) = Done ((0, Some m), Some n3).
Proof.
  eexists _, _. 
  destruct (mac_release_get (sample_info 0x11) 5 [0; 0x1E; 0x10; 0x11; 0xFF; 0xFD]
    (match kerSysGetMacAddress 5 (Some (sample_info 0x11)) with
     | Done (_, Some n1) => n1 | _ => sample_info 0x11 end)) as (n2 & n3 & E2 & E3).
  - by apply sample_inv.
  - done.
  - done.
  - vm_compute. done.
  - vm_compute. reflexivity.
  - exists n2, n3. split; [|split; [exact E2|exact E3]]. vm_compute. reflexivity.
Defined.

Lemma mac_carry_not_released_witness :
  kerSysReleaseMacAddress [0; 0x1E; 0x10; 0; 0; 1] (Some (sample_info 0xFF)) =
    Done (- EINVAL, Some (sample_info 0xFF)).
Proof.
  apply (mac_carry_not_released (sample_info 0xFF) 5).
  - by apply sample_inv.
  - vm_compute. done.
  - vm_compute. done.
Defined.

Lemma InitNvramInfo_correct_witness :
  ∃ info, InitNvramInfo (sample_nvram 0x11 8) (Some g_huawei96358gw_HG553) 0x2000000 true None
            = Done (tt, Some info) ∧ mac_inv info ∧ ulPsiSize info = 65536.
Proof.
  destruct (InitNvramInfo_correct (sample_nvram 0x11 8) (Some g_huawei96358gw_HG553) 0x2000000 None)
    as (info & E & I & -> & _).
  - vm_compute. done.
  - done.
  - vm_compute. repeat (apply Forall_cons; split; [done|]). done.
  - eexists. split; [exact E|]. split; [exact I|]. vm_compute. reflexivity.
Defined.

Lemma InitNvramInfo_overrun_witness :
  InitNvramInfo (sample_nvram 0x11 12) (Some g_huawei96358gw_HG553) 0x2000000 true None = Fault.
Proof. apply InitNvramInfo_overrun. vm_compute. split; discriminate. Defined.
