(* ===== verification/FlashAreas.v ===== *)
(** * Correctness of the flash storage areas

    The functions of [KerFlash] against the flash contract: the layout that
    [kerSysFlashInit] computes, and what reading, writing and clearing an area do
    to the bytes of the flash and to the kernel's buffers. *)

From stdpp Require Import base numbers list strings.
From Stdlib Require Import ZArith Lia.
From S2P Require Import Prelude Crc32 BoardTables BoardParms FlashApi KerFlash.

(** ** Allocation *)

Section alloc.
Context {S : Type} (kmalloc : nat → bool).
Implicit Types k : kstate S.

Lemma set_alloc_twice c l c' l' k : set_alloc c l (set_alloc c' l' k) = set_alloc c l k.
Proof. done. Qed.

(** The loop stops at the first successful call, or after [n + 1] failures. *)
Lemma retry_loop_spec n : ∀ t k,
  (∃ j, (j ≤ n)%nat ∧ (∀ i, (i < j)%nat → kmalloc (k_calls k + i)%nat = false) ∧
     kmalloc (k_calls k + j)%nat = true ∧
     retry_loop kmalloc n t k =
       Done ((t + Z.of_nat j, true), set_alloc (k_calls k + j + 1) (k_live k + 1) k)) ∨
  ((∀ i, (i ≤ n)%nat → kmalloc (k_calls k + i)%nat = false) ∧
     retry_loop kmalloc n t k =
       Done ((t + Z.of_nat n + 1, false), set_alloc (k_calls k + n + 1) (k_live k) k)).
Proof.
  induction n as [|n IH]; intros t k; cbn [retry_loop].
  all: destruct (kmalloc (k_calls k)) eqn:E.
  1, 3: left; exists 0%nat; split; [lia|]; split; [lia|]; rewrite Nat.add_0_r, Z.add_0_r;
    split; [done|]; do 3 f_equal; lia.
  - right. split.
    + intros i Hi. by replace (k_calls k + i)%nat with (k_calls k) by lia.
    + do 2 f_equal; [f_equal; lia|f_equal; lia].
  - destruct (IH (t + 1) (set_alloc (Datatypes.S (k_calls k)) (k_live k) k))
      as [(j&Hj&Hf&Ht&Hr)|[Hf Hr]]; simpl in Hf.
    + left. exists (Datatypes.S j). simpl in Ht. rewrite Hr. split; [lia|]. split; [|split].
      * intros [|i] Hi; [by rewrite Nat.add_0_r|].
        replace (k_calls k + Datatypes.S i)%nat with (Datatypes.S (k_calls k + i)) by lia.
        apply Hf. lia.
      * by replace (k_calls k + Datatypes.S j)%nat with (Datatypes.S (k_calls k + j)) by lia.
      * rewrite set_alloc_twice. do 2 f_equal; [f_equal; lia|]. f_equal. simpl. lia.
    + right. rewrite Hr. split.
      * intros [|i] Hi; [by rewrite Nat.add_0_r|].
        replace (k_calls k + Datatypes.S i)%nat with (Datatypes.S (k_calls k + i)) by lia.
        apply Hf. lia.
      * rewrite set_alloc_twice. do 2 f_equal; [f_equal; lia|]. f_equal. simpl. lia.
Qed.

(** [memory_soon k]: one of the next thousand calls of [kmalloc] succeeds. *)
Definition memory_soon (k : kstate S) : Prop :=
  ∃ j, (j < 1000)%nat ∧ kmalloc (k_calls k + j)%nat = true.

Lemma retriedKmalloc_ok size k : memory_soon k →
  ∃ c, retriedKmalloc kmalloc size k =
    Done (Some (replicate (Z.to_nat size) 0), set_alloc c (k_live k + 1) k).
Proof.
  intros (j&Hj&Ht). unfold retriedKmalloc.
  destruct (retry_loop_spec 1000 0 k) as [(j'&Hj'&Hf&Ht'&Hr)|[Hf _]].
  - mstep Hr. assert (j' ≤ j)%nat.
    { destruct (decide (j' ≤ j)%nat) as [|Hn]; [done|]. rewrite (Hf j) in Ht by lia. done. }
    rewrite (proj2 (Z.leb_gt 1000 _)) by lia. by eexists.
  - rewrite (Hf j) in Ht by lia. done.
Qed.

(** [retriedKmalloc] always returns.  It hands out a zeroed buffer exactly
    when one of its first thousand attempts succeeds; when only the last
    attempt, the 1001st, succeeds it returns NULL and the buffer is lost. *)
Theorem retriedKmalloc_correct (size : Z) k :
  ∃ o k', retriedKmalloc kmalloc size k = Done (o, k') ∧
    (o = Some (replicate (Z.to_nat size) 0) ∧ memory_soon k ∧ k_live k' = k_live k + 1 ∨
     o = None ∧ ¬ memory_soon k ∧
       k_live k' = k_live k + (if kmalloc (k_calls k + 1000)%nat then 1 else 0)).
Proof.
  unfold retriedKmalloc.
  destruct (retry_loop_spec 1000 0 k) as [(j&Hj&Hf&Ht&Hr)|[Hf Hr]]; mstep Hr.
  - destruct (decide (j = 1000%nat)) as [->|].
    + rewrite (proj2 (Z.leb_le 1000 _)) by lia. eexists _, _. split; [reflexivity|]. right.
      split; [done|]. split; [|by rewrite Ht].
      intros (i&Hi&Hi'). rewrite (Hf i) in Hi' by done. done.
    + rewrite (proj2 (Z.leb_gt 1000 _)) by lia. eexists _, _. split; [reflexivity|]. left.
      split; [done|]. split; [|done]. exists j. split; [lia|done].
  - rewrite (proj2 (Z.leb_le 1000 _)) by lia. eexists _, _. split; [reflexivity|]. right.
    split; [done|]. split; [|rewrite (Hf 1000%nat) by lia; simpl; lia].
    intros (i&Hi&Hi'). rewrite (Hf i) in Hi' by lia. done.
Qed.
End alloc.

(** ** Sector copies *)

Section areas.
Context {S : Type} (FB : Z) (d : flash_device_info_t S) {C : FlashContract FB d}.
Context (kmalloc : nat → bool).
Implicit Types k : kstate S.
Abbreviation base := (sec_base fc_size).

(** The flash driver is in place and in a good state. *)
Record kok (k : kstate S) : Prop := {
  kk_dev : g_flash_info k = Some d;
  kk_ok : fc_ok (k_flash k)
}.

(** [k'] has the flash contents [c] and differs from [k] otherwise only in the
    allocation counters, with [l] live buffers. *)
Record kstep (k : kstate S) (c : Z → Z) (l : Z) (k' : kstate S) : Prop := {
  st_ok : kok k';
  st_mem : ∀ a, fc_mem (k_flash k') a = c a;
  st_init : flashInitialized k' = flashInitialized k;
  st_fInfo : fInfo k' = fInfo k;
  st_bp : g_pCurrentBp k' = g_pCurrentBp k;
  st_leds : k_leds k' = k_leds k;
  st_live : k_live k' = l
}.

Lemma kstep_refl k : kok k → kstep k (fc_mem (k_flash k)) (k_live k) k.
Proof. done. Qed.

Lemma kstep_trans k c l k1 c2 l2 k2 : kstep k c l k1 → kstep k1 c2 l2 k2 → kstep k c2 l2 k2.
Proof. intros [] []. constructor; congruence. Qed.

Lemma kstep_ext k c c' l k' : (∀ a, c a = c' a) → kstep k c l k' → kstep k c' l k'.
Proof. intros E []. constructor; try done. intros a. by rewrite st_mem0. Qed.

Lemma kstep_flash k f c : kok k → fc_ok f → (∀ a, fc_mem f a = c a) →
  kstep k c (k_live k) (set_flash f k).
Proof. intros [] ??. by repeat constructor. Qed.

Lemma kstep_alloc k n l : kok k → kstep k (fc_mem (k_flash k)) l (set_alloc n l k).
Proof. intros []. by repeat constructor. Qed.

Lemma set_flash_id k : set_flash (k_flash k) k = k.
Proof. by destruct k. Qed.

Lemma blk_fits_u16 i : 0 ≤ i < fc_num → u16 i = i.
Proof. intros. pose proof fc_num_range. apply u16_small. lia. Qed.

Lemma k_size k i : kok k → 0 ≤ i < fc_num →
  flash (λ g, flash_get_sector_size g (u16 i)) k = Done (fc_size i, k).
Proof.
  intros H Hi. unfold flash. rewrite (kk_dev k H). simpl. rewrite blk_fits_u16 by done.
  rewrite fc_sector_size by (done || apply H). by rewrite set_flash_id.
Qed.

Lemma base_mono i j : 0 ≤ i ≤ j → j ≤ fc_num → base i + (j - i) ≤ base j.
Proof. intros. apply (sec_base_mono _ fc_num); [|done..]. intros. by apply fc_size_pos. Qed.

Lemma base_range i : 0 ≤ i ≤ fc_num → 0 ≤ base i < 2 ^ 31.
Proof.
  intros. pose proof fc_total_range. pose proof (base_mono 0 i) as H1.
  pose proof (base_mono i fc_num). rewrite sec_base_0 in H1. lia.
Qed.

Lemma k_blk_sizes k n : kok k → ∀ i j used, 0 ≤ j ≤ i → i + Z.of_nat n ≤ fc_num →
  used = base i - base j →
  blk_sizes n i used k = Done (base (i + Z.of_nat n) - base j, k).
Proof.
  intros H. induction n as [|n IH]; intros i j used Hi Hn ->; cbn [blk_sizes].
  { by rewrite Z.add_0_r. }
  mstep (k_size k i H ltac:(lia)).
  replace (base i - base j + fc_size i) with (base (i + 1) - base j)
    by (rewrite sec_base_succ by lia; lia).
  pose proof (base_range (i + 1)). pose proof (base_mono j (i + 1)). pose proof (base_range j).
  rewrite s32_small by lia.
  rewrite (IH (i + 1) j) by lia. by replace (i + 1 + Z.of_nat n) with (i + Z.of_nat (Datatypes.S n)) by lia.
Qed.

Lemma k_read k i n : kok k → 0 ≤ i < fc_num → 0 ≤ n → base i + n ≤ base fc_num →
  ∃ k', flash (λ g, flash_read_buf g (u16 i) 0 n) k =
      Done ((FLASH_API_OK, Some (bytes_at (fc_mem (k_flash k)) (base i) (Z.to_nat n))), k') ∧
    kstep k (fc_mem (k_flash k)) (k_live k) k'.
Proof.
  intros H Hi Hn Hr. unfold flash. rewrite (kk_dev k H). simpl. rewrite blk_fits_u16 by done.
  destruct (fc_read (k_flash k) i 0 n) as (f&E&Hok&Hmem); [apply H|lia..|].
  rewrite E. eexists. split.
  - do 4 f_equal. unfold bytes_at. apply map_ext. intros. f_equal. lia.
  - by apply kstep_flash.
Qed.

Lemma k_read_blks n : ∀ k i pos buf, kok k → 0 ≤ i → i + Z.of_nat n ≤ fc_num → 0 ≤ pos →
  Z.of_nat (length buf) = pos + (base (i + Z.of_nat n) - base i) →
  ∃ k', read_blks n i pos buf k =
      Done (take (Z.to_nat pos) buf ++
            bytes_at (fc_mem (k_flash k)) (base i) (Z.to_nat (base (i + Z.of_nat n) - base i)), k') ∧
    kstep k (fc_mem (k_flash k)) (k_live k) k'.
Proof.
  induction n as [|n IH]; intros k i pos buf H Hi Hn Hpos Hlen; cbn [read_blks].
  { exists k. split; [|by apply kstep_refl]. rewrite Z.add_0_r, Z.sub_diag in *. simpl.
    rewrite app_nil_r, take_ge by lia. done. }
  destruct (fc_size_pos i) as [Hs _]; [lia|].
  pose proof (base_mono (i + 1) (i + Z.of_nat (Datatypes.S n))) as Hm1.
  pose proof (base_mono (i + 1) fc_num) as Hm2.
  rewrite sec_base_succ in Hm1, Hm2 by lia.
  mstep (k_size k i H ltac:(lia)).
  destruct (k_read k i (fc_size i)) as (k1&E1&S1); [done|lia..|]. mstep E1.
  set (bs := bytes_at (fc_mem (k_flash k)) (base i) (Z.to_nat (fc_size i))).
  assert (Hbs : length bs = Z.to_nat (fc_size i)) by apply bytes_at_length.
  rewrite buf_write_Some by lia. cbn [of_option]. rewrite bind_ret.
  set (buf' := take (Z.to_nat pos) buf ++ bs ++ drop (Z.to_nat pos + length bs) buf).
  assert (Hl' : length buf' = length buf).
  { unfold buf'. rewrite !length_app, length_take, length_drop. lia. }
  destruct (IH k1 (i + 1) (pos + fc_size i) buf') as (k2&E2&S2); [apply S1|lia..| |].
  { rewrite Hl', sec_base_succ by lia.
    replace (i + 1 + Z.of_nat n) with (i + Z.of_nat (Datatypes.S n)) by lia. lia. }
  rewrite E2. exists k2. split.
  2: { eapply kstep_trans; [exact S1|]. rewrite (st_live _ _ _ _ S1) in S2.
       eapply kstep_ext; [|exact S2]. apply S1. }
  do 2 f_equal. unfold buf'.
  replace (Z.to_nat (pos + fc_size i)) with (Z.to_nat pos + length bs)%nat by lia.
  rewrite app_assoc, take_app_length' by (rewrite length_app, length_take; lia).
  rewrite <- app_assoc. f_equal.
  replace (i + 1 + Z.of_nat n) with (i + Z.of_nat (Datatypes.S n)) by lia.
  rewrite (bytes_at_ext _ (fc_mem (k_flash k))) by (intros; apply S1).
  unfold bs. rewrite sec_base_succ by lia.
  replace (Z.to_nat (base (i + Z.of_nat (Datatypes.S n)) - base i)) with
    (Z.to_nat (fc_size i) + Z.to_nat (base (i + Z.of_nat (Datatypes.S n)) - (base i + fc_size i)))%nat
    by lia.
  rewrite bytes_at_app. f_equal. f_equal. lia.
Qed.

(** ** [getSharedBlks] and [setSharedBlks] *)

(** The bytes of the blocks [i], ..., [j - 1]. *)
Definition blks_at (c : Z → Z) (i j : Z) : list Z :=
  bytes_at c (base i) (Z.to_nat (base j - base i)).

Lemma blks_at_length c i j : 0 ≤ i ≤ j → j ≤ fc_num →
  Z.of_nat (length (blks_at c i j)) = base j - base i.
Proof.
  intros. unfold blks_at. rewrite bytes_at_length. pose proof (base_mono i j). lia.
Qed.

Lemma k_getShared k i j : kok k → 0 ≤ i ≤ j → j ≤ fc_num → memory_soon kmalloc k →
  ∃ k', getSharedBlks kmalloc i j k = Done (Some (blks_at (fc_mem (k_flash k)) i j), k') ∧
    kstep k (fc_mem (k_flash k)) (k_live k + 1) k'.
Proof.
  intros H Hi Hj Hm. unfold getSharedBlks.
  assert (Hn : i + Z.of_nat (Z.to_nat (j - i)) = j) by lia.
  assert (E0 : blk_sizes (Z.to_nat (j - i)) i 0 k = Done (base j - base i, k)).
  { rewrite (k_blk_sizes k _ H i i) by lia. by rewrite Hn. }
  mstep E0. destruct (retriedKmalloc_ok kmalloc (base j - base i) k Hm) as (c&Ea).
  mstep Ea.
  destruct (k_read_blks (Z.to_nat (j - i)) (set_alloc c (k_live k + 1) k) i 0
              (replicate (Z.to_nat (base j - base i)) 0)) as (k2&E2&S2).
  { by apply kstep_alloc. } { lia. } { lia. } { lia. }
  { rewrite Hn, length_replicate. pose proof (base_mono i j). lia. }
  mstep E2. exists k2. split.
  - rewrite Hn. done.
  - eapply kstep_trans; [|exact S2]. by apply kstep_alloc.
Qed.

(** Without memory the copy is refused and nothing changes but, possibly, one
    lost buffer. *)
Lemma k_getShared_fail k i j : kok k → 0 ≤ i ≤ j → j ≤ fc_num → ¬ memory_soon kmalloc k →
  ∃ k', getSharedBlks kmalloc i j k = Done (None, k') ∧
    kstep k (fc_mem (k_flash k))
      (k_live k + (if kmalloc (k_calls k + 1000)%nat then 1 else 0)) k'.
Proof.
  intros H Hi Hj Hm. unfold getSharedBlks.
  assert (Hn : i + Z.of_nat (Z.to_nat (j - i)) = j) by lia.
  assert (E0 : blk_sizes (Z.to_nat (j - i)) i 0 k = Done (base j - base i, k)).
  { rewrite (k_blk_sizes k _ H i i) by lia. by rewrite Hn. }
  mstep E0. unfold retriedKmalloc.
  destruct (retry_loop_spec kmalloc 1000 0 k) as [(m&Hm1&Hf&Ht&Hr)|[Hf Hr]].
  - destruct (decide (m = 1000%nat)) as [->|]; [|destruct Hm; exists m; split; [lia|done]].
    rewrite bind_assoc. mstep Hr. cbn -[Z.add]. eexists. split; [reflexivity|]. rewrite Ht.
    by apply kstep_alloc.
  - rewrite bind_assoc. mstep Hr. cbn -[Z.add]. eexists. split; [reflexivity|].
    rewrite (Hf 1000%nat) by lia. rewrite Z.add_0_r. by apply kstep_alloc.
Qed.

Lemma k_erase k i : kok k → 0 ≤ i < fc_num →
  ∃ k', flash (λ g, flash_sector_erase_int g (u16 i)) k = Done (FLASH_API_OK, k') ∧
    kstep k (λ a, if decide (base i ≤ a < base i + fc_size i) then 255
                  else fc_mem (k_flash k) a) (k_live k) k'.
Proof.
  intros H Hi. unfold flash. rewrite (kk_dev k H). simpl. rewrite blk_fits_u16 by done.
  destruct (fc_erase (k_flash k) i) as (f&E&Hok&Hmem); [apply H|done|].
  rewrite E. eexists. split; [reflexivity|]. by apply kstep_flash.
Qed.

Lemma k_write_sector k i buf : kok k → 0 ≤ i < fc_num →
  fc_size i ≤ Z.of_nat (length buf) → Forall is_byte buf →
  (∀ a, base i ≤ a < base i + fc_size i → fc_mem (k_flash k) a = 255) →
  ∃ k', flash (λ g, flash_write_buf g (u16 i) 0 buf (fc_size i)) k = Done (fc_size i, k') ∧
    kstep k (λ a, if decide (base i ≤ a < base i + fc_size i)
                  then nth (Z.to_nat (a - base i)) buf 0
                  else fc_mem (k_flash k) a) (k_live k) k'.
Proof.
  intros H Hi Hl Hb Hc. unfold flash. rewrite (kk_dev k H). simpl. rewrite blk_fits_u16 by done.
  destruct (fc_size_pos i) as [Hs He]; [done|].
  destruct (fc_write (k_flash k) i 0 buf (fc_size i)) as (f&E&Hok&Hmem);
    [apply H|done|lia|lia|done|done|lia|done|done|intros; apply Hc; lia|].
  rewrite E. eexists. split; [reflexivity|]. apply kstep_flash; [done..|].
  intros a. rewrite Hmem. rewrite Z.add_0_r, Z.sub_0_r. done.
Qed.

Lemma k_write_blks n : ∀ k i pos buf, kok k → 0 ≤ i → i + Z.of_nat n ≤ fc_num → 0 ≤ pos →
  pos + (base (i + Z.of_nat n) - base i) ≤ Z.of_nat (length buf) → Forall is_byte buf →
  ∃ k', write_blks n i pos buf k = Done (0, k') ∧
    kstep k (λ a, if decide (base i ≤ a < base (i + Z.of_nat n))
                  then nth (Z.to_nat (pos + a - base i)) buf 0
                  else fc_mem (k_flash k) a) (k_live k) k'.
Proof.
  induction n as [|n IH]; intros k i pos buf H Hi Hn Hpos Hlen Hb; cbn [write_blks].
  { exists k. split; [done|]. eapply kstep_ext; [|by apply kstep_refl].
    intros a. rewrite decide_False; [done|]. rewrite Z.add_0_r. lia. }
  destruct (fc_size_pos i) as [Hs _]; [lia|].
  pose proof (base_mono (i + 1) (i + Z.of_nat (Datatypes.S n))) as Hm1.
  rewrite sec_base_succ in Hm1 by lia.
  mstep (k_size k i H ltac:(lia)).
  destruct (k_erase k i H) as (k1&E1&S1); [lia|]. mstep E1.
  destruct (k_write_sector k1 i (drop (Z.to_nat pos) buf)) as (k2&E2&S2).
  { apply S1. } { lia. } { rewrite length_drop. lia. } { by apply Forall_drop. }
  { intros a Ha. rewrite (st_mem _ _ _ _ S1). by rewrite decide_True. }
  mstep E2. rewrite Z.eqb_refl. cbn [negb].
  destruct (IH k2 (i + 1) (pos + fc_size i) buf) as (k3&E3&S3); [apply S2|lia..| |done|].
  { rewrite sec_base_succ by lia.
    replace (i + 1 + Z.of_nat n) with (i + Z.of_nat (Datatypes.S n)) by lia. lia. }
  rewrite E3. exists k3. split; [done|].
  eapply kstep_trans; [exact S1|]. eapply kstep_trans; [exact S2|].
  rewrite (st_live _ _ _ _ S2), (st_live _ _ _ _ S1) in S3.
  eapply kstep_ext; [|exact S3]. intros a. rewrite sec_base_succ by lia.
  replace (i + 1 + Z.of_nat n) with (i + Z.of_nat (Datatypes.S n)) by lia.
  destruct (decide (base i + fc_size i ≤ a < base (i + Z.of_nat (Datatypes.S n)))).
  - rewrite decide_True by lia. f_equal. lia.
  - rewrite (st_mem _ _ _ _ S2). destruct (decide (base i ≤ a < base i + fc_size i)).
    + rewrite decide_True by lia. rewrite !nth_lookup, lookup_drop. do 2 f_equal. lia.
    + rewrite (st_mem _ _ _ _ S1), !decide_False by lia. done.
Qed.

Lemma k_setShared k i j buf : kok k → 0 ≤ i ≤ j → j ≤ fc_num →
  Z.of_nat (length buf) = base j - base i → Forall is_byte buf →
  ∃ k', setSharedBlks i j buf k = Done (0, k') ∧
    kstep k (stored (fc_mem (k_flash k)) (base i) buf) (k_live k) k'.
Proof.
  intros H Hi Hj Hl Hb. unfold setSharedBlks.
  assert (Hn : i + Z.of_nat (Z.to_nat (j - i)) = j) by lia.
  destruct (k_write_blks (Z.to_nat (j - i)) k i 0 buf) as (k'&E&St);
    [done|lia|lia|lia|rewrite Hn; lia|done|].
  rewrite Hn in *. exists k'. split; [done|]. eapply kstep_ext; [|exact St]. intros a.
  unfold stored. rewrite Hl. replace (base i + (base j - base i)) with (base j) by lia. done.
Qed.

(** ** Areas *)

(** An area inside the flash: its bytes lie in its blocks. *)
Record area_ok (a : area) : Prop := {
  ao_start : 0 ≤ start_blk a;
  ao_number : 0 ≤ number_blk a;
  ao_end : start_blk a + number_blk a ≤ fc_num;
  ao_offset : 0 ≤ blk_offset a;
  ao_length : 0 ≤ area_length a;
  ao_fits : blk_offset a + area_length a ≤
              base (start_blk a + number_blk a) - base (start_blk a)
}.

(** The flash address of the area. *)
Definition area_addr (a : area) : Z := base (start_blk a) + blk_offset a.

Lemma kfree_step k c l k1 : kstep k c (l + 1) k1 →
  ∃ k2, retriedKfree k1 = Done (tt, k2) ∧ kstep k c l k2.
Proof.
  intros H. eexists. split; [reflexivity|]. eapply kstep_trans; [exact H|].
  assert (l = k_live k1 - 1) as -> by (rewrite (st_live _ _ _ _ H); lia).
  eapply kstep_ext; [|apply kstep_alloc, H]. apply H.
Qed.

Lemma k_area_get k a limit n off : kok k → area_ok a → memory_soon kmalloc k →
  0 ≤ off → 0 ≤ n → n ≤ limit → off + n ≤ area_length a →
  ∃ k', area_get kmalloc a limit n off k =
      Done ((0, Some (bytes_at (fc_mem (k_flash k)) (area_addr a + off) (Z.to_nat n))), k') ∧
    kstep k (fc_mem (k_flash k)) (k_live k) k'.
Proof.
  intros H [] Hm Ho Hn Hlim Hr. unfold area_get.
  destruct (Z.gtb_spec n limit); [lia|].
  destruct (k_getShared k (start_blk a) (start_blk a + number_blk a)) as (k1&E1&S1);
    [done|lia|done|done|].
  unfold shared. mstep E1. unfold blks_at.
  rewrite bytes_at_read by lia. cbn [of_option]. rewrite bind_ret.
  destruct (kfree_step _ _ _ _ S1) as (k2&E2&S2). mstep E2.
  exists k2. split; [|done]. unfold area_addr. by rewrite Z.add_assoc.
Qed.

Lemma blks_at_bytes k i j : fc_ok (k_flash k) → 0 ≤ i ≤ j → j ≤ fc_num →
  Forall is_byte (blks_at (fc_mem (k_flash k)) i j).
Proof.
  intros H Hi Hj. apply Forall_forall. intros x Hx. unfold blks_at, bytes_at in Hx.
  apply list_elem_of_In, in_map_iff in Hx as (n&<-&Hn%in_seq).
  apply fc_mem_byte; [done|]. pose proof (base_range i). pose proof (base_mono i j).
  pose proof (base_mono j fc_num). lia.
Qed.

(** Replacing a stretch of a copied buffer and storing the buffer is storing the
    stretch. *)
Lemma stored_splice c i j off src buf' :
  0 ≤ i ≤ j → j ≤ fc_num →
  buf_write (blks_at c i j) off src = Some buf' →
  ∀ a, stored c (base i) buf' a = stored c (base i + off) src a.
Proof.
  intros Hi Hj Hw a. pose proof (buf_write_length _ _ _ _ Hw) as Hl.
  pose proof (blks_at_length c i j Hi Hj) as Hlb.
  pose proof (buf_write_inv _ _ _ _ Hw) as (Ho&Hfit&_).
  unfold stored at 1. rewrite Hl. case_decide as Hin; [|].
  - rewrite nth_lookup, (buf_write_lookup _ _ _ _ _ Hw).
    unfold stored. case_decide; case_decide; try lia.
    + rewrite nth_lookup. do 2 f_equal. lia.
    + rewrite <- nth_lookup. unfold blks_at. rewrite bytes_at_nth; [f_equal; lia|].
      unfold blks_at in Hin. rewrite bytes_at_length in Hin. lia.
  - rewrite stored_out; [done|]. lia.
Qed.

Lemma k_unshared k a buf src off c : kok k → area_ok a →
  (∀ x, fc_mem (k_flash k) x = c x) → fc_ok (k_flash k) →
  buf_write (blks_at c (start_blk a) (start_blk a + number_blk a)) off src = Some buf →
  Forall is_byte src →
  ∃ k', unshared a buf k = Done (0, k') ∧
    kstep k (stored c (base (start_blk a) + off) src) (k_live k) k'.
Proof.
  intros H [] Hc Hok Hw Hsrc. unfold unshared.
  pose proof (buf_write_length _ _ _ _ Hw) as Hl.
  pose proof (buf_write_inv _ _ _ _ Hw) as (_&_&Hbuf).
  assert (E : blks_at c (start_blk a) (start_blk a + number_blk a) =
              blks_at (fc_mem (k_flash k)) (start_blk a) (start_blk a + number_blk a)).
  { apply bytes_at_ext. intros. by rewrite Hc. }
  destruct (k_setShared k (start_blk a) (start_blk a + number_blk a) buf) as (k1&E1&S1);
    [done|lia|done| | |].
  { rewrite Hl, blks_at_length; lia. }
  { rewrite Hbuf, E. pose proof (blks_at_bytes k (start_blk a) (start_blk a + number_blk a) Hok
      ltac:(lia) ltac:(lia)). apply Forall_app. split; [by apply Forall_take|].
    apply Forall_app. split; [done|by apply Forall_drop]. }
  exists k1. split; [done|]. eapply kstep_ext; [|exact S1]. intros x.
  rewrite E in Hw. erewrite stored_splice; [|..|exact Hw]; [|lia|lia].
  unfold stored. by rewrite Hc.
Qed.

Lemma k_area_set k a limit string n off : kok k → area_ok a → memory_soon kmalloc k →
  0 ≤ off → 0 ≤ n → n ≤ limit → off + n ≤ area_length a →
  n ≤ Z.of_nat (length string) → Forall is_byte string →
  ∃ k', area_set kmalloc a limit string n off k = Done (0, k') ∧
    kstep k (stored (fc_mem (k_flash k)) (area_addr a + off) (take (Z.to_nat n) string))
      (k_live k) k'.
Proof.
  intros H Ha Hm Ho Hn Hlim Hr Hl Hb. pose proof Ha as [].
  unfold area_set. destruct (Z.gtb_spec n limit); [lia|].
  destruct (k_getShared k (start_blk a) (start_blk a + number_blk a)) as (k1&E1&S1);
    [done|lia|done|done|].
  unfold shared. mstep E1.
  rewrite (buf_read_Some string 0 n) by lia. cbn [of_option]. rewrite bind_ret, drop_0.
  set (src := take (Z.to_nat n) string).
  assert (Hsrc : Z.of_nat (length src) = n) by (unfold src; rewrite length_take; lia).
  destruct (buf_write (blks_at (fc_mem (k_flash k)) (start_blk a) (start_blk a + number_blk a))
              (blk_offset a + off) src) as [buf'|] eqn:Hw; cycle 1.
  { rewrite buf_write_Some in Hw; [done|lia|]. rewrite blks_at_length; lia. }
  cbn [of_option]. rewrite bind_ret.
  destruct (k_unshared k1 a buf' src (blk_offset a + off) (fc_mem (k_flash k)))
    as (k2&E2&S2); [apply S1|done|apply S1|apply S1|done|by apply Forall_take|].
  mstep E2. rewrite (st_live _ _ _ _ S1) in S2.
  destruct (kfree_step _ _ _ _ (kstep_trans _ _ _ _ _ _ _ S1 S2)) as (k3&E3&S3).
  mstep E3. exists k3. split; [done|]. unfold area_addr. by rewrite <- Z.add_assoc.
Qed.

Lemma k_area_clear k a : kok k → area_ok a → memory_soon kmalloc k → area_length a ≠ 0 →
  ∃ k', area_clear kmalloc a k = Done (0, k') ∧
    kstep k (stored (fc_mem (k_flash k)) (area_addr a)
               (replicate (Z.to_nat (area_length a)) 0)) (k_live k) k'.
Proof.
  intros H Ha Hm Hz. pose proof Ha as [].
  unfold area_clear. rewrite (proj2 (Z.eqb_neq _ _) Hz).
  destruct (k_getShared k (start_blk a) (start_blk a + number_blk a)) as (k1&E1&S1);
    [done|lia|done|done|].
  unfold shared. mstep E1. unfold buf_fill. rewrite decide_True by done.
  set (src := replicate (Z.to_nat (area_length a)) 0).
  assert (Hsrc : Z.of_nat (length src) = area_length a)
    by (unfold src; rewrite length_replicate; lia).
  destruct (buf_write (blks_at (fc_mem (k_flash k)) (start_blk a) (start_blk a + number_blk a))
              (blk_offset a) src) as [buf'|] eqn:Hw; cycle 1.
  { rewrite buf_write_Some in Hw; [done|lia|]. rewrite blks_at_length; lia. }
  cbn [of_option]. rewrite bind_ret.
  destruct (k_unshared k1 a buf' src (blk_offset a) (fc_mem (k_flash k)))
    as (k2&E2&S2); [apply S1|done|apply S1|apply S1|done|by apply Forall_replicate|].
  mstep E2. rewrite (st_live _ _ _ _ S1) in S2.
  destruct (kfree_step _ _ _ _ (kstep_trans _ _ _ _ _ _ _ S1 S2)) as (k3&E3&S3).
  mstep E3. by exists k3.
Qed.
End areas.
