(* ===== verification/FlashClaims.v ===== *)
(** * The storage areas: layout and claims

    The layout of [kerSysFlashInit], and the statements about the storage
    functions as the rest of the kernel uses them. *)

From stdpp Require Import base numbers list strings.
From Stdlib Require Import ZArith Lia.
From S2P Require Import Prelude Crc32 BoardTables BoardParms FlashApi KerFlash FlashAreas.
From S2P Require Import CfiTypes CfiFlash CfiGeometry AmdFlash AmdChip RamFlash.

Section layout.
Context {S : Type} (FB : Z) (d : flash_device_info_t S) {C : FlashContract FB d}.
Implicit Types k : kstate S.
Abbreviation base := (sec_base fc_size).

(** [placed e len a]: the area [a] is [len] bytes that end where block [e]
    starts, in blocks of its own. *)
Record placed (e len : Z) (a : area) : Prop := {
  pl_ok : area_ok FB d a;
  pl_number : 0 < number_blk a;
  pl_end : start_blk a + number_blk a = e;
  pl_length : area_length a = len;
  pl_addr : area_addr FB d a + len = base e;
  pl_first : area_addr FB d a < base (start_blk a + 1)
}.

Lemma k_get_blk k b a : kok FB d k → 0 ≤ b < fc_num → base b ≤ a < base b + fc_size b →
  flash (λ g, flash_get_blk g (s32 (a + FB))) k = Done (b, k).
Proof.
  intros H Hb Ha. unfold flash. rewrite (kk_dev _ _ k H). simpl. rewrite Z.add_comm.
  rewrite (fc_blk _ b a) by (done || apply H). by rewrite set_flash_id.
Qed.

Lemma k_place k e len addr : kok FB d k → 0 < e ≤ fc_num → 0 < len ≤ base e →
  addr = base e - len →
  ∃ a, place_area FB addr len e k = Done ((a, base e - base (start_blk a)), k) ∧
    placed e len a.
Proof.
  intros H He Hlen ->. destruct (sec_find fc_size e (base e - len)) as (b&Hb&Hin); [|lia|lia|].
  { intros i Hi. apply fc_size_pos. lia. }
  unfold place_area. mstep (k_get_blk k b _ H ltac:(lia) Hin).
  assert (Hn : b + Z.of_nat (Z.to_nat (e - b)) = e) by lia.
  assert (E0 : blk_sizes (Z.to_nat (e - b)) b 0 k = Done (base e - base b, k)).
  { rewrite (k_blk_sizes FB d k _ H b b) by lia. by rewrite Hn. }
  mstep E0. pose proof (base_range FB d e) as ?. pose proof (base_range FB d b) as ?.
  rewrite u32_small by lia.
  exists {| start_blk := b; number_blk := e - b; area_length := len;
            blk_offset := base e - base b - len |}. split; [done|].
  constructor; cbn [start_blk number_blk area_length blk_offset]; [|lia..| |].
  - constructor; cbn [start_blk number_blk area_length blk_offset]; [lia..|].
    replace (b + (e - b)) with e by lia. lia.
  - unfold area_addr. cbn. lia.
  - unfold area_addr. cbn -[sec_base]. rewrite sec_base_succ by lia. lia.
Qed.

(** The areas from the end of the flash down, with a PSI of [len] bytes. *)
Record layout_ok (len : Z) (i : FLASH_ADDR_INFO) : Prop := {
  lo_psi : placed fc_num len (flash_persistent i);
  lo_bak : placed (start_blk (flash_persistent i)) len (flash_psi_backup i);
  lo_fix : placed (start_blk (flash_psi_backup i)) FIX_MAX_LEN (flash_fix i);
  lo_avl : placed (start_blk (flash_fix i)) AVAIL_MAX_LEN (flash_avail i);
  lo_var : placed (start_blk (flash_avail i)) VA_MAX_LEN (flash_variable i);
  lo_sp : placed (start_blk (flash_variable i)) SP_MAX_LEN (flash_scratch_pad i);
  lo_nvram : flash_nvram i = nvram_area;
  lo_first : 0 < start_blk (flash_scratch_pad i)
}.

(** The room an area takes: its length and less than one sector of padding. *)
Lemma placed_room e len a mx : (∀ b, 0 ≤ b < fc_num → fc_size b ≤ mx) → e ≤ fc_num →
  placed e len a → base e - len - mx < base (start_blk a) ≤ base e - len.
Proof.
  intros Hmx He [[] ?????]. rewrite sec_base_succ in pl_first0 by done.
  pose proof (Hmx (start_blk a) ltac:(lia)). unfold area_addr in *. lia.
Qed.

Context (kmalloc : nat → bool) (mapped : S → Z → Z).
Context (flash_init_ : option (flash_device_info_t S) →
                       M S (Z * option (flash_device_info_t S) * flash_report)).

(** The PSI length in bytes that the NVRAM of the flash state [f] asks for. *)
Definition psi_bytes (f : S) (bp : option BOARD_PARAMETERS) : Z :=
  s32 (fst (psi_of_nvram (nvram_bytes mapped f (u32 (u32 FB + NVRAM_DATA_OFFSET))) bp) * ONEK).

Lemma k_psi_length k f b : kok FB d k → flash_nvram (fInfo k) = nvram_area →
  k_flash k = f → g_pCurrentBp k = b →
  ∃ psi b', psi_length mapped k = Done (psi, set_bp b' k) ∧ s32 (psi * ONEK) = psi_bytes f b.
Proof.
  intros H Hnv <- <-. unfold psi_length, get_nvram_start_addr.
  assert (E : flash (λ g, flash_get_memptr g (u16 0)) k = Done (u32 FB, k)).
  { unfold flash. rewrite (kk_dev _ _ k H). simpl. pose proof fc_num_range.
    change (u16 0) with 0. rewrite fc_memptr by (lia || apply H).
    rewrite sec_base_0, Z.add_0_r. by rewrite set_flash_id. }
  rewrite bind_assoc, bind_gets, bind_assoc, Hnv. cbn [start_blk blk_offset nvram_area].
  mstep E. rewrite bind_ret, bind_gets, bind_gets.
  unfold psi_bytes. destruct (psi_of_nvram _ (g_pCurrentBp k)) as [psi b']. by exists psi, b'.
Qed.

Lemma kok_set_bp k b : kok FB d k → kok FB d (set_bp b k).
Proof. by intros []. Qed.

Lemma kok_fInfo k i : kok FB d k → kok FB d (set_fInfo i k).
Proof. by intros []. Qed.

Lemma k_num k : kok FB d k → flash flash_get_numsectors k = Done (fc_num, k).
Proof.
  intros H. unfold flash. rewrite (kk_dev _ _ k H). simpl. rewrite fc_numsectors by apply H.
  by rewrite set_flash_id.
Qed.

Lemma k_total k : kok FB d k → flash flash_get_total_size k = Done (base fc_num, k).
Proof.
  intros H. unfold flash. rewrite (kk_dev _ _ k H). simpl. rewrite fc_total_size by apply H.
  by rewrite set_flash_id.
Qed.

(** One step of the placement: the next area below block [e]. *)
Lemma k_place_next k e len mx room : kok FB d k →
  (∀ b, 0 ≤ b < fc_num → fc_size b ≤ mx) → 0 < e ≤ fc_num →
  0 < len → room + len + mx ≤ base e → 0 ≤ room → 0 ≤ mx →
  ∃ a, place_area FB (base e - len) len e k = Done ((a, base e - base (start_blk a)), k) ∧
    placed e len a ∧ room < base (start_blk a) ∧ 0 < start_blk a ≤ fc_num.
Proof.
  intros H Hmx He Hlen Hroom ??.
  destruct (k_place k e len (base e - len)) as (a&E&Hp); [done|done|lia|done|].
  exists a. split; [done|]. split; [done|].
  pose proof (placed_room e len a mx Hmx ltac:(lia) Hp) as Hr.
  pose proof Hp as [[] ?????]. split; [lia|]. split; [|lia].
  destruct (decide (start_blk a = 0)) as [E0|]; [|lia].
  rewrite E0, sec_base_0 in Hr. lia.
Qed.

(** Run the next [place_area] of the program, below block [e]; [room] is what
    the areas still to come need. *)
Ltac place_next H Hmx e len room a :=
  let E := fresh "E" in let P := fresh "P" in let R := fresh "R" in let B := fresh "B" in
  destruct (k_place_next _ e len _ room H Hmx) as (a&E&P&R&B);
    [unfold FIX_MAX_LEN, AVAIL_MAX_LEN, VA_MAX_LEN, SP_MAX_LEN; lia..|];
  match goal with |- context [place_area FB ?x len e] =>
    replace x with (base e - len) by lia end;
  mstep E; clear E.

(** [C27] The layout of [kerSysFlashInit].  On a flash with room for the areas
    the initialisation returns and places PSI, PSI backup, fix, avail, variable
    and scratch pad one below the other from the end of the flash, each in whole
    blocks of its own and right-aligned in them, above the block of the NVRAM;
    the contents of the flash are not changed. *)
Theorem kerSysFlashInit_layout k f code rep mx :
  flashInitialized k = 0 →
  flash_init_ (g_flash_info k) (k_flash k) = Done ((code, Some d, rep), f) → fc_ok f →
  (∀ b, 0 ≤ b < fc_num → fc_size b ≤ mx) →
  let len := psi_bytes f (g_pCurrentBp k) in
  0 < len → 2 * len + 40 * ONEK + 6 * mx ≤ base fc_num →
  ∃ k', kerSysFlashInit FB mapped flash_init_ k = Done (tt, k') ∧
    kok FB d k' ∧ flashInitialized k' = 1 ∧ layout_ok len (fInfo k') ∧
    (∀ a, fc_mem (k_flash k') a = fc_mem f a) ∧ k_live k' = k_live k.
Proof.
  intros Hinit Hfi Hf Hmx len Hlen Hroom. unfold kerSysFlashInit.
  pose proof fc_num_range as Hnum.
  assert (Hmx0 : 0 < mx).
  { destruct (fc_size_pos 0) as [? _]; [lia|]. pose proof (Hmx 0 ltac:(lia)). lia. }
  rewrite bind_gets, Hinit. cbn [Z.eqb negb]. rewrite bind_modify, bind_gets.
  assert (Efi : flash (λ _, flash_init_ (g_flash_info (set_init 1 k))) (set_init 1 k) =
                Done ((code, Some d, rep), set_flash f (set_init 1 k))).
  { unfold flash. simpl. by rewrite Hfi. }
  mstep Efi. rewrite bind_modify.
  set (k1 := set_gflash (Some d) (set_flash f (set_init 1 k))).
  assert (H1 : kok FB d k1) by done.
  mstep (k_num k1 H1). mstep (k_total k1 H1). rewrite bind_modify.
  set (k2 := set_fInfo (set_nvram_area (fInfo k1)) k1).
  assert (H2 : kok FB d k2) by by apply kok_fInfo.
  destruct (k_psi_length k2 f (g_pCurrentBp k) H2 eq_refl eq_refl eq_refl) as (psi&b'&Epsi&Elen).
  mstep Epsi. rewrite Elen. fold len. set (k3 := set_bp b' k2).
  assert (H3 : kok FB d k3) by by apply kok_set_bp.
  unfold ONEK in *.
  place_next H3 Hmx (@fc_num S FB d C) len (len + 40960 + 5 * mx) a1.
  place_next H3 Hmx (start_blk a1) len (40960 + 4 * mx) a2.
  place_next H3 Hmx (start_blk a2) FIX_MAX_LEN (32768 + 3 * mx) a3.
  place_next H3 Hmx (start_blk a3) AVAIL_MAX_LEN (16384 + 2 * mx) a4.
  place_next H3 Hmx (start_blk a4) VA_MAX_LEN (8192 + mx) a5.
  place_next H3 Hmx (start_blk a5) SP_MAX_LEN 0 a6.
  eexists. split; [reflexivity|]. split; [by apply kok_fInfo|]. split; [done|].
  split; [|done]. constructor; try done. simpl. lia.
Qed.

(** On uniform 128K sectors an area of at most one sector takes one sector. *)
Lemma placed_one_sector e len a : (∀ b, 0 ≤ b < fc_num → fc_size b = 131072) →
  len ≤ 131072 → e ≤ fc_num → placed e len a → start_blk a = e - 1.
Proof.
  intros Hu Hl He [[] Hnum Hend ? Haddr Hfirst].
  destruct (decide (start_blk a = e - 1)) as [|Hne]; [done|].
  pose proof (base_mono FB d (start_blk a + 1) (e - 1)) as Hm.
  pose proof (sec_base_succ fc_size (e - 1)) as Hs. replace (e - 1 + 1) with e in Hs by lia.
  rewrite Hu in Hs by lia. lia.
Qed.

(** On a flash of uniform 128K sectors, with a PSI of at most one sector,
    the six areas of [kerSysFlashInit] lie in the part of the flash that
    board.h reserves for parameters ([FLASH_RESERVED_AT_END]). *)
Theorem parameter_areas_reserved (len : Z) (i : FLASH_ADDR_INFO) :
  layout_ok len i → (∀ b, 0 ≤ b < fc_num → fc_size b = 128 * ONEK) → len ≤ 128 * ONEK →
  start_blk (flash_scratch_pad i) = fc_num - 6 ∧
  base fc_num - FLASH_RESERVED_AT_END ≤ area_addr FB d (flash_scratch_pad i).
Proof.
  intros [P1 P2 P3 P4 P5 P6 _ H0] Hu Hl. change (128 * ONEK) with 131072 in *.
  assert (Hone : ∀ e n a, placed e n a → e ≤ fc_num → n ≤ 131072 → start_blk a = e - 1).
  { intros. by eapply placed_one_sector. }
  apply Hone in P1 as A1; [|lia..]. apply Hone in P2 as A2; [|lia..].
  apply Hone in P3 as A3; [|lia|done]. apply Hone in P4 as A4; [|lia|done].
  apply Hone in P5 as A5; [|lia|done]. apply Hone in P6 as A6; [|lia|done].
  split; [lia|]. pose proof (ao_offset _ _ _ (pl_ok _ _ _ P6)) as Hoff. unfold area_addr.
  replace (start_blk (flash_scratch_pad i)) with (fc_num - 6) in * by lia.
  assert (Hb : ∀ b, 0 ≤ b ≤ fc_num → base b = 131072 * b).
  { intros b Hb. rewrite <- (sec_base_uniform 131072) by lia. apply sec_base_ext; [|lia].
    intros j Hj. apply Hu. lia. }
  rewrite !Hb by lia. unfold FLASH_RESERVED_AT_END, ONEK. lia.
Qed.
End layout.

(** The PSI length of the board: when the NVRAM names the board HW553, or
    its checksum does not match, the PSI gets the default of 64K, whatever else
    the NVRAM holds. *)
Theorem psi_of_nvram_HW553 (nv : list Z) (bp : option BOARD_PARAMETERS) :
  let nv0 := take (Z.to_nat offsetof_ulCheckSum) nv ++ [0; 0; 0; 0] in
  c_string (drop (Z.to_nat offsetof_szBoardId) nv0) = cstr "HW553" ∨
    be32 (drop (Z.to_nat offsetof_ulCheckSum) nv) ≠ getCrc32 nv0 CRC32_INIT_VALUE →
  fst (psi_of_nvram nv bp) = 64.
Proof.
  intros nv0 H. unfold psi_of_nvram. fold nv0.
  destruct (Z.eqb_spec (be32 (drop (Z.to_nat offsetof_ulCheckSum) nv))
              (getCrc32 nv0 CRC32_INIT_VALUE)) as [|_]; [|done].
  destruct H as [->|]; [|done]. unfold BpSetBoardId.
  assert (E : ∃ b, find_board g_BoardParms (cstr "HW553") = Some b ∧ usPsiSize b = 64).
  { eexists. split; vm_compute; reflexivity. }
  destruct E as (b&->&E). cbn [snd BpGetPsiSize negb fst]. by rewrite E.
Qed.

(** ** The storage functions *)

(** The areas with Get and Set functions. *)
Inductive store : Type := NvRam | Persistent | PsiBackup | Fix_ | Avail | Variable_.

#[export] Instance store_eq_dec : EqDecision store.
Proof. solve_decision. Defined.

Section storage.
Context {S : Type} (FB : Z) (d : flash_device_info_t S) {C : FlashContract FB d}.
Context (kmalloc : nat → bool) (mapped : S → Z → Z) (top_device : S → Z).
Context (flash_init_ : option (flash_device_info_t S) →
                       M S (Z * option (flash_device_info_t S) * flash_report)).
Implicit Types k : kstate S.
Abbreviation base := (sec_base fc_size).

Definition store_area (i : FLASH_ADDR_INFO) (st : store) : area :=
  match st with
  | NvRam => flash_nvram i | Persistent => flash_persistent i | PsiBackup => flash_psi_backup i
  | Fix_ => flash_fix i | Avail => flash_avail i | Variable_ => flash_variable i
  end.

Definition store_get (st : store) (strLen offset : Z) : M (kstate S) (Z * option (list Z)) :=
  match st with
  | NvRam => kerSysNvRamGet kmalloc FB mapped flash_init_ strLen offset
  | Persistent => kerSysPersistentGet kmalloc strLen offset
  | PsiBackup => kerSysPsiBackupGet kmalloc strLen offset
  | Fix_ => kerSysFixGet kmalloc strLen offset
  | Avail => kerSysAvailGet kmalloc strLen offset
  | Variable_ => kerSysVariableGet kmalloc strLen offset
  end.

Definition store_set (st : store) (string : list Z) (strLen offset : Z) : M (kstate S) Z :=
  match st with
  | NvRam => kerSysNvRamSet kmalloc string strLen offset
  | Persistent => kerSysPersistentSet kmalloc top_device string strLen offset
  | PsiBackup => kerSysPsiBackupSet kmalloc top_device string strLen offset
  | Fix_ => kerSysFixSet kmalloc string strLen offset
  | Avail => kerSysAvailSet kmalloc string strLen offset
  | Variable_ => kerSysVariableSet kmalloc string strLen offset
  end.

(** The kernel after [kerSysFlashInit], on a part whose first block holds the
    NVRAM; memory is found within the tries of [retriedKmalloc]. *)
Record storage_ready (len : Z) (k : kstate S) : Prop := {
  sr_ok : kok FB d k;
  sr_layout : layout_ok FB d len (fInfo k);
  sr_init : flashInitialized k ≠ 0;
  sr_first : NVRAM_DATA_OFFSET + NVRAM_LENGTH ≤ fc_size 0;
  sr_memory : ∀ n, ∃ j, (j < 1000)%nat ∧ kmalloc (n + j)%nat = true
}.

(** The store is written through [area_set]: always for the areas other than
    the PSI and its backup, and for those two unless the part has eight 8K sectors
    at its end ([JudgeFlashIsTopDevice8K]), where the code takes another path and
    reports the wrong status ([persistent_set_8K_reports_failure]). *)
Definition plain_store (st : store) (k : kstate S) : Prop :=
  st = Persistent ∨ st = PsiBackup → top_device (k_flash k) ≠ 1.

Lemma ready_memory len k : storage_ready len k → memory_soon kmalloc k.
Proof. intros H. destruct (sr_memory len k H (k_calls k)) as (j&?&?). by exists j. Qed.

Lemma ready_step len k c l k' : storage_ready len k → kstep FB d k c l k' → storage_ready len k'.
Proof. intros [] []. constructor; congruence || done. Qed.

Lemma ready_area len k st : storage_ready len k → area_ok FB d (store_area (fInfo k) st).
Proof.
  intros [? [] ???]. destruct st; simpl; [|by eapply pl_ok..].
  rewrite lo_nvram0. pose proof fc_num_range. unfold NVRAM_DATA_OFFSET, NVRAM_LENGTH, ONEK in *.
  constructor; cbn [nvram_area start_blk number_blk blk_offset area_length];
    unfold NVRAM_DATA_OFFSET, NVRAM_LENGTH, ONEK; try lia.
  rewrite sec_base_succ, sec_base_0 by lia. lia.
Qed.

Lemma store_get_area len k st n off : storage_ready len k →
  n ≤ area_length (store_area (fInfo k) st) →
  ∃ limit, n ≤ limit ∧
    store_get st n off k = area_get kmalloc (store_area (fInfo k) st) limit n off k.
Proof.
  intros H Hn. destruct st; simpl in *; try by eexists.
  exists NVRAM_LENGTH. rewrite (lo_nvram _ _ _ _ (sr_layout _ _ H)) in Hn. split; [done|].
  unfold kerSysNvRamGet. rewrite bind_gets.
  rewrite (proj2 (Z.eqb_neq _ _) (sr_init len k H)). done.
Qed.

Lemma area_set_not_top k a string n off : top_device (k_flash k) ≠ 1 → n ≤ area_length a →
  area_set_top kmalloc top_device a string n off k =
    area_set kmalloc a (area_length a) string n off k.
Proof.
  intros Ht Hn. unfold area_set_top. destruct (Z.gtb_spec n (area_length a)); [lia|].
  unfold JudgeFlashIsTopDevice8K. rewrite bind_gets. by rewrite (proj2 (Z.eqb_neq _ _) Ht).
Qed.

Lemma store_set_area len k st string n off : storage_ready len k → plain_store st k →
  n ≤ area_length (store_area (fInfo k) st) →
  ∃ limit, n ≤ limit ∧
    store_set st string n off k = area_set kmalloc (store_area (fInfo k) st) limit string n off k.
Proof.
  intros H Ht Hn. unfold plain_store in Ht. destruct st; simpl in *; try by eexists.
  - exists NVRAM_LENGTH. by rewrite (lo_nvram _ _ _ _ (sr_layout _ _ H)) in Hn.
  - eexists. split; [exact Hn|]. unfold kerSysPersistentSet. rewrite bind_gets.
    apply area_set_not_top; [auto|done].
  - eexists. split; [exact Hn|]. unfold kerSysPsiBackupSet. rewrite bind_gets.
    apply area_set_not_top; [auto|done].
Qed.

(** Areas in different blocks do not share bytes. *)
Lemma blocks_apart x y : area_ok FB d x → area_ok FB d y →
  start_blk x + number_blk x ≤ start_blk y →
  area_addr FB d x + area_length x ≤ area_addr FB d y.
Proof.
  intros [] [] Hxy. unfold area_addr.
  pose proof (base_mono FB d (start_blk x + number_blk x) (start_blk y)). lia.
Qed.

(** Areas of different functions do not share bytes. *)
Lemma stores_disjoint len k st st' : storage_ready len k → st ≠ st' →
  let a := store_area (fInfo k) st in let b := store_area (fInfo k) st' in
  area_addr FB d a + area_length a ≤ area_addr FB d b ∨
  area_addr FB d b + area_length b ≤ area_addr FB d a.
Proof.
  intros H Hne a b.
  assert (Hblk : start_blk a + number_blk a ≤ start_blk b ∨
                 start_blk b + number_blk b ≤ start_blk a).
  { destruct (sr_layout len k H) as [P1 P2 P3 P4 P5 P6 Hnv H0].
    pose proof (pl_end _ _ _ _ _ P1). pose proof (pl_end _ _ _ _ _ P2).
    pose proof (pl_end _ _ _ _ _ P3). pose proof (pl_end _ _ _ _ _ P4).
    pose proof (pl_end _ _ _ _ _ P5). pose proof (pl_end _ _ _ _ _ P6).
    pose proof (pl_number _ _ _ _ _ P1). pose proof (pl_number _ _ _ _ _ P2).
    pose proof (pl_number _ _ _ _ _ P3). pose proof (pl_number _ _ _ _ _ P4).
    pose proof (pl_number _ _ _ _ _ P5). pose proof (pl_number _ _ _ _ _ P6).
    unfold a, b. clear -Hne Hnv H0 H1 H2 H3 H4 H5 H6 H7 H8 H9 H10 H11 H12.
    destruct st, st'; simpl; rewrite ?Hnv; simpl; try done; lia. }
  pose proof (ready_area len k st H). pose proof (ready_area len k st' H).
  destruct Hblk; [left|right]; by apply blocks_apart.
Qed.

(** What a Get returns, in the state [k]. *)
Lemma store_get_bytes len k st n off : storage_ready len k →
  0 ≤ off → 0 ≤ n → off + n ≤ area_length (store_area (fInfo k) st) →
  ∃ k', store_get st n off k =
      Done ((0, Some (bytes_at (fc_mem (k_flash k))
                        (area_addr FB d (store_area (fInfo k) st) + off) (Z.to_nat n))), k') ∧
    kstep FB d k (fc_mem (k_flash k)) (k_live k) k'.
Proof.
  intros H Ho Hn Hr. destruct (store_get_area len k st n off H) as (limit&Hlim&->); [lia|].
  apply k_area_get; [apply (sr_ok len k H)|by eapply ready_area|by eapply ready_memory|done..].
Qed.

(** A Set within the area. *)
Lemma store_set_run len k st (string : list Z) off :
  storage_ready len k → plain_store st k → Forall is_byte string → 0 ≤ off →
  off + Z.of_nat (length string) ≤ area_length (store_area (fInfo k) st) →
  ∃ k1, store_set st string (Z.of_nat (length string)) off k = Done (0, k1) ∧
    kstep FB d k (stored (fc_mem (k_flash k)) (area_addr FB d (store_area (fInfo k) st) + off) string)
      (k_live k) k1.
Proof.
  intros H Ht Hb Ho Hr.
  destruct (store_set_area len k st string (Z.of_nat (length string)) off H Ht) as (limit&Hlim&->); [lia|].
  destruct (k_area_set FB d kmalloc k (store_area (fInfo k) st) limit string
              (Z.of_nat (length string)) off) as (k1&E1&S1);
    [apply (sr_ok len k H)|by eapply ready_area|by eapply ready_memory|lia..|done|].
  rewrite Nat2Z.id, firstn_all in S1. by exists k1.
Qed.

(** [C2] Storage round trip and isolation, in a kernel whose flash is
    initialised, whose first block holds the NVRAM and which finds memory within
    the tries of [retriedKmalloc].  For the NVRAM, fix, avail and variable area on
    every part, and for the PSI and PSI backup on a part that
    [JudgeFlashIsTopDevice8K] does not report (on the others their Set returns -1
    after a write that succeeded): a Set within the area returns 0, the following
    Get of the same range returns the bytes that were set, no kernel buffer is
    lost, and every Get on another of the six areas returns what it returned
    before the Set. *)
Theorem storage_set_get len k st (string : list Z) off :
  storage_ready len k →
  (st = Persistent ∨ st = PsiBackup → top_device (k_flash k) ≠ 1) → Forall is_byte string → 0 ≤ off →
  let n := Z.of_nat (length string) in
  off + n ≤ area_length (store_area (fInfo k) st) →
  ∃ k1 k2, store_set st string n off k = Done (0, k1) ∧
    store_get st n off k1 = Done ((0, Some string), k2) ∧
    storage_ready len k2 ∧ k_live k2 = k_live k ∧
    ∀ st' n' off', st' ≠ st → 0 ≤ off' → 0 ≤ n' →
      off' + n' ≤ area_length (store_area (fInfo k) st') →
      ∃ bs k3 k4, store_get st' n' off' k = Done ((0, Some bs), k3) ∧
        store_get st' n' off' k1 = Done ((0, Some bs), k4).
Proof.
  intros H Ht Hb Ho n Hr. unfold n in *.
  destruct (store_set_run len k st string off H Ht Hb Ho Hr) as (k1&Eset&S1).
  pose proof (ready_step _ _ _ _ _ H S1) as H1.
  destruct (store_get_bytes len k1 st (Z.of_nat (length string)) off H1) as (k2&E2&S2);
    [lia|lia|by rewrite (st_fInfo _ _ _ _ _ _ S1)|].
  exists k1, k2. rewrite Eset. split; [done|]. split; [|split; [by eapply ready_step|split]].
  - rewrite E2, (st_fInfo _ _ _ _ _ _ S1), Nat2Z.id. do 4 f_equal.
    erewrite bytes_at_ext; [apply bytes_at_stored|]. intros; apply S1.
  - by rewrite (st_live _ _ _ _ _ _ S2), (st_live _ _ _ _ _ _ S1).
  - intros st' n' off' Hne Ho' Hn' Hr'.
    destruct (store_get_bytes len k st' n' off' H) as (k3&E3&_); [done..|].
    destruct (store_get_bytes len k1 st' n' off' H1) as (k4&E4&_);
      [done|done|by rewrite (st_fInfo _ _ _ _ _ _ S1)|].
    eexists _, k3, k4. split; [exact E3|]. rewrite E4, (st_fInfo _ _ _ _ _ _ S1).
    do 4 f_equal. apply bytes_at_ext. intros a Ha. rewrite (st_mem _ _ _ _ _ _ S1).
    apply stored_out. pose proof (stores_disjoint len k st' st H Hne). simpl in *. lia.
Qed.

(** Clearing: PersistentClear, PsiBackupClear, FixClear and AvailClear
    return 0, set every byte of their area to 0 and no other byte of the flash,
    and lose no buffer. *)
Theorem storage_clear len k (a : area) (clear : M (kstate S) Z) :
  storage_ready len k →
  (a, clear) ∈ [(flash_persistent (fInfo k), kerSysPersistentClear kmalloc);
                (flash_psi_backup (fInfo k), kerSysPsiBackupClear kmalloc);
                (flash_fix (fInfo k), kerSysFixClear kmalloc);
                (flash_avail (fInfo k), kerSysAvailClear kmalloc)] →
  0 < len →
  ∃ k', clear k = Done (0, k') ∧ storage_ready len k' ∧ k_live k' = k_live k ∧
    ∀ x, fc_mem (k_flash k') x =
      if decide (area_addr FB d a ≤ x < area_addr FB d a + area_length a) then 0
      else fc_mem (k_flash k) x.
Proof.
  intros H Hin Hlen.
  assert (Hc : clear k = area_clear kmalloc a k ∧ area_ok FB d a ∧ area_length a ≠ 0).
  { destruct (sr_layout len k H) as [P1 P2 P3 P4 _ _ _ _].
    pose proof (pl_length _ _ _ _ _ P1). pose proof (pl_length _ _ _ _ _ P2).
    pose proof (pl_length _ _ _ _ _ P3) as E3. pose proof (pl_length _ _ _ _ _ P4) as E4.
    unfold FIX_MAX_LEN, AVAIL_MAX_LEN in *.
    repeat (apply elem_of_cons in Hin as [[= -> ->]|Hin]); [..|by apply elem_of_nil in Hin].
    all: split; [done|]; split; [by eapply pl_ok|lia]. }
  destruct Hc as (Ec&Ha&Hz).
  destruct (k_area_clear FB d kmalloc k a) as (k1&E1&S1);
    [apply (sr_ok len k H)|done|by eapply ready_memory|done|].
  exists k1. rewrite Ec. split; [done|]. split; [by eapply ready_step|].
  split; [apply S1|]. intros x. rewrite (st_mem _ _ _ _ _ _ S1). unfold stored.
  destruct Ha. rewrite length_replicate, Z2Nat.id by done. case_decide; [|done].
  rewrite nth_lookup, lookup_replicate_2 by lia. done.
Qed.

(** Refusals: a request longer than its area is refused with -1 before
    anything is read, and a request for which no memory can be had is refused
    with -1 without a change to the flash. *)
Theorem storage_refused k (string : list Z) strLen off :
  kok FB d k → area_ok FB d (flash_variable (fInfo k)) →
  (area_length (flash_variable (fInfo k)) < strLen →
     kerSysVariableGet kmalloc strLen off k = Done ((-1, None), k) ∧
     kerSysVariableSet kmalloc string strLen off k = Done (-1, k)) ∧
  (strLen ≤ area_length (flash_variable (fInfo k)) → ¬ memory_soon kmalloc k →
     ∃ k1 k2, kerSysVariableGet kmalloc strLen off k = Done ((-1, None), k1) ∧
       kerSysVariableSet kmalloc string strLen off k = Done (-1, k2) ∧
       (∀ x, fc_mem (k_flash k1) x = fc_mem (k_flash k) x) ∧
       (∀ x, fc_mem (k_flash k2) x = fc_mem (k_flash k) x)).
Proof.
  intros H Ha. unfold kerSysVariableGet, kerSysVariableSet. rewrite !bind_gets.
  unfold area_get, area_set. split.
  - intros Hlt. by destruct (Z.gtb_spec strLen (area_length (flash_variable (fInfo k)))); [|lia].
  - intros Hle Hm. destruct (Z.gtb_spec strLen (area_length (flash_variable (fInfo k)))); [lia|].
    unfold shared. destruct Ha.
    destruct (k_getShared_fail FB d kmalloc k (start_blk (flash_variable (fInfo k)))
      (start_blk (flash_variable (fInfo k)) + number_blk (flash_variable (fInfo k))))
      as (k1&E1&S1); [done|lia|done|done|].
    exists k1, k1. mstep E1. mstep E1. repeat split; apply S1.
Qed.

(** The offset is not checked: a Get whose length is accepted but whose
    range ends after the area copies from beyond the kernel's buffer.  This
    holds for every area that is right-aligned in its blocks, as
    [kerSysFlashInit] places them. *)
Theorem storage_offset_unchecked len k strLen off :
  storage_ready len k → 0 ≤ strLen ≤ area_length (flash_variable (fInfo k)) →
  area_length (flash_variable (fInfo k)) < off + strLen →
  kerSysVariableGet kmalloc strLen off k = Fault.
Proof.
  intros H Hn Hr. unfold kerSysVariableGet. rewrite bind_gets. unfold area_get.
  destruct (Z.gtb_spec strLen (area_length (flash_variable (fInfo k)))); [lia|].
  pose proof (lo_var _ _ _ _ (sr_layout _ _ H)) as [[] ?????].
  destruct (k_getShared FB d kmalloc k (start_blk (flash_variable (fInfo k)))
    (start_blk (flash_variable (fInfo k)) + number_blk (flash_variable (fInfo k))))
    as (k1&E1&S1); [apply (sr_ok len k H)|lia|done|by eapply ready_memory|].
  unfold shared. mstep E1. unfold buf_read. rewrite decide_False; [done|].
  rewrite blks_at_length by lia. unfold area_addr in *. rewrite pl_end0. lia.
Qed.

(** Blocks of 8K. *)
Lemma base_8K b m : 0 ≤ b → (∀ i, b ≤ i < b + Z.of_nat m → fc_size i = 8192) →
  base (b + Z.of_nat m) = base b + 8192 * Z.of_nat m.
Proof.
  intros Hb. induction m as [|m IH]; intros Hs; [by rewrite Z.add_0_r, Z.mul_0_r, Z.add_0_r|].
  replace (b + Z.of_nat (Datatypes.S m)) with (b + Z.of_nat m + 1) by lia.
  rewrite sec_base_succ, IH, Hs by (lia || (intros; apply Hs; lia)). lia.
Qed.

(** The status of the PSI write on a part with 8K sectors at its end is
    inverted: the write of the whole of [string] to the start of the PSI
    succeeds, the flash holds the bytes, and [kerSysPersistentSet] returns
    -1. *)
Theorem persistent_set_8K_reports_failure k (string : list Z) :
  let a := flash_persistent (fInfo k) in
  let n := Z.of_nat (length string) in
  kok FB d k → area_ok FB d a → memory_soon kmalloc k → top_device (k_flash k) = 1 →
  blk_offset a = 0 → (∀ b, start_blk a ≤ b < start_blk a + number_blk a → fc_size b = 8192) →
  0 < n ≤ area_length a → Forall is_byte string →
  ∃ k', kerSysPersistentSet kmalloc top_device string n 0 k = Done (-1, k') ∧
    ∀ x, fc_mem (k_flash k') x = stored (fc_mem (k_flash k)) (area_addr FB d a) string x.
Proof.
  intros a n H Ha Hm Ht Hoff Hs Hn Hb. pose proof Ha as [Hst Hnum Hend Hbo Hal Hfits]. pose proof fc_num_range.
  unfold kerSysPersistentSet. rewrite bind_gets. fold a. unfold area_set_top.
  destruct (Z.gtb_spec n (area_length a)); [lia|].
  unfold JudgeFlashIsTopDevice8K. rewrite bind_gets, Ht. cbn [Z.eqb Pos.eqb].
  pose proof (base_8K (start_blk a) (Z.to_nat (number_blk a)) Hst) as Hb8.
  rewrite Z2Nat.id in Hb8 by exact Hnum. specialize (Hb8 Hs).
  set (m := Z.quot (n + 8 * ONEK - 1) (8 * ONEK)).
  assert (Hmr : n ≤ 8192 * m ∧ 0 < m ≤ number_blk a).
  { unfold m, ONEK. rewrite Z.quot_div_nonneg by lia.
    pose proof (Z.div_mod (n + 8 * 1024 - 1) (8 * 1024)).
    pose proof (Z.mod_pos_bound (n + 8 * 1024 - 1) (8 * 1024)). lia. }
  unfold area_set_8K. rewrite Hoff. change (u32 (0 + 0) mod (8 * ONEK)) with 0.
  rewrite Z.add_0_r. fold m. rewrite (s32_small (start_blk a)), s32_small by lia.
  pose proof (base_8K (start_blk a) (Z.to_nat m) Hst) as Hbm.
  rewrite Z2Nat.id in Hbm by lia. specialize (Hbm ltac:(intros; apply Hs; lia)).
  destruct (k_getShared FB d kmalloc k (start_blk a) (start_blk a + m)) as (k1&E1&S1);
    [done|lia|lia|done|].
  mstep E1. rewrite (buf_read_Some string 0 n) by lia. cbn [of_option].
  rewrite bind_ret, drop_0, (take_ge string) by (unfold n; lia).
  destruct (buf_write (blks_at FB d (fc_mem (k_flash k)) (start_blk a) (start_blk a + m))
              (0 + 0) string) as [buf'|] eqn:Hw; cycle 1.
  { rewrite buf_write_Some in Hw; [done|lia|]. rewrite blks_at_length; lia. }
  cbn [of_option]. rewrite bind_ret.
  set (a' := {| start_blk := start_blk a; number_blk := m; area_length := 0; blk_offset := 0 |}).
  destruct (k_unshared FB d k1 a' buf' string (0 + 0) (fc_mem (k_flash k))) as (k2&E2&S2).
  { apply S1. } { constructor; simpl; lia. } { apply S1. } { apply S1. } { done. } { done. }
  unfold unshared in E2. simpl start_blk in E2. simpl number_blk in E2. mstep E2.
  destruct (kfree_step FB d _ _ _ _ (kstep_trans _ _ _ _ _ _ _ _ _ S1
    ltac:(rewrite (st_live _ _ _ _ _ _ S1) in S2; exact S2))) as (k3&E3&S3).
  mstep E3. exists k3. split; [done|]. intros x. rewrite (st_mem _ _ _ _ _ _ S3).
  unfold area_addr. by rewrite Hoff.
Qed.
End storage.

(** ** Witnesses: the storage functions over the CFI driver and the concrete
    part *)

Section witnesses.
#[local] Existing Instance demo_contract.

Definition demo_area (b len : Z) : area :=
  {| start_blk := b; number_blk := 1; area_length := len; blk_offset := 65536 - len |}.

Definition demo_info : FLASH_ADDR_INFO :=
  {| flash_persistent := demo_area 15 65536; flash_psi_backup := demo_area 14 65536;
     flash_fix := demo_area 13 8192; flash_avail := demo_area 12 16384;
     flash_variable := demo_area 11 8192; flash_scratch_pad := demo_area 10 8192;
     flash_nvram := nvram_area |}.

Definition demo_dev : flash_device_info_t (cfi_state demo_chip) := flash_cfi_dev 0xBE000000 5.

(** The kernel state before ([init = 0]) and after initialisation. *)
Definition demo_kernel (init : Z) (i : FLASH_ADDR_INFO) : kstate (cfi_state demo_chip) :=
  {| k_flash := demo_flash 16 (λ _, 255);
     g_flash_info := Some demo_dev;
     flashInitialized := init; fInfo := i; g_pCurrentBp := None; k_calls := 0; k_live := 0;
     k_leds := [] |}.

Definition demo_mapped (s : cfi_state demo_chip) (a : Z) : Z := chip_cell (part s) (a - 0xBE000000).

Definition demo_flash_init (g : option (flash_device_info_t (cfi_state demo_chip)))
  : M (cfi_state demo_chip) (Z * option (flash_device_info_t (cfi_state demo_chip)) * flash_report) :=
  mret (FLASH_API_OK, Some demo_dev, FlashNotFound).

Lemma demo_base k : 0 ≤ k → sec_base (fc_size (d := demo_dev)) k = 65536 * k.
Proof. apply uniform_base. Qed.

Lemma demo_kok init i : kok 0xBE000000 demo_dev (demo_kernel init i).
Proof.
  constructor; [done|].
  exact (ready_drv 5 (demo_flash 16 (λ _, 255)) (demo_flash_ready 16 _ sixteen_fit)).
Qed.

Lemma demo_placed b len : 0 ≤ b < 16 → 0 < len ≤ 65536 →
  placed 0xBE000000 demo_dev (b + 1) len (demo_area b len).
Proof.
  intros Hb Hl. constructor; unfold area_addr; cbn [demo_area start_blk number_blk area_length blk_offset];
    rewrite ?demo_base by lia; try lia.
  constructor; cbn [demo_area start_blk number_blk area_length blk_offset];
    rewrite ?demo_base by lia; try lia. simpl. lia.
Qed.

Lemma demo_layout : layout_ok 0xBE000000 demo_dev 65536 demo_info.
Proof.
  constructor;
    [apply (demo_placed 15)|apply (demo_placed 14)|apply (demo_placed 13)|apply (demo_placed 12)
    |apply (demo_placed 11)|apply (demo_placed 10)|reflexivity|reflexivity]; done.
Qed.

Lemma demo_storage_ready :
  storage_ready 0xBE000000 demo_dev (λ _, true) 65536 (demo_kernel 1 demo_info).
Proof.
  constructor; [apply demo_kok|apply demo_layout|done|done|].
  intros n. exists 0%nat. split; [lia|done].
Qed.

Lemma kerSysFlashInit_layout_witness :
  ∃ k', kerSysFlashInit 0xBE000000 demo_mapped demo_flash_init (demo_kernel 0 demo_info)
          = Done (tt, k') ∧ layout_ok 0xBE000000 demo_dev 65536 (fInfo k').
Proof.
  assert (El : psi_bytes 0xBE000000 demo_mapped (demo_flash 16 (λ _, 255)) None = 65536)
    by (vm_compute; reflexivity).
  destruct (kerSysFlashInit_layout 0xBE000000 demo_dev demo_mapped demo_flash_init
              (demo_kernel 0 demo_info) (demo_flash 16 (λ _, 255)) FLASH_API_OK FlashNotFound 65536)
    as (k'&E&_&_&HL&_).
  - reflexivity.
  - reflexivity.
  - apply (demo_kok 0 demo_info).
  - intros b Hb. reflexivity.
  - change (g_pCurrentBp (demo_kernel 0 demo_info)) with (@None BOARD_PARAMETERS).
    rewrite El. lia.
  - change (g_pCurrentBp (demo_kernel 0 demo_info)) with (@None BOARD_PARAMETERS).
    rewrite El, demo_base by (simpl; lia). unfold ONEK. simpl. lia.
  - exists k'. split; [exact E|]. rewrite <- El. exact HL.
Defined.

Lemma storage_set_get_witness :
  let bytes := [1; 2; 3] in
  let n := Z.of_nat (length bytes) in
  ∃ k1 k2,
    store_set (λ _, true) (λ _, 0) Variable_ bytes n 100 (demo_kernel 1 demo_info) = Done (0, k1) ∧
    store_get 0xBE000000 (λ _, true) demo_mapped demo_flash_init Variable_ n 100 k1
      = Done ((0, Some bytes), k2).
Proof.
  destruct (storage_set_get 0xBE000000 demo_dev (λ _, true) demo_mapped (λ _, 0) demo_flash_init
              65536 (demo_kernel 1 demo_info) Variable_ [1; 2; 3] 100)
    as (k1&k2&E1&E2&_).
  - apply demo_storage_ready.
  - done.
  - by repeat constructor.
  - lia.
  - vm_compute. discriminate.
  - exists k1, k2. split; [exact E1|exact E2].
Defined.

Lemma storage_clear_witness :
  ∃ k', kerSysFixClear (λ _, true) (demo_kernel 1 demo_info) = Done (0, k') ∧
    fc_mem (k_flash k') (65536 * 14 - 1) = 0 ∧ fc_mem (k_flash k') (65536 * 14) = 255.
Proof.
  destruct (storage_clear 0xBE000000 demo_dev (λ _, true) 65536 (demo_kernel 1 demo_info)
              (flash_fix demo_info) (kerSysFixClear (λ _, true))) as (k'&E&_&_&Hm).
  - apply demo_storage_ready.
  - do 2 constructor 2. constructor 1.
  - lia.
  - exists k'. split; [exact E|]. rewrite !Hm. unfold area_addr.
    cbn [demo_info flash_fix demo_area start_blk number_blk area_length blk_offset].
    rewrite demo_base by lia. split; reflexivity.
Defined.

Lemma storage_refused_witness :
  kerSysVariableGet (λ _, true) 8193 0 (demo_kernel 1 demo_info)
    = Done ((-1, None), demo_kernel 1 demo_info).
Proof.
  apply (proj1 (storage_refused 0xBE000000 demo_dev (λ _, true) (demo_kernel 1 demo_info) [] 8193 0
    (demo_kok 1 demo_info)
    (pl_ok _ _ _ _ _ (lo_var _ _ _ _ demo_layout)))). simpl. lia.
Defined.

Lemma storage_offset_unchecked_witness :
  kerSysVariableGet (λ _, true) 8192 1 (demo_kernel 1 demo_info) = Fault.
Proof.
  apply (storage_offset_unchecked 0xBE000000 demo_dev (λ _, true) 65536
           (demo_kernel 1 demo_info) 8192 1).
  - apply demo_storage_ready.
  - simpl. lia.
  - simpl. lia.
Defined.

(** Sixteen sectors of 128K. *)
Lemma ram128_num : 0 < 16 ≤ 65536.
Proof. done. Qed.

Definition ram128 : FlashContract 0xBE000000 (ram_dev 0xBE000000 16 131072) :=
  ram_contract 0xBE000000 16 131072 ram128_num eq_refl eq_refl eq_refl.

Definition area128 (b len : Z) : area :=
  {| start_blk := b; number_blk := 1; area_length := len; blk_offset := 131072 - len |}.

Definition info128 : FLASH_ADDR_INFO :=
  {| flash_persistent := area128 15 65536; flash_psi_backup := area128 14 65536;
     flash_fix := area128 13 8192; flash_avail := area128 12 16384;
     flash_variable := area128 11 8192; flash_scratch_pad := area128 10 8192;
     flash_nvram := nvram_area |}.

Lemma placed128 b len : 0 ≤ b < 16 → 0 < len ≤ 131072 →
  @placed _ _ _ ram128 (b + 1) len (area128 b len).
Proof.
  intros Hb Hl.
  assert (Hbase : ∀ k, 0 ≤ k → sec_base (@fc_size _ _ _ ram128) k = 131072 * k).
  { intros k Hk. by apply (sec_base_uniform 131072). }
  constructor; unfold area_addr; cbn [area128 start_blk number_blk area_length blk_offset];
    rewrite ?Hbase by lia; try lia.
  constructor; cbn [area128 start_blk number_blk area_length blk_offset];
    rewrite ?Hbase by lia; try lia. simpl. lia.
Qed.

Lemma layout128 : @layout_ok _ _ _ ram128 65536 info128.
Proof.
  constructor;
    [apply (placed128 15)|apply (placed128 14)|apply (placed128 13)|apply (placed128 12)
    |apply (placed128 11)|apply (placed128 10)|reflexivity|reflexivity]; done.
Qed.

Lemma parameter_areas_reserved_witness :
  start_blk (flash_scratch_pad info128) = 10 ∧
  sec_base (@fc_size _ _ _ ram128) 16 - FLASH_RESERVED_AT_END
    ≤ @area_addr _ _ _ ram128 (flash_scratch_pad info128).
Proof.
  apply (@parameter_areas_reserved _ _ _ ram128 65536 info128 layout128).
  - intros b _. reflexivity.
  - unfold ONEK. lia.
Defined.

Lemma psi_of_nvram_HW553_witness : fst (psi_of_nvram (replicate 332 255) None) = 64.
Proof.
  apply (psi_of_nvram_HW553 (replicate 332 255) None). right. vm_compute. discriminate.
Defined.

(** Sixteen sectors of 8K, the PSI in the last eight. *)
Lemma ram16_num : 0 < 16 ≤ 65536.
Proof. done. Qed.

Definition ram16 : FlashContract 0xBE000000 (ram_dev 0xBE000000 16 8192) :=
  ram_contract 0xBE000000 16 8192 ram16_num eq_refl eq_refl eq_refl.

Definition ram16_kernel : kstate (Z → Z) :=
  {| k_flash := λ _, 255; g_flash_info := Some (ram_dev 0xBE000000 16 8192);
     flashInitialized := 1;
     fInfo := {| flash_persistent := {| start_blk := 8; number_blk := 8; area_length := 65536;
                                        blk_offset := 0 |};
                 flash_psi_backup := no_area; flash_fix := no_area; flash_avail := no_area;
                 flash_variable := no_area; flash_scratch_pad := no_area;
                 flash_nvram := nvram_area |};
     g_pCurrentBp := None; k_calls := 0; k_live := 0; k_leds := [] |}.

Lemma persistent_set_8K_reports_failure_witness :
  let bytes := [1; 2; 3] in
  ∃ k', kerSysPersistentSet (λ _, true) (λ _, 1) bytes (Z.of_nat (length bytes)) 0 ram16_kernel
          = Done (-1, k') ∧
    k_flash k' (8192 * 8 + 1) = 2.
Proof.
  destruct (@persistent_set_8K_reports_failure _ 0xBE000000 (ram_dev 0xBE000000 16 8192) ram16
              (λ _, true) (λ _, 1) ram16_kernel [1; 2; 3]) as (k'&E&Hm).
  - constructor; [reflexivity|]. intros a. done.
  - constructor; vm_compute; discriminate.
  - exists 0%nat. split; [lia|reflexivity].
  - reflexivity.
  - reflexivity.
  - intros b _. reflexivity.
  - vm_compute. split; [reflexivity|discriminate].
  - by repeat constructor.
  - exists k'. split; [exact E|]. exact (Hm (8192 * 8 + 1)).
Defined.
End witnesses.
