(* ===== verification/ImageSet.v ===== *)
(** * Writing an image to flash ([kerSysBcmImageSet] of [bcm63xx_flash.c])

    The upgrade path: an image is written sector by sector from a start
    address; a sector it shares with the parameter area is merged; a whole image
    erases the rest of the flash.  Proved against the flash contract. *)

From stdpp Require Import base numbers list.
From Stdlib Require Import ZArith Lia.
From S2P Require Import Prelude BoardParms FlashApi KerFlash FlashAreas FlashClaims RamFlash.

(** The state of the pointer [pTempBuf]. *)
Inductive temp_buf : Type :=
| TempNull
| TempLive
| TempFreed.

(** LED name and states the function asks for ([kLedAdsl], Off, On). *)
Definition ADSL_LED : Z := 0.
Definition LED_OFF : Z := 0.
Definition LED_ON : Z := 1.

Section image.
Context {S : Type} (FLASH_BASE : Z) (kmalloc : nat → bool).
(** Whether [copy_from_user] succeeds. *)
Context (copy_ok : bool).
Abbreviation ks := (kstate S).

(** The branch for the sector shared with the variable area: the image's last
    bytes are merged into it.  Without memory the board is reset, which does not
    return. *)
Definition image_shared (blk sect_size : Z) (string : list Z) (size : Z)
  : M ks (Z * Z * temp_buf) :=
  i ← gets fInfo;
  if size >? sect_size - area_length (flash_variable i) then mret (blk, size, TempNull)
  else
    p ← retriedKmalloc kmalloc sect_size;
    match p with
    | None => blocked
    | Some buf =>
        '(_, bytes) ← flash (λ g, flash_read_buf g (u16 blk) 0 sect_size);
        buf1 ← match bytes with
               | Some bs => of_option (buf_write buf 0 bs)
               | None => mret buf
               end;
        if negb copy_ok then mret (blk, size, TempLive)
        else
          src ← of_option (buf_read string 0 size);
          buf2 ← of_option (buf_write buf1 0 src);
          flash (λ g, flash_sector_erase_int g (u16 blk));;
          r ← flash (λ g, flash_write_buf g (u16 blk) 0 buf2 sect_size);
          retriedKfree;;
          mret (blk, if r =? sect_size then 0 else size, TempFreed)
    end.

(** The [do ... while (size > 0)] loop: the result is [blk_start], [size] and
    [pTempBuf] after it. *)
Fixpoint image_loop (n : nat) (whole_image : bool) (blk : Z) (string : list Z) (size : Z)
  : M ks (Z * Z * temp_buf) :=
  match n with
  | O => nofuel
  | Datatypes.S n' =>
      sect_size ← flash (λ g, flash_get_sector_size g (u16 blk));
      i ← gets fInfo;
      if negb whole_image && (blk =? start_blk (flash_variable i)) then
        image_shared blk sect_size string size
      else
        kerSysLedCtrl ADSL_LED LED_ON;;
        flash (λ g, flash_sector_erase_int g (u16 blk));;
        let '(sect_size, size) :=
          if sect_size >? size then
            let size := if Z.odd size then size + 1 else size in (size, size)
          else (sect_size, size) in
        kerSysLedCtrl ADSL_LED LED_OFF;;
        r ← flash (λ g, flash_write_buf g (u16 blk) 0 string sect_size);
        if negb (r =? sect_size) then mret (blk, size, TempNull)
        else if 0 <? size - sect_size then
          image_loop n' whole_image (blk + 1) (drop (Z.to_nat sect_size) string)
            (size - sect_size)
        else mret (blk + 1, size - sect_size, TempNull)
  end.

(** [while (blk_start < total_blks) { erase; blk_start++; }] *)
Fixpoint erase_blks (n : nat) (blk : Z) : M ks unit :=
  match n with
  | O => mret tt
  | Datatypes.S n' =>
      flash (λ g, flash_sector_erase_int g (u16 blk));; erase_blks n' (blk + 1)
  end.

Definition is_whole_image (flash_start_addr size : Z) : bool :=
  (u32 flash_start_addr =? FLASH_BASE) && (size >? FLASH_LENGTH_BOOT_ROM).

(** [string] lists the bytes readable from the caller's pointer on.  Freeing a
    freed buffer is undefined. *)
Definition kerSysBcmImageSet (flash_start_addr : Z) (string : list Z) (size : Z) : M ks Z :=
  blk ← flash (λ g, flash_get_blk g flash_start_addr);
  if blk <? 0 then mret (-1)
  else
    let whole_image := is_whole_image flash_start_addr size in
    '(blk1, size1, pTempBuf) ← image_loop (Datatypes.S (Z.to_nat size)) whole_image blk string size;
    kerSysLedCtrl ADSL_LED LED_ON;;
    blk2 ← (if whole_image then
              total_blks ← flash flash_get_numsectors;
              erase_blks (Z.to_nat (total_blks - blk1)) blk1;;
              mret (Z.max blk1 total_blks)
            else mret blk1);
    match pTempBuf with
    | TempNull => mret tt
    | TempLive => retriedKfree
    | TempFreed => fault
    end;;
    mret (if size1 =? 0 then 0 else blk2).
End image.

Section proofs.
Context {S : Type} (FB : Z) (d : flash_device_info_t S) {C : FlashContract FB d}.
Context (kmalloc : nat → bool) (copy_ok : bool).
Implicit Types k : kstate S.
Abbreviation base := (sec_base fc_size).
Abbreviation mem k := (fc_mem (k_flash k)).

(** [k'] has the flash contents [c] and differs from [k] otherwise only in the
    allocation counter and the LED requests. *)
Record istep (k : kstate S) (c : Z → Z) (k' : kstate S) : Prop := {
  is_ok : kok FB d k';
  is_mem : ∀ a, mem k' a = c a;
  is_fInfo : fInfo k' = fInfo k;
  is_live : k_live k' = k_live k
}.

Lemma istep_trans k c k1 c2 k2 : istep k c k1 → istep k1 c2 k2 → istep k c2 k2.
Proof. intros [] []. constructor; congruence. Qed.

Lemma istep_ext k c c' k' : (∀ a, c a = c' a) → istep k c k' → istep k c' k'.
Proof. intros E []. constructor; try done. intros a. by rewrite is_mem0. Qed.

Lemma istep_kstep k c k' : kstep FB d k c (k_live k) k' → istep k c k'.
Proof. intros []. by constructor. Qed.

Lemma i_led led st k : kok FB d k →
  ∃ k', kerSysLedCtrl led st k = Done (tt, k') ∧ istep k (mem k) k'.
Proof. intros []. eexists. split; [reflexivity|]. by repeat constructor. Qed.

(** A write of the first [n] bytes of an erased sector. *)
Lemma i_write k i buf n : kok FB d k → 0 ≤ i < fc_num → 0 ≤ n ≤ fc_size i →
  Z.even n = true → n ≤ Z.of_nat (length buf) → Forall is_byte buf →
  (∀ a, base i ≤ a < base i + fc_size i → mem k a = 255) →
  ∃ k', flash (λ g, flash_write_buf g (u16 i) 0 buf n) k = Done (n, k') ∧
    istep k (λ a, if decide (base i ≤ a < base i + n)
                  then nth (Z.to_nat (a - base i)) buf 0 else mem k a) k'.
Proof.
  intros H Hi Hn He Hl Hb Hc. unfold flash. rewrite (kk_dev _ _ k H). simpl.
  rewrite (blk_fits_u16 FB d) by done.
  destruct (fc_write (k_flash k) i 0 buf n) as (f&E&Hok&Hmem);
    [apply H|done|lia|lia|done|done|lia|done|done|intros; apply Hc; lia|].
  rewrite E. eexists. split; [reflexivity|]. apply istep_kstep, kstep_flash; [done..|].
  intros a. rewrite Hmem, Z.add_0_r, Z.sub_0_r. done.
Qed.

Lemma i_erase k i : kok FB d k → 0 ≤ i < fc_num →
  ∃ k', flash (λ g, flash_sector_erase_int g (u16 i)) k = Done (FLASH_API_OK, k') ∧
    istep k (λ a, if decide (base i ≤ a < base (i + 1)) then 255 else mem k a) k'.
Proof.
  intros H Hi. destruct (k_erase FB d k i H Hi) as (k'&E&St). exists k'. split; [done|].
  apply istep_kstep. eapply kstep_ext; [|exact St]. intros a.
  by rewrite sec_base_succ by lia.
Qed.

(** A size rounded up to whole words. *)
Definition even_up (size : Z) : Z := if Z.odd size then size + 1 else size.

Lemma even_up_spec size : size ≤ even_up size ≤ size + 1 ∧ Z.even (even_up size) = true.
Proof.
  unfold even_up. destruct (Z.odd size) eqn:E.
  - split; [lia|]. rewrite Z.even_add, <- Z.negb_odd, E. done.
  - split; [lia|]. by rewrite <- Z.negb_odd, E.
Qed.

(** The flash with [n] bytes of [str] from block [b] on and the rest of the
    blocks before [e] erased. *)
Definition image_at (c : Z → Z) (b e : Z) (str : list Z) (n : Z) (a : Z) : Z :=
  if decide (base b ≤ a < base b + n) then nth (Z.to_nat (a - base b)) str 0
  else if decide (base b ≤ a < base e) then 255 else c a.

(** One round: erase, then write [w] bytes. *)
Lemma image_round k i str w : kok FB d k → 0 ≤ i < fc_num → 0 ≤ w ≤ fc_size i →
  Z.even w = true → w ≤ Z.of_nat (length str) → Forall is_byte str →
  ∀ {A} (f : Z → M (kstate S) A), ∃ k',
  (kerSysLedCtrl ADSL_LED LED_ON;;
   flash (λ g, flash_sector_erase_int g (u16 i));;
   kerSysLedCtrl ADSL_LED LED_OFF;;
   flash (λ g, flash_write_buf g (u16 i) 0 str w) ≫= f) k = f w k' ∧
  istep k (image_at (mem k) i (i + 1) str w) k'.
Proof.
  intros H Hi Hw He Hl Hb A f.
  destruct (i_led ADSL_LED LED_ON k H) as (k1&E1&S1).
  destruct (i_erase k1 i) as (k2&E2&S2); [apply S1|done|].
  destruct (i_led ADSL_LED LED_OFF k2) as (k3&E3&S3); [apply S2|].
  assert (∀ a, mem k3 a = if decide (base i ≤ a < base (i + 1)) then 255 else mem k a) as Hm.
  { intros a. rewrite (is_mem _ _ _ S3), (is_mem _ _ _ S2). case_decide; [done|].
    apply (is_mem _ _ _ S1). }
  destruct (i_write k3 i str w) as (k4&E4&S4); [apply S3|done..| |].
  { intros a Ha. rewrite Hm, decide_True; [done|]. rewrite sec_base_succ by lia. lia. }
  exists k4. split; [mstep E1; mstep E2; mstep E3; by mstep E4|].
  eapply istep_ext; [|eapply istep_trans; [exact S1|]; eapply istep_trans; [exact S2|];
    eapply istep_trans; [exact S3|exact S4]].
  intros a. unfold image_at. cbn beta. case_decide; [done|]. apply Hm.
Qed.

Lemma even_up_sub size w : Z.even w = true → even_up (size - w) = even_up size - w.
Proof.
  intros He. unfold even_up. rewrite Z.odd_sub, <- (Z.negb_even w), He.
  rewrite xorb_false_r. case_match; lia.
Qed.

Lemma image_at_app c b e str n a : 0 ≤ b → 0 ≤ fc_size b ≤ n → base (b + 1) ≤ base e →
  image_at (image_at c b (b + 1) str (fc_size b)) (b + 1) e
    (drop (Z.to_nat (fc_size b)) str) (n - fc_size b) a = image_at c b e str n a.
Proof.
  intros Hb Hn He. unfold image_at. rewrite sec_base_succ in * by done.
  destruct (decide (base b + fc_size b ≤ a < base b + fc_size b + (n - fc_size b))).
  { rewrite decide_True by lia. rewrite !nth_lookup, lookup_drop. do 2 f_equal. lia. }
  destruct (decide (base b + fc_size b ≤ a < base e)).
  { rewrite decide_False, decide_True by lia. done. }
  destruct (decide (base b ≤ a < base b + fc_size b)).
  { by rewrite decide_True by lia. }
  rewrite !decide_False by lia. done.
Qed.

Lemma image_at_ext c c' b e str n a : c a = c' a →
  image_at c b e str n a = image_at c' b e str n a.
Proof. intros E. unfold image_at. by rewrite E. Qed.

(** The image does not reach the block shared with the variable area. *)
Definition clear_of_parameters (w : bool) (k : kstate S) (b size : Z) : Prop :=
  let v := start_blk (flash_variable (fInfo k)) in
  w = true ∨ v < b ∨ base b + even_up size ≤ base v.

Lemma clear_guard w k b size : clear_of_parameters w k b size → 0 < size →
  negb w && (b =? start_blk (flash_variable (fInfo k))) = false.
Proof.
  intros H Hs. destruct w; [done|]. apply Z.eqb_neq. intros Hb.
  destruct (even_up_spec size). destruct H as [?|[?|H]]; [done|lia|].
  rewrite <- Hb in H. lia.
Qed.

Lemma image_loop_spec n : ∀ k w b str size,
  kok FB d k → 0 ≤ b < fc_num → 0 < size → size ≤ Z.of_nat n →
  base b + even_up size ≤ base fc_num → even_up size ≤ Z.of_nat (length str) →
  Forall is_byte str → clear_of_parameters w k b size →
  ∃ e k', image_loop kmalloc copy_ok n w b str size k = Done ((e, 0, TempNull), k') ∧
    b < e ≤ fc_num ∧ base (e - 1) < base b + even_up size ≤ base e ∧
    istep k (image_at (mem k) b e str (even_up size)) k'.
Proof.
  induction n as [|n IH]; intros k w b str size H Hb Hs Hn Hr Hl Hbytes Hclear; [lia|].
  destruct (even_up_spec size) as [Hup Heven]. destruct (fc_size_pos b Hb) as [Hfs Hfe].
  cbn [image_loop]. mstep (k_size FB d k b H Hb). rewrite bind_gets.
  rewrite (clear_guard w k b size Hclear Hs).
  pose proof (sec_base_succ fc_size b ltac:(lia)) as Hsucc.
  destruct (Z.gtb_spec (fc_size b) size) as [Hgt|Hle].
  - assert (even_up size ≤ fc_size b) as Hw.
    { unfold even_up in *. destruct (Z.odd size) eqn:E; [|lia].
      destruct (decide (size + 1 = fc_size b)); lia. }
    assert (0 ≤ even_up size ≤ fc_size b) as Hw' by lia.
    destruct (image_round k b str (even_up size) H Hb Hw' Heven Hl Hbytes
      (λ r, if negb (r =? even_up size) then mret (b, even_up size, TempNull)
            else if 0 <? even_up size - even_up size then
              image_loop kmalloc copy_ok n w (b + 1)
                (drop (Z.to_nat (even_up size)) str) (even_up size - even_up size)
            else mret (b + 1, even_up size - even_up size, TempNull))) as (k'&E&St).
    exists (b + 1), k'. split.
    { etransitivity; [exact E|]. rewrite Z.eqb_refl, Z.sub_diag. done. }
    replace (b + 1 - 1) with b by lia. split_and!; [lia..|done].
  - assert (0 ≤ fc_size b ≤ fc_size b) as Hw by lia.
    assert (fc_size b ≤ Z.of_nat (length str)) as Hl' by lia.
    destruct (image_round k b str (fc_size b) H Hb Hw Hfe Hl' Hbytes
      (λ r, if negb (r =? fc_size b) then mret (b, size, TempNull)
            else if 0 <? size - fc_size b then
              image_loop kmalloc copy_ok n w (b + 1)
                (drop (Z.to_nat (fc_size b)) str) (size - fc_size b)
            else mret (b + 1, size - fc_size b, TempNull))) as (k1&E&St).
    pose proof (even_up_sub size (fc_size b) Hfe) as Hsub.
    destruct (Z.ltb_spec 0 (size - fc_size b)) as [Hmore|Hdone].
    + assert (b + 1 < fc_num) as Hb1.
      { destruct (decide (b + 1 = fc_num)) as [Eb|]; [|lia]. rewrite <- Eb in Hr. lia. }
      destruct (IH k1 w (b + 1) (drop (Z.to_nat (fc_size b)) str) (size - fc_size b))
        as (e&k2&E2&He&Hbe&St2);
        [apply St|lia|lia|lia|lia|rewrite length_drop; lia|by apply Forall_drop| |].
      { unfold clear_of_parameters. rewrite (is_fInfo _ _ _ St), Hsub, Hsucc.
        destruct Hclear as [?|[?|?]]; [by left|right; left; lia|right; right; lia]. }
      exists e, k2. split.
      { etransitivity; [exact E|]. rewrite Z.eqb_refl. cbn [negb].
        destruct (Z.ltb_spec 0 (size - fc_size b)); [exact E2|lia]. }
      rewrite Hsub, Hsucc in Hbe. split_and!; [lia..|].
      eapply istep_trans; [exact St|]. eapply istep_ext; [|exact St2]. intros a.
      rewrite Hsub. assert (base (b + 1) ≤ base e) as Hbase by (pose proof (base_mono FB d (b + 1) e); lia).
      assert (0 ≤ fc_size b ≤ even_up size) as Hn' by lia.
      rewrite <- (image_at_app (mem k) b e str (even_up size) a (proj1 Hb) Hn' Hbase).
      apply image_at_ext, (is_mem _ _ _ St).
    + exists (b + 1), k1. replace size with (fc_size b) in * by lia.
      assert (even_up (fc_size b) = fc_size b) as Eup.
      { unfold even_up. by rewrite <- Z.negb_even, Hfe. }
      rewrite Eup in *. split.
      { etransitivity; [exact E|]. rewrite Z.eqb_refl, Z.sub_diag. done. }
      replace (b + 1 - 1) with b by lia. split_and!; [lia..|done].
Qed.

Lemma erase_blks_spec n : ∀ k b, kok FB d k → 0 ≤ b → b + Z.of_nat n ≤ fc_num →
  ∃ k', erase_blks n b k = Done (tt, k') ∧
    istep k (λ a, if decide (base b ≤ a < base (b + Z.of_nat n)) then 255 else mem k a) k'.
Proof.
  induction n as [|n IH]; intros k b H Hb Hn.
  - exists k. split; [done|]. constructor; try done. intros a.
    by rewrite decide_False by (rewrite Z.add_0_r; lia).
  - destruct (i_erase k b) as (k1&E1&S1); [done|lia|].
    destruct (IH k1 (b + 1)) as (k2&E2&S2); [apply S1|lia..|].
    exists k2. split; [cbn [erase_blks]; by mstep E1|].
    eapply istep_trans; [exact S1|]. eapply istep_ext; [|exact S2]. intros a. cbn beta.
    replace (b + 1 + Z.of_nat n) with (b + Z.of_nat (Datatypes.S n)) by lia.
    rewrite (is_mem _ _ _ S1).
    pose proof (base_mono FB d b (b + 1)). pose proof (base_mono FB d (b + 1) (b + Z.of_nat (Datatypes.S n))).
    repeat case_decide; try done; lia.
Qed.

Lemma image_set_spec k b (string : list Z) size :
  let addr := s32 (base b + FB) in
  let whole_image := is_whole_image FB addr size in
  kok FB d k → 0 ≤ b < fc_num → 0 < size → base b + even_up size ≤ base fc_num →
  even_up size ≤ Z.of_nat (length string) → Forall is_byte string →
  clear_of_parameters whole_image k b size →
  ∃ e k', kerSysBcmImageSet FB kmalloc copy_ok addr string size k = Done (0, k') ∧
    b < e ≤ fc_num ∧ base (e - 1) < base b + even_up size ≤ base e ∧
    istep k (image_at (mem k) b (if whole_image then fc_num else e) string (even_up size)) k'.
Proof.
  intros addr w H Hb Hs Hr Hl Hbytes Hclear.
  destruct (fc_size_pos b Hb) as [Hfs _].
  assert (base b ≤ base b < base b + fc_size b) as Hin by lia.
  destruct (image_loop_spec (Datatypes.S (Z.to_nat size)) k w b string size)
    as (e&k1&E1&He&Hbe&S1); [done..|lia|done|done|done|done|].
  destruct (i_led ADSL_LED LED_ON k1) as (k2&E2&S2); [apply S1|].
  unfold kerSysBcmImageSet. mstep (k_get_blk FB d k b _ H Hb Hin).
  rewrite (proj2 (Z.ltb_ge b 0)) by lia. fold addr. fold w. mstep E1. mstep E2.
  destruct w eqn:Ew.
  - destruct (erase_blks_spec (Z.to_nat (fc_num - e)) k2 e) as (k3&E3&S3); [apply S2|lia..|].
    exists e, k3. split; [|split_and!; [lia..|]].
    { assert ((total_blks ← flash flash_get_numsectors;
               erase_blks (Z.to_nat (total_blks - e)) e;; mret (Z.max e total_blks)) k2
              = Done (Z.max e fc_num, k3)) as E4.
      { mstep (k_num FB d k2 (is_ok _ _ _ S2)). by mstep E3. }
      by mstep E4. }
    eapply istep_ext; [|eapply istep_trans; [exact S1|]; eapply istep_trans; [exact S2|exact S3]].
    intros a. cbn beta. rewrite (is_mem _ _ _ S2), (is_mem _ _ _ S1). unfold image_at.
    replace (e + Z.of_nat (Z.to_nat (fc_num - e))) with fc_num by lia.
    pose proof (base_mono FB d b e). pose proof (base_mono FB d e fc_num).
    repeat case_decide; try done; lia.
  - exists e, k2. split; [done|]. split_and!; [lia..|].
    eapply istep_ext; [|eapply istep_trans; [exact S1|exact S2]]. apply S1.
Qed.

(** [C28] Writing an image that stays within the flash and out of the sector
    shared with the parameters succeeds: the flash then holds the image
    (rounded up to whole words) from the start block on, the rest of the last
    sector it touches is erased, a whole image erases the flash to its end,
    every other byte is as before, and no buffer is leaked. *)
Theorem kerSysBcmImageSet_correct k b (string : list Z) size :
  let addr := s32 (base b + FB) in
  let whole_image := is_whole_image FB addr size in
  kok FB d k → 0 ≤ b < fc_num → 0 < size → base b + even_up size ≤ base fc_num →
  even_up size ≤ Z.of_nat (length string) → Forall is_byte string →
  clear_of_parameters whole_image k b size →
  ∃ e k', kerSysBcmImageSet FB kmalloc copy_ok addr string size k = Done (0, k') ∧
    b < e ≤ fc_num ∧ base (e - 1) < base b + even_up size ≤ base e ∧
    istep k (image_at (mem k) b (if whole_image then fc_num else e) string (even_up size)) k'.
Proof. exact (image_set_spec k b string size). Qed.

(** Erasing block [v] and rewriting it with the image's tail merged into its
    former contents stores the tail. *)
Lemma rewrite_sector k v buf c : kok FB d k → 0 ≤ v < fc_num →
  Z.of_nat (length buf) = fc_size v → Forall is_byte buf → (∀ a, mem k a = c a) →
  ∃ k1 k2, flash (λ g, flash_sector_erase_int g (u16 v)) k = Done (FLASH_API_OK, k1) ∧
    flash (λ g, flash_write_buf g (u16 v) 0 buf (fc_size v)) k1 = Done (fc_size v, k2) ∧
    kstep FB d k (stored c (base v) buf) (k_live k) k2.
Proof.
  intros H Hv Hl Hb Hc.
  destruct (k_erase FB d k v H Hv) as (k1&E1&S1).
  destruct (k_write_sector FB d k1 v buf) as (k2&E2&S2); [apply S1|done|lia|done| |].
  { intros a Ha. by rewrite (st_mem _ _ _ _ _ _ S1), decide_True. }
  exists k1, k2. split_and!; [done..|].
  rewrite (st_live _ _ _ _ _ _ S1) in S2. eapply kstep_ext; [|eapply kstep_trans; [exact S1|exact S2]].
  intros a. unfold stored. rewrite Hl. cbn beta. case_decide; [done|].
  rewrite (st_mem _ _ _ _ _ _ S1), decide_False by done. apply Hc.
Qed.

Lemma image_shared_spec k v str size : kok FB d k → 0 ≤ v < fc_num → 0 < size →
  size ≤ fc_size v - area_length (flash_variable (fInfo k)) → size ≤ fc_size v →
  size ≤ Z.of_nat (length str) → Forall is_byte str → memory_soon kmalloc k →
  ∃ k', image_shared kmalloc true v (fc_size v) str size k = Done ((v, 0, TempFreed), k') ∧
    istep k (stored (mem k) (base v) (take (Z.to_nat size) str)) k'.
Proof.
  intros H Hv Hs Hroom Hfit Hl Hbytes Hmem. unfold image_shared. rewrite bind_gets.
  rewrite Z.gtb_ltb, (proj2 (Z.ltb_ge _ _)) by lia.
  destruct (retriedKmalloc_ok kmalloc (fc_size v) k Hmem) as (c&E). mstep E.
  pose proof (kstep_alloc FB d k c (k_live k + 1) H) as S0.
  assert (base (v + 1) = base v + fc_size v) as Hsucc by (apply sec_base_succ; lia).
  assert (base v + fc_size v ≤ base fc_num) as Hend
    by (pose proof (base_mono FB d (v + 1) fc_num); lia).
  destruct (k_read FB d (set_alloc c (k_live k + 1) k) v (fc_size v)) as (k1&E1&S1);
    [apply S0|done|lia|done|].
  mstep E1.
  set (old := bytes_at (mem (set_alloc c (k_live k + 1) k)) (base v) (Z.to_nat (fc_size v))).
  assert (Z.of_nat (length old) = fc_size v) as Hold by (unfold old; rewrite bytes_at_length; lia).
  assert (old = blks_at FB d (mem k) v (v + 1)) as Eold.
  { unfold blks_at, old. rewrite Hsucc. replace (base v + fc_size v - base v) with (fc_size v) by lia. done. }
  assert (buf_write (replicate (Z.to_nat (fc_size v)) 0) 0 old = Some old) as Ew.
  { rewrite buf_write_Some by (rewrite ?length_replicate; lia). simpl.
    by rewrite drop_ge, app_nil_r by (rewrite length_replicate; lia). }
  rewrite Ew. cbn [of_option]. rewrite bind_ret. cbn [negb].
  rewrite (buf_read_Some str 0 size) by lia. cbn [of_option]. rewrite bind_ret, drop_0.
  set (src := take (Z.to_nat size) str).
  assert (Hsrc : Z.of_nat (length src) = size) by (unfold src; rewrite length_take; lia).
  destruct (buf_write old 0 src) as [buf|] eqn:Hw; cycle 1.
  { rewrite buf_write_Some in Hw; [done|lia..]. }
  cbn [of_option]. rewrite bind_ret.
  assert (∀ a, mem k1 a = mem k a) as Hk1.
  { intros a. apply (st_mem _ _ _ _ _ _ S1). }
  assert (Forall is_byte buf) as Hbuf.
  { apply buf_write_inv in Hw as (_&_&->). rewrite Eold.
    pose proof (blks_at_bytes FB d k v (v + 1) (kk_ok _ _ _ H) ltac:(lia) ltac:(lia)).
    apply Forall_app. split; [by apply Forall_take|]. apply Forall_app.
    split; [by apply Forall_take|by apply Forall_drop]. }
  destruct (rewrite_sector k1 v buf (mem k)) as (k2&k3&E2&E3&S3); [apply S1|done| |done|done|].
  { by rewrite (buf_write_length _ _ _ _ Hw). }
  mstep E2. mstep E3. rewrite (st_live _ _ _ _ _ _ S1) in S3.
  destruct (kfree_step FB d k (stored (mem k) (base v) buf) (k_live k) k3) as (k4&E4&S4).
  { eapply kstep_trans; [exact S0|]. eapply kstep_trans; [exact S1|exact S3]. }
  mstep E4. exists k4. split; [by rewrite Z.eqb_refl|].
  apply istep_kstep. eapply kstep_ext; [|exact S4]. intros a. rewrite Eold in Hw.
  rewrite (stored_splice FB d (mem k) v (v + 1) 0 src buf); [|lia..|done].
  by rewrite Z.add_0_r.
Qed.

(** The image of [size] bytes written from block [b] ends in sector [v], shared
    with the variable area, in front of the area. *)
Definition ends_shared (k : kstate S) (b size : Z) : Prop :=
  let a := flash_variable (fInfo k) in
  b ≤ start_blk a < fc_num ∧ 0 ≤ area_length a ∧ base (start_blk a) < base b + size ∧
  base b + size ≤ base (start_blk a) + (fc_size (start_blk a) - area_length a).

Lemma image_loop_shared n : ∀ k b str size,
  kok FB d k → 0 ≤ b → 0 < size → size ≤ Z.of_nat n → size ≤ Z.of_nat (length str) →
  Forall is_byte str → (∀ j, kmalloc j = true) → ends_shared k b size →
  ∃ k', image_loop kmalloc true n false b str size k =
    Done ((start_blk (flash_variable (fInfo k)), 0, TempFreed), k') ∧ kok FB d k'.
Proof.
  induction n as [|n IH]; intros k b str size H Hb Hs Hn Hl Hbytes Hm He; [lia|].
  pose proof He as (Hv&Ha&Hr&Hroom). set (v := start_blk (flash_variable (fInfo k))) in *.
  assert (0 ≤ b < fc_num) as Hb' by lia. destruct (fc_size_pos b Hb') as [Hfs Hfe].
  cbn [image_loop]. mstep (k_size FB d k b H Hb'). rewrite bind_gets. fold v. cbn [negb andb].
  destruct (Z.eqb_spec b v) as [->|Hne].
  - destruct (image_shared_spec k v str size) as (k'&E&St); [done..|lia|lia|done|done| |].
    { exists 0%nat. split; [lia|apply Hm]. }
    exists k'. split; [exact E|apply St].
  - pose proof (sec_base_succ fc_size b Hb) as Hsucc.
    assert (base (b + 1) ≤ base v) as Hbv by (pose proof (base_mono FB d (b + 1) v); lia).
    rewrite Z.gtb_ltb, (proj2 (Z.ltb_ge _ _)) by lia.
    assert (0 ≤ fc_size b ≤ fc_size b) as Hw by lia.
    assert (fc_size b ≤ Z.of_nat (length str)) as Hl' by lia.
    destruct (image_round k b str (fc_size b) H Hb' Hw Hfe Hl' Hbytes
      (λ r, if negb (r =? fc_size b) then mret (b, size, TempNull)
            else if 0 <? size - fc_size b then
              image_loop kmalloc true n false (b + 1)
                (drop (Z.to_nat (fc_size b)) str) (size - fc_size b)
            else mret (b + 1, size - fc_size b, TempNull))) as (k1&E&St).
    destruct (IH k1 (b + 1) (drop (Z.to_nat (fc_size b)) str) (size - fc_size b))
      as (k2&E2&Hk2); [apply St|lia..|rewrite length_drop; lia|by apply Forall_drop|done| |].
    { unfold ends_shared. rewrite (is_fInfo _ _ _ St). fold v. lia. }
    exists k2. split; [|done]. etransitivity; [exact E|]. rewrite Z.eqb_refl. cbn [negb].
    rewrite (proj2 (Z.ltb_lt _ _)) by lia. rewrite (is_fInfo _ _ _ St) in E2. exact E2.
Qed.

(** An image that ends in the sector shared with the variable area, with
    memory available and a good [copy_from_user], reaches the second release of
    the merge buffer: the branch frees [pTempBuf] without clearing it and the
    exit frees it again. *)
Theorem image_shared_double_free k b (string : list Z) size :
  let addr := s32 (base b + FB) in
  kok FB d k → 0 ≤ b → 0 < size → size ≤ Z.of_nat (length string) → Forall is_byte string →
  (∀ j, kmalloc j = true) → ends_shared k b size → is_whole_image FB addr size = false →
  kerSysBcmImageSet FB kmalloc true addr string size k = Fault.
Proof.
  intros addr H Hb Hs Hl Hbytes Hm He Hw. pose proof He as (Hv&_).
  assert (0 ≤ b < fc_num) as Hb' by lia. destruct (fc_size_pos b Hb') as [Hfs _].
  assert (base b ≤ base b < base b + fc_size b) as Hin by lia.
  destruct (image_loop_shared (Datatypes.S (Z.to_nat size)) k b string size)
    as (k1&E1&Hk1); [done..|lia|done|done|done|done|].
  destruct (i_led ADSL_LED LED_ON k1 Hk1) as (k2&E2&_).
  unfold kerSysBcmImageSet. mstep (k_get_blk FB d k b _ H Hb' Hin).
  rewrite (proj2 (Z.ltb_ge b 0)) by lia. fold addr. rewrite Hw. mstep E1. mstep E2. done.
Qed.
End proofs.

(** ** Witnesses: sixteen sectors of 8K *)

Section witnesses.
Existing Instance ram16.

Definition variable16_kernel : kstate (Z → Z) :=
  set_fInfo {| flash_persistent := no_area; flash_psi_backup := no_area; flash_fix := no_area;
               flash_avail := no_area;
               flash_variable := {| start_blk := 10; number_blk := 1; area_length := 100;
                                    blk_offset := 8092 |};
               flash_scratch_pad := no_area; flash_nvram := nvram_area |} ram16_kernel.

Lemma ram16_kok i : kok 0xBE000000 (ram_dev 0xBE000000 16 8192) (set_fInfo i ram16_kernel).
Proof. constructor; [reflexivity|]. intros a. done. Qed.

(** Three bytes at block 2: the fourth is the padding byte the caller's buffer
    holds, the rest of the sector is erased. *)
Lemma kerSysBcmImageSet_correct_witness :
  ∃ k', kerSysBcmImageSet 0xBE000000 (λ _, true) true (s32 (8192 * 2 + 0xBE000000))
          [1; 2; 3; 4] 3 variable16_kernel = Done (0, k') ∧
    k_flash k' (8192 * 2 + 2) = 3 ∧ k_flash k' (8192 * 2 + 4) = 255.
Proof.
  destruct (kerSysBcmImageSet_correct 0xBE000000 (ram_dev 0xBE000000 16 8192) (λ _, true) true
              variable16_kernel 2 [1; 2; 3; 4] 3) as (e&k'&E&He&Hbe&St).
  - apply ram16_kok.
  - vm_compute. split; [discriminate|reflexivity].
  - reflexivity.
  - vm_compute. discriminate.
  - vm_compute. discriminate.
  - by repeat constructor.
  - right. right. vm_compute. discriminate.
  - exists k'. split; [exact E|]. split; [exact (is_mem _ _ _ _ _ St (8192 * 2 + 2))|].
    etransitivity; [exact (is_mem _ _ _ _ _ St (8192 * 2 + 4))|]. unfold image_at.
    pose proof (base_mono 0xBE000000 (ram_dev 0xBE000000 16 8192) 3 e) as Hm.
    rewrite decide_False by (vm_compute; intros [_ [=]]). rewrite decide_True; [done|].
    change (is_whole_image 0xBE000000 (s32 (sec_base fc_size 2 + 0xBE000000)) 3) with false.
    change (sec_base fc_size 2) with 16384. change (sec_base fc_size 3) with 24576 in Hm. lia.
Defined.

(** An image over block 9 that ends four bytes into block 10. *)
Lemma image_shared_double_free_witness :
  kerSysBcmImageSet 0xBE000000 (λ _, true) true (s32 (8192 * 9 + 0xBE000000))
    (replicate (Z.to_nat 8196) 7) 8196 variable16_kernel = Fault.
Proof.
  assert (8192 * 9 = sec_base fc_size 9) as -> by reflexivity.
  generalize (image_shared_double_free 0xBE000000 (ram_dev 0xBE000000 16 8192) (λ _, true)
           variable16_kernel 9 (replicate (Z.to_nat 8196) 7) 8196). cbv zeta. intros T. apply T.
  - apply ram16_kok.
  - lia.
  - lia.
  - rewrite length_replicate. lia.
  - apply Forall_replicate. split; [discriminate|reflexivity].
  - reflexivity.
  - unfold ends_shared. vm_compute. by repeat split.
  - reflexivity.
Defined.
End witnesses.
