(* ===== verification/ImageTag.v ===== *)
(** * Image tags, upgrade and boot selection ([board.c])

    A firmware image starts with a 256-byte tag ([FILE_TAG], [bcmTag.h]) that
    holds its lengths and addresses in ASCII, the CRC of its parts and its own
    CRC.  The flash has a normal system behind the boot loader and a small system
    behind it; [flashFsKernelImage] writes one of them, [getBootImageTag] decides
    which one to boot.  A tag is the list of its bytes; a pointer to a tag is an
    [option].  [getTagFromPartition] returns pointers to two static buffers that
    are read again by each call; the flash does not change between the calls of
    one function here, so the values stand for the buffers.

    This is the build without [SUPPORT_TMP_FIRMWARE]. *)

From stdpp Require Import base numbers list.
From Stdlib Require Import ZArith Lia.
From S2P Require Import Prelude Crc32 FlashApi KerFlash ImageSet CText.

Definition TAG_LEN : Z := 256.
Definition TOKEN_LEN : Z := 20.
Definition CRC_LEN : Z := 4.

(** Offsets of the fields of [FILE_TAG]; all fields are byte arrays. *)
Definition tag_tagVersion : nat := 0.
Definition tag_rootfsAddress : nat := 94.
Definition tag_rootfsLen : nat := 106.
Definition tag_kernelAddress : nat := 116.
Definition tag_kernelLen : nat := 128.
Definition tag_imageSequence : nat := 138.
Definition tag_productName : nat := 142.
Definition tag_reserved : nat := 198.
Definition tag_imageValidationToken : nat := 216.
Definition tag_tagValidationToken : nat := 236.

Definition FLASH_LENGTH_NORMAL_SYSTEM : Z := 80 * 128 * ONEK.
Definition FLASH_LENGTH_SMALL_SYSTEM : Z := 37 * 128 * ONEK.

Definition TAGVERSION_HW_OLD : Z := 7.
Definition TAGVERSION_HW_NEW : Z := 8.
Definition TAGVERSION_FLAG_NORMAL_FW : Z := 1.
Definition TAGVERSION_FLAG_SMALL_FW : Z := 2.
Definition TAGVERSION_FLAG_PACKAGED_FW : Z := 3.
Definition TAGVERSION_FLAG_TEMP_FW : Z := 4.

Definition IMAGE_BASE : Z := 0xBFC00000.
Definition BOOT_LATEST_IMAGE : Z := 48.

(** A field of the tag as a number, and the CRC a token holds. *)
Definition tag_num (off : nat) (tag : list Z) : option Z := simple_strtoul (drop off tag).
Definition tag_addr (off : nat) (tag : list Z) : option Z := board_atoi (drop off tag).
Definition tag_crc (off : nat) (tag : list Z) : Z := be32 (drop off tag).

(** The CRC of a tag covers what is in front of its own token. *)
Definition tag_crc32 (tag : list Z) : Z :=
  getCrc32 (take (Z.to_nat (TAG_LEN - TOKEN_LEN)) tag) CRC32_INIT_VALUE.

(** How an image is to be written, by version, kind and size; [None] is an
    illegal image.  [inl offset]: a normal system, whose sequence number is
    updated; [inr offset]: the small system, whose sequence number is 0. *)
Definition image_target (tagVer typeFlag newImgSize totalSize : Z) : option (Z + Z) :=
  let availableTempFwSize := u32 (totalSize / 2 - FLASH_RESERVED_AT_END) in
  let size := u32 (TAG_LEN + newImgSize) in
  if (TAGVERSION_HW_OLD =? tagVer) && (TAGVERSION_FLAG_TEMP_FW =? typeFlag) then
    if size >? availableTempFwSize then None else Some (inl (FLASH_LENGTH_BOOT_ROM + TAG_LEN))
  else if (TAGVERSION_HW_NEW =? tagVer) &&
          ((TAGVERSION_FLAG_NORMAL_FW =? typeFlag) || (TAGVERSION_FLAG_PACKAGED_FW =? typeFlag)) then
    if size >? FLASH_LENGTH_NORMAL_SYSTEM then None
    else Some (inl (FLASH_LENGTH_BOOT_ROM + TAG_LEN))
  else if (TAGVERSION_HW_NEW =? tagVer) && (TAGVERSION_FLAG_SMALL_FW =? typeFlag) then
    if size >? FLASH_LENGTH_SMALL_SYSTEM then None
    else Some (inr (FLASH_LENGTH_BOOT_ROM + FLASH_LENGTH_NORMAL_SYSTEM + TAG_LEN))
  else None.

(** The loop over the boot line that looks for "p=" with another image than the
    latest: the index of the digit, if there is one.  [None]: the loop leaves the
    NVRAM data. *)
Fixpoint find_boot_flag (p : list Z) (i : nat) : option (option nat) :=
  match p with
  | p0 :: ((p1 :: p2 :: _) as p') =>
      if p2 =? 0 then Some None
      else if (p0 =? 112) && (p1 =? 61) && negb (p2 =? BOOT_LATEST_IMAGE) then Some (Some (i + 2)%nat)
      else find_boot_flag p' (S i)
  | _ => None
  end.

(** The loop that reads the boot partition: the character behind the first "p=". *)
Fixpoint find_boot_partition (p : list Z) : option Z :=
  match p with
  | p0 :: ((p1 :: p2 :: _) as p') =>
      if p2 =? 0 then Some BOOT_LATEST_IMAGE
      else if (p0 =? 112) && (p1 =? 61) then Some p2
      else find_boot_partition p'
  | _ => None
  end.

Definition offsetof_szBootline : nat := 4.
Definition NVRAM_BOOTLINE_LEN : nat := 256.

(** The NVRAM data with the boot flag set to the latest image and a new checksum. *)
Definition nvram_boot_latest (nv : list Z) (i : nat) : list Z :=
  let nv1 := <[(offsetof_szBootline + i)%nat := BOOT_LATEST_IMAGE]> nv in
  let nv0 := take (Z.to_nat offsetof_ulCheckSum) nv1 ++ [0; 0; 0; 0] in
  take (Z.to_nat offsetof_ulCheckSum) nv1 ++ be_bytes (getCrc32 nv0 CRC32_INIT_VALUE).

Section board.
Context {S : Type} (FLASH_BASE : Z) (mapped : S → Z → Z) (kmalloc : nat → bool).
Abbreviation ks := (kstate S).

Definition BOOT_OFFSET : Z := u32 (FLASH_BASE - IMAGE_BASE).

(** Bytes at an address of the mapped flash. *)
Definition mapped_bytes (s : S) (addr len : Z) : list Z :=
  map (λ j, mapped s (u32 (addr + Z.of_nat j))) (seq 0 (Z.to_nat len)).

Definition getTagFromPartition (imageNumber : Z) : M ks (option (list Z)) :=
  pBase ← flash (λ g, flash_get_memptr g 0);
  blk ← (if imageNumber =? 1 then
           flash (λ g, flash_get_blk g (s32 (pBase + FLASH_LENGTH_BOOT_ROM)))
         else if imageNumber =? 2 then
           flash (λ g, flash_get_blk g
                         (s32 (pBase + FLASH_LENGTH_BOOT_ROM + FLASH_LENGTH_NORMAL_SYSTEM)))
         else mret 0);
  if blk =? 0 then mret None
  else
    '(_, bytes) ← flash (λ g, flash_read_buf g (u16 blk) 0 TAG_LEN);
    let zero := replicate (Z.to_nat TAG_LEN) 0 in
    tag ← match bytes with
          | Some bs => of_option (buf_write zero 0 bs)
          | None => mret zero
          end;
    mret (if tag_crc32 tag =? tag_crc tag_tagValidationToken tag then Some tag else None).

(** A sequence number as [int]; -1 without a tag. *)
Definition tag_sequence (pTag : option (list Z)) : M ks Z :=
  match pTag with
  | Some tag => n ← of_option (tag_num tag_imageSequence tag); mret (s32 n)
  | None => mret (-1)
  end.

Definition getPartitionFromTag (pTag : option (list Z)) : M ks Z :=
  match pTag with
  | None => mret 0
  | Some _ =>
      pTag1 ← getTagFromPartition 1;
      pTag2 ← getTagFromPartition 2;
      sequence ← tag_sequence pTag;
      sequence1 ← tag_sequence pTag1;
      sequence2 ← tag_sequence pTag2;
      mret (if negb (bool_decide (pTag1 = None)) && (sequence =? sequence1) then 1
            else if negb (bool_decide (pTag2 = None)) && (sequence =? sequence2) then 2 else 0)
  end.

(** The text of the new sequence number. *)
Definition UpdateImageSequenceNumber : M ks (list Z) :=
  pTag1 ← getTagFromPartition 1;
  n1 ← match pTag1 with
       | Some tag => n ← of_option (tag_num tag_imageSequence tag); mret (s32 n)
       | None => mret 0
       end;
  pTag2 ← getTagFromPartition 2;
  n2 ← match pTag2 with
       | Some tag =>
           n ← of_option (tag_num tag_imageSequence tag);
           mret (if n >? u32 n1 then s32 n else n1)
       | None => mret n1
       end;
  mret (sprintf_d (s32 (n2 + 1))).

(** The check of one part of an image: [token] holds its CRC, or 0. *)
Definition check_part (tag : list Z) (token addr len : nat) : M ks bool :=
  let ulImgCrc := tag_crc token tag in
  if ulImgCrc =? 0 then mret true
  else
    a ← of_option (tag_addr addr tag);
    n ← of_option (tag_num len tag);
    s ← gets k_flash;
    let ulCrc := getCrc32 (mapped_bytes s (u32 (a + BOOT_OFFSET)) (u32 (s32 n))) CRC32_INIT_VALUE in
    mret (ulCrc =? ulImgCrc).

Definition CheckSystemCrc (pTag : option (list Z)) : M ks Z :=
  match pTag with
  | None => mret (-1)
  | Some tag =>
      fs ← check_part tag (tag_imageValidationToken + 4) tag_rootfsAddress tag_rootfsLen;
      if negb fs then mret (-1)
      else
        kernel ← check_part tag (tag_imageValidationToken + 8) tag_kernelAddress tag_kernelLen;
        mret (if negb kernel then -1 else 0)
  end.

Definition getBootImageTag : M ks (option (list Z)) :=
  pTag1 ← getTagFromPartition 1;
  pTag2 ← getTagFromPartition 2;
  match pTag1, pTag2 with
  | Some _, Some _ =>
      ret ← CheckSystemCrc pTag1;
      mret (if negb (0 =? ret) then pTag2 else pTag1)
  | _, _ => mret (match pTag2 with Some _ => pTag2 | None => pTag1 end)
  end.

Definition kerSysImageTagGet : M ks (option (list Z)) := getBootImageTag.

(** The addresses of the kernel and of the file system, and the tag's CRC, are
    written into the tag of the image. *)
Definition patch_tag (img seq : list Z) (offset kernelAddr rootfsAddr : Z) : option (list Z) :=
  img1 ← buf_write img (Z.of_nat tag_imageSequence) (seq ++ [0]);
  img2 ← buf_write img1 (Z.of_nat tag_kernelAddress)
           (sprintf_lu (u32 (IMAGE_BASE + offset + (kernelAddr - rootfsAddr))) ++ [0]);
  img3 ← buf_write img2 (Z.of_nat tag_rootfsAddress) (sprintf_lu (u32 (IMAGE_BASE + offset)) ++ [0]);
  buf_write img3 (Z.of_nat tag_tagValidationToken) (be_bytes (tag_crc32 img3)).

(** The image is written with the sector of the tag last. *)
Definition write_image (rootfsAddr : Z) (img : list Z) (newImgSize : Z) : M ks Z :=
  fsBlk ← flash (λ g, flash_get_blk g (s32 (rootfsAddr - TAG_LEN)));
  ulSectorSize ← flash (λ g, flash_get_sector_size g (u16 fsBlk));
  status ← kerSysBcmImageSet FLASH_BASE kmalloc true (s32 (rootfsAddr - TAG_LEN + ulSectorSize))
             (drop (Z.to_nat ulSectorSize) img) (s32 (TAG_LEN + newImgSize - ulSectorSize));
  if negb (status =? 0) then mret status
  else kerSysBcmImageSet FLASH_BASE kmalloc true (s32 (rootfsAddr - TAG_LEN)) img (s32 ulSectorSize).

(** [img] is the image in memory; [destAddr] and [imageLen] are not used. *)
Definition flashFsKernelImage (img : list Z) : M ks Z :=
  n1 ← of_option (tag_num tag_rootfsAddress img);
  n2 ← of_option (tag_num tag_kernelAddress img);
  let rootfsAddr := s32 (n1 + BOOT_OFFSET) in
  let kernelAddr := s32 (n2 + BOOT_OFFSET) in
  l1 ← of_option (tag_num tag_rootfsLen img);
  l2 ← of_option (tag_num tag_kernelLen img);
  let newImgSize := u32 (l1 + l2) in
  baseAddr ← flash (λ g, flash_get_memptr g 0);
  totalSize ← flash flash_get_total_size;
  v ← of_option (tag_num tag_tagVersion img);
  f ← of_option (tag_num tag_reserved img);
  match image_target (s32 v) (s32 f) newImgSize totalSize with
  | None => mret (-1)
  | Some target =>
      '(offset, seq) ← match target with
                       | inl offset => s ← UpdateImageSequenceNumber; mret (offset, s)
                       | inr offset => mret (offset, sprintf_d 0)
                       end;
      img' ← of_option (patch_tag img seq offset kernelAddr rootfsAddr);
      nvaddr ← get_nvram_start_addr;
      s ← gets k_flash;
      let nv := nvram_bytes mapped s nvaddr in
      status ← write_image (u32 (baseAddr + offset)) img' newImgSize;
      if negb (status =? 0) then mret status
      else
        found ← of_option (find_boot_flag (drop offsetof_szBootline nv) 0);
        match found with
        | Some i =>
            kerSysNvRamSet kmalloc (nvram_boot_latest nv i) sizeof_NVRAM_DATA 0;; mret status
        | None => mret status
        end
  end.

(** [kerSysGetFsImageFromFlash] and [kerSysGetKernelImageFromFlash] with a
    buffer: the status and the bytes read. *)
Definition image_from_flash (addr : nat) (strLen offSet : Z) : M ks (Z * option (list Z)) :=
  stFileTag ← getTagFromPartition 1;
  match stFileTag with
  | None => mret (-1, None)
  | Some tag =>
      a ← of_option (tag_addr addr tag);
      '(_, bytes) ← kerSysReadFromFlash (s32 (u32 (a + BOOT_OFFSET) + offSet)) strLen;
      mret (0, bytes)
  end.

Definition kerSysGetFsImageFromFlash : Z → Z → M ks (Z * option (list Z)) :=
  image_from_flash tag_rootfsAddress.

Definition kerSysGetKernelImageFromFlash : Z → Z → M ks (Z * option (list Z)) :=
  image_from_flash tag_kernelAddress.

(** The tag to boot by sequence number and boot flag, and its partition. *)
Definition getBootImageTagAndSeq : M ks (option (list Z) * Z) :=
  pTag1 ← getTagFromPartition 1;
  pTag2 ← getTagFromPartition 2;
  match pTag1, pTag2 with
  | Some _, Some _ =>
      sequence1 ← tag_sequence pTag1;
      sequence2 ← tag_sequence pTag2;
      nvaddr ← get_nvram_start_addr;
      s ← gets k_flash;
      bootPartition ← of_option
        (find_boot_partition (drop offsetof_szBootline (nvram_bytes mapped s nvaddr)));
      let second := if bootPartition =? BOOT_LATEST_IMAGE then sequence2 >? sequence1
                    else sequence2 <? sequence1 in
      mret (if second then (pTag2, 2) else (pTag1, 1))
  | _, _ => mret (match pTag2 with Some _ => (pTag2, 2) | None => (pTag1, 1) end)
  end.

(** [seq_ptr] is the address of the local variable [seq]: the second call of
    [getTagFromPartition] passes it in place of the partition number. *)
Definition kerSysGetBootFs (seq_ptr : Z) : M ks (option (list Z)) :=
  '(pTag, _) ← getBootImageTagAndSeq;
  match pTag with
  | None => getTagFromPartition 2
  | Some tag =>
      a ← of_option (tag_addr tag_rootfsAddress tag);
      n ← of_option (tag_addr tag_rootfsLen tag);
      let rootfs_addr := u32 (a + BOOT_OFFSET) in
      let root_len := u32 n in
      if 0 <? root_len then
        pSectAddr ← retriedKmalloc kmalloc root_len;
        match pSectAddr with
        | None => mret None
        | Some buf =>
            '(_, bytes) ← kerSysReadFromFlash (s32 rootfs_addr) (s32 root_len);
            buf1 ← match bytes with
                   | Some bs => of_option (buf_write buf 0 bs)
                   | None => mret buf
                   end;
            pTag' ← (if negb (getCrc32 buf1 CRC32_INIT_VALUE =?
                              tag_crc (tag_imageValidationToken + 4) tag)
                     then getTagFromPartition seq_ptr
                     else mret (Some tag));
            retriedKfree;;
            mret pTag'
        end
      else mret pTag
  end.
End board.
