(* ===== verification/TagProofs.v ===== *)
(** * Proofs about image tags

    Fields of a tag as prefixes at an offset, the tag in flash, and the two
    writes of an upgrade; proved against the flash contract, on flashes with
    sectors of one size. *)

From stdpp Require Import base numbers list.
From Stdlib Require Import ZArith Lia.
From S2P Require Import Prelude Crc32 FlashApi CfiGeometry KerFlash FlashAreas FlashClaims ImageSet.
From S2P Require Import CText ImageTag.

(** ** Bytes at an offset of a list *)

Definition at_off (l : list Z) (off : nat) (src : list Z) : Prop :=
  ∀ i x, src !! i = Some x → l !! (off + i)%nat = Some x.

Section offsets.
Implicit Types l src : list Z.

Lemma at_off_drop l off src :
  at_off l off src → drop off l = src ++ drop (off + length src) l.
Proof.
  intros H. apply list_eq. intros i. rewrite lookup_drop.
  destruct (decide (i < length src)%nat) as [Hi|Hi].
  - destruct (lookup_lt_is_Some_2 src i Hi) as [x Hx].
    rewrite (H i x Hx). by rewrite lookup_app_l, Hx.
  - rewrite lookup_app_r, lookup_drop by lia. f_equal. lia.
Qed.

Lemma at_off_slice l off n : at_off l off (take n (drop off l)).
Proof.
  intros i x Hx. pose proof (lookup_lt_Some _ _ _ Hx) as Hi. rewrite length_take in Hi.
  rewrite lookup_take_lt, lookup_drop in Hx by lia. done.
Qed.

Lemma at_off_take l off src n :
  at_off l off src → (off + length src ≤ n)%nat → at_off (take n l) off src.
Proof.
  intros H Hn i x Hx. pose proof (lookup_lt_Some _ _ _ Hx).
  rewrite lookup_take_lt by lia. by apply H.
Qed.

Lemma at_off_write_same l l' off src :
  buf_write l (Z.of_nat off) src = Some l' → at_off l' off src.
Proof.
  intros H i x Hx. pose proof (lookup_lt_Some _ _ _ Hx).
  rewrite (buf_write_lookup _ _ _ _ _ H), decide_True by lia.
  rewrite Nat2Z.id. by replace (off + i - off)%nat with i by lia.
Qed.

Lemma at_off_write_other l l' o s off src :
  buf_write l (Z.of_nat o) s = Some l' →
  (off + length src ≤ o ∨ o + length s ≤ off)%nat → at_off l off src → at_off l' off src.
Proof.
  intros H Hd Ha i x Hx. pose proof (lookup_lt_Some _ _ _ Hx).
  rewrite (buf_write_lookup _ _ _ _ _ H), decide_False by lia. by apply Ha.
Qed.

Lemma at_off_weaken l off src t : at_off l off (src ++ t) → at_off l off src.
Proof. intros H i x Hx. apply H. by apply lookup_app_l_Some. Qed.

Lemma strtoul_app cp t r v : strtoul_from cp r = Some v → strtoul_from (cp ++ t) r = Some v.
Proof.
  revert r; induction cp as [|c cp IH]; intros r H; simpl in *; [done|].
  destruct (isdigit c); [by apply IH|done].
Qed.

(** A number that ends within its field. *)
Lemma tag_num_at l off src v :
  at_off l off src → simple_strtoul src = Some v → tag_num off l = Some v.
Proof.
  intros H E. unfold tag_num. rewrite (at_off_drop _ _ _ H). by apply strtoul_app.
Qed.

Lemma tag_addr_at l off v :
  at_off l off (sprintf_lu v ++ [0]) → 0 ≤ v < 2 ^ 32 → tag_addr off l = Some (s32 v).
Proof.
  intros H Hv. unfold tag_addr. rewrite (at_off_drop _ _ _ H), <- app_assoc.
  by apply atoi_sprintf_lu.
Qed.

Lemma tag_crc_at l off src :
  at_off l off src → length src = 4%nat → tag_crc off l = be32 src.
Proof.
  intros H Hl. unfold tag_crc. rewrite (at_off_drop _ _ _ H). unfold be32.
  by rewrite take_app_le, take_ge by lia.
Qed.

Lemma sprintf_lu_byte v : 0 ≤ v → Forall is_byte (sprintf_lu v ++ [0]).
Proof.
  intros Hv. apply Forall_app. split; [|by apply Forall_singleton].
  eapply Forall_impl; [apply (dec_digits_Forall 10 v Hv)|]. unfold is_byte. simpl. lia.
Qed.

Lemma buf_write_Forall (P : Z → Prop) l off src l' :
  buf_write l off src = Some l' → Forall P l → Forall P src → Forall P l'.
Proof.
  intros (_ & _ & ->)%buf_write_inv Hl Hs.
  apply Forall_app. split; [by apply Forall_take|]. apply Forall_app.
  split; [done|by apply Forall_drop].
Qed.
End offsets.

(** ** The patched tag *)

Record patched (img seq img' : list Z) (kernel rootfs : Z) : Prop := {
  pt_length : length img' = length img;
  pt_bytes : Forall is_byte img → Forall is_byte seq → Forall is_byte img';
  pt_frame : ∀ off src, at_off img off src →
    ((off + length src ≤ 94) ∨ (105 ≤ off ∧ off + length src ≤ 116) ∨
     (127 ≤ off ∧ off + length src ≤ 138) ∨ (150 ≤ off ∧ off + length src ≤ 236) ∨ 240 ≤ off)%nat →
    at_off img' off src;
  pt_seq : at_off img' tag_imageSequence (seq ++ [0]);
  pt_kernel : at_off img' tag_kernelAddress (sprintf_lu kernel ++ [0]);
  pt_rootfs : at_off img' tag_rootfsAddress (sprintf_lu rootfs ++ [0]);
  pt_crc : ∃ img3, at_off img' tag_tagValidationToken (be_bytes (tag_crc32 img3)) ∧
                   take 236 img' = take 236 img3
}.

Lemma patch_tag_spec img seq offset ka ra :
  (256 ≤ length img)%nat → (1 ≤ length seq ≤ 11)%nat →
  let kernel := u32 (IMAGE_BASE + offset + (ka - ra)) in
  let rootfs := u32 (IMAGE_BASE + offset) in
  ∃ img', patch_tag img seq offset ka ra = Some img' ∧ patched img seq img' kernel rootfs.
Proof.
  intros HL Hseq kernel rootfs. unfold patch_tag. fold kernel rootfs.
  pose proof (dec_digits_length 10 kernel ltac:(lia)) as HK.
  pose proof (dec_digits_length 10 rootfs ltac:(lia)) as HR.
  fold (sprintf_lu kernel) in HK. fold (sprintf_lu rootfs) in HR.
  assert (HB : ∀ l : list Z, length (l ++ [0]) = (length l + 1)%nat) by (intros; by rewrite length_app).
  assert (Hw : ∀ (l : list Z) o s, (o + length s ≤ length l)%nat → ∃ l', buf_write l (Z.of_nat o) s = Some l').
  { intros l o s H. eexists. apply buf_write_Some; lia. }
  unfold tag_imageSequence, tag_kernelAddress, tag_rootfsAddress, tag_tagValidationToken.
  destruct (Hw img 138%nat (seq ++ [0])) as [i1 E1]; [rewrite HB; lia|].
  rewrite E1. cbn [mbind option_bind].
  pose proof (buf_write_length _ _ _ _ E1) as L1.
  destruct (Hw i1 116%nat (sprintf_lu kernel ++ [0])) as [i2 E2];
    [rewrite HB; lia|].
  rewrite E2. cbn [mbind option_bind]. pose proof (buf_write_length _ _ _ _ E2) as L2.
  destruct (Hw i2 94%nat (sprintf_lu rootfs ++ [0])) as [i3 E3];
    [rewrite HB; lia|].
  rewrite E3. cbn [mbind option_bind]. pose proof (buf_write_length _ _ _ _ E3) as L3.
  destruct (Hw i3 236%nat (be_bytes (tag_crc32 i3))) as [i4 E4]; [simpl; lia|].
  pose proof (buf_write_length _ _ _ _ E4) as L4.
  exists i4. split; [done|].
  assert (HB4 : ∀ v, length (be_bytes v) = 4%nat) by done.
  constructor.
  - congruence.
  - intros Hi Hs. eapply buf_write_Forall; [exact E4| |apply be_bytes_byte].
    eapply buf_write_Forall; [exact E3| |apply sprintf_lu_byte, u32_range].
    eapply buf_write_Forall; [exact E2| |apply sprintf_lu_byte, u32_range].
    eapply buf_write_Forall; [exact E1|done|]. apply Forall_app. split; [done|by apply Forall_singleton].
  - intros off src H Hd.
    eapply at_off_write_other; [exact E4|rewrite HB4; lia|].
    eapply at_off_write_other; [exact E3|rewrite HB; lia|].
    eapply at_off_write_other; [exact E2|rewrite HB; lia|].
    eapply at_off_write_other; [exact E1|rewrite HB; lia|done].
  - eapply at_off_write_other; [exact E4|rewrite HB; unfold tag_imageSequence; lia|].
    eapply at_off_write_other; [exact E3|rewrite !HB; unfold tag_imageSequence; lia|].
    eapply at_off_write_other; [exact E2|rewrite !HB; unfold tag_imageSequence; lia|].
    by eapply at_off_write_same.
  - eapply at_off_write_other; [exact E4|rewrite HB; unfold tag_kernelAddress; lia|].
    eapply at_off_write_other; [exact E3|rewrite !HB; unfold tag_kernelAddress; lia|].
    by eapply at_off_write_same.
  - eapply at_off_write_other; [exact E4|rewrite HB; unfold tag_rootfsAddress; lia|].
    by eapply at_off_write_same.
  - exists i3. split; [by eapply at_off_write_same|].
    apply buf_write_inv in E4 as (_ & _ & ->). rewrite take_app_le, take_take by (rewrite length_take; lia).
    done.
Qed.

(** ** Tags in flash *)

(** The tag at offset [off] of the flash contents [c]. *)
Definition tag_of (c : Z → Z) (off : Z) : option (list Z) :=
  let tag := bytes_at c off (Z.to_nat TAG_LEN) in
  if tag_crc32 tag =? tag_crc tag_tagValidationToken tag then Some tag else None.

(** Where the systems start. *)
Definition NORMAL : Z := FLASH_LENGTH_BOOT_ROM.
Definition SMALL : Z := FLASH_LENGTH_BOOT_ROM + FLASH_LENGTH_NORMAL_SYSTEM.

Lemma tag_of_ext c c' off : (∀ a, off ≤ a < off + 256 → c a = c' a) → tag_of c off = tag_of c' off.
Proof.
  intros H. unfold tag_of. erewrite bytes_at_ext; [done|]. intros a Ha.
  apply H. unfold TAG_LEN in Ha. lia.
Qed.

Section flash.
Context {S : Type} (FB : Z) (d : flash_device_info_t S) {C : FlashContract FB d}.
Context (mapped : S → Z → Z).
Context (c m : Z).

(** The flash is mapped at [FB], has sectors of [c] bytes that divide the boot
    loader's 128K, and room for both systems. *)
Record mapped_flash : Prop := {
  mf_base : 0 ≤ FB;
  mf_end : FB + sec_base fc_size fc_num ≤ 2 ^ 32;
  mf_map : ∀ s a, fc_ok s → 0 ≤ a < sec_base fc_size fc_num → mapped s (FB + a) = fc_mem s a;
  mf_m : 0 < m;
  mf_cm : c * m = FLASH_LENGTH_BOOT_ROM;
  mf_c : TAG_LEN ≤ c;
  mf_size : ∀ k, 0 ≤ k < fc_num → fc_size k = c;
  mf_big : SMALL + FLASH_LENGTH_SMALL_SYSTEM ≤ sec_base fc_size fc_num
}.

Context (F : mapped_flash).
Ltac use_flash := pose proof F as [HFB Hend Hmap Hm Hcm Hc Hsize Hbig].

Implicit Types k : kstate S.
Abbreviation base := (sec_base fc_size).
Abbreviation mem k := (fc_mem (k_flash k)).

Lemma base_c b : 0 ≤ b ≤ fc_num → base b = c * b.
Proof using F.
  use_flash.
  intros [Hb Hn]. revert Hn. pattern b. apply natlike_ind; [|clear b Hb|done].
  - intros _. rewrite sec_base_0. lia.
  - intros b Hb IH Hn. rewrite <- Z.add_1_r in *. rewrite sec_base_succ by lia.
    rewrite IH, Hsize by lia. lia.
Qed.

(** The block at a multiple of 128K. *)
Lemma blk_at j : 0 ≤ j → 131072 * j < base fc_num → 0 ≤ m * j < fc_num ∧ base (m * j) = 131072 * j.
Proof using F.
  use_flash.
  intros Hj Hlt. pose proof (fc_num_range) as Hn.
  rewrite base_c in Hlt by lia. unfold FLASH_LENGTH_BOOT_ROM, ONEK in Hcm.
  assert (Hr : 0 ≤ m * j < fc_num) by nia. split; [done|].
  rewrite base_c by lia. nia.
Qed.

Lemma k_memptr0 k : kok FB d k → flash (λ g, flash_get_memptr g 0) k = Done (FB, k).
Proof using F.
  use_flash.
  intros H. unfold flash. rewrite (kk_dev _ _ k H). simpl. pose proof fc_num_range.
  rewrite fc_memptr by (lia || apply H). rewrite sec_base_0, Z.add_0_r, set_flash_id.
  rewrite u32_small; [done|]. pose proof (base_mono FB d 0 fc_num) as Hb.
  rewrite sec_base_0 in Hb. lia.
Qed.

Lemma k_blk_off k j : kok FB d k → 0 ≤ j → 131072 * j < base fc_num →
  flash (λ g, flash_get_blk g (s32 (FB + 131072 * j))) k = Done (m * j, k).
Proof using F.
  use_flash.
  intros H Hj Hlt. destruct (blk_at j Hj Hlt) as [Hb Eb].
  rewrite Z.add_comm, <- Eb. apply (k_get_blk FB d); [done..|]. pose proof (fc_size_pos _ Hb). lia.
Qed.

Lemma k_read_tag k j : kok FB d k → 0 ≤ j → 131072 * j + 256 ≤ base fc_num →
  ∃ k', flash (λ g, flash_read_buf g (u16 (m * j)) 0 TAG_LEN) k =
      Done ((FLASH_API_OK, Some (bytes_at (mem k) (131072 * j) (Z.to_nat TAG_LEN))), k') ∧
    istep FB d k (mem k) k'.
Proof using F.
  use_flash.
  intros H Hj Hlt. destruct (blk_at j Hj) as [Hb Eb]; [lia|].
  destruct (k_read FB d k (m * j) TAG_LEN) as (k'&E&St); [done..|unfold TAG_LEN; lia| |].
  { rewrite Eb. unfold TAG_LEN. lia. }
  exists k'. rewrite <- Eb. split; [done|]. by apply istep_kstep.
Qed.

(** The partitions' tags. *)
Lemma getTag_spec k i off : kok FB d k → (i = 1 ∧ off = NORMAL ∨ i = 2 ∧ off = SMALL) →
  ∃ k', getTagFromPartition i k = Done (tag_of (mem k) off, k') ∧ istep FB d k (mem k) k'.
Proof using F.
  use_flash.
  intros H Hi. unfold getTagFromPartition. mstep (k_memptr0 k H).
  unfold NORMAL, SMALL, FLASH_LENGTH_SMALL_SYSTEM, FLASH_LENGTH_NORMAL_SYSTEM,
    FLASH_LENGTH_BOOT_ROM, ONEK in *.
  assert (∃ j, 1 ≤ j ≤ 81 ∧ off = 131072 * j ∧
    (if i =? 1 then flash (λ g, flash_get_blk g (s32 (FB + 128 * 1024)))
     else if i =? 2 then flash (λ g, flash_get_blk g (s32 (FB + 128 * 1024 + 80 * 128 * 1024)))
     else mret 0) k = Done (m * j, k)) as (j & Hj & -> & E).
  { destruct Hi as [[-> ->]|[-> ->]]; [exists 1|exists 81]; (split; [lia|]); (split; [lia|]); cbn [Z.eqb Pos.eqb].
    - apply (k_blk_off k 1); [done|lia|lia].
    - replace (FB + 128 * 1024 + 80 * 128 * 1024) with (FB + 131072 * 81) by lia.
      apply k_blk_off; [done|lia|lia]. }
  unfold FLASH_LENGTH_NORMAL_SYSTEM, FLASH_LENGTH_BOOT_ROM, ONEK. mstep E.
  destruct (Z.eqb_spec (m * j) 0); [nia|].
  destruct (k_read_tag k j) as (k' & E' & St); [done|lia|lia|]. exists k'. split; [|done].
  mstep E'. rewrite buf_write_Some by (rewrite ?bytes_at_length, ?length_replicate; lia).
  cbn [of_option]. rewrite bind_ret. unfold tag_of, mret, M_ret.
  rewrite bytes_at_length, drop_ge, app_nil_r by (rewrite length_replicate; lia). done.
Qed.

(** ** Checking the parts of an image *)

Lemma mapped_bytes_spec k off n : kok FB d k → 0 ≤ off → 0 ≤ n → off + n ≤ base fc_num →
  mapped_bytes mapped (k_flash k) (FB + off) n = bytes_at (mem k) off (Z.to_nat n).
Proof using F.
  use_flash.
  intros H Ho Hn Hr. unfold mapped_bytes, bytes_at. apply map_ext_in. intros j Hj.
  apply in_seq in Hj. rewrite u32_small by lia.
  replace (FB + off + Z.of_nat j) with (FB + (off + Z.of_nat j)) by lia.
  apply Hmap; [apply H|lia].
Qed.

(** The CRC of a part agrees with the token, or there is no token. *)
Definition part_ok (cc : Z → Z) (tag : list Z) (token : nat) (off n : Z) : bool :=
  (tag_crc token tag =? 0) ||
  (getCrc32 (bytes_at cc off (Z.to_nat n)) CRC32_INIT_VALUE =? tag_crc token tag).

Lemma check_part_spec k tag token addr len a n off : kok FB d k →
  tag_addr addr tag = Some a → tag_num len tag = Some n →
  u32 (a + BOOT_OFFSET FB) = FB + off → 0 ≤ off → 0 ≤ n < 2 ^ 32 → off + n ≤ base fc_num →
  check_part FB mapped tag token addr len k = Done (part_ok (mem k) tag token off n, k).
Proof using F.
  use_flash.
  intros H Ea En Eo Ho Hn Hr. unfold check_part, part_ok.
  destruct (tag_crc token tag =? 0); [done|]. rewrite Ea, En. cbn [of_option].
  rewrite !bind_ret, bind_gets, Eo.
  assert (Es : u32 (s32 n) = n).
  { unfold u32, s32. change (2 ^ 32) with 4294967296 in *. change (2 ^ 31) with 2147483648.
    Z.to_euclidean_division_equations; lia. }
  by rewrite Es, mapped_bytes_spec by (done || lia).
Qed.

(** Where a system's parts lie in flash, as its tag says. *)
Record located (tag : list Z) (fs nfs kernel nk : Z) : Prop := {
  lc_fs : ∃ a, tag_addr tag_rootfsAddress tag = Some a ∧ u32 (a + BOOT_OFFSET FB) = FB + fs;
  lc_nfs : tag_num tag_rootfsLen tag = Some nfs;
  lc_kernel : ∃ a, tag_addr tag_kernelAddress tag = Some a ∧ u32 (a + BOOT_OFFSET FB) = FB + kernel;
  lc_nk : tag_num tag_kernelLen tag = Some nk;
  lc_fs_range : 0 ≤ fs ∧ 0 ≤ nfs < 2 ^ 32 ∧ fs + nfs ≤ base fc_num;
  lc_kernel_range : 0 ≤ kernel ∧ 0 ≤ nk < 2 ^ 32 ∧ kernel + nk ≤ base fc_num
}.

Definition system_ok (cc : Z → Z) (tag : list Z) (fs nfs kernel nk : Z) : bool :=
  part_ok cc tag (tag_imageValidationToken + 4) fs nfs &&
  part_ok cc tag (tag_imageValidationToken + 8) kernel nk.

Lemma CheckSystemCrc_spec k tag fs nfs kernel nk : kok FB d k → located tag fs nfs kernel nk →
  CheckSystemCrc FB mapped (Some tag) k =
    Done (if system_ok (mem k) tag fs nfs kernel nk then 0 else -1, k).
Proof using F.
  use_flash.
  intros H [(a1 & E1 & U1) N1 (a2 & E2 & U2) N2 (R1 & R2 & R3) (R4 & R5 & R6)].
  unfold CheckSystemCrc, system_ok.
  mstep (check_part_spec k tag (tag_imageValidationToken + 4) _ _ a1 nfs fs H E1 N1 U1 R1 R2 R3).
  destruct (part_ok (mem k) tag _ fs nfs); [|done]. cbn [negb andb].
  mstep (check_part_spec k tag (tag_imageValidationToken + 8) _ _ a2 nk kernel H E2 N2 U2 R4 R5 R6).
  by destruct (part_ok (mem k) tag _ kernel nk).
Qed.

(** ** The two writes of an upgrade *)

Context (kmalloc : nat → bool).

Lemma image_at_tag_last cc b e img n a : 0 ≤ b → 0 ≤ fc_size b ≤ n → base (b + 1) ≤ base e →
  image_at FB d (image_at FB d cc (b + 1) e (drop (Z.to_nat (fc_size b)) img) (n - fc_size b))
    b (b + 1) img (fc_size b) a = image_at FB d cc b e img n a.
Proof using F.
  intros Hb Hn He. unfold image_at. rewrite sec_base_succ in * by done.
  destruct (decide (base b ≤ a < base b + fc_size b)).
  { by rewrite decide_True by lia. }
  destruct (decide (base b + fc_size b ≤ a < base b + fc_size b + (n - fc_size b))).
  { rewrite decide_True by lia. rewrite !nth_lookup, lookup_drop. do 2 f_equal. lia. }
  rewrite (decide_False (P := base b ≤ a < base b + n)) by lia.
  destruct (decide (base b + fc_size b ≤ a < base e)).
  { by rewrite decide_True by lia. }
  by rewrite decide_False by lia.
Qed.

Lemma not_whole off size : 0 < off < base fc_num → is_whole_image FB (s32 (off + FB)) size = false.
Proof using F.
  use_flash.
  intros Ho. unfold is_whole_image.
  assert (E : u32 (s32 (off + FB)) = off + FB).
  { unfold u32, s32. change (2 ^ 32) with 4294967296 in *. change (2 ^ 31) with 2147483648.
    Z.to_euclidean_division_equations; lia. }
  rewrite E. destruct (Z.eqb_spec (off + FB) FB); [lia|done].
Qed.

Lemma write_image_spec k j img n : kok FB d k → 0 < j → 0 ≤ n → c < TAG_LEN + n →
  let off := 131072 * j in
  let v := start_blk (flash_variable (fInfo k)) in
  off + even_up (TAG_LEN + n) ≤ base v → 0 ≤ v ≤ fc_num →
  even_up (TAG_LEN + n) ≤ Z.of_nat (length img) → Forall is_byte img →
  ∃ e k', write_image FB kmalloc (u32 (FB + (off + TAG_LEN))) img n k = Done (0, k') ∧
    m * j < e ≤ fc_num ∧ base (e - 1) < off + even_up (TAG_LEN + n) ≤ base e ∧
    istep FB d k (image_at FB d (mem k) (m * j) e img (even_up (TAG_LEN + n))) k'.
Proof using F.
  use_flash.
  intros H Hj Hn Hcn off v Hv Hvr Hl Hb.
  destruct (even_up_spec (TAG_LEN + n)) as [Hup _].
  pose proof (base_mono FB d v fc_num) as Hvn. pose proof fc_total_range as Htot.
  unfold TAG_LEN in *.
  destruct (blk_at j) as [Hbj Ebj]; [lia|lia|]. fold off in Ebj.
  pose proof (sec_base_succ fc_size (m * j) ltac:(lia)) as Hsucc. rewrite (Hsize _ Hbj) in Hsucc.
  assert (Hc2 : even_up c = c).
  { unfold even_up. destruct (fc_size_pos _ Hbj) as [_ He]. rewrite (Hsize _ Hbj) in He.
    by rewrite <- Z.negb_even, He. }
  assert (Hev : even_up (256 + n - c) = even_up (256 + n) - c).
  { apply even_up_sub. destruct (fc_size_pos _ Hbj) as [_ He]. by rewrite (Hsize _ Hbj) in He. }
  assert (Hb1 : m * j + 1 < fc_num).
  { destruct (decide (m * j + 1 = fc_num)) as [E|]; [|lia]. rewrite <- E in *. lia. }
  unfold write_image. unfold TAG_LEN. rewrite (u32_small (FB + _)) by lia.
  replace (FB + (off + 256) - 256) with (FB + off) by lia.
  mstep (k_blk_off k j H ltac:(lia) ltac:(lia)). mstep (k_size FB d k _ H Hbj). rewrite (Hsize _ Hbj).
  rewrite (s32_small (256 + n - c)), (s32_small c) by lia.
  replace (FB + off + c) with (base (m * j + 1) + FB) by lia.
  destruct (image_set_spec FB d kmalloc true k (m * j + 1) (drop (Z.to_nat c) img) (256 + n - c))
    as (e & k1 & E1 & He & Hbe & S1); [done|lia|lia|lia|rewrite length_drop; lia|by apply Forall_drop| |].
  { right. destruct (decide (v < m * j + 1)); [by left|right]. fold v. lia. }
  mstep E1. cbn [Z.eqb negb].
  rewrite not_whole in S1 by lia.
  replace (FB + off) with (base (m * j) + FB) by lia.
  destruct (image_set_spec FB d kmalloc true k1 (m * j) img c)
    as (e2 & k2 & E2 & He2 & Hbe2 & S2); [apply S1|lia|lia|lia|lia|done| |].
  { right. rewrite (is_fInfo _ _ _ _ _ S1). fold v. right. lia. }
  rewrite not_whole in S2 by lia.
  assert (e2 = m * j + 1) as ->.
  { pose proof (base_mono FB d (m * j + 1) (e2 - 1)).
    destruct (decide (m * j + 1 ≤ e2 - 1)); [lia|]. lia. }
  exists e, k2. split; [exact E2|]. split; [lia|]. split; [lia|].
  eapply istep_trans; [exact S1|]. eapply istep_ext; [|exact S2]. intros a.
  rewrite Hc2. assert (Hm' : base (m * j + 1) ≤ base e) by (pose proof (base_mono FB d (m * j + 1) e); lia).
  pose proof (image_at_tag_last (mem k) (m * j) e img (even_up (256 + n)) a) as L.
  rewrite (Hsize _ Hbj) in L. rewrite <- L by lia. rewrite <- Hev.
  apply image_at_ext, (is_mem _ _ _ _ _ S1).
Qed.
End flash.
