(* ===== verification/TagClaims.v ===== *)
(** * What holds of upgrade and boot selection

    An upgraded normal system is the one that boots, with every check of the boot
    code satisfied; the small system is what boots otherwise; and the defects
    of the code. *)

From stdpp Require Import base numbers list.
From Stdlib Require Import ZArith Lia Bool.
From S2P Require Import Prelude Crc32 FlashApi CfiGeometry RamFlash KerFlash FlashAreas FlashClaims.
From S2P Require Import ImageSet CText ImageTag TagProofs.

(** A sequence number, 0 when there is no tag. *)
Definition seq_of (pTag : option (list Z)) : Z :=
  match pTag with Some tag => default 0 (tag_num tag_imageSequence tag) | None => 0 end.

(** The tag's sequence number can be read and incremented. *)
Definition seq_ok (pTag : option (list Z)) : Prop :=
  ∀ tag, pTag = Some tag → ∃ n, tag_num tag_imageSequence tag = Some n ∧ n < 2 ^ 31 - 1.

(** An image as the build makes it: the tag with version [v] and kind [f], the
    file system of [lr] bytes, the kernel of [lk] bytes behind it, their CRCs in
    the tag (or 0). *)
Record good_image (img : list Z) (v f lr lk : Z) : Prop := {
  gi_bytes : Forall is_byte img;
  gi_version : tag_num tag_tagVersion img = Some v;
  gi_kind : tag_num tag_reserved img = Some f;
  gi_fs_len : simple_strtoul (take 10 (drop tag_rootfsLen img)) = Some lr;
  gi_kernel_len : simple_strtoul (take 10 (drop tag_kernelLen img)) = Some lk;
  gi_addr : ∃ ra ka, tag_num tag_rootfsAddress img = Some ra ∧
                     tag_num tag_kernelAddress img = Some ka ∧ u32 (ka - ra) = lr;
  gi_len : even_up (TAG_LEN + (lr + lk)) ≤ Z.of_nat (length img);
  gi_fs_crc : tag_crc (tag_imageValidationToken + 4) img = 0 ∨
    tag_crc (tag_imageValidationToken + 4) img =
      getCrc32 (take (Z.to_nat lr) (drop 256 img)) CRC32_INIT_VALUE;
  gi_kernel_crc : tag_crc (tag_imageValidationToken + 8) img = 0 ∨
    tag_crc (tag_imageValidationToken + 8) img =
      getCrc32 (take (Z.to_nat lk) (drop (256 + Z.to_nat lr) img)) CRC32_INIT_VALUE
}.

Lemma strtoul_from_range cp r v : 0 ≤ r < 2 ^ 32 → strtoul_from cp r = Some v → 0 ≤ v < 2 ^ 32.
Proof.
  revert r; induction cp as [|x cp IH]; intros r Hr H; simpl in H; [done|].
  destruct (isdigit x); [|by simplify_eq]. eapply IH; [|exact H]. apply u32_range.
Qed.

Lemma tag_num_range off tag v : tag_num off tag = Some v → 0 ≤ v < 2 ^ 32.
Proof. apply strtoul_from_range. lia. Qed.

Lemma good_image_lens img v f lr lk : good_image img v f lr lk →
  tag_num tag_rootfsLen img = Some lr ∧ tag_num tag_kernelLen img = Some lk ∧
  0 ≤ lr < 2 ^ 32 ∧ 0 ≤ lk < 2 ^ 32.
Proof.
  intros G.
  pose proof (tag_num_at _ _ _ _ (at_off_slice img tag_rootfsLen 10) (gi_fs_len _ _ _ _ _ G)) as E1.
  pose proof (tag_num_at _ _ _ _ (at_off_slice img tag_kernelLen 10) (gi_kernel_len _ _ _ _ _ G)) as E2.
  pose proof (tag_num_range _ _ _ E1). pose proof (tag_num_range _ _ _ E2). done.
Qed.

(** The patched tag is valid. *)
Lemma tag_of_patched img seq img' kernel rootfs cc off :
  patched img seq img' kernel rootfs → (256 ≤ length img)%nat →
  bytes_at cc off 256 = take 256 img' → tag_of cc off = Some (take 256 img').
Proof.
  intros P HL E. unfold tag_of. change (Z.to_nat TAG_LEN) with 256%nat. rewrite E.
  destruct (pt_crc _ _ _ _ _ P) as (img3 & Hat & Htake).
  assert (Hl : length (be_bytes (tag_crc32 img3)) = 4%nat) by done.
  rewrite (tag_crc_at _ _ _ (at_off_take _ _ _ 256 Hat ltac:(rewrite Hl; unfold tag_tagValidationToken; lia)) Hl).
  assert (Ec : tag_crc32 (take 256 img') = tag_crc32 img3).
  { unfold tag_crc32. change (Z.to_nat (TAG_LEN - TOKEN_LEN)) with 236%nat.
    rewrite take_take, Nat.min_l by lia. by rewrite Htake. }
  assert (Hr : 0 ≤ tag_crc32 img3 < 2 ^ 32) by (apply getCrc32_range; unfold CRC32_INIT_VALUE; lia).
  pose proof (be32_be_bytes (tag_crc32 img3) [] Hr) as Eb. rewrite app_nil_r in Eb.
  by rewrite Eb, Ec, Z.eqb_refl.
Qed.

Section claims.
Context {S : Type} (FB : Z) (d : flash_device_info_t S) {C : FlashContract FB d}.
Context (mapped : S → Z → Z) (c m : Z) (F : mapped_flash FB d mapped c m).
Context (kmalloc : nat → bool).
Implicit Types k : kstate S.
Abbreviation base := (sec_base fc_size).
Abbreviation mem k := (fc_mem (k_flash k)).

Lemma seq_read tag : seq_ok (Some tag) →
  tag_num tag_imageSequence tag = Some (seq_of (Some tag)) ∧ 0 ≤ seq_of (Some tag) < 2 ^ 31 - 1.
Proof using.
  intros H. destruct (H tag eq_refl) as (n & E & Hn). unfold seq_of. rewrite E.
  pose proof (tag_num_range _ _ _ E). simpl. split; [done|lia].
Qed.

Lemma read_sequence tag k : seq_ok (Some tag) → tag_sequence (Some tag) k = Done (seq_of (Some tag), k).
Proof using.
  intros O. destruct (seq_read tag O) as [E R]. unfold tag_sequence. rewrite E. cbn [of_option].
  rewrite bind_ret, s32_small by lia. done.
Qed.

(** The new sequence number is one more than the greater of the two. *)
Lemma update_sequence_spec k : kok FB d k →
  seq_ok (tag_of (mem k) NORMAL) → seq_ok (tag_of (mem k) SMALL) →
  ∃ k', UpdateImageSequenceNumber k =
      Done (sprintf_d (Z.max (seq_of (tag_of (mem k) NORMAL)) (seq_of (tag_of (mem k) SMALL)) + 1), k') ∧
    istep FB d k (mem k) k' ∧
    0 ≤ Z.max (seq_of (tag_of (mem k) NORMAL)) (seq_of (tag_of (mem k) SMALL)) < 2 ^ 31 - 1.
Proof using F.
  intros H O1 O2. unfold UpdateImageSequenceNumber.
  destruct (getTag_spec FB d mapped c m F k 1 NORMAL H ltac:(by left)) as (k1 & E1 & S1).
  destruct (getTag_spec FB d mapped c m F k1 2 SMALL (is_ok _ _ _ _ _ S1) ltac:(by right))
    as (k2 & E2 & S2).
  rewrite (tag_of_ext (mem k1) (mem k) SMALL) in E2 by (intros; apply (is_mem _ _ _ _ _ S1)).
  generalize dependent (tag_of (mem k) NORMAL). intros t1 O1 E1.
  generalize dependent (tag_of (mem k) SMALL). intros t2 O2 E2.
  exists k2. mstep E1.
  assert (A1 : ∀ kk, (match t1 with
       | Some tag => n ← of_option (tag_num tag_imageSequence tag); mret (s32 n)
       | None => mret 0 end : M (kstate S) Z) kk = Done (seq_of t1, kk) ∧ 0 ≤ seq_of t1 < 2 ^ 31 - 1).
  { intros kk. destruct t1 as [tag|]; [|split; [done|simpl; lia]].
    destruct (seq_read tag O1) as [E R]. rewrite E.
    split; [|done]. cbn [of_option]. rewrite bind_ret. unfold mret, M_ret. by rewrite s32_small by lia. }
  destruct (A1 k1) as [E3 R1]. mstep E3. mstep E2.
  assert (A2 : (match t2 with
       | Some tag => n ← of_option (tag_num tag_imageSequence tag);
                     mret (if n >? u32 (seq_of t1) then s32 n else seq_of t1)
       | None => mret (seq_of t1) end : M (kstate S) Z) k2 = Done (Z.max (seq_of t1) (seq_of t2), k2)
       ∧ 0 ≤ seq_of t2 < 2 ^ 31 - 1).
  { destruct t2 as [tag|]; [|split; [|simpl; lia]; unfold mret, M_ret; cbn [seq_of]; do 3 f_equal; lia].
    destruct (seq_read tag O2) as [E R]. rewrite E.
    split; [|done]. cbn [of_option]. rewrite bind_ret. unfold mret, M_ret.
    rewrite u32_small, s32_small by lia. destruct (Z.gtb_spec (seq_of (Some tag)) (seq_of t1)); do 3 f_equal; lia. }
  destruct A2 as [E4 R2]. mstep E4. rewrite s32_small by lia.
  split; [done|]. split; [|lia]. eapply istep_trans; [exact S1|].
  eapply istep_ext; [|exact S2]. apply S1.
Qed.

(** NVRAM data and boot flag. *)
Definition nvram_now k : list Z := bytes_at (mem k) NVRAM_DATA_OFFSET (Z.to_nat sizeof_NVRAM_DATA).

(** The field [szBootline] of the NVRAM. *)
Definition bootline (nv : list Z) : list Z := take NVRAM_BOOTLINE_LEN (drop offsetof_szBootline nv).

(** The NVRAM after an upgrade: a boot line that asks for another image than the
    latest is changed, and the checksum with it. *)
Definition upgraded_nvram (nv : list Z) : list Z :=
  match find_boot_flag (bootline nv) 0 with Some (Some i) => nvram_boot_latest nv i | _ => nv end.

Lemma flag_step p0 p1 p2 p i : find_boot_flag (p0 :: p1 :: p2 :: p) i =
  if p2 =? 0 then Some None
  else if (p0 =? 112) && (p1 =? 61) && negb (p2 =? BOOT_LATEST_IMAGE) then Some (Some (i + 2)%nat)
  else find_boot_flag (p1 :: p2 :: p) (Datatypes.S i).
Proof using. done. Qed.

Lemma partition_step p0 p1 p2 p : find_boot_partition (p0 :: p1 :: p2 :: p) =
  if p2 =? 0 then Some BOOT_LATEST_IMAGE
  else if (p0 =? 112) && (p1 =? 61) then Some p2 else find_boot_partition (p1 :: p2 :: p).
Proof using. done. Qed.

Lemma find_boot_flag_app p q i o : find_boot_flag p i = Some o → find_boot_flag (p ++ q) i = Some o.
Proof using.
  revert i. induction p as [|p0 p IH]; intros i; [done|]. destruct p as [|p1 [|p2 p]]; try done.
  cbn [app]. rewrite !flag_step. destruct (p2 =? 0); [done|]. destruct (_ && _); [done|].
  by apply (IH (Datatypes.S i)).
Qed.

Lemma find_boot_partition_app p q o : find_boot_partition p = Some o → find_boot_partition (p ++ q) = Some o.
Proof using.
  induction p as [|p0 p IH]; [done|]. destruct p as [|p1 [|p2 p]]; try done.
  cbn [app]. rewrite !partition_step. destruct (p2 =? 0); [done|]. destruct (_ && _); [done|].
  by apply IH.
Qed.

Lemma find_boot_flag_bootline nv o : find_boot_flag (bootline nv) 0 = Some o →
  find_boot_flag (drop offsetof_szBootline nv) 0 = Some o.
Proof using.
  intros H. rewrite <- (take_drop NVRAM_BOOTLINE_LEN (drop offsetof_szBootline nv)).
  by apply find_boot_flag_app.
Qed.

(** Without a flag to change, and with the flag changed, the boot line asks for
    the latest image. *)
Lemma no_flag_latest p i : find_boot_flag p i = Some None → find_boot_partition p = Some BOOT_LATEST_IMAGE.
Proof using.
  revert i. induction p as [|p0 p IH]; intros i; [done|]. destruct p as [|p1 [|p2 p]]; try done.
  rewrite flag_step, partition_step. destruct (p2 =? 0); [done|].
  destruct ((p0 =? 112) && (p1 =? 61)); cbn [andb].
  - destruct (Z.eqb_spec p2 BOOT_LATEST_IMAGE) as [->|]; [done|]. by cbn.
  - apply IH.
Qed.

Lemma flag_index p i j : find_boot_flag p i = Some (Some j) → (i + 2 ≤ j < i + length p)%nat.
Proof using.
  revert i. induction p as [|p0 p IH]; intros i; [done|]. destruct p as [|p1 [|p2 p]]; try done.
  rewrite flag_step. destruct (p2 =? 0); [done|]. destruct (_ && _).
  - intros [= <-]. cbn [length]. lia.
  - intros H%IH. cbn [length] in *. lia.
Qed.

Lemma flag_latest p i j : find_boot_flag p i = Some (Some j) →
  find_boot_partition (<[(j - i)%nat := BOOT_LATEST_IMAGE]> p) = Some BOOT_LATEST_IMAGE.
Proof using.
  revert i. induction p as [|p0 p IH]; intros i; [done|]. destruct p as [|p1 [|p2 p]]; try done.
  rewrite flag_step. destruct (p2 =? 0) eqn:E0; [done|].
  destruct ((p0 =? 112) && (p1 =? 61)) eqn:Ep; cbn [andb].
  - destruct (Z.eqb_spec p2 BOOT_LATEST_IMAGE) as [->|]; cbn [negb].
    + intros H. pose proof (flag_index _ _ _ H).
      replace (j - i)%nat with (3 + (j - i - 3))%nat by lia. cbn [insert list_insert Nat.add] in *.
      by rewrite partition_step, E0, Ep.
    + intros [= <-]. replace (i + 2 - i)%nat with 2%nat by lia. cbn. by rewrite Ep.
  - intros H. pose proof (flag_index _ _ _ H). specialize (IH _ H).
    replace (j - i)%nat with (3 + (j - i - 3))%nat by lia. cbn [insert list_insert Nat.add] in *.
    rewrite partition_step, E0, Ep.
    replace (j - Datatypes.S i)%nat with (2 + (j - i - 3))%nat in IH by lia. exact IH.
Qed.

Lemma upgraded_nvram_length nv : length nv = Z.to_nat sizeof_NVRAM_DATA →
  length (upgraded_nvram nv) = Z.to_nat sizeof_NVRAM_DATA.
Proof using.
  intros H. unfold upgraded_nvram. repeat case_match; try done. unfold nvram_boot_latest, be_bytes.
  rewrite length_app, length_take, length_insert, H. done.
Qed.

Lemma upgraded_nvram_latest nv : length nv = Z.to_nat sizeof_NVRAM_DATA →
  is_Some (find_boot_flag (bootline nv) 0) →
  find_boot_partition (drop offsetof_szBootline (upgraded_nvram nv)) = Some BOOT_LATEST_IMAGE.
Proof using.
  intros Hl [o H]. unfold upgraded_nvram. rewrite H. destruct o as [i|]; cycle 1.
  { rewrite <- (take_drop NVRAM_BOOTLINE_LEN (drop offsetof_szBootline nv)).
    apply find_boot_partition_app. by eapply no_flag_latest. }
  pose proof (flag_index _ _ _ H) as Hi. apply flag_latest in H. rewrite Nat.sub_0_r in H.
  unfold bootline in Hi. rewrite length_take in Hi. unfold nvram_boot_latest.
  set (crc := be_bytes _). change (Z.to_nat sizeof_NVRAM_DATA) with 332%nat in Hl.
  change (Z.to_nat offsetof_ulCheckSum) with 328%nat in *.
  unfold offsetof_szBootline, NVRAM_BOOTLINE_LEN in *.
  rewrite drop_app_le by (rewrite length_take, length_insert; lia).
  assert (E : drop 4 (take 328 (<[(4 + i)%nat := BOOT_LATEST_IMAGE]> nv)) =
    <[i := BOOT_LATEST_IMAGE]> (take 256 (drop 4 nv)) ++ drop 256 (drop 4 (take 328 nv))).
  { rewrite <- (take_drop 256 (drop 4 (take 328 (<[(4 + i)%nat := BOOT_LATEST_IMAGE]> nv)))).
    apply list_eq. intros x. destruct (decide (x < 256)%nat).
    - rewrite !lookup_app_l by (rewrite ?length_insert, ?length_take, ?length_drop, ?length_take, ?length_insert; lia).
      rewrite lookup_take_lt, lookup_drop, lookup_take_lt by lia.
      destruct (decide (x = i)) as [->|].
      + by rewrite !list_lookup_insert_eq by (rewrite ?length_take, ?length_drop; lia).
      + rewrite !list_lookup_insert_ne by lia. by rewrite lookup_take_lt, lookup_drop by lia.
    - rewrite !lookup_app_r by (rewrite ?length_insert, ?length_take, ?length_drop, ?length_take, ?length_insert; lia).
      rewrite ?length_insert, !length_take, !length_drop, length_take, length_insert.
      rewrite !lookup_drop. destruct (decide (x < 324)%nat).
      + rewrite !lookup_take_lt by lia. rewrite list_lookup_insert_ne by lia. f_equal. lia.
      + rewrite !lookup_take_ge by lia. done. }
  rewrite E, <- app_assoc. by apply find_boot_partition_app.
Qed.

Lemma upgraded_nvram_bytes nv : Forall is_byte nv → Forall is_byte (upgraded_nvram nv).
Proof using.
  intros H. unfold upgraded_nvram. repeat case_match; try done. apply Forall_app.
  split; [apply Forall_take, Forall_insert; done|apply be_bytes_byte].
Qed.

Lemma nvram_start k : kok FB d k → flash_nvram (fInfo k) = nvram_area →
  get_nvram_start_addr k = Done (FB + NVRAM_DATA_OFFSET, k) ∧
  nvram_bytes mapped (k_flash k) (FB + NVRAM_DATA_OFFSET) = nvram_now k.
Proof using F.
  intros H Hn. pose proof F as [HFB Hend _ _ _ _ _ Hbig]. unfold SMALL, FLASH_LENGTH_SMALL_SYSTEM,
    FLASH_LENGTH_NORMAL_SYSTEM, FLASH_LENGTH_BOOT_ROM, ONEK in Hbig. split.
  - unfold get_nvram_start_addr. rewrite bind_gets, Hn. cbn [start_blk blk_offset nvram_area].
    change (u16 0) with 0. mstep (k_memptr0 FB d mapped c m F k H).
    rewrite u32_small; [done|]. unfold NVRAM_DATA_OFFSET. lia.
  - change (nvram_bytes mapped (k_flash k) (FB + NVRAM_DATA_OFFSET)) with
      (mapped_bytes mapped (k_flash k) (FB + NVRAM_DATA_OFFSET) sizeof_NVRAM_DATA).
    apply (mapped_bytes_spec FB d mapped c m F); [done|done|done|].
    unfold NVRAM_DATA_OFFSET, sizeof_NVRAM_DATA. lia.
Qed.

(** The image for [target] goes to [off] with sequence number [n]. *)
Inductive destination (cc : Z → Z) (off : Z) : Z + Z → Z → Prop :=
| to_normal : destination cc off (inl off)
    (Z.max (seq_of (tag_of cc NORMAL)) (seq_of (tag_of cc SMALL)) + 1)
| to_small : destination cc off (inr off) 0.

Lemma address_wrap a b ra ka lr : u32 (ka - ra) = lr → u32 (a + (s32 (ka + b) - s32 (ra + b))) = u32 (a + lr).
Proof using.
  unfold u32, s32. change (2 ^ 32) with 4294967296. change (2 ^ 31) with 2147483648. intros <-.
  Z.to_euclidean_division_equations; lia.
Qed.

Lemma sprintf_d_text n : 0 ≤ n → (1 ≤ length (sprintf_d n) ≤ 11)%nat ∧ Forall is_byte (sprintf_d n).
Proof using.
  intros Hn. unfold sprintf_d. destruct (Z.ltb_spec n 0); [lia|].
  pose proof (dec_digits_length 10 n ltac:(lia)). split; [lia|].
  eapply Forall_impl; [apply (dec_digits_Forall 10 n Hn)|]. unfold is_byte. simpl. lia.
Qed.

(** What the boot line needs: its search ends inside the field, and a flag that is
    to be changed can be written (the NVRAM lies in the first sector, and memory
    is found within the tries of [retriedKmalloc]). *)
Record bootline_ok k : Prop := {
  bl_ends : is_Some (find_boot_flag (bootline (nvram_now k)) 0);
  bl_writable : ∀ i, find_boot_flag (bootline (nvram_now k)) 0 = Some (Some i) →
    NVRAM_DATA_OFFSET + NVRAM_LENGTH ≤ c ∧ ∀ n, ∃ j, (j < 1000)%nat ∧ kmalloc (n + j)%nat = true
}.

Lemma nvram_now_bytes k : kok FB d k → Forall is_byte (nvram_now k).
Proof using F.
  intros H. pose proof (mf_big _ _ _ _ _ F) as Hbig. unfold SMALL, FLASH_LENGTH_SMALL_SYSTEM,
    FLASH_LENGTH_NORMAL_SYSTEM, FLASH_LENGTH_BOOT_ROM, ONEK in Hbig.
  apply Forall_forall. intros x Hx. unfold nvram_now, bytes_at in Hx.
  apply list_elem_of_In, in_map_iff in Hx as (n&<-&Hn%in_seq). apply fc_mem_byte; [apply H|].
  unfold NVRAM_DATA_OFFSET, sizeof_NVRAM_DATA in *. lia.
Qed.

(** The end of [flashFsKernelImage]: the boot line. *)
Lemma boot_line_spec k nv (status : Z) : kok FB d k → flash_nvram (fInfo k) = nvram_area →
  length nv = Z.to_nat sizeof_NVRAM_DATA → Forall is_byte nv →
  is_Some (find_boot_flag (bootline nv) 0) →
  (∀ i, find_boot_flag (bootline nv) 0 = Some (Some i) →
    NVRAM_DATA_OFFSET + NVRAM_LENGTH ≤ c ∧ ∀ n, ∃ j, (j < 1000)%nat ∧ kmalloc (n + j)%nat = true) →
  nvram_now k = nv →
  ∃ k', (found ← of_option (find_boot_flag (drop offsetof_szBootline nv) 0);
         match found with
         | Some i => kerSysNvRamSet kmalloc (nvram_boot_latest nv i) sizeof_NVRAM_DATA 0;; mret status
         | None => mret status
         end) k = Done (status, k') ∧
    istep FB d k (stored (mem k) NVRAM_DATA_OFFSET (upgraded_nvram nv)) k'.
Proof using F.
  intros H Hnv Hl Hb [o Ho] Hw Hnow. rewrite (find_boot_flag_bootline _ _ Ho). cbn [of_option]. rewrite bind_ret.
  pose proof (upgraded_nvram_length nv Hl) as Hl'. pose proof (upgraded_nvram_bytes nv Hb) as Hb'.
  unfold upgraded_nvram in *. rewrite Ho in *. destruct o as [i|]; cycle 1.
  { exists k. split; [done|]. constructor; try done. intros a. unfold stored. case_decide as Ha; [|done].
    rewrite <- Hnow. unfold nvram_now. rewrite Hl in Ha.
    rewrite bytes_at_nth by lia. f_equal. lia. }
  destruct (Hw i eq_refl) as [Hc Hm].
  assert (Ha : area_ok FB d nvram_area).
  { pose proof fc_num_range. constructor; cbn [nvram_area start_blk number_blk blk_offset area_length]; try done; try lia.
    change (0 + 1) with 1. rewrite (sec_base_succ fc_size 0), sec_base_0, (mf_size _ _ _ _ _ F 0) by lia. lia. }
  destruct (k_area_set FB d kmalloc k nvram_area NVRAM_LENGTH (nvram_boot_latest nv i) sizeof_NVRAM_DATA 0)
    as (k'&E&St); [done|done| |done|done|done|done|rewrite Hl'; done|done|].
  { destruct (Hm (k_calls k)) as (j&?&?). by exists j. }
  exists k'. unfold kerSysNvRamSet. rewrite bind_assoc, bind_gets, Hnv. mstep E. split; [done|].
  apply istep_kstep. eapply kstep_ext; [|exact St]. intros a.
  rewrite take_ge by (rewrite Hl'; done). done.
Qed.

(** [flashFsKernelImage] on a good image that fits: the image is in flash, with
    the patched tag, and the NVRAM asks for the latest image. *)
Lemma flash_image_spec k img v f lr lk j target n :
  let off := 131072 * j in
  let vb := start_blk (flash_variable (fInfo k)) in
  kok FB d k → good_image img v f lr lk → flash_nvram (fInfo k) = nvram_area → bootline_ok k →
  seq_ok (tag_of (mem k) NORMAL) → seq_ok (tag_of (mem k) SMALL) → lr + lk < 2 ^ 32 →
  image_target (s32 v) (s32 f) (lr + lk) (base fc_num) = Some target →
  destination (mem k) (off + TAG_LEN) target n →
  0 < j → c < TAG_LEN + (lr + lk) → off + even_up (TAG_LEN + (lr + lk)) ≤ base vb → 0 ≤ vb ≤ fc_num →
  ∃ e k' img', flashFsKernelImage FB mapped kmalloc img k = Done (0, k') ∧
    patched img (sprintf_d n) img'
      (u32 (IMAGE_BASE + (off + TAG_LEN) + lr)) (u32 (IMAGE_BASE + (off + TAG_LEN))) ∧
    0 ≤ n < 2 ^ 31 ∧
    m * j < e ≤ fc_num ∧ base (e - 1) < off + even_up (TAG_LEN + (lr + lk)) ≤ base e ∧
    Forall is_byte img' ∧
    istep FB d k (stored (image_at FB d (mem k) (m * j) e img' (even_up (TAG_LEN + (lr + lk))))
                    NVRAM_DATA_OFFSET (upgraded_nvram (nvram_now k))) k'.
Proof using F.
  intros off vb H G Hnv Hboot O1 O2 Hsum Htgt Hto Hj Hcl Hroom Hvb.
  destruct (good_image_lens _ _ _ _ _ G) as (L1 & L2 & R1 & R2).
  destruct (gi_addr _ _ _ _ _ G) as (ra & ka & A1 & A2 & A3).
  destruct (even_up_spec (TAG_LEN + (lr + lk))) as [Hup _].
  assert (HL : (256 ≤ length img)%nat) by (pose proof (gi_len _ _ _ _ _ G); unfold TAG_LEN in *; lia).
  unfold flashFsKernelImage. rewrite A1, A2, L1, L2, (gi_version _ _ _ _ _ G), (gi_kind _ _ _ _ _ G).
  cbn [of_option]. rewrite !bind_ret. mstep (k_memptr0 FB d mapped c m F k H). mstep (k_total FB d k H).
  rewrite !bind_ret, (u32_small (lr + lk)) by lia. rewrite Htgt.
  destruct (update_sequence_spec k H O1 O2) as (k0 & E0 & S0 & Hmax).
  assert (∃ k1, (match target with
      | inl offset => s ← UpdateImageSequenceNumber; mret (offset, s)
      | inr offset => mret (offset, sprintf_d 0) end) k =
      Done ((off + TAG_LEN, sprintf_d n), k1) ∧
      istep FB d k (mem k) k1 ∧ 0 ≤ n < 2 ^ 31) as (k1 & E1 & S1 & Hseq).
  { destruct Hto.
    - exists k0. mstep E0. split; [done|]. split; [done|lia].
    - exists k. split; [done|]. split; [by constructor|lia]. }
  mstep E1. destruct (sprintf_d_text n (proj1 Hseq)) as [Tl Tb].
  destruct (patch_tag_spec img (sprintf_d n) (off + TAG_LEN)
              (s32 (ka + BOOT_OFFSET FB)) (s32 (ra + BOOT_OFFSET FB)) HL Tl) as (img' & Ep & P).
  rewrite Ep. cbn [of_option]. rewrite bind_ret.
  rewrite (address_wrap _ _ _ _ _ A3) in P.
  assert (Hnv1 : flash_nvram (fInfo k1) = nvram_area) by by rewrite (is_fInfo _ _ _ _ _ S1).
  destruct (nvram_start k1 (is_ok _ _ _ _ _ S1) Hnv1) as [En Eb]. mstep En. rewrite bind_gets, Eb.
  destruct (write_image_spec FB d mapped c m F kmalloc k1 j img' (lr + lk))
    as (e & k2 & E2 & He & Hbe & S2).
  { apply S1. }
  { done. }
  { lia. }
  { done. }
  { rewrite (is_fInfo _ _ _ _ _ S1). exact Hroom. }
  { by rewrite (is_fInfo _ _ _ _ _ S1). }
  { rewrite (pt_length _ _ _ _ _ P). apply (gi_len _ _ _ _ _ G). }
  { apply (pt_bytes _ _ _ _ _ P); [apply (gi_bytes _ _ _ _ _ G)|done]. }
  fold off in E2. mstep E2. cbn [Z.eqb negb].
  assert (Enow : nvram_now k1 = nvram_now k).
  { apply bytes_at_ext. intros. apply (is_mem _ _ _ _ _ S1). }
  rewrite Enow.
  assert (Enow2 : nvram_now k2 = nvram_now k).
  { rewrite <- Enow. apply bytes_at_ext. intros a Ha. rewrite (is_mem _ _ _ _ _ S2).
    destruct (blk_at FB d mapped c m F j) as [_ Ebj]; [lia| |].
    { pose proof (base_mono FB d vb fc_num). unfold off in *. unfold TAG_LEN in *. lia. }
    pose proof (base_mono FB d (m * j) e). unfold image_at, NVRAM_DATA_OFFSET, sizeof_NVRAM_DATA in *.
    by rewrite !decide_False by lia. }
  destruct (boot_line_spec k2 (nvram_now k) 0) as (k3 & E3 & S3);
    [apply S2|by rewrite (is_fInfo _ _ _ _ _ S2)|apply bytes_at_length|by apply nvram_now_bytes
    |apply (bl_ends k Hboot)|apply (bl_writable k Hboot)|done|].
  exists e, k3, img'. split; [exact E3|]. split; [done|]. split; [done|]. split; [done|]. split; [exact Hbe|].
  split; [apply (pt_bytes _ _ _ _ _ P); [apply (gi_bytes _ _ _ _ _ G)|done]|].
  eapply istep_trans; [exact S1|]. eapply istep_trans; [exact S2|]. eapply istep_ext; [|exact S3]. intros a.
  unfold stored. case_decide; [done|]. rewrite (is_mem _ _ _ _ _ S2).
  apply image_at_ext, (is_mem _ _ _ _ _ S1).
Qed.

Lemma image_at_bytes cc b e img n x len : 0 ≤ x → x + Z.of_nat len ≤ n → n ≤ Z.of_nat (length img) →
  bytes_at (image_at FB d cc b e img n) (base b + x) len = take len (drop (Z.to_nat x) img).
Proof using.
  intros Hx Hn Hl. apply list_eq. intros i. destruct (decide (i < len)%nat) as [Hi|Hi].
  - rewrite lookup_take_lt, lookup_drop by done. unfold bytes_at.
    rewrite list_lookup_fmap, lookup_seq_lt by lia. simpl.
    unfold image_at. rewrite decide_True by lia.
    replace (Z.to_nat (base b + x + Z.of_nat i - base b)) with (Z.to_nat x + i)%nat by lia.
    destruct (lookup_lt_is_Some_2 img (Z.to_nat x + i)) as [y Hy]; [lia|].
    by rewrite nth_lookup, Hy.
  - rewrite !lookup_ge_None_2; [done|rewrite length_take; lia|rewrite bytes_at_length; lia].
Qed.
(** The patched tag says where the parts are. *)
Lemma patched_located img seq img' off v f lr lk :
  good_image img v f lr lk → (256 ≤ length img)%nat → 0 ≤ off →
  patched img seq img' (u32 (IMAGE_BASE + (off + TAG_LEN) + lr)) (u32 (IMAGE_BASE + (off + TAG_LEN))) →
  off + TAG_LEN + lr + lk < base fc_num →
  located FB d (take 256 img') (off + TAG_LEN) lr (off + TAG_LEN + lr) lk.
Proof using F.
  clear kmalloc. intros G HL Ho P Hr. pose proof F as [HFB Hend _ _ _ _ _ _].
  destruct (good_image_lens _ _ _ _ _ G) as (_ & _ & R1 & R2). unfold TAG_LEN in *.
  assert (Haddr : ∀ fld x, (fld + 12 ≤ 256)%nat → 0 ≤ x → FB + x < 2 ^ 32 →
    at_off img' fld (sprintf_lu (u32 (IMAGE_BASE + x)) ++ [0]) →
    ∃ a, tag_addr fld (take 256 img') = Some a ∧ u32 (a + BOOT_OFFSET FB) = FB + x).
  { intros fld x Hf Hx Hx' Hat. exists (s32 (u32 (IMAGE_BASE + x))). split.
    - apply tag_addr_at; [|apply u32_range]. apply at_off_take; [done|].
      rewrite length_app. pose proof (dec_digits_length 10 (u32 (IMAGE_BASE + x)) ltac:(lia)).
      unfold sprintf_lu. cbn [length] in *. lia.
    - unfold BOOT_OFFSET, u32, s32. change (2 ^ 32) with 4294967296 in *.
      change (2 ^ 31) with 2147483648. Z.to_euclidean_division_equations; lia. }
  assert (Hlen : ∀ fld n, (105 ≤ fld ∧ fld + 10 ≤ 116 ∨ 127 ≤ fld ∧ fld + 10 ≤ 138)%nat →
    simple_strtoul (take 10 (drop fld img)) = Some n → tag_num fld (take 256 img') = Some n).
  { intros fld n Hf En. assert (Hl10 := firstn_le_length 10 (drop fld img)).
    apply (tag_num_at _ _ (take 10 (drop fld img))); [|done].
    apply at_off_take; [|lia]. apply (pt_frame _ _ _ _ _ P); [apply at_off_slice|lia]. }
  constructor.
  - apply Haddr; [unfold tag_rootfsAddress; lia|lia|lia|apply (pt_rootfs _ _ _ _ _ P)].
  - apply Hlen; [unfold tag_rootfsLen; lia|apply (gi_fs_len _ _ _ _ _ G)].
  - apply Haddr; [unfold tag_kernelAddress; lia|lia|lia|].
    pose proof (pt_kernel _ _ _ _ _ P) as Hk. by rewrite <- Z.add_assoc in Hk.
  - apply Hlen; [unfold tag_kernelLen; lia|apply G].
  - lia.
  - lia.
Qed.

(** The payload is not touched by the patch. *)
Lemma patched_payload img seq img' kernel rootfs :
  patched img seq img' kernel rootfs → (256 ≤ length img)%nat → drop 256 img' = drop 256 img.
Proof using.
  intros P HL.
  assert (Hat : at_off img' 256 (drop 256 img)).
  { apply (pt_frame _ _ _ _ _ P); [|lia]. intros i x Hx. by rewrite lookup_drop in Hx. }
  rewrite (at_off_drop _ _ _ Hat), (drop_ge img'), app_nil_r; [done|].
  rewrite length_drop, (pt_length _ _ _ _ _ P). lia.
Qed.

Lemma patched_token img seq img' kernel rootfs tok :
  patched img seq img' kernel rootfs → (256 ≤ length img)%nat → (150 ≤ tok ∧ tok + 4 ≤ 236)%nat →
  tag_crc tok (take 256 img') = tag_crc tok img.
Proof using.
  intros P HL Ht. assert (Hl : length (take 4 (drop tok img)) = 4%nat) by (rewrite length_take, length_drop; lia).
  rewrite (tag_crc_at img tok _ (at_off_slice img tok 4) Hl).
  apply tag_crc_at; [|done]. apply at_off_take; [|lia].
  apply (pt_frame _ _ _ _ _ P); [apply at_off_slice|lia].
Qed.

(** The CRCs of a written image are those of its tag. *)
Lemma patched_system_ok img seq img' cc b e off v f lr lk :
  good_image img v f lr lk → (256 ≤ length img)%nat → base b = off →
  patched img seq img' (u32 (IMAGE_BASE + (off + TAG_LEN) + lr)) (u32 (IMAGE_BASE + (off + TAG_LEN))) →
  system_ok (image_at FB d cc b e img' (even_up (TAG_LEN + (lr + lk)))) (take 256 img')
    (off + TAG_LEN) lr (off + TAG_LEN + lr) lk = true.
Proof using.
  intros G HL Eb P. pose proof (patched_payload _ _ _ _ _ P HL) as Epay.
  destruct (good_image_lens _ _ _ _ _ G) as (_ & _ & R1 & R2).
  destruct (even_up_spec (TAG_LEN + (lr + lk))) as [Hup _].
  pose proof (gi_len _ _ _ _ _ G) as GL. rewrite <- (pt_length _ _ _ _ _ P) in GL.
  unfold system_ok, part_ok. unfold TAG_LEN in *.
  rewrite !(patched_token _ _ _ _ _ _ P HL) by (unfold tag_imageValidationToken; lia).
  subst off. replace (base b + 256 + lr) with (base b + (256 + lr)) by lia.
  rewrite !image_at_bytes by lia.
  replace (Z.to_nat (256 + lr)) with (256 + Z.to_nat lr)%nat by lia.
  rewrite <- drop_drop. change (Z.to_nat 256) with 256%nat. rewrite Epay, drop_drop.
  apply andb_true_iff. split; apply orb_true_iff; rewrite !Z.eqb_eq.
  - destruct (gi_fs_crc _ _ _ _ _ G); auto.
  - destruct (gi_kernel_crc _ _ _ _ _ G); auto.
Qed.

Lemma even_up_le size L : size ≤ L → Z.even L = true → even_up size ≤ L.
Proof using.
  intros H He. unfold even_up. destruct (Z.odd size) eqn:Eo; [|done].
  destruct (decide (size = L)) as [->|]; [|lia]. by rewrite <- Z.negb_even, He in Eo.
Qed.

(** A system of at most [L] bytes (a multiple of 128K) stays in its partition. *)
Lemma image_at_frame cc j e img n jl a : 0 < j → 0 ≤ jl → 131072 * jl < base fc_num → e ≤ fc_num →
  base (e - 1) < 131072 * j + n → 131072 * j + n ≤ 131072 * jl → m * j < e →
  a < 131072 * j ∨ 131072 * jl ≤ a → image_at FB d cc (m * j) e img n a = cc a.
Proof using F.
  intros Hj Hjl Hb He Hlast Hn Hme Ha.
  assert (Hmj : 0 ≤ m * j) by (pose proof (mf_m _ _ _ _ _ F); nia).
  destruct (blk_at FB d mapped c m F jl Hjl Hb) as [Hbl El].
  assert (Hel : e ≤ m * jl).
  { destruct (decide (e ≤ m * jl)); [done|].
    pose proof (base_mono FB d (m * jl) (e - 1)). lia. }
  pose proof (base_mono FB d e (m * jl)).
  assert (Ej : base (m * j) = 131072 * j).
  { pose proof F as [_ _ _ Hm Hcm _ Hsz _]. rewrite (base_c FB d mapped c m F) by nia.
    unfold FLASH_LENGTH_BOOT_ROM, ONEK in Hcm. nia. }
  unfold image_at. rewrite !decide_False; [done|lia|lia].
Qed.
(** [getBootImageTag], once the tags are known. *)
Lemma boot_choice k t1 fs nfs kernel nk : kok FB d k →
  tag_of (mem k) NORMAL = t1 →
  (∀ tag, t1 = Some tag → located FB d tag fs nfs kernel nk) →
  ∃ k', getBootImageTag FB mapped k = Done
      (match t1, tag_of (mem k) SMALL with
       | Some tag, Some small => Some (if system_ok (mem k) tag fs nfs kernel nk then tag else small)
       | Some tag, None => Some tag
       | None, t2 => t2
       end, k') ∧ istep FB d k (mem k) k'.
Proof using F.
  intros H E1 Hl. unfold getBootImageTag.
  destruct (getTag_spec FB d mapped c m F k 1 NORMAL H ltac:(by left)) as (k1 & G1 & S1).
  destruct (getTag_spec FB d mapped c m F k1 2 SMALL (is_ok _ _ _ _ _ S1) ltac:(by right))
    as (k2 & G2 & S2).
  rewrite (tag_of_ext (mem k1) (mem k) SMALL) in G2 by (intros; apply (is_mem _ _ _ _ _ S1)).
  assert (S12 : istep FB d k (mem k) k2).
  { eapply istep_trans; [exact S1|]. eapply istep_ext; [|exact S2]. apply S1. }
  exists k2. split; [|done]. mstep G1. mstep G2. rewrite E1.
  destruct t1 as [tag|], (tag_of (mem k) SMALL) as [small|]; try done.
  mstep (CheckSystemCrc_spec FB d mapped c m F k2 tag fs nfs kernel nk (is_ok _ _ _ _ _ S12) (Hl tag eq_refl)).
  assert (Es : system_ok (mem k2) tag fs nfs kernel nk = system_ok (mem k) tag fs nfs kernel nk).
  { unfold system_ok, part_ok.
    by rewrite !(bytes_at_ext (mem k2) (mem k)) by (intros; apply (is_mem _ _ _ _ _ S12)). }
  rewrite Es. by destruct (system_ok (mem k) tag fs nfs kernel nk).
Qed.

(** A system in flash at [off]: a valid tag with sequence number [n] that leads to
    the payload, whose CRCs are right. *)
Record system_at (cc : Z → Z) (off : Z) (payload : list Z) (lr lk n : Z) (tag : list Z) : Prop := {
  sa_tag : tag = bytes_at cc off 256;
  sa_valid : tag_of cc off = Some tag;
  sa_located : located FB d tag (off + TAG_LEN) lr (off + TAG_LEN + lr) lk;
  sa_crcs : system_ok cc tag (off + TAG_LEN) lr (off + TAG_LEN + lr) lk = true;
  sa_payload : bytes_at cc (off + TAG_LEN) (Z.to_nat (lr + lk)) = take (Z.to_nat (lr + lk)) payload;
  sa_seq : tag_num tag_imageSequence tag = Some n
}.

Lemma system_at_ext cc cc' off p lr lk n tag :
  (∀ a, off ≤ a → cc a = cc' a) → system_at cc off p lr lk n tag → system_at cc' off p lr lk n tag.
Proof using.
  intros E [H1 H2 H3 H4 H5 H6]. destruct (lc_fs_range _ _ _ _ _ _ _ H3) as (_ & Hr & _).
  constructor; [| |exact H3| | |exact H6].
  - rewrite H1. apply bytes_at_ext. intros a Ha. apply E. lia.
  - rewrite <- H2. symmetry. apply tag_of_ext. intros a Ha. apply E. lia.
  - rewrite <- H4. unfold system_ok, part_ok.
    by rewrite !(bytes_at_ext cc' cc) by (intros a Ha; symmetry; apply E; unfold TAG_LEN in *; lia).
  - rewrite <- H5. apply bytes_at_ext. intros a Ha. symmetry. apply E. unfold TAG_LEN in *. lia.
Qed.

(** A patched image in flash is a system. *)
Lemma written_system img img' cc b e off v f lr lk n :
  good_image img v f lr lk → base b = off → 0 ≤ off → 0 ≤ n < 2 ^ 31 →
  patched img (sprintf_d n) img' (u32 (IMAGE_BASE + (off + TAG_LEN) + lr)) (u32 (IMAGE_BASE + (off + TAG_LEN))) →
  off + TAG_LEN + lr + lk < base fc_num →
  system_at (image_at FB d cc b e img' (even_up (TAG_LEN + (lr + lk)))) off (drop 256 img) lr lk n (take 256 img').
Proof using F.
  intros G Eb Ho Hn P Hend.
  destruct (good_image_lens _ _ _ _ _ G) as (_ & _ & R1 & R2).
  destruct (even_up_spec (TAG_LEN + (lr + lk))) as [Hup _].
  pose proof (gi_len _ _ _ _ _ G) as GL.
  assert (HL : (256 ≤ length img)%nat) by (unfold TAG_LEN in *; lia).
  rewrite <- (pt_length _ _ _ _ _ P) in GL.
  assert (Etag : bytes_at (image_at FB d cc b e img' (even_up (TAG_LEN + (lr + lk)))) off 256 = take 256 img').
  { rewrite <- (Z.add_0_r off), <- Eb, image_at_bytes; [done|lia|unfold TAG_LEN in *; lia|lia]. }
  constructor.
  - done.
  - by apply (tag_of_patched _ _ _ _ _ _ _ P HL).
  - by apply (patched_located img (sprintf_d n) img' off v f).
  - by apply (patched_system_ok img (sprintf_d n) img' cc b e off v f).
  - rewrite <- (patched_payload _ _ _ _ _ P HL), <- Eb. apply image_at_bytes; unfold TAG_LEN in *; lia.
  - eapply tag_num_at; [apply at_off_take; [apply (pt_seq _ _ _ _ _ P)|]|].
    + destruct (sprintf_d_text n (proj1 Hn)) as [Hl _]. rewrite length_app.
      unfold tag_imageSequence. cbn [length]. lia.
    + by apply strtoul_sprintf_d.
Qed.

(** What an upgrade needs of the state: the layout, a boot line that ends in its
    field, sequence numbers that can be read. *)
Record upgradable k : Prop := {
  ug_ok : kok FB d k;
  ug_nvram : flash_nvram (fInfo k) = nvram_area;
  ug_boot : bootline_ok k;
  ug_seq1 : seq_ok (tag_of (mem k) NORMAL);
  ug_seq2 : seq_ok (tag_of (mem k) SMALL);
  ug_variable : SMALL + FLASH_LENGTH_SMALL_SYSTEM ≤ base (start_blk (flash_variable (fInfo k)));
  ug_variable_blk : 0 ≤ start_blk (flash_variable (fInfo k)) < fc_num
}.

Lemma target_normal f n total : f = TAGVERSION_FLAG_NORMAL_FW ∨ f = TAGVERSION_FLAG_PACKAGED_FW →
  0 ≤ n → TAG_LEN + n ≤ FLASH_LENGTH_NORMAL_SYSTEM →
  image_target (s32 TAGVERSION_HW_NEW) (s32 f) n total = Some (inl (NORMAL + TAG_LEN)).
Proof using.
  intros Hf Hn Hs. unfold image_target.
  rewrite u32_small by (unfold TAG_LEN, FLASH_LENGTH_NORMAL_SYSTEM, ONEK in *; lia).
  rewrite (Z.gtb_ltb (TAG_LEN + n) FLASH_LENGTH_NORMAL_SYSTEM), (proj2 (Z.ltb_ge _ _)) by lia.
  by destruct Hf as [-> | ->].
Qed.

Lemma target_small n total : 0 ≤ n → TAG_LEN + n ≤ FLASH_LENGTH_SMALL_SYSTEM →
  image_target (s32 TAGVERSION_HW_NEW) (s32 TAGVERSION_FLAG_SMALL_FW) n total = Some (inr (SMALL + TAG_LEN)).
Proof using.
  intros Hn Hs. unfold image_target.
  rewrite u32_small by (unfold TAG_LEN, FLASH_LENGTH_SMALL_SYSTEM, ONEK in *; lia).
  by rewrite (Z.gtb_ltb (TAG_LEN + n) FLASH_LENGTH_SMALL_SYSTEM), (proj2 (Z.ltb_ge _ _)) by lia.
Qed.

(** Writing the system of partition [j], which has [jl - j] units of 128K. *)
Lemma upgrade_writes k img v f lr lk j jl target n : upgradable k → good_image img v f lr lk →
  0 < j → 131072 * jl ≤ SMALL + FLASH_LENGTH_SMALL_SYSTEM →
  image_target (s32 v) (s32 f) (lr + lk) (base fc_num) = Some target →
  destination (mem k) (131072 * j + TAG_LEN) target n →
  c < TAG_LEN + (lr + lk) ≤ 131072 * (jl - j) →
  ∃ k' tag, flashFsKernelImage FB mapped kmalloc img k = Done (0, k') ∧ kok FB d k' ∧
    system_at (mem k') (131072 * j) (drop 256 img) lr lk n tag ∧
    (∀ a, a < 131072 * j ∨ 131072 * jl ≤ a →
       mem k' a = stored (mem k) NVRAM_DATA_OFFSET (upgraded_nvram (nvram_now k)) a).
Proof using F.
  intros U G Hj Hjl Ht Hto Hsz. destruct U as [H Hnv Hboot O1 O2 Hv Hvb].
  destruct (good_image_lens _ _ _ _ _ G) as (_ & _ & R1 & R2).
  pose proof (even_up_le (TAG_LEN + (lr + lk)) (131072 * (jl - j)) (proj2 Hsz)
                ltac:(by rewrite Z.even_mul)) as Hup.
  destruct (even_up_spec (TAG_LEN + (lr + lk))) as [Hup' _].
  pose proof (base_mono FB d (start_blk (flash_variable (fInfo k))) fc_num) as Hvn.
  pose proof fc_total_range as Htot. unfold TAG_LEN in Hup, Hup', Hsz.
  unfold SMALL, FLASH_LENGTH_SMALL_SYSTEM, FLASH_LENGTH_NORMAL_SYSTEM, FLASH_LENGTH_BOOT_ROM, ONEK in Hv, Hjl.
  destruct (flash_image_spec k img v f lr lk j target n)
    as (e & k' & img' & E & P & Hseq & He & Hbe & _ & St);
    [done|done|done|done|done|done|lia|done|done|done|unfold TAG_LEN; lia|unfold TAG_LEN; lia|lia|].
  unfold TAG_LEN in Hbe. destruct (blk_at FB d mapped c m F j) as [_ Eb]; [lia|lia|].
  exists k', (take 256 img'). split; [exact E|]. split; [apply St|]. split.
  - assert (Hn : length (upgraded_nvram (nvram_now k)) = 332%nat).
    { apply upgraded_nvram_length, bytes_at_length. }
    eapply system_at_ext; cycle 1;
      [eapply written_system; [exact G|done|lia|exact Hseq|exact P|unfold TAG_LEN; lia]|].
    intros a Ha. rewrite (is_mem _ _ _ _ _ St). symmetry. apply stored_out. rewrite Hn.
    unfold NVRAM_DATA_OFFSET. lia.
  - intros a Ha. rewrite (is_mem _ _ _ _ _ St). unfold stored. case_decide; [done|]. unfold TAG_LEN.
    eapply (image_at_frame _ _ _ _ _ jl); lia.
Qed.

(** [C4] An upgrade of the normal system boots.  A good image (kind normal or
    packaged) larger than one sector that fits its partition is written to a flash
    in the new layout whose tags have sequence numbers below 2^31 - 1 and whose boot
    line ends inside its field; afterwards the boot code selects the normal system:
    its tag is valid, leads to the file system and the kernel in flash, and their
    CRCs are right.  The sequence number is one more than the greater one before.
    Outside the partition only the NVRAM can change: the boot loader, the small
    system and the other areas are intact, and the NVRAM is what it was, except
    that a boot line whose flag asks for another image than the latest gets the
    flag of the latest and the NVRAM a new checksum; so the boot line then asks for
    the latest image. *)
Theorem upgrade_boots k img f lr lk :
  upgradable k → good_image img TAGVERSION_HW_NEW f lr lk →
  f = TAGVERSION_FLAG_NORMAL_FW ∨ f = TAGVERSION_FLAG_PACKAGED_FW →
  c < TAG_LEN + (lr + lk) ≤ FLASH_LENGTH_NORMAL_SYSTEM →
  ∃ k' k'' tag, flashFsKernelImage FB mapped kmalloc img k = Done (0, k') ∧
    getBootImageTag FB mapped k' = Done (Some tag, k'') ∧
    system_at (mem k') NORMAL (drop 256 img) lr lk
      (Z.max (seq_of (tag_of (mem k) NORMAL)) (seq_of (tag_of (mem k) SMALL)) + 1) tag ∧
    (∀ a, a < NORMAL ∨ SMALL ≤ a →
       ¬ NVRAM_DATA_OFFSET ≤ a < NVRAM_DATA_OFFSET + sizeof_NVRAM_DATA → mem k' a = mem k a) ∧
    nvram_now k' = (match find_boot_flag (bootline (nvram_now k)) 0 with
                    | Some (Some i) => nvram_boot_latest (nvram_now k) i
                    | _ => nvram_now k
                    end) ∧
    find_boot_partition (drop offsetof_szBootline (nvram_now k')) = Some BOOT_LATEST_IMAGE.
Proof using F.
  intros U G Hf Hsz. destruct (good_image_lens _ _ _ _ _ G) as (_ & _ & R1 & R2).
  pose proof (to_normal (mem k) (NORMAL + TAG_LEN)) as D. revert D.
  generalize (Z.max (seq_of (tag_of (mem k) NORMAL)) (seq_of (tag_of (mem k) SMALL)) + 1). intros n D.
  destruct (upgrade_writes k img TAGVERSION_HW_NEW f lr lk 1 81 (inl (NORMAL + TAG_LEN)) n)
    as (k' & tag & E & H' & Sys & Hframe); [done|done|done| | |exact D| |].
  { unfold SMALL, FLASH_LENGTH_SMALL_SYSTEM, FLASH_LENGTH_NORMAL_SYSTEM, FLASH_LENGTH_BOOT_ROM, ONEK. lia. }
  { apply target_normal; [done|lia|lia]. }
  { unfold FLASH_LENGTH_NORMAL_SYSTEM, ONEK in Hsz. lia. }
  change (131072 * 1) with NORMAL in Sys, Hframe.
  change (131072 * 81) with SMALL in Hframe.
  destruct (boot_choice k' _ (NORMAL + TAG_LEN) lr (NORMAL + TAG_LEN + lr) lk H' (sa_valid _ _ _ _ _ _ _ Sys))
    as (k'' & Eboot & _).
  { intros t [= <-]. apply (sa_located _ _ _ _ _ _ _ Sys). }
  assert (Hn : length (upgraded_nvram (nvram_now k)) = 332%nat).
  { apply upgraded_nvram_length, bytes_at_length. }
  assert (Enow : nvram_now k' = upgraded_nvram (nvram_now k)).
  { unfold nvram_now at 1. change (Z.to_nat sizeof_NVRAM_DATA) with 332%nat. rewrite <- Hn.
    erewrite bytes_at_ext; [apply bytes_at_stored|]. intros a Ha. apply Hframe. left.
    rewrite Hn in Ha. unfold NORMAL, FLASH_LENGTH_BOOT_ROM, ONEK, NVRAM_DATA_OFFSET in *. lia. }
  exists k', k'', tag. split; [exact E|]. split; [|split; [exact Sys|split; [|split; [exact Enow|]]]].
  2:{ intros a Ha Hout. rewrite (Hframe a Ha). apply stored_out. by rewrite Hn. }
  2:{ rewrite Enow. apply upgraded_nvram_latest; [apply bytes_at_length|apply U]. }
  pose proof (sa_crcs _ _ _ _ _ _ _ Sys) as Hsys. rewrite Eboot, Hsys. by destruct (tag_of (mem k') SMALL).
Qed.

(** [C29] Boot selection.  With a valid tag of the small system, the small system
    boots exactly when the normal system's tag is invalid or one of its parts
    fails its CRC; with a damaged small system, the normal one boots unchecked. *)
Theorem boot_selection k t1 t2 fs nfs kernel nk :
  kok FB d k → tag_of (mem k) NORMAL = t1 → tag_of (mem k) SMALL = t2 →
  (∀ tag, t1 = Some tag → located FB d tag fs nfs kernel nk) →
  ∃ boot k', getBootImageTag FB mapped k = Done (boot, k') ∧ istep FB d k (mem k) k' ∧
    (t2 = None → boot = t1) ∧
    (∀ small, t2 = Some small →
       boot = Some small ∧ (∀ tag, t1 = Some tag → system_ok (mem k) tag fs nfs kernel nk = false) ∨
       ∃ tag, boot = Some tag ∧ t1 = Some tag ∧ system_ok (mem k) tag fs nfs kernel nk = true).
Proof using F.
  intros H E1 E2 Hl. destruct (boot_choice k t1 fs nfs kernel nk H E1 Hl) as (k' & E & St).
  rewrite E2 in E. eexists _, k'. split; [exact E|]. split; [exact St|]. clear E E1 E2 Hl.
  destruct t1 as [tag|], t2 as [small|]; (split; [done|]); try (intros ? [=]; fail); intros s' [= <-].
  - destruct (system_ok (mem k) tag fs nfs kernel nk) eqn:Es.
    + right. by exists tag.
    + left. split; [done|]. by intros ? [= <-].
  - left. split; [done|]. by intros ? [=].
Qed.

(** An upgrade of the small system leaves the normal one alone: it is
    written to its partition with sequence number 0, and a normal system that
    passes its checks still boots. *)
Theorem small_upgrade_keeps_normal k img lr lk p lr1 lk1 n1 tag1 :
  upgradable k → good_image img TAGVERSION_HW_NEW TAGVERSION_FLAG_SMALL_FW lr lk →
  c < TAG_LEN + (lr + lk) ≤ FLASH_LENGTH_SMALL_SYSTEM →
  system_at (mem k) NORMAL p lr1 lk1 n1 tag1 → TAG_LEN + (lr1 + lk1) ≤ FLASH_LENGTH_NORMAL_SYSTEM →
  ∃ k' k'' tag, flashFsKernelImage FB mapped kmalloc img k = Done (0, k') ∧
    system_at (mem k') SMALL (drop 256 img) lr lk 0 tag ∧
    getBootImageTag FB mapped k' = Done (Some tag1, k'').
Proof using F.
  intros U G Hsz Sys1 Hsz1. destruct (good_image_lens _ _ _ _ _ G) as (_ & _ & R1 & R2).
  pose proof (to_small (mem k) (SMALL + TAG_LEN)) as D.
  destruct (upgrade_writes k img TAGVERSION_HW_NEW TAGVERSION_FLAG_SMALL_FW lr lk 81 118 (inr (SMALL + TAG_LEN)) 0)
    as (k' & tag & E & H' & Sys & Hframe); [done|done|done| | |exact D| |].
  { unfold SMALL, FLASH_LENGTH_SMALL_SYSTEM, FLASH_LENGTH_NORMAL_SYSTEM, FLASH_LENGTH_BOOT_ROM, ONEK. lia. }
  { apply target_small; lia. }
  { unfold FLASH_LENGTH_SMALL_SYSTEM, ONEK in Hsz. lia. }
  change (131072 * 81) with SMALL in Sys, Hframe.
  destruct (lc_fs_range _ _ _ _ _ _ _ (sa_located _ _ _ _ _ _ _ Sys1)) as (_ & Q1 & _).
  destruct (lc_kernel_range _ _ _ _ _ _ _ (sa_located _ _ _ _ _ _ _ Sys1)) as (_ & Q2 & _).
  assert (Hsame : ∀ a, NORMAL ≤ a < NORMAL + (TAG_LEN + (lr1 + lk1)) → mem k' a = mem k a).
  { intros a Ha. rewrite Hframe by (left; unfold SMALL, NORMAL in *; lia). apply stored_out.
    rewrite upgraded_nvram_length by apply bytes_at_length.
    unfold NORMAL, FLASH_LENGTH_BOOT_ROM, ONEK, NVRAM_DATA_OFFSET, sizeof_NVRAM_DATA in *. lia. }
  assert (Etag : tag_of (mem k') NORMAL = Some tag1).
  { rewrite <- (sa_valid _ _ _ _ _ _ _ Sys1). apply tag_of_ext. intros a Ha. apply Hsame. unfold TAG_LEN in *. lia. }
  destruct (boot_choice k' _ (NORMAL + TAG_LEN) lr1 (NORMAL + TAG_LEN + lr1) lk1 H' Etag) as (k'' & Eboot & _).
  { intros t [= <-]. apply (sa_located _ _ _ _ _ _ _ Sys1). }
  exists k', k'', tag. split; [exact E|]. split; [exact Sys|].
  assert (Hok : system_ok (mem k') tag1 (NORMAL + TAG_LEN) lr1 (NORMAL + TAG_LEN + lr1) lk1 = true).
  { rewrite <- (sa_crcs _ _ _ _ _ _ _ Sys1). unfold system_ok, part_ok.
    rewrite (bytes_at_ext (mem k') (mem k) (NORMAL + TAG_LEN)) by (intros; apply Hsame; unfold TAG_LEN in *; lia).
    by rewrite (bytes_at_ext (mem k') (mem k) (NORMAL + TAG_LEN + lr1)) by (intros; apply Hsame; unfold TAG_LEN in *; lia). }
  rewrite Eboot, Hok. by destruct (tag_of (mem k') SMALL).
Qed.

(** ** Raw reads *)

Lemma read_from_flash k a n : kok FB d k → 0 ≤ a → 0 ≤ n < 2 ^ 31 → a + n < base fc_num →
  ∃ k', kerSysReadFromFlash (s32 (FB + a)) n k = Done ((n, Some (bytes_at (mem k) a (Z.to_nat n))), k') ∧
    istep FB d k (mem k) k'.
Proof using F.
  intros H Ha Hn Hr. pose proof F as [HFB Hend _ _ _ _ _ _]. pose proof fc_num_range as Hnum.
  destruct (sec_find fc_size fc_num a) as (b & Hb & Hin); [|lia|lia|].
  { intros i Hi. by apply fc_size_pos. }
  assert (Ebk := k_get_blk FB d k b a H Hb Hin). rewrite Z.add_comm in Ebk.
  unfold kerSysReadFromFlash. rewrite !(s32_small (s32 (FB + a))) by (pose proof (s32_range (FB + a)); lia).
  mstep Ebk. assert (Em : flash (λ g, flash_get_memptr g (u16 b)) k = Done (u32 (FB + base b), k)).
  { unfold flash. rewrite (kk_dev _ _ k H). simpl. rewrite (blk_fits_u16 FB d) by done.
    rewrite fc_memptr by (done || apply H). by rewrite set_flash_id. }
  mstep Em. pose proof (base_range FB d b) as Hbr. pose proof fc_total_range as Htot.
  assert (Es : s32 (s32 (FB + a) - s32 (u32 (FB + base b))) = a - base b).
  { clear kmalloc. unfold s32, u32. change (2 ^ 32) with 4294967296 in *. change (2 ^ 31) with 2147483648 in *.
    clear -Hin Ha Hr Htot Hbr Hb Hn. Z.to_euclidean_division_equations; lia. }
  rewrite Es, (s32_small n) by lia.
  destruct (fc_read (k_flash k) b (a - base b) n) as (f & Ef & Hok & Hmem); [apply H|done|lia|lia|lia|].
  assert (Er : flash (λ g, flash_read_buf g (u16 b) (a - base b) n) k =
    Done ((FLASH_API_OK, Some (bytes_at (mem k) a (Z.to_nat n))), set_flash f k)).
  { unfold flash. rewrite (kk_dev _ _ k H). simpl. rewrite (blk_fits_u16 FB d) by done. rewrite Ef.
    do 5 f_equal. unfold bytes_at. apply map_ext. intros j. f_equal. lia. }
  mstep Er. eexists. split; [reflexivity|]. apply istep_kstep. by apply kstep_flash.
Qed.

(** The tag [getBootImageTagAndSeq] takes when both are valid. *)
Lemma boot_by_sequence k tag1 tag2 : kok FB d k → flash_nvram (fInfo k) = nvram_area →
  tag_of (mem k) NORMAL = Some tag1 → tag_of (mem k) SMALL = Some tag2 →
  seq_ok (Some tag1) → seq_ok (Some tag2) → seq_of (Some tag2) ≤ seq_of (Some tag1) →
  find_boot_partition (drop offsetof_szBootline (nvram_now k)) = Some BOOT_LATEST_IMAGE →
  ∃ k', getBootImageTagAndSeq mapped k = Done ((Some tag1, 1), k') ∧ istep FB d k (mem k) k'.
Proof using F.
  intros H Hnv E1 E2 O1 O2 Hle Hb. unfold getBootImageTagAndSeq.
  destruct (getTag_spec FB d mapped c m F k 1 NORMAL H ltac:(by left)) as (k1 & G1 & S1).
  destruct (getTag_spec FB d mapped c m F k1 2 SMALL (is_ok _ _ _ _ _ S1) ltac:(by right))
    as (k2 & G2 & S2).
  rewrite (tag_of_ext (mem k1) (mem k) SMALL) in G2 by (intros; apply (is_mem _ _ _ _ _ S1)).
  rewrite E1 in G1. rewrite E2 in G2.
  assert (S12 : istep FB d k (mem k) k2).
  { eapply istep_trans; [exact S1|]. eapply istep_ext; [|exact S2]. apply S1. }
  exists k2. split; [|done]. mstep G1. mstep G2.
  mstep (read_sequence tag1 k2 O1). mstep (read_sequence tag2 k2 O2).
  assert (Hnv2 : flash_nvram (fInfo k2) = nvram_area) by by rewrite (is_fInfo _ _ _ _ _ S12).
  destruct (nvram_start k2 (is_ok _ _ _ _ _ S12) Hnv2) as [En Eb]. mstep En. rewrite bind_gets, Eb.
  assert (Enow : nvram_now k2 = nvram_now k) by (apply bytes_at_ext; intros; apply (is_mem _ _ _ _ _ S12)).
  rewrite Enow, Hb. cbn [of_option]. rewrite bind_ret, Z.eqb_refl.
  destruct (Z.gtb_spec (seq_of (Some tag2)) (seq_of (Some tag1))); [lia|done].
Qed.

Lemma no_partition k i : i ≠ 1 → i ≠ 2 → kok FB d k → getTagFromPartition i k = Done (None, k).
Proof using F.
  intros H1 H2 H. unfold getTagFromPartition. mstep (k_memptr0 FB d mapped c m F k H).
  destruct (Z.eqb_spec i 1); [done|]. destruct (Z.eqb_spec i 2); done.
Qed.

(** [kerSysGetBootFs] has no second choice: with both systems valid and a
    file system of the first whose CRC is wrong, it returns no tag at all, since
    it passes the address of [seq] (which is neither 1 nor 2) as the partition. *)
Theorem boot_fs_never_falls_back k tag1 tag2 n seq_ptr :
  kok FB d k → flash_nvram (fInfo k) = nvram_area →
  tag_of (mem k) NORMAL = Some tag1 → tag_of (mem k) SMALL = Some tag2 →
  seq_ok (Some tag1) → seq_ok (Some tag2) → seq_of (Some tag2) ≤ seq_of (Some tag1) →
  find_boot_partition (drop offsetof_szBootline (nvram_now k)) = Some BOOT_LATEST_IMAGE →
  (∃ a, tag_addr tag_rootfsAddress tag1 = Some a ∧ u32 (a + BOOT_OFFSET FB) = FB + (NORMAL + TAG_LEN)) →
  tag_addr tag_rootfsLen tag1 = Some n → 0 < n < 2 ^ 31 → NORMAL + TAG_LEN + n < base fc_num →
  getCrc32 (bytes_at (mem k) (NORMAL + TAG_LEN) (Z.to_nat n)) CRC32_INIT_VALUE ≠
    tag_crc (tag_imageValidationToken + 4) tag1 →
  (∀ i, kmalloc i = true) → seq_ptr ≠ 1 → seq_ptr ≠ 2 →
  ∃ k', kerSysGetBootFs FB mapped kmalloc seq_ptr k = Done (None, k') ∧ k_live k' = k_live k.
Proof using F.
  intros H Hnv E1 E2 O1 O2 Hle Hb (a & Ea & Eu) En Hn Hfit Hcrc Hmal P1 P2.
  destruct (boot_by_sequence k tag1 tag2) as (k1 & Eb & S1); [done..|].
  unfold kerSysGetBootFs. mstep Eb. rewrite Ea, En. cbn [of_option]. rewrite !bind_ret, Eu.
  rewrite (u32_small n) by lia. rewrite (proj2 (Z.ltb_lt 0 n)) by lia.
  destruct (retriedKmalloc_ok kmalloc n k1) as (cl & Em). { exists 0%nat. split; [lia|apply Hmal]. }
  mstep Em. pose proof (kstep_alloc FB d k1 cl (k_live k1 + 1) (is_ok _ _ _ _ _ S1)) as S2.
  destruct (read_from_flash _ (NORMAL + TAG_LEN) n (st_ok _ _ _ _ _ _ S2)) as (k3 & Er & S3);
    [unfold NORMAL, FLASH_LENGTH_BOOT_ROM, ONEK, TAG_LEN; lia|lia|lia|].
  rewrite (s32_small n) by lia. mstep Er.
  rewrite buf_write_Some by (rewrite ?bytes_at_length, ?length_replicate; lia). cbn [of_option]. rewrite bind_ret.
  rewrite drop_ge, app_nil_r by (rewrite bytes_at_length, length_replicate; lia).
  rewrite (bytes_at_ext _ (mem k)) by (intros; apply (is_mem _ _ _ _ _ S1)).
  change (take (Z.to_nat 0) ?l) with (@nil Z). cbn [app].
  rewrite (proj2 (Z.eqb_neq _ _) Hcrc). cbn [negb].
  mstep (no_partition k3 seq_ptr P1 P2 (is_ok _ _ _ _ _ S3)).
  eexists. split; [reflexivity|]. simpl. rewrite (is_live _ _ _ _ _ S3). simpl.
  rewrite (is_live _ _ _ _ _ S1). lia.
Qed.

(** An image of another version or kind, and a normal or small system that
    does not fit its partition, is refused with -1 and the flash is not touched. *)
Theorem illegal_image_refused k img v f lr lk :
  kok FB d k → good_image img v f lr lk → v < 2 ^ 31 → f < 2 ^ 31 → TAG_LEN + (lr + lk) < 2 ^ 32 →
  v ≠ TAGVERSION_HW_OLD ∧ v ≠ TAGVERSION_HW_NEW ∨
  v = TAGVERSION_HW_OLD ∧ f ≠ TAGVERSION_FLAG_TEMP_FW ∨
  v = TAGVERSION_HW_NEW ∧ ¬ 1 ≤ f ≤ 3 ∨
  v = TAGVERSION_HW_NEW ∧ (f = 1 ∨ f = 3) ∧ FLASH_LENGTH_NORMAL_SYSTEM < TAG_LEN + (lr + lk) ∨
  v = TAGVERSION_HW_NEW ∧ f = 2 ∧ FLASH_LENGTH_SMALL_SYSTEM < TAG_LEN + (lr + lk) →
  flashFsKernelImage FB mapped kmalloc img k = Done (-1, k).
Proof using F.
  intros H G Hv Hf Hsum Hbad. destruct (good_image_lens _ _ _ _ _ G) as (L1 & L2 & R1 & R2).
  destruct (gi_addr _ _ _ _ _ G) as (ra & ka & A1 & A2 & _).
  pose proof (tag_num_range _ _ _ (gi_version _ _ _ _ _ G)) as Rv.
  pose proof (tag_num_range _ _ _ (gi_kind _ _ _ _ _ G)) as Rf.
  unfold flashFsKernelImage. rewrite A1, A2, L1, L2, (gi_version _ _ _ _ _ G), (gi_kind _ _ _ _ _ G).
  cbn [of_option]. rewrite !bind_ret. mstep (k_memptr0 FB d mapped c m F k H). mstep (k_total FB d k H).
  rewrite !bind_ret.
  assert (E : image_target (s32 v) (s32 f) (u32 (lr + lk)) (base fc_num) = None); [|by rewrite E].
  unfold image_target. rewrite (s32_small v), (s32_small f), (u32_small (lr + lk)), (u32_small (TAG_LEN + _))
    by (unfold TAG_LEN in *; lia).
  unfold TAGVERSION_HW_OLD, TAGVERSION_HW_NEW, TAGVERSION_FLAG_TEMP_FW, TAGVERSION_FLAG_NORMAL_FW,
    TAGVERSION_FLAG_PACKAGED_FW, TAGVERSION_FLAG_SMALL_FW in *.
  destruct (Z.eqb_spec 7 v), (Z.eqb_spec 4 f), (Z.eqb_spec 8 v), (Z.eqb_spec 1 f), (Z.eqb_spec 3 f), (Z.eqb_spec 2 f);
    cbn [andb orb]; try lia; try done;
    destruct (Z.gtb_spec (TAG_LEN + (lr + lk)) FLASH_LENGTH_NORMAL_SYSTEM),
      (Z.gtb_spec (TAG_LEN + (lr + lk)) FLASH_LENGTH_SMALL_SYSTEM); done || lia.
Qed.
End claims.

(** The size check of a normal system compares a sum that wraps around: a
    size (of two numbers in the tag) is accepted when the image fits the
    partition or when the size is within 256 of 2^32. *)
Theorem image_size_check_wraps f n total :
  f = TAGVERSION_FLAG_NORMAL_FW ∨ f = TAGVERSION_FLAG_PACKAGED_FW → 0 ≤ n < 2 ^ 32 →
  image_target TAGVERSION_HW_NEW f n total ≠ None ↔
  TAG_LEN + n ≤ FLASH_LENGTH_NORMAL_SYSTEM ∨ 2 ^ 32 - TAG_LEN ≤ n.
Proof.
  intros Hf Hn.
  assert (E : image_target TAGVERSION_HW_NEW f n total =
    if u32 (TAG_LEN + n) >? FLASH_LENGTH_NORMAL_SYSTEM then None else Some (inl (NORMAL + TAG_LEN)))
    by by destruct Hf as [-> | ->].
  rewrite E. unfold TAG_LEN, FLASH_LENGTH_NORMAL_SYSTEM, ONEK.
  destruct (decide (256 + n < 2 ^ 32)).
  - rewrite u32_small by lia. destruct (Z.gtb_spec (256 + n) (80 * 128 * 1024)); split; try done; lia.
  - assert (Eu : u32 (256 + n) = 256 + n - 2 ^ 32).
    { unfold u32. change (2 ^ 32) with 4294967296 in *. Z.to_euclidean_division_equations; lia. }
    rewrite Eu. destruct (Z.gtb_spec (256 + n - 2 ^ 32) (80 * 128 * 1024)); split; try done; lia.
Qed.

(** From the thousandth upgrade on, the sequence number does not fit its
    four bytes: its terminating NUL (up to 9999) clears the first byte of the
    product name behind it. *)
Theorem sequence_clears_product_name img n offset ka ra img' :
  (256 ≤ length img)%nat → 1000 ≤ n ≤ 9999 →
  patch_tag img (sprintf_d n) offset ka ra = Some img' → img' !! tag_productName = Some 0.
Proof.
  intros HL Hn E.
  assert (Hlen : length (sprintf_d n) = 4%nat).
  { unfold sprintf_d. destruct (Z.ltb_spec n 0); [lia|]. cbn [dec_digits].
    repeat (match goal with |- context [?x <? 10] => destruct (Z.ltb_spec x 10) end;
            [try (exfalso; Z.to_euclidean_division_equations; lia)|]); try done;
    exfalso; Z.to_euclidean_division_equations; lia. }
  destruct (patch_tag_spec img (sprintf_d n) offset ka ra HL ltac:(lia)) as (i & Ei & P).
  rewrite E in Ei. injection Ei as <-.
  apply (pt_seq _ _ _ _ _ P 4%nat 0). by rewrite lookup_app_r, Hlen by lia.
Qed.
