(* ===== verification/TagWitness.v ===== *)
(** * Concrete upgrades

    A flash in memory of 16 MB with sectors of 512 bytes, and a small image: the
    theorems of [TagClaims] at concrete inputs. *)

From stdpp Require Import base numbers list.
From Stdlib Require Import ZArith Lia Bool.
From S2P Require Import Prelude Crc32 FlashApi CfiGeometry RamFlash KerFlash FlashAreas FlashClaims.
From S2P Require Import ImageSet CText ImageTag TagProofs TagClaims.

Definition FB : Z := 0xBE000000.
Definition tagram_dev : flash_device_info_t (Z → Z) := ram_dev FB 32768 512.

Lemma tagram_num : 0 < 32768 ≤ 65536.
Proof. done. Qed.

#[local] Instance tagram : FlashContract FB tagram_dev :=
  ram_contract FB 32768 512 tagram_num eq_refl eq_refl eq_refl.

Definition tagram_mapped (s : Z → Z) (a : Z) : Z := s (a - FB).

Lemma tagram_base b : 0 ≤ b → sec_base fc_size b = 512 * b.
Proof. intros Hb. by apply (sec_base_uniform 512). Qed.

Lemma tagram_flash : mapped_flash FB tagram_dev tagram_mapped 512 256.
Proof.
  assert (E : sec_base fc_size fc_num = 16777216) by exact (tagram_base 32768 ltac:(lia)).
  constructor; rewrite ?E.
  - unfold FB. lia.
  - unfold FB. lia.
  - intros s a Hs Ha. unfold tagram_mapped. cbn [fc_mem tagram ram_contract]. f_equal. lia.
  - lia.
  - reflexivity.
  - unfold TAG_LEN. lia.
  - intros k Hk. reflexivity.
  - unfold SMALL, FLASH_LENGTH_SMALL_SYSTEM, FLASH_LENGTH_NORMAL_SYSTEM, FLASH_LENGTH_BOOT_ROM, ONEK. lia.
Qed.

(** A kernel with the NVRAM and the variable area in place, over contents [s]. *)
Definition tagram_kernel (s : Z → Z) : kstate (Z → Z) :=
  {| k_flash := s; g_flash_info := Some tagram_dev; flashInitialized := 1;
     fInfo := {| flash_persistent := no_area; flash_psi_backup := no_area; flash_fix := no_area;
                 flash_avail := no_area;
                 flash_variable := {| start_blk := 31500; number_blk := 1; area_length := 100;
                                      blk_offset := 412 |};
                 flash_scratch_pad := no_area; flash_nvram := nvram_area |};
     g_pCurrentBp := None; k_calls := 0; k_live := 0; k_leds := [] |}.

Lemma tagram_kok s : (∀ a, is_byte (s a)) → kok FB tagram_dev (tagram_kernel s).
Proof. intros Hs. by constructor. Qed.

(** An image: file system of 300 bytes, kernel of 100 bytes. *)
Definition put (off : nat) (src l : list Z) : list Z :=
  take off l ++ src ++ drop (off + length src) l.

Definition sample_payload : list Z := replicate 300 7 ++ replicate 100 9.

Definition sample_image (kind : Z) : list Z :=
  put tag_tagVersion (sprintf_d 8 ++ [0])
  (put tag_rootfsAddress (sprintf_lu 3217031424 ++ [0])
  (put tag_rootfsLen (sprintf_d 300 ++ [0])
  (put tag_kernelAddress (sprintf_lu 3217031724 ++ [0])
  (put tag_kernelLen (sprintf_d 100 ++ [0])
  (put tag_reserved (sprintf_d kind ++ [0])
  (put 220 (be_bytes (getCrc32 (replicate 300 7) CRC32_INIT_VALUE))
  (put 224 (be_bytes (getCrc32 (replicate 100 9) CRC32_INIT_VALUE))
    (replicate 256 0)))))))) ++ sample_payload.

Lemma bytes_ok (l : list Z) : forallb (λ b, (0 <=? b) && (b <? 256)) l = true → Forall is_byte l.
Proof.
  intros H. apply Forall_forall. intros x Hx. rewrite forallb_forall in H.
  apply list_elem_of_In, H, andb_prop in Hx. rewrite Z.leb_le, Z.ltb_lt in Hx. done.
Qed.

Lemma sample_good kind : kind ∈ [1; 2; 3; 9] → good_image (sample_image kind) 8 kind 300 100.
Proof.
  intros Hk. rewrite !elem_of_cons, elem_of_nil in Hk.
  destruct Hk as [->|[->|[->|[->| []]]]]; (constructor; [apply bytes_ok; vm_compute; reflexivity|
    vm_compute; reflexivity|vm_compute; reflexivity|vm_compute; reflexivity|vm_compute; reflexivity|
    eexists _, _; split; [vm_compute; reflexivity|]; split; [vm_compute; reflexivity|vm_compute; reflexivity]|
    vm_compute; discriminate|right; vm_compute; reflexivity|right; vm_compute; reflexivity]).
Qed.

(** An empty flash. *)
Definition blank : Z → Z := λ _, 0.

Lemma tagram_upgradable s : (∀ a, is_byte (s a)) →
  find_boot_flag (bootline (bytes_at s NVRAM_DATA_OFFSET (Z.to_nat sizeof_NVRAM_DATA))) 0 = Some None →
  seq_ok (tag_of s NORMAL) → seq_ok (tag_of s SMALL) → upgradable FB tagram_dev 512 (λ _, true) (tagram_kernel s).
Proof.
  intros Hs Hb O1 O2. constructor.
  - by apply tagram_kok.
  - reflexivity.
  - constructor; [eexists; exact Hb|]. intros i Hi.
    assert (H := eq_trans (eq_sym Hb) Hi). discriminate H.
  - exact O1.
  - exact O2.
  - change (start_blk (flash_variable (fInfo (tagram_kernel s)))) with 31500. rewrite tagram_base by lia.
    unfold SMALL, FLASH_LENGTH_SMALL_SYSTEM, FLASH_LENGTH_NORMAL_SYSTEM, FLASH_LENGTH_BOOT_ROM, ONEK. lia.
  - change fc_num with 32768. cbn. lia.
Qed.

Lemma blank_upgradable : upgradable FB tagram_dev 512 (λ _, true) (tagram_kernel blank).
Proof.
  apply tagram_upgradable; [done|vm_compute; reflexivity| |]; intros tag E; vm_compute in E; done.
Qed.

Lemma upgrade_boots_witness :
  ∃ k' k'' tag, flashFsKernelImage FB tagram_mapped (λ _, true) (sample_image 1) (tagram_kernel blank) = Done (0, k') ∧
    getBootImageTag FB tagram_mapped k' = Done (Some tag, k'') ∧
    tag_num tag_imageSequence tag = Some 1.
Proof.
  destruct (upgrade_boots FB tagram_dev tagram_mapped 512 256 tagram_flash (λ _, true)
              (tagram_kernel blank) (sample_image 1) 1 300 100) as (k' & k'' & tag & E1 & E2 & Sys & _).
  - apply blank_upgradable.
  - apply sample_good. repeat constructor.
  - by left.
  - unfold TAG_LEN, FLASH_LENGTH_NORMAL_SYSTEM, ONEK. lia.
  - exists k', k'', tag. split; [exact E1|]. split; [exact E2|].
    rewrite (sa_seq _ _ _ _ _ _ _ _ _ Sys). vm_compute. reflexivity.
Defined.

Lemma illegal_image_refused_witness :
  flashFsKernelImage FB tagram_mapped (λ _, true) (sample_image 9) (tagram_kernel blank) =
    Done (-1, tagram_kernel blank).
Proof.
  apply (illegal_image_refused FB tagram_dev tagram_mapped 512 256 tagram_flash (λ _, true)
           (tagram_kernel blank) (sample_image 9) 8 9 300 100).
  - by apply tagram_kok.
  - apply sample_good. repeat constructor.
  - lia.
  - lia.
  - unfold TAG_LEN. lia.
  - right. right. left. split; [done|lia].
Defined.

Lemma image_size_check_wraps_witness :
  image_target TAGVERSION_HW_NEW TAGVERSION_FLAG_NORMAL_FW (2 ^ 32 - 256) 0x1000000 ≠ None.
Proof.
  apply (image_size_check_wraps TAGVERSION_FLAG_NORMAL_FW (2 ^ 32 - 256) 0x1000000).
  - by left.
  - lia.
  - right. unfold TAG_LEN. lia.
Defined.

Lemma sequence_clears_product_name_witness :
  ∃ img', patch_tag (sample_image 1) (sprintf_d 1000) 131328 0 0 = Some img' ∧
    img' !! tag_productName = Some 0.
Proof.
  destruct (patch_tag (sample_image 1) (sprintf_d 1000) 131328 0 0) as [img'|] eqn:E.
  - exists img'. split; [done|].
    apply (sequence_clears_product_name (sample_image 1) 1000 131328 0 0 img').
    + apply Nat.leb_le. vm_compute. reflexivity.
    + lia.
    + exact E.
  - vm_compute in E. discriminate.
Defined.

(** ** Flashes that hold systems *)

Lemma some_eq {A} (a b : A) : Some a = Some b → b = a.
Proof. by intros [= ->]. Qed.

(** The image as an upgrade stores it at offset [off] with sequence number [n]. *)
Definition stored_image (kind off n : Z) : list Z :=
  match patch_tag (sample_image kind) (sprintf_d n) (off + TAG_LEN) 3217031724 3217031424 with
  | Some img => img
  | None => []
  end.

Lemma stored_byte s p l : (∀ a, is_byte (s a)) → Forall is_byte l → ∀ a, is_byte (stored s p l a).
Proof. intros Hs Hl a. by apply stored_bytes. Qed.

Lemma stored_image_bytes kind off n : kind ∈ [1; 2; 3; 9] → 0 ≤ n → Forall is_byte (stored_image kind off n).
Proof.
  intros Hk Hn. pose proof (sample_good kind Hk) as G. unfold stored_image.
  destruct (patch_tag _ _ _ _ _) as [img|] eqn:E; [|constructor].
  assert (HL : (256 ≤ length (sample_image kind))%nat).
  { pose proof (gi_len _ _ _ _ _ G) as HL. change (even_up (TAG_LEN + (300 + 100))) with 656 in HL. lia. }
  destruct (sprintf_d_text n Hn) as [Hl Hb].
  destruct (patch_tag_spec _ _ (off + TAG_LEN) 3217031724 3217031424 HL Hl) as (i & Ei & P).
  rewrite E in Ei. injection Ei as <-. apply (pt_bytes _ _ _ _ _ P); [apply G|done].
Qed.

(** Both systems; the payload of the normal one is missing if [broken]. *)
Definition two_systems (broken : bool) : Z → Z :=
  stored (stored blank NORMAL
    (if broken then take 256 (stored_image 1 NORMAL 5) else stored_image 1 NORMAL 5))
    SMALL (stored_image 2 SMALL 0).

Lemma two_systems_byte broken a : is_byte (two_systems broken a).
Proof.
  apply stored_byte; [apply stored_byte; [done|]|apply stored_image_bytes; [repeat constructor|lia]].
  destruct broken; [apply Forall_take|]; (apply stored_image_bytes; [repeat constructor|lia]).
Qed.

Definition normal_tag : list Z := take 256 (stored_image 1 NORMAL 5).
Definition small_tag : list Z := take 256 (stored_image 2 SMALL 0).

Lemma two_systems_tags broken :
  tag_of (two_systems broken) NORMAL = Some normal_tag ∧ tag_of (two_systems broken) SMALL = Some small_tag.
Proof. destruct broken; split; vm_compute; reflexivity. Qed.

Lemma normal_tag_located : located FB tagram_dev normal_tag (NORMAL + TAG_LEN) 300 (NORMAL + TAG_LEN + 300) 100.
Proof.
  assert (E : sec_base fc_size fc_num = 16777216) by exact (tagram_base 32768 ltac:(lia)).
  constructor; rewrite ?E.
  - exists (s32 (IMAGE_BASE + (NORMAL + TAG_LEN))). split; vm_compute; reflexivity.
  - vm_compute. reflexivity.
  - exists (s32 (IMAGE_BASE + (NORMAL + TAG_LEN + 300))). split; vm_compute; reflexivity.
  - vm_compute. reflexivity.
  - vm_compute. repeat split; discriminate.
  - vm_compute. repeat split; discriminate.
Qed.

Lemma boot_selection_witness :
  ∃ boot k', getBootImageTag FB tagram_mapped (tagram_kernel (two_systems true)) = Done (boot, k') ∧
    boot = Some small_tag.
Proof.
  destruct (boot_selection FB tagram_dev tagram_mapped 512 256 tagram_flash (tagram_kernel (two_systems true))
              (Some normal_tag) (Some small_tag) (NORMAL + TAG_LEN) 300 (NORMAL + TAG_LEN + 300) 100)
    as (boot & k' & E & _ & _ & Hb).
  - apply tagram_kok, two_systems_byte.
  - exact (proj1 (two_systems_tags true)).
  - exact (proj2 (two_systems_tags true)).
  - intros tag E. rewrite (some_eq _ _ E). apply normal_tag_located.
  - exists boot, k'. split; [exact E|].
    destruct (Hb small_tag eq_refl) as [[E' _]|(tag & _ & E' & Hok)]; [exact E'|].
    rewrite (some_eq _ _ E') in Hok. vm_compute in Hok. discriminate.
Defined.

Lemma small_upgrade_keeps_normal_witness :
  ∃ k' k'', flashFsKernelImage FB tagram_mapped (λ _, true) (sample_image 2) (tagram_kernel (two_systems false))
      = Done (0, k') ∧
    getBootImageTag FB tagram_mapped k' = Done (Some normal_tag, k'').
Proof.
  destruct (two_systems_tags false) as [T1 T2].
  destruct (small_upgrade_keeps_normal FB tagram_dev tagram_mapped 512 256 tagram_flash (λ _, true)
              (tagram_kernel (two_systems false)) (sample_image 2) 300 100 sample_payload 300 100 5 normal_tag)
    as (k' & k'' & tag & E1 & _ & E2).
  - apply tagram_upgradable; [apply two_systems_byte|vm_compute; reflexivity| |].
    + intros tag E. rewrite T1 in E. rewrite (some_eq _ _ E). exists 5. split; [vm_compute; reflexivity|lia].
    + intros tag E. rewrite T2 in E. rewrite (some_eq _ _ E). exists 0. split; [vm_compute; reflexivity|lia].
  - apply sample_good. repeat constructor.
  - unfold TAG_LEN, FLASH_LENGTH_SMALL_SYSTEM, ONEK. lia.
  - constructor.
    + vm_compute. reflexivity.
    + exact T1.
    + apply normal_tag_located.
    + vm_compute. reflexivity.
    + vm_compute. reflexivity.
    + vm_compute. reflexivity.
  - unfold TAG_LEN, FLASH_LENGTH_NORMAL_SYSTEM, ONEK. lia.
  - exists k', k''. split; [exact E1|exact E2].
Defined.

Lemma boot_fs_never_falls_back_witness :
  ∃ k', kerSysGetBootFs FB tagram_mapped (λ _, true) 0x80123450 (tagram_kernel (two_systems true)) = Done (None, k').
Proof.
  destruct (two_systems_tags true) as [T1 T2].
  destruct (boot_fs_never_falls_back FB tagram_dev tagram_mapped 512 256 tagram_flash (λ _, true)
              (tagram_kernel (two_systems true)) normal_tag small_tag 300 0x80123450) as (k' & E & _).
  - apply tagram_kok, two_systems_byte.
  - reflexivity.
  - exact T1.
  - exact T2.
  - intros tag E. rewrite (some_eq _ _ E). exists 5. split; [vm_compute; reflexivity|lia].
  - intros tag E. rewrite (some_eq _ _ E). exists 0. split; [vm_compute; reflexivity|lia].
  - vm_compute. discriminate.
  - vm_compute. reflexivity.
  - exists (s32 (IMAGE_BASE + (NORMAL + TAG_LEN))). split; vm_compute; reflexivity.
  - vm_compute. reflexivity.
  - lia.
  - assert (E : sec_base fc_size fc_num = 16777216) by exact (tagram_base 32768 ltac:(lia)).
    rewrite E. unfold NORMAL, FLASH_LENGTH_BOOT_ROM, ONEK, TAG_LEN. lia.
  - vm_compute. discriminate.
  - reflexivity.
  - lia.
  - lia.
  - exists k'. exact E.
Defined.
