(* ===== verification/ScratchPad.v ===== *)
(** * The scratch pad (bcm63xx_flash.c)

    A table of named tokens in the scratch-pad area: a 32-byte header with a
    magic number, then tokens of a 20-byte header (name and length) and their
    data, padded to four bytes. *)

From stdpp Require Import base numbers list strings.
From Stdlib Require Import ZArith Lia.
From S2P Require Import Prelude Crc32 BoardTables BoardParms FlashApi KerFlash.

Definition MAGIC_NUM_LEN : Z := 8.
Definition MAGIC_NUMBER : list Z := cstr "gOGoBD20".
Definition TOKEN_NAME_LEN : Z := 16.
Definition SP_VERSION : Z := 1.
Definition SP_RESERVERD : Z := 20.

(** [sizeof (SP_HEADER)] and [sizeof (SP_TOKEN)]. *)
Definition sizeof_SP_HEADER : Z := MAGIC_NUM_LEN + 4 + SP_RESERVERD.
Definition sizeof_SP_TOKEN : Z := TOKEN_NAME_LEN + 4.

(** The bytes of a big-endian [int]. *)
Definition be32_bytes (z : Z) : list Z :=
  let u := u32 z in [u / 2 ^ 24; u / 2 ^ 16 mod 256; u / 2 ^ 8 mod 256; u mod 256].

(** [(len + 0x03) & ~0x03]. *)
Definition round4 (len : Z) : Z := Z.land (s32 (len + 3)) (Z.lnot 3).

(** [SPHead] and [SPToken] as they are formed by [kerSysScratchPadSet]. *)
Definition SPHead : list Z := MAGIC_NUMBER ++ be32_bytes SP_VERSION ++ replicate 20 0.

Definition token_name (tokenId : list Z) : list Z :=
  let s := take 15 tokenId in s ++ replicate (16 - length s) 0.

Definition SPToken (tokenId : list Z) (bufLen : Z) : list Z :=
  token_name tokenId ++ be32_bytes bufLen.

(** [strncmp (a, b, n) == 0], on the bytes from two pointers on. *)
Fixpoint strncmp_eq (n : nat) (a b : list Z) : bool :=
  match n with
  | O => true
  | S n' =>
      match a, b with
      | x :: a', y :: b' =>
          if x =? y then (if x =? 0 then true else strncmp_eq n' a' b') else false
      | _, _ => false
      end
  end.

Section pad.
Context {S : Type}.
Abbreviation ks := (kstate S).

(** ** The token table in a buffer

    [buf] is the memory from [pBuf] on; positions are relative to it.
    [length] is [fInfo.flash_scratch_pad_length]. *)

(** [pToken->tokenName], from a position on, and [pToken->tokenLen]. *)
Definition rd_name (buf : list Z) (cur : Z) : M ks (list Z) :=
  of_option (buf_read buf cur TOKEN_NAME_LEN).

Definition rd_char (buf : list Z) (cur : Z) : M ks Z :=
  bs ← of_option (buf_read buf cur 1); of_option (head bs).

Definition rd_len (buf : list Z) (cur : Z) : M ks Z :=
  bs ← of_option (buf_read buf (cur + TOKEN_NAME_LEN) 4); mret (s32 (be32 bs)).

(** [strlen]: the string must end inside the buffer. *)
Definition rd_strlen (buf : list Z) (cur : Z) : M ks Z :=
  let rest := drop (Z.to_nat cur) buf in
  let s := c_string rest in
  if (length s <? length rest)%nat then mret (Z.of_nat (length s)) else fault.

(** The search of [kerSysScratchPadGet]: the data of the token, if found. *)
Fixpoint sp_find (fuel : nat) (buf : list Z) (length : Z) (tokenId : list Z)
  (usedLen startPtr : Z) : M ks (option (list Z)) :=
  match fuel with
  | O => nofuel
  | Datatypes.S fuel' =>
      c ← rd_char buf startPtr;
      if c =? 0 then mret None
      else
        tokenLen ← rd_len buf startPtr;
        if (0 <? tokenLen) && (tokenLen <? length) && (usedLen <? length) then
          name ← rd_name buf startPtr;
          if strncmp_eq 16 name (tokenId ++ [0]) then
            data ← of_option (buf_read buf (startPtr + sizeof_SP_TOKEN) tokenLen);
            mret (Some data)
          else
            sp_find fuel' buf length tokenId (usedLen + round4 tokenLen)
              (startPtr + sizeof_SP_TOKEN + round4 tokenLen)
        else mret None
  end.

(** The first loop of [kerSysScratchPadSet]: the length in use.  [skipLen] is
    read before the condition is tested. *)
Fixpoint sp_used (fuel : nat) (buf : list Z) (length usedLen : Z) : M ks Z :=
  match fuel with
  | O => nofuel
  | Datatypes.S fuel' =>
      tokenLen ← rd_len buf usedLen;
      c ← rd_char buf usedLen;
      if (65 <=? s8 c) && (s8 c <=? 122) then
        n ← rd_strlen buf usedLen;
        if (n <? TOKEN_NAME_LEN) && (0 <? tokenLen) && (tokenLen <? length)
           && (usedLen <? length) then
          sp_used fuel' buf length (usedLen + sizeof_SP_TOKEN + round4 tokenLen)
        else mret usedLen
      else mret usedLen
  end.

(** The second loop: look for the token up to [usedLen]; overwrite it when the
    length is the same, else close the gap.  Returns [putAtEnd], the buffer and
    the new [usedLen].  The [memcpy] that closes the gap can have overlapping
    operands, for which C promises nothing; the kernel's [memcpy] of this machine
    (arch/mips/lib/memcpy.S) copies words upwards and loads each word before it
    stores at or above it, and the destination is below the source and both are
    aligned, so the bytes of [rest] arrive as they were. *)
Fixpoint sp_replace (fuel : nat) (buf : list Z) (length : Z) (tokenId : list Z)
  (tokBuf : option (list Z)) (bufLen curLen usedLen : Z) : M ks (bool * list Z * Z) :=
  match fuel with
  | O => nofuel
  | Datatypes.S fuel' =>
      if curLen <? usedLen then
        tokenLen ← rd_len buf curLen;
        let skipLen := round4 tokenLen in
        name ← rd_name buf curLen;
        if strncmp_eq 16 name (tokenId ++ [0]) then
          match tokBuf with
          | Some data =>
              if tokenLen =? bufLen then
                src ← of_option (buf_read data 0 bufLen);
                buf' ← of_option (buf_write buf (curLen + sizeof_SP_TOKEN) src);
                mret (false, buf', usedLen)
              else
                let copyLen := usedLen - (curLen + sizeof_SP_TOKEN + skipLen) in
                rest ← of_option (buf_read buf (curLen + sizeof_SP_TOKEN + skipLen) copyLen);
                buf1 ← of_option (buf_write buf curLen rest);
                buf2 ← of_option (buf_fill buf1 (curLen + copyLen) 0
                                    (length - (curLen + copyLen)));
                mret (true, buf2, usedLen - (sizeof_SP_TOKEN + skipLen))
          | None =>
              let copyLen := usedLen - (curLen + sizeof_SP_TOKEN + skipLen) in
              rest ← of_option (buf_read buf (curLen + sizeof_SP_TOKEN + skipLen) copyLen);
              buf1 ← of_option (buf_write buf curLen rest);
              buf2 ← of_option (buf_fill buf1 (curLen + copyLen) 0
                                  (length - (curLen + copyLen)));
              mret (true, buf2, usedLen - (sizeof_SP_TOKEN + skipLen))
          end
        else
          sp_replace fuel' buf length tokenId tokBuf bufLen
            (curLen + sizeof_SP_TOKEN + skipLen) usedLen
      else mret (true, buf, usedLen)
  end.

(** ** The functions *)

Context (kmalloc : nat → bool).

Definition kerSysScratchPadClearAll : M ks Z :=
  a ← gets (λ k, flash_scratch_pad (fInfo k)); area_clear kmalloc a.

(** [tokBuf] is the caller's buffer; the result has the bytes stored into
    it. *)
Definition kerSysScratchPadGet (tokenId tokBuf : list Z) (bufLen : Z) : M ks (Z * list Z) :=
  a ← gets (λ k, flash_scratch_pad (fInfo k));
  if area_length a =? 0 then mret (-1, tokBuf)
  else if u32 (area_length a - sizeof_SP_HEADER - sizeof_SP_TOKEN) <=? u32 bufLen then
    mret (-1, tokBuf)
  else
    pShareBuf ← shared kmalloc a;
    match pShareBuf with
    | None => mret (-1, tokBuf)
    | Some share =>
        let pBuf := drop (Z.to_nat (blk_offset a)) share in
        magic ← of_option (buf_read pBuf 0 MAGIC_NUM_LEN);
        if negb (bool_decide (magic = MAGIC_NUMBER)) then
          kerSysScratchPadClearAll;; mret (-1, tokBuf)
        else
          r ← sp_find (Datatypes.S (Z.to_nat (area_length a))) pBuf (area_length a) tokenId
                sizeof_SP_HEADER sizeof_SP_HEADER;
          match r with
          | Some data =>
              tokBuf' ← of_option (buf_write tokBuf 0 data);
              retriedKfree;;
              mret (Z.of_nat (length data), tokBuf')
          | None => retriedKfree;; mret (-1, tokBuf)
          end
    end.

(** The part of [kerSysScratchPadSet] for a pad with the magic number: the new
    contents, or [None] on overflow. *)
Definition sp_update (buf : list Z) (length : Z) (tokenId : list Z) (tokBuf : option (list Z))
  (bufLen : Z) : M ks (option (list Z)) :=
  let fuel := Datatypes.S (Z.to_nat length) in
  usedLen ← sp_used fuel buf length sizeof_SP_HEADER;
  if u32 (usedLen + bufLen + sizeof_SP_TOKEN) >? u32 length then mret None
  else
    '(putAtEnd, buf1, usedLen1) ←
      sp_replace fuel buf length tokenId tokBuf bufLen sizeof_SP_HEADER usedLen;
    if (putAtEnd : bool) then
      buf2 ← match tokBuf with
             | Some data =>
                 b1 ← of_option (buf_write buf1 usedLen1 (SPToken tokenId bufLen));
                 src ← of_option (buf_read data 0 bufLen);
                 of_option (buf_write b1 (usedLen1 + sizeof_SP_TOKEN) src)
             | None => mret buf1
             end;
      buf3 ← of_option (buf_write buf2 0 SPHead);
      mret (Some buf3)
    else mret (Some buf1).

(** The part for a pad without the magic number. *)
Definition sp_fresh (buf : list Z) (tokenId : list Z) (tokBuf : option (list Z)) (bufLen : Z)
  : M ks (list Z) :=
  b1 ← of_option (buf_write buf 0 SPHead);
  b2 ← of_option (buf_write b1 sizeof_SP_HEADER (SPToken tokenId bufLen));
  match tokBuf with
  | Some data =>
      src ← of_option (buf_read data 0 bufLen);
      of_option (buf_write b2 (sizeof_SP_HEADER + sizeof_SP_TOKEN) src)
  | None => mret b2
  end.

Definition kerSysScratchPadSet (tokenId : list Z) (tokBuf : option (list Z)) (bufLen : Z)
  : M ks Z :=
  a ← gets (λ k, flash_scratch_pad (fInfo k));
  if area_length a =? 0 then mret (-1)
  else if u32 (area_length a - sizeof_SP_HEADER - sizeof_SP_TOKEN) <=? u32 bufLen then
    mret (-1)
  else
    pShareBuf ← shared kmalloc a;
    match pShareBuf with
    | None => mret (-1)
    | Some share =>
        let o := Z.to_nat (blk_offset a) in
        let pBuf := drop o share in
        magic ← of_option (buf_read pBuf 0 MAGIC_NUM_LEN);
        new ← (if negb (bool_decide (magic = MAGIC_NUMBER)) then
                 kerSysScratchPadClearAll;;
                 buf ← sp_fresh pBuf tokenId tokBuf bufLen;
                 mret (Some buf)
               else sp_update pBuf (area_length a) tokenId tokBuf bufLen);
        match new with
        | None => mret (-1)
        | Some buf =>
            sts ← unshared a (take o share ++ buf);
            retriedKfree;;
            mret sts
        end
    end.
End pad.
