(* ===== verification/PadProofs.v ===== *)
(** * Correctness of the scratch pad

    The byte-level token table of [ScratchPad] implements an ordered table from
    names to data: [pad_rep] relates a buffer to such a table, [sp_find] is the
    lookup and [sp_update] is [pad_put] of the table. *)

From stdpp Require Import base numbers list strings.
From Stdlib Require Import ZArith Lia.
From S2P Require Import Prelude Crc32 BoardTables BoardParms FlashApi KerFlash ScratchPad.

(** ** Big-endian integers and padding *)

Lemma be32_bytes_length z : length (be32_bytes z) = 4%nat.
Proof. done. Qed.

Lemma be32_bytes_read z : 0 ≤ z < 2 ^ 31 → s32 (be32 (be32_bytes z)) = z.
Proof.
  intros Hz. unfold be32, be32_bytes. rewrite u32_small by lia. cbn [take foldl].
  change (2 ^ 24) with 16777216. change (2 ^ 16) with 65536. change (2 ^ 8) with 256.
  replace (z / 65536) with (z / 256 / 256) by (rewrite Z.div_div by lia; done).
  replace (z / 16777216) with (z / 256 / 256 / 256)
    by (rewrite (Z.div_div z 256 256), Z.div_div by lia; done).
  pose proof (Z.div_mod z 256). pose proof (Z.div_mod (z / 256) 256).
  pose proof (Z.div_mod (z / 256 / 256) 256).
  match goal with |- s32 ?x = z => assert (x = z) as -> by lia end. apply s32_small. lia.
Qed.

Lemma round4_spec len : 0 ≤ len < 2 ^ 31 - 3 → len ≤ round4 len < len + 4.
Proof.
  intros H. unfold round4. rewrite s32_small by lia.
  change 3 with (Z.ones 2). rewrite <- Z.ldiff_land, Z.ldiff_ones_r by lia.
  rewrite Z.shiftl_mul_pow2, Z.shiftr_div_pow2 by lia. change (2 ^ 2) with 4.
  change (Z.ones 2) with 3.
  pose proof (Z.div_mod (len + 3) 4). pose proof (Z.mod_pos_bound (len + 3) 4). lia.
Qed.

(** ** Names *)

(** A name the driver can store and find: 1 to 15 characters, the first in
    [A..z]. *)
Record name_ok (nm : list Z) : Prop := {
  nk_len : (length nm ≤ 15)%nat;
  nk_chars : Forall (λ b, 0 < b < 256) nm;
  nk_head : ∃ c rest, nm = c :: rest ∧ 65 ≤ c ≤ 122
}.

Lemma token_name_length nm : length (token_name nm) = 16%nat.
Proof.
  unfold token_name. rewrite length_app, length_replicate, length_take. lia.
Qed.

Lemma token_name_ok nm : (length nm ≤ 15)%nat →
  token_name nm = nm ++ replicate (16 - length nm) 0.
Proof. intros. unfold token_name. by rewrite take_ge by lia. Qed.

Lemma c_string_app nm rest : Forall (λ b, 0 < b < 256) nm →
  c_string (nm ++ 0 :: rest) = nm.
Proof.
  induction 1 as [|b nm Hb _ IH]; simpl; [done|].
  rewrite (proj2 (Z.eqb_neq b 0)) by lia. by rewrite IH.
Qed.

Lemma strncmp_eq_names n a b m : Forall (λ x, 0 < x < 256) a → Forall (λ x, 0 < x < 256) b →
  (length b < n)%nat → (length a + m = n)%nat →
  strncmp_eq n (a ++ replicate m 0) (b ++ [0]) = bool_decide (a = b).
Proof.
  revert a b. induction n as [|n IH]; intros a b Ha Hb Hlb Hla; [lia|].
  destruct a as [|x a], b as [|y b]; cbn [length app strncmp_eq] in *.
  - destruct m; [lia|]. done.
  - destruct m; [lia|]. cbn [replicate]. inversion Hb as [|?? Hy _]; subst.
    rewrite (proj2 (Z.eqb_neq 0 y)) by lia. done.
  - inversion Ha as [|?? Hx _]; subst.
    by rewrite (proj2 (Z.eqb_neq x 0)) by lia.
  - inversion Ha as [|?? Hx Ha']; inversion Hb as [|?? Hy Hb']; subst.
    destruct (Z.eqb_spec x y) as [->|Hne]; cycle 1.
    { symmetry. apply bool_decide_eq_false. by intros [= ?]. }
    rewrite (proj2 (Z.eqb_neq y 0)) by lia. rewrite IH by (done || lia).
    apply bool_decide_ext. split; [by intros ->|by intros [= ?]].
Qed.

Lemma strncmp_token nm id : name_ok nm → name_ok id →
  strncmp_eq 16 (token_name nm) (id ++ [0]) = bool_decide (nm = id).
Proof.
  intros [] []. rewrite token_name_ok by done. apply strncmp_eq_names; (done || lia).
Qed.

(** ** Tables *)

Definition token : Type := list Z * list Z.

Definition token_ok (L : Z) (t : token) : Prop :=
  name_ok (fst t) ∧ 0 < Z.of_nat (length (snd t)) < L ∧ Forall is_byte (snd t).

Definition token_head (t : token) : list Z := SPToken (fst t) (Z.of_nat (length (snd t))).

(** [enc ts body]: [body] is the tokens [ts] one after the other, with any bytes
    as padding. *)
Inductive enc : list token → list Z → Prop :=
| enc_nil : enc [] []
| enc_cons t ts pad rest :
    Z.of_nat (length pad) = round4 (Z.of_nat (length (snd t))) - Z.of_nat (length (snd t)) →
    enc ts rest →
    enc (t :: ts) (token_head t ++ snd t ++ pad ++ rest).

Lemma token_head_length t : length (token_head t) = 20%nat.
Proof. unfold token_head, SPToken. by rewrite length_app, token_name_length. Qed.

Lemma enc_app ts1 b1 ts2 b2 : enc ts1 b1 → enc ts2 b2 → enc (ts1 ++ ts2) (b1 ++ b2).
Proof.
  induction 1 as [|t ts pad rest Hp _ IH]; intros H2; simpl; [done|].
  rewrite <- !app_assoc. constructor; auto.
Qed.

(** The table operations. *)
Fixpoint pad_lookup (id : list Z) (ts : list token) : option (list Z) :=
  match ts with
  | [] => None
  | t :: ts' => if decide (fst t = id) then Some (snd t) else pad_lookup id ts'
  end.

Fixpoint pad_remove (id : list Z) (ts : list token) : list token :=
  match ts with
  | [] => []
  | t :: ts' => if decide (fst t = id) then ts' else t :: pad_remove id ts'
  end.

Fixpoint pad_subst (id data : list Z) (ts : list token) : list token :=
  match ts with
  | [] => []
  | t :: ts' => if decide (fst t = id) then (id, data) :: ts' else t :: pad_subst id data ts'
  end.

(** Setting a token: in place if the length is unchanged, else at the end. *)
Definition pad_put (id data : list Z) (ts : list token) : list token :=
  match pad_lookup id ts with
  | Some old =>
      if decide (length old = length data) then pad_subst id data ts
      else pad_remove id ts ++ [(id, data)]
  | None => ts ++ [(id, data)]
  end.

(** [pad_rep L buf ts]: the buffer holds the table [ts]; the rest is zeroed or
    erased, with room for one more token header. *)
Record pad_rep (L : Z) (buf : list Z) (ts : list token) : Prop := {
  pr_length : Z.of_nat (length buf) = L;
  pr_range : L < 2 ^ 31 - 3;
  pr_tokens : Forall (token_ok L) ts;
  pr_form : ∃ hd body m b, buf = hd ++ body ++ replicate m b ∧
    length hd = 32%nat ∧ take 8 hd = MAGIC_NUMBER ∧ enc ts body ∧
    (20 ≤ m)%nat ∧ (b = 0 ∨ b = 255)
}.

Section table.
Context {S : Type}.
Implicit Types k : kstate S.

(** ** The fields of a token *)

Section fields.
Context (pre : list Z) (t : token) (rest : list Z) (cur : Z) (L : Z).
Context (Hcur : cur = Z.of_nat (length pre)) (Ht : token_ok L t) (HL : L < 2 ^ 31 - 3).
Abbreviation buf := (pre ++ token_head t ++ snd t ++ rest).

Lemma read_name k : rd_name buf cur k = Done (token_name (fst t), k).
Proof.
  unfold rd_name, token_head, SPToken. rewrite <- !app_assoc.
  rewrite buf_read_mid; [done|done|]. by rewrite token_name_length.
Qed.

Lemma read_len k : rd_len buf cur k = Done (Z.of_nat (length (snd t)), k).
Proof.
  unfold rd_len, token_head, SPToken. rewrite <- !app_assoc, app_assoc.
  rewrite buf_read_mid; [|rewrite length_app, token_name_length; unfold TOKEN_NAME_LEN; lia|done].
  cbn [of_option]. rewrite bind_ret. destruct Ht as (_&?&_). by rewrite be32_bytes_read by lia.
Qed.

Lemma read_char k : ∃ c, rd_char buf cur k = Done (c, k) ∧ 65 ≤ c ≤ 122.
Proof.
  destruct Ht as ([_ _ (c&nm&Hnm&Hc)]&_). exists c. split; [|done].
  unfold rd_char, token_head, SPToken, token_name. rewrite Hnm. cbn [take app].
  match goal with |- context [pre ++ c :: ?l] => change (pre ++ c :: l) with (pre ++ [c] ++ l) end.
  rewrite buf_read_mid; done.
Qed.

Lemma read_strlen k : ∃ n, rd_strlen buf cur k = Done (n, k) ∧ n < TOKEN_NAME_LEN.
Proof.
  destruct Ht as ([Hlen Hch _]&_). exists (Z.of_nat (length (fst t))).
  split; [|unfold TOKEN_NAME_LEN; lia]. unfold rd_strlen.
  rewrite Hcur, Nat2Z.id, drop_app_length.
  unfold token_head, SPToken. rewrite token_name_ok by done.
  replace (16 - length (fst t))%nat with (Datatypes.S (15 - length (fst t))) by lia.
  rewrite <- !app_assoc. cbn [replicate app]. rewrite c_string_app by done.
  destruct (Nat.ltb_spec (length (fst t)) (length (fst t ++ 0 :: replicate (15 - length (fst t)) 0 ++
    be32_bytes (Z.of_nat (length (snd t))) ++ snd t ++ rest))) as [|Hge]; [done|].
  rewrite length_app in Hge. simpl in Hge. lia.
Qed.

Lemma read_data : buf_read buf (cur + sizeof_SP_TOKEN) (Z.of_nat (length (snd t))) = Some (snd t).
Proof.
  rewrite app_assoc. apply buf_read_mid; [|done].
  rewrite length_app, token_head_length. unfold sizeof_SP_TOKEN, TOKEN_NAME_LEN. lia.
Qed.
End fields.

(** ** The tail *)

Lemma tail_split (m : nat) (b : Z) : (20 ≤ m)%nat →
  replicate m b = [b] ++ replicate 15 b ++ [b; b; b; b] ++ replicate (m - 20) b.
Proof.
  intros. change [b; b; b; b] with (replicate 4 b). change [b] with (replicate 1 b).
  rewrite <- !replicate_add. f_equal. lia.
Qed.

Lemma tail_char pre m b cur k : cur = Z.of_nat (length pre) → (20 ≤ m)%nat →
  rd_char (pre ++ replicate m b) cur k = Done (b, k).
Proof.
  intros Hc Hm. unfold rd_char. rewrite tail_split by done. by rewrite buf_read_mid.
Qed.

Lemma tail_len pre m b cur k : cur = Z.of_nat (length pre) → (20 ≤ m)%nat →
  rd_len (pre ++ replicate m b) cur k = Done (s32 (be32 [b; b; b; b]), k).
Proof.
  intros Hc Hm. unfold rd_len. rewrite tail_split by done.
  rewrite (app_assoc [b]), app_assoc.
  rewrite buf_read_mid; [done| |done]. rewrite !length_app, length_replicate. simpl.
  unfold TOKEN_NAME_LEN. lia.
Qed.

Lemma tail_len_le b : b = 0 ∨ b = 255 → s32 (be32 [b; b; b; b]) ≤ 0.
Proof. intros [->| ->]; by vm_compute. Qed.

(** ** The loops *)

Section loops.
Context (L : Z) (buf : list Z) (m : nat) (b : Z).
Context (HL : Z.of_nat (length buf) = L) (HLr : L < 2 ^ 31 - 3).
Context (Hm : (20 ≤ m)%nat) (Hb : b = 0 ∨ b = 255).

(** The step from one token to the next. *)
Lemma next_token pre t pad rest :
  token_ok L t →
  Z.of_nat (length pad) = round4 (Z.of_nat (length (snd t))) - Z.of_nat (length (snd t)) →
  buf = pre ++ (token_head t ++ snd t ++ pad ++ rest) ++ replicate m b →
  buf = (pre ++ token_head t ++ snd t ++ pad) ++ rest ++ replicate m b ∧
  Z.of_nat (length (pre ++ token_head t ++ snd t ++ pad)) =
    Z.of_nat (length pre) + sizeof_SP_TOKEN + round4 (Z.of_nat (length (snd t))) ∧
  Z.of_nat (length pre) + 20 + round4 (Z.of_nat (length (snd t))) < L.
Proof.
  intros Ht Hp Hbuf.
  assert (Hl : Z.of_nat (length (pre ++ token_head t ++ snd t ++ pad)) =
    Z.of_nat (length pre) + sizeof_SP_TOKEN + round4 (Z.of_nat (length (snd t)))).
  { rewrite !length_app, token_head_length. unfold sizeof_SP_TOKEN, TOKEN_NAME_LEN. lia. }
  assert (Hbuf' : buf = (pre ++ token_head t ++ snd t ++ pad) ++ rest ++ replicate m b)
    by (rewrite Hbuf, <- !app_assoc; done).
  split; [done|]. split; [done|]. rewrite <- HL, Hbuf', length_app, (length_app rest),
    length_replicate. unfold sizeof_SP_TOKEN, TOKEN_NAME_LEN in Hl. lia.
Qed.

Lemma sp_find_spec id ts body : name_ok id → enc ts body → ∀ pre used fuel k,
  Forall (token_ok L) ts → buf = pre ++ body ++ replicate m b →
  used ≤ Z.of_nat (length pre) → (length ts < fuel)%nat →
  sp_find fuel buf L id used (Z.of_nat (length pre)) k = Done (pad_lookup id ts, k).
Proof.
  intros Hid. induction 1 as [|t ts pad rest Hp Henc IH]; intros pre used fuel k Hts Hbuf Hu Hf;
    (destruct fuel as [|fuel]; [lia|]); cbn [sp_find].
  - assert (Hc := tail_char pre m b _ k eq_refl Hm). simpl in Hbuf. rewrite <- Hbuf in Hc.
    mstep Hc. destruct Hb as [->| ->]; [done|]. cbn [Z.eqb].
    assert (Hl := tail_len pre m 255 _ k eq_refl Hm). rewrite <- Hbuf in Hl. mstep Hl. done.
  - apply Forall_cons in Hts as [Ht Hts].
    destruct (next_token pre t pad rest Ht Hp Hbuf) as (Hbuf'&Hlen&Hlt).
    assert (Hview : buf = pre ++ token_head t ++ snd t ++ (pad ++ rest ++ replicate m b))
      by (rewrite Hbuf, <- !app_assoc; done).
    destruct (read_char pre t (pad ++ rest ++ replicate m b) _ L eq_refl Ht k) as (c&Ec&Hcr).
    rewrite <- Hview in Ec. mstep Ec. rewrite (proj2 (Z.eqb_neq c 0)) by lia.
    assert (El := read_len pre t (pad ++ rest ++ replicate m b) _ L eq_refl Ht HLr k).
    rewrite <- Hview in El. mstep El.
    pose proof Ht as (Hnm&Hdl&_).
    rewrite (proj2 (Z.ltb_lt 0 _)), (proj2 (Z.ltb_lt _ L)), (proj2 (Z.ltb_lt used L)) by
      (pose proof (round4_spec (Z.of_nat (length (snd t)))); lia).
    cbn [andb].
    assert (En := read_name pre t (pad ++ rest ++ replicate m b) _ eq_refl k).
    rewrite <- Hview in En. mstep En. rewrite strncmp_token by done. cbn [pad_lookup].
    destruct (decide (fst t = id)) as [->|Hne].
    + rewrite bool_decide_eq_true_2 by done.
      assert (Ed := read_data pre t (pad ++ rest ++ replicate m b) _ eq_refl).
      rewrite <- Hview in Ed. rewrite Ed. done.
    + rewrite bool_decide_eq_false_2 by done. rewrite <- Hlen.
      apply IH; [done|done| |simpl in Hf; lia].
      unfold sizeof_SP_TOKEN, TOKEN_NAME_LEN in Hlen. lia.
Qed.

Lemma sp_used_spec ts body : enc ts body → ∀ pre fuel k,
  Forall (token_ok L) ts → buf = pre ++ body ++ replicate m b → (length ts < fuel)%nat →
  sp_used fuel buf L (Z.of_nat (length pre)) k =
    Done (Z.of_nat (length pre) + Z.of_nat (length body), k).
Proof.
  induction 1 as [|t ts pad rest Hp Henc IH]; intros pre fuel k Hts Hbuf Hf;
    (destruct fuel as [|fuel]; [lia|]); cbn [sp_used].
  - simpl in Hbuf. assert (Hl := tail_len pre m b _ k eq_refl Hm). rewrite <- Hbuf in Hl.
    mstep Hl. assert (Hc := tail_char pre m b _ k eq_refl Hm). rewrite <- Hbuf in Hc.
    mstep Hc. rewrite Z.add_0_r. by destruct Hb as [->| ->].
  - apply Forall_cons in Hts as [Ht Hts].
    destruct (next_token pre t pad rest Ht Hp Hbuf) as (Hbuf'&Hlen&Hlt).
    assert (Hview : buf = pre ++ token_head t ++ snd t ++ (pad ++ rest ++ replicate m b))
      by (rewrite Hbuf, <- !app_assoc; done).
    assert (El := read_len pre t (pad ++ rest ++ replicate m b) _ L eq_refl Ht HLr k).
    rewrite <- Hview in El. mstep El.
    destruct (read_char pre t (pad ++ rest ++ replicate m b) _ L eq_refl Ht k) as (c&Ec&Hcr).
    rewrite <- Hview in Ec. mstep Ec.
    assert (s8 c = c) as -> by (unfold s8; rewrite Z.mod_small; lia).
    rewrite (proj2 (Z.leb_le 65 c)), (proj2 (Z.leb_le c 122)) by lia. cbn [andb].
    destruct (read_strlen pre t (pad ++ rest ++ replicate m b) _ L eq_refl Ht k) as (n&Es&Hn).
    rewrite <- Hview in Es. mstep Es. pose proof Ht as (Hnm&Hdl&_).
    rewrite (proj2 (Z.ltb_lt n _)), (proj2 (Z.ltb_lt 0 _)), (proj2 (Z.ltb_lt _ L)),
      (proj2 (Z.ltb_lt _ L)) by
      (pose proof (round4_spec (Z.of_nat (length (snd t)))); lia).
    cbn [andb]. rewrite <- Hlen. rewrite (IH _ fuel) by (done || simpl in Hf; lia).
    do 2 f_equal. rewrite !length_app. lia.
Qed.

(** Closing the gap of a token: the rest moves down, the end is zeroed. *)
Lemma close_gap pre x rest k :
  buf = pre ++ (x ++ rest) ++ replicate m b →
  (let cur := Z.of_nat (length pre) in
   let copyLen := Z.of_nat (length rest) in
   r ← of_option (buf_read buf (cur + Z.of_nat (length x)) copyLen);
   buf1 ← of_option (buf_write buf cur r);
   buf2 ← of_option (buf_fill buf1 (cur + copyLen) 0 (L - (cur + copyLen)));
   mret buf2 : M (kstate S) (list Z)) k
  = Done (pre ++ rest ++ replicate (length x + m) 0, k).
Proof.
  intros Hbuf.
  assert (E1 : buf_read buf (Z.of_nat (length pre) + Z.of_nat (length x)) (Z.of_nat (length rest))
               = Some rest).
  { rewrite Hbuf, <- app_assoc, app_assoc. apply buf_read_mid; [|done]. rewrite length_app. lia. }
  cbn zeta. rewrite E1. cbn [of_option]. rewrite bind_ret.
  set (y := take (length rest) (x ++ rest)). set (z := drop (length rest) (x ++ rest)).
  assert (Hyz : x ++ rest = y ++ z) by (symmetry; apply take_drop).
  assert (Hy : length y = length rest) by (unfold y; rewrite length_take, length_app; lia).
  assert (Hz : length z = length x) by (unfold z; rewrite length_drop, length_app; lia).
  assert (E2 : buf_write buf (Z.of_nat (length pre)) rest
               = Some (pre ++ rest ++ z ++ replicate m b)).
  { rewrite Hbuf, Hyz, <- app_assoc. by apply buf_write_mid. }
  rewrite E2. cbn [of_option]. rewrite bind_ret.
  assert (E3 : buf_fill (pre ++ rest ++ z ++ replicate m b)
                 (Z.of_nat (length pre) + Z.of_nat (length rest)) 0
                 (L - (Z.of_nat (length pre) + Z.of_nat (length rest)))
               = Some (pre ++ rest ++ replicate (length x + m) 0)).
  { assert (Hn : Z.to_nat (L - (Z.of_nat (length pre) + Z.of_nat (length rest)))
                 = (length x + m)%nat).
    { rewrite <- HL, Hbuf, !length_app, length_replicate. lia. }
    unfold buf_fill. rewrite decide_True by lia. rewrite Hn.
    replace (pre ++ rest ++ z ++ replicate m b)
      with ((pre ++ rest) ++ (z ++ replicate m b) ++ []) by (by rewrite app_nil_r, <- !app_assoc).
    replace (pre ++ rest ++ replicate (length x + m) 0)
      with ((pre ++ rest) ++ replicate (length x + m) 0 ++ [])
      by (by rewrite app_nil_r, <- !app_assoc).
    apply buf_write_mid; [rewrite length_app; lia|].
    rewrite length_app, !length_replicate. lia. }
  by rewrite E3.
Qed.

Lemma pad_put_cons id data t ts : fst t ≠ id → pad_put id data (t :: ts) = t :: pad_put id data ts.
Proof.
  intros Hne. unfold pad_put. cbn [pad_lookup]. rewrite decide_False by done.
  destruct (pad_lookup id ts) as [old|]; [|done]. case_decide; cbn [pad_subst pad_remove];
    by rewrite decide_False by done.
Qed.

(** The result of [sp_replace] with data: either the token was overwritten in
    place, or it was removed and is to be put at the end. *)
Definition replaced (id data : list Z) (ts : list token) (pre : list Z)
  (r : bool * list Z * Z) : Prop :=
  ∃ e body' m' b', r = (e, pre ++ body' ++ replicate m' b',
                        Z.of_nat (length pre) + Z.of_nat (length body')) ∧
    Z.of_nat (length (pre ++ body' ++ replicate m' b')) = L ∧
    (m ≤ m')%nat ∧ (b' = 0 ∨ b' = 255) ∧
    if e : bool then
      enc (pad_remove id ts) body' ∧ pad_put id data ts = pad_remove id ts ++ [(id, data)]
    else enc (pad_put id data ts) body'.

Lemma sp_replace_spec id data ts body : name_ok id → enc ts body → ∀ pre fuel k,
  Forall (token_ok L) ts → buf = pre ++ body ++ replicate m b → (length ts < fuel)%nat →
  ∃ r, sp_replace fuel buf L id (Some data) (Z.of_nat (length data)) (Z.of_nat (length pre))
         (Z.of_nat (length pre) + Z.of_nat (length body)) k = Done (r, k) ∧
    replaced id data ts pre r.
Proof.
  intros Hid. induction 1 as [|t ts pad rest Hp Henc IH]; intros pre fuel k Hts Hbuf Hf;
    (destruct fuel as [|fuel]; [lia|]); cbn [sp_replace].
  { rewrite (proj2 (Z.ltb_ge _ _)) by (simpl; lia). eexists. split; [reflexivity|].
    exists true, [], m, b. cbn [app length] in Hbuf |- *. rewrite <- Hbuf.
    repeat split; try done. constructor. }
  apply Forall_cons in Hts as [Ht Hts].
  destruct (next_token pre t pad rest Ht Hp Hbuf) as (Hbuf'&Hlen&Hlt).
  assert (Hview : buf = pre ++ token_head t ++ snd t ++ (pad ++ rest ++ replicate m b))
    by (rewrite Hbuf, <- !app_assoc; done).
  rewrite (proj2 (Z.ltb_lt _ _)) by (rewrite !length_app, token_head_length; lia).
  assert (El := read_len pre t (pad ++ rest ++ replicate m b) _ L eq_refl Ht HLr k).
  rewrite <- Hview in El. mstep El.
  assert (En := read_name pre t (pad ++ rest ++ replicate m b) _ eq_refl k).
  rewrite <- Hview in En. mstep En. pose proof Ht as (Hnm&Hdl&_).
  rewrite strncmp_token by done.
  destruct (decide (fst t = id)) as [Heq|Hne]; cycle 1.
  { rewrite bool_decide_eq_false_2 by done.
    replace (Z.of_nat (length pre) +
             Z.of_nat (length (token_head t ++ snd t ++ pad ++ rest)))
      with (Z.of_nat (length (pre ++ token_head t ++ snd t ++ pad)) + Z.of_nat (length rest))
      by (rewrite !length_app; lia).
    rewrite <- Hlen.
    destruct (IH _ fuel k Hts Hbuf') as (r&E&e&body'&m'&b'&->&HL'&Hm'&Hb'&Hr); [simpl in Hf; lia|].
    eexists. split; [exact E|].
    exists e, (token_head t ++ snd t ++ pad ++ body'), m', b'. split.
    { f_equal; [f_equal; by rewrite <- !app_assoc|]. rewrite !length_app. lia. }
    split; [rewrite <- HL'; f_equal; f_equal; by rewrite <- !app_assoc|].
    split; [done|]. split; [done|]. rewrite pad_put_cons by done. cbn [pad_remove].
    rewrite decide_False by done. destruct e; [|by constructor].
    destruct Hr as [He ->]. split; [by constructor|done]. }
  rewrite bool_decide_eq_true_2 by done. unfold replaced, pad_put. cbn [pad_lookup pad_remove pad_subst].
  rewrite !(decide_True _ _ Heq).
  destruct (Z.eqb_spec (Z.of_nat (length (snd t))) (Z.of_nat (length data))) as [Hsame|Hdiff].
  - rewrite (buf_read_Some data 0) by lia. cbn [of_option].
    rewrite bind_ret, Nat2Z.id, drop_0, firstn_all.
    assert (Ew : buf_write buf (Z.of_nat (length pre) + sizeof_SP_TOKEN) data =
      Some ((pre ++ token_head t) ++ data ++ pad ++ rest ++ replicate m b)).
    { rewrite Hview, app_assoc. apply buf_write_mid; [|lia].
      rewrite length_app, token_head_length. unfold sizeof_SP_TOKEN, TOKEN_NAME_LEN. lia. }
    rewrite Ew. eexists. split; [reflexivity|].
    exists false, (token_head t ++ data ++ pad ++ rest), m, b. split.
    { f_equal; [f_equal; by rewrite <- !app_assoc|]. rewrite !length_app. lia. }
    split; [rewrite <- HL, Hview, !length_app; lia|]. split; [done|]. split; [done|].
    rewrite decide_True by lia.
    replace (token_head t) with (token_head (id, data))
      by (unfold token_head; simpl; by rewrite Heq, Hsame).
    apply (enc_cons (id, data)); [cbn [snd]; by rewrite <- Hsame|done].
  - set (x := token_head t ++ snd t ++ pad).
    assert (Hx : Z.of_nat (length x) = sizeof_SP_TOKEN + round4 (Z.of_nat (length (snd t)))).
    { unfold x. rewrite !length_app, token_head_length.
      unfold sizeof_SP_TOKEN, TOKEN_NAME_LEN. lia. }
    assert (Hgap := close_gap pre x rest k).
    replace (Z.of_nat (length pre) + Z.of_nat (length (token_head t ++ snd t ++ pad ++ rest))
             - (Z.of_nat (length pre) + sizeof_SP_TOKEN + round4 (Z.of_nat (length (snd t)))))
      with (Z.of_nat (length rest)).
    2: { rewrite !length_app, token_head_length. unfold sizeof_SP_TOKEN, TOKEN_NAME_LEN. lia. }
    replace (Z.of_nat (length pre) + sizeof_SP_TOKEN + round4 (Z.of_nat (length (snd t))))
      with (Z.of_nat (length pre) + Z.of_nat (length x)) by lia.
    exists (true, pre ++ rest ++ replicate (length x + m) 0,
            Z.of_nat (length pre) + Z.of_nat (length rest)).
    split.
    + specialize (Hgap ltac:(unfold x; rewrite Hbuf, <- !app_assoc; done)). cbn zeta in Hgap.
      revert Hgap. destruct (buf_read buf _ _); [|done]. cbn [of_option]. rewrite !bind_ret.
      destruct (buf_write buf _ _); [|done]. cbn [of_option]. rewrite !bind_ret.
      destruct (buf_fill _ _ _ _); [|done]. cbn [of_option]. rewrite !bind_ret.
      intros [= ->]. unfold mret, M_ret. do 3 f_equal.
      rewrite !length_app, token_head_length. unfold sizeof_SP_TOKEN, TOKEN_NAME_LEN. lia.
    + exists true, rest, (length x + m)%nat, 0. split; [done|].
      split; [rewrite <- HL, Hbuf; unfold x; rewrite !length_app, !length_replicate; lia|].
      split; [lia|]. split; [by left|]. split; [done|]. by rewrite decide_False by lia.
Qed.
End loops.

(** ** [sp_update] *)

(** The length in use, header included. *)
Definition pad_used (ts : list token) : Z :=
  32 + foldr (λ t acc, 20 + round4 (Z.of_nat (length (snd t))) + acc) 0 ts.

Lemma enc_used ts body : enc ts body → Z.of_nat (length body) = pad_used ts - 32.
Proof.
  unfold pad_used. induction 1 as [|t ts pad rest Hp _ IH]; simpl; [lia|].
  rewrite !length_app, token_head_length. lia.
Qed.

Lemma enc_count ts body : enc ts body → (length ts ≤ length body)%nat.
Proof.
  induction 1 as [|t ts pad rest Hp _ IH]; simpl; [lia|].
  rewrite !length_app, token_head_length. lia.
Qed.

Lemma pad_remove_ok L id ts : Forall (token_ok L) ts → Forall (token_ok L) (pad_remove id ts).
Proof.
  induction 1 as [|t ts Ht Hts IH]; simpl; [done|]. case_decide; [done|by constructor].
Qed.

Lemma pad_subst_ok L id data ts : token_ok L (id, data) → Forall (token_ok L) ts →
  Forall (token_ok L) (pad_subst id data ts).
Proof.
  intros Hd. induction 1 as [|t ts Ht Hts IH]; simpl; [done|]. case_decide; by constructor.
Qed.

Lemma pad_put_ok L id data ts : token_ok L (id, data) → Forall (token_ok L) ts →
  Forall (token_ok L) (pad_put id data ts).
Proof.
  intros Hd Hts. unfold pad_put. destruct (pad_lookup id ts); [case_decide|].
  - by apply pad_subst_ok.
  - apply Forall_app. split; [by apply pad_remove_ok|by apply Forall_singleton].
  - apply Forall_app. split; [done|by apply Forall_singleton].
Qed.

(** Appending a token in the tail. *)
Lemma append_token pre id data m b k :
  (length (token_head (id, data)) + length data ≤ m)%nat →
  (b1 ← of_option (buf_write (pre ++ replicate m b) (Z.of_nat (length pre))
                     (SPToken id (Z.of_nat (length data))));
   src ← of_option (buf_read data 0 (Z.of_nat (length data)));
   of_option (buf_write b1 (Z.of_nat (length pre) + sizeof_SP_TOKEN) src) : M (kstate S) (list Z)) k
  = Done (pre ++ token_head (id, data) ++ data ++ replicate (m - 20 - length data) b, k).
Proof.
  rewrite token_head_length. intros Hm.
  replace (replicate m b) with (replicate 20 b ++ replicate (length data) b ++
    replicate (m - 20 - length data) b) by (rewrite <- !replicate_add; f_equal; lia).
  change (SPToken id (Z.of_nat (length data))) with (token_head (id, data)).
  rewrite buf_write_mid by (done || by rewrite token_head_length). cbn [of_option].
  rewrite bind_ret, (buf_read_Some data 0) by lia. cbn [of_option].
  rewrite bind_ret, Nat2Z.id, drop_0, firstn_all, app_assoc.
  rewrite buf_write_mid; [by rewrite <- app_assoc| |by rewrite length_replicate].
  rewrite length_app, token_head_length. unfold sizeof_SP_TOKEN, TOKEN_NAME_LEN. lia.
Qed.

Lemma sp_update_put L buf ts id data k :
  pad_rep L buf ts → token_ok L (id, data) →
  pad_used ts + 40 + round4 (Z.of_nat (length data)) ≤ L →
  ∃ buf', sp_update buf L id (Some data) (Z.of_nat (length data)) k = Done (Some buf', k) ∧
    pad_rep L buf' (pad_put id data ts).
Proof.
  intros [HL HLr Hts (hd&body&m&b&Hbuf&Hhd&Hmag&Henc&Hm&Hb)] Hd Hroom.
  pose proof Hd as (Hid&Hdl&Hby). cbn [fst snd] in Hid, Hdl, Hby.
  pose proof (enc_used ts body Henc) as Hused. pose proof (enc_count ts body Henc) as Hcnt.
  pose proof (round4_spec (Z.of_nat (length data))) as Hr4.
  assert (Hlb : (32 + length body + m = length buf)%nat)
    by (rewrite Hbuf, !length_app, length_replicate; lia).
  assert (Hfuel : (length ts < Datatypes.S (Z.to_nat L))%nat) by lia.
  unfold sp_update. change sizeof_SP_HEADER with 32.
  replace 32 with (Z.of_nat (length hd)) by lia.
  mstep (sp_used_spec L buf m b HL HLr Hm Hb ts body Henc hd _ k Hts Hbuf Hfuel).
  destruct (Z.gtb_spec (u32 (Z.of_nat (length hd) + Z.of_nat (length body)
    + Z.of_nat (length data) + sizeof_SP_TOKEN)) (u32 L)) as [Hgt|_].
  { unfold sizeof_SP_TOKEN, TOKEN_NAME_LEN in Hgt. rewrite !u32_small in Hgt by lia. lia. }
  destruct (sp_replace_spec L buf m b HL HLr Hm Hb id data ts body Hid Henc hd _ k Hts Hbuf Hfuel)
    as (r&E&e&body'&m'&b'&->&HL'&Hm'&Hb'&Hr).
  mstep E. destruct e; cycle 1.
  { eexists. split; [reflexivity|]. constructor; [done|done|by apply pad_put_ok|].
    exists hd, body', m', b'. repeat split; try done. lia. }
  destruct Hr as [Henc' Hput].
  replace (Z.of_nat (length hd) + Z.of_nat (length body')) with (Z.of_nat (length (hd ++ body')))
    by (rewrite length_app; lia).
  rewrite (app_assoc hd body').
  mstep (append_token (hd ++ body') id data m' b' k ltac:(rewrite token_head_length; lia)).
  rewrite <- app_assoc.
  rewrite buf_write_head by (by rewrite Hhd).
  cbn [of_option app]. rewrite bind_ret. eexists. split; [reflexivity|].
  assert (Hlen : length (SPHead ++ body' ++ token_head (id, data) ++ data ++
                   replicate (m' - 20 - length data) b') = length buf).
  { rewrite !length_app, !length_replicate, token_head_length.
    rewrite !length_app, length_replicate in HL'. simpl. lia. }
  constructor; [lia|done|by apply pad_put_ok|].
  set (p := Z.to_nat (round4 (Z.of_nat (length data)) - Z.of_nat (length data))).
  exists SPHead, (body' ++ token_head (id, data) ++ data ++ replicate p b'),
    (m' - 20 - length data - p)%nat, b'.
  split; [|split; [done|split; [done|split; [|split; [|done]]]]].
  - rewrite <- !app_assoc. do 4 f_equal. rewrite <- replicate_add. f_equal. lia.
  - rewrite Hput. apply enc_app; [done|].
    rewrite <- (app_nil_r (replicate p b')).
    apply (enc_cons (id, data)); [rewrite length_replicate; simpl; lia|constructor].
  - lia.
Qed.
End table.
