(* ===== verification/PadClaims.v ===== *)
(** * The scratch-pad functions: claims

    [kerSysScratchPadGet], [kerSysScratchPadSet] and
    [kerSysScratchPadClearAll] on the flash, as operations on a table of
    tokens. *)

From stdpp Require Import base numbers list strings.
From Stdlib Require Import ZArith Lia.
From S2P Require Import Prelude Crc32 BoardTables BoardParms FlashApi KerFlash FlashAreas.
From S2P Require Import ScratchPad PadProofs FlashClaims RamFlash.

(** ** Bytes *)

Section bytes.
Implicit Types buf src : list Z.

Lemma bytes_write buf off src buf' :
  buf_write buf off src = Some buf' → Forall is_byte buf → Forall is_byte src →
  Forall is_byte buf'.
Proof.
  intros (_&_&->)%buf_write_inv Hb Hs. apply Forall_app. split; [by apply Forall_take|].
  apply Forall_app. split; [done|by apply Forall_drop].
Qed.

Lemma bytes_read buf off n bs :
  buf_read buf off n = Some bs → Forall is_byte buf → Forall is_byte bs.
Proof. unfold buf_read. case_decide; [|done]. intros [= <-] Hb. by apply Forall_take, Forall_drop. Qed.

Lemma bytes_fill buf off n buf' :
  buf_fill buf off 0 n = Some buf' → Forall is_byte buf → Forall is_byte buf'.
Proof.
  unfold buf_fill. case_decide; [|done]. intros Hw Hb. eapply bytes_write; [done..|].
  by apply Forall_replicate.
Qed.

Lemma be32_bytes_bytes z : Forall is_byte (be32_bytes z).
Proof.
  unfold be32_bytes, is_byte. pose proof (u32_range z).
  repeat constructor; try apply Z.mod_pos_bound; try lia.
  - apply Z.div_pos; lia.
  - apply Z.div_lt_upper_bound; lia.
Qed.

Lemma SPToken_bytes id n : Forall is_byte id → Forall is_byte (SPToken id n).
Proof.
  intros H. unfold SPToken, token_name. apply Forall_app. split; [|apply be32_bytes_bytes].
  apply Forall_app. split; [by apply Forall_take|by apply Forall_replicate].
Qed.
End bytes.

Section update_bytes.
Context {S : Type}.
Implicit Types k : kstate S.

(** Take the program of a hypothesis apart, keeping the bounds-checked
    accesses. *)
Ltac walk H :=
  repeat match type of H with
  | (of_option ?o ≫= _) _ = Done _ =>
      let E := fresh "E" in destruct o eqn:E; [cbn [of_option] in H; rewrite bind_ret in H|done]
  | (_ ≫= _) _ = Done _ => apply bind_Done_inv in H as (?&?&_&H)
  end.

Lemma sp_replace_bytes L id data n fuel : ∀ buf cur used k e buf' used' k',
  sp_replace fuel buf L id (Some data) n cur used k = Done ((e, buf', used'), k') →
  Forall is_byte buf → Forall is_byte data → Forall is_byte buf'.
Proof.
  induction fuel as [|fuel IH]; intros buf cur used k e buf' used' k' H Hb Hd; [done|].
  cbn [sp_replace] in H. destruct (cur <? used); [|by injection H as _ <-].
  apply bind_Done_inv in H as (len&k1&_&H). apply bind_Done_inv in H as (nm&k2&_&H).
  destruct (strncmp_eq 16 nm (id ++ [0])); [|by eapply IH].
  destruct (len =? n); walk H; injection H as _ <- _ _.
  - eapply bytes_write; [done|done|by eapply bytes_read].
  - eapply bytes_fill; [done|]. eapply bytes_write; [done|done|by eapply bytes_read].
Qed.

Lemma sp_update_bytes buf L id data n k buf' k' :
  sp_update buf L id (Some data) n k = Done (Some buf', k') →
  Forall is_byte buf → Forall is_byte data → Forall is_byte id → Forall is_byte buf'.
Proof.
  intros H Hb Hd Hi. unfold sp_update in H. apply bind_Done_inv in H as (u&k1&_&H).
  destruct (_ >? _); [done|]. apply bind_Done_inv in H as ([[e b1] u1]&k2&E1&H).
  pose proof (sp_replace_bytes _ _ _ _ _ _ _ _ _ _ _ _ _ E1 Hb Hd) as Hb1.
  destruct e; [|by injection H as <-].
  apply bind_Done_inv in H as (b2&k3&E2&H).
  assert (Hb2 : Forall is_byte b2).
  { walk E2. eapply bytes_write; [|eapply bytes_write; [done|done|by apply SPToken_bytes]
      |by eapply bytes_read].
    destruct (buf_write _ _ _) eqn:E4 in E2; [|done]. by injection E2 as <- _. }
  walk H. injection H as <- _. eapply bytes_write; [done|done|].
  unfold SPHead. by repeat constructor.
Qed.
End update_bytes.

(** ** Tables *)

Lemma pad_lookup_app id ts1 ts2 :
  pad_lookup id (ts1 ++ ts2) =
    match pad_lookup id ts1 with Some x => Some x | None => pad_lookup id ts2 end.
Proof. induction ts1 as [|t ts IH]; simpl; [done|]. by case_decide. Qed.

Lemma pad_lookup_None id ts : id ∉ map fst ts → pad_lookup id ts = None.
Proof.
  induction ts as [|t ts IH]; simpl; [done|]. intros H. rewrite not_elem_of_cons in H.
  rewrite decide_False by (intros E; by destruct H). apply IH, H.
Qed.

Lemma pad_remove_names id id' ts : id' ∈ map fst (pad_remove id ts) → id' ∈ map fst ts.
Proof.
  induction ts as [|t ts IH]; simpl; [done|]. case_decide; [by right|].
  simpl. rewrite !elem_of_cons. naive_solver.
Qed.

Lemma pad_remove_gone id ts : NoDup (map fst ts) → id ∉ map fst (pad_remove id ts).
Proof.
  induction ts as [|t ts IH]; simpl; [by intros _ ?%elem_of_nil|].
  intros [Hn Hd]%NoDup_cons. case_decide as E; [by rewrite <- E|].
  simpl. rewrite elem_of_cons. intros [->|Hin]; [done|]. by apply IH.
Qed.

Lemma pad_subst_names id data ts : map fst (pad_subst id data ts) = map fst ts.
Proof.
  induction ts as [|t ts IH]; simpl; [done|]. case_decide as E; simpl; [by rewrite E|by rewrite IH].
Qed.

Lemma pad_lookup_remove id id' ts : id' ≠ id → pad_lookup id' (pad_remove id ts) = pad_lookup id' ts.
Proof.
  intros Hne. induction ts as [|t ts IH]; simpl; [done|]. case_decide as E.
  - rewrite decide_False by congruence. done.
  - simpl. by rewrite IH.
Qed.

Lemma pad_lookup_subst id id' data ts : pad_lookup id ts ≠ None →
  pad_lookup id' (pad_subst id data ts) = if decide (id' = id) then Some data else pad_lookup id' ts.
Proof.
  induction ts as [|t ts IH]; simpl; [done|]. intros H.
  destruct (decide (fst t = id)) as [E|E]; simpl.
  - destruct (decide (id = id')) as [->|]; [by rewrite decide_True|].
    rewrite (decide_False (P := id' = id)) by congruence. by rewrite decide_False by congruence.
  - rewrite IH by done. destruct (decide (fst t = id')) as [E'|]; [|done].
    rewrite decide_False by congruence. done.
Qed.

(** A token set is found, and no other token changes. *)
Lemma pad_lookup_put id id' data ts : NoDup (map fst ts) →
  pad_lookup id' (pad_put id data ts) = if decide (id' = id) then Some data else pad_lookup id' ts.
Proof.
  intros Hd. unfold pad_put. destruct (pad_lookup id ts) as [old|] eqn:E; [case_decide|].
  - apply pad_lookup_subst. congruence.
  - rewrite pad_lookup_app. simpl. destruct (decide (id' = id)) as [->|Hne].
    + rewrite pad_lookup_None by (by apply pad_remove_gone). by rewrite decide_True.
    + rewrite pad_lookup_remove by done. rewrite decide_False by congruence.
      by destruct (pad_lookup id' ts).
  - rewrite pad_lookup_app. simpl. destruct (decide (id' = id)) as [->|Hne].
    + by rewrite E, decide_True.
    + rewrite decide_False by congruence. by destruct (pad_lookup id' ts).
Qed.

Lemma pad_lookup_names id ts : pad_lookup id ts = None → id ∉ map fst ts.
Proof.
  induction ts as [|t ts IH]; simpl; [by intros _ ?%elem_of_nil|].
  case_decide; [done|]. intros H'. rewrite elem_of_cons. intros [->|Hin]; [done|]. by apply IH.
Qed.

Lemma NoDup_snoc {A} (x : A) l : NoDup l → x ∉ l → NoDup (l ++ [x]).
Proof.
  intros Hd Hx. apply NoDup_app. split; [done|]. split; [|apply NoDup_singleton].
  intros y Hy ->%list_elem_of_singleton. done.
Qed.

Lemma pad_remove_NoDup id ts : NoDup (map fst ts) → NoDup (map fst (pad_remove id ts)).
Proof.
  induction ts as [|t ts IH]; simpl; [done|]. intros [Hn Hd]%NoDup_cons.
  case_decide; [done|]. simpl. apply NoDup_cons. split; [|by apply IH].
  intros Hin. by apply pad_remove_names in Hin.
Qed.

Lemma pad_put_NoDup id data ts : NoDup (map fst ts) → NoDup (map fst (pad_put id data ts)).
Proof.
  intros Hd. unfold pad_put. destruct (pad_lookup id ts) eqn:E; [case_decide|].
  - by rewrite pad_subst_names.
  - rewrite map_app. apply NoDup_snoc; [by apply pad_remove_NoDup|by apply pad_remove_gone].
  - rewrite map_app. apply NoDup_snoc; [done|by apply pad_lookup_names].
Qed.

(** ** The functions *)

Section claims.
Context {S : Type} (FB : Z) (d : flash_device_info_t S) {C : FlashContract FB d}.
Context (kmalloc : nat → bool).
Implicit Types k : kstate S.
Abbreviation base := (sec_base fc_size).
Abbreviation sp k := (flash_scratch_pad (fInfo k)).

(** The scratch-pad area as [kerSysFlashInit] places it. *)
Record pad_area (k : kstate S) : Prop := {
  pa_ok : kok FB d k;
  pa_area : area_ok FB d (sp k);
  pa_length : area_length (sp k) = SP_MAX_LEN;
  pa_right : blk_offset (sp k) + SP_MAX_LEN =
               base (start_blk (sp k) + number_blk (sp k)) - base (start_blk (sp k));
  pa_memory : ∀ n, ∃ j, (j < 1000)%nat ∧ kmalloc (n + j)%nat = true
}.

(** The bytes of the scratch pad, and the table they hold. *)
Definition pad_bytes (k : kstate S) : list Z :=
  bytes_at (fc_mem (k_flash k)) (area_addr FB d (sp k)) (Z.to_nat SP_MAX_LEN).

Definition pad_holds (k : kstate S) (ts : list token) : Prop :=
  pad_rep SP_MAX_LEN (pad_bytes k) ts ∧ NoDup (map fst ts).

Lemma area_memory k : pad_area k → memory_soon kmalloc k.
Proof. intros H. destruct (pa_memory k H (k_calls k)) as (j&?&?). by exists j. Qed.

Lemma area_step k c l k' : pad_area k → kstep FB d k c l k' → pad_area k'.
Proof. intros [] []. constructor; congruence || (rewrite ?st_fInfo0; done). Qed.

(** [pBuf] is the pad inside the copied blocks. *)
Lemma pad_view k : pad_area k →
  drop (Z.to_nat (blk_offset (sp k)))
    (blks_at FB d (fc_mem (k_flash k)) (start_blk (sp k)) (start_blk (sp k) + number_blk (sp k)))
  = pad_bytes k.
Proof.
  intros [? [] ? Hr ?]. unfold blks_at, pad_bytes, area_addr. rewrite <- Hr.
  unfold SP_MAX_LEN in *. rewrite Z2Nat.inj_add by lia. rewrite bytes_at_app, drop_app_length'
    by (by rewrite bytes_at_length). f_equal. lia.
Qed.

Lemma pad_bytes_length k : Z.of_nat (length (pad_bytes k)) = SP_MAX_LEN.
Proof. unfold pad_bytes. rewrite bytes_at_length. apply Z2Nat.id. unfold SP_MAX_LEN. lia. Qed.

Lemma pad_shared k : pad_area k →
  ∃ k1, shared kmalloc (sp k) k =
      Done (Some (blks_at FB d (fc_mem (k_flash k)) (start_blk (sp k))
                    (start_blk (sp k) + number_blk (sp k))), k1) ∧
    kstep FB d k (fc_mem (k_flash k)) (k_live k + 1) k1.
Proof.
  intros H. pose proof (pa_area k H) as [].
  apply k_getShared; [apply (pa_ok k H)|lia|done|by apply area_memory].
Qed.

(** Storing new contents of the pad back. *)
Lemma pad_unshared k c k1 buf : pad_area k → kstep FB d k c (k_live k + 1) k1 →
  (∀ x, c x = fc_mem (k_flash k) x) →
  Z.of_nat (length buf) = SP_MAX_LEN → Forall is_byte buf →
  ∃ k2, (sts ← unshared (sp k)
           (take (Z.to_nat (blk_offset (sp k)))
              (blks_at FB d (fc_mem (k_flash k)) (start_blk (sp k))
                 (start_blk (sp k) + number_blk (sp k))) ++ buf);
         retriedKfree;; mret sts) k1 = Done (0, k2) ∧
    kstep FB d k (stored (fc_mem (k_flash k)) (area_addr FB d (sp k)) buf) (k_live k) k2.
Proof.
  intros H S1 Hc Hl Hb. pose proof (pa_area k H) as []. pose proof (pa_right k H) as Hr.
  set (share := blks_at FB d (fc_mem (k_flash k)) (start_blk (sp k))
                  (start_blk (sp k) + number_blk (sp k))).
  assert (Hs : Z.of_nat (length share) = blk_offset (sp k) + SP_MAX_LEN).
  { unfold share. rewrite blks_at_length; lia. }
  assert (Hw : buf_write share (blk_offset (sp k)) buf =
    Some (take (Z.to_nat (blk_offset (sp k))) share ++ buf)).
  { rewrite buf_write_Some by lia. rewrite drop_ge by lia. by rewrite app_nil_r. }
  destruct (k_unshared FB d k1 (sp k) (take (Z.to_nat (blk_offset (sp k))) share ++ buf) buf
              (blk_offset (sp k)) (fc_mem (k_flash k)))
    as (k2&E2&S2); [apply S1|apply (pa_area k H)| |apply S1|exact Hw|done|].
  { intros x. rewrite (st_mem _ _ _ _ _ _ S1). apply Hc. }
  mstep E2. rewrite (st_live _ _ _ _ _ _ S1) in S2.
  destruct (kfree_step FB d _ _ _ _ (kstep_trans _ _ _ _ _ _ _ _ _ S1 S2)) as (k3&E3&S3).
  mstep E3. by exists k3.
Qed.

Lemma magic_read k : pad_area k →
  ∃ magic, buf_read (pad_bytes k) 0 MAGIC_NUM_LEN = Some magic ∧ magic = take 8 (pad_bytes k).
Proof.
  intros H. eexists. split; [|reflexivity].
  rewrite buf_read_Some by (rewrite ?pad_bytes_length; done). done.
Qed.

Lemma holds_magic k ts : pad_holds k ts → take 8 (pad_bytes k) = MAGIC_NUMBER.
Proof.
  intros [[_ _ _ (hd&body&m&b&->&Hhd&Hmag&_)] _].
  rewrite <- Hmag. by rewrite take_app_le by lia.
Qed.

Lemma holds_find k ts id k1 : pad_holds k ts → name_ok id →
  sp_find (Datatypes.S (Z.to_nat SP_MAX_LEN)) (pad_bytes k) SP_MAX_LEN id sizeof_SP_HEADER
    sizeof_SP_HEADER k1 = Done (pad_lookup id ts, k1).
Proof.
  intros [[HL HLr Hts (hd&body&m&b&Hbuf&Hhd&Hmag&Henc&Hm&Hb)] _] Hid.
  pose proof (enc_count ts body Henc) as Hcnt.
  assert (length body ≤ length (pad_bytes k))%nat by (rewrite Hbuf, !length_app; lia).
  change sizeof_SP_HEADER with 32. replace 32 with (Z.of_nat (length hd)) by lia.
  apply (sp_find_spec SP_MAX_LEN (pad_bytes k) m b HL HLr Hm Hb id ts body Hid Henc); [done|done|lia|lia].
Qed.

(** The length checks of Get and Set pass. *)
Lemma within_limit {A} bufLen (x y z : M (kstate S) A) : 0 ≤ bufLen < SP_MAX_LEN - 52 →
  (if SP_MAX_LEN =? 0 then x
   else if u32 (SP_MAX_LEN - sizeof_SP_HEADER - sizeof_SP_TOKEN) <=? u32 bufLen then y else z) = z.
Proof.
  unfold SP_MAX_LEN. intros H.
  change (u32 (8 * 1024 - sizeof_SP_HEADER - sizeof_SP_TOKEN)) with 8140.
  rewrite u32_small by lia. by rewrite (proj2 (Z.leb_gt 8140 bufLen)) by lia.
Qed.

(** Reading a token: its data is stored at the start of the caller's buffer; a
    token longer than the buffer is copied past its end. *)
Lemma sp_get_spec k ts id tokBuf bufLen :
  pad_area k → pad_holds k ts → name_ok id → 0 ≤ bufLen < SP_MAX_LEN - 52 →
  match pad_lookup id ts with
  | Some data =>
      if decide (length data ≤ length tokBuf)%nat then
        ∃ k', kerSysScratchPadGet kmalloc id tokBuf bufLen k =
            Done ((Z.of_nat (length data), data ++ drop (length data) tokBuf), k') ∧
          kstep FB d k (fc_mem (k_flash k)) (k_live k) k'
      else kerSysScratchPadGet kmalloc id tokBuf bufLen k = Fault
  | None =>
      ∃ k', kerSysScratchPadGet kmalloc id tokBuf bufLen k = Done ((-1, tokBuf), k') ∧
        kstep FB d k (fc_mem (k_flash k)) (k_live k) k'
  end.
Proof.
  intros H Hh Hid Hbl. unfold kerSysScratchPadGet. rewrite bind_gets, (pa_length k H).
  rewrite within_limit by done.
  destruct (pad_shared k H) as (k1&E1&S1). mstep E1. cbn iota. rewrite (pad_view k H).
  destruct (magic_read k H) as (magic&Em&Emg). rewrite Em. cbn [of_option].
  rewrite bind_ret, Emg, (holds_magic k ts Hh). rewrite bool_decide_eq_true_2 by done. cbn [negb].
  mstep (holds_find k ts id k1 Hh Hid).
  destruct (kfree_step FB d _ _ _ _ S1) as (k2&E2&S2).
  destruct (pad_lookup id ts) as [data|].
  - case_decide as Hfit.
    + rewrite buf_write_Some by lia. cbn [of_option]. rewrite bind_ret. mstep E2.
      exists k2. split; [reflexivity|exact S2].
    + unfold buf_write. rewrite decide_False by lia. done.
  - mstep E2. exists k2. split; [reflexivity|exact S2].
Qed.

Lemma name_bytes id : name_ok id → Forall is_byte id.
Proof. intros []. eapply Forall_impl; [done|]. unfold is_byte. simpl. lia. Qed.

Lemma pad_bytes_bytes k : pad_area k → Forall is_byte (pad_bytes k).
Proof.
  intros H. rewrite <- (pad_view k H). apply Forall_drop. pose proof (pa_area k H) as [].
  apply blks_at_bytes; [apply (pa_ok k H)|lia|done].
Qed.

Lemma stored_pad k buf l k' : pad_area k → Z.of_nat (length buf) = SP_MAX_LEN →
  kstep FB d k (stored (fc_mem (k_flash k)) (area_addr FB d (sp k)) buf) l k' →
  pad_bytes k' = buf.
Proof.
  intros H Hl St. unfold pad_bytes. rewrite (st_fInfo _ _ _ _ _ _ St).
  erewrite bytes_at_ext; [|intros; apply St].
  replace (Z.to_nat SP_MAX_LEN) with (length buf) by lia. apply bytes_at_stored.
Qed.

Lemma same_pad k l k' : kstep FB d k (fc_mem (k_flash k)) l k' → pad_bytes k' = pad_bytes k.
Proof.
  intros St. unfold pad_bytes. rewrite (st_fInfo _ _ _ _ _ _ St).
  apply bytes_at_ext. intros; apply St.
Qed.

(** Writing a token. *)
Lemma sp_set_spec k ts id data :
  pad_area k → pad_holds k ts → token_ok SP_MAX_LEN (id, data) →
  pad_used ts + 40 + round4 (Z.of_nat (length data)) ≤ SP_MAX_LEN →
  ∃ k' buf', kerSysScratchPadSet kmalloc id (Some data) (Z.of_nat (length data)) k = Done (0, k') ∧
    pad_holds k' (pad_put id data ts) ∧ Z.of_nat (length buf') = SP_MAX_LEN ∧
    kstep FB d k (stored (fc_mem (k_flash k)) (area_addr FB d (sp k)) buf') (k_live k) k'.
Proof.
  intros H Hh Htok Hroom. pose proof Hh as [Hrep Hnd]. pose proof Htok as (Hid&Hdl&Hdb).
  cbn [fst snd] in Hid, Hdl, Hdb. unfold kerSysScratchPadSet.
  rewrite bind_gets, (pa_length k H).
  pose proof (round4_spec (Z.of_nat (length data))) as Hr4.
  assert (Hus : 32 ≤ pad_used ts).
  { destruct Hrep as [_ _ _ (hd&body&m&b&_&_&_&Henc&_)]. pose proof (enc_used ts body Henc). lia. }
  rewrite within_limit by (unfold SP_MAX_LEN in *; lia).
  destruct (pad_shared k H) as (k1&E1&S1). mstep E1. cbn iota. rewrite (pad_view k H).
  destruct (magic_read k H) as (magic&Em&Emg). rewrite Em. cbn [of_option].
  rewrite bind_ret, Emg, (holds_magic k ts Hh). rewrite bool_decide_eq_true_2 by done. cbn [negb].
  destruct (sp_update_put SP_MAX_LEN (pad_bytes k) ts id data k1 Hrep Htok Hroom)
    as (buf'&Eu&Hrep'). mstep Eu. cbn iota.
  destruct (pad_unshared k _ k1 buf' H S1) as (k2&E2&S2).
  { done. } { apply Hrep'. }
  { eapply sp_update_bytes; [exact Eu|by apply pad_bytes_bytes|done|by apply name_bytes]. }
  exists k2, buf'. split; [exact E2|]. split; [|split; [apply Hrep'|exact S2]].
  split; [|by apply pad_put_NoDup]. rewrite (stored_pad k buf' (k_live k) k2 H); [done|apply Hrep'|exact S2].
Qed.

(** [C3] The scratch pad implements a table of named tokens.  A Set with room
    for the token and for another header behind it returns 0 and turns the table [ts] into [pad_put id data ts]
    (in place when the length is unchanged, else removed and put at the end),
    changes no byte of the flash outside the scratch-pad area and loses no
    buffer; a Get returns the table's entry and leaves the table as it is. *)
Theorem scratchpad_refines_table k ts id data bufLen tokBuf :
  pad_area k → pad_holds k ts → token_ok SP_MAX_LEN (id, data) →
  pad_used ts + 40 + round4 (Z.of_nat (length data)) ≤ SP_MAX_LEN →
  0 ≤ bufLen < SP_MAX_LEN - 52 →
  (∀ old, pad_lookup id ts = Some old → (length old ≤ length tokBuf)%nat) →
  (∃ k', kerSysScratchPadSet kmalloc id (Some data) (Z.of_nat (length data)) k = Done (0, k') ∧
     pad_area k' ∧ pad_holds k' (pad_put id data ts) ∧ k_live k' = k_live k ∧
     ∀ a, ¬ area_addr FB d (sp k) ≤ a < area_addr FB d (sp k) + SP_MAX_LEN →
       fc_mem (k_flash k') a = fc_mem (k_flash k) a) ∧
  (∃ k', kerSysScratchPadGet kmalloc id tokBuf bufLen k =
       Done (match pad_lookup id ts with
             | Some old => (Z.of_nat (length old), old ++ drop (length old) tokBuf)
             | None => (-1, tokBuf)
             end, k') ∧
     pad_area k' ∧ pad_holds k' ts ∧ k_live k' = k_live k).
Proof.
  intros H Hh Htok Hroom Hbl Hfit. split.
  - destruct (sp_set_spec k ts id data H Hh Htok Hroom) as (k'&buf'&E&Hh'&Hlen&St).
    exists k'. split; [exact E|]. split; [by eapply area_step|]. split; [done|].
    split; [apply St|]. intros a Ha. rewrite (st_mem _ _ _ _ _ _ St). apply stored_out. lia.
  - pose proof (sp_get_spec k ts id tokBuf bufLen H Hh (proj1 Htok) Hbl) as Hg.
    assert (Hsame : ∀ l k', kstep FB d k (fc_mem (k_flash k)) l k' → pad_holds k' ts).
    { intros l k' St. unfold pad_holds. by rewrite (same_pad k l k' St). }
    destruct (pad_lookup id ts) as [old|].
    + rewrite decide_True in Hg by (by apply Hfit). destruct Hg as (k'&E&St).
      exists k'. split; [exact E|]. split; [by eapply area_step|].
      split; [by eapply Hsame|apply St].
    + destruct Hg as (k'&E&St). exists k'. split; [exact E|].
      split; [by eapply area_step|]. split; [by eapply Hsame|apply St].
Qed.

(** Round trip: after a Set of a token with room for it, a Get of the same
    name into a large enough buffer returns the data, and a Get of any other name
    returns what the table held before. *)
Theorem scratchpad_set_get k ts id data :
  pad_area k → pad_holds k ts → token_ok SP_MAX_LEN (id, data) →
  pad_used ts + 40 + round4 (Z.of_nat (length data)) ≤ SP_MAX_LEN →
  ∃ k1, kerSysScratchPadSet kmalloc id (Some data) (Z.of_nat (length data)) k = Done (0, k1) ∧
    ∀ id' tokBuf bufLen, name_ok id' → 0 ≤ bufLen < SP_MAX_LEN - 52 →
      length tokBuf = Z.to_nat SP_MAX_LEN →
      ∃ k2, kerSysScratchPadGet kmalloc id' tokBuf bufLen k1 =
        Done (match (if decide (id' = id) then Some data else pad_lookup id' ts) with
              | Some x => (Z.of_nat (length x), x ++ drop (length x) tokBuf)
              | None => (-1, tokBuf)
              end, k2).
Proof.
  intros H Hh Htok Hroom.
  destruct (sp_set_spec k ts id data H Hh Htok Hroom) as (k1&buf'&E&Hh'&Hlen&St).
  exists k1. split; [exact E|]. intros id' tokBuf bufLen Hid' Hbl Htb.
  pose proof (sp_get_spec k1 _ id' tokBuf bufLen (area_step _ _ _ _ H St) Hh' Hid' Hbl) as Hg.
  assert (Hok : ∀ x, pad_lookup id' (pad_put id data ts) = Some x → (length x ≤ length tokBuf)%nat).
  { intros x Hx. assert (Hall := pr_tokens _ _ _ (proj1 Hh')). clear -Hx Hall Htb.
    induction (pad_put id data ts) as [|t l IH]; simpl in Hx; [done|].
    apply Forall_cons in Hall as [(_&?&_) Hl]. case_decide; [|by apply IH].
    injection Hx as <-. lia. }
  rewrite pad_lookup_put in Hg, Hok by apply Hh.
  destruct (if decide (id' = id) then Some data else pad_lookup id' ts) as [x|].
  - rewrite decide_True in Hg by (by apply Hok). destruct Hg as (k2&E2&_). by exists k2.
  - destruct Hg as (k2&E2&_). by exists k2.
Qed.

(** A Get ignores the length of the caller's buffer: when the stored token
    is longer than the buffer, the copy runs past its end, whatever [bufLen] the
    caller passes. *)
Theorem scratchpad_get_overruns_buffer k ts id data tokBuf bufLen :
  pad_area k → pad_holds k ts → name_ok id → 0 ≤ bufLen < SP_MAX_LEN - 52 →
  pad_lookup id ts = Some data → (length tokBuf < length data)%nat →
  kerSysScratchPadGet kmalloc id tokBuf bufLen k = Fault.
Proof.
  intros H Hh Hid Hbl Hl Hlt.
  pose proof (sp_get_spec k ts id tokBuf bufLen H Hh Hid Hbl) as Hg. rewrite Hl in Hg.
  rewrite decide_False in Hg by lia. exact Hg.
Qed.

Lemma k_clear_all k : pad_area k →
  ∃ k', kerSysScratchPadClearAll kmalloc k = Done (0, k') ∧
    kstep FB d k (stored (fc_mem (k_flash k)) (area_addr FB d (sp k))
                    (replicate (Z.to_nat SP_MAX_LEN) 0)) (k_live k) k'.
Proof.
  intros H. unfold kerSysScratchPadClearAll. rewrite bind_gets.
  destruct (k_area_clear FB d kmalloc k (sp k)) as (k'&E&St);
    [apply (pa_ok k H)|apply (pa_area k H)|by apply area_memory|by rewrite (pa_length k H)|].
  rewrite (pa_length k H) in St. by exists k'.
Qed.

(** A Get on a pad without the magic number returns -1, zeroes the whole
    scratch-pad area (and nothing else), and does not free the buffer it read
    the pad into. *)
Theorem scratchpad_get_uninitialised k id tokBuf bufLen :
  pad_area k → take 8 (pad_bytes k) ≠ MAGIC_NUMBER → 0 ≤ bufLen < SP_MAX_LEN - 52 →
  ∃ k', kerSysScratchPadGet kmalloc id tokBuf bufLen k = Done ((-1, tokBuf), k') ∧
    k_live k' = k_live k + 1 ∧
    ∀ a, fc_mem (k_flash k') a =
      if decide (area_addr FB d (sp k) ≤ a < area_addr FB d (sp k) + SP_MAX_LEN) then 0
      else fc_mem (k_flash k) a.
Proof.
  intros H Hmag Hbl. unfold kerSysScratchPadGet. rewrite bind_gets, (pa_length k H).
  rewrite within_limit by done. destruct (pad_shared k H) as (k1&E1&S1). mstep E1. cbn iota.
  rewrite (pad_view k H). destruct (magic_read k H) as (magic&Em&Emg). rewrite Em.
  cbn [of_option]. rewrite bind_ret, Emg, bool_decide_eq_false_2 by done. cbn [negb].
  destruct (k_clear_all k1 (area_step _ _ _ _ H S1)) as (k2&E2&S2). mstep E2.
  exists k2. split; [reflexivity|]. split; [rewrite (st_live _ _ _ _ _ _ S2); apply S1|].
  intros a. rewrite (st_mem _ _ _ _ _ _ S2), (st_fInfo _ _ _ _ _ _ S1). unfold stored.
  rewrite length_replicate, Z2Nat.id by (unfold SP_MAX_LEN; lia).
  case_decide; [|apply S1]. rewrite nth_lookup, lookup_replicate_2 by lia. done.
Qed.

Lemma sp_update_overflow L buf ts id data n k :
  pad_rep L buf ts → 0 ≤ n < L → L < pad_used ts + n + 20 →
  sp_update buf L id data n k = Done (None, k).
Proof.
  intros [HL HLr Hts (hd&body&m&b&Hbuf&Hhd&Hmag&Henc&Hm&Hb)] Hn Hov.
  pose proof (enc_used ts body Henc) as Hused. pose proof (enc_count ts body Henc) as Hcnt.
  assert (Hlb : (32 + length body + m = length buf)%nat)
    by (rewrite Hbuf, !length_app, length_replicate; lia).
  assert (Hfuel : (length ts < Datatypes.S (Z.to_nat L))%nat) by lia.
  unfold sp_update. change sizeof_SP_HEADER with 32.
  replace 32 with (Z.of_nat (length hd)) by lia.
  mstep (sp_used_spec L buf m b HL HLr Hm Hb ts body Henc hd _ k Hts Hbuf Hfuel).
  unfold sizeof_SP_TOKEN, TOKEN_NAME_LEN. rewrite !u32_small by lia.
  match goal with |- context [?x >? L] => destruct (Z.gtb_spec x L); [done|lia] end.
Qed.

(** A Set that does not fit is refused: it returns -1, leaves the flash
    alone, and does not free the buffer it read the pad into. *)
Theorem scratchpad_set_overflow k ts id tokBuf bufLen :
  pad_area k → pad_holds k ts → 0 ≤ bufLen < SP_MAX_LEN - 52 →
  SP_MAX_LEN < pad_used ts + bufLen + 20 →
  ∃ k', kerSysScratchPadSet kmalloc id tokBuf bufLen k = Done (-1, k') ∧
    k_live k' = k_live k + 1 ∧ ∀ a, fc_mem (k_flash k') a = fc_mem (k_flash k) a.
Proof.
  intros H Hh Hbl Hov. unfold kerSysScratchPadSet. rewrite bind_gets, (pa_length k H).
  rewrite within_limit by done. destruct (pad_shared k H) as (k1&E1&S1). mstep E1. cbn iota.
  rewrite (pad_view k H). destruct (magic_read k H) as (magic&Em&Emg). rewrite Em.
  cbn [of_option]. rewrite bind_ret, Emg, (holds_magic k ts Hh), bool_decide_eq_true_2 by done.
  cbn [negb].
  mstep (sp_update_overflow SP_MAX_LEN (pad_bytes k) ts id tokBuf bufLen k1 (proj1 Hh)
           ltac:(lia) Hov).
  exists k1. split; [reflexivity|]. split; apply S1.
Qed.
End claims.

(** ** A full pad *)

Section full.
Context {S : Type} (L : Z) (buf tail : list Z).
Context (HL : Z.of_nat (length buf) = L) (HLr : L < 2 ^ 31 - 3) (Htail : (length tail < 20)%nat).
Implicit Types k : kstate S.

Lemma sp_used_full ts body : enc ts body → ∀ pre fuel k,
  Forall (token_ok L) ts → buf = pre ++ body ++ tail → (length ts < fuel)%nat →
  sp_used fuel buf L (Z.of_nat (length pre)) k = Fault.
Proof.
  induction 1 as [|t ts pad rest Hp Henc IH]; intros pre fuel k Hts Hbuf Hf;
    (destruct fuel as [|fuel]; [lia|]); cbn [sp_used].
  - unfold rd_len. unfold buf_read. rewrite decide_False; [done|].
    simpl in Hbuf. rewrite Hbuf, length_app. unfold TOKEN_NAME_LEN. lia.
  - apply Forall_cons in Hts as [Ht Hts].
    assert (Hview : buf = pre ++ token_head t ++ snd t ++ (pad ++ rest ++ tail))
      by (rewrite Hbuf, <- !app_assoc; done).
    assert (El := read_len pre t (pad ++ rest ++ tail) _ L eq_refl Ht HLr k).
    rewrite <- Hview in El. mstep El.
    destruct (read_char pre t (pad ++ rest ++ tail) _ L eq_refl Ht k) as (c&Ec&Hcr).
    rewrite <- Hview in Ec. mstep Ec.
    assert (s8 c = c) as -> by (unfold s8; rewrite Z.mod_small; lia).
    rewrite (proj2 (Z.leb_le 65 c)), (proj2 (Z.leb_le c 122)) by lia. cbn [andb].
    destruct (read_strlen pre t (pad ++ rest ++ tail) _ L eq_refl Ht k) as (n&Es&Hn).
    rewrite <- Hview in Es. mstep Es. pose proof Ht as (Hnm&Hdl&_).
    assert (Hpre : Z.of_nat (length pre) < L).
    { rewrite <- HL, Hview, !length_app, token_head_length. lia. }
    rewrite (proj2 (Z.ltb_lt n _)), (proj2 (Z.ltb_lt 0 _)), (proj2 (Z.ltb_lt _ L)),
      (proj2 (Z.ltb_lt _ L)) by lia. cbn [andb].
    replace (Z.of_nat (length pre) + sizeof_SP_TOKEN + round4 (Z.of_nat (length (snd t))))
      with (Z.of_nat (length (pre ++ token_head t ++ snd t ++ pad))).
    2: { rewrite !length_app, token_head_length. unfold sizeof_SP_TOKEN, TOKEN_NAME_LEN. lia. }
    apply IH; [done|rewrite Hbuf, <- !app_assoc; done|simpl in Hf; lia].
Qed.

(** A pad filled to fewer than 20 bytes from its end, which the overflow
    check of Set allows, breaks the next Set: the search for the end of the table
    reads a token header past the end of the buffer. *)
Theorem full_pad_reads_out_of_bounds ts hd body id tokBuf bufLen k :
  buf = hd ++ body ++ tail → length hd = 32%nat → enc ts body → Forall (token_ok L) ts →
  sp_update buf L id tokBuf bufLen k = Fault.
Proof.
  intros Hbuf Hhd Henc Hts. unfold sp_update. pose proof (enc_count ts body Henc).
  assert (length body ≤ length buf)%nat by (rewrite Hbuf, !length_app; lia).
  change sizeof_SP_HEADER with 32. replace 32 with (Z.of_nat (length hd)) by lia.
  unfold mbind, M_bind. rewrite (sp_used_full ts body Henc hd); [done|done|done|lia].
Qed.
End full.

(** ** Names *)

(** Names are limited to fifteen characters without a check: a longer name
    is stored cut off and then compared in full, so the token that was stored
    under it is never found again. *)
Theorem long_token_name_never_found (id : list Z) :
  (16 ≤ length id)%nat → Forall (λ b, 0 < b < 256) id →
  strncmp_eq 16 (token_name id) (id ++ [0]) = false.
Proof.
  intros Hl Hc. unfold token_name. rewrite length_take, Nat.min_l by lia.
  change (16 - 15)%nat with 1%nat.
  do 16 (destruct id as [|? id]; [simpl in Hl; lia|]; apply Forall_cons in Hc as [? Hc]).
  cbn [take app replicate strncmp_eq].
  rewrite !Z.eqb_refl.
  repeat match goal with |- context [?x =? 0] => rewrite (proj2 (Z.eqb_neq x 0)) by lia end.
  match goal with |- context [0 =? ?x] => rewrite (proj2 (Z.eqb_neq 0 x)) by lia end. done.
Qed.

(** ** Witnesses *)

Section witnesses.
#[local] Existing Instance ram16.

Lemma bytes_at_stored_pad z p bs n : (length bs ≤ n)%nat →
  bytes_at (stored (λ _, z) p bs) p n = bs ++ replicate (n - length bs) z.
Proof.
  intros Hn. replace n with (length bs + (n - length bs))%nat at 1 by lia.
  rewrite bytes_at_app, bytes_at_stored. f_equal.
  erewrite (bytes_at_ext _ (λ _, z)) by (intros; apply stored_out; lia).
  unfold bytes_at. generalize 0%nat. induction (n - length bs)%nat as [|m IH]; intros j; simpl;
    [done|by rewrite IH].
Qed.

Definition boot_token : token := (cstr "boot", [1; 2; 3]).

Definition pad_demo_area : area :=
  {| start_blk := 7; number_blk := 1; area_length := 8192; blk_offset := 0 |}.

(** A kernel whose scratch pad (block 7 of sixteen 8K blocks) starts with the
    bytes [bs], the rest is zero. *)
Definition pad_kernel (bs : list Z) : kstate (Z → Z) :=
  {| k_flash := stored (λ _, 0) 57344 bs; g_flash_info := Some (ram_dev 0xBE000000 16 8192);
     flashInitialized := 1;
     fInfo := {| flash_persistent := no_area; flash_psi_backup := no_area;
                 flash_fix := no_area; flash_avail := no_area; flash_variable := no_area;
                 flash_scratch_pad := pad_demo_area; flash_nvram := nvram_area |};
     g_pCurrentBp := None; k_calls := 0; k_live := 0; k_leds := [] |}.

Definition boot_pad : list Z := SPHead ++ token_head boot_token ++ snd boot_token ++ [0].

Lemma pad_kernel_area bs : Forall is_byte bs →
  pad_area 0xBE000000 (ram_dev 0xBE000000 16 8192) (λ _, true) (pad_kernel bs).
Proof.
  intros Hb. constructor.
  - constructor; [reflexivity|]. intros a. apply stored_bytes; [done|done].
  - constructor; vm_compute; discriminate.
  - reflexivity.
  - reflexivity.
  - intros n. exists 0%nat. split; [lia|reflexivity].
Qed.

Lemma pad_kernel_bytes bs : (length bs ≤ Z.to_nat SP_MAX_LEN)%nat →
  pad_bytes 0xBE000000 (ram_dev 0xBE000000 16 8192) (pad_kernel bs) =
    bs ++ replicate (Z.to_nat SP_MAX_LEN - length bs) 0.
Proof. intros Hl. exact (bytes_at_stored_pad 0 57344 bs (Z.to_nat SP_MAX_LEN) Hl). Qed.

Lemma boot_pad_length : (length boot_pad + 100 ≤ Z.to_nat SP_MAX_LEN)%nat.
Proof. apply Nat2Z.inj_le. rewrite Nat2Z.inj_add, Z2Nat.id; [vm_compute; discriminate|done]. Qed.

Lemma boot_name_ok : name_ok (cstr "boot").
Proof.
  constructor; [vm_compute; lia| |by eexists _, _].
  repeat (apply Forall_cons; split; [vm_compute; split; reflexivity|]). constructor.
Qed.

Lemma boot_token_ok : token_ok SP_MAX_LEN boot_token.
Proof.
  split; [apply boot_name_ok|]. split; [vm_compute; split; reflexivity|]. by repeat constructor.
Qed.

Lemma boot_pad_holds :
  pad_holds 0xBE000000 (ram_dev 0xBE000000 16 8192) (pad_kernel boot_pad) [boot_token].
Proof.
  pose proof boot_pad_length. split; [|by apply NoDup_singleton].
  rewrite pad_kernel_bytes by lia. constructor.
  - rewrite length_app, length_replicate. rewrite <- (Z2Nat.id SP_MAX_LEN) by (unfold SP_MAX_LEN; lia).
    lia.
  - reflexivity.
  - apply Forall_singleton, boot_token_ok.
  - exists SPHead, (token_head boot_token ++ snd boot_token ++ [0] ++ []),
      (Z.to_nat SP_MAX_LEN - length boot_pad)%nat, 0.
    split; [unfold boot_pad; by rewrite app_nil_r, <- !app_assoc|].
    split; [reflexivity|]. split; [reflexivity|].
    split; [constructor; [reflexivity|constructor]|]. split; [lia|by left].
Qed.

Lemma boot_pad_bytes : Forall is_byte boot_pad.
Proof. apply (bool_decide_unpack _). vm_compute. exact I. Qed.

Lemma dyn_token_ok : token_ok SP_MAX_LEN (cstr "Dyn", [9; 9; 9; 9]).
Proof.
  split; [|split; [vm_compute; split; reflexivity|by repeat constructor]].
  constructor; [vm_compute; lia| |by eexists _, _].
  repeat (apply Forall_cons; split; [vm_compute; split; reflexivity|]). constructor.
Qed.

Lemma scratchpad_refines_table_witness :
  ∃ k1, kerSysScratchPadSet (λ _, true) (cstr "Dyn") (Some [9; 9; 9; 9])
          (Z.of_nat (length [9; 9; 9; 9])) (pad_kernel boot_pad) = Done (0, k1) ∧
    pad_holds 0xBE000000 (ram_dev 0xBE000000 16 8192) k1
      (pad_put (cstr "Dyn") [9; 9; 9; 9] [boot_token]).
Proof.
  destruct (scratchpad_refines_table 0xBE000000 (ram_dev 0xBE000000 16 8192) (λ _, true)
    (pad_kernel boot_pad) [boot_token] (cstr "Dyn") [9; 9; 9; 9] 100 [])
    as [(k1&E&_&Hh&_) _].
  - apply pad_kernel_area, boot_pad_bytes.
  - apply boot_pad_holds.
  - apply dyn_token_ok.
  - vm_compute. discriminate.
  - unfold SP_MAX_LEN. lia.
  - vm_compute. discriminate.
  - exists k1. split; [exact E|exact Hh].
Defined.

Lemma scratchpad_set_get_witness :
  ∃ k1, kerSysScratchPadSet (λ _, true) (cstr "Dyn") (Some [9; 9; 9; 9])
          (Z.of_nat (length [9; 9; 9; 9])) (pad_kernel boot_pad) = Done (0, k1) ∧
    ∀ tokBuf, length tokBuf = Z.to_nat SP_MAX_LEN →
      ∃ k2, kerSysScratchPadGet (λ _, true) (cstr "Dyn") tokBuf 100 k1 =
        Done ((Z.of_nat (length [9; 9; 9; 9]),
               [9; 9; 9; 9] ++ drop (length [9; 9; 9; 9]) tokBuf), k2).
Proof.
  destruct (scratchpad_set_get 0xBE000000 (ram_dev 0xBE000000 16 8192) (λ _, true)
    (pad_kernel boot_pad) [boot_token] (cstr "Dyn") [9; 9; 9; 9]) as (k1&E&Hg).
  - apply pad_kernel_area, boot_pad_bytes.
  - apply boot_pad_holds.
  - apply dyn_token_ok.
  - vm_compute. discriminate.
  - exists k1. split; [exact E|]. intros tokBuf Htb.
    destruct (Hg (cstr "Dyn") tokBuf 100) as (k2&E2);
      [apply dyn_token_ok|unfold SP_MAX_LEN; lia|exact Htb|].
    rewrite decide_True in E2 by reflexivity. exists k2. exact E2.
Defined.

Lemma scratchpad_get_overruns_buffer_witness :
  kerSysScratchPadGet (λ _, true) (cstr "boot") [0; 0] 2 (pad_kernel boot_pad) = Fault.
Proof.
  apply (scratchpad_get_overruns_buffer 0xBE000000 (ram_dev 0xBE000000 16 8192) (λ _, true)
    (pad_kernel boot_pad) [boot_token] (cstr "boot") [1; 2; 3]).
  - apply pad_kernel_area, boot_pad_bytes.
  - apply boot_pad_holds.
  - apply boot_name_ok.
  - unfold SP_MAX_LEN. lia.
  - reflexivity.
  - simpl. lia.
Defined.

Lemma scratchpad_get_uninitialised_witness :
  ∃ k', kerSysScratchPadGet (λ _, true) (cstr "boot") [0; 0] 2 (pad_kernel []) =
      Done ((-1, [0; 0]), k') ∧ k_live k' = 1.
Proof.
  destruct (scratchpad_get_uninitialised 0xBE000000 (ram_dev 0xBE000000 16 8192) (λ _, true)
    (pad_kernel []) (cstr "boot") [0; 0] 2) as (k'&E&Hl&_).
  - apply pad_kernel_area. constructor.
  - rewrite pad_kernel_bytes by (simpl; lia). vm_compute. discriminate.
  - unfold SP_MAX_LEN. lia.
  - exists k'. split; [exact E|exact Hl].
Defined.

Lemma scratchpad_set_overflow_witness :
  ∃ k', kerSysScratchPadSet (λ _, true) (cstr "Dyn") None 8130 (pad_kernel boot_pad) =
      Done (-1, k') ∧ k_live k' = 1.
Proof.
  destruct (scratchpad_set_overflow 0xBE000000 (ram_dev 0xBE000000 16 8192) (λ _, true)
    (pad_kernel boot_pad) [boot_token] (cstr "Dyn") None 8130) as (k'&E&Hl&_).
  - apply pad_kernel_area, boot_pad_bytes.
  - apply boot_pad_holds.
  - unfold SP_MAX_LEN. lia.
  - vm_compute. reflexivity.
  - exists k'. split; [exact E|exact Hl].
Defined.

Lemma full_pad_reads_out_of_bounds_witness :
  sp_update boot_pad 56 (cstr "Dyn") (Some [9]) 1 (pad_kernel boot_pad) = Fault.
Proof.
  apply (full_pad_reads_out_of_bounds 56 boot_pad [] eq_refl eq_refl ltac:(simpl; lia)
           [boot_token] SPHead (token_head boot_token ++ snd boot_token ++ [0] ++ [])).
  - unfold boot_pad. by rewrite !app_nil_r.
  - reflexivity.
  - constructor; [reflexivity|constructor].
  - apply Forall_singleton. split; [apply boot_name_ok|].
    split; [vm_compute; split; reflexivity|by repeat constructor].
Defined.

Lemma long_token_name_never_found_witness :
  strncmp_eq 16 (token_name (cstr "SixteenCharacter")) (cstr "SixteenCharacter" ++ [0]) = false.
Proof.
  apply (long_token_name_never_found (cstr "SixteenCharacter")); [vm_compute; lia|].
  repeat (apply Forall_cons; split; [vm_compute; split; reflexivity|]). constructor.
Defined.
End witnesses.
