(* ===== verification/Led.v ===== *)
(** * The board LEDs ([bcm63xx_led.c])

    The state of the LED driver (the table of physical LEDs, the map from LED
    names to it, the two timers), the GPIO registers it drives, and every
    operation of the file; also the part of [brcm_board_init] ([board.c]) that
    builds the LED map of a board from its parameters.

    [SerialLedCtrl n] is the value the [n]-th read of the serial LED control
    register returns and [polls] bounds the busy-wait on it.  A hardware LED
    handler (a function pointer other drivers register) is a number; calling it
    records the call. *)

From stdpp Require Import base numbers list strings.
From Stdlib Require Import ZArith Lia.
From S2P Require Import Prelude BoardTables BoardParms.

(** ** Names, states and constants *)

Definition kLedAdsl : Z := 0.
Definition kLedWireless : Z := 1.
Definition kLedUsb : Z := 2.
Definition kLedHpna : Z := 3.
Definition kLedWanData : Z := 4.
Definition kLedWanDataFail : Z := 5.
Definition kLedPPP : Z := 6.
Definition kLedVoip : Z := 7.
Definition kLedSes : Z := 8.
Definition kLedPower : Z := 9.
Definition kLedLine0 : Z := 10.
Definition kLedLine1 : Z := 11.
Definition kLedPSTN : Z := 12.
Definition kLedInternet : Z := 13.
Definition kLedHspa : Z := 14.
Definition kLedEnd : Z := 15.

(** [BOARD_LED_STATE]; the two [_Pause] states are never used by the driver. *)
Inductive BOARD_LED_STATE : Type :=
| kLedStateOff
| kLedStateOn
| kLedStateFail
| kLedStateBlinkOnce
| kLedStateSlowFlickerOnce
| kLedStateFastFlickerOnce
| kLedStateVerySlowBlinkContiunes
| kLedStateSlowBlinkContinues
| kLedStateFastBlinkContinues
| kLedStateSlowFlickerOnce_Pause
| kLedStateFastFlickerOnce_Pause.

#[global] Instance BOARD_LED_STATE_eq_dec : EqDecision BOARD_LED_STATE.
Proof. solve_decision. Defined.

Definition kFastBlinkCount : Z := 0.
Definition kSlowBlinkCount : Z := 1.
Definition kVerySlowBlinkCount : Z := 3.
Definition kFlickerCount : Z := 8.
Definition kPauseCount : Z := 8.

Definition GPIO_LOW32 : Z := 0.
Definition GPIO_HIGH : Z := 1.

Definition LED_INTERVAL_SET_MASK : Z := 0xf00.
Definition LED_INTERVAL_SET_80MS : Z := 0x300.
Definition GPIO_MODE_LED_OVERLAY : Z := 2 ^ 11.
Definition GPIO_MODE_SERIAL_LED_OVERLAY : Z := 2 ^ 10.
Definition SER_LED_BUSY : Z := 2 ^ 3.
Definition PCMCIA_GPIO_ENABLE : Z := 0x2000.

(** ** Data *)

Record LED_MAP_PAIR : Type := {
  lm_ledName : Z;
  lm_ledInitState : BOARD_LED_STATE;
  lm_ledMask : Z;
  lm_ledActiveLow : Z;
  lm_ledSerial : Z;
  lm_ledMaskFail : Z;
  lm_ledActiveLowFail : Z;
  lm_ledSerialFail : Z;
  lm_ledlow32GPIO : Z
}.

Record LED_INFO : Type := {
  ledMask : Z;
  ledActiveLow : Z;
  ledSerial : Z;
  ledMaskFail : Z;
  ledActiveLowFail : Z;
  ledSerialFail : Z;
  ledState : BOARD_LED_STATE;
  savedLedState : BOARD_LED_STATE;
  blinkCountDown : Z;
  FlickerCount : Z;
  PauseCount : Z;
  nextFlickerState : BOARD_LED_STATE;
  ledlow32GPIO : Z
}.

(** The registers the driver touches: the [GpioControl] block and the PCMCIA
    control register of the [MPI] block. *)
Record led_regs : Type := {
  LEDCtrl : Z;
  GPIOMode : Z;
  GPIODir : Z;
  GPIOio : Z;
  GPIODir_high : Z;
  GPIOio_high : Z;
  SerialLed : Z;
  pcmcia_cntl1 : Z
}.

(** The driver's globals, the registers, the number of reads of
    [SerialLedCtrl] so far and the calls of hardware handlers (handler, LED
    name, state), latest first. *)
Record lstate : Type := {
  regs : led_regs;
  gLed : list LED_INFO;
  gLedCount : Z;
  gpVirtLeds : list (option nat);
  gLedHwFunc : list (option Z);
  gLedHwFailFunc : list (option Z);
  gTimerOn : bool;
  gBlinkOnceTimerOn : bool;
  g_nEquipTestMode : Z;
  ser_reads : nat;
  hw_calls : list (Z * Z * BOARD_LED_STATE)
}.

(** Field updates of the two records. *)
Definition set_regs (f : led_regs → led_regs) (s : lstate) : lstate :=
  {| regs := f (regs s); gLed := gLed s; gLedCount := gLedCount s;
     gpVirtLeds := gpVirtLeds s; gLedHwFunc := gLedHwFunc s;
     gLedHwFailFunc := gLedHwFailFunc s; gTimerOn := gTimerOn s;
     gBlinkOnceTimerOn := gBlinkOnceTimerOn s; g_nEquipTestMode := g_nEquipTestMode s;
     ser_reads := ser_reads s; hw_calls := hw_calls s |}.

Definition set_leds (ls : list LED_INFO) (s : lstate) : lstate :=
  {| regs := regs s; gLed := ls; gLedCount := gLedCount s;
     gpVirtLeds := gpVirtLeds s; gLedHwFunc := gLedHwFunc s;
     gLedHwFailFunc := gLedHwFailFunc s; gTimerOn := gTimerOn s;
     gBlinkOnceTimerOn := gBlinkOnceTimerOn s; g_nEquipTestMode := g_nEquipTestMode s;
     ser_reads := ser_reads s; hw_calls := hw_calls s |}.

Definition set_led_count (n : Z) (s : lstate) : lstate :=
  {| regs := regs s; gLed := gLed s; gLedCount := n;
     gpVirtLeds := gpVirtLeds s; gLedHwFunc := gLedHwFunc s;
     gLedHwFailFunc := gLedHwFailFunc s; gTimerOn := gTimerOn s;
     gBlinkOnceTimerOn := gBlinkOnceTimerOn s; g_nEquipTestMode := g_nEquipTestMode s;
     ser_reads := ser_reads s; hw_calls := hw_calls s |}.

Definition set_virt (v : list (option nat)) (s : lstate) : lstate :=
  {| regs := regs s; gLed := gLed s; gLedCount := gLedCount s;
     gpVirtLeds := v; gLedHwFunc := gLedHwFunc s;
     gLedHwFailFunc := gLedHwFailFunc s; gTimerOn := gTimerOn s;
     gBlinkOnceTimerOn := gBlinkOnceTimerOn s; g_nEquipTestMode := g_nEquipTestMode s;
     ser_reads := ser_reads s; hw_calls := hw_calls s |}.

Definition set_hw (f ff : list (option Z)) (s : lstate) : lstate :=
  {| regs := regs s; gLed := gLed s; gLedCount := gLedCount s;
     gpVirtLeds := gpVirtLeds s; gLedHwFunc := f; gLedHwFailFunc := ff;
     gTimerOn := gTimerOn s;
     gBlinkOnceTimerOn := gBlinkOnceTimerOn s; g_nEquipTestMode := g_nEquipTestMode s;
     ser_reads := ser_reads s; hw_calls := hw_calls s |}.

Definition set_timers (t b : bool) (s : lstate) : lstate :=
  {| regs := regs s; gLed := gLed s; gLedCount := gLedCount s;
     gpVirtLeds := gpVirtLeds s; gLedHwFunc := gLedHwFunc s;
     gLedHwFailFunc := gLedHwFailFunc s; gTimerOn := t; gBlinkOnceTimerOn := b;
     g_nEquipTestMode := g_nEquipTestMode s;
     ser_reads := ser_reads s; hw_calls := hw_calls s |}.

Definition set_trace (n : nat) (c : list (Z * Z * BOARD_LED_STATE)) (s : lstate) : lstate :=
  {| regs := regs s; gLed := gLed s; gLedCount := gLedCount s;
     gpVirtLeds := gpVirtLeds s; gLedHwFunc := gLedHwFunc s;
     gLedHwFailFunc := gLedHwFailFunc s; gTimerOn := gTimerOn s;
     gBlinkOnceTimerOn := gBlinkOnceTimerOn s; g_nEquipTestMode := g_nEquipTestMode s;
     ser_reads := n; hw_calls := c |}.

Definition with_states (st sv : BOARD_LED_STATE) (l : LED_INFO) : LED_INFO :=
  {| ledMask := ledMask l; ledActiveLow := ledActiveLow l; ledSerial := ledSerial l;
     ledMaskFail := ledMaskFail l; ledActiveLowFail := ledActiveLowFail l;
     ledSerialFail := ledSerialFail l; ledState := st; savedLedState := sv;
     blinkCountDown := blinkCountDown l; FlickerCount := FlickerCount l;
     PauseCount := PauseCount l; nextFlickerState := nextFlickerState l;
     ledlow32GPIO := ledlow32GPIO l |}.

Definition with_counts (b f p : Z) (l : LED_INFO) : LED_INFO :=
  {| ledMask := ledMask l; ledActiveLow := ledActiveLow l; ledSerial := ledSerial l;
     ledMaskFail := ledMaskFail l; ledActiveLowFail := ledActiveLowFail l;
     ledSerialFail := ledSerialFail l; ledState := ledState l;
     savedLedState := savedLedState l; blinkCountDown := b; FlickerCount := f;
     PauseCount := p; nextFlickerState := nextFlickerState l;
     ledlow32GPIO := ledlow32GPIO l |}.

Definition with_next (n : BOARD_LED_STATE) (l : LED_INFO) : LED_INFO :=
  {| ledMask := ledMask l; ledActiveLow := ledActiveLow l; ledSerial := ledSerial l;
     ledMaskFail := ledMaskFail l; ledActiveLowFail := ledActiveLowFail l;
     ledSerialFail := ledSerialFail l; ledState := ledState l;
     savedLedState := savedLedState l; blinkCountDown := blinkCountDown l;
     FlickerCount := FlickerCount l; PauseCount := PauseCount l; nextFlickerState := n;
     ledlow32GPIO := ledlow32GPIO l |}.

Abbreviation with_state st l := (with_states st (savedLedState l) l).
Abbreviation with_saved sv l := (with_states (ledState l) sv l).
Abbreviation with_blink b l := (with_counts b (FlickerCount l) (PauseCount l) l).

(** ** Registers *)

(** [r |= m] and [r &= ~m]. *)
Definition put_bits (on : bool) (m r : Z) : Z :=
  if on then Z.lor r m else Z.land r (Z.lnot m).

Definition put_serial (on : bool) (m : Z) (r : led_regs) : led_regs :=
  {| LEDCtrl := LEDCtrl r; GPIOMode := GPIOMode r; GPIODir := GPIODir r;
     GPIOio := GPIOio r; GPIODir_high := GPIODir_high r; GPIOio_high := GPIOio_high r;
     SerialLed := put_bits on m (SerialLed r); pcmcia_cntl1 := pcmcia_cntl1 r |}.

(** A pin below 32: the direction bit, then the level. *)
Definition put_low (on : bool) (m : Z) (r : led_regs) : led_regs :=
  {| LEDCtrl := LEDCtrl r; GPIOMode := GPIOMode r; GPIODir := Z.lor (GPIODir r) m;
     GPIOio := put_bits on m (GPIOio r); GPIODir_high := GPIODir_high r;
     GPIOio_high := GPIOio_high r; SerialLed := SerialLed r;
     pcmcia_cntl1 := pcmcia_cntl1 r |}.

Definition put_high (on : bool) (m : Z) (r : led_regs) : led_regs :=
  {| LEDCtrl := LEDCtrl r; GPIOMode := GPIOMode r; GPIODir := GPIODir r;
     GPIOio := GPIOio r; GPIODir_high := Z.lor (GPIODir_high r) m;
     GPIOio_high := put_bits on m (GPIOio_high r); SerialLed := SerialLed r;
     pcmcia_cntl1 := pcmcia_cntl1 r |}.

(** The decrement of an [int] counter. *)
Definition dec (z : Z) : Z := s32 (z - 1).

Section driver.
Context (SerialLedCtrl : nat → Z) (polls : nat).

(** [while (GPIO->SerialLedCtrl & SER_LED_BUSY);] *)
Fixpoint serial_wait (n : nat) : M lstate unit :=
  match n with
  | O => nofuel
  | S n' =>
      k ← gets ser_reads;
      modify (λ s, set_trace (S (ser_reads s)) (hw_calls s) s);;
      if Z.land (SerialLedCtrl k) SER_LED_BUSY =? 0 then mret tt else serial_wait n'
  end.

(** The LED a pointer into [gLed] points to. *)
Definition get_led (i : nat) : M lstate LED_INFO :=
  s ← get; of_option (gLed s !! i).

Definition upd_led (i : nat) (f : LED_INFO → LED_INFO) : M lstate unit :=
  l ← get_led i;
  modify (λ s, set_leds (<[i := f l]> (gLed s)) s).

(** Driving one pin, the common body of the four functions below: serial
    output, pin below 32, or pin from 32 on. *)
Definition drive (serial low32 mask : Z) (on : bool) : M lstate unit :=
  if negb (serial =? 0) then
    serial_wait polls;; modify (set_regs (put_serial on mask))
  else if low32 =? GPIO_LOW32 then modify (set_regs (put_low on mask))
  else modify (set_regs (put_high on mask)).

Definition ledOn (i : nat) : M lstate unit :=
  l ← get_led i;
  if ledMask l =? 0 then mret tt else
  drive (ledSerial l) (ledlow32GPIO l) (ledMask l) (ledActiveLow l =? 0);;
  upd_led i (with_states kLedStateOn kLedStateOn).

Definition ledOff (i : nat) : M lstate unit :=
  l ← get_led i;
  if ledMask l =? 0 then mret tt else
  drive (ledSerial l) (ledlow32GPIO l) (ledMask l) (negb (ledActiveLow l =? 0));;
  upd_led i (with_states kLedStateOff kLedStateOff).

Definition ledOnFail (i : nat) : M lstate unit :=
  l ← get_led i;
  if ledMaskFail l =? 0 then mret tt else
  drive (ledSerialFail l) (ledlow32GPIO l) (ledMaskFail l) (ledActiveLowFail l =? 0);;
  upd_led i (with_states kLedStateFail kLedStateFail).

Definition ledOffFail (i : nat) : M lstate unit :=
  l ← get_led i;
  if ledMaskFail l =? 0 then mret tt else
  drive (ledSerialFail l) (ledlow32GPIO l) (ledMaskFail l) (negb (ledActiveLowFail l =? 0));;
  upd_led i (with_states kLedStateOff kLedStateOff).

(** The level of the register that carries an LED's pin. *)
Definition pin_set (l : LED_INFO) (r : led_regs) : bool :=
  negb (Z.land (if negb (ledSerial l =? 0) then SerialLed r
                else if ledlow32GPIO l =? GPIO_LOW32 then GPIOio r else GPIOio_high r)
               (ledMask l) =? 0).

(** The state [ledToggle] returns, from the level before. *)
Definition toggled_state (l : LED_INFO) (was_set : bool) : BOARD_LED_STATE :=
  if was_set then (if ledActiveLow l =? 0 then kLedStateOff else kLedStateOn)
  else (if ledActiveLow l =? 0 then kLedStateOn else kLedStateOff).

Definition ledToggle (i : nat) : M lstate BOARD_LED_STATE :=
  l ← get_led i;
  (if negb (ledSerial l =? 0) then serial_wait polls else mret tt);;
  set ← gets (λ s, pin_set l (regs s));
  (if negb (ledSerial l =? 0) then modify (set_regs (put_serial (negb set) (ledMask l)))
   else if ledlow32GPIO l =? GPIO_LOW32 then
     modify (set_regs (put_low (negb set) (ledMask l)))
   else modify (set_regs (put_high (negb set) (ledMask l))));;
  mret (toggled_state l set).

(** ** Timers *)

Definition blinkOnceTimerStart : M lstate unit :=
  on ← gets gBlinkOnceTimerOn;
  if (on : bool) then mret tt else modify (λ s, set_timers (gTimerOn s) true s).

Definition blinkOnceTimerExpire : M lstate unit :=
  modify (λ s, set_timers (gTimerOn s) false s).

Definition ledTimerStart : M lstate unit :=
  on ← gets gTimerOn;
  if (on : bool) then mret tt else modify (λ s, set_timers true (gBlinkOnceTimerOn s) s).

(** The three continuous blink states. *)
Definition blink_continues (i : nat) (count : Z) : M lstate unit :=
  l ← get_led i;
  upd_led i (λ l, with_blink (dec (blinkCountDown l)) l);;
  (if blinkCountDown l =? 0 then
     upd_led i (λ l, with_blink count l);; ledToggle i;; mret tt
   else mret tt);;
  ledTimerStart.

(** The two flicker states: toggling, then a pause, then on. *)
Definition flicker_once (i : nat) : M lstate unit :=
  l ← get_led i;
  upd_led i (λ l, with_counts (blinkCountDown l) (dec (FlickerCount l)) (PauseCount l) l);;
  (if FlickerCount l >? 0 then
     upd_led i (λ l, with_blink (dec (blinkCountDown l)) l);;
     if blinkCountDown l =? 0 then
       upd_led i (λ l, with_blink (if decide (kLedStateSlowFlickerOnce = ledState l)
                                   then kSlowBlinkCount else kFastBlinkCount) l);;
       st ← ledToggle i;
       upd_led i (λ l, with_saved st l)
     else mret tt
   else
     upd_led i (λ l, with_counts (blinkCountDown l) (FlickerCount l) (dec (PauseCount l)) l);;
     if PauseCount l >? 0 then
       (if decide (savedLedState l = kLedStateOn) then
          st ← ledToggle i; upd_led i (λ l, with_saved st l)
        else mret tt);;
       if (dec (PauseCount l) =? 0) &&
          bool_decide (kLedStateFastFlickerOnce = nextFlickerState l) then
         upd_led i (λ l, with_next kLedStateOn
           (with_counts kFastBlinkCount 8 8 (with_state kLedStateFastFlickerOnce l)))
       else mret tt
     else ledOn i);;
  ledTimerStart.

(** The body of the loop of [ledTimerExpire]. *)
Definition led_tick (i : nat) : M lstate unit :=
  l ← get_led i;
  match ledState l with
  | kLedStateOn | kLedStateOff | kLedStateFail =>
      upd_led i (with_counts 0 0 0)
  | kLedStateBlinkOnce =>
      blinkOnceTimerStart;;
      ledToggle i;;
      upd_led i (λ l, with_state (savedLedState l) (with_blink 0 l));;
      if decide (savedLedState l = kLedStateSlowBlinkContinues ∨
                 savedLedState l = kLedStateFastBlinkContinues)
      then ledTimerStart else mret tt
  | kLedStateSlowFlickerOnce | kLedStateFastFlickerOnce => flicker_once i
  | kLedStateVerySlowBlinkContiunes => blink_continues i kVerySlowBlinkCount
  | kLedStateSlowBlinkContinues => blink_continues i kSlowBlinkCount
  | kLedStateFastBlinkContinues => blink_continues i kFastBlinkCount
  | kLedStateSlowFlickerOnce_Pause | kLedStateFastFlickerOnce_Pause => mret tt
  end.

Fixpoint tick_loop (i n : nat) : M lstate unit :=
  match n with
  | O => mret tt
  | S n' => led_tick i;; tick_loop (S i) n'
  end.

Definition ledTimerExpire : M lstate unit :=
  modify (λ s, set_timers false (gBlinkOnceTimerOn s) s);;
  n ← gets gLedCount;
  tick_loop 0 (Z.to_nat n).

(** ** Initialisation *)

(** Two entries drive the same physical LED. *)
Definition same_led (m1 f1 m2 f2 : Z) : bool :=
  (negb (m1 =? 0) && (m1 =? m2)) || (negb (f1 =? 0) && (f1 =? f2)).

Definition alreadyUsed (p1 : LED_MAP_PAIR) (before : list LED_MAP_PAIR) : bool :=
  existsb (λ p2, same_led (lm_ledMask p1) (lm_ledMaskFail p1)
                          (lm_ledMask p2) (lm_ledMaskFail p2)) before.

(** The first loop of [boardLedInit]; [None] is a read past the map. *)
Fixpoint count_leds (before rest : list LED_MAP_PAIR) (n : Z) : option Z :=
  match rest with
  | [] => None
  | p1 :: rest' =>
      if lm_ledName p1 =? kLedEnd then Some n
      else count_leds (before ++ [p1]) rest' (if alreadyUsed p1 before then n else n + 1)
  end.

Definition zero_led : LED_INFO :=
  {| ledMask := 0; ledActiveLow := 0; ledSerial := 0; ledMaskFail := 0;
     ledActiveLowFail := 0; ledSerialFail := 0; ledState := kLedStateOff;
     savedLedState := kLedStateOff; blinkCountDown := 0; FlickerCount := 0;
     PauseCount := 0; nextFlickerState := kLedStateOff; ledlow32GPIO := 0 |}.

Definition initLedInfo (pCurMap : LED_MAP_PAIR) (i : nat) : M lstate bool :=
  upd_led i (λ l,
    {| ledMask := lm_ledMask pCurMap; ledActiveLow := lm_ledActiveLow pCurMap;
       ledSerial := lm_ledSerial pCurMap; ledMaskFail := lm_ledMaskFail pCurMap;
       ledActiveLowFail := lm_ledActiveLowFail pCurMap;
       ledSerialFail := lm_ledSerialFail pCurMap;
       ledState := lm_ledInitState pCurMap; savedLedState := lm_ledInitState pCurMap;
       blinkCountDown := blinkCountDown l; FlickerCount := FlickerCount l;
       PauseCount := PauseCount l; nextFlickerState := nextFlickerState l;
       ledlow32GPIO := lm_ledlow32GPIO pCurMap |});;
  match lm_ledInitState pCurMap with
  | kLedStateOn =>
      upd_led i (λ l, with_next kLedStateOn (with_blink 0 l));; ledOn i;; mret false
  | kLedStateOff =>
      upd_led i (λ l, with_next kLedStateOff (with_blink 0 l));; ledOff i;; mret false
  | kLedStateFail =>
      upd_led i (λ l, with_next kLedStateFail (with_blink 0 l));; ledOnFail i;; mret false
  | kLedStateBlinkOnce =>
      upd_led i (λ l, with_blink 1 l);; mret true
  | kLedStateSlowFlickerOnce => upd_led i (with_counts kSlowBlinkCount 0 0);; mret false
  | kLedStateFastFlickerOnce => upd_led i (with_counts kFastBlinkCount 0 0);; mret false
  | kLedStateVerySlowBlinkContiunes =>
      upd_led i (λ l, with_blink kVerySlowBlinkCount l);; mret true
  | kLedStateSlowBlinkContinues =>
      upd_led i (λ l, with_blink kSlowBlinkCount l);; mret true
  | kLedStateFastBlinkContinues =>
      upd_led i (λ l, with_blink kFastBlinkCount l);; mret true
  | kLedStateSlowFlickerOnce_Pause | kLedStateFastFlickerOnce_Pause => mret false
  end.

(** [gpVirtLeds[name] = &gLed[i]]. *)
Definition set_virt_led (name : Z) (i : nat) : M lstate unit :=
  v ← gets gpVirtLeds;
  if (0 <=? name) && (name <? Z.of_nat (length v))
  then modify (set_virt (<[Z.to_nat name := Some i]> v)) else fault.

(** The masks of the normal and of the failure pin of a further name. *)
Definition merge_led (p1 : LED_MAP_PAIR) (l : LED_INFO) : LED_INFO :=
  let n := negb (lm_ledMask p1 =? 0) in
  let f := negb (lm_ledMaskFail p1 =? 0) in
  {| ledMask := if n then lm_ledMask p1 else ledMask l;
     ledActiveLow := if n then lm_ledActiveLow p1 else ledActiveLow l;
     ledSerial := if n then lm_ledSerial p1 else ledSerial l;
     ledMaskFail := if f then lm_ledMaskFail p1 else ledMaskFail l;
     ledActiveLowFail := if f then lm_ledActiveLowFail p1 else ledActiveLowFail l;
     ledSerialFail := if f then lm_ledSerialFail p1 else ledSerialFail l;
     ledState := ledState l; savedLedState := savedLedState l;
     blinkCountDown := blinkCountDown l; FlickerCount := FlickerCount l;
     PauseCount := PauseCount l; nextFlickerState := nextFlickerState l;
     ledlow32GPIO := ledlow32GPIO l |}.

(** The LED among [gLed[j]], ..., that an entry shares, [n] of them left. *)
Fixpoint find_led (p1 : LED_MAP_PAIR) (j n : nat) : M lstate (option nat) :=
  match n with
  | O => mret None
  | S n' =>
      l ← get_led j;
      if same_led (ledMask l) (ledMaskFail l) (lm_ledMask p1) (lm_ledMaskFail p1)
      then mret (Some j) else find_led p1 (S j) n'
  end.

(** The second loop; [i] is [pCurLed], and the result is [needTimer]. *)
Fixpoint init_leds (before rest : list LED_MAP_PAIR) (i : nat) (needTimer : bool)
  : M lstate bool :=
  match rest with
  | [] => fault
  | p1 :: rest' =>
      if lm_ledName p1 =? kLedEnd then mret needTimer
      else if lm_ledName p1 >? MAX_VIRT_LEDS then
        init_leds (before ++ [p1]) rest' i needTimer
      else if alreadyUsed p1 before then
        j ← find_led p1 0 i;
        (match j with
         | Some j => upd_led j (merge_led p1);; set_virt_led (lm_ledName p1) j
         | None => mret tt
         end);;
        init_leds (before ++ [p1]) rest' i needTimer
      else
        needTimer' ← initLedInfo p1 i;
        set_virt_led (lm_ledName p1) i;;
        init_leds (before ++ [p1]) rest' (S i) needTimer'
  end.

(** The mode registers. *)
Definition init_regs (cur : option BOARD_PARAMETERS) (r : led_regs) : led_regs :=
  let led := BpIsSupportLedGpioMode cur =? BP_SUCCESS in
  let ser := BpIsSupportSerialGpioMode cur =? BP_SUCCESS in
  let mode := if led then Z.lor (GPIOMode r) GPIO_MODE_LED_OVERLAY else GPIOMode r in
  let dir := if led then Z.lor (GPIODir r) 0x000f else GPIODir r in
  {| LEDCtrl := Z.lor (Z.land (LEDCtrl r) (Z.lnot LED_INTERVAL_SET_MASK))
                      LED_INTERVAL_SET_80MS;
     GPIOMode := if ser then Z.lor mode GPIO_MODE_SERIAL_LED_OVERLAY else mode;
     GPIODir := if ser then Z.lor dir 0x00c0 else dir;
     GPIOio := GPIOio r; GPIODir_high := GPIODir_high r; GPIOio_high := GPIOio_high r;
     SerialLed := SerialLed r;
     pcmcia_cntl1 := Z.land (pcmcia_cntl1 r) (Z.lnot PCMCIA_GPIO_ENABLE) |}.

(** [kmalloc_ok]: whether the allocation of the table succeeds. *)
Definition boardLedInit (kmalloc_ok : bool) (cur : option BOARD_PARAMETERS)
    (cLedMapping : list LED_MAP_PAIR) : M lstate unit :=
  modify (set_regs (init_regs cur));;
  modify (set_virt (replicate 15 None));;
  modify (set_hw (replicate 15 None) (replicate 15 None));;
  n ← of_option (count_leds [] cLedMapping 0);
  modify (set_led_count n);;
  if negb kmalloc_ok then modify (set_leds []) else
  modify (set_leds (replicate (Z.to_nat n) zero_led));;
  needTimer ← init_leds [] cLedMapping 0 false;
  if (needTimer : bool) then ledTimerStart else mret tt.

(** ** Control *)

(** An access to one of the arrays of [MAX_VIRT_LEDS] entries. *)
Definition arr_get {A} (a : list A) (i : Z) : M lstate A :=
  if i <? 0 then fault else of_option (a !! Z.to_nat i).

Definition call_hw (h name : Z) (st : BOARD_LED_STATE) : M lstate unit :=
  modify (λ s, set_trace (ser_reads s) ((h, name, st) :: hw_calls s) s).

(** The call of a handler, where one is registered. *)
Definition call_hw_if (h : option Z) (name : Z) (st : BOARD_LED_STATE) : M lstate unit :=
  match h with Some h => call_hw h name st | None => mret tt end.

(** The part of [boardLedCtrl] that handles LEDs driven by hardware: [true]
    when the call is finished there. *)
Definition ctrl_hw (ledName : Z) (ledInfoPtr : option nat) (st : BOARD_LED_STATE)
  : M lstate bool :=
  hwf ← gets gLedHwFunc;
  hwff ← gets gLedHwFailFunc;
  if decide (st = kLedStateFail) then
    ff ← arr_get hwff ledName;
    match ff with
    | Some h =>
        f ← arr_get hwf ledName;
        (match f, ledInfoPtr with
         | Some g, _ => call_hw g ledName kLedStateOff
         | None, Some i => ledOff i
         | None, None => mret tt
         end);;
        call_hw h ledName st;; mret true
    | None => mret false
    end
  else
    f ← arr_get hwf ledName;
    match f with
    | Some h =>
        ff ← arr_get hwff ledName;
        (match ff, ledInfoPtr with
         | Some g, _ => call_hw g ledName kLedStateOff
         | None, Some i => ledOffFail i
         | None, None => mret tt
         end);;
        call_hw h ledName st;; mret true
    | None => mret false
    end.

(** A flicker request. *)
Definition ctrl_flicker (i : nat) (st : BOARD_LED_STATE) (count : Z) : M lstate unit :=
  test ← gets g_nEquipTestMode;
  l ← get_led i;
  if test =? 1 then upd_led i (λ l, with_counts (blinkCountDown l) 0 0 l)
  else if negb (FlickerCount l =? 0) || negb (PauseCount l =? 0) then
    upd_led i (with_next st)
  else
    upd_led i (λ l, with_next kLedStateOn
                      (with_state st (with_counts count kFlickerCount kPauseCount l)));;
    ledTimerStart.

Definition ctrl_blink (i : nat) (st : BOARD_LED_STATE) (count : Z) : M lstate unit :=
  upd_led i (λ l, with_states st st (with_blink count l));;
  ledTimerStart.

(** The [switch] of [boardLedCtrl]. *)
Definition ctrl_led (ledName : Z) (i : nat) (st : BOARD_LED_STATE) : M lstate unit :=
  l ← get_led i;
  hwf ← gets gLedHwFunc;
  hwff ← gets gLedHwFailFunc;
  match st with
  | kLedStateOn =>
      (if negb (ledMaskFail l =? 0) then ledOffFail i
       else ff ← arr_get hwff ledName; call_hw_if ff ledName kLedStateOff);;
      ledOn i;;
      upd_led i (with_next kLedStateOn)
  | kLedStateOff =>
      (if negb (ledMaskFail l =? 0) then ledOffFail i
       else ff ← arr_get hwff ledName; call_hw_if ff ledName kLedStateOff);;
      ledOff i;;
      upd_led i (with_next kLedStateOff)
  | kLedStateFail =>
      (if negb (ledMask l =? 0) then ledOff i
       else f ← arr_get hwf ledName; call_hw_if f ledName kLedStateOff);;
      ledOnFail i;;
      upd_led i (with_next kLedStateFail)
  | kLedStateBlinkOnce =>
      if decide (savedLedState l = kLedStateSlowBlinkContinues ∨
                 savedLedState l = kLedStateFastBlinkContinues) then mret tt
      else
        once ← gets gBlinkOnceTimerOn;
        if negb (blinkCountDown l =? 0) || (once : bool) then mret tt
        else
          ledToggle i;;
          upd_led i (λ l, with_state kLedStateBlinkOnce (with_blink 1 l));;
          ledTimerStart
  | kLedStateSlowFlickerOnce => ctrl_flicker i kLedStateSlowFlickerOnce kSlowBlinkCount
  | kLedStateFastFlickerOnce => ctrl_flicker i kLedStateFastFlickerOnce kFastBlinkCount
  | kLedStateVerySlowBlinkContiunes =>
      ctrl_blink i kLedStateVerySlowBlinkContiunes kVerySlowBlinkCount
  | kLedStateSlowBlinkContinues => ctrl_blink i kLedStateSlowBlinkContinues kSlowBlinkCount
  | kLedStateFastBlinkContinues => ctrl_blink i kLedStateFastBlinkContinues kFastBlinkCount
  | kLedStateSlowFlickerOnce_Pause | kLedStateFastFlickerOnce_Pause => mret tt
  end.

Definition boardLedCtrl (ledName : Z) (st : BOARD_LED_STATE) : M lstate unit :=
  virt ← gets gpVirtLeds;
  ledInfoPtr ← (if ledName <? MAX_VIRT_LEDS then arr_get virt ledName else mret None);
  finished ← ctrl_hw ledName ledInfoPtr st;
  if (finished : bool) then mret tt else
  match ledInfoPtr with
  | None => mret tt
  | Some i =>
      l ← get_led i;
      ctrl_led ledName i
        (if bool_decide (st = kLedStateFail) && (ledMaskFail l =? 0)
         then kLedStateSlowBlinkContinues else st)
  end.

(** [kerSysLedCtrl] ([board.c]): requests before the initialisation are dropped. *)
Definition kerSysLedCtrl (g_ledInitialized : Z) (ledName : Z) (st : BOARD_LED_STATE)
  : M lstate unit :=
  if g_ledInitialized =? 0 then mret tt else boardLedCtrl ledName st.

Definition kerSysLedRegisterHwHandler (ledName : Z) (ledHwFunc : option Z)
    (ledFailType : Z) : M lstate unit :=
  if negb (ledName <? MAX_VIRT_LEDS) then mret tt
  else if ledName <? 0 then fault
  else modify (λ s,
    if ledFailType =? 1
    then set_hw (gLedHwFunc s) (<[Z.to_nat ledName := ledHwFunc]> (gLedHwFailFunc s)) s
    else set_hw (<[Z.to_nat ledName := ledHwFunc]> (gLedHwFunc s)) (gLedHwFailFunc s) s).

(** [None] is the value 0xFF. *)
Definition kerSysGetLedState (ledName : Z) : M lstate (option BOARD_LED_STATE) :=
  if negb (ledName <? MAX_VIRT_LEDS) then mret None else
  virt ← gets gpVirtLeds;
  p ← arr_get virt ledName;
  match p with
  | Some i => l ← get_led i; mret (Some (ledState l))
  | None => mret None
  end.
End driver.

(** ** The LED map of a board ([brcm_board_init]) *)

Definition GPIO_NUM_TOTAL_BITS_MASK : Z := 0x3f.
Definition GPIO_NUM_MAX_BITS_MASK : Z := 0x1f.
Definition GPIO_NUM_MAX_BITS_MASK_HIGH : Z := 0x07.

Definition GPIO_NUM_TO_MASK (x : Z) : Z :=
  if Z.land x GPIO_NUM_TOTAL_BITS_MASK <? 32
  then Z.shiftl 1 (Z.land x GPIO_NUM_MAX_BITS_MASK) else 0.

Definition GPIO_NUM_TO_MASK_HIGH (x : Z) : Z :=
  if Z.land x GPIO_NUM_TOTAL_BITS_MASK >=? 32
  then Z.shiftl 1 (Z.land (x - 32) GPIO_NUM_MAX_BITS_MASK_HIGH) else 0.

(** [LedMapping]: fourteen end entries are written, the fifteenth is zero. *)
Definition end_entry : LED_MAP_PAIR :=
  {| lm_ledName := kLedEnd; lm_ledInitState := kLedStateOff; lm_ledMask := 0;
     lm_ledActiveLow := 0; lm_ledSerial := 0; lm_ledMaskFail := 0;
     lm_ledActiveLowFail := 0; lm_ledSerialFail := 0; lm_ledlow32GPIO := GPIO_LOW32 |}.

Definition zero_entry : LED_MAP_PAIR :=
  {| lm_ledName := 0; lm_ledInitState := kLedStateOff; lm_ledMask := 0;
     lm_ledActiveLow := 0; lm_ledSerial := 0; lm_ledMaskFail := 0;
     lm_ledActiveLowFail := 0; lm_ledSerialFail := 0; lm_ledlow32GPIO := 0 |}.

Definition LedMapping : list LED_MAP_PAIR := replicate 14 end_entry ++ [zero_entry].

Definition BP_LED_FUNC : Type := option BOARD_PARAMETERS → Z * Z.

Definition bpLedInfo : list (Z * option BP_LED_FUNC * option BP_LED_FUNC) :=
  [(kLedAdsl, Some BpGetAdslLedGpio, Some BpGetAdslFailLedGpio);
   (kLedWireless, None, Some BpGetWirelessFailLedGpio);
   (kLedUsb, Some BpGetUsbLedGpio, None);
   (kLedHpna, Some BpGetHpnaLedGpio, None);
   (kLedWanData, Some BpGetWanDataLedGpio, None);
   (kLedWanDataFail, Some BpGetWanDataFailLedGpio, None);
   (kLedPPP, Some BpGetPppLedGpio, Some BpGetPppFailLedGpio);
   (kLedVoip, Some BpGetVoipLedGpio, None);
   (kLedSes, Some BpGetWirelessSesLedGpio, None);
   (kLedPower, Some BpGetBootloaderPowerOnLedGpio, Some BpGetBootloaderStopLedGpio);
   (kLedLine0, Some BpGetTelLine0LedGpio, None);
   (kLedLine1, Some BpGetTelLine1LedGpio, None);
   (kLedPSTN, Some BpGetPstnLedGpio, None);
   (kLedInternet, Some BpGetInternetLedGpio, Some BpGetInternetFailLedGpio);
   (kLedHspa, Some BpGetHspaLedGpio, Some BpGetHspaFailLedGpio)].

Definition flag (b : bool) : Z := if b then 1 else 0.

(** The normal pin of an entry, and the failure pin; the two share the field
    that says which register bank is used. *)
Definition map_normal (name gpio : Z) (e : LED_MAP_PAIR) : LED_MAP_PAIR :=
  let high := Z.land gpio GPIO_NUM_TOTAL_BITS_MASK >=? 32 in
  {| lm_ledName := name; lm_ledInitState := lm_ledInitState e;
     lm_ledMask := if high then GPIO_NUM_TO_MASK_HIGH gpio else GPIO_NUM_TO_MASK gpio;
     lm_ledActiveLow := flag (negb (Z.land gpio BP_ACTIVE_LOW =? 0));
     lm_ledSerial := flag (negb (Z.land gpio BP_GPIO_SERIAL =? 0));
     lm_ledMaskFail := lm_ledMaskFail e; lm_ledActiveLowFail := lm_ledActiveLowFail e;
     lm_ledSerialFail := lm_ledSerialFail e;
     lm_ledlow32GPIO := if high then GPIO_HIGH else lm_ledlow32GPIO e |}.

Definition map_fail (name gpio : Z) (e : LED_MAP_PAIR) : LED_MAP_PAIR :=
  let high := Z.land gpio GPIO_NUM_TOTAL_BITS_MASK >=? 32 in
  {| lm_ledName := name; lm_ledInitState := lm_ledInitState e;
     lm_ledMask := lm_ledMask e; lm_ledActiveLow := lm_ledActiveLow e;
     lm_ledSerial := lm_ledSerial e;
     lm_ledMaskFail := if high then GPIO_NUM_TO_MASK_HIGH gpio else GPIO_NUM_TO_MASK gpio;
     lm_ledActiveLowFail := flag (negb (Z.land gpio BP_ACTIVE_LOW =? 0));
     lm_ledSerialFail := flag (negb (Z.land gpio BP_GPIO_SERIAL =? 0));
     lm_ledlow32GPIO := if high then GPIO_HIGH else lm_ledlow32GPIO e |}.

(** The pin an access function reports, where there is one. *)
Definition apply_pin (f : option BP_LED_FUNC) (cur : option BOARD_PARAMETERS)
    (upd : Z → LED_MAP_PAIR → LED_MAP_PAIR) (e : LED_MAP_PAIR) : LED_MAP_PAIR :=
  match f with
  | Some f => let '(r, gpio) := f cur in if r =? BP_SUCCESS then upd gpio e else e
  | None => e
  end.

(** The loop of [brcm_board_init]; [k] is [pLedMap - LedMapping] and [None] an
    access past the array. *)
Fixpoint build_led_map (infos : list (Z * option BP_LED_FUNC * option BP_LED_FUNC))
    (cur : option BOARD_PARAMETERS) (k : nat) (arr : list LED_MAP_PAIR)
  : option (list LED_MAP_PAIR) :=
  match infos with
  | [] => Some arr
  | (name, bpFunc, bpFuncFail) :: infos' =>
      e ← arr !! k;
      let e := apply_pin bpFunc cur (map_normal name) e in
      let e := apply_pin bpFuncFail cur (map_fail name) e in
      build_led_map infos' cur (if lm_ledName e =? kLedEnd then k else S k) (<[k := e]> arr)
  end.
