(* ===== verification/LedProofs.v ===== *)
(** * The LED driver: what each operation does

    Triples for the operations of [Led.v] on one LED, in terms of the LED's
    record, the registers and the two timer flags; what stays unchanged; and a
    pure description of one timer tick of an LED ([tick_led]) that the driver's
    loop is shown to follow. *)

From stdpp Require Import base numbers list.
From Stdlib Require Import ZArith Lia.
From S2P Require Import Prelude BoardTables BoardParms Led.

(** ** Pins *)

(** The register bank of an LED: serial, pins below 32, pins from 32 on. *)
Definition bank_of (serial low32 : Z) : nat :=
  if negb (serial =? 0) then 0%nat else if low32 =? GPIO_LOW32 then 1%nat else 2%nat.

Definition bank_reg (k : nat) (r : led_regs) : Z :=
  match k with O => SerialLed r | 1%nat => GPIOio r | _ => GPIOio_high r end.

Definition put_bank (k : nat) (on : bool) (m : Z) (r : led_regs) : led_regs :=
  match k with O => put_serial on m r | 1%nat => put_low on m r | _ => put_high on m r end.

Abbreviation bank l := (bank_of (ledSerial l) (ledlow32GPIO l)).
Abbreviation bank_fail l := (bank_of (ledSerialFail l) (ledlow32GPIO l)).

Definition level (k : nat) (m : Z) (r : led_regs) : bool :=
  negb (Z.land (bank_reg k r) m =? 0).

Lemma pin_set_level l r : pin_set l r = level (bank l) (ledMask l) r.
Proof. unfold pin_set, level, bank_of. by repeat case_match. Qed.

Lemma bank_le s g : (bank_of s g ≤ 2)%nat.
Proof. unfold bank_of. repeat case_match; lia. Qed.

Lemma land_put_same on m v : m ≠ 0 → negb (Z.land (put_bits on m v) m =? 0) = on.
Proof.
  intros Hm. destruct on; simpl.
  - replace (Z.land (Z.lor v m) m) with m; [by apply negb_true_iff, Z.eqb_neq|].
    apply Z.bits_inj'. intros n _. rewrite Z.land_spec, Z.lor_spec.
    by destruct (Z.testbit v n), (Z.testbit m n).
  - replace (Z.land (Z.land v (Z.lnot m)) m) with 0; [done|].
    apply Z.bits_inj'. intros n Hn.
    rewrite !Z.land_spec, Z.lnot_spec, Z.bits_0 by done.
    by destruct (Z.testbit v n), (Z.testbit m n).
Qed.

Lemma land_put_other on m m' v :
  Z.land m m' = 0 → Z.land (put_bits on m v) m' = Z.land v m'.
Proof.
  intros H. apply Z.bits_inj'. intros n Hn.
  pose proof (f_equal (λ z, Z.testbit z n) H) as Hb. cbn beta in Hb.
  rewrite Z.land_spec, Z.bits_0 in Hb.
  destruct on; simpl; rewrite ?Z.land_spec, ?Z.lor_spec, ?Z.lnot_spec by done;
    by destruct (Z.testbit v n), (Z.testbit m n), (Z.testbit m' n).
Qed.

Lemma level_put_same k on m r : (k ≤ 2)%nat → m ≠ 0 → level k m (put_bank k on m r) = on.
Proof. intros Hk Hm. unfold level. by destruct k as [|[|k]]; apply land_put_same. Qed.

(** Pins of different banks, or of disjoint masks, do not disturb each other. *)
Lemma level_put_other k k' on m m' r : (k ≤ 2)%nat → (k' ≤ 2)%nat →
  k ≠ k' ∨ Z.land m m' = 0 → level k' m' (put_bank k on m r) = level k' m' r.
Proof.
  intros Hk Hk' H. unfold level. do 2 f_equal.
  destruct (decide (k = k')) as [<-|Hne].
  - destruct H as [?|H]; [done|]. destruct k as [|[|k]]; by apply land_put_other.
  - destruct k as [|[|k]], k' as [|[|k']]; try done; lia.
Qed.

(** ** One LED in the state

    [at_led i s0 l r t b s]: the state [s] is [s0] with LED [i] equal to [l],
    registers [r] and timer flags [t] and [b] (reads of the serial register and
    calls of hardware handlers apart). *)
Definition fixed (s0 s : lstate) : Prop :=
  gLedCount s = gLedCount s0 ∧ gpVirtLeds s = gpVirtLeds s0 ∧
  gLedHwFunc s = gLedHwFunc s0 ∧ gLedHwFailFunc s = gLedHwFailFunc s0 ∧
  g_nEquipTestMode s = g_nEquipTestMode s0.

Record at_led (i : nat) (s0 : lstate) (l : LED_INFO) (r : led_regs) (t b : bool)
    (s : lstate) : Prop := {
  at_leds : gLed s = <[i := l]> (gLed s0);
  at_regs : regs s = r;
  at_timer : gTimerOn s = t;
  at_once : gBlinkOnceTimerOn s = b;
  at_fixed : fixed s0 s
}.

Lemma at_led_refl i s l :
  gLed s !! i = Some l → at_led i s l (regs s) (gTimerOn s) (gBlinkOnceTimerOn s) s.
Proof. intros H. split; try done. by rewrite list_insert_id. Qed.

(** The serial register stops being busy within [polls] reads. *)
Definition serial_ready (ctl : nat → Z) (polls : nat) : Prop :=
  ∀ k, ∃ j, (j < polls)%nat ∧ Z.land (ctl (k + j)%nat) SER_LED_BUSY = 0.

(** ** The pure effect of an operation on an LED *)

Definition set_pin (l : LED_INFO) (o : option bool) (r : led_regs) : led_regs :=
  match o with Some on => put_bank (bank l) on (ledMask l) r | None => r end.

Definition led_on (l : LED_INFO) : LED_INFO :=
  if ledMask l =? 0 then l else with_states kLedStateOn kLedStateOn l.

Definition continues (st : BOARD_LED_STATE) : bool :=
  bool_decide (st = kLedStateSlowBlinkContinues ∨ st = kLedStateFastBlinkContinues).

Definition blink_tick (count : Z) (l : LED_INFO) (lv : bool)
  : LED_INFO * option bool * bool :=
  if blinkCountDown l =? 0 then (with_blink count l, Some (negb lv), true)
  else (with_blink (dec (blinkCountDown l)) l, None, true).

Definition flicker_tick (l : LED_INFO) (lv : bool) : LED_INFO * option bool * bool :=
  if FlickerCount l >? 0 then
    if blinkCountDown l =? 0 then
      (with_states (ledState l) (toggled_state l lv)
         (with_counts (if decide (kLedStateSlowFlickerOnce = ledState l)
                       then kSlowBlinkCount else kFastBlinkCount)
            (dec (FlickerCount l)) (PauseCount l) l),
       Some (negb lv), true)
    else (with_counts (dec (blinkCountDown l)) (dec (FlickerCount l)) (PauseCount l) l,
          None, true)
  else if PauseCount l >? 0 then
    let tog := bool_decide (savedLedState l = kLedStateOn) in
    let l1 := with_states (ledState l) (if tog then toggled_state l lv else savedLedState l)
                (with_counts (blinkCountDown l) (dec (FlickerCount l)) (dec (PauseCount l)) l) in
    (if (dec (PauseCount l) =? 0) &&
        bool_decide (kLedStateFastFlickerOnce = nextFlickerState l)
     then with_next kLedStateOn (with_counts kFastBlinkCount 8 8
            (with_states kLedStateFastFlickerOnce (savedLedState l1) l1))
     else l1,
     if tog then Some (negb lv) else None, true)
  else
    (led_on (with_counts (blinkCountDown l) (dec (FlickerCount l)) (dec (PauseCount l)) l),
     if ledMask l =? 0 then None else Some (ledActiveLow l =? 0), true).

(** One timer tick of LED [l] whose pin is at level [lv]: the LED afterwards,
    the level its pin is driven to (if it is driven), and whether the timer is
    started again for it. *)
Definition tick_led (l : LED_INFO) (lv : bool) : LED_INFO * option bool * bool :=
  match ledState l with
  | kLedStateOn | kLedStateOff | kLedStateFail => (with_counts 0 0 0 l, None, false)
  | kLedStateBlinkOnce =>
      (with_states (savedLedState l) (savedLedState l) (with_blink 0 l),
       Some (negb lv), continues (savedLedState l))
  | kLedStateSlowFlickerOnce | kLedStateFastFlickerOnce => flicker_tick l lv
  | kLedStateVerySlowBlinkContiunes => blink_tick kVerySlowBlinkCount l lv
  | kLedStateSlowBlinkContinues => blink_tick kSlowBlinkCount l lv
  | kLedStateFastBlinkContinues => blink_tick kFastBlinkCount l lv
  | kLedStateSlowFlickerOnce_Pause | kLedStateFastFlickerOnce_Pause => (l, None, false)
  end.

(** [tlast H]: the program is the one of the triple [H]; the pre- and
    postconditions agree by computation. *)
Tactic Notation "tlast" uconstr(H) :=
  refine (triple_conseq _ _ _ _ _ H (λ s Hs, Hs) (λ a s Hs, Hs)).

Section ops.
Context (ctl : nat → Z) (polls : nat) (Hser : serial_ready ctl polls).
Context (i : nat) (s0 : lstate) (Hi : (i < length (gLed s0))%nat).
Abbreviation at_ l r t b := (at_led i s0 l r t b).

(** A triple whose action returns a known value. *)
Abbreviation becomes P m v Q := (triple P m (λ a s, a = v ∧ Q s)).

Lemma serial_wait_ready n k j s :
  Z.land (ctl (k + j)%nat) SER_LED_BUSY = 0 → ser_reads s = k → (j < n)%nat →
  ∃ m, serial_wait ctl n s = Done (tt, set_trace m (hw_calls s) s).
Proof.
  revert k j s. induction n as [|n IH]; intros k j s Hb Hk Hj; [lia|].
  cbn [serial_wait]. rewrite bind_gets, bind_modify, Hk.
  destruct (Z.land (ctl k) SER_LED_BUSY =? 0) eqn:E; [by eexists|].
  destruct j as [|j]; [rewrite Nat.add_0_r in Hb; lia|].
  destruct (IH (S k) j (set_trace (S k) (hw_calls s) s)) as [m Hm];
    [by rewrite <- Nat.add_succ_comm in Hb|done|lia|].
  exists m. by rewrite Hm.
Qed.

Lemma t_serial_wait l r t b :
  becomes (at_ l r t b) (serial_wait ctl polls) tt (at_ l r t b).
Proof.
  intros s [????]. destruct (Hser (ser_reads s)) as (j&Hj&Hb).
  destruct (serial_wait_ready polls _ _ s Hb eq_refl Hj) as [m Hm].
  exists tt, (set_trace m (hw_calls s) s). by split_and!.
Qed.

Lemma t_get_led l r t b : becomes (at_ l r t b) (get_led i) l (at_ l r t b).
Proof.
  intros s H. exists l, s. split; [|done]. unfold get_led. rewrite bind_get.
  by rewrite (at_leds _ _ _ _ _ _ _ H), list_lookup_insert_eq.
Qed.

Lemma t_upd_led f l r t b : becomes (at_ l r t b) (upd_led i f) tt (at_ (f l) r t b).
Proof.
  intros s H. destruct (t_get_led l r t b s H) as (a&s'&E&->&H').
  assert (s' = s) as ->.
  { unfold get_led in E. rewrite bind_get in E.
    unfold of_option, fault, mret, M_ret in E. case_match; by simplify_eq. }
  eexists tt, _. split; [unfold upd_led; mstep E; reflexivity|].
  split; [done|]. destruct H as [Hl ? ? ? ?]. split; try done.
  simpl. by rewrite Hl, list_insert_insert_eq.
Qed.

Lemma t_regs f l r t b : becomes (at_ l r t b) (modify (set_regs f)) tt (at_ l (f r) t b).
Proof. intros s []. eexists tt, _. split; [done|]. split; [done|]. split; try done. by f_equal/=. Qed.

Lemma t_ledTimerStart l r t b : becomes (at_ l r t b) ledTimerStart tt (at_ l r true b).
Proof.
  intros s H. unfold ledTimerStart. rewrite bind_gets. destruct H.
  destruct (gTimerOn s) eqn:E; (eexists tt, _; split; [reflexivity|]; split; [done|]; by split).
Qed.

Lemma t_blinkOnceTimerStart l r t b :
  becomes (at_ l r t b) blinkOnceTimerStart tt (at_ l r t true).
Proof.
  intros s H. unfold blinkOnceTimerStart. rewrite bind_gets. destruct H.
  destruct (gBlinkOnceTimerOn s) eqn:E; (eexists tt, _; split; [reflexivity|]; split; [done|]; by split).
Qed.

Lemma t_call_hw h name st l r t b :
  becomes (at_ l r t b) (call_hw h name st) tt (at_ l r t b).
Proof. intros s []. eexists tt, _. split; [reflexivity|]. split; [done|]. by split. Qed.

Lemma t_call_hw_if h name st l r t b :
  becomes (at_ l r t b) (call_hw_if h name st) tt (at_ l r t b).
Proof. destruct h; [apply t_call_hw|]. by apply triple_ret. Qed.

Lemma t_drive serial low32 m on l r t b :
  becomes (at_ l r t b) (drive ctl polls serial low32 m on) tt
    (at_ l (put_bank (bank_of serial low32) on m r) t b).
Proof.
  unfold drive, bank_of. destruct (negb (serial =? 0)).
  - eapply triple_bind_eq; [apply t_serial_wait|apply t_regs].
  - destruct (low32 =? GPIO_LOW32); apply t_regs.
Qed.

(** [ledOn] and its three siblings: a pin that is not defined is left alone,
    the state included. *)
Lemma t_ledOn l r t b :
  becomes (at_ l r t b) (ledOn ctl polls i) tt
    (at_ (led_on l)
       (set_pin l (if ledMask l =? 0 then None else Some (ledActiveLow l =? 0)) r) t b).
Proof.
  unfold ledOn, led_on. eapply triple_bind_eq; [apply t_get_led|].
  destruct (ledMask l =? 0); [by apply triple_ret|].
  eapply triple_bind_eq; [apply t_drive|apply t_upd_led].
Qed.

Lemma t_ledOff l r t b :
  becomes (at_ l r t b) (ledOff ctl polls i) tt
    (at_ (if ledMask l =? 0 then l else with_states kLedStateOff kLedStateOff l)
       (set_pin l (if ledMask l =? 0 then None else Some (negb (ledActiveLow l =? 0))) r) t b).
Proof.
  unfold ledOff. eapply triple_bind_eq; [apply t_get_led|].
  destruct (ledMask l =? 0); [by apply triple_ret|].
  eapply triple_bind_eq; [apply t_drive|apply t_upd_led].
Qed.

Lemma t_ledOnFail l r t b :
  becomes (at_ l r t b) (ledOnFail ctl polls i) tt
    (at_ (if ledMaskFail l =? 0 then l else with_states kLedStateFail kLedStateFail l)
       (if ledMaskFail l =? 0 then r else
        put_bank (bank_fail l) (ledActiveLowFail l =? 0) (ledMaskFail l) r) t b).
Proof.
  unfold ledOnFail. eapply triple_bind_eq; [apply t_get_led|].
  destruct (ledMaskFail l =? 0); [by apply triple_ret|].
  eapply triple_bind_eq; [apply t_drive|apply t_upd_led].
Qed.

Lemma t_ledOffFail l r t b :
  becomes (at_ l r t b) (ledOffFail ctl polls i) tt
    (at_ (if ledMaskFail l =? 0 then l else with_states kLedStateOff kLedStateOff l)
       (if ledMaskFail l =? 0 then r else
        put_bank (bank_fail l) (negb (ledActiveLowFail l =? 0)) (ledMaskFail l) r) t b).
Proof.
  unfold ledOffFail. eapply triple_bind_eq; [apply t_get_led|].
  destruct (ledMaskFail l =? 0); [by apply triple_ret|].
  eapply triple_bind_eq; [apply t_drive|apply t_upd_led].
Qed.

Lemma t_ledToggle l r t b :
  becomes (at_ l r t b) (ledToggle ctl polls i) (toggled_state l (pin_set l r))
    (at_ l (set_pin l (Some (negb (pin_set l r))) r) t b).
Proof.
  unfold ledToggle. eapply triple_bind_eq; [apply t_get_led|].
  eapply (triple_bind_eq _ _ tt (at_ l r t b)).
  { destruct (negb (ledSerial l =? 0)); [apply t_serial_wait|by apply triple_ret]. }
  eapply (triple_bind_eq _ _ (pin_set l r)).
  { intros s H. exists (pin_set l (regs s)), s. split; [done|].
    by rewrite (at_regs _ _ _ _ _ _ _ H). }
  eapply (triple_bind_eq _ _ tt (at_ l (set_pin l (Some (negb (pin_set l r))) r) t b)).
  { unfold set_pin, bank_of. destruct (negb (ledSerial l =? 0)); [apply t_regs|].
    destruct (ledlow32GPIO l =? GPIO_LOW32); apply t_regs. }
  by apply triple_ret.
Qed.

(** ** One tick follows [tick_led] *)

Lemma t_blink_continues count l r t b :
  let '(l', o, _) := blink_tick count l (pin_set l r) in
  becomes (at_ l r t b) (blink_continues ctl polls i count) tt
    (at_ l' (set_pin l o r) true b).
Proof.
  unfold blink_continues, blink_tick. destruct (blinkCountDown l =? 0) eqn:E;
    (eapply triple_bind_eq; [apply t_get_led|]);
    (eapply triple_bind_eq; [apply t_upd_led|]); rewrite E.
  - eapply (triple_bind_eq _ _ tt); [|apply t_ledTimerStart].
    eapply triple_bind_eq; [apply t_upd_led|]. eapply triple_bind_eq; [apply t_ledToggle|].
    by apply triple_ret.
  - eapply (triple_bind_eq _ _ tt); [|apply t_ledTimerStart]. by apply triple_ret.
Qed.

Lemma t_flicker_once l r t b :
  let '(l', o, _) := flicker_tick l (pin_set l r) in
  becomes (at_ l r t b) (flicker_once ctl polls i) tt (at_ l' (set_pin l o r) true b).
Proof.
  unfold flicker_tick. destruct (FlickerCount l >? 0) eqn:EF;
    [destruct (blinkCountDown l =? 0) eqn:EB|destruct (PauseCount l >? 0) eqn:EP];
    (eapply triple_bind_eq; [apply t_get_led|]);
    (eapply triple_bind_eq; [apply t_upd_led|]); rewrite EF;
    (eapply (triple_bind_eq _ _ tt); [|apply t_ledTimerStart]).
  - eapply triple_bind_eq; [apply t_upd_led|]. rewrite EB.
    eapply triple_bind_eq; [apply t_upd_led|].
    eapply triple_bind_eq; [apply t_ledToggle|]. tlast (t_upd_led _ _ _ _ _).
  - eapply triple_bind_eq; [apply t_upd_led|]. rewrite EB. by apply triple_ret.
  - eapply triple_bind_eq; [apply t_upd_led|]. rewrite EP.
    eapply (triple_bind_eq _ _ tt (at_
        (with_states (ledState l)
           (if bool_decide (savedLedState l = kLedStateOn)
            then toggled_state l (pin_set l r) else savedLedState l)
           (with_counts (blinkCountDown l) (dec (FlickerCount l)) (dec (PauseCount l)) l))
        (set_pin l (if bool_decide (savedLedState l = kLedStateOn)
                    then Some (negb (pin_set l r)) else None) r) t b)).
    + case_bool_decide; [rewrite decide_True by done|rewrite decide_False by done].
      * eapply triple_bind_eq; [apply t_ledToggle|]. tlast (t_upd_led _ _ _ _ _).
      * by apply triple_ret.
    + destruct (_ && _); [tlast (t_upd_led _ _ _ _ _)|by apply triple_ret].
  - eapply triple_bind_eq; [apply t_upd_led|]. rewrite EP. tlast (t_ledOn _ _ _ _).
Qed.

Definition once_after (l : LED_INFO) (b : bool) : bool :=
  bool_decide (ledState l = kLedStateBlinkOnce) || b.

Lemma t_led_tick l r t b :
  let '(l', o, again) := tick_led l (pin_set l r) in
  becomes (at_ l r t b) (led_tick ctl polls i) tt
    (at_ l' (set_pin l o r) (again || t) (once_after l b)).
Proof.
  pose proof (λ c, t_blink_continues c l r t b) as HB. cbn beta in HB.
  pose proof (t_flicker_once l r t b) as HF.
  assert (∀ c, (blink_tick c l (pin_set l r)).2 = true) as HB2
    by (intros c; unfold blink_tick; by destruct (blinkCountDown l =? 0)).
  assert ((flicker_tick l (pin_set l r)).2 = true) as HF2
    by (unfold flicker_tick; destruct (FlickerCount l >? 0);
        [by destruct (blinkCountDown l =? 0)|by destruct (PauseCount l >? 0)]).
  destruct (tick_led l (pin_set l r)) as [[l' o] again] eqn:ET.
  unfold led_tick, tick_led, once_after in *.
  eapply triple_bind_eq; [apply t_get_led|].
  destruct (ledState l); simplify_eq/=; try apply t_upd_led; try by apply triple_ret.
  - eapply triple_bind_eq; [apply t_blinkOnceTimerStart|].
    eapply triple_bind_eq; [apply t_ledToggle|]. eapply triple_bind_eq; [apply t_upd_led|].
    unfold continues. case_bool_decide.
    + rewrite decide_True by done. apply t_ledTimerStart.
    + rewrite decide_False by done. by apply triple_ret.
  - rewrite ET in *. simpl in *. by subst.
  - rewrite ET in *. simpl in *. by subst.
  - specialize (HB kVerySlowBlinkCount). specialize (HB2 kVerySlowBlinkCount).
    rewrite ET in *. simpl in *. by subst.
  - specialize (HB kSlowBlinkCount). specialize (HB2 kSlowBlinkCount).
    rewrite ET in *. simpl in *. by subst.
  - specialize (HB kFastBlinkCount). specialize (HB2 kFastBlinkCount).
    rewrite ET in *. simpl in *. by subst.
Qed.
End ops.

(** ** The timer's loop *)

(** Whether a tick of [l] starts the timer again: it does not depend on the
    level of the pin. *)
Definition restarts (l : LED_INFO) : bool := (tick_led l false).2.

(** The level of an LED's pin after it is driven to [o]. *)
Definition new_level (l : LED_INFO) (o : option bool) (lv : bool) : bool :=
  match o with Some on => negb (ledMask l =? 0) && on | None => lv end.

(** The driver's view of the pin of [l] is not disturbed by driving [l']. *)
Definition apart (l' l : LED_INFO) : Prop :=
  bank l' ≠ bank l ∨ Z.land (ledMask l') (ledMask l) = 0.

(** The wiring of an LED, which no operation but the initialisation changes. *)
Definition same_wiring (l l' : LED_INFO) : Prop :=
  ledMask l' = ledMask l ∧ ledActiveLow l' = ledActiveLow l ∧
  ledSerial l' = ledSerial l ∧ ledMaskFail l' = ledMaskFail l ∧
  ledActiveLowFail l' = ledActiveLowFail l ∧ ledSerialFail l' = ledSerialFail l ∧
  ledlow32GPIO l' = ledlow32GPIO l.

Lemma tick_led_restarts l lv : (tick_led l lv).2 = restarts l.
Proof.
  unfold restarts, tick_led, blink_tick, flicker_tick.
  destruct (ledState l); try done; destruct (FlickerCount l >? 0), (PauseCount l >? 0),
    (blinkCountDown l =? 0); done.
Qed.

Lemma tick_led_wiring l lv : same_wiring l (tick_led l lv).1.1.
Proof.
  unfold tick_led, blink_tick, flicker_tick, led_on.
  destruct (ledState l); try done; destruct (FlickerCount l >? 0), (PauseCount l >? 0),
    (blinkCountDown l =? 0); try done; cbn [fst];
    by destruct (_ && _) || destruct (_ =? 0).
Qed.

Lemma pin_set_wiring l l' r : same_wiring l l' → pin_set l' r = pin_set l r.
Proof. intros (E1&_&E3&_&_&_&E7). unfold pin_set. by rewrite E1, E3, E7. Qed.

Lemma level_zero k r : level k 0 r = false.
Proof. unfold level. by rewrite Z.land_0_r. Qed.

Lemma set_pin_same l o r : pin_set l (set_pin l o r) = new_level l o (pin_set l r).
Proof.
  destruct o as [on|]; [|done]. cbn [set_pin new_level]. rewrite pin_set_level.
  destruct (ledMask l =? 0) eqn:E.
  - apply Z.eqb_eq in E. by rewrite E, level_zero.
  - apply Z.eqb_neq in E. by rewrite level_put_same; [|apply bank_le|].
Qed.

Lemma set_pin_level l o r k m : (k ≤ 2)%nat →
  bank l ≠ k ∨ Z.land (ledMask l) m = 0 → level k m (set_pin l o r) = level k m r.
Proof.
  intros Hk H. destruct o as [on|]; [|done].
  apply level_put_other; [apply bank_le|done|done].
Qed.

Lemma set_pin_other l l' o r : apart l' l → pin_set l (set_pin l' o r) = pin_set l r.
Proof. intros H. rewrite !pin_set_level. apply set_pin_level; [apply bank_le|done]. Qed.

(** The pins of the LEDs from [i] on other than [j] are apart from [l]'s. *)
Definition alone (s : lstate) (i j : nat) (l : LED_INFO) : Prop :=
  ∀ j' l', (i ≤ j')%nat → j' ≠ j → gLed s !! j' = Some l' → apart l' l.

(** LED [j], [l] before: what the loop makes of it. *)
Definition ticked (s s' : lstate) (i j : nat) (l : LED_INFO) : Prop :=
  ∃ lv, gLed s' !! j = Some (tick_led l lv).1.1 ∧
    (alone s i j l → lv = pin_set l (regs s) ∧
       pin_set l (regs s') = new_level l (tick_led l lv).1.2 lv).

Section loop.
Context (ctl : nat → Z) (polls : nat) (Hser : serial_ready ctl polls).

Lemma led_tick_step i s l :
  gLed s !! i = Some l →
  ∃ s', led_tick ctl polls i s = Done (tt, s') ∧
    at_led i s (tick_led l (pin_set l (regs s))).1.1
      (set_pin l (tick_led l (pin_set l (regs s))).1.2 (regs s))
      (restarts l || gTimerOn s) (once_after l (gBlinkOnceTimerOn s)) s'.
Proof.
  intros Hl. pose proof (lookup_lt_Some _ _ _ Hl) as Hi.
  pose proof (t_led_tick ctl polls Hser i s Hi l (regs s) (gTimerOn s)
    (gBlinkOnceTimerOn s)) as H.
  rewrite <- (tick_led_restarts l (pin_set l (regs s))).
  destruct (tick_led l (pin_set l (regs s))) as [[l' o] again].
  destruct (H s (at_led_refl _ _ _ Hl)) as ([]&s'&E&_&H'). by exists s'.
Qed.

Lemma fixed_trans s1 s2 s3 : fixed s1 s2 → fixed s2 s3 → fixed s1 s3.
Proof. unfold fixed. intuition congruence. Qed.

Lemma tick_loop_spec n : ∀ i s,
  (i + n)%nat = length (gLed s) →
  ∃ s', tick_loop ctl polls i n s = Done (tt, s') ∧
    length (gLed s') = length (gLed s) ∧ fixed s s' ∧
    (∀ j, (j < i)%nat → gLed s' !! j = gLed s !! j) ∧
    (∀ j l, (i ≤ j)%nat → gLed s !! j = Some l → ticked s s' i j l) ∧
    (∀ l, alone s i (length (gLed s)) l → pin_set l (regs s') = pin_set l (regs s)) ∧
    gTimerOn s' = existsb restarts (drop i (gLed s)) || gTimerOn s.
Proof.
  induction n as [|n IH]; intros i s Hn.
  - exists s. rewrite drop_ge by lia. split_and!; try done.
    intros j l Hj Hl. apply lookup_lt_Some in Hl. lia.
  - destruct (lookup_lt_is_Some_2 (gLed s) i) as [l Hl]; [lia|].
    destruct (led_tick_step i s l Hl) as (s1&E1&[Hs1 Hr1 Ht1 _ Hf1]).
    assert (∀ j, j ≠ i → gLed s1 !! j = gLed s !! j) as Hoth
      by (intros j Hj; by rewrite Hs1, list_lookup_insert_ne).
    assert (length (gLed s1) = length (gLed s)) as Hlen by (by rewrite Hs1, length_insert).
    destruct (IH (S i) s1) as (s2&E2&Hlen2&Hf2&Hlow&Hhigh&Hpin&Ht2); [lia|].
    assert (∀ j l', alone s i j l' → alone s1 (S i) j l') as Halone.
    { intros j l' H j' l'' Hj' Hne Hl''. rewrite Hoth in Hl'' by lia.
      apply (H j' l''); [lia|done..]. }
    exists s2. split; [cbn [tick_loop]; by mstep E1|].
    split; [congruence|]. split; [by eapply fixed_trans|].
    split; [intros j Hj; rewrite Hlow by lia; apply Hoth; lia|]. split_and!.
    + intros j l' Hj Hl'. destruct (decide (j = i)) as [->|Hne].
      * replace l' with l in * by congruence. exists (pin_set l (regs s)).
        split; [by rewrite Hlow, Hs1, list_lookup_insert_eq by lia|].
        intros Ha. split; [done|]. rewrite Hpin, Hr1; [apply set_pin_same|].
        intros j' l'' Hj' Hne Hl''. rewrite Hoth in Hl'' by lia.
        apply (Ha j' l''); [lia..|done].
      * destruct (Hhigh j l') as (lv&Hlv&Hal); [lia|by rewrite Hoth|].
        exists lv. split; [done|]. intros Ha. destruct (Hal (Halone _ _ Ha)) as [-> ?].
        split; [|done]. rewrite Hr1. apply set_pin_other. by apply (Ha i).
    + intros l' Ha. rewrite Hpin, Hr1.
      * apply set_pin_other. apply (Ha i); [lia| |done]. apply lookup_lt_Some in Hl. lia.
      * rewrite Hlen. by apply Halone.
    + rewrite Ht2, Ht1, (drop_S _ _ _ Hl), Hs1, drop_insert_lt by lia. cbn [existsb].
      rewrite orb_assoc. f_equal. apply orb_comm.
Qed.
End loop.
