(* ===== verification/LedClaims.v ===== *)
(** * The LED driver: its guarantees

    The timer advances the LEDs independently; blinking has the period of its
    countdown and a flicker ends with the LED lit; steady states drive the
    normal and the failure pin apart; every state reachable from the boot of a
    board keeps the driver's invariant; and two defects of the control
    function. *)

From stdpp Require Import base numbers list strings.
From Stdlib Require Import ZArith Lia.
From S2P Require Import Prelude BoardTables BoardParms Led LedProofs.

(** ** Well-formed driver states *)

Record led_wf (s : lstate) : Prop := {
  wf_virt : length (gpVirtLeds s) = 15%nat;
  wf_hw : length (gLedHwFunc s) = 15%nat;
  wf_hwfail : length (gLedHwFailFunc s) = 15%nat;
  wf_count : gLedCount s = Z.of_nat (length (gLed s));
  wf_ptr : ∀ j i, gpVirtLeds s !! j = Some (Some i) → (i < length (gLed s))%nat
}.

Lemma led_wf_fixed s s' :
  fixed s s' → length (gLed s') = length (gLed s) → led_wf s → led_wf s'.
Proof.
  intros (E1&E2&E3&E4&_) El []. split; rewrite ?E1, ?E2, ?E3, ?E4, ?El; done.
Qed.

Section expire.
Context (ctl : nat → Z) (polls : nat) (Hser : serial_ready ctl polls).

Lemma expire_spec s :
  led_wf s →
  ∃ s', ledTimerExpire ctl polls s = Done (tt, s') ∧
    length (gLed s') = length (gLed s) ∧ fixed s s' ∧
    (∀ j l, gLed s !! j = Some l → ticked s s' 0 j l) ∧
    gTimerOn s' = existsb restarts (gLed s).
Proof.
  intros Hwf. set (s1 := set_timers false (gBlinkOnceTimerOn s) s).
  destruct (tick_loop_spec ctl polls Hser (length (gLed s)) 0 s1)
    as (s'&E&Hl&Hf&_&Ht&_&Htm); [done|].
  exists s'. split.
  { unfold ledTimerExpire. rewrite bind_modify, bind_gets. fold s1.
    change (gLedCount s1) with (gLedCount s).
    rewrite (wf_count s Hwf), Nat2Z.id. exact E. }
  split_and!; [done|done| |by rewrite Htm, orb_false_r].
  intros j l Hj. destruct (Ht j l) as (lv&?&?); [lia|done|]. by exists lv.
Qed.

(** [n] expirations of the LED timer. *)
Fixpoint expires (n : nat) : M lstate unit :=
  match n with
  | O => mret tt
  | S n' => ledTimerExpire ctl polls;; expires n'
  end.
End expire.

(** [n] ticks of one LED, from its record and the level of its pin. *)
Fixpoint ticks (n : nat) (l : LED_INFO) (lv : bool) : LED_INFO * bool :=
  match n with
  | O => (l, lv)
  | S n' =>
      let '(l', o, _) := tick_led l lv in ticks n' l' (new_level l o lv)
  end.

Lemma apart_wiring l1 l2 l1' l2' :
  same_wiring l1 l1' → same_wiring l2 l2' → apart l1 l2 → apart l1' l2'.
Proof.
  intros (E1&_&E2&_&_&_&E3) (F1&_&F2&_&_&_&F3). unfold apart.
  by rewrite E1, E2, E3, F1, F2, F3.
Qed.

Section claims.
Context (ctl : nat → Z) (polls : nat).

(** [C25] The LED timer treats the LEDs independently: when no two LEDs share a
    pin, one expiration of the timer returns, changes every LED record and the
    level of its pin by [tick_led], and leaves the timer running exactly if
    some LED asked for it. *)
Theorem ledTimerExpire_refines s :
  serial_ready ctl polls → led_wf s →
  (∀ i l, gLed s !! i = Some l → alone s 0 i l) →
  ∃ s', ledTimerExpire ctl polls s = Done (tt, s') ∧
    length (gLed s') = length (gLed s) ∧
    (∀ i l, gLed s !! i = Some l →
       ∃ l' o again, tick_led l (pin_set l (regs s)) = (l', o, again) ∧
         gLed s' !! i = Some l' ∧
         pin_set l' (regs s') = new_level l o (pin_set l (regs s))) ∧
    gTimerOn s' = existsb restarts (gLed s) ∧ led_wf s'.
Proof.
  intros Hser Hwf Ha. destruct (expire_spec ctl polls Hser s Hwf) as (s'&E&Hl&Hf&Ht&Htm).
  exists s'. split_and!; [done..| |done|by eapply led_wf_fixed].
  intros i l Hi. destruct (Ht i l Hi) as (lv&Hs&Hp). destruct (Hp (Ha i l Hi)) as [-> Hp'].
  pose proof (tick_led_wiring l (pin_set l (regs s))) as Hw.
  destruct (tick_led l _) as [[l' o] again]. exists l', o, again.
  split_and!; [done..|]. by rewrite (pin_set_wiring l).
Qed.

Lemma expires_refines n s i l :
  serial_ready ctl polls → led_wf s → gLed s !! i = Some l → alone s 0 i l →
  ∃ s', expires ctl polls n s = Done (tt, s') ∧ led_wf s' ∧
    gLed s' !! i = Some (ticks n l (pin_set l (regs s))).1 ∧
    pin_set l (regs s') = (ticks n l (pin_set l (regs s))).2.
Proof.
  intros Hser. revert s l. induction n as [|n IH]; intros s l Hwf Hl Ha; [by exists s|].
  destruct (expire_spec ctl polls Hser s Hwf) as (s1&E&Hlen&Hf&Ht&_).
  destruct (Ht i l Hl) as (lv&Hs&Hp). destruct (Hp Ha) as [-> Hp']. clear Hp.
  pose proof (tick_led_wiring l (pin_set l (regs s))) as Hw.
  destruct (IH s1 (tick_led l (pin_set l (regs s))).1.1) as (s2&E2&Hwf2&Hl2&Hp2);
    [by eapply led_wf_fixed|done| |].
  { intros j' l' _ Hne Hl'. destruct (lookup_lt_is_Some_2 (gLed s) j') as [l0 Hl0].
    { rewrite <- Hlen. by eapply lookup_lt_Some. }
    destruct (Ht j' l0 Hl0) as (lv'&Hs'&_).
    assert (l' = (tick_led l0 lv').1.1) as -> by congruence.
    eapply apart_wiring; [apply tick_led_wiring|done|]. by apply (Ha j'); [lia|..]. }
  exists s2. cbn [expires ticks]. split; [by mstep E|]. split; [done|].
  rewrite (pin_set_wiring _ _ _ Hw) in Hl2. rewrite !(pin_set_wiring _ _ _ Hw) in Hp2.
  destruct (tick_led l _) as [[l' o] again]. cbn [fst snd] in *. by rewrite Hp' in Hl2, Hp2.
Qed.

(** ** Requests on an LED without hardware handlers *)

(** LED [i], with record [l], answers to [name], and no hardware handler is
    registered for it. *)
Definition gpio_led (s : lstate) (name : Z) (i : nat) (l : LED_INFO) : Prop :=
  0 ≤ name < MAX_VIRT_LEDS ∧ gpVirtLeds s !! Z.to_nat name = Some (Some i) ∧
  gLed s !! i = Some l ∧ gLedHwFunc s !! Z.to_nat name = Some None ∧
  gLedHwFailFunc s !! Z.to_nat name = Some None.

Lemma arr_get_Some {A} (a : list A) k x s :
  0 ≤ k → a !! Z.to_nat k = Some x → arr_get a k s = Done (x, s).
Proof.
  intros Hk H. unfold arr_get. destruct (k <? 0) eqn:E; [lia|]. by rewrite H.
Qed.

Lemma bind_get_led {B} (f : LED_INFO → M lstate B) s i l :
  gLed s !! i = Some l → (get_led i ≫= f) s = f l s.
Proof. intros H. unfold get_led. by rewrite bind_assoc, bind_get, H. Qed.

(** The hardware part of [boardLedCtrl] leaves such an LED to the [switch]. *)
Lemma boardLedCtrl_gpio s name i l st :
  gpio_led s name i l →
  boardLedCtrl ctl polls name st s =
    ctrl_led ctl polls name i
      (if bool_decide (st = kLedStateFail) && (ledMaskFail l =? 0)
       then kLedStateSlowBlinkContinues else st) s.
Proof.
  intros (Hn&Hv&Hl&Hf&Hff). unfold boardLedCtrl. rewrite bind_gets.
  destruct (name <? MAX_VIRT_LEDS) eqn:E; [|lia].
  mstep (arr_get_Some _ _ _ s (proj1 Hn) Hv).
  assert (ctrl_hw ctl polls name (Some i) st s = Done (false, s)) as Hhw.
  { unfold ctrl_hw. rewrite !bind_gets. destruct (decide (st = kLedStateFail)).
    - by mstep (arr_get_Some _ _ _ s (proj1 Hn) Hff).
    - by mstep (arr_get_Some _ _ _ s (proj1 Hn) Hf). }
  mstep Hhw. by rewrite (bind_get_led _ _ _ _ Hl).
Qed.

(** The blinking states and their countdown. *)
Definition blink_count (st : BOARD_LED_STATE) : option nat :=
  match st with
  | kLedStateVerySlowBlinkContiunes => Some 3%nat
  | kLedStateSlowBlinkContinues => Some 1%nat
  | kLedStateFastBlinkContinues => Some 0%nat
  | _ => None
  end.

Lemma ctrl_led_blink s name i l st c :
  blink_count st = Some c → gLed s !! i = Some l →
  ∃ s', ctrl_led ctl polls name i st s = Done (tt, s') ∧
    at_led i s (with_states st st (with_blink (Z.of_nat c) l)) (regs s) true
      (gBlinkOnceTimerOn s) s'.
Proof.
  intros Hc Hl. pose proof (lookup_lt_Some _ _ _ Hl) as Hi.
  assert (∀ n, triple (at_led i s l (regs s) (gTimerOn s) (gBlinkOnceTimerOn s))
    (ctrl_blink i st n)
    (λ a s', a = tt ∧ at_led i s (with_states st st (with_blink n l)) (regs s) true
      (gBlinkOnceTimerOn s) s')) as HT.
  { intros n. eapply triple_bind_eq; [apply (t_upd_led i s Hi)|].
    apply (t_ledTimerStart i s). }
  destruct (HT (Z.of_nat c) s (at_led_refl _ _ _ Hl)) as ([]&s'&E&_&H).
  exists s'. split; [|done]. unfold ctrl_led.
  rewrite (bind_get_led _ _ _ _ Hl), !bind_gets. destruct st; simplify_eq/=; exact E.
Qed.

Lemma alone_insert s s' i l l' :
  gLed s' = <[i := l']> (gLed s) → same_wiring l l' → alone s 0 i l → alone s' 0 i l'.
Proof.
  intros E Hw Ha j k _ Hne Hk. rewrite E, list_lookup_insert_ne in Hk by done.
  eapply apart_wiring; [|exact Hw|by apply (Ha j); [lia|..]]. done.
Qed.

(** One period of a blinking LED: its record is as before, its pin toggled. *)
Lemma ticks_add n m l lv : ticks (n + m) l lv = ticks m (ticks n l lv).1 (ticks n l lv).2.
Proof.
  revert l lv. induction n as [|n IH]; intros l lv; [done|]. cbn [Nat.add ticks].
  destruct (tick_led l lv) as [[l' o] ?]. apply IH.
Qed.

Lemma blink_one_period l st c lv :
  blink_count st = Some c → ledMask l ≠ 0 →
  ledState l = st → blinkCountDown l = Z.of_nat c → ticks (S c) l lv = (l, negb lv).
Proof.
  intros Hc Hm Hst Hb. destruct l as [m ? ? ? ? ? st' ? b ? ? ? ?]. simpl in *. subst.
  destruct m as [|p|p]; [done|..]; destruct st; simpl in Hc; simplify_eq; destruct lv; reflexivity.
Qed.

Lemma blink_periods n l st c lv :
  blink_count st = Some c → ledMask l ≠ 0 →
  ledState l = st → blinkCountDown l = Z.of_nat c →
  ticks (n * S c) l lv = (l, xorb (Nat.odd n) lv).
Proof.
  intros Hc Hm Hst Hb. revert lv. induction n as [|n IH]; intros lv; [by destruct lv|].
  rewrite Nat.mul_succ_l, Nat.add_comm, ticks_add, (blink_one_period l st c) by done.
  cbn [fst snd]. rewrite IH, Nat.odd_succ, <- Nat.negb_odd.
  by destruct (Nat.odd n), lv.
Qed.

(** Blinking: after a request for one of the three blinking states on an
    LED whose pin no other LED shares, the driver's timer runs, and after every
    [c + 1] expirations (four, two or one) the LED's pin has changed level and
    the LED is where it was; so after [n] such periods the level is the initial
    one exactly if [n] is even, for every [n]. *)
Theorem blink_period s name i l st c n :
  serial_ready ctl polls → led_wf s → gpio_led s name i l → alone s 0 i l →
  ledMask l ≠ 0 → blink_count st = Some c →
  ∃ s1 s2, boardLedCtrl ctl polls name st s = Done (tt, s1) ∧ gTimerOn s1 = true ∧
    expires ctl polls (n * S c) s1 = Done (tt, s2) ∧
    gLed s2 !! i = Some (with_states st st (with_blink (Z.of_nat c) l)) ∧
    pin_set l (regs s2) = xorb (Nat.odd n) (pin_set l (regs s)).
Proof.
  intros Hser Hwf Hg Ha Hm Hc.
  destruct (ctrl_led_blink s name i l st c Hc) as (s1&E1&[Hl1 Hr1 Ht1 _ Hf1]); [apply Hg|].
  set (l1 := with_states st st (with_blink (Z.of_nat c) l)) in *.
  assert (same_wiring l l1) as Hw by done.
  destruct (expires_refines (n * S c) s1 i l1) as (s2&E2&_&Hl2&Hp2); [done| | |by eapply alone_insert|].
  { eapply led_wf_fixed; [done| |done]. by rewrite Hl1, length_insert. }
  { rewrite Hl1. apply list_lookup_insert_eq. destruct Hg as (_&_&Hl&_).
    by eapply lookup_lt_Some. }
  rewrite (blink_periods n l1 st c) in Hl2, Hp2 by done.
  exists s1, s2. split_and!; [|done..|].
  - rewrite (boardLedCtrl_gpio _ _ _ _ _ Hg). by destruct st.
  - by rewrite <- (pin_set_wiring _ _ _ Hw), Hp2, (pin_set_wiring _ _ _ Hw), Hr1.
Qed.

(** The two flicker states and their countdown. *)
Definition flicker_count (st : BOARD_LED_STATE) : option Z :=
  match st with
  | kLedStateSlowFlickerOnce => Some kSlowBlinkCount
  | kLedStateFastFlickerOnce => Some kFastBlinkCount
  | _ => None
  end.

Definition flickering (st : BOARD_LED_STATE) (c : Z) (l : LED_INFO) : LED_INFO :=
  with_next kLedStateOn (with_states st (savedLedState l)
    (with_counts c kFlickerCount kPauseCount l)).

Lemma ctrl_led_flicker s name i l st c :
  flicker_count st = Some c → gLed s !! i = Some l → g_nEquipTestMode s ≠ 1 →
  FlickerCount l = 0 → PauseCount l = 0 →
  ∃ s', ctrl_led ctl polls name i st s = Done (tt, s') ∧
    at_led i s (flickering st c l) (regs s) true (gBlinkOnceTimerOn s) s'.
Proof.
  intros Hc Hl Ht HF HP. pose proof (lookup_lt_Some _ _ _ Hl) as Hi.
  assert (∃ s', ctrl_flicker i st c s = Done (tt, s') ∧
    at_led i s (flickering st c l) (regs s) true (gBlinkOnceTimerOn s) s') as (s'&E&H).
  { unfold ctrl_flicker. rewrite bind_gets. rewrite (bind_get_led _ _ _ _ Hl).
    apply Z.eqb_neq in Ht. rewrite Ht, HF, HP. cbn [Z.eqb negb orb].
    destruct (t_upd_led i s Hi (λ l, with_next kLedStateOn
      (with_state st (with_counts c kFlickerCount kPauseCount l))) l _ _ _ s
      (at_led_refl _ _ _ Hl)) as ([]&s1&E1&_&H1).
    mstep E1. destruct (t_ledTimerStart i s _ _ _ _ s1 H1) as ([]&s2&E2&_&H2).
    by exists s2. }
  exists s'. split; [|done]. unfold ctrl_led.
  rewrite (bind_get_led _ _ _ _ Hl), !bind_gets. destruct st; simpl in Hc; simplify_eq; exact E.
Qed.

(** A flicker ends: eight ticks of toggling, eight of pause, then on; the tick
    after that clears the counters. *)
Lemma flicker_ticks l st c lv :
  flicker_count st = Some c → ledMask l ≠ 0 →
  (ticks 17 (flickering st c l) lv).2 = (ledActiveLow l =? 0) ∧
  ledState (ticks 17 (flickering st c l) lv).1 = kLedStateOn ∧
  ticks 18 (flickering st c l) lv =
    (with_next kLedStateOn (with_states kLedStateOn kLedStateOn (with_counts 0 0 0 l)),
     ledActiveLow l =? 0).
Proof.
  intros Hc Hm. destruct l as [m al ? ? ? ? ? sv b F P ? ?]. simpl in Hm.
  destruct m as [|p|p]; [done|..]; destruct st; simpl in Hc; simplify_eq;
    destruct al, lv; destruct sv; vm_compute; auto.
Qed.

(** A flicker terminates with the LED lit: after a slow or fast flicker
    request on an LED that is not flickering (its pin not shared), 17
    expirations of the timer bring it to the state On with its pin at the lit
    level, and one more clears the counters, so that the next request is
    accepted. *)
Theorem flicker_completes s name i l st :
  serial_ready ctl polls → led_wf s → gpio_led s name i l → alone s 0 i l →
  ledMask l ≠ 0 → st = kLedStateSlowFlickerOnce ∨ st = kLedStateFastFlickerOnce →
  g_nEquipTestMode s ≠ 1 → FlickerCount l = 0 → PauseCount l = 0 →
  ∃ s1 s2 s3 l2 l3, boardLedCtrl ctl polls name st s = Done (tt, s1) ∧
    expires ctl polls 17 s1 = Done (tt, s2) ∧ gLed s2 !! i = Some l2 ∧
    ledState l2 = kLedStateOn ∧ pin_set l (regs s2) = (ledActiveLow l =? 0) ∧
    expires ctl polls 18 s1 = Done (tt, s3) ∧ gLed s3 !! i = Some l3 ∧
    ledState l3 = kLedStateOn ∧ FlickerCount l3 = 0 ∧ PauseCount l3 = 0 ∧
    pin_set l (regs s3) = (ledActiveLow l =? 0).
Proof.
  intros Hser Hwf Hg Ha Hm Hst Ht HF HP.
  assert (∃ c, flicker_count st = Some c) as [c Hc] by (destruct Hst; subst; by eexists).
  destruct (ctrl_led_flicker s name i l st c Hc) as (s1&E1&[Hl1 Hr1 Ht1 _ Hf1]);
    [apply Hg|done..|].
  assert (same_wiring l (flickering st c l)) as Hw by done.
  assert (led_wf s1) as Hwf1.
  { eapply led_wf_fixed; [done| |done]. by rewrite Hl1, length_insert. }
  assert (gLed s1 !! i = Some (flickering st c l)) as Hl1'.
  { rewrite Hl1. apply list_lookup_insert_eq. destruct Hg as (_&_&Hl&_).
    by eapply lookup_lt_Some. }
  assert (alone s1 0 i (flickering st c l)) as Ha1 by (by eapply alone_insert).
  destruct (expires_refines 17 s1 i _ Hser Hwf1 Hl1' Ha1) as (s2&E2&_&Hl2&Hp2).
  destruct (expires_refines 18 s1 i _ Hser Hwf1 Hl1' Ha1) as (s3&E3&_&Hl3&Hp3).
  rewrite (pin_set_wiring _ _ (regs s2) Hw) in Hp2.
  rewrite (pin_set_wiring _ _ (regs s3) Hw) in Hp3.
  destruct (flicker_ticks l st c (pin_set (flickering st c l) (regs s1)) Hc Hm) as (F1&F2&F3).
  rewrite F3 in Hl3, Hp3. rewrite F1 in Hp2.
  exists s1, s2, s3. eexists _, _. split.
  { rewrite (boardLedCtrl_gpio _ _ _ _ _ Hg). by destruct Hst; subst. }
  split_and!; done.
Qed.

(** ** Steady states *)

Definition fail_set (l : LED_INFO) (r : led_regs) : bool :=
  level (bank_fail l) (ledMaskFail l) r.

Definition lit (l : LED_INFO) (r : led_regs) : bool :=
  Bool.eqb (pin_set l r) (ledActiveLow l =? 0).

Definition lit_fail (l : LED_INFO) (r : led_regs) : bool :=
  Bool.eqb (fail_set l r) (ledActiveLowFail l =? 0).

Definition pins_apart (l : LED_INFO) : Prop :=
  bank l ≠ bank_fail l ∨ Z.land (ledMask l) (ledMaskFail l) = 0.

(** Driving the failure pin, then the normal pin. *)
Lemma drive_both l r on onf : pins_apart l → ledMask l ≠ 0 → ledMaskFail l ≠ 0 →
  let r' := set_pin l (Some on) (put_bank (bank_fail l) onf (ledMaskFail l) r) in
  pin_set l r' = on ∧ fail_set l r' = onf.
Proof.
  intros Hp Hm Hmf r'. unfold r'. split.
  - rewrite set_pin_same. unfold new_level. by rewrite (proj2 (Z.eqb_neq _ _) Hm).
  - unfold fail_set. rewrite set_pin_level by (apply bank_le || done).
    apply level_put_same; [apply bank_le|done].
Qed.

(** The same in the other order. *)
Lemma drive_both' l r on onf : pins_apart l → ledMask l ≠ 0 → ledMaskFail l ≠ 0 →
  let r' := put_bank (bank_fail l) onf (ledMaskFail l) (set_pin l (Some on) r) in
  pin_set l r' = on ∧ fail_set l r' = onf.
Proof.
  intros Hp Hm Hmf r'. unfold r'. split.
  - rewrite pin_set_level, level_put_other; [|apply bank_le..|].
    + rewrite <- pin_set_level, set_pin_same. unfold new_level.
      by rewrite (proj2 (Z.eqb_neq _ _) Hm).
    + destruct Hp as [Hp|Hp]; [by left; congruence|right; by rewrite Z.land_comm].
  - unfold fail_set. apply level_put_same; [apply bank_le|done].
Qed.

Lemma triple_run {S} (P : S → Prop) (m : M S unit) Q s :
  triple P m (λ a s', a = tt ∧ Q s') → P s → ∃ s', m s = Done (tt, s') ∧ Q s'.
Proof. intros H Hs. destruct (H s Hs) as ([]&s'&E&_&HQ). by exists s'. Qed.

(** The registers after a steady request. *)
Definition steady_regs (st : BOARD_LED_STATE) (l : LED_INFO) (r : led_regs) : led_regs :=
  let off_fail := put_bank (bank_fail l) (negb (ledActiveLowFail l =? 0)) (ledMaskFail l) in
  let on_fail := put_bank (bank_fail l) (ledActiveLowFail l =? 0) (ledMaskFail l) in
  match st with
  | kLedStateOn => set_pin l (Some (ledActiveLow l =? 0)) (off_fail r)
  | kLedStateOff => set_pin l (Some (negb (ledActiveLow l =? 0))) (off_fail r)
  | _ => on_fail (set_pin l (Some (negb (ledActiveLow l =? 0))) r)
  end.

Lemma ctrl_led_steady s name i l st :
  serial_ready ctl polls → gLed s !! i = Some l → ledMask l ≠ 0 → ledMaskFail l ≠ 0 →
  st = kLedStateOn ∨ st = kLedStateOff ∨ st = kLedStateFail →
  ∃ s', ctrl_led ctl polls name i st s = Done (tt, s') ∧
    at_led i s (with_next st (with_states st st l)) (steady_regs st l (regs s))
      (gTimerOn s) (gBlinkOnceTimerOn s) s'.
Proof.
  intros Hser Hl Hm Hmf Hst. pose proof (lookup_lt_Some _ _ _ Hl) as Hi.
  pose proof (proj2 (Z.eqb_neq _ _) Hm) as Em. pose proof (proj2 (Z.eqb_neq _ _) Hmf) as Emf.
  unfold ctrl_led. rewrite (bind_get_led _ _ _ _ Hl), !bind_gets.
  destruct Hst as [-> | [-> | ->]]; rewrite ?Em, ?Emf; cbn [negb];
    (eapply triple_run; [|by apply at_led_refl]).
  - eapply triple_bind_eq; [apply (t_ledOffFail ctl polls Hser i s Hi)|].
    eapply triple_bind_eq; [apply (t_ledOn ctl polls Hser i s Hi)|].
    unfold led_on. rewrite Emf. cbn [ledMask with_states]. rewrite Em.
    tlast (t_upd_led i s Hi _ _ _ _ _).
  - eapply triple_bind_eq; [apply (t_ledOffFail ctl polls Hser i s Hi)|].
    eapply triple_bind_eq; [apply (t_ledOff ctl polls Hser i s Hi)|].
    rewrite Emf. cbn [ledMask with_states]. rewrite Em.
    tlast (t_upd_led i s Hi _ _ _ _ _).
  - eapply triple_bind_eq; [apply (t_ledOff ctl polls Hser i s Hi)|]. rewrite Em.
    eapply triple_bind_eq; [apply (t_ledOnFail ctl polls Hser i s Hi)|].
    cbn [ledMaskFail with_states]. rewrite Emf.
    tlast (t_upd_led i s Hi _ _ _ _ _).
Qed.

Lemma steady_lit st l r :
  pins_apart l → ledMask l ≠ 0 → ledMaskFail l ≠ 0 →
  st = kLedStateOn ∨ st = kLedStateOff ∨ st = kLedStateFail →
  lit l (steady_regs st l r) = bool_decide (st = kLedStateOn) ∧
  lit_fail l (steady_regs st l r) = bool_decide (st = kLedStateFail).
Proof.
  intros Hp Hm Hmf Hst. unfold lit, lit_fail.
  destruct Hst as [-> | [-> | ->]]; unfold steady_regs.
  1-2: edestruct drive_both as [-> ->]; [done..|];
    by destruct (ledActiveLow l =? 0), (ledActiveLowFail l =? 0).
  edestruct drive_both' as [-> ->]; [done..|].
  by destruct (ledActiveLow l =? 0), (ledActiveLowFail l =? 0).
Qed.

(** A pin that is apart from both pins of an LED. *)
Definition apart_both (l : LED_INFO) (k : nat) (m : Z) : Prop :=
  (bank l ≠ k ∨ Z.land (ledMask l) m = 0) ∧
  (bank_fail l ≠ k ∨ Z.land (ledMaskFail l) m = 0).

Lemma steady_regs_level st l r k m :
  (k ≤ 2)%nat → apart_both l k m → level k m (steady_regs st l r) = level k m r.
Proof.
  intros Hk [H1 H2]. destruct st; unfold steady_regs;
    rewrite ?set_pin_level, ?level_put_other, ?set_pin_level by (done || apply bank_le); done.
Qed.

(** The steady states: a request for On, Off or Fail on an LED with a
    normal and a failure pin lights the normal pin exactly for On and the
    failure pin exactly for Fail (never both), whatever their polarities and
    register banks; it records the state, leaves every pin apart from these two
    at its level, and changes no other LED and no timer. *)
Theorem boardLedCtrl_steady s name i l st :
  serial_ready ctl polls → gpio_led s name i l → pins_apart l →
  ledMask l ≠ 0 → ledMaskFail l ≠ 0 →
  st = kLedStateOn ∨ st = kLedStateOff ∨ st = kLedStateFail →
  ∃ s', boardLedCtrl ctl polls name st s = Done (tt, s') ∧
    lit l (regs s') = bool_decide (st = kLedStateOn) ∧
    lit_fail l (regs s') = bool_decide (st = kLedStateFail) ∧
    gLed s' = <[i := with_next st (with_states st st l)]> (gLed s) ∧
    gTimerOn s' = gTimerOn s ∧
    ∀ k m, (k ≤ 2)%nat → apart_both l k m → level k m (regs s') = level k m (regs s).
Proof.
  intros Hser Hg Hp Hm Hmf Hst. rewrite (boardLedCtrl_gpio _ _ _ _ _ Hg).
  rewrite (proj2 (Z.eqb_neq _ _) Hmf), andb_false_r.
  destruct Hg as (_&_&Hl&_).
  destruct (ctrl_led_steady s name i l st Hser Hl Hm Hmf Hst) as (s'&E&[H1 H2 H3 _ _]).
  exists s'. rewrite H2. destruct (steady_lit st l (regs s) Hp Hm Hmf Hst) as [-> ->].
  split_and!; try done. intros. by apply steady_regs_level.
Qed.

(** The LED name is not checked before the tables of hardware handlers
    are read: for every name outside 0..14 (the [ioctl] passes the user's
    number through) [boardLedCtrl] accesses an array out of bounds. *)
Theorem boardLedCtrl_name_unchecked s name st :
  led_wf s → name < 0 ∨ MAX_VIRT_LEDS ≤ name →
  boardLedCtrl ctl polls name st s = Fault.
Proof.
  intros [Hv Hh Hf _ _] Hn. unfold boardLedCtrl. rewrite bind_gets.
  destruct Hn as [Hn|Hn].
  - rewrite (proj2 (Z.ltb_lt name MAX_VIRT_LEDS)) by (unfold MAX_VIRT_LEDS; lia).
    unfold arr_get. by rewrite (proj2 (Z.ltb_lt name 0)).
  - rewrite (proj2 (Z.ltb_ge name MAX_VIRT_LEDS)), bind_ret by done.
    unfold MAX_VIRT_LEDS in Hn.
    assert (∀ A (a : list A), length a = 15%nat → arr_get a name = fault) as Hnone.
    { intros A a Ha. unfold arr_get. rewrite (proj2 (Z.ltb_ge name 0)) by lia.
      by rewrite lookup_ge_None_2 by lia. }
    unfold mbind at 1, M_bind at 1, ctrl_hw. rewrite !bind_gets.
    destruct (decide (st = kLedStateFail)).
    + by rewrite (Hnone _ (gLedHwFailFunc s)).
    + by rewrite (Hnone _ (gLedHwFunc s)).
Qed.

(** ** Blinking once *)

Definition idle (st : BOARD_LED_STATE) : Prop :=
  st = kLedStateOff ∨ st = kLedStateOn ∨ st = kLedStateFail.

Lemma ctrl_led_once s name i l :
  serial_ready ctl polls → gLed s !! i = Some l → gBlinkOnceTimerOn s = false →
  blinkCountDown l = 0 → continues (savedLedState l) = false →
  ∃ s', ctrl_led ctl polls name i kLedStateBlinkOnce s = Done (tt, s') ∧
    at_led i s (with_states kLedStateBlinkOnce (savedLedState l) (with_blink 1 l))
      (set_pin l (Some (negb (pin_set l (regs s)))) (regs s)) true false s'.
Proof.
  intros Hser Hl Ho Hb Hc. pose proof (lookup_lt_Some _ _ _ Hl) as Hi.
  unfold ctrl_led. rewrite (bind_get_led _ _ _ _ Hl), !bind_gets.
  unfold continues in Hc. apply bool_decide_eq_false in Hc. rewrite decide_False by done.
  rewrite bind_gets, Ho, Hb. cbn [Z.eqb negb orb].
  eapply (triple_run (at_led i s l (regs s) (gTimerOn s) false)).
  - eapply triple_bind_eq; [apply (t_ledToggle ctl polls Hser i s Hi)|].
    eapply triple_bind_eq; [apply (t_upd_led i s Hi)|]. tlast (t_ledTimerStart i s _ _ _ _).
  - rewrite <- Ho. by apply at_led_refl.
Qed.

Lemma restarts_idle l : idle (ledState l) → restarts l = false.
Proof. by intros [E | [E | E]]; unfold restarts, tick_led; rewrite E. Qed.

(** A very slowly blinking LED is lost by a blink-once request: the
    request is accepted when the LED's countdown is zero (the guard lists only
    the slow and the fast state), and when the timer then expires, the LED is
    back in the blinking state but, with the other LEDs idle, the timer is not
    started again: the LED stands still although its state says that it
    blinks. *)
Theorem very_slow_blink_lost s name i l :
  serial_ready ctl polls → led_wf s → gpio_led s name i l →
  ledState l = kLedStateVerySlowBlinkContiunes →
  savedLedState l = kLedStateVerySlowBlinkContiunes →
  blinkCountDown l = 0 → gBlinkOnceTimerOn s = false →
  (∀ j l', j ≠ i → gLed s !! j = Some l' → idle (ledState l')) →
  ∃ s1 s2 l2, boardLedCtrl ctl polls name kLedStateBlinkOnce s = Done (tt, s1) ∧
    ledTimerExpire ctl polls s1 = Done (tt, s2) ∧
    gLed s2 !! i = Some l2 ∧ ledState l2 = kLedStateVerySlowBlinkContiunes ∧
    gTimerOn s2 = false.
Proof.
  intros Hser Hwf Hg Hst Hsv Hb Ho Hidle.
  pose proof Hg as (_&_&Hl&_). pose proof (lookup_lt_Some _ _ _ Hl) as Hi.
  destruct (ctrl_led_once s name i l Hser Hl Ho Hb) as (s1&E1&[Hl1 _ _ _ Hf1]);
    [by rewrite Hsv|].
  destruct (expire_spec ctl polls Hser s1) as (s2&E2&_&_&Ht&Htm).
  { eapply led_wf_fixed; [done| |done]. by rewrite Hl1, length_insert. }
  destruct (Ht i (with_states kLedStateBlinkOnce (savedLedState l) (with_blink 1 l)))
    as (lv&Hl2&_); [by rewrite Hl1, list_lookup_insert_eq|].
  eexists s1, s2, _. split_and!; [|done|exact Hl2|done|].
  - by rewrite (boardLedCtrl_gpio _ _ _ _ _ Hg).
  - rewrite Htm. apply not_true_iff_false. intros (x&Hin&Hx)%existsb_exists.
    apply list_elem_of_In, list_elem_of_lookup in Hin as [j Hj]. rewrite Hl1 in Hj.
    apply list_lookup_insert_Some in Hj as [(<-&<-&_)|[Hne Hj]].
    + unfold restarts in Hx. simpl in Hx. by rewrite Hsv in Hx.
    + rewrite restarts_idle in Hx; [done|]. eapply Hidle; [|exact Hj]. done.
Qed.
End claims.
