(* ===== verification/LedReach.v ===== *)
(** * The LED driver: reachable states

    From the boot of any board of the list, through every sequence of LED
    requests, timer expirations and handler registrations, the driver keeps its
    invariant: pointers stay inside the LED table, and an LED that has
    something left to do finds the timer running. *)

From stdpp Require Import base numbers list strings.
From Stdlib Require Import ZArith Lia.
From S2P Require Import Prelude BoardTables BoardParms Led LedProofs LedClaims.

(** ** The invariant *)

(** States an LED can return to after blinking once. *)
Definition settled (st : BOARD_LED_STATE) : Prop :=
  idle st ∨ continues st = true.

(** An LED whose state calls for further ticks needs the timer, [t]. *)
Definition ok_led (t : bool) (l : LED_INFO) : Prop :=
  settled (savedLedState l) ∧
  match ledState l with
  | kLedStateOff | kLedStateOn | kLedStateFail => True
  | kLedStateSlowFlickerOnce_Pause | kLedStateFastFlickerOnce_Pause => False
  | _ => t = true
  end.

Record led_inv (s : lstate) : Prop := {
  inv_wf : led_wf s;
  inv_leds : ∀ i l, gLed s !! i = Some l → ok_led (gTimerOn s) l
}.

Lemma ok_led_mono t t' l : ok_led t l → (t = true → t' = true) → ok_led t' l.
Proof. intros [H1 H2] Ht. split; [done|]. destruct (ledState l); auto. Qed.

Lemma ok_led_steady t l st : idle st → ok_led t (with_states st st l).
Proof. intros H. split; [by left|]. by destruct H as [-> | [-> | ->]]. Qed.

Lemma toggled_settled l b : settled (toggled_state l b).
Proof. left. unfold toggled_state, idle. destruct b, (ledActiveLow l =? 0); auto. Qed.

(** A tick keeps the invariant of one LED: where it does not ask for the timer
    again, the LED is idle afterwards. *)
Lemma tick_led_ok t l lv :
  ok_led t l → ok_led true (tick_led l lv).1.1 ∧
  (restarts l = false → idle (ledState (tick_led l lv).1.1)).
Proof.
  intros [H1 H2]. unfold restarts, tick_led, blink_tick, flicker_tick, led_on, ok_led, idle.
  pose proof (toggled_settled l lv) as Ht.
  destruct (ledState l) eqn:E; try done; cbn; rewrite ?E;
    repeat (case_match || case_bool_decide); cbn in *; rewrite ?E in *; cbn in *;
    try (split; [split|]); auto; try done; try (by left; unfold idle; auto);
    destruct H1 as [[? | [? | ?]]|H1]; simplify_eq/=; try congruence; auto;
    unfold continues in *; try (apply bool_decide_eq_true in H1); naive_solver.
Qed.

(** ** Operations on one LED keep the invariant *)

(** [s] is [s0] but for LED [i], which satisfies the invariant. *)
Definition ok_at (i : nat) (s0 s : lstate) : Prop :=
  ∃ l r t b, at_led i s0 l r t b s ∧ ok_led t l ∧ (gTimerOn s0 = true → t = true).

Lemma ok_at_refl i s : led_inv s → (i < length (gLed s))%nat → ok_at i s s.
Proof.
  intros [_ H] [l Hl]%lookup_lt_is_Some_2. exists l, (regs s), (gTimerOn s), (gBlinkOnceTimerOn s).
  split; [by apply at_led_refl|]. split; [by eapply H|done].
Qed.

(** An index past the table stands for no LED. *)
Lemma ok_at_none s : ok_at (length (gLed s)) s s.
Proof.
  exists zero_led, (regs s), (gTimerOn s), (gBlinkOnceTimerOn s). split; [|split; [|done]].
  - split; try done. by rewrite list_insert_ge by lia.
  - apply (ok_led_steady _ zero_led kLedStateOff). by left.
Qed.

Lemma ok_at_inv i s s' : led_inv s → ok_at i s s' → led_inv s'.
Proof.
  intros [Hwf H] (l&r&t&b&[Hl _ Ht _ Hf]&Hok&Hmono). split.
  - eapply led_wf_fixed; [done| |done]. by rewrite Hl, length_insert.
  - intros j l' Hj. rewrite Ht. rewrite Hl in Hj.
    apply list_lookup_insert_Some in Hj as [(_&<-&_)|[_ Hj]]; [done|].
    eapply ok_led_mono; [by eapply H|done].
Qed.

Section ok_ops.
Context (ctl : nat → Z) (polls : nat) (Hser : serial_ready ctl polls).
Context (i : nat) (s0 : lstate).
Abbreviation keeps m := (triple (ok_at i s0) m (λ _, ok_at i s0)).

Lemma ok_seq {A B} (m : M lstate A) (f : A → M lstate B) :
  keeps m → (∀ a, keeps (f a)) → keeps (m ≫= f).
Proof. apply triple_bind. Qed.

Lemma ok_ret {A} (a : A) : keeps (mret a).
Proof. by apply triple_ret. Qed.

Lemma ok_gets {A} (g : lstate → A) : keeps (gets g).
Proof. intros s H. by exists (g s), s. Qed.

(** An operation that leaves the timer flag and keeps the LED's invariant. *)
Lemma ok_lift {A} (m : M lstate A) :
  (∀ l r t b, ok_led t l → ∃ v l' r' b',
     triple (at_led i s0 l r t b) m (λ a s, a = v ∧ at_led i s0 l' r' t b' s) ∧ ok_led t l') →
  keeps m.
Proof.
  intros H s (l&r&t&b&Hat&Hok&Hm). destruct (H l r t b Hok) as (v&l'&r'&b'&HT&Hok').
  destruct (HT s Hat) as (a&s'&E&_&Hat'). exists a, s'. split; [done|].
  by exists l', r', t, b'.
Qed.

Lemma ok_call_hw h name st : keeps (call_hw h name st).
Proof. apply ok_lift. intros l r t b Hok. exists tt, l, r, b. split; [apply t_call_hw|done]. Qed.

Lemma ok_call_hw_if h name st : keeps (call_hw_if h name st).
Proof. destruct h; [apply ok_call_hw|apply ok_ret]. Qed.

Lemma ok_arr_get {A} (a : list A) k :
  0 ≤ k < Z.of_nat (length a) → keeps (arr_get a k).
Proof.
  intros Hk s H. destruct (lookup_lt_is_Some_2 a (Z.to_nat k)) as [x Hx]; [lia|].
  exists x, s. split; [apply arr_get_Some; [lia|done]|done].
Qed.

Context (Hi : (i < length (gLed s0))%nat).

Lemma ok_get_led : keeps (get_led i).
Proof. apply ok_lift. intros l r t b Hok. exists l, l, r, b. split; [by apply t_get_led|done]. Qed.

Lemma ok_upd f : (∀ t l, ok_led t l → ok_led t (f l)) → keeps (upd_led i f).
Proof.
  intros Hf. apply ok_lift. intros l r t b Hok. exists tt, (f l), r, b.
  split; [by apply t_upd_led|auto].
Qed.

(** Starting the timer with the update that needs it. *)
Lemma ok_upd_start f :
  (∀ t l, ok_led t l → ok_led true (f l)) → keeps (upd_led i f;; ledTimerStart).
Proof.
  intros Hf s (l&r&t&b&Hat&Hok&Hm).
  destruct (t_upd_led i s0 Hi f l r t b s Hat) as ([]&s1&E1&_&H1).
  destruct (t_ledTimerStart i s0 _ _ _ _ s1 H1) as ([]&s2&E2&_&H2).
  exists tt, s2. split; [by mstep E1|]. exists (f l), r, true, b. eauto.
Qed.

Lemma ok_ledOn : keeps (ledOn ctl polls i).
Proof.
  apply ok_lift. intros l r t b Hok. eexists tt, _, _, b. split; [by apply t_ledOn|].
  unfold led_on. case_match; [done|]. apply ok_led_steady. unfold idle. auto.
Qed.

Lemma ok_ledOff : keeps (ledOff ctl polls i).
Proof.
  apply ok_lift. intros l r t b Hok. eexists tt, _, _, b. split; [by apply t_ledOff|].
  case_match; [done|]. apply ok_led_steady. unfold idle. auto.
Qed.

Lemma ok_ledOnFail : keeps (ledOnFail ctl polls i).
Proof.
  apply ok_lift. intros l r t b Hok. eexists tt, _, _, b. split; [by apply t_ledOnFail|].
  case_match; [done|]. apply ok_led_steady. unfold idle. auto.
Qed.

Lemma ok_ledOffFail : keeps (ledOffFail ctl polls i).
Proof.
  apply ok_lift. intros l r t b Hok. eexists tt, _, _, b. split; [by apply t_ledOffFail|].
  case_match; [done|]. apply ok_led_steady. unfold idle. auto.
Qed.

Lemma ok_ledToggle : keeps (ledToggle ctl polls i).
Proof.
  apply ok_lift. intros l r t b Hok. eexists _, l, _, b. split; [by apply t_ledToggle|done].
Qed.
End ok_ops.

Create HintDb led.
#[export] Hint Resolve ok_ret ok_gets ok_call_hw ok_call_hw_if ok_get_led ok_ledOn ok_ledOff
  ok_ledOnFail ok_ledOffFail ok_ledToggle : led.

(** [ok_auto]: a program whose parts keep the invariant keeps it. *)
Ltac ok_auto :=
  repeat first
    [ progress cbn beta
    | done
    | solve [eauto with led]
    | apply ok_upd_start; [done|]
    | apply ok_upd; [done|]
    | apply ok_seq; [|intros ?]
    | case_match ].

Section control.
Context (ctl : nat → Z) (polls : nat) (Hser : serial_ready ctl polls).
Context (i : nat) (s0 : lstate) (Hwf : led_wf s0) (name : Z) (Hn : 0 ≤ name < MAX_VIRT_LEDS).
Abbreviation keeps m := (triple (ok_at i s0) m (λ _, ok_at i s0)).

Lemma ok_hw :
  triple (ok_at i s0) (gets gLedHwFunc) (λ a s, a = gLedHwFunc s0 ∧ ok_at i s0 s).
Proof.
  intros s H. exists (gLedHwFunc s), s. split; [done|]. split; [|done].
  destruct H as (l&r&t&b&[_ _ _ _ Hf]&_). apply Hf.
Qed.

Lemma ok_hwfail :
  triple (ok_at i s0) (gets gLedHwFailFunc) (λ a s, a = gLedHwFailFunc s0 ∧ ok_at i s0 s).
Proof.
  intros s H. exists (gLedHwFailFunc s), s. split; [done|]. split; [|done].
  destruct H as (l&r&t&b&[_ _ _ _ Hf]&_). apply Hf.
Qed.

Lemma ok_hw_get : keeps (arr_get (gLedHwFunc s0) name).
Proof. apply ok_arr_get. rewrite (wf_hw _ Hwf). unfold MAX_VIRT_LEDS in Hn. lia. Qed.

Lemma ok_hwfail_get : keeps (arr_get (gLedHwFailFunc s0) name).
Proof. apply ok_arr_get. rewrite (wf_hwfail _ Hwf). unfold MAX_VIRT_LEDS in Hn. lia. Qed.

(** The hardware part, for an LED that may have no GPIO pin ([ptr]). *)
Lemma ok_ctrl_hw ptr st :
  (∀ j, ptr = Some j → j = i ∧ (i < length (gLed s0))%nat) → keeps (ctrl_hw ctl polls name ptr st).
Proof.
  intros Hp. unfold ctrl_hw.
  eapply triple_bind_eq; [apply ok_hw|]. eapply triple_bind_eq; [apply ok_hwfail|].
  destruct (decide (st = kLedStateFail)).
  - apply ok_seq; [apply ok_hwfail_get|]. intros [h|]; [|apply ok_ret].
    apply ok_seq; [apply ok_hw_get|]. intros f. apply ok_seq; [|intros _; ok_auto].
    destruct f; [apply ok_call_hw|]. destruct ptr as [j|]; [|apply ok_ret].
    destruct (Hp j eq_refl) as [-> Hi]. by apply ok_ledOff.
  - apply ok_seq; [apply ok_hw_get|]. intros [h|]; [|apply ok_ret].
    apply ok_seq; [apply ok_hwfail_get|]. intros f. apply ok_seq; [|intros _; ok_auto].
    destruct f; [apply ok_call_hw|]. destruct ptr as [j|]; [|apply ok_ret].
    destruct (Hp j eq_refl) as [-> Hi]. by apply ok_ledOffFail.
Qed.

Context (Hi : (i < length (gLed s0))%nat).

Lemma ok_ctrl_flicker st c :
  flicker_count st = Some c → keeps (ctrl_flicker i st c).
Proof.
  intros Hst. unfold ctrl_flicker. apply ok_seq; [apply ok_gets|]. intros test.
  apply ok_seq; [by apply ok_get_led|]. intros l. case_match; [by apply ok_upd|].
  case_match; [by apply ok_upd|]. apply ok_upd_start; [done|].
  intros t l' [Hsv _]. split; [done|]. by destruct st.
Qed.

Lemma ok_ctrl_blink st c :
  continues st = true → keeps (ctrl_blink i st c).
Proof.
  intros Hst. apply ok_upd_start; [done|]. intros t l _. split; [by right|].
  unfold continues in Hst. apply bool_decide_eq_true in Hst. by destruct Hst; subst.
Qed.

Lemma ok_ctrl_led st :
  st ≠ kLedStateVerySlowBlinkContiunes → keeps (ctrl_led ctl polls name i st).
Proof.
  intros Hst. unfold ctrl_led. apply ok_seq; [by apply ok_get_led|]. intros l.
  eapply triple_bind_eq; [apply ok_hw|]. eapply triple_bind_eq; [apply ok_hwfail|].
  destruct st; try done; try (by apply ok_ret); try (by apply ok_ctrl_flicker);
    try (by apply ok_ctrl_blink).
  - apply ok_seq; [case_match; [by apply ok_ledOffFail|]|intros _; ok_auto].
    apply ok_seq; [apply ok_hwfail_get|intros; apply ok_call_hw_if].
  - apply ok_seq; [case_match; [by apply ok_ledOffFail|]|intros _; ok_auto].
    apply ok_seq; [apply ok_hwfail_get|intros; apply ok_call_hw_if].
  - apply ok_seq; [case_match; [by apply ok_ledOff|]|intros _; ok_auto].
    apply ok_seq; [apply ok_hw_get|intros; apply ok_call_hw_if].
  - destruct (decide _); [apply ok_ret|]. apply ok_seq; [apply ok_gets|]. intros once.
    case_match; [apply ok_ret|]. apply ok_seq; [by apply ok_ledToggle|]. intros _.
    apply ok_upd_start; [done|]. intros t l' [Hsv _]. by split.
Qed.
End control.

Section reach.
Context (ctl : nat → Z) (polls : nat) (Hser : serial_ready ctl polls).

(** Every request in range returns and keeps the invariant. *)
Lemma boardLedCtrl_inv s name st :
  led_inv s → 0 ≤ name < MAX_VIRT_LEDS → st ≠ kLedStateVerySlowBlinkContiunes →
  ∃ s', boardLedCtrl ctl polls name st s = Done (tt, s') ∧ led_inv s'.
Proof.
  intros Hinv Hn Hst. pose proof (inv_wf _ Hinv) as Hwf.
  destruct (lookup_lt_is_Some_2 (gpVirtLeds s) (Z.to_nat name)) as [ptr Hv].
  { rewrite (wf_virt _ Hwf). unfold MAX_VIRT_LEDS in Hn. lia. }
  set (i := default (length (gLed s)) ptr).
  assert (∀ j, ptr = Some j → j = i ∧ (i < length (gLed s))%nat) as Hp.
  { intros j ->. split; [done|]. by eapply wf_ptr. }
  assert (ok_at i s s) as H0.
  { destruct ptr as [j|]; [|apply ok_at_none]. by apply ok_at_refl; [|apply (Hp j)]. }
  clearbody i. unfold boardLedCtrl. rewrite bind_gets. destruct (name <? MAX_VIRT_LEDS) eqn:E; [|lia].
  mstep (arr_get_Some _ _ _ s (proj1 Hn) Hv).
  match goal with |- ∃ s', (ctrl_hw _ _ _ _ _ ≫= ?f) s = _ ∧ _ =>
    assert (triple (ok_at i s) (ctrl_hw ctl polls name ptr st ≫= f) (λ _, ok_at i s)) as HT
  end.
  { apply ok_seq; [by apply ok_ctrl_hw|]. intros []; [apply ok_ret|].
    destruct ptr as [j|]; [|apply ok_ret]. destruct (Hp j eq_refl) as [-> Hi].
    apply ok_seq; [by apply ok_get_led|]. intros l. apply ok_ctrl_led; try done.
    by case_match. }
  destruct (HT s H0) as ([]&s'&Er&H'). exists s'. split; [done|]. by eapply ok_at_inv.
Qed.

Lemma ledTimerExpire_inv s :
  led_inv s → ∃ s', ledTimerExpire ctl polls s = Done (tt, s') ∧ led_inv s'.
Proof.
  intros [Hwf H]. destruct (expire_spec ctl polls Hser s Hwf) as (s'&E&Hl&Hf&Ht&Htm).
  exists s'. split; [done|]. split; [by eapply led_wf_fixed|].
  intros j l' Hj. destruct (lookup_lt_is_Some_2 (gLed s) j) as [l Hlj].
  { rewrite <- Hl. by eapply lookup_lt_Some. }
  destruct (Ht j l Hlj) as (lv&Hj'&_). simplify_eq.
  destruct (tick_led_ok (gTimerOn s) l lv) as [Hok Hidle]; [by eapply H|].
  destruct (restarts l) eqn:Er.
  - replace (gTimerOn s') with true; [done|]. rewrite Htm. symmetry.
    apply existsb_exists. exists l. split; [|done].
    by eapply list_elem_of_In, list_elem_of_lookup_2.
  - destruct Hok as [H1 _]. split; [done|].
    by destruct (Hidle eq_refl) as [-> | [-> | ->]].
Qed.

(** ** Initialisation *)

(** A map whose entries, up to the end entry, name LEDs and start them off. *)
Fixpoint map_ok (m : list LED_MAP_PAIR) : bool :=
  match m with
  | [] => false
  | p :: m' =>
      (lm_ledName p =? kLedEnd) ||
      ((0 <=? lm_ledName p) && (lm_ledName p <? MAX_VIRT_LEDS) &&
       bool_decide (lm_ledInitState p = kLedStateOff) && map_ok m')
  end.

Lemma count_leds_ge rest : ∀ before n N, count_leds before rest n = Some N → n ≤ N.
Proof.
  induction rest as [|p rest IH]; intros before n N H; [done|]. cbn in H.
  case_match; [simplify_eq; lia|]. apply IH in H. case_match; lia.
Qed.

Lemma count_leds_total rest : ∀ before n, map_ok rest = true → is_Some (count_leds before rest n).
Proof.
  induction rest as [|p rest IH]; intros before n H; [done|]. cbn in *.
  destruct (lm_ledName p =? kLedEnd); [by eexists|]. apply IH. cbn in H.
  by apply andb_true_iff in H as [_ H].
Qed.

Lemma initLedInfo_inv s p i :
  led_inv s → (i < length (gLed s))%nat → lm_ledInitState p = kLedStateOff →
  ∃ s', initLedInfo ctl polls p i s = Done (false, s') ∧ led_inv s' ∧
    length (gLed s') = length (gLed s) ∧ gpVirtLeds s' = gpVirtLeds s.
Proof.
  intros Hinv Hi Hp.
  assert (triple (ok_at i s) (initLedInfo ctl polls p i) (λ a s', a = false ∧ ok_at i s s')) as HT.
  { unfold initLedInfo. rewrite Hp. eapply triple_bind; [apply (ok_upd i s Hi)|intros ?].
    { intros t l _. split; [left; by left|done]. }
    eapply triple_bind; [by apply (ok_upd i s Hi)|intros ?].
    eapply triple_bind; [by apply (ok_ledOff ctl polls Hser i s Hi)|intros ?].
    by apply triple_ret. }
  destruct (HT s (ok_at_refl _ _ Hinv Hi)) as (a&s'&E&->&H). exists s'.
  split; [done|]. split; [by eapply ok_at_inv|].
  destruct H as (l&r&t&b&[Hl _ _ _ Hf]&_). split; [by rewrite Hl, length_insert|apply Hf].
Qed.

Lemma set_virt_led_inv s name i :
  led_inv s → (i < length (gLed s))%nat → 0 ≤ name < MAX_VIRT_LEDS →
  ∃ s', set_virt_led name i s = Done (tt, s') ∧ led_inv s' ∧ gLed s' = gLed s.
Proof.
  intros [[Hv Hh Hf Hc Hp] H] Hi Hn. unfold set_virt_led, MAX_VIRT_LEDS in *. rewrite bind_gets.
  rewrite Hv, (proj2 (Z.leb_le 0 name)), (proj2 (Z.ltb_lt name (Z.of_nat 15))) by lia.
  cbn [andb].
  eexists. split; [reflexivity|]. split; [|done]. split; [|done]. split; simpl; try done.
  - by rewrite length_insert.
  - intros j k [(_&[= <-]&_)|[_ Hj]]%list_lookup_insert_Some; [done|]. by eapply Hp.
Qed.

(** The search for the LED an entry shares finds one of those already set up. *)
Lemma find_led_spec p n : ∀ j s, (j + n ≤ length (gLed s))%nat →
  ∃ o, find_led p j n s = Done (o, s) ∧ ∀ k, o = Some k → (k < length (gLed s))%nat.
Proof.
  induction n as [|n IH]; intros j s Hn; [by exists None|]. cbn [find_led].
  destruct (lookup_lt_is_Some_2 (gLed s) j) as [l Hl]; [lia|].
  rewrite (bind_get_led _ _ _ _ Hl). case_match.
  - exists (Some j). split; [done|]. intros k [= <-]. by eapply lookup_lt_Some.
  - apply IH. lia.
Qed.

Lemma merge_inv s p j :
  led_inv s → (j < length (gLed s))%nat →
  ∃ s', upd_led j (merge_led p) s = Done (tt, s') ∧ led_inv s' ∧
    length (gLed s') = length (gLed s).
Proof.
  intros Hinv Hj.
  destruct (ok_upd j s Hj (merge_led p) ltac:(done) s (ok_at_refl _ _ Hinv Hj)) as ([]&s'&E&H).
  exists s'. split; [done|]. split; [by eapply ok_at_inv|].
  destruct H as (l&r&t&b&[Hl _ _ _ _]&_). by rewrite Hl, length_insert.
Qed.

Lemma init_leds_inv rest : ∀ before i s,
  map_ok rest = true → led_inv s →
  count_leds before rest (Z.of_nat i) = Some (Z.of_nat (length (gLed s))) →
  ∃ s', init_leds ctl polls before rest i false s = Done (false, s') ∧ led_inv s'.
Proof.
  induction rest as [|p rest IH]; intros before i s Hok Hinv Hc; [done|].
  cbn [map_ok count_leds init_leds] in *.
  destruct (lm_ledName p =? kLedEnd) eqn:Eend; [by exists s|]. cbn [orb] in Hok.
  apply andb_true_iff in Hok as [Hok Hrest]. apply andb_true_iff in Hok as [Hn Hst].
  apply bool_decide_eq_true in Hst.
destruct (lm_ledName p >? MAX_VIRT_LEDS) eqn:Emax; [lia|].
  assert (0 ≤ lm_ledName p < MAX_VIRT_LEDS) as Hname by lia.
  destruct (alreadyUsed p before) eqn:Eu.
  - destruct (find_led_spec p i 0 s) as (o&Ef&Ho).
    { apply count_leds_ge in Hc. lia. }
    mstep Ef. destruct o as [j|]; [|by apply IH].
    destruct (merge_inv s p j Hinv (Ho j eq_refl)) as (s1&E1&Hinv1&Hl1).
    destruct (set_virt_led_inv s1 (lm_ledName p) j Hinv1) as (s2&E2&Hinv2&Hl2);
      [rewrite Hl1; by apply Ho|done|].
    rewrite bind_assoc. mstep E1. mstep E2. apply IH; [done..|]. by rewrite Hl2, Hl1.
  - assert (i < length (gLed s))%nat as Hi by (apply count_leds_ge in Hc; lia).
    destruct (initLedInfo_inv s p i Hinv Hi Hst) as (s1&E1&Hinv1&Hl1&_).
    destruct (set_virt_led_inv s1 (lm_ledName p) i Hinv1) as (s2&E2&Hinv2&Hl2);
      [by rewrite Hl1|done|].
    mstep E1. mstep E2. apply IH; [done..|]. rewrite Hl2, Hl1, <- Hc. f_equal. lia.
Qed.

Lemma boardLedInit_inv cur m s :
  map_ok m = true → ∃ s', boardLedInit ctl polls true cur m s = Done (tt, s') ∧ led_inv s'.
Proof.
  intros Hm. destruct (count_leds_total m [] 0 Hm) as [n Hn].
  pose proof (count_leds_ge _ _ _ _ Hn) as Hn0.
  unfold boardLedInit. rewrite !bind_modify, Hn. cbn [of_option negb].
  rewrite bind_ret, !bind_modify.
  match goal with |- ∃ s', (_ ≫= _) ?s1 = _ ∧ _ =>
    destruct (init_leds_inv m [] 0 s1 Hm) as (s2&E2&Hinv2) end.
  - split; [split; simpl; try done|].
    + rewrite length_replicate. lia.
    + intros j i H. by apply (lookup_replicate 15 None) in H as [? _].
    + intros i l Hl. cbn in Hl. apply lookup_replicate in Hl as [-> _].
      apply (ok_led_steady _ zero_led kLedStateOff). by left.
  - cbn [gLed set_leds]. rewrite length_replicate. change (Z.of_nat 0) with 0. rewrite Hn. f_equal. lia.
  - exists s2. split; [by mstep E2|done].
Qed.

(** ** Boot and reachable states *)

Lemma board_maps_ok :
  Forall (λ bp, ∃ m, build_led_map bpLedInfo (Some bp) 0 LedMapping = Some m ∧
                     map_ok m = true) g_BoardParms.
Proof. repeat (constructor; [eexists; split; vm_compute; reflexivity|]). constructor. Qed.

(** The states of the driver: the boot of a board, then any sequence of
    requests (the very slow blinking state excepted), expirations of pending
    timers, registrations of hardware handlers and changes of the test mode. *)
Inductive led_reach : lstate → Prop :=
| reach_boot bp m s0 s :
    bp ∈ g_BoardParms → build_led_map bpLedInfo (Some bp) 0 LedMapping = Some m →
    boardLedInit ctl polls true (Some bp) m s0 = Done (tt, s) → led_reach s
| reach_ctrl name st s s' :
    led_reach s → 0 ≤ name < MAX_VIRT_LEDS → st ≠ kLedStateVerySlowBlinkContiunes →
    boardLedCtrl ctl polls name st s = Done (tt, s') → led_reach s'
| reach_timer s s' :
    led_reach s → gTimerOn s = true → ledTimerExpire ctl polls s = Done (tt, s') → led_reach s'
| reach_once s s' :
    led_reach s → gBlinkOnceTimerOn s = true → blinkOnceTimerExpire s = Done (tt, s') →
    led_reach s'
| reach_register name h ft s s' :
    led_reach s → 0 ≤ name < MAX_VIRT_LEDS →
    kerSysLedRegisterHwHandler name h ft s = Done (tt, s') → led_reach s'
| reach_mode v s :
    led_reach s →
    led_reach {| regs := regs s; gLed := gLed s; gLedCount := gLedCount s;
      gpVirtLeds := gpVirtLeds s; gLedHwFunc := gLedHwFunc s;
      gLedHwFailFunc := gLedHwFailFunc s; gTimerOn := gTimerOn s;
      gBlinkOnceTimerOn := gBlinkOnceTimerOn s; g_nEquipTestMode := v;
      ser_reads := ser_reads s; hw_calls := hw_calls s |}.

Lemma register_inv s name h ft s' :
  led_inv s → 0 ≤ name < MAX_VIRT_LEDS →
  kerSysLedRegisterHwHandler name h ft s = Done (tt, s') → led_inv s'.
Proof.
  intros [[] H] Hn. unfold kerSysLedRegisterHwHandler.
  destruct (name <? MAX_VIRT_LEDS) eqn:E1; [|lia]. destruct (name <? 0) eqn:E2; [lia|].
  intros [= <-]. by destruct (ft =? 1); (split; [split; simpl; rewrite ?length_insert|]).
Qed.

Lemma reach_inv s : led_reach s → led_inv s.
Proof.
  induction 1 as [bp m s0 s Hin Hm Hb|name st s s' _ IH Hn Hst Hc|s s' _ IH _ Ht
                 |s s' _ IH _ Ho|name h ft s s' _ IH Hn Hr|v s _ [[] IH]].
  - pose proof board_maps_ok as Hall. rewrite Forall_forall in Hall.
    destruct (Hall bp Hin) as (m'&Hm'&Hok). replace m' with m in Hok by congruence.
    destruct (boardLedInit_inv (Some bp) m s0 Hok) as (s'&E&?). by replace s with s' by congruence.
  - destruct (boardLedCtrl_inv s name st IH Hn Hst) as (s1&E&?). by replace s' with s1 by congruence.
  - destruct (ledTimerExpire_inv s IH) as (s1&E&?). by replace s' with s1 by congruence.
  - unfold blinkOnceTimerExpire, modify in Ho. simplify_eq.
    destruct IH as [[] ?]. by split; [split|].
  - by eapply register_inv.
  - by split; [split|].
Qed.
End reach.

(** [C24] Safety and liveness of the LED driver: in every state reachable from
    the boot of a board of the list, pointers of the name table point into the
    LED table, an LED whose state calls for further timer ticks (blinking,
    flickering, blinking once) finds the timer running, and every request with
    a name in range (very slow blinking excepted, also on the way to the state)
    and the timer's expiration return normally, if the serial register of the LEDs
    gets ready: no access outside a table, no endless wait. *)
Theorem led_driver_invariant ctl polls s :
  serial_ready ctl polls → led_reach ctl polls s →
  led_inv s ∧
  (∀ name st, 0 ≤ name < MAX_VIRT_LEDS → st ≠ kLedStateVerySlowBlinkContiunes →
     ∃ s', boardLedCtrl ctl polls name st s = Done (tt, s')) ∧
  ∃ s', ledTimerExpire ctl polls s = Done (tt, s').
Proof.
  intros Hser Hr. pose proof (reach_inv ctl polls Hser s Hr) as Hinv.
  split_and!; [done| |].
  - intros name st Hn Hst. destruct (boardLedCtrl_inv ctl polls Hser s name st) as (s'&?&_); eauto.
  - destruct (ledTimerExpire_inv ctl polls Hser s Hinv) as (s'&?&_). eauto.
Qed.

(** ** The HG553 board *)

Definition HW553 : option BOARD_PARAMETERS := (BpSetBoardId (cstr "HW553") None).2.

(** The wiring of an LED: masks of its two pins, register bank, polarities. *)
Definition wiring (l : LED_INFO) : Z * Z * Z * (Z * Z) :=
  (ledMask l, ledMaskFail l, ledlow32GPIO l, (ledActiveLow l, ledActiveLowFail l)).

(** The LEDs of the HG553: the LED map of every board of the list fits
    the array of fifteen entries and its initialisation returns; on the HG553
    it sets up five LEDs (ADSL, wireless, power, Internet, HSPA), each under
    its own name and no other, with the pins of the board table (23/22, -/25,
    4/5, 35/34, 13/12), active low, the Internet LED in the high register bank,
    and all of them off; the timer is left as it was. *)
Theorem HW553_leds ctl polls s0 :
  serial_ready ctl polls →
  (∀ bp, bp ∈ g_BoardParms → ∃ m s,
     build_led_map bpLedInfo (Some bp) 0 LedMapping = Some m ∧
     boardLedInit ctl polls true (Some bp) m s0 = Done (tt, s)) ∧
  ∃ m s, build_led_map bpLedInfo HW553 0 LedMapping = Some m ∧
    boardLedInit ctl polls true HW553 m s0 = Done (tt, s) ∧
    map wiring (gLed s) =
      [(2 ^ 23, 2 ^ 22, GPIO_LOW32, (1, 1)); (0, 2 ^ 25, GPIO_LOW32, (0, 1));
       (2 ^ 4, 2 ^ 5, GPIO_LOW32, (1, 1)); (2 ^ 3, 2 ^ 2, GPIO_HIGH, (1, 1));
       (2 ^ 13, 2 ^ 12, GPIO_LOW32, (1, 1))] ∧
    gpVirtLeds s = <[Z.to_nat kLedAdsl := Some 0%nat]> (<[Z.to_nat kLedWireless := Some 1%nat]>
      (<[Z.to_nat kLedPower := Some 2%nat]> (<[Z.to_nat kLedInternet := Some 3%nat]>
      (<[Z.to_nat kLedHspa := Some 4%nat]> (replicate 15 None))))) ∧
    Forall (λ l, ledState l = kLedStateOff) (gLed s) ∧ gTimerOn s = gTimerOn s0.
Proof.
  intros Hser. split.
  - intros bp Hin. pose proof board_maps_ok as Hall. rewrite Forall_forall in Hall.
    destruct (Hall bp Hin) as (m&Hm&Hok).
    destruct (boardLedInit_inv ctl polls Hser (Some bp) m s0 Hok) as (s&E&_). by exists m, s.
  - eexists _, _. split; [vm_compute; reflexivity|]. split; [vm_compute; reflexivity|].
    split_and!; [reflexivity..| |reflexivity]. by repeat constructor.
Qed.

(** ** Witnesses

    A serial register that is never busy, and the HG553 after its boot. *)

Definition idle_ctl (_ : nat) : Z := 0.

Lemma idle_ctl_ready : serial_ready idle_ctl 1.
Proof. intros k. exists 0%nat. split; [lia|done]. Qed.

Definition cold : lstate :=
  {| regs := {| LEDCtrl := 0; GPIOMode := 0; GPIODir := 0; GPIOio := 0;
                GPIODir_high := 0; GPIOio_high := 0; SerialLed := 0; pcmcia_cntl1 := 0 |};
     gLed := []; gLedCount := 0; gpVirtLeds := replicate 15 None;
     gLedHwFunc := replicate 15 None; gLedHwFailFunc := replicate 15 None;
     gTimerOn := false; gBlinkOnceTimerOn := false; g_nEquipTestMode := 0;
     ser_reads := 0; hw_calls := [] |}.

Definition run {A} (m : M lstate A) (s : lstate) : lstate :=
  match m s with Done (_, s') => s' | _ => s end.

Definition HW553_map : list LED_MAP_PAIR :=
  default [] (build_led_map bpLedInfo HW553 0 LedMapping).

Definition booted : lstate := run (boardLedInit idle_ctl 1 true HW553 HW553_map) cold.

(** The ADSL LED blinking very slowly, its countdown at zero. *)
Definition blinking : lstate :=
  run (expires idle_ctl 1 3)
    (run (boardLedCtrl idle_ctl 1 kLedAdsl kLedStateVerySlowBlinkContiunes) booted).

Definition led_of (s : lstate) (i : nat) : LED_INFO := nth i (gLed s) zero_led.

Definition wf_check (s : lstate) : bool :=
  (length (gpVirtLeds s) =? 15)%nat && (length (gLedHwFunc s) =? 15)%nat &&
  (length (gLedHwFailFunc s) =? 15)%nat && (gLedCount s =? Z.of_nat (length (gLed s))) &&
  forallb (λ o, match o with Some i => (i <? length (gLed s))%nat | None => true end)
    (gpVirtLeds s).

Lemma wf_check_sound s : wf_check s = true → led_wf s.
Proof.
  unfold wf_check. rewrite !andb_true_iff, !Nat.eqb_eq, Z.eqb_eq, forallb_forall.
  intros [[[[? ?] ?] ?] Hall]. split; try done. intros j i Hj.
  apply Nat.ltb_lt. apply (Hall (Some i)). by eapply list_elem_of_In, list_elem_of_lookup_2.
Qed.

Definition alone_check (s : lstate) (i : nat) : bool :=
  forallb (λ j, (j =? i)%nat || negb (bank (led_of s j) =? bank (led_of s i))%nat ||
                (Z.land (ledMask (led_of s j)) (ledMask (led_of s i)) =? 0))
    (seq 0 (length (gLed s))).

Lemma alone_check_sound s i : alone_check s i = true → alone s 0 i (led_of s i).
Proof.
  unfold alone_check. rewrite forallb_forall. intros H j l _ Hne Hl.
  assert (led_of s j = l) as El by (by apply nth_lookup_Some).
  pose proof (lookup_lt_Some _ _ _ Hl) as Hj.
  assert (In j (seq 0 (length (gLed s)))) as Hr by (apply in_seq; lia).
  apply H in Hr. rewrite El in Hr.
  rewrite !orb_true_iff, negb_true_iff, Nat.eqb_eq, Nat.eqb_neq, Z.eqb_eq in Hr.
  destruct Hr as [[?|?]|?]; [done|by left|by right].
Qed.

Lemma booted_eq :
  boardLedInit idle_ctl 1 true HW553 HW553_map cold = Done (tt, booted).
Proof. vm_compute. reflexivity. Qed.

Lemma booted_led :
  gpio_led booted kLedAdsl 0 (led_of booted 0).
Proof. split; [done|]. split_and!; vm_compute; reflexivity. Qed.

Lemma ledTimerExpire_refines_witness :
  ∃ s', ledTimerExpire idle_ctl 1 booted = Done (tt, s') ∧
    length (gLed s') = length (gLed booted) ∧
    (∀ i l, gLed booted !! i = Some l →
       ∃ l' o again, tick_led l (pin_set l (regs booted)) = (l', o, again) ∧
         gLed s' !! i = Some l' ∧
         pin_set l' (regs s') = new_level l o (pin_set l (regs booted))) ∧
    gTimerOn s' = existsb restarts (gLed booted) ∧ led_wf s'.
Proof.
  apply ledTimerExpire_refines.
  - apply idle_ctl_ready.
  - apply wf_check_sound. vm_compute. reflexivity.
  - intros i l Hl. assert (l = led_of booted i) as -> by (symmetry; by apply nth_lookup_Some).
    apply alone_check_sound. apply lookup_lt_Some in Hl.
    change (i < 5)%nat in Hl. do 5 (destruct i as [|i]; [vm_compute; reflexivity|]). lia.
Defined.

Lemma blink_period_witness :
  ∃ s1 s2,
    boardLedCtrl idle_ctl 1 kLedAdsl kLedStateSlowBlinkContinues booted = Done (tt, s1) ∧
    gTimerOn s1 = true ∧ expires idle_ctl 1 (3 * 2) s1 = Done (tt, s2) ∧
    gLed s2 !! 0%nat = Some (with_states kLedStateSlowBlinkContinues
      kLedStateSlowBlinkContinues (with_blink (Z.of_nat 1) (led_of booted 0))) ∧
    pin_set (led_of booted 0) (regs s2) =
      xorb (Nat.odd 3) (pin_set (led_of booted 0) (regs booted)).
Proof.
  apply (blink_period idle_ctl 1 booted kLedAdsl 0 (led_of booted 0)
    kLedStateSlowBlinkContinues 1 3).
  - apply idle_ctl_ready.
  - apply wf_check_sound. vm_compute. reflexivity.
  - apply booted_led.
  - apply alone_check_sound. vm_compute. reflexivity.
  - vm_compute. congruence.
  - reflexivity.
Defined.

Lemma flicker_completes_witness :
  ∃ s1 s2 s3 l2 l3,
    boardLedCtrl idle_ctl 1 kLedAdsl kLedStateFastFlickerOnce booted = Done (tt, s1) ∧
    expires idle_ctl 1 17 s1 = Done (tt, s2) ∧ gLed s2 !! 0%nat = Some l2 ∧
    ledState l2 = kLedStateOn ∧
    pin_set (led_of booted 0) (regs s2) = (ledActiveLow (led_of booted 0) =? 0) ∧
    expires idle_ctl 1 18 s1 = Done (tt, s3) ∧ gLed s3 !! 0%nat = Some l3 ∧
    ledState l3 = kLedStateOn ∧ FlickerCount l3 = 0 ∧ PauseCount l3 = 0 ∧
    pin_set (led_of booted 0) (regs s3) = (ledActiveLow (led_of booted 0) =? 0).
Proof.
  apply (flicker_completes idle_ctl 1 booted kLedAdsl 0 (led_of booted 0)).
  - apply idle_ctl_ready.
  - apply wf_check_sound. vm_compute. reflexivity.
  - apply booted_led.
  - apply alone_check_sound. vm_compute. reflexivity.
  - vm_compute. congruence.
  - right. reflexivity.
  - vm_compute. congruence.
  - vm_compute. reflexivity.
  - vm_compute. reflexivity.
Defined.

Lemma boardLedCtrl_steady_witness :
  ∃ s', boardLedCtrl idle_ctl 1 kLedAdsl kLedStateFail booted = Done (tt, s') ∧
    lit (led_of booted 0) (regs s') = bool_decide (kLedStateFail = kLedStateOn) ∧
    lit_fail (led_of booted 0) (regs s') = bool_decide (kLedStateFail = kLedStateFail) ∧
    gLed s' = <[0%nat := with_next kLedStateFail
      (with_states kLedStateFail kLedStateFail (led_of booted 0))]> (gLed booted) ∧
    gTimerOn s' = gTimerOn booted ∧
    ∀ k m, (k ≤ 2)%nat → apart_both (led_of booted 0) k m →
      level k m (regs s') = level k m (regs booted).
Proof.
  apply (boardLedCtrl_steady idle_ctl 1 booted kLedAdsl 0 (led_of booted 0)).
  - apply idle_ctl_ready.
  - apply booted_led.
  - right. vm_compute. reflexivity.
  - vm_compute. congruence.
  - vm_compute. congruence.
  - right. right. reflexivity.
Defined.

Lemma boardLedCtrl_name_unchecked_witness :
  boardLedCtrl idle_ctl 1 kLedEnd kLedStateOn booted = Fault.
Proof.
  apply boardLedCtrl_name_unchecked.
  - apply wf_check_sound. vm_compute. reflexivity.
  - right. vm_compute. congruence.
Defined.

Lemma very_slow_blink_lost_witness :
  ∃ s1 s2 l2, boardLedCtrl idle_ctl 1 kLedAdsl kLedStateBlinkOnce blinking = Done (tt, s1) ∧
    ledTimerExpire idle_ctl 1 s1 = Done (tt, s2) ∧
    gLed s2 !! 0%nat = Some l2 ∧ ledState l2 = kLedStateVerySlowBlinkContiunes ∧
    gTimerOn s2 = false.
Proof.
  apply (very_slow_blink_lost idle_ctl 1 blinking kLedAdsl 0 (led_of blinking 0)).
  - apply idle_ctl_ready.
  - apply wf_check_sound. vm_compute. reflexivity.
  - split; [done|]. split_and!; vm_compute; reflexivity.
  - vm_compute. reflexivity.
  - vm_compute. reflexivity.
  - vm_compute. reflexivity.
  - vm_compute. reflexivity.
  - intros j l Hne Hl. assert (l = led_of blinking j) as -> by (symmetry; by apply nth_lookup_Some).
    apply lookup_lt_Some in Hl. change (j < 5)%nat in Hl.
    destruct j as [|j]; [done|]. left.
    do 4 (destruct j as [|j]; [vm_compute; reflexivity|]). lia.
Defined.

Lemma led_driver_invariant_witness :
  led_inv booted ∧
  (∀ name st, 0 ≤ name < MAX_VIRT_LEDS → st ≠ kLedStateVerySlowBlinkContiunes →
     ∃ s', boardLedCtrl idle_ctl 1 name st booted = Done (tt, s')) ∧
  ∃ s', ledTimerExpire idle_ctl 1 booted = Done (tt, s').
Proof.
  apply led_driver_invariant; [apply idle_ctl_ready|].
  apply (reach_boot idle_ctl 1 g_huawei96358gw_HG553 HW553_map cold).
  - apply (list_elem_of_lookup_2 _ 3%nat). reflexivity.
  - vm_compute. reflexivity.
  - exact booted_eq.
Defined.

Lemma HW553_leds_witness :
  ∃ m s, build_led_map bpLedInfo HW553 0 LedMapping = Some m ∧
    boardLedInit idle_ctl 1 true HW553 m cold = Done (tt, s) ∧ length (gLed s) = 5%nat.
Proof.
  destruct (HW553_leds idle_ctl 1 cold idle_ctl_ready) as (_&m&s&Hm&E&Hw&_).
  exists m, s. split; [exact Hm|]. split; [exact E|].
  rewrite <- (length_map wiring), Hw. reflexivity.
Defined.
