(* ===== verification/Gpio.v ===== *)
(** * GPIO pins ([board.c])

    Reading and setting pins, the version and manufacturer strapped on pins, the
    PLL and the chip selects.  The registers are the record [gpio_regs]. *)

From stdpp Require Import base numbers list.
From Stdlib Require Import ZArith Lia Bool.
From S2P Require Import Prelude BoardTables BoardParms Led.

(** The registers of [GpioControl] for direction and level, pins 0 to 31 and 32 up. *)
Record gpio_regs : Type := {
  GPIODir_high : Z;
  GPIODir : Z;
  GPIOio_high : Z;
  GPIOio : Z
}.

Definition NOT_SUPPROT_GET_VERSION : Z := 0xFF.
Definition BOARD_VERSION_GPIO_NUMS : nat := 3.
Definition PCB_VERSION_GPIO_NUMS : nat := 2.
Definition GPIO_LOW : Z := 0.

(** The level goes through an [unsigned char]. *)
Definition kerSysGetGPIO (g : gpio_regs) (ucGpioNum : Z) : Z :=
  let n := Z.land ucGpioNum BP_GPIO_NUM_MASK in
  if n >=? 32 then Z.land (Z.shiftr (u8 (GPIOio_high g)) (n - 32)) 1
  else Z.land (Z.shiftr (u8 (GPIOio g)) n) 1.

(** Bit [i] from pin [i] of the version pins; a pin that is not defined ends the
    loop. *)
Fixpoint version_bits (g : gpio_regs) (pin : Z → Z * Z) (n : nat) (i acc : Z) : option Z :=
  match n with
  | O => Some acc
  | S n' =>
      let '(iRet, usGPIOValue) := pin i in
      if BP_SUCCESS =? iRet then
        version_bits g pin n' (i + 1) (Z.lor (Z.shiftl (kerSysGetGPIO g usGPIOValue) i) acc)
      else None
  end.

Definition kerSysGetBoardVersion (g : gpio_regs) (bp : option BOARD_PARAMETERS) : Z :=
  if negb (BP_SUCCESS =? BpIsSupportBoardVersion bp) then NOT_SUPPROT_GET_VERSION
  else match version_bits g (λ i, BpGetBoardVesionGpio i bp) BOARD_VERSION_GPIO_NUMS 0 0 with
       | Some v => u8 v
       | None => NOT_SUPPROT_GET_VERSION
       end.

Definition kerSysGetBoardManufacturer (g : gpio_regs) : Z :=
  let m := kerSysGetGPIO g BP_GPIO_35_AH in
  u8 (Z.lor (Z.shiftl m 1) (kerSysGetGPIO g BP_GPIO_33_AH)).

Definition pPCBVersion : list Z := [65; 66; 67; 68; 69; 70; 71; 48].

Definition kerSysGetPCBVersion (g : gpio_regs) (bp : option BOARD_PARAMETERS) : Z :=
  if negb (BP_SUCCESS =? BpIsSupportBoardVersion bp) then NOT_SUPPROT_GET_VERSION
  else match version_bits g (λ i, let '(r, v) := BpGetPCBVesionGpio i bp in (r, default 0 v))
               PCB_VERSION_GPIO_NUMS 0 0 with
       | Some v => nth (Z.to_nat v) pPCBVersion 0
       | None => NOT_SUPPROT_GET_VERSION
       end.

(** [SetGpio]: direction first, then the level. *)
Definition SetGpio (gpio state : Z) (g : gpio_regs) : gpio_regs :=
  if gpio >=? 32 then
    let mask := GPIO_NUM_TO_MASK_HIGH gpio in
    {| GPIODir_high := Z.lor (GPIODir_high g) mask; GPIODir := GPIODir g;
       GPIOio_high := if state =? GPIO_HIGH then Z.lor (GPIOio_high g) mask
                      else Z.land (GPIOio_high g) (Z.lnot mask);
       GPIOio := GPIOio g |}
  else
    let mask := GPIO_NUM_TO_MASK gpio in
    {| GPIODir_high := GPIODir_high g; GPIODir := Z.lor (GPIODir g) mask;
       GPIOio_high := GPIOio_high g;
       GPIOio := if state =? GPIO_HIGH then Z.lor (GPIOio g) mask
                 else Z.land (GPIOio g) (Z.lnot mask) |}.

Definition kerSysSetGPIO (ucGpioNum state : Z) (g : gpio_regs) : gpio_regs := SetGpio ucGpioNum state g.

(** [SetPll] on the register [pll_control]. *)
Definition SetPll (pll_mask pll_value pll_control : Z) : Z :=
  u32 (Z.lor (Z.land pll_control (Z.lnot pll_mask)) pll_value).

(** The status of a button: the level of its pin as an [int], -1 without a pin.
    [kerSysGetResetStatus] and [kerSysGetWlanButtonStatus] differ in the pin. *)
Definition button_status (g : gpio_regs) (pin : Z * Z) : Z :=
  let '(sts, unGpio) := pin in
  if sts =? BP_SUCCESS then
    if Z.land unGpio BP_GPIO_NUM_MASK >=? 32
    then s32 (Z.land (GPIOio_high g) (GPIO_NUM_TO_MASK_HIGH unGpio))
    else s32 (Z.land (GPIOio g) (GPIO_NUM_TO_MASK unGpio))
  else -1.

Definition kerSysGetResetStatus (g : gpio_regs) (bp : option BOARD_PARAMETERS) : Z :=
  button_status g (BpGetPressAndHoldResetGpio bp).

Definition kerSysGetWlanButtonStatus (g : gpio_regs) (bp : option BOARD_PARAMETERS) : Z :=
  button_status g (BpGetWirelessSesBtnGpio bp).

(** ** What pins read *)

Lemma gpio_mask_low n : 0 ≤ n < 32 → GPIO_NUM_TO_MASK n = 2 ^ n.
Proof.
  intros Hn. unfold GPIO_NUM_TO_MASK, GPIO_NUM_TOTAL_BITS_MASK, GPIO_NUM_MAX_BITS_MASK.
  change 0x3f with (Z.ones 6). change 0x1f with (Z.ones 5). rewrite !Z.land_ones by lia.
  rewrite !Z.mod_small by lia. destruct (Z.ltb_spec n 32); [|lia].
  rewrite Z.shiftl_mul_pow2 by lia. lia.
Qed.

Lemma gpio_mask_high n : 32 ≤ n < 40 → GPIO_NUM_TO_MASK_HIGH n = 2 ^ (n - 32).
Proof.
  intros Hn. unfold GPIO_NUM_TO_MASK_HIGH, GPIO_NUM_TOTAL_BITS_MASK, GPIO_NUM_MAX_BITS_MASK_HIGH.
  change 0x3f with (Z.ones 6). change 0x07 with (Z.ones 3). rewrite !Z.land_ones by lia.
  rewrite !Z.mod_small by lia. destruct (Z.geb_spec n 32); [|lia].
  rewrite Z.shiftl_mul_pow2 by lia. lia.
Qed.

Lemma land_1_testbit x n : 0 ≤ n → Z.land (Z.shiftr x n) 1 = Z.b2z (Z.testbit x n).
Proof.
  intros Hn. change 1 with (Z.ones 1). rewrite Z.land_ones by lia.
  rewrite Z.shiftr_div_pow2 by lia. by rewrite <- Z.testbit_spec'.
Qed.

(** The pin whose level is read, and its register. *)
Definition pin_level (g : gpio_regs) (n : Z) : bool :=
  if n <? 32 then Z.testbit (GPIOio g) n else Z.testbit (GPIOio_high g) (n - 32).

(** [kerSysGetGPIO] reads pins 0 to 7 and 32 to 39 only: these report their
    level, every other pin reports 0 whatever its level, because the register is
    cut to eight bits before the shift.  The flag bits of the pin number do not
    matter. *)
Theorem kerSysGetGPIO_eight_bits g n flags :
  0 ≤ n < 64 → Z.land flags BP_GPIO_NUM_MASK = 0 →
  kerSysGetGPIO g (Z.lor flags n) =
    if decide (n < 8 ∨ 32 ≤ n < 40) then Z.b2z (pin_level g n) else 0.
Proof.
  intros Hn Hf.
  assert (En : Z.land (Z.lor flags n) BP_GPIO_NUM_MASK = n).
  { rewrite Z.land_lor_distr_l, Hf, Z.lor_0_l. unfold BP_GPIO_NUM_MASK. change 0xFF with (Z.ones 8).
    rewrite Z.land_ones by lia. apply Z.mod_small. lia. }
  assert (T : ∀ x m, 0 ≤ m → Z.testbit (u8 x) m = if m <? 8 then Z.testbit x m else false).
  { intros x m Hm. unfold u8. destruct (Z.ltb_spec m 8).
    - by rewrite Z.mod_pow2_bits_low.
    - by rewrite Z.mod_pow2_bits_high by lia. }
  unfold kerSysGetGPIO, pin_level. rewrite En.
  destruct (Z.geb_spec n 32); destruct (Z.ltb_spec n 32); try lia;
    rewrite land_1_testbit, T by lia; case_decide;
    match goal with |- context [?m <? 8] => destruct (Z.ltb_spec m 8) end; done || lia.
Qed.

Definition pin_output (g : gpio_regs) (n : Z) : bool :=
  if n <? 32 then Z.testbit (GPIODir g) n else Z.testbit (GPIODir_high g) (n - 32).

(** [SetGpio] makes the pin an output and drives it to the level asked for;
    the other pins keep their direction and their level. *)
Theorem SetGpio_correct g n state i :
  0 ≤ n < 40 → 0 ≤ i →
  pin_output (SetGpio n state g) i = (pin_output g i || (i =? n))%bool ∧
  pin_level (SetGpio n state g) i = if i =? n then state =? GPIO_HIGH else pin_level g i.
Proof.
  intros Hn Hi. unfold SetGpio, pin_output, pin_level.
  assert (B : ∀ r m j, 0 ≤ m → Z.testbit (Z.lor r (2 ^ m)) j = (Z.testbit r j || (j =? m))%bool).
  { intros r m j Hm. rewrite Z.lor_spec, Z.pow2_bits_eqb by lia. by rewrite (Z.eqb_sym m j). }
  assert (L : ∀ r m j, 0 ≤ m → 0 ≤ j → Z.testbit (if state =? GPIO_HIGH then Z.lor r (2 ^ m)
              else Z.land r (Z.lnot (2 ^ m))) j = if j =? m then state =? GPIO_HIGH else Z.testbit r j).
  { intros r m j Hm Hj. destruct (state =? GPIO_HIGH).
    - rewrite B by done. by destruct (Z.testbit r j), (j =? m).
    - rewrite Z.land_spec, Z.lnot_spec, Z.pow2_bits_eqb, (Z.eqb_sym m j) by lia.
      by destruct (Z.testbit r j), (j =? m). }
  destruct (Z.geb_spec n 32); [rewrite gpio_mask_high by lia|rewrite gpio_mask_low by lia];
    cbn [GPIODir GPIODir_high GPIOio GPIOio_high];
    destruct (Z.ltb_spec i 32); rewrite ?B, ?L by lia.
  - destruct (Z.eqb_spec i n); [lia|]. by rewrite orb_false_r.
  - replace (i - 32 =? n - 32) with (i =? n) by (destruct (Z.eqb_spec i n), (Z.eqb_spec (i - 32) (n - 32)); done || lia).
    done.
  - done.
  - destruct (Z.eqb_spec i n); [lia|]. by rewrite orb_false_r.
Qed.

(** A pin number with the active-low flag, as the board tables give it, is
    not below 32 for [SetGpio], so a pin below 32 is not driven at all. *)
Theorem SetGpio_active_low_lost g n state :
  0 ≤ n < 32 → SetGpio (Z.lor n BP_ACTIVE_LOW) state g = g.
Proof.
  intros Hn. unfold SetGpio.
  assert (E : GPIO_NUM_TO_MASK_HIGH (Z.lor n BP_ACTIVE_LOW) = 0).
  { unfold GPIO_NUM_TO_MASK_HIGH, GPIO_NUM_TOTAL_BITS_MASK. rewrite Z.land_lor_distr_l.
    change (Z.land BP_ACTIVE_LOW 63) with 0. rewrite Z.lor_0_r. change 0x3f with (Z.ones 6).
    rewrite Z.land_ones, Z.mod_small by lia. destruct (Z.geb_spec n 32); [lia|done]. }
  assert (G : Z.lor n BP_ACTIVE_LOW >=? 32 = true).
  { apply Z.geb_le. assert (0 ≤ Z.land n BP_ACTIVE_LOW) by (apply Z.land_nonneg; lia).
    pose proof (Z.add_lor_land n BP_ACTIVE_LOW) as A.
    assert (Z.land n BP_ACTIVE_LOW = 0) as L.
    { unfold BP_ACTIVE_LOW. change 0x8000 with (2 ^ 15). apply Z.bits_inj'. intros i Hi.
      rewrite Z.land_spec, Z.pow2_bits_eqb, Z.bits_0 by lia. destruct (Z.eqb_spec 15 i) as [<-|]; [|by rewrite andb_false_r].
      rewrite <- (Z.mod_small n (2 ^ 15)) by lia. by rewrite Z.mod_pow2_bits_high by lia. }
    rewrite L in A. unfold BP_ACTIVE_LOW in *. lia. }
  rewrite G, E, !Z.lor_0_r. change (Z.lnot 0) with (-1). rewrite Z.land_m1_r.
  destruct g, (state =? GPIO_HIGH); done.
Qed.

(** ** Witnesses *)

Definition all_high : gpio_regs := {| GPIODir_high := 0; GPIODir := 0; GPIOio_high := 0xFF; GPIOio := 2 ^ 32 - 1 |}.

(** Pin 9, the WLAN button, is high and reads 0. *)
Lemma kerSysGetGPIO_eight_bits_witness : kerSysGetGPIO all_high (Z.lor BP_ACTIVE_LOW 9) = 0.
Proof.
  rewrite (kerSysGetGPIO_eight_bits all_high 9 BP_ACTIVE_LOW).
  - done.
  - lia.
  - reflexivity.
Defined.

Lemma SetGpio_correct_witness : pin_level (SetGpio 37 GPIO_LOW all_high) 37 = false.
Proof.
  destruct (SetGpio_correct all_high 37 GPIO_LOW 37) as [_ E].
  - lia.
  - lia.
  - rewrite E. reflexivity.
Defined.

Lemma SetGpio_active_low_lost_witness : SetGpio (Z.lor 9 BP_ACTIVE_LOW) GPIO_LOW all_high = all_high.
Proof. apply SetGpio_active_low_lost. lia. Defined.
