(* ===== verification/Buttons.v ===== *)
(** * Buttons and the fault watch ([board.c])

    The timers that poll the reset button and the WLAN button, and the timer that
    watches the data card, the USB ports and the ATM queue.  A poll is a function
    of the registers it reads and of the static variables of the source, kept in
    the records [buttons] and [watch]. *)

From stdpp Require Import base numbers list.
From Stdlib Require Import ZArith Lia Bool.
From S2P Require Import Prelude BoardTables BoardParms Led Gpio.

Definition SOFT_RESET : Z := 1.
Definition FLASH_WRITING : Z := 1.
Definition FLASH_IDLE : Z := 0.

(** [wlan_armed] and [reset_armed] tell whether the timers are running,
    [works_queued] counts the calls of [queue_work]. *)
Record buttons : Type := {
  s_ucWlanButtonCnt : Z;
  WPS_FLAG : Z;
  g_sWlanFlag : Z;
  g_wakeup_monitor : Z;
  wlan_armed : bool;
  s_iResetButtoncnt : Z;
  iRestoreFlag : Z;
  works_queued : nat;
  reset_armed : bool;
  pll_control : Z
}.

Definition REVERSE_WLAN_STATE_TIME : Z := 1.
Definition WPS_WLAN_TIME : Z := 10.
Definition COUNTS_PSEC : Z := 4.
Definition RESTORE_DEFAULT_SETTING_TIME : Z := 6.

Definition iStateReverseCounts : Z := REVERSE_WLAN_STATE_TIME * COUNTS_PSEC - 1.
Definition iWPSCounts : Z := WPS_WLAN_TIME * COUNTS_PSEC.

Definition set_wlan (cnt wps flag wake : Z) (armed : bool) (b : buttons) : buttons :=
  {| s_ucWlanButtonCnt := cnt; WPS_FLAG := wps; g_sWlanFlag := flag; g_wakeup_monitor := wake;
     wlan_armed := armed; s_iResetButtoncnt := s_iResetButtoncnt b; iRestoreFlag := iRestoreFlag b;
     works_queued := works_queued b; reset_armed := reset_armed b; pll_control := pll_control b |}.

Definition set_reset (cnt flag : Z) (queued : nat) (armed : bool) (pll : Z) (b : buttons) : buttons :=
  {| s_ucWlanButtonCnt := s_ucWlanButtonCnt b; WPS_FLAG := WPS_FLAG b; g_sWlanFlag := g_sWlanFlag b;
     g_wakeup_monitor := g_wakeup_monitor b; wlan_armed := wlan_armed b;
     s_iResetButtoncnt := cnt; iRestoreFlag := flag; works_queued := queued; reset_armed := armed;
     pll_control := pll |}.

(** One poll of the WLAN button, 1/4 s apart. *)
Definition bcm63xx_poll_switch_wlan_key (g : gpio_regs) (bp : option BOARD_PARAMETERS) (b : buttons)
  : buttons :=
  let iRet := kerSysGetWlanButtonStatus g bp in
  let cnt := s_ucWlanButtonCnt b in
  let armed := 0 <=? iRet in
  if iRet =? 0 then
    set_wlan (u8 (cnt + 1)) (WPS_FLAG b) (g_sWlanFlag b) (g_wakeup_monitor b) armed b
  else if iRet >? 0 then
    if cnt >? iWPSCounts then set_wlan 0 1 (g_sWlanFlag b) (g_wakeup_monitor b) armed b
    else if cnt >=? iStateReverseCounts then
      set_wlan 0 (WPS_FLAG b) (if 0 =? g_sWlanFlag b then 1 else 0) 1 armed b
    else set_wlan 0 (WPS_FLAG b) (g_sWlanFlag b) (g_wakeup_monitor b) armed b
  else set_wlan cnt (WPS_FLAG b) (g_sWlanFlag b) (g_wakeup_monitor b) armed b.

Definition kerSysMipsSoftReset (pll : Z) : Z := Z.lor pll SOFT_RESET.

(** One poll of the reset button, 1 s apart. *)
Definition bcm63xx_poll_reset_button (s_iFlashWriteFlg : Z) (g : gpio_regs)
  (bp : option BOARD_PARAMETERS) (b : buttons) : buttons :=
  if FLASH_WRITING =? s_iFlashWriteFlg then
    set_reset 0 (iRestoreFlag b) (works_queued b) true (pll_control b) b
  else
    let iRet := kerSysGetResetStatus g bp in
    let cnt := s_iResetButtoncnt b in
    let armed := 0 <=? iRet in
    if iRet =? 0 then
      let cnt := s32 (cnt + 1) in
      if (cnt >=? RESTORE_DEFAULT_SETTING_TIME) && (iRestoreFlag b =? 0)
      then set_reset cnt 1 (S (works_queued b)) armed (pll_control b) b
      else set_reset cnt (iRestoreFlag b) (works_queued b) armed (pll_control b) b
    else if iRet >? 0 then
      if (cnt >=? 1) && (cnt <? RESTORE_DEFAULT_SETTING_TIME)
      then set_reset 0 (iRestoreFlag b) (works_queued b) armed (kerSysMipsSoftReset (pll_control b)) b
      else set_reset 0 (iRestoreFlag b) (works_queued b) armed (pll_control b) b
    else set_reset cnt (iRestoreFlag b) (works_queued b) armed (pll_control b) b.

(** ** The fault watch *)

Definition EHCI_PORT_STAT_MASK : Z := 0x00000F00.
Definition EHCI_PORT_J_STAT : Z := 0x00000900.
Definition EHCI_PORT_K_STAT : Z := 0x00000500.
Definition EHCI_BAD_LIMIT : Z := 1.
Definition ATM_QUEUE_CHECK_INTERVAL : Z := 15.
Definition ATM_QUEUE_CHECK_COUNT : Z := 5.

(** A port of the USB controller: its status register and [siMulAdd]. *)
Record usb_port : Type := { port_sc : Z; siMulAdd : Z }.

Definition clear_port_register (p : usb_port) : usb_port :=
  let iRegVal := Z.land (port_sc p) EHCI_PORT_STAT_MASK in
  let n := if (iRegVal =? EHCI_PORT_J_STAT) || (iRegVal =? EHCI_PORT_K_STAT)
           then u32 (siMulAdd p + 1) else siMulAdd p in
  if n >? EHCI_BAD_LIMIT then {| port_sc := 0x00001002; siMulAdd := 0 |}
  else {| port_sc := port_sc p; siMulAdd := n |}.

(** The static variables of [fault_detect], [g_iAtmReset], the PLL register, the
    requests to the LED of the card (latest first) and the delay to the next
    call in seconds. *)
Record watch : Type := {
  w_port0 : usb_port;
  w_port1 : usb_port;
  iDo : Z;
  iOldUsbState : Z;
  iTime : Z;
  iCount : Z;
  g_iAtmReset : Z;
  w_pll : Z;
  w_hspa_led : list BOARD_LED_STATE;
  w_delay : Z
}.

Definition clear_ports (w : watch) : watch :=
  {| w_port0 := clear_port_register (w_port0 w); w_port1 := clear_port_register (w_port1 w);
     iDo := iDo w; iOldUsbState := iOldUsbState w; iTime := iTime w; iCount := iCount w;
     g_iAtmReset := g_iAtmReset w; w_pll := w_pll w; w_hspa_led := w_hspa_led w; w_delay := w_delay w |}.

Definition set_card (d old : Z) (leds : list BOARD_LED_STATE) (delay : Z) (w : watch) : watch :=
  {| w_port0 := w_port0 w; w_port1 := w_port1 w; iDo := d; iOldUsbState := old; iTime := iTime w;
     iCount := iCount w; g_iAtmReset := g_iAtmReset w; w_pll := w_pll w; w_hspa_led := leds;
     w_delay := delay |}.

(** The ATM part: every fifteenth call looks at [g_iAtmReset]. *)
Definition atm_watch (t : Z * Z * Z) : Z * Z * Z :=
  let '(time, count, atm) := t in
  if ATM_QUEUE_CHECK_INTERVAL =? s32 (time + 1) then
    if atm =? 0 then (0, 0, atm)
    else if atm =? 1 then (0, 0, 2)
    else if atm =? 2 then (0, s32 (count + 1), atm)
    else (0, count, atm)
  else (s32 (time + 1), count, atm).

Definition set_atm (t : Z * Z * Z) (w : watch) : watch :=
  let '(time, count, atm) := t in
  {| w_port0 := w_port0 w; w_port1 := w_port1 w; iDo := iDo w; iOldUsbState := iOldUsbState w;
     iTime := time; iCount := count; g_iAtmReset := atm;
     w_pll := if ATM_QUEUE_CHECK_COUNT =? count then kerSysMipsSoftReset (w_pll w) else w_pll w;
     w_hspa_led := w_hspa_led w; w_delay := 1 |}.

(** [card] is [g_iDataCardIn], [usb] is [iUsbTtyState]. *)
Definition fault_detect (card : bool) (usb : Z) (w : watch) : watch :=
  let rest w := let w := clear_ports w in set_atm (atm_watch (iTime w, iCount w, g_iAtmReset w)) w in
  if card then
    if (usb <? 3) && (iDo w =? 0) then
      if negb (iOldUsbState w =? usb) then
        set_card (iDo w) usb (w_hspa_led w) 5 (clear_ports w)
      else rest (set_card 1 (iOldUsbState w) (kLedStateFail :: w_hspa_led w) (w_delay w) w)
    else rest (set_card 1 (iOldUsbState w) (w_hspa_led w) (w_delay w) w)
  else if negb (iDo w =? 0) then rest (set_card 0 3 (kLedStateOff :: w_hspa_led w) (w_delay w) w)
  else rest w.

(** ** Pins of the buttons *)

Lemma button_status_spec g n flags :
  0 ≤ n < 40 → Z.land flags BP_GPIO_NUM_MASK = 0 → 0 ≤ GPIOio g < 2 ^ 32 → 0 ≤ GPIOio_high g < 2 ^ 32 →
  let r := button_status g (BP_SUCCESS, Z.lor flags n) in
  (r = 0 ↔ pin_level g n = false) ∧ (r < 0 ↔ n = 31 ∧ pin_level g n = true).
Proof.
  intros Hn Hf Hio Hioh.
  assert (En : Z.land (Z.lor flags n) BP_GPIO_NUM_MASK = n).
  { rewrite Z.land_lor_distr_l, Hf, Z.lor_0_l. unfold BP_GPIO_NUM_MASK. change 0xFF with (Z.ones 8).
    rewrite Z.land_ones by lia. apply Z.mod_small. lia. }
  assert (M : ∀ k, 0 ≤ k < 8 → Z.land (Z.lor flags n) (Z.ones k) = Z.land n (Z.ones k)).
  { intros k Hk. rewrite Z.land_lor_distr_l.
    replace (Z.ones k) with (Z.land BP_GPIO_NUM_MASK (Z.ones k)) at 1.
    - by rewrite Z.land_assoc, Hf, Z.land_0_l, Z.lor_0_l.
    - unfold BP_GPIO_NUM_MASK. change 0xFF with (Z.ones 8). rewrite Z.land_comm, Z.land_ones by lia. apply Z.mod_small.
      rewrite !Z.ones_equiv. pose proof (Z.pow_pos_nonneg 2 k). pose proof (Z.pow_lt_mono_r 2 k 8). lia. }
  assert (MH : ∀ k, 0 ≤ k < 8 → Z.land (Z.lor flags n - 32) (Z.ones k) = Z.land (n - 32) (Z.ones k)).
  { intros k Hk. rewrite !Z.land_ones by lia.
    rewrite <- (Zminus_mod_idemp_l (Z.lor flags n)), <- (Zminus_mod_idemp_l n).
    rewrite <- !Z.land_ones by lia. by rewrite M. }
  assert (L : ∀ x k, 0 ≤ k → Z.land x (2 ^ k) = if Z.testbit x k then 2 ^ k else 0).
  { intros x k Hk. apply Z.bits_inj'. intros i Hi. rewrite Z.land_spec, Z.pow2_bits_eqb by lia.
    destruct (Z.eqb_spec k i) as [<-|].
    - destruct (Z.testbit x k); simpl; [by rewrite Z.pow2_bits_true|by rewrite Z.bits_0].
    - rewrite andb_false_r. destruct (Z.testbit x k); [by rewrite Z.pow2_bits_false|by rewrite Z.bits_0]. }
  unfold button_status, pin_level. rewrite Z.eqb_refl, En.
  destruct (Z.geb_spec n 32); destruct (Z.ltb_spec n 32); try lia.
  - assert (E : GPIO_NUM_TO_MASK_HIGH (Z.lor flags n) = 2 ^ (n - 32)).
    { rewrite <- gpio_mask_high by lia.
      unfold GPIO_NUM_TO_MASK_HIGH, GPIO_NUM_TOTAL_BITS_MASK, GPIO_NUM_MAX_BITS_MASK_HIGH.
      change 0x3f with (Z.ones 6). change 0x07 with (Z.ones 3). by rewrite M, MH by lia. }
    rewrite E, L by lia. pose proof (Z.pow_pos_nonneg 2 (n - 32)). pose proof (Z.pow_lt_mono_r 2 (n - 32) 31).
    destruct (Z.testbit (GPIOio_high g) (n - 32)); rewrite s32_small by lia; split; split; try done; try lia.
  - assert (E : GPIO_NUM_TO_MASK (Z.lor flags n) = 2 ^ n).
    { rewrite <- gpio_mask_low by lia.
      unfold GPIO_NUM_TO_MASK, GPIO_NUM_TOTAL_BITS_MASK, GPIO_NUM_MAX_BITS_MASK.
      change 0x3f with (Z.ones 6). change 0x1f with (Z.ones 5). by rewrite !M by lia. }
    rewrite E, L by lia. pose proof (Z.pow_pos_nonneg 2 n).
    destruct (decide (n = 31)) as [->|].
    + destruct (Z.testbit (GPIOio g) 31); [change (s32 (2 ^ 31)) with (- 2 ^ 31)|change (s32 0) with 0];
        split; split; try done; lia.
    + pose proof (Z.pow_lt_mono_r 2 n 31).
      destruct (Z.testbit (GPIOio g) n); rewrite s32_small by lia; split; split; try done; lia.
Qed.

(** The status of a button on pin [n]: negative when there is no pin, 0 when
    the pin is low, positive when it is high; except that pin 31, when high, is
    the sign bit and reads as negative, that is, as no button. *)
Theorem button_status_correct g n flags :
  0 ≤ n < 40 → Z.land flags BP_GPIO_NUM_MASK = 0 → 0 ≤ GPIOio g < 2 ^ 32 → 0 ≤ GPIOio_high g < 2 ^ 32 →
  let r := button_status g (BP_SUCCESS, Z.lor flags n) in
  (r = 0 ↔ pin_level g n = false) ∧ (r < 0 ↔ n = 31 ∧ pin_level g n = true).
Proof. exact (button_status_spec g n flags). Qed.

(** ** Presses *)

Section presses.
Context (bp : option BOARD_PARAMETERS) (down up : gpio_regs).
(** [down] and [up]: registers read while a button is pressed and not. *)

Fixpoint hold (poll : gpio_regs → buttons → buttons) (n : nat) (b : buttons) : buttons :=
  match n with O => b | S n' => hold poll n' (poll down b) end.

(** A press of [n] polls, seen when it ends. *)
Definition press (poll : gpio_regs → buttons → buttons) (n : nat) (b : buttons) : buttons :=
  poll up (hold poll n b).

Section wlan.
Context (Hdown : kerSysGetWlanButtonStatus down bp = 0) (Hup : 0 < kerSysGetWlanButtonStatus up bp).
Abbreviation poll := (λ g, bcm63xx_poll_switch_wlan_key g bp).

Lemma hold_wlan n b : 0 ≤ s_ucWlanButtonCnt b < 256 →
  hold poll n b = match n with
    | O => b
    | _ => set_wlan (u8 (s_ucWlanButtonCnt b + Z.of_nat n)) (WPS_FLAG b) (g_sWlanFlag b)
             (g_wakeup_monitor b) true b
    end.
Proof using Hdown.
  clear Hup. revert b; induction n as [|n IH]; intros b Hb; [done|]. cbn [hold].
  assert (E : bcm63xx_poll_switch_wlan_key down bp b =
    set_wlan (u8 (s_ucWlanButtonCnt b + 1)) (WPS_FLAG b) (g_sWlanFlag b) (g_wakeup_monitor b) true b).
  { unfold bcm63xx_poll_switch_wlan_key. by rewrite Hdown. }
  rewrite E, IH by (cbn; apply Z.mod_pos_bound; lia). destruct n as [|n]; [done|].
  unfold set_wlan. cbn [s_ucWlanButtonCnt WPS_FLAG g_sWlanFlag g_wakeup_monitor s_iResetButtoncnt
    iRestoreFlag works_queued reset_armed pll_control wlan_armed].
  f_equal. unfold u8. rewrite Zplus_mod_idemp_l. f_equal. lia.
Qed.

(** What a press of the WLAN button does depends on its length in polls (four
    per second) modulo 256: more than 40 asks for WPS, 3 to 40 switches WLAN,
    less does nothing.  So a press of 64 seconds counts as none. *)
Theorem wlan_press n b : s_ucWlanButtonCnt b = 0 →
  let t := Z.of_nat n mod 256 in
  let b' := press poll n b in
  s_ucWlanButtonCnt b' = 0 ∧ wlan_armed b' = true ∧
  (40 < t → WPS_FLAG b' = 1 ∧ g_sWlanFlag b' = g_sWlanFlag b) ∧
  (3 ≤ t ≤ 40 → g_sWlanFlag b' = (if g_sWlanFlag b =? 0 then 1 else 0) ∧ WPS_FLAG b' = WPS_FLAG b ∧
               g_wakeup_monitor b' = 1) ∧
  (t < 3 → g_sWlanFlag b' = g_sWlanFlag b ∧ WPS_FLAG b' = WPS_FLAG b ∧
           g_wakeup_monitor b' = g_wakeup_monitor b).
Proof using Hdown Hup.
  intros H0 t b'.
  assert (Ht : 0 ≤ t < 256) by (apply Z.mod_pos_bound; lia).
  assert (Ecnt : ∃ bh, hold poll n b = bh ∧ s_ucWlanButtonCnt bh = t ∧ WPS_FLAG bh = WPS_FLAG b ∧
     g_sWlanFlag bh = g_sWlanFlag b ∧ g_wakeup_monitor bh = g_wakeup_monitor b).
  { eexists. split; [reflexivity|]. rewrite hold_wlan by lia. destruct n as [|n].
    - by rewrite H0.
    - cbn [s_ucWlanButtonCnt set_wlan WPS_FLAG g_sWlanFlag g_wakeup_monitor].
      rewrite H0, Z.add_0_l. done. }
  destruct Ecnt as (bh & E & Ec & Ew & Ef & Em). unfold b', press. rewrite E.
  unfold bcm63xx_poll_switch_wlan_key. rewrite Ec, Ew, Ef, Em.
  destruct (Z.eqb_spec (kerSysGetWlanButtonStatus up bp) 0); [lia|].
  destruct (Z.gtb_spec (kerSysGetWlanButtonStatus up bp) 0); [|lia].
  rewrite (proj2 (Z.leb_le 0 _)) by lia. rewrite (Z.eqb_sym 0).
  unfold iWPSCounts, iStateReverseCounts, WPS_WLAN_TIME, REVERSE_WLAN_STATE_TIME, COUNTS_PSEC.
  destruct (Z.gtb_spec t (10 * 4)); [|destruct (Z.geb_spec t (1 * 4 - 1))];
    cbn [set_wlan s_ucWlanButtonCnt WPS_FLAG g_sWlanFlag g_wakeup_monitor wlan_armed]; naive_solver lia.
Qed.
End wlan.

Section reset.
Context (flg : Z) (Hflg : flg ≠ FLASH_WRITING).
Context (Hdown : kerSysGetResetStatus down bp = 0) (Hup : 0 < kerSysGetResetStatus up bp).
Abbreviation poll := (λ g, bcm63xx_poll_reset_button flg g bp).

(** The state while the button is held. *)
Definition held (n : nat) (b : buttons) : buttons :=
  set_reset (Z.of_nat n) (if decide (6 ≤ n)%nat then 1 else 0)
    (works_queued b + if decide (6 ≤ n)%nat then 1 else 0)%nat true (pll_control b) b.

Lemma poll_down n b : Z.of_nat n < 2 ^ 31 - 1 →
  bcm63xx_poll_reset_button flg down bp (held n b) = held (S n) b.
Proof using Hdown Hflg.
  clear Hup. intros Hn. unfold bcm63xx_poll_reset_button, FLASH_WRITING in *.
  destruct (Z.eqb_spec 1 flg); [lia|]. rewrite Hdown.
  unfold held, set_reset, RESTORE_DEFAULT_SETTING_TIME. cbn.
  rewrite s32_small by lia. replace (Z.of_nat n + 1) with (Z.of_nat (S n)) by lia.
  destruct (Z.geb_spec (Z.of_nat (S n)) 6); repeat case_decide; try lia; cbn; f_equal; lia.
Qed.

Lemma hold_reset n m b : Z.of_nat (n + m) < 2 ^ 31 - 1 →
  hold poll n (held m b) = held (n + m) b.
Proof using Hdown Hflg.
  clear Hup. revert m; induction n as [|n IH]; intros m Hn; [done|]. cbn [hold].
  rewrite poll_down by lia. rewrite IH by lia. f_equal. lia.
Qed.

(** A press of the reset button of one to five polls (seconds) resets the
    board; one of six or more starts the restoration of the defaults, once, and
    does not reset; the counter is back at 0 and the polling goes on. *)
Theorem reset_press n b :
  s_iResetButtoncnt b = 0 → iRestoreFlag b = 0 → Z.of_nat n < 2 ^ 31 - 1 → reset_armed b = true →
  let b' := press poll n b in
  s_iResetButtoncnt b' = 0 ∧ reset_armed b' = true ∧
  pll_control b' = (if decide (1 ≤ n < 6)%nat then kerSysMipsSoftReset (pll_control b) else pll_control b) ∧
  works_queued b' = (works_queued b + if decide (6 ≤ n)%nat then 1 else 0)%nat.
Proof using Hdown Hflg Hup.
  intros H0 Hr Hn Ha b'. unfold b', press.
  assert (E : hold poll n b = held n b).
  { transitivity (hold poll n (held 0 b)); [|rewrite hold_reset by lia; f_equal; lia].
    f_equal. destruct b; cbn in *. subst. unfold held, set_reset. cbn. f_equal; repeat case_decide; lia. }
  rewrite E. unfold bcm63xx_poll_reset_button, FLASH_WRITING in *.
  destruct (Z.eqb_spec 1 flg); [lia|].
  destruct (Z.eqb_spec (kerSysGetResetStatus up bp) 0); [lia|].
  destruct (Z.gtb_spec (kerSysGetResetStatus up bp) 0); [|lia].
  rewrite (proj2 (Z.leb_le 0 _)) by lia. unfold RESTORE_DEFAULT_SETTING_TIME.
  cbn [held set_reset s_iResetButtoncnt].
  destruct (Z.geb_spec (Z.of_nat n) 1), (Z.ltb_spec (Z.of_nat n) 6); cbn; repeat case_decide; naive_solver lia.
Qed.
End reset.
End presses.

(** On the HG553 the buttons are on pins 37 and 9, so the polling of both
    never stops: whatever the registers hold and whether or not the flash is
    being written, a poll restarts its timer. *)
Theorem HW553_polling_never_stops flg g b :
  0 ≤ GPIOio g < 2 ^ 32 → 0 ≤ GPIOio_high g < 2 ^ 32 →
  let bp := Some g_huawei96358gw_HG553 in
  reset_armed (bcm63xx_poll_reset_button flg g bp b) = true ∧
  wlan_armed (bcm63xx_poll_switch_wlan_key g bp b) = true.
Proof.
  intros Hio Hioh bp.
  assert (R : 0 ≤ kerSysGetResetStatus g bp).
  { destruct (button_status_spec g 37 BP_ACTIVE_LOW) as [_ H]; [lia|done|done|done|].
    change (BP_SUCCESS, Z.lor BP_ACTIVE_LOW 37) with (BpGetPressAndHoldResetGpio bp) in H.
    fold (kerSysGetResetStatus g bp) in H. lia. }
  assert (W : 0 ≤ kerSysGetWlanButtonStatus g bp).
  { destruct (button_status_spec g 9 BP_ACTIVE_LOW) as [_ H]; [lia|done|done|done|].
    change (BP_SUCCESS, Z.lor BP_ACTIVE_LOW 9) with (BpGetWirelessSesBtnGpio bp) in H.
    fold (kerSysGetWlanButtonStatus g bp) in H. lia. }
  unfold bcm63xx_poll_reset_button, bcm63xx_poll_switch_wlan_key.
  rewrite !(proj2 (Z.leb_le 0 _)) by done.
  split; repeat (match goal with |- context [if ?x then _ else _] => destruct x end); done.
Qed.

(** ** The ATM queue *)

Fixpoint watches (n : nat) (w : watch) : watch :=
  match n with O => w | S n' => watches n' (fault_detect false 3 w) end.

Lemma watch_atm n : ∀ w, iDo w = 0 →
  let w' := watches n w in
  let t := Nat.iter n atm_watch (iTime w, iCount w, g_iAtmReset w) in
  (iTime w', iCount w', g_iAtmReset w') = t ∧ iDo w' = 0.
Proof.
  induction n as [|n IH] using nat_ind; intros w H; [done|].
  assert (E : iDo (fault_detect false 3 w) = 0 ∧
    (iTime (fault_detect false 3 w), iCount (fault_detect false 3 w), g_iAtmReset (fault_detect false 3 w)) =
    atm_watch (iTime w, iCount w, g_iAtmReset w)).
  { unfold fault_detect. rewrite H. cbn [negb Z.eqb]. unfold set_atm, clear_ports.
    cbn [iTime iCount g_iAtmReset iDo]. destruct (atm_watch _) as [[? ?] ?]. done. }
  destruct E as [E1 E2]. cbn [watches]. destruct (IH (fault_detect false 3 w) E1) as [-> E3].
  split; [|done]. rewrite E2. symmetry. apply Nat.iter_succ_r.
Qed.

(** The reset is asked for by the call that brings the counter to five. *)
Lemma watch_reset w : iDo w = 0 →
  w_pll (fault_detect false 3 w) =
    if ATM_QUEUE_CHECK_COUNT =? snd (fst (atm_watch (iTime w, iCount w, g_iAtmReset w)))
    then kerSysMipsSoftReset (w_pll w) else w_pll w.
Proof.
  intros H. unfold fault_detect. rewrite H. cbn [negb Z.eqb]. unfold set_atm, clear_ports.
  cbn [iTime iCount g_iAtmReset w_pll]. by destruct (atm_watch _) as [[? ?] ?].
Qed.

(** A full ATM queue ([g_iAtmReset] set to 1 and not cleared) resets the
    board with the 90th call of the watch: 15 calls to arm it and five checks 15
    calls apart; no earlier call does. *)
Theorem atm_watch_resets w (n : nat) :
  iDo w = 0 → iTime w = 0 → iCount w = 0 → g_iAtmReset w = 1 → (n < 90)%nat →
  w_pll (watches n w) = w_pll w ∧
  w_pll (watches 90 w) = kerSysMipsSoftReset (w_pll w).
Proof.
  intros H0 Ht Hc Ha Hn.
  assert (Hsnoc : ∀ m w, watches (S m) w = fault_detect false 3 (watches m w)).
  { induction m as [|m IHm]; intros w0; [done|]. cbn [watches]. cbn [watches] in IHm. by rewrite IHm. }
  assert (Hstep : ∀ m, w_pll (watches (S m) w) =
     if ATM_QUEUE_CHECK_COUNT =? snd (fst (Nat.iter (S m) atm_watch (0, 0, 1)))
     then kerSysMipsSoftReset (w_pll (watches m w)) else w_pll (watches m w)).
  { intros m. rewrite Hsnoc. destruct (watch_atm m w H0) as [E1 E2]. rewrite (watch_reset _ E2), E1, Ht, Hc, Ha.
    done. }
  assert (Hno : ∀ m, (m < 90)%nat → w_pll (watches m w) = w_pll w).
  { induction m as [|m IHm]; intros Hm; [done|]. rewrite Hstep, IHm by lia.
    assert (Eb : forallb (λ j, negb (ATM_QUEUE_CHECK_COUNT =? snd (fst (Nat.iter (S j) atm_watch (0, 0, 1)))))
                   (seq 0 89) = true) by (vm_compute; reflexivity).
    rewrite forallb_forall in Eb. specialize (Eb m ltac:(apply in_seq; lia)).
    apply negb_true_iff in Eb. by rewrite Eb. }
  split; [by apply Hno|]. rewrite (Hstep 89%nat), Hno by lia. done.
Qed.

(** ** Witnesses *)

Definition rest_buttons : buttons :=
  {| s_ucWlanButtonCnt := 0; WPS_FLAG := 0; g_sWlanFlag := 0; g_wakeup_monitor := 0; wlan_armed := true;
     s_iResetButtoncnt := 0; iRestoreFlag := 0; works_queued := 0; reset_armed := true; pll_control := 0 |}.

Definition all_low : gpio_regs := {| GPIODir_high := 0; GPIODir := 0; GPIOio_high := 0; GPIOio := 0 |}.

Lemma button_status_correct_witness : button_status all_high (BP_SUCCESS, 31) < 0.
Proof.
  destruct (button_status_correct all_high 31 0) as [_ H].
  - lia.
  - reflexivity.
  - cbn. lia.
  - cbn. lia.
  - apply H. split; reflexivity.
Defined.

(** A press of 64 s does nothing. *)
Lemma wlan_press_witness :
  WPS_FLAG (press all_low all_high (λ g, bcm63xx_poll_switch_wlan_key g (Some g_huawei96358gw_HG553)) 256
              rest_buttons) = 0.
Proof.
  destruct (wlan_press (Some g_huawei96358gw_HG553) all_low all_high) with (n := 256%nat) (b := rest_buttons)
    as (_ & _ & _ & _ & H).
  - vm_compute. reflexivity.
  - vm_compute. reflexivity.
  - reflexivity.
  - apply H. vm_compute. reflexivity.
Defined.

Lemma reset_press_witness :
  pll_control (press all_low all_high
    (λ g, bcm63xx_poll_reset_button FLASH_IDLE g (Some g_huawei96358gw_HG553)) 3 rest_buttons) = SOFT_RESET.
Proof.
  destruct (reset_press (Some g_huawei96358gw_HG553) all_low all_high FLASH_IDLE) with (n := 3%nat) (b := rest_buttons)
    as (_ & _ & H & _).
  - discriminate.
  - vm_compute. reflexivity.
  - vm_compute. reflexivity.
  - reflexivity.
  - reflexivity.
  - lia.
  - reflexivity.
  - rewrite H. reflexivity.
Defined.

Lemma HW553_polling_never_stops_witness :
  reset_armed (bcm63xx_poll_reset_button FLASH_IDLE all_high (Some g_huawei96358gw_HG553) rest_buttons) = true.
Proof.
  apply (HW553_polling_never_stops FLASH_IDLE all_high rest_buttons).
  - cbn. lia.
  - cbn. lia.
Defined.

Definition atm_full : watch :=
  {| w_port0 := {| port_sc := 0; siMulAdd := 0 |}; w_port1 := {| port_sc := 0; siMulAdd := 0 |};
     iDo := 0; iOldUsbState := 3; iTime := 0; iCount := 0; g_iAtmReset := 1; w_pll := 0;
     w_hspa_led := []; w_delay := 1 |}.

Lemma atm_watch_resets_witness : w_pll (watches 90 atm_full) = SOFT_RESET.
Proof.
  destruct (atm_watch_resets atm_full 3) as [_ H].
  - reflexivity.
  - reflexivity.
  - reflexivity.
  - reflexivity.
  - lia.
  - rewrite H. reflexivity.
Defined.
