(* ===== verification/DyingGasp.v ===== *)
(** * Dying gasp ([board.c])

    When the power fails, an interrupt calls the handlers that other drivers
    registered, the DSL handler last, and stops the system.  The handlers are
    kept in a circular doubly linked list of the kernel ([list.h]); the list is
    modelled as it lies in memory, [nodes] by address, so that a use
    of a freed node is visible. *)

From stdpp Require Import base numbers list gmap strings.
From Stdlib Require Import ZArith Lia Bool.
From S2P Require Import Prelude BoardTables BoardParms.

Definition IFNAMSIZ : nat := 16.
Definition LIST_POISON1 : Z := 0x00100100.
Definition LIST_POISON2 : Z := 0x00200200.
Definition CYCLE_PER_US : Z := 150.
Definition DG_GLITCH_TO : Z := 100 * CYCLE_PER_US.
Definition FPERIPH : Z := 50000000.
Definition INTERNAL_ISR_TABLE_OFFSET : Z := 8.
Definition INTERRUPT_ID_DG : Z := INTERNAL_ISR_TABLE_OFFSET + 30.
Definition EMAC_CLK_EN : Z :=
  Z.lor (Z.lor (Z.lor (Z.lor (Z.shiftl 1 21) (Z.shiftl 1 18)) (Z.shiftl 1 19)) (Z.shiftl 1 17)) (Z.shiftl 1 20).
Definition SAR_CLK_EN : Z := Z.shiftl 1 11.
Definition USBS_CLK_EN : Z := Z.shiftl 1 10.

(** [CB_DGASP_LIST]; the list head is its first member, so a node and its
    [list] have the same address. *)
Record CB_DGASP_LIST : Type := {
  next : Z;
  prev : Z;
  name : list Z;
  cb_dgasp_fn : Z;
  context : Z
}.

(** The memory of the nodes, [g_cb_dgasp_list_head] (0 is NULL), the calls of
    handlers so far (function and argument, latest last), the registers the
    shutdown writes, and whether the interrupt has been enabled. *)
Record dgasp : Type := {
  nodes : gmap Z CB_DGASP_LIST;
  g_cb_dgasp_list_head : Z;
  dg_calls : list (Z * Z);
  WatchDogDefCount : Z;
  WatchDogCtl : list Z;
  dg_blkEnables : Z;
  dg_enabled : bool
}.

Definition set_nodes (h : gmap Z CB_DGASP_LIST) (s : dgasp) : dgasp :=
  {| nodes := h; g_cb_dgasp_list_head := g_cb_dgasp_list_head s; dg_calls := dg_calls s;
     WatchDogDefCount := WatchDogDefCount s; WatchDogCtl := WatchDogCtl s;
     dg_blkEnables := dg_blkEnables s; dg_enabled := dg_enabled s |}.

Definition set_head (p : Z) (s : dgasp) : dgasp :=
  {| nodes := nodes s; g_cb_dgasp_list_head := p; dg_calls := dg_calls s;
     WatchDogDefCount := WatchDogDefCount s; WatchDogCtl := WatchDogCtl s;
     dg_blkEnables := dg_blkEnables s; dg_enabled := dg_enabled s |}.

Definition set_calls (c : list (Z * Z)) (s : dgasp) : dgasp :=
  {| nodes := nodes s; g_cb_dgasp_list_head := g_cb_dgasp_list_head s; dg_calls := c;
     WatchDogDefCount := WatchDogDefCount s; WatchDogCtl := WatchDogCtl s;
     dg_blkEnables := dg_blkEnables s; dg_enabled := dg_enabled s |}.

Definition set_enabled (b : bool) (s : dgasp) : dgasp :=
  {| nodes := nodes s; g_cb_dgasp_list_head := g_cb_dgasp_list_head s; dg_calls := dg_calls s;
     WatchDogDefCount := WatchDogDefCount s; WatchDogCtl := WatchDogCtl s;
     dg_blkEnables := dg_blkEnables s; dg_enabled := b |}.

(** ** Lists of the kernel ([list.h]) *)

Definition set_next (v : Z) (n : CB_DGASP_LIST) : CB_DGASP_LIST :=
  {| next := v; prev := prev n; name := name n; cb_dgasp_fn := cb_dgasp_fn n; context := context n |}.
Definition set_prev (v : Z) (n : CB_DGASP_LIST) : CB_DGASP_LIST :=
  {| next := next n; prev := v; name := name n; cb_dgasp_fn := cb_dgasp_fn n; context := context n |}.

(** Access through a pointer; an address that is not a live node faults. *)
Definition deref (p : Z) : M dgasp CB_DGASP_LIST :=
  s ← get; of_option (nodes s !! p).

Definition put_node (f : CB_DGASP_LIST → CB_DGASP_LIST) (p : Z) : M dgasp unit :=
  n ← deref p;
  modify (λ s : dgasp, set_nodes (<[p := f n]> (nodes s)) s).

Definition INIT_LIST_HEAD (l : Z) : M dgasp unit :=
  put_node (set_next l) l;; put_node (set_prev l) l.

Definition __list_add (new prv nxt : Z) : M dgasp unit :=
  put_node (set_prev new) nxt;;
  put_node (set_next nxt) new;;
  put_node (set_prev prv) new;;
  put_node (set_next new) prv.

Definition list_add (new head : Z) : M dgasp unit :=
  h ← deref head;
  __list_add new head (next h).

Definition __list_del (prv nxt : Z) : M dgasp unit :=
  put_node (set_prev prv) nxt;;
  put_node (set_next nxt) prv.

Definition list_del (entry : Z) : M dgasp unit :=
  e ← deref entry;
  __list_del (prev e) (next e);;
  put_node (set_next LIST_POISON1) entry;;
  put_node (set_prev LIST_POISON2) entry.

Definition kfree (p : Z) : M dgasp unit :=
  deref p;;
  modify (λ s : dgasp, set_nodes (delete p (nodes s)) s).

(** ** Strings *)

Definition be_word (v : Z) : list Z :=
  [u8 (Z.shiftr v 24); u8 (Z.shiftr v 16); u8 (Z.shiftr v 8); u8 v].

(** The bytes of a node from [name] to its end: what a comparison that starts
    at [name] can read. *)
Definition node_string (n : CB_DGASP_LIST) : list Z :=
  name n ++ be_word (cb_dgasp_fn n) ++ be_word (context n).

(** [!strcmp(cs, ct)]; [None] when it reads past the end of an object. *)
Fixpoint str_equal (cs ct : list Z) : option bool :=
  match cs, ct with
  | a :: cs', b :: ct' =>
      if a =? b then if a =? 0 then Some true else str_equal cs' ct' else Some false
  | _, _ => None
  end.

(** [!strncmp(cs, ct, n)]. *)
Fixpoint strn_equal (n : nat) (cs ct : list Z) : option bool :=
  match n with
  | O => Some true
  | S n' =>
      match cs, ct with
      | a :: cs', b :: ct' =>
          if a =? b then if a =? 0 then Some true else strn_equal n' cs' ct' else Some false
      | _, _ => None
      end
  end.

(** [strncpy(dest, src, n)] of a string [src], without its NUL: the [n] bytes of
    [dest]. *)
Definition strncpy (src : list Z) (n : nat) : list Z := take n (src ++ replicate n 0).

Definition dsl : list Z := cstr "dsl"%string ++ [0].

(** ** The handlers *)

Section gasp.
(** [kmalloc]: where the next node is placed; [None] when memory is short. *)
Context (kmalloc : gmap Z CB_DGASP_LIST → option Z).

(** Allocation of a node and its [memset]; the result is not checked, so the
    [memset] of NULL faults. *)
Definition new_node : M dgasp Z :=
  s ← get;
  match kmalloc (nodes s) with
  | Some p =>
      modify (λ s : dgasp, set_nodes (<[p := {| next := 0; prev := 0; name := replicate IFNAMSIZ 0;
                                       cb_dgasp_fn := 0; context := 0 |}]> (nodes s)) s);;
      mret p
  | None => fault
  end.

Definition kerSysInitDyingGaspHandler : M dgasp unit :=
  s ← get;
  if negb (g_cb_dgasp_list_head s =? 0) then mret tt
  else
    p ← new_node;
    INIT_LIST_HEAD p;;
    modify (set_head p).

(** [NULL] for [devname] is [None]. *)
Definition kerSysRegisterDyingGaspHandler (devname : option (list Z)) (cbfn ctx : Z) : M dgasp unit :=
  s ← get;
  if g_cb_dgasp_list_head s =? 0 then mret tt
  else match devname with
       | None => mret tt
       | Some d =>
           if cbfn =? 0 then mret tt
           else
             p ← new_node;
             INIT_LIST_HEAD p;;
             put_node (λ n, {| next := next n; prev := prev n; name := strncpy d IFNAMSIZ;
                               cb_dgasp_fn := cbfn; context := ctx |}) p;;
             list_add p (g_cb_dgasp_list_head s)
       end.

(** The loop of the deregistration, from [pos]; [fuel] bounds the nodes visited. *)
Fixpoint dereg_loop (fuel : nat) (head : Z) (d : list Z) (pos : Z) : M dgasp unit :=
  match fuel with
  | O => nofuel
  | S fuel' =>
      if pos =? head then mret tt
      else
        n ← deref pos;
        e ← of_option (str_equal (node_string n) (d ++ [0]));
        if (e : bool) then list_del pos;; kfree pos
        else n ← deref pos; dereg_loop fuel' head d (next n)
  end.

Definition kerSysDeregisterDyingGaspHandler (devname : option (list Z)) : M dgasp unit :=
  s ← get;
  if g_cb_dgasp_list_head s =? 0 then mret tt
  else match devname with
       | None => mret tt
       | Some d =>
           h ← deref (g_cb_dgasp_list_head s);
           dereg_loop (S (size (nodes s))) (g_cb_dgasp_list_head s) d (next h)
       end.

(** [list_for_each] reads [pos->next] after the body has freed [pos]. *)
Fixpoint deinit_loop (fuel : nat) (head pos : Z) : M dgasp unit :=
  match fuel with
  | O => nofuel
  | S fuel' =>
      if pos =? head then mret tt
      else
        list_del pos;; kfree pos;;
        n ← deref pos;
        deinit_loop fuel' head (next n)
  end.

Definition kerSysDeinitDyingGaspHandler : M dgasp unit :=
  s ← get;
  if g_cb_dgasp_list_head s =? 0 then mret tt
  else
    h ← deref (g_cb_dgasp_list_head s);
    deinit_loop (S (size (nodes s))) (g_cb_dgasp_list_head s) (next h);;
    kfree (g_cb_dgasp_list_head s);;
    modify (set_head 0).

(** A call of a handler is recorded; the handlers are code of other drivers. *)
Definition call_handler (n : CB_DGASP_LIST) : M dgasp unit :=
  modify (λ s : dgasp, set_calls (dg_calls s ++ [(cb_dgasp_fn n, context n)]) s).

(** The first loop of the interrupt: call all but [dsl], remember the last [dsl]. *)
Fixpoint isr_loop (fuel : nat) (head pos : Z) (d : option Z) : M dgasp (option Z) :=
  match fuel with
  | O => nofuel
  | S fuel' =>
      if pos =? head then mret d
      else
        n ← deref pos;
        e ← of_option (strn_equal 3 (node_string n) dsl);
        (if (e : bool) then mret tt else call_handler n);;
        n' ← deref pos;
        isr_loop fuel' head (next n') (if (e : bool) then Some pos else d)
  end.

Definition kerSysSetWdTimer (timeUs : Z) : M dgasp unit :=
  modify (λ s : dgasp,
    {| nodes := nodes s; g_cb_dgasp_list_head := g_cb_dgasp_list_head s; dg_calls := dg_calls s;
       WatchDogDefCount := u32 (timeUs * (FPERIPH / 1000000));
       WatchDogCtl := WatchDogCtl s ++ [0xFF00; 0x00FF];
       dg_blkEnables := dg_blkEnables s; dg_enabled := dg_enabled s |}).

Definition kerSysDyingGaspShutdown : M dgasp unit :=
  kerSysSetWdTimer 1000000;;
  modify (λ s : dgasp,
    {| nodes := nodes s; g_cb_dgasp_list_head := g_cb_dgasp_list_head s; dg_calls := dg_calls s;
       WatchDogDefCount := WatchDogDefCount s; WatchDogCtl := WatchDogCtl s;
       dg_blkEnables := Z.land (dg_blkEnables s)
         (Z.lnot (Z.lor (Z.lor EMAC_CLK_EN USBS_CLK_EN) SAR_CLK_EN));
       dg_enabled := dg_enabled s |}).

(** Whether the interrupt returns; after a power loss it spins for ever. *)
Inductive isr_result : Type := IRQ_HANDLED | Spins.

(** The power-loss branch of the interrupt. *)
Definition dgasp_shutdown : M dgasp isr_result :=
  s ← get;
  h ← deref (g_cb_dgasp_list_head s);
  d ← isr_loop (S (size (nodes s))) (g_cb_dgasp_list_head s) (next h) None;
  match d with
  | Some p => n ← deref p; call_handler n
  | None => mret tt
  end;;
  kerSysDyingGaspShutdown;;
  mret Spins.

(** The interrupt is enabled on boards that have it. *)
Definition kerSysDyingGaspMapIntr (bp : option BOARD_PARAMETERS) : M dgasp unit :=
  if fst (BpGetAdslDyingGaspExtIntr bp) =? BP_SUCCESS then modify (set_enabled true) else mret tt.
End gasp.

(** ** The test for a power loss *)

(** The cycle counter, the interrupt status and the UART; a read may change the
    device (time passes). *)
Class GaspHw (D : Type) := {
  kerSysGetCycleCount : D → Z * D;
  IrqStatus : D → Z * D;
  UART_Data : Z → D → D
}.

Section power.
Context {D : Type} {hw : GaspHw D}.
Abbreviation dst := (dgasp * D)%type.

Definition hw_read (f : D → Z * D) : M dst Z := λ '(s, d), let '(v, d') := f d in Done (v, (s, d')).
Definition hw_write (f : D → D) : M dst unit := λ '(s, d), Done (tt, (s, f d)).
Definition on_dgasp {A} (m : M dgasp A) : M dst A := λ '(s, d),
  match m s with
  | Done (a, s') => Done (a, (s', d))
  | Fault => Fault
  | Blocked => Blocked
  | NoFuel => NoFuel
  end.

(** Differences of the 32-bit counter are 32-bit. *)
Definition elapsed (now from : Z) : Z := u32 (now - from).

Fixpoint spin_us (fuel : nat) (clk1 : Z) : M dst unit :=
  match fuel with
  | O => nofuel
  | S fuel' =>
      c ← hw_read kerSysGetCycleCount;
      if elapsed c clk1 <? CYCLE_PER_US * 2 then spin_us fuel' clk1 else mret tt
  end.

Definition dg_pending (irq : Z) : bool :=
  negb (Z.land irq (Z.shiftl 1 (INTERRUPT_ID_DG - INTERNAL_ISR_TABLE_OFFSET)) =? 0).

Fixpoint glitch_loop (spins fuel : nat) (clk0 : Z) : M dst unit :=
  match fuel with
  | O => nofuel
  | S fuel' =>
      clk1 ← hw_read kerSysGetCycleCount;
      spin_us spins clk1;;
      irq ← hw_read IrqStatus;
      if dg_pending irq then
        c ← hw_read kerSysGetCycleCount;
        if elapsed c clk0 <? DG_GLITCH_TO then glitch_loop spins fuel' clk0 else mret tt
      else mret tt
  end.

(** [fuel] bounds the rounds of both loops.  The reading of the counter for the
    message is kept, the message is not. *)
Definition kerSysDyingGaspCheckPowerLoss (fuel : nat) : M dst bool :=
  clk0 ← hw_read kerSysGetCycleCount;
  hw_write (UART_Data 68);;
  hw_write (UART_Data 37);;
  hw_write (UART_Data 71);;
  glitch_loop fuel fuel clk0;;
  irq ← hw_read IrqStatus;
  if negb (dg_pending irq) then
    on_dgasp (modify (set_enabled true));;
    hw_read kerSysGetCycleCount;;
    mret false
  else mret true.

Definition kerSysDyingGaspIsr (fuel : nat) : M dst isr_result :=
  b ← kerSysDyingGaspCheckPowerLoss fuel;
  if (b : bool) then on_dgasp dgasp_shutdown else mret IRQ_HANDLED.
End power.
