(* ===== verification/GaspProofs.v ===== *)
(** * The list of dying-gasp handlers in memory

    The representation of a table of handlers by linked nodes, and what the list
    operations of [DyingGasp] do to it. *)

From stdpp Require Import base numbers list gmap strings.
From Stdlib Require Import ZArith Lia Bool.
From S2P Require Import Prelude DyingGasp.

Abbreviation heap := (gmap Z CB_DGASP_LIST).

(** ** Fields by address *)

Definition nextf (h : heap) (a : Z) : option Z := next <$> h !! a.
Definition prevf (h : heap) (a : Z) : option Z := prev <$> h !! a.
Definition dataf (h : heap) (a : Z) : option (list Z * Z * Z) :=
  (λ n, (name n, cb_dgasp_fn n, context n)) <$> h !! a.

Lemma fmap_alter_id {B} (g : CB_DGASP_LIST → B) (f : CB_DGASP_LIST → CB_DGASP_LIST) (h : heap) p a :
  (∀ n, g (f n) = g n) → g <$> alter f p h !! a = g <$> h !! a.
Proof.
  intros H. destruct (decide (a = p)) as [->|].
  - rewrite lookup_alter_eq. destruct (h !! p); simpl; by rewrite ?H.
  - by rewrite lookup_alter_ne.
Qed.

Lemma nextf_set_prev h v p a : nextf (alter (set_prev v) p h) a = nextf h a.
Proof. by apply fmap_alter_id. Qed.
Lemma prevf_set_next h v p a : prevf (alter (set_next v) p h) a = prevf h a.
Proof. by apply fmap_alter_id. Qed.
Lemma dataf_set_next h v p a : dataf (alter (set_next v) p h) a = dataf h a.
Proof. by apply fmap_alter_id. Qed.
Lemma dataf_set_prev h v p a : dataf (alter (set_prev v) p h) a = dataf h a.
Proof. by apply fmap_alter_id. Qed.

Lemma nextf_set_next_ne h v p a : a ≠ p → nextf (alter (set_next v) p h) a = nextf h a.
Proof. intros. unfold nextf. by rewrite lookup_alter_ne. Qed.
Lemma prevf_set_prev_ne h v p a : a ≠ p → prevf (alter (set_prev v) p h) a = prevf h a.
Proof. intros. unfold prevf. by rewrite lookup_alter_ne. Qed.
Lemma nextf_set_next h v p : is_Some (h !! p) → nextf (alter (set_next v) p h) p = Some v.
Proof. intros [n E]. unfold nextf. by rewrite lookup_alter_eq, E. Qed.
Lemma prevf_set_prev h v p : is_Some (h !! p) → prevf (alter (set_prev v) p h) p = Some v.
Proof. intros [n E]. unfold prevf. by rewrite lookup_alter_eq, E. Qed.

Create Rewrite HintDb links.
#[export] Hint Rewrite nextf_set_prev prevf_set_next dataf_set_next dataf_set_prev : links.

Lemma nextf_live h a v : nextf h a = Some v → is_Some (h !! a).
Proof. unfold nextf. destruct (h !! a); naive_solver. Qed.
Lemma prevf_live h a v : prevf h a = Some v → is_Some (h !! a).
Proof. unfold prevf. destruct (h !! a); naive_solver. Qed.

Lemma put_node_run f p s : is_Some (nodes s !! p) →
  put_node f p s = Done (tt, set_nodes (alter f p (nodes s)) s).
Proof.
  intros [n E]. unfold put_node, deref. rewrite bind_assoc, bind_get, E. cbn [of_option]. rewrite bind_ret.
  unfold modify. do 3 f_equal. apply map_eq. intros a. destruct (decide (a = p)) as [->|].
  - by rewrite lookup_insert_eq, lookup_alter_eq, E.
  - by rewrite lookup_insert_ne, lookup_alter_ne.
Qed.

Lemma put_step f p h s {A} (k : M dgasp A) : is_Some (h !! p) →
  (put_node f p;; k) (set_nodes h s) = k (set_nodes (alter f p h) s).
Proof. intros H. by rewrite (bind_Done _ _ _ _ _ (put_node_run f p (set_nodes h s) H)). Qed.

Lemma put_last f p h s : is_Some (h !! p) → put_node f p (set_nodes h s) = Done (tt, set_nodes (alter f p h) s).
Proof. intros H. by rewrite put_node_run. Qed.

Lemma deref_run p s n : nodes s !! p = Some n → deref p s = Done (n, s).
Proof. intros E. unfold deref. by rewrite bind_get, E. Qed.

Lemma alter_live (f : CB_DGASP_LIST → CB_DGASP_LIST) (h : heap) p a :
  is_Some (h !! a) → is_Some (alter f p h !! a).
Proof.
  intros [n E]. destruct (decide (a = p)) as [->|].
  - rewrite lookup_alter_eq, E. by eexists.
  - rewrite lookup_alter_ne, E by done. by eexists.
Qed.

(** ** Rings *)

(** The nodes [ps] in order, linked through [head]. *)
Definition ring (h : heap) (head : Z) (ps : list Z) : Prop :=
  NoDup (head :: ps) ∧
  nextf h <$> (head :: ps) = Some <$> (ps ++ [head]) ∧
  prevf h <$> (ps ++ [head]) = Some <$> (head :: ps).

(** [fields_ext]: fields that agree on the elements of a list. *)
Lemma fields_ext {B} (f g : Z → B) (l : list Z) : (∀ a, a ∈ l → f a = g a) → f <$> l = g <$> l.
Proof. intros H. apply list_fmap_ext. intros i x E. apply H. by eapply list_elem_of_lookup_2. Qed.

Lemma ring_live h head ps a : ring h head ps → a ∈ head :: ps → is_Some (h !! a).
Proof.
  intros (_&Hn&_) Ha.
  assert (Hin : nextf h a ∈ nextf h <$> (head :: ps)) by (apply list_elem_of_fmap; eauto).
  rewrite Hn in Hin. apply list_elem_of_fmap in Hin as (v&E&_). by eapply nextf_live.
Qed.

(** Splitting a ring in front of one of its nodes. *)
Lemma ring_split h head l1 p l2 a A b B :
  ring h head (l1 ++ p :: l2) → head :: l1 = A ++ [a] → l2 ++ [head] = b :: B →
  (nextf h <$> A = Some <$> l1 ∧ nextf h a = Some p ∧ nextf h p = Some b ∧ nextf h <$> l2 = Some <$> B) ∧
  (prevf h <$> l1 = Some <$> A ∧ prevf h p = Some a ∧ prevf h b = Some p ∧ prevf h <$> B = Some <$> l2).
Proof.
  intros (_&Hn&Hp) EA EB.
  assert (LA : length A = length l1) by (apply (f_equal length) in EA; rewrite length_app in EA; simpl in EA; lia).
  assert (LB : length l2 = length B) by (apply (f_equal length) in EB; rewrite length_app in EB; simpl in EB; lia).
  replace (head :: l1 ++ p :: l2) with (A ++ a :: p :: l2) in Hn, Hp
    by (rewrite app_comm_cons, EA, <- app_assoc; done).
  replace ((l1 ++ p :: l2) ++ [head]) with (l1 ++ p :: b :: B) in Hn, Hp
    by (rewrite <- EB, <- app_assoc; done).
  rewrite !fmap_app in Hn, Hp. cbn [fmap list_fmap] in Hn, Hp.
  apply app_inj_1 in Hn as [? Hn]; [|by rewrite !length_fmap].
  apply app_inj_1 in Hp as [? Hp]; [|by rewrite !length_fmap].
  injection Hn as ???. injection Hp as ???. done.
Qed.

Lemma first_of (l : list Z) x : ∃ b B, l ++ [x] = b :: B ∧ b = hd x l.
Proof. destruct l as [|y l]; [by exists x, []|by exists y, (l ++ [x])]. Qed.

Lemma last_of (l : list Z) x : ∃ A a, x :: l = A ++ [a].
Proof. destruct (exists_last (l := x :: l)) as (A&a&->); [done|by eauto]. Qed.

Lemma ring_next h head l1 p l2 :
  ring h head (l1 ++ p :: l2) → ∃ n, h !! p = Some n ∧ next n = hd head l2.
Proof.
  intros H. destruct (first_of l2 head) as (b&B&EB&->). destruct (last_of l1 head) as (A&a&EA).
  destruct (ring_split _ _ _ _ _ _ _ _ _ H EA EB) as ((_&_&E&_)&_).
  unfold nextf in E. destruct (h !! p) as [n|]; [|done]. simplify_eq/=. by exists n.
Qed.

Lemma ring_first h head ps : ring h head ps → ∃ n, h !! head = Some n ∧ next n = hd head ps.
Proof.
  intros (_&E&_). destruct (first_of ps head) as (b&B&EB&->). rewrite EB in E. cbn [fmap list_fmap] in E.
  injection E as E _. unfold nextf in E. destruct (h !! head) as [n|]; [|done]. simplify_eq/=. by exists n.
Qed.

(** A single node linked to itself. *)
Lemma ring_init h p : is_Some (h !! p) → ring (alter (set_prev p) p (alter (set_next p) p h)) p [].
Proof.
  intros H. split; [repeat constructor; by apply not_elem_of_nil|]. split; cbn [fmap list_fmap app].
  - autorewrite with links. by rewrite nextf_set_next.
  - by rewrite prevf_set_prev by by apply alter_live.
Qed.

(** [list_add] puts the node in front. *)
Lemma list_add_run s head ps p :
  ring (nodes s) head ps → is_Some (nodes s !! p) → p ∉ head :: ps →
  ∃ h, list_add p head s = Done (tt, set_nodes h s) ∧ ring h head (p :: ps) ∧
       (∀ a, dataf h a = dataf (nodes s) a) ∧ dom h = dom (nodes s).
Proof.
  intros HR Hp Hnot. pose proof HR as (Hnd&Hn&Hv).
  destruct (ring_first _ _ _ HR) as (n0&E0&En0). destruct (first_of ps head) as (b&B&EB&Eb).
  rewrite <- Eb in En0. clear Eb.
  assert (Hb : b ∈ head :: ps).
  { assert (b ∈ ps ++ [head]) by (rewrite EB; left). set_solver. }
  assert (Hbl := ring_live _ _ _ _ HR Hb). assert (Hhl : is_Some (nodes s !! head)) by by eexists.
  exists (alter (set_next p) head (alter (set_prev head) p (alter (set_next b) p (alter (set_prev p) b (nodes s))))).
  assert (NB : NoDup (b :: B)).
  { by rewrite <- EB, <- Permutation_cons_append. }
  rewrite EB in Hn, Hv. cbn [fmap list_fmap] in Hn, Hv. injection Hn as Hn1 Hn2. injection Hv as Hv1 Hv2.
  assert (Hps : p ∉ ps ∧ p ≠ head ∧ head ∉ ps).
  { split_and!; [set_solver..|]. by inversion Hnd. }
  destruct Hps as (Hp1&Hp2&Hp3).
  assert (HpB : p ∉ b :: B) by (rewrite <- EB; set_solver).
  split; [|split].
  - unfold list_add. rewrite (bind_Done _ _ _ _ _ (deref_run _ _ _ E0)), En0. unfold __list_add.
    rewrite (bind_Done _ _ _ _ _ (put_node_run _ _ _ Hbl)).
    rewrite !put_step by (repeat apply alter_live; done).
    apply put_last. by repeat apply alter_live.
  - split; [constructor; [set_solver|constructor; [set_solver|by inversion Hnd]]|].
    change ((p :: ps) ++ [head]) with (p :: (ps ++ [head])). rewrite EB.
    cbn [fmap list_fmap]. split.
    + rewrite nextf_set_next by (by repeat apply alter_live).
      rewrite nextf_set_next_ne, nextf_set_prev, nextf_set_next by (done || by apply alter_live).
      do 2 f_equal. rewrite <- Hn2. apply fields_ext. intros a Ha.
      assert (a ≠ head ∧ a ≠ p) as [? ?] by (split; intros ->; done).
      by rewrite nextf_set_next_ne, nextf_set_prev, nextf_set_next_ne, nextf_set_prev by done.
    + rewrite prevf_set_next, prevf_set_prev by (by repeat apply alter_live). f_equal.
      assert (b ≠ p) by set_solver.
      rewrite prevf_set_next, prevf_set_prev_ne, prevf_set_next, prevf_set_prev by done. f_equal.
      rewrite <- Hv2. apply fields_ext. intros a Ha.
      assert (a ≠ p) by set_solver. assert (a ≠ b) by (intros ->; by inversion NB).
      by rewrite prevf_set_next, prevf_set_prev_ne, prevf_set_next, prevf_set_prev_ne by done.
  - split; [intros a; by autorewrite with links|by rewrite !dom_alter_L].
Qed.

(** [list_del] takes a node out. *)
Lemma list_del_run s head l1 p l2 :
  ring (nodes s) head (l1 ++ p :: l2) →
  ∃ h, list_del p s = Done (tt, set_nodes h s) ∧ ring h head (l1 ++ l2) ∧ is_Some (h !! p) ∧
       (∀ a, dataf h a = dataf (nodes s) a) ∧ dom h = dom (nodes s).
Proof.
  intros HR. pose proof HR as (Hnd&_&_).
  destruct (first_of l2 head) as (b&B&EB&Eb). destruct (last_of l1 head) as (A&a&EA). clear Eb.
  destruct (ring_split _ _ _ _ _ _ _ _ _ HR EA EB) as ((N1&N2&N3&N4)&(P1&P2&P3&P4)).
  assert (Hp := nextf_live _ _ _ N3). assert (Ha := nextf_live _ _ _ N2). assert (Hb := prevf_live _ _ _ P3).
  assert (NA : NoDup ((A ++ [a]) ++ p :: l2)) by (by rewrite <- EA).
  assert (NB : NoDup (l1 ++ p :: b :: B)).
  { rewrite <- EB. change (l1 ++ p :: l2 ++ [head]) with (l1 ++ (p :: l2) ++ [head]).
    by rewrite app_assoc, <- Permutation_cons_append. }
  destruct Hp as [e Ee].
  assert (Ep : prev e = a ∧ next e = b).
  { unfold nextf in N3. unfold prevf in P2. rewrite Ee in N3, P2. by simplify_eq/=. }
  destruct Ep as [Epa Epb]. assert (Hp : is_Some (nodes s !! p)) by by eexists.
  exists (alter (set_prev LIST_POISON2) p (alter (set_next LIST_POISON1) p
           (alter (set_next b) a (alter (set_prev a) b (nodes s))))).
  assert (Nap : p ≠ a ∧ p ≠ b ∧ p ∉ A ∧ p ∉ l2 ∧ p ∉ l1 ∧ p ∉ B ∧ a ∉ A ∧ a ∉ l2 ∧ b ∉ l1 ∧ b ∉ B).
  { apply NoDup_app in NA as (NA1&NA2&NA3). apply NoDup_cons in NA3 as [NA3 _].
    apply NoDup_app in NA1 as (_&NA4&_). apply NoDup_app in NB as (_&NB1&NB2).
    apply NoDup_cons in NB2 as [NB2 NB3]. apply NoDup_cons in NB3 as [NB3 _].
    split_and!; try set_solver. }
  destruct Nap as (D1&D2&D3&D4&D5&D6&D7&D8&D9&D10).
  assert (Hmem : ∀ (l : list Z) x y, x ∉ l → y ∈ l → y ≠ x) by (intros l x y ?? ->; done).
  split; [|split; [|split]].
  - unfold list_del. rewrite (bind_Done _ _ _ _ _ (deref_run _ _ _ Ee)), Epa, Epb. unfold __list_del.
    rewrite bind_assoc, (bind_Done _ _ _ _ _ (put_node_run _ _ _ Hb)).
    rewrite !put_step by (by repeat apply alter_live). apply put_last. by repeat apply alter_live.
  - assert (EA' : head :: l1 ++ l2 = A ++ a :: l2) by (rewrite app_comm_cons, EA, <- app_assoc; done).
    assert (EB' : (l1 ++ l2) ++ [head] = l1 ++ b :: B) by (rewrite <- app_assoc, EB; done).
    split; [|rewrite EA', EB', !fmap_app; cbn [fmap list_fmap]; split].
    + eapply sublist_NoDup; [exact Hnd|]. apply sublist_skip, sublist_app; [done|]. by apply sublist_cons.
    + f_equal; [rewrite <- N1|rewrite nextf_set_prev, nextf_set_next_ne, nextf_set_next by (done || by repeat apply alter_live);
        f_equal; rewrite <- N4]; apply fields_ext; intros x Hx.
      all: rewrite nextf_set_prev, nextf_set_next_ne, nextf_set_next_ne, nextf_set_prev by (by eapply Hmem; [|exact Hx]); done.
    + f_equal; [rewrite <- P1|rewrite prevf_set_prev_ne, prevf_set_next, prevf_set_next, prevf_set_prev by done;
        f_equal; rewrite <- P4]; apply fields_ext; intros x Hx.
      all: rewrite prevf_set_prev_ne, prevf_set_next, prevf_set_next, prevf_set_prev_ne by (by eapply Hmem; [|exact Hx]); done.
  - by repeat apply alter_live.
  - split; [intros x; by autorewrite with links|by rewrite !dom_alter_L].
Qed.

(** A node outside the ring does not matter to it. *)
Lemma ring_ext h h' head ps :
  ring h head ps → (∀ a, a ∈ head :: ps → h' !! a = h !! a) → ring h' head ps.
Proof.
  intros (H1&H2&H3) E. split; [done|split; [rewrite <- H2|rewrite <- H3]]; apply fields_ext; intros a Ha.
  - unfold nextf. by rewrite E.
  - unfold prevf. rewrite E; [done|set_solver].
Qed.

Lemma kfree_run p s : is_Some (nodes s !! p) →
  kfree p s = Done (tt, set_nodes (delete p (nodes s)) s).
Proof. intros [n E]. unfold kfree. by rewrite (bind_Done _ _ _ _ _ (deref_run _ _ _ E)). Qed.

(** ** Names *)

Lemma strncpy_cases x rest :
  (length x < IFNAMSIZ)%nat → ∃ r, strncpy x IFNAMSIZ ++ rest = x ++ 0 :: r.
Proof.
  intros H. unfold strncpy. rewrite take_app_ge by lia.
  destruct (IFNAMSIZ - length x)%nat as [|k] eqn:Ek; [lia|].
  rewrite take_replicate. replace (S k `min` IFNAMSIZ)%nat with (S k) by lia.
  exists (replicate k 0 ++ rest). by rewrite <- app_assoc.
Qed.

(** The comparison of a stored name with a name of at most 15 characters. *)
Lemma str_equal_terminated x d r :
  0 ∉ x → 0 ∉ d → str_equal (x ++ 0 :: r) (d ++ [0]) = Some (bool_decide (x = d)).
Proof.
  revert d. induction x as [|a x IH]; intros [|b d] Hx Hd; cbn [app str_equal].
  - done.
  - destruct (Z.eqb_spec 0 b); [set_solver|done].
  - destruct (Z.eqb_spec a 0); [set_solver|done].
  - destruct (Z.eqb_spec a b) as [->|Hne].
    + destruct (Z.eqb_spec b 0); [set_solver|]. rewrite IH by set_solver. f_equal.
      apply bool_decide_ext. split; [by intros ->|by intros [= ->]].
    + f_equal. symmetry. apply bool_decide_eq_false. by intros [= -> _].
Qed.

Lemma str_equal_longer x d r :
  0 ∉ x → 0 ∉ d → (length d < length x)%nat → str_equal (x ++ r) (d ++ [0]) = Some false.
Proof.
  revert d. induction x as [|a x IH]; intros [|b d] Hx Hd Hl; cbn [app str_equal length] in *; [lia|lia| |].
  - destruct (Z.eqb_spec a 0); [set_solver|done].
  - destruct (Z.eqb_spec a b) as [->|]; [|done].
    destruct (Z.eqb_spec b 0); [set_solver|]. apply IH; [set_solver..|lia].
Qed.

Lemma str_equal_stored x d rest :
  0 ∉ x → 0 ∉ d → (length d < IFNAMSIZ)%nat →
  str_equal (strncpy x IFNAMSIZ ++ rest) (d ++ [0]) = Some (bool_decide (x = d)).
Proof.
  intros Hx Hd Hl. destruct (decide (length x < IFNAMSIZ)%nat) as [H|H].
  - destruct (strncpy_cases x rest H) as [r ->]. by apply str_equal_terminated.
  - assert (E : strncpy x IFNAMSIZ = take IFNAMSIZ x) by (unfold strncpy; by rewrite take_app_le by lia).
    rewrite E, str_equal_longer.
    + f_equal. symmetry. apply bool_decide_eq_false. intros ->. lia.
    + intros Hin. apply Hx. by eapply subseteq_take.
    + done.
    + rewrite length_take. lia.
Qed.

(** The test for the DSL handler looks at the first three characters. *)
Lemma strn_equal_dsl x rest : 0 ∉ x →
  strn_equal 3 (strncpy x IFNAMSIZ ++ rest) dsl = Some (bool_decide (take 3 x = cstr "dsl"%string)).
Proof.
  intros Hx. unfold strncpy. change dsl with [100; 115; 108; 0]. change (cstr "dsl"%string) with [100; 115; 108].
  destruct x as [|a [|b [|c x]]]; cbn [app take IFNAMSIZ replicate strn_equal].
  - done.
  - destruct (Z.eqb_spec a 100) as [->|]; cbn; [done|]. f_equal. symmetry. apply bool_decide_eq_false. congruence.
  - destruct (Z.eqb_spec a 100) as [->|]; cbn; [destruct (Z.eqb_spec b 115) as [->|]; cbn; [done|]|];
      f_equal; symmetry; apply bool_decide_eq_false; congruence.
  - rewrite take_0. destruct (Z.eqb_spec a 100) as [->|]; cbn;
      [destruct (Z.eqb_spec b 115) as [->|]; cbn; [destruct (Z.eqb_spec c 108) as [->|]; cbn|]|];
      f_equal; symmetry; try (apply bool_decide_eq_true; done); apply bool_decide_eq_false; congruence.
Qed.
