(* ===== verification/GaspClaims.v ===== *)
(** * Dying gasp: the table of handlers, the shutdown, the power-loss test

    The linked list implements a table of handlers, latest first; the interrupt
    calls them in the announced order; the test for a power loss ends and tells a
    glitch from a loss.  Defects at the end. *)

From stdpp Require Import base numbers list gmap strings.
From Stdlib Require Import ZArith Lia Bool.
From S2P Require Import Prelude BoardTables BoardParms DyingGasp GaspProofs.

(** A handler as registered: device, function, argument. *)
Abbreviation handler := (list Z * Z * Z)%type.

Definition stored_handler (e : handler) : handler := (strncpy e.1.1 IFNAMSIZ, e.1.2, e.2).

(** [rep s l]: the memory of [s] holds the table [l] and nothing else. *)
Definition rep (s : dgasp) (l : list handler) : Prop :=
  ∃ ps, g_cb_dgasp_list_head s ≠ 0 ∧
    ring (nodes s) (g_cb_dgasp_list_head s) ps ∧
    dataf (nodes s) <$> ps = Some ∘ stored_handler <$> l ∧
    dom (nodes s) = list_to_set (g_cb_dgasp_list_head s :: ps) ∧
    Forall (λ e, 0 ∉ e.1.1) l.

(** Removing the first handler that passes a test; deregistration removes the
    latest handler of a device. *)
Fixpoint remove_by (P : handler → bool) (l : list handler) : list handler :=
  match l with
  | [] => []
  | e :: l' => if P e then l' else e :: remove_by P l'
  end.

Definition remove_first (d : list Z) : list handler → list handler :=
  remove_by (λ e, bool_decide (e.1.1 = d)).

Definition is_dsl (e : handler) : bool := bool_decide (take 3 e.1.1 = cstr "dsl"%string).
Definition called (e : handler) : Z * Z := (e.1.2, e.2).

(** The order of the calls: all others, then one DSL handler. *)
Definition gasp_order (l : list handler) : list (Z * Z) :=
  map called (List.filter (λ e, negb (is_dsl e)) l ++
              match last (List.filter is_dsl l) with Some e => [e] | None => [] end).

(** ** Finding nodes *)

Lemma rep_fuel (h : heap) head ps :
  NoDup (head :: ps) → dom h = list_to_set (head :: ps) → size h = S (length ps).
Proof. intros H E. rewrite <- size_dom, E, size_list_to_set by done. done. Qed.

Lemma data_at (h : heap) (l1 l2 : list Z) p (k : list handler) :
  dataf h <$> (l1 ++ p :: l2) = Some ∘ stored_handler <$> k →
  ∃ k1 e k2, k = k1 ++ e :: k2 ∧ length k1 = length l1 ∧ dataf h p = Some (stored_handler e).
Proof.
  intros E. rewrite fmap_app in E. symmetry in E. apply fmap_app_inv in E as (k1&k'&E1&E2&->).
  cbn [fmap list_fmap] in E2. destruct k' as [|e k2]; [done|]. injection E2 as E2 _.
  exists k1, e, k2. split_and!; [done| |done]. apply (f_equal length) in E1. by rewrite !length_fmap in E1.
Qed.

Lemma dataf_inv h p (e : handler) : dataf h p = Some (stored_handler e) →
  ∃ n, h !! p = Some n ∧ name n = strncpy e.1.1 IFNAMSIZ ∧ cb_dgasp_fn n = e.1.2 ∧ context n = e.2.
Proof. unfold dataf. destruct (h !! p) as [n|]; [|done]. intros [= ???]. by exists n. Qed.

(** ** Registration *)

Section register.
Context (kmalloc : gmap Z CB_DGASP_LIST → option Z).
(** [kmalloc] returns memory that is not in use. *)
Context (kmalloc_fresh : ∀ h p, kmalloc h = Some p → h !! p = None ∧ p ≠ 0).

Lemma rep_register s l x fn ctx p :
  kmalloc (nodes s) = Some p → rep s l → 0 ∉ x → fn ≠ 0 →
  ∃ h, kerSysRegisterDyingGaspHandler kmalloc (Some x) fn ctx s = Done (tt, set_nodes h s) ∧
       rep (set_nodes h s) ((x, fn, ctx) :: l).
Proof using kmalloc_fresh.
  intros Hk (ps&Hh&HR&HD&Hdom&HF) Hx Hfn. destruct (kmalloc_fresh _ _ Hk) as [Hfree Hp0].
  unfold kerSysRegisterDyingGaspHandler. rewrite bind_get, (proj2 (Z.eqb_neq _ _) Hh), (proj2 (Z.eqb_neq _ _) Hfn).
  unfold new_node. rewrite bind_assoc, bind_get, Hk, bind_assoc, bind_modify, bind_ret.
  unfold INIT_LIST_HEAD. rewrite bind_assoc.
  assert (Hp : ∀ v, is_Some (<[p := v]> (nodes s) !! p)) by (intros; rewrite lookup_insert_eq; by eexists).
  rewrite !put_step by (by repeat apply alter_live).
  match goal with |- context [set_nodes ?h s] => set (h3 := h) end.
  assert (Hnotin : p ∉ g_cb_dgasp_list_head s :: ps).
  { intros Hin. destruct (ring_live _ _ _ _ HR Hin) as [n E]. by rewrite E in Hfree. }
  assert (Hsame : ∀ a, a ≠ p → h3 !! a = nodes s !! a).
  { intros a Ha. unfold h3. by rewrite !lookup_alter_ne, lookup_insert_ne by done. }
  assert (HR3 : ring (nodes (set_nodes h3 s)) (g_cb_dgasp_list_head s) ps).
  { eapply ring_ext; [exact HR|]. intros a Ha. apply Hsame. by intros ->. }
  destruct (list_add_run (set_nodes h3 s) _ _ p HR3) as (h&E&HR4&HD4&Hdom4).
  { cbn. unfold h3. by repeat apply alter_live. }
  { done. }
  exists h. split; [exact E|]. exists (p :: ps). cbn [nodes set_nodes g_cb_dgasp_list_head].
  split_and!; [done|done| | |by constructor].
  - cbn [fmap list_fmap]. f_equal.
    + rewrite HD4. cbn [nodes set_nodes]. unfold h3, dataf.
      by rewrite lookup_alter_eq, !lookup_alter_eq, lookup_insert_eq.
    + rewrite <- HD. apply fields_ext. intros a Ha. rewrite HD4. cbn [nodes set_nodes]. unfold dataf.
      rewrite Hsame; [done|set_solver].
  - rewrite Hdom4. cbn [nodes set_nodes]. unfold h3. rewrite !dom_alter_L, dom_insert_L, Hdom. set_solver.
Qed.

End register.

(** ** Deregistration *)

(** [compares e d b]: the comparison of the stored handler [e] with the device
    [d] gives [b]. *)
Definition compares (e : handler) (d : list Z) (b : bool) : Prop :=
  str_equal (strncpy e.1.1 IFNAMSIZ ++ be_word e.1.2 ++ be_word e.2) (d ++ [0]) = Some b.

Lemma rep_dereg_loop d P s l1 ps2 k1 k2 (fuel : nat) :
  let head := g_cb_dgasp_list_head s in
  (∀ e, e ∈ k1 ++ k2 → compares e d (P e)) → (length ps2 < fuel)%nat → length l1 = length k1 →
  head ≠ 0 → ring (nodes s) head (l1 ++ ps2) → dataf (nodes s) <$> (l1 ++ ps2) = Some ∘ stored_handler <$> (k1 ++ k2) →
  dom (nodes s) = list_to_set (head :: l1 ++ ps2) → Forall (λ e, 0 ∉ e.1.1) (k1 ++ k2) →
  ∃ h, dereg_loop fuel head d (hd head ps2) s = Done (tt, set_nodes h s) ∧
       rep (set_nodes h s) (k1 ++ remove_by P k2).
Proof.
  intros head. revert fuel l1 k1 k2. induction ps2 as [|p ps2 IH]; intros [|fuel] l1 k1 k2 HP Hf Hlen Hh HR HD Hdom HF;
    cbn [length] in Hf; [lia| |lia|]; cbn [dereg_loop hd].
  - rewrite Z.eqb_refl. exists (nodes s).
    assert (k2 = []) as ->.
    { apply (f_equal length) in HD. rewrite !length_fmap, !length_app in HD. destruct k2; simpl in *; [done|lia]. }
    assert (Es : set_nodes (nodes s) s = s) by (by destruct s). rewrite Es. split; [done|].
    exists (l1 ++ []). done.
  - assert (Hne : p ≠ head).
    { destruct HR as (Hnd&_). intros ->. apply NoDup_cons in Hnd as [Hnd _]. apply Hnd. set_solver. }
    rewrite (proj2 (Z.eqb_neq _ _) Hne).
    destruct (ring_next _ _ _ _ _ HR) as (n&En&Enn).
    destruct (data_at _ _ _ _ _ HD) as (j1&e&j2&Ek&Lj&De).
    apply app_inj_1 in Ek as [<- ->]; [|by rewrite Lj].
    destruct (dataf_inv _ _ _ De) as (n'&En'&Nn&Nf&Nc). rewrite En in En'. injection En' as <-.
    rewrite (bind_Done _ _ _ _ _ (deref_run _ _ _ En)). unfold node_string.
    rewrite Nn, Nf, Nc, (HP e) by set_solver. cbn [of_option]. rewrite bind_ret. cbn [remove_by].
    destruct (P e).
    + destruct (list_del_run _ _ _ _ _ HR) as (h&Eh&HR'&Hp&HD'&Hdom').
      rewrite (bind_Done _ _ _ _ _ Eh), kfree_run by done. eexists. split; [reflexivity|].
      exists (l1 ++ ps2). cbn [nodes set_nodes g_cb_dgasp_list_head]. fold head.
      assert (Hnd := HR). destruct Hnd as (Hnd&_).
      assert (Hpn : p ∉ head :: l1 ++ ps2).
      { rewrite app_comm_cons in Hnd. apply NoDup_app in Hnd as (_&H1&H2). apply NoDup_cons in H2 as [H2 _]. 
        set_solver. }
      split_and!; [done| | | |].
      * eapply ring_ext; [exact HR'|]. intros a Ha. apply lookup_delete_ne. by intros ->.
      * rewrite !fmap_app in HD |- *. cbn [fmap list_fmap] in HD.
        apply app_inj_1 in HD as [H1 H2]; [|by rewrite !length_fmap]. injection H2 as _ H2.
        rewrite <- H1, <- H2, <- !fmap_app. apply fields_ext. intros a Ha. unfold dataf.
        rewrite lookup_delete_ne by (intros ->; apply Hpn; by right). apply HD'.
      * rewrite dom_delete_L, Hdom', Hdom. set_solver.
      * rewrite Forall_app, Forall_cons in HF. rewrite Forall_app. tauto.
    + rewrite (bind_Done _ _ _ _ _ (deref_run _ _ _ En)), Enn.
      replace (k1 ++ e :: remove_by P j2) with ((k1 ++ [e]) ++ remove_by P j2) by (by rewrite <- app_assoc).
      replace (l1 ++ p :: ps2) with ((l1 ++ [p]) ++ ps2) in HR, HD, Hdom by (by rewrite <- app_assoc).
      replace (k1 ++ e :: j2) with ((k1 ++ [e]) ++ j2) in HP, HD, HF by (by rewrite <- app_assoc).
      apply (IH fuel (l1 ++ [p])); try done; [lia|]. rewrite !length_app. simpl. lia.
Qed.

Lemma rep_deregister_by P s l d :
  rep s l → (∀ e, e ∈ l → compares e d (P e)) →
  ∃ h, kerSysDeregisterDyingGaspHandler (Some d) s = Done (tt, set_nodes h s) ∧
       rep (set_nodes h s) (remove_by P l).
Proof.
  intros (ps&Hh&HR&HD&Hdom&HF) HP. unfold kerSysDeregisterDyingGaspHandler.
  rewrite bind_get, (proj2 (Z.eqb_neq _ _) Hh). destruct (ring_first _ _ _ HR) as (n&En&Enn).
  rewrite (bind_Done _ _ _ _ _ (deref_run _ _ _ En)), Enn.
  apply (rep_dereg_loop d P s [] ps [] l); try done.
  rewrite (rep_fuel _ _ _ (proj1 HR) Hdom). lia.
Qed.

Lemma rep_deregister s l d :
  rep s l → 0 ∉ d → (length d < IFNAMSIZ)%nat →
  ∃ h, kerSysDeregisterDyingGaspHandler (Some d) s = Done (tt, set_nodes h s) ∧
       rep (set_nodes h s) (remove_first d l).
Proof.
  intros H Hd Hl. apply rep_deregister_by; [done|]. destruct H as (ps&_&_&_&_&HF). rewrite Forall_forall in HF.
  intros e He. apply str_equal_stored; auto.
Qed.

(** ** The shutdown *)

Definition add_calls (l : list handler) (s : dgasp) : dgasp := set_calls (dg_calls s ++ map called l) s.

Lemma isr_loop_run h head l1 ps2 k1 k2 (fuel : nat) s d :
  nodes s = h → (length ps2 < fuel)%nat → length l1 = length k1 →
  ring h head (l1 ++ ps2) → dataf h <$> (l1 ++ ps2) = Some ∘ stored_handler <$> (k1 ++ k2) →
  Forall (λ e, 0 ∉ e.1.1) (k1 ++ k2) →
  ∃ d', isr_loop fuel head (hd head ps2) d s = Done (d', add_calls (List.filter (λ e, negb (is_dsl e)) k2) s) ∧
    match last (List.filter is_dsl k2) with
    | Some e => ∃ p, d' = Some p ∧ dataf h p = Some (stored_handler e)
    | None => d' = d
    end.
Proof.
  revert fuel l1 k1 k2 s d. induction ps2 as [|p ps2 IH]; intros [|fuel] l1 k1 k2 s d Hs Hf Hlen HR HD HF;
    cbn [length] in Hf; [lia| |lia|]; cbn [isr_loop hd].
  - rewrite Z.eqb_refl. exists d.
    assert (k2 = []) as ->.
    { apply (f_equal length) in HD. rewrite !length_fmap, !length_app in HD. destruct k2; simpl in *; [done|lia]. }
    split; [|done]. unfold add_calls. rewrite app_nil_r. by destruct s.
  - assert (Hne : p ≠ head).
    { destruct HR as (Hnd&_). intros ->. apply NoDup_cons in Hnd as [Hnd _]. apply Hnd. set_solver. }
    rewrite (proj2 (Z.eqb_neq _ _) Hne).
    destruct (ring_next _ _ _ _ _ HR) as (n&En&Enn).
    destruct (data_at _ _ _ _ _ HD) as (j1&e&j2&Ek&Lj&De).
    apply app_inj_1 in Ek as [<- ->]; [|by rewrite Lj].
    destruct (dataf_inv _ _ _ De) as (n'&En'&Nn&Nf&Nc). rewrite En in En'. injection En' as <-.
    assert (He : 0 ∉ e.1.1) by (rewrite Forall_forall in HF; apply HF; set_solver).
    replace (l1 ++ p :: ps2) with ((l1 ++ [p]) ++ ps2) in HR, HD by (by rewrite <- app_assoc).
    replace (k1 ++ e :: j2) with ((k1 ++ [e]) ++ j2) in HD, HF by (by rewrite <- app_assoc).
    assert (Hl' : length (l1 ++ [p]) = length (k1 ++ [e])) by (rewrite !length_app; simpl; lia).
    assert (Hderef : ∀ c, deref p (set_calls c s) = Done (n, set_calls c s)).
    { intros c. apply deref_run. cbn. by rewrite Hs. }
    rewrite (bind_Done _ _ _ _ _ (deref_run _ _ n ltac:(by rewrite Hs))). unfold node_string.
    rewrite Nn, strn_equal_dsl by done. cbn [of_option]. rewrite bind_ret. cbn [List.filter].
    fold (is_dsl e). destruct (is_dsl e); cbn [negb].
    + rewrite bind_ret, (bind_Done _ _ _ _ _ (deref_run _ _ n ltac:(by rewrite Hs))), Enn.
      destruct (IH fuel (l1 ++ [p]) (k1 ++ [e]) j2 s (Some p) Hs ltac:(lia) Hl' HR HD HF) as (d'&E&Hd').
      exists d'. split; [exact E|]. rewrite last_cons. destruct (last (List.filter is_dsl j2)); [done|].
      exists p. by split.
    + unfold call_handler. rewrite bind_modify, (bind_Done _ _ _ _ _ (Hderef _)), Enn, Nf, Nc.
      destruct (IH fuel (l1 ++ [p]) (k1 ++ [e]) j2 (set_calls (dg_calls s ++ [called e]) s) d Hs ltac:(lia) Hl' HR HD HF)
        as (d'&E&Hd').
      exists d'. split; [|done]. unfold called in E at 1. rewrite E. unfold add_calls. cbn.
      by rewrite <- app_assoc.
Qed.

(** The registers after the shutdown. *)
Definition stopped (s s' : dgasp) : Prop :=
  nodes s' = nodes s ∧ WatchDogDefCount s' = 50000000 ∧ WatchDogCtl s' = WatchDogCtl s ++ [0xFF00; 0x00FF] ∧
  ∀ i, 0 ≤ i → Z.testbit (dg_blkEnables s') i =
               Z.testbit (dg_blkEnables s) i && negb (bool_decide (i ∈ [10; 11; 17; 18; 19; 20; 21])).

Lemma shutdown_run s : ∃ s', kerSysDyingGaspShutdown s = Done (tt, s') ∧ stopped s s' ∧ dg_calls s' = dg_calls s.
Proof.
  eexists. split; [reflexivity|]. split; [|done]. split_and!; [done..|]. intros i Hi. cbn [dg_blkEnables].
  rewrite Z.land_spec. f_equal. rewrite Z.lnot_spec by done. f_equal.
  change (Z.lor (Z.lor EMAC_CLK_EN USBS_CLK_EN) SAR_CLK_EN) with 4066304.
  destruct (decide (i < 22)) as [H|H].
  - assert (i ∈ map Z.of_nat (seq 0 22)) as Hin.
    { apply list_elem_of_In, in_map_iff. exists (Z.to_nat i). split; [lia|]. apply in_seq. lia. }
    assert (HF : Forall (λ i, Z.testbit 4066304 i = bool_decide (i ∈ [10; 11; 17; 18; 19; 20; 21]))
                   (map Z.of_nat (seq 0 22))) by (vm_compute; repeat constructor).
    rewrite Forall_forall in HF. by apply HF.
  - rewrite (bool_decide_false (i ∈ _)); [|set_solver by lia].
    apply Z.bits_above_log2; [lia|]. change (Z.log2 4066304) with 21. lia.
Qed.

Lemma rep_shutdown s l : rep s l →
  ∃ s', dgasp_shutdown s = Done (Spins, s') ∧ stopped s s' ∧ dg_calls s' = dg_calls s ++ gasp_order l.
Proof.
  intros (ps&Hh&HR&HD&Hdom&HF). unfold dgasp_shutdown. rewrite bind_get.
  destruct (ring_first _ _ _ HR) as (n&En&Enn). rewrite (bind_Done _ _ _ _ _ (deref_run _ _ _ En)), Enn.
  destruct (isr_loop_run (nodes s) (g_cb_dgasp_list_head s) [] ps [] l (S (size (nodes s))) s None)
    as (d&E&Hd); try done.
  { rewrite (rep_fuel _ _ _ (proj1 HR) Hdom). lia. }
  rewrite (bind_Done _ _ _ _ _ E). unfold gasp_order. rewrite map_app.
  destruct (last (List.filter is_dsl l)) as [e|].
  - destruct Hd as (p&->&De). destruct (dataf_inv _ _ _ De) as (np&Enp&_&Nf&Nc).
    rewrite bind_assoc, (bind_Done _ _ _ _ _ (deref_run _ _ _ (Enp : nodes (add_calls _ s) !! p = _))).
    unfold call_handler. rewrite bind_modify, Nf, Nc.
    match goal with |- context [(kerSysDyingGaspShutdown;; _) ?s1] => destruct (shutdown_run s1) as (s'&Es&Hst&Hc) end.
    rewrite (bind_Done _ _ _ _ _ Es). exists s'. split; [done|]. split; [exact Hst|].
    rewrite Hc. cbn. by rewrite <- app_assoc.
  - subst d. rewrite bind_ret.
    match goal with |- context [(kerSysDyingGaspShutdown;; _) ?s1] => destruct (shutdown_run s1) as (s'&Es&Hst&Hc) end.
    rewrite (bind_Done _ _ _ _ _ Es). exists s'. split; [done|]. split; [exact Hst|].
    rewrite Hc. cbn. by rewrite app_nil_r.
Qed.

(** ** The test for a power loss *)

Section power.
Context {D : Type} {hw : GaspHw D}.

(** A running clock: [time] counts the cycles of the device, reading the counter
    takes at least one and no access more than [K]. *)
Record steady (time : D → Z) (K : Z) : Prop := {
  st_K : 0 < K < 2 ^ 28;
  st_clk : ∀ d, (kerSysGetCycleCount d).1 = u32 (time d) ∧
                time d < time (kerSysGetCycleCount d).2 ≤ time d + K;
  st_irq : ∀ d, time d ≤ time (IrqStatus d).2 ≤ time d + K;
  st_uart : ∀ b d, time d ≤ time (UART_Data b d) ≤ time d + K
}.

Definition pending (d : D) : bool := dg_pending (IrqStatus d).1.

Context (time : D → Z) (K : Z) (Hst : steady time K).

Lemma elapsed_time t1 t2 : 0 ≤ t2 - t1 < 2 ^ 32 → elapsed (u32 t2) (u32 t1) = t2 - t1.
Proof using.
  intros H. unfold elapsed, u32. rewrite Zminus_mod_idemp_l, Zminus_mod_idemp_r. by apply Z.mod_small.
Qed.

Lemma read_clk s d : ∃ d', hw_read kerSysGetCycleCount (s, d) = Done (u32 (time d), (s, d')) ∧
  time d < time d' ≤ time d + K.
Proof using Hst.
  destruct (st_clk _ _ Hst d) as [E H]. unfold hw_read. destruct (kerSysGetCycleCount d) as [v d']. simpl in *.
  exists d'. by subst v.
Qed.

Lemma read_irq s d : ∃ v d', hw_read IrqStatus (s, d) = Done (v, (s, d')) ∧ dg_pending v = pending d ∧
  time d ≤ time d' ≤ time d + K.
Proof using Hst.
  pose proof (st_irq _ _ Hst d) as H. unfold hw_read, pending. destruct (IrqStatus d) as [v d']. simpl in *.
  by exists v, d'.
Qed.

Lemma spin_run (fuel : nat) s d t1 :
  t1 ≤ time d ≤ t1 + 300 + K → 300 - (time d - t1) < Z.of_nat fuel → (0 < fuel)%nat →
  ∃ d', spin_us fuel (u32 t1) (s, d) = Done (tt, (s, d')) ∧ t1 + 300 < time d' ≤ t1 + 300 + 2 * K ∧ time d < time d'.
Proof using Hst.
  pose proof (st_K _ _ Hst) as HK. revert d. induction fuel as [|fuel IH]; intros d Ht Hf H0; [lia|].
  cbn [spin_us]. destruct (read_clk s d) as (d1&E&H1). rewrite (bind_Done _ _ _ _ _ E), elapsed_time by lia.
  unfold CYCLE_PER_US. destruct (Z.ltb_spec (time d - t1) (150 * 2)).
  - destruct (IH d1) as (d'&E'&H'); [lia..|]. exists d'. split; [exact E'|]. lia.
  - exists d1. split; [done|]. lia.
Qed.

(** [dropped d d']: between [d] and [d'] the level was read as clear. *)
Definition dropped (d d' : D) : Prop := ∃ d1, time d ≤ time d1 ≤ time d' ∧ pending d1 = false.

Lemma glitch_run (spins fuel : nat) s d0 d t0 :
  (302 ≤ spins)%nat → time d0 ≤ time d → t0 ≤ time d ≤ t0 + 15000 + 4 * K →
  15000 - (time d - t0) < 300 * Z.of_nat fuel → (0 < fuel)%nat →
  ∃ d', glitch_loop spins fuel (u32 t0) (s, d) = Done (tt, (s, d')) ∧
    time d ≤ time d' ≤ t0 + 15300 + 8 * K ∧ (dropped d0 d' ∨ t0 + 15000 ≤ time d').
Proof using Hst.
  intros Hsp. pose proof (st_K _ _ Hst) as HK. revert d.
  induction fuel as [|fuel IH]; intros d Hd0 Ht Hf H0; [lia|]. cbn [glitch_loop].
  destruct (read_clk s d) as (d1&E1&T1). rewrite (bind_Done _ _ _ _ _ E1).
  destruct (spin_run spins s d1 (time d)) as (d2&E2&T2); [lia..|]. rewrite (bind_Done _ _ _ _ _ E2).
  destruct (read_irq s d2) as (v&d3&E3&P3&T3). rewrite (bind_Done _ _ _ _ _ E3), P3.
  destruct (pending d2) eqn:Hp.
  - destruct (read_clk s d3) as (d4&E4&T4). rewrite (bind_Done _ _ _ _ _ E4), elapsed_time by lia.
    unfold DG_GLITCH_TO, CYCLE_PER_US. destruct (Z.ltb_spec (time d3 - t0) (100 * 150)).
    + destruct (IH d4) as (d'&E'&T'&R'); [lia..|]. exists d'. split; [exact E'|]. split; [lia|done].
    + exists d4. split; [done|]. split; [lia|]. right. lia.
  - exists d3. split; [done|]. split; [lia|]. left. exists d2. split; [lia|done].
Qed.

(** The verdict, its cause and its time. *)
Lemma check_run (fuel : nat) s d : (302 ≤ fuel)%nat →
  ∃ b d', kerSysDyingGaspCheckPowerLoss fuel (s, d) =
            Done (b, (if (b : bool) then s else set_enabled true s, d')) ∧
    time d ≤ time d' ≤ time d + 15300 + 12 * K ∧
    (dropped d d' ∨ b = true ∧ time d + 15000 ≤ time d') ∧
    ∃ d2, time d ≤ time d2 ≤ time d' ∧ b = pending d2.
Proof using Hst.
  intros Hf. pose proof (st_K _ _ Hst) as HK. unfold kerSysDyingGaspCheckPowerLoss.
  destruct (read_clk s d) as (d1&E1&T1). rewrite (bind_Done _ _ _ _ _ E1).
  assert (W : ∀ b d0, hw_write (UART_Data b) (s, d0) = Done (tt, (s, UART_Data b d0))) by done.
  rewrite !(bind_Done _ _ _ _ _ (W _ _)).
  pose proof (st_uart _ _ Hst 68 d1). pose proof (st_uart _ _ Hst 37 (UART_Data 68 d1)).
  pose proof (st_uart _ _ Hst 71 (UART_Data 37 (UART_Data 68 d1))).
  set (du := UART_Data 71 (UART_Data 37 (UART_Data 68 d1))) in *.
  destruct (glitch_run fuel fuel s d du (time d)) as (dg&Eg&Tg&Rg); [lia..|].
  rewrite (bind_Done _ _ _ _ _ Eg). destruct (read_irq s dg) as (v&d3&E3&P3&T3).
  rewrite (bind_Done _ _ _ _ _ E3), P3. destruct (pending dg) eqn:Hp; cbn [negb].
  - exists true, d3. split; [done|]. split; [lia|]. split; [|exists dg; split; [lia|done]].
    destruct Rg as [(e&He&?)|]; [left; exists e; split; [lia|done]|right; split; [done|lia]].
  - assert (EE : on_dgasp (modify (set_enabled true)) (s, d3) = Done (tt, (set_enabled true s, d3))) by done.
    rewrite (bind_Done _ _ _ _ _ EE). destruct (read_clk (set_enabled true s) d3) as (d4&E4&T4).
    rewrite (bind_Done _ _ _ _ _ E4). exists false, d4. split; [done|]. split; [lia|].
    split; [left|]; exists dg; split; done || lia.
Qed.

(** [C15] The interrupt, on a table [l] of handlers and a clock that runs: it ends
    its test within 15300 cycles and twelve accesses, and either finds a glitch
    (then no handler runs, the interrupt is enabled again and returns) or a loss
    of power (then every handler that is not a DSL handler has been called, latest
    first, after them one DSL handler, the watchdog is started and the clocks of
    the Ethernet, USB and ATM blocks are off; it does not return).  While the
    level is never read as clear, it is a loss, and found after 100 us. *)
Theorem kerSysDyingGaspIsr_correct (fuel : nat) s d l :
  (302 ≤ fuel)%nat → rep s l →
  ∃ r s' d', kerSysDyingGaspIsr fuel (s, d) = Done (r, (s', d')) ∧
    time d ≤ time d' ≤ time d + 15300 + 12 * K ∧
    match r with
    | IRQ_HANDLED => s' = set_enabled true s ∧ dropped d d'
    | Spins => stopped s s' ∧ dg_calls s' = dg_calls s ++ gasp_order l
    end ∧
    (dropped d d' ∨ r = Spins ∧ time d + 15000 ≤ time d').
Proof using Hst.
  intros Hf Hl. unfold kerSysDyingGaspIsr. destruct (check_run fuel s d Hf) as (b&d'&E&T&R&d2&T2&Eb).
  rewrite (bind_Done _ _ _ _ _ E). destruct b.
  - destruct (rep_shutdown s l Hl) as (s'&Es&Hs&Hc). exists Spins, s', d'. unfold on_dgasp. rewrite Es.
    split; [done|]. split; [lia|]. split; [done|]. destruct R as [|[_ ?]]; auto.
  - exists IRQ_HANDLED, (set_enabled true s), d'. split; [done|]. split; [lia|].
    assert (dropped d d') by (by exists d2). split; [done|]. by left.
Qed.
End power.

(** ** Sequences of requests *)

Section table.
Context (kmalloc : gmap Z CB_DGASP_LIST → option Z).

Inductive gasp_op : Type :=
| Register (devname : list Z) (cbfn ctx : Z)
| Deregister (devname : list Z).

Definition exec_op (o : gasp_op) : M dgasp unit :=
  match o with
  | Register x fn ctx => kerSysRegisterDyingGaspHandler kmalloc (Some x) fn ctx
  | Deregister d => kerSysDeregisterDyingGaspHandler (Some d)
  end.

Fixpoint exec_ops (os : list gasp_op) : M dgasp unit :=
  match os with [] => mret tt | o :: os' => exec_op o;; exec_ops os' end.

(** What the requests mean for the table. *)
Definition spec_op (l : list handler) (o : gasp_op) : list handler :=
  match o with
  | Register x fn ctx => if fn =? 0 then l else (x, fn, ctx) :: l
  | Deregister d => remove_first d l
  end.

(** Names are C strings; names to remove have at most 15 characters. *)
Definition gasp_op_ok (o : gasp_op) : Prop :=
  match o with
  | Register x _ _ => 0 ∉ x
  | Deregister d => 0 ∉ d ∧ (length d < IFNAMSIZ)%nat
  end.

Context (kmalloc_fresh : ∀ h p, kmalloc h = Some p → h !! p = None ∧ p ≠ 0).
Context (kmalloc_ok : ∀ h, is_Some (kmalloc h)).

Lemma rep_init s : g_cb_dgasp_list_head s = 0 → nodes s = ∅ →
  ∃ s', kerSysInitDyingGaspHandler kmalloc s = Done (tt, s') ∧ rep s' [] ∧ dg_calls s' = dg_calls s.
Proof using kmalloc_fresh kmalloc_ok.
  intros Hh Hn. unfold kerSysInitDyingGaspHandler. rewrite bind_get, Hh. cbn [Z.eqb negb].
  unfold new_node. rewrite bind_assoc, bind_get. destruct (kmalloc_ok (nodes s)) as [p Hp]. rewrite Hp.
  destruct (kmalloc_fresh _ _ Hp) as [_ Hp0].
  rewrite bind_assoc, bind_modify, bind_ret. unfold INIT_LIST_HEAD. rewrite bind_assoc.
  assert (Hl : ∀ v, is_Some (<[p := v]> (nodes s) !! p)) by (intros; rewrite lookup_insert_eq; by eexists).
  rewrite !put_step by (by repeat apply alter_live).
  eexists. split; [reflexivity|]. split; [|done]. exists []. cbn [set_head set_nodes g_cb_dgasp_list_head nodes].
  split_and!; [done|by apply ring_init|done| |done].
  rewrite !dom_alter_L, dom_insert_L, Hn, dom_empty_L. set_solver.
Qed.

Lemma rep_op s l o : rep s l → gasp_op_ok o →
  ∃ s', exec_op o s = Done (tt, s') ∧ rep s' (spec_op l o) ∧ dg_calls s' = dg_calls s.
Proof using kmalloc_fresh kmalloc_ok.
  intros Hl Ho. destruct o as [x fn ctx|d]; cbn [exec_op spec_op gasp_op_ok] in *.
  - destruct (Z.eqb_spec fn 0) as [->|Hfn].
    + exists s. split; [|done]. unfold kerSysRegisterDyingGaspHandler. rewrite bind_get.
      by destruct (g_cb_dgasp_list_head s =? 0).
    + destruct (kmalloc_ok (nodes s)) as [p Hp].
      destruct (rep_register kmalloc kmalloc_fresh s l x fn ctx p) as (h&E&H); try done. by exists (set_nodes h s).
  - destruct Ho as [H1 H2]. destruct (rep_deregister s l d Hl H1 H2) as (h&E&H). by exists (set_nodes h s).
Qed.

Lemma rep_ops os : ∀ s l, rep s l → Forall gasp_op_ok os →
  ∃ s', exec_ops os s = Done (tt, s') ∧ rep s' (foldl spec_op l os) ∧ dg_calls s' = dg_calls s.
Proof using kmalloc_fresh kmalloc_ok.
  induction os as [|o os IH]; intros s l Hl Ho; [by exists s|]. apply Forall_cons in Ho as [Ho Hos].
  destruct (rep_op s l o Hl Ho) as (s1&E1&H1&C1). destruct (IH s1 _ H1 Hos) as (s'&E&H&C).
  exists s'. cbn [exec_ops foldl]. rewrite (bind_Done _ _ _ _ _ E1). split; [done|]. split; [done|congruence].
Qed.

(** [C14] From the start-up on, when the allocations succeed, any sequence of
    registrations, and of deregistrations of names of at most 15 characters, returns, and leaves the nodes in memory linked as the table that results:
    registering puts a handler in front, deregistering removes the latest handler
    of the device; no node is lost, none is left over, no handler is called. *)
Theorem gasp_table_refines s os :
  g_cb_dgasp_list_head s = 0 → nodes s = ∅ → Forall gasp_op_ok os →
  ∃ s', (kerSysInitDyingGaspHandler kmalloc;; exec_ops os) s = Done (tt, s') ∧
        rep s' (foldl spec_op [] os) ∧ dg_calls s' = dg_calls s.
Proof using kmalloc_fresh kmalloc_ok.
  intros Hh Hn Hos. destruct (rep_init s Hh Hn) as (s1&E1&H1&C1).
  destruct (rep_ops os s1 [] H1 Hos) as (s'&E&H&C). exists s'. rewrite (bind_Done _ _ _ _ _ E1).
  split; [done|]. split; [done|congruence].
Qed.
End table.

(** ** Defects *)

(** The removal of the handlers at the end frees each node before it reads its
    link: it is correct only on an empty table, and otherwise reads freed memory. *)
Theorem gasp_deinit_use_after_free s l : rep s l →
  match l with
  | [] => ∃ s', kerSysDeinitDyingGaspHandler s = Done (tt, s') ∧ nodes s' = ∅ ∧ g_cb_dgasp_list_head s' = 0
  | _ => kerSysDeinitDyingGaspHandler s = Fault
  end.
Proof.
  intros (ps&Hh&HR&HD&Hdom&HF). unfold kerSysDeinitDyingGaspHandler.
  assert (Hlen : length ps = length l) by (apply (f_equal length) in HD; by rewrite !length_fmap in HD).
  destruct (ring_first _ _ _ HR) as (n&En&Enn).
  assert (E0 : ∀ k : CB_DGASP_LIST → M dgasp unit, (deref (g_cb_dgasp_list_head s) ≫= k) s = k n s).
  { intros k. by rewrite (bind_Done _ _ _ _ _ (deref_run _ _ _ En)). }
  destruct l as [|e l]; destruct ps as [|p ps]; try done; rewrite bind_get, (proj2 (Z.eqb_neq _ _) Hh), E0, Enn;
    cbn [hd deinit_loop].
  - rewrite Z.eqb_refl, bind_ret, (bind_Done _ _ _ _ _ (kfree_run _ _ (mk_is_Some _ _ En))).
    eexists. split; [reflexivity|]. split; [|done]. cbn. apply dom_empty_inv_L.
    rewrite dom_delete_L, Hdom. set_solver.
  - assert (Hne : p ≠ g_cb_dgasp_list_head s) by (destruct HR as (Hnd&_); intros ->; inversion Hnd; set_solver).
    rewrite (proj2 (Z.eqb_neq _ _) Hne). destruct (list_del_run s _ [] p ps HR) as (h&E&_&Hp&_).
    rewrite bind_assoc, (bind_Done _ _ _ _ _ E), bind_assoc, (bind_Done _ _ _ _ _ (kfree_run p (set_nodes h s) Hp)).
    rewrite bind_assoc. unfold deref. rewrite bind_assoc, bind_get. cbn [nodes set_nodes].
    by rewrite lookup_delete_eq.
Qed.

(** A handler registered under a name of sixteen characters cannot be
    deregistered: the stored name has no end, the comparison goes on with the
    bytes of the function pointer, and the table stays as it is. *)
Theorem gasp_long_name_stays s l d :
  rep s l → Forall (λ e, 2 ^ 24 ≤ e.1.2 < 2 ^ 32) l → 0 ∉ d → length d = IFNAMSIZ →
  ∃ h, kerSysDeregisterDyingGaspHandler (Some d) s = Done (tt, set_nodes h s) ∧ rep (set_nodes h s) l.
Proof.
  intros H Hfn Hd Hl. rewrite Forall_forall in Hfn.
  assert (Hid : remove_by (λ _, false) l = l) by (clear; induction l; simpl; congruence).
  rewrite <- Hid. apply rep_deregister_by; [done|].
  destruct H as (_&_&_&_&_&HF). rewrite Forall_forall in HF. intros e He. unfold compares.
  destruct (decide (length e.1.1 < IFNAMSIZ)%nat) as [Hs|Hs].
  - destruct (strncpy_cases _ (be_word e.1.2 ++ be_word e.2) Hs) as [r ->].
    rewrite str_equal_terminated by auto. f_equal. apply bool_decide_eq_false. intros E. rewrite E in Hs. lia.
  - assert (E : strncpy e.1.1 IFNAMSIZ = take IFNAMSIZ e.1.1) by (unfold strncpy; by rewrite take_app_le by lia).
    rewrite E. assert (Lt : length (take IFNAMSIZ e.1.1) = length d) by (rewrite length_take; lia).
    assert (Hnz : u8 (Z.shiftr e.1.2 24) ≠ 0).
    { specialize (Hfn e He). cbn in Hfn. unfold u8. rewrite Z.shiftr_div_pow2 by lia.
      rewrite Z.mod_small; [|split; [apply Z.div_pos; lia|apply Z.div_lt_upper_bound; lia]].
      assert (1 ≤ e.1.2 / 2 ^ 24) by (apply Z.div_le_lower_bound; lia). lia. }
    clear -Lt Hd Hnz. revert d Lt Hd. generalize (take IFNAMSIZ e.1.1).
    induction l as [|a x IH]; intros [|b d] Lt Hd; cbn [app str_equal length be_word] in *; try lia.
    + by rewrite (proj2 (Z.eqb_neq _ _) Hnz).
    + destruct (Z.eqb_spec a b) as [->|]; [|done]. destruct (Z.eqb_spec b 0); [set_solver|].
      apply IH; [lia|set_solver].
Qed.

(** ** Witnesses *)

(** An allocator: the address after the highest in use. *)
Definition bump (h : gmap Z CB_DGASP_LIST) : option Z :=
  Some (1 + foldr Z.max 0 (map fst (map_to_list h))).

Lemma foldr_max_bound (l : list Z) : 0 ≤ foldr Z.max 0 l ∧ ∀ k, k ∈ l → k ≤ foldr Z.max 0 l.
Proof.
  induction l as [|a l [IH0 IH]]; cbn [foldr]; split; try lia.
  - intros k Hk. by apply not_elem_of_nil in Hk.
  - intros k [->|Hk]%elem_of_cons; [lia|]. specialize (IH k Hk). lia.
Qed.

Lemma bump_fresh h p : bump h = Some p → h !! p = None ∧ p ≠ 0.
Proof.
  intros [= <-]. destruct (foldr_max_bound (map fst (map_to_list h))) as [H0 H].
  split; [|lia]. destruct (h !! _) as [n|] eqn:E; [|done]. exfalso.
  apply elem_of_map_to_list in E.
  assert (Hin := list_elem_of_fmap_2 fst _ _ E). specialize (H _ Hin). cbn in H. lia.
Qed.

Definition gasp_boot : dgasp :=
  {| nodes := ∅; g_cb_dgasp_list_head := 0; dg_calls := []; WatchDogDefCount := 0; WatchDogCtl := [];
     dg_blkEnables := 0xFFFFFFFF; dg_enabled := true |}.

Lemma bump_ok h : is_Some (bump h).
Proof. by eexists. Qed.

Definition eth : list Z := cstr "eth0"%string.
Definition adsl : list Z := cstr "dsl"%string.
Definition wlan : list Z := cstr "wlan0"%string.

(** A state with some handlers registered. *)
Lemma some_gasp os : Forall gasp_op_ok os → ∃ s, rep s (foldl spec_op [] os) ∧ dg_calls s = [].
Proof.
  intros Hos. destruct (rep_init bump bump_fresh bump_ok gasp_boot eq_refl eq_refl) as (s0&_&H0&C0).
  destruct (rep_ops bump bump_fresh bump_ok os s0 [] H0 Hos) as (s&_&H&C). exists s. split; [done|].
  by rewrite C, C0.
Qed.


(** Closed lists of names without NUL. *)
Ltac no_nul := cbn [gasp_op_ok]; apply (bool_decide_unpack _); vm_compute; exact I.

Definition three : list gasp_op :=
  [Register adsl 0x80001000 1; Register eth 0x80002000 2; Register wlan 0x80003000 3].

Lemma three_ok : Forall gasp_op_ok three.
Proof. unfold three. repeat (apply Forall_cons; split; [no_nul|]). by apply Forall_nil. Qed.

Lemma gasp_table_refines_witness :
  ∃ s', (kerSysInitDyingGaspHandler bump;; exec_ops bump (three ++ [Deregister eth])) gasp_boot = Done (tt, s') ∧
        rep s' [(wlan, 0x80003000, 3); (adsl, 0x80001000, 1)].
Proof.
  destruct (gasp_table_refines bump bump_fresh bump_ok gasp_boot (three ++ [Deregister eth]))
    as (s'&E&H&_).
  - reflexivity.
  - reflexivity.
  - apply Forall_app. split; [exact three_ok|]. apply Forall_cons. split; [split|by apply Forall_nil].
    + no_nul.
    + apply Nat.ltb_lt. reflexivity.
  - exists s'. split; [exact E|exact H].
Defined.

(** A device whose every access takes a cycle and whose level is set. *)
#[local] Instance held_hw : GaspHw Z :=
  {| kerSysGetCycleCount := λ t, (u32 t, t + 1); IrqStatus := λ t, (2 ^ 30, t + 1); UART_Data := λ _ t, t + 1 |}.

Lemma held_steady : steady (λ t, t) 1.
Proof. split; [lia|intros d; cbn; split; [done|lia]|intros d; cbn; lia|intros b d; cbn; lia]. Qed.

Lemma kerSysDyingGaspIsr_correct_witness :
  ∃ s s' d', kerSysDyingGaspIsr 302 (s, 0) = Done (Spins, (s', d')) ∧ 15000 ≤ d' ∧
    dg_calls s' = [(0x80003000, 3); (0x80002000, 2); (0x80001000, 1)].
Proof.
  destruct (some_gasp three three_ok) as (s&Hs&Hc).
  destruct (kerSysDyingGaspIsr_correct (λ t, t) 1 held_steady 302 s 0 _ (le_n 302) Hs) as (r&s'&d'&E&_&Hr&Hd).
  destruct Hd as [(d1&_&Hp)|[-> Hd]]; [discriminate Hp|].
  exists s, s', d'. split; [exact E|]. split; [lia|]. destruct Hr as [_ ->]. rewrite Hc. reflexivity.
Defined.

Lemma gasp_deinit_use_after_free_witness :
  ∃ s, rep s [(eth, 0x80002000, 2)] ∧ kerSysDeinitDyingGaspHandler s = Fault.
Proof.
  destruct (some_gasp [Register eth 0x80002000 2]) as (s&Hs&_).
  - apply Forall_cons. split; [no_nul|by apply Forall_nil].
  - exists s. split; [exact Hs|]. exact (gasp_deinit_use_after_free s _ Hs).
Defined.

Definition sixteen : list Z := cstr "wireless-adapter"%string.

Lemma gasp_long_name_stays_witness :
  ∃ s h, rep s [(sixteen, 0x80002000, 2)] ∧
         kerSysDeregisterDyingGaspHandler (Some sixteen) s = Done (tt, set_nodes h s) ∧
         rep (set_nodes h s) [(sixteen, 0x80002000, 2)].
Proof.
  destruct (some_gasp [Register sixteen 0x80002000 2]) as (s&Hs&_).
  - apply Forall_cons. split; [no_nul|by apply Forall_nil].
  - destruct (gasp_long_name_stays s _ sixteen Hs) as (h&E&H).
    + apply Forall_cons. split; [cbn; lia|by apply Forall_nil].
    + no_nul.
    + reflexivity.
    + exists s, h. split; [exact Hs|]. split; [exact E|exact H].
Defined.
