(* ===== verification/BoardIoctl.v ===== *)
(** * Requests to the board driver ([board_ioctl] of [board.c])

    The dispatch of the ioctl requests: flash writes and reads, MAC addresses,
    the equipment test, pins, modes and events.  The state joins the states of
    the components with the driver's own variables. *)

From stdpp Require Import base numbers list strings.
From Stdlib Require Import ZArith Lia Bool.
From S2P Require Import Prelude Crc32 BoardTables BoardParms FlashApi KerFlash ImageSet ScratchPad.
From S2P Require Import MacAddr ImageTag Gpio Buttons.

Definition EFAULT : Z := 14.
Definition EACCES : Z := 13.
Definition SDRAM_TYPE_ADDRESS_OFFSET : Z := 16.
Definition THREAD_NUM_ADDRESS_OFFSET : Z := 20.
Definition NVRAM_DATA_ID : Z := 0x0f1e2d3c.
Definition NVRAM_BOARD_ID_STRING_LEN : Z := 16.
Definition NVRAM_SERIAL_NUMBER_LEN : Z := 32.
Definition offsetof_szSerialNumber : Z := 296.
Definition CFE_VERSION_OFFSET : Z := 0x0570.
Definition CFE_VERSION_MARK_SIZE : Z := 5.
Definition CFE_VERSION_SIZE : Z := 9.
Definition HG55MAGV : Z := 0.
Definition MANUFACTURER_ALPHA : Z := 2.
Definition MANUFACTURER_HUAWEI : Z := 3.
Definition SES_EVENTS : Z := 1.
(** [kLedAdsl], [kLedSes] and LED states as the numbers a request carries. *)
Definition LED_ADSL : Z := 0.
Definition LED_SES : Z := 8.
Definition LED_SLOW_BLINK : Z := 7.
Definition LED_FAST_BLINK : Z := 8.

(** [E_HSPA_TRAFFICMODE_VERSION]. *)
Definition MODE_NONE : Z := 0.
Definition MODE_2G : Z := 1.
Definition MODE_3G : Z := 2.
Definition MODE_PASSBY : Z := 3.
Definition MODE_NORM : Z := 4.
Definition MODE_UNDEFINED : Z := 5.

Inductive BOARD_IOCTL_ACTION : Type :=
| PERSISTENT | NVRAM | BCM_IMAGE_CFE | BCM_IMAGE_FS | BCM_IMAGE_KERNEL | BCM_IMAGE_WHOLE
| SCRATCH_PAD | FLASH_SIZE | SET_CS_PARAM | GET_FILE_TAG_FROM_FLASH | VARIABLE | PSI_BACKUP
| FIX | AVAIL | BCM_IMAGE_FS_NO_REBOOT.

Inductive BOARD_EQUIPMENT_TEST_ACTION : Type :=
| SET_BASE_MAC_ADDRESS | GET_BASE_MAC_ADDRESS | SET_MAC_AMOUNT | GET_MAC_AMOUNT
| GET_ALL_BOARD_ID_NAME | GET_PCB_VERSION | GET_BOARD_VERSION | SET_BOARD_ID | GET_BOARD_ID
| SET_SERIAL_NUMBER | GET_SERIAL_NUMBER | GET_CPU_REVISION_ID | GET_BOARD_MANUFACTURER_NAME.

#[global] Instance BOARD_IOCTL_ACTION_eq_dec : EqDecision BOARD_IOCTL_ACTION.
Proof. solve_decision. Defined.
#[global] Instance BOARD_EQUIPMENT_TEST_ACTION_eq_dec : EqDecision BOARD_EQUIPMENT_TEST_ACTION.
Proof. solve_decision. Defined.

(** The enumerators by number; other numbers are not an action. *)
Definition flash_actions : list BOARD_IOCTL_ACTION :=
  [PERSISTENT; NVRAM; BCM_IMAGE_CFE; BCM_IMAGE_FS; BCM_IMAGE_KERNEL; BCM_IMAGE_WHOLE;
   SCRATCH_PAD; FLASH_SIZE; SET_CS_PARAM; GET_FILE_TAG_FROM_FLASH; VARIABLE; PSI_BACKUP;
   FIX; AVAIL; BCM_IMAGE_FS_NO_REBOOT].
Definition test_actions : list BOARD_EQUIPMENT_TEST_ACTION :=
  [SET_BASE_MAC_ADDRESS; GET_BASE_MAC_ADDRESS; SET_MAC_AMOUNT; GET_MAC_AMOUNT;
   GET_ALL_BOARD_ID_NAME; GET_PCB_VERSION; GET_BOARD_VERSION; SET_BOARD_ID; GET_BOARD_ID;
   SET_SERIAL_NUMBER; GET_SERIAL_NUMBER; GET_CPU_REVISION_ID; GET_BOARD_MANUFACTURER_NAME].

Definition enum_at {A} (l : list A) (n : Z) : option A :=
  if 0 <=? n then l !! Z.to_nat n else None.

(** [BOARD_IOCTL_PARMS]: [string] and [buf] are the memory the pointers of the
    caller point to, [None] for NULL. *)
Record BOARD_IOCTL_PARMS : Type := {
  string : option (list Z);
  buf : option (list Z);
  strLen : Z;
  offset : Z;
  action : Z;
  result : Z
}.

Definition with_result (r : Z) (p : BOARD_IOCTL_PARMS) : BOARD_IOCTL_PARMS :=
  {| string := string p; buf := buf p; strLen := strLen p; offset := offset p;
     action := action p; result := r |}.
Definition with_strLen (n : Z) (p : BOARD_IOCTL_PARMS) : BOARD_IOCTL_PARMS :=
  {| string := string p; buf := buf p; strLen := n; offset := offset p;
     action := action p; result := result p |}.
Definition with_offset (o : Z) (p : BOARD_IOCTL_PARMS) : BOARD_IOCTL_PARMS :=
  {| string := string p; buf := buf p; strLen := strLen p; offset := o;
     action := action p; result := result p |}.
Definition with_string (s : list Z) (p : BOARD_IOCTL_PARMS) : BOARD_IOCTL_PARMS :=
  {| string := Some s; buf := buf p; strLen := strLen p; offset := offset p;
     action := action p; result := result p |}.
Definition with_buf (b : list Z) (p : BOARD_IOCTL_PARMS) : BOARD_IOCTL_PARMS :=
  {| string := string p; buf := Some b; strLen := strLen p; offset := offset p;
     action := action p; result := result p |}.

(** The memory behind [string]; reading from NULL leaves an empty object. *)
Definition str (p : BOARD_IOCTL_PARMS) : list Z := default [] (string p).

(** [__copy_to_user(ctrlParms.string, src, n)] and direct stores. *)
Definition store_string (src : list Z) (p : BOARD_IOCTL_PARMS) : option BOARD_IOCTL_PARMS :=
  (λ s, with_string s p) <$> buf_write (str p) 0 src.

(** The state: the components' states, the variables of the driver, and
    [eventmask] of the open file. *)
Record bstate (S : Type) : Type := {
  b_k : kstate S;
  b_nv : nvs;
  b_gpio : gpio_regs;
  b_pll : Z;
  s_iFlashWriteFlg : Z;
  g_iReset : Z;
  g_sVoipServiceStatus : Z;
  b_sWlanFlag : Z;
  g_nHspaTrafficMode : Z;
  iHspaTrafficMode : Z;
  g_nEquipTestMode : Z;
  eventmask : Z;
  b_wakeup : Z
}.

Arguments b_k {S}.
Arguments b_nv {S}.
Arguments b_gpio {S}.
Arguments b_pll {S}.
Arguments s_iFlashWriteFlg {S}.
Arguments g_iReset {S}.
Arguments g_sVoipServiceStatus {S}.
Arguments b_sWlanFlag {S}.
Arguments g_nHspaTrafficMode {S}.
Arguments iHspaTrafficMode {S}.
Arguments g_nEquipTestMode {S}.
Arguments eventmask {S}.
Arguments b_wakeup {S}.

Section ioctl.
Context {S : Type}.
Abbreviation bs := (bstate S).

Definition set_k (k : kstate S) (b : bs) : bs :=
  {| b_k := k; b_nv := b_nv b; b_gpio := b_gpio b; b_pll := b_pll b;
     s_iFlashWriteFlg := s_iFlashWriteFlg b; g_iReset := g_iReset b;
     g_sVoipServiceStatus := g_sVoipServiceStatus b; b_sWlanFlag := b_sWlanFlag b;
     g_nHspaTrafficMode := g_nHspaTrafficMode b; iHspaTrafficMode := iHspaTrafficMode b;
     g_nEquipTestMode := g_nEquipTestMode b; eventmask := eventmask b; b_wakeup := b_wakeup b |}.

Definition set_nv (n : nvs) (b : bs) : bs :=
  {| b_k := b_k b; b_nv := n; b_gpio := b_gpio b; b_pll := b_pll b;
     s_iFlashWriteFlg := s_iFlashWriteFlg b; g_iReset := g_iReset b;
     g_sVoipServiceStatus := g_sVoipServiceStatus b; b_sWlanFlag := b_sWlanFlag b;
     g_nHspaTrafficMode := g_nHspaTrafficMode b; iHspaTrafficMode := iHspaTrafficMode b;
     g_nEquipTestMode := g_nEquipTestMode b; eventmask := eventmask b; b_wakeup := b_wakeup b |}.

Definition set_pins (g : gpio_regs) (pll : Z) (b : bs) : bs :=
  {| b_k := b_k b; b_nv := b_nv b; b_gpio := g; b_pll := pll;
     s_iFlashWriteFlg := s_iFlashWriteFlg b; g_iReset := g_iReset b;
     g_sVoipServiceStatus := g_sVoipServiceStatus b; b_sWlanFlag := b_sWlanFlag b;
     g_nHspaTrafficMode := g_nHspaTrafficMode b; iHspaTrafficMode := iHspaTrafficMode b;
     g_nEquipTestMode := g_nEquipTestMode b; eventmask := eventmask b; b_wakeup := b_wakeup b |}.

Definition set_flags (writing reset voip : Z) (b : bs) : bs :=
  {| b_k := b_k b; b_nv := b_nv b; b_gpio := b_gpio b; b_pll := b_pll b;
     s_iFlashWriteFlg := writing; g_iReset := reset;
     g_sVoipServiceStatus := voip; b_sWlanFlag := b_sWlanFlag b;
     g_nHspaTrafficMode := g_nHspaTrafficMode b; iHspaTrafficMode := iHspaTrafficMode b;
     g_nEquipTestMode := g_nEquipTestMode b; eventmask := eventmask b; b_wakeup := b_wakeup b |}.

Definition set_modes (traffic itraffic equip : Z) (b : bs) : bs :=
  {| b_k := b_k b; b_nv := b_nv b; b_gpio := b_gpio b; b_pll := b_pll b;
     s_iFlashWriteFlg := s_iFlashWriteFlg b; g_iReset := g_iReset b;
     g_sVoipServiceStatus := g_sVoipServiceStatus b; b_sWlanFlag := b_sWlanFlag b;
     g_nHspaTrafficMode := traffic; iHspaTrafficMode := itraffic;
     g_nEquipTestMode := equip; eventmask := eventmask b; b_wakeup := b_wakeup b |}.

Definition set_events (mask wake : Z) (b : bs) : bs :=
  {| b_k := b_k b; b_nv := b_nv b; b_gpio := b_gpio b; b_pll := b_pll b;
     s_iFlashWriteFlg := s_iFlashWriteFlg b; g_iReset := g_iReset b;
     g_sVoipServiceStatus := g_sVoipServiceStatus b; b_sWlanFlag := b_sWlanFlag b;
     g_nHspaTrafficMode := g_nHspaTrafficMode b; iHspaTrafficMode := iHspaTrafficMode b;
     g_nEquipTestMode := g_nEquipTestMode b; eventmask := mask; b_wakeup := wake |}.

Definition set_writing (w : Z) (b : bs) : bs := set_flags w (g_iReset b) (g_sVoipServiceStatus b) b.
Definition set_reset_ok (r : Z) (b : bs) : bs :=
  set_flags (s_iFlashWriteFlg b) r (g_sVoipServiceStatus b) b.

(** Calls of the components. *)
Definition on_k {A} (m : M (kstate S) A) : M bs A := λ b,
  match m (b_k b) with
  | Done (a, k) => Done (a, set_k k b)
  | Fault => Fault | Blocked => Blocked | NoFuel => NoFuel
  end.

Definition on_nv {A} (m : M nvs A) : M bs A := λ b,
  match m (b_nv b) with
  | Done (a, n) => Done (a, set_nv n b)
  | Fault => Fault | Blocked => Blocked | NoFuel => NoFuel
  end.

Definition soft_reset : M bs unit :=
  modify (λ b, set_pins (b_gpio b) (kerSysMipsSoftReset (b_pll b)) b).

(** The flash's address and view in memory, the allocator, [flash_init] with its
    drivers, the test for a top part; whether images can be copied from the
    caller; what other processes do while this one sleeps; the uninitialised
    local [ctrlParms]; the revision register. *)
Context (FLASH_BASE : Z) (mapped : S → Z → Z) (kmalloc : nat → bool).
Context (flash_init_ : option (flash_device_info_t S) →
                       M S (Z * option (flash_device_info_t S) * flash_report)).
Context (top_device : S → Z) (copy_ok : bool) (others : bs → bs).
Context (junk : BOARD_IOCTL_PARMS) (RevID : Z).

(** What a request returns: the value of [board_ioctl], and the caller's
    structure (with the memory it points to) when it has been written. *)
Abbreviation reply := (Z * option BOARD_IOCTL_PARMS)%type.

(** ** Writing the flash *)

(** Waiting for another writer: [n] sleeps are left. *)
Fixpoint wait_idle (n : nat) : M bs bool :=
  flg ← gets s_iFlashWriteFlg;
  if FLASH_WRITING =? flg then
    match n with
    | O => mret false
    | Datatypes.S n' => modify others;; wait_idle n'
    end
  else mret true.

(** Actions refused during a call. *)
Definition voip_guarded (a : option BOARD_IOCTL_ACTION) : bool :=
  match a with
  | Some (SCRATCH_PAD | PERSISTENT | VARIABLE | NVRAM | PSI_BACKUP | FIX | AVAIL) => true
  | _ => false
  end.

(** The bytes of the NVRAM in the mapped flash. *)
Definition nvram_data : M (kstate S) (list Z) :=
  addr ← get_nvram_start_addr;
  s ← gets k_flash;
  mret (nvram_bytes mapped s addr).

(** After a CFE or whole image: select the board again, and put the old NVRAM
    back when the new one names no board. *)
Definition restore_nvram (save : list Z) : M (kstate S) unit :=
  nv ← nvram_data;
  bp ← gets g_pCurrentBp;
  let '(sts, bp') := BpSetBoardId (c_string (drop (Z.to_nat offsetof_szBoardId) nv)) bp in
  modify (set_bp bp');;
  if negb (sts =? BP_SUCCESS) && (be32 nv =? NVRAM_DATA_ID)
  then kerSysNvRamSet kmalloc save sizeof_NVRAM_DATA 0;; mret tt
  else mret tt.

(** The memory type and the thread number go into the boot loader's image. *)
Definition patch_cfe (img : list Z) : M (kstate S) (list Z) :=
  bp ← gets g_pCurrentBp;
  img1 ← of_option (buf_write img SDRAM_TYPE_ADDRESS_OFFSET (be_bytes (snd (BpGetSdramSize bp))));
  of_option (buf_write img1 THREAD_NUM_ADDRESS_OFFSET (be_bytes (snd (BpGetCMTThread bp)))).

Definition write_cfe (p : BOARD_IOCTL_PARMS) : M (kstate S) (Z * BOARD_IOCTL_PARMS) :=
  save ← nvram_data;
  img ← patch_cfe (str p);
  kerSysLedCtrl LED_ADSL LED_FAST_BLINK;;
  ret ← kerSysBcmImageSet FLASH_BASE kmalloc copy_ok
          (s32 (offset p + BOOT_OFFSET FLASH_BASE)) img (strLen p);
  restore_nvram save;;
  mret (ret, with_string img p).

Definition write_whole (p : BOARD_IOCTL_PARMS) : M (kstate S) (Z * BOARD_IOCTL_PARMS) :=
  save ← nvram_data;
  let p := if offset p =? 0 then with_offset (s32 FLASH_BASE) p else p in
  kerSysLedCtrl LED_ADSL LED_FAST_BLINK;;
  ret ← kerSysBcmImageSet FLASH_BASE kmalloc copy_ok (offset p) (str p) (strLen p);
  restore_nvram save;;
  mret (ret, p).

Definition write_fs (p : BOARD_IOCTL_PARMS) : M (kstate S) Z :=
  kerSysLedCtrl LED_ADSL LED_FAST_BLINK;;
  flashFsKernelImage FLASH_BASE mapped kmalloc (str p).

(** The inner switch: the status and the structure as it is copied back.  (The
    tag that an upgrade patches in the caller's image is not reported.) *)
Definition flash_write_action (p : BOARD_IOCTL_PARMS) : M bs (Z * BOARD_IOCTL_PARMS) :=
  match enum_at flash_actions (action p) with
  | Some SCRATCH_PAD =>
      ret ← on_k (if offset p =? -1 then kerSysScratchPadClearAll kmalloc
                  else kerSysScratchPadSet kmalloc (c_string (str p)) (buf p) (offset p));
      mret (ret, p)
  | Some PERSISTENT =>
      ret ← on_k (kerSysPersistentSet kmalloc top_device (str p) (strLen p) (offset p)); mret (ret, p)
  | Some PSI_BACKUP =>
      ret ← on_k (kerSysPsiBackupSet kmalloc top_device (str p) (strLen p) (offset p)); mret (ret, p)
  | Some VARIABLE =>
      ret ← on_k (kerSysVariableSet kmalloc (str p) (strLen p) (offset p)); mret (ret, p)
  | Some NVRAM =>
      ret ← on_k (kerSysNvRamSet kmalloc (str p) (strLen p) (offset p)); mret (ret, p)
  | Some BCM_IMAGE_CFE =>
      modify (set_reset_ok 0);;
      if (strLen p <=? 0) || (strLen p >? FLASH_LENGTH_BOOT_ROM) then
        modify (set_reset_ok 1);; mret (-1, p)
      else
        r ← on_k (write_cfe p);
        modify (set_reset_ok 1);;
        mret r
  | Some BCM_IMAGE_FS =>
      modify (set_reset_ok 0);;
      ret ← on_k (write_fs p);
      (if ret =? 0 then soft_reset else mret tt);;
      modify (set_reset_ok 1);;
      mret (ret, p)
  | Some BCM_IMAGE_FS_NO_REBOOT =>
      modify (set_reset_ok 0);;
      ret ← on_k (write_fs p);
      modify (set_reset_ok 1);;
      mret (ret, p)
  | Some BCM_IMAGE_KERNEL => mret (0, p)
  | Some BCM_IMAGE_WHOLE =>
      modify (set_reset_ok 0);;
      if strLen p <=? 0 then mret (-1, p)
      else
        r ← on_k (write_whole p);
        modify (set_reset_ok 1);;
        soft_reset;;
        mret r
  | Some FIX =>
      ret ← on_k (kerSysFixSet kmalloc (str p) (strLen p) (offset p)); mret (ret, p)
  | Some AVAIL =>
      ret ← on_k (kerSysAvailSet kmalloc (str p) (strLen p) (offset p)); mret (ret, p)
  | _ => mret (- EINVAL, p)
  end.

Definition ioctl_flash_write (arg : option BOARD_IOCTL_PARMS) : M bs reply :=
  match arg with
  | None => mret (- EFAULT, None)
  | Some p =>
      idle ← wait_idle 9;
      if negb idle then mret (-1, Some (with_result (-1) p))
      else
        modify (set_writing FLASH_WRITING);;
        voip ← gets g_sVoipServiceStatus;
        if voip_guarded (enum_at flash_actions (action p)) && (voip =? 1) then
          modify (set_writing FLASH_IDLE);;
          mret (-1, Some (with_result (-1) p))
        else
          '(ret, p') ← flash_write_action p;
          modify (set_writing FLASH_IDLE);;
          mret (ret, Some (with_result ret p'))
  end.

(** ** Reading the flash *)

(** A Get function: the bytes go to the caller's memory. *)
Definition read_to_string (m : M (kstate S) (Z * option (list Z))) (p : BOARD_IOCTL_PARMS)
  : M bs (Z * BOARD_IOCTL_PARMS) :=
  '(ret, bytes) ← on_k m;
  match bytes with
  | Some src => p' ← of_option (store_string src p); mret (ret, p')
  | None => mret (ret, p)
  end.

(** The inner switch; the copies to the caller inside it are overwritten by the
    one behind the switch. *)
Definition flash_read_action (p : BOARD_IOCTL_PARMS) : M bs (Z * BOARD_IOCTL_PARMS) :=
  match enum_at flash_actions (action p) with
  | Some SCRATCH_PAD =>
      '(ret, tokBuf) ← on_k (kerSysScratchPadGet kmalloc (c_string (str p)) (default [] (buf p)) (offset p));
      mret (ret, with_buf tokBuf p)
  | Some PERSISTENT => read_to_string (kerSysPersistentGet kmalloc (strLen p) (offset p)) p
  | Some PSI_BACKUP => read_to_string (kerSysPsiBackupGet kmalloc (strLen p) (offset p)) p
  | Some VARIABLE => read_to_string (kerSysVariableGet kmalloc (strLen p) (offset p)) p
  | Some NVRAM =>
      read_to_string (kerSysNvRamGet kmalloc FLASH_BASE mapped flash_init_ (strLen p) (offset p)) p
  | Some FLASH_SIZE => ret ← on_k kerSysFlashSizeGet; mret (ret, p)
  | Some GET_FILE_TAG_FROM_FLASH =>
      tag ← on_k (getTagFromPartition 1);
      match tag with
      | Some t => p' ← of_option (store_string t p); mret (0, p')
      | None => mret (- EFAULT, p)
      end
  | Some BCM_IMAGE_FS =>
      match string p with
      | None => on_k (getTagFromPartition 1);; mret (0, p)
      | Some _ => '(_, p') ← read_to_string (kerSysGetFsImageFromFlash FLASH_BASE (strLen p) (offset p)) p;
                  mret (0, p')
      end
  | Some BCM_IMAGE_KERNEL =>
      match string p with
      | None => on_k (getTagFromPartition 1);; mret (0, p)
      | Some _ => '(_, p') ← read_to_string (kerSysGetKernelImageFromFlash FLASH_BASE (strLen p) (offset p)) p;
                  mret (0, p')
      end
  | Some FIX => read_to_string (kerSysFixGet kmalloc (strLen p) (offset p)) p
  | Some AVAIL => read_to_string (kerSysAvailGet kmalloc (strLen p) (offset p)) p
  | _ => mret (- EINVAL, p)
  end.

Definition ioctl_flash_read (arg : option BOARD_IOCTL_PARMS) : M bs reply :=
  match arg with
  | None => mret (- EFAULT, None)
  | Some p => '(ret, p') ← flash_read_action p; mret (ret, Some (with_result ret p'))
  end.

(** ** The equipment test *)

(** A field of the NVRAM is replaced and the checksum brought up to date; the
    status of the write is not looked at. *)
Definition put_checksum (nv : list Z) : list Z :=
  let nv0 := take (Z.to_nat offsetof_ulCheckSum) nv ++ [0; 0; 0; 0] in
  take (Z.to_nat offsetof_ulCheckSum) nv ++ be_bytes (getCrc32 nv0 CRC32_INIT_VALUE).

Definition edit_nvram (off : Z) (field : list Z) : M (kstate S) unit :=
  nv ← nvram_data;
  nv1 ← of_option (buf_write nv off field);
  kerSysNvRamSet kmalloc (put_checksum nv1) sizeof_NVRAM_DATA 0;;
  mret tt.

(** A field of [n] bytes from the caller's memory, padded with zeros. *)
Definition user_field (p : BOARD_IOCTL_PARMS) (n len : Z) : M (kstate S) (list Z) :=
  src ← of_option (buf_read (str p) 0 n);
  of_option (buf_write (replicate (Z.to_nat len) 0) 0 src).

(** [memcpy] of a negative length, as a size of nearly 4 GB, leaves its objects. *)
Definition serial_len (p : BOARD_IOCTL_PARMS) : Z :=
  if strLen p <? NVRAM_SERIAL_NUMBER_LEN then strLen p else NVRAM_SERIAL_NUMBER_LEN.

Definition nvram_field (off n : Z) : M (kstate S) (list Z) :=
  nv ← nvram_data; of_option (buf_read nv off n).

(** A name in a local array of sixteen characters. *)
Definition name16 (s : String.string) : list Z :=
  cstr s ++ replicate (16 - length (cstr s)) 0.

Definition reply_ok (p : BOARD_IOCTL_PARMS) : M bs reply := mret (0, Some (with_result 0 p)).
Definition reply_value (v : Z) (p : BOARD_IOCTL_PARMS) : M bs reply := mret (0, Some (with_result v p)).
Definition reply_bytes (src : list Z) (p : BOARD_IOCTL_PARMS) : M bs reply :=
  p' ← of_option (store_string src p); reply_ok p'.

Definition test_guarded (a : BOARD_EQUIPMENT_TEST_ACTION) : bool :=
  match a with
  | SET_BASE_MAC_ADDRESS | SET_MAC_AMOUNT | SET_BOARD_ID | SET_SERIAL_NUMBER => true
  | _ => false
  end.

Definition equipment_test (a : BOARD_EQUIPMENT_TEST_ACTION) (p : BOARD_IOCTL_PARMS) : M bs reply :=
  b ← get;
  match a with
  | SET_BASE_MAC_ADDRESS =>
      on_k (f ← user_field p NVRAM_MAC_ADDRESS_LEN NVRAM_MAC_ADDRESS_LEN;
            edit_nvram (Z.of_nat offsetof_ucaBaseMacAddr) f);;
      reply_ok p
  | GET_BASE_MAC_ADDRESS =>
      f ← on_k (nvram_field (Z.of_nat offsetof_ucaBaseMacAddr) NVRAM_MAC_ADDRESS_LEN);
      reply_bytes f (with_strLen NVRAM_MAC_ADDRESS_LEN p)
  | SET_MAC_AMOUNT =>
      on_k (edit_nvram (Z.of_nat offsetof_ulNumMacAddrs) (be_bytes (u32 (offset p))));;
      reply_ok p
  | GET_MAC_AMOUNT =>
      f ← on_k (nvram_field (Z.of_nat offsetof_ulNumMacAddrs) 4);
      reply_value (s32 (be32 f)) p
  | GET_ALL_BOARD_ID_NAME =>
      '(r, ids) ← of_option (BpGetBoardIds (str p) (strLen p));
      mret (0, Some (with_result r (with_string ids p)))
  | GET_PCB_VERSION => reply_value (kerSysGetPCBVersion (b_gpio b) (g_pCurrentBp (b_k b))) p
  | GET_BOARD_VERSION =>
      let t := GetHarewareType (kerSysGetGPIO (b_gpio b)) in
      reply_bytes (name16 (if t =? NOT_SUPPROT_GET_VERSION then "HG520DEMO"%string
                           else if t =? HG55MAGV then "HG55MAGV"%string else "N/A"%string)) p
  | SET_BOARD_ID =>
      on_k (f ← user_field p NVRAM_BOARD_ID_STRING_LEN NVRAM_BOARD_ID_STRING_LEN;
            edit_nvram offsetof_szBoardId f);;
      reply_ok p
  | GET_BOARD_ID =>
      f ← on_k (nvram_field offsetof_szBoardId NVRAM_BOARD_ID_STRING_LEN);
      reply_bytes f (with_strLen NVRAM_BOARD_ID_STRING_LEN p)
  | SET_SERIAL_NUMBER =>
      on_k (f ← user_field p (serial_len p) NVRAM_SERIAL_NUMBER_LEN;
            edit_nvram offsetof_szSerialNumber f);;
      reply_ok p
  | GET_SERIAL_NUMBER =>
      f ← on_k (nvram_field offsetof_szSerialNumber NVRAM_SERIAL_NUMBER_LEN);
      reply_bytes f (with_strLen NVRAM_SERIAL_NUMBER_LEN p)
  | GET_CPU_REVISION_ID => reply_value (Z.land RevID 0xFF) p
  | GET_BOARD_MANUFACTURER_NAME =>
      let m := kerSysGetBoardManufacturer (b_gpio b) in
      reply_bytes (name16 (if m =? MANUFACTURER_HUAWEI then "Huawei"%string
                           else if m =? MANUFACTURER_ALPHA then "Alpha"%string else "N/A"%string)) p
  end.

Definition ioctl_equipment_test (arg : option BOARD_IOCTL_PARMS) : M bs reply :=
  match arg with
  | None => mret (- EFAULT, None)
  | Some p =>
      voip ← gets g_sVoipServiceStatus;
      match enum_at test_actions (action p) with
      | None => mret (0, None)
      | Some a =>
          if test_guarded a && (voip =? 1) then mret (-1, Some (with_result (-1) p))
          else equipment_test a p
      end
  end.

(** ** The other requests *)

Definition ioctl_get_mac_address (arg : option BOARD_IOCTL_PARMS) : M bs reply :=
  match arg with
  | None => mret (- EFAULT, None)
  | Some p =>
      '(r, mac) ← on_nv (kerSysGetMacAddress (u32 (offset p)));
      if r =? 0 then
        m ← of_option mac;
        p' ← of_option (store_string m p);
        mret (0, Some (with_result r p'))
      else mret (0, Some (with_result r p))
  end.

Definition ioctl_release_mac_address (arg : option BOARD_IOCTL_PARMS) : M bs reply :=
  match arg with
  | None => mret (- EFAULT, None)
  | Some p =>
      match string p with
      | None => mret (0, Some (with_result (- EACCES) p))
      | Some s =>
          mac ← of_option (buf_read s 0 NVRAM_MAC_ADDRESS_LEN);
          r ← on_nv (kerSysReleaseMacAddress mac);
          mret (0, Some (with_result r p))
      end
  end.

(** Requests that answer without reading the caller's structure copy the
    uninitialised local one. *)
Definition ioctl_value (v : Z) : M bs reply := mret (0, Some (with_result v junk)).

Definition count_phys (infos : list ETHERNET_MAC_INFO) : Z :=
  Z.of_nat (length (List.filter (λ e, negb (ucPhyType e =? BP_ENET_NO_PHY)) infos)).

(** [infos]: the uninitialised local array. *)
Definition ioctl_get_num_enet (infos : list ETHERNET_MAC_INFO) : M bs reply :=
  bp ← gets (λ b, g_pCurrentBp (b_k b));
  let '(sts, e) := BpGetEthernetMacInfo infos bp in
  if sts =? BP_SUCCESS then ioctl_value (count_phys e) else mret (- EFAULT, None).

Definition ioctl_get_cfe_ver (arg : option BOARD_IOCTL_PARMS) : M bs reply :=
  match arg with
  | None => mret (- EFAULT, None)
  | Some p =>
      if strLen p <? CFE_VERSION_SIZE then mret (- EFAULT, Some (with_result 0 p))
      else
        s ← gets (λ b, k_flash (b_k b));
        let vertag := mapped_bytes mapped s (u32 (FLASH_BASE + CFE_VERSION_OFFSET))
                        (CFE_VERSION_MARK_SIZE + CFE_VERSION_SIZE) in
        if negb (bool_decide (take 5 vertag = cstr "cfe-v"%string)) then reply_value 0 p
        else
          p1 ← of_option (store_string (drop 5 vertag) p);
          s2 ← of_option (buf_write (str p1) CFE_VERSION_SIZE [0]);
          reply_value 1 (with_string s2 p1)
  end.

Definition ioctl_get_wlan_ant (arg : option BOARD_IOCTL_PARMS) : M bs reply :=
  match arg with
  | None => mret (- EFAULT, None)
  | Some p =>
      bp ← gets (λ b, g_pCurrentBp (b_k b));
      let '(sts, antInUse) := BpGetWirelessAntInUse bp in
      if (sts =? BP_SUCCESS) && (strLen p =? 2)
      then reply_bytes [u8 (Z.shiftr antInUse 8); u8 antInUse] p
      else mret (- EFAULT, None)
  end.

(** The event mask of the open file. *)
Definition user_int (p : BOARD_IOCTL_PARMS) : option Z := be32 <$> buf_read (str p) 0 4.

Definition ioctl_set_trigger (arg : option BOARD_IOCTL_PARMS) : M bs reply :=
  match arg with
  | None => mret (- EFAULT, None)
  | Some p =>
      if strLen p =? 4 then
        m ← of_option (user_int p);
        modify (λ b, set_events (Z.lor (eventmask b) m) (b_wakeup b) b);;
        mask ← gets eventmask;
        if negb (Z.land mask SES_EVENTS =? 0) then reply_ok p
        else mret (- EFAULT, Some (with_result (- EFAULT) p))
      else mret (- EFAULT, None)
  end.

Definition ioctl_get_trigger (arg : option BOARD_IOCTL_PARMS) : M bs reply :=
  match arg with
  | None => mret (- EFAULT, None)
  | Some p =>
      if strLen p =? 4 then mask ← gets eventmask; reply_bytes (be_bytes mask) p
      else mret (- EFAULT, None)
  end.

Definition ioctl_unset_trigger (arg : option BOARD_IOCTL_PARMS) : M bs reply :=
  match arg with
  | None => mret (- EFAULT, None)
  | Some p =>
      if strLen p =? 4 then
        m ← of_option (user_int p);
        modify (λ b, set_events (Z.land (eventmask b) (Z.lnot m)) (b_wakeup b) b);;
        reply_ok p
      else mret (- EFAULT, None)
  end.

(** [sesLed_ctrl]; [sesLed_gpio] is the pin of the WPS button. *)
Definition sesLed_ctrl (sesLed_gpio act : Z) : M (kstate S) unit :=
  if sesLed_gpio =? BP_NOT_DEFINED then mret tt
  else
    let act := Z.land act 0xff in
    kerSysLedCtrl LED_SES (if act =? 1 then LED_ON else if act =? 2 then LED_SLOW_BLINK else LED_OFF).

Definition ioctl_set_ses_led (sesLed_gpio : Z) (arg : option BOARD_IOCTL_PARMS) : M bs reply :=
  match arg with
  | None => mret (- EFAULT, None)
  | Some p =>
      if strLen p =? 4 then
        a ← of_option (user_int p);
        on_k (sesLed_ctrl sesLed_gpio a);;
        reply_ok p
      else mret (- EFAULT, None)
  end.

Definition ioctl_get_vcope_gpio (arg : option BOARD_IOCTL_PARMS) : M bs reply :=
  match arg with
  | None => mret (- EFAULT, None)
  | Some p =>
      bp ← gets (λ b, g_pCurrentBp (b_k b));
      let v := BpGetVcopeGpio (offset p) bp in
      mret (if negb (v =? BP_NOT_DEFINED) then 0 else - EFAULT, Some (with_result v p))
  end.

Definition ioctl_set_pll (arg : option BOARD_IOCTL_PARMS) : M bs reply :=
  match arg with
  | None => mret (- EFAULT, None)
  | Some p =>
      modify (λ b, set_pins (b_gpio b) (SetPll (strLen p) (offset p) (b_pll b)) b);;
      mret (0, Some p)
  end.

Definition ioctl_set_gpio (arg : option BOARD_IOCTL_PARMS) : M bs reply :=
  match arg with
  | None => mret (- EFAULT, None)
  | Some p =>
      modify (λ b, set_pins (SetGpio (strLen p) (offset p) (b_gpio b)) (b_pll b) b);;
      mret (0, Some p)
  end.

(** The HSPA mode: a refused change reports success, since [ret] is set to 0
    behind both branches. *)
Definition ioctl_set_traffic_mode (arg : option BOARD_IOCTL_PARMS) : M bs reply :=
  match arg with
  | None => mret (- EFAULT, None)
  | Some p =>
      if (offset p <? MODE_UNDEFINED) && (MODE_NONE <=? offset p) then
        b ← get;
        (if (MODE_PASSBY =? g_nHspaTrafficMode b) && negb (MODE_NORM =? offset p) then mret tt
         else modify (λ b, set_modes (offset p) (offset p) (g_nEquipTestMode b) b));;
        mret (0, None)
      else mret (- EFAULT, None)
  end.

Definition ioctl_set_equiptest_mode (arg : option BOARD_IOCTL_PARMS) : M bs reply :=
  match arg with
  | None => mret (- EFAULT, None)
  | Some p =>
      if (offset p =? 1) || (offset p =? 0) then
        modify (λ b, set_modes (g_nHspaTrafficMode b) (iHspaTrafficMode b) (offset p) b);;
        mret (0, None)
      else mret (- EFAULT, None)
  end.

(** ** The dispatch *)

Inductive board_command : Type :=
| FLASH_INIT | FLASH_WRITE | FLASH_READ | MIPS_SOFT_RESET | LED_CTRL | GET_MAC_ADDRESS
| RELEASE_MAC_ADDRESS | GET_PSI_SIZE | GET_SDRAM_SIZE | EQUIPMENT_TEST | GET_CHIP_ID
| CHECK_WLAN_STATUS | SET_VOIP_SERVICE | GET_VOIP_SERVICE | GET_NUM_ENET | GET_CFE_VER
| GET_WLAN_ANT_INUSE | SET_TRIGGER_EVENT | GET_TRIGGER_EVENT | UNSET_TRIGGER_EVENT
| SET_SES_LED | WAKEUP_MONITOR_TASK | GET_VCOPE_GPIO | SET_PLL | SET_GPIO | SET_TRAFFIC_MODE
| SET_EQUIPTEST_MODE | UNKNOWN_COMMAND.

Definition board_ioctl (infos : list ETHERNET_MAC_INFO) (sesLed_gpio : Z) (command : board_command)
  (arg : option BOARD_IOCTL_PARMS) : M bs reply :=
  match command with
  | FLASH_INIT => mret (0, None)
  | FLASH_WRITE => ioctl_flash_write arg
  | FLASH_READ => ioctl_flash_read arg
  | MIPS_SOFT_RESET => soft_reset;; mret (0, None)
  | LED_CTRL =>
      match arg with
      | Some p => on_k (kerSysLedCtrl (strLen p) (offset p));; mret (0, None)
      | None => mret (0, None)
      end
  | GET_MAC_ADDRESS => ioctl_get_mac_address arg
  | RELEASE_MAC_ADDRESS => ioctl_release_mac_address arg
  | GET_PSI_SIZE => n ← on_nv g_pNvramInfo; ioctl_value (s32 (ulPsiSize n))
  | GET_SDRAM_SIZE => n ← on_nv g_pNvramInfo; ioctl_value (s32 (ulSdramSize n))
  | EQUIPMENT_TEST => ioctl_equipment_test arg
  | GET_CHIP_ID => ioctl_value (Z.shiftr (s32 (Z.land RevID 0xFFFF0000)) 16)
  | CHECK_WLAN_STATUS => b ← get; ioctl_value (b_sWlanFlag b)
  | SET_VOIP_SERVICE =>
      match arg with
      | Some p => modify (λ b, set_flags (s_iFlashWriteFlg b) (g_iReset b) 0 b);; reply_ok p
      | None => mret (0, None)
      end
  | GET_VOIP_SERVICE => b ← get; ioctl_value (g_sVoipServiceStatus b)
  | GET_NUM_ENET => ioctl_get_num_enet infos
  | GET_CFE_VER => ioctl_get_cfe_ver arg
  | GET_WLAN_ANT_INUSE => ioctl_get_wlan_ant arg
  | SET_TRIGGER_EVENT => ioctl_set_trigger arg
  | GET_TRIGGER_EVENT => ioctl_get_trigger arg
  | UNSET_TRIGGER_EVENT => ioctl_unset_trigger arg
  | SET_SES_LED => ioctl_set_ses_led sesLed_gpio arg
  | WAKEUP_MONITOR_TASK => modify (λ b, set_events (eventmask b) 1 b);; mret (0, None)
  | GET_VCOPE_GPIO => ioctl_get_vcope_gpio arg
  | SET_PLL => ioctl_set_pll arg
  | SET_GPIO => ioctl_set_gpio arg
  | SET_TRAFFIC_MODE => ioctl_set_traffic_mode arg
  | SET_EQUIPTEST_MODE => ioctl_set_equiptest_mode arg
  | UNKNOWN_COMMAND => mret (- EINVAL, None)
  end.
End ioctl.
