(* ===== verification/IoctlClaims.v ===== *)
(** * Requests to the board driver: proofs

    Storage and the equipment test through [board_ioctl], the lock between
    writers, refusals, and the status values that get lost. *)

From stdpp Require Import base numbers list strings relations.
From Stdlib Require Import ZArith Lia Bool.
From S2P Require Import Prelude Crc32 BoardTables BoardParms FlashApi CfiGeometry KerFlash FlashAreas FlashClaims.
From S2P Require Import CfiTypes CfiFlash AmdChip ScratchPad MacAddr ImageTag TagProofs Gpio Buttons BoardIoctl.

Section claims.
Context {S : Type} (FB : Z) (d : flash_device_info_t S) {C : FlashContract FB d}.
Context (kmalloc : nat → bool) (mapped : S → Z → Z) (top_device : S → Z).
Context (flash_init_ : option (flash_device_info_t S) →
                       M S (Z * option (flash_device_info_t S) * flash_report)).
Context (copy_ok : bool) (others : bstate S → bstate S) (RevID : Z).
Implicit Types b : bstate S.
Abbreviation mem b := (fc_mem (k_flash (b_k b))).
Abbreviation ready len b := (storage_ready FB d kmalloc len (b_k b)).
Abbreviation write := (ioctl_flash_write FB mapped kmalloc top_device copy_ok others).
Abbreviation read := (ioctl_flash_read FB mapped kmalloc flash_init_).
Abbreviation test := (ioctl_equipment_test mapped kmalloc RevID).

Lemma on_k_run {A} (m : M (kstate S) A) b a k : m (b_k b) = Done (a, k) → on_k m b = Done (a, set_k k b).
Proof. intros E. unfold on_k. by rewrite E. Qed.

(** ** Storage *)

Definition store_action (st : store) : Z :=
  match st with
  | NvRam => 1 | Persistent => 0 | PsiBackup => 11 | Fix_ => 12 | Avail => 13 | Variable_ => 10
  end.

Lemma write_store b p st : action p = store_action st →
  flash_write_action FB mapped kmalloc top_device copy_ok p b =
    (ret ← on_k (store_set kmalloc top_device st (str p) (strLen p) (offset p)); mret (ret, p)) b.
Proof. intros E. unfold flash_write_action. rewrite E. by destruct st. Qed.

Lemma read_store b p st : action p = store_action st →
  flash_read_action FB mapped kmalloc flash_init_ p b =
    read_to_string (store_get FB kmalloc mapped flash_init_ st (strLen p) (offset p)) p b.
Proof. intros E. unfold flash_read_action. rewrite E. by destruct st. Qed.

(** The request gets the lock at once. *)
Lemma wait_idle_now n b : s_iFlashWriteFlg b ≠ FLASH_WRITING → wait_idle others n b = Done (true, b).
Proof.
  intros H. assert (E : FLASH_WRITING =? s_iFlashWriteFlg b = false) by (apply Z.eqb_neq; congruence).
  destruct n; cbn [wait_idle]; rewrite bind_gets, E; done.
Qed.

Lemma write_run b p k : s_iFlashWriteFlg b ≠ FLASH_WRITING → g_sVoipServiceStatus b ≠ 1 →
  (∀ b1, b_k b1 = b_k b → flash_write_action FB mapped kmalloc top_device copy_ok p b1 = Done ((0, p), set_k k b1)) →
  write (Some p) b = Done ((0, Some (with_result 0 p)), set_writing FLASH_IDLE (set_k k (set_writing FLASH_WRITING b))).
Proof.
  intros Hw Hv Ha. unfold ioctl_flash_write. rewrite (bind_Done _ _ _ _ _ (wait_idle_now _ _ Hw)).
  cbn [negb]. rewrite bind_modify, bind_gets. cbn [g_sVoipServiceStatus set_writing set_flags].
  rewrite (proj2 (Z.eqb_neq _ _) Hv), andb_false_r.
  by rewrite (bind_Done _ _ _ _ _ (Ha (set_writing FLASH_WRITING b) eq_refl)).
Qed.

(** [C16] Storage through the driver, in a kernel as for the storage functions:
    when no other process writes and no call is active, a FLASH_WRITE request
    within one of the six areas succeeds (for the PSI and the PSI backup: on a part
    that [JudgeFlashIsTopDevice8K] does not report, since on the others the write
    is reported as -1), frees the lock, and a FLASH_READ request for the same range
    returns the data in the caller's buffer, with result 0; no kernel buffer is
    lost and the driver is ready for the next request. *)
Theorem ioctl_storage_round_trip len b st (data dst : list Z) p q :
  ready len b → (st = Persistent ∨ st = PsiBackup → top_device (k_flash (b_k b)) ≠ 1) →
  s_iFlashWriteFlg b ≠ FLASH_WRITING → g_sVoipServiceStatus b ≠ 1 →
  Forall is_byte data → length dst = length data →
  string p = Some data → strLen p = Z.of_nat (length data) → action p = store_action st → 0 ≤ offset p →
  offset p + strLen p ≤ area_length (store_area (fInfo (b_k b)) st) →
  string q = Some dst → strLen q = strLen p → offset q = offset p → action q = action p →
  ∃ b1 b2, write (Some p) b = Done ((0, Some (with_result 0 p)), b1) ∧ s_iFlashWriteFlg b1 = FLASH_IDLE ∧
    read (Some q) b1 = Done ((0, Some (with_result 0 (with_string data q))), b2) ∧
    ready len b2 ∧ k_live (b_k b2) = k_live (b_k b) ∧ s_iFlashWriteFlg b2 = FLASH_IDLE.
Proof.
  intros H Ht Hw Hv Hb Hd Ps Pl Pa Po Pr Qs Ql Qo Qa. rewrite Pl in Pr.
  destruct (store_set_run FB d kmalloc top_device len (b_k b) st data (offset p) H Ht Hb Po Pr) as (k1&E1&S1).
  pose proof (ready_step _ _ _ _ _ _ _ _ H S1) as H1.
  destruct (store_get_bytes FB d kmalloc mapped flash_init_ len k1 st (strLen p) (offset p) H1)
    as (k2&E2&S2); [lia|lia|by rewrite Pl, (st_fInfo _ _ _ _ _ _ S1)|].
  assert (Ed : bytes_at (fc_mem (k_flash k1)) (area_addr FB d (store_area (fInfo k1) st) + offset p)
                 (Z.to_nat (strLen p)) = data).
  { rewrite (st_fInfo _ _ _ _ _ _ S1), Pl, Nat2Z.id. erewrite bytes_at_ext; [apply bytes_at_stored|].
    intros; apply S1. }
  rewrite Ed in E2.
  set (b1 := set_writing FLASH_IDLE (set_k k1 (set_writing FLASH_WRITING b))).
  exists b1, (set_k k2 b1). split; [|split; [done|split; [|split; [by eapply ready_step|split; [|done]]]]].
  - apply write_run; [done|done|]. intros b' Hb'. rewrite (write_store _ _ _ Pa).
    assert (Er : str p = data) by (unfold str; by rewrite Ps). rewrite Er, Pl.
    by rewrite (bind_Done _ _ _ _ _ (on_k_run _ b' 0 k1 ltac:(by rewrite Hb'))).
  - unfold ioctl_flash_read. assert (Er : flash_read_action FB mapped kmalloc flash_init_ q b1 =
      Done ((0, with_string data q), set_k k2 b1)).
    { rewrite (read_store _ _ st) by congruence. unfold read_to_string. rewrite Ql, Qo.
      rewrite (bind_Done _ _ _ _ _ (on_k_run _ b1 _ k2 E2)). unfold store_string.
      unfold str. rewrite Qs. change (default [] (Some dst)) with dst. rewrite buf_write_Some by lia.
      cbn [fmap option_fmap option_map of_option]. rewrite bind_ret.
      rewrite Z2Nat.inj_0, take_0. cbn [app]. rewrite (drop_ge dst) by (rewrite Hd; done). by rewrite app_nil_r. }
    by rewrite (bind_Done _ _ _ _ _ Er).
  - cbn. rewrite (st_live _ _ _ _ _ _ S2). apply (st_live _ _ _ _ _ _ S1).
Qed.

(** ** The equipment test *)

(** The NVRAM as the driver reads it. *)
Definition nvram_of (k : kstate S) : list Z :=
  bytes_at (fc_mem (k_flash k)) NVRAM_DATA_OFFSET (Z.to_nat sizeof_NVRAM_DATA).

(** The checksum of the NVRAM is the one the start-up code asks for. *)
Definition nvram_intact (nv : list Z) : Prop :=
  be32 (drop (Z.to_nat offsetof_ulCheckSum) nv) =
    getCrc32 (take (Z.to_nat offsetof_ulCheckSum) nv ++ [0; 0; 0; 0]) CRC32_INIT_VALUE.

(** The first sector is mapped. *)
Context (Hmap : ∀ s a, fc_ok s → 0 ≤ a < fc_size 0 → mapped s (u32 (FB + a)) = fc_mem s a).

Lemma nvram_data_run len (k : kstate S) : storage_ready FB d kmalloc len k →
  nvram_data mapped k = Done (nvram_of k, k).
Proof using Hmap.
  intros H. pose proof (sr_ok _ _ _ _ _ H) as Hk. unfold nvram_data, get_nvram_start_addr.
  rewrite bind_assoc, bind_gets, bind_assoc, (lo_nvram _ _ _ _ (sr_layout _ _ _ _ _ H)).
  cbn [start_blk blk_offset nvram_area].
  assert (E : flash (λ g, flash_get_memptr g (u16 0)) k = Done (u32 FB, k)).
  { unfold flash. rewrite (kk_dev _ _ k Hk). simpl. pose proof fc_num_range.
    change (u16 0) with 0. rewrite fc_memptr by (lia || apply Hk).
    rewrite sec_base_0, Z.add_0_r. by rewrite set_flash_id. }
  mstep E. rewrite bind_ret, bind_gets. unfold mret, M_ret. do 3 f_equal.
  unfold nvram_bytes, nvram_of, bytes_at. apply map_ext_in. intros j Hj%in_seq.
  rewrite <- Hmap; [|apply Hk|].
  - f_equal. unfold u32. rewrite Zplus_mod_idemp_l, <- Z.add_assoc, Zplus_mod_idemp_l. done.
  - pose proof (sr_first _ _ _ _ _ H). unfold NVRAM_DATA_OFFSET, NVRAM_LENGTH, ONEK, sizeof_NVRAM_DATA in *. lia.
Qed.

Lemma put_checksum_length nv : Z.of_nat (length nv) = sizeof_NVRAM_DATA →
  Z.of_nat (length (put_checksum nv)) = sizeof_NVRAM_DATA.
Proof using.
  intros H. unfold put_checksum, be_bytes. rewrite length_app, length_take. cbn [length].
  unfold offsetof_ulCheckSum, sizeof_NVRAM_DATA in *. lia.
Qed.

Lemma put_checksum_intact nv : Z.of_nat (length nv) = sizeof_NVRAM_DATA → nvram_intact (put_checksum nv).
Proof using.
  intros H. unfold nvram_intact, put_checksum.
  assert (L : length (take (Z.to_nat offsetof_ulCheckSum) nv) = Z.to_nat offsetof_ulCheckSum).
  { rewrite length_take. unfold offsetof_ulCheckSum, sizeof_NVRAM_DATA in *. lia. }
  rewrite drop_app_length', take_app_length' by done.
  rewrite <- (app_nil_r (be_bytes _)), be32_be_bytes; [done|].
  apply getCrc32_range. unfold CRC32_INIT_VALUE. lia.
Qed.

Lemma put_checksum_bytes nv : Forall is_byte nv → Forall is_byte (put_checksum nv).
Proof using.
  intros H. unfold put_checksum. apply Forall_app. split; [by apply Forall_take|apply be_bytes_byte].
Qed.

Lemma put_checksum_lookup nv (i : nat) : (i < Z.to_nat offsetof_ulCheckSum)%nat →
  Z.of_nat (length nv) = sizeof_NVRAM_DATA → put_checksum nv !! i = nv !! i.
Proof using.
  intros Hi H. unfold put_checksum. rewrite lookup_app_l; [by apply lookup_take_lt|].
  rewrite length_take. unfold offsetof_ulCheckSum, sizeof_NVRAM_DATA in *. lia.
Qed.

Lemma nvram_of_bytes len (k : kstate S) :
  storage_ready FB d kmalloc len k → Forall is_byte (nvram_of k).
Proof using.
  intros H. apply Forall_forall. intros x Hx. unfold nvram_of, bytes_at in Hx.
  apply list_elem_of_In, in_map_iff in Hx as (n&<-&Hn%in_seq).
  apply fc_mem_byte; [apply (kk_ok _ _ _ (sr_ok _ _ _ _ _ H))|].
  pose proof (sr_first _ _ _ _ _ H). pose proof fc_num_range. pose proof (base_mono FB d 1 fc_num) as Hb.
  rewrite (sec_base_succ fc_size 0), sec_base_0 in Hb by lia.
  unfold NVRAM_DATA_OFFSET, NVRAM_LENGTH, ONEK, sizeof_NVRAM_DATA in *. lia.
Qed.

(** Editing a field: the field is replaced, the checksum is right, and nothing
    else changes. *)
Lemma edit_nvram_run len (k : kstate S) off field :
  storage_ready FB d kmalloc len k → Forall is_byte field → 0 ≤ off →
  off + Z.of_nat (length field) ≤ offsetof_ulCheckSum →
  ∃ k' nv1, edit_nvram mapped kmalloc off field k = Done (tt, k') ∧
    buf_write (nvram_of k) off field = Some nv1 ∧ nvram_of k' = put_checksum nv1 ∧
    storage_ready FB d kmalloc len k' ∧ k_live k' = k_live k ∧
    (∀ a, ¬ NVRAM_DATA_OFFSET ≤ a < NVRAM_DATA_OFFSET + sizeof_NVRAM_DATA →
          fc_mem (k_flash k') a = fc_mem (k_flash k) a).
Proof using Hmap.
  intros H Hf Ho Hr. unfold edit_nvram. mstep (nvram_data_run _ _ H).
  assert (Ln : length (nvram_of k) = Z.to_nat sizeof_NVRAM_DATA) by apply bytes_at_length.
  destruct (buf_write (nvram_of k) off field) as [nv1|] eqn:Ew; cycle 1.
  { exfalso. rewrite buf_write_Some in Ew; [done|lia|]. unfold offsetof_ulCheckSum, sizeof_NVRAM_DATA in *. lia. }
  assert (L1 : Z.of_nat (length nv1) = sizeof_NVRAM_DATA).
  { rewrite (buf_write_length _ _ _ _ Ew), Ln. done. }
  cbn [of_option]. rewrite bind_ret.
  assert (Hb1 : Forall is_byte (put_checksum nv1)).
  { apply put_checksum_bytes. eapply buf_write_Forall; [exact Ew| |done].
    by eapply nvram_of_bytes. }
  assert (Lc := put_checksum_length nv1 L1).
  destruct (store_set_run FB d kmalloc (λ _, 0) len k NvRam (put_checksum nv1) 0 H ltac:(by intros []) Hb1) as (k1&E1&S1).
  { lia. }
  { cbn [store_area]. rewrite (lo_nvram _ _ _ _ (sr_layout _ _ _ _ _ H)). rewrite Lc. done. }
  rewrite Lc in E1. cbn [store_set] in E1. mstep E1.
  cbn [store_area] in S1. rewrite (lo_nvram _ _ _ _ (sr_layout _ _ _ _ _ H)) in S1.
  assert (Ea : area_addr FB d nvram_area + 0 = NVRAM_DATA_OFFSET).
  { unfold area_addr. cbn [nvram_area start_blk blk_offset]. rewrite sec_base_0. done. }
  rewrite Ea in S1. exists k1, nv1. split; [done|]. split; [done|]. split; [|split; [by eapply ready_step|split]].
  - unfold nvram_of. rewrite (bytes_at_ext _ (stored (fc_mem (k_flash k)) NVRAM_DATA_OFFSET (put_checksum nv1)))
      by (intros; apply S1). rewrite <- Lc, Nat2Z.id. apply bytes_at_stored.
  - apply S1.
  - intros a Ha. rewrite (st_mem _ _ _ _ _ _ S1). apply stored_out. rewrite Lc. lia.
Qed.

(** The byte fields of the equipment test. *)
Inductive test_item : Type := BaseMac | BoardId | SerialNumber.

Definition item_set (i : test_item) : Z := match i with BaseMac => 0 | BoardId => 7 | SerialNumber => 9 end.
Definition item_get (i : test_item) : Z := match i with BaseMac => 1 | BoardId => 8 | SerialNumber => 10 end.
Definition item_off (i : test_item) : Z :=
  match i with
  | BaseMac => Z.of_nat offsetof_ucaBaseMacAddr | BoardId => offsetof_szBoardId | SerialNumber => offsetof_szSerialNumber
  end.
Definition item_len (i : test_item) : Z :=
  match i with
  | BaseMac => NVRAM_MAC_ADDRESS_LEN | BoardId => NVRAM_BOARD_ID_STRING_LEN | SerialNumber => NVRAM_SERIAL_NUMBER_LEN
  end.

Definition set_of (i : test_item) : BOARD_EQUIPMENT_TEST_ACTION :=
  match i with BaseMac => SET_BASE_MAC_ADDRESS | BoardId => SET_BOARD_ID | SerialNumber => SET_SERIAL_NUMBER end.
Definition get_of (i : test_item) : BOARD_EQUIPMENT_TEST_ACTION :=
  match i with BaseMac => GET_BASE_MAC_ADDRESS | BoardId => GET_BOARD_ID | SerialNumber => GET_SERIAL_NUMBER end.

Lemma item_actions i : enum_at test_actions (item_set i) = Some (set_of i) ∧ test_guarded (set_of i) = true ∧
  enum_at test_actions (item_get i) = Some (get_of i) ∧ test_guarded (get_of i) = false.
Proof using. by destruct i. Qed.

Lemma user_field_all p v n (k : kstate S) : string p = Some v → Z.of_nat (length v) = n →
  user_field p n n k = Done (v, k).
Proof using.
  intros Hs Hl. unfold user_field, str. rewrite Hs. change (default [] (Some v)) with v.
  rewrite buf_read_Some by lia. cbn [of_option]. rewrite bind_ret, drop_0, take_ge by lia.
  rewrite buf_write_Some by (rewrite ?length_replicate; lia). cbn [of_option].
  rewrite Z2Nat.inj_0, take_0. cbn [app]. rewrite drop_ge by (rewrite length_replicate; lia).
  by rewrite app_nil_r.
Qed.

Lemma test_set_run i b p v : action p = item_set i → string p = Some v → Z.of_nat (length v) = item_len i →
  strLen p = item_len i → g_sVoipServiceStatus b ≠ 1 →
  ∀ k', edit_nvram mapped kmalloc (item_off i) v (b_k b) = Done (tt, k') →
  test (Some p) b = Done ((0, Some (with_result 0 p)), set_k k' b).
Proof using.
  intros Ha Hs Hl Hn Hv k' E. unfold ioctl_equipment_test. rewrite bind_gets, Ha.
  assert (Hf : user_field p (item_len i) (item_len i) (b_k b) = Done (v, b_k b)) by by apply user_field_all.
  assert (Hser : serial_len p = NVRAM_SERIAL_NUMBER_LEN ∨ i ≠ SerialNumber).
  { destruct i; [by right..|left]. unfold serial_len. by rewrite Hn. }
  destruct (item_actions i) as (->&->&_). rewrite (proj2 (Z.eqb_neq _ _) Hv). cbn [andb].
  unfold equipment_test. rewrite bind_get.
  destruct i; cbn [set_of item_off item_len] in *.
  3: destruct Hser as [->|?]; [|done].
  all: erewrite bind_Done; [done|]; unfold on_k; erewrite bind_Done; [|exact Hf]; by rewrite E.
Qed.

Lemma test_get_run len i b q dst f : ready len b → action q = item_get i → string q = Some dst →
  Z.of_nat (length dst) = item_len i → buf_read (nvram_of (b_k b)) (item_off i) (item_len i) = Some f →
  ∃ b', test (Some q) b = Done ((0, Some (with_result 0 (with_string f (with_strLen (item_len i) q)))), b') ∧
        b_k b' = b_k b.
Proof using Hmap.
  intros H Ha Hs Hl Hf. exists (set_k (b_k b) b). split; [|done].
  unfold ioctl_equipment_test. rewrite bind_gets, Ha.
  assert (En : nvram_field mapped (item_off i) (item_len i) (b_k b) = Done (f, b_k b)).
  { unfold nvram_field. mstep (nvram_data_run _ _ H). by rewrite Hf. }
  pose proof (buf_read_length _ _ _ _ Hf) as Lf.
  assert (Er : ∀ n (b1 : bstate S), reply_bytes f (with_strLen n q) b1 =
    Done ((0, Some (with_result 0 (with_string f (with_strLen n q)))), b1)).
  { intros n b1. unfold reply_bytes, store_string, str. cbn [string with_strLen]. rewrite Hs.
    change (default [] (Some dst)) with dst. rewrite buf_write_Some by lia.
    cbn [fmap option_fmap option_map of_option]. rewrite bind_ret, Z2Nat.inj_0, take_0. cbn [app].
    rewrite drop_ge by lia. by rewrite app_nil_r. }
  destruct (item_actions i) as (_&_&->&->). cbn [andb]. unfold equipment_test. rewrite bind_get.
  destruct i; cbn [get_of item_off item_len] in *; rewrite (bind_Done _ _ _ _ _ (on_k_run _ b _ _ En)); apply Er.
Qed.

(** The equipment test: setting the base MAC address, the board id or the
    serial number and asking for it again returns what was set; the NVRAM then
    has the checksum the start-up code asks for, its other fields are unchanged,
    and so is the rest of the flash. *)
Theorem equipment_round_trip len b i (v dst : list Z) p q :
  ready len b → g_sVoipServiceStatus b ≠ 1 → Forall is_byte v →
  Z.of_nat (length v) = item_len i → Z.of_nat (length dst) = item_len i →
  string p = Some v → action p = item_set i → strLen p = item_len i →
  string q = Some dst → action q = item_get i →
  ∃ b1 b2, test (Some p) b = Done ((0, Some (with_result 0 p)), b1) ∧
    test (Some q) b1 = Done ((0, Some (with_result 0 (with_string v (with_strLen (item_len i) q)))), b2) ∧
    nvram_intact (nvram_of (b_k b1)) ∧ ready len b2 ∧
    (∀ j : nat, Z.of_nat j < offsetof_ulCheckSum → ¬ item_off i ≤ Z.of_nat j < item_off i + item_len i →
       nvram_of (b_k b1) !! j = nvram_of (b_k b) !! j) ∧
    (∀ a, ¬ NVRAM_DATA_OFFSET ≤ a < NVRAM_DATA_OFFSET + sizeof_NVRAM_DATA → mem b1 a = mem b a).
Proof using Hmap.
  intros H Hv Hb Lv Ld Ps Pa Pl Qs Qa.
  assert (Hoff : 0 ≤ item_off i ∧ item_off i + item_len i ≤ offsetof_ulCheckSum) by (by destruct i).
  destruct (edit_nvram_run len (b_k b) (item_off i) v H Hb) as (k1&nv1&E1&Ew&En&H1&_&Hm); [lia|lia|].
  assert (L1 : Z.of_nat (length nv1) = sizeof_NVRAM_DATA).
  { rewrite (buf_write_length _ _ _ _ Ew). unfold nvram_of. by rewrite bytes_at_length. }
  assert (Hread : buf_read (put_checksum nv1) (item_off i) (item_len i) = Some v).
  { rewrite <- (buf_read_write_same _ _ _ _ Ew), <- Lv.
    pose proof (put_checksum_length nv1 L1) as Lc.
    unfold offsetof_ulCheckSum, sizeof_NVRAM_DATA in *.
    rewrite !buf_read_Some by lia. f_equal. apply list_eq. intros j.
    destruct (decide (j < length v)%nat) as [Hj|Hj].
    - rewrite !lookup_take_lt, !lookup_drop by lia. apply put_checksum_lookup; [|done].
      unfold offsetof_ulCheckSum. lia.
    - by rewrite !lookup_take_ge by lia. }
  rewrite <- En in Hread.
  destruct (test_get_run len i (set_k k1 b) q dst v H1 Qa Qs Ld Hread) as (b2&E2&Eb2).
  exists (set_k k1 b), b2. split; [by eapply test_set_run|]. split; [exact E2|].
  cbn [b_k set_k]. split; [rewrite En; by apply put_checksum_intact|]. split; [by rewrite Eb2|]. split; [|exact Hm].
  intros j Hj Hout. rewrite En, put_checksum_lookup by (done || unfold offsetof_ulCheckSum in *; lia).
  rewrite (buf_write_lookup _ _ _ _ _ Ew), decide_False by (rewrite Lv; done). done.
Qed.

(** ** Refusals *)

Lemma wait_idle_busy n b : (∀ i, (i ≤ n)%nat → s_iFlashWriteFlg (Nat.iter i others b) = FLASH_WRITING) →
  wait_idle others n b = Done (false, Nat.iter n others b).
Proof using.
  revert b. induction n as [|n IH]; intros b H; cbn [wait_idle]; rewrite bind_gets;
    rewrite (H 0%nat ltac:(lia) : s_iFlashWriteFlg b = _); cbn [Z.eqb FLASH_WRITING Pos.eqb]; [done|].
  rewrite bind_modify, IH.
  - by rewrite <- Nat.iter_succ_r.
  - intros i Hi. rewrite <- Nat.iter_succ_r. apply H. lia.
Qed.

(** [C39] A write request is refused, with -1 as value and as result and without
    touching the flash, when the lock is held at each of its ten tests (nine
    sleeps apart), and when a call is active and the request is one of the seven
    that are kept back during a call (the parameter areas and the like, not images); in
    the second case the lock is free afterwards. *)
Theorem flash_write_refused b p :
  ((∀ i, (i ≤ 9)%nat → s_iFlashWriteFlg (Nat.iter i others b) = FLASH_WRITING) →
    write (Some p) b = Done ((-1, Some (with_result (-1) p)), Nat.iter 9 others b)) ∧
  (s_iFlashWriteFlg b ≠ FLASH_WRITING → g_sVoipServiceStatus b = 1 →
   voip_guarded (enum_at flash_actions (action p)) = true →
    ∃ b', write (Some p) b = Done ((-1, Some (with_result (-1) p)), b') ∧
      b_k b' = b_k b ∧ s_iFlashWriteFlg b' = FLASH_IDLE).
Proof using.
  unfold ioctl_flash_write. split.
  - intros H. by rewrite (bind_Done _ _ _ _ _ (wait_idle_busy 9 b H)).
  - intros Hw Hv Hg. rewrite (bind_Done _ _ _ _ _ (wait_idle_now _ _ Hw)). cbn [negb].
    rewrite bind_modify, bind_gets. cbn [g_sVoipServiceStatus set_writing set_flags].
    rewrite Hv, Hg. cbn [Z.eqb Pos.eqb andb]. by eexists.
Qed.

(** ** Lost status values *)

(** Reading an image back reports success whatever happened: without a valid
    tag in the flash [kerSysGetFsImageFromFlash] fails and nothing is copied, but
    the request returns 0 with result 0. *)
Theorem image_read_status_lost b p dst k : string p = Some dst → action p = 3 ∨ action p = 4 →
  getTagFromPartition 1 (b_k b) = Done (None, k) →
  read (Some p) b = Done ((0, Some (with_result 0 p)), set_k k b).
Proof using.
  intros Hs Ha Ht. unfold ioctl_flash_read.
  assert (Ef : ∀ a, image_from_flash FB a (strLen p) (offset p) (b_k b) = Done ((-1, None), k)).
  { intros a. unfold image_from_flash. by mstep Ht. }
  assert (E : flash_read_action FB mapped kmalloc flash_init_ p b = Done ((0, p), set_k k b)).
  { unfold flash_read_action. destruct Ha as [-> | ->];
      [change (enum_at flash_actions 3) with (Some BCM_IMAGE_FS)
      |change (enum_at flash_actions 4) with (Some BCM_IMAGE_KERNEL)]; rewrite Hs;
      unfold read_to_string, kerSysGetFsImageFromFlash, kerSysGetKernelImageFromFlash;
      rewrite bind_assoc, (bind_Done _ _ _ _ _ (on_k_run _ b _ _ (Ef _))); done. }
  by rewrite (bind_Done _ _ _ _ _ E).
Qed.

(** A whole image of illegal length is refused, but the flag that permits a
    reset stays cleared; the CFE request sets it again. *)
Theorem illegal_whole_image_blocks_reset b p : action p = 5 → strLen p ≤ 0 →
  s_iFlashWriteFlg b ≠ FLASH_WRITING →
  ∃ b', write (Some p) b = Done ((-1, Some (with_result (-1) p)), b') ∧ g_iReset b' = 0 ∧ b_k b' = b_k b.
Proof using.
  intros Ha Hl Hw. unfold ioctl_flash_write. rewrite (bind_Done _ _ _ _ _ (wait_idle_now _ _ Hw)).
  cbn [negb]. rewrite bind_modify, bind_gets.
  assert (E : ∀ b1, flash_write_action FB mapped kmalloc top_device copy_ok p b1 = Done ((-1, p), set_reset_ok 0 b1)).
  { intros b1. unfold flash_write_action. rewrite Ha. change (enum_at flash_actions 5) with (Some BCM_IMAGE_WHOLE).
    cbn iota. rewrite bind_modify. by destruct (Z.leb_spec (strLen p) 0); [|lia]. }
  rewrite Ha. change (enum_at flash_actions 5) with (Some BCM_IMAGE_WHOLE). cbn [voip_guarded andb].
  rewrite (bind_Done _ _ _ _ _ (E _)). by eexists.
Qed.

(** In the PASSBY mode only NORM can be set; other changes are ignored, and
    the request reports success all the same. *)
Theorem passby_change_ignored b p : g_nHspaTrafficMode b = MODE_PASSBY →
  0 ≤ offset p < MODE_UNDEFINED →
  ∃ b', ioctl_set_traffic_mode (Some p) b = Done ((0, None), b') ∧
    g_nHspaTrafficMode b' = if offset p =? MODE_NORM then MODE_NORM else MODE_PASSBY.
Proof using.
  intros Hm Ho. unfold ioctl_set_traffic_mode, MODE_NONE.
  destruct (Z.ltb_spec (offset p) MODE_UNDEFINED); [|lia]. destruct (Z.leb_spec 0 (offset p)); [|lia].
  cbn [andb]. rewrite bind_get, Hm. destruct (Z.eqb_spec MODE_NORM (offset p)) as [E|E].
  - eexists. split; [reflexivity|]. cbn. by rewrite <- E.
  - eexists. split; [reflexivity|]. rewrite Hm. destruct (Z.eqb_spec (offset p) MODE_NORM); [congruence|done].
Qed.
End claims.

(** ** Writers that interleave *)

(** A process in the driver.  The kernel of this target is built without
    preemption and for one processor ([CONFIG_PREEMPT_NONE] of [96358GWV.config]):
    another process runs only where this one sleeps.  So the test that finds the
    lock free, the store that takes it and the test of the VoIP status are one
    step; a writer lets others run between two tests of the lock, inside the
    switch that writes the flash, and in the [__copy_to_user] in front of the
    release.  [Replying] holds the lock and writes nothing: it is the refusal
    during a call, or the end of a write. *)
Inductive phase : Type :=
  Outside | Waiting (tries : nat) | Writing | Replying (refused : bool) | Finished (refused : bool).

(** A request, with the action it asks for. *)
Inductive request : Type := FlashWriter (action : Z) | EquipmentTester (action : Z).

(** One step of a FLASH_WRITE request: the new value of [s_iFlashWriteFlg] and its
    phase.  [copied]: [copy_from_user] succeeded. *)
Definition writer_step (copied : bool) (voip action flg : Z) (ph : phase) : option (Z * phase) :=
  match ph with
  | Outside => Some (flg, if copied then Waiting 0 else Finished true)
  | Waiting n =>
      if FLASH_WRITING =? flg then
        if (10 <=? n + 1)%nat then Some (flg, Finished true) else Some (flg, Waiting (n + 1))
      else
        Some (FLASH_WRITING,
              if voip_guarded (enum_at flash_actions action) && (voip =? 1) then Replying true else Writing)
  | Writing => Some (flg, Replying false)
  | Replying r => Some (FLASH_IDLE, Finished r)
  | Finished _ => None
  end.

(** The equipment test writes the NVRAM without the lock. *)
Definition tester_step (copied : bool) (voip action flg : Z) (ph : phase) : option (Z * phase) :=
  match ph with
  | Outside =>
      Some (flg, if negb copied then Finished true
                 else match enum_at test_actions action with
                      | Some a => if test_guarded a then if voip =? 1 then Finished true else Writing
                                  else Finished false
                      | None => Finished false
                      end)
  | Writing => Some (flg, Finished false)
  | _ => None
  end.

Definition request_step (copied : bool) (voip : Z) (r : request) : Z → phase → option (Z * phase) :=
  match r with
  | FlashWriter a => writer_step copied voip a
  | EquipmentTester a => tester_step copied voip a
  end.

Record system : Type := { lock : Z; voip : Z; procs : list (request * phase) }.

Inductive interleaved : system → system → Prop :=
| process_step flg v ps i r ph flg' ph' copied :
    ps !! i = Some (r, ph) → request_step copied v r flg ph = Some (flg', ph') →
    interleaved {| lock := flg; voip := v; procs := ps |}
                {| lock := flg'; voip := v; procs := <[i := (r, ph')]> ps |}
| voip_changes flg v v' ps :
    interleaved {| lock := flg; voip := v; procs := ps |} {| lock := flg; voip := v'; procs := ps |}.

Definition all_outside (v : Z) (rs : list request) : system :=
  {| lock := FLASH_IDLE; voip := v; procs := (λ r, (r, Outside)) <$> rs |}.












(** The equipment test does not take part in the lock: a setting of it and a
    FLASH_WRITE request can both be rewriting the flash. *)
Theorem tester_ignores_lock :
  ∃ s, rtc interleaved (all_outside 0 [FlashWriter 1; EquipmentTester 0]) s ∧
       lock s = FLASH_WRITING ∧ procs s = [(FlashWriter 1, Writing); (EquipmentTester 0, Writing)].
Proof.
  eexists. split; [|split].
  - eapply rtc_l; [eapply (process_step _ _ _ 0 _ _ _ _ true); reflexivity|]. cbn.
    eapply rtc_l; [eapply (process_step _ _ _ 0 _ _ _ _ true); reflexivity|]. cbn.
    eapply rtc_l; [eapply (process_step _ _ _ 1 _ _ _ _ true); reflexivity|]. cbn. apply rtc_refl.
  - done.
  - done.
Qed.

(** ** Witnesses *)

#[local] Existing Instance demo_contract.

(** The board on the demonstration flash, idle. *)
Definition demo_board (k : kstate (cfi_state demo_chip)) (flg voip : Z) : bstate (cfi_state demo_chip) :=
  {| b_k := k; b_nv := None; b_gpio := all_high; b_pll := 0; s_iFlashWriteFlg := flg; g_iReset := 1;
     g_sVoipServiceStatus := voip; b_sWlanFlag := 0; g_nHspaTrafficMode := MODE_PASSBY;
     iHspaTrafficMode := MODE_PASSBY; g_nEquipTestMode := 0; eventmask := 0; b_wakeup := 0 |}.

Definition request_of (s : list Z) (a : Z) : BOARD_IOCTL_PARMS :=
  {| string := Some s; buf := None; strLen := Z.of_nat (length s); offset := 0; action := a; result := 7 |}.

Definition idle_board := demo_board (demo_kernel 1 demo_info) FLASH_IDLE 0.

Lemma ioctl_storage_round_trip_witness :
  ∃ b1 b2,
    ioctl_flash_write 0xBE000000 demo_mapped (λ _, true) (λ _, 0) true id (Some (request_of [1; 2; 3] 10)) idle_board
      = Done ((0, Some (with_result 0 (request_of [1; 2; 3] 10))), b1) ∧
    ioctl_flash_read 0xBE000000 demo_mapped (λ _, true) demo_flash_init (Some (request_of [0; 0; 0] 10)) b1
      = Done ((0, Some (with_result 0 (request_of [1; 2; 3] 10))), b2).
Proof.
  destruct (ioctl_storage_round_trip 0xBE000000 demo_dev (λ _, true) demo_mapped (λ _, 0) demo_flash_init true id
              65536 idle_board Variable_ [1; 2; 3] [0; 0; 0] (request_of [1; 2; 3] 10) (request_of [0; 0; 0] 10))
    as (b1&b2&E1&_&E2&_).
  - exact demo_storage_ready.
  - discriminate.
  - discriminate.
  - discriminate.
  - by repeat constructor.
  - reflexivity.
  - reflexivity.
  - reflexivity.
  - reflexivity.
  - cbn. lia.
  - vm_compute. discriminate.
  - reflexivity.
  - reflexivity.
  - reflexivity.
  - reflexivity.
  - exists b1, b2. split; [exact E1|exact E2].
Defined.

Lemma demo_map_first : ∀ (s : cfi_state demo_chip) a, fc_ok (d := demo_dev) s → 0 ≤ a < fc_size (d := demo_dev) 0 →
  demo_mapped s (u32 (0xBE000000 + a)) = fc_mem (d := demo_dev) s a.
Proof.
  intros s a _ Ha. change (fc_size (d := demo_dev) 0) with 65536 in Ha. unfold demo_mapped.
  rewrite u32_small by lia. replace (0xBE000000 + a - 0xBE000000) with a by lia. reflexivity.
Qed.

Lemma equipment_round_trip_witness :
  let mac := [0; 24; 130; 1; 2; 3] in
  ∃ b1 b2,
    ioctl_equipment_test demo_mapped (λ _, true) 0 (Some (request_of mac 0)) idle_board
      = Done ((0, Some (with_result 0 (request_of mac 0))), b1) ∧
    ioctl_equipment_test demo_mapped (λ _, true) 0 (Some (request_of (replicate 6 0) 1)) b1
      = Done ((0, Some (with_result 0 (request_of mac 1))), b2).
Proof.
  destruct (equipment_round_trip 0xBE000000 demo_dev (λ _, true) demo_mapped 0 demo_map_first
              65536 idle_board BaseMac [0; 24; 130; 1; 2; 3] (replicate 6 0)
              (request_of [0; 24; 130; 1; 2; 3] 0) (request_of (replicate 6 0) 1)) as (b1&b2&E1&E2&_).
  - exact demo_storage_ready.
  - discriminate.
  - by repeat constructor.
  - reflexivity.
  - reflexivity.
  - reflexivity.
  - reflexivity.
  - reflexivity.
  - reflexivity.
  - reflexivity.
  - exists b1, b2. split; [exact E1|exact E2].
Defined.

Lemma flash_write_refused_witness :
  let p := request_of [1] 0 in
  let w := ioctl_flash_write 0xBE000000 demo_mapped (λ _, true) (λ _, 0) true id (Some p) in
  w (demo_board (demo_kernel 1 demo_info) FLASH_WRITING 0)
    = Done ((-1, Some (with_result (-1) p)), demo_board (demo_kernel 1 demo_info) FLASH_WRITING 0) ∧
  ∃ b', w (demo_board (demo_kernel 1 demo_info) FLASH_IDLE 1) = Done ((-1, Some (with_result (-1) p)), b').
Proof.
  split.
  - apply (flash_write_refused 0xBE000000 (λ _, true) demo_mapped (λ _, 0) true id
             (demo_board (demo_kernel 1 demo_info) FLASH_WRITING 0) (request_of [1] 0)).
    intros i _. induction i as [|i IH]; [reflexivity|exact IH].
  - destruct (flash_write_refused 0xBE000000 (λ _, true) demo_mapped (λ _, 0) true id
                (demo_board (demo_kernel 1 demo_info) FLASH_IDLE 1) (request_of [1] 0)) as [_ H].
    destruct H as (b'&E&_).
    + discriminate.
    + reflexivity.
    + reflexivity.
    + exists b'. exact E.
Defined.

Lemma illegal_whole_image_blocks_reset_witness :
  ∃ b', ioctl_flash_write 0xBE000000 demo_mapped (λ _, true) (λ _, 0) true id (Some (request_of [] 5)) idle_board
          = Done ((-1, Some (with_result (-1) (request_of [] 5))), b') ∧ g_iReset b' = 0.
Proof.
  destruct (illegal_whole_image_blocks_reset 0xBE000000 (λ _, true) demo_mapped (λ _, 0) true id idle_board
              (request_of [] 5)) as (b'&E&H&_).
  - reflexivity.
  - cbn. lia.
  - discriminate.
  - exists b'. split; [exact E|exact H].
Defined.

Lemma passby_change_ignored_witness :
  ∃ b', ioctl_set_traffic_mode (Some (request_of [] 0)) idle_board = Done ((0, None), b') ∧
        g_nHspaTrafficMode b' = MODE_PASSBY.
Proof.
  destruct (passby_change_ignored idle_board (request_of [] 0)) as (b'&E&H).
  - reflexivity.
  - cbn. unfold MODE_UNDEFINED. lia.
  - exists b'. split; [exact E|exact H].
Defined.


(** The demonstration flash holds no tag. *)
Lemma image_read_status_lost_witness :
  ∃ b', ioctl_flash_read 0xBE000000 demo_mapped (λ _, true) demo_flash_init (Some (request_of [0; 0] 3)) idle_board
          = Done ((0, Some (with_result 0 (request_of [0; 0] 3))), b').
Proof.
  assert (H : match getTagFromPartition 1 (demo_kernel 1 demo_info) with Done (None, _) => true | _ => false end = true)
    by (vm_compute; reflexivity).
  destruct (getTagFromPartition 1 (demo_kernel 1 demo_info)) as [[[t|] k]| | |] eqn:E; try discriminate H.
  exists (set_k k idle_board).
  apply (image_read_status_lost 0xBE000000 (λ _, true) demo_mapped demo_flash_init idle_board
           (request_of [0; 0] 3) [0; 0] k).
  - reflexivity.
  - left. reflexivity.
  - exact E.
Defined.
