(* ===== verification/Restore.v ===== *)
(** * Restoring the default settings ([restore_do_tasklet] of [board.c])

    What a long press of the reset button does to the flash: the settings are
    cleared and a number of marks are left in the avail area for the programs
    that start next. *)

From stdpp Require Import base numbers list sets strings.
From Stdlib Require Import ZArith Lia Bool.
From S2P Require Import Prelude FlashApi CfiGeometry KerFlash FlashAreas FlashClaims RamFlash ScratchPad BoardIoctl.
From S2P Require Import CfiTypes CfiFlash AmdFlash AmdChip Gpio IoctlClaims.

Definition FAILURE_TAG_LEN : Z := 10.
Definition FLASH_VAR_START : Z := 0.
Definition TELNET_TAG_LEN : Z := 8.
Definition PING_TAG_LEN : Z := 8.
Definition CFG_STATE_DATA_START : Z := 264.
Definition UPG_INFO_STATUS : Z := 8.
Definition CWMP_STATE_DATA_LEN : Z := 2040.
Definition WLAN_PARAMETERS_OFFSET : Z := CFG_STATE_DATA_START + CWMP_STATE_DATA_LEN.
Definition WLAN_WEP_KEY_LEN : Z := 32.
Definition WLAN_WPA_PSK_LEN : Z := 64.
Definition RESTORE_FLAG_LEN : Z := 8.
Definition CWMP_PARA_OFFSET : Z := 8 * 1024.
Definition CWMP_PARA_LEN : Z := 3072.
Definition CWMP_PARA_RESET : Z := 8.
Definition GATEWAY_ACTIVATION_INFO : Z := CFG_STATE_DATA_START + UPG_INFO_STATUS + UPG_INFO_STATUS.
Definition GATEWAY_ACTIVATION_INFO_LEN : Z := 2.
Definition FTTX_WANMODE_INFO : Z := GATEWAY_ACTIVATION_INFO + GATEWAY_ACTIVATION_INFO_LEN.
Definition FTTX_WANMODE_INFO_LEN : Z := 2.
Definition CWMP_LOAD_FAIL_INFO : Z := FTTX_WANMODE_INFO + FTTX_WANMODE_INFO_LEN.
Definition CWMP_LOAD_FAIL_INFO_LEN : Z := 128.
Definition SMS_EASYRESET_FLAG_START : Z := CWMP_LOAD_FAIL_INFO + CWMP_LOAD_FAIL_INFO_LEN.
Definition SMS_EASYRESET_FLAG_LEN : Z := 4.
Definition IMSIMSISDNPAIR_OFFSET : Z := SMS_EASYRESET_FLAG_START + SMS_EASYRESET_FLAG_LEN.
Definition IFC_IMSIMSISDNPAIR_LEN : Z := 48.
Definition CFG_CHG_FLAG_START : Z := CWMP_PARA_OFFSET + CWMP_PARA_LEN + 16.
Definition CFG_CHG_SIG_LEN : Z := 4.
Definition CFG_CHG_FLAG_LEN : Z := 12.
Definition PARTCFG_WEBPROTECTION_REMINDER_CHG : Z := CFG_CHG_FLAG_START + CFG_CHG_SIG_LEN + CFG_CHG_FLAG_LEN.
Definition PARTCFG_WEBPROTECTION_REMINDER_LEN : Z := 4.
Definition IFC_PIN_PASSWORD_LEN : Z := 16.
Definition PINCODE_OFFSET : Z := 80.

(** A string literal with its NUL. *)
Definition literal (s : String.string) : list Z := cstr s ++ [0].

(** [strstr(s, t) != NULL] for strings without their NUL. *)
Fixpoint strstr (s t : list Z) : bool :=
  bool_decide (take (length t) s = t) ||
  match s with [] => false | _ :: s' => strstr s' t end.

Section restore.
Context {S : Type} (kmalloc : nat → bool).
(** [rodata]: the bytes that follow the literal ["0"] in memory. *)
Context (rodata : list Z).
Abbreviation ks := (kstate S).

(** The failure mark of an upgrade is set back.  The buffer is searched as a
    string: without a NUL in it the search leaves the buffer. *)
Definition clear_upgrade_flag : M ks unit :=
  '(iRet, bytes) ← kerSysAvailGet kmalloc FAILURE_TAG_LEN 0;
  if iRet =? -1 then mret tt
  else
    cUpgradeFlags ← of_option bytes;
    if bool_decide (0 ∈ cUpgradeFlags) then
      let flags := c_string cUpgradeFlags in
      if strstr flags (cstr "5aa5a55a"%string) && negb (bool_decide (flags = cstr "5aa5a55a0"%string))
      then kerSysAvailSet kmalloc (literal "5aa5a55a0"%string) FAILURE_TAG_LEN 0;; mret tt
      else mret tt
    else fault.

(** [kmalloc] without a retry; the buffer is never freed. *)
Definition plain_kmalloc (n : Z) : M ks (list Z) := λ k,
  if kmalloc (k_calls k)
  then Done (replicate (Z.to_nat n) 0, set_alloc (Datatypes.S (k_calls k)) (k_live k + 1) k)
  else Fault.

(** The calls of [kerSysAvailSet] in order: data, length, offset. *)
Definition restore_marks : list (list Z * Z * Z) :=
  let pcBuf := replicate (Z.to_nat CWMP_PARA_LEN) 0 in
  let pinTemp := replicate (Z.to_nat IFC_PIN_PASSWORD_LEN) 0xff in
  let zero := literal "0"%string ++ rodata in
  let acTmp := replicate 48 0 in
  [ (pinTemp, IFC_PIN_PASSWORD_LEN, PINCODE_OFFSET);
    (literal "resdeft"%string, RESTORE_FLAG_LEN, WLAN_PARAMETERS_OFFSET + WLAN_WEP_KEY_LEN + WLAN_WPA_PSK_LEN);
    (literal "resetok"%string, UPG_INFO_STATUS, CFG_STATE_DATA_START + UPG_INFO_STATUS);
    (literal "restore"%string, TELNET_TAG_LEN, FLASH_VAR_START + FAILURE_TAG_LEN);
    (literal "resping"%string, PING_TAG_LEN, FLASH_VAR_START + FAILURE_TAG_LEN + TELNET_TAG_LEN);
    (pcBuf, CWMP_PARA_LEN, CWMP_PARA_OFFSET);
    (literal "HGReset"%string, CWMP_PARA_RESET, CWMP_PARA_OFFSET + CWMP_PARA_LEN);
    (zero, GATEWAY_ACTIVATION_INFO_LEN, GATEWAY_ACTIVATION_INFO);
    (zero, CFG_CHG_SIG_LEN, CFG_CHG_FLAG_START);
    (zero, CFG_CHG_FLAG_LEN, CFG_CHG_FLAG_START + CFG_CHG_SIG_LEN);
    (zero, PARTCFG_WEBPROTECTION_REMINDER_LEN, PARTCFG_WEBPROTECTION_REMINDER_CHG);
    (acTmp, IFC_IMSIMSISDNPAIR_LEN, IMSIMSISDNPAIR_OFFSET);
    (literal "0"%string ++ drop 2 acTmp, SMS_EASYRESET_FLAG_LEN, SMS_EASYRESET_FLAG_START) ].

Fixpoint avail_sets (l : list (list Z * Z * Z)) : M ks unit :=
  match l with
  | [] => mret tt
  | (data, n, off) :: l' => kerSysAvailSet kmalloc data n off;; avail_sets l'
  end.

Definition restore_flash : M ks unit :=
  kerSysAvailSet kmalloc (literal "resdeft"%string) 8 2400;;
  kerSysPersistentClear kmalloc;;
  kerSysPsiBackupClear kmalloc;;
  kerSysScratchPadClearAll kmalloc;;
  clear_upgrade_flag;;
  plain_kmalloc CWMP_PARA_LEN;;
  avail_sets restore_marks.

Definition restore_do_tasklet : M (bstate S) unit :=
  on_k restore_flash;;
  modify (λ b, set_flags (s_iFlashWriteFlg b) (g_iReset b) 1 b);;
  modify (λ b, set_events (eventmask b) 1
    {| b_k := b_k b; b_nv := b_nv b; b_gpio := b_gpio b; b_pll := b_pll b;
       s_iFlashWriteFlg := s_iFlashWriteFlg b; g_iReset := g_iReset b;
       g_sVoipServiceStatus := g_sVoipServiceStatus b; b_sWlanFlag := 2;
       g_nHspaTrafficMode := g_nHspaTrafficMode b; iHspaTrafficMode := iHspaTrafficMode b;
       g_nEquipTestMode := g_nEquipTestMode b; eventmask := eventmask b; b_wakeup := b_wakeup b |}).
End restore.

(** ** The effect on the flash *)

(** The contents after the marks [l] of an avail area at [base]. *)
Definition marked (base : Z) (l : list (list Z * Z * Z)) (c : Z → Z) : Z → Z :=
  foldl (λ c '(data, n, off), stored c (base + off) (take (Z.to_nat n) data)) c l.

(** The range of a mark and ranges without a common byte. *)
Definition mark_range (m : list Z * Z * Z) : Z * Z := let '(_, n, off) := m in (off, off + n).

Definition no_overlap (r r' : Z * Z) : bool := (r.2 <=? r'.1) || (r'.2 <=? r.1).

Fixpoint pairwise_apart (l : list (Z * Z)) : bool :=
  match l with [] => true | r :: l' => forallb (no_overlap r) l' && pairwise_apart l' end.

(** A mark with its data inside an area of [room] bytes. *)
Definition mark_fits (room : Z) (m : list Z * Z * Z) : Prop :=
  let '(data, n, off) := m in
  0 ≤ off ∧ 0 ≤ n ∧ off + n ≤ room ∧ n ≤ Z.of_nat (length data) ∧ Forall is_byte data.

Lemma marked_ext base l : ∀ c c', (∀ x, c x = c' x) → ∀ x, marked base l c x = marked base l c' x.
Proof.
  induction l as [|[[data n] off] l IH]; intros c c' E x; [apply E|].
  apply IH. intros y. unfold stored. by rewrite E.
Qed.

Lemma marked_out base room l : Forall (mark_fits room) l → ∀ c x,
  Forall (λ m, ¬ (mark_range m).1 ≤ x - base < (mark_range m).2) l → marked base l c x = c x.
Proof.
  induction 1 as [|[[data n] off] l (Ho&Hn&_&Hl&_) _ IH]; intros c x Hx; [done|].
  apply Forall_cons in Hx as [Hx0 Hx]. cbn in Hx0. unfold marked in *. cbn [foldl]. rewrite IH by done.
  apply stored_out. rewrite length_take. lia.
Qed.

Lemma marked_in base room l : Forall (mark_fits room) l → pairwise_apart (map mark_range l) = true →
  ∀ c data n off, (data, n, off) ∈ l →
  bytes_at (marked base l c) (base + off) (Z.to_nat n) = take (Z.to_nat n) data.
Proof.
  induction 1 as [|m l Hm Hl IH]; intros Hp c data n off Hin; [by apply elem_of_nil in Hin|].
  cbn [map pairwise_apart] in Hp. apply andb_true_iff in Hp as [Ha Hp].
  apply elem_of_cons in Hin as [<-|Hin].
  - destruct Hm as (Ho&Hn&_&Hd&_).
    change (marked base (_ :: l) c) with (marked base l (stored c (base + off) (take (Z.to_nat n) data))).
    erewrite bytes_at_ext; cycle 1.
    { intros x Hx. apply (marked_out base room l Hl). apply Forall_forall. intros m' Hm'.
      rewrite forallb_forall in Ha. specialize (Ha (mark_range m')). unfold no_overlap in Ha.
      rewrite orb_true_iff, !Z.leb_le in Ha. cbn [mark_range fst snd] in Ha.
      assert (In (mark_range m') (map mark_range l)) as Hi%Ha by (by apply in_map, list_elem_of_In). lia. }
    assert (E : Z.to_nat n = length (take (Z.to_nat n) data)) by (rewrite length_take; lia).
    transitivity (bytes_at (stored c (base + off) (take (Z.to_nat n) data)) (base + off)
                    (length (take (Z.to_nat n) data))); [by rewrite <- E|apply bytes_at_stored].
  - destruct m as [[data' n'] off']. by apply (IH Hp).
Qed.

Section proofs.
Context {S : Type} (FB : Z) (d : flash_device_info_t S) {C : FlashContract FB d}.
Context (kmalloc : nat → bool) (rodata : list Z).
Implicit Types k : kstate S.
Abbreviation ready := (storage_ready FB d kmalloc).
Abbreviation addr a := (area_addr FB d a).

Lemma avail_length len k : ready len k → area_length (flash_avail (fInfo k)) = AVAIL_MAX_LEN.
Proof. intros H. apply (pl_length _ _ _ _ _ (lo_avl _ _ _ _ (sr_layout _ _ _ _ _ H))). Qed.

Lemma avail_set_run len k data n off : ready len k → mark_fits AVAIL_MAX_LEN (data, n, off) →
  ∃ k', kerSysAvailSet kmalloc data n off k = Done (0, k') ∧
    kstep FB d k (stored (fc_mem (k_flash k)) (addr (flash_avail (fInfo k)) + off) (take (Z.to_nat n) data))
      (k_live k) k'.
Proof.
  intros H (Ho&Hn&Hr&Hl&Hb). pose proof (avail_length len k H) as E.
  unfold kerSysAvailSet. rewrite bind_gets. apply k_area_set;
    [apply (sr_ok _ _ _ _ _ H)|by apply (ready_area FB d kmalloc len k Avail H)
    |by eapply ready_memory|lia..|done].
Qed.

Lemma avail_sets_run len l : Forall (mark_fits AVAIL_MAX_LEN) l → ∀ k, ready len k →
  ∃ k', avail_sets kmalloc l k = Done (tt, k') ∧
    kstep FB d k (marked (addr (flash_avail (fInfo k))) l (fc_mem (k_flash k))) (k_live k) k'.
Proof.
  induction 1 as [|[[data n] off] l Hm _ IH]; intros k H.
  { exists k. split; [done|]. apply kstep_refl, H. }
  destruct (avail_set_run len k data n off H Hm) as (k1&E1&S1).
  destruct (IH k1 (ready_step _ _ _ _ _ _ _ _ H S1)) as (k2&E2&S2).
  cbn [avail_sets]. mstep E1. exists k2. split; [exact E2|].
  pose proof (kstep_trans _ _ _ _ _ _ _ _ _ S1 S2) as S3. rewrite (st_live _ _ _ _ _ _ S1) in S3.
  rewrite (st_fInfo _ _ _ _ _ _ S1) in S3. eapply kstep_ext; [|exact S3]. intros x.
  change (marked ?b (_ :: l) ?c) with (marked b l (stored c (b + off) (take (Z.to_nat n) data))).
  apply marked_ext. apply S1.
Qed.

(** Clearing an area. *)
Definition wiped (a : area) (c : Z → Z) : Z → Z :=
  stored c (addr a) (replicate (Z.to_nat (area_length a)) 0).

Definition inside (a : area) (x : Z) : Prop := addr a ≤ x < addr a + area_length a.

Lemma wiped_in a c x : inside a x → wiped a c x = 0.
Proof.
  intros H. unfold wiped, stored, inside in *. rewrite length_replicate, decide_True by lia.
  rewrite nth_lookup, lookup_replicate_2 by lia. done.
Qed.

Lemma wiped_ext a c c' x : c x = c' x → wiped a c x = wiped a c' x.
Proof. unfold wiped, stored. by case_decide. Qed.

Lemma wiped_zero a c x : c x = 0 → wiped a c x = 0.
Proof.
  intros H. unfold wiped, stored. case_decide as Hd; [|done]. rewrite length_replicate in Hd.
  rewrite nth_lookup, lookup_replicate_2 by lia. done.
Qed.

Lemma wiped_out a c x : 0 ≤ area_length a → ¬ inside a x → wiped a c x = c x.
Proof. intros. apply stored_out. rewrite length_replicate. unfold inside in *. lia. Qed.

(** The areas that lose their contents. *)
Definition settings (i : FLASH_ADDR_INFO) : list area :=
  [flash_persistent i; flash_psi_backup i; flash_scratch_pad i].

Lemma settings_ok len k a : ready len k → 0 < len → a ∈ settings (fInfo k) →
  area_ok FB d a ∧ 0 < area_length a ∧
  (addr a + area_length a ≤ addr (flash_avail (fInfo k)) ∨
   addr (flash_avail (fInfo k)) + AVAIL_MAX_LEN ≤ addr a).
Proof.
  intros H Hlen Hin. pose proof (avail_length len k H) as Ha.
  pose proof (ready_area FB d kmalloc len k Avail H) as Hok. cbn [store_area] in Hok.
  destruct (sr_layout _ _ _ _ _ H) as [P1 P2 P3 P4 P5 P6 _ _].
  pose proof (stores_disjoint FB d kmalloc len k Persistent Avail H ltac:(done)) as D1.
  pose proof (stores_disjoint FB d kmalloc len k PsiBackup Avail H ltac:(done)) as D2.
  cbn [store_area] in D1, D2. rewrite Ha in D1, D2.
  repeat (apply elem_of_cons in Hin as [->|Hin]); [..|by apply elem_of_nil in Hin].
  - split; [apply P1|]. rewrite (pl_length _ _ _ _ _ P1) in *. done.
  - split; [apply P2|]. rewrite (pl_length _ _ _ _ _ P2) in *. done.
  - split; [apply P6|]. rewrite (pl_length _ _ _ _ _ P6). split; [done|left].
    rewrite <- (pl_length _ _ _ _ _ P6). apply blocks_apart; [apply P6|done|].
    pose proof (pl_end _ _ _ _ _ P6). pose proof (pl_end _ _ _ _ _ P5).
    pose proof (pl_number _ _ _ _ _ P5). lia.
Qed.

Lemma settings_clear len k a : ready len k → 0 < len → a ∈ settings (fInfo k) →
  ∃ k', area_clear kmalloc a k = Done (0, k') ∧
    kstep FB d k (wiped a (fc_mem (k_flash k))) (k_live k) k'.
Proof.
  intros H Hlen Hin. destruct (settings_ok len k a H Hlen Hin) as (Ha&Hl&_).
  apply k_area_clear; [apply (sr_ok _ _ _ _ _ H)|done|by eapply ready_memory|lia].
Qed.

(** The failure mark of an upgrade, as [restore_do_tasklet] sets it back. *)
Definition failure_marked (tag : list Z) : bool :=
  let flags := c_string tag in
  strstr flags (cstr "5aa5a55a"%string) && negb (bool_decide (flags = cstr "5aa5a55a0"%string)).

Definition upgrade_marks (tag : list Z) : list (list Z * Z * Z) :=
  if failure_marked tag then [(literal "5aa5a55a0"%string, FAILURE_TAG_LEN, 0)] else [].

Definition upgrade_tag k : list Z :=
  bytes_at (fc_mem (k_flash k)) (addr (flash_avail (fInfo k))) (Z.to_nat FAILURE_TAG_LEN).

Lemma upgrade_marks_fit tag : Forall (mark_fits AVAIL_MAX_LEN) (upgrade_marks tag).
Proof.
  unfold upgrade_marks. case_match; [|done]. apply Forall_singleton.
  split; [done|]. split; [done|]. split; [done|]. split; [done|]. by repeat constructor.
Qed.

Lemma upgrade_tag_read len k : ready len k →
  ∃ k', kerSysAvailGet kmalloc FAILURE_TAG_LEN 0 k = Done ((0, Some (upgrade_tag k)), k') ∧
    kstep FB d k (fc_mem (k_flash k)) (k_live k) k'.
Proof.
  intros H. pose proof (avail_length len k H) as Ha.
  destruct (k_area_get FB d kmalloc k (flash_avail (fInfo k)) (area_length (flash_avail (fInfo k)))
              FAILURE_TAG_LEN 0) as (k1&E1&S1);
    [apply (sr_ok _ _ _ _ _ H)|apply (ready_area FB d kmalloc len k Avail H)
    |by eapply ready_memory|rewrite ?Ha; unfold FAILURE_TAG_LEN, AVAIL_MAX_LEN; lia..|].
  rewrite Z.add_0_r in E1. fold (upgrade_tag k) in E1.
  exists k1. split; [|done]. unfold kerSysAvailGet. by rewrite bind_gets.
Qed.

Lemma clear_upgrade_run len k : ready len k → 0 ∈ upgrade_tag k →
  ∃ k', clear_upgrade_flag kmalloc k = Done (tt, k') ∧
    kstep FB d k (marked (addr (flash_avail (fInfo k))) (upgrade_marks (upgrade_tag k))
                    (fc_mem (k_flash k))) (k_live k) k'.
Proof.
  intros H H0. unfold clear_upgrade_flag.
  destruct (upgrade_tag_read len k H) as (k1&E&S1).
  mstep E. cbn [of_option]. change (0 =? -1) with false. cbv beta iota. rewrite bind_ret, (bool_decide_true _ H0).
  destruct (avail_sets_run len _ (upgrade_marks_fit (upgrade_tag k)) k1
              (ready_step _ _ _ _ _ _ _ _ H S1)) as (k2&E2&S2).
  exists k2. split.
  - revert E2. unfold upgrade_marks, failure_marked. by case_match.
  - pose proof (kstep_trans _ _ _ _ _ _ _ _ _ S1 S2) as S3.
    rewrite (st_live _ _ _ _ _ _ S1), (st_fInfo _ _ _ _ _ _ S1) in S3.
    eapply kstep_ext; [|exact S3]. apply marked_ext, S1.
Qed.

(** The contents after the whole sequence. *)
Definition restored (i : FLASH_ADDR_INFO) (tag : list Z) (c : Z → Z) : Z → Z :=
  marked (addr (flash_avail i)) (upgrade_marks tag ++ restore_marks rodata)
    (wiped (flash_scratch_pad i) (wiped (flash_psi_backup i) (wiped (flash_persistent i)
       (marked (addr (flash_avail i)) [(literal "resdeft"%string, 8, 2400)] c)))).

Lemma restored_tag len k c : ready len k → 0 < len →
  (∀ x, c x = wiped (flash_scratch_pad (fInfo k)) (wiped (flash_psi_backup (fInfo k))
          (wiped (flash_persistent (fInfo k)) (marked (addr (flash_avail (fInfo k)))
             [(literal "resdeft"%string, 8, 2400)] (fc_mem (k_flash k))))) x) →
  bytes_at c (addr (flash_avail (fInfo k))) (Z.to_nat FAILURE_TAG_LEN) = upgrade_tag k.
Proof.
  intros H Hlen Hc. apply bytes_at_ext. intros x Hx. rewrite Hc.
  assert (Hs : ∀ a, a ∈ settings (fInfo k) → 0 ≤ area_length a ∧ ¬ inside a x).
  { intros a Ha. destruct (settings_ok len k a H Hlen Ha) as (_&?&?). unfold inside.
    unfold FAILURE_TAG_LEN, AVAIL_MAX_LEN in *. lia. }
  rewrite !wiped_out by (apply Hs; unfold settings; set_solver).
  apply stored_out. change (length _) with 8%nat. unfold FAILURE_TAG_LEN in *. lia.
Qed.

(** The operations again, as steps of a longer run that started in [k] and has
    reached the contents [c]. *)
Lemma settings_clear_from len k c l k1 a : ready len k → 0 < len → kstep FB d k c l k1 →
  a ∈ settings (fInfo k) →
  ∃ k2, area_clear kmalloc a k1 = Done (0, k2) ∧ kstep FB d k (wiped a c) l k2.
Proof.
  intros H Hlen T Ha. pose proof (st_fInfo _ _ _ _ _ _ T) as F.
  destruct (settings_clear len k1 a (ready_step _ _ _ _ _ _ _ _ H T) Hlen) as (k2&E&S2); [by rewrite F|].
  exists k2. split; [done|]. eapply kstep_ext; [|eapply kstep_trans; [exact T|]].
  - intros x. reflexivity.
  - rewrite <- (st_live _ _ _ _ _ _ T). eapply kstep_ext; [|exact S2].
    intros x. unfold wiped, stored. by rewrite (st_mem _ _ _ _ _ _ T).
Qed.

Lemma avail_sets_from len k c l k1 marks : ready len k → kstep FB d k c l k1 →
  Forall (mark_fits AVAIL_MAX_LEN) marks →
  ∃ k2, avail_sets kmalloc marks k1 = Done (tt, k2) ∧
    kstep FB d k (marked (addr (flash_avail (fInfo k))) marks c) l k2.
Proof.
  intros H T Hm. destruct (avail_sets_run len marks Hm k1 (ready_step _ _ _ _ _ _ _ _ H T)) as (k2&E&S2).
  exists k2. split; [done|]. eapply kstep_trans; [exact T|].
  rewrite <- (st_live _ _ _ _ _ _ T), <- (st_fInfo _ _ _ _ _ _ T). eapply kstep_ext; [|exact S2].
  apply marked_ext, T.
Qed.

Lemma clear_upgrade_from len k c l k1 tag : ready len k → kstep FB d k c l k1 →
  bytes_at c (addr (flash_avail (fInfo k))) (Z.to_nat FAILURE_TAG_LEN) = tag → 0 ∈ tag →
  ∃ k2, clear_upgrade_flag kmalloc k1 = Done (tt, k2) ∧
    kstep FB d k (marked (addr (flash_avail (fInfo k))) (upgrade_marks tag) c) l k2.
Proof.
  intros H T Ht H0.
  assert (Et : upgrade_tag k1 = tag).
  { rewrite <- Ht. unfold upgrade_tag. rewrite (st_fInfo _ _ _ _ _ _ T). apply bytes_at_ext. intros; apply T. }
  rewrite <- Et in H0.
  destruct (clear_upgrade_run len k1 (ready_step _ _ _ _ _ _ _ _ H T) H0) as (k2&E&S2).
  exists k2. split; [done|]. eapply kstep_trans; [exact T|].
  rewrite <- (st_live _ _ _ _ _ _ T), <- (st_fInfo _ _ _ _ _ _ T), <- Et. eapply kstep_ext; [|exact S2].
  apply marked_ext, T.
Qed.

(** The part of the sequence in front of the failure mark. *)
Lemma restore_clears len k (rest : M (kstate S) unit) : ready len k → 0 < len →
  ∃ k', (kerSysAvailSet kmalloc (literal "resdeft"%string) 8 2400;; kerSysPersistentClear kmalloc;;
         kerSysPsiBackupClear kmalloc;; kerSysScratchPadClearAll kmalloc;; rest) k = rest k' ∧
    kstep FB d k (wiped (flash_scratch_pad (fInfo k)) (wiped (flash_psi_backup (fInfo k))
       (wiped (flash_persistent (fInfo k)) (marked (addr (flash_avail (fInfo k)))
          [(literal "resdeft"%string, 8, 2400)] (fc_mem (k_flash k)))))) (k_live k) k'.
Proof.
  intros H Hlen.
  destruct (avail_set_run len k (literal "resdeft"%string) 8 2400 H) as (k1&E1&T1).
  { split; [done|]. split; [done|]. split; [done|]. split; [done|]. by repeat constructor. }
  mstep E1. unfold kerSysPersistentClear, kerSysPsiBackupClear, kerSysScratchPadClearAll.
  destruct (settings_clear_from len k _ _ k1 (flash_persistent (fInfo k)) H Hlen T1) as (k2&E2&T2);
    [unfold settings; set_solver|].
  rewrite bind_assoc, bind_gets, (st_fInfo _ _ _ _ _ _ T1). mstep E2.
  destruct (settings_clear_from len k _ _ k2 (flash_psi_backup (fInfo k)) H Hlen T2) as (k3&E3&T3);
    [unfold settings; set_solver|].
  rewrite bind_assoc, bind_gets, (st_fInfo _ _ _ _ _ _ T2). mstep E3.
  destruct (settings_clear_from len k _ _ k3 (flash_scratch_pad (fInfo k)) H Hlen T3) as (k4&E4&T4);
    [unfold settings; set_solver|].
  rewrite bind_assoc, bind_gets, (st_fInfo _ _ _ _ _ _ T3). mstep E4.
  by exists k4.
Qed.

(** A defect at the boundary: when the first ten bytes of the avail area hold
    no NUL, as on a flash whose avail area is erased, the search for the failure
    mark runs past the end of its buffer. *)
Theorem restore_reads_past_mark len (b : bstate S) :
  ready len (b_k b) → 0 < len → 0 ∉ upgrade_tag (b_k b) → restore_do_tasklet kmalloc rodata b = Fault.
Proof.
  intros H Hlen H0.
  assert (E : restore_flash kmalloc rodata (b_k b) = Fault).
  { unfold restore_flash. edestruct (restore_clears len (b_k b)) as (k4&E4&T4); [done|done|]. rewrite E4.
    assert (Et : upgrade_tag k4 = upgrade_tag (b_k b)).
    { unfold upgrade_tag at 1. rewrite (st_fInfo _ _ _ _ _ _ T4). apply (restored_tag len); [done|done|apply T4]. }
    pose proof (ready_step _ _ _ _ _ _ _ _ H T4) as H4.
    destruct (upgrade_tag_read len k4 H4) as (k5&E5&_). unfold clear_upgrade_flag.
    rewrite bind_assoc. mstep E5. cbn [of_option]. change (0 =? -1) with false. cbv beta iota.
    rewrite bind_assoc, bind_ret, Et, (bool_decide_false _ H0). done. }
  unfold restore_do_tasklet, on_k, mbind, M_bind. by rewrite E.
Qed.

Context (Hro : 10 ≤ Z.of_nat (length rodata)) (Hrob : Forall is_byte rodata).

Lemma restore_marks_fit : Forall (mark_fits AVAIL_MAX_LEN) (restore_marks rodata).
Proof using Hro Hrob.
  assert (Z2 : Forall is_byte (literal "0"%string ++ rodata)) by (repeat constructor; done).
  assert (L2 : Z.of_nat (length (literal "0"%string ++ rodata)) = 2 + Z.of_nat (length rodata)) by (simpl; lia).
  unfold restore_marks. repeat (apply Forall_cons; split; [|]); [..|done].
  all: split; [done|]; split; [done|]; split; [done|].
  all: first [rewrite L2; split; [unfold GATEWAY_ACTIVATION_INFO_LEN, CFG_CHG_SIG_LEN, CFG_CHG_FLAG_LEN,
                                    PARTCFG_WEBPROTECTION_REMINDER_LEN; lia|exact Z2]
             |split; [rewrite ?length_replicate; done|]].
  all: first [by apply Forall_replicate|by repeat constructor].
Qed.

Lemma restore_flash_run len k : ready len k → 0 < len → (∀ n, kmalloc n = true) → 0 ∈ upgrade_tag k →
  ∃ k', restore_flash kmalloc rodata k = Done (tt, k') ∧
    kstep FB d k (restored (fInfo k) (upgrade_tag k) (fc_mem (k_flash k))) (k_live k + 1) k'.
Proof using Hro Hrob.
  intros H Hlen Hall H0. unfold restore_flash.
  edestruct (restore_clears len k) as (k4&E4&T4); [done|done|]. rewrite E4. clear E4.
  destruct (clear_upgrade_from len k _ _ k4 (upgrade_tag k) H T4) as (k5&E5&T5);
    [by apply (restored_tag len k)|done|].
  mstep E5.
  assert (E6 : plain_kmalloc kmalloc CWMP_PARA_LEN k5 =
    Done (replicate (Z.to_nat CWMP_PARA_LEN) 0, set_alloc (Datatypes.S (k_calls k5)) (k_live k5 + 1) k5))
    by (unfold plain_kmalloc; by rewrite Hall).
  mstep E6. rewrite (st_live _ _ _ _ _ _ T5).
  pose proof (kstep_alloc FB d k5 (Datatypes.S (k_calls k5)) (k_live k + 1) (st_ok _ _ _ _ _ _ T5)) as S6.
  pose proof (kstep_ext _ _ _ _ _ _ _ (st_mem _ _ _ _ _ _ T5) S6) as S6'.
  pose proof (kstep_trans _ _ _ _ _ _ _ _ _ T5 S6') as T6.
  destruct (avail_sets_from len k _ _ _ (restore_marks rodata) H T6 restore_marks_fit) as (k7&E7&T7).
  exists k7. split; [exact E7|]. unfold restored, marked. by rewrite foldl_app.
Qed.

Lemma all_marks_fit tag : Forall (mark_fits AVAIL_MAX_LEN) (upgrade_marks tag ++ restore_marks rodata).
Proof using Hro Hrob. apply Forall_app. split; [apply upgrade_marks_fit|apply restore_marks_fit]. Qed.

Lemma all_marks_apart tag : pairwise_apart (map mark_range (upgrade_marks tag ++ restore_marks rodata)) = true.
Proof using. unfold upgrade_marks. by case_match. Qed.

(** Where no mark lies, [restored] is the wiped flash. *)
Lemma restored_wiped i tag c x : ¬ 0 ≤ x - addr (flash_avail i) < FAILURE_TAG_LEN →
  Forall (λ m, ¬ (mark_range m).1 ≤ x - addr (flash_avail i) < (mark_range m).2) (restore_marks rodata) →
  restored i tag c x =
    wiped (flash_scratch_pad i) (wiped (flash_psi_backup i) (wiped (flash_persistent i) c)) x.
Proof using Hro Hrob.
  intros Ht Hm. unfold restored. rewrite (marked_out _ _ _ (all_marks_fit tag)).
  - do 3 apply wiped_ext. apply stored_out. change (length _) with 8%nat.
    rewrite Forall_forall in Hm. specialize (Hm (literal "resdeft"%string, RESTORE_FLAG_LEN,
      WLAN_PARAMETERS_OFFSET + WLAN_WEP_KEY_LEN + WLAN_WPA_PSK_LEN)).
    assert (Hin : (literal "resdeft"%string, RESTORE_FLAG_LEN,
      WLAN_PARAMETERS_OFFSET + WLAN_WEP_KEY_LEN + WLAN_WPA_PSK_LEN) ∈ restore_marks rodata)
      by (do 1 constructor 2; constructor 1).
    specialize (Hm Hin). change (mark_range _) with (2400, 2408) in Hm. cbn in Hm. lia.
  - apply Forall_app. split; [|done]. unfold upgrade_marks. case_match; [|done].
    apply Forall_singleton. cbn. exact Ht.
Qed.

(** What the marks leave alone of the failure mark's bytes. *)
Lemma restore_marks_behind x : x < FAILURE_TAG_LEN →
  Forall (λ m, ¬ (mark_range m).1 ≤ x < (mark_range m).2) (restore_marks rodata).
Proof using.
  intros Hx. unfold FAILURE_TAG_LEN in Hx. unfold restore_marks.
  repeat (apply Forall_cons; split); [..|done].
  all: match goal with |- ¬ ?a ≤ _ < _ => assert (10 ≤ a) by (vm_compute; discriminate) end;
    clear -Hx H; lia.
Qed.

(** The settings are gone: the marks lie in another area. *)
Lemma restored_settings len k a x tag : ready len k → 0 < len → a ∈ settings (fInfo k) → inside a x →
  restored (fInfo k) tag (fc_mem (k_flash k)) x = 0.
Proof using Hro Hrob.
  intros H Hlen Ha Hx. destruct (settings_ok len k a H Hlen Ha) as (_&_&Hd). unfold inside in Hx.
  rewrite restored_wiped.
  - unfold settings in Ha. repeat (apply elem_of_cons in Ha as [->|Ha]); [..|by apply elem_of_nil in Ha].
    + by do 2 apply wiped_zero; apply wiped_in.
    + by apply wiped_zero, wiped_in.
    + by apply wiped_in.
  - unfold FAILURE_TAG_LEN, AVAIL_MAX_LEN in *. lia.
  - apply Forall_forall. intros [[data n] off] Hm. pose proof restore_marks_fit as Hf.
    rewrite Forall_forall in Hf. destruct (Hf _ Hm) as (?&?&?&_). cbn [mark_range fst snd]. lia.
Qed.

Lemma restored_upgrade len k k' l : ready len k → 0 < len →
  kstep FB d k (restored (fInfo k) (upgrade_tag k) (fc_mem (k_flash k))) l k' →
  upgrade_tag k' = (if failure_marked (upgrade_tag k) then literal "5aa5a55a0"%string else upgrade_tag k).
Proof using Hro Hrob.
  intros H Hlen T. unfold upgrade_tag at 1. rewrite (st_fInfo _ _ _ _ _ _ T).
  erewrite bytes_at_ext; [|intros; apply T]. unfold restored.
  pose proof (all_marks_fit (upgrade_tag k)) as Hf. pose proof (all_marks_apart (upgrade_tag k)) as Hp.
  unfold upgrade_marks in *. destruct (failure_marked (upgrade_tag k)).
  - replace (area_addr FB d (flash_avail (fInfo k))) with (addr (flash_avail (fInfo k)) + 0) at 1
      by apply Z.add_0_r.
    erewrite marked_in; [|exact Hf|exact Hp|constructor 1]. done.
  - erewrite bytes_at_ext; [by apply (restored_tag len k)|]. intros x Hx.
    rewrite (marked_out _ _ _ Hf); [done|]. apply restore_marks_behind. lia.
Qed.

(** [C18] Restoring the defaults, from the running system and with memory to
    be had.  When the first ten bytes of the avail area hold a NUL, as after any
    upgrade mark was written there, a long press of the reset button ends with the
    PSI, its backup and the scratch pad all zero, every mark for the programs that
    start next readable at its place in the avail area, a failed upgrade's mark set
    back to "5aa5a55a0" and any other mark left as it was, no other byte of the
    flash changed, the VoIP status and WLAN flag set and the monitor woken; one
    buffer is lost for good.  When they hold no NUL, as in an erased avail area, the
    search for the mark leaves its ten-byte buffer: what follows is undefined. *)
Theorem restore_defaults len (b : bstate S) :
  ready len (b_k b) → 0 < len → (∀ n, kmalloc n = true) →
  let i := fInfo (b_k b) in let at_ off := addr (flash_avail i) + off in
  (0 ∈ upgrade_tag (b_k b) →
  ∃ b', restore_do_tasklet kmalloc rodata b = Done (tt, b') ∧ ready len (b_k b') ∧
    g_sVoipServiceStatus b' = 1 ∧ b_sWlanFlag b' = 2 ∧ b_wakeup b' = 1 ∧ k_live (b_k b') = k_live (b_k b) + 1 ∧
    (∀ a x, a ∈ settings i → inside a x → fc_mem (k_flash (b_k b')) x = 0) ∧
    (∀ data n off, (data, n, off) ∈ restore_marks rodata →
       bytes_at (fc_mem (k_flash (b_k b'))) (at_ off) (Z.to_nat n) = take (Z.to_nat n) data) ∧
    upgrade_tag (b_k b') = (if failure_marked (upgrade_tag (b_k b)) then literal "5aa5a55a0"%string
                            else upgrade_tag (b_k b)) ∧
    ∀ x, Forall (λ a, ¬ inside a x) (settings i) → ¬ at_ 0 ≤ x < at_ FAILURE_TAG_LEN →
      Forall (λ m, ¬ (mark_range m).1 ≤ x - addr (flash_avail i) < (mark_range m).2) (restore_marks rodata) →
      fc_mem (k_flash (b_k b')) x = fc_mem (k_flash (b_k b)) x) ∧
  (0 ∉ upgrade_tag (b_k b) → restore_do_tasklet kmalloc rodata b = Fault).
Proof using Hro Hrob.
  intros H Hlen Hall i at_. split; [intros H0|by apply (restore_reads_past_mark len)].
  destruct (restore_flash_run len (b_k b) H Hlen Hall H0) as (k'&E&T).
  eexists. split; [unfold restore_do_tasklet, on_k, mbind, M_bind; by rewrite E|].
  cbn. split; [by eapply ready_step|]. split; [done|]. split; [done|]. split; [done|].
  split; [apply T|]. split; [|split; [|split]].
  - intros a x Ha Hx. rewrite (st_mem _ _ _ _ _ _ T). fold i. by apply (restored_settings len (b_k b) a).
  - intros data n off Hin.
    erewrite bytes_at_ext; [|intros; apply (st_mem _ _ _ _ _ _ T)].
    eapply marked_in; [apply all_marks_fit|apply all_marks_apart|]. apply elem_of_app. by right.
  - by eapply (restored_upgrade len).
  - intros x Hs Ht Hm. rewrite (st_mem _ _ _ _ _ _ T), restored_wiped; [|unfold at_ in Ht; fold i; lia|done].
    fold i. unfold settings in Hs. apply Forall_cons in Hs as [Hs1 [Hs2 [Hs3 _]%Forall_cons]%Forall_cons].
    assert (Hl : ∀ a, a ∈ settings i → 0 ≤ area_length a).
    { intros a Ha. destruct (settings_ok len (b_k b) a H Hlen Ha) as (_&?&_). lia. }
    rewrite !wiped_out; [done|..]; done || (apply Hl; unfold settings; set_solver).
Qed.
End proofs.

(** ** Witnesses: a flash with the mark of a failed upgrade, and an erased one *)

Section witnesses.
#[local] Existing Instance demo_contract.

Definition failed_kernel : kstate (cfi_state demo_chip) :=
  set_flash (demo_flash 16 (stored (λ _, 255) 835584 (literal "5aa5a55a3"%string))) (demo_kernel 1 demo_info).

Definition restore_board (k : kstate (cfi_state demo_chip)) : bstate (cfi_state demo_chip) :=
  set_k k idle_board.

Lemma failed_ready : storage_ready 0xBE000000 demo_dev (λ _, true) 65536 failed_kernel.
Proof.
  constructor; [|apply demo_layout|done|done|].
  - constructor; [done|].
    exact (ready_drv 5 (demo_flash 16 _) (demo_flash_ready 16 _ sixteen_fit)).
  - intros n. exists 0%nat. split; [lia|done].
Qed.

Lemma restore_defaults_witness :
  let b := restore_board failed_kernel in
  ∃ b', restore_do_tasklet (λ _, true) (replicate 10 7) b = Done (tt, b') ∧
    upgrade_tag 0xBE000000 demo_dev (b_k b') = literal "5aa5a55a0"%string ∧ b_sWlanFlag b' = 2.
Proof.
  edestruct (restore_defaults 0xBE000000 demo_dev (λ _, true) (replicate 10 7)
              ltac:(done) ltac:(by repeat constructor) 65536 (restore_board failed_kernel))
    as [H _]; [exact failed_ready|done|done|].
  destruct H as (b'&E&_&_&Hw&_&_&_&_&Ht&_).
  - assert (H : bool_decide (0 ∈ upgrade_tag 0xBE000000 demo_dev failed_kernel) = true) by (vm_compute; reflexivity).
    exact (bool_decide_eq_true_1 _ H).
  - exists b'. split; [exact E|]. split; [|exact Hw]. rewrite Ht. vm_compute. reflexivity.
Defined.

Lemma restore_reads_past_mark_witness :
  restore_do_tasklet (λ _, true) [] (restore_board (demo_kernel 1 demo_info)) = Fault.
Proof.
  apply (restore_reads_past_mark 0xBE000000 demo_dev (λ _, true) [] 65536).
  - exact demo_storage_ready.
  - done.
  - assert (H : bool_decide (0 ∈ upgrade_tag 0xBE000000 demo_dev (demo_kernel 1 demo_info)) = false)
      by (vm_compute; reflexivity).
    exact (bool_decide_eq_false_1 _ H).
Defined.
End witnesses.
