(* ===== verification/Irq.v ===== *)
(** * Interrupts ([irq.c])

    The interrupt controller and the coprocessor-0 bits, the choice of the
    interrupt to serve, enabling and disabling, and the flow of a level
    interrupt through the kernel's [handle_level_irq]. *)

From stdpp Require Import base numbers list.
From Stdlib Require Import ZArith Lia Bool.
From S2P Require Import Prelude.

Definition INTERRUPT_ID_SOFTWARE_0 : Z := 0.
Definition INTERRUPT_ID_SOFTWARE_1 : Z := 1.
Definition MIPS_TIMER_INT : Z := 7.
Definition ISR_TABLE_OFFSET : Z := 8.
Definition INTERRUPT_ID_EXTERNAL_4 : Z := ISR_TABLE_OFFSET + 20.
Definition INTERRUPT_ID_EXTERNAL_5 : Z := ISR_TABLE_OFFSET + 21.
Definition INTERRUPT_ID_EXTERNAL_0 : Z := ISR_TABLE_OFFSET + 25.
Definition INTERRUPT_ID_EXTERNAL_3 : Z := ISR_TABLE_OFFSET + 28.
Definition INTERRUPT_ID_MPI : Z := ISR_TABLE_OFFSET + 31.
Definition NR_IRQS : Z := 128.

Definition EI_SENSE_SHFT : Z := 0.
Definition EI_CLEAR_SHFT : Z := 8.
Definition EI_MASK_SHFT : Z := 12.
Definition EI_INSENS_SHFT : Z := 16.
Definition EI_LEVEL_SHFT : Z := 20.

Definition CAUSEB_IP0 : Z := 8.
Definition CAUSEF_IP : Z := Z.shiftl 255 8.
Definition CAUSEF_IP0 : Z := Z.shiftl 1 8.
Definition CAUSEF_IP1 : Z := Z.shiftl 1 9.
Definition CAUSEF_IP2 : Z := Z.shiftl 1 10.
Definition CAUSEF_IP7 : Z := Z.shiftl 1 15.
Definition STATUSB_IP0 : Z := 8.
Definition ST0_IM : Z := 0xff00.
Definition ST0_BEV : Z := 0x00400000.
Definition ALLINTS_NOTIMER : Z := Z.shiftl 1 10.

Definition IRQ_INPROGRESS : Z := 0x100.
Definition IRQ_DISABLED : Z := 0x200.
Definition IRQ_PENDING : Z := 0x400.
Definition IRQ_REPLAY : Z := 0x800.
Definition IRQ_AUTODETECT : Z := 0x1000.
Definition IRQ_WAITING : Z := 0x2000.
Definition IRQ_NOREQUEST : Z := 0x40000.
Definition IRQ_NOAUTOEN : Z := 0x80000.
Definition IRQF_DISABLED : Z := 0x20.
Definition IRQF_SAMPLE_RANDOM : Z := 0x40.
Definition IRQF_SHARED : Z := 0x80.
Definition IRQ_ENOMEM : Z := 12.
Definition IRQ_EBUSY : Z := 16.
Definition IRQ_EINVAL : Z := 22.
Definition IRQ_ENOSYS : Z := 89.

(** ** State *)

(** The two chips of [irq.c]; they differ in [unmask]. *)
Inductive irq_chip : Type := no_irq_chip | brcm_irq_chip | brcm_irq_chip_no_unmask.

#[global] Instance irq_chip_eq_dec : EqDecision irq_chip.
Proof. solve_decision. Defined.

(** [struct irq_desc], with the flags of its actions in order. *)
Record irq_desc : Type := {
  chip : irq_chip;
  desc_status : Z;
  actions : list Z
}.

(** The controller ([PERF]), the wires ([IrqStatus] and the processor's timer),
    coprocessor 0, the static variables of [irq_dispatch_int], the descriptors;
    [dispatched] lists the calls of [do_IRQ], [events] those of the handlers. *)
Record irqs : Type := {
  IrqStatus : Z;
  IrqMask : Z;
  ExtIrqCfg : Z;
  ExtIrqCfg1 : Z;
  timer : bool;
  c0_cause : Z;
  c0_status : Z;
  irqBit : Z;
  isrNumber : Z;
  irq_descs : list irq_desc;
  dispatched : list Z;
  events : list Z
}.

Definition set_perf (m e e1 : Z) (s : irqs) : irqs :=
  {| IrqStatus := IrqStatus s; IrqMask := m; ExtIrqCfg := e; ExtIrqCfg1 := e1; timer := timer s;
     c0_cause := c0_cause s; c0_status := c0_status s; irqBit := irqBit s; isrNumber := isrNumber s;
     irq_descs := irq_descs s; dispatched := dispatched s; events := events s |}.
Definition set_wires (l : Z) (t : bool) (s : irqs) : irqs :=
  {| IrqStatus := l; IrqMask := IrqMask s; ExtIrqCfg := ExtIrqCfg s; ExtIrqCfg1 := ExtIrqCfg1 s; timer := t;
     c0_cause := c0_cause s; c0_status := c0_status s; irqBit := irqBit s; isrNumber := isrNumber s;
     irq_descs := irq_descs s; dispatched := dispatched s; events := events s |}.
Definition set_c0 (cause status : Z) (s : irqs) : irqs :=
  {| IrqStatus := IrqStatus s; IrqMask := IrqMask s; ExtIrqCfg := ExtIrqCfg s; ExtIrqCfg1 := ExtIrqCfg1 s;
     timer := timer s; c0_cause := cause; c0_status := status; irqBit := irqBit s; isrNumber := isrNumber s;
     irq_descs := irq_descs s; dispatched := dispatched s; events := events s |}.
Definition set_scan (bit num : Z) (s : irqs) : irqs :=
  {| IrqStatus := IrqStatus s; IrqMask := IrqMask s; ExtIrqCfg := ExtIrqCfg s; ExtIrqCfg1 := ExtIrqCfg1 s;
     timer := timer s; c0_cause := c0_cause s; c0_status := c0_status s; irqBit := bit; isrNumber := num;
     irq_descs := irq_descs s; dispatched := dispatched s; events := events s |}.
Definition set_descs (l : list irq_desc) (s : irqs) : irqs :=
  {| IrqStatus := IrqStatus s; IrqMask := IrqMask s; ExtIrqCfg := ExtIrqCfg s; ExtIrqCfg1 := ExtIrqCfg1 s;
     timer := timer s; c0_cause := c0_cause s; c0_status := c0_status s; irqBit := irqBit s; isrNumber := isrNumber s;
     irq_descs := l; dispatched := dispatched s; events := events s |}.
Definition set_traces (d e : list Z) (s : irqs) : irqs :=
  {| IrqStatus := IrqStatus s; IrqMask := IrqMask s; ExtIrqCfg := ExtIrqCfg s; ExtIrqCfg1 := ExtIrqCfg1 s;
     timer := timer s; c0_cause := c0_cause s; c0_status := c0_status s; irqBit := irqBit s; isrNumber := isrNumber s;
     irq_descs := irq_descs s; dispatched := d; events := e |}.

(** [1 << n] in a 32-bit register. *)
Definition bit32 (n : Z) : Z := u32 (Z.shiftl 1 n).

(** ** Enabling and disabling *)

Definition is_software (irq : Z) : bool :=
  (irq =? INTERRUPT_ID_SOFTWARE_0) || (irq =? INTERRUPT_ID_SOFTWARE_1).
Definition is_external_0_3 (irq : Z) : bool :=
  (INTERRUPT_ID_EXTERNAL_0 <=? irq) && (irq <=? INTERRUPT_ID_EXTERNAL_3).
Definition is_external_4_5 (irq : Z) : bool :=
  (INTERRUPT_ID_EXTERNAL_4 <=? irq) && (irq <=? INTERRUPT_ID_EXTERNAL_5).

(** The five writes to the configuration of external interrupt [n]: not edge
    insensitive, level triggered, low level, clear, unmask. *)
Definition ext_enable (cfg n : Z) : Z :=
  let cfg := Z.ldiff cfg (bit32 (n + EI_INSENS_SHFT)) in
  let cfg := Z.lor cfg (bit32 (n + EI_LEVEL_SHFT)) in
  let cfg := Z.ldiff cfg (bit32 (n + EI_SENSE_SHFT)) in
  let cfg := Z.lor cfg (bit32 (n + EI_CLEAR_SHFT)) in
  Z.lor cfg (bit32 (n + EI_MASK_SHFT)).

Definition enable_brcm_irq (irq : Z) (s : irqs) : irqs :=
  let s :=
    if ISR_TABLE_OFFSET <=? irq then
      set_perf (Z.lor (IrqMask s) (bit32 (irq - ISR_TABLE_OFFSET))) (ExtIrqCfg s) (ExtIrqCfg1 s) s
    else if is_software irq then
      set_c0 (c0_cause s) (Z.lor (c0_status s) (bit32 (STATUSB_IP0 + irq - INTERRUPT_ID_SOFTWARE_0))) s
    else s in
  if is_external_0_3 irq then
    set_perf (IrqMask s) (ext_enable (ExtIrqCfg s) (irq - INTERRUPT_ID_EXTERNAL_0)) (ExtIrqCfg1 s) s
  else if is_external_4_5 irq then
    set_perf (IrqMask s) (ExtIrqCfg s) (ext_enable (ExtIrqCfg1 s) (irq - INTERRUPT_ID_EXTERNAL_4)) s
  else s.

Definition disable_brcm_irq (irq : Z) (s : irqs) : irqs :=
  if ISR_TABLE_OFFSET <=? irq then
    set_perf (Z.ldiff (IrqMask s) (bit32 (irq - ISR_TABLE_OFFSET))) (ExtIrqCfg s) (ExtIrqCfg1 s) s
  else if is_software irq then
    set_c0 (c0_cause s) (Z.ldiff (c0_status s) (bit32 (STATUSB_IP0 + irq - INTERRUPT_ID_SOFTWARE_0))) s
  else s.

Definition unmask_brcm_irq_noop (irq : Z) (s : irqs) : irqs := s.

Definition chip_mask_ack (c : irq_chip) (irq : Z) (s : irqs) : irqs :=
  match c with no_irq_chip => s | _ => disable_brcm_irq irq s end.
Definition chip_unmask (c : irq_chip) (irq : Z) (s : irqs) : irqs :=
  match c with
  | no_irq_chip => s
  | brcm_irq_chip => enable_brcm_irq irq s
  | brcm_irq_chip_no_unmask => unmask_brcm_irq_noop irq s
  end.

(** ** The flow of an interrupt *)

Definition with_status (st : Z) (d : irq_desc) : irq_desc :=
  {| chip := chip d; desc_status := st; actions := actions d |}.

Definition desc_at (irq : Z) : M irqs irq_desc :=
  s ← get; of_option (if 0 <=? irq then irq_descs s !! Z.to_nat irq else None).
Definition put_desc (irq : Z) (d : irq_desc) : M irqs unit :=
  modify (λ s, set_descs (<[Z.to_nat irq := d]> (irq_descs s)) s).

Section flow.
(** What the registered handlers of an interrupt do. *)
Context (device : Z → irqs → irqs).

Definition handle_IRQ_event (irq : Z) : M irqs unit :=
  modify (λ s, device irq (set_traces (dispatched s) (events s ++ [irq]) s)).

Definition handle_level_irq (irq : Z) : M irqs unit :=
  d ← desc_at irq;
  modify (chip_mask_ack (chip d) irq);;
  if negb (Z.land (desc_status d) IRQ_INPROGRESS =? 0) then mret tt
  else
    let st := Z.ldiff (desc_status d) (Z.lor IRQ_REPLAY IRQ_WAITING) in
    if bool_decide (actions d = []) || negb (Z.land st IRQ_DISABLED =? 0) then
      put_desc irq (with_status (Z.lor st IRQ_PENDING) d)
    else
      put_desc irq (with_status (Z.ldiff (Z.lor st IRQ_INPROGRESS) IRQ_PENDING) d);;
      handle_IRQ_event irq;;
      d' ← desc_at irq;
      let st' := Z.ldiff (desc_status d') IRQ_INPROGRESS in
      put_desc irq (with_status st' d');;
      if Z.land st' IRQ_DISABLED =? 0 then modify (chip_unmask (chip d') irq) else mret tt.

Definition do_IRQ (irq : Z) : M irqs unit :=
  modify (λ s, set_traces (dispatched s ++ [irq]) (events s) s);;
  handle_level_irq irq.

(** ** Dispatching *)

(** The [Clear] of an external interrupt. *)
Definition ext_clear (irq : Z) (s : irqs) : irqs :=
  if is_external_0_3 irq then
    set_perf (IrqMask s)
      (Z.lor (ExtIrqCfg s) (bit32 (irq - INTERRUPT_ID_EXTERNAL_0 + EI_CLEAR_SHFT))) (ExtIrqCfg1 s) s
  else if is_external_4_5 irq then
    set_perf (IrqMask s) (ExtIrqCfg s)
      (Z.lor (ExtIrqCfg1 s) (bit32 (irq - INTERRUPT_ID_EXTERNAL_4 + EI_CLEAR_SHFT))) s
  else s.

(** One round of the loop: the next bit. *)
Definition next_bit (s : irqs) : irqs :=
  if isrNumber s + 1 =? 32 then set_scan 1 0 s
  else set_scan (u32 (Z.shiftl (irqBit s) 1)) (isrNumber s + 1) s.

Fixpoint irq_scan (n : nat) (pendingIrqs : Z) : M irqs unit :=
  match n with
  | O => nofuel
  | S n' =>
      modify next_bit;;
      bit ← gets irqBit;
      num ← gets isrNumber;
      if negb (Z.land pendingIrqs bit =? 0) then
        let irq := num + ISR_TABLE_OFFSET in
        modify (ext_clear irq);;
        do_IRQ irq
      else irq_scan n' pendingIrqs
  end.

Definition irqs_pending (s : irqs) : Z := Z.land (IrqStatus s) (IrqMask s).

Definition irq_dispatch_int : M irqs unit :=
  pendingIrqs ← gets irqs_pending;
  if pendingIrqs =? 0 then mret tt else irq_scan 32 pendingIrqs.

Definition irq_dispatch_sw (irq : Z) : M irqs unit :=
  modify (λ s, set_c0 (Z.ldiff (c0_cause s) (bit32 (CAUSEB_IP0 + irq - INTERRUPT_ID_SOFTWARE_0))) (c0_status s) s);;
  do_IRQ irq.

(** The cause register as the processor reads it: the software bits, the line of
    the controller (IP2) and the timer (IP7). *)
Definition read_c0_cause (s : irqs) : Z :=
  Z.lor (c0_cause s)
    (Z.lor (if irqs_pending s =? 0 then 0 else CAUSEF_IP2) (if timer s then CAUSEF_IP7 else 0)).

Fixpoint plat_irq_dispatch (n : nat) : M irqs unit :=
  match n with
  | O => nofuel
  | S n' =>
      cause ← gets (λ s, Z.land (Z.land (read_c0_cause s) (c0_status s)) CAUSEF_IP);
      if cause =? 0 then mret tt
      else
        (if negb (Z.land cause CAUSEF_IP7 =? 0) then do_IRQ MIPS_TIMER_INT
         else if negb (Z.land cause CAUSEF_IP2 =? 0) then irq_dispatch_int
         else if negb (Z.land cause CAUSEF_IP0 =? 0) then irq_dispatch_sw INTERRUPT_ID_SOFTWARE_0
         else if negb (Z.land cause CAUSEF_IP1 =? 0) then irq_dispatch_sw INTERRUPT_ID_SOFTWARE_1
         else mret tt);;
        plat_irq_dispatch n'
  end.

Definition BcmHalGenerateSoftInterrupt (irq : Z) (s : irqs) : irqs :=
  set_c0 (Z.lor (c0_cause s) (bit32 (CAUSEB_IP0 + irq - INTERRUPT_ID_SOFTWARE_0))) (c0_status s) s.
End flow.

(** ** Set-up *)

Definition with_chip (c : irq_chip) (d : irq_desc) : irq_desc :=
  {| chip := c; desc_status := desc_status d; actions := actions d |}.

Definition arch_init_irq (s : irqs) : irqs :=
  let st := Z.ldiff (c0_status s) ST0_BEV in
  set_c0 (c0_cause s) (Z.lor (Z.ldiff st ST0_IM) (Z.land ALLINTS_NOTIMER ST0_IM))
    (set_descs (with_chip brcm_irq_chip <$> irq_descs s) s).

(** [setup_irq] for an action with the flags [flags] (no trigger type). *)
Definition setup_irq (irq flags : Z) : M irqs Z :=
  d ← desc_at irq;
  if bool_decide (chip d = no_irq_chip) then mret (- IRQ_ENOSYS)
  else match actions d with
  | old :: _ =>
      if Z.land (Z.land old flags) IRQF_SHARED =? 0 then mret (- IRQ_EBUSY)
      else put_desc irq {| chip := chip d; desc_status := desc_status d; actions := actions d ++ [flags] |};;
           mret 0
  | [] =>
      let st := Z.ldiff (desc_status d) (Z.lor IRQ_AUTODETECT (Z.lor IRQ_WAITING IRQ_INPROGRESS)) in
      if Z.land st IRQ_NOAUTOEN =? 0 then
        put_desc irq {| chip := chip d; desc_status := Z.ldiff st IRQ_DISABLED; actions := [flags] |};;
        modify (enable_brcm_irq irq);;
        mret 0
      else
        put_desc irq {| chip := chip d; desc_status := st; actions := [flags] |};;
        mret 0
  end.

(** [request_irq] with a handler; [mem]: whether memory can be had. *)
Definition request_irq (mem : bool) (irq irqflags dev_id : Z) : M irqs Z :=
  if negb (Z.land irqflags IRQF_SHARED =? 0) && (dev_id =? 0) then mret (- IRQ_EINVAL)
  else if NR_IRQS <=? irq then mret (- IRQ_EINVAL)
  else
    d ← desc_at irq;
    if negb (Z.land (desc_status d) IRQ_NOREQUEST =? 0) then mret (- IRQ_EINVAL)
    else if negb mem then mret (- IRQ_ENOMEM)
    else setup_irq irq irqflags.

(** [set_irq_chip_and_handler] with [handle_level_irq]; the number is checked. *)
Definition set_irq_chip_and_handler (irq : Z) (c : irq_chip) : M irqs unit :=
  if NR_IRQS <=? irq then mret tt
  else d ← desc_at irq; put_desc irq (with_chip c d).

(** [mem_name], [mem_action]: the outcomes of the two allocations. *)
Definition BcmHalMapInterrupt (mem_name mem_action : bool) (param irq : Z) : M irqs Z :=
  if negb mem_name then mret (u32 (-1))
  else
    set_irq_chip_and_handler irq brcm_irq_chip_no_unmask;;
    let irqflags := Z.lor IRQF_DISABLED IRQF_SAMPLE_RANDOM in
    let irqflags := if irq =? INTERRUPT_ID_MPI then Z.lor irqflags IRQF_SHARED else irqflags in
    r ← request_irq mem_action irq irqflags param;
    mret (u32 r).
