(* ===== verification/IrqClaims.v ===== *)
(** * Interrupts: proofs

    The choice of the next interrupt goes round all 32 lines, every pending line
    gets its turn, and one call of the dispatcher serves all that is pending. *)

From stdpp Require Import base numbers list.
From Stdlib Require Import ZArith Lia Bool.
From S2P Require Import Prelude Irq.

(** ** Bits *)

Lemma bit32_pow2 n : 0 ≤ n < 32 → bit32 n = 2 ^ n.
Proof.
  intros H. unfold bit32. rewrite Z.shiftl_mul_pow2, Z.mul_1_l by lia.
  apply u32_small. split; [lia|]. apply Z.pow_lt_mono_r; lia.
Qed.

Lemma bit32_testbit n i : 0 ≤ n < 32 → 0 ≤ i → Z.testbit (bit32 n) i = (i =? n).
Proof.
  intros Hn Hi. rewrite bit32_pow2 by done. destruct (Z.eqb_spec i n) as [->|].
  - by apply Z.pow2_bits_true.
  - by apply Z.pow2_bits_false.
Qed.

Lemma land_pow2 p j : 0 ≤ j → (Z.land p (2 ^ j) =? 0) = negb (Z.testbit p j).
Proof.
  intros Hj. destruct (Z.testbit p j) eqn:E; cbn.
  - apply Z.eqb_neq. intros H. assert (F : Z.testbit (Z.land p (2 ^ j)) j = false) by (rewrite H; apply Z.bits_0).
    rewrite Z.land_spec, E, Z.pow2_bits_true in F by done. done.
  - apply Z.eqb_eq. apply Z.bits_inj_0. intros i. rewrite Z.land_spec.
    destruct (decide (i = j)) as [->|]; [by rewrite E|]. rewrite Z.pow2_bits_false by done. apply andb_false_r.
Qed.

(** ** The order in which lines are looked at *)

(** The [n] lines after line [m], in turn. *)
Fixpoint cyc (n : nat) (m : Z) : list Z :=
  match n with O => [] | S n' => (m + 1) mod 32 :: cyc n' ((m + 1) mod 32) end.

(** The pending lines in the order of their turns. *)
Definition turn (m p : Z) : list Z := filter (λ j, Z.testbit p j = true) (cyc 32 m).

Lemma cyc_app a b m : 0 ≤ m < 32 → cyc (a + b) m = cyc a m ++ cyc b ((m + Z.of_nat a) mod 32).
Proof.
  revert m. induction a as [|a IH]; intros m Hm.
  - cbn [cyc app Nat.add]. rewrite Z.add_0_r, Z.mod_small by done. done.
  - cbn [cyc app Nat.add]. f_equal. rewrite IH by (apply Z.mod_pos_bound; lia). do 2 f_equal.
    rewrite Zplus_mod_idemp_l. f_equal. lia.
Qed.

Lemma cyc_lookup n m k : 0 ≤ m < 32 → (k < n)%nat → cyc n m !! k = Some ((m + 1 + Z.of_nat k) mod 32).
Proof.
  revert m k. induction n as [|n IH]; intros m k Hm Hk; [lia|]. destruct k as [|k]; cbn [cyc].
  - cbn. do 2 f_equal. lia.
  - cbn [lookup list_lookup]. rewrite IH by (lia || (apply Z.mod_pos_bound; lia)).
    rewrite <- Z.add_assoc, Zplus_mod_idemp_l. do 2 f_equal. lia.
Qed.

Lemma cyc_length n m : length (cyc n m) = n.
Proof. revert m. induction n as [|n IH]; intros m; [done|]. cbn. by rewrite IH. Qed.

Lemma elem_of_cyc m i : 0 ≤ m < 32 → i ∈ cyc 32 m ↔ 0 ≤ i < 32.
Proof.
  intros Hm. split.
  - intros (k&Hk)%list_elem_of_lookup. pose proof (lookup_lt_Some _ _ _ Hk) as Hl. rewrite cyc_length in Hl.
    rewrite cyc_lookup in Hk by done. injection Hk as <-. apply Z.mod_pos_bound. lia.
  - intros Hi. apply list_elem_of_lookup. exists (Z.to_nat ((i - m - 1) mod 32)).
    pose proof (Z.mod_pos_bound (i - m - 1) 32). rewrite cyc_lookup by lia. f_equal.
    rewrite Z2Nat.id by lia. rewrite Zplus_mod_idemp_r.
    replace (m + 1 + (i - m - 1)) with i by lia. by apply Z.mod_small.
Qed.

Lemma cyc_NoDup m : 0 ≤ m < 32 → NoDup (cyc 32 m).
Proof.
  intros Hm. apply NoDup_alt. intros i j x Hi Hj.
  pose proof (lookup_lt_Some _ _ _ Hi) as Li. pose proof (lookup_lt_Some _ _ _ Hj) as Lj.
  rewrite cyc_length in Li, Lj. rewrite cyc_lookup in Hi, Hj by done. rewrite <- Hi in Hj. injection Hj as Hj.
  assert (E : (Z.of_nat j - Z.of_nat i) mod 32 = 0).
  { replace (Z.of_nat j - Z.of_nat i) with ((m + 1 + Z.of_nat j) - (m + 1 + Z.of_nat i)) by lia.
    rewrite Zminus_mod, Hj, Z.sub_diag. done. }
  apply Z.mod_divide in E as [q Hq]; [|lia]. lia.
Qed.

(** Going on after line [j]: the lines after it, then those up to it. *)
Lemma cyc_rotate m k : 0 ≤ m < 32 → (k < 32)%nat →
  let j := (m + 1 + Z.of_nat k) mod 32 in
  ∃ l1 l2, cyc 32 m = l1 ++ j :: l2 ∧ cyc 32 j = l2 ++ l1 ++ [j] ∧ length l1 = k.
Proof.
  intros Hm Hk j. pose proof (Z.mod_pos_bound (m + 1 + Z.of_nat k) 32 ltac:(lia)) as Hj.
  exists (cyc k m), (cyc (31 - k) j).
  assert (Ej : ((m + Z.of_nat k) mod 32 + 1) mod 32 = j).
  { unfold j. rewrite Zplus_mod_idemp_l. f_equal. lia. }
  assert (Ek : cyc (k + 1) m = cyc k m ++ [j]).
  { rewrite cyc_app by done. cbn [cyc]. by rewrite Ej. }
  split; [|split; [|apply cyc_length]].
  - replace 32%nat with (k + (S (31 - k)))%nat at 1 by lia. rewrite cyc_app by done. f_equal.
    cbn [cyc]. by rewrite Ej.
  - replace 32%nat with ((31 - k) + (k + 1))%nat at 1 by lia. rewrite cyc_app by done. f_equal.
    rewrite <- Ek. f_equal. unfold j. rewrite Zplus_mod_idemp_l.
    replace (m + 1 + Z.of_nat k + Z.of_nat (31 - k)) with (m + 1 * 32) by lia.
    rewrite Z.mod_add by lia. by apply Z.mod_small.
Qed.

Lemma filter_head {A} (P : A → Prop) `{!∀ x, Decision (P x)} l x r : filter P l = x :: r →
  ∃ l1 l2, l = l1 ++ x :: l2 ∧ Forall (λ y, ¬ P y) l1 ∧ P x ∧ r = filter P l2.
Proof.
  induction l as [|y l IH]; [done|]. rewrite filter_cons. case_decide as Hy.
  - intros [= -> <-]. by exists [], l.
  - intros (l1&l2&->&H1&Hx&->)%IH. exists (y :: l1), l2. split; [done|]. split; [|done]. by constructor.
Qed.

Lemma filter_none {A} (P : A → Prop) `{!∀ x, Decision (P x)} l : Forall (λ y, ¬ P y) l → filter P l = [].
Proof. induction 1; [done|]. by rewrite filter_cons_False. Qed.

Lemma filter_agree {A} (P Q : A → Prop) `{!∀ x, Decision (P x), !∀ x, Decision (Q x)} l :
  Forall (λ y, P y ↔ Q y) l → filter P l = filter Q l.
Proof. induction 1 as [|x l Hx _ IH]; [done|]. rewrite !filter_cons, IH. repeat case_decide; tauto. Qed.

(** How far line [i] is from its turn. *)
Definition distance (m i : Z) : Z := (i - m - 1) mod 32.

Lemma distance_steps m a k : 0 ≤ m < 32 → 0 ≤ a ≤ 32 → 0 ≤ k < 32 → a ≤ k →
  distance ((m + a) mod 32) ((m + 1 + k) mod 32) = k - a.
Proof.
  intros. unfold distance. symmetry.
  apply (Z.mod_unique _ _ ((m + a) / 32 - (m + 1 + k) / 32)); [lia|].
  rewrite !Z.mod_eq by lia. lia.
Qed.

Lemma turn_next m p j r : 0 ≤ m < 32 → turn m p = j :: r →
  0 ≤ j < 32 ∧ Z.testbit p j = true ∧ r = turn j (Z.clearbit p j) ∧
  ∀ i, 0 ≤ i < 32 → Z.testbit p i = true → i ≠ j → distance j i < distance m i.
Proof.
  intros Hm Ht. destruct (filter_head _ _ _ _ Ht) as (l1&l2&El&H1&Hj&->).
  assert (Hk : (length l1 < 32)%nat).
  { rewrite <- (cyc_length 32 m), El, length_app. cbn. lia. }
  assert (Lj : cyc 32 m !! length l1 = Some j) by (rewrite El, lookup_app_r, Nat.sub_diag by lia; done).
  rewrite cyc_lookup in Lj by done. injection Lj as Lj.
  destruct (cyc_rotate m (length l1) Hm Hk) as (l1'&l2'&E1&E2&L1). rewrite Lj in E1, E2.
  rewrite El in E1. apply app_inj_1 in E1 as [<- [= <-]]; [|done].
  assert (Hj32 : 0 ≤ j < 32) by (rewrite <- Lj; apply Z.mod_pos_bound; lia).
  pose proof (cyc_NoDup m Hm) as Hnd. rewrite El in Hnd. apply NoDup_app in Hnd as (_&_&[Hjn _]%NoDup_cons).
  split; [done|]. split; [done|]. split.
  - unfold turn. rewrite E2, !filter_app.
    rewrite (filter_none _ l1), (filter_none _ [j]), !app_nil_r.
    + apply filter_agree, Forall_forall. intros i Hi. rewrite Z.clearbit_neq; [done|].
      intros ->. done.
    + apply Forall_singleton. by rewrite Z.clearbit_eq.
    + eapply Forall_impl; [exact H1|]. cbn. intros i Hi Hb. apply Hi.
      rewrite Z.clearbit_eqb, andb_true_iff in Hb. apply Hb.
  - intros i Hi Hb Hne. assert (Hc : i ∈ cyc 32 m) by (by apply elem_of_cyc).
    apply list_elem_of_lookup in Hc as (k&Hk').
    pose proof (lookup_lt_Some _ _ _ Hk') as Lk. rewrite cyc_length in Lk.
    assert (length l1 < k)%nat.
    { destruct (decide (k < length l1)%nat) as [Hlt|].
      - rewrite El, lookup_app_l in Hk' by done. rewrite Forall_lookup in H1. by destruct (H1 k i Hk').
      - destruct (decide (k = length l1)) as [->|]; [|lia].
        rewrite El, lookup_app_r, Nat.sub_diag in Hk' by lia. cbn in Hk'. congruence. }
    rewrite cyc_lookup in Hk' by done. injection Hk' as <-. rewrite <- Lj.
    rewrite <- (Z.add_assoc m 1 (Z.of_nat (length l1))), (distance_steps m (1 + Z.of_nat (length l1))) by lia.
    rewrite <- (Z.mod_small m 32) at 1 by lia. rewrite <- (Z.add_0_r m) at 1. rewrite distance_steps by lia. lia.
Qed.

Lemma turn_nil m p : 0 ≤ m < 32 → 0 ≤ p < 2 ^ 32 → turn m p = [] → p = 0.
Proof.
  intros Hm Hp Ht. apply Z.bits_inj_0. intros i. destruct (decide (0 ≤ i < 32)) as [Hi|Hi].
  - destruct (Z.testbit p i) eqn:E; [|done]. exfalso.
    apply (filter_nil_not_elem_of _ _ i Ht E). by apply elem_of_cyc.
  - destruct (decide (i < 0)); [by apply Z.testbit_neg_r|].
    rewrite <- (Z.mod_small p (2 ^ 32)) by done. apply Z.mod_pow2_bits_high. lia.
Qed.

(** ** The scan *)

(** What the static variables hold between calls: at start-up no bit at all, later
    the bit of the line served last. *)
Definition scan_ok (s : irqs) : Prop :=
  0 ≤ isrNumber s < 32 ∧ (irqBit s = 2 ^ isrNumber s ∨ isrNumber s = 31 ∧ irqBit s = 0).

Lemma next_bit_run s : scan_ok s →
  next_bit s = set_scan (2 ^ ((isrNumber s + 1) mod 32)) ((isrNumber s + 1) mod 32) s.
Proof.
  intros [Hn Hb]. unfold next_bit. destruct (Z.eqb_spec (isrNumber s + 1) 32) as [E|E].
  - by rewrite E.
  - rewrite Z.mod_small by lia. f_equal. destruct Hb as [-> |[? _]]; [|lia].
    rewrite Z.shiftl_mul_pow2, Z.pow_1_r by lia. rewrite Z.mul_comm, <- Z.pow_succ_r by lia.
    apply u32_small. split; [lia|]. apply Z.pow_lt_mono_r; lia.
Qed.

Lemma set_scan_ok j s : 0 ≤ j < 32 → scan_ok (set_scan (2 ^ j) j s).
Proof. intros H. split; [done|by left]. Qed.

Section claims.
Context (device : Z → irqs → irqs).

Lemma irq_scan_run n : ∀ p s j r, scan_ok s → filter (λ j, Z.testbit p j = true) (cyc n (isrNumber s)) = j :: r →
  irq_scan device n p s =
    do_IRQ device (j + ISR_TABLE_OFFSET) (ext_clear (j + ISR_TABLE_OFFSET) (set_scan (2 ^ j) j s)).
Proof.
  induction n as [|n IH]; intros p s j r Hs; [done|]. cbn [cyc irq_scan].
  pose proof (Z.mod_pos_bound (isrNumber s + 1) 32 ltac:(lia)) as Hj.
  rewrite bind_modify, bind_gets, bind_gets, next_bit_run by done. cbn [irqBit isrNumber set_scan].
  rewrite land_pow2, negb_involutive by lia. rewrite filter_cons. case_decide as Hd.
  - intros [= <- _]. by rewrite Hd, bind_modify.
  - intros Hf. destruct (Z.testbit p ((isrNumber s + 1) mod 32)); [done|].
    rewrite (IH p _ j r (set_scan_ok _ s Hj) Hf). done.
Qed.

Lemma irqs_pending_range s : 0 ≤ IrqStatus s < 2 ^ 32 → 0 ≤ irqs_pending s < 2 ^ 32.
Proof.
  intros H. unfold irqs_pending. assert (E : Z.land (IrqStatus s) (IrqMask s) =
    Z.land (Z.land (IrqStatus s) (IrqMask s)) (Z.ones 32)).
  { rewrite <- Z.land_assoc, (Z.land_comm (IrqMask s)), Z.land_assoc. f_equal.
    rewrite Z.land_ones by lia. by rewrite Z.mod_small. }
  rewrite E, Z.land_ones by lia. apply Z.mod_pos_bound. lia.
Qed.

(** Internal interrupts go round robin: with nothing pending and enabled the
    dispatcher does nothing; otherwise its loop ends and it serves exactly the
    first pending and enabled line after the one it served last, going round from
    line 31 to line 0, clears it in the configuration when it is an external
    one, and remembers it. *)
Lemma irq_dispatch_int_run s : scan_ok s → 0 ≤ IrqStatus s < 2 ^ 32 →
  irq_dispatch_int device s =
    match turn (isrNumber s) (irqs_pending s) with
    | [] => Done (tt, s)
    | j :: _ => do_IRQ device (j + ISR_TABLE_OFFSET) (ext_clear (j + ISR_TABLE_OFFSET) (set_scan (2 ^ j) j s))
    end.
Proof.
  intros Hs Hl. unfold irq_dispatch_int. rewrite bind_gets.
  destruct (turn (isrNumber s) (irqs_pending s)) as [|j r] eqn:Et.
  - by rewrite (turn_nil _ _ (proj1 Hs) (irqs_pending_range s Hl) Et).
  - destruct (turn_next _ _ _ _ (proj1 Hs) Et) as (Hj&Hb&_&_).
    destruct (Z.eqb_spec (irqs_pending s) 0) as [E|_]; [rewrite E, Z.bits_0 in Hb; done|].
    by eapply irq_scan_run.
Qed.

(** ** The flow of one interrupt *)

Definition store_desc (irq : Z) (d : irq_desc) (s : irqs) : irqs :=
  set_descs (<[Z.to_nat irq := d]> (irq_descs s)) s.

Lemma desc_at_run irq s d : 0 ≤ irq → irq_descs s !! Z.to_nat irq = Some d → desc_at irq s = Done (d, s).
Proof. intros Hi E. unfold desc_at. rewrite bind_get, (proj2 (Z.leb_le 0 irq) Hi), E. done. Qed.

Lemma put_desc_bind {B} irq d (f : unit → M irqs B) s : (put_desc irq d ≫= f) s = f tt (store_desc irq d s).
Proof. done. Qed.

(** The state in which the handlers of [irq] run. *)
Definition handling (irq : Z) (d : irq_desc) (s : irqs) : irqs :=
  let st := Z.ldiff (desc_status d) (Z.lor IRQ_REPLAY IRQ_WAITING) in
  let s1 := store_desc irq (with_status (Z.ldiff (Z.lor st IRQ_INPROGRESS) IRQ_PENDING) d) (chip_mask_ack (chip d) irq s) in
  set_traces (dispatched s1) (events s1 ++ [irq]) s1.

(** What is done when the handlers have returned. *)
Definition finish (irq : Z) (d : irq_desc) (s : irqs) : irqs :=
  let st := Z.ldiff (desc_status d) IRQ_INPROGRESS in
  let s1 := store_desc irq (with_status st d) s in
  if Z.testbit (desc_status d) 9 then s1 else chip_unmask (chip d) irq s1.

(** Whether the handlers are called. *)
Definition callable (d : irq_desc) : bool :=
  negb (Z.testbit (desc_status d) 8) && negb (bool_decide (actions d = [])) && negb (Z.testbit (desc_status d) 9).

Lemma flag_bit st k : 0 ≤ k → (Z.land st (2 ^ k) =? 0) = negb (Z.testbit st k).
Proof. apply land_pow2. Qed.

Lemma handle_level_run irq s d : 0 ≤ irq → irq_descs s !! Z.to_nat irq = Some d → callable d = true →
  handle_level_irq device irq s =
    match irq_descs (device irq (handling irq d s)) !! Z.to_nat irq with
    | Some d' => Done (tt, finish irq d' (device irq (handling irq d s)))
    | None => Fault
    end.
Proof.
  intros Hi Ed Hc. unfold callable in Hc. rewrite !andb_true_iff, !negb_true_iff in Hc. destruct Hc as [[H8 Ha] H9].
  unfold handle_level_irq. mstep (desc_at_run _ _ _ Hi Ed). rewrite bind_modify.
  change IRQ_INPROGRESS with (2 ^ 8) at 1. rewrite flag_bit, H8 by lia. cbn [negb]. cbv zeta.
  rewrite Ha. change IRQ_DISABLED with (2 ^ 9) at 1. rewrite flag_bit by lia.
  rewrite Z.ldiff_spec, H9. cbn [negb orb andb].
  rewrite put_desc_bind. unfold handle_IRQ_event. rewrite bind_modify.
  change (device irq (set_traces _ _ _)) with (device irq (handling irq d s)).
  destruct (irq_descs (device irq (handling irq d s)) !! Z.to_nat irq) as [d'|] eqn:E; cycle 1.
  { unfold desc_at. rewrite bind_assoc, bind_get, (proj2 (Z.leb_le 0 irq) Hi), E. done. }
  mstep (desc_at_run _ _ _ Hi E). rewrite put_desc_bind.
  change IRQ_DISABLED with (2 ^ 9). rewrite flag_bit by lia. rewrite Z.ldiff_spec.
  change (Z.testbit IRQ_INPROGRESS 9) with false. rewrite andb_true_r. unfold finish.
  by destruct (Z.testbit (desc_status d') 9).
Qed.

(** Without handlers to call, the interrupt stays masked. *)
Lemma handle_level_masked irq s d : 0 ≤ irq → irq_descs s !! Z.to_nat irq = Some d → callable d = false →
  ∃ d', handle_level_irq device irq s = Done (tt, store_desc irq d' (chip_mask_ack (chip d) irq s)) ∧ chip d' = chip d ∧
    actions d' = actions d.
Proof.
  intros Hi Ed Hc. unfold handle_level_irq. mstep (desc_at_run _ _ _ Hi Ed). rewrite bind_modify.
  change IRQ_INPROGRESS with (2 ^ 8) at 1. rewrite flag_bit, negb_involutive by lia.
  unfold callable in Hc. destruct (Z.testbit (desc_status d) 8) eqn:H8.
  - exists d. split; [|done]. unfold store_desc, mret, M_ret. do 2 f_equal.
    rewrite list_insert_id; [by destruct (chip_mask_ack (chip d) irq s)|].
    unfold chip_mask_ack, disable_brcm_irq. repeat case_match; done.
  - cbn [negb andb] in Hc. rewrite andb_false_iff, !negb_false_iff in Hc.
    change IRQ_DISABLED with (2 ^ 9) at 1. rewrite flag_bit, negb_involutive, Z.ldiff_spec by lia.
    change (Z.testbit (Z.lor IRQ_REPLAY IRQ_WAITING) 9) with false. rewrite andb_true_r.
    rewrite (proj2 (orb_true_iff _ _) Hc). eexists. split; [reflexivity|done].
Qed.

(** ** Masks *)

Lemma disable_mask irq s k : 8 ≤ irq < 40 → 0 ≤ k →
  Z.testbit (IrqMask (disable_brcm_irq irq s)) k = Z.testbit (IrqMask s) k && negb (k =? irq - 8).
Proof.
  intros Hi Hk. unfold disable_brcm_irq, ISR_TABLE_OFFSET. rewrite (proj2 (Z.leb_le 8 irq)) by lia.
  cbn [IrqMask set_perf]. by rewrite Z.ldiff_spec, bit32_testbit by lia.
Qed.

Lemma enable_mask irq s k : 8 ≤ irq < 40 → 0 ≤ k →
  Z.testbit (IrqMask (enable_brcm_irq irq s)) k = Z.testbit (IrqMask s) k || (k =? irq - 8).
Proof.
  intros Hi Hk. unfold enable_brcm_irq, ISR_TABLE_OFFSET. rewrite (proj2 (Z.leb_le 8 irq)) by lia.
  destruct (is_external_0_3 irq), (is_external_4_5 irq); cbn [IrqMask set_perf];
    by rewrite Z.lor_spec, bit32_testbit by lia.
Qed.

Lemma descs_disable irq s : irq_descs (disable_brcm_irq irq s) = irq_descs s.
Proof. unfold disable_brcm_irq. by repeat case_match. Qed.

Lemma descs_mask_ack c irq s : irq_descs (chip_mask_ack c irq s) = irq_descs s.
Proof. destruct c; [done|apply descs_disable..]. Qed.

Lemma descs_unmask c irq s : irq_descs (chip_unmask c irq s) = irq_descs s.
Proof. destruct c; [done| |done]. unfold chip_unmask, enable_brcm_irq. by repeat case_match. Qed.

Lemma mask_ack_brcm c irq s : c ≠ no_irq_chip → chip_mask_ack c irq s = disable_brcm_irq irq s.
Proof. by destruct c. Qed.

Lemma put_lookup irq d s : (Z.to_nat irq < length (irq_descs s))%nat →
  irq_descs (store_desc irq d s) !! Z.to_nat irq = Some d.
Proof. intros H. cbn. by apply list_lookup_insert_eq. Qed.

(** While the handlers run, a second interrupt of the same number does not call
    them, and afterwards it does again. *)
Lemma handling_desc irq d s : irq_descs s !! Z.to_nat irq = Some d → callable d = true →
  ∃ d', irq_descs (handling irq d s) !! Z.to_nat irq = Some d' ∧ chip d' = chip d ∧ actions d' = actions d ∧
    Z.testbit (desc_status d') 8 = true ∧ Z.testbit (desc_status d') 9 = false.
Proof.
  intros Ed Hc. pose proof (lookup_lt_Some _ _ _ Ed) as Hl. unfold callable in Hc.
  rewrite !andb_true_iff, !negb_true_iff in Hc. destruct Hc as [_ H9]. eexists. split.
  { unfold handling. cbv zeta. cbn [irq_descs set_traces]. apply put_lookup. by rewrite descs_mask_ack. }
  cbn [chip actions desc_status with_status]. split; [done|]. split; [done|].
  rewrite !Z.ldiff_spec, !Z.lor_spec, !Z.ldiff_spec, H9. split; [|reflexivity].
  change (Z.testbit IRQ_INPROGRESS 8) with true. by rewrite orb_true_r.
Qed.

(** The flow of a peripheral interrupt with a handler: the handler runs
    exactly once and with its line masked in the controller; afterwards the line
    is unmasked again when the kernel's chip is used, and left as the handler
    left it when [BcmHalMapInterrupt] has set its own chip, as its comment
    promises; no other line is touched, and the next interrupt will call the
    handler again. *)
Theorem level_interrupt_flow irq s d : 8 ≤ irq < 40 → irq_descs s !! Z.to_nat irq = Some d →
  callable d = true → chip d ≠ no_irq_chip → (∀ x, irq_descs (device irq x) = irq_descs x) →
  ∃ sh s', do_IRQ device irq s = Done (tt, s') ∧
    Z.testbit (IrqMask sh) (irq - 8) = false ∧ events sh = events s ++ [irq] ∧
    (∀ k, 0 ≤ k → k ≠ irq - 8 → Z.testbit (IrqMask sh) k = Z.testbit (IrqMask s) k) ∧
    events s' = events (device irq sh) ∧
    Z.testbit (IrqMask s') (irq - 8) =
      (if decide (chip d = brcm_irq_chip) then true else Z.testbit (IrqMask (device irq sh)) (irq - 8)) ∧
    (∀ k, 0 ≤ k → k ≠ irq - 8 → Z.testbit (IrqMask s') k = Z.testbit (IrqMask (device irq sh)) k) ∧
    ∃ d', irq_descs s' !! Z.to_nat irq = Some d' ∧ callable d' = true ∧ chip d' = chip d.
Proof.
  intros Hi Ed Hc Hchip Hdev. set (s0 := set_traces (dispatched s ++ [irq]) (events s) s).
  set (sh := handling irq d s0). destruct (handling_desc irq d s0 Ed Hc) as (d1&E1&C1&A1&_&B9).
  assert (Ma : ∀ k, 0 ≤ k → Z.testbit (IrqMask sh) k = Z.testbit (IrqMask s) k && negb (k =? irq - 8)).
  { intros k Hk. unfold sh, handling. cbn [IrqMask set_traces store_desc set_descs].
    rewrite mask_ack_brcm, disable_mask by done. done. }
  exists sh, (finish irq d1 (device irq sh)). split.
  { unfold do_IRQ. rewrite bind_modify. fold s0. rewrite (handle_level_run irq s0 d) by (done || lia).
    fold sh. rewrite Hdev. unfold sh. by rewrite E1. }
  split; [by rewrite Ma, Z.eqb_refl, andb_false_r by lia|]. split.
  { unfold sh, handling. cbv zeta. cbn [events set_traces]. f_equal. rewrite mask_ack_brcm by done.
    unfold disable_brcm_irq. by repeat case_match. }
  split. { intros k Hk Hne. rewrite Ma by done. rewrite (proj2 (Z.eqb_neq _ _) Hne). apply andb_true_r. }
  unfold finish. rewrite B9, C1. split.
  { destruct (chip d); try done. cbn. unfold enable_brcm_irq. by repeat case_match. }
  split.
  { destruct (chip d); [done| |done]. cbn [chip_unmask]. rewrite enable_mask by lia.
    by rewrite Z.eqb_refl, orb_true_r. }
  split.
  { intros k Hk Hne. destruct (chip d); [done| |done]. cbn [chip_unmask]. rewrite enable_mask by lia.
    rewrite (proj2 (Z.eqb_neq _ _) Hne). apply orb_false_r. }
  eexists. split.
  { rewrite descs_unmask. apply put_lookup. rewrite Hdev. by eapply lookup_lt_Some. }
  split; [|done]. unfold callable in *. cbn [desc_status actions with_status]. rewrite A1.
  rewrite !andb_true_iff, !negb_true_iff in *. rewrite !Z.ldiff_spec, B9. destruct Hc as [[_ ?] _].
  split; [split|]; [|done|done]. change (Z.testbit IRQ_INPROGRESS 8) with true. apply andb_false_r.
Qed.

(** ** Fairness *)

(** The bookkeeping of the dispatcher is its own: handlers leave it alone. *)
Definition same_scan (s s' : irqs) : Prop :=
  isrNumber s' = isrNumber s ∧ irqBit s' = irqBit s ∧ dispatched s' = dispatched s.

#[local] Instance same_scan_trans : Transitive same_scan.
Proof. intros x y z (?&?&?) (?&?&?). repeat split; congruence. Qed.

Context (Hdevice : ∀ irq x, same_scan x (device irq x)).

Lemma scan_mask_ack c irq s : same_scan s (chip_mask_ack c irq s).
Proof. unfold chip_mask_ack, disable_brcm_irq. by repeat case_match. Qed.

Lemma scan_unmask c irq s : same_scan s (chip_unmask c irq s).
Proof. unfold chip_unmask, enable_brcm_irq. by repeat case_match. Qed.

Lemma scan_ext_clear irq s : same_scan s (ext_clear irq s).
Proof. unfold ext_clear. by repeat case_match. Qed.

Lemma scan_finish irq d s : same_scan s (finish irq d s).
Proof. unfold finish. case_match; [done|]. apply (scan_unmask (chip d) irq (store_desc irq _ s)). Qed.

Lemma scan_handling irq d s : same_scan s (handling irq d s).
Proof.
  unfold handling. pose proof (scan_mask_ack (chip d) irq s) as (H1&H2&H3). by repeat split.
Qed.

Lemma do_IRQ_scan irq s s' : 0 ≤ irq → do_IRQ device irq s = Done (tt, s') →
  isrNumber s' = isrNumber s ∧ irqBit s' = irqBit s ∧ dispatched s' = dispatched s ++ [irq].
Proof using Hdevice.
  intros Hi. unfold do_IRQ. rewrite bind_modify. set (s0 := set_traces _ _ s). intros H.
  change (same_scan s0 s'). destruct (irq_descs s0 !! Z.to_nat irq) as [d|] eqn:Ed; cycle 1.
  { unfold handle_level_irq, desc_at in H. rewrite bind_assoc, bind_get, (proj2 (Z.leb_le 0 irq) Hi), Ed in H. done. }
  destruct (callable d) eqn:Hc.
  - rewrite (handle_level_run irq s0 d) in H by done. case_match; [|done]. injection H as <-.
    etransitivity; [apply scan_handling|]. etransitivity; [apply Hdevice|apply scan_finish].
  - destruct (handle_level_masked irq s0 d Hi Ed Hc) as (d'&E&_). rewrite E in H. injection H as <-.
    etransitivity; [apply (scan_mask_ack (chip d) irq)|done].
Qed.

(** [n] calls of the dispatcher, each with line [i] pending and enabled; between
    them anything may happen but to the bookkeeping. *)
Inductive rounds (i : Z) : nat → irqs → irqs → Prop :=
| rounds_none s : rounds i 0 s s
| rounds_more n s s1 s2 s3 : same_scan s s1 → 0 ≤ IrqStatus s1 < 2 ^ 32 →
    Z.testbit (irqs_pending s1) i = true → irq_dispatch_int device s1 = Done (tt, s2) →
    rounds i n s2 s3 → rounds i (S n) s s3.

Lemma dispatched_grows i n s s' : scan_ok s → 0 ≤ i < 32 → rounds i n s s' →
  ∃ l, dispatched s' = dispatched s ++ l.
Proof using Hdevice.
  intros Hs Hi H. revert Hs. induction H as [s|n s s1 s2 s3 (E1&E2&E3) Hl Hb Hd _ IH]; intros Hs.
  { exists []. by rewrite app_nil_r. }
  assert (Hs1 : scan_ok s1) by (unfold scan_ok; by rewrite E1, E2).
  rewrite irq_dispatch_int_run in Hd by done.
  destruct (turn (isrNumber s1) (irqs_pending s1)) as [|j r] eqn:Et.
  { injection Hd as <-. destruct (IH Hs1) as (l&->). exists l. by rewrite E3. }
  destruct (turn_next _ _ _ _ (proj1 Hs1) Et) as (Hj&_).
  apply do_IRQ_scan in Hd as (D1&D2&D3); [|unfold ISR_TABLE_OFFSET; lia].
  destruct (scan_ext_clear (j + ISR_TABLE_OFFSET) (set_scan (2 ^ j) j s1)) as (F1&F2&F3).
  destruct IH as (l&->). { unfold scan_ok. rewrite D1, D2, F1, F2. apply (set_scan_ok j s1 Hj). }
  rewrite D3, F3. cbn [dispatched set_scan]. rewrite E3, <- app_assoc. eauto.
Qed.

Lemma rounds_serve i n s s' : scan_ok s → 0 ≤ i < 32 → rounds i n s s' →
  distance (isrNumber s) i < Z.of_nat n →
  ∃ l1 l2, dispatched s' = dispatched s ++ l1 ++ (i + ISR_TABLE_OFFSET) :: l2.
Proof using Hdevice.
  intros Hs Hi H. revert Hs. induction H as [s|n s s1 s2 s3 (E1&E2&E3) Hl Hb Hd Hr IH]; intros Hs Hdist.
  { unfold distance in Hdist. pose proof (Z.mod_pos_bound (i - isrNumber s - 1) 32). lia. }
  assert (Hs1 : scan_ok s1) by (unfold scan_ok; by rewrite E1, E2).
  rewrite irq_dispatch_int_run in Hd by done.
  destruct (turn (isrNumber s1) (irqs_pending s1)) as [|j r] eqn:Et.
  { rewrite (turn_nil _ _ (proj1 Hs1) (irqs_pending_range s1 Hl) Et), Z.bits_0 in Hb. done. }
  destruct (turn_next _ _ _ _ (proj1 Hs1) Et) as (Hj&_&_&Hcloser).
  apply do_IRQ_scan in Hd as (D1&D2&D3); [|unfold ISR_TABLE_OFFSET; lia].
  destruct (scan_ext_clear (j + ISR_TABLE_OFFSET) (set_scan (2 ^ j) j s1)) as (F1&F2&F3).
  assert (Hs2 : scan_ok s2) by (unfold scan_ok; rewrite D1, D2, F1, F2; apply (set_scan_ok j s1 Hj)).
  rewrite F3 in D3. cbn [dispatched set_scan] in D3. rewrite E3 in D3.
  destruct (decide (i = j)) as [<-|Hne].
  - destruct (dispatched_grows _ _ _ _ Hs2 Hi Hr) as (l&->). exists [], l. rewrite D3. by rewrite <- app_assoc.
  - destruct IH as (l1&l2&->); [done| |].
    + rewrite D1, F1. cbn [isrNumber set_scan]. specialize (Hcloser i Hi Hb Hne). rewrite E1 in Hcloser. lia.
    + exists ((j + ISR_TABLE_OFFSET) :: l1), l2. by rewrite D3, <- app_assoc.
Qed.

(** [C22] No line starves: a line that stays pending and enabled is served within 32
    calls of the dispatcher, whatever the other lines do in the meantime. *)
Theorem irq_round_robin_fair i s s' : scan_ok s → 0 ≤ i < 32 → rounds i 32 s s' →
  ∃ l1 l2, dispatched s' = dispatched s ++ l1 ++ (i + ISR_TABLE_OFFSET) :: l2.
Proof using Hdevice.
  intros Hs Hi H. eapply rounds_serve; [done|done|exact H|].
  unfold distance. apply Z.mod_pos_bound. lia.
Qed.
End claims.

(** ** Draining *)

Section drain.
(** Devices that take their request back when their handler runs. *)
Definition lower (irq : Z) (s : irqs) : irqs :=
  if irq =? MIPS_TIMER_INT then set_wires (IrqStatus s) false s
  else if ISR_TABLE_OFFSET <=? irq then
    set_wires (Z.ldiff (IrqStatus s) (bit32 (irq - ISR_TABLE_OFFSET))) (timer s) s
  else s.

Context (device : Z → irqs → irqs) (Hquiet : ∀ irq x, device irq x = lower irq x).

Lemma quiet_scan irq x : same_scan x (device irq x).
Proof using Hquiet. rewrite Hquiet. unfold lower. by repeat case_match. Qed.

(** The system after [arch_init_irq]: every number has a chip of [irq.c], the
    timer has its handler, the processor's lines 3 to 6 are off. *)
Record dispatch_ready (s : irqs) : Prop := {
  dr_scan : scan_ok s;
  dr_lines : 0 ≤ IrqStatus s < 2 ^ 32;
  dr_cause : ∀ k, Z.testbit (c0_cause s) k = true → k = 8 ∨ k = 9;
  dr_status : ∀ k, 11 ≤ k ≤ 14 → Z.testbit (c0_status s) k = false;
  dr_length : length (irq_descs s) = Z.to_nat NR_IRQS;
  dr_chips : Forall (λ d, chip d ≠ no_irq_chip) (irq_descs s);
  dr_timer : ∃ d, irq_descs s !! 7%nat = Some d ∧ callable d = true
}.

(** What one interrupt changes: its own request is gone, its own enable bit may be. *)
Record served (irq : Z) (s s' : irqs) : Prop := {
  sv_scan : isrNumber s' = isrNumber s ∧ irqBit s' = irqBit s;
  sv_dispatched : dispatched s' = dispatched s ++ [irq];
  sv_cause : c0_cause s' = c0_cause s;
  sv_timer : timer s' = timer s && negb (irq =? 7);
  sv_pending : ∀ k, 0 ≤ k < 32 → Z.testbit (irqs_pending s') k = Z.testbit (irqs_pending s) k && negb (k =? irq - 8);
  sv_status : ∀ k, 0 ≤ k → ¬ (is_software irq = true ∧ k = 8 + irq) → Z.testbit (c0_status s') k = Z.testbit (c0_status s) k;
  sv_lines : 0 ≤ IrqStatus s' < 2 ^ 32;
  sv_length : length (irq_descs s') = length (irq_descs s);
  sv_chips : Forall (λ d, chip d ≠ no_irq_chip) (irq_descs s');
  sv_calls : ∀ k d, k ≠ Z.to_nat irq → irq_descs s !! k = Some d → irq_descs s' !! k = Some d;
  sv_self : ∀ d, irq_descs s !! Z.to_nat irq = Some d → callable d = true →
              ∃ d', irq_descs s' !! Z.to_nat irq = Some d' ∧ callable d' = true
}.

(** The registers that masking and unmasking touch. *)
Lemma mask_ack_fields c irq s :
  IrqStatus (chip_mask_ack c irq s) = IrqStatus s ∧ timer (chip_mask_ack c irq s) = timer s ∧
  c0_cause (chip_mask_ack c irq s) = c0_cause s.
Proof. unfold chip_mask_ack, disable_brcm_irq. by repeat case_match. Qed.

Lemma unmask_fields c irq s :
  IrqStatus (chip_unmask c irq s) = IrqStatus s ∧ timer (chip_unmask c irq s) = timer s ∧
  c0_cause (chip_unmask c irq s) = c0_cause s.
Proof. unfold chip_unmask, enable_brcm_irq. by repeat case_match. Qed.

Lemma is_software_iff irq : is_software irq = true ↔ irq = 0 ∨ irq = 1.
Proof. unfold is_software, INTERRUPT_ID_SOFTWARE_0, INTERRUPT_ID_SOFTWARE_1. rewrite orb_true_iff, !Z.eqb_eq. done. Qed.

Lemma mask_ack_status c irq s k : 0 ≤ k → ¬ (is_software irq = true ∧ k = 8 + irq) →
  Z.testbit (c0_status (chip_mask_ack c irq s)) k = Z.testbit (c0_status s) k.
Proof.
  intros Hk Hn. assert (E : Z.testbit (c0_status (disable_brcm_irq irq s)) k = Z.testbit (c0_status s) k).
  { unfold disable_brcm_irq. case_match; [done|]. case_match eqn:E; [|done]. cbn [c0_status set_c0].
    rewrite Z.ldiff_spec. assert (irq = 0 ∨ irq = 1) by (by apply is_software_iff).
    rewrite bit32_testbit by (unfold STATUSB_IP0, INTERRUPT_ID_SOFTWARE_0; lia).
    rewrite (proj2 (Z.eqb_neq _ _)); [apply andb_true_r|]. unfold STATUSB_IP0, INTERRUPT_ID_SOFTWARE_0.
    intros ->. apply Hn. split; [done|lia]. }
  by destruct c.
Qed.

Lemma unmask_status c irq s k : 0 ≤ k → ¬ (is_software irq = true ∧ k = 8 + irq) →
  Z.testbit (c0_status (chip_unmask c irq s)) k = Z.testbit (c0_status s) k.
Proof.
  intros Hk Hn. assert (E : Z.testbit (c0_status (enable_brcm_irq irq s)) k = Z.testbit (c0_status s) k).
  { unfold enable_brcm_irq. destruct (ISR_TABLE_OFFSET <=? irq); [by repeat case_match|].
    destruct (is_software irq) eqn:E; [|by repeat case_match]. assert (irq = 0 ∨ irq = 1) by (by apply is_software_iff).
    assert (Eb : Z.testbit (Z.lor (c0_status s) (bit32 (STATUSB_IP0 + irq - INTERRUPT_ID_SOFTWARE_0))) k =
                 Z.testbit (c0_status s) k).
    { rewrite Z.lor_spec, bit32_testbit by (unfold STATUSB_IP0, INTERRUPT_ID_SOFTWARE_0; lia).
      rewrite (proj2 (Z.eqb_neq _ _)); [apply orb_false_r|]. unfold STATUSB_IP0, INTERRUPT_ID_SOFTWARE_0.
      intros ->. apply Hn. split; [done|lia]. }
    by repeat case_match. }
  by destruct c.
Qed.

Lemma mask_ack_mask c irq s k : c ≠ no_irq_chip → 0 ≤ irq < 40 → 0 ≤ k →
  Z.testbit (IrqMask (chip_mask_ack c irq s)) k = Z.testbit (IrqMask s) k && negb (k =? irq - 8).
Proof.
  intros Hc Hi Hk. rewrite mask_ack_brcm by done. destruct (decide (8 ≤ irq)); [apply disable_mask; lia|].
  unfold disable_brcm_irq, ISR_TABLE_OFFSET. rewrite (proj2 (Z.leb_gt 8 irq)) by lia.
  rewrite (proj2 (Z.eqb_neq k (irq - 8))), andb_true_r by lia. by case_match.
Qed.

Lemma unmask_mask c irq s k : 0 ≤ irq < 40 → 0 ≤ k → k ≠ irq - 8 →
  Z.testbit (IrqMask (chip_unmask c irq s)) k = Z.testbit (IrqMask s) k.
Proof.
  intros Hi Hk Hne. destruct c; [done| |done]. cbn [chip_unmask]. destruct (decide (8 ≤ irq)).
  - rewrite enable_mask by lia. rewrite (proj2 (Z.eqb_neq _ _) Hne). apply orb_false_r.
  - unfold enable_brcm_irq, ISR_TABLE_OFFSET, is_external_0_3, is_external_4_5, INTERRUPT_ID_EXTERNAL_0,
      INTERRUPT_ID_EXTERNAL_4, ISR_TABLE_OFFSET. rewrite !(proj2 (Z.leb_gt _ irq)) by lia. cbn [andb]. by case_match.
Qed.

Lemma lower_lines irq s : 0 ≤ irq < 40 → 0 ≤ IrqStatus s < 2 ^ 32 → 0 ≤ IrqStatus (lower irq s) < 2 ^ 32.
Proof.
  intros Hi H. unfold lower. case_match; [done|]. case_match; [|done]. cbn [IrqStatus set_wires].
  assert (E : Z.ldiff (IrqStatus s) (bit32 (irq - ISR_TABLE_OFFSET)) =
              Z.land (Z.ldiff (IrqStatus s) (bit32 (irq - ISR_TABLE_OFFSET))) (Z.ones 32)).
  { apply Z.bits_inj'. intros k Hk. rewrite Z.land_spec, !Z.ldiff_spec, Z.testbit_ones_nonneg by lia.
    destruct (Z.ltb_spec k 32); [by rewrite andb_true_r|]. rewrite <- (Z.mod_small _ _ H).
    rewrite Z.mod_pow2_bits_high by lia. done. }
  rewrite E, Z.land_ones by lia. apply Z.mod_pos_bound. lia.
Qed.

Lemma lower_bits irq s k : 0 ≤ irq < 40 → 0 ≤ k < 32 →
  Z.testbit (IrqStatus (lower irq s)) k = Z.testbit (IrqStatus s) k && negb (k =? irq - 8).
Proof.
  intros Hi Hk. unfold lower, MIPS_TIMER_INT, ISR_TABLE_OFFSET. destruct (Z.eqb_spec irq 7) as [->|].
  - rewrite (proj2 (Z.eqb_neq k (7 - 8))) by lia. by rewrite andb_true_r.
  - destruct (Z.leb_spec 8 irq).
    + cbn [IrqStatus set_wires]. by rewrite Z.ldiff_spec, bit32_testbit by lia.
    + rewrite (proj2 (Z.eqb_neq k (irq - 8))) by lia. by rewrite andb_true_r.
Qed.

Lemma lower_fields irq s :
  IrqMask (lower irq s) = IrqMask s ∧ c0_cause (lower irq s) = c0_cause s ∧ c0_status (lower irq s) = c0_status s ∧
  irq_descs (lower irq s) = irq_descs s ∧ timer (lower irq s) = timer s && negb (irq =? 7).
Proof.
  unfold lower, MIPS_TIMER_INT. destruct (irq =? 7); [by rewrite andb_false_r|]. rewrite andb_true_r. by case_match.
Qed.

(** The registers after the handlers have run. *)
Lemma flow_fields irq d d1 s : chip d ≠ no_irq_chip → 0 ≤ irq < 40 → 0 ≤ IrqStatus s < 2 ^ 32 →
  let s' := finish irq d1 (lower irq (handling irq d s)) in
  0 ≤ IrqStatus s' < 2 ^ 32 ∧ timer s' = timer s && negb (irq =? 7) ∧ c0_cause s' = c0_cause s ∧
  (∀ k, 0 ≤ k → ¬ (is_software irq = true ∧ k = 8 + irq) → Z.testbit (c0_status s') k = Z.testbit (c0_status s) k) ∧
  (∀ k, 0 ≤ k < 32 → Z.testbit (irqs_pending s') k = Z.testbit (irqs_pending s) k && negb (k =? irq - 8)) ∧
  irq_descs s' = <[Z.to_nat irq := with_status (Z.ldiff (desc_status d1) IRQ_INPROGRESS) d1]> (irq_descs (handling irq d s)).
Proof.
  intros Hc Hi Hl. cbv zeta. set (h := handling irq d s).
  destruct (mask_ack_fields (chip d) irq s) as (A1&A2&A3). destruct (lower_fields irq h) as (L1&L2&L3&L4&L5).
  set (t := store_desc irq (with_status (Z.ldiff (desc_status d1) IRQ_INPROGRESS) d1) (lower irq h)).
  assert (F : ∃ c, finish irq d1 (lower irq h) = chip_unmask c irq t).
  { unfold finish. fold t. destruct (Z.testbit (desc_status d1) 9); [by exists no_irq_chip|by eexists]. }
  destruct F as (c&->). destruct (unmask_fields c irq t) as (U1&U2&U3).
  assert (St : IrqStatus t = IrqStatus (lower irq h)) by done.
  assert (Hh : IrqStatus h = IrqStatus s) by (exact A1).
  split; [rewrite U1, St; apply lower_lines; [done|by rewrite Hh]|].
  split; [rewrite U2; change (timer t) with (timer (lower irq h)); rewrite L5; by change (timer h) with
            (timer (chip_mask_ack (chip d) irq s)); rewrite A2|].
  split; [rewrite U3; change (c0_cause t) with (c0_cause (lower irq h)); by rewrite L2|].
  split.
  { intros k Hk Hn. rewrite unmask_status by done. change (c0_status t) with (c0_status (lower irq h)). rewrite L3.
    by apply (mask_ack_status (chip d) irq s k). }
  split; [|by rewrite descs_unmask; change (irq_descs t) with (<[Z.to_nat irq := with_status
    (Z.ldiff (desc_status d1) IRQ_INPROGRESS) d1]> (irq_descs (lower irq h))); rewrite L4].
  intros k Hk. unfold irqs_pending. rewrite !Z.land_spec, U1, St, lower_bits, Hh by done.
  destruct (Z.eqb_spec k (irq - 8)) as [->|Hne]; [by rewrite !andb_false_r|]. rewrite !andb_true_r. f_equal.
  rewrite unmask_mask by lia. change (IrqMask t) with (IrqMask (lower irq h)). rewrite L1.
  change (IrqMask h) with (IrqMask (chip_mask_ack (chip d) irq s)). rewrite mask_ack_mask by (done || lia).
  rewrite (proj2 (Z.eqb_neq _ _) Hne). apply andb_true_r.
Qed.

Lemma do_IRQ_served irq s : 0 ≤ irq < 40 → 0 ≤ IrqStatus s < 2 ^ 32 → length (irq_descs s) = Z.to_nat NR_IRQS →
  Forall (λ d, chip d ≠ no_irq_chip) (irq_descs s) →
  (irq = 7 → ∃ d, irq_descs s !! 7%nat = Some d ∧ callable d = true) →
  ∃ s', do_IRQ device irq s = Done (tt, s') ∧ served irq s s'.
Proof using Hquiet.
  intros Hi Hl Hlen Hch H7. set (s0 := set_traces (dispatched s ++ [irq]) (events s) s).
  destruct (lookup_lt_is_Some_2 (irq_descs s) (Z.to_nat irq)) as (d&Ed); [unfold NR_IRQS in *; lia|].
  assert (Hcd : chip d ≠ no_irq_chip) by (rewrite Forall_forall in Hch; apply Hch; by eapply list_elem_of_lookup_2).
  assert (Hsc : ∀ s', do_IRQ device irq s = Done (tt, s') →
    isrNumber s' = isrNumber s ∧ irqBit s' = irqBit s ∧ dispatched s' = dispatched s ++ [irq]).
  { intros s'. apply (do_IRQ_scan device quiet_scan). lia. }
  destruct (callable d) eqn:Hc.
  - destruct (handling_desc irq d s0 Ed Hc) as (d1&E1&C1&A1&B8&B9).
    assert (Er : do_IRQ device irq s = Done (tt, finish irq d1 (lower irq (handling irq d s0)))).
    { unfold do_IRQ. rewrite bind_modify. fold s0. rewrite (handle_level_run device irq s0 d) by (done || lia).
      rewrite Hquiet. destruct (lower_fields irq (handling irq d s0)) as (_&_&_&L4&_). by rewrite L4, E1. }
    destruct (Hsc _ Er) as (S1&S2&S3). eexists. split; [exact Er|].
    destruct (flow_fields irq d d1 s0 Hcd Hi Hl) as (F1&F2&F3&F4&F5&F6).
    assert (Dh : irq_descs (handling irq d s0) =
      <[Z.to_nat irq := with_status (Z.ldiff (Z.lor (Z.ldiff (desc_status d) (Z.lor IRQ_REPLAY IRQ_WAITING))
         IRQ_INPROGRESS) IRQ_PENDING) d]> (irq_descs s)).
    { unfold handling. cbn [irq_descs set_traces store_desc set_descs]. by rewrite descs_mask_ack. }
    constructor; try done.
    + by rewrite F6, Dh, !length_insert.
    + rewrite F6, Dh. apply Forall_insert; [by apply Forall_insert|]. cbn. by rewrite C1.
    + intros k x Hk Hx. by rewrite F6, Dh, !list_lookup_insert_ne by done.
    + intros x Hx Hxc. rewrite F6, list_lookup_insert_eq by (rewrite Dh, length_insert; by eapply lookup_lt_Some).
      eexists. split; [done|]. unfold callable in *. cbn [desc_status actions with_status].
      rewrite A1, !andb_true_iff, !negb_true_iff in *. destruct Hc as [[_ ?] _].
      rewrite !Z.ldiff_spec, B9. split; [split|]; [|done|done].
      change (Z.testbit IRQ_INPROGRESS 8) with true. apply andb_false_r.
  - assert (irq ≠ 7) by (intros ->; destruct (H7 eq_refl) as (d'&E'&?);
      change (Z.to_nat 7) with 7%nat in Ed; congruence).
    destruct (handle_level_masked device irq s0 d ltac:(lia) Ed Hc) as (d'&E&C'&_).
    assert (Er : do_IRQ device irq s = Done (tt, store_desc irq d' (chip_mask_ack (chip d) irq s0)))
      by (unfold do_IRQ; by rewrite bind_modify).
    destruct (Hsc _ Er) as (S1&S2&S3). eexists. split; [exact Er|].
    destruct (mask_ack_fields (chip d) irq s0) as (A1&A2&A3).
    constructor; try done; cbn [store_desc set_descs c0_cause timer c0_status IrqStatus irq_descs].
    + rewrite A2, (proj2 (Z.eqb_neq irq 7)) by done. by rewrite andb_true_r.
    + intros k Hk. unfold irqs_pending. cbn [store_desc set_descs IrqStatus IrqMask].
      rewrite !Z.land_spec, A1, mask_ack_mask by (done || lia). by rewrite andb_assoc.
    + intros k Hk Hn. by rewrite mask_ack_status.
    + by rewrite A1.
    + by rewrite descs_mask_ack, length_insert.
    + rewrite descs_mask_ack. apply Forall_insert; [done|]. by rewrite C'.
    + intros k x Hk Hx. by rewrite descs_mask_ack, list_lookup_insert_ne by done.
    + intros x Hx Hxc. change (irq_descs s0) with (irq_descs s) in Ed. congruence.
Qed.

Lemma served_ready irq s s' : dispatch_ready s → 0 ≤ irq < 40 → served irq s s' → dispatch_ready s'.
Proof using.
  intros [] Hi []. constructor; try done.
  - unfold scan_ok. destruct sv_scan0 as [-> ->]. done.
  - by rewrite sv_cause0.
  - intros k Hk. rewrite sv_status0; [by apply dr_status0|lia|]. intros [E ->]. apply is_software_iff in E. lia.
  - congruence.
  - destruct dr_timer0 as (d&Ed&Hc). destruct (decide (irq = 7)) as [->|Hne].
    + by apply (sv_self0 d).
    + exists d. split; [|done]. apply sv_calls0; [lia|done].
Qed.

(** The interrupts a call of the dispatcher has to serve, in the order of their
    priorities: the timer, the peripherals in turn, the software interrupts. *)
Definition expected (s : irqs) : list Z :=
  (if timer s && Z.testbit (c0_status s) 15 then [MIPS_TIMER_INT] else []) ++
  (if Z.testbit (c0_status s) 10
   then (λ j, j + ISR_TABLE_OFFSET) <$> turn (isrNumber s) (irqs_pending s) else []) ++
  (if Z.testbit (c0_cause s) 8 && Z.testbit (c0_status s) 8 then [INTERRUPT_ID_SOFTWARE_0] else []) ++
  (if Z.testbit (c0_cause s) 9 && Z.testbit (c0_status s) 9 then [INTERRUPT_ID_SOFTWARE_1] else []).

Definition causes (s : irqs) : Z := Z.land (Z.land (read_c0_cause s) (c0_status s)) CAUSEF_IP.

Lemma eqb_decide (a b : Z) : (a =? b) = bool_decide (a = b).
Proof using. by destruct (Z.eqb_spec a b); symmetry; [apply bool_decide_true|apply bool_decide_false]. Qed.

Lemma cause_bit s k : dispatch_ready s → 8 ≤ k ≤ 15 →
  Z.testbit (causes s) k =
    (if decide (k = 15) then timer s else if decide (k = 10) then negb (irqs_pending s =? 0)
     else Z.testbit (c0_cause s) k) && Z.testbit (c0_status s) k.
Proof using.
  intros H Hk. unfold causes, read_c0_cause. rewrite !Z.land_spec, !Z.lor_spec.
  assert (Ef : Z.testbit CAUSEF_IP k = true).
  { assert (Hd : k = 8 ∨ k = 9 ∨ k = 10 ∨ k = 11 ∨ k = 12 ∨ k = 13 ∨ k = 14 ∨ k = 15) by lia.
    by repeat destruct Hd as [->|Hd]; [..|subst]. }
  rewrite Ef, andb_true_r. f_equal.
  assert (E2 : Z.testbit (if irqs_pending s =? 0 then 0 else CAUSEF_IP2) k =
               bool_decide (k = 10) && negb (irqs_pending s =? 0)).
  { destruct (irqs_pending s =? 0); [by rewrite Z.bits_0, andb_false_r|]. change CAUSEF_IP2 with (2 ^ 10).
    rewrite Z.pow2_bits_eqb, andb_true_r by lia. by rewrite Z.eqb_sym, eqb_decide. }
  assert (E7 : Z.testbit (if timer s then CAUSEF_IP7 else 0) k = bool_decide (k = 15) && timer s).
  { destruct (timer s); [|by rewrite Z.bits_0, andb_false_r]. change CAUSEF_IP7 with (2 ^ 15).
    rewrite Z.pow2_bits_eqb, andb_true_r by lia. by rewrite Z.eqb_sym, eqb_decide. }
  rewrite E2, E7. assert (Hc : k = 8 ∨ k = 9 ∨ Z.testbit (c0_cause s) k = false).
  { destruct (Z.testbit (c0_cause s) k) eqn:E; [|auto]. apply (dr_cause s H) in E. tauto. }
  destruct (decide (k = 15)) as [->|]; [|destruct (decide (k = 10)) as [->|]].
  - destruct Hc as [?|[?| ->]]; [lia|lia|]. done.
  - destruct Hc as [?|[?| ->]]; [lia|lia|]. cbn. by rewrite orb_false_r.
  - rewrite !bool_decide_false by done. by rewrite orb_false_r.
Qed.

Lemma causes_zero s : dispatch_ready s → (∀ k, 8 ≤ k ≤ 15 → Z.testbit (causes s) k = false) → causes s = 0.
Proof using.
  intros H Hk. apply Z.bits_inj_0. intros k. destruct (decide (8 ≤ k ≤ 15)) as [|Hn]; [by apply Hk|].
  unfold causes. rewrite Z.land_spec. replace (Z.testbit CAUSEF_IP k) with false; [apply andb_false_r|].
  destruct (decide (k < 0)); [by rewrite Z.testbit_neg_r|]. unfold CAUSEF_IP.
  rewrite Z.shiftl_spec by lia. symmetry. destruct (decide (k < 8)); [by rewrite Z.testbit_neg_r by lia|].
  change 255 with (Z.ones 8). rewrite Z.testbit_ones_nonneg by lia. apply Z.ltb_ge. lia.
Qed.

Lemma turn_ext m p q : 0 ≤ m < 32 → (∀ k, 0 ≤ k < 32 → Z.testbit p k = Z.testbit q k) → turn m p = turn m q.
Proof using.
  intros Hm H. apply filter_agree, Forall_forall. intros k Hk%elem_of_cyc; [|done]. by rewrite H.
Qed.

Lemma turn_zero m p : 0 ≤ m < 32 → 0 ≤ p < 2 ^ 32 → (p =? 0) = bool_decide (turn m p = []).
Proof using.
  intros Hm Hp. case_bool_decide as Ht.
  - apply Z.eqb_eq. by eapply turn_nil.
  - apply Z.eqb_neq. intros ->. apply Ht. apply filter_none, Forall_forall. intros k _. by rewrite Z.bits_0.
Qed.

(** Serving the first of [expected] leaves the rest. *)
Lemma expected_timer s s' : dispatch_ready s → served 7 s s' →
  timer s && Z.testbit (c0_status s) 15 = true → expected s = 7 :: expected s'.
Proof using.
  intros H [] Ht. unfold expected. rewrite Ht, sv_timer0, andb_false_r. cbn [app andb]. f_equal.
  destruct sv_scan0 as [-> _]. rewrite sv_cause0.
  assert (Hst : ∀ k, 0 ≤ k → Z.testbit (c0_status s') k = Z.testbit (c0_status s) k).
  { intros k Hk. apply sv_status0; [done|]. by intros [E _]. }
  rewrite !Hst by lia. rewrite (turn_ext _ (irqs_pending s') (irqs_pending s)); [done|apply (dr_scan s H)|].
  intros k Hk. rewrite sv_pending0 by done. rewrite (proj2 (Z.eqb_neq k (7 - 8))) by lia. by rewrite andb_true_r.
Qed.

Lemma expected_line s s1 s' j r : dispatch_ready s → same_scan (set_scan (2 ^ j) j s) s1 →
  irqs_pending s1 = irqs_pending s → timer s1 = timer s → c0_cause s1 = c0_cause s → c0_status s1 = c0_status s →
  served (j + ISR_TABLE_OFFSET) s1 s' → timer s && Z.testbit (c0_status s) 15 = false →
  Z.testbit (c0_status s) 10 = true → turn (isrNumber s) (irqs_pending s) = j :: r →
  expected s = (j + ISR_TABLE_OFFSET) :: expected s'.
Proof using.
  intros H (N1&_&_) Ep Et Ec Es [] Ht H10 Ej. unfold ISR_TABLE_OFFSET in *.
  destruct (turn_next _ _ _ _ (proj1 (dr_scan s H)) Ej) as (Hj&_&->&_).
  assert (Hst : ∀ k, 0 ≤ k → Z.testbit (c0_status s') k = Z.testbit (c0_status s) k).
  { intros k Hk. rewrite <- Es. apply sv_status0; [done|]. intros [E%is_software_iff _]. lia. }
  unfold expected. rewrite Ht, H10, Ej. cbn [app fmap list_fmap]. f_equal.
  rewrite !Hst, H10 by lia. rewrite sv_timer0, Et, sv_cause0, Ec.
  rewrite (proj2 (Z.eqb_neq (j + 8) 7)), andb_true_r, Ht by lia. cbn [app]. do 2 f_equal.
  destruct sv_scan0 as [-> _]. rewrite N1. cbn [isrNumber set_scan]. apply turn_ext; [done|].
  intros k Hk. rewrite sv_pending0, Ep by done. rewrite Z.clearbit_eqb. f_equal.
  replace (j + 8 - 8) with j by lia. by rewrite Z.eqb_sym.
Qed.

(** The software interrupt [n] (0 or 1) after its cause bit has been cleared. *)
Lemma expected_soft s s' n : dispatch_ready s → n = 0 ∨ n = 1 →
  served n (set_c0 (Z.ldiff (c0_cause s) (bit32 (CAUSEB_IP0 + n - INTERRUPT_ID_SOFTWARE_0))) (c0_status s) s) s' →
  timer s && Z.testbit (c0_status s) 15 = false →
  Z.testbit (c0_status s) 10 && negb (irqs_pending s =? 0) = false →
  Z.testbit (c0_cause s) (8 + n) && Z.testbit (c0_status s) (8 + n) = true →
  (n = 1 → Z.testbit (c0_cause s) 8 && Z.testbit (c0_status s) 8 = false) →
  expected s = n :: expected s'.
Proof using.
  intros H Hn [] Ht Hl Hb H8. cbn [c0_cause c0_status timer set_c0 irqs_pending isrNumber irqBit] in *.
  assert (Hm : 0 ≤ isrNumber s < 32) by apply (dr_scan s H).
  assert (Hst : ∀ k, 0 ≤ k → k ≠ 8 + n → Z.testbit (c0_status s') k = Z.testbit (c0_status s) k).
  { intros k Hk Hne. apply sv_status0; [done|]. by intros [_ ?]. }
  assert (Hca : ∀ k, 0 ≤ k → Z.testbit (c0_cause s') k = Z.testbit (c0_cause s) k && negb (k =? 8 + n)).
  { intros k Hk. rewrite sv_cause0, Z.ldiff_spec, bit32_testbit
      by (unfold CAUSEB_IP0, INTERRUPT_ID_SOFTWARE_0; lia).
    do 2 f_equal. unfold CAUSEB_IP0, INTERRUPT_ID_SOFTWARE_0. lia. }
  assert (Hlines : (if Z.testbit (c0_status s) 10 then (λ j, j + ISR_TABLE_OFFSET) <$> turn (isrNumber s) (irqs_pending s)
                    else []) = [] ∧
                   (if Z.testbit (c0_status s') 10 then (λ j, j + ISR_TABLE_OFFSET) <$> turn (isrNumber s') (irqs_pending s')
                    else []) = []).
  { rewrite (Hst 10) by lia. destruct (Z.testbit (c0_status s) 10); [|done]. cbn [andb] in Hl.
    rewrite negb_false_iff, (turn_zero (isrNumber s)) in Hl by (done || apply irqs_pending_range, H).
    apply bool_decide_eq_true in Hl. destruct sv_scan0 as [-> _]. split; [by rewrite Hl|].
    rewrite (turn_ext _ (irqs_pending s') (irqs_pending s)), Hl; [done|done|].
    intros k Hk. rewrite sv_pending0 by done. rewrite (proj2 (Z.eqb_neq k (n - 8))) by lia. by rewrite andb_true_r. }
  destruct Hlines as [L1 L2]. unfold expected. rewrite L1, L2. cbn [app].
  rewrite sv_timer0, (Hst 15), !Hca by lia. rewrite (proj2 (Z.eqb_neq n 7)), andb_true_r, Ht by lia. cbn [app].
  destruct Hn as [->| ->].
  - change (8 + 0) with 8 in Hb. rewrite Hb. rewrite (Hst 9) by lia. change (8 =? 8 + 0) with true. change (9 =? 8 + 0) with false.
    by rewrite andb_false_r, andb_true_r.
  - change (8 + 1) with 9 in Hb. rewrite (H8 eq_refl), Hb. rewrite (Hst 8) by lia. change (8 =? 8 + 1) with false. change (9 =? 8 + 1) with true.
    by rewrite andb_true_r, (H8 eq_refl), andb_false_r.
Qed.

Lemma causes_nonzero s k : Z.testbit (causes s) k = true → (causes s =? 0) = false.
Proof using. intros H. apply Z.eqb_neq. intros E. by rewrite E, Z.bits_0 in H. Qed.

(** The four tests of the dispatcher. *)
Lemma cause_tests s : dispatch_ready s →
  negb (Z.land (causes s) CAUSEF_IP7 =? 0) = timer s && Z.testbit (c0_status s) 15 ∧
  negb (Z.land (causes s) CAUSEF_IP2 =? 0) = Z.testbit (c0_status s) 10 && negb (irqs_pending s =? 0) ∧
  negb (Z.land (causes s) CAUSEF_IP0 =? 0) = Z.testbit (c0_cause s) 8 && Z.testbit (c0_status s) 8 ∧
  negb (Z.land (causes s) CAUSEF_IP1 =? 0) = Z.testbit (c0_cause s) 9 && Z.testbit (c0_status s) 9.
Proof using.
  intros H. change CAUSEF_IP7 with (2 ^ 15). change CAUSEF_IP2 with (2 ^ 10). change CAUSEF_IP0 with (2 ^ 8).
  change CAUSEF_IP1 with (2 ^ 9). rewrite !land_pow2, !negb_involutive, !cause_bit by (done || lia).
  repeat split. apply andb_comm.
Qed.

Lemma causes_none s : dispatch_ready s → timer s && Z.testbit (c0_status s) 15 = false →
  Z.testbit (c0_status s) 10 && negb (irqs_pending s =? 0) = false →
  Z.testbit (c0_cause s) 8 && Z.testbit (c0_status s) 8 = false →
  Z.testbit (c0_cause s) 9 && Z.testbit (c0_status s) 9 = false →
  causes s = 0 ∧ expected s = [].
Proof using.
  intros H H15 H10 H8 H9. split.
  - apply causes_zero; [done|]. intros k Hk. rewrite cause_bit by done.
    destruct (decide (k = 15)) as [->|]; [done|]. destruct (decide (k = 10)) as [->|]; [by rewrite andb_comm|].
    destruct (decide (k = 8)) as [->|]; [done|]. destruct (decide (k = 9)) as [->|]; [done|].
    rewrite (dr_status s H k) by lia. apply andb_false_r.
  - unfold expected. rewrite H15, H8, H9. destruct (Z.testbit (c0_status s) 10); [|done].
    cbn [andb] in H10. rewrite negb_false_iff, (turn_zero (isrNumber s)) in H10
      by (apply (dr_scan s H) || apply irqs_pending_range, H).
    apply bool_decide_eq_true in H10. by rewrite H10.
Qed.

(** The three kinds of service. *)
Lemma serve_line s : dispatch_ready s → timer s && Z.testbit (c0_status s) 15 = false →
  Z.testbit (c0_status s) 10 && negb (irqs_pending s =? 0) = true →
  ∃ x s', irq_dispatch_int device s = Done (tt, s') ∧ expected s = x :: expected s' ∧ dispatch_ready s' ∧
    dispatched s' = dispatched s ++ [x].
Proof using Hquiet.
  intros H H15 [H10 Hp]%andb_true_iff. pose proof H as [Hsc Hli Hca Hst Hle Hch Htm].
  rewrite irq_dispatch_int_run by done.
  rewrite (turn_zero (isrNumber s)), negb_true_iff, bool_decide_eq_false in Hp
    by (apply Hsc || by apply irqs_pending_range).
  destruct (turn (isrNumber s) (irqs_pending s)) as [|j r] eqn:Ej; [done|].
  destruct (turn_next _ _ _ _ (proj1 Hsc) Ej) as (Hj&_).
  set (s1 := ext_clear (j + ISR_TABLE_OFFSET) (set_scan (2 ^ j) j s)).
  assert (F : same_scan (set_scan (2 ^ j) j s) s1 ∧ irqs_pending s1 = irqs_pending s ∧ timer s1 = timer s ∧
    c0_cause s1 = c0_cause s ∧ c0_status s1 = c0_status s ∧ irq_descs s1 = irq_descs s ∧ IrqStatus s1 = IrqStatus s).
  { unfold s1, ext_clear. by repeat case_match. }
  destruct F as (F1&F2&F3&F4&F5&F6&F7).
  assert (H1 : dispatch_ready s1).
  { constructor; rewrite ?F3, ?F4, ?F5, ?F6, ?F7; try done. unfold scan_ok. destruct F1 as (->&->&_).
    by apply set_scan_ok. }
  destruct (do_IRQ_served (j + ISR_TABLE_OFFSET) s1) as (s'&E&Sv);
    [unfold ISR_TABLE_OFFSET; lia|apply H1|apply H1|apply H1|by intros; apply H1|].
  exists (j + ISR_TABLE_OFFSET), s'. split; [done|]. split; [by eapply expected_line|]. split.
  - eapply served_ready; [exact H1| |exact Sv]. unfold ISR_TABLE_OFFSET. lia.
  - rewrite (sv_dispatched _ _ _ Sv). by destruct F1 as (_&_&->).
Qed.

Lemma serve_soft s n : dispatch_ready s → n = 0 ∨ n = 1 → timer s && Z.testbit (c0_status s) 15 = false →
  Z.testbit (c0_status s) 10 && negb (irqs_pending s =? 0) = false →
  Z.testbit (c0_cause s) (8 + n) && Z.testbit (c0_status s) (8 + n) = true →
  (n = 1 → Z.testbit (c0_cause s) 8 && Z.testbit (c0_status s) 8 = false) →
  ∃ s', irq_dispatch_sw device n s = Done (tt, s') ∧ expected s = n :: expected s' ∧ dispatch_ready s' ∧
    dispatched s' = dispatched s ++ [n].
Proof using Hquiet.
  intros H Hn H15 H10 Hb H8. pose proof H as [Hsc Hli Hca Hst Hle Hch Htm].
  unfold irq_dispatch_sw. rewrite bind_modify. set (s1 := set_c0 _ _ s).
  assert (H1 : dispatch_ready s1).
  { constructor; try done. intros k. unfold s1. cbn [c0_cause set_c0]. rewrite Z.ldiff_spec, andb_true_iff. intros [Hk _]. auto. }
  destruct (do_IRQ_served n s1) as (s'&E&Sv); [lia|done..|].
  exists s'. split; [done|]. split; [by eapply expected_soft|].
  split; [eapply (served_ready n); [exact H1|lia|exact Sv]|apply Sv].
Qed.

(** One round of the dispatcher. *)
Lemma dispatch_round s n : dispatch_ready s →
  (expected s = [] ∧ plat_irq_dispatch device (S n) s = Done (tt, s)) ∨
  ∃ x s', expected s = x :: expected s' ∧ dispatch_ready s' ∧ dispatched s' = dispatched s ++ [x] ∧
    plat_irq_dispatch device (S n) s = plat_irq_dispatch device n s'.
Proof using Hquiet.
  intros H. pose proof H as [Hsc Hli _ _ Hle Hch Htm].
  cbn [plat_irq_dispatch]. rewrite bind_gets. fold (causes s).
  destruct (cause_tests s H) as (T7&T2&T0&T1). rewrite T7, T2, T0, T1.
  assert (Hnz : ∀ b f, negb (Z.land (causes s) f =? 0) = b → b = true → (causes s =? 0) = false).
  { intros b f E ->. destruct (Z.eqb_spec (causes s) 0) as [E0|]; [|done]. by rewrite E0, Z.land_0_l in E. }
  destruct (timer s && Z.testbit (c0_status s) 15) eqn:H15.
  { right. rewrite (Hnz _ _ T7 eq_refl). destruct (do_IRQ_served MIPS_TIMER_INT s) as (s'&E&Sv); [done..|].
    exists 7, s'. split; [by apply expected_timer|].
    split; [by apply (served_ready 7 s)|split; [apply Sv|by mstep E]]. }
  destruct (Z.testbit (c0_status s) 10 && negb (irqs_pending s =? 0)) eqn:H10.
  { right. rewrite (Hnz _ _ T2 eq_refl). destruct (serve_line s H H15 H10) as (x&s'&E&?&?&?).
    exists x, s'. do 3 (split; [done|]). by mstep E. }
  destruct (Z.testbit (c0_cause s) 8 && Z.testbit (c0_status s) 8) eqn:H8.
  { right. rewrite (Hnz _ _ T0 eq_refl).
    destruct (serve_soft s INTERRUPT_ID_SOFTWARE_0) as (s'&E&?&?&?); [done|by left|done..|].
    exists 0, s'. do 3 (split; [done|]). by mstep E. }
  destruct (Z.testbit (c0_cause s) 9 && Z.testbit (c0_status s) 9) eqn:H9.
  { right. rewrite (Hnz _ _ T1 eq_refl).
    destruct (serve_soft s INTERRUPT_ID_SOFTWARE_1) as (s'&E&?&?&?); [done|by right|done..|].
    exists 1, s'. do 3 (split; [done|]). by mstep E. }
  left. destruct (causes_none s H H15 H10 H8 H9) as [-> ->]. done.
Qed.

Lemma expected_length s : (length (expected s) ≤ 35)%nat.
Proof using.
  unfold expected. rewrite !length_app.
  assert (Ht : (length (turn (isrNumber s) (irqs_pending s)) ≤ 32)%nat).
  { unfold turn. etransitivity; [apply length_filter|]. by rewrite cyc_length. }
  repeat case_match; rewrite ?length_fmap; cbn [length]; lia.
Qed.

(** [C12] One call of [plat_irq_dispatch] serves everything: when handlers take
    their device's request back, the loop ends after at most 35 rounds, the
    interrupts it dispatched are exactly the pending and enabled ones, each once,
    the timer first, then the peripherals in round-robin order from the line
    served last, then the software interrupts; and nothing is pending any more. *)
Theorem plat_irq_dispatch_drains s : dispatch_ready s →
  ∃ s', plat_irq_dispatch device 36 s = Done (tt, s') ∧ dispatched s' = dispatched s ++ expected s ∧
    expected s' = [] ∧ dispatch_ready s'.
Proof using Hquiet.
  intros H. pose proof (expected_length s) as Hl.
  assert (Hn : (length (expected s) < 36)%nat) by lia. clear Hl. revert H Hn. generalize 36%nat as n.
  intros n. revert s. induction n as [|n IH]; intros s H Hn; [lia|].
  destruct (dispatch_round s n H) as [[E R]|(x&s1&E&H1&D&R)].
  - exists s. rewrite R, E, app_nil_r. done.
  - rewrite E in Hn. cbn [length] in Hn. destruct (IH s1 H1 ltac:(lia)) as (s'&E'&D'&?&?).
    exists s'. rewrite R, E', D', D, E, <- app_assoc. done.
Qed.
End drain.

(** ** Mapping an interrupt *)

(** A peripheral interrupt without a handler is mapped: the result is 0, its chip
    is the one that does not unmask, its line is enabled and the next interrupt
    calls the handler.  A number that has a handler already, and is not shared,
    is refused with -EBUSY, but its chip has been replaced all the same: its old
    owner's interrupt is not unmasked any more. *)
Theorem BcmHalMapInterrupt_correct param irq s d : 8 ≤ irq < 40 → irq ≠ INTERRUPT_ID_MPI →
  irq_descs s !! Z.to_nat irq = Some d →
  Z.testbit (desc_status d) 18 = false → Z.testbit (desc_status d) 19 = false →
  ∃ s' d', irq_descs s' !! Z.to_nat irq = Some d' ∧ chip d' = brcm_irq_chip_no_unmask ∧
    match actions d with
    | [] => BcmHalMapInterrupt true true param irq s = Done (0, s') ∧ callable d' = true ∧
            Z.testbit (IrqMask s') (irq - 8) = true
    | old => BcmHalMapInterrupt true true param irq s = Done (u32 (- IRQ_EBUSY), s') ∧ actions d' = old ∧
            IrqMask s' = IrqMask s
    end.
Proof.
  intros Hi Hm Ed H18 H19. pose proof (lookup_lt_Some _ _ _ Ed) as Hl.
  set (d1 := with_chip brcm_irq_chip_no_unmask d). set (s1 := store_desc irq d1 s).
  assert (E1 : set_irq_chip_and_handler irq brcm_irq_chip_no_unmask s = Done (tt, s1)).
  { unfold set_irq_chip_and_handler, NR_IRQS. rewrite (proj2 (Z.leb_gt 128 irq)) by lia.
    by mstep (desc_at_run irq s d ltac:(lia) Ed). }
  assert (Ed1 : irq_descs s1 !! Z.to_nat irq = Some d1) by (by apply put_lookup).
  set (fl := Z.lor IRQF_DISABLED IRQF_SAMPLE_RANDOM).
  assert (E2 : request_irq true irq fl param s1 = setup_irq irq fl s1).
  { unfold request_irq, NR_IRQS. change (Z.land fl IRQF_SHARED =? 0) with true. cbn [negb andb].
    rewrite (proj2 (Z.leb_gt 128 irq)) by lia. mstep (desc_at_run irq s1 d1 ltac:(lia) Ed1).
    change IRQ_NOREQUEST with (2 ^ 18). rewrite land_pow2 by lia. cbn [d1 desc_status with_chip]. by rewrite H18. }
  assert (E3 : BcmHalMapInterrupt true true param irq s = (r ← setup_irq irq fl; mret (u32 r)) s1).
  { unfold BcmHalMapInterrupt. cbn [negb]. mstep E1. rewrite (proj2 (Z.eqb_neq _ _) Hm). fold fl.
    unfold mbind, M_bind. by rewrite E2. }
  rewrite E3. clear E3. unfold setup_irq. rewrite bind_assoc. mstep (desc_at_run irq s1 d1 ltac:(lia) Ed1).
  rewrite (bool_decide_false (chip d1 = no_irq_chip)) by done. cbn [d1 with_chip actions].
  destruct (actions d) as [|old r] eqn:Ea; cycle 1.
  - exists s1, d1. split; [done|]. split; [done|].
    replace (Z.land (Z.land old fl) IRQF_SHARED =? 0) with true.
    + split; [done|]. split; [exact Ea|done].
    + rewrite <- Z.land_assoc. change (Z.land fl IRQF_SHARED) with 0. by rewrite Z.land_0_r.
  - change IRQ_NOAUTOEN with (2 ^ 19). rewrite land_pow2 by lia. cbn [d1 desc_status with_chip].
    rewrite Z.ldiff_spec, H19. cbn [andb negb].
    rewrite bind_assoc, put_desc_bind, bind_assoc, bind_modify, bind_ret. eexists _, _.
    split; [|split; [|split; [reflexivity|split]]].
    + rewrite (descs_unmask brcm_irq_chip irq). apply put_lookup. by eapply lookup_lt_Some.
    + done.
    + unfold callable. cbn [desc_status actions]. rewrite !Z.ldiff_spec.
      change (Z.testbit (Z.lor IRQ_AUTODETECT (Z.lor IRQ_WAITING IRQ_INPROGRESS)) 8) with true.
      change (Z.testbit IRQ_DISABLED 9) with true. by rewrite !andb_false_r.
    + rewrite enable_mask by lia. by rewrite Z.eqb_refl, orb_true_r.
Qed.

(** ** Witnesses *)

Section witnesses.
(** A system with a handler for every number; UART (line 2), Ethernet (line 8) and
    an external interrupt (line 26) pending, line 8 served last. *)
Definition demo_irqs : irqs :=
  {| IrqStatus := 0x04000104; IrqMask := 0xffffffff; ExtIrqCfg := 0; ExtIrqCfg1 := 0; timer := true;
     c0_cause := 0x200; c0_status := 0x8701; irqBit := 256; isrNumber := 8;
     irq_descs := replicate 128 {| chip := brcm_irq_chip; desc_status := 0; actions := [0x20] |};
     dispatched := []; events := [] |}.

Lemma demo_dispatch_ready : dispatch_ready demo_irqs.
Proof.
  constructor; try done.
  - split; [done|by left].
  - intros k Hk. cbn in Hk. change 0x200 with (2 ^ 9) in Hk. rewrite Z.pow2_bits_eqb in Hk by lia.
    apply Z.eqb_eq in Hk. lia.
  - intros k Hk. assert (Hd : k = 11 ∨ k = 12 ∨ k = 13 ∨ k = 14) by lia.
    by repeat destruct Hd as [->|Hd]; [..|subst].
  - by apply Forall_replicate.
  - by eexists.
Qed.

Lemma plat_irq_dispatch_drains_witness :
  ∃ s', plat_irq_dispatch lower 36 demo_irqs = Done (tt, s') ∧ dispatched s' = [7; 34; 10; 16; 1] ∧ expected s' = [].
Proof.
  destruct (plat_irq_dispatch_drains lower ltac:(done) demo_irqs demo_dispatch_ready) as (s'&E&D&X&_).
  exists s'. split; [exact E|]. split; [|exact X]. rewrite D. vm_compute. reflexivity.
Defined.

(** The handlers of this device never take their request back. *)
Definition stubborn (irq : Z) (s : irqs) : irqs := s.

Fixpoint dispatches (n : nat) (s : irqs) : irqs :=
  match n with
  | O => s
  | S n' => match irq_dispatch_int stubborn s with Done (_, s') => dispatches n' s' | _ => s end
  end.

Lemma rounds_run i n : ∀ s, (∀ m, (m < n)%nat → 0 ≤ IrqStatus (dispatches m s) < 2 ^ 32 ∧
    Z.testbit (irqs_pending (dispatches m s)) i = true ∧
    ∃ s', irq_dispatch_int stubborn (dispatches m s) = Done (tt, s')) →
  rounds stubborn i n s (dispatches n s).
Proof.
  induction n as [|n IH]; intros s H; [constructor|].
  destruct (H 0%nat ltac:(lia)) as (Hl&Hb&s'&E). cbn [dispatches] in *. rewrite E.
  eapply rounds_more; [done|exact Hl|exact Hb|exact E|]. apply IH. intros m Hm.
  specialize (H (S m) ltac:(lia)). cbn [dispatches] in H. by rewrite E in H.
Qed.

Lemma irq_round_robin_fair_witness :
  ∃ l1 l2, dispatched (dispatches 32 demo_irqs) = [] ++ l1 ++ (2 + ISR_TABLE_OFFSET) :: l2.
Proof.
  apply (irq_round_robin_fair stubborn ltac:(done) 2 demo_irqs (dispatches 32 demo_irqs)).
  - split; [done|by left].
  - lia.
  - apply rounds_run. intros m Hm.
    assert (Hall : forallb (λ m, let s := dispatches m demo_irqs in
      (IrqStatus s =? 0x04000104) && Z.testbit (irqs_pending s) 2 &&
      match irq_dispatch_int stubborn s with Done _ => true | _ => false end) (seq 0 32) = true)
      by (vm_compute; reflexivity).
    rewrite forallb_forall in Hall. specialize (Hall m ltac:(apply in_seq; lia)). cbv zeta in Hall.
    rewrite !andb_true_iff, Z.eqb_eq in Hall. destruct Hall as [[-> ->] Hd].
    split; [done|]. split; [done|].
    destruct (irq_dispatch_int stubborn (dispatches m demo_irqs)) as [[[] s']| | |]; [by exists s'|done..].
Defined.

Lemma level_interrupt_flow_witness :
  ∃ sh s', do_IRQ stubborn 10 demo_irqs = Done (tt, s') ∧ Z.testbit (IrqMask sh) 2 = false ∧
    events sh = [10] ∧ Z.testbit (IrqMask s') 2 = true.
Proof.
  destruct (level_interrupt_flow stubborn 10 demo_irqs {| chip := brcm_irq_chip; desc_status := 0; actions := [0x20] |})
    as (sh&s'&E&M&Ev&_&_&M'&_); [lia|done..|].
  exists sh, s'. split; [exact E|]. split; [exact M|]. split; [exact Ev|exact M'].
Defined.
End witnesses.
