(* ===== verification/Serial.v ===== *)
(** * The serial port ([bcm63xx_cons.c])

    The UART driver: receiving, sending from the circular buffer of the serial
    core, the interrupt handler, line settings and the console.  The UART itself
    is a value of any type with the operations of the class [UartHw]. *)

From stdpp Require Import base numbers list.
From Stdlib Require Import ZArith Lia Bool.
From S2P Require Import Prelude Irq.

Definition UART_NR : Z := 2.
Definition PORT_BCM63XX : Z := 63.
Definition BCM63XX_ISR_PASS_LIMIT : nat := 256.
Definition UART_XMIT_SIZE : Z := 4096.
Definition WAKEUP_CHARS : Z := 256.
Definition FIFOSIZE : Z := 16.
Definition UART_FPERIPH : Z := 50000000.
Definition UARTCLK : Z := 14745600.
Definition INTERRUPT_ID_UART : Z := ISR_TABLE_OFFSET + 2.
Definition UART_CONFIG_TYPE : Z := 1.
Definition TIOCSER_TEMT : Z := 1.

Definition DELTAIP : Z := 0x0001.
Definition TXFIFOTHOLD : Z := 0x0008.
Definition TXFIFOEMT : Z := 0x0020.
Definition RXOVFERR : Z := 0x0080.
Definition RXFIFONE : Z := 0x0800.
Definition RXFRAMERR : Z := 0x1000.
Definition RXPARERR : Z := 0x2000.
Definition RXBRK : Z := 0x4000.

Definition TTY_NORMAL : Z := 0.
Definition TTY_BREAK : Z := 1.
Definition TTY_FRAME : Z := 2.
Definition TTY_PARITY : Z := 3.

Definition BRGEN : Z := 0x80.
Definition TXEN : Z := 0x40.
Definition RXEN : Z := 0x20.
Definition TXPARITYEN : Z := 0x08.
Definition TXPARITYEVEN : Z := 0x04.
Definition RXPARITYEN : Z := 0x02.
Definition RXPARITYEVEN : Z := 0x01.
Definition BITS5SYM : Z := 0x00.
Definition BITS6SYM : Z := 0x10.
Definition BITS7SYM : Z := 0x20.
Definition BITS8SYM : Z := 0x30.
Definition ONESTOP : Z := 0x07.
Definition TWOSTOP : Z := 0x0f.
Definition RSTTXFIFOS : Z := 0x80.
Definition RSTRXFIFOS : Z := 0x40.

Definition CSIZE : Z := 48.
Definition CS5 : Z := 0.
Definition CS6 : Z := 16.
Definition CS7 : Z := 32.
Definition CSTOPB : Z := 64.
Definition CREAD : Z := 128.
Definition PARENB : Z := 256.
Definition PARODD : Z := 512.
Definition IGNBRK : Z := 1.
Definition BRKINT : Z := 2.
Definition IGNPAR : Z := 4.
Definition PARMRK : Z := 8.
Definition INPCK : Z := 16.

(** The registers of the UART that answer: each read may change the device. *)
Class UartHw (H : Type) : Type := {
  hw_intStatus : H → Z * H;
  hw_Data : H → Z * H;
  hw_txf_levl : H → Z * H;
  hw_DeltaIP : H → H;
  hw_send : Z → H → H
}.

(** The registers that keep what is written to them. *)
Record uregs : Type := {
  control : Z; config : Z; fifoctl : Z; baudword : Z; fifocfg : Z; intMask : Z
}.

(** [struct uart_icount]. *)
Record uicount : Type := {
  ic_rx : Z; ic_tx : Z; ic_brk : Z; ic_parity : Z; ic_frame : Z; ic_overrun : Z
}.

(** [struct circ_buf]. *)
Record circ_buf : Type := { xmit_buf : list Z; xmit_head : Z; xmit_tail : Z }.

(** [struct uart_port] with its tty and the interrupt controller; [tty] is what has
    been inserted, [u_sent] and [u_read] list the writes to and the reads from
    the data register, [u_wakeups] counts the wake-ups of writers. *)
Record uport (H : Type) : Type := {
  u_hw : H;
  u_regs : uregs;
  icount : uicount;
  xmit : circ_buf;
  x_char : Z;
  stopped : bool;
  read_status_mask : Z;
  ignore_status_mask : Z;
  port_type : Z;
  tty : list (Z * Z);
  u_irqs : irqs;
  u_sent : list Z;
  u_read : list Z;
  u_wakeups : Z
}.

Arguments u_hw {H}.
Arguments u_regs {H}.
Arguments icount {H}.
Arguments xmit {H}.
Arguments x_char {H}.
Arguments stopped {H}.
Arguments read_status_mask {H}.
Arguments ignore_status_mask {H}.
Arguments port_type {H}.
Arguments tty {H}.
Arguments u_irqs {H}.
Arguments u_sent {H}.
Arguments u_read {H}.
Arguments u_wakeups {H}.

Definition with_intMask (m : Z) (r : uregs) : uregs :=
  {| control := control r; config := config r; fifoctl := fifoctl r; baudword := baudword r;
     fifocfg := fifocfg r; intMask := m |}.
Definition with_fifocfg (f : Z) (r : uregs) : uregs :=
  {| control := control r; config := config r; fifoctl := fifoctl r; baudword := baudword r;
     fifocfg := f; intMask := intMask r |}.

Definition count_rx (i : uicount) : uicount :=
  {| ic_rx := u32 (ic_rx i + 1); ic_tx := ic_tx i; ic_brk := ic_brk i; ic_parity := ic_parity i;
     ic_frame := ic_frame i; ic_overrun := ic_overrun i |}.
Definition count_tx (i : uicount) : uicount :=
  {| ic_rx := ic_rx i; ic_tx := u32 (ic_tx i + 1); ic_brk := ic_brk i; ic_parity := ic_parity i;
     ic_frame := ic_frame i; ic_overrun := ic_overrun i |}.
Definition count_brk (i : uicount) : uicount :=
  {| ic_rx := ic_rx i; ic_tx := ic_tx i; ic_brk := u32 (ic_brk i + 1); ic_parity := ic_parity i;
     ic_frame := ic_frame i; ic_overrun := ic_overrun i |}.
Definition count_parity (i : uicount) : uicount :=
  {| ic_rx := ic_rx i; ic_tx := ic_tx i; ic_brk := ic_brk i; ic_parity := u32 (ic_parity i + 1);
     ic_frame := ic_frame i; ic_overrun := ic_overrun i |}.
Definition count_frame (i : uicount) : uicount :=
  {| ic_rx := ic_rx i; ic_tx := ic_tx i; ic_brk := ic_brk i; ic_parity := ic_parity i;
     ic_frame := u32 (ic_frame i + 1); ic_overrun := ic_overrun i |}.
Definition count_overrun (i : uicount) : uicount :=
  {| ic_rx := ic_rx i; ic_tx := ic_tx i; ic_brk := ic_brk i; ic_parity := ic_parity i;
     ic_frame := ic_frame i; ic_overrun := u32 (ic_overrun i + 1) |}.

Section serial.
Context {H : Type} `{UartHw H}.
(** The build option that opens the port, and the bound of the waiting loops. *)
Context (BUILD_SERIAL_OPEN : bool) (polls : nat).
Abbreviation port := (uport H).

Definition upd_hw (h : H) (p : port) : port :=
  {| u_hw := h; u_regs := u_regs p; icount := icount p; xmit := xmit p; x_char := x_char p; stopped := stopped p;
     read_status_mask := read_status_mask p; ignore_status_mask := ignore_status_mask p; port_type := port_type p;
     tty := tty p; u_irqs := u_irqs p; u_sent := u_sent p; u_read := u_read p; u_wakeups := u_wakeups p |}.
Definition upd_regs (r : uregs) (p : port) : port :=
  {| u_hw := u_hw p; u_regs := r; icount := icount p; xmit := xmit p; x_char := x_char p; stopped := stopped p;
     read_status_mask := read_status_mask p; ignore_status_mask := ignore_status_mask p; port_type := port_type p;
     tty := tty p; u_irqs := u_irqs p; u_sent := u_sent p; u_read := u_read p; u_wakeups := u_wakeups p |}.
Definition upd_icount (i : uicount) (p : port) : port :=
  {| u_hw := u_hw p; u_regs := u_regs p; icount := i; xmit := xmit p; x_char := x_char p; stopped := stopped p;
     read_status_mask := read_status_mask p; ignore_status_mask := ignore_status_mask p; port_type := port_type p;
     tty := tty p; u_irqs := u_irqs p; u_sent := u_sent p; u_read := u_read p; u_wakeups := u_wakeups p |}.
Definition upd_xmit (c : circ_buf) (p : port) : port :=
  {| u_hw := u_hw p; u_regs := u_regs p; icount := icount p; xmit := c; x_char := x_char p; stopped := stopped p;
     read_status_mask := read_status_mask p; ignore_status_mask := ignore_status_mask p; port_type := port_type p;
     tty := tty p; u_irqs := u_irqs p; u_sent := u_sent p; u_read := u_read p; u_wakeups := u_wakeups p |}.
Definition upd_x_char (x : Z) (p : port) : port :=
  {| u_hw := u_hw p; u_regs := u_regs p; icount := icount p; xmit := xmit p; x_char := x; stopped := stopped p;
     read_status_mask := read_status_mask p; ignore_status_mask := ignore_status_mask p; port_type := port_type p;
     tty := tty p; u_irqs := u_irqs p; u_sent := u_sent p; u_read := u_read p; u_wakeups := u_wakeups p |}.
Definition upd_masks (r i : Z) (p : port) : port :=
  {| u_hw := u_hw p; u_regs := u_regs p; icount := icount p; xmit := xmit p; x_char := x_char p; stopped := stopped p;
     read_status_mask := r; ignore_status_mask := i; port_type := port_type p;
     tty := tty p; u_irqs := u_irqs p; u_sent := u_sent p; u_read := u_read p; u_wakeups := u_wakeups p |}.
Definition upd_type (t : Z) (p : port) : port :=
  {| u_hw := u_hw p; u_regs := u_regs p; icount := icount p; xmit := xmit p; x_char := x_char p; stopped := stopped p;
     read_status_mask := read_status_mask p; ignore_status_mask := ignore_status_mask p; port_type := t;
     tty := tty p; u_irqs := u_irqs p; u_sent := u_sent p; u_read := u_read p; u_wakeups := u_wakeups p |}.
Definition upd_tty (t : list (Z * Z)) (p : port) : port :=
  {| u_hw := u_hw p; u_regs := u_regs p; icount := icount p; xmit := xmit p; x_char := x_char p; stopped := stopped p;
     read_status_mask := read_status_mask p; ignore_status_mask := ignore_status_mask p; port_type := port_type p;
     tty := t; u_irqs := u_irqs p; u_sent := u_sent p; u_read := u_read p; u_wakeups := u_wakeups p |}.
Definition upd_irqs (i : irqs) (p : port) : port :=
  {| u_hw := u_hw p; u_regs := u_regs p; icount := icount p; xmit := xmit p; x_char := x_char p; stopped := stopped p;
     read_status_mask := read_status_mask p; ignore_status_mask := ignore_status_mask p; port_type := port_type p;
     tty := tty p; u_irqs := i; u_sent := u_sent p; u_read := u_read p; u_wakeups := u_wakeups p |}.
Definition upd_data (h : H) (s r : list Z) (p : port) : port :=
  {| u_hw := h; u_regs := u_regs p; icount := icount p; xmit := xmit p; x_char := x_char p; stopped := stopped p;
     read_status_mask := read_status_mask p; ignore_status_mask := ignore_status_mask p; port_type := port_type p;
     tty := tty p; u_irqs := u_irqs p; u_sent := s; u_read := r; u_wakeups := u_wakeups p |}.

Definition upd_wakeups (w : Z) (p : port) : port :=
  {| u_hw := u_hw p; u_regs := u_regs p; icount := icount p; xmit := xmit p; x_char := x_char p; stopped := stopped p;
     read_status_mask := read_status_mask p; ignore_status_mask := ignore_status_mask p; port_type := port_type p;
     tty := tty p; u_irqs := u_irqs p; u_sent := u_sent p; u_read := u_read p; u_wakeups := w |}.

(** Register accesses. *)
Definition read_intStatus : M port Z := λ p,
  let '(v, h) := hw_intStatus (u_hw p) in Done (v, upd_hw h p).
Definition read_txf_levl : M port Z := λ p,
  let '(v, h) := hw_txf_levl (u_hw p) in Done (v, upd_hw h p).
Definition read_Data : M port Z := λ p,
  let '(v, h) := hw_Data (u_hw p) in Done (v, upd_data h (u_sent p) (u_read p ++ [u8 v]) p).
Definition write_Data (c : Z) : M port unit :=
  modify (λ p, upd_data (hw_send c (u_hw p)) (u_sent p ++ [c]) (u_read p) p).
Definition set_intMask (f : Z → Z) : M port unit :=
  modify (λ p, upd_regs (with_intMask (f (intMask (u_regs p))) (u_regs p)) p).

(** ** The circular buffer *)

Definition uart_circ_empty (c : circ_buf) : bool := xmit_head c =? xmit_tail c.
Definition uart_circ_chars_pending (c : circ_buf) : Z := Z.land (xmit_head c - xmit_tail c) (UART_XMIT_SIZE - 1).
Definition uart_circ_chars_free (c : circ_buf) : Z := Z.land (xmit_tail c - (xmit_head c + 1)) (UART_XMIT_SIZE - 1).

Definition circ_char (c : circ_buf) : option Z := xmit_buf c !! Z.to_nat (xmit_tail c).
Definition circ_drop (c : circ_buf) : circ_buf :=
  {| xmit_buf := xmit_buf c; xmit_head := xmit_head c; xmit_tail := Z.land (xmit_tail c + 1) (UART_XMIT_SIZE - 1) |}.
Definition circ_put (ch : Z) (c : circ_buf) : circ_buf :=
  {| xmit_buf := <[Z.to_nat (xmit_head c) := ch]> (xmit_buf c);
     xmit_head := Z.land (xmit_head c + 1) (UART_XMIT_SIZE - 1); xmit_tail := xmit_tail c |}.

(** ** Sending *)

Definition bcm63xx_stop_tx : M port unit := set_intMask (λ m, Z.ldiff m (Z.lor TXFIFOEMT TXFIFOTHOLD)).
Definition bcm63xx_stop_rx : M port unit := set_intMask (λ m, Z.ldiff m RXFIFONE).

Fixpoint wait_TXFIFOEMT (n : nat) : M port unit :=
  match n with
  | O => nofuel
  | S n' =>
      st ← read_intStatus;
      if Z.land st TXFIFOEMT =? 0 then wait_TXFIFOEMT n' else mret tt
  end.

(** The loop that fills the FIFO; at most one pass per character of the buffer. *)
Fixpoint tx_loop (n : nat) : M port unit :=
  match n with
  | O => nofuel
  | S n' =>
      levl ← read_txf_levl;
      if levl <? FIFOSIZE then
        c ← gets xmit;
        ch ← of_option (circ_char c);
        (if BUILD_SERIAL_OPEN then write_Data ch else mret tt);;
        modify (upd_xmit (circ_drop c));;
        modify (λ p, upd_icount (count_tx (icount p)) p);;
        c' ← gets xmit;
        if uart_circ_empty c' then mret tt else tx_loop n'
      else mret tt
  end.

Definition bcm63xx_tx_chars : M port unit :=
  set_intMask (λ m, Z.ldiff m TXFIFOTHOLD);;
  x ← gets x_char;
  if negb (x =? 0) then
    wait_TXFIFOEMT polls;;
    (if BUILD_SERIAL_OPEN then write_Data x else mret tt);;
    modify (λ p, upd_icount (count_tx (icount p)) p);;
    modify (upd_x_char 0)
  else
    c ← gets xmit;
    st ← gets stopped;
    if uart_circ_empty c || st then bcm63xx_stop_tx
    else
      tx_loop (Z.to_nat UART_XMIT_SIZE);;
      c' ← gets xmit;
      (if uart_circ_chars_pending c' <? WAKEUP_CHARS
       then modify (λ p, upd_wakeups (u_wakeups p + 1) p) else mret tt);;
      if uart_circ_empty c' then bcm63xx_stop_tx else set_intMask (λ m, Z.lor m TXFIFOTHOLD).

Definition bcm63xx_start_tx : M port unit :=
  m ← gets (λ p, intMask (u_regs p));
  if Z.land m TXFIFOEMT =? 0 then
    set_intMask (λ m, Z.lor m TXFIFOEMT);;
    bcm63xx_tx_chars
  else mret tt.

(** ** Receiving *)

(** The error branch: the counters, then the flag; without an error bit the flag
    keeps its value. *)
Definition rx_error (status flag : Z) : M port Z :=
  status ←
    (if negb (Z.land status RXBRK =? 0) then
       modify (λ p, upd_icount (count_brk (icount p)) p);;
       mret (Z.ldiff status (Z.lor RXFRAMERR RXPARERR))
     else if negb (Z.land status RXPARERR =? 0) then
       modify (λ p, upd_icount (count_parity (icount p)) p);; mret status
     else if negb (Z.land status RXFRAMERR =? 0) then
       modify (λ p, upd_icount (count_frame (icount p)) p);; mret status
     else mret status);
  (if negb (Z.land status RXOVFERR =? 0)
   then modify (λ p, upd_icount (count_overrun (icount p)) p) else mret tt);;
  mask ← gets read_status_mask;
  let status := Z.land status mask in
  mret (if negb (Z.land status RXBRK =? 0) then TTY_BREAK
        else if negb (Z.land status RXPARERR =? 0) then TTY_PARITY
        else if negb (Z.land status RXFRAMERR =? 0) then TTY_FRAME
        else flag).

Definition RX_ERRORS : Z := Z.lor RXBRK (Z.lor RXFRAMERR (Z.lor RXPARERR RXOVFERR)).

Definition tty_insert_flip_char (ch flag : Z) : M port unit :=
  modify (λ p, upd_tty (tty p ++ [(ch, flag)]) p).

(** [n] is [max_count].  The kernel is built without SysRq: no character and no
    break is taken by it. *)
Fixpoint rx_loop (n : nat) (status flag : Z) : M port unit :=
  if Z.land status RXFIFONE =? 0 then mret tt
  else match n with
  | O => mret tt
  | S n' =>
      v ← read_Data;
      modify (λ p, upd_icount (count_rx (icount p)) p);;
      flag ← (if Z.land status RX_ERRORS =? 0 then mret flag else rx_error status flag);
      (if BUILD_SERIAL_OPEN then tty_insert_flip_char (u8 v) flag else mret tt);;
      status ← read_intStatus;
      rx_loop n' status flag
  end.

Definition bcm63xx_rx_chars : M port unit :=
  status ← read_intStatus;
  rx_loop 256 status TTY_NORMAL.

(** ** Interrupts *)

Definition bcm63xx_modem_status : M port unit := modify (λ p, upd_hw (hw_DeltaIP (u_hw p)) p).

Fixpoint int_loop (pass_counter : nat) : M port unit :=
  st ← read_intStatus;
  m ← gets (λ p, intMask (u_regs p));
  let status := Z.land st m in
  if status =? 0 then mret tt
  else
    (if negb (Z.land status RXFIFONE =? 0) then bcm63xx_rx_chars else mret tt);;
    (if negb (Z.land status (Z.lor TXFIFOEMT TXFIFOTHOLD) =? 0) then bcm63xx_tx_chars else mret tt);;
    (if negb (Z.land status DELTAIP =? 0) then bcm63xx_modem_status else mret tt);;
    match pass_counter with O => mret tt | S n => int_loop n end.

Definition bcm63xx_int (irq : Z) : M port unit :=
  int_loop BCM63XX_ISR_PASS_LIMIT;;
  modify (λ p, upd_irqs (enable_brcm_irq irq (u_irqs p)) p).

Definition bcm63xx_tx_empty : M port Z :=
  st ← read_intStatus;
  mret (if Z.land st TXFIFOEMT =? 0 then 0 else TIOCSER_TEMT).

(** [mem1], [mem2]: the allocations of [BcmHalMapInterrupt], whose result is not
    looked at. *)
Definition bcm63xx_startup (mem1 mem2 : bool) (port_addr irq : Z) : M port Z :=
  p ← get;
  match BcmHalMapInterrupt mem1 mem2 port_addr irq (u_irqs p) with
  | Done (_, i) =>
      modify (upd_irqs (enable_brcm_irq irq i));;
      modify (λ p, upd_regs (with_intMask RXFIFONE (with_fifocfg (u8 (Z.shiftl FIFOSIZE 4)) (u_regs p))) p);;
      mret 0
  | Fault => fault | Blocked => blocked | NoFuel => nofuel
  end.

Definition bcm63xx_shutdown (irq : Z) : M port unit :=
  modify (λ p, upd_irqs (disable_brcm_irq irq (u_irqs p)) p);;
  set_intMask (λ _, 0).

(** ** Line settings *)

Definition termios_config (c_cflag : Z) : Z :=
  let size := Z.land c_cflag CSIZE in
  let config := if size =? CS5 then BITS5SYM else if size =? CS6 then BITS6SYM
                else if size =? CS7 then BITS7SYM else BITS8SYM in
  Z.lor config (if negb (Z.land c_cflag CSTOPB =? 0) then TWOSTOP else ONESTOP).

Definition termios_control (c_cflag : Z) : Z :=
  if negb (Z.land c_cflag PARENB =? 0) then
    let control := Z.lor TXPARITYEN RXPARITYEN in
    if Z.land c_cflag PARODD =? 0 then Z.lor control (Z.lor TXPARITYEVEN RXPARITYEVEN) else control
  else 0.

Definition termios_read_mask (c_iflag : Z) : Z :=
  let m := RXOVFERR in
  let m := if negb (Z.land c_iflag INPCK =? 0) then Z.lor m (Z.lor RXFRAMERR RXPARERR) else m in
  if negb (Z.land c_iflag (Z.lor BRKINT PARMRK) =? 0) then Z.lor m RXBRK else m.

Definition termios_ignore_mask (c_cflag c_iflag : Z) : Z :=
  let ignpar := negb (Z.land c_iflag IGNPAR =? 0) in
  let m := if ignpar then Z.lor RXFRAMERR RXPARERR else 0 in
  let m := if negb (Z.land c_iflag IGNBRK =? 0) then
             let m := Z.lor m RXBRK in if ignpar then Z.lor m RXOVFERR else m
           else m in
  if Z.land c_cflag CREAD =? 0 then Z.lor m RXFIFONE else m.

(** The clock select value for [baud]. *)
Definition baud_divisor (baud : Z) : Z :=
  let tmpVal := UART_FPERIPH / baud / 16 in
  if negb (Z.land tmpVal 1 =? 0) then tmpVal / 2 else u32 (tmpVal / 2 - 1).

(** [baud] is what [uart_get_baud_rate] returns; a division by zero traps. *)
Definition bcm63xx_set_termios (c_cflag c_iflag baud : Z) : M port unit :=
  if baud =? 0 then fault
  else
    modify (upd_masks (termios_read_mask c_iflag) (termios_ignore_mask c_cflag c_iflag));;
    modify (λ p, upd_regs
      {| control := Z.lor (termios_control c_cflag) (Z.lor BRGEN (Z.lor TXEN RXEN));
         config := termios_config c_cflag; fifoctl := Z.lor RSTTXFIFOS RSTRXFIFOS;
         baudword := baud_divisor baud; fifocfg := fifocfg (u_regs p); intMask := intMask (u_regs p) |} p).

Definition bcm63xx_config_port (flags : Z) : M port unit :=
  if negb (Z.land flags UART_CONFIG_TYPE =? 0) then modify (upd_type PORT_BCM63XX) else mret tt.

Definition bcm63xx_type (p : port) : option (list Z) :=
  if port_type p =? PORT_BCM63XX then Some [66; 67; 77; 54; 51; 88; 88] else None.

(** ** The console *)

Fixpoint wait_sent (n : nat) : M port unit :=
  match n with
  | O => nofuel
  | S n' => levl ← read_txf_levl; if levl =? 0 then mret tt else wait_sent n'
  end.

Definition console_putc (c : Z) : M port unit :=
  (if BUILD_SERIAL_OPEN then write_Data c else mret tt);; wait_sent polls.

Fixpoint console_loop (s : list Z) : M port unit :=
  match s with
  | [] => mret tt
  | c :: s' =>
      console_putc c;;
      (if c =? 10 then console_putc 13 else mret tt);;
      console_loop s'
  end.

Definition bcm63xx_console_write (s : list Z) : M port unit :=
  wait_sent polls;;
  mask ← gets (λ p, intMask (u_regs p));
  set_intMask (λ _, 0);;
  console_loop s;;
  set_intMask (λ _, mask).

(** The port a console is set up on. *)
Definition console_index (index : Z) : Z := if UART_NR <=? index then 0 else index.

(** ** The callers in the serial core *)

Definition uart_put_char (ch : Z) : M port unit :=
  c ← gets xmit;
  if uart_circ_chars_free c =? 0 then mret tt else modify (upd_xmit (circ_put ch c)).

Definition uart_start : M port unit :=
  c ← gets xmit;
  st ← gets stopped;
  if negb (uart_circ_empty c) && negb st then bcm63xx_start_tx else mret tt.
End serial.
