(* ===== verification/SerialClaims.v ===== *)
(** * The serial port: proofs

    The circular buffer as a queue, output and input in order whatever the UART
    does, the console, and the rate. *)

From stdpp Require Import base numbers list.
From Stdlib Require Import ZArith Lia Bool.
From S2P Require Import Prelude Irq IrqClaims Serial.

(** ** The circular buffer is a queue *)

Record ring_ok (c : circ_buf) : Prop := {
  ro_length : length (xmit_buf c) = Z.to_nat UART_XMIT_SIZE;
  ro_head : 0 ≤ xmit_head c < UART_XMIT_SIZE;
  ro_tail : 0 ≤ xmit_tail c < UART_XMIT_SIZE
}.

Definition ring_from (buf : list Z) (t : Z) (n : nat) : list Z :=
  (λ i, nth (Z.to_nat ((t + Z.of_nat i) mod UART_XMIT_SIZE)) buf 0) <$> seq 0 n.

Definition ring_length (c : circ_buf) : Z := (xmit_head c - xmit_tail c) mod UART_XMIT_SIZE.

(** The characters waiting, the oldest first. *)
Definition ring_list (c : circ_buf) : list Z := ring_from (xmit_buf c) (xmit_tail c) (Z.to_nat (ring_length c)).

Lemma land_size x : Z.land x (UART_XMIT_SIZE - 1) = x mod UART_XMIT_SIZE.
Proof. change (UART_XMIT_SIZE - 1) with (Z.ones 12). by rewrite Z.land_ones. Qed.

Lemma ring_length_range c : 0 ≤ ring_length c < UART_XMIT_SIZE.
Proof. apply Z.mod_pos_bound. done. Qed.

Lemma ring_from_cons buf t n : ring_from buf t (S n) =
  nth (Z.to_nat (t mod UART_XMIT_SIZE)) buf 0 :: ring_from buf ((t + 1) mod UART_XMIT_SIZE) n.
Proof.
  unfold ring_from. cbn [seq fmap list_fmap]. f_equal; [do 3 f_equal; lia|].
  rewrite <- seq_shift. change (map S (seq 0 n)) with (S <$> seq 0 n). rewrite <- list_fmap_compose.
  apply list_fmap_ext. intros _ i _. cbn. do 2 f_equal. rewrite Zplus_mod_idemp_l. f_equal. lia.
Qed.

Lemma ring_from_snoc buf t n : ring_from buf t (S n) =
  ring_from buf t n ++ [nth (Z.to_nat ((t + Z.of_nat n) mod UART_XMIT_SIZE)) buf 0].
Proof. unfold ring_from. by rewrite seq_S, fmap_app. Qed.

Lemma ring_list_length c : length (ring_list c) = Z.to_nat (ring_length c).
Proof. unfold ring_list, ring_from. by rewrite length_fmap, length_seq. Qed.

Lemma ring_empty c : ring_ok c → uart_circ_empty c = bool_decide (ring_list c = []).
Proof.
  intros [_ Hh Ht]. unfold uart_circ_empty. pose proof (ring_length_range c) as Hr.
  pose proof (ring_list_length c) as Hl. destruct (Z.eqb_spec (xmit_head c) (xmit_tail c)) as [E|E].
  - assert (E0 : ring_length c = 0) by (unfold ring_length; rewrite E, Z.sub_diag; done).
    symmetry. apply bool_decide_true, length_zero_iff_nil. rewrite Hl, E0. done.
  - symmetry. apply bool_decide_false. intros En. rewrite En in Hl. cbn in Hl.
    assert (E0 : ring_length c = 0) by lia. unfold ring_length in E0.
    apply Z.mod_divide in E0 as [q Hq]; [|done]. unfold UART_XMIT_SIZE in *. lia.
Qed.

Lemma ring_drop c ch l : ring_ok c → ring_list c = ch :: l →
  circ_char c = Some ch ∧ ring_list (circ_drop c) = l ∧ ring_ok (circ_drop c).
Proof.
  intros [Hb Hh Ht] E. pose proof (ring_list_length c) as Hl. rewrite E in Hl. cbn [length] in Hl.
  pose proof (ring_length_range c) as Hr. unfold ring_list in E.
  replace (Z.to_nat (ring_length c)) with (S (Z.to_nat (ring_length c - 1))) in E by lia.
  rewrite ring_from_cons, Z.mod_small in E by done. injection E as <- <-. split; [|split].
  - unfold circ_char. destruct (lookup_lt_is_Some_2 (xmit_buf c) (Z.to_nat (xmit_tail c))) as [x Hx]; [lia|].
    rewrite Hx. by rewrite nth_lookup, Hx.
  - unfold ring_list, circ_drop. cbn [xmit_buf xmit_tail]. rewrite land_size. do 2 f_equal.
    unfold ring_length. cbn [xmit_head xmit_tail]. fold (ring_length c).
    rewrite Zminus_mod_idemp_r. replace (xmit_head c - (xmit_tail c + 1)) with (xmit_head c - xmit_tail c - 1) by lia.
    rewrite <- (Zminus_mod_idemp_l _ 1). fold (ring_length c). apply Z.mod_small. lia.
  - constructor; cbn [circ_drop xmit_buf xmit_head xmit_tail]; [done..|]. rewrite land_size. by apply Z.mod_pos_bound.
Qed.

Lemma ring_put c ch : ring_ok c → uart_circ_chars_free c ≠ 0 →
  ring_list (circ_put ch c) = ring_list c ++ [ch] ∧ ring_ok (circ_put ch c).
Proof.
  intros [Hb Hh Ht] Hf. unfold uart_circ_chars_free in Hf. rewrite land_size in Hf. split.
  - pose proof (ring_length_range c) as Hr.
    assert (En : ring_length (circ_put ch c) = ring_length c + 1).
    { unfold ring_length, circ_put. cbn [xmit_head xmit_tail]. rewrite land_size, Zminus_mod_idemp_l.
      replace (xmit_head c + 1 - xmit_tail c) with (xmit_head c - xmit_tail c + 1) by lia.
      rewrite <- (Zplus_mod_idemp_l _ 1). fold (ring_length c). apply Z.mod_small.
      assert (ring_length c ≠ UART_XMIT_SIZE - 1); [|unfold UART_XMIT_SIZE in *; lia].
      intros E. apply Hf. replace (xmit_tail c - (xmit_head c + 1)) with (- (xmit_head c - xmit_tail c + 1)) by lia.
      apply Z_mod_zero_opp_full. rewrite <- Zplus_mod_idemp_l. fold (ring_length c). by rewrite E. }
    unfold ring_list. rewrite En, Z2Nat.inj_add by lia. change (Z.to_nat 1) with 1%nat.
    rewrite Nat.add_1_r, ring_from_snoc. cbn [circ_put xmit_buf xmit_tail].
    assert (Eh : (xmit_tail c + Z.of_nat (Z.to_nat (ring_length c))) mod UART_XMIT_SIZE = xmit_head c).
    { rewrite Z2Nat.id by lia. unfold ring_length. rewrite Zplus_mod_idemp_r.
      replace (xmit_tail c + (xmit_head c - xmit_tail c)) with (xmit_head c) by lia. by apply Z.mod_small. }
    rewrite Eh, nth_lookup, list_lookup_insert_eq by lia. f_equal.
    unfold ring_from. apply list_fmap_ext. intros i k Hk. apply lookup_seq in Hk as [-> Hk].
    rewrite !nth_lookup, list_lookup_insert_ne; [done|]. intros E2.
    apply Z2Nat.inj in E2; [|lia|by apply Z.mod_pos_bound]. rewrite Nat.add_0_l in E2.
    rewrite <- Eh in E2. pose proof E2 as E3.
    assert (Hd : (Z.of_nat (Z.to_nat (ring_length c)) - Z.of_nat i) mod UART_XMIT_SIZE = 0).
    { replace (Z.of_nat (Z.to_nat (ring_length c)) - Z.of_nat i) with
        ((xmit_tail c + Z.of_nat (Z.to_nat (ring_length c))) - (xmit_tail c + Z.of_nat i)) by lia.
      rewrite Zminus_mod, E3, Z.sub_diag. done. }
    rewrite Z.mod_small in Hd by lia. lia.
  - constructor; cbn [circ_put xmit_buf xmit_head xmit_tail]; [by rewrite length_insert| |done].
    rewrite land_size. by apply Z.mod_pos_bound.
Qed.

(** ** Output and input *)

Section claims.
Context {H : Type} `{UartHw H}.
Context (open : bool) (polls : nat).
Implicit Types p : uport H.

Definition queue p : list Z := ring_list (xmit p).

(** [p'] comes from [p] by sending from the front of the queue and reading from the
    data register: what left the queue was sent in order, what was read went to
    the tty in order; in a closed build both are dropped. *)
Record io_step p p' : Prop := {
  io_ring : ring_ok (xmit p) → ring_ok (xmit p');
  io_x_char : x_char p' = x_char p;
  io_stopped : stopped p' = stopped p;
  io_irqs : u_irqs p' = u_irqs p;
  io_out : ring_ok (xmit p) →
    ∃ cs, queue p = cs ++ queue p' ∧ u_sent p' = u_sent p ++ (if open then cs else []);
  io_in : ∃ cs, u_read p' = u_read p ++ cs ∧ (tty p').*1 = (tty p).*1 ++ (if open then cs else [])
}.

#[local] Instance io_step_refl : Reflexive io_step.
Proof.
  intros p. constructor; try done; [intros _|]; exists []; destruct open; by rewrite ?app_nil_r.
Qed.

#[local] Instance io_step_trans : Transitive io_step.
Proof.
  intros p1 p2 p3 [R1 X1 S1 I1 O1 N1] [R2 X2 S2 I2 O2 N2]. constructor; [auto|congruence..| |].
  - intros Hr. destruct (O1 Hr) as (a&Ea&Sa). destruct (O2 (R1 Hr)) as (b&Eb&Sb). exists (a ++ b).
    rewrite Ea, Eb, Sb, Sa, <- !app_assoc. split; [done|]. by destruct open.
  - destruct N1 as (a&Ea&Ta), N2 as (b&Eb&Tb). exists (a ++ b). rewrite Eb, Ea, Tb, Ta, <- !app_assoc.
    split; [done|]. by destruct open.
Qed.

(** Steps that touch neither queue nor data. *)
Lemma io_quiet p p' : xmit p' = xmit p → x_char p' = x_char p → stopped p' = stopped p → u_irqs p' = u_irqs p →
  u_sent p' = u_sent p → u_read p' = u_read p → tty p' = tty p → io_step p p'.
Proof.
  intros Ex Ec Es Ei Et Er Ey. constructor; unfold queue; rewrite ?Ex, ?Et, ?Er, ?Ey; try done.
  - intros _. exists []. destruct open; by rewrite app_nil_r.
  - exists []. destruct open; by rewrite !app_nil_r.
Qed.

Lemma intStatus_run p : ∃ v h, read_intStatus p = Done (v, upd_hw h p).
Proof. unfold read_intStatus. destruct (hw_intStatus (u_hw p)) as [v h]. eauto. Qed.

Lemma txf_levl_run p : ∃ v h, read_txf_levl p = Done (v, upd_hw h p).
Proof. unfold read_txf_levl. destruct (hw_txf_levl (u_hw p)) as [v h]. eauto. Qed.

(** *** Sending *)

Lemma tx_loop_run n : ∀ p, ring_ok (xmit p) → queue p ≠ [] → (length (queue p) ≤ n)%nat →
  ∃ p', tx_loop open n p = Done (tt, p') ∧ io_step p p' ∧ u_regs p' = u_regs p.
Proof.
  induction n as [|n IH]; intros p Hr Hq Hn; [destruct (queue p); cbn in Hn; [done|lia]|].
  cbn [tx_loop]. destruct (txf_levl_run p) as (v&h&E). mstep E.
  destruct (v <? FIFOSIZE); [|by eexists; split; [done|split; [by apply io_quiet|done]]].
  rewrite bind_gets. cbn [xmit upd_hw]. destruct (queue p) as [|ch l] eqn:Eq; [done|].
  destruct (ring_drop _ _ _ Hr Eq) as (Ec&El&Hr'). rewrite Ec. cbn [of_option]. rewrite bind_ret.
  set (p1 := if open then upd_data (hw_send ch h) (u_sent p ++ [ch]) (u_read p) (upd_hw h p) else upd_hw h p).
  assert (E1 : (if open then write_Data ch else mret tt) (upd_hw h p) = Done (tt, p1)) by (unfold p1; by destruct open).
  mstep E1. rewrite !bind_modify, bind_gets. set (p2 := upd_icount _ _).
  assert (X2 : xmit p2 = circ_drop (xmit p)) by (by unfold p2).
  assert (S2 : io_step p p2).
  { constructor; unfold p2, p1, queue; [intros _; by destruct open|by destruct open..| |].
    - intros _. exists [ch]. unfold queue in Eq. rewrite Eq. destruct open; cbn [xmit u_sent upd_icount upd_xmit upd_data upd_hw].
      + by rewrite El.
      + by rewrite El, app_nil_r.
    - exists []. destruct open; cbn [tty u_read upd_icount upd_xmit upd_data upd_hw]; by rewrite !app_nil_r. }
  assert (R2 : u_regs p2 = u_regs p) by (unfold p2, p1; by destruct open).
  rewrite X2, (ring_empty _ Hr'), El. case_bool_decide as Hl; [by exists p2|].
  cbn [length] in Hn. destruct (IH p2) as (p'&E'&S'&R'); [by rewrite X2|unfold queue; by rewrite X2, El| |].
  { unfold queue. rewrite X2, El. lia. }
  exists p'. split; [done|]. split; [by etransitivity|congruence].
Qed.

(** The sender can wait: it will be called again when the FIFO has room. *)
Definition no_stall p : Prop :=
  queue p ≠ [] → stopped p = false → Z.testbit (intMask (u_regs p)) 5 = true.

Lemma stop_tx_run p : ∃ p', bcm63xx_stop_tx p = Done (tt, p') ∧ io_step p p'.
Proof. eexists. split; [done|]. by apply io_quiet. Qed.

Lemma mask_thold m : Z.testbit (Z.ldiff m TXFIFOTHOLD) 5 = Z.testbit m 5 ∧
  Z.testbit (Z.lor m TXFIFOTHOLD) 5 = Z.testbit m 5.
Proof. rewrite Z.ldiff_spec, Z.lor_spec. change (Z.testbit TXFIFOTHOLD 5) with false. by rewrite andb_true_r, orb_false_r. Qed.

Lemma tx_chars_run p : ring_ok (xmit p) → x_char p = 0 →
  ∃ p', bcm63xx_tx_chars open polls p = Done (tt, p') ∧ io_step p p' ∧
    (Z.testbit (intMask (u_regs p)) 5 = true → no_stall p').
Proof.
  intros Hr Hx. unfold bcm63xx_tx_chars. set (p0 := upd_regs (with_intMask (Z.ldiff (intMask (u_regs p)) TXFIFOTHOLD)
    (u_regs p)) p).
  assert (E0 : set_intMask (λ m, Z.ldiff m TXFIFOTHOLD) p = Done (tt, p0)) by done.
  mstep E0. rewrite bind_gets. change (x_char p0) with (x_char p). rewrite Hx. cbn [Z.eqb negb].
  rewrite !bind_gets. change (xmit p0) with (xmit p). change (stopped p0) with (stopped p).
  assert (S0 : io_step p p0) by (by apply io_quiet).
  rewrite (ring_empty _ Hr). fold (queue p). destruct (bool_decide (queue p = []) || stopped p) eqn:Eb.
  { eexists. split; [done|]. split; [by apply io_quiet|]. intros _ Hq Hs. unfold queue in Hq. cbn in Hq, Hs.
    apply orb_true_iff in Eb as [Eb|Eb]; [apply bool_decide_eq_true in Eb; done|congruence]. }
  apply orb_false_iff in Eb as [Eb Es]. apply bool_decide_eq_false in Eb.
  destruct (tx_loop_run (Z.to_nat UART_XMIT_SIZE) p0) as (p1&E1&S1&R1); [done|done| |].
  { unfold queue. cbn. rewrite ring_list_length. pose proof (ring_length_range (xmit p)). lia. }
  mstep E1. rewrite bind_gets.
  set (p2 := if uart_circ_chars_pending (xmit p1) <? WAKEUP_CHARS then upd_wakeups (u_wakeups p1 + 1) p1 else p1).
  assert (E2 : (if uart_circ_chars_pending (xmit p1) <? WAKEUP_CHARS
       then modify (λ p, upd_wakeups (u_wakeups p + 1) p) else mret tt) p1 = Done (tt, p2)) by (unfold p2; by case_match).
  mstep E2. assert (S2 : io_step p p2).
  { etransitivity; [exact S0|]. etransitivity; [exact S1|]. unfold p2. case_match; [by apply io_quiet|reflexivity]. }
  assert (X2 : xmit p2 = xmit p1 ∧ u_regs p2 = u_regs p0) by (unfold p2; rewrite <- R1; by case_match).
  destruct X2 as [X2 R2]. rewrite (ring_empty (xmit p1)) by (by apply (io_ring _ _ S1)). fold (queue p1).
  case_bool_decide as Hq.
  - eexists. split; [done|]. split; [etransitivity; [exact S2|by apply io_quiet]|]. intros _ Hq'.
    unfold queue in Hq'. cbn in Hq'. by rewrite X2 in Hq'.
  - eexists. split; [done|]. split; [etransitivity; [exact S2|by apply io_quiet]|]. intros H5 _ _.
    cbn [u_regs upd_regs intMask with_intMask]. rewrite (proj2 (mask_thold _)), R2.
    change (intMask (u_regs p0)) with (Z.ldiff (intMask (u_regs p)) TXFIFOTHOLD). by rewrite (proj1 (mask_thold _)).
Qed.

(** *** Receiving *)

Lemma rx_error_run st fl p : ∃ fl' i, rx_error st fl p = Done (fl', upd_icount i p).
Proof.
  unfold rx_error. destruct (negb (Z.land st RXBRK =? 0)); [|destruct (negb (Z.land st RXPARERR =? 0));
    [|destruct (negb (Z.land st RXFRAMERR =? 0))]]; rewrite ?bind_assoc, ?bind_modify, ?bind_ret;
    match goal with |- context [Z.land ?x RXOVFERR] => destruct (negb (Z.land x RXOVFERR =? 0)) end;
    rewrite ?bind_assoc, ?bind_modify, ?bind_ret, ?bind_gets;
    first [eexists _, _; reflexivity|eexists _, (icount p); by destruct p].
Qed.

Lemma rx_loop_run n : ∀ st fl p, ∃ p', rx_loop open n st fl p = Done (tt, p') ∧ io_step p p' ∧
  u_regs p' = u_regs p ∧ xmit p' = xmit p.
Proof.
  induction n as [|n IH]; intros st fl p; cbn [rx_loop]; case_match; try by exists p.
  unfold read_Data at 1. destruct (hw_Data (u_hw p)) as [v h] eqn:Ed.
  set (p1 := upd_data h (u_sent p) (u_read p ++ [u8 v]) p).
  assert (E1 : (λ p, let '(v, h) := hw_Data (u_hw p) in
                Done (v, upd_data h (u_sent p) (u_read p ++ [u8 v]) p)) p = Done (v, p1)) by (by rewrite Ed).
  mstep E1. rewrite bind_modify. set (p2 := upd_icount _ p1).
  assert (E2 : ∃ fl' i, (if Z.land st RX_ERRORS =? 0 then mret fl else rx_error st fl) p2 = Done (fl', upd_icount i p2)).
  { case_match; [|apply rx_error_run]. exists fl, (icount p2). by destruct p2. }
  destruct E2 as (fl'&i&E2). mstep E2. set (p3 := upd_icount i p2).
  set (p4 := if open then upd_tty (tty p3 ++ [(u8 v, fl')]) p3 else p3).
  assert (E4 : (if open then tty_insert_flip_char (u8 v) fl' else mret tt) p3 = Done (tt, p4))
    by (unfold p4; by destruct open).
  mstep E4. destruct (intStatus_run p4) as (st'&h'&E5). mstep E5.
  destruct (IH st' fl' (upd_hw h' p4)) as (p'&E'&S'&R'&X').
  exists p'. split; [done|]. split; [etransitivity; [|exact S']|].
  - assert (F : xmit p4 = xmit p ∧ x_char p4 = x_char p ∧ stopped p4 = stopped p ∧ u_irqs p4 = u_irqs p ∧
      u_sent p4 = u_sent p ∧ u_read p4 = u_read p ++ [u8 v] ∧ (tty p4).*1 = (tty p).*1 ++ (if open then [u8 v] else [])).
    { unfold p4. destruct open; cbn [tty upd_tty]; rewrite ?fmap_app, ?app_nil_r; by repeat split. }
    destruct F as (F1&F2&F3&F4&F5&F6&F7). constructor; unfold queue; cbn [xmit upd_hw x_char stopped u_irqs u_sent u_read tty];
      rewrite ?F1; try done.
    + intros _. exists []. rewrite F5. split; [done|]. destruct open; by rewrite app_nil_r.
    + exists [u8 v]. done.
  - rewrite R', X'. unfold p4. by destruct open.
Qed.

Lemma rx_chars_run p : ∃ p', bcm63xx_rx_chars open p = Done (tt, p') ∧ io_step p p' ∧ u_regs p' = u_regs p ∧ xmit p' = xmit p.
Proof.
  unfold bcm63xx_rx_chars. destruct (intStatus_run p) as (st&h&E). mstep E.
  destruct (rx_loop_run 256 st TTY_NORMAL (upd_hw h p)) as (p'&E'&S'&R'&X'). exists p'. split; [done|].
  split; [etransitivity; [|exact S']; by apply io_quiet|done].
Qed.

(** *** The interrupt handler *)

(** What every operation keeps. *)
Definition port_ok p : Prop := ring_ok (xmit p) ∧ x_char p = 0 ∧ no_stall p.

Lemma tx_chars_ok p : port_ok p → ∃ p', bcm63xx_tx_chars open polls p = Done (tt, p') ∧ io_step p p' ∧ port_ok p'.
Proof.
  intros (Hr&Hx&Hn). destruct (tx_chars_run p Hr Hx) as (p'&E&S'&N'). exists p'. split; [done|]. split; [done|].
  split; [by apply (io_ring _ _ S')|]. split; [by rewrite (io_x_char _ _ S')|].
  intros Hq Hs. apply N'; [|done..]. rewrite (io_stopped _ _ S') in Hs. apply Hn; [|done].
  destruct (io_out _ _ S' Hr) as (cs&->&_). intros [_ ?]%app_nil. done.
Qed.

(** Steps that keep the queue and the registers. *)
Lemma port_ok_keep p p' : io_step p p' → u_regs p' = u_regs p → xmit p' = xmit p → port_ok p → port_ok p'.
Proof.
  intros S' R' X' (Hr&Hx&Hn). split; [by rewrite X'|]. split; [by rewrite (io_x_char _ _ S')|].
  unfold no_stall, queue. by rewrite X', R', (io_stopped _ _ S').
Qed.

(** One pass of the interrupt loop. *)
Lemma int_pass status p (rest : M (uport H) unit) : port_ok p →
  ∃ p', ((if negb (Z.land status RXFIFONE =? 0) then bcm63xx_rx_chars open else mret tt);;
         (if negb (Z.land status (Z.lor TXFIFOEMT TXFIFOTHOLD) =? 0) then bcm63xx_tx_chars open polls else mret tt);;
         (if negb (Z.land status DELTAIP =? 0) then bcm63xx_modem_status else mret tt);; rest) p = rest p' ∧
    io_step p p' ∧ port_ok p'.
Proof.
  intros Hp.
  assert (B1 : ∃ p1, (if negb (Z.land status RXFIFONE =? 0) then bcm63xx_rx_chars open else mret tt) p = Done (tt, p1) ∧
    io_step p p1 ∧ port_ok p1).
  { destruct (negb (Z.land status RXFIFONE =? 0)); [|by exists p]. destruct (rx_chars_run p) as (p1&?&?&?&?). exists p1.
    split; [done|]. split; [done|]. by eapply port_ok_keep. }
  destruct B1 as (p1&E1&S1&H1). mstep E1.
  assert (B2 : ∃ p2, (if negb (Z.land status (Z.lor TXFIFOEMT TXFIFOTHOLD) =? 0) then bcm63xx_tx_chars open polls
    else mret tt) p1 = Done (tt, p2) ∧ io_step p1 p2 ∧ port_ok p2).
  { destruct (negb (Z.land status (Z.lor TXFIFOEMT TXFIFOTHOLD) =? 0)); [by apply tx_chars_ok|by exists p1]. }
  destruct B2 as (p2&E2&S2&H2). mstep E2.
  destruct (negb (Z.land status DELTAIP =? 0));
    [unfold bcm63xx_modem_status; rewrite bind_modify|rewrite bind_ret]; eexists; (split; [done|]).
  - split; [|by apply (port_ok_keep p2); [apply io_quiet|..]].
    etransitivity; [exact S1|]. etransitivity; [exact S2|]. by apply io_quiet.
  - split; [by etransitivity|done].
Qed.

Lemma int_loop_run n : ∀ p, port_ok p → ∃ p', int_loop open polls n p = Done (tt, p') ∧ io_step p p' ∧ port_ok p'.
Proof.
  induction n as [|n IH]; intros p Hp; cbn [int_loop].
  all: destruct (intStatus_run p) as (st&h&E); mstep E; rewrite bind_gets; cbv zeta.
  all: assert (S1 : io_step p (upd_hw h p)) by (by apply io_quiet).
  all: pose proof (port_ok_keep _ _ S1 eq_refl eq_refl Hp) as H1.
  all: destruct (Z.land st _ =? 0); [by exists (upd_hw h p)|].
  - destruct (int_pass (Z.land st (intMask (u_regs (upd_hw h p)))) (upd_hw h p) (mret tt) H1) as (p2&E2&S2&H2).
    exists p2. split; [exact E2|]. split; [by etransitivity|done].
  - destruct (int_pass (Z.land st (intMask (u_regs (upd_hw h p)))) (upd_hw h p) (int_loop open polls n) H1) as (p2&E2&S2&H2).
    destruct (IH p2 H2) as (p'&E'&S'&H'). exists p'. split; [by rewrite E2|].
    split; [|done]. etransitivity; [exact S1|]. by etransitivity.
Qed.

(** *** Any sequence of calls *)

Lemma uart_start_run p : ring_ok (xmit p) → x_char p = 0 →
  ∃ p', uart_start open polls p = Done (tt, p') ∧ io_step p p' ∧ port_ok p'.
Proof.
  intros Hr Hx. unfold uart_start. rewrite !bind_gets, (ring_empty _ Hr). fold (queue p).
  destruct (negb (bool_decide (queue p = [])) && negb (stopped p)) eqn:Eb; cycle 1.
  { exists p. split; [done|]. split; [done|]. split; [done|]. split; [done|]. intros Hq Hs.
    rewrite Hs, (bool_decide_false _ Hq) in Eb. done. }
  unfold bcm63xx_start_tx. rewrite bind_gets. change TXFIFOEMT with (2 ^ 5). rewrite land_pow2 by lia.
  destruct (Z.testbit (intMask (u_regs p)) 5) eqn:E5; cbn [negb].
  - exists p. split; [done|]. split; [done|]. split; [done|]. split; [done|]. by intros _ _.
  - set (p0 := upd_regs (with_intMask (Z.lor (intMask (u_regs p)) (2 ^ 5)) (u_regs p)) p).
    assert (E0 : set_intMask (λ m, Z.lor m (2 ^ 5)) p = Done (tt, p0)) by done. mstep E0.
    assert (S0 : io_step p p0) by (by apply io_quiet).
    destruct (tx_chars_run p0 Hr Hx) as (p'&E'&S'&N'). exists p'. split; [done|].
    split; [by etransitivity|]. split; [by apply (io_ring _ _ S')|]. split; [by rewrite (io_x_char _ _ S')|].
    apply N'. change (intMask (u_regs p0)) with (Z.lor (intMask (u_regs p)) (2 ^ 5)).
    rewrite Z.lor_spec, E5. done.
Qed.

(** The calls of the layers above and the UART's interrupts. *)
Inductive uart_event : Type := Write (cs : list Z) | Interrupt | Stop | Restart.

Definition upd_stopped (b : bool) p : uport H :=
  {| u_hw := u_hw p; u_regs := u_regs p; icount := icount p; xmit := xmit p; x_char := x_char p; stopped := b;
     read_status_mask := read_status_mask p; ignore_status_mask := ignore_status_mask p; port_type := port_type p;
     tty := tty p; u_irqs := u_irqs p; u_sent := u_sent p; u_read := u_read p; u_wakeups := u_wakeups p |}.

(** The characters there was room for. *)
Fixpoint put_all (cs : list Z) : M (uport H) (list Z) :=
  match cs with
  | [] => mret []
  | c :: cs' =>
      free ← gets (λ p, uart_circ_chars_free (xmit p));
      uart_put_char c;;
      acc ← put_all cs';
      mret (if free =? 0 then acc else c :: acc)
  end.

Definition run_event (e : uart_event) : M (uport H) (list Z) :=
  match e with
  | Write cs => acc ← put_all cs; uart_start open polls;; mret acc
  | Interrupt => bcm63xx_int open polls INTERRUPT_ID_UART;; mret []
  | Stop => modify (upd_stopped true);; bcm63xx_stop_tx;; mret []
  | Restart => modify (upd_stopped false);; uart_start open polls;; mret []
  end.

Fixpoint run_events (es : list uart_event) : M (uport H) (list Z) :=
  match es with
  | [] => mret []
  | e :: es' => acc ← run_event e; acc' ← run_events es'; mret (acc ++ acc')
  end.

(** What went through: [acc] was accepted for output. *)
Definition in_order (acc : list Z) p p' : Prop :=
  (∃ cs, queue p ++ acc = cs ++ queue p' ∧ u_sent p' = u_sent p ++ (if open then cs else [])) ∧
  (∃ cs, u_read p' = u_read p ++ cs ∧ (tty p').*1 = (tty p).*1 ++ (if open then cs else [])).

Lemma in_order_io p p' : ring_ok (xmit p) → io_step p p' → in_order [] p p'.
Proof. intros Hr S'. split; [|apply S']. rewrite app_nil_r. by apply S'. Qed.

Lemma in_order_trans a b p1 p2 p3 : in_order a p1 p2 → in_order b p2 p3 → in_order (a ++ b) p1 p3.
Proof.
  intros [(x&Ex&Sx) (u&Eu&Tu)] [(y&Ey&Sy) (v&Ev&Tv)]. split.
  - exists (x ++ y). rewrite app_assoc, Ex, <- app_assoc, Ey, Sy, Sx, <- !app_assoc. split; [done|]. by destruct open.
  - exists (u ++ v). rewrite Ev, Eu, Tv, Tu, <- !app_assoc. split; [done|]. by destruct open.
Qed.

Lemma put_all_run cs : ∀ p, ring_ok (xmit p) → ∃ acc c, put_all cs p = Done (acc, upd_xmit c p) ∧ ring_ok c ∧
  ring_list c = queue p ++ acc.
Proof.
  induction cs as [|ch cs IH]; intros p Hr; cbn [put_all].
  { exists [], (xmit p). split; [by destruct p|]. split; [done|]. by rewrite app_nil_r. }
  rewrite bind_gets. unfold uart_put_char. rewrite bind_assoc, bind_gets.
  destruct (Z.eqb_spec (uart_circ_chars_free (xmit p)) 0) as [E|E].
  - rewrite bind_ret. destruct (IH p Hr) as (acc&c&E1&?&?). mstep E1. by exists acc, c.
  - rewrite bind_modify. destruct (ring_put _ ch Hr E) as [El Hr'].
    destruct (IH (upd_xmit (circ_put ch (xmit p)) p) Hr') as (acc&c&E1&?&E2). mstep E1.
    exists (ch :: acc), c. split; [done|]. split; [done|]. rewrite E2. unfold queue. cbn [xmit upd_xmit].
    by rewrite El, <- app_assoc.
Qed.

Lemma run_event_ok e p : port_ok p → ∃ acc p', run_event e p = Done (acc, p') ∧ port_ok p' ∧ in_order acc p p'.
Proof.
  intros Hp. pose proof Hp as (Hr&Hx&Hn). destruct e as [cs| | |]; cbn [run_event].
  - destruct (put_all_run cs p Hr) as (acc&c&E1&Hc&El). mstep E1.
    destruct (uart_start_run (upd_xmit c p) Hc Hx) as (p'&E2&S2&H2). mstep E2.
    exists acc, p'. split; [done|]. split; [done|]. rewrite <- (app_nil_r acc).
    eapply in_order_trans; [|by eapply in_order_io; [|exact S2]]. split.
    + exists []. unfold queue at 2. cbn [xmit upd_xmit u_sent]. rewrite El. destruct open; by rewrite app_nil_r.
    + exists []. cbn [u_read tty upd_xmit]. destruct open; by rewrite !app_nil_r.
  - unfold bcm63xx_int. destruct (int_loop_run BCM63XX_ISR_PASS_LIMIT p Hp) as (p1&E1&S1&H1).
    rewrite bind_assoc. mstep E1. rewrite bind_modify. eexists [], _. split; [done|].
    split; [exact H1|]. pose proof (in_order_io _ _ Hr S1) as I1. exact I1.
  - rewrite bind_modify. eexists [], _. split; [done|]. split; [split; [done|split; [done|]]|].
    + intros _. done.
    + split; exists []; destruct open; by rewrite ?app_nil_r.
  - rewrite bind_modify. destruct (uart_start_run (upd_stopped false p) Hr Hx) as (p'&E2&S2&H2). mstep E2.
    exists [], p'. split; [done|]. split; [done|]. exact (in_order_io (upd_stopped false p) p' Hr S2).
Qed.

(** [C11] Output and input of the serial port: for every UART, on a port with no
    urgent character to send ([x_char]), and every sequence of writes, interrupts, stops and restarts, every call returns; the characters
    given to the UART are those accepted for output, in order, without loss or
    duplication, and what has not been sent is still queued; the characters read
    from the UART reach the tty in order; and whenever characters wait on a port
    that is not stopped, the transmit interrupt is enabled, so that sending goes
    on.  In a build without BUILD_SERIAL_OPEN nothing is sent or delivered. *)
Theorem serial_in_order (es : list uart_event) p : ring_ok (xmit p) → x_char p = 0 → no_stall p →
  ∃ acc p', run_events es p = Done (acc, p') ∧ in_order acc p p' ∧
    ring_ok (xmit p') ∧ x_char p' = 0 ∧ no_stall p'.
Proof.
  intros Hr Hx Hn. assert (Hp : port_ok p) by done. clear Hr Hx Hn.
  revert p Hp. induction es as [|e es IH]; intros p Hp; cbn [run_events].
  - exists [], p. split; [done|]. destruct Hp as (?&?&?). split; [by apply in_order_io|done].
  - destruct (run_event_ok e p Hp) as (acc&p1&E1&H1&I1). mstep E1.
    destruct (IH p1 H1) as (acc'&p'&E'&I'&?). mstep E'. exists (acc ++ acc'), p'. split; [done|].
    split; [by eapply in_order_trans|done].
Qed.

(** ** The console *)

(** The level of the transmit FIFO at the [n]th read from now. *)
Fixpoint level_after (n : nat) (h : H) : Z :=
  match n with O => fst (hw_txf_levl h) | S n' => level_after n' (snd (hw_txf_levl h)) end.

Lemma wait_sent_run n k : (k < n)%nat → ∀ p, level_after k (u_hw p) = 0 →
  ∃ h, wait_sent n p = Done (tt, upd_hw h p).
Proof.
  revert k. induction n as [|n IH]; intros k Hk p Hl; [lia|]. cbn [wait_sent].
  unfold read_txf_levl at 1. destruct (hw_txf_levl (u_hw p)) as [v h] eqn:E.
  assert (E1 : (λ p, let '(v, h) := hw_txf_levl (u_hw p) in Done (v, upd_hw h p)) p = Done (v, upd_hw h p))
    by (by rewrite E).
  mstep E1. destruct (Z.eqb_spec v 0) as [->|Hv]; [by exists h|].
  destruct k as [|k]; cbn [level_after] in Hl; rewrite E in Hl; [done|].
  destruct (IH k ltac:(lia) (upd_hw h p) Hl) as (h'&E'). exists h'. by rewrite E'.
Qed.

(** What the console puts on the line for a text. *)
Definition crlf (s : list Z) : list Z := s ≫= λ c, if c =? 10 then [10; 13] else [c].

Context (Hdrain : ∀ h, ∃ n, (n < polls)%nat ∧ level_after n h = 0).

Lemma console_putc_run c p : ∃ h, console_putc open polls c p =
  Done (tt, upd_data h (u_sent p ++ (if open then [c] else [])) (u_read p) p).
Proof using Hdrain.
  unfold console_putc. set (p1 := if open then upd_data (hw_send c (u_hw p)) (u_sent p ++ [c]) (u_read p) p else p).
  assert (E1 : (if open then write_Data c else mret tt) p = Done (tt, p1)) by (unfold p1; by destruct open).
  mstep E1. destruct (Hdrain (u_hw p1)) as (n&Hn&Hl). destruct (wait_sent_run polls n Hn p1 Hl) as (h&E2).
  exists h. rewrite E2. unfold p1. destruct open; [done|]. rewrite app_nil_r. done.
Qed.

Lemma console_loop_run s : ∀ p, ∃ h, console_loop open polls s p =
  Done (tt, upd_data h (u_sent p ++ (if open then crlf s else [])) (u_read p) p).
Proof using Hdrain.
  induction s as [|c s IH]; intros p; cbn [console_loop].
  { exists (u_hw p). destruct open; rewrite app_nil_r; by destruct p. }
  destruct (console_putc_run c p) as (h1&E1). mstep E1.
  set (p1 := upd_data h1 _ _ p). destruct (Z.eqb_spec c 10) as [->|Hc].
  - destruct (console_putc_run 13 p1) as (h2&E2). mstep E2. set (p2 := upd_data h2 _ _ p1).
    destruct (IH p2) as (h3&E3). exists h3. rewrite E3.
    assert (Es : u_sent p2 ++ (if open then crlf s else []) = u_sent p ++ (if open then crlf (10 :: s) else []))
      by (unfold p2, p1; cbn [u_sent upd_data]; destruct open; by rewrite <- !app_assoc).
    by rewrite Es.
  - rewrite bind_ret. destruct (IH p1) as (h3&E3). exists h3. rewrite E3.
    assert (Es : u_sent p1 ++ (if open then crlf s else []) = u_sent p ++ (if open then crlf (c :: s) else [])).
    { unfold p1, crlf. cbn [u_sent upd_data mbind list_bind]. rewrite (proj2 (Z.eqb_neq c 10)) by done.
      destruct open; by rewrite <- !app_assoc. }
    by rewrite Es.
Qed.

(** The console: on a UART that empties its FIFO within the bound of the
    waiting loops, a write returns; it sends exactly the text, with a carriage
    return behind every line feed, with the port's interrupts off meanwhile and
    their mask restored afterwards; queue, input and counters are untouched. *)
Theorem console_write_correct (s : list Z) p :
  ∃ h, bcm63xx_console_write open polls s p =
    Done (tt, upd_data h (u_sent p ++ (if open then crlf s else [])) (u_read p) p).
Proof using Hdrain.
  unfold bcm63xx_console_write. destruct (Hdrain (u_hw p)) as (n&Hn&Hl).
  destruct (wait_sent_run polls n Hn p Hl) as (h1&E1). mstep E1. rewrite bind_gets.
  set (p0 := upd_regs (with_intMask 0 (u_regs p)) (upd_hw h1 p)).
  assert (E0 : set_intMask (λ _, 0) (upd_hw h1 p) = Done (tt, p0)) by done. mstep E0.
  destruct (console_loop_run s p0) as (h2&E2). mstep E2. exists h2. unfold set_intMask, modify. do 3 f_equal.
  unfold p0, upd_regs, upd_data, upd_hw, with_intMask. cbn. by destruct p as [? [] ??????????? ?].
Qed.
End claims.

(** ** The rate *)

(** The rate: for every rate the serial core can ask for, [set_termios] sets a
    divisor that does not wrap and is the nearest: 32 times the divisor (the clock
    select value plus one) differs from the clock cycles of a bit by at most 16. *)
Theorem set_termios_rate {H} `{UartHw H} c_cflag c_iflag baud (p : uport H) : 0 < baud ≤ UARTCLK / 16 →
  ∃ p', bcm63xx_set_termios c_cflag c_iflag baud p = Done (tt, p') ∧
    let d := baudword (u_regs p') + 1 in
    1 ≤ d ∧ d < 2 ^ 32 ∧ 32 * d - 16 ≤ UART_FPERIPH / baud < 32 * d + 16.
Proof.
  intros Hb. unfold bcm63xx_set_termios. rewrite (proj2 (Z.eqb_neq baud 0)) by lia.
  rewrite bind_modify. eexists. split; [done|]. cbn [u_regs upd_regs baudword]. unfold baud_divisor.
  set (q := UART_FPERIPH / baud). change (UARTCLK / 16) with 921600 in Hb.
  assert (Hq : 54 ≤ q ≤ 50000000).
  { unfold q, UART_FPERIPH. split.
    - apply Z.div_le_lower_bound; lia.
    - apply Z.div_le_upper_bound; nia. }
  pose proof (Z.div_mod q 16 ltac:(lia)) as E16. pose proof (Z.mod_pos_bound q 16 ltac:(lia)) as M16.
  set (t := q / 16) in *. pose proof (Z.div_mod t 2 ltac:(lia)) as E2.
  assert (El : Z.land t 1 = t mod 2) by (apply (Z.land_ones t 1); lia). rewrite El.
  pose proof (Z.mod_pos_bound t 2 ltac:(lia)) as M2. destruct (Z.eqb_spec (t mod 2) 0) as [E|E]; cbn [negb].
  - rewrite u32_small by lia. lia.
  - lia.
Qed.

(** ** A UART with FIFOs, and witnesses *)

Section witnesses.
(** Received characters with the error bits they came with, and the level of the
    transmit FIFO of 16 characters, which loses one character per look at it. *)
Record fifo_uart : Type := { rx_fifo : list (Z * Z); tx_level : nat }.

#[local] Instance fifo_uart_hw : UartHw fifo_uart := {|
  hw_intStatus h :=
    (Z.lor (match rx_fifo h with [] => 0 | (_, e) :: _ => Z.lor RXFIFONE e end)
           (match tx_level h with O => TXFIFOEMT | _ => 0 end), h);
  hw_Data h :=
    match rx_fifo h with
    | [] => (0, h)
    | (c, _) :: l => (c, {| rx_fifo := l; tx_level := tx_level h |})
    end;
  hw_txf_levl h :=
    let n := (tx_level h `min` 16)%nat in (Z.of_nat n, {| rx_fifo := rx_fifo h; tx_level := pred n |});
  hw_DeltaIP h := h;
  hw_send c h := {| rx_fifo := rx_fifo h; tx_level := S (tx_level h) |}
|}.

(** A port in use with [rx] received. *)
Definition demo_port (rx : list (Z * Z)) : uport fifo_uart :=
  {| u_hw := {| rx_fifo := rx; tx_level := 0 |};
     u_regs := {| control := 0; config := 0; fifoctl := 0; baudword := 0; fifocfg := 0; intMask := RXFIFONE |};
     icount := {| ic_rx := 0; ic_tx := 0; ic_brk := 0; ic_parity := 0; ic_frame := 0; ic_overrun := 0 |};
     xmit := {| xmit_buf := replicate (Z.to_nat UART_XMIT_SIZE) 0; xmit_head := 4095; xmit_tail := 4095 |};
     x_char := 0; stopped := false; read_status_mask := Z.lor RXOVFERR (Z.lor RXBRK (Z.lor RXFRAMERR RXPARERR));
     ignore_status_mask := 0; port_type := PORT_BCM63XX; tty := []; u_irqs := demo_irqs; u_sent := []; u_read := [];
     u_wakeups := 0 |}.

(** A defect: the flag of a character with an error stays for the characters
    that follow in the same call: of a break and two good characters the tty gets
    three breaks. *)
Theorem rx_flag_sticks :
  match bcm63xx_rx_chars true (demo_port [(0, RXBRK); (65, 0); (66, 0)]) with
  | Done (_, p') => tty p' = [(0, TTY_BREAK); (65, TTY_BREAK); (66, TTY_BREAK)]
  | _ => False
  end.
Proof. vm_compute. reflexivity. Qed.

Lemma serial_in_order_witness :
  ∃ acc p', run_events true 5 [Write [72; 105]; Interrupt] (demo_port [(65, 0)]) = Done (acc, p') ∧
    in_order true acc (demo_port [(65, 0)]) p'.
Proof.
  destruct (serial_in_order true 5 [Write [72; 105]; Interrupt] (demo_port [(65, 0)])) as (acc&p'&E&I&_).
  - constructor; [vm_compute; reflexivity|vm_compute; done..].
  - reflexivity.
  - intros Hq. exfalso. apply Hq. vm_compute. reflexivity.
  - exists acc, p'. split; [exact E|exact I].
Defined.

Lemma fifo_drains k : ∀ h : fifo_uart, (tx_level h ≤ k)%nat → level_after k h = 0.
Proof.
  induction k as [|k IH]; intros h Hk; cbn [level_after hw_txf_levl fifo_uart_hw fst snd].
  - by replace (tx_level h) with 0%nat by lia.
  - apply IH. cbn [tx_level]. lia.
Qed.

Lemma console_write_correct_witness :
  ∃ h, bcm63xx_console_write true 18 [72; 10] (demo_port []) =
    Done (tt, upd_data h ([] ++ (if true then crlf [72; 10] else [])) [] (demo_port [])).
Proof.
  apply (console_write_correct true 18).
  intros h. exists 17%nat. split; [lia|].
  change (level_after 17 h) with (level_after 16 (snd (hw_txf_levl h))).
  apply fifo_drains. cbn [hw_txf_levl fifo_uart_hw snd tx_level]. lia.
Defined.

Lemma set_termios_rate_witness :
  ∃ p', bcm63xx_set_termios 48 0 115200 (demo_port []) = Done (tt, p') ∧ 1 ≤ baudword (u_regs p') + 1.
Proof.
  destruct (set_termios_rate 48 0 115200 (demo_port [])) as (p'&E&Hd&_).
  - split; vm_compute; done.
  - exists p'. split; [exact E|exact Hd].
Defined.
End witnesses.
