(* ===== verification/Setup.v ===== *)
(** * Board setup ([setup.c], [prom.c])

    The size of the memory, the speed of the processor, the kernel command line,
    the PCI bridge, the detection of a card in the PC-card slot and the pin
    overlays, on the registers of the chip. *)

From stdpp Require Import base numbers list.
From Stdlib Require Import ZArith Lia Bool String.
From S2P Require Import Prelude BoardTables BoardParms SpiFlash Led Buttons DyingGasp Irq.

(** ** Register bits *)

Definition MEMC_ROW_SHFT : Z := 6.
Definition MEMC_ROW_MASK : Z := Z.shiftl 0x3 MEMC_ROW_SHFT.
Definition MEMC_COL_SHFT : Z := 3.
Definition MEMC_COL_MASK : Z := Z.shiftl 0x7 MEMC_COL_SHFT.
Definition MEMC_WIDTH_SHFT : Z := 1.
Definition MEMC_WIDTH_MASK : Z := Z.shiftl 0x1 MEMC_WIDTH_SHFT.
Definition MEMC_32BIT_BUS : Z := 0.
Definition MIPSDDR_N2_SHFT : Z := 29.
Definition MIPSDDR_N2_MASK : Z := Z.shiftl 0x7 MIPSDDR_N2_SHFT.
Definition MIPSDDR_N1_SHFT : Z := 23.
Definition MIPSDDR_N1_MASK : Z := Z.shiftl 0x3f MIPSDDR_N1_SHFT.
Definition MIPS_MDIV_SHFT : Z := 0.
Definition MIPS_MDIV_MASK : Z := Z.shiftl 0xff MIPS_MDIV_SHFT.
Definition GPIO_MODE_UTOPIA_OVERLAY : Z := Z.shiftl 1 12.
Definition GPIO_MODE_SPI_SS_OVERLAY : Z := Z.shiftl 1 7.
Definition GPIO_MODE_UART1_OVERLAY : Z := Z.shiftl 1 6.
Definition EBI_SIZE_64K : Z := 3.
Definition EBI_SIZE_1M : Z := 7.
Definition EBI_ENABLE : Z := 1.
Definition EBI_WORD_WIDE : Z := 0x10.
Definition PCMCIA_COMMON_BASE : Z := 4.
Definition PCMCIA_ATTRIBUTE_BASE : Z := 5.
Definition PCMCIA_IO_BASE : Z := 6.
Definition PCCARD_CARD_RESET : Z := 0x00040000.
Definition CARDBUS_ENABLE : Z := 0x00008000.
Definition PCMCIA_ENABLE : Z := 0x00004000.
Definition CARDBUS_IDSEL : Z := 0x00001F00.
Definition VS2_OEN : Z := 0x80.
Definition VS1_OEN : Z := 0x40.
Definition VS2_OUT : Z := 0x20.
Definition VS1_OUT : Z := 0x10.
Definition VS2_IN : Z := 0x8.
Definition VS1_IN : Z := 0x4.
Definition CD2_IN : Z := 0x2.
Definition CD1_IN : Z := 0x1.
Definition PCMCIA_BYTESWAP_DIS : Z := 2.
Definition PCMCIA_HALFWORD_EN : Z := 1.
Definition RW_ACTIVE_CNT_BIT : Z := 2.
Definition INACTIVE_CNT_BIT : Z := 8.
Definition CE_SETUP_CNT_BIT : Z := 16.
Definition CE_HOLD_CNT_BIT : Z := 24.
Definition CARDBUS_MEM : Z := 4.
Definition MEM_WINDOW_EN : Z := 1.
Definition PCI_INT_BUS_RD_PREFETCH : Z := 0x1F0.
Definition DIR_U2P_NOSWAP : Z := 2.
Definition EN_PCI_GPIO : Z := 1.
Definition EXT_PCI_INT : Z := 0x80.
Definition PCI_CFG_REG_WRITE_EN : Z := 0x80.
Definition BRCM_PCI_CONFIG_TIMER : Z := 0x40.
Definition BRCM_PCI_CONFIG_TIMER_RETRY_MASK : Z := 0x0000FF00.
Definition EHCI_ENDIAN_SWAP : Z := Z.shiftl 1 4.
Definition OHCI_ENDIAN_SWAP : Z := Z.shiftl 1 1.

(** The address plan of [bcmpci.h]. *)
Definition BCM_PCI_MEM_BASE : Z := 0x11000000.
Definition BCM_PCI_MEM_SIZE : Z := 0x01000000.
Definition BCM_CB_MEM_BASE : Z := BCM_PCI_MEM_BASE + BCM_PCI_MEM_SIZE.
Definition BCM_CB_MEM_SIZE : Z := 0x01000000.
Definition BCM_PCI_IO_BASE : Z := BCM_CB_MEM_BASE + BCM_CB_MEM_SIZE.
Definition BCM_PCI_IO_SIZE : Z := 0x00010000.
Definition BCM_PCI_ADDR_MASK : Z := 0x1fffffff.
Definition BCM_HOST_MEM_SPACE1 : Z := 0x10000000.
Definition BCM_HOST_MEM_SPACE2 : Z := 0.
Definition PCMCIA_ATTR_CE_HOLD : Z := 3.
Definition PCMCIA_ATTR_CE_SETUP : Z := 3.
Definition PCMCIA_ATTR_INACTIVE : Z := 6.
Definition PCMCIA_ATTR_ACTIVE : Z := 10.
Definition CARDBUS_SLOT : Z := 0.
Definition pcmciaAttrOffset : Z := 0x00200000.
Definition pcmciaMemOffset : Z := 0.
Definition pcmciaIoOffset : Z := BCM_PCI_IO_BASE + 0x80000.
Definition pcmciaBase : Z := 0xbf000000.
Definition pcmciaAttr : Z := Z.lor pcmciaAttrOffset pcmciaBase.
Definition pcmciaMem : Z := Z.lor pcmciaMemOffset pcmciaBase.
Definition pcmciaIo : Z := Z.lor pcmciaIoOffset pcmciaBase.

Definition PCI_COMMAND : Z := 0x04.
Definition PCI_COMMAND_MEMORY : Z := 2.
Definition PCI_COMMAND_MASTER : Z := 4.
Definition PCI_BASE_ADDRESS_3 : Z := 0x1c.
Definition PCI_BASE_ADDRESS_4 : Z := 0x20.

Definition ADSL_SDRAM_IMAGE_SIZE : Z := 0x00040000.
Definition IE_IRQ5 : Z := Z.shiftl 1 15.
Definition BOOT_MEM_RAM : Z := 1.
Definition BOOT_MEM_MAP_MAX : Z := 32.

(** ** State *)

(** The registers [setup.c] uses, as pointer and field of the code. *)
Inductive setup_reg : Type :=
  | MPI_cs_base (cs : Z) | MPI_cs_config (cs : Z)
  | MPI_pcmcia_cntl1 | MPI_pcmcia_cntl2
  | MPI_sp0range | MPI_sp0remap | MPI_sp1range | MPI_sp1remap
  | MPI_l2pmrange1 | MPI_l2pmbase1 | MPI_l2pmremap1
  | MPI_l2pmrange2 | MPI_l2pmbase2 | MPI_l2pmremap2
  | MPI_l2piorange | MPI_l2piobase | MPI_l2pioremap
  | MPI_pcimodesel | MPI_locbuscntrl | MPI_locintstat | MPI_pcicfgcntrl
  | PERF_RevID | PERF_blkEnables | PERF_pll_control | PERF_IrqMask
  | GPIO_GPIOMode | GPIO_GPIODir | GPIO_GPIODir_high
  | USBH_SwapControl | USBH_TestPortControl
  | MEMC_Config | DDR_MIPSDDRPLLConfig.

#[global] Instance setup_reg_eq_dec : EqDecision setup_reg.
Proof. solve_decision. Defined.

(** What a card-detect pin of the slot is connected to by the card. *)
Inductive cd_wire : Type := CdOpen | CdGnd | CdVS1 | CdVS2.

#[global] Instance cd_wire_eq_dec : EqDecision cd_wire.
Proof. solve_decision. Defined.

(** A card as its four pins: the two card-detect pins, and whether the card ties a
    voltage-sense pin to ground. *)
Record slot_wires : Type := { cd1 : cd_wire; cd2 : cd_wire; vs1_gnd : bool; vs2_gnd : bool }.

(** [regs]: the registers; [pcicfg]: the bridge's own configuration registers;
    [slot]: the card in the slot; [printed]: the messages; [mdelays]: the
    waits in milliseconds, each with the slot's control register during it;
    [ioport_resource]: the kernel's I/O resource. *)
Record setup_hw : Type := {
  regs : setup_reg → Z;
  pcicfg : Z → Z;
  slot : slot_wires;
  printed : list string;
  mdelays : list (Z * Z);
  ioport_resource : Z * Z
}.

Definition fupd {A} `{EqDecision A} (k : A) (v : Z) (f : A → Z) : A → Z :=
  λ k', if decide (k' = k) then v else f k'.

Definition reg_wr (r : setup_reg) (v : Z) (s : setup_hw) : setup_hw :=
  {| regs := fupd r (u32 v) (regs s); pcicfg := pcicfg s; slot := slot s;
     printed := printed s; mdelays := mdelays s; ioport_resource := ioport_resource s |}.

Definition printk (m : string) (s : setup_hw) : setup_hw :=
  {| regs := regs s; pcicfg := pcicfg s; slot := slot s;
     printed := printed s ++ [m]; mdelays := mdelays s; ioport_resource := ioport_resource s |}.

Definition mdelay (n : Z) (s : setup_hw) : setup_hw :=
  {| regs := regs s; pcicfg := pcicfg s; slot := slot s;
     printed := printed s; mdelays := mdelays s ++ [(n, regs s MPI_pcmcia_cntl1)]; ioport_resource := ioport_resource s |}.

(** The level of a voltage-sense pin: ground on the card wins; the chip drives the
    pin unless its output enable is off (the bit is set), and an open pin is
    pulled up. *)
Definition vs_level (gnd : bool) (oen out cntl1 : Z) : bool :=
  if gnd then false
  else if Z.land cntl1 oen =? 0 then negb (Z.land cntl1 out =? 0) else true.

Definition cd_level (w : cd_wire) (vs1 vs2 : bool) : bool :=
  match w with CdOpen => true | CdGnd => false | CdVS1 => vs1 | CdVS2 => vs2 end.

(** The input bits of [pcmcia_cntl1]. *)
Definition slot_inputs (w : slot_wires) (cntl1 : Z) : Z :=
  let v1 := vs_level (vs1_gnd w) VS1_OEN VS1_OUT cntl1 in
  let v2 := vs_level (vs2_gnd w) VS2_OEN VS2_OUT cntl1 in
  Z.lor (Z.lor (if v2 then VS2_IN else 0) (if v1 then VS1_IN else 0))
        (Z.lor (if cd_level (cd2 w) v1 v2 then CD2_IN else 0)
               (if cd_level (cd1 w) v1 v2 then CD1_IN else 0)).

(** Reading [pcmcia_cntl1]: the bits written, with the inputs in the low four. *)
Definition reg_rd (r : setup_reg) (s : setup_hw) : Z :=
  match r with
  | MPI_pcmcia_cntl1 =>
      let v := regs s MPI_pcmcia_cntl1 in Z.lor (Z.ldiff v 0xf) (slot_inputs (slot s) v)
  | r => regs s r
  end.

(** [MPI->pcicfgdata] reaches the register selected by [pcicfgcntrl]. *)
Definition rd_pcicfgdata (s : setup_hw) : Z := pcicfg s (regs s MPI_pcicfgcntrl).

Definition wr_pcicfgdata (v : Z) (s : setup_hw) : setup_hw :=
  {| regs := regs s; pcicfg := fupd (regs s MPI_pcicfgcntrl) (u32 v) (pcicfg s); slot := slot s;
     printed := printed s; mdelays := mdelays s; ioport_resource := ioport_resource s |}.

Definition set_ioport (start end_ : Z) (s : setup_hw) : setup_hw :=
  {| regs := regs s; pcicfg := pcicfg s; slot := slot s;
     printed := printed s; mdelays := mdelays s; ioport_resource := (start, end_) |}.

(** ** Memory size and processor speed *)

Definition getMemorySize (s : setup_hw) : Z :=
  let memCfg := reg_rd MEMC_Config s in
  let size := 1 in
  let size := u32 (Z.shiftl size (Z.shiftr (Z.land memCfg MEMC_COL_MASK) MEMC_COL_SHFT + 8)) in
  let size := u32 (Z.shiftl size (Z.shiftr (Z.land memCfg MEMC_ROW_MASK) MEMC_ROW_SHFT + 11)) in
  let size := if Z.shiftr (Z.land memCfg MEMC_WIDTH_MASK) MEMC_WIDTH_SHFT =? MEMC_32BIT_BUS
              then u32 (Z.shiftl size 2) else u32 (Z.shiftl size 1) in
  u32 (Z.shiftl size 2).

(** A division by zero traps. *)
Definition calculateCpuSpeed (s : setup_hw) : option Z :=
  let pllConfig := reg_rd DDR_MIPSDDRPLLConfig s in
  let numerator :=
    u32 (u32 (64000000 / 4 * Z.shiftr (Z.land pllConfig MIPSDDR_N2_MASK) MIPSDDR_N2_SHFT) *
         Z.shiftr (Z.land pllConfig MIPSDDR_N1_MASK) MIPSDDR_N1_SHFT) in
  let div := Z.shiftr (Z.land pllConfig MIPS_MDIV_MASK) MIPS_MDIV_SHFT in
  if div =? 0 then None else Some (numerator / div).

(** The kernel's memory map: address, size and type of each entry. *)
Definition boot_mem_map : Type := list (Z * Z * Z).

Definition add_memory_region (start size type : Z) (m : boot_mem_map) : boot_mem_map :=
  if u32 (start + size) <? start then m
  else match last m with
  | Some (a, sz, t) =>
      if (u32 (a + sz) =? start) && (t =? type) then removelast m ++ [(a, u32 (sz + size), t)]
      else if Z.of_nat (List.length m) =? BOOT_MEM_MAP_MAX then m
      else m ++ [(start, size, type)]
  | None => m ++ [(start, size, type)]
  end.

Definition plat_mem_setup (s : setup_hw) (m : boot_mem_map) : boot_mem_map :=
  add_memory_region 0 (u32 (getMemorySize s - ADSL_SDRAM_IMAGE_SIZE)) BOOT_MEM_RAM m.

Definition plat_timer_setup (flags : Z) : M irqs unit :=
  _ ← setup_irq MIPS_TIMER_INT flags;
  modify (λ s, set_c0 (c0_cause s) (Z.lor (c0_status s) IE_IRQ5) s).

Definition brcm_machine_restart (s : setup_hw) : setup_hw :=
  reg_wr PERF_pll_control (Z.lor (reg_rd PERF_pll_control s) SOFT_RESET) s.

(** ** The PCI bridge and the PC-card slot *)

Definition MPI_CARDTYPE_NONE : Z := 0.
Definition MPI_CARDTYPE_PCMCIA : Z := 1.
Definition MPI_CARDTYPE_CARDBUS : Z := 2.

Definition mpi_SetLocalPciConfigReg (reg value : Z) (s : setup_hw) : setup_hw :=
  wr_pcicfgdata value (reg_wr MPI_pcicfgcntrl (PCI_CFG_REG_WRITE_EN + reg) s).

Definition mpi_GetLocalPciConfigReg (reg : Z) (s : setup_hw) : Z * setup_hw :=
  let s := reg_wr MPI_pcicfgcntrl (PCI_CFG_REG_WRITE_EN + reg) s in
  (rd_pcicfgdata s, s).

Definition mpi_ResetPcCard (cardtype : Z) (bReset : bool) (s : setup_hw) : setup_hw :=
  if cardtype =? MPI_CARDTYPE_NONE then s
  else
    let bReset := if cardtype =? MPI_CARDTYPE_CARDBUS then negb bReset else bReset in
    if bReset then reg_wr MPI_pcmcia_cntl1 (Z.ldiff (reg_rd MPI_pcmcia_cntl1 s) PCCARD_CARD_RESET) s
    else reg_wr MPI_pcmcia_cntl1 (Z.lor (reg_rd MPI_pcmcia_cntl1 s) PCCARD_CARD_RESET) s.

Definition mpi_ConfigCs (cs base size flags : Z) (s : setup_hw) : setup_hw :=
  reg_wr (MPI_cs_config cs) flags (reg_wr (MPI_cs_base cs) (Z.lor (Z.land base 0x1FFFFFFF) size) s).

Definition mpi_InitPcmciaSpace (s : setup_hw) : setup_hw :=
  let s := mpi_ConfigCs PCMCIA_COMMON_BASE pcmciaMem EBI_SIZE_1M (Z.lor EBI_WORD_WIDE EBI_ENABLE) s in
  let s := mpi_ConfigCs PCMCIA_ATTRIBUTE_BASE pcmciaAttr EBI_SIZE_1M (Z.lor EBI_WORD_WIDE EBI_ENABLE) s in
  let s := mpi_ConfigCs PCMCIA_IO_BASE pcmciaIo EBI_SIZE_64K (Z.lor EBI_WORD_WIDE EBI_ENABLE) s in
  let s := reg_wr MPI_pcmcia_cntl2
             (Z.lor (Z.lor (Z.lor (Z.shiftl PCMCIA_ATTR_ACTIVE RW_ACTIVE_CNT_BIT)
                                  (Z.shiftl PCMCIA_ATTR_INACTIVE INACTIVE_CNT_BIT))
                           (Z.shiftl PCMCIA_ATTR_CE_SETUP CE_SETUP_CNT_BIT))
                    (Z.shiftl PCMCIA_ATTR_CE_HOLD CE_HOLD_CNT_BIT)) s in
  reg_wr MPI_pcmcia_cntl2 (Z.lor (reg_rd MPI_pcmcia_cntl2 s) (Z.lor PCMCIA_HALFWORD_EN PCMCIA_BYTESWAP_DIS)) s.

(** The message and the type found; [drive_pins] writes [pcmcia_cntl1], waits a
    millisecond and reads it back. *)
Definition found (m : string) (cardtype : Z) (s : setup_hw) : Z * setup_hw := (cardtype, printk m s).

Definition unknown_card : setup_hw → Z * setup_hw :=
  found "MPI: Unknown card plugged into slot\n" MPI_CARDTYPE_NONE.

Definition drive_pins (v : Z) (s : setup_hw) : Z * setup_hw :=
  let s := mdelay 1 (reg_wr MPI_pcmcia_cntl1 v s) in (reg_rd MPI_pcmcia_cntl1 s, s).

Definition CD_BITS : Z := Z.lor CD2_IN CD1_IN.
Definition VS_BITS : Z := Z.lor VS2_IN VS1_IN.
Definition CARD_PINS : Z := Z.lor CARDBUS_ENABLE PCMCIA_GPIO_ENABLE.

(** [VS1] open or tied to a detect pin, [VS2] at ground. *)
Definition detect_vs1 (data32 : Z) (s : setup_hw) : Z * setup_hw :=
  let cd := Z.land data32 CD_BITS in
  if cd =? CD_BITS then unknown_card s
  else if cd =? CD2_IN then
    let '(data32, s) := drive_pins (Z.lor CARD_PINS VS2_OEN) s in
    if negb (Z.land data32 CD2_IN =? 0) then unknown_card s
    else found "MPI: Detected 3.3, x.x and y.y Cardbus card\n" MPI_CARDTYPE_CARDBUS s
  else if cd =? CD1_IN then unknown_card s
  else found "MPI: Detected x.x vdc 16-bit PCMCIA card\n" MPI_CARDTYPE_PCMCIA s.

(** [VS2] open or tied to a detect pin, [VS1] at ground. *)
Definition detect_vs2 (data32 : Z) (s : setup_hw) : Z * setup_hw :=
  let cd := Z.land data32 CD_BITS in
  if cd =? CD_BITS then unknown_card s
  else if cd =? CD2_IN then
    let '(data32, s) := drive_pins (Z.lor CARD_PINS VS1_OEN) s in
    if negb (Z.land data32 CD2_IN =? 0) then unknown_card s
    else found "MPI: Detected 3.3 and x.x Cardbus card\n" MPI_CARDTYPE_CARDBUS s
  else if cd =? CD1_IN then unknown_card s
  else found "MPI: Detected 3.3 vdc 16-bit PCMCIA card\n" MPI_CARDTYPE_PCMCIA s.

(** Both open or tied to detect pins. *)
Definition detect_open (data32 : Z) (s : setup_hw) : Z * setup_hw :=
  let cd := Z.land data32 CD_BITS in
  if cd =? CD_BITS then unknown_card s
  else if cd =? CD2_IN then
    let '(data32, s) := drive_pins (Z.lor CARD_PINS VS1_OEN) s in
    if negb (Z.land data32 CD2_IN =? 0)
    then found "MPI: Detected y.y vdc Cardbus card\n" MPI_CARDTYPE_CARDBUS s
    else found "MPI: Detected x.x vdc Cardbus card\n" MPI_CARDTYPE_CARDBUS s
  else if cd =? CD1_IN then
    let '(data32, s) := drive_pins (Z.lor CARD_PINS VS1_OEN) s in
    if negb (Z.land data32 CD1_IN =? 0)
    then found "MPI: Detected 3.3 vdc Cardbus card\n" MPI_CARDTYPE_CARDBUS s
    else found "MPI: Detected x.x and y.y Cardbus card\n" MPI_CARDTYPE_CARDBUS s
  else found "MPI: Detected 5 vdc 16-bit PCMCIA card\n" MPI_CARDTYPE_PCMCIA s.

Definition cardtype_vcc_detect (s : setup_hw) : Z * setup_hw :=
  let s := reg_wr MPI_pcmcia_cntl1 CARD_PINS s in
  let data32 := reg_rd MPI_pcmcia_cntl1 s in
  let cd := Z.land data32 CD_BITS in
  if cd =? CD_BITS then found "MPI: No Card is in the PCMCIA slot\n" MPI_CARDTYPE_NONE s
  else if cd =? CD2_IN then
    found "MPI: Card in the PCMCIA slot partial insertion, no CD2 signal\n" MPI_CARDTYPE_NONE s
  else if cd =? CD1_IN then
    found "MPI: Card in the PCMCIA slot partial insertion, no CD1 signal\n" MPI_CARDTYPE_NONE s
  else
    let '(data32, s) := drive_pins (Z.lor (Z.lor CARD_PINS VS2_OEN) VS1_OEN) s in
    let vs := Z.land data32 VS_BITS in
    if vs =? 0 then found "MPI: Detected 3.3 & x.x 16-bit PCMCIA card\n" MPI_CARDTYPE_PCMCIA s
    else if vs =? VS1_IN then detect_vs1 data32 s
    else if vs =? VS2_IN then detect_vs2 data32 s
    else detect_open data32 s.

(** Reset held for 10 milliseconds, and 100 to come out of it. *)
Definition reset_card (cardtype : Z) (s : setup_hw) : setup_hw :=
  mdelay 100 (mpi_ResetPcCard cardtype true (mdelay 10 (mpi_ResetPcCard cardtype false s))).

Definition mpi_DetectPcCard (s : setup_hw) : Z * setup_hw :=
  let '(cardtype, s) := cardtype_vcc_detect s in
  if cardtype =? MPI_CARDTYPE_PCMCIA then
    let s := reg_wr MPI_pcmcia_cntl1
               (Z.ldiff (reg_rd MPI_pcmcia_cntl1 s)
                  (Z.lor (Z.lor CARDBUS_ENABLE PCMCIA_ENABLE) PCMCIA_GPIO_ENABLE)) s in
    let s := reg_wr MPI_pcmcia_cntl1 (Z.lor (reg_rd MPI_pcmcia_cntl1 s) (Z.lor PCMCIA_ENABLE PCMCIA_GPIO_ENABLE)) s in
    (cardtype, reset_card cardtype (mpi_InitPcmciaSpace s))
  else if cardtype =? MPI_CARDTYPE_CARDBUS then
    let s := reg_wr MPI_pcmcia_cntl1
               (Z.lor (Z.lor (Z.lor (Z.lor (Z.lor (Z.land (reg_rd MPI_pcmcia_cntl1 s) 0xFFFF0000) CARDBUS_ENABLE)
                  (Z.shiftl CARDBUS_SLOT 8)) VS2_OEN) VS1_OEN) PCMCIA_GPIO_ENABLE) s in
    let s := reg_wr MPI_l2pmremap1 (Z.lor (reg_rd MPI_l2pmremap1 s) CARDBUS_MEM) s in
    (cardtype, reset_card cardtype s)
  else (cardtype, s).

Definition mpi_init (s : setup_hw) : setup_hw :=
  let chipid := Z.shiftr (Z.land (reg_rd PERF_RevID s) 0xFFFF0000) 16 in
  let chiprev := Z.land (reg_rd PERF_RevID s) 0xFF in
  let sdramsize := getMemorySize s in
  let s := reg_wr MPI_l2pmrange1 (Z.lnot (BCM_PCI_MEM_SIZE - 1)) s in
  let s := reg_wr MPI_l2pmbase1 (Z.land BCM_CB_MEM_BASE BCM_PCI_ADDR_MASK) s in
  let s := reg_wr MPI_l2pmremap1 (Z.lor BCM_PCI_MEM_BASE MEM_WINDOW_EN) s in
  let s := reg_wr MPI_l2pmrange2 (Z.lnot (BCM_PCI_MEM_SIZE - 1)) s in
  let s := reg_wr MPI_l2pmbase2 (Z.land BCM_PCI_MEM_BASE BCM_PCI_ADDR_MASK) s in
  let s := reg_wr MPI_l2pmremap2 (Z.lor BCM_PCI_MEM_BASE MEM_WINDOW_EN) s in
  let s := reg_wr MPI_l2piorange (Z.lnot (BCM_PCI_IO_SIZE - 1)) s in
  let s := reg_wr MPI_l2piobase (Z.land BCM_PCI_IO_BASE BCM_PCI_ADDR_MASK) s in
  let s := reg_wr MPI_l2pioremap (Z.lor BCM_PCI_IO_BASE MEM_WINDOW_EN) s in
  let s := reg_wr MPI_locbuscntrl (Z.lor EN_PCI_GPIO DIR_U2P_NOSWAP) s in
  let '(data, s) := mpi_GetLocalPciConfigReg PCI_COMMAND s in
  let s := mpi_SetLocalPciConfigReg PCI_COMMAND
             (Z.lor data (Z.lor PCI_COMMAND_MEMORY PCI_COMMAND_MASTER)) s in
  let s := mpi_SetLocalPciConfigReg PCI_BASE_ADDRESS_3 BCM_HOST_MEM_SPACE1 s in
  let s := reg_wr MPI_sp0remap MEM_WINDOW_EN s in
  let s := mpi_SetLocalPciConfigReg PCI_BASE_ADDRESS_4 BCM_HOST_MEM_SPACE2 s in
  let s := reg_wr MPI_sp1remap MEM_WINDOW_EN s in
  let modesel := Z.lor (Z.ldiff (reg_rd MPI_pcimodesel s) PCI_INT_BUS_RD_PREFETCH) 0x100 in
  let s := reg_wr MPI_pcimodesel modesel s in
  let s := if negb ((chipid =? 0x6348) && (Z.land chiprev 0xF0 =? 0xa0))
           then reg_wr MPI_sp1range (Z.lnot (u32 (sdramsize - 1)))
                  (reg_wr MPI_sp0range (Z.lnot (u32 (sdramsize - 1))) s)
           else s in
  let '(data, s) := mpi_GetLocalPciConfigReg BRCM_PCI_CONFIG_TIMER s in
  let data := Z.lor (Z.ldiff data BRCM_PCI_CONFIG_TIMER_RETRY_MASK) 0x80 in
  let s := mpi_SetLocalPciConfigReg BRCM_PCI_CONFIG_TIMER data s in
  let s := reg_wr MPI_locintstat (Z.lor (reg_rd MPI_locintstat s) (Z.shiftl EXT_PCI_INT 16)) s in
  set_ioport BCM_PCI_IO_BASE (BCM_PCI_IO_BASE + BCM_PCI_IO_SIZE) s.

(** ** Pin overlays *)

Definition has (overlays bit : Z) : bool := negb (Z.land overlays bit =? 0).

(** [r |= v]. *)
Definition or_reg (r : setup_reg) (v : Z) (s : setup_hw) : setup_hw := reg_wr r (Z.lor (reg_rd r s) v) s.

Definition bcm6358_hw_init (cur : option BOARD_PARAMETERS) (s : setup_hw) : setup_hw :=
  let s := or_reg PERF_blkEnables SPI_CLK_EN s in
  let s := reg_wr GPIO_GPIOMode 0 s in
  let s := if BpIsSupportSerialGpioMode cur =? BP_SUCCESS
           then or_reg GPIO_GPIODir 0xc0 (or_reg GPIO_GPIOMode GPIO_MODE_SERIAL_LED_OVERLAY s) else s in
  let '(ret, GPIOOverlays) := BpGetGPIOverlays cur in
  let s :=
    if ret =? BP_SUCCESS then
      let s := if has GPIOOverlays BP_OVERLAY_LED
               then or_reg GPIO_GPIODir 0xf (or_reg GPIO_GPIOMode GPIO_MODE_LED_OVERLAY s) else s in
      let s := if has GPIOOverlays BP_OVERLAY_UTOPIA
               then or_reg PERF_blkEnables SAR_CLK_EN (or_reg GPIO_GPIOMode GPIO_MODE_UTOPIA_OVERLAY s)
               else s in
      let s := if has GPIOOverlays BP_OVERLAY_UART1
               then or_reg GPIO_GPIODir 0x20000000 (or_reg GPIO_GPIOMode GPIO_MODE_UART1_OVERLAY s) else s in
      let s := if has GPIOOverlays BP_OVERLAY_SPI_EXT_CS
               then or_reg GPIO_GPIODir_high 0x3 (or_reg GPIO_GPIOMode GPIO_MODE_SPI_SS_OVERLAY s) else s in
      if has GPIOOverlays BP_OVERLAY_PCI then
        let s := mpi_init s in
        if has GPIOOverlays BP_OVERLAY_CB then snd (mpi_DetectPcCard s)
        else or_reg MPI_pcmcia_cntl1 CARDBUS_IDSEL s
      else s
    else s in
  reg_wr USBH_TestPortControl 0x001c0020
    (reg_wr USBH_SwapControl (Z.lor EHCI_ENDIAN_SWAP OHCI_ENDIAN_SWAP) s).

(** ** [prom_init] *)

Definition CL_SIZE : nat := 256.
Definition CONFIG_ROOT_FLASHFS : list Z := cstr "root=31:0 ro noinitrd".
Definition CONFIG_CMDLINE : list Z := cstr "console=ttyS0,115200".
Definition MACH_GROUP_BRCM : Z := 23.
Definition MACH_BCM963XX : Z := 0.

(** The kernel variables [prom_init] sets. *)
Record prom_vars : Type := {
  arcs_cmdline : list Z;
  mips_hpt_frequency : Z;
  mips_machgroup : Z;
  mips_machtype : Z
}.

Fixpoint c_strlen (b : list Z) : option Z :=
  match b with
  | [] => None
  | c :: b' => if c =? 0 then Some 0 else (n ← c_strlen b'; Some (n + 1))
  end.

Definition c_strcpy (dst src : list Z) : option (list Z) := buf_write dst 0 (src ++ [0]).

Definition c_strcat (dst src : list Z) : option (list Z) :=
  n ← c_strlen dst; buf_write dst n (src ++ [0]).

Definition prom_cmdline (cmdline : list Z) : option (list Z) :=
  cmdline ← buf_write cmdline 0 [0];
  cmdline ← c_strcpy cmdline CONFIG_ROOT_FLASHFS;
  cmdline ← c_strcat cmdline (cstr " ");
  c_strcat cmdline CONFIG_CMDLINE.

(** What [prom_init] does after [kerSysFlashInit] ([KerFlash]). *)
Definition prom_init (s : setup_hw) (p : prom_vars) : option (setup_hw * prom_vars) :=
  let s := reg_wr PERF_IrqMask 0 s in
  cmdline ← prom_cmdline (arcs_cmdline p);
  speed ← calculateCpuSpeed s;
  Some (s, {| arcs_cmdline := cmdline; mips_hpt_frequency := speed / 2;
              mips_machgroup := MACH_GROUP_BRCM; mips_machtype := MACH_BCM963XX |}).
