(* ===== verification/Pci.v ===== *)
(** * PCI configuration access ([ops-bcm63xx.c], [pci-bcm63xx.c], [fixup-bcm63xx.c])

    The kernel's configuration reads and writes through the bridge, the emulated
    configuration space of the two USB controllers, the move of the device in
    slot 0 and the interrupt of a slot; and the probing of a base address by the
    kernel ([probe.c]), their client. *)

From stdpp Require Import base numbers list.
From Stdlib Require Import ZArith Lia Bool.
From S2P Require Import Prelude Irq Setup.

Definition PCI_VENDOR_ID : Z := 0x00.
Definition PCI_DEVICE_ID : Z := 0x02.
Definition PCI_STATUS : Z := 0x06.
Definition PCI_CLASS_REVISION : Z := 0x08.
Definition PCI_CLASS_DEVICE : Z := 0x0a.
Definition PCI_CACHE_LINE_SIZE : Z := 0x0c.
Definition PCI_LATENCY_TIMER : Z := 0x0d.
Definition PCI_HEADER_TYPE : Z := 0x0e.
Definition PCI_HEADER_TYPE_NORMAL : Z := 0.
Definition PCI_BASE_ADDRESS_0 : Z := 0x10.
Definition PCI_BASE_ADDRESS_5 : Z := 0x24.
Definition PCI_BASE_ADDRESS_SPACE : Z := 1.
Definition PCI_BASE_ADDRESS_SPACE_IO : Z := 1.
Definition PCI_BASE_ADDRESS_SPACE_MEMORY : Z := 0.
Definition PCI_BASE_ADDRESS_MEM_TYPE_MASK : Z := 6.
Definition PCI_BASE_ADDRESS_MEM_TYPE_64 : Z := 4.
Definition PCI_BASE_ADDRESS_MEM_MASK : Z := u32 (Z.lnot 0x0f).
Definition PCI_BASE_ADDRESS_IO_MASK : Z := u32 (Z.lnot 0x03).
Definition PCI_SUBSYSTEM_VENDOR_ID : Z := 0x2c.
Definition PCI_SUBSYSTEM_ID : Z := 0x2e.
Definition PCI_INTERRUPT_LINE : Z := 0x3c.
Definition PCI_VENDOR_ID_BROADCOM : Z := 0x14e4.
Definition PCI_CLASS_SERIAL_USB : Z := 0x0c03.
Definition L1_CACHE_BYTES : Z := Z.shiftl 1 4.
Definition PCIBIOS_SUCCESSFUL : Z := 0.
Definition IORESOURCE_PCI_FIXED : Z := Z.shiftl 1 4.

Definition USB_HOST_SLOT : Z := 9.
Definition USB20_HOST_SLOT : Z := 10.
Definition USB_BAR0_MEM_SIZE : Z := 0x100.
Definition USB_EHCI_BASE : Z := 0xfffe1300.
Definition USB_OHCI_BASE : Z := 0xfffe1400.
Definition INTERRUPT_ID_USBH : Z := ISR_TABLE_OFFSET + 5.
Definition INTERRUPT_ID_USBH20 : Z := ISR_TABLE_OFFSET + 10.

Definition DIR_CFG_SEL : Z := 0x80000000.
Definition DIR_CFG_USEREG : Z := 0x40000000.
Definition CONFIG_TYPE : Z := 3.
Definition PCI_SIZE_64K : Z := 0xFFFF0000.

Definition PCI_SLOT (devfn : Z) : Z := Z.land (Z.shiftr devfn 3) 0x1f.
Definition PCI_FUNC (devfn : Z) : Z := Z.land devfn 0x07.
Definition BCM_PCI_CFG (d f o : Z) : Z :=
  Z.lor (Z.lor (Z.shiftl d 11) (Z.shiftl f 8)) (Z.shiftl (o / 4) 2).

(** The devices behind the bridge, which are not part of the code: what a
    configuration cycle at an address of [l2pcfgctl] reads and does. *)
Class PciBus (B : Type) : Type := {
  cfg_rd : Z → B → Z * B;
  cfg_wr : Z → Z → B → B
}.

(** The file-scope variables of one emulated controller. *)
Record usb_cfg : Type := {
  mem_size_rd : bool;
  mem_base : Z;
  cfg_space_cmd_reg : Z
}.

Definition usb_cfg_init : usb_cfg := {| mem_size_rd := false; mem_base := 0; cfg_space_cmd_reg := 0 |}.

(** [usb], [usb20] and [pci_mem_size_rd]: the variables of [ops-bcm63xx.c];
    [l2pcfgctl]: the register that turns an I/O access into a configuration
    cycle; [bus]: the devices; [udelays]: the microseconds waited. *)
Record pci_state (B : Type) : Type := {
  usb : usb_cfg;
  usb20 : usb_cfg;
  pci_mem_size_rd : bool;
  l2pcfgctl : Z;
  bus : B;
  udelays : Z
}.
Arguments usb {B}. Arguments usb20 {B}. Arguments pci_mem_size_rd {B}.
Arguments l2pcfgctl {B}. Arguments bus {B}. Arguments udelays {B}.

Definition set_usb {B} (u : usb_cfg) (s : pci_state B) : pci_state B :=
  {| usb := u; usb20 := usb20 s; pci_mem_size_rd := pci_mem_size_rd s;
     l2pcfgctl := l2pcfgctl s; bus := bus s; udelays := udelays s |}.
Definition set_usb20 {B} (u : usb_cfg) (s : pci_state B) : pci_state B :=
  {| usb := usb s; usb20 := u; pci_mem_size_rd := pci_mem_size_rd s;
     l2pcfgctl := l2pcfgctl s; bus := bus s; udelays := udelays s |}.
Definition set_size_rd {B} (b : bool) (s : pci_state B) : pci_state B :=
  {| usb := usb s; usb20 := usb20 s; pci_mem_size_rd := b;
     l2pcfgctl := l2pcfgctl s; bus := bus s; udelays := udelays s |}.
Definition set_l2pcfgctl {B} (v : Z) (s : pci_state B) : pci_state B :=
  {| usb := usb s; usb20 := usb20 s; pci_mem_size_rd := pci_mem_size_rd s;
     l2pcfgctl := v; bus := bus s; udelays := udelays s |}.
Definition set_bus {B} (b : B) (s : pci_state B) : pci_state B :=
  {| usb := usb s; usb20 := usb20 s; pci_mem_size_rd := pci_mem_size_rd s;
     l2pcfgctl := l2pcfgctl s; bus := b; udelays := udelays s |}.
Definition udelay {B} (n : Z) (s : pci_state B) : pci_state B :=
  {| usb := usb s; usb20 := usb20 s; pci_mem_size_rd := pci_mem_size_rd s;
     l2pcfgctl := l2pcfgctl s; bus := bus s; udelays := udelays s + n |}.

(** ** The emulated USB controllers

    The code has two copies of each function, which differ in their variables,
    the programming interface of the class, the base and the interrupt. *)

Definition int_usb_write (where_ value size : Z) (u : usb_cfg) : usb_cfg :=
  if size =? 2 then
    if where_ =? PCI_COMMAND
    then {| mem_size_rd := mem_size_rd u; mem_base := mem_base u; cfg_space_cmd_reg := value |} else u
  else if size =? 4 then
    if where_ =? PCI_BASE_ADDRESS_0 then
      if value =? 0xffffffff
      then {| mem_size_rd := true; mem_base := mem_base u; cfg_space_cmd_reg := cfg_space_cmd_reg u |}
      else {| mem_size_rd := mem_size_rd u; mem_base := value; cfg_space_cmd_reg := cfg_space_cmd_reg u |}
    else u
  else u.

(** The part of a register that an access of [size] bytes at [where_] reads;
    another size leaves the caller's variable [old]. *)
Definition extract (data where_ size old : Z) : Z :=
  let shift := Z.shiftl (Z.land where_ 3) 3 in
  if size =? 1 then Z.land (Z.shiftr data shift) 0xff
  else if size =? 2 then Z.land (Z.shiftr data shift) 0xffff
  else if size =? 4 then data
  else old.

(** The register with the bytes of such an access replaced by [val]. *)
Definition merge (data where_ size val : Z) : Z :=
  let shift := Z.shiftl (Z.land where_ 3) 3 in
  if size =? 1 then Z.lor (Z.ldiff data (Z.shiftl 0xff shift)) (u32 (Z.shiftl val shift))
  else if size =? 2 then Z.lor (Z.ldiff data (Z.shiftl 0xffff shift)) (u32 (Z.shiftl val shift))
  else if size =? 4 then val
  else data.

Definition int_usb_reg (prog_if base irq where_ : Z) (u : usb_cfg) : Z :=
  if (where_ =? PCI_VENDOR_ID) || (where_ =? PCI_DEVICE_ID) then Z.lor PCI_VENDOR_ID_BROADCOM 0x63000000
  else if (where_ =? PCI_COMMAND) || (where_ =? PCI_STATUS) then
    Z.lor (Z.shiftl 0x0006 16) (cfg_space_cmd_reg u)
  else if (where_ =? PCI_CLASS_REVISION) || (where_ =? PCI_CLASS_DEVICE) then
    Z.lor (Z.lor (Z.shiftl PCI_CLASS_SERIAL_USB 16) (Z.shiftl prog_if 8)) 0x01
  else if where_ =? PCI_BASE_ADDRESS_0 then
    if mem_size_rd u then USB_BAR0_MEM_SIZE
    else if negb (mem_base u =? 0) then mem_base u else base
  else if where_ =? PCI_CACHE_LINE_SIZE then L1_CACHE_BYTES / 4
  else if where_ =? PCI_LATENCY_TIMER then 0
  else if where_ =? PCI_HEADER_TYPE then PCI_HEADER_TYPE_NORMAL
  else if where_ =? PCI_SUBSYSTEM_VENDOR_ID then PCI_VENDOR_ID_BROADCOM
  else if where_ =? PCI_SUBSYSTEM_ID then 0x6300
  else if where_ =? PCI_INTERRUPT_LINE then irq
  else 0xFFFFFFFF.

Definition int_usb_read (prog_if base irq where_ size old : Z) (u : usb_cfg) : Z * usb_cfg :=
  let retValue := int_usb_reg prog_if base irq where_ u in
  let u := if where_ =? PCI_BASE_ADDRESS_0
           then {| mem_size_rd := false; mem_base := mem_base u; cfg_space_cmd_reg := cfg_space_cmd_reg u |}
           else u in
  (extract retValue where_ size old, u).

Section ops.
Context {B : Type} `{PciBus B}.

Definition pci63xx_int_usb_write (where_ value size : Z) (s : pci_state B) : pci_state B :=
  set_usb (int_usb_write where_ value size (usb s)) s.

Definition pci63xx_int_usb20_write (where_ value size : Z) (s : pci_state B) : pci_state B :=
  set_usb20 (int_usb_write where_ value size (usb20 s)) s.

Definition pci63xx_int_usb_read (where_ size old : Z) (s : pci_state B) : Z * pci_state B :=
  let '(v, u) := int_usb_read 0x10 USB_OHCI_BASE INTERRUPT_ID_USBH where_ size old (usb s) in
  (v, set_usb u s).

Definition pci63xx_int_usb20_read (where_ size old : Z) (s : pci_state B) : Z * pci_state B :=
  let '(v, u) := int_usb_read 0x20 USB_EHCI_BASE INTERRUPT_ID_USBH20 where_ size old (usb20 s) in
  (v, set_usb20 u s).

(** ** Configuration cycles *)

Definition mpi_SetupPciConfigAccess (addr : Z) (s : pci_state B) : pci_state B :=
  set_l2pcfgctl (Z.ldiff (Z.lor (Z.lor DIR_CFG_SEL DIR_CFG_USEREG) addr) CONFIG_TYPE) s.

Definition mpi_ClearPciConfigAccess (s : pci_state B) : pci_state B := set_l2pcfgctl 0 s.

(** A word read or written at [ioBase] (the I/O window of the bridge) while [l2pcfgctl] selects a register. *)
Definition io_read (s : pci_state B) : Z * pci_state B :=
  let '(v, b) := cfg_rd (l2pcfgctl s) (bus s) in (v, set_bus b s).

Definition io_write (v : Z) (s : pci_state B) : pci_state B :=
  set_bus (cfg_wr (l2pcfgctl s) v (bus s)) s.

Definition is_bar (where_ : Z) : bool := (PCI_BASE_ADDRESS_0 <=? where_) && (where_ <=? PCI_BASE_ADDRESS_5).

Definition bcm63xx_pcibios_read (devfn where_ size old : Z) (s : pci_state B) : Z * pci_state B :=
  if PCI_SLOT devfn =? USB_HOST_SLOT then pci63xx_int_usb_read where_ size old s
  else if PCI_SLOT devfn =? USB20_HOST_SLOT then pci63xx_int_usb20_read where_ size old s
  else
    let s := mpi_SetupPciConfigAccess (BCM_PCI_CFG (PCI_SLOT devfn) (PCI_FUNC devfn) where_) s in
    let '(data, s) := io_read s in
    let val := extract data where_ size old in
    let val :=
      if (size =? 4) && is_bar where_ && pci_mem_size_rd s &&
         negb (Z.land val PCI_BASE_ADDRESS_SPACE =? PCI_BASE_ADDRESS_SPACE_IO)
      then Z.land val (PCI_SIZE_64K + u32 (Z.lnot PCI_BASE_ADDRESS_MEM_MASK)) else val in
    (val, mpi_ClearPciConfigAccess (set_size_rd false s)).

Definition bcm63xx_pcibios_write (devfn where_ size val : Z) (s : pci_state B) : pci_state B :=
  if PCI_SLOT devfn =? USB_HOST_SLOT then pci63xx_int_usb_write where_ val size s
  else if PCI_SLOT devfn =? USB20_HOST_SLOT then pci63xx_int_usb20_write where_ val size s
  else
    let s := mpi_SetupPciConfigAccess (BCM_PCI_CFG (PCI_SLOT devfn) (PCI_FUNC devfn) where_) s in
    let '(data, s) := io_read s in
    let data := merge data where_ size val in
    let s := if (size =? 4) && is_bar where_ && (val =? 0xffffffff) then set_size_rd true s else s in
    mpi_ClearPciConfigAccess (udelay 500 (io_write data s)).

(** ** The kernel's probing of a base address ([pci_read_bases], one register) *)

Definition pci_size (base maxbase mask : Z) : Z :=
  let size := Z.land mask maxbase in
  if size =? 0 then 0
  else
    let size := u32 (Z.ldiff size (size - 1) - 1) in
    if (base =? maxbase) && negb (Z.land (Z.lor base size) mask =? mask) then 0 else size.

Definition is_64bit_memory (mask : Z) : bool :=
  Z.land mask (Z.lor PCI_BASE_ADDRESS_SPACE PCI_BASE_ADDRESS_MEM_TYPE_MASK) =?
  Z.lor PCI_BASE_ADDRESS_SPACE_MEMORY PCI_BASE_ADDRESS_MEM_TYPE_64.

(** Start and end of the resource, if there is one. *)
Definition probe_base (devfn reg : Z) (s : pci_state B) : option (Z * Z) * pci_state B :=
  let '(l, s) := bcm63xx_pcibios_read devfn reg 4 0 s in
  let s := bcm63xx_pcibios_write devfn reg 4 0xffffffff s in
  let '(sz, s) := bcm63xx_pcibios_read devfn reg 4 0 s in
  let s := bcm63xx_pcibios_write devfn reg 4 l s in
  if (sz =? 0) || (sz =? 0xffffffff) then (None, s)
  else
    let l := if l =? 0xffffffff then 0 else l in
    if Z.land l PCI_BASE_ADDRESS_SPACE =? PCI_BASE_ADDRESS_SPACE_MEMORY then
      let sz := pci_size l sz PCI_BASE_ADDRESS_MEM_MASK in
      if negb (is_64bit_memory l) && (sz =? 0) then (None, s)
      else let start := Z.land l PCI_BASE_ADDRESS_MEM_MASK in (Some (start, u32 (start + sz)), s)
    else
      let sz := pci_size l sz (Z.land PCI_BASE_ADDRESS_IO_MASK 0xffff) in
      if sz =? 0 then (None, s)
      else let start := Z.land l PCI_BASE_ADDRESS_IO_MASK in (Some (start, u32 (start + sz)), s).
End ops.

(** ** Fix-ups and interrupts of the slots *)

Record resource : Type := { res_start : Z; res_end : Z; res_flags : Z }.

Definition fixup_resource (r : resource) : resource :=
  if negb (res_end r =? 0) && (res_start r <? BCM_CB_MEM_BASE)
  then {| res_start := u32 (res_start r + (BCM_CB_MEM_BASE - BCM_PCI_MEM_BASE));
          res_end := u32 (res_end r + (BCM_CB_MEM_BASE - BCM_PCI_MEM_BASE));
          res_flags := Z.lor (res_flags r) IORESOURCE_PCI_FIXED |}
  else r.

Definition fix_flags (r : resource) : resource :=
  {| res_start := res_start r; res_end := res_end r; res_flags := Z.lor (res_flags r) IORESOURCE_PCI_FIXED |}.

(** [rs]: the resources of the device; the first six are its base addresses. *)
Definition bcm63xx_fixup (devfn : Z) (rs : list resource) : list resource :=
  let slot := PCI_SLOT devfn in
  if slot =? 0 then map fixup_resource (take 6 rs) ++ drop 6 rs
  else if (slot =? USB_HOST_SLOT) || (slot =? USB20_HOST_SLOT) then
    match rs with r :: rs' => fix_flags r :: rs' | [] => [] end
  else rs.

Definition irq_tab_bcm63xx : list Z :=
  [INTERRUPT_ID_MPI; INTERRUPT_ID_MPI; INTERRUPT_ID_MPI; 0; 0; 0; 0; 0; 0;
   INTERRUPT_ID_USBH; INTERRUPT_ID_USBH20].

(** A slot past the table is a read out of bounds. *)
Definition pcibios_map_irq (slot : Z) : option Z := irq_tab_bcm63xx !! Z.to_nat slot.

(** The resources of [bcm63xx_controller]. *)
Definition bcm_pci_io_resource : Z * Z := (BCM_PCI_IO_BASE, BCM_PCI_IO_BASE + BCM_PCI_IO_SIZE - 1).
Definition bcm_pci_mem_resource : Z * Z := (BCM_PCI_MEM_BASE, BCM_PCI_MEM_BASE + BCM_PCI_MEM_SIZE - 1).
