(* ===== verification/SetupClaims.v ===== *)
(** * Board setup: statements ([setup.c], [prom.c])

    The detection of a card in the slot against the table of the PC-card
    standard, the memory size and what is derived from it, the processor speed,
    the PCI windows, and the configuration of the HG553. *)

From stdpp Require Import base numbers list.
From Stdlib Require Import ZArith Lia Bool String.
From S2P Require Import Prelude BoardTables BoardParms SpiFlash Led Irq Setup.

#[local] Open Scope string_scope.
#[local] Open Scope Z_scope.

(** ** Registers *)

Lemma regs_wr r r' v s : regs (reg_wr r v s) r' = if decide (r' = r) then u32 v else regs s r'.
Proof. reflexivity. Qed.

Lemma regs_wr_ne r r' v s : r' ≠ r → regs (reg_wr r v s) r' = regs s r'.
Proof. intros. rewrite regs_wr, decide_False by done. reflexivity. Qed.

Lemma regs_wr_eq r v s : regs (reg_wr r v s) r = u32 v.
Proof. rewrite regs_wr, decide_True by done. reflexivity. Qed.

(** ** The card table

    A card-detect pin tied to a sense pin that the card grounds is at ground. *)
Definition settle (w : slot_wires) : slot_wires :=
  let pin c := match c with
               | CdVS1 => if vs1_gnd w then CdGnd else CdVS1
               | CdVS2 => if vs2_gnd w then CdGnd else CdVS2
               | c => c end in
  {| cd1 := pin (cd1 w); cd2 := pin (cd2 w); vs1_gnd := vs1_gnd w; vs2_gnd := vs2_gnd w |}.

Definition wires (c1 c2 : cd_wire) (g1 g2 : bool) : slot_wires :=
  {| cd1 := c1; cd2 := c2; vs1_gnd := g1; vs2_gnd := g2 |}.

#[global] Instance slot_wires_eq_dec : EqDecision slot_wires.
Proof. solve_decision. Defined.

(** The rows of the standard, with the type and the supplies of the card. *)
Definition card_table : list (slot_wires * (Z * string)) := [
  (wires CdGnd CdGnd false false, (MPI_CARDTYPE_PCMCIA, "5 vdc 16-bit PCMCIA"));
  (wires CdGnd CdGnd true false, (MPI_CARDTYPE_PCMCIA, "3.3 vdc 16-bit PCMCIA"));
  (wires CdGnd CdGnd false true, (MPI_CARDTYPE_PCMCIA, "x.x vdc 16-bit PCMCIA"));
  (wires CdGnd CdGnd true true, (MPI_CARDTYPE_PCMCIA, "3.3 & x.x 16-bit PCMCIA"));
  (wires CdVS1 CdGnd false false, (MPI_CARDTYPE_CARDBUS, "3.3 vdc Cardbus"));
  (wires CdGnd CdVS2 false false, (MPI_CARDTYPE_CARDBUS, "x.x vdc Cardbus"));
  (wires CdGnd CdVS1 false false, (MPI_CARDTYPE_CARDBUS, "y.y vdc Cardbus"));
  (wires CdGnd CdVS2 true false, (MPI_CARDTYPE_CARDBUS, "3.3 and x.x Cardbus"));
  (wires CdVS2 CdGnd false false, (MPI_CARDTYPE_CARDBUS, "x.x and y.y Cardbus"));
  (wires CdGnd CdVS1 false true, (MPI_CARDTYPE_CARDBUS, "3.3, x.x and y.y Cardbus"))
].

Definition card_row (w : slot_wires) : option (Z * string) :=
  snd <$> List.find (λ row, bool_decide (fst row = settle w)) card_table.

Definition card_type (w : slot_wires) : Z :=
  match card_row w with Some (t, _) => t | None => MPI_CARDTYPE_NONE end.

(** The message: the row of the table, or what is wrong with the detect pins. *)
Definition card_message (w : slot_wires) : string :=
  match card_row w with
  | Some (_, m) => "MPI: Detected " ++ m ++ " card\n"
  | None =>
      match cd1 w, cd2 w with
      | CdOpen, CdOpen => "MPI: No Card is in the PCMCIA slot\n"
      | _, CdOpen => "MPI: Card in the PCMCIA slot partial insertion, no CD2 signal\n"
      | CdOpen, _ => "MPI: Card in the PCMCIA slot partial insertion, no CD1 signal\n"
      | _, _ => "MPI: Unknown card plugged into slot\n"
      end
  end.

Definition only_cntl1 (s s' : setup_hw) : Prop :=
  (∀ r, r ≠ MPI_pcmcia_cntl1 → regs s' r = regs s r) ∧ pcicfg s' = pcicfg s ∧ slot s' = slot s ∧
  ioport_resource s' = ioport_resource s.

(** [cardtype_vcc_detect] on every wiring of the slot. *)
Lemma cardtype_vcc_detect_spec s t s' :
  cardtype_vcc_detect s = (t, s') →
  t = card_type (slot s) ∧ printed s' = (printed s ++ [card_message (slot s)])%list ∧ only_cntl1 s s'.
Proof.
  intros E.
  assert (fst (cardtype_vcc_detect s) = t ∧ snd (cardtype_vcc_detect s) = s') as [<- <-] by (by rewrite E).
  clear E. destruct s as [r p [c1 c2 g1 g2] pr d io].
  destruct c1, c2, g1, g2;
    (split_and!; [vm_compute; reflexivity | vm_compute; reflexivity
                 | split_and!; [|reflexivity..]; intros q Hq; destruct q; done]).
Qed.

(** ** Memory size *)

(** Bits [sh] to [sh + n - 1] of a register. *)
Definition field (n sh v : Z) : Z := Z.shiftr v sh mod 2 ^ n.

Lemma field_mask n sh v :
  0 ≤ n → 0 ≤ sh → Z.shiftr (Z.land v (Z.shiftl (Z.ones n) sh)) sh = field n sh v.
Proof.
  intros. unfold field. rewrite Z.shiftr_land, Z.shiftr_shiftl_l, Z.sub_diag by lia.
  rewrite Z.shiftl_0_r, Z.land_ones by lia. reflexivity.
Qed.

Lemma field_range n sh v : 0 ≤ n → 0 ≤ field n sh v < 2 ^ n.
Proof. intros. apply Z.mod_pos_bound. apply Z.pow_pos_nonneg; lia. Qed.

Definition columns (cfg : Z) : Z := field 3 MEMC_COL_SHFT cfg + 8.
Definition rows (cfg : Z) : Z := field 2 MEMC_ROW_SHFT cfg + 11.
Definition bus_bytes (cfg : Z) : Z := if field 1 MEMC_WIDTH_SHFT cfg =? MEMC_32BIT_BUS then 4 else 2.
Definition banks : Z := 4.

(** The exponent of the memory size. *)
Definition size_bits (cfg : Z) : Z :=
  columns cfg + rows cfg + (if field 1 MEMC_WIDTH_SHFT cfg =? MEMC_32BIT_BUS then 2 else 1) + 2.

Lemma u32_shiftl_pow a n : 0 ≤ a → 0 ≤ n → u32 (Z.shiftl (u32 (2 ^ a)) n) = u32 (2 ^ (a + n)).
Proof.
  intros. rewrite Z.shiftl_mul_pow2 by lia. unfold u32. rewrite Zmult_mod_idemp_l, Z.pow_add_r by lia.
  reflexivity.
Qed.

Lemma getMemorySize_pow s : getMemorySize s = u32 (2 ^ size_bits (regs s MEMC_Config)).
Proof.
  unfold getMemorySize, size_bits, columns, rows. cbn [reg_rd].
  change MEMC_COL_MASK with (Z.shiftl (Z.ones 3) MEMC_COL_SHFT).
  change MEMC_ROW_MASK with (Z.shiftl (Z.ones 2) MEMC_ROW_SHFT).
  change MEMC_WIDTH_MASK with (Z.shiftl (Z.ones 1) MEMC_WIDTH_SHFT).
  rewrite !field_mask by (unfold MEMC_COL_SHFT, MEMC_ROW_SHFT, MEMC_WIDTH_SHFT; lia).
  generalize (regs s MEMC_Config); intros c.
  pose proof (field_range 3 MEMC_COL_SHFT c ltac:(lia)).
  pose proof (field_range 2 MEMC_ROW_SHFT c ltac:(lia)).
  rewrite Z.shiftl_1_l, u32_shiftl_pow by lia.
  destruct (_ =? MEMC_32BIT_BUS); rewrite !u32_shiftl_pow by lia; f_equal; f_equal; lia.
Qed.

(** The mask [~(2^n - 1)] splits a 32-bit address at bit [n]. *)
Lemma mask_bit n i : 0 ≤ n ≤ 32 → 0 ≤ i →
  Z.testbit (u32 (Z.lnot (2 ^ n - 1))) i = bool_decide (n ≤ i < 32).
Proof.
  intros Hn Hi. replace (2 ^ n - 1) with (Z.ones n) by (rewrite Z.ones_equiv; lia). unfold u32.
  destruct (decide (i < 32)).
  - rewrite Z.mod_pow2_bits_low, Z.lnot_spec by lia. destruct (decide (i < n)).
    + rewrite Z.ones_spec_low by lia. rewrite bool_decide_false by lia. done.
    + rewrite Z.ones_spec_high by lia. rewrite bool_decide_true by lia. done.
  - rewrite Z.mod_pow2_bits_high by lia. by rewrite bool_decide_false by lia.
Qed.

Lemma testbit_u32 a i : 0 ≤ a < 2 ^ 32 → 32 ≤ i → Z.testbit a i = false.
Proof.
  intros. destruct (decide (a = 0)) as [->|]; [apply Z.bits_0|].
  apply Z.bits_above_log2; [lia|]. assert (Z.log2 a < 32) by (apply Z.log2_lt_pow2; lia). lia.
Qed.

Lemma land_high a n : 0 ≤ n ≤ 32 → 0 ≤ a < 2 ^ 32 →
  Z.land a (u32 (Z.lnot (2 ^ n - 1))) = 2 ^ n * (a / 2 ^ n).
Proof.
  intros Hn Ha. rewrite (Z.mul_comm (2 ^ n)), <- Z.shiftl_mul_pow2, <- Z.shiftr_div_pow2 by lia.
  apply Z.bits_inj'; intros i Hi. rewrite Z.land_spec, mask_bit, Z.shiftl_spec by lia.
  destruct (decide (n ≤ i)).
  - rewrite Z.shiftr_spec by lia. replace (i - n + n) with i by lia. destruct (decide (i < 32)).
    + rewrite bool_decide_true, andb_true_r by lia. done.
    + rewrite testbit_u32 by lia. done.
  - rewrite bool_decide_false, (Z.testbit_neg_r _ (i - n)), andb_false_r by lia. done.
Qed.

Lemma ldiff_high a n : 0 ≤ n ≤ 32 → 0 ≤ a < 2 ^ 32 →
  Z.ldiff a (u32 (Z.lnot (2 ^ n - 1))) = a mod 2 ^ n.
Proof.
  intros Hn Ha. apply Z.bits_inj'; intros i Hi. rewrite Z.ldiff_spec, mask_bit by lia.
  destruct (decide (n ≤ i)).
  - rewrite Z.mod_pow2_bits_high by lia. destruct (decide (i < 32)).
    + rewrite bool_decide_true, andb_false_r by lia. done.
    + rewrite testbit_u32 by lia. done.
  - rewrite Z.mod_pow2_bits_low, bool_decide_false, andb_true_r by lia. done.
Qed.

Lemma land_range_window a n : 0 ≤ n ≤ 32 → 0 ≤ a < 2 ^ 32 →
  Z.land a (u32 (Z.lnot (2 ^ n - 1))) = 0 ↔ a < 2 ^ n.
Proof.
  intros Hn Ha. rewrite land_high by done. assert (0 < 2 ^ n) by (apply Z.pow_pos_nonneg; lia).
  pose proof (Z.div_mod a (2 ^ n) ltac:(lia)). pose proof (Z.mod_pos_bound a (2 ^ n) ltac:(lia)).
  split; intros Hx; [nia|]. rewrite Z.div_small by lia. lia.
Qed.

Lemma chipid_6358 m : 0 ≤ m < 2 ^ 16 →
  Z.shiftr (Z.land (Z.lor (Z.shiftl 0x6358 16) m) 0xFFFF0000) 16 = 0x6358.
Proof.
  intros. rewrite Z.shiftr_land, Z.shiftr_lor, Z.shiftr_shiftl_l by lia.
  rewrite (Z.shiftr_div_pow2 m 16), (Z.div_small m) by lia. reflexivity.
Qed.

(** The chip is a BCM6358, of any revision. *)
Definition chip_6358 (s : setup_hw) : Prop :=
  ∃ m, 0 ≤ m < 2 ^ 16 ∧ regs s PERF_RevID = Z.lor (Z.shiftl 0x6358 16) m.

(** The windows [mpi_init] opens, as the values of the registers. *)
Lemma mpi_init_windows s : chip_6358 s →
  let s' := mpi_init s in
  regs s' MPI_sp0range = u32 (Z.lnot (u32 (getMemorySize s - 1))) ∧
  regs s' MPI_sp1range = u32 (Z.lnot (u32 (getMemorySize s - 1))) ∧
  (regs s' MPI_l2pmrange1, regs s' MPI_l2pmbase1, regs s' MPI_l2pmremap1) =
    (0xFF000000, 0x12000000, 0x11000001) ∧
  (regs s' MPI_l2pmrange2, regs s' MPI_l2pmbase2, regs s' MPI_l2pmremap2) =
    (0xFF000000, 0x11000000, 0x11000001) ∧
  (regs s' MPI_l2piorange, regs s' MPI_l2piobase, regs s' MPI_l2pioremap) =
    (0xFFFF0000, 0x13000000, 0x13000001).
Proof.
  intros (m & Hm & Hrev). unfold mpi_init. change (reg_rd PERF_RevID s) with (regs s PERF_RevID).
  rewrite Hrev, chipid_6358 by done. generalize (getMemorySize s). intros sz. clear.
  change (negb _) with true. split_and!; lazy -[u32 Z.lnot Z.sub Z.land Z.lor Z.ldiff]; reflexivity.
Qed.

(** Memory size, [getMemorySize].  With a column count the chip's header
    defines (8 to 11 bits), the size is the product of the columns, the rows, the
    bytes of the bus and the four banks, at least 4 MB and at most 512 MB;
    the kernel gets the memory from 0 up to the DSL image at its top, and the
    windows that [mpi_init] opens for PCI bus masters match exactly the addresses
    of the memory. *)
Theorem memory_size_correct s a :
  columns (regs s MEMC_Config) ≤ 11 →
  let cfg := regs s MEMC_Config in
  getMemorySize s = 2 ^ columns cfg * 2 ^ rows cfg * bus_bytes cfg * banks ∧
  2 ^ 22 ≤ getMemorySize s ≤ 2 ^ 29 ∧
  plat_mem_setup s [] = [(0, getMemorySize s - ADSL_SDRAM_IMAGE_SIZE, BOOT_MEM_RAM)] ∧
  (0 ≤ a < 2 ^ 32 → chip_6358 s →
   (Z.land a (regs (mpi_init s) MPI_sp0range) = 0 ↔ a < getMemorySize s) ∧
   (Z.land a (regs (mpi_init s) MPI_sp1range) = 0 ↔ a < getMemorySize s)).
Proof.
  intros Hcol cfg. pose proof (getMemorySize_pow s) as Hsz. fold cfg in Hsz, Hcol.
  assert (22 ≤ size_bits cfg ≤ 29) as Hbits.
  { unfold size_bits. revert Hcol. unfold columns, rows.
    pose proof (field_range 3 MEMC_COL_SHFT cfg ltac:(lia)).
    pose proof (field_range 2 MEMC_ROW_SHFT cfg ltac:(lia)). destruct (_ =? _); lia. }
  assert (2 ^ 22 ≤ 2 ^ size_bits cfg ≤ 2 ^ 29) as Hpow by (split; apply Z.pow_le_mono_r; lia).
  rewrite u32_small in Hsz by lia.
  split_and!; [| lia | lia | |].
  - rewrite Hsz. unfold size_bits, bus_bytes, banks, columns, rows.
    pose proof (field_range 3 MEMC_COL_SHFT cfg ltac:(lia)).
    pose proof (field_range 2 MEMC_ROW_SHFT cfg ltac:(lia)).
    destruct (_ =? _); rewrite !(Z.pow_add_r 2 _ 2), !Z.pow_add_r by lia; lia.
  - unfold plat_mem_setup. rewrite u32_small by (unfold ADSL_SDRAM_IMAGE_SIZE; lia).
    unfold add_memory_region. destruct (Z.ltb_spec (u32 (0 + (getMemorySize s - ADSL_SDRAM_IMAGE_SIZE))) 0).
    + pose proof (u32_range (0 + (getMemorySize s - ADSL_SDRAM_IMAGE_SIZE))). lia.
    + reflexivity.
  - intros Ha (-> & -> & _)%mpi_init_windows. rewrite Hsz, (u32_small (_ - 1)) by lia.
    split; apply land_range_window; lia.
Qed.

(** A board: configuration [cfg] of the memory controller, a BCM6358, a PLL set to
    300 MHz, and a card. *)
Definition demo_hw (cfg : Z) (w : slot_wires) : setup_hw :=
  {| regs := λ r, match r with
                  | MEMC_Config => cfg
                  | PERF_RevID => 0x635800a1
                  | DDR_MIPSDDRPLLConfig => Z.lor (Z.shiftl 3 29) (Z.lor (Z.shiftl 25 23) 4)
                  | _ => 0
                  end;
     pcicfg := λ _, 0; slot := w; printed := []; mdelays := []; ioport_resource := (0, 0) |}.

Lemma demo_hw_chip cfg w : chip_6358 (demo_hw cfg w).
Proof. exists 0xa1. split; [lia|reflexivity]. Qed.

Lemma memory_size_correct_witness :
  let s := demo_hw 0x8e (wires CdOpen CdOpen false false) in
  getMemorySize s = 2 ^ 25 ∧ (Z.land 0x01fffffc (regs (mpi_init s) MPI_sp0range) = 0 ↔ 0x01fffffc < getMemorySize s).
Proof.
  intros s. assert (columns (regs s MEMC_Config) ≤ 11) as Hc by (vm_compute; discriminate).
  destruct (memory_size_correct s 0x01fffffc Hc) as (Hs & _ & _ & Hw).
  split; [rewrite Hs; vm_compute; reflexivity|]. apply Hw; [lia | apply demo_hw_chip].
Defined.

(** ** Processor speed *)

Definition pll_n2 (cfg : Z) : Z := field 3 MIPSDDR_N2_SHFT cfg.
Definition pll_n1 (cfg : Z) : Z := field 6 MIPSDDR_N1_SHFT cfg.
Definition pll_m (cfg : Z) : Z := field 8 MIPS_MDIV_SHFT cfg.

Lemma calculateCpuSpeed_eq s :
  let cfg := regs s DDR_MIPSDDRPLLConfig in
  calculateCpuSpeed s =
    if pll_m cfg =? 0 then None else Some (u32 (16000000 * (pll_n1 cfg * pll_n2 cfg)) / pll_m cfg).
Proof.
  intros cfg. unfold calculateCpuSpeed. cbn [reg_rd]. fold cfg.
  change MIPSDDR_N2_MASK with (Z.shiftl (Z.ones 3) MIPSDDR_N2_SHFT).
  change MIPSDDR_N1_MASK with (Z.shiftl (Z.ones 6) MIPSDDR_N1_SHFT).
  change MIPS_MDIV_MASK with (Z.shiftl (Z.ones 8) MIPS_MDIV_SHFT).
  rewrite !field_mask by (unfold MIPSDDR_N2_SHFT, MIPSDDR_N1_SHFT, MIPS_MDIV_SHFT; lia).
  fold (pll_n2 cfg) (pll_n1 cfg) (pll_m cfg). change (64000000 / 4) with 16000000.
  replace (u32 (u32 (16000000 * pll_n2 cfg) * pll_n1 cfg)) with (u32 (16000000 * (pll_n1 cfg * pll_n2 cfg)));
    [reflexivity|].
  unfold u32. rewrite Zmult_mod_idemp_l. f_equal. lia.
Qed.

(** Processor speed, [calculateCpuSpeed].  The speed is 16 MHz times the two
    multipliers over the divider, as long as the multipliers' product is at most
    268; for every larger product the 32-bit numerator wraps and the result is
    wrong (too small), and a divider of zero traps.  The multipliers' fields allow
    products up to 441. *)
Theorem cpu_speed_exact s :
  let cfg := regs s DDR_MIPSDDRPLLConfig in
  let exact := 16000000 * (pll_n1 cfg * pll_n2 cfg) / pll_m cfg in
  0 ≤ pll_n1 cfg * pll_n2 cfg ≤ 441 ∧
  (pll_m cfg = 0 ↔ calculateCpuSpeed s = None) ∧
  (pll_m cfg ≠ 0 → pll_n1 cfg * pll_n2 cfg ≤ 268 → calculateCpuSpeed s = Some exact) ∧
  (pll_m cfg ≠ 0 → 268 < pll_n1 cfg * pll_n2 cfg → ∃ v, calculateCpuSpeed s = Some v ∧ v < exact).
Proof.
  intros cfg exact. pose proof (calculateCpuSpeed_eq s) as Heq. cbv zeta in Heq. fold cfg in Heq.
  rewrite Heq. unfold exact.
  pose proof (field_range 3 MIPSDDR_N2_SHFT cfg ltac:(lia)).
  pose proof (field_range 6 MIPSDDR_N1_SHFT cfg ltac:(lia)).
  pose proof (field_range 8 MIPS_MDIV_SHFT cfg ltac:(lia)).
  fold (pll_n2 cfg) (pll_n1 cfg) (pll_m cfg) in *.
  set (n := pll_n1 cfg * pll_n2 cfg) in *. assert (0 ≤ n ≤ 441) as Hn by nia.
  split; [done|]. destruct (Z.eqb_spec (pll_m cfg) 0) as [->|Hm].
  - split_and!; [done | congruence | congruence].
  - split_and!; [split; congruence | |]; intros _ Hle.
    + rewrite u32_small by lia. done.
    + eexists. split; [done|].
      assert (u32 (16000000 * n) = 16000000 * n - 2 ^ 32) as ->
        by (unfold u32; rewrite <- (Z.mod_add _ (-1)), Z.mod_small; lia).
      apply Z.div_lt_upper_bound; [lia|].
      pose proof (Z.mul_succ_div_gt (16000000 * n) (pll_m cfg) ltac:(lia)). lia.
Qed.

(** ** The slot after detection *)

Lemma card_type_cases w :
  card_type w = MPI_CARDTYPE_NONE ∨ card_type w = MPI_CARDTYPE_PCMCIA ∨ card_type w = MPI_CARDTYPE_CARDBUS.
Proof. destruct w as [c1 c2 g1 g2]. destruct c1, c2, g1, g2; vm_compute; auto. Qed.

(** What the slot's control register is left with, without its input bits. *)
Definition slot_control (t : Z) : Z :=
  if t =? MPI_CARDTYPE_PCMCIA then Z.lor PCMCIA_ENABLE PCMCIA_GPIO_ENABLE
  else if t =? MPI_CARDTYPE_CARDBUS then Z.lor PCCARD_CARD_RESET CARD_PINS
  else CARD_PINS.

(** Bits 13 to 15 and the reset of [pcmcia_cntl1]. *)
Definition SLOT_CONTROL_BITS : Z := Z.lor PCCARD_CARD_RESET (Z.lor CARD_PINS PCMCIA_ENABLE).

(** [pcmcia_cntl1] is first written whole, so its end value depends on the wiring
    only. *)
Lemma slot_cntl1 s :
  Z.land (regs (snd (mpi_DetectPcCard s)) MPI_pcmcia_cntl1) SLOT_CONTROL_BITS =
  slot_control (card_type (slot s)).
Proof.
  destruct s as [r p [c1 c2 g1 g2] pr d io]. destruct c1, c2, g1, g2; vm_compute; reflexivity.
Qed.

(** The waits of the detection on a slot wired as [w]. *)
Definition detect_waits (w : slot_wires) : list (Z * Z) :=
  mdelays (snd (mpi_DetectPcCard
    {| regs := λ _, 0; pcicfg := λ _, 0; slot := w; printed := []; mdelays := []; ioport_resource := (0, 0) |})).

Lemma mdelays_detect s : mdelays (snd (mpi_DetectPcCard s)) = (mdelays s ++ detect_waits (slot s))%list.
Proof.
  destruct s as [r p [c1 c2 g1 g2] pr d io]. cbn [mdelays slot].
  destruct c1, c2, g1, g2;
    (induction d as [|x d IH]; [vm_compute; reflexivity|exact (f_equal (cons x) IH)]).
Qed.

(** Whether a card of type [t] is held in reset by the control register [c]: the
    reset of a 16-bit card is active high, that of a CardBus card active low. *)
Definition held_in_reset (t c : Z) : bool :=
  if t =? MPI_CARDTYPE_CARDBUS then Z.land c PCCARD_CARD_RESET =? 0
  else negb (Z.land c PCCARD_CARD_RESET =? 0).

(** The waits for the sense pins, and those for the reset. *)
Definition reset_cycle (t : Z) (reset : list (Z * Z)) : Prop :=
  if t =? MPI_CARDTYPE_NONE then reset = []
  else ∃ c1 c2, reset = [(10, c1); (100, c2)] ∧ held_in_reset t c1 = true ∧ held_in_reset t c2 = false.

Lemma detect_waits_spec w :
  ∃ sense reset, detect_waits w = (sense ++ reset)%list ∧ (List.length sense ≤ 2)%nat ∧
    Forall (λ x, fst x = 1) sense ∧ reset_cycle (card_type w) reset.
Proof.
  exists (List.filter (λ x, fst x =? 1) (detect_waits w)), (List.filter (λ x, negb (fst x =? 1)) (detect_waits w)).
  split; [|split; [|split; [apply Forall_forall; intros x Hx%list_elem_of_In%filter_In; lia|]]].
  - destruct w as [[] [] [] []]; vm_compute; reflexivity.
  - apply Nat.leb_le. destruct w as [[] [] [] []]; vm_compute; reflexivity.
  - unfold reset_cycle. destruct (Z.eqb_spec (card_type w) MPI_CARDTYPE_NONE) as [E|E].
    + destruct w as [[] [] [] []]; first [vm_compute in E; discriminate E | vm_compute; reflexivity].
    + destruct w as [[] [] [] []]; first [by destruct E |
        eexists _, _; split; [vm_compute; reflexivity|split; vm_compute; reflexivity]].
Qed.

(** What the detection does to the windows of the bridge. *)
Lemma detect_windows s :
  let s' := snd (mpi_DetectPcCard s) in
  regs s' MPI_l2pmremap1 = (if card_type (slot s) =? MPI_CARDTYPE_CARDBUS
                            then u32 (Z.lor (regs s MPI_l2pmremap1) CARDBUS_MEM) else regs s MPI_l2pmremap1) ∧
  Forall (λ r, regs s' r = regs s r)
    [MPI_l2pmrange1; MPI_l2pmbase1; MPI_l2pmrange2; MPI_l2pmbase2; MPI_l2pmremap2].
Proof.
  destruct s as [r p [c1 c2 g1 g2] pr d io].
  destruct c1, c2, g1, g2; (split; [reflexivity|repeat (constructor; [reflexivity|]); constructor]).
Qed.

(** [C21] The PC-card slot, [mpi_DetectPcCard].  However the four detect and sense
    pins of the slot are wired by a card (64 wirings), the function returns the
    card type that the table of the PC-card standard gives for the wiring, and 0
    (none) for a wiring that is not in the table, and prints the row, or that
    there is no card, a partial insertion or an unknown card.  For a 16-bit card
    the slot is in PCMCIA mode with the reset bit clear; for a CardBus card it is
    in CardBus mode with the (inverted) reset bit set and PCI window 1 goes to the
    card.  In both cases the card is held in reset during a wait of ten
    milliseconds and out of reset during the hundred that follow, after at most
    two waits of one millisecond for the sense pins.  Without a card the window is
    not touched and nothing waits for a reset. *)
Theorem slot_bring_up s t s' :
  mpi_DetectPcCard s = (t, s') →
  t = card_type (slot s) ∧ printed s' = (printed s ++ [card_message (slot s)])%list ∧
  Z.land (regs s' MPI_pcmcia_cntl1) SLOT_CONTROL_BITS = slot_control t ∧
  regs s' MPI_l2pmremap1 =
    (if t =? MPI_CARDTYPE_CARDBUS then u32 (Z.lor (regs s MPI_l2pmremap1) CARDBUS_MEM)
     else regs s MPI_l2pmremap1) ∧
  ∃ sense reset, mdelays s' = (mdelays s ++ sense ++ reset)%list ∧ (List.length sense ≤ 2)%nat ∧
    Forall (λ x, fst x = 1) sense ∧ reset_cycle t reset.
Proof.
  intros E. pose proof (slot_cntl1 s) as Hc. pose proof (mdelays_detect s) as Hd.
  destruct (detect_windows s) as [Hw _]. rewrite E in Hc, Hd, Hw. cbn [snd] in Hc, Hd, Hw.
  assert (t = card_type (slot s) ∧ printed s' = (printed s ++ [card_message (slot s)])%list) as [-> Hp].
  { unfold mpi_DetectPcCard in E. destruct (cardtype_vcc_detect s) as [t0 s0] eqn:Ed.
    destruct (cardtype_vcc_detect_spec _ _ _ Ed) as (Ht & Hp & _).
    destruct (t0 =? MPI_CARDTYPE_PCMCIA); [|destruct (t0 =? MPI_CARDTYPE_CARDBUS)]; injection E as <- <-;
      (split; [exact Ht|]); try exact Hp; unfold reset_card, mpi_ResetPcCard;
      destruct (t0 =? MPI_CARDTYPE_NONE), (t0 =? MPI_CARDTYPE_CARDBUS); exact Hp. }
  split_and!; [done | exact Hp | exact Hc | exact Hw |].
  destruct (detect_waits_spec (slot s)) as (sense & reset & Es & H). exists sense, reset.
  split; [by rewrite Hd, Es|exact H].
Qed.

Lemma slot_bring_up_witness :
  let s := demo_hw 0x8e (wires CdGnd CdVS1 false true) in
  fst (mpi_DetectPcCard s) = MPI_CARDTYPE_CARDBUS ∧
  printed (snd (mpi_DetectPcCard s)) = ["MPI: Detected 3.3, x.x and y.y Cardbus card\n"].
Proof.
  intros s. destruct (mpi_DetectPcCard s) as [t s'] eqn:E.
  destruct (slot_bring_up s t s' E) as (Ht & Hp & _). cbn [fst snd].
  rewrite Ht, Hp. split; vm_compute; reflexivity.
Defined.

(** ** The windows of the bridge

    The bridge itself is hardware.  What [setup.c] says of it (the comments of
    [mpi_init]): the base register of a window is like the base of a chip select,
    for the address bits of the range register; the remap register replaces those
    bits of the address, and its bits enable the window and direct it to CardBus.
    What the bridge does with an address in two windows, or in none, is open. *)

Definition in_window (range base addr : Z) : bool := Z.land addr range =? Z.land base range.

Definition remapped (range remap addr : Z) : Z := Z.lor (Z.land remap range) (Z.ldiff addr range).

(** A window as its three registers: range, base, remap. *)
Definition mem_window : Type := Z * Z * Z.

Definition open_at (w : mem_window) (addr : Z) : bool :=
  let '(range, base, remap) := w in has remap MEM_WINDOW_EN && in_window range base addr.

(** Whether the cycle goes to the CardBus card, and its address there. *)
Definition through (w : mem_window) (addr : Z) : bool * Z :=
  let '(range, base, remap) := w in (has remap CARDBUS_MEM, remapped range remap addr).

Class PciBridge : Type := {
  cycle : mem_window → mem_window → Z → option (bool * Z);
  cycle_1 : ∀ w1 w2 a, open_at w1 a = true → open_at w2 a = false → cycle w1 w2 a = Some (through w1 a);
  cycle_2 : ∀ w1 w2 a, open_at w1 a = false → open_at w2 a = true → cycle w1 w2 a = Some (through w2 a)
}.

(** A bridge that prefers the first window. *)
#[global] Instance first_window : PciBridge.
Proof.
  refine {| cycle w1 w2 a := if open_at w1 a then Some (through w1 a)
                             else if open_at w2 a then Some (through w2 a) else None |}.
  - by intros w1 w2 a -> _.
  - by intros w1 w2 a -> ->.
Defined.

(** The memory cycle for an address of the system bus, with the registers as they
    are in [s]. *)
Definition bridge `{PciBridge} (s : setup_hw) (addr : Z) : option (bool * Z) :=
  cycle (regs s MPI_l2pmrange1, regs s MPI_l2pmbase1, regs s MPI_l2pmremap1)
        (regs s MPI_l2pmrange2, regs s MPI_l2pmbase2, regs s MPI_l2pmremap2) addr.

Lemma in_window_16M base a : 0 ≤ a < 2 ^ 32 → 0 ≤ base < 2 ^ 32 → base mod 2 ^ 24 = 0 →
  in_window 0xFF000000 base a = bool_decide (base ≤ a < base + 2 ^ 24).
Proof.
  intros Ha Hb Hal. unfold in_window. change 0xFF000000 with (u32 (Z.lnot (2 ^ 24 - 1))).
  rewrite !land_high by lia.
  pose proof (Z.div_mod a (2 ^ 24) ltac:(lia)). pose proof (Z.mod_pos_bound a (2 ^ 24) ltac:(lia)).
  pose proof (Z.div_mod base (2 ^ 24) ltac:(lia)).
  destruct (Z.eqb_spec (2 ^ 24 * (a / 2 ^ 24)) (2 ^ 24 * (base / 2 ^ 24)));
    [rewrite bool_decide_true | rewrite bool_decide_false]; try done; nia.
Qed.

Lemma remapped_16M remap base pci a : 0 ≤ a < 2 ^ 32 → base ≤ a < base + 2 ^ 24 → base mod 2 ^ 24 = 0 →
  Z.land remap 0xFF000000 = pci → 0 ≤ pci < 2 ^ 32 → pci mod 2 ^ 24 = 0 →
  remapped 0xFF000000 remap a = pci + (a - base).
Proof.
  intros Ha Hin Hal Hp Hpr Hpal. unfold remapped. rewrite Hp.
  change 0xFF000000 with (u32 (Z.lnot (2 ^ 24 - 1))). rewrite ldiff_high by lia.
  assert (a mod 2 ^ 24 = a - base) as E.
  { pose proof (Z.div_mod base (2 ^ 24) ltac:(lia)).
    symmetry. apply (Z.mod_unique _ _ (base / 2 ^ 24)); [lia|]. lia. }
  rewrite E, <- Z.add_nocarry_lor; [done|].
  apply Z.bits_inj'; intros i Hi. rewrite Z.land_spec, Z.bits_0.
  destruct (decide (i < 24)).
  - rewrite <- (Z.mod_pow2_bits_low pci 24 i) by lia. rewrite Hpal, Z.bits_0. done.
  - rewrite <- E, Z.mod_pow2_bits_high by lia. apply andb_false_r.
Qed.

(** The bridge after [mpi_init] and, with [cb], after a CardBus card was found. *)
Definition bridge_ready (cb : bool) (s : setup_hw) : Prop :=
  (regs s MPI_l2pmrange1, regs s MPI_l2pmbase1, regs s MPI_l2pmremap1) =
    (0xFF000000, 0x12000000, if cb then 0x11000005 else 0x11000001) ∧
  (regs s MPI_l2pmrange2, regs s MPI_l2pmbase2, regs s MPI_l2pmremap2) =
    (0xFF000000, 0x11000000, 0x11000001).

Lemma mpi_init_ready s : chip_6358 s → bridge_ready false (mpi_init s).
Proof. intros (_ & _ & H1 & H2 & _)%mpi_init_windows. by split. Qed.

(** The registers after [bcm6358_hw_init] on a board with PCI: window 1 goes to the
    CardBus card when the board has the slot and there is such a card in it. *)
Lemma hw_init_ready cur overlays s :
  chip_6358 s → BpGetGPIOverlays cur = (BP_SUCCESS, overlays) → has overlays BP_OVERLAY_PCI = true →
  bridge_ready (has overlays BP_OVERLAY_CB && (card_type (slot s) =? MPI_CARDTYPE_CARDBUS))
    (bcm6358_hw_init cur s).
Proof.
  intros Hc Ho Hp. unfold bcm6358_hw_init. rewrite Ho, Hp. change (BP_SUCCESS =? BP_SUCCESS) with true. cbv iota.
  match goal with |- context [mpi_init ?x] => set (s1 := x) end.
  assert (chip_6358 s1 ∧ slot s1 = slot s) as [Hc1 Hs1].
  { unfold s1, chip_6358. destruct (BpIsSupportSerialGpioMode cur =? BP_SUCCESS), (has overlays BP_OVERLAY_LED),
      (has overlays BP_OVERLAY_UTOPIA), (has overlays BP_OVERLAY_UART1), (has overlays BP_OVERLAY_SPI_EXT_CS);
      exact (conj Hc eq_refl). }
  pose proof (mpi_init_ready s1 Hc1) as Hr.
  assert (slot (mpi_init s1) = slot s) as Hs2 by (rewrite <- Hs1; unfold mpi_init; by destruct (negb _)).
  clearbody s1. revert Hr Hs2. generalize (mpi_init s1). intros s2 [H1 H2] Hs2.
  destruct (has overlays BP_OVERLAY_CB); cbn [andb]; [|by split].
  destruct (detect_windows s2) as [Hw Hf]. rewrite Hs2 in Hw. injection H1 as Hr1 Hb1 Hm1. injection H2 as Hr2 Hb2 Hm2.
  revert Hw Hf. generalize (snd (mpi_DetectPcCard s2)). intros s3 Hw Hf.
  repeat (apply Forall_cons in Hf as [? Hf]). cbn beta in *.
  unfold bridge_ready. cbn [regs reg_wr]. unfold fupd. rewrite !decide_False by done. split; [|congruence].
  rewrite Hw, Hm1. replace (regs s3 MPI_l2pmrange1) with 0xFF000000 by congruence.
  replace (regs s3 MPI_l2pmbase1) with 0x12000000 by congruence. by destruct (card_type (slot s) =? MPI_CARDTYPE_CARDBUS).
Qed.

Section bridge.
Context `{PciBridge}.

Lemma window_open cb a : 0 ≤ a < 2 ^ 32 →
  open_at (0xFF000000, 0x12000000, if cb : bool then 0x11000005 else 0x11000001) a =
    bool_decide (BCM_CB_MEM_BASE ≤ a < BCM_CB_MEM_BASE + BCM_CB_MEM_SIZE) ∧
  open_at (0xFF000000, 0x11000000, 0x11000001) a =
    bool_decide (BCM_PCI_MEM_BASE ≤ a < BCM_PCI_MEM_BASE + BCM_PCI_MEM_SIZE).
Proof.
  intros Ha. unfold open_at. rewrite !in_window_16M by (try done; lia).
  replace (has (if cb then _ else _) MEM_WINDOW_EN) with true by (by destruct cb). done.
Qed.

(** The two windows, 16 MB apart. *)
Lemma bridge_cardbus cb s a : bridge_ready cb s → BCM_CB_MEM_BASE ≤ a < BCM_CB_MEM_BASE + BCM_CB_MEM_SIZE →
  bridge s a = Some (cb, a - (BCM_CB_MEM_BASE - BCM_PCI_MEM_BASE)).
Proof.
  unfold bridge. intros [[= -> -> ->] [= -> -> ->]] Hr.
  assert (Ha : 0 ≤ a < 2 ^ 32) by (unfold BCM_CB_MEM_BASE, BCM_PCI_MEM_BASE, BCM_PCI_MEM_SIZE, BCM_CB_MEM_SIZE in *; lia).
  destruct (window_open cb a Ha) as [O1 O2]. rewrite cycle_1.
  - unfold through. unfold BCM_CB_MEM_BASE, BCM_PCI_MEM_BASE, BCM_PCI_MEM_SIZE, BCM_CB_MEM_SIZE in *.
    rewrite (remapped_16M _ 0x12000000 0x11000000) by (try done; try lia; by destruct cb).
    f_equal. f_equal; [by destruct cb|lia].
  - rewrite O1. by apply bool_decide_true.
  - rewrite O2. apply bool_decide_false. unfold BCM_CB_MEM_BASE in Hr. lia.
Qed.

Lemma bridge_pci cb s a : bridge_ready cb s → BCM_PCI_MEM_BASE ≤ a < BCM_PCI_MEM_BASE + BCM_PCI_MEM_SIZE →
  bridge s a = Some (false, a).
Proof.
  unfold bridge. intros [[= -> -> ->] [= -> -> ->]] Hr.
  assert (Ha : 0 ≤ a < 2 ^ 32) by (unfold BCM_PCI_MEM_BASE, BCM_PCI_MEM_SIZE in *; lia).
  destruct (window_open cb a Ha) as [O1 O2]. rewrite cycle_2.
  - unfold through. unfold BCM_PCI_MEM_BASE, BCM_PCI_MEM_SIZE in *.
    rewrite (remapped_16M _ 0x11000000 0x11000000) by (try done; lia). f_equal. f_equal. lia.
  - rewrite O1. apply bool_decide_false. unfold BCM_CB_MEM_BASE. lia.
  - rewrite O2. by apply bool_decide_true.
Qed.
End bridge.

(** ** The chip selects of a 16-bit card *)

(** The addresses a chip select answers to: its base, and [8K << size]. *)
Definition cs_range (s : setup_hw) (cs : Z) : Z * Z :=
  let v := regs s (MPI_cs_base cs) in
  let base := Z.ldiff v 0xf in (base, base + Z.shiftl 0x2000 (Z.land v 0xf)).

(** The address plan of a 16-bit card, [mpi_InitPcmciaSpace].  The I/O
    window is meant to lie above the PCI I/O space; its offset is combined with
    the PCMCIA base by a bitwise or, which puts it at 1F080000, in the middle of
    the megabyte of the common-memory window, so two chip selects answer to the
    same 64 KB.  The attribute window is apart from both. *)
Theorem pcmcia_windows_overlap s :
  let s' := mpi_InitPcmciaSpace s in
  cs_range s' PCMCIA_COMMON_BASE = (0x1F000000, 0x1F100000) ∧
  cs_range s' PCMCIA_IO_BASE = (0x1F080000, 0x1F090000) ∧
  cs_range s' PCMCIA_ATTRIBUTE_BASE = (0x1F200000, 0x1F300000) ∧
  regs s' (MPI_cs_config PCMCIA_COMMON_BASE) = regs s' (MPI_cs_config PCMCIA_IO_BASE) ∧
  Z.land (regs s' (MPI_cs_config PCMCIA_IO_BASE)) EBI_ENABLE = EBI_ENABLE.
Proof. split_and!; vm_compute; reflexivity. Qed.

(** ** The HG553 *)

Lemma has_HW553 :
  has (Z.lor BP_OVERLAY_PCI BP_OVERLAY_SPI_EXT_CS) BP_OVERLAY_LED = false ∧
  has (Z.lor BP_OVERLAY_PCI BP_OVERLAY_SPI_EXT_CS) BP_OVERLAY_UTOPIA = false ∧
  has (Z.lor BP_OVERLAY_PCI BP_OVERLAY_SPI_EXT_CS) BP_OVERLAY_UART1 = false ∧
  has (Z.lor BP_OVERLAY_PCI BP_OVERLAY_SPI_EXT_CS) BP_OVERLAY_SPI_EXT_CS = true ∧
  has (Z.lor BP_OVERLAY_PCI BP_OVERLAY_SPI_EXT_CS) BP_OVERLAY_PCI = true ∧
  has (Z.lor BP_OVERLAY_PCI BP_OVERLAY_SPI_EXT_CS) BP_OVERLAY_CB = false.
Proof. split_and!; reflexivity. Qed.

(** The pins and clocks before the bridge is set up. *)
Definition hw553_pins (s : setup_hw) : setup_hw :=
  or_reg GPIO_GPIODir_high 0x3
    (or_reg GPIO_GPIOMode GPIO_MODE_SPI_SS_OVERLAY (reg_wr GPIO_GPIOMode 0 (or_reg PERF_blkEnables SPI_CLK_EN s))).

Lemma hw553_hw_init_eq cur s :
  bcm6358_hw_init (BpSetBoardId (cstr "HW553") cur).2 s =
  reg_wr USBH_TestPortControl 0x001c0020
    (reg_wr USBH_SwapControl (Z.lor EHCI_ENDIAN_SWAP OHCI_ENDIAN_SWAP)
       (or_reg MPI_pcmcia_cntl1 CARDBUS_IDSEL (mpi_init (hw553_pins s)))).
Proof.
  unfold bcm6358_hw_init.
  replace (BpIsSupportSerialGpioMode (BpSetBoardId (cstr "HW553") cur).2) with BP_VALUE_NOT_DEFINED
    by (vm_compute; reflexivity).
  replace (BpGetGPIOverlays (BpSetBoardId (cstr "HW553") cur).2)
    with (BP_SUCCESS, Z.lor BP_OVERLAY_PCI BP_OVERLAY_SPI_EXT_CS) by (vm_compute; reflexivity).
  change (BP_VALUE_NOT_DEFINED =? BP_SUCCESS) with false. change (BP_SUCCESS =? BP_SUCCESS) with true.
  destruct has_HW553 as (-> & -> & -> & -> & -> & ->). reflexivity.
Qed.

Lemma mpi_init_frame s :
  Forall (λ r, regs (mpi_init s) r = regs s r)
    [GPIO_GPIOMode; GPIO_GPIODir; GPIO_GPIODir_high; PERF_blkEnables] ∧
  printed (mpi_init s) = printed s.
Proof.
  unfold mpi_init. generalize (getMemorySize s). intros sz.
  destruct (negb _); (split; [|reflexivity]); repeat (constructor; [reflexivity|]); constructor.
Qed.

(** Board setup on the HG553, [bcm6358_hw_init].  On a BCM6358 with the
    HW553 parameters the SPI clock is on, the only pin overlay is the two extra
    SPI slave selects with their pins as outputs, and the other pins keep their
    direction; the bridge is open with no window directed to a CardBus card, the
    CardBus slot select is disabled, and the USB controllers swap bytes. *)
Theorem hw553_hw_init cur s :
  chip_6358 s →
  let s' := bcm6358_hw_init (BpSetBoardId (cstr "HW553") cur).2 s in
  regs s' PERF_blkEnables = u32 (Z.lor (regs s PERF_blkEnables) SPI_CLK_EN) ∧
  regs s' GPIO_GPIOMode = GPIO_MODE_SPI_SS_OVERLAY ∧
  regs s' GPIO_GPIODir = regs s GPIO_GPIODir ∧
  regs s' GPIO_GPIODir_high = u32 (Z.lor (regs s GPIO_GPIODir_high) 3) ∧
  bridge_ready false s' ∧
  Z.land (regs s' MPI_pcmcia_cntl1) CARDBUS_IDSEL = CARDBUS_IDSEL ∧
  regs s' USBH_SwapControl = 0x12 ∧ regs s' USBH_TestPortControl = 0x001c0020 ∧
  printed s' = printed s.
Proof.
  intros Hc s'. unfold s'. rewrite hw553_hw_init_eq. set (s1 := hw553_pins s).
  assert (chip_6358 s1) as Hc1 by exact Hc.
  pose proof (mpi_init_ready s1 Hc1) as Hr.
  destruct (mpi_init_frame s1) as [Hf Hp].
  assert (regs s1 PERF_blkEnables = u32 (Z.lor (regs s PERF_blkEnables) SPI_CLK_EN) ∧
          regs s1 GPIO_GPIOMode = GPIO_MODE_SPI_SS_OVERLAY ∧ regs s1 GPIO_GPIODir = regs s GPIO_GPIODir ∧
          regs s1 GPIO_GPIODir_high = u32 (Z.lor (regs s GPIO_GPIODir_high) 3) ∧ printed s1 = printed s)
    as (E1 & E2 & E3 & E4 & E5) by (split_and!; reflexivity).
  revert Hr Hf Hp. generalize (mpi_init s1). intros x Hr Hf Hp. clearbody s1.
  repeat (apply Forall_cons in Hf as [? Hf]). cbn beta in *.
  rewrite <- E1, <- E2, <- E3, <- E4, <- E5. split_and!; try assumption.
  - change (Z.land (u32 (Z.lor (reg_rd MPI_pcmcia_cntl1 x) CARDBUS_IDSEL)) CARDBUS_IDSEL = CARDBUS_IDSEL).
    unfold u32. rewrite <- Z.land_ones by lia.
    rewrite <- Z.land_assoc. change (Z.land (Z.ones 32) CARDBUS_IDSEL) with CARDBUS_IDSEL.
    rewrite Z.land_lor_distr_l, Z.land_diag.
    apply Z.bits_inj'; intros i Hi. rewrite Z.lor_spec, Z.land_spec.
    destruct (Z.testbit _ i), (Z.testbit CARDBUS_IDSEL i); reflexivity.
  - reflexivity.
  - reflexivity.
Qed.

Lemma hw553_hw_init_witness :
  let s' := bcm6358_hw_init (BpSetBoardId (cstr "HW553") None).2
              (demo_hw 0x8e (wires CdOpen CdOpen false false)) in
  regs s' GPIO_GPIOMode = GPIO_MODE_SPI_SS_OVERLAY ∧ bridge_ready false s'.
Proof.
  destruct (hw553_hw_init None (demo_hw 0x8e (wires CdOpen CdOpen false false)) (demo_hw_chip _ _))
    as (_ & H1 & _ & _ & H2 & _). by split.
Defined.

(** ** The command line *)

Lemma c_strlen_app s t : Forall (λ c, c ≠ 0) s → c_strlen (s ++ 0 :: t) = Some (Z.of_nat (List.length s)).
Proof.
  induction 1 as [|c s Hc Hs IH]; [reflexivity|]. cbn [app c_strlen].
  destruct (Z.eqb_spec c 0); [done|]. rewrite IH. cbn. f_equal. lia.
Qed.

Lemma c_strcat_app s src t : Forall (λ c, c ≠ 0) s → (List.length src ≤ List.length t)%nat →
  c_strcat (s ++ 0 :: t) src = Some (s ++ src ++ 0 :: drop (List.length src) t)%list.
Proof.
  intros Hs Hl. unfold c_strcat. rewrite c_strlen_app by done. cbn [mbind option_bind].
  rewrite buf_write_Some by (rewrite ?length_app; cbn [List.length]; lia). f_equal.
  rewrite Nat2Z.id, take_app_length, <- app_assoc. do 2 f_equal. cbn [app]. f_equal.
  rewrite length_app, drop_app_ge by lia. cbn [List.length].
  replace (_ - _)%nat with (S (List.length src)) by lia. reflexivity.
Qed.

(** No character of a literal is NUL. *)
Ltac nonzero := match goal with |- Forall ?P ?l => exact (bool_decide_unpack (Forall P l) I) end.

(** [prom_init].  Whatever the 256 bytes of [arcs_cmdline] held, they then
    begin with the root device and the console of the build as one string, with
    no write outside the buffer, and the processor's timer runs at half the
    processor's speed. *)
Theorem prom_init_correct s p speed :
  List.length (arcs_cmdline p) = CL_SIZE → calculateCpuSpeed s = Some speed →
  ∃ s' p', prom_init s p = Some (s', p') ∧ regs s' PERF_IrqMask = 0 ∧
    take 43 (arcs_cmdline p') = (cstr "root=31:0 ro noinitrd console=ttyS0,115200" ++ [0])%list ∧
    List.length (arcs_cmdline p') = CL_SIZE ∧ mips_hpt_frequency p' = speed / 2.
Proof.
  intros Hl Hsp. unfold prom_init, prom_cmdline, CL_SIZE in *.
  assert (calculateCpuSpeed (reg_wr PERF_IrqMask 0 s) = Some speed) as -> by exact Hsp.
  rewrite buf_write_Some by (rewrite ?Hl; cbn; lia). cbn [mbind option_bind].
  set (b := (take _ _ ++ [0] ++ drop _ _)%list).
  assert (List.length b = 256%nat) as Hb.
  { unfold b. rewrite !length_app, length_take, length_drop. cbn [List.length]. lia. }
  clearbody b. unfold c_strcpy. rewrite buf_write_Some by (rewrite ?Hb; cbn; lia). cbn [mbind option_bind].
  change (take (Z.to_nat 0) b) with (@nil Z). rewrite app_nil_l, <- app_assoc. cbn [app].
  rewrite c_strcat_app; [|nonzero | rewrite length_drop; cbn; lia].
  cbn [mbind option_bind]. rewrite app_assoc.
  rewrite c_strcat_app; [|nonzero | rewrite !length_drop; cbn; lia].
  eexists _, _. split; [reflexivity|]. cbn [arcs_cmdline mips_hpt_frequency].
  split_and!; [reflexivity | reflexivity | | reflexivity].
  rewrite !length_app. cbn [List.length]. rewrite !length_drop, Hb. reflexivity.
Qed.

Lemma prom_init_correct_witness :
  ∃ s' p', prom_init (demo_hw 0x8e (wires CdOpen CdOpen false false))
             {| arcs_cmdline := replicate 256 65; mips_hpt_frequency := 0; mips_machgroup := 0;
                mips_machtype := 0 |} = Some (s', p') ∧ mips_hpt_frequency p' = 150000000.
Proof.
  destruct (prom_init_correct (demo_hw 0x8e (wires CdOpen CdOpen false false))
             {| arcs_cmdline := replicate 256 65; mips_hpt_frequency := 0; mips_machgroup := 0;
                mips_machtype := 0 |} 300000000 eq_refl eq_refl) as (s' & p' & E & _ & _ & _ & Hf).
  exists s', p'. split; [exact E | exact Hf].
Defined.
