(* ===== verification/PciClaims.v ===== *)
(** * PCI configuration access: statements

    What the configuration functions promise the kernel, for devices that follow
    the PCI specification: round trip and isolation of writes, the sizing of base
    addresses, the emulated USB controllers, and, together with the bridge of
    [setup.c], that the addresses handed to drivers reach the device. *)

From stdpp Require Import base numbers list.
From Stdlib Require Import ZArith Lia Bool String.
From S2P Require Import Prelude BoardTables BoardParms Irq Setup Pci SetupClaims.

(** ** Devices

    A bus of devices as registers by address: reading does not change them, and a
    write to one changes that one to [stick], the bits of the register that can be
    written. *)
Class PciDevices (B : Type) `{PciBus B} : Type := {
  reg_of : Z → B → Z;
  stick : Z → Z → Z → Z;
  reg_of_range : ∀ a b, 0 ≤ reg_of a b < 2 ^ 32;
  cfg_rd_eq : ∀ a b, cfg_rd a b = (reg_of a b, b);
  cfg_wr_same : ∀ a v b, reg_of a (cfg_wr a v b) = stick a (reg_of a b) v;
  cfg_wr_other : ∀ a a' v b, a' ≠ a → reg_of a' (cfg_wr a v b) = reg_of a' b
}.

(** ** Configuration addresses *)

Definition cfg_addr (devfn where_ : Z) : Z :=
  Z.ldiff (Z.lor (Z.lor DIR_CFG_SEL DIR_CFG_USEREG) (BCM_PCI_CFG (PCI_SLOT devfn) (PCI_FUNC devfn) where_))
    CONFIG_TYPE.

Lemma lor_shiftl_low a b k : 0 ≤ k → 0 ≤ b < 2 ^ k → Z.lor (Z.shiftl a k) b = a * 2 ^ k + b.
Proof. intros. rewrite Z.lor_comm, lor_high by done. lia. Qed.

Lemma PCI_SLOT_range devfn : 0 ≤ PCI_SLOT devfn < 32.
Proof. unfold PCI_SLOT. change 0x1f with (Z.ones 5). rewrite Z.land_ones by lia. apply Z.mod_pos_bound. lia. Qed.

Lemma PCI_FUNC_range devfn : 0 ≤ PCI_FUNC devfn < 8.
Proof. unfold PCI_FUNC. change 0x07 with (Z.ones 3). rewrite Z.land_ones by lia. apply Z.mod_pos_bound. lia. Qed.

Lemma cfg_addr_eq devfn w : 0 ≤ w < 256 →
  cfg_addr devfn w = 0xC0000000 + 2048 * PCI_SLOT devfn + 256 * PCI_FUNC devfn + 4 * (w / 4).
Proof.
  intros Hw. pose proof (PCI_SLOT_range devfn). pose proof (PCI_FUNC_range devfn).
  assert (0 ≤ w / 4 < 64) by (split; [apply Z.div_pos | apply Z.div_lt_upper_bound]; lia).
  unfold cfg_addr, BCM_PCI_CFG. set (d := PCI_SLOT devfn) in *. set (f := PCI_FUNC devfn) in *.
  rewrite (lor_shiftl_low d) by (rewrite ?Z.shiftl_mul_pow2 by lia; lia).
  rewrite (Z.shiftl_mul_pow2 f), (Z.shiftl_mul_pow2 (w / 4)) by lia.
  replace (d * 2 ^ 11 + f * 2 ^ 8) with (Z.shiftl (d * 8 + f) 8) by (rewrite Z.shiftl_mul_pow2; lia).
  rewrite lor_shiftl_low by lia.
  change (Z.lor DIR_CFG_SEL DIR_CFG_USEREG) with (Z.shiftl 3 30). rewrite lor_shiftl_low by lia.
  change CONFIG_TYPE with (Z.ones 2). rewrite Z.ldiff_ones_r by lia.
  rewrite Z.shiftr_div_pow2, Z.shiftl_mul_pow2 by lia.
  replace (3 * 2 ^ 30 + ((d * 8 + f) * 2 ^ 8 + w / 4 * 2 ^ 2))
    with ((3 * 2 ^ 28 + (d * 8 + f) * 2 ^ 6 + w / 4) * 2 ^ 2) by lia.
  rewrite Z.div_mul by lia. lia.
Qed.

(** Different registers have different addresses. *)
Lemma cfg_addr_inj devfn w devfn' w' : 0 ≤ w < 256 → 0 ≤ w' < 256 →
  cfg_addr devfn w = cfg_addr devfn' w' →
  PCI_SLOT devfn = PCI_SLOT devfn' ∧ PCI_FUNC devfn = PCI_FUNC devfn' ∧ w / 4 = w' / 4.
Proof.
  intros Hw Hw'. rewrite !cfg_addr_eq by done.
  pose proof (PCI_SLOT_range devfn). pose proof (PCI_FUNC_range devfn).
  pose proof (PCI_SLOT_range devfn'). pose proof (PCI_FUNC_range devfn').
  assert (0 ≤ w / 4 < 64) by (split; [apply Z.div_pos | apply Z.div_lt_upper_bound]; lia).
  assert (0 ≤ w' / 4 < 64) by (split; [apply Z.div_pos | apply Z.div_lt_upper_bound]; lia).
  lia.
Qed.

(** The device number is the slot and the function. *)
Lemma devfn_inj d d' : 0 ≤ d < 256 → 0 ≤ d' < 256 →
  PCI_SLOT d = PCI_SLOT d' → PCI_FUNC d = PCI_FUNC d' → d = d'.
Proof.
  unfold PCI_SLOT, PCI_FUNC. change 0x1f with (Z.ones 5). change 0x07 with (Z.ones 3).
  intros H H'. rewrite !Z.land_ones, !Z.shiftr_div_pow2 by lia. change (2 ^ 3) with 8. change (2 ^ 5) with 32.
  intros. Z.to_euclidean_division_equations. lia.
Qed.

(** ** Parts of a register *)

(** An access of 1, 2 or 4 bytes at a multiple of its size. *)
Definition access_ok (where_ size : Z) : Prop :=
  0 ≤ where_ < 256 ∧ (size = 1 ∨ size = 2 ∨ size = 4) ∧ where_ mod size = 0.

Definition lane (where_ : Z) : Z := where_ mod 4.

Lemma lane_shift w : Z.shiftl (Z.land w 3) 3 = 8 * lane w.
Proof.
  unfold lane. assert (Z.land w 3 = w mod 4) as -> by (apply (Z.land_ones w 2); lia).
  rewrite Z.shiftl_mul_pow2 by lia. lia.
Qed.

Lemma access_lane w size : access_ok w size → 0 ≤ lane w ∧ lane w + size ≤ 4 ∧ 1 ≤ size.
Proof.
  unfold lane. intros (Hw & [-> | [-> | ->]] & Hm); pose proof (Z.mod_pos_bound w 4 ltac:(lia)); try lia.
  split_and!; [lia | | lia].
  pose proof (Z.div_mod w 4 ltac:(lia)). pose proof (Z.div_mod w 2 ltac:(lia)). lia.
Qed.

Lemma extract_bit data w size old i : access_ok w size → 0 ≤ data < 2 ^ 32 → 0 ≤ i →
  Z.testbit (extract data w size old) i = bool_decide (i < 8 * size) && Z.testbit data (i + 8 * lane w).
Proof.
  intros Ha Hd Hi. pose proof (access_lane _ _ Ha) as (Hl & Hls & _).
  unfold extract. rewrite lane_shift. destruct Ha as (_ & [-> | [-> | ->]] & _); cbn [Z.eqb Pos.eqb].
  - change 0xff with (Z.ones 8). rewrite Z.land_spec, Z.shiftr_spec, Z.testbit_ones_nonneg by lia.
    rewrite andb_comm. f_equal. case_bool_decide; destruct (Z.ltb_spec i 8); lia || done.
  - change 0xffff with (Z.ones 16). rewrite Z.land_spec, Z.shiftr_spec, Z.testbit_ones_nonneg by lia.
    rewrite andb_comm. f_equal. case_bool_decide; destruct (Z.ltb_spec i 16); lia || done.
  - replace (lane w) with 0 by lia. rewrite Z.add_0_r. case_bool_decide; [done|].
    by rewrite testbit_u32 by lia.
Qed.

Lemma merge_bit data w size val i : access_ok w size → 0 ≤ data < 2 ^ 32 → 0 ≤ val < 2 ^ (8 * size) → 0 ≤ i →
  Z.testbit (merge data w size val) i =
  if bool_decide (8 * lane w ≤ i < 8 * (lane w + size)) then Z.testbit val (i - 8 * lane w) else Z.testbit data i.
Proof.
  intros Ha Hd Hv Hi. pose proof (access_lane _ _ Ha) as (Hl & Hls & _).
  assert (∀ n, 0 ≤ n → 8 * lane w + n ≤ 32 → 0 ≤ val < 2 ^ n →
    Z.testbit (Z.lor (Z.ldiff data (Z.shiftl (Z.ones n) (8 * lane w))) (u32 (Z.shiftl val (8 * lane w)))) i =
    if bool_decide (8 * lane w ≤ i < 8 * lane w + n) then Z.testbit val (i - 8 * lane w) else Z.testbit data i)
    as Hgen.
  { intros n Hn Hn32 Hvn.
    assert (Z.shiftl val (8 * lane w) < 2 ^ 32).
    { rewrite Z.shiftl_mul_pow2 by lia. assert (2 ^ n * 2 ^ (8 * lane w) ≤ 2 ^ 32);
        [rewrite <- Z.pow_add_r by lia; apply Z.pow_le_mono_r; lia|]. 
      assert (0 < 2 ^ (8 * lane w)) by (apply Z.pow_pos_nonneg; lia). nia. }
    rewrite u32_small by (split; [apply Z.shiftl_nonneg|]; lia).
    rewrite Z.lor_spec, Z.ldiff_spec, !Z.shiftl_spec by lia.
    destruct (decide (i < 8 * lane w)).
    - rewrite !(Z.testbit_neg_r _ (i - 8 * lane w)), bool_decide_false by lia.
      by rewrite andb_true_r, orb_false_r.
    - rewrite Z.testbit_ones_nonneg by lia. destruct (Z.ltb_spec (i - 8 * lane w) n).
      + rewrite bool_decide_true by lia. by rewrite andb_false_r.
      + rewrite bool_decide_false by lia. rewrite andb_true_r.
        rewrite <- (Z.mod_small val (2 ^ n)), Z.mod_pow2_bits_high by lia. apply orb_false_r. }
  unfold merge. rewrite lane_shift. destruct Ha as (_ & [-> | [-> | ->]] & _); cbn [Z.eqb Pos.eqb].
  - change 0xff with (Z.ones 8). rewrite Hgen by lia. repeat case_bool_decide; lia || done.
  - change 0xffff with (Z.ones 16). rewrite Hgen by lia. repeat case_bool_decide; lia || done.
  - replace (lane w) with 0 by lia. case_bool_decide; [by replace (i - _) with i by lia|].
    by rewrite !testbit_u32 by lia.
Qed.

(** Bytes [lane w] up to [lane w + size] of the register of [w]. *)
Definition disjoint_bytes (w size w' size' : Z) : Prop :=
  lane w + size ≤ lane w' ∨ lane w' + size' ≤ lane w.

Lemma extract_merge data w size val old : access_ok w size → 0 ≤ data < 2 ^ 32 → 0 ≤ val < 2 ^ (8 * size) →
  0 ≤ merge data w size val < 2 ^ 32 → extract (merge data w size val) w size old = val.
Proof.
  intros Ha Hd Hv Hm. pose proof (access_lane _ _ Ha) as (Hl & Hls & Hs).
  apply Z.bits_inj'; intros i Hi. rewrite extract_bit by done. case_bool_decide; cbn [andb].
  - rewrite merge_bit by (done || lia). rewrite bool_decide_true by lia. f_equal. lia.
  - rewrite <- (Z.mod_small val (2 ^ (8 * size))), Z.mod_pow2_bits_high by lia. done.
Qed.

Lemma extract_merge_other data w size w' size' val old : access_ok w size → access_ok w' size' →
  0 ≤ data < 2 ^ 32 → 0 ≤ val < 2 ^ (8 * size) → 0 ≤ merge data w size val < 2 ^ 32 →
  disjoint_bytes w size w' size' →
  extract (merge data w size val) w' size' old = extract data w' size' old.
Proof.
  intros Ha Ha' Hd Hv Hm Hdis. pose proof (access_lane _ _ Ha) as (Hl & Hls & Hs).
  pose proof (access_lane _ _ Ha') as (Hl' & Hls' & Hs').
  apply Z.bits_inj'; intros i Hi. rewrite !extract_bit by done. case_bool_decide; cbn [andb]; [|done].
  rewrite merge_bit by (done || lia). rewrite bool_decide_false; [done|]. unfold disjoint_bytes in Hdis. lia.
Qed.

Lemma merge_range data w size val : access_ok w size → 0 ≤ data < 2 ^ 32 → 0 ≤ val < 2 ^ (8 * size) →
  0 ≤ merge data w size val < 2 ^ 32.
Proof.
  intros Ha Hd Hv. pose proof (access_lane _ _ Ha) as (Hl & Hls & Hs).
  assert (merge data w size val mod 2 ^ 32 = merge data w size val) as <-.
  { apply Z.bits_inj'; intros i Hi. destruct (decide (i < 32)).
    - by rewrite Z.mod_pow2_bits_low by lia.
    - rewrite Z.mod_pow2_bits_high, merge_bit by (done || lia). rewrite bool_decide_false by lia.
      by rewrite testbit_u32 by lia. }
  apply Z.mod_pos_bound. lia.
Qed.

(** ** The sizing of a base address: values *)

(** The clamp of a sizing read. *)
Definition clamp (v : Z) : Z := if Z.land v 1 =? 1 then v else Z.land v 0xFFFF000F.

Definition bar_flags (prefetch : bool) : Z := if prefetch then 8 else 0.

(** What the sizing read returns: the mask of the larger of [2^k] and 64K. *)
Lemma sizing_value k prefetch : 4 ≤ k ≤ 31 →
  clamp (Z.lor (Z.land 0xffffffff (u32 (Z.lnot (2 ^ k - 1)))) (bar_flags prefetch)) =
  2 ^ 32 - 2 ^ Z.max k 16 + bar_flags prefetch.
Proof.
  intros Hk. 
  assert (Forall (λ k, clamp (Z.lor (Z.land 0xffffffff (u32 (Z.lnot (2 ^ k - 1)))) (bar_flags prefetch)) =
  2 ^ 32 - 2 ^ Z.max k 16 + bar_flags prefetch) (seqZ 4 28)) as Hall.
  { destruct prefetch; repeat (constructor; [vm_compute; reflexivity|]); constructor. }
  rewrite Forall_forall in Hall. apply Hall, elem_of_seqZ. lia.
Qed.
(** The extent the kernel computes from it. *)
Lemma pci_size_pow l k prefetch : 16 ≤ k ≤ 31 → 
 pci_size l (2 ^ 32 - 2 ^ k + bar_flags prefetch) PCI_BASE_ADDRESS_MEM_MASK = 2 ^ k - 1.
Proof.
  intros Hk. unfold pci_size.
  set (sz := 2 ^ 32 - 2 ^ k + bar_flags prefetch).
  assert (Z.land PCI_BASE_ADDRESS_MEM_MASK sz = 2 ^ 32 - 2 ^ k ∧
    u32 (Z.ldiff (2 ^ 32 - 2 ^ k) (2 ^ 32 - 2 ^ k - 1) - 1) = 2 ^ k - 1 ∧
    Z.land (Z.lor sz (2 ^ k - 1)) PCI_BASE_ADDRESS_MEM_MASK = PCI_BASE_ADDRESS_MEM_MASK ∧
    2 ^ 32 - 2 ^ k ≠ 0) as (-> & -> & Hm & Hnz).
  { assert (Forall (λ k, let sz := 2 ^ 32 - 2 ^ k + bar_flags prefetch in
      Z.land PCI_BASE_ADDRESS_MEM_MASK sz = 2 ^ 32 - 2 ^ k ∧
      u32 (Z.ldiff (2 ^ 32 - 2 ^ k) (2 ^ 32 - 2 ^ k - 1) - 1) = 2 ^ k - 1 ∧
      Z.land (Z.lor sz (2 ^ k - 1)) PCI_BASE_ADDRESS_MEM_MASK = PCI_BASE_ADDRESS_MEM_MASK ∧
      2 ^ 32 - 2 ^ k ≠ 0) (seqZ 16 16)) as Hall
      by (destruct prefetch; repeat (constructor; [split_and!; by vm_compute|]); constructor).
    rewrite Forall_forall in Hall. apply Hall, elem_of_seqZ. lia. }
  destruct (Z.eqb_spec (2 ^ 32 - 2 ^ k) 0); [done|].
  destruct (Z.eqb_spec l sz) as [->|]; [|done]. rewrite Hm, Z.eqb_refl. done.
Qed.

Lemma split_flags base k pf : 4 ≤ k ≤ 31 → 0 ≤ base → base + 2 ^ Z.max k 16 ≤ 2 ^ 32 → base mod 2 ^ k = 0 →
  Z.land (base + bar_flags pf) (u32 (Z.lnot (2 ^ k - 1))) = base ∧ Z.lor base (bar_flags pf) = base + bar_flags pf.
Proof.
  intros Hk H0 Hb Hal. pose proof (Z.div_mod base (2 ^ k) ltac:(lia)) as Hdm.
  assert (2 ^ 4 ≤ 2 ^ k) by (apply Z.pow_le_mono_r; lia).
  assert (0 < 2 ^ Z.max k 16) by (apply Z.pow_pos_nonneg; lia).
  assert (2 ^ k ≤ 2 ^ Z.max k 16) by (apply Z.pow_le_mono_r; lia).
  assert (0 ≤ bar_flags pf < 16) by (destruct pf; cbn; lia).
  split.
  - rewrite land_high by lia.
    replace ((base + bar_flags pf) / 2 ^ k) with (base / 2 ^ k);
      [lia|]. apply (Z.div_unique _ _ _ (bar_flags pf)); lia.
  - transitivity (Z.lor (Z.shiftl (base / 2 ^ k) k) (bar_flags pf)).
    + rewrite Z.shiftl_mul_pow2 by lia. f_equal. lia.
    + rewrite lor_shiftl_low by lia. lia.
Qed.

(** A memory base address does not look like I/O, 64-bit or all ones. *)
Lemma bar_value_tests base pf : base mod 16 = 0 →
  Z.land (base + bar_flags pf) 1 = 0 ∧ is_64bit_memory (base + bar_flags pf) = false ∧
  base + bar_flags pf ≠ 0xffffffff.
Proof.
  intros Hal. pose proof (Z.div_mod base 16 ltac:(lia)) as Hdm.
  assert (Z.land (base + bar_flags pf) 7 = 0) as H7.
  { change 7 with (Z.ones 3). rewrite Z.land_ones by lia. symmetry.
    apply (Z.mod_unique _ _ (2 * (base / 16) + (if pf then 1 else 0))); destruct pf; cbn [bar_flags]; lia. }
  split_and!.
  - change 1 with (Z.ones 1). rewrite Z.land_ones by lia. symmetry.
    apply (Z.mod_unique _ _ (8 * (base / 16) + (if pf then 4 else 0))); destruct pf; cbn [bar_flags]; lia.
  - unfold is_64bit_memory.
    change (Z.lor PCI_BASE_ADDRESS_SPACE PCI_BASE_ADDRESS_MEM_TYPE_MASK) with 7. by rewrite H7.
  - intros E. rewrite E in H7. discriminate H7.
Qed.

(** ** Reads and writes of external devices *)

Section devices.
Context {B : Type} `{PciDevices B}.
Implicit Types s : pci_state B.

Definition external (devfn : Z) : Prop :=
  PCI_SLOT devfn ≠ USB_HOST_SLOT ∧ PCI_SLOT devfn ≠ USB20_HOST_SLOT.

(** The register of an access. *)
Definition cfg_reg (s : pci_state B) (devfn where_ : Z) : Z := reg_of (cfg_addr devfn where_) (bus s).

Lemma read_external s devfn w size old : external devfn →
  bcm63xx_pcibios_read devfn w size old s =
  (let v := extract (cfg_reg s devfn w) w size old in
   if (size =? 4) && is_bar w && pci_mem_size_rd s then clamp v else v,
   set_l2pcfgctl 0 (set_size_rd false s)).
Proof.
  intros [H1 H2]. unfold bcm63xx_pcibios_read.
  destruct (Z.eqb_spec (PCI_SLOT devfn) USB_HOST_SLOT); [done|].
  destruct (Z.eqb_spec (PCI_SLOT devfn) USB20_HOST_SLOT); [done|].
  unfold io_read, mpi_SetupPciConfigAccess. cbn [l2pcfgctl bus set_l2pcfgctl].
  fold (cfg_addr devfn w). rewrite cfg_rd_eq. fold (cfg_reg s devfn w).
  unfold clamp, PCI_BASE_ADDRESS_SPACE, PCI_BASE_ADDRESS_SPACE_IO.
  change (PCI_SIZE_64K + u32 (Z.lnot PCI_BASE_ADDRESS_MEM_MASK)) with 0xFFFF000F.
  cbn [pci_mem_size_rd set_bus set_l2pcfgctl]. f_equal.
  destruct (size =? 4), (is_bar w), (pci_mem_size_rd s), (_ =? 1); reflexivity.
Qed.

Lemma write_external s devfn w size val : external devfn →
  bcm63xx_pcibios_write devfn w size val s =
  set_l2pcfgctl 0 (udelay 500 (set_bus
    (cfg_wr (cfg_addr devfn w) (merge (cfg_reg s devfn w) w size val) (bus s))
    (set_size_rd ((size =? 4) && is_bar w && (val =? 0xffffffff) || pci_mem_size_rd s) s))).
Proof.
  intros [H1 H2]. unfold bcm63xx_pcibios_write.
  destruct (Z.eqb_spec (PCI_SLOT devfn) USB_HOST_SLOT); [done|].
  destruct (Z.eqb_spec (PCI_SLOT devfn) USB20_HOST_SLOT); [done|].
  unfold io_read, mpi_SetupPciConfigAccess. cbn [l2pcfgctl bus set_l2pcfgctl].
  fold (cfg_addr devfn w). rewrite cfg_rd_eq. fold (cfg_reg s devfn w).
  destruct ((size =? 4) && is_bar w && (val =? 0xffffffff)); destruct s; reflexivity.
Qed.

(** [C19] Configuration writes, [bcm63xx_pcibios_write] and [_read].  For a device
    on the bus, a write of one, two or four bytes at its natural alignment, of a
    value of that width, to a register that keeps what is written, is read back
    by the same access (outside the sizing of a base address), and every other
    access, to another device or function, another register of the same one, or
    other bytes of the same register, reads what it read before; the bridge is
    left out of configuration mode. *)
Theorem pci_config_roundtrip s devfn w size val :
  0 ≤ devfn < 256 → external devfn → access_ok w size → 0 ≤ val < 2 ^ (8 * size) →
  pci_mem_size_rd s = false → (is_bar w = true → val ≠ 0xffffffff) →
  (∀ old v, 0 ≤ v < 2 ^ 32 → stick (cfg_addr devfn w) old v = v) →
  let s' := bcm63xx_pcibios_write devfn w size val s in
  fst (bcm63xx_pcibios_read devfn w size 0 s') = val ∧ l2pcfgctl s' = 0 ∧
  ∀ devfn' w' size', 0 ≤ devfn' < 256 → external devfn' → access_ok w' size' →
    devfn' ≠ devfn ∨ w' / 4 ≠ w / 4 ∨ disjoint_bytes w size w' size' →
    fst (bcm63xx_pcibios_read devfn' w' size' 0 s') = fst (bcm63xx_pcibios_read devfn' w' size' 0 s).
Proof.
  intros Hdf He Ha Hv Hf Hbar Hst s'.
  assert (pci_mem_size_rd s' = false) as Hf'.
  { unfold s'. rewrite write_external by done. cbn [pci_mem_size_rd set_l2pcfgctl udelay set_bus set_size_rd].
    rewrite Hf, orb_false_r. destruct (is_bar w) eqn:E; [|by rewrite andb_false_r].
    destruct (Z.eqb_spec val 0xffffffff); [by destruct (Hbar eq_refl)|]. by rewrite !andb_false_r. }
  pose proof (reg_of_range (cfg_addr devfn w) (bus s)) as Hr. fold (cfg_reg s devfn w) in Hr.
  pose proof (merge_range _ _ _ _ Ha Hr Hv) as Hm.
  assert (cfg_reg s' devfn w = merge (cfg_reg s devfn w) w size val) as Hreg.
  { unfold s', cfg_reg at 1. rewrite write_external by done. cbn [bus set_l2pcfgctl udelay set_bus].
    by rewrite cfg_wr_same, Hst. }
  assert (∀ devfn' w' size' s0, external devfn' → pci_mem_size_rd s0 = false →
     fst (bcm63xx_pcibios_read devfn' w' size' 0 s0) = extract (cfg_reg s0 devfn' w') w' size' 0) as Hread.
  { intros ???? He' Hf0. rewrite read_external, Hf0, andb_false_r by done. done. }
  split_and!.
  - rewrite Hread, Hreg by done. by apply extract_merge.
  - unfold s'. by rewrite write_external.
  - intros devfn' w' size' Hdf' He' Ha' Hd. rewrite !Hread by done.
    destruct (decide (cfg_addr devfn' w' = cfg_addr devfn w)) as [Eq|Ne].
    + destruct (cfg_addr_inj _ _ _ _ (proj1 Ha') (proj1 Ha) Eq) as (E1 & E2 & E3).
      pose proof (devfn_inj _ _ Hdf' Hdf E1 E2). destruct Hd as [Hd|[Hd|Hd]]; [done|done|].
      assert (cfg_reg s' devfn' w' = cfg_reg s' devfn w) as -> by (unfold cfg_reg; by rewrite Eq).
      assert (cfg_reg s devfn' w' = cfg_reg s devfn w) as -> by (unfold cfg_reg; by rewrite Eq).
      rewrite Hreg. by apply extract_merge_other.
    + f_equal. unfold s', cfg_reg. rewrite write_external by done. cbn [bus set_l2pcfgctl udelay set_bus].
      by apply cfg_wr_other.
Qed.

(** ** Sizing a base address *)

(** A memory base address of [2^k] bytes, prefetchable or not: the address bits
    above the size can be written, the others read as the type. *)
Definition memory_bar (a k : Z) (prefetch : bool) : Prop :=
  ∀ old v, stick a old v = Z.lor (Z.land v (u32 (Z.lnot (2 ^ k - 1)))) (bar_flags prefetch).

(** [C20] Sizing a base address.  For a 32-bit memory base address of [2^k] bytes
    of a device on the bus, the kernel's probe through these functions finds the
    address the device has and an extent of [2^k] bytes, but at least the 64 KB
    the bridge can window, and leaves the base address, every other register and
    the sizing flag as they were. *)
Theorem bar_sizing s devfn reg k pf base :
  external devfn → is_bar reg = true → 4 ≤ k ≤ 31 → 0 ≤ base → base + 2 ^ Z.max k 16 ≤ 2 ^ 32 →
  base mod 2 ^ k = 0 → memory_bar (cfg_addr devfn reg) k pf →
  cfg_reg s devfn reg = base + bar_flags pf → pci_mem_size_rd s = false →
  ∃ s', probe_base devfn reg s = (Some (base, base + 2 ^ Z.max k 16 - 1), s') ∧
    (∀ a, reg_of a (bus s') = reg_of a (bus s)) ∧ pci_mem_size_rd s' = false.
Proof.
  intros He Hbar Hk Hb0 Hb Hal Hst Hreg Hf.
  destruct (split_flags base k pf Hk Hb0 Hb Hal) as [Hland Hlor].
  assert (base mod 16 = 0) as Hal16.
  { pose proof (Z.div_mod base (2 ^ k) ltac:(lia)). 
    replace base with (base / 2 ^ k * 2 ^ (k - 4) * 16); [by apply Z.mod_mul|].
    replace (2 ^ k) with (2 ^ (k - 4) * 16) in * by (change 16 with (2 ^ 4); rewrite <- Z.pow_add_r by lia; f_equal; lia).
    lia. }
  destruct (bar_value_tests base pf Hal16) as (Hmem & H64 & Hones).
  set (s1 := set_l2pcfgctl 0 (set_size_rd false s)).
  assert (bcm63xx_pcibios_read devfn reg 4 0 s = (base + bar_flags pf, s1)) as R1.
  { rewrite read_external, Hbar, Hf by done. change (extract ?d reg 4 0) with d. by rewrite Hreg. }
  set (s2 := bcm63xx_pcibios_write devfn reg 4 0xffffffff s1).
  assert (bus s2 = cfg_wr (cfg_addr devfn reg) 0xffffffff (bus s) ∧ pci_mem_size_rd s2 = true) as [Hb2 Hf2].
  { unfold s2. rewrite write_external, Hbar by done. done. }
  set (s3 := set_l2pcfgctl 0 (set_size_rd false s2)).
  assert (bcm63xx_pcibios_read devfn reg 4 0 s2 = (2 ^ 32 - 2 ^ Z.max k 16 + bar_flags pf, s3)) as R2.
  { rewrite read_external, Hbar, Hf2 by done. cbn [Z.eqb Pos.eqb andb]. change (extract ?d reg 4 0) with d.
    unfold cfg_reg. rewrite Hb2, cfg_wr_same, Hst, (sizing_value k pf Hk). done. }
  set (s' := bcm63xx_pcibios_write devfn reg 4 (base + bar_flags pf) s3).
  assert (bus s' = cfg_wr (cfg_addr devfn reg) (base + bar_flags pf) (bus s2) ∧ pci_mem_size_rd s' = false)
    as [Hb' Hf'].
  { unfold s'. rewrite write_external by done. split; [done|].
    cbn [pci_mem_size_rd set_l2pcfgctl udelay set_bus set_size_rd s3]. rewrite orb_false_r.
    destruct (Z.eqb_spec (base + bar_flags pf) 0xffffffff); [done|]. apply andb_false_r. }
  unfold probe_base. rewrite R1. fold s2. rewrite R2. fold s'. clearbody s2 s'.
  assert (0 < 2 ^ Z.max k 16) by (apply Z.pow_pos_nonneg; lia).
  assert (2 ^ Z.max k 16 ≤ 2 ^ 31) by (apply Z.pow_le_mono_r; lia).
  assert (0 ≤ bar_flags pf < 16) by (destruct pf; cbn; lia).
  assert (2 ^ 16 ≤ 2 ^ Z.max k 16) by (apply Z.pow_le_mono_r; lia).
  exists s'. split; [|split].
  - destruct (Z.eqb_spec (2 ^ 32 - 2 ^ Z.max k 16 + bar_flags pf) 0); [lia|].
    destruct (Z.eqb_spec (2 ^ 32 - 2 ^ Z.max k 16 + bar_flags pf) 4294967295); [lia|]. cbn [orb].
    destruct (Z.eqb_spec (base + bar_flags pf) 4294967295); [done|].
    unfold PCI_BASE_ADDRESS_SPACE at 1. rewrite Hmem, H64, pci_size_pow by lia. cbn [Z.eqb negb andb].
    destruct (Z.eqb_spec (2 ^ Z.max k 16 - 1) 0); [lia|].
    unfold PCI_BASE_ADDRESS_MEM_MASK. change (Z.lnot 15) with (Z.lnot (2 ^ 4 - 1)).
    destruct (split_flags base 4 pf ltac:(lia) Hb0) as [-> _]; [change (Z.max 4 16) with 16; lia | done|].
    rewrite u32_small by lia. do 2 f_equal. f_equal. lia.
  - intros a. rewrite Hb', Hb2. destruct (decide (a = cfg_addr devfn reg)) as [->|Hne].
    + rewrite cfg_wr_same, Hst, Hland, Hlor, <- Hreg. done.
    + by rewrite !cfg_wr_other by done.
  - done.
Qed.

(** ** The status register

    Command and status share a register; the status bits are cleared by writing
    ones to them. *)
Definition command_status (a : Z) : Prop :=
  ∀ old v, stick a old v =
    Z.lor (Z.land v 0xffff) (Z.shiftl (Z.ldiff (Z.shiftr old 16) (Z.shiftr v 16)) 16).

(** A write of the command register clears the status register.  A 16-bit
    write is a read and a write of 32 bits, so the latched error bits of the
    status register are written back as ones: whatever status a device had
    latched reads as zero after its command register was written. *)
Theorem command_write_clears_status s devfn val :
  external devfn → command_status (cfg_addr devfn PCI_COMMAND) → 0 ≤ val < 2 ^ 16 →
  pci_mem_size_rd s = false →
  let s' := bcm63xx_pcibios_write devfn PCI_COMMAND 2 val s in
  fst (bcm63xx_pcibios_read devfn PCI_COMMAND 2 0 s') = val ∧
  fst (bcm63xx_pcibios_read devfn PCI_STATUS 2 0 s') = 0.
Proof.
  intros He Hst Hv Hf s'.
  assert (cfg_addr devfn PCI_STATUS = cfg_addr devfn PCI_COMMAND) as Ha by (rewrite !cfg_addr_eq by done; done).
  pose proof (reg_of_range (cfg_addr devfn PCI_COMMAND) (bus s)) as Hr.
  set (d := reg_of (cfg_addr devfn PCI_COMMAND) (bus s)) in *.
  assert (Z.shiftr (merge d PCI_COMMAND 2 val) 16 = Z.shiftr d 16) as Hhi.
  { apply Z.bits_inj'; intros i Hi. rewrite !Z.shiftr_spec by lia.
    rewrite merge_bit by (done || lia || (split; [done|split; [auto|done]])).
    change (lane PCI_COMMAND) with 0. rewrite bool_decide_false by lia. done. }
  assert (Z.land (merge d PCI_COMMAND 2 val) 0xffff = val) as Hlo.
  { apply Z.bits_inj'; intros i Hi. change 0xffff with (Z.ones 16).
    rewrite Z.land_spec, merge_bit, Z.testbit_ones_nonneg by (done || lia || (split; [done|split; [auto|done]])).
    change (lane PCI_COMMAND) with 0. destruct (Z.ltb_spec i 16).
    - rewrite bool_decide_true, andb_true_r by lia. f_equal. lia.
    - rewrite andb_false_r. rewrite <- (Z.mod_small val (2 ^ 16)), Z.mod_pow2_bits_high by lia. done. }
  assert (∀ w, cfg_addr devfn w = cfg_addr devfn PCI_COMMAND → cfg_reg s' devfn w = val) as Hreg.
  { intros w Hw. unfold s', cfg_reg. rewrite write_external, Hw by done.
    cbn [bus set_l2pcfgctl udelay set_bus]. rewrite cfg_wr_same, Hst. unfold cfg_reg. fold d.
    rewrite Hhi, Hlo, Z.ldiff_diag. cbn. apply Z.lor_0_r. }
  assert (pci_mem_size_rd s' = false) as Hf' by (unfold s'; rewrite write_external by done; exact Hf).
  rewrite !read_external, Hf', !andb_false_r, !Hreg by done. cbn [fst]. split.
  - change (Z.land val (Z.ones 16) = val). rewrite Z.land_ones, Z.mod_small by lia. done.
  - change (Z.land (Z.shiftr val 16) 0xffff = 0). rewrite Z.shiftr_div_pow2, Z.div_small by lia. done.
Qed.

(** ** The emulated USB controllers *)

(** The slot of a controller and its register base. *)
Definition usb_slot (devfn base : Z) : Prop :=
  (PCI_SLOT devfn = USB_HOST_SLOT ∧ base = USB_OHCI_BASE) ∨
  (PCI_SLOT devfn = USB20_HOST_SLOT ∧ base = USB_EHCI_BASE).

(** Probing a USB controller.  From the initial state the kernel's probe of
    base address 0 of either emulated controller finds the 256 bytes of its
    registers, no cycle goes out on the bus, and a driver then reads the base
    back; the subsystem id, which the code means to be 6300, reads as zero,
    because it is shifted by its position in a word it does not stand in. *)
Theorem usb_probe s devfn base :
  usb_slot devfn base → usb s = usb_cfg_init → usb20 s = usb_cfg_init →
  ∃ s', probe_base devfn PCI_BASE_ADDRESS_0 s = (Some (base, base + USB_BAR0_MEM_SIZE - 1), s') ∧
    bus s' = bus s ∧ fst (bcm63xx_pcibios_read devfn PCI_BASE_ADDRESS_0 4 0 s') = base ∧
    fst (bcm63xx_pcibios_read devfn PCI_DEVICE_ID 2 0 s') = 0x6300 ∧
    fst (bcm63xx_pcibios_read devfn PCI_SUBSYSTEM_ID 2 0 s') = 0.
Proof.
  intros Hs Hu Hu20. destruct s as [u u2 f l b d]. cbn [usb usb20] in Hu, Hu20. subst u u2.
  unfold probe_base, bcm63xx_pcibios_read, bcm63xx_pcibios_write.
  destruct Hs as [[-> ->] | [-> ->]]; eexists; (split; [vm_compute; reflexivity|]); split_and!; reflexivity.
Qed.
End devices.

(** ** Addresses given to drivers *)

(** A resource of a device inside the PCI memory window, as [probe_base] found it. *)
Definition in_pci_memory (r : resource) : Prop :=
  BCM_PCI_MEM_BASE ≤ res_start r ≤ res_end r ∧ res_end r < BCM_PCI_MEM_BASE + BCM_PCI_MEM_SIZE.

Lemma fixup_moves r : in_pci_memory r →
  res_start (fixup_resource r) = res_start r + (BCM_CB_MEM_BASE - BCM_PCI_MEM_BASE) ∧
  res_end (fixup_resource r) = res_end r + (BCM_CB_MEM_BASE - BCM_PCI_MEM_BASE).
Proof.
  unfold in_pci_memory, fixup_resource, BCM_CB_MEM_BASE, BCM_PCI_MEM_BASE, BCM_PCI_MEM_SIZE. intros [Hs He].
  destruct (Z.eqb_spec (res_end r) 0); [lia|]. destruct (Z.ltb_spec (res_start r) (0x11000000 + 0x01000000)); [|lia].
  cbn [negb andb res_start res_end]. rewrite !u32_small by lia. done.
Qed.

(** [C13] The addresses of PCI devices reach them.  On a BCM6358 board whose
    parameters ask for PCI, after [bcm6358_hw_init] (with [mpi_init] and, on a board
    with a PC-card slot, [mpi_DetectPcCard]), take a device (not one of the chip's own
    USB hosts) with a memory resource
    that the kernel placed in the PCI memory window, and an offset in it: the
    address in the resource after [bcm63xx_fixup] goes through the bridge, as the
    windows' registers then direct it, to the PCI address the device has.  For a
    slot other than 0 that is a cycle on the PCI bus; for slot 0, whose resources
    are moved up by 16 MB, it is one to the CardBus card exactly when the board has
    the slot and a CardBus card is in it.  A second fix-up changes nothing. *)
Theorem pci_addresses_reach_device `{PciBridge} cur overlays s0 devfn rs (i : nat) r o :
  chip_6358 s0 → BpGetGPIOverlays cur = (BP_SUCCESS, overlays) → has overlays BP_OVERLAY_PCI = true →
  (i < 6)%nat → rs !! i = Some r → in_pci_memory r →
  PCI_SLOT devfn ≠ USB_HOST_SLOT → PCI_SLOT devfn ≠ USB20_HOST_SLOT →
  0 ≤ o ≤ res_end r - res_start r →
  let s := bcm6358_hw_init cur s0 in
  let cardbus := has overlays BP_OVERLAY_CB && (card_type (slot s0) =? MPI_CARDTYPE_CARDBUS) in
  ∃ r', bcm63xx_fixup devfn rs !! i = Some r' ∧
    bridge s (res_start r' + o) = Some (cardbus && (PCI_SLOT devfn =? 0), res_start r + o) ∧
    res_end r' - res_start r' = res_end r - res_start r ∧
    bcm63xx_fixup devfn (bcm63xx_fixup devfn rs) !! i = Some r'.
Proof.
  intros Hchip Hov Hpci Hi Hr Hin H9 H10 Ho s cardbus.
  pose proof (hw_init_ready cur overlays s0 Hchip Hov Hpci) as Hb. fold s cardbus in Hb. clearbody s cardbus.
  destruct (fixup_moves r Hin) as [Hfs Hfe]. pose proof Hin as [Hst Hen].
  assert (∀ rs0 r0, rs0 !! i = Some r0 → PCI_SLOT devfn = 0 →
            bcm63xx_fixup devfn rs0 !! i = Some (fixup_resource r0)) as Hfix.
  { intros rs0 r0 Hr0 H0. unfold bcm63xx_fixup. rewrite H0. cbn [Z.eqb].
    rewrite lookup_app_l by (rewrite length_map, length_take; apply lookup_lt_Some in Hr0; lia).
    change (map fixup_resource (take 6 rs0)) with (fixup_resource <$> take 6 rs0).
    by rewrite list_lookup_fmap, lookup_take_lt, Hr0 by lia. }
  destruct (Z.eqb_spec (PCI_SLOT devfn) 0) as [H0|H0].
  - exists (fixup_resource r). split_and!; [by apply Hfix | | lia |].
    + rewrite (bridge_cardbus cardbus)
        by (done || unfold BCM_CB_MEM_BASE, BCM_PCI_MEM_BASE, BCM_PCI_MEM_SIZE, BCM_CB_MEM_SIZE in *; lia).
      rewrite Hfs, andb_true_r. do 2 f_equal. lia.
    + rewrite (Hfix _ (fixup_resource r)) by (done || by apply Hfix). f_equal.
      unfold fixup_resource at 1. destruct (Z.ltb_spec (res_start (fixup_resource r)) BCM_CB_MEM_BASE);
        [lia|]. by rewrite andb_false_r.
  - assert (∀ rs0, bcm63xx_fixup devfn rs0 = rs0) as Hid.
    { intros rs0. unfold bcm63xx_fixup. destruct (Z.eqb_spec (PCI_SLOT devfn) 0); [done|].
      destruct (Z.eqb_spec (PCI_SLOT devfn) USB_HOST_SLOT); [done|].
      destruct (Z.eqb_spec (PCI_SLOT devfn) USB20_HOST_SLOT); [done|]. done. }
    exists r. rewrite !Hid. split_and!; [done | | done | done].
    rewrite (bridge_pci cardbus) by (done || unfold BCM_PCI_MEM_BASE, BCM_PCI_MEM_SIZE in *; lia).
    by rewrite andb_false_r.
Qed.

(** The interrupt of a slot, [pcibios_map_irq].  Slots 0 to 2 get the bridge's
    interrupt, the two USB slots their own, slots 3 to 8 none; the table has eleven
    entries and the slot is not checked, so a device that answers in one of the
    slots 11 to 31 makes the function read past it. *)
Theorem map_irq_table slot :
  0 ≤ slot < 32 →
  pcibios_map_irq slot =
    if slot <? 3 then Some INTERRUPT_ID_MPI
    else if slot <? 9 then Some 0
    else if slot =? USB_HOST_SLOT then Some INTERRUPT_ID_USBH
    else if slot =? USB20_HOST_SLOT then Some INTERRUPT_ID_USBH20 else None.
Proof.
  intros H. assert (Forall (λ slot, pcibios_map_irq slot =
    if slot <? 3 then Some INTERRUPT_ID_MPI
    else if slot <? 9 then Some 0
    else if slot =? USB_HOST_SLOT then Some INTERRUPT_ID_USBH
    else if slot =? USB20_HOST_SLOT then Some INTERRUPT_ID_USBH20 else None) (seqZ 0 32)) as Hall
    by (repeat (constructor; [vm_compute; reflexivity|]); constructor).
  rewrite Forall_forall in Hall. apply Hall, elem_of_seqZ. lia.
Qed.

(** ** A bus of devices

    Registers in memory.  The device in slot 1 has 4 KB of memory at base address
    0 and a command and status register; everything else keeps what is written. *)

Record ram_bus : Type := { cells : Z → Z }.

Definition ram_stick (a old v : Z) : Z :=
  if a =? cfg_addr 8 PCI_BASE_ADDRESS_0 then Z.lor (Z.land v (u32 (Z.lnot (2 ^ 12 - 1)))) (bar_flags false)
  else if a =? cfg_addr 8 PCI_COMMAND then
    Z.lor (Z.land v 0xffff) (Z.shiftl (Z.ldiff (Z.shiftr old 16) (Z.shiftr v 16)) 16)
  else u32 v.

#[global] Instance ram_bus_ops : PciBus ram_bus := {
  cfg_rd a b := (u32 (cells b a), b);
  cfg_wr a v b := {| cells := fupd a (ram_stick a (u32 (cells b a)) v) (cells b) |}
}.

Lemma land_bound n v m : 0 ≤ n → 0 ≤ m < 2 ^ n → 0 ≤ Z.land v m < 2 ^ n.
Proof.
  intros Hn Hm. assert (Z.land v m mod 2 ^ n = Z.land v m) as <-; [|apply Z.mod_pos_bound; lia].
  rewrite <- Z.land_ones, <- Z.land_assoc, (Z.land_ones m), Z.mod_small by lia. done.
Qed.

Lemma ram_stick_range a old v : 0 ≤ old < 2 ^ 32 → 0 ≤ ram_stick a old v < 2 ^ 32.
Proof.
  intros Ho. unfold ram_stick. destruct (a =? cfg_addr 8 PCI_BASE_ADDRESS_0).
  { cbn [bar_flags]. rewrite Z.lor_0_r. apply land_bound; [lia|]. apply u32_range. }
  destruct (a =? cfg_addr 8 PCI_COMMAND); [|apply u32_range].
  assert (0 ≤ old / 2 ^ 16 < 2 ^ 16) by (split; [apply Z.div_pos | apply Z.div_lt_upper_bound]; lia).
  rewrite Z.ldiff_land, (Z.land_comm (Z.shiftr old 16)), (Z.shiftr_div_pow2 old) by lia.
  pose proof (land_bound 16 (Z.lnot (Z.shiftr v 16)) (old / 2 ^ 16) ltac:(lia) ltac:(lia)).
  pose proof (land_bound 16 v 0xffff ltac:(lia) ltac:(lia)).
  rewrite lor_high by lia. lia.
Qed.

#[global] Instance ram_bus_devices : PciDevices ram_bus.
Proof.
  refine {| reg_of a b := u32 (cells b a); stick := ram_stick |}.
  - intros. apply u32_range.
  - reflexivity.
  - intros a v b. cbn. unfold fupd. rewrite decide_True by done.
    apply u32_small, ram_stick_range, u32_range.
  - intros a a' v b Hne. cbn. unfold fupd. by rewrite decide_False.
Defined.

Definition demo_pci : pci_state ram_bus :=
  {| usb := usb_cfg_init; usb20 := usb_cfg_init; pci_mem_size_rd := false; l2pcfgctl := 0;
     bus := {| cells := λ a, if a =? cfg_addr 8 PCI_BASE_ADDRESS_0 then 0x11010000
                             else if a =? cfg_addr 8 PCI_COMMAND then 0xF9000000 else 0 |};
     udelays := 0 |}.

Lemma pci_config_roundtrip_witness :
  let s' := bcm63xx_pcibios_write 8 0x3c 1 39 demo_pci in
  fst (bcm63xx_pcibios_read 8 0x3c 1 0 s') = 39 ∧ fst (bcm63xx_pcibios_read 8 0x3d 1 0 s') = 0.
Proof.
  destruct (pci_config_roundtrip demo_pci 8 0x3c 1 39) as (Hr & _ & Hf);
    [lia | done | split_and!; auto; done | done | done | done | intros; by apply u32_small |].
  split; [exact Hr|]. rewrite Hf; [vm_compute; reflexivity | lia | done | split_and!; auto; done |].
  right. right. left. vm_compute. discriminate.
Defined.

Lemma bar_sizing_witness :
  ∃ s', probe_base 8 PCI_BASE_ADDRESS_0 demo_pci = (Some (0x11010000, 0x1101ffff), s').
Proof.
  destruct (bar_sizing demo_pci 8 PCI_BASE_ADDRESS_0 12 false 0x11010000) as (s' & E & _);
    [done | done | lia | lia | vm_compute; discriminate | done | intros old v; reflexivity | done | done |].
  exists s'. exact E.
Defined.

Lemma command_write_clears_status_witness :
  fst (bcm63xx_pcibios_read 8 PCI_STATUS 2 0 demo_pci) = 0xF900 ∧
  fst (bcm63xx_pcibios_read 8 PCI_STATUS 2 0 (bcm63xx_pcibios_write 8 PCI_COMMAND 2 6 demo_pci)) = 0.
Proof.
  split; [vm_compute; reflexivity|].
  destruct (command_write_clears_status demo_pci 8 6) as [_ H]; [done | intros old v; reflexivity | lia | done |].
  exact H.
Defined.

Lemma usb_probe_witness :
  ∃ s', probe_base 72 PCI_BASE_ADDRESS_0 demo_pci = (Some (USB_OHCI_BASE, 0xfffe14ff), s').
Proof.
  destruct (usb_probe demo_pci 72 USB_OHCI_BASE) as (s' & E & _); [by left | done | done |].
  exists s'. exact E.
Defined.

(** The board [b] with other pin overlays. *)
Definition with_overlays (v : Z) (b : BOARD_PARAMETERS) : BOARD_PARAMETERS :=
  match b with
  | Build_BOARD_PARAMETERS f1 _ f3 f4 f5 f6 f7 f8 f9 f10 f11 f12 f13 f14 f15 f16
      f17 f18 f19 f20 f21 f22 f23 f24 f25 f26 f27 f28 f29 f30
      f31 f32 f33 f34 f35 f36 f37 f38 f39 f40 f41 f42 f43 f44 =>
      Build_BOARD_PARAMETERS f1 v f3 f4 f5 f6 f7 f8 f9 f10 f11 f12 f13 f14 f15 f16
        f17 f18 f19 f20 f21 f22 f23 f24 f25 f26 f27 f28 f29 f30
        f31 f32 f33 f34 f35 f36 f37 f38 f39 f40 f41 f42 f43 f44
  end.

Definition cardbus_board : option BOARD_PARAMETERS :=
  with_overlays (Z.lor BP_OVERLAY_PCI BP_OVERLAY_CB) <$> (BpSetBoardId (cstr "HW553"%string) None).2.

(** The HG553, and a board with a PC-card slot and a CardBus card in it. *)
Lemma pci_addresses_reach_device_witness :
  let r := {| res_start := 0x11010000; res_end := 0x1101ffff; res_flags := 0x200 |} in
  let reaches cur w cb :=
    ∃ r', bcm63xx_fixup 0 [r] !! 0%nat = Some r' ∧
      bridge (bcm6358_hw_init cur (demo_hw 0x8e w)) (res_start r' + 4) = Some (cb, 0x11010004) in
  reaches (BpSetBoardId (cstr "HW553"%string) None).2 (wires CdOpen CdOpen false false) false ∧
  reaches cardbus_board (wires CdGnd CdVS1 false false) true.
Proof.
  intros r reaches. split.
  - destruct (pci_addresses_reach_device (BpSetBoardId (cstr "HW553"%string) None).2
                (Z.lor BP_OVERLAY_PCI BP_OVERLAY_SPI_EXT_CS) (demo_hw 0x8e (wires CdOpen CdOpen false false))
                0 [r] 0 r 4) as (r' & H1 & H2 & _);
      [apply demo_hw_chip | vm_compute; reflexivity | reflexivity | lia | done
      | vm_compute; intuition discriminate | done | done | cbn; lia |].
    exists r'. split; [exact H1 | exact H2].
  - destruct (pci_addresses_reach_device cardbus_board
                (Z.lor BP_OVERLAY_PCI BP_OVERLAY_CB) (demo_hw 0x8e (wires CdGnd CdVS1 false false))
                0 [r] 0 r 4) as (r' & H1 & H2 & _);
      [apply demo_hw_chip | vm_compute; reflexivity | reflexivity | lia | done
      | vm_compute; intuition discriminate | done | done | cbn; lia |].
    exists r'. split; [exact H1 | exact H2].
Defined.

Lemma map_irq_table_witness : pcibios_map_irq 11 = None.
Proof. rewrite (map_irq_table 11) by lia. reflexivity. Defined.
