(* ===== verification/BoardDev.v ===== *)
(** * The board device: open files, memory access, chip selects ([board.c])

    The file operations of the device with the WPS event, the requests that dump
    and change memory and program a chip select, and the hook into the poll
    function of the link monitor's file. *)

From stdpp Require Import base numbers list strings.
From Stdlib Require Import ZArith Lia Bool.
From S2P Require Import Prelude BoardTables BoardParms KerFlash ImageTag Gpio Buttons BoardIoctl Setup.

Definition ENOMEM : Z := 12.
Definition POLLIN : Z := 1.
Definition POLLPRI : Z := 2.

(** ** Open files

    [files]: the [eventmask] of each open file, by its position; [None] after the
    file is closed.  [btn]: the button variables, with [WPS_FLAG].  [iocs]: the
    live [BOARD_IOC] objects. *)
Record board_files : Type := {
  files : list (option Z);
  btn : buttons;
  iocs : Z
}.

Definition set_files (fs : list (option Z)) (b : board_files) : board_files :=
  {| files := fs; btn := btn b; iocs := iocs b |}.
Definition set_btn (x : buttons) (b : board_files) : board_files :=
  {| files := files b; btn := x; iocs := iocs b |}.
Definition set_iocs (n : Z) (b : board_files) : board_files :=
  {| files := files b; btn := btn b; iocs := n |}.

Definition set_wps (v : Z) (x : buttons) : buttons :=
  set_wlan (s_ucWlanButtonCnt x) v (g_sWlanFlag x) (g_wakeup_monitor x) (wlan_armed x) x.

(** [mem]: whether memory can be had; the new object is zero. *)
Definition borad_ioc_alloc (mem : bool) (b : board_files) : option Z * board_files :=
  if mem then (Some 0, set_iocs (iocs b + 1) b) else (None, b).

Definition borad_ioc_free (ioc : option Z) (b : board_files) : board_files :=
  match ioc with Some _ => set_iocs (iocs b - 1) b | None => b end.

(** The kernel keeps the file only when [board_open] succeeds. *)
Definition board_open (mem : bool) (b : board_files) : Z * board_files :=
  let '(private_data, b) := borad_ioc_alloc mem b in
  match private_data with
  | None => (- ENOMEM, b)
  | Some m => (0, set_files (files b ++ [Some m]) b)
  end.

Definition private_data (fd : nat) (b : board_files) : option Z := mjoin (files b !! fd).

Definition board_release (fd : nat) (b : board_files) : Z * board_files :=
  let b := borad_ioc_free (private_data fd b) b in
  (0, set_files (<[fd := None]> (files b)) b).

Definition sesBtn_pressed (b : board_files) : Z := if negb (WPS_FLAG (btn b) =? 0) then POLLIN else 0.

Definition sesBtn_poll (b : board_files) : Z := if negb (sesBtn_pressed b =? 0) then POLLIN else 0.

Definition board_poll (fd : nat) (b : board_files) : option Z :=
  m ← private_data fd b;
  Some (if negb (Z.land m SES_EVENTS =? 0) && negb (WPS_FLAG (btn b) =? 0)
        then Z.lor 0 (sesBtn_poll b) else 0).

(** The value, and the bytes copied to the caller's buffer; [count] is not
    looked at. *)
Definition sesBtn_read (count : Z) (b : board_files) : Z * list Z :=
  if sesBtn_pressed b =? 0 then (0, [])
  else (4, be_bytes SES_EVENTS).

Definition board_read (fd : nat) (count : Z) (b : board_files) : option (Z * list Z * board_files) :=
  m ← private_data fd b;
  Some (if negb (Z.land m SES_EVENTS =? 0)
        then (sesBtn_read count b, set_btn (set_wps 0 (btn b)) b)
        else ((0, []), b)).

(** [BOARD_IOCTL_SET_TRIGGER_EVENT] and [_UNSET_] on the mask of a file ([BoardIoctl]). *)
Definition file_mask (fd : nat) (f : Z → Z) (b : board_files) : board_files :=
  match private_data fd b with
  | Some m => set_files (<[fd := Some (f m)]> (files b)) b
  | None => b
  end.

(** The pins of the WPS button and of its LED, which is given the button's pin;
    the interrupt is not mapped. *)
Definition sesBtn_mapGpio (bp : option BOARD_PARAMETERS) : Z := snd (BpGetWirelessSesBtnGpio bp).
Definition sesLed_mapGpio (bp : option BOARD_PARAMETERS) : Z := snd (BpGetWirelessSesBtnGpio bp).
Definition ses_board_init (bp : option BOARD_PARAMETERS) : Z * Z := (sesBtn_mapGpio bp, sesLed_mapGpio bp).

Definition sesBtn_isr (b : board_files) : Z := if negb (sesBtn_pressed b =? 0) then 1 else 0.

(** ** Dumping memory *)

(** Memory by address; [None] where nothing is mapped. *)
Definition memory : Type := Z → option Z.

Definition szHexChars : list Z := cstr "0123456789abcdef"%string.
Definition hex_char (n : Z) : Z := nth (Z.to_nat n) szHexChars 0.

(** Characters stored at [p] in [szLine], an array of 80. *)
Definition SZLINE : nat := 80.
Definition emit (line cs : list Z) : option (list Z) :=
  if decide (length line + length cs ≤ SZLINE)%nat then Some (line ++ cs) else None.

(** ["%8.8lx: "]. *)
Definition hex32 (v : Z) : list Z := map (λ k, hex_char (Z.land (Z.shiftr v (4 * (7 - Z.of_nat k))) 0xf)) (seq 0 8).

Definition word_bytes (m : memory) (a : Z) : option (list Z) := mapM m [a; a + 1; a + 2; a + 3].

Definition hex_byte (q : Z) : list Z := [hex_char (Z.shiftr q 4); hex_char (Z.land q 0x0f); 32].

(** The words of a line: [n] more fit, [i] is the offset. *)
Fixpoint dump_words (m : memory) (pAddr : Z) (n : nat) (i nLen : Z) (line : list Z)
  : option (list Z * Z * Z) :=
  match n with
  | O => Some (line, i, nLen)
  | S n' =>
      if nLen >? 0 then
        q ← word_bytes m (pAddr + i);
        line ← emit line (concat (map hex_byte q));
        dump_words m pAddr n' (i + 4) (nLen - 4) line
      else Some (line, i, nLen)
  end.

Definition printable (ch : Z) : Z := if (32 <? ch) && (ch <? 126) then ch else 46.

(** One line: the characters before the NUL, and the length left. *)
Definition dump_line (m : memory) (pAddr nLen : Z) : option (list Z * Z * Z) :=
  line ← emit [] (hex32 pAddr ++ cstr ": "%string);
  r ← dump_words m pAddr 4 0 nLen line;
  let '(line, i, nLen) := r in
  line ← emit line (concat (replicate (Z.to_nat (16 - i)) [32; 32; 32]));
  line ← emit line [32; 32; 32];
  chs ← mapM m (map (λ j, pAddr + Z.of_nat j) (seq 0 (Z.to_nat i)));
  line ← emit line (map printable chs);
  _ ← emit line [0];
  Some (line, i, nLen).

(** [fuel] bounds the lines; [None] is an access outside an object. *)
Fixpoint dumpaddr (fuel : nat) (m : memory) (pAddr nLen : Z) : option (list (list Z)) :=
  if nLen >? 0 then
    match fuel with
    | O => None
    | S fuel' =>
        r ← dump_line m pAddr nLen;
        let '(line, i, nLen) := r in
        rest ← dumpaddr fuel' m (pAddr + i) nLen;
        Some (line :: rest)
    end
  else Some [].

(** A line more than there are bytes, for the test that ends the loop. *)
Definition dump_fuel (nLen : Z) : nat := S (Z.to_nat nLen).

Definition mem_upd (a v : Z) (m : memory) : memory := λ x, if x =? a then Some v else m x.

(** A store of [n] bytes of [v], most significant first; all must be mapped. *)
Fixpoint mem_store (n : nat) (a v : Z) (m : memory) : option memory :=
  match n with
  | O => Some m
  | S n' => _ ← m a; mem_store n' (a + 1) v (mem_upd a (u8 (Z.shiftr v (8 * Z.of_nat n'))) m)
  end.

(** [BOARD_IOCTL_DUMP_ADDR] and [BOARD_IOCTL_SET_MEMORY]; [addr]: the value of the
    caller's [string], which is used as an address of the kernel. *)
Definition ioctl_dump_addr (addr strLen : Z) (m : memory) : option (Z * list (list Z)) :=
  lines ← dumpaddr (dump_fuel strLen) m addr strLen;
  Some (0, lines).

Definition ioctl_set_memory (addr strLen offset : Z) (m : memory) : option (Z * list (list Z) * memory) :=
  m' ← (if strLen =? 4 then mem_store 4 addr offset m
        else if strLen =? 2 then mem_store 2 addr offset m
        else if strLen =? 1 then mem_store 1 addr offset m
        else Some m);
  lines ← dumpaddr (dump_fuel 4) m' addr 4;
  Some (0, lines, m').

(** ** Chip selects *)

Definition EBI_TS_TA_MODE : Z := 0x80.
Definition EBI_WAIT_STATES : Z := 0xe.
Definition EBI_WTST_SHIFT : Z := 1.
Definition EBI_SETUP_SHIFT : Z := 16.
Definition EBI_HOLD_SHIFT : Z := 20.
Definition EBI_SETUP_STATES : Z := 0x0f0000.
Definition EBI_HOLD_STATES : Z := 0xf00000.

(** [cs_config_pars_t]. *)
Record cs_config_pars_t : Type := {
  cs_mode : Z; cs_cbase : Z; cs_size : Z; cs_wait_state : Z; cs_setup_time : Z; cs_hold_time : Z
}.

(** The words of [MpiRegisters]; [MPI->cs] is an array of seven pairs at its start. *)
Definition MPI_WORDS : nat := 126.
Definition MPI_CS : Z := 7.
Definition MPI_PCMCIA_CNTL1_WORD : nat := 21.

(** [MPI->cs[cs].base] and [.config] are words [2 cs] and [2 cs + 1], whatever [cs]
    is; outside the registers the access is a fault. *)
Definition mpi_store (i v : Z) (mpi : list Z) : option (list Z) :=
  if decide (0 ≤ i < Z.of_nat (length mpi)) then Some (<[Z.to_nat i := u32 v]> mpi) else None.

(** The result for the caller and the return value. *)
Definition ConfigCs (info : option cs_config_pars_t) (cs : Z) (mpi : list Z) : option (Z * Z * list Z) :=
  match info with
  | None => Some (- EFAULT, BP_NOT_DEFINED, mpi)
  | Some c =>
      mpi ← mpi_store (2 * cs) (Z.lor (Z.land (cs_cbase c) 0x1FFFE000) (Z.shiftr (cs_size c) 13)) mpi;
      let flags :=
        if cs_mode c =? EBI_TS_TA_MODE then Z.lor EBI_TS_TA_MODE EBI_ENABLE
        else Z.lor (Z.lor (Z.lor EBI_ENABLE (Z.land EBI_WAIT_STATES (Z.shiftl (cs_wait_state c) EBI_WTST_SHIFT)))
                          (Z.land EBI_SETUP_STATES (Z.shiftl (cs_setup_time c) EBI_SETUP_SHIFT)))
                   (Z.land EBI_HOLD_STATES (Z.shiftl (cs_hold_time c) EBI_HOLD_SHIFT)) in
      mpi ← mpi_store (2 * cs + 1) flags mpi;
      Some (0, BP_SUCCESS, mpi)
  end.

(** ** The link monitor

    A file belongs to a type with one table of operations, which all files of the
    type share; [PollOf k] is the poll function type [k] was made with. *)

Inductive poll_fn : Type := PollHook | PollOf (k : Z).

#[global] Instance poll_fn_eq_dec : EqDecision poll_fn.
Proof. solve_decision. Defined.

Record monitor : Type := {
  f_op_poll : Z → poll_fn;
  g_orig_fop_poll : option poll_fn;
  g_monitor_file : option Z;
  g_monitor_task : option Z;
  mon_wakeup : Z;
  woken : list Z
}.

Section monitor.
(** The type of a file, and what the poll function of a type answers for it. *)
Context (f_type : Z → Z) (dev_poll : Z → Z → Z).

(** [BOARD_IOCTL_SET_MONITOR_FD] by task [current]; [file]: what the descriptor
    stands for. *)
Definition ioctl_set_monitor_fd (current : Z) (file : option Z) (s : monitor) : monitor :=
  match file with
  | None => {| f_op_poll := f_op_poll s; g_orig_fop_poll := g_orig_fop_poll s; g_monitor_file := None;
               g_monitor_task := g_monitor_task s; mon_wakeup := mon_wakeup s; woken := woken s |}
  | Some f =>
      {| f_op_poll := λ k, if k =? f_type f then PollHook else f_op_poll s k;
         g_orig_fop_poll := Some (f_op_poll s (f_type f));
         g_monitor_file := Some f; g_monitor_task := Some current;
         mon_wakeup := mon_wakeup s; woken := woken s |}
  end.

Definition kerSysWakeupMonitorTask (s : monitor) : monitor :=
  {| f_op_poll := f_op_poll s; g_orig_fop_poll := g_orig_fop_poll s; g_monitor_file := g_monitor_file s;
     g_monitor_task := g_monitor_task s; mon_wakeup := 1;
     woken := match g_monitor_task s with Some t => woken s ++ [t] | None => woken s end |}.

Definition clear_wakeup (s : monitor) : monitor :=
  {| f_op_poll := f_op_poll s; g_orig_fop_poll := g_orig_fop_poll s; g_monitor_file := g_monitor_file s;
     g_monitor_task := g_monitor_task s; mon_wakeup := 0; woken := woken s |}.

(** A poll function on file [f]; [depth] bounds the nesting of calls.
    [PollHook] is [kerSysMonitorPollHook]. *)
Fixpoint call_poll (depth : nat) (fn : poll_fn) (f : Z) : M monitor Z :=
  match fn with
  | PollOf k => mret (dev_poll k f)
  | PollHook =>
      match depth with
      | O => nofuel
      | S depth' =>
          orig ← gets g_orig_fop_poll;
          match orig with
          | None => fault
          | Some fn' =>
              mask ← call_poll depth' fn' f;
              s ← get;
              if (mon_wakeup s =? 1) && bool_decide (g_monitor_file s = Some f)
              then modify clear_wakeup;; mret (Z.lor mask POLLPRI)
              else mret mask
          end
      end
  end.

(** [select] on a file. *)
Definition poll_file (depth : nat) (f : Z) : M monitor Z :=
  fn ← gets (λ s, f_op_poll s (f_type f)); call_poll depth fn f.
End monitor.

(** ** The remaining requests, and the whole dispatch *)

(** [get_system_type]. *)
Definition get_system_type : list Z := cstr "CHIP96358".

(** [ETHERNET_MAC_INFO] in memory; [pad]: the two bytes before [sw]. *)
Definition be16 (v : Z) : list Z := [u8 (Z.shiftr v 8); u8 v].
Definition enet_bytes (pad : list Z) (e : ETHERNET_MAC_INFO) : list Z :=
  [u8 (ucPhyType e); u8 (ucPhyAddress e)] ++ be16 (usGpioPhyReset e) ++ be16 (usGpioPhyLinkSpeed e) ++
  be16 (usConfigType e) ++ be16 (usReverseMii e) ++ pad ++ be_bytes (port_map (sw e)) ++
  concat (map be_bytes (phy_id (sw e))).
Definition sizeof_EnetInfos : Z := 96.

Record dstate (S : Type) : Type := {
  d_b : bstate S;
  d_mem : memory;
  d_mpi : list Z;
  d_mon : monitor;
  d_dump : list (list Z)
}.
Arguments d_b {S}. Arguments d_mem {S}. Arguments d_mpi {S}. Arguments d_mon {S}. Arguments d_dump {S}.

(** What a request brings besides the structure: the value of its [string]
    pointer, the structure behind [buf], the file its descriptor stands for and
    the calling task. *)
Record ioctl_request : Type := {
  rq_arg : option BOARD_IOCTL_PARMS;
  rq_addr : Z;
  rq_info : option cs_config_pars_t;
  rq_file : option Z;
  rq_task : Z
}.

Inductive device_command : Type :=
  | BoardCommand (c : board_command)
  | DUMP_ADDR | SET_MEMORY | GET_ID | GET_ENET_CFG | SET_MONITOR_FD | SET_CS_PAR.

Section device_ioctl.
Context {S : Type}.
Abbreviation ds := (dstate S).
Abbreviation reply := (Z * option BOARD_IOCTL_PARMS)%type.

(** [board_ioctl] of [BoardIoctl] with its parameters, the file types, and the
    padding of the local array. *)
Context (base_ioctl : board_command → option BOARD_IOCTL_PARMS → M (bstate S) reply).
Context (f_type : Z → Z) (infos : list ETHERNET_MAC_INFO) (pad : list Z).

Definition set_b (b : bstate S) (d : ds) : ds :=
  {| d_b := b; d_mem := d_mem d; d_mpi := d_mpi d; d_mon := d_mon d; d_dump := d_dump d |}.
Definition set_mem (m : memory) (lines : list (list Z)) (d : ds) : ds :=
  {| d_b := d_b d; d_mem := m; d_mpi := d_mpi d; d_mon := d_mon d; d_dump := d_dump d ++ lines |}.
Definition set_mpi (w : list Z) (d : ds) : ds :=
  {| d_b := d_b d; d_mem := d_mem d; d_mpi := w; d_mon := d_mon d; d_dump := d_dump d |}.
Definition set_mon (m : monitor) (d : ds) : ds :=
  {| d_b := d_b d; d_mem := d_mem d; d_mpi := d_mpi d; d_mon := m; d_dump := d_dump d |}.

Definition on_b {A} (m : M (bstate S) A) : M ds A := λ d,
  match m (d_b d) with
  | Done (a, b) => Done (a, set_b b d)
  | Fault => Fault | Blocked => Blocked | NoFuel => NoFuel
  end.

(** [BOARD_IOCTL_GET_ID]; the board's name is copied whatever the caller's
    length. *)
Definition ioctl_get_id (p : BOARD_IOCTL_PARMS) : M ds reply :=
  d ← get;
  match string p with
  | None => mret (0, Some (with_result 0 p))
  | Some _ =>
      let t := GetHarewareType (kerSysGetGPIO (b_gpio (d_b d))) in
      if t =? NOT_SUPPROT_GET_VERSION then
        let len := Z.of_nat (length get_system_type) + 1 in
        let n := if len <? u32 (strLen p) then len else strLen p in
        p' ← of_option (store_string (take (Z.to_nat n) (get_system_type ++ [0])) (with_strLen n p));
        mret (0, Some (with_result 0 p'))
      else if t =? HG55MAGV then
        p' ← of_option (store_string (cstr "HW553" ++ [0]) (with_strLen 6 p));
        mret (0, Some (with_result 0 p'))
      else mret (0, Some (with_result 0 p))
  end.

Definition ioctl_get_enet_cfg (p : BOARD_IOCTL_PARMS) : M ds reply :=
  d ← get;
  let '(sts, e) := BpGetEthernetMacInfo infos (g_pCurrentBp (b_k (d_b d))) in
  if sts =? BP_SUCCESS then
    if strLen p =? sizeof_EnetInfos then
      p' ← of_option (store_string (concat (map (enet_bytes pad) e)) p);
      mret (0, Some (with_result 0 p'))
    else mret (- EFAULT, None)
  else mret (- EFAULT, None).

Definition device_ioctl (command : device_command) (rq : ioctl_request) : M ds reply :=
  match command with
  | BoardCommand WAKEUP_MONITOR_TASK =>
      r ← on_b (base_ioctl WAKEUP_MONITOR_TASK (rq_arg rq));
      modify (λ d, set_mon (kerSysWakeupMonitorTask (d_mon d)) d);; mret r
  | BoardCommand c => on_b (base_ioctl c (rq_arg rq))
  | DUMP_ADDR =>
      match rq_arg rq with
      | None => mret (- EFAULT, None)
      | Some p =>
          d ← get;
          '(r, lines) ← of_option (ioctl_dump_addr (rq_addr rq) (strLen p) (d_mem d));
          modify (set_mem (d_mem d) lines);; mret (r, Some (with_result 0 p))
      end
  | SET_MEMORY =>
      match rq_arg rq with
      | None => mret (- EFAULT, None)
      | Some p =>
          d ← get;
          '(r, lines, m) ← of_option (ioctl_set_memory (rq_addr rq) (strLen p) (offset p) (d_mem d));
          modify (set_mem m lines);; mret (r, Some (with_result 0 p))
      end
  | GET_ID => match rq_arg rq with Some p => ioctl_get_id p | None => mret (0, None) end
  | GET_ENET_CFG => match rq_arg rq with Some p => ioctl_get_enet_cfg p | None => mret (- EFAULT, None) end
  | SET_MONITOR_FD =>
      match rq_arg rq with
      | Some _ => modify (λ d, set_mon (ioctl_set_monitor_fd f_type (rq_task rq) (rq_file rq) (d_mon d)) d);;
                  mret (0, None)
      | None => mret (0, None)
      end
  | SET_CS_PAR =>
      match rq_arg rq with
      | None => mret (- EFAULT, None)
      | Some p =>
          d ← get;
          '(r, res, w) ← of_option (ConfigCs (rq_info rq) (offset p) (d_mpi d));
          modify (set_mpi w);; mret (r, Some (with_result res p))
      end
  end.
End device_ioctl.
