(* ===== verification/DevClaims.v ===== *)
(** * The board device: statements

    The WPS event over every sequence of file operations and button polls, the
    memory dump against a reference, the chip selects, and the hook of the link
    monitor. *)

From stdpp Require Import base numbers list strings.
From Stdlib Require Import ZArith Lia Bool.
From S2P Require Import Prelude BoardTables BoardParms KerFlash ImageTag Gpio Buttons BoardIoctl IoctlClaims Setup BoardDev.

(** ** The WPS event *)

(** What a step shows: nothing, a completed long press, or an event read by a file. *)
Inductive label : Type := Quiet | Pressed | Delivered (fd : nat).

(** The steps of the device: calls of the file operations and polls of the button,
    in any order. *)
Inductive dev_step (bp : option BOARD_PARAMETERS) : board_files → label → board_files → Prop :=
  | StepOpen mem b r b' : board_open mem b = (r, b') → dev_step bp b Quiet b'
  | StepRelease fd b m r b' :
      private_data fd b = Some m → board_release fd b = (r, b') → dev_step bp b Quiet b'
  | StepMask fd f b : dev_step bp b Quiet (file_mask fd f b)
  | StepPoll fd b m : board_poll fd b = Some m → dev_step bp b Quiet b
  | StepButton g b :
      dev_step bp b
        (if (0 <? kerSysGetWlanButtonStatus g bp) && (s_ucWlanButtonCnt (btn b) >? iWPSCounts)
         then Pressed else Quiet)
        (set_btn (bcm63xx_poll_switch_wlan_key g bp (btn b)) b)
  | StepRead fd count b r bytes b' :
      board_read fd count b = Some (r, bytes, b') →
      dev_step bp b (if r =? 0 then Quiet else Delivered fd) b'.

Inductive dev_run (bp : option BOARD_PARAMETERS) : list label → board_files → Prop :=
  | RunStart x : WPS_FLAG x = 0 → dev_run bp [] {| files := []; btn := x; iocs := 0 |}
  | RunStep tr b l b' : dev_run bp tr b → dev_step bp b l b' → dev_run bp (tr ++ [l]) b'.

#[global] Instance label_eq_dec : EqDecision label.
Proof. solve_decision. Defined.
#[global] Instance delivered_dec l : Decision (match l with Delivered _ => True | _ => False end).
Proof. destruct l; apply _. Defined.

Definition presses (tr : list label) : Z := Z.of_nat (length (filter (λ l, l = Pressed) tr)).
Definition deliveries (tr : list label) : Z :=
  Z.of_nat (length (filter (λ l, match l with Delivered _ => True | _ => False end) tr)).

Definition open_count (fs : list (option Z)) : Z := Z.of_nat (length (filter (λ o, is_Some o) fs)).

Lemma open_count_app fs gs : open_count (fs ++ gs) = open_count fs + open_count gs.
Proof. unfold open_count. rewrite filter_app, length_app. lia. Qed.

Lemma open_count_insert fs fd o m : fs !! fd = Some (Some m) →
  open_count (<[fd := o]> fs) = open_count fs - 1 + open_count [o].
Proof.
  intros Hl. rewrite <- (take_drop_middle _ _ _ Hl) at 2. rewrite insert_take_drop by (by eapply lookup_lt_Some).
  change (o :: drop (S fd) fs) with ([o] ++ drop (S fd) fs).
  change (Some m :: drop (S fd) fs) with ([Some m] ++ drop (S fd) fs).
  rewrite !open_count_app. change (open_count [Some m]) with 1. lia.
Qed.

Lemma private_data_Some fd b m : private_data fd b = Some m → files b !! fd = Some (Some m).
Proof. unfold private_data. destruct (files b !! fd) as [[?|]|]; cbn; congruence. Qed.

(** The invariant of the runs. *)
Definition dev_inv (tr : list label) (b : board_files) : Prop :=
  iocs b = open_count (files b) ∧ (WPS_FLAG (btn b) = 0 ∨ WPS_FLAG (btn b) = 1) ∧
  deliveries tr + WPS_FLAG (btn b) ≤ presses tr.

Lemma counts_snoc tr l :
  presses (tr ++ [l]) = presses tr + (match l with Pressed => 1 | _ => 0 end) ∧
  deliveries (tr ++ [l]) = deliveries tr + (match l with Delivered _ => 1 | _ => 0 end).
Proof.
  unfold presses, deliveries. rewrite !filter_app, !length_app.
  destruct l; vm_compute (length (filter _ [_])); split; lia.
Qed.

Lemma wlan_poll_flag g bp x :
  WPS_FLAG (bcm63xx_poll_switch_wlan_key g bp x) =
  if (0 <? kerSysGetWlanButtonStatus g bp) && (s_ucWlanButtonCnt x >? iWPSCounts) then 1 else WPS_FLAG x.
Proof.
  unfold bcm63xx_poll_switch_wlan_key. rewrite Z.gtb_ltb.
  destruct (Z.eqb_spec (kerSysGetWlanButtonStatus g bp) 0) as [->|]; [done|].
  destruct (0 <? kerSysGetWlanButtonStatus g bp); [|done].
  destruct (_ >? iWPSCounts); [done|]. by destruct (_ >=? _).
Qed.

Lemma dev_inv_step bp tr b l b' : dev_inv tr b → dev_step bp b l b' → dev_inv (tr ++ [l]) b'.
Proof.
  intros (Hi & Hf & Hd) Hs. destruct (counts_snoc tr l) as [Hp Hdl]. unfold dev_inv. rewrite Hp, Hdl.
  destruct Hs as [mem b r b' E | fd b m r b' Hm E | fd f b | fd b m E | g b | fd count b r bytes b' E]; cbn.
  - unfold board_open, borad_ioc_alloc in E. destruct mem; injection E as <- <-; cbn;
      (split_and!; [|done|lia]); [|done]. rewrite open_count_app, Hi. done.
  - unfold board_release in E. injection E as <- <-. rewrite Hm. cbn. split_and!; [|done|lia].
    rewrite (open_count_insert _ _ _ m) by (by apply private_data_Some). change (open_count [None]) with 0. lia.
  - unfold file_mask. destruct (private_data fd b) as [m|] eqn:Em; [|split_and!; [done|done|lia]].
    cbn. split_and!; [|done|lia].
    rewrite (open_count_insert _ _ _ m) by (by apply private_data_Some). change (open_count [Some (f m)]) with 1. lia.
  - split_and!; [done|done|lia].
  - rewrite wlan_poll_flag. destruct (_ && _); cbn; split_and!; auto; lia.
  - unfold board_read in E. destruct (private_data fd b) as [m|]; [|done]. cbn in E.
    destruct (negb _); cbn in E; [|injection E as <- <- <-; cbn; split_and!; [done|done|lia]].
    unfold sesBtn_read, sesBtn_pressed in E.
    destruct Hf as [Hf|Hf]; rewrite Hf in E; cbn in E; injection E as <- <- <-; cbn;
      (split_and!; [done | by left | lia]).
Qed.

Lemma dev_run_inv bp tr b : dev_run bp tr b → dev_inv tr b.
Proof.
  induction 1 as [x Hx | tr b l b' Hr IH Hs]; [|by eapply dev_inv_step].
  unfold dev_inv. cbn. rewrite Hx. split_and!; [done | by left | done].
Qed.

(** The file asked for the WPS event. *)
Definition registered (fd : nat) (b : board_files) : Prop :=
  ∃ m, private_data fd b = Some m ∧ Z.land m SES_EVENTS ≠ 0.

(** [C23] The WPS event.  Over every sequence of opens, closes, changes of the event
    masks, polls, reads and polls of the button: there is one [BOARD_IOC] for each
    open file, and no more events are read than long presses were made.  While an
    event is pending, every file that asked for it is reported readable and its
    read returns the event; the first such read takes the event, after which no
    file is reported readable, so with two files waiting one of them misses it. *)
Theorem wps_event bp tr b :
  dev_run bp tr b →
  iocs b = open_count (files b) ∧ deliveries tr ≤ presses tr ∧
  ∀ fd count, registered fd b →
    if WPS_FLAG (btn b) =? 0
    then board_poll fd b = Some 0 ∧ ∃ b', board_read fd count b = Some (0, [], b')
    else board_poll fd b = Some POLLIN ∧
         ∃ b', board_read fd count b = Some (4, be_bytes SES_EVENTS, b') ∧ WPS_FLAG (btn b') = 0 ∧
               ∀ fd' m, private_data fd' b' = Some m → board_poll fd' b' = Some 0.
Proof.
  intros (Hi & Hf & Hd)%dev_run_inv. split_and!; [done | destruct Hf; lia |].
  intros fd count (m & Hm & Hreg).
  assert (negb (Z.land m SES_EVENTS =? 0) = true) as Hr by (destruct (Z.eqb_spec (Z.land m SES_EVENTS) 0); done).
  unfold board_poll, board_read, sesBtn_read, sesBtn_poll, sesBtn_pressed.
  rewrite Hm. cbn [mbind option_bind]. rewrite Hr.
  destruct Hf as [-> | ->]; cbn; [split; [done|by eexists]|].
  split; [done|]. eexists. split; [reflexivity|]. split; [done|]. intros fd' m' Hm'. rewrite Hm'. cbn.
  by rewrite andb_false_r.
Qed.

(** The HG553 with the button released after eleven seconds, and one file. *)
Definition hw553 : option BOARD_PARAMETERS := (BpSetBoardId (cstr "HW553") None).2.

Definition demo_files : board_files :=
  {| files := [];
     btn := {| s_ucWlanButtonCnt := 44; WPS_FLAG := 0; g_sWlanFlag := 0; g_wakeup_monitor := 0;
               wlan_armed := true; s_iResetButtoncnt := 0; iRestoreFlag := 0; works_queued := 0;
               reset_armed := true; pll_control := 0 |};
     iocs := 0 |}.

Definition pins_high : gpio_regs :=
  {| GPIODir_high := 0; GPIODir := 0; GPIOio_high := 2 ^ 31 - 1; GPIOio := 2 ^ 31 - 1 |}.

Definition demo_open : board_files := snd (board_open true demo_files).
Definition demo_registered : board_files := file_mask 0 (λ m, Z.lor m SES_EVENTS) demo_open.
Definition demo_pending : board_files :=
  set_btn (bcm63xx_poll_switch_wlan_key pins_high hw553 (btn demo_registered)) demo_registered.

Lemma demo_run : dev_run hw553 [Quiet; Quiet; Pressed] demo_pending.
Proof.
  apply (RunStep _ [Quiet; Quiet] demo_registered Pressed).
  - apply (RunStep _ [Quiet] demo_open Quiet); [|apply StepMask].
    apply (RunStep _ [] demo_files Quiet); [by constructor|]. by eapply (StepOpen _ true).
  - exact (StepButton hw553 pins_high demo_registered).
Qed.

Lemma wps_event_witness : board_poll 0 demo_pending = Some POLLIN.
Proof.
  destruct (wps_event hw553 _ _ demo_run) as (_ & _ & H).
  specialize (H 0%nat 4). destruct H as [H _]; [|exact H]. exists 1. by split.
Defined.

(** ** The memory dump *)

(** A dump as it should read: lines of 16 bytes, the last one padded. *)
Definition ref_line (a : Z) (bs : list Z) : list Z :=
  hex32 a ++ cstr ": " ++ concat (map hex_byte bs) ++
  concat (replicate (16 - length bs) [32; 32; 32]) ++ [32; 32; 32] ++ map printable bs.

Fixpoint ref_dump (n : nat) (a : Z) (bs : list Z) : list (list Z) :=
  match n with
  | O => []
  | S n' => match bs with
            | [] => []
            | _ => ref_line a (take 16 bs) :: ref_dump n' (a + 16) (drop 16 bs)
            end
  end.

(** The memory at [a] is the bytes [bs]. *)
Definition mem_holds (m : memory) (a : Z) (bs : list Z) : Prop :=
  ∀ i, (i < length bs)%nat → m (a + Z.of_nat i) = bs !! i.

Lemma mem_holds_take_drop m a bs (k : nat) : mem_holds m a bs → (k ≤ length bs)%nat →
  mem_holds m a (take k bs) ∧ mem_holds m (a + Z.of_nat k) (drop k bs).
Proof.
  intros Hh Hk. split; intros i Hi; rewrite ?length_take, ?length_drop in Hi.
  - rewrite lookup_take_lt by lia. apply Hh. lia.
  - rewrite lookup_drop, <- Hh by lia. f_equal. lia.
Qed.

Lemma mapM_holds m a bs : mem_holds m a bs →
  mapM m (map (λ j, a + Z.of_nat j) (seq 0 (length bs))) = Some bs.
Proof.
  revert a. induction bs as [|b bs IH]; intros a Hh; [done|].
  cbn [length seq map]. rewrite <- seq_shift, map_map. cbn [mapM].
  rewrite (Hh 0%nat) by (cbn; lia). cbn [lookup list_lookup mbind option_bind].
  assert (map (λ x, a + Z.of_nat (S x)) (seq 0 (length bs)) =
          map (λ j, (a + 1) + Z.of_nat j) (seq 0 (length bs))) as -> by (apply map_ext; intros; lia).
  rewrite IH; [done|]. intros i Hi. transitivity ((b :: bs) !! S i); [|done].
  rewrite <- Hh by (cbn; lia). f_equal. lia.
Qed.

Lemma word_bytes_holds m a bs : mem_holds m a bs → length bs = 4%nat → word_bytes m a = Some bs.
Proof.
  intros Hh Hl. rewrite <- (mapM_holds m a bs Hh), Hl. unfold word_bytes. cbn [seq map].
  by replace (a + Z.of_nat 0) with a by lia.
Qed.

(** Words that [nLen] bytes touch. *)
Definition words (nLen : Z) : nat := Z.to_nat ((nLen + 3) / 4).

Lemma words_nonpos nLen : nLen ≤ 0 → words nLen = 0%nat.
Proof.
  intros H. unfold words. assert ((nLen + 3) / 4 < 1) by (apply Z.div_lt_upper_bound; lia). lia.
Qed.

Lemma words_pos nLen : nLen > 0 → words nLen = S (words (nLen - 4)).
Proof.
  intros H. unfold words. replace (nLen + 3) with ((nLen - 4 + 3) + 1 * 4) by lia.
  rewrite Z.div_add by lia. assert (0 ≤ (nLen - 4 + 3) / 4) by (apply Z.div_pos; lia). lia.
Qed.

Lemma length_hex_bytes bs : length (concat (map hex_byte bs)) = (3 * length bs)%nat.
Proof. induction bs as [|b bs IH]; [done|]. cbn [map concat]. rewrite length_app, IH. cbn. lia. Qed.

Lemma emit_Some line cs : (length line + length cs ≤ SZLINE)%nat → emit line cs = Some (line ++ cs).
Proof. intros. unfold emit. by rewrite decide_True. Qed.

Lemma dump_words_eq m a n i nLen line bs :
  mem_holds m (a + i) bs → length bs = (4 * Nat.min n (words nLen))%nat →
  (length line + 3 * length bs ≤ SZLINE)%nat →
  dump_words m a n i nLen line =
    Some (line ++ concat (map hex_byte bs), i + Z.of_nat (length bs), nLen - Z.of_nat (length bs)).
Proof.
  revert i nLen line bs. induction n as [|n IH]; intros i nLen line bs Hh Hl Hsz; cbn [dump_words].
  { destruct bs; [|done]. cbn. rewrite app_nil_r, Z.add_0_r, Z.sub_0_r. done. }
  destruct (Z.gtb_spec nLen 0) as [Hpos|Hle].
  - rewrite words_pos in Hl by lia. cbn [Nat.min] in Hl.
    destruct (mem_holds_take_drop m (a + i) bs 4 Hh ltac:(lia)) as [Ht Hd].
    rewrite (word_bytes_holds _ _ (take 4 bs)) by (done || (rewrite length_take; lia)). cbn [mbind option_bind].
    assert (length (take 4 bs) = 4%nat) as Hlt by (rewrite length_take; lia).
    rewrite emit_Some by (rewrite length_hex_bytes, Hlt; lia). cbn [mbind option_bind].
    rewrite (IH _ _ _ (drop 4 bs)).
    + rewrite length_drop, <- app_assoc, <- concat_app, <- map_app, take_drop.
      f_equal. f_equal; [f_equal|]; lia.
    + by replace (a + (i + 4)) with (a + i + Z.of_nat 4) by lia.
    + rewrite length_drop, Hl. lia.
    + rewrite length_app, length_hex_bytes, length_drop, Hlt. lia.
  - rewrite words_nonpos, Nat.min_0_r in Hl by lia. destruct bs; [|done].
    cbn. rewrite app_nil_r, Z.add_0_r, Z.sub_0_r. done.
Qed.

Lemma length_hex32 a : length (hex32 a) = 8%nat.
Proof. reflexivity. Qed.

Lemma length_pad n : length (concat (replicate n [32; 32; 32])) = (3 * n)%nat.
Proof. induction n as [|n IH]; [done|]. cbn [replicate concat]. rewrite length_app, IH. cbn. lia. Qed.

Lemma dump_line_eq m a nLen bs :
  mem_holds m a bs → length bs = (4 * Nat.min 4 (words nLen))%nat →
  dump_line m a nLen = Some (ref_line a bs, Z.of_nat (length bs), nLen - Z.of_nat (length bs)).
Proof.
  intros Hh Hl. assert (length bs ≤ 16)%nat by lia. unfold dump_line.
  rewrite emit_Some by (unfold SZLINE; cbn; lia). cbn [mbind option_bind app].
  rewrite (dump_words_eq _ _ _ _ _ _ bs) by (rewrite ?Z.add_0_r; unfold SZLINE; cbn; done || lia).
  cbn [mbind option_bind]. rewrite Z.add_0_l.
  rewrite emit_Some by (rewrite length_pad, !length_app, length_hex_bytes, length_hex32; unfold SZLINE; cbn; lia).
  cbn [mbind option_bind].
  rewrite emit_Some by (rewrite !length_app, length_pad, length_hex_bytes, length_hex32; unfold SZLINE; cbn; lia).
  cbn [mbind option_bind]. rewrite Nat2Z.id, (mapM_holds m a bs Hh). cbn [mbind option_bind].
  rewrite emit_Some
    by (rewrite !length_app, length_pad, length_hex_bytes, length_hex32, length_map; unfold SZLINE; cbn; lia).
  cbn [mbind option_bind].
  rewrite emit_Some
    by (rewrite !length_app, length_pad, length_hex_bytes, length_hex32, length_map; unfold SZLINE; cbn; lia).
  cbn [mbind option_bind]. unfold ref_line. rewrite <- !app_assoc.
  by replace (Z.to_nat (16 - Z.of_nat (length bs))) with (16 - length bs)%nat by lia.
Qed.

Lemma words_sub nLen j : 0 < nLen → (j ≤ words nLen)%nat →
  words (nLen - Z.of_nat (4 * j)) = (words nLen - j)%nat.
Proof.
  intros Hn Hj. unfold words in *. rewrite Nat2Z.inj_mul. change (Z.of_nat 4) with 4.
  replace (nLen - 4 * Z.of_nat j + 3) with (nLen + 3 + (- Z.of_nat j) * 4) by lia.
  rewrite Z.div_add by lia. assert (0 ≤ (nLen + 3) / 4) by (apply Z.div_pos; lia). lia.
Qed.

Lemma length_ref_line a bs : (length bs ≤ 16)%nat → (length (ref_line a bs) < SZLINE)%nat.
Proof.
  intros. unfold ref_line. rewrite !length_app, length_hex_bytes, length_pad, length_map, length_hex32.
  unfold SZLINE. cbn. lia.
Qed.

(** One line and the rest: the rest is empty after a short line. *)
Lemma dumpaddr_gen m fuel n a nLen bs : mem_holds m a bs → length bs = (4 * words nLen)%nat →
  (words nLen < fuel)%nat → (words nLen ≤ n)%nat →
  dumpaddr fuel m a nLen = Some (ref_dump n a bs) ∧ Forall (λ l, (length l < SZLINE)%nat) (ref_dump n a bs).
Proof.
  revert n a nLen bs. induction fuel as [|fuel IH]; intros n a nLen bs Hh Hl Hf Hn; [lia|]. cbn [dumpaddr].
  destruct (Z.gtb_spec nLen 0) as [Hpos|Hle].
  2: { rewrite words_nonpos in Hl by lia. destruct bs; [|done]. destruct n; cbn; split; auto. }
  pose proof (words_pos nLen ltac:(lia)) as Hwp. destruct n as [|n]; [lia|].
  set (j := Nat.min 4 (words nLen)).
  assert (length (take 16 bs) = 4 * j)%nat as Hk by (rewrite length_take; lia).
  rewrite (dump_line_eq _ _ _ (take 16 bs)); [|destruct (decide (16 ≤ length bs)%nat);
    [by apply mem_holds_take_drop | by rewrite take_ge by lia] | exact Hk]. cbn [mbind option_bind].
  destruct bs as [|b0 bs]; [cbn in Hl; lia|]. cbn [ref_dump]. rewrite Hk.
  pose proof (words_sub nLen j ltac:(lia) ltac:(lia)) as Hw.
  assert (dumpaddr fuel m (a + Z.of_nat (4 * j)) (nLen - Z.of_nat (4 * j)) =
            Some (ref_dump n (a + 16) (drop 16 (b0 :: bs))) ∧
          Forall (λ l, (length l < SZLINE)%nat) (ref_dump n (a + 16) (drop 16 (b0 :: bs)))) as [-> Hfa].
  { destruct (decide (j = 4%nat)) as [Ej|Ej].
    - rewrite Ej in Hw |- *. apply IH; [apply mem_holds_take_drop; [done|]|..];
        rewrite ?length_drop, ?Hw, ?Hl; lia.
    - rewrite (drop_ge _ 16) by lia. destruct fuel as [|fuel]; [lia|]. cbn [dumpaddr].
      destruct (Z.gtb_spec (nLen - Z.of_nat (4 * j)) 0) as [Hp|_]; [rewrite words_pos in Hw by lia; lia|].
      destruct n; cbn; split; auto. }
  cbn [mbind option_bind]. split; [done|]. constructor; [|done]. apply length_ref_line. lia.
Qed.

(** The memory dump, [dumpaddr].  When the words that the length touches are
    mapped, the dump of any address and length ends, stays inside its 80-character
    line, and prints the bytes, rounded up to words, sixteen to a line, each line
    with the address, the bytes in hexadecimal, padding and the characters. *)
Theorem dumpaddr_correct m a nLen bs :
  mem_holds m a bs → length bs = (4 * words nLen)%nat →
  dumpaddr (dump_fuel nLen) m a nLen = Some (ref_dump (length bs) a bs) ∧
  Forall (λ l, (length l < SZLINE)%nat) (ref_dump (length bs) a bs).
Proof.
  intros Hh Hl. apply dumpaddr_gen; try done; [|lia]. unfold dump_fuel.
  destruct (Z.le_gt_cases nLen 0); [rewrite words_nonpos by lia; lia|].
  unfold words. assert ((nLen + 3) / 4 ≤ nLen) by (apply Z.div_le_upper_bound; lia). lia.
Qed.

Lemma dumpaddr_correct_witness :
  dumpaddr (dump_fuel 5) (λ a, if (a <? 100) || (107 <? a) then None else Some 65) 100 5 =
  Some [cstr "00000064: 41 41 41 41 41 41 41 41                            AAAAAAAA"].
Proof.
  destruct (dumpaddr_correct (λ a, if (a <? 100) || (107 <? a) then None else Some 65) 100 5 (replicate 8 65))
    as [H _].
  - intros i Hi. do 8 (destruct i as [|i]; [reflexivity|]). cbn in Hi. lia.
  - reflexivity.
  - rewrite H. vm_compute. reflexivity.
Defined.

(** ** Chip selects *)

(** Programming a chip select, [ConfigCs].  The number of the chip select
    comes from the caller and is not checked: it reaches any pair of words of the
    bridge's registers, for instance the control register of the card slot with
    number 10, and the two writes stay inside the register block exactly for
    numbers below half its words.  The size is put into the register as a number
    of 8 KB blocks, while the field mem_holds its logarithm ([EBI_SIZE_8K] = 0), so
    no power of two from 8 KB on is encoded as the part expects. *)
Theorem config_cs_unchecked c cs mpi :
  length mpi = MPI_WORDS →
  (ConfigCs (Some c) cs mpi ≠ None ↔ 0 ≤ cs < 63) ∧
  (∀ ret res mpi', ConfigCs (Some c) cs mpi = Some (ret, res, mpi') →
     ret = 0 ∧ res = BP_SUCCESS ∧
     ∀ i, i ≠ Z.to_nat (2 * cs) → i ≠ Z.to_nat (2 * cs + 1) → mpi' !! i = mpi !! i) ∧
  (cs = 10 → ∃ ret res mpi', ConfigCs (Some c) cs mpi = Some (ret, res, mpi') ∧
     ∃ v, mpi' !! MPI_PCMCIA_CNTL1_WORD = Some v ∧ Z.land v EBI_ENABLE = EBI_ENABLE) ∧
  (∀ k, 13 ≤ k → Z.shiftr (2 ^ k) 13 ≠ k - 13).
Proof.
  intros Hl. unfold MPI_WORDS in Hl. unfold ConfigCs.
  set (v1 := Z.lor (Z.land _ _) _).
  set (v2 := if cs_mode c =? EBI_TS_TA_MODE then _ else _).
  assert (Z.land v2 EBI_ENABLE = EBI_ENABLE) as Hv2.
  { apply Z.bits_inj'; intros i Hi. rewrite Z.land_spec. unfold v2.
    destruct (cs_mode c =? EBI_TS_TA_MODE); rewrite !Z.lor_spec;
      destruct (Z.testbit EBI_ENABLE i); rewrite ?orb_true_r, ?andb_false_r; try done. }
  clearbody v1 v2. unfold mpi_store. rewrite Hl. change (Z.of_nat 126) with 126. split_and!.
  - split.
    + destruct (decide (0 ≤ 2 * cs < 126)); [lia|done].
    + intros Hcs. rewrite decide_True by lia. cbn [mbind option_bind]. rewrite length_insert, Hl.
      rewrite decide_True by lia. done.
  - intros ret res mpi'. destruct (decide (0 ≤ 2 * cs < 126)); [|done]. cbn [mbind option_bind].
    destruct (decide _); [|done]. cbn. intros [= <- <- <-]. split_and!; [done|done|].
    intros i H1 H2. by rewrite !list_lookup_insert_ne by done.
  - intros ->. rewrite decide_True by lia. cbn [mbind option_bind]. rewrite length_insert, Hl.
    rewrite decide_True by lia. cbn [mbind option_bind]. eexists _, _, _. split; [reflexivity|].
    exists (u32 v2). split; [apply list_lookup_insert_eq; rewrite length_insert; lia|].
    unfold u32. rewrite <- Z.land_ones, <- Z.land_assoc by lia. change (Z.land (Z.ones 32) EBI_ENABLE) with EBI_ENABLE.
    done.
  - intros k Hk. rewrite Z.shiftr_div_pow2 by lia.
    replace (2 ^ k) with (2 ^ (k - 13) * 2 ^ 13) by (rewrite <- Z.pow_add_r by lia; f_equal; lia).
    rewrite Z.div_mul by lia. pose proof (Z.pow_gt_lin_r 2 (k - 13) ltac:(lia) ltac:(lia)). lia.
Qed.

Lemma config_cs_unchecked_witness :
  ∃ mpi' v, ConfigCs (Some {| cs_mode := 0; cs_cbase := 0; cs_size := 0; cs_wait_state := 0; cs_setup_time := 0;
                             cs_hold_time := 0 |}) 10 (replicate 126 0) = Some (0, BP_SUCCESS, mpi') ∧
    mpi' !! MPI_PCMCIA_CNTL1_WORD = Some v ∧ Z.land v EBI_ENABLE = EBI_ENABLE.
Proof.
  destruct (config_cs_unchecked
     {| cs_mode := 0; cs_cbase := 0; cs_size := 0; cs_wait_state := 0; cs_setup_time := 0; cs_hold_time := 0 |}
     10 (replicate 126 0) eq_refl) as (_ & Hr & H10 & _).
  destruct (H10 eq_refl) as (ret & res & mpi' & E & v & Hv). destruct (Hr _ _ _ E) as (-> & -> & _).
  by exists mpi', v.
Defined.

(** ** The link monitor *)

Section monitor.
Context (f_type : Z → Z) (dev_poll : Z → Z → Z).

(** No hook is installed. *)
Definition unhooked (s : monitor) : Prop := ∀ k, f_op_poll s k = PollOf k.

Lemma call_hook_of d k f s : g_orig_fop_poll s = Some (PollOf k) →
  call_poll dev_poll (S d) PollHook f s =
  if (mon_wakeup s =? 1) && bool_decide (g_monitor_file s = Some f)
  then Done (Z.lor (dev_poll k f) POLLPRI, clear_wakeup s) else Done (dev_poll k f, s).
Proof.
  intros Ho. cbn [call_poll]. rewrite bind_gets, Ho. destruct d; cbn [call_poll]; rewrite bind_ret, bind_get;
    by destruct (_ && _).
Qed.

Lemma call_hook_self d f s : g_orig_fop_poll s = Some PollHook → call_poll dev_poll d PollHook f s = NoFuel.
Proof.
  intros Ho. induction d as [|d IH]; [done|]. cbn [call_poll]. rewrite bind_gets, Ho.
  unfold mbind, M_bind. by rewrite IH.
Qed.

(** Hooking the monitor's file, [BOARD_IOCTL_SET_MONITOR_FD] and
    [kerSysMonitorPollHook].  After one registration every file still answers
    with its own poll function; the monitor's file adds the priority event
    after a wake-up, once.  A second registration of a file of the same type, as
    a restarted monitor makes it, stores the hook as its own original: polling
    any file of that type then recurses without end.  A second registration of a
    file of another type makes files of the first type answer with the poll
    function of the second. *)
Theorem monitor_hook s task f :
  unhooked s →
  let s1 := ioctl_set_monitor_fd f_type task (Some f) s in
  (∀ f' depth, (1 ≤ depth)%nat → ∃ s', poll_file f_type dev_poll depth f' s1 =
      Done (if (mon_wakeup s =? 1) && bool_decide (f = f')
            then Z.lor (dev_poll (f_type f') f') POLLPRI else dev_poll (f_type f') f', s') ∧
      (mon_wakeup s = 1 → f = f' → mon_wakeup s' = 0)) ∧
  (∀ task' f' g depth, f_type f' = f_type f → f_type g = f_type f →
      poll_file f_type dev_poll depth g (ioctl_set_monitor_fd f_type task' (Some f') s1) = NoFuel) ∧
  (∀ task' f' g depth, f_type f' ≠ f_type f → f_type g = f_type f → mon_wakeup s = 0 → (1 ≤ depth)%nat →
      ∃ s', poll_file f_type dev_poll depth g (ioctl_set_monitor_fd f_type task' (Some f') s1) =
            Done (dev_poll (f_type f') g, s')).
Proof.
  intros Hu s1. split_and!.
  - intros f' depth Hd. destruct depth as [|depth]; [lia|]. unfold poll_file. rewrite bind_gets.
    cbn [f_op_poll ioctl_set_monitor_fd s1]. destruct (Z.eqb_spec (f_type f') (f_type f)) as [Ht|Ht].
    + rewrite (call_hook_of _ (f_type f)) by (cbn; by rewrite Hu). cbn [mon_wakeup g_monitor_file s1].
      rewrite Ht. rewrite (bool_decide_ext (Some f = Some f') (f = f')) by naive_solver.
      destruct (Z.eqb_spec (mon_wakeup s) 1), (bool_decide_reflect (f = f')); cbn [andb];
        eexists; (split; [reflexivity|done]).
    + rewrite Hu. rewrite bool_decide_false by congruence. rewrite andb_false_r.
      eexists. split; [reflexivity|]. congruence.
  - intros task' f' g depth Hf' Hg. unfold poll_file. rewrite bind_gets. cbn [f_op_poll ioctl_set_monitor_fd s1].
    rewrite Hg, Hf', Z.eqb_refl. apply call_hook_self. cbn. done.
  - intros task' f' g depth Hf' Hg Hw Hd. destruct depth as [|depth]; [lia|].
    unfold poll_file. rewrite bind_gets. cbn [f_op_poll ioctl_set_monitor_fd s1]. rewrite Hg, Z.eqb_refl.
    destruct (Z.eqb_spec (f_type f) (f_type f')); [congruence|].
    rewrite (call_hook_of _ (f_type f')).
    + cbn [mon_wakeup s1]. rewrite Hw. by eexists.
    + cbn. destruct (Z.eqb_spec (f_type f') (f_type f)); [done|]. by rewrite Hu.
Qed.
End monitor.

Definition demo_monitor : monitor :=
  {| f_op_poll := PollOf; g_orig_fop_poll := None; g_monitor_file := None; g_monitor_task := None;
     mon_wakeup := 1; woken := [] |}.

Lemma monitor_hook_witness :
  poll_file (λ _, 3) (λ _ _, 1) 1000 5
    (ioctl_set_monitor_fd (λ _, 3) 7 (Some 5) (ioctl_set_monitor_fd (λ _, 3) 7 (Some 5) demo_monitor)) = NoFuel ∧
  ∃ s', poll_file (λ _, 3) (λ _ _, 1) 1 5 (ioctl_set_monitor_fd (λ _, 3) 7 (Some 5) demo_monitor) = Done (3, s').
Proof.
  destruct (monitor_hook (λ _, 3) (λ _ _, 1) demo_monitor 7 5) as (H1 & H2 & _); [done|].
  split; [by apply H2|]. destruct (H1 5 1%nat ltac:(lia)) as (s' & E & _). by exists s'.
Defined.

(** ** Changing memory *)

(** Byte [x] after a store of the [n] low bytes of [v] at [a]. *)
Definition poked (n : nat) (a v : Z) (m : memory) (x : Z) : option Z :=
  if bool_decide (a ≤ x < a + Z.of_nat n) then Some (u8 (Z.shiftr v (8 * (Z.of_nat n - 1 - (x - a))))) else m x.

Lemma mem_store_eq n a v m : (∀ i : nat, (i < n)%nat → is_Some (m (a + Z.of_nat i))) →
  ∃ m', mem_store n a v m = Some m' ∧ ∀ x, m' x = poked n a v m x.
Proof.
  revert a m. induction n as [|n IH]; intros a m Hm; cbn [mem_store].
  { exists m. split; [done|]. intros x. unfold poked. by rewrite bool_decide_false by lia. }
  destruct (Hm 0%nat ltac:(lia)) as [y Hy]. rewrite Z.add_0_r in Hy. rewrite Hy. cbn [mbind option_bind].
  destruct (IH (a + 1) (mem_upd a (u8 (Z.shiftr v (8 * Z.of_nat n))) m)) as (m' & E & Hx).
  { intros i Hi. unfold mem_upd. destruct (_ =? _); [done|].
    replace (a + 1 + Z.of_nat i) with (a + Z.of_nat (S i)) by lia. apply Hm. lia. }
  exists m'. split; [done|]. intros x. rewrite Hx. unfold poked, mem_upd.
  destruct (Z.eqb_spec x a) as [->|Hne].
  - rewrite bool_decide_false, bool_decide_true by lia. do 3 f_equal. lia.
  - repeat case_bool_decide; try lia; [|done]. do 3 f_equal. lia.
Qed.

Lemma mem_store_unmapped a v m n : m a = None → mem_store (S n) a v m = None.
Proof. intros H. cbn. by rewrite H. Qed.

(** Changing memory, [BOARD_IOCTL_SET_MEMORY].  The pointer in the caller's
    structure is used as an address of the kernel.  A store of 1, 2 or 4 bytes at
    mapped addresses changes exactly these bytes, most significant first, dumps
    the word at the address and reports success; at an unmapped address the
    request faults in the kernel. *)
Theorem set_memory_pokes {S} base f_type infos pad (d : dstate S) p rq n :
  rq_arg rq = Some p → strLen p = Z.of_nat n → n ∈ [1; 2; 4]%nat →
  ((∀ i : nat, (i < 4)%nat → is_Some (d_mem d (rq_addr rq + Z.of_nat i))) →
   ∃ d' line, device_ioctl base f_type infos pad SET_MEMORY rq d = Done ((0, Some (with_result 0 p)), d') ∧
     (∀ x, d_mem d' x = poked n (rq_addr rq) (offset p) (d_mem d) x) ∧
     d_dump d' = d_dump d ++ [line] ∧ d_b d' = d_b d) ∧
  (d_mem d (rq_addr rq) = None → device_ioctl base f_type infos pad SET_MEMORY rq d = Fault).
Proof.
  intros Harg Hlen Hn. unfold device_ioctl. rewrite Harg. set (a := rq_addr rq).
  assert (∀ m, (if strLen p =? 4 then mem_store 4 a (offset p) m
                else if strLen p =? 2 then mem_store 2 a (offset p) m
                else if strLen p =? 1 then mem_store 1 a (offset p) m else Some m) =
               mem_store n a (offset p) m) as Hst.
  { intros m. rewrite Hlen. rewrite !elem_of_cons in Hn.
    destruct Hn as [-> | [-> | [-> | []%elem_of_nil]]]; reflexivity. }
  assert (1 ≤ n ≤ 4)%nat as Hn4
    by (rewrite !elem_of_cons in Hn; destruct Hn as [-> | [-> | [-> | []%elem_of_nil]]]; lia).
  rewrite bind_get. unfold ioctl_set_memory. rewrite Hst. split.
  - intros Hm. destruct (mem_store_eq n a (offset p) (d_mem d)) as (m' & E & Hx); [intros; apply Hm; lia|].
    rewrite E. cbn [mbind option_bind].
    assert (∃ bs, length bs = 4%nat ∧ mem_holds m' a bs) as (bs & Hl & Hh).
    { assert (∀ i : nat, (i < 4)%nat → is_Some (m' (a + Z.of_nat i))) as Hm'.
      { intros i Hi. rewrite Hx. unfold poked. case_bool_decide; [done|]. by apply Hm. }
      destruct (Hm' 0%nat ltac:(lia)) as [b0 H0], (Hm' 1%nat ltac:(lia)) as [b1 H1],
        (Hm' 2%nat ltac:(lia)) as [b2 H2], (Hm' 3%nat ltac:(lia)) as [b3 H3].
      exists [b0; b1; b2; b3]. split; [done|]. intros i Hi.
      do 4 (destruct i as [|i]; [done|]). cbn in Hi. lia. }
    destruct (dumpaddr_gen m' (dump_fuel 4) 1 a 4 bs Hh Hl) as [-> _]; [vm_compute; lia | vm_compute; lia|].
    destruct bs as [|b bs]; [done|]. cbn [ref_dump mbind option_bind].
    eexists _, _. split; [reflexivity|]. split_and!; [exact Hx | done | done].
  - intros Hm. destruct n as [|n]; [lia|]. rewrite mem_store_unmapped by done. reflexivity.
Qed.

Definition poke_request : ioctl_request :=
  {| rq_arg := Some {| string := None; buf := None; strLen := 2; offset := 258; action := 0; result := 0 |};
     rq_addr := 4096; rq_info := None; rq_file := None; rq_task := 0 |}.

Definition demo_device :=
  {| d_b := idle_board; d_mem := λ _, Some 0; d_mpi := []; d_mon := demo_monitor; d_dump := [] |}.

Lemma set_memory_pokes_witness :
  ∃ d' p, device_ioctl (λ _ _ _, Fault) (λ _, 0) [] [] SET_MEMORY poke_request demo_device = Done ((0, Some p), d') ∧
    d_mem d' 4096 = Some 1 ∧ d_mem d' 4097 = Some 2 ∧ d_mem d' 4098 = Some 0.
Proof.
  destruct (set_memory_pokes (λ _ _ _, Fault) (λ _, 0) [] [] demo_device
    {| string := None; buf := None; strLen := 2; offset := 258; action := 0; result := 0 |} poke_request 2)
    as [H _]; [done | done | apply list_elem_of_further, list_elem_of_here |].
  destruct H as (d' & line & E & Hx & _); [done|].
  eexists d', _. split; [exact E|]. rewrite !Hx. done.
Defined.
