(* ===== verification/DhcpPacket.v ===== *)
(** * DHCP messages and their options ([options.c], [packet.c] of udhcp)

    A message is the list of its 1264 bytes as [struct dhcpMessage] lays them
    out; a pointer into it is an offset, so that what lies behind a field is what
    the code finds there.  The build defines [VDF_OPTION], [SUPPORT_VDF_DHCP] and,
    through them, [SUPPORT_OPTION61]; network byte order is the order of the
    processor. *)

From stdpp Require Import base numbers list strings.
From Stdlib Require Import ZArith Lia Bool.
From S2P Require Import Prelude.

(** ** Memory *)

(** [p\[i\]] and [p\[i\] = b] in a buffer. *)
Definition peek {S} (p : list Z) (i : Z) : M S Z :=
  of_option (if decide (0 ≤ i) then p !! Z.to_nat i else None).
Definition poke8 {S} (p : list Z) (i b : Z) : M S (list Z) := of_option (buf_write p i [b]).

(** [memcpy] from and to a buffer. *)
Definition get_bytes {S} (p : list Z) (i n : Z) : M S (list Z) := of_option (buf_read p i n).
Definition put_bytes {S} (p : list Z) (i : Z) (bs : list Z) : M S (list Z) := of_option (buf_write p i bs).

(** ** The message *)

Definition OFF_OP : Z := 0.
Definition OFF_HTYPE : Z := 1.
Definition OFF_HLEN : Z := 2.
Definition OFF_XID : Z := 4.
Definition OFF_FLAGS : Z := 10.
Definition OFF_CIADDR : Z := 12.
Definition OFF_YIADDR : Z := 16.
Definition OFF_SIADDR : Z := 20.
Definition OFF_GIADDR : Z := 24.
Definition OFF_CHADDR : Z := 28.
Definition OFF_SNAME : Z := 44.
Definition OFF_FILE : Z := 108.
Definition OFF_COOKIE : Z := 236.
Definition OFF_OPTIONS : Z := 240.
Definition OPTIONS_LEN : Z := 1024.
Definition sizeof_dhcpMessage : Z := 1264.

Definition load32 {S} (p : list Z) (i : Z) : M S Z := bs ← get_bytes p i 4; mret (be32 bs).
Definition be16_of (bs : list Z) : Z := foldl (λ acc b, acc * 256 + b) 0 (take 2 bs).
Definition load16 {S} (p : list Z) (i : Z) : M S Z := bs ← get_bytes p i 2; mret (be16_of bs).
Definition store32 {S} (p : list Z) (i v : Z) : M S (list Z) := put_bytes p i (be_bytes v).
Definition u16_bytes (v : Z) : list Z := [u8 (Z.shiftr v 8); u8 v].
Definition store16 {S} (p : list Z) (i v : Z) : M S (list Z) := put_bytes p i (u16_bytes v).

Definition DHCP_MAGIC : Z := 0x63825363.
Definition DHCP_PADDING : Z := 0x00.
Definition DHCP_ROUTER : Z := 0x03.
Definition DHCP_DNS_SERVER : Z := 0x06.
Definition DHCP_HOST_NAME : Z := 0x0c.
Definition DHCP_DOMAIN_NAME : Z := 0x0f.
Definition DHCP_NTP_SERVER : Z := 0x2a.
Definition DHCP_REQUESTED_IP : Z := 0x32.
Definition DHCP_LEASE_TIME : Z := 0x33.
Definition DHCP_OPTION_OVER : Z := 0x34.
Definition DHCP_MESSAGE_TYPE : Z := 0x35.
Definition DHCP_SERVER_ID : Z := 0x36.
Definition DHCP_PARAM_REQ : Z := 0x37.
Definition DHCP_MESSAGE : Z := 0x38.
Definition DHCP_T1 : Z := 0x3a.
Definition DHCP_T2 : Z := 0x3b.
Definition DHCP_VENDOR : Z := 0x3c.
Definition DHCP_CLIENT_ID : Z := 0x3d.
Definition DHCP_USER_CLASS : Z := 0x4d.
Definition DHCP_STATIC_ROUTE : Z := 0x79.
Definition DHCP_VENDOR_IDENTIFYING : Z := 0x7d.
Definition DHCP_END : Z := 0xff.
Definition DHCP_OUTBOUND_PROXY : Z := 0x78.
Definition DHCP_TFTP_SERVER_VDF : Z := 0x42.

Definition BOOTREQUEST : Z := 1.
Definition BOOTREPLY : Z := 2.
Definition ETH_10MB : Z := 1.
Definition ETH_10MB_LEN : Z := 6.
Definition BROADCAST_FLAG : Z := 0x8000.
Definition OPTION_FIELD : Z := 0.
Definition FILE_FIELD : Z := 1.
Definition SNAME_FIELD : Z := 2.
Definition OPT_CODE : Z := 0.
Definition OPT_LEN : Z := 1.
Definition OPT_VALUE : Z := 2.

(** ** The table of options *)

Definition TYPE_MASK : Z := 0x0f.
Definition OPTION_IP : Z := 1.
Definition OPTION_IP_PAIR : Z := 2.
Definition OPTION_STRING : Z := 3.
Definition OPTION_BOOLEAN : Z := 4.
Definition OPTION_U8 : Z := 5.
Definition OPTION_U16 : Z := 6.
Definition OPTION_S16 : Z := 7.
Definition OPTION_U32 : Z := 8.
Definition OPTION_S32 : Z := 9.
Definition OPTION_IP_STRING : Z := 10.
Definition OPTION_LIST : Z := 0x80.

Record dhcp_option : Type := { opt_name : string; opt_flags : Z; opt_code : Z }.

(** The entries in front of the terminating one, whose code is 0. *)
Definition options : list dhcp_option :=
  let ip_list := Z.lor OPTION_IP OPTION_LIST in
  [ {| opt_name := "subnet"; opt_flags := OPTION_IP; opt_code := 0x01 |};
    {| opt_name := "timezone"; opt_flags := OPTION_S32; opt_code := 0x02 |};
    {| opt_name := "option121"; opt_flags := OPTION_STRING; opt_code := 0x79 |};
    {| opt_name := "router"; opt_flags := ip_list; opt_code := 0x03 |};
    {| opt_name := "timesvr"; opt_flags := ip_list; opt_code := 0x04 |};
    {| opt_name := "namesvr"; opt_flags := ip_list; opt_code := 0x05 |};
    {| opt_name := "dns"; opt_flags := ip_list; opt_code := 0x06 |};
    {| opt_name := "logsvr"; opt_flags := OPTION_IP_STRING; opt_code := 0x07 |};
    {| opt_name := "cookiesvr"; opt_flags := ip_list; opt_code := 0x08 |};
    {| opt_name := "lprsvr"; opt_flags := ip_list; opt_code := 0x09 |};
    {| opt_name := "hostname"; opt_flags := OPTION_STRING; opt_code := 0x0c |};
    {| opt_name := "bootsize"; opt_flags := OPTION_U16; opt_code := 0x0d |};
    {| opt_name := "domain"; opt_flags := OPTION_STRING; opt_code := 0x0f |};
    {| opt_name := "swapsvr"; opt_flags := OPTION_IP; opt_code := 0x10 |};
    {| opt_name := "rootpath"; opt_flags := OPTION_STRING; opt_code := 0x11 |};
    {| opt_name := "ipttl"; opt_flags := OPTION_U8; opt_code := 0x17 |};
    {| opt_name := "mtu"; opt_flags := OPTION_U16; opt_code := 0x1a |};
    {| opt_name := "broadcast"; opt_flags := OPTION_IP; opt_code := 0x1c |};
    {| opt_name := "ntpsvr"; opt_flags := ip_list; opt_code := 0x2a |};
    {| opt_name := "option43"; opt_flags := OPTION_STRING; opt_code := 0x2b |};
    {| opt_name := "tr069acs"; opt_flags := OPTION_STRING; opt_code := 0x2b |};
    {| opt_name := "wins"; opt_flags := ip_list; opt_code := 0x2c |};
    {| opt_name := "requestip"; opt_flags := OPTION_IP; opt_code := 0x32 |};
    {| opt_name := "lease"; opt_flags := OPTION_U32; opt_code := 0x33 |};
    {| opt_name := "dhcptype"; opt_flags := OPTION_U8; opt_code := 0x35 |};
    {| opt_name := "serverid"; opt_flags := OPTION_IP; opt_code := 0x36 |};
    {| opt_name := "renewal"; opt_flags := OPTION_U32; opt_code := 0x3a |};
    {| opt_name := "rebinding"; opt_flags := OPTION_U32; opt_code := 0x3b |};
    {| opt_name := "clientid"; opt_flags := OPTION_STRING; opt_code := 0x3d |};
    {| opt_name := "tftp"; opt_flags := OPTION_IP_STRING; opt_code := 0x42 |};
    {| opt_name := "bootfile"; opt_flags := OPTION_STRING; opt_code := 0x43 |} ].

(** Indexed by the type of an option. *)
Definition option_lengths : list Z := [0; 4; 8; 0; 1; 1; 2; 2; 4; 4; 128].

(** ** Reading and adding options *)

(** The loop of [get_option]: [optionptr] is where the field that is searched
    starts, [length] its length.  [over] is read from [i + 3] and the step behind
    an overload option is taken from the start of the field, as in the code. *)
Fixpoint get_option_loop {S} (n : nat) (packet : list Z) (code optionptr i length over curr : Z)
    : M S (option Z) :=
  match n with
  | O => nofuel
  | Datatypes.S n' =>
      if length <=? i then mret None else
      c ← peek packet (optionptr + i + OPT_CODE);
      if c =? code then
        l ← peek packet (optionptr + i + OPT_LEN);
        if length <=? i + 1 + l then mret None else mret (Some (optionptr + i + 2))
      else if c =? DHCP_PADDING then get_option_loop n' packet code optionptr (i + 1) length over curr
      else if c =? DHCP_OPTION_OVER then
        l ← peek packet (optionptr + i + OPT_LEN);
        if length <=? i + 1 + l then mret None else
        over' ← peek packet (optionptr + i + 3);
        l0 ← peek packet (optionptr + OPT_LEN);
        get_option_loop n' packet code optionptr (i + (l0 + 2)) length over' curr
      else if c =? DHCP_END then
        if (curr =? OPTION_FIELD) && negb (Z.land over FILE_FIELD =? 0) then
          get_option_loop n' packet code OFF_FILE 0 128 over FILE_FIELD
        else if (curr =? FILE_FIELD) && negb (Z.land over SNAME_FIELD =? 0) then
          get_option_loop n' packet code OFF_SNAME 0 64 over SNAME_FIELD
        else mret None
      else
        l ← peek packet (optionptr + OPT_LEN + i);
        get_option_loop n' packet code optionptr (i + (l + 2)) length over curr
  end.

(** A pointer to the data of the option, or [None] for NULL.  Every round
    advances by at least one byte in one of three fields. *)
Definition get_option {S} (packet : list Z) (code : Z) : M S (option Z) :=
  get_option_loop 512 packet code OFF_OPTIONS 0 308 0 OPTION_FIELD.

Fixpoint end_option_loop {S} (n : nat) (packet : list Z) (optionptr i : Z) : M S Z :=
  match n with
  | O => nofuel
  | Datatypes.S n' =>
      c ← peek packet (optionptr + i);
      if c =? DHCP_END then mret i
      else if c =? DHCP_PADDING then end_option_loop n' packet optionptr (i + 1)
      else l ← peek packet (optionptr + i + OPT_LEN);
           end_option_loop n' packet optionptr (i + (l + 2))
  end.

(** Every round advances, and a read behind the message is a fault. *)
Definition end_option {S} (packet : list Z) (optionptr : Z) : M S Z :=
  end_option_loop (Datatypes.S (length packet)) packet optionptr 0.

(** [str] is the buffer [string] points to.  Returns the number of bytes added
    and the new message. *)
Definition add_option_string {S} (packet : list Z) (optionptr : Z) (str : list Z) : M S (Z * list Z) :=
  fin ← end_option packet optionptr;
  l ← peek str OPT_LEN;
  if 1024 <=? fin + l + 2 + 1 then mret (0, packet) else
  bs ← get_bytes str 0 (l + 2);
  packet1 ← put_bytes packet (optionptr + fin) bs;
  packet2 ← poke8 packet1 (optionptr + (fin + l + 2)) DHCP_END;
  mret (l + 2, packet2).

(** The length of the option in the table, as a [char]. *)
Definition simple_length (code : Z) : Z :=
  match list_find (λ o, opt_code o = code) options with
  | Some (_, o) => s8 (nth (Z.to_nat (Z.land (opt_flags o) TYPE_MASK)) option_lengths 0)
  | None => 0
  end.

(** [buffer] has four bytes; copying a length it does not hold is a fault. *)
Definition simple_bytes {S} (len data : Z) : M S (list Z) :=
  if len =? 1 then mret [u8 data]
  else if len =? 2 then mret (u16_bytes data)
  else if len =? 4 then mret (be_bytes data)
  else fault.

Definition add_simple_option {S} (packet : list Z) (optionptr code data : Z) : M S (Z * list Z) :=
  let len := simple_length code in
  if len =? 0 then mret (0, packet) else
  fin ← end_option packet optionptr;
  p1 ← poke8 packet (optionptr + (fin + OPT_CODE)) code;
  p2 ← poke8 p1 (optionptr + (fin + OPT_LEN)) (u8 len);
  bs ← simple_bytes len data;
  p3 ← put_bytes p2 (optionptr + (fin + 2)) bs;
  p4 ← poke8 p3 (optionptr + (fin + len + 2)) DHCP_END;
  mret (len, p4).

(** The loops are unfolded last when programs are compared. *)
Strategy 100 [get_option get_option_loop end_option end_option_loop add_option_string add_simple_option].

(** ** Option lists

    The linked list of the configured options, as the list of their [data]. *)

Definition set_code (data : list Z) : Z := nth 0 data 0.
Definition set_len (data : list Z) : Z := nth 1 data 0.

Fixpoint find_option (opt_list : list (list Z)) (code : Z) : option (list Z) :=
  match opt_list with
  | [] => None
  | data :: rest => if set_code data =? u8 code then Some data else find_option rest code
  end.

(** [existing->data] with [buffer] appended. *)
Fixpoint append_to (opt_list : list (list Z)) (code : Z) (buffer : list Z) : list (list Z) :=
  match opt_list with
  | [] => []
  | data :: rest =>
      if set_code data =? u8 code then
        (set_code data :: u8 (set_len data + Z.of_nat (List.length buffer)) ::
           take (Z.to_nat (set_len data)) (drop 2 data) ++ buffer) :: rest
      else data :: append_to rest code buffer
  end.

(** The place of a new option: behind those with a smaller code. *)
Fixpoint insert_option (opt_list : list (list Z)) (code : Z) (new : list Z) : list (list Z) :=
  match opt_list with
  | data :: rest => if set_code data <? code then data :: insert_option rest code new else new :: opt_list
  | [] => [new]
  end.

(** [buffer] are the [length] bytes that are copied. *)
Definition attach_option (opt_list : list (list Z)) (option : dhcp_option) (buffer : list Z) : list (list Z) :=
  let code := opt_code option in
  match find_option opt_list code with
  | Some existing =>
      if negb (Z.land (opt_flags option) OPTION_LIST =? 0) || ((240 <=? u8 code) && (u8 code <=? 245)) then
        if set_len existing + Z.of_nat (List.length buffer) <=? 255 then append_to opt_list code buffer
        else opt_list
      else opt_list
  | None => insert_option opt_list code (u8 code :: u8 (Z.of_nat (List.length buffer)) :: buffer)
  end.

(** ** Packets *)

(** [strncmp] of the vendor string and a string of the same length. *)
Definition broken_vendors : list (list Z) := [cstr "MSFT 98"].

Definition vendor_is_broken {S} (packet : list Z) (vendor : Z) (name : list Z) : M S bool :=
  l ← peek packet (vendor + (OPT_LEN - 2));
  if s8 l =? Z.of_nat (List.length name) then
    bs ← get_bytes packet vendor (s8 l);
    mret (bool_decide (c_string bs = name))
  else mret false.

Fixpoint force_broadcast_flag {S} (packet : list Z) (vendor : Z) (names : list (list Z)) : M S (list Z) :=
  match names with
  | [] => mret packet
  | name :: rest =>
      b ← vendor_is_broken packet vendor name;
      fl ← load16 packet OFF_FLAGS;
      packet' ← (if b && (Z.land fl BROADCAST_FLAG =? 0)
                 then store16 packet OFF_FLAGS (Z.lor fl BROADCAST_FLAG) else mret packet);
      force_broadcast_flag packet' vendor rest
  end.

(** [get_packet] when [read] returns the bytes [bytes], or [None] for an error.
    The result is [None] for -1. *)
Definition get_packet {S} (bytes : option (list Z)) : M S (option (list Z)) :=
  match bytes with
  | None => mret None
  | Some bs =>
      let got := take (Z.to_nat sizeof_dhcpMessage) bs in
      packet ← put_bytes (replicate (Z.to_nat sizeof_dhcpMessage) 0) 0 got;
      cookie ← load32 packet OFF_COOKIE;
      if negb (cookie =? DHCP_MAGIC) then mret None else
      op ← peek packet OFF_OP;
      if op =? BOOTREQUEST then
        vendor ← get_option packet DHCP_VENDOR;
        match vendor with
        | Some v => p ← force_broadcast_flag packet v broken_vendors; mret (Some p)
        | None => mret (Some packet)
        end
      else mret (Some packet)
  end.

(** The length of the payload, made even, and the message with the byte that
    pads it. *)
Definition calc_length {S} (payload : list Z) : M S (Z * list Z) :=
  fin ← end_option payload OFF_OPTIONS;
  let payload_length := sizeof_dhcpMessage - OPTIONS_LEN + (fin + 1) in
  if Z.odd payload_length then
    p ← poke8 payload (payload_length + 1 - 1) 0;
    mret (payload_length + 1, p)
  else mret (payload_length, payload).

(** The 16-bit words of a buffer; an odd last byte is added as it is. *)
Fixpoint checksum_sum (bs : list Z) (sum : Z) : Z :=
  match bs with
  | a :: b :: rest => checksum_sum rest (sum + (a * 256 + b))
  | [a] => sum + a
  | [] => sum
  end.

Fixpoint checksum_fold (n : nat) (sum : Z) : Z :=
  match n with
  | O => sum
  | S n' => if Z.shiftr sum 16 =? 0 then sum
            else checksum_fold n' (Z.land sum 0xffff + Z.shiftr sum 16)
  end.

(** Three rounds fold the sum of a packet into 16 bits. *)
Definition checksum (bs : list Z) : Z := u16 (Z.lnot (checksum_fold 4 (checksum_sum bs 0))).

(** The IP header as [raw_packet] fills it: [ver] the first byte, [tot_len],
    [ttl] and [check]. *)
Definition ip_header (ver tot_len ttl check saddr daddr : Z) : list Z :=
  [ver; 0] ++ u16_bytes tot_len ++ [0; 0; 0; 0] ++ [ttl; 17] ++ u16_bytes check ++
  be_bytes saddr ++ be_bytes daddr.

Definition udp_header (source dest len check : Z) : list Z :=
  u16_bytes source ++ u16_bytes dest ++ u16_bytes len ++ u16_bytes check.

(** What [raw_packet] hands to [sendto]: first the checksum of UDP over a header
    that stands for the pseudo-header, then the IP header. *)
Definition raw_packet_bytes (data : list Z) (source_ip source_port dest_ip dest_port : Z) : list Z :=
  let ulen := 8 + Z.of_nat (List.length data) in
  let ucheck := checksum (ip_header 0 ulen 0 0 source_ip dest_ip ++
                          udp_header source_port dest_port ulen 0 ++ data) in
  let icheck := checksum (ip_header 0x45 (20 + ulen) 64 0 source_ip dest_ip) in
  ip_header 0x45 (20 + ulen) 64 icheck source_ip dest_ip ++
  udp_header source_port dest_port ulen ucheck ++ data.
