(* ===== verification/DhcpOptions.v ===== *)
(** * DHCP options and checksums: proofs

    The options of a message as a list of items, what [get_option], [end_option]
    and the two functions that add an option do to it, and what holds of
    [get_option] on any bytes whatever.  [checksum] of [packet.c] is the one's
    complement sum of the 16-bit words, so a receiver that adds a packet with its
    checksum gets all ones. *)

From stdpp Require Import base numbers list.
From Stdlib Require Import ZArith Lia Bool.
From S2P Require Import Prelude DhcpPacket.

(** ** Option areas *)

Inductive item : Type := Pad | Opt (code : Z) (data : list Z).

Definition encode_item (it : item) : list Z :=
  match it with
  | Pad => [DHCP_PADDING]
  | Opt code data => code :: Z.of_nat (length data) :: data
  end.

Definition encode (its : list item) : list Z := concat (map encode_item its).

Definition item_ok (it : item) : Prop :=
  match it with
  | Pad => True
  | Opt code data => 0 < code < 255 ∧ code ≠ DHCP_OPTION_OVER ∧ Z.of_nat (length data) ≤ 255
  end.

(** The message [p] carries the options [its]. *)
Definition has_options (p : list Z) (its : list item) : Prop :=
  Z.of_nat (length p) = sizeof_dhcpMessage ∧ Forall item_ok its ∧
  ∃ rest, drop (Z.to_nat OFF_OPTIONS) p = encode its ++ DHCP_END :: rest.

(** Where the data of the first option [code] is, and its length; [q] is where
    the first item of [its] starts. *)
Fixpoint find_item (its : list item) (code q : Z) : option (Z * list Z) :=
  match its with
  | [] => None
  | Pad :: rest => find_item rest code (q + 1)
  | Opt c data :: rest =>
      if c =? code then Some (q + 2, data) else find_item rest code (q + 2 + Z.of_nat (length data))
  end.

Lemma encode_cons it its : encode (it :: its) = encode_item it ++ encode its.
Proof. done. Qed.

Lemma encode_app a b : encode (a ++ b) = encode a ++ encode b.
Proof. unfold encode. by rewrite map_app, concat_app. Qed.

Lemma length_encode_item it :
  Z.of_nat (length (encode_item it)) =
    match it with Pad => 1 | Opt _ data => 2 + Z.of_nat (length data) end.
Proof. destruct it; simpl; lia. Qed.

(** Reading a byte of the option area. *)
Lemma peek_at {S} (p a b : list Z) x i (s : S) :
  drop (Z.to_nat OFF_OPTIONS) p = a ++ x :: b → i = Z.of_nat (length a) →
  peek p (OFF_OPTIONS + i) s = Done (x, s).
Proof.
  intros H ->. unfold peek. rewrite decide_True by (unfold OFF_OPTIONS; lia).
  replace (p !! Z.to_nat (OFF_OPTIONS + Z.of_nat (length a)))
    with (drop (Z.to_nat OFF_OPTIONS) p !! length a)
    by (rewrite lookup_drop; f_equal; unfold OFF_OPTIONS; lia).
  by rewrite H, list_lookup_middle.
Qed.

(** Options behind others. *)
Lemma find_item_app its its' code o : find_item (its ++ its') code o =
  match find_item its code o with Some r => Some r | None => find_item its' code (o + Z.of_nat (length (encode its))) end.
Proof.
  revert o. induction its as [|it its IH]; intros o; [by rewrite Z.add_0_r|]. rewrite <- app_comm_cons, encode_cons, length_app.
  destruct it as [|c d]; cbn [find_item].
  - rewrite IH. cbn [encode_item length]. by replace (o + 1 + Z.of_nat (length (encode its))) with (o + Z.of_nat (1 + length (encode its))) by lia.
  - destruct (c =? code); [done|]. rewrite IH. cbn [encode_item length].
    by replace (o + 2 + Z.of_nat (length d) + Z.of_nat (length (encode its))) with (o + Z.of_nat (S (S (length d)) + length (encode its))) by lia.
Qed.

(** ** [get_option] finds the first option of its code *)

Section find.
Context {St : Type} (p : list Z) (code : Z) (Hcode : 0 < code < 255).

(** What the search returns: the first option of that code, if it ends in the
    first 308 bytes. *)
Definition opt_found (r : option (Z * list Z)) : option Z :=
  match r with
  | Some (q, data) => if q + Z.of_nat (length data) <=? OFF_OPTIONS + 308 then Some q else None
  | None => None
  end.

Lemma find_item_ge its q r data : find_item its code q = Some (r, data) → q + 2 ≤ r.
Proof.
  revert q. induction its as [|[|c d] its IH]; intros q; simpl; [done| |].
  - intros H%IH. lia.
  - destruct (c =? code); [intros [= <- <-]; lia|]. intros H%IH. lia.
Qed.

Lemma opt_found_late its q : OFF_OPTIONS + 308 ≤ q → opt_found (find_item its code q) = None.
Proof.
  intros Hq. destruct (find_item its code q) as [[r d]|] eqn:E; [|done].
  apply find_item_ge in E. simpl. destruct (Z.leb_spec (r + Z.of_nat (length d)) (OFF_OPTIONS + 308)); [lia|done].
Qed.

Lemma get_option_loop_spec its n pre rest i over (s : St) :
  drop (Z.to_nat OFF_OPTIONS) p = pre ++ encode its ++ DHCP_END :: rest →
  i = Z.of_nat (length pre) → Forall item_ok its → 0 < Z.of_nat n → 308 - i < Z.of_nat n →
  over = 0 →
  get_option_loop n p code OFF_OPTIONS i 308 over OPTION_FIELD s
    = Done (opt_found (find_item its code (OFF_OPTIONS + i)), s).
Proof.
  revert n pre i. induction its as [|it its IH]; intros n pre i Hp Hi Hok Hn Hf ->.
  all: destruct n as [|n]; [lia|]; cbn [get_option_loop].
  all: destruct (Z.leb_spec 308 i) as [Hl|Hl]; [by rewrite opt_found_late by lia|].
  - erewrite bind_Done; [|rewrite Z.add_0_r; eapply (peek_at p pre); [exact Hp|exact Hi]].
    change (DHCP_END =? DHCP_PADDING) with false. change (DHCP_END =? DHCP_OPTION_OVER) with false.
    change (DHCP_END =? DHCP_END) with true. destruct (Z.eqb_spec DHCP_END code); [unfold DHCP_END in *; lia|].
    done.
  - apply Forall_cons in Hok as [Hit Hok]. rewrite encode_cons, <- app_assoc in Hp.
    destruct it as [|c d]; simpl in Hp.
    + erewrite bind_Done; [|rewrite Z.add_0_r; eapply (peek_at p pre); [exact Hp|exact Hi]].
      change (DHCP_PADDING =? DHCP_PADDING) with true.
      destruct (Z.eqb_spec DHCP_PADDING code); [unfold DHCP_PADDING in *; lia|].
      rewrite (IH _ (pre ++ [DHCP_PADDING])); [by rewrite Z.add_assoc|by rewrite <- app_assoc| |done|lia|lia|done].
      rewrite length_app. simpl. lia.
    + destruct Hit as (Hc&Ho&Hd).
      assert (drop (Z.to_nat OFF_OPTIONS) p = (pre ++ [c]) ++ Z.of_nat (length d) :: d ++ encode its ++ DHCP_END :: rest) as Hp'
        by (by rewrite Hp, <- app_assoc).
      assert (i + 1 = Z.of_nat (length (pre ++ [c]))) as Hi' by (rewrite length_app; simpl; lia).
      erewrite bind_Done; [|rewrite Z.add_0_r; eapply (peek_at p pre); [exact Hp|exact Hi]].
      cbn [find_item]. destruct (Z.eqb_spec c code) as [->|Hne].
      * erewrite bind_Done; [|unfold OPT_LEN; rewrite <- Z.add_assoc; eapply peek_at; [exact Hp'|exact Hi']].
        simpl. destruct (Z.leb_spec 308 (i + 1 + Z.of_nat (length d))),
          (Z.leb_spec (OFF_OPTIONS + i + 2 + Z.of_nat (length d)) (OFF_OPTIONS + 308)); [lia|done|done|lia].
      * destruct (Z.eqb_spec c DHCP_PADDING); [unfold DHCP_PADDING in *; lia|].
        destruct (Z.eqb_spec c DHCP_OPTION_OVER); [done|].
        destruct (Z.eqb_spec c DHCP_END); [unfold DHCP_END in *; lia|].
        erewrite bind_Done; [|unfold OPT_LEN; rewrite <- Z.add_assoc, (Z.add_comm 1 i); eapply peek_at; [exact Hp'|exact Hi']].
        rewrite (IH _ (pre ++ encode_item (Opt c d))); 
          [|by rewrite <- app_assoc| |done|lia|lia|done].
        { by replace (OFF_OPTIONS + i + 2 + Z.of_nat (length d)) with (OFF_OPTIONS + (i + (Z.of_nat (length d) + 2))) by lia. }
        rewrite length_app. simpl. lia.
Qed.

Lemma get_option_spec its (s : St) :
  has_options p its → get_option p code s = Done (opt_found (find_item its code OFF_OPTIONS), s).
Proof.
  intros (_&Hok&rest&Hp). unfold get_option.
  rewrite (get_option_loop_spec its 512 [] rest); [by rewrite Z.add_0_r|done..|lia|lia|done].
Qed.
End find.

(** ** [get_option] on any bytes *)

Lemma peek_byte {S} (p : list Z) i (s : S) : Forall is_byte p → 0 ≤ i < Z.of_nat (length p) →
  ∃ x, peek p i s = Done (x, s) ∧ p !! Z.to_nat i = Some x ∧ is_byte x.
Proof.
  intros Hp Hi. destruct (lookup_lt_is_Some_2 p (Z.to_nat i) ltac:(lia)) as [x Hx].
  exists x. unfold peek. rewrite decide_True, Hx by lia. repeat split; try done; by eapply Forall_lookup_1 in Hp as [??].
Qed.

(** A field of the message that [get_option] searches: start, length, name. *)
Definition option_field (o len curr : Z) : Prop :=
  (o, len, curr) ∈ [(OFF_OPTIONS, 308, OPTION_FIELD); (OFF_FILE, 128, FILE_FIELD); (OFF_SNAME, 64, SNAME_FIELD)].

(** An option of the message: its code, its length, and it lies in a field. *)
Definition option_at (p : list Z) (code q : Z) : Prop :=
  ∃ o len curr l, option_field o len curr ∧ o + 2 ≤ q ∧ q + l ≤ o + len ∧ is_byte l ∧
    p !! Z.to_nat (q - 2) = Some code ∧ p !! Z.to_nat (q - 1) = Some l.

(** The rounds that are left: in this field and in those that may follow. *)
Definition opt_rounds (len i curr : Z) : Z :=
  Z.max 0 (len - i) + 1 + (if curr =? OPTION_FIELD then 194 else if curr =? FILE_FIELD then 65 else 0).

Section safe.
Context {St : Type} (p : list Z) (code : Z).
Context (Hlen : Z.of_nat (length p) = sizeof_dhcpMessage) (Hp : Forall is_byte p).

Lemma field_bounds o len curr : option_field o len curr → 44 ≤ o ∧ 64 ≤ len ∧ o + len + 256 ≤ sizeof_dhcpMessage.
Proof.
  unfold option_field. rewrite !elem_of_cons, elem_of_nil.
  intros [[= -> -> ->]|[[= -> -> ->]|[[= -> -> ->]|[]]]]; by vm_compute.
Qed.

Lemma get_option_loop_safe n o len i over curr (s : St) :
  option_field o len curr → 0 ≤ i → opt_rounds len i curr ≤ Z.of_nat n →
  ∃ r, get_option_loop n p code o i len over curr s = Done (r, s) ∧
       ∀ q, r = Some q → option_at p code q.
Proof.
  revert o len i over curr. induction n as [|n IH]; intros o len i over curr Hf Hi Hn.
  { unfold opt_rounds in Hn. repeat case_match; lia. }
  pose proof (field_bounds _ _ _ Hf) as (Ho&Hl&Hs). cbn [get_option_loop].
  destruct (Z.leb_spec len i); [by exists None|].
  assert (∀ k, 0 ≤ k < 256 → ∃ x, peek p (o + i + k) s = Done (x, s) ∧ p !! Z.to_nat (o + i + k) = Some x ∧ is_byte x) as P
    by (intros; apply peek_byte; [done|lia]).
  assert (∀ j, 0 < j → opt_rounds len (i + j) curr ≤ Z.of_nat n) as R
    by (intros; unfold opt_rounds in *; lia).
  destruct (P 0 ltac:(lia)) as (c&Ec&Lc&Hc). mstep Ec.
  destruct (P 1 ltac:(lia)) as (l&El&Ll&Hb). unfold is_byte in Hb.
  destruct (Z.eqb_spec c code) as [->|_].
  { unfold OPT_LEN. mstep El. destruct (Z.leb_spec len (i + 1 + l)); [by exists None|].
    eexists; split; [done|]. intros q [= <-]. exists o, len, curr, l.
    repeat split; try done; try lia.
    - rewrite <- Lc. f_equal. lia.
    - rewrite <- Ll. f_equal. lia. }
  destruct (c =? DHCP_PADDING); [apply IH; [done|lia|apply R; lia]|].
  destruct (c =? DHCP_OPTION_OVER).
  { unfold OPT_LEN. mstep El. destruct (Z.leb_spec len (i + 1 + l)); [by exists None|].
    destruct (P 3 ltac:(lia)) as (v&Ev&_&_). mstep Ev.
    destruct (peek_byte p (o + 1) s Hp ltac:(lia)) as (l0&E0&_&Hb0). mstep E0.
    unfold is_byte in Hb0. apply IH; [done|lia|apply R; lia]. }
  destruct (c =? DHCP_END).
  { destruct ((curr =? OPTION_FIELD) && _) eqn:E1.
    { apply andb_true_iff in E1 as [E1 _]. apply IH; [by right; left|lia|].
      unfold opt_rounds in *. rewrite E1 in Hn. change (128 - 0) with 128.
      change (FILE_FIELD =? OPTION_FIELD) with false. change (FILE_FIELD =? FILE_FIELD) with true. lia. }
    destruct ((curr =? FILE_FIELD) && _) eqn:E2; [|by exists None].
    apply andb_true_iff in E2 as [E2 _]. apply IH; [by right; right; left|lia|].
    unfold opt_rounds in *. apply Z.eqb_eq in E2 as ->.
    change (FILE_FIELD =? OPTION_FIELD) with false in Hn. change (FILE_FIELD =? FILE_FIELD) with true in Hn.
    change (SNAME_FIELD =? OPTION_FIELD) with false. change (SNAME_FIELD =? FILE_FIELD) with false. lia. }
  unfold OPT_LEN. replace (o + 1 + i) with (o + i + 1) by lia. mstep El. apply IH; [done|lia|apply R; lia].
Qed.

(** [get_option] ends on every message, reads nothing outside it, and a pointer
    it returns points to an option of that code that lies in one field. *)
Lemma get_option_any (s : St) :
  ∃ r, get_option p code s = Done (r, s) ∧ ∀ q, r = Some q → option_at p code q.
Proof. apply get_option_loop_safe; [by left|lia|by vm_compute]. Qed.
End safe.

Lemma option_at_range p code q : option_at p code q →
  ∃ l, is_byte l ∧ p !! Z.to_nat (q - 1) = Some l ∧ 46 ≤ q ∧ q + l + 256 ≤ sizeof_dhcpMessage.
Proof.
  intros (o&len&curr&l&Hf&Ho&Hq&Hb&_&Hl). exists l.
  pose proof (field_bounds _ _ _ Hf). unfold is_byte in *. repeat split; try done; lia.
Qed.

(** ** Adding options *)

Section add.
Context {St : Type}.
Implicit Types (p : list Z) (s : St).

Lemma end_option_loop_spec p its n pre rest i s :
  drop (Z.to_nat OFF_OPTIONS) p = pre ++ encode its ++ DHCP_END :: rest →
  i = Z.of_nat (length pre) → Forall item_ok its → (length (encode its) < n)%nat →
  end_option_loop n p OFF_OPTIONS i s = Done (i + Z.of_nat (length (encode its)), s).
Proof.
  revert n pre i. induction its as [|it its IH]; intros n pre i Hp Hi Hok Hn; (destruct n as [|n]; [lia|]);
    cbn [end_option_loop].
  - mstep (peek_at p pre _ _ _ s Hp Hi). simpl. by rewrite Z.add_0_r.
  - apply Forall_cons in Hok as [Hit Hok]. rewrite encode_cons, length_app in Hn |- *.
    rewrite encode_cons, <- app_assoc in Hp. destruct it as [|c d]; simpl in Hp, Hn.
    + mstep (peek_at p pre _ _ _ s Hp Hi). change (DHCP_PADDING =? DHCP_END) with false.
      change (DHCP_PADDING =? DHCP_PADDING) with true. cbv iota.
      rewrite (IH _ (pre ++ [DHCP_PADDING])); [|by rewrite <- app_assoc| |done|lia].
      { do 2 f_equal. simpl. lia. } rewrite length_app. simpl. lia.
    + destruct Hit as (Hc&_&_). mstep (peek_at p pre _ _ _ s Hp Hi).
      destruct (Z.eqb_spec c DHCP_END); [unfold DHCP_END in *; lia|].
      destruct (Z.eqb_spec c DHCP_PADDING); [unfold DHCP_PADDING in *; lia|].
      unfold OPT_LEN. rewrite <- Z.add_assoc.
      mstep (peek_at p (pre ++ [c]) (d ++ encode its ++ DHCP_END :: rest) (Z.of_nat (length d)) (i + 1) s
               ltac:(by rewrite Hp, <- app_assoc) ltac:(rewrite length_app; simpl; lia)).
      rewrite (IH _ (pre ++ encode_item (Opt c d))); [|by rewrite <- app_assoc| |done|lia].
      { do 2 f_equal. simpl. lia. } rewrite length_app. simpl. lia.
Qed.

Lemma end_option_spec p its s : has_options p its →
  end_option p OFF_OPTIONS s = Done (Z.of_nat (length (encode its)), s).
Proof.
  intros (Hl&Hok&rest&Hp). unfold end_option. rewrite (end_option_loop_spec p its _ [] rest); [done|done|done|done|].
  apply (f_equal length) in Hp. rewrite length_drop, length_app in Hp. simpl in Hp. lia.
Qed.

(** The message around its options. *)
Lemma has_options_split p its : has_options p its →
  ∃ hd rest, p = hd ++ encode its ++ DHCP_END :: rest ∧ hd = take (Z.to_nat OFF_OPTIONS) p ∧
    Z.of_nat (length hd) = OFF_OPTIONS ∧
    Z.of_nat (length (encode its)) + 1 + Z.of_nat (length rest) = OPTIONS_LEN.
Proof.
  intros (Hl&_&rest&Hp). exists (take (Z.to_nat OFF_OPTIONS) p), rest.
  assert (Z.of_nat (length (take (Z.to_nat OFF_OPTIONS) p)) = OFF_OPTIONS) as E.
  { rewrite length_take. unfold sizeof_dhcpMessage, OFF_OPTIONS in *. lia. }
  repeat split; [by rewrite <- Hp, take_drop|done|].
  apply (f_equal length) in Hp. rewrite length_drop, length_app in Hp. simpl in Hp.
  unfold sizeof_dhcpMessage, OFF_OPTIONS, OPTIONS_LEN in *. lia.
Qed.

(** Two messages with the same bytes in front of the options. *)
Definition same_header (p p' : list Z) : Prop := take (Z.to_nat OFF_OPTIONS) p' = take (Z.to_nat OFF_OPTIONS) p.

Lemma has_options_put hd its rest it :
  Z.of_nat (length hd) = OFF_OPTIONS → Forall item_ok its → item_ok it →
  Z.of_nat (length (encode its)) + Z.of_nat (length (encode_item it)) + 1 + Z.of_nat (length rest) = OPTIONS_LEN →
  has_options (hd ++ encode its ++ encode_item it ++ DHCP_END :: rest) (its ++ [it]).
Proof.
  intros Hh Hok Hit Hl. split; [|split].
  - rewrite !length_app. cbn [length]. unfold sizeof_dhcpMessage, OFF_OPTIONS, OPTIONS_LEN in *. lia.
  - apply Forall_app. by split; [|apply Forall_singleton].
  - exists rest. rewrite drop_app_length' by lia. rewrite encode_app. unfold encode at 3. simpl.
    by rewrite app_nil_r, <- !app_assoc.
Qed.

(** Writing an item over the end mark, and a new end mark behind it. *)
Lemma append_item p its it : has_options p its → item_ok it →
  Z.of_nat (length (encode its)) + Z.of_nat (length (encode_item it)) < OPTIONS_LEN →
  ∃ p1 p', buf_write p (OFF_OPTIONS + Z.of_nat (length (encode its))) (encode_item it) = Some p1 ∧
    buf_write p1 (OFF_OPTIONS + (Z.of_nat (length (encode its)) + Z.of_nat (length (encode_item it)))) [DHCP_END] = Some p' ∧
    has_options p' (its ++ [it]) ∧ same_header p p'.
Proof.
  intros H Hit Hfit. destruct (has_options_split p its H) as (hd&rest&Hsp&Hh&Hhl&Hrl).
  pose proof H as (_&Hok&_). set (e := encode_item it) in *.
  assert (0 < Z.of_nat (length e)) as He by (unfold e; rewrite length_encode_item; destruct it; lia).
  unfold OPTIONS_LEN in *.
  set (r1 := take (length e - 1) rest). set (x := nth (length e - 1) rest 0). set (r2 := drop (length e) rest).
  assert (rest = r1 ++ x :: r2) as Hr.
  { unfold r1, x, r2. replace (length e) with (Datatypes.S (length e - 1)) at 3 by lia.
    rewrite <- (take_drop_middle rest (length e - 1) x) at 1; [done|].
    destruct (lookup_lt_is_Some_2 rest (length e - 1) ltac:(lia)) as [y Hy].
    rewrite Hy. f_equal. unfold x. symmetry. by apply nth_lookup_Some. }
  assert (length r1 = length e - 1)%nat as Hr1 by (unfold r1; rewrite length_take; lia).
  exists (hd ++ encode its ++ e ++ x :: r2), (hd ++ encode its ++ e ++ DHCP_END :: r2). split; [|split; [|split]].
  - rewrite Hsp, Hr.
    replace (hd ++ encode its ++ DHCP_END :: r1 ++ x :: r2) with ((hd ++ encode its) ++ (DHCP_END :: r1) ++ x :: r2)
      by (by rewrite <- app_assoc).
    rewrite (buf_write_mid _ _ e); [by rewrite <- app_assoc|rewrite length_app; lia|simpl; lia].
  - replace (hd ++ encode its ++ e ++ x :: r2) with ((hd ++ encode its ++ e) ++ [x] ++ r2)
      by (by rewrite <- !app_assoc).
    rewrite (buf_write_mid _ _ [DHCP_END]); [by rewrite <- !app_assoc|rewrite !length_app; lia|done].
  - apply has_options_put; try done. fold e. rewrite Hr, length_app in Hrl. simpl in Hrl. unfold OPTIONS_LEN. lia.
  - unfold same_header. rewrite <- Hh. by rewrite take_app_length' by lia.
Qed.

(** [add_option_string] appends the option, or leaves the message when it does
    not fit in front of the last byte; [junk] is what follows in the buffer. *)
Lemma add_option_string_spec p its code data junk s : has_options p its → item_ok (Opt code data) →
  let str := encode_item (Opt code data) ++ junk in
  let n := Z.of_nat (length data) in
  (Z.of_nat (length (encode its)) + n + 3 < OPTIONS_LEN →
     ∃ p', add_option_string p OFF_OPTIONS str s = Done ((n + 2, p'), s) ∧
           has_options p' (its ++ [Opt code data]) ∧ same_header p p') ∧
  (OPTIONS_LEN ≤ Z.of_nat (length (encode its)) + n + 3 →
     add_option_string p OFF_OPTIONS str s = Done ((0, p), s)).
Proof.
  intros H Hit str n. pose proof (end_option_spec p its s H) as E.
  assert (peek str OPT_LEN s = Done (n, s)) as El by done.
  split; intros Hfit; unfold add_option_string; mstep E; mstep El; unfold OPTIONS_LEN in Hfit;
    destruct (Z.leb_spec 1024 (Z.of_nat (length (encode its)) + n + 2 + 1)); try done; try lia.
  assert (get_bytes str 0 (n + 2) s = Done (encode_item (Opt code data), s)) as Eb.
  { unfold get_bytes. rewrite (buf_read_mid [] (encode_item (Opt code data)) junk); [done|done|simpl; lia]. }
  mstep Eb. pose proof (length_encode_item (Opt code data)) as He. cbv beta iota in He. fold n in He.
  destruct (append_item p its (Opt code data) H Hit ltac:(unfold OPTIONS_LEN; lia)) as (p1&p'&E1&E2&Hopt&Hh).
  unfold put_bytes, poke8. rewrite E1. cbn [of_option]. rewrite bind_ret.
  replace (Z.of_nat (length (encode its)) + n + 2)
    with (Z.of_nat (length (encode its)) + Z.of_nat (length (encode_item (Opt code data)))) by lia.
  rewrite E2. by exists p'.
Qed.

Lemma buf_write_app buf off a b buf1 : buf_write buf off a = Some buf1 →
  off + Z.of_nat (length a) + Z.of_nat (length b) ≤ Z.of_nat (length buf) →
  buf_write buf1 (off + Z.of_nat (length a)) b = buf_write buf off (a ++ b).
Proof.
  intros H Hb. pose proof (buf_write_length _ _ _ _ H) as Hl. apply buf_write_inv in H as (H0&_&E).
  rewrite !buf_write_Some; [|lia|rewrite length_app; lia|lia|lia]. f_equal. rewrite E.
  replace (take (Z.to_nat off) buf ++ a ++ drop (Z.to_nat off + length a) buf)
    with ((take (Z.to_nat off) buf ++ a) ++ drop (Z.to_nat off + length a) buf) by (by rewrite <- app_assoc).
  assert (length (take (Z.to_nat off) buf ++ a) = Z.to_nat (off + Z.of_nat (length a))) as El.
  { rewrite length_app, length_take. lia. }
  rewrite take_app_length' by done. rewrite <- !app_assoc. do 3 f_equal.
  replace (Z.to_nat (off + Z.of_nat (length a)) + length b)%nat
    with (length (take (Z.to_nat off) buf ++ a) + length b)%nat by lia.
  rewrite <- (drop_drop _ (length b) (length (take (Z.to_nat off) buf ++ a))).
  rewrite (app_assoc (take (Z.to_nat off) buf) a), drop_app_length, drop_drop.
  f_equal. rewrite length_app. lia.
Qed.

(** [add_simple_option] appends an option of the table; it does not look for the
    end of the message. *)
Lemma add_simple_option_spec p its code v bs s : has_options p its → item_ok (Opt code bs) →
  bs ≠ [] → simple_length code = Z.of_nat (length bs) → simple_bytes (simple_length code) v s = Done (bs, s) →
  Z.of_nat (length (encode its)) + Z.of_nat (length bs) + 2 < OPTIONS_LEN →
  ∃ p', add_simple_option p OFF_OPTIONS code v s = Done ((Z.of_nat (length bs), p'), s) ∧
        has_options p' (its ++ [Opt code bs]) ∧ same_header p p'.
Proof.
  intros H Hit Hne Hlen Hbs Hfit. unfold add_simple_option. rewrite Hlen in *.
  destruct (Z.eqb_spec (Z.of_nat (length bs)) 0); [destruct bs; [done|simpl in *; lia]|].
  mstep (end_option_spec p its s H). pose proof (length_encode_item (Opt code bs)) as He. cbv beta iota in He.
  destruct (append_item p its (Opt code bs) H Hit ltac:(lia)) as (p1&p'&E1&E2&Hopt&Hh).
  set (o := OFF_OPTIONS + Z.of_nat (length (encode its))) in *.
  assert (Z.of_nat (length p) = sizeof_dhcpMessage) as Hl by apply H.
  unfold OPTIONS_LEN in *. unfold sizeof_dhcpMessage in Hl.
  assert (∃ q1, buf_write p o [code] = Some q1) as [q1 Q1].
  { eexists. apply buf_write_Some; unfold o, OFF_OPTIONS; simpl; lia. }
  pose proof (buf_write_app p o [code] [Z.of_nat (length bs)] q1 Q1 ltac:(unfold o, OFF_OPTIONS; simpl; lia)) as Q2.
  assert (∃ q2, buf_write p o ([code] ++ [Z.of_nat (length bs)]) = Some q2) as [q2 Q2'].
  { eexists. apply buf_write_Some; unfold o, OFF_OPTIONS; simpl; lia. }
  rewrite Q2' in Q2.
  pose proof (buf_write_app p o _ bs q2 Q2' ltac:(unfold o, OFF_OPTIONS; simpl; lia)) as Q3.
  rewrite <- app_assoc in Q3. simpl in Q2, Q3, E1. rewrite E1 in Q3.
  change (Z.of_nat 1) with 1 in Q2. change (Z.of_nat 2) with 2 in Q3.
  destruct Hit as (_&_&Hb).
  unfold poke8, put_bytes, OPT_CODE, OPT_LEN. rewrite Z.add_0_r. fold o. rewrite Q1. cbn [of_option]. rewrite bind_ret.
  replace (u8 (Z.of_nat (length bs))) with (Z.of_nat (length bs)) by (symmetry; apply Z.mod_small; lia).
  rewrite (Z.add_assoc OFF_OPTIONS _ 1). fold o.
  rewrite Q2. cbn [of_option]. rewrite bind_ret. mstep Hbs.
  rewrite (Z.add_assoc OFF_OPTIONS (Z.of_nat (length (encode its))) 2). fold o. rewrite Q3. cbn [of_option]. rewrite bind_ret.
  replace (Z.of_nat (length (encode its)) + Z.of_nat (length bs) + 2)
    with (Z.of_nat (length (encode its)) + Z.of_nat (length (encode_item (Opt code bs)))) by lia.
  rewrite E2. by exists p'.
Qed.
End add.

(** ** Checksums *)

Lemma checksum_sum_add bs s : checksum_sum bs s = s + checksum_sum bs 0.
Proof.
  assert (∀ n bs s, (length bs ≤ n)%nat → checksum_sum bs s = s + checksum_sum bs 0) as G; [|by apply (G (length bs))].
  clear. induction n as [|n IH]; intros bs s Hn; destruct bs as [|a [|b bs]]; cbn [checksum_sum length] in *; try lia.
  rewrite (IH bs (s + (a * 256 + b))), (IH bs (0 + (a * 256 + b))); lia.
Qed.

Lemma checksum_sum_app a b s : Nat.even (length a) = true → checksum_sum (a ++ b) s = checksum_sum a 0 + checksum_sum b s.
Proof.
  assert (∀ n a s, (length a ≤ n)%nat → Nat.even (length a) = true →
    checksum_sum (a ++ b) s = checksum_sum a 0 + checksum_sum b s) as G; [|by apply (G (length a))].
  clear. induction n as [|n IH]; intros a s Hn He; destruct a as [|x [|y a]]; cbn [checksum_sum length app Nat.even] in *; try done; try lia.
  rewrite IH by (done || lia). rewrite (checksum_sum_add b (s + _)), (checksum_sum_add b s), (checksum_sum_add a (_ + _)). lia.
Qed.

Lemma checksum_sum_range bs : Forall is_byte bs → 0 ≤ checksum_sum bs 0 ≤ 65535 * Z.of_nat (length bs).
Proof.
  assert (∀ n bs, (length bs ≤ n)%nat → Forall is_byte bs → 0 ≤ checksum_sum bs 0 ≤ 65535 * Z.of_nat (length bs)) as G;
    [|by apply (G (length bs))].
  clear. induction n as [|n IH]; intros bs Hn Hb; destruct bs as [|a [|b bs]]; try (simpl in *; lia).
  - apply Forall_cons in Hb as [Ha _]. unfold is_byte in Ha. simpl. lia.
  - apply Forall_cons in Hb as [Ha [Hb Hr]%Forall_cons]. unfold is_byte in *. cbn [checksum_sum length] in *.
    rewrite checksum_sum_add. pose proof (IH bs ltac:(lia) Hr). lia.
Qed.

(** The fold keeps the sum modulo 65535. *)
Lemma checksum_fold_step n x : 0 ≤ x → checksum_fold (S n) x = if x <? 65536 then x else checksum_fold n (x mod 65536 + x / 65536).
Proof.
  intros Hx. cbn [checksum_fold]. rewrite Z.shiftr_div_pow2 by lia. change 0xffff with (Z.ones 16). rewrite Z.land_ones by lia.
  change (2 ^ 16) with 65536. destruct (Z.ltb_spec x 65536).
  - by rewrite (Z.div_small x 65536) by lia.
  - rewrite (proj2 (Z.eqb_neq (x / 65536) 0)); [done|]. pose proof (Z.div_le_lower_bound x 65536 1). lia.
Qed.

Lemma fold_once x : 0 < x → 0 < x mod 65536 + x / 65536 ∧ (x mod 65536 + x / 65536) mod 65535 = x mod 65535.
Proof.
  intros Hx. pose proof (Z.div_mod x 65536 ltac:(lia)) as E. pose proof (Z.mod_pos_bound x 65536 ltac:(lia)).
  pose proof (Z.div_pos x 65536 ltac:(lia) ltac:(lia)). split; [lia|].
  rewrite E at 3. replace (65536 * (x / 65536) + x mod 65536) with (x mod 65536 + x / 65536 + (x / 65536) * 65535) by lia.
  by rewrite Z.mod_add.
Qed.

Lemma fold_spec x : 0 < x < 2 ^ 32 → 0 < checksum_fold 4 x ≤ 65535 ∧ checksum_fold 4 x mod 65535 = x mod 65535.
Proof.
  intros Hx. rewrite checksum_fold_step by lia. destruct (Z.ltb_spec x 65536); [split; [lia|done]|].
  destruct (fold_once x ltac:(lia)) as [H1 E1]. set (x1 := x mod 65536 + x / 65536) in *.
  assert (x1 ≤ 131070) as B1.
  { unfold x1. pose proof (Z.mod_pos_bound x 65536 ltac:(lia)). pose proof (Z.div_lt_upper_bound x 65536 65536). lia. }
  rewrite <- E1. clearbody x1. rewrite checksum_fold_step by lia. destruct (Z.ltb_spec x1 65536); [split; [lia|done]|].
  destruct (fold_once x1 ltac:(lia)) as [H2 E2]. rewrite <- E2.
  assert (x1 mod 65536 + x1 / 65536 ≤ 65535) as B2 by (Z.to_euclidean_division_equations; lia).
  rewrite checksum_fold_step by lia. rewrite (proj2 (Z.ltb_lt _ _)) by lia. split; [lia|done].
Qed.

Lemma checksum_val bs : 0 < checksum_sum bs 0 < 2 ^ 32 → checksum bs = 65535 - checksum_fold 4 (checksum_sum bs 0).
Proof.
  intros H. destruct (fold_spec _ H) as [Hr _]. unfold checksum, u16. set (y := checksum_fold 4 _) in *.
  replace (Z.lnot y) with (65535 - y + (-1) * 2 ^ 16) by (unfold Z.lnot; lia). rewrite Z.mod_add by lia. apply Z.mod_small. lia.
Qed.

(** ** The sum of the Internet protocols *)

(** Addition with the carry added at the other end, over the 16-bit words of a
    packet; an odd last byte is the upper half of a word. *)
Definition ones_add (a b : Z) : Z := if a + b <? 65536 then a + b else a + b - 65535.
Fixpoint words16 (bs : list Z) : list Z :=
  match bs with
  | a :: b :: rest => a * 256 + b :: words16 rest
  | [a] => [a * 256]
  | [] => []
  end.
Definition ones_sum (bs : list Z) : Z := foldl ones_add 0 (words16 bs).

Lemma ones_fold bs acc : Nat.even (length bs) = true → Forall is_byte bs → 0 ≤ acc ≤ 65535 →
  let r := foldl ones_add acc (words16 bs) in
  0 ≤ r ≤ 65535 ∧ r mod 65535 = (acc + checksum_sum bs 0) mod 65535 ∧ (r = 0 → acc = 0 ∧ checksum_sum bs 0 = 0).
Proof.
  assert (∀ n bs acc, (length bs ≤ n)%nat → Nat.even (length bs) = true → Forall is_byte bs → 0 ≤ acc ≤ 65535 →
    let r := foldl ones_add acc (words16 bs) in
    0 ≤ r ≤ 65535 ∧ r mod 65535 = (acc + checksum_sum bs 0) mod 65535 ∧ (r = 0 → acc = 0 ∧ checksum_sum bs 0 = 0)) as G;
    [|by apply (G (length bs))].
  clear. induction n as [|n IH]; intros bs acc Hn He Hb Ha; destruct bs as [|a [|b bs]];
    cbn [words16 foldl checksum_sum length Nat.even] in *; try done; try lia.
  1-2: by rewrite Z.add_0_r.
  apply Forall_cons in Hb as [Hba [Hbb Hr]%Forall_cons]. pose proof (checksum_sum_range _ Hr). unfold is_byte in *.
  assert (0 ≤ ones_add acc (a * 256 + b) ≤ 65535 ∧ (ones_add acc (a * 256 + b) = 0 → acc = 0 ∧ a * 256 + b = 0) ∧
    ∃ k, ones_add acc (a * 256 + b) = acc + (a * 256 + b) + k * 65535) as (Hr1&Hz&k&Ek).
  { unfold ones_add. destruct (Z.ltb_spec (acc + (a * 256 + b)) 65536).
    - split; [lia|]. split; [lia|]. exists 0. lia.
    - split; [lia|]. split; [lia|]. exists (-1). lia. }
  destruct (IH bs _ ltac:(lia) He Hr Hr1) as (R1&R2&R3). rewrite (checksum_sum_add bs (0 + _)).
  split; [done|]. split.
  - rewrite R2, Ek. rewrite <- (Z.mod_add (acc + _) k 65535) by lia. f_equal. lia.
  - intros E. destruct (R3 E) as [E1 E2]. destruct (Hz E1). lia.
Qed.

Lemma checksum_words bs : 0 < checksum_sum bs 0 < 2 ^ 31 → (checksum_sum bs 0 + checksum bs) mod 65535 = 0.
Proof.
  intros H. destruct (fold_spec (checksum_sum bs 0) ltac:(lia)) as [Hr Hm]. rewrite (checksum_val bs) by lia.
  set (y := checksum_fold 4 (checksum_sum bs 0)) in *.
  replace (checksum_sum bs 0 + (65535 - y)) with (checksum_sum bs 0 - y + 1 * 65535) by lia.
  rewrite Z.mod_add by lia. rewrite Zminus_mod, Hm, Z.sub_diag. done.
Qed.

(** A packet whose words add up to those of [bs] and its checksum is correct. *)
Lemma checksum_verify bs bs' : 0 < checksum_sum bs 0 < 2 ^ 31 → checksum_sum bs' 0 = checksum_sum bs 0 + checksum bs →
  0 ≤ checksum bs → Nat.even (length bs') = true → Forall is_byte bs' → ones_sum bs' = 0xffff.
Proof.
  intros H E Hc He Hb. destruct (ones_fold bs' 0 He Hb ltac:(lia)) as (Hr&Hm&Hz). fold (ones_sum bs') in *.
  rewrite Z.add_0_l, E, checksum_words in Hm by done. apply Z.mod_divide in Hm as [k Hk]; [|lia].
  destruct (decide (ones_sum bs' = 0)) as [E0|]; [destruct (Hz E0); lia|]. lia.
Qed.

Lemma checksum_range bs : 0 < checksum_sum bs 0 < 2 ^ 32 → 0 ≤ checksum bs < 65536.
Proof. intros H. rewrite checksum_val by done. pose proof (fold_spec _ H). lia. Qed.

Lemma sum_u16 v s : 0 ≤ v < 65536 → checksum_sum (u16_bytes v) s = s + v.
Proof.
  intros H. unfold u16_bytes, u8. simpl. rewrite Z.shiftr_div_pow2 by lia. change (2 ^ 8) with 256.
  pose proof (Z.div_mod v 256 ltac:(lia)). rewrite (Z.mod_small (v / 256)); [lia|].
  split; [apply Z.div_pos; lia|apply Z.div_lt_upper_bound; lia].
Qed.

(** ** The headers *)

Lemma sum_ip ver len ttl check a b : 0 ≤ len < 65536 → 0 ≤ check < 65536 →
  checksum_sum (ip_header ver len ttl check a b) 0
    = ver * 256 + len + (ttl * 256 + 17) + check + checksum_sum (be_bytes a) 0 + checksum_sum (be_bytes b) 0.
Proof.
  intros Hl Hc. unfold ip_header. rewrite !checksum_sum_app, !sum_u16 by done. cbn [checksum_sum]. lia.
Qed.

Lemma sum_udp a b len check data : 0 ≤ len < 65536 → 0 ≤ check < 65536 →
  checksum_sum (udp_header a b len check ++ data) 0
    = checksum_sum (u16_bytes a) 0 + checksum_sum (u16_bytes b) 0 + len + check + checksum_sum data 0.
Proof.
  intros Hl Hc. unfold udp_header. rewrite <- !app_assoc, !checksum_sum_app by done. rewrite (sum_u16 len), (sum_u16 check) by done. lia.
Qed.

Lemma u16_bytes_bytes v : Forall is_byte (u16_bytes v).
Proof. unfold u16_bytes, u8, is_byte. repeat constructor; apply Z.mod_pos_bound; lia. Qed.

Lemma ip_header_bytes ver len ttl check a b : is_byte ver → is_byte ttl → Forall is_byte (ip_header ver len ttl check a b).
Proof.
  intros Hv Ht. unfold ip_header. rewrite !Forall_app. split_and!; try apply u16_bytes_bytes; try apply be_bytes_byte.
  all: repeat (apply Forall_cons; split); try done; apply Forall_nil; done.
Qed.

Lemma udp_header_bytes a b len check : Forall is_byte (udp_header a b len check).
Proof. unfold udp_header. rewrite !Forall_app. split_and!; apply u16_bytes_bytes. Qed.
