(* ===== verification/DhcpLease.v ===== *)
(** * The DHCP server: state, leases and lease files ([leases.c], [files.c], [dhcpd.h] of udhcp)

    The server keeps its configuration, a second one for IP phones, and a table
    of leases for each in global variables: the record [dhcpd].  What the server
    gets from outside — the clock, the answers to ARP requests, the interface,
    the results of [fopen], [malloc] and of sending — is the record [dhcp_env],
    by the number of the call. *)

From stdpp Require Import base numbers list strings gmap.
From Stdlib Require Import ZArith Lia Bool.
From S2P Require Import Prelude CText DhcpPacket.

(** ** Data *)

(** [struct dhcpOfferedAddr]; the field [vendorid] is not used in a table. *)
Record dhcpOfferedAddr : Type := {
  l_chaddr : list Z;
  l_yiaddr : Z;
  l_expires : Z;
  l_hostname : list Z
}.

Definition sizeof_dhcpOfferedAddr : Z := 16 + 4 + 4 + 64 + 64.
Definition no_lease : dhcpOfferedAddr :=
  {| l_chaddr := replicate 16 0; l_yiaddr := 0; l_expires := 0; l_hostname := replicate 64 0 |}.

Definition MAXRESERVEDIP : nat := 8.
Definition LEASE_TIME : Z := 60 * 60 * 24 * 10.

(** Strings are their characters; [None] is NULL.  An option of the list is its
    [data]. *)
Record server_config_t : Type := {
  sc_server : Z;
  sc_start : Z;
  sc_end : Z;
  sc_reservedAddr : list Z;
  sc_options : list (list Z);
  sc_interface : list Z;
  sc_ifindex : Z;
  sc_arp : list Z;
  sc_lease : Z;
  sc_max_leases : Z;
  sc_remaining : Z;
  sc_auto_time : Z;
  sc_decline_time : Z;
  sc_offer_time : Z;
  sc_min_lease : Z;
  sc_lease_file : list Z;
  sc_notify_file : option (list Z);
  sc_siaddr : Z;
  sc_sname : option (list Z);
  sc_boot_file : option (list Z);
  sc_pIPPhoneDomainName : option (list Z);
  sc_pIPPhoneDNSServers : option (list Z);
  sc_pIPPhoneTFTPServer : option (list Z);
  sc_pIPPhoneTFTPServerName : option (list Z);
  sc_pOutBoundProxy : option (list Z);
  sc_pDhcpOpt60 : option (list Z);
  sc_iIPPhoneVLANQoSEnable : Z;
  sc_iPPhoneNtp1 : Z;
  sc_iPPhoneNtp2 : Z;
  sc_vendorid : option (list Z)
}.

Definition set_server (v : Z) (c : server_config_t) : server_config_t :=
  {| sc_server := v; sc_start := sc_start c; sc_end := sc_end c; sc_reservedAddr := sc_reservedAddr c;
     sc_options := sc_options c; sc_interface := sc_interface c; sc_ifindex := sc_ifindex c; sc_arp := sc_arp c;
     sc_lease := sc_lease c; sc_max_leases := sc_max_leases c; sc_remaining := sc_remaining c; sc_auto_time := sc_auto_time c;
     sc_decline_time := sc_decline_time c; sc_offer_time := sc_offer_time c; sc_min_lease := sc_min_lease c; sc_lease_file := sc_lease_file c;
     sc_notify_file := sc_notify_file c; sc_siaddr := sc_siaddr c; sc_sname := sc_sname c; sc_boot_file := sc_boot_file c;
     sc_pIPPhoneDomainName := sc_pIPPhoneDomainName c; sc_pIPPhoneDNSServers := sc_pIPPhoneDNSServers c; sc_pIPPhoneTFTPServer := sc_pIPPhoneTFTPServer c; sc_pIPPhoneTFTPServerName := sc_pIPPhoneTFTPServerName c;
     sc_pOutBoundProxy := sc_pOutBoundProxy c; sc_pDhcpOpt60 := sc_pDhcpOpt60 c; sc_iIPPhoneVLANQoSEnable := sc_iIPPhoneVLANQoSEnable c; sc_iPPhoneNtp1 := sc_iPPhoneNtp1 c;
     sc_iPPhoneNtp2 := sc_iPPhoneNtp2 c; sc_vendorid := sc_vendorid c |}.
Definition set_ifindex (v : Z) (c : server_config_t) : server_config_t :=
  {| sc_server := sc_server c; sc_start := sc_start c; sc_end := sc_end c; sc_reservedAddr := sc_reservedAddr c;
     sc_options := sc_options c; sc_interface := sc_interface c; sc_ifindex := v; sc_arp := sc_arp c;
     sc_lease := sc_lease c; sc_max_leases := sc_max_leases c; sc_remaining := sc_remaining c; sc_auto_time := sc_auto_time c;
     sc_decline_time := sc_decline_time c; sc_offer_time := sc_offer_time c; sc_min_lease := sc_min_lease c; sc_lease_file := sc_lease_file c;
     sc_notify_file := sc_notify_file c; sc_siaddr := sc_siaddr c; sc_sname := sc_sname c; sc_boot_file := sc_boot_file c;
     sc_pIPPhoneDomainName := sc_pIPPhoneDomainName c; sc_pIPPhoneDNSServers := sc_pIPPhoneDNSServers c; sc_pIPPhoneTFTPServer := sc_pIPPhoneTFTPServer c; sc_pIPPhoneTFTPServerName := sc_pIPPhoneTFTPServerName c;
     sc_pOutBoundProxy := sc_pOutBoundProxy c; sc_pDhcpOpt60 := sc_pDhcpOpt60 c; sc_iIPPhoneVLANQoSEnable := sc_iIPPhoneVLANQoSEnable c; sc_iPPhoneNtp1 := sc_iPPhoneNtp1 c;
     sc_iPPhoneNtp2 := sc_iPPhoneNtp2 c; sc_vendorid := sc_vendorid c |}.
Definition set_arp (v : list Z) (c : server_config_t) : server_config_t :=
  {| sc_server := sc_server c; sc_start := sc_start c; sc_end := sc_end c; sc_reservedAddr := sc_reservedAddr c;
     sc_options := sc_options c; sc_interface := sc_interface c; sc_ifindex := sc_ifindex c; sc_arp := v;
     sc_lease := sc_lease c; sc_max_leases := sc_max_leases c; sc_remaining := sc_remaining c; sc_auto_time := sc_auto_time c;
     sc_decline_time := sc_decline_time c; sc_offer_time := sc_offer_time c; sc_min_lease := sc_min_lease c; sc_lease_file := sc_lease_file c;
     sc_notify_file := sc_notify_file c; sc_siaddr := sc_siaddr c; sc_sname := sc_sname c; sc_boot_file := sc_boot_file c;
     sc_pIPPhoneDomainName := sc_pIPPhoneDomainName c; sc_pIPPhoneDNSServers := sc_pIPPhoneDNSServers c; sc_pIPPhoneTFTPServer := sc_pIPPhoneTFTPServer c; sc_pIPPhoneTFTPServerName := sc_pIPPhoneTFTPServerName c;
     sc_pOutBoundProxy := sc_pOutBoundProxy c; sc_pDhcpOpt60 := sc_pDhcpOpt60 c; sc_iIPPhoneVLANQoSEnable := sc_iIPPhoneVLANQoSEnable c; sc_iPPhoneNtp1 := sc_iPPhoneNtp1 c;
     sc_iPPhoneNtp2 := sc_iPPhoneNtp2 c; sc_vendorid := sc_vendorid c |}.
Definition set_lease (v : Z) (c : server_config_t) : server_config_t :=
  {| sc_server := sc_server c; sc_start := sc_start c; sc_end := sc_end c; sc_reservedAddr := sc_reservedAddr c;
     sc_options := sc_options c; sc_interface := sc_interface c; sc_ifindex := sc_ifindex c; sc_arp := sc_arp c;
     sc_lease := v; sc_max_leases := sc_max_leases c; sc_remaining := sc_remaining c; sc_auto_time := sc_auto_time c;
     sc_decline_time := sc_decline_time c; sc_offer_time := sc_offer_time c; sc_min_lease := sc_min_lease c; sc_lease_file := sc_lease_file c;
     sc_notify_file := sc_notify_file c; sc_siaddr := sc_siaddr c; sc_sname := sc_sname c; sc_boot_file := sc_boot_file c;
     sc_pIPPhoneDomainName := sc_pIPPhoneDomainName c; sc_pIPPhoneDNSServers := sc_pIPPhoneDNSServers c; sc_pIPPhoneTFTPServer := sc_pIPPhoneTFTPServer c; sc_pIPPhoneTFTPServerName := sc_pIPPhoneTFTPServerName c;
     sc_pOutBoundProxy := sc_pOutBoundProxy c; sc_pDhcpOpt60 := sc_pDhcpOpt60 c; sc_iIPPhoneVLANQoSEnable := sc_iIPPhoneVLANQoSEnable c; sc_iPPhoneNtp1 := sc_iPPhoneNtp1 c;
     sc_iPPhoneNtp2 := sc_iPPhoneNtp2 c; sc_vendorid := sc_vendorid c |}.
Definition set_iPPhoneNtp1 (v : Z) (c : server_config_t) : server_config_t :=
  {| sc_server := sc_server c; sc_start := sc_start c; sc_end := sc_end c; sc_reservedAddr := sc_reservedAddr c;
     sc_options := sc_options c; sc_interface := sc_interface c; sc_ifindex := sc_ifindex c; sc_arp := sc_arp c;
     sc_lease := sc_lease c; sc_max_leases := sc_max_leases c; sc_remaining := sc_remaining c; sc_auto_time := sc_auto_time c;
     sc_decline_time := sc_decline_time c; sc_offer_time := sc_offer_time c; sc_min_lease := sc_min_lease c; sc_lease_file := sc_lease_file c;
     sc_notify_file := sc_notify_file c; sc_siaddr := sc_siaddr c; sc_sname := sc_sname c; sc_boot_file := sc_boot_file c;
     sc_pIPPhoneDomainName := sc_pIPPhoneDomainName c; sc_pIPPhoneDNSServers := sc_pIPPhoneDNSServers c; sc_pIPPhoneTFTPServer := sc_pIPPhoneTFTPServer c; sc_pIPPhoneTFTPServerName := sc_pIPPhoneTFTPServerName c;
     sc_pOutBoundProxy := sc_pOutBoundProxy c; sc_pDhcpOpt60 := sc_pDhcpOpt60 c; sc_iIPPhoneVLANQoSEnable := sc_iIPPhoneVLANQoSEnable c; sc_iPPhoneNtp1 := v;
     sc_iPPhoneNtp2 := sc_iPPhoneNtp2 c; sc_vendorid := sc_vendorid c |}.
Definition set_iPPhoneNtp2 (v : Z) (c : server_config_t) : server_config_t :=
  {| sc_server := sc_server c; sc_start := sc_start c; sc_end := sc_end c; sc_reservedAddr := sc_reservedAddr c;
     sc_options := sc_options c; sc_interface := sc_interface c; sc_ifindex := sc_ifindex c; sc_arp := sc_arp c;
     sc_lease := sc_lease c; sc_max_leases := sc_max_leases c; sc_remaining := sc_remaining c; sc_auto_time := sc_auto_time c;
     sc_decline_time := sc_decline_time c; sc_offer_time := sc_offer_time c; sc_min_lease := sc_min_lease c; sc_lease_file := sc_lease_file c;
     sc_notify_file := sc_notify_file c; sc_siaddr := sc_siaddr c; sc_sname := sc_sname c; sc_boot_file := sc_boot_file c;
     sc_pIPPhoneDomainName := sc_pIPPhoneDomainName c; sc_pIPPhoneDNSServers := sc_pIPPhoneDNSServers c; sc_pIPPhoneTFTPServer := sc_pIPPhoneTFTPServer c; sc_pIPPhoneTFTPServerName := sc_pIPPhoneTFTPServerName c;
     sc_pOutBoundProxy := sc_pOutBoundProxy c; sc_pDhcpOpt60 := sc_pDhcpOpt60 c; sc_iIPPhoneVLANQoSEnable := sc_iIPPhoneVLANQoSEnable c; sc_iPPhoneNtp1 := sc_iPPhoneNtp1 c;
     sc_iPPhoneNtp2 := v; sc_vendorid := sc_vendorid c |}.

(** A vendor-identifying entry (option 125), its strings by address, and the
    list of them. *)
Record vi_info : Type := {
  vi_enterprise : Z;
  vi_oui : Z;
  vi_serialNumber : Z;
  vi_productClass : Z;
  vi_ipAddr : Z;
  vi_next : Z
}.

Record vi_state : Type := {
  vi_nodes : gmap Z vi_info;
  vi_strs : gmap Z (list Z);
  vi_count : Z;
  vi_head : Z;
  vi_tail : Z;
  vi_brk : Z
}.

(** A shell command, and a packet that was sent: by [raw_packet], the bytes of
    the IP packet, the hardware address and the interface; by [kernel_packet],
    the payload and the address. *)
Definition command : Type := list Z.

Inductive sent_packet : Type :=
| Raw (bytes dest_arp : list Z) (ifindex : Z)
| Kernel (payload : list Z) (dest_ip : Z).

Record dhcpd : Type := {
  server_config : server_config_t;
  server2_config : server_config_t;
  tmpSrvCfg : server_config_t;
  leases : list dhcpOfferedAddr;
  leases2 : list dhcpOfferedAddr;
  tmpls : list dhcpOfferedAddr;
  g_enblSrv1 : Z;
  g_enblSrv2 : Z;
  bIpphone : Z;
  UseIpPhoneVlan : Z;
  flag_option121 : Z;
  ipPhoneipaddr : list Z;
  g_EnableQosVlan : Z;
  vi : vi_state;
  d_clock : nat;
  d_arps : nat;
  d_ifs : nat;
  d_opens : nat;
  d_mallocs : nat;
  d_sends : nat;
  d_files : list (list Z * list Z);
  d_cmds : list command;
  d_sent : list sent_packet
}.

Definition set_server_config (v : server_config_t) (s : dhcpd) : dhcpd :=
  {| server_config := v; server2_config := server2_config s; tmpSrvCfg := tmpSrvCfg s; leases := leases s;
     leases2 := leases2 s; tmpls := tmpls s; g_enblSrv1 := g_enblSrv1 s; g_enblSrv2 := g_enblSrv2 s;
     bIpphone := bIpphone s; UseIpPhoneVlan := UseIpPhoneVlan s; flag_option121 := flag_option121 s; ipPhoneipaddr := ipPhoneipaddr s;
     g_EnableQosVlan := g_EnableQosVlan s; vi := vi s; d_clock := d_clock s; d_arps := d_arps s;
     d_ifs := d_ifs s; d_opens := d_opens s; d_mallocs := d_mallocs s; d_sends := d_sends s;
     d_files := d_files s; d_cmds := d_cmds s; d_sent := d_sent s |}.
Definition set_server2_config (v : server_config_t) (s : dhcpd) : dhcpd :=
  {| server_config := server_config s; server2_config := v; tmpSrvCfg := tmpSrvCfg s; leases := leases s;
     leases2 := leases2 s; tmpls := tmpls s; g_enblSrv1 := g_enblSrv1 s; g_enblSrv2 := g_enblSrv2 s;
     bIpphone := bIpphone s; UseIpPhoneVlan := UseIpPhoneVlan s; flag_option121 := flag_option121 s; ipPhoneipaddr := ipPhoneipaddr s;
     g_EnableQosVlan := g_EnableQosVlan s; vi := vi s; d_clock := d_clock s; d_arps := d_arps s;
     d_ifs := d_ifs s; d_opens := d_opens s; d_mallocs := d_mallocs s; d_sends := d_sends s;
     d_files := d_files s; d_cmds := d_cmds s; d_sent := d_sent s |}.
Definition set_tmpSrvCfg (v : server_config_t) (s : dhcpd) : dhcpd :=
  {| server_config := server_config s; server2_config := server2_config s; tmpSrvCfg := v; leases := leases s;
     leases2 := leases2 s; tmpls := tmpls s; g_enblSrv1 := g_enblSrv1 s; g_enblSrv2 := g_enblSrv2 s;
     bIpphone := bIpphone s; UseIpPhoneVlan := UseIpPhoneVlan s; flag_option121 := flag_option121 s; ipPhoneipaddr := ipPhoneipaddr s;
     g_EnableQosVlan := g_EnableQosVlan s; vi := vi s; d_clock := d_clock s; d_arps := d_arps s;
     d_ifs := d_ifs s; d_opens := d_opens s; d_mallocs := d_mallocs s; d_sends := d_sends s;
     d_files := d_files s; d_cmds := d_cmds s; d_sent := d_sent s |}.
Definition set_leases (v : list dhcpOfferedAddr) (s : dhcpd) : dhcpd :=
  {| server_config := server_config s; server2_config := server2_config s; tmpSrvCfg := tmpSrvCfg s; leases := v;
     leases2 := leases2 s; tmpls := tmpls s; g_enblSrv1 := g_enblSrv1 s; g_enblSrv2 := g_enblSrv2 s;
     bIpphone := bIpphone s; UseIpPhoneVlan := UseIpPhoneVlan s; flag_option121 := flag_option121 s; ipPhoneipaddr := ipPhoneipaddr s;
     g_EnableQosVlan := g_EnableQosVlan s; vi := vi s; d_clock := d_clock s; d_arps := d_arps s;
     d_ifs := d_ifs s; d_opens := d_opens s; d_mallocs := d_mallocs s; d_sends := d_sends s;
     d_files := d_files s; d_cmds := d_cmds s; d_sent := d_sent s |}.
Definition set_leases2 (v : list dhcpOfferedAddr) (s : dhcpd) : dhcpd :=
  {| server_config := server_config s; server2_config := server2_config s; tmpSrvCfg := tmpSrvCfg s; leases := leases s;
     leases2 := v; tmpls := tmpls s; g_enblSrv1 := g_enblSrv1 s; g_enblSrv2 := g_enblSrv2 s;
     bIpphone := bIpphone s; UseIpPhoneVlan := UseIpPhoneVlan s; flag_option121 := flag_option121 s; ipPhoneipaddr := ipPhoneipaddr s;
     g_EnableQosVlan := g_EnableQosVlan s; vi := vi s; d_clock := d_clock s; d_arps := d_arps s;
     d_ifs := d_ifs s; d_opens := d_opens s; d_mallocs := d_mallocs s; d_sends := d_sends s;
     d_files := d_files s; d_cmds := d_cmds s; d_sent := d_sent s |}.
Definition set_tmpls (v : list dhcpOfferedAddr) (s : dhcpd) : dhcpd :=
  {| server_config := server_config s; server2_config := server2_config s; tmpSrvCfg := tmpSrvCfg s; leases := leases s;
     leases2 := leases2 s; tmpls := v; g_enblSrv1 := g_enblSrv1 s; g_enblSrv2 := g_enblSrv2 s;
     bIpphone := bIpphone s; UseIpPhoneVlan := UseIpPhoneVlan s; flag_option121 := flag_option121 s; ipPhoneipaddr := ipPhoneipaddr s;
     g_EnableQosVlan := g_EnableQosVlan s; vi := vi s; d_clock := d_clock s; d_arps := d_arps s;
     d_ifs := d_ifs s; d_opens := d_opens s; d_mallocs := d_mallocs s; d_sends := d_sends s;
     d_files := d_files s; d_cmds := d_cmds s; d_sent := d_sent s |}.
Definition set_bIpphone (v : Z) (s : dhcpd) : dhcpd :=
  {| server_config := server_config s; server2_config := server2_config s; tmpSrvCfg := tmpSrvCfg s; leases := leases s;
     leases2 := leases2 s; tmpls := tmpls s; g_enblSrv1 := g_enblSrv1 s; g_enblSrv2 := g_enblSrv2 s;
     bIpphone := v; UseIpPhoneVlan := UseIpPhoneVlan s; flag_option121 := flag_option121 s; ipPhoneipaddr := ipPhoneipaddr s;
     g_EnableQosVlan := g_EnableQosVlan s; vi := vi s; d_clock := d_clock s; d_arps := d_arps s;
     d_ifs := d_ifs s; d_opens := d_opens s; d_mallocs := d_mallocs s; d_sends := d_sends s;
     d_files := d_files s; d_cmds := d_cmds s; d_sent := d_sent s |}.
Definition set_UseIpPhoneVlan (v : Z) (s : dhcpd) : dhcpd :=
  {| server_config := server_config s; server2_config := server2_config s; tmpSrvCfg := tmpSrvCfg s; leases := leases s;
     leases2 := leases2 s; tmpls := tmpls s; g_enblSrv1 := g_enblSrv1 s; g_enblSrv2 := g_enblSrv2 s;
     bIpphone := bIpphone s; UseIpPhoneVlan := v; flag_option121 := flag_option121 s; ipPhoneipaddr := ipPhoneipaddr s;
     g_EnableQosVlan := g_EnableQosVlan s; vi := vi s; d_clock := d_clock s; d_arps := d_arps s;
     d_ifs := d_ifs s; d_opens := d_opens s; d_mallocs := d_mallocs s; d_sends := d_sends s;
     d_files := d_files s; d_cmds := d_cmds s; d_sent := d_sent s |}.
Definition set_flag_option121 (v : Z) (s : dhcpd) : dhcpd :=
  {| server_config := server_config s; server2_config := server2_config s; tmpSrvCfg := tmpSrvCfg s; leases := leases s;
     leases2 := leases2 s; tmpls := tmpls s; g_enblSrv1 := g_enblSrv1 s; g_enblSrv2 := g_enblSrv2 s;
     bIpphone := bIpphone s; UseIpPhoneVlan := UseIpPhoneVlan s; flag_option121 := v; ipPhoneipaddr := ipPhoneipaddr s;
     g_EnableQosVlan := g_EnableQosVlan s; vi := vi s; d_clock := d_clock s; d_arps := d_arps s;
     d_ifs := d_ifs s; d_opens := d_opens s; d_mallocs := d_mallocs s; d_sends := d_sends s;
     d_files := d_files s; d_cmds := d_cmds s; d_sent := d_sent s |}.
Definition set_ipPhoneipaddr (v : list Z) (s : dhcpd) : dhcpd :=
  {| server_config := server_config s; server2_config := server2_config s; tmpSrvCfg := tmpSrvCfg s; leases := leases s;
     leases2 := leases2 s; tmpls := tmpls s; g_enblSrv1 := g_enblSrv1 s; g_enblSrv2 := g_enblSrv2 s;
     bIpphone := bIpphone s; UseIpPhoneVlan := UseIpPhoneVlan s; flag_option121 := flag_option121 s; ipPhoneipaddr := v;
     g_EnableQosVlan := g_EnableQosVlan s; vi := vi s; d_clock := d_clock s; d_arps := d_arps s;
     d_ifs := d_ifs s; d_opens := d_opens s; d_mallocs := d_mallocs s; d_sends := d_sends s;
     d_files := d_files s; d_cmds := d_cmds s; d_sent := d_sent s |}.
Definition set_g_EnableQosVlan (v : Z) (s : dhcpd) : dhcpd :=
  {| server_config := server_config s; server2_config := server2_config s; tmpSrvCfg := tmpSrvCfg s; leases := leases s;
     leases2 := leases2 s; tmpls := tmpls s; g_enblSrv1 := g_enblSrv1 s; g_enblSrv2 := g_enblSrv2 s;
     bIpphone := bIpphone s; UseIpPhoneVlan := UseIpPhoneVlan s; flag_option121 := flag_option121 s; ipPhoneipaddr := ipPhoneipaddr s;
     g_EnableQosVlan := v; vi := vi s; d_clock := d_clock s; d_arps := d_arps s;
     d_ifs := d_ifs s; d_opens := d_opens s; d_mallocs := d_mallocs s; d_sends := d_sends s;
     d_files := d_files s; d_cmds := d_cmds s; d_sent := d_sent s |}.
Definition set_vi (v : vi_state) (s : dhcpd) : dhcpd :=
  {| server_config := server_config s; server2_config := server2_config s; tmpSrvCfg := tmpSrvCfg s; leases := leases s;
     leases2 := leases2 s; tmpls := tmpls s; g_enblSrv1 := g_enblSrv1 s; g_enblSrv2 := g_enblSrv2 s;
     bIpphone := bIpphone s; UseIpPhoneVlan := UseIpPhoneVlan s; flag_option121 := flag_option121 s; ipPhoneipaddr := ipPhoneipaddr s;
     g_EnableQosVlan := g_EnableQosVlan s; vi := v; d_clock := d_clock s; d_arps := d_arps s;
     d_ifs := d_ifs s; d_opens := d_opens s; d_mallocs := d_mallocs s; d_sends := d_sends s;
     d_files := d_files s; d_cmds := d_cmds s; d_sent := d_sent s |}.
Definition set_dclock (v : nat) (s : dhcpd) : dhcpd :=
  {| server_config := server_config s; server2_config := server2_config s; tmpSrvCfg := tmpSrvCfg s; leases := leases s;
     leases2 := leases2 s; tmpls := tmpls s; g_enblSrv1 := g_enblSrv1 s; g_enblSrv2 := g_enblSrv2 s;
     bIpphone := bIpphone s; UseIpPhoneVlan := UseIpPhoneVlan s; flag_option121 := flag_option121 s; ipPhoneipaddr := ipPhoneipaddr s;
     g_EnableQosVlan := g_EnableQosVlan s; vi := vi s; d_clock := v; d_arps := d_arps s;
     d_ifs := d_ifs s; d_opens := d_opens s; d_mallocs := d_mallocs s; d_sends := d_sends s;
     d_files := d_files s; d_cmds := d_cmds s; d_sent := d_sent s |}.
Definition set_darps (v : nat) (s : dhcpd) : dhcpd :=
  {| server_config := server_config s; server2_config := server2_config s; tmpSrvCfg := tmpSrvCfg s; leases := leases s;
     leases2 := leases2 s; tmpls := tmpls s; g_enblSrv1 := g_enblSrv1 s; g_enblSrv2 := g_enblSrv2 s;
     bIpphone := bIpphone s; UseIpPhoneVlan := UseIpPhoneVlan s; flag_option121 := flag_option121 s; ipPhoneipaddr := ipPhoneipaddr s;
     g_EnableQosVlan := g_EnableQosVlan s; vi := vi s; d_clock := d_clock s; d_arps := v;
     d_ifs := d_ifs s; d_opens := d_opens s; d_mallocs := d_mallocs s; d_sends := d_sends s;
     d_files := d_files s; d_cmds := d_cmds s; d_sent := d_sent s |}.
Definition set_difs (v : nat) (s : dhcpd) : dhcpd :=
  {| server_config := server_config s; server2_config := server2_config s; tmpSrvCfg := tmpSrvCfg s; leases := leases s;
     leases2 := leases2 s; tmpls := tmpls s; g_enblSrv1 := g_enblSrv1 s; g_enblSrv2 := g_enblSrv2 s;
     bIpphone := bIpphone s; UseIpPhoneVlan := UseIpPhoneVlan s; flag_option121 := flag_option121 s; ipPhoneipaddr := ipPhoneipaddr s;
     g_EnableQosVlan := g_EnableQosVlan s; vi := vi s; d_clock := d_clock s; d_arps := d_arps s;
     d_ifs := v; d_opens := d_opens s; d_mallocs := d_mallocs s; d_sends := d_sends s;
     d_files := d_files s; d_cmds := d_cmds s; d_sent := d_sent s |}.
Definition set_dopens (v : nat) (s : dhcpd) : dhcpd :=
  {| server_config := server_config s; server2_config := server2_config s; tmpSrvCfg := tmpSrvCfg s; leases := leases s;
     leases2 := leases2 s; tmpls := tmpls s; g_enblSrv1 := g_enblSrv1 s; g_enblSrv2 := g_enblSrv2 s;
     bIpphone := bIpphone s; UseIpPhoneVlan := UseIpPhoneVlan s; flag_option121 := flag_option121 s; ipPhoneipaddr := ipPhoneipaddr s;
     g_EnableQosVlan := g_EnableQosVlan s; vi := vi s; d_clock := d_clock s; d_arps := d_arps s;
     d_ifs := d_ifs s; d_opens := v; d_mallocs := d_mallocs s; d_sends := d_sends s;
     d_files := d_files s; d_cmds := d_cmds s; d_sent := d_sent s |}.
Definition set_dmallocs (v : nat) (s : dhcpd) : dhcpd :=
  {| server_config := server_config s; server2_config := server2_config s; tmpSrvCfg := tmpSrvCfg s; leases := leases s;
     leases2 := leases2 s; tmpls := tmpls s; g_enblSrv1 := g_enblSrv1 s; g_enblSrv2 := g_enblSrv2 s;
     bIpphone := bIpphone s; UseIpPhoneVlan := UseIpPhoneVlan s; flag_option121 := flag_option121 s; ipPhoneipaddr := ipPhoneipaddr s;
     g_EnableQosVlan := g_EnableQosVlan s; vi := vi s; d_clock := d_clock s; d_arps := d_arps s;
     d_ifs := d_ifs s; d_opens := d_opens s; d_mallocs := v; d_sends := d_sends s;
     d_files := d_files s; d_cmds := d_cmds s; d_sent := d_sent s |}.
Definition set_dsends (v : nat) (s : dhcpd) : dhcpd :=
  {| server_config := server_config s; server2_config := server2_config s; tmpSrvCfg := tmpSrvCfg s; leases := leases s;
     leases2 := leases2 s; tmpls := tmpls s; g_enblSrv1 := g_enblSrv1 s; g_enblSrv2 := g_enblSrv2 s;
     bIpphone := bIpphone s; UseIpPhoneVlan := UseIpPhoneVlan s; flag_option121 := flag_option121 s; ipPhoneipaddr := ipPhoneipaddr s;
     g_EnableQosVlan := g_EnableQosVlan s; vi := vi s; d_clock := d_clock s; d_arps := d_arps s;
     d_ifs := d_ifs s; d_opens := d_opens s; d_mallocs := d_mallocs s; d_sends := v;
     d_files := d_files s; d_cmds := d_cmds s; d_sent := d_sent s |}.
Definition set_dfiles (v : list (list Z * list Z)) (s : dhcpd) : dhcpd :=
  {| server_config := server_config s; server2_config := server2_config s; tmpSrvCfg := tmpSrvCfg s; leases := leases s;
     leases2 := leases2 s; tmpls := tmpls s; g_enblSrv1 := g_enblSrv1 s; g_enblSrv2 := g_enblSrv2 s;
     bIpphone := bIpphone s; UseIpPhoneVlan := UseIpPhoneVlan s; flag_option121 := flag_option121 s; ipPhoneipaddr := ipPhoneipaddr s;
     g_EnableQosVlan := g_EnableQosVlan s; vi := vi s; d_clock := d_clock s; d_arps := d_arps s;
     d_ifs := d_ifs s; d_opens := d_opens s; d_mallocs := d_mallocs s; d_sends := d_sends s;
     d_files := v; d_cmds := d_cmds s; d_sent := d_sent s |}.
Definition set_dcmds (v : list command) (s : dhcpd) : dhcpd :=
  {| server_config := server_config s; server2_config := server2_config s; tmpSrvCfg := tmpSrvCfg s; leases := leases s;
     leases2 := leases2 s; tmpls := tmpls s; g_enblSrv1 := g_enblSrv1 s; g_enblSrv2 := g_enblSrv2 s;
     bIpphone := bIpphone s; UseIpPhoneVlan := UseIpPhoneVlan s; flag_option121 := flag_option121 s; ipPhoneipaddr := ipPhoneipaddr s;
     g_EnableQosVlan := g_EnableQosVlan s; vi := vi s; d_clock := d_clock s; d_arps := d_arps s;
     d_ifs := d_ifs s; d_opens := d_opens s; d_mallocs := d_mallocs s; d_sends := d_sends s;
     d_files := d_files s; d_cmds := v; d_sent := d_sent s |}.
Definition set_dsent (v : list sent_packet) (s : dhcpd) : dhcpd :=
  {| server_config := server_config s; server2_config := server2_config s; tmpSrvCfg := tmpSrvCfg s; leases := leases s;
     leases2 := leases2 s; tmpls := tmpls s; g_enblSrv1 := g_enblSrv1 s; g_enblSrv2 := g_enblSrv2 s;
     bIpphone := bIpphone s; UseIpPhoneVlan := UseIpPhoneVlan s; flag_option121 := flag_option121 s; ipPhoneipaddr := ipPhoneipaddr s;
     g_EnableQosVlan := g_EnableQosVlan s; vi := vi s; d_clock := d_clock s; d_arps := d_arps s;
     d_ifs := d_ifs s; d_opens := d_opens s; d_mallocs := d_mallocs s; d_sends := d_sends s;
     d_files := d_files s; d_cmds := d_cmds s; d_sent := v |}.

(** ** The environment *)

(** The answers of the kernel about an interface. *)
Record ifreply : Type := {
  if_socket : bool;
  if_addr : option Z;
  if_index : option Z;
  if_hwaddr : option (list Z)
}.

Record dhcp_env : Type := {
  clock : nat → Z;
  arp_answer : nat → Z → Z;
  if_answer : nat → ifreply;
  fopen_ok : nat → bool;
  malloc_ok : nat → Z → bool;
  send_result : nat → Z;
  inet_addr : list Z → Z;
  serial_number : list Z;
  base_mac : list Z;
  static_nat : Z;
  junk : list Z
}.

(** [inet_ntoa]. *)
Definition inet_ntoa (a : Z) : list Z :=
  sprintf_lu (u8 (Z.shiftr a 24)) ++ [46] ++ sprintf_lu (u8 (Z.shiftr a 16)) ++ [46] ++
  sprintf_lu (u8 (Z.shiftr a 8)) ++ [46] ++ sprintf_lu (u8 a).

Section server.
Context (env : dhcp_env).

Definition cfg {A} (f : server_config_t → A) : M dhcpd A := gets (λ s, f (server_config s)).

(** The system's up time, in seconds. *)
Definition getSysUpTime : M dhcpd Z :=
  n ← gets d_clock; modify (set_dclock (S n));; mret (clock env n).

(** [sprintf] to a buffer of [size] characters and [system]. *)
Definition system_cmd (size : Z) (cmd : command) : M dhcpd unit :=
  if Z.of_nat (length cmd) <? size then modify (λ s, set_dcmds (d_cmds s ++ [cmd]) s) else fault.

(** ** The table of leases *)

Definition lease_at (i : Z) : M dhcpd dhcpOfferedAddr :=
  t ← gets leases; of_option (t !! Z.to_nat i).
Definition put_lease (i : Z) (l : dhcpOfferedAddr) : M dhcpd unit :=
  t ← gets leases;
  if decide (Z.to_nat i < length t)%nat then modify (set_leases (<[Z.to_nat i := l]> t)) else fault.

(** [memcmp (leases\[i\].chaddr, chaddr, 16)] of two arrays of 16 bytes. *)
Definition same_chaddr (l : dhcpOfferedAddr) (chaddr : list Z) : bool := bool_decide (l_chaddr l = chaddr).
Definition blank_chaddr (chaddr : list Z) : bool := forallb (λ b, b =? 0) chaddr.

Fixpoint clear_loop (n : nat) (i : Z) (chaddr : list Z) (yiaddr : Z) : M dhcpd unit :=
  match n with
  | O => mret tt
  | S n' =>
      l ← lease_at i;
      (if (negb (blank_chaddr chaddr) && same_chaddr l chaddr) || (negb (yiaddr =? 0) && (l_yiaddr l =? yiaddr))
       then put_lease i no_lease else mret tt);;
      clear_loop n' (i + 1) chaddr yiaddr
  end.

Definition clear_lease (chaddr : list Z) (yiaddr : Z) : M dhcpd unit :=
  n ← cfg sc_max_leases; clear_loop (Z.to_nat n) 0 chaddr yiaddr.

Fixpoint oldest_loop (n : nat) (i oldest_lease : Z) (oldest : option Z) : M dhcpd (option Z) :=
  match n with
  | O => mret oldest
  | S n' =>
      l ← lease_at i;
      if l_expires l <? oldest_lease then oldest_loop n' (i + 1) (l_expires l) (Some i)
      else oldest_loop n' (i + 1) oldest_lease oldest
  end.

Definition oldest_expired_lease : M dhcpd (option Z) :=
  now ← getSysUpTime;
  n ← cfg sc_max_leases;
  oldest_loop (Z.to_nat n) 0 (u32 now) None.

(** The index of the new entry, [None] when the table is full. *)
Definition add_lease (chaddr : list Z) (yiaddr lease : Z) : M dhcpd (option Z) :=
  clear_lease chaddr yiaddr;;
  oldest ← oldest_expired_lease;
  match oldest with
  | Some i =>
      l ← lease_at i;
      now ← getSysUpTime;
      put_lease i {| l_chaddr := chaddr; l_yiaddr := yiaddr; l_expires := u32 (now + lease);
                     l_hostname := l_hostname l |};;
      mret (Some i)
  | None => mret None
  end.

Definition lease_expired (l : dhcpOfferedAddr) : M dhcpd bool :=
  now ← getSysUpTime; mret (l_expires l <? u32 now).

Fixpoint find_loop (n : nat) (i : Z) (t : list dhcpOfferedAddr) (P : dhcpOfferedAddr → bool) : M dhcpd (option Z) :=
  match n with
  | O => mret None
  | S n' =>
      l ← of_option (t !! Z.to_nat i);
      if P l then mret (Some i) else find_loop n' (i + 1) t P
  end.

Definition find_lease_by_chaddr (chaddr : list Z) : M dhcpd (option Z) :=
  n ← cfg sc_max_leases; t ← gets leases; find_loop (Z.to_nat n) 0 t (λ l, same_chaddr l chaddr).

(** In the table of the second address pool. *)
Definition find_lease_two_by_chaddr (chaddr : list Z) : M dhcpd (option Z) :=
  n ← gets (λ s, sc_max_leases (server2_config s)); t ← gets leases2;
  find_loop (Z.to_nat n) 0 t (λ l, same_chaddr l chaddr).

Definition find_lease_by_yiaddr (yiaddr : Z) : M dhcpd (option Z) :=
  n ← cfg sc_max_leases; t ← gets leases; find_loop (Z.to_nat n) 0 t (λ l, l_yiaddr l =? yiaddr).

(** 0 when [ip] is one of the reserved addresses in front of the first 0. *)
Fixpoint reserved_loop (rs : list Z) (ip : Z) : Z :=
  match rs with
  | [] => 1
  | r :: rest => if r =? 0 then 1 else if r =? ip then 0 else reserved_loop rest ip
  end.

Definition reservedIp (ip : Z) : M dhcpd Z :=
  rs ← cfg sc_reservedAddr; mret (reserved_loop (take MAXRESERVEDIP rs) ip).

(** The address of the router that is handed out, 0 when none is configured. *)
Definition router_ip : M dhcpd Z :=
  opts ← cfg sc_options;
  match find_option opts DHCP_ROUTER with
  | Some data => load32 data 2
  | None => mret 0
  end.

(** [socket.c]: reads the addresses of the interface into the configuration. *)
Definition read_interface : M dhcpd Z :=
  n ← gets d_ifs;
  modify (set_difs (S n));;
  name ← cfg sc_interface;
  let r := if_answer env n in
  if negb (if_socket r) then mret (-1) else
  if 16 <=? Z.of_nat (length name) then fault else
  match if_addr r with
  | None => mret (-1)
  | Some a =>
      modify (λ s, set_server_config (set_server a (server_config s)) s);;
      match if_index r with
      | None => mret (-1)
      | Some x =>
          modify (λ s, set_server_config (set_ifindex x (server_config s)) s);;
          match if_hwaddr r with
          | None => mret (-1)
          | Some h =>
              modify (λ s, set_server_config (set_arp h (server_config s)) s);;
              mret 0
          end
      end
  end.

(** [arpping]: 0 when somebody answers for the address. *)
Definition arpping (yiaddr : Z) : M dhcpd Z :=
  n ← gets d_arps; modify (set_darps (S n));; mret (arp_answer env n yiaddr).

Definition check_ip (addr : Z) : M dhcpd bool :=
  read_interface;;
  a ← arpping addr;
  mret (a =? 0).

(** May the address be handed out as far as the table is concerned? *)
Definition not_taken (addr : Z) (check_expired : bool) : M dhcpd bool :=
  p ← find_lease_by_yiaddr addr;
  match p with
  | None => mret true
  | Some i => if check_expired then l ← lease_at i; lease_expired l else mret false
  end.

Fixpoint find_address_loop (n : nat) (addr router : Z) (check_expired : bool) : M dhcpd Z :=
  match n with
  | O => nofuel
  | S n' =>
      let next := find_address_loop n' (u32 (addr + 1)) router check_expired in
      e ← cfg sc_end;
      if e <? addr then mret 0 else
      if Z.land addr 0xff =? 0 then next else
      if Z.land addr 0xff =? 0xff then next else
      r ← reservedIp addr;
      if r =? 0 then next else
      server ← cfg sc_server;
      if (addr =? server) || (addr =? router) then next else
      ok ← not_taken addr check_expired;
      if ok : bool then
        used ← check_ip addr;
        if used : bool then next else mret addr
      else next
  end.

(** The first address that can be handed out, 0 when there is none.  The loop
    takes one round for each address of the range, and one to see its end. *)
Definition find_address (check_expired : bool) : M dhcpd Z :=
  router ← router_ip;
  start ← cfg sc_start;
  e ← cfg sc_end;
  find_address_loop (Z.to_nat (e - start) + 2) start router check_expired.
End server.
