(* ===== verification/DhcpFiles.v ===== *)
(** * The DHCP server: files and IP phones ([files.c], [serverpacket.c] of udhcp)

    Writing the tables of leases to their files and reading them back, and the
    list of addresses of IP phones with the packet-filter rules that go with it. *)

From stdpp Require Import base numbers list strings.
From Stdlib Require Import ZArith Lia Bool.
From S2P Require Import Prelude CText DhcpPacket DhcpLease.

Section files.
Context (env : dhcp_env).

(** ** Files *)

Definition fopen_file : M dhcpd bool :=
  n ← gets d_opens; modify (set_dopens (S n));; mret (fopen_ok env n).

Definition file_content (path : list Z) (files : list (list Z * list Z)) : option (list Z) :=
  snd <$> (snd <$> list_find (λ f, f.1 = path) files).

Definition write_file (path content : list Z) : M dhcpd unit :=
  modify (λ s, set_dfiles ((path, content) :: filter (λ f, f.1 ≠ path) (d_files s)) s).

(** ** The addresses of IP phones

    [ipPhoneipaddr] has 255 entries; the used ones are in front of the first 0.
    The searches do not look at the size of the array. *)

Definition sip_at (i : nat) : M dhcpd Z := t ← gets ipPhoneipaddr; of_option (t !! i).

(** [Some i]: the address is at [i]; [None]: it is not among the used entries. *)
Fixpoint sip_search (n : nat) (i : nat) (yiaddr : Z) : M dhcpd (option nat) :=
  match n with
  | O => nofuel
  | S n' =>
      a ← sip_at i;
      if a =? 0 then mret None else if a =? yiaddr then mret (Some i) else sip_search n' (S i) yiaddr
  end.

Definition SIP_MAX : nat := 255.

Definition findSipaddr (yiaddr : Z) : M dhcpd Z :=
  r ← sip_search (S SIP_MAX) 0 yiaddr; mret (match r with Some _ => 1 | None => 0 end).

Fixpoint add_sip_loop (n : nat) (i : nat) (yiaddr : Z) : M dhcpd unit :=
  match n with
  | O => nofuel
  | S n' =>
      a ← sip_at i;
      if a =? 0 then modify (λ s, set_ipPhoneipaddr (<[i := yiaddr]> (ipPhoneipaddr s)) s)
      else if a =? yiaddr then mret tt else add_sip_loop n' (S i) yiaddr
  end.

Definition addSipAddr (yiaddr : Z) : M dhcpd unit := add_sip_loop (S SIP_MAX) 0 yiaddr.

Definition sizeof_szCmdMark : Z := 125.
Definition mark_cmd (op : string) (srcIp : list Z) : command :=
  cstr "iptables -t mangle " ++ cstr op ++ cstr " PREROUTING -s " ++ srcIp ++
  cstr "  -j MARK --set-mark 285212691/0xff0000ff".
Definition port_cmd (op : string) (srcIp : list Z) (port : string) : command :=
  cstr "iptables -t mangle " ++ cstr op ++ cstr " PREROUTING -s " ++ srcIp ++
  cstr " -p udp --dport  " ++ cstr port ++ cstr " -j MARK --set-mark 0x0/0xff0000ff".

(** The rules for an address that comes: [static_nat] is the character in
    /var/staticnatenable, 0 when there is no such file. *)
Definition BcmMERDataRouteRuleGW (srcIp : list Z) : M dhcpd unit :=
  system_cmd sizeof_szCmdMark (mark_cmd "-A" srcIp);;
  (if negb (static_nat env =? 49) then
     system_cmd sizeof_szCmdMark (port_cmd "-A" srcIp "123");;
     system_cmd sizeof_szCmdMark (port_cmd "-A" srcIp "69")
   else mret tt);;
  system_cmd 1024 (cstr "echo 9 > /proc/sys/net/ipv4/netfilter/ip_conntrack_dns").

(** The rules of an address that goes. *)
Definition BcmDelMERRouteRuleGW (srcIp : list Z) : M dhcpd unit :=
  system_cmd sizeof_szCmdMark (mark_cmd "-D" srcIp);;
  system_cmd sizeof_szCmdMark (port_cmd "-D" srcIp "123");;
  system_cmd sizeof_szCmdMark (port_cmd "-D" srcIp "69").

Definition bcmEnableQosVlan : M dhcpd unit :=
  q ← gets g_EnableQosVlan;
  if q =? 0 then system_cmd sizeof_szCmdMark (cstr "ethctl eth0 qos enable");; modify (set_g_EnableQosVlan 1)
  else mret tt.

Definition bcmdisableQosVlan : M dhcpd unit :=
  q ← gets g_EnableQosVlan;
  if q =? 1 then system_cmd sizeof_szCmdMark (cstr "ethctl eth0 qos disable");; modify (set_g_EnableQosVlan 0)
  else mret tt.

(** Forgets an address and moves the rest together. *)
Definition findSipAddr (yiaddr : Z) : M dhcpd unit :=
  r ← sip_search (S SIP_MAX) 0 yiaddr;
  (match r with
   | Some i => BcmDelMERRouteRuleGW (inet_ntoa yiaddr);;
               modify (λ s, set_ipPhoneipaddr (<[i := 0]> (ipPhoneipaddr s)) s)
   | None => mret tt
   end);;
  t ← gets ipPhoneipaddr;
  let used := filter (λ a, a ≠ 0) (take SIP_MAX t) in
  (if (length used =? 0)%nat then bcmdisableQosVlan else mret tt);;
  modify (set_ipPhoneipaddr (used ++ replicate (SIP_MAX - length used) 0)).

(** ** The lease file *)

(** What is written for a lease: 88 bytes. *)
Definition lease_record (l : dhcpOfferedAddr) (lease_time : Z) : list Z :=
  l_chaddr l ++ be_bytes (l_yiaddr l) ++ be_bytes lease_time ++ l_hostname l.

Fixpoint write_leases_loop (n : nat) (i curr : Z) (out : list Z) : M dhcpd (list Z) :=
  match n with
  | O => mret out
  | S n' =>
      l ← lease_at i;
      if l_yiaddr l =? 0 then write_leases_loop n' (i + 1) curr out else
      remaining ← cfg sc_remaining;
      t ← (if remaining =? 0 then mret (l_expires l) else
           e ← lease_expired env l;
           if e : bool then findSipAddr (l_yiaddr l);; mret 0 else mret (u32 (l_expires l - curr)));
      write_leases_loop n' (i + 1) curr (out ++ lease_record l t)
  end.

(** [sprintf] of the two names into 255 characters. *)
Definition notify (nf : option (list Z)) (lf : list Z) : M dhcpd unit :=
  match nf with
  | Some f => system_cmd 255 (f ++ [32] ++ lf)
  | None => mret tt
  end.

Definition write_leases : M dhcpd unit :=
  curr ← getSysUpTime env;
  ok ← fopen_file;
  if negb ok then mret tt else
  n ← cfg sc_max_leases;
  out ← write_leases_loop (Z.to_nat n) 0 curr [];
  path ← cfg sc_lease_file;
  write_file path out;;
  nf ← cfg sc_notify_file;
  notify nf path.

Fixpoint write_leases2_loop (t : list dhcpOfferedAddr) (n : nat) (i curr : Z) (out : list Z) : M dhcpd (list Z) :=
  match n with
  | O => mret out
  | S n' =>
      l ← of_option (t !! Z.to_nat i);
      if l_yiaddr l =? 0 then write_leases2_loop t n' (i + 1) curr out else
      remaining ← gets (λ s, sc_remaining (server2_config s));
      x ← (if remaining =? 0 then mret (l_expires l) else
           e ← lease_expired env l;
           if e : bool then mret 0 else mret (u32 (l_expires l - curr)));
      write_leases2_loop t n' (i + 1) curr (out ++ lease_record l x)
  end.

Definition write_leases2 : M dhcpd unit :=
  curr ← getSysUpTime env;
  ok ← fopen_file;
  if negb ok then mret tt else
  c ← gets server2_config;
  t ← gets leases2;
  out ← write_leases2_loop t (Z.to_nat (sc_max_leases c)) 0 curr [];
  write_file (sc_lease_file c) out;;
  notify (sc_notify_file c) (sc_lease_file c).

(** One round of [read_leases]: 152 bytes of the file are a
    [struct dhcpOfferedAddr]; those in the range of the pool are taken.  The
    tables are arguments: the two functions differ in nothing else. *)
Fixpoint read_leases_loop (n : nat) (i curr : Z) (c : server_config_t) (file : list Z)
    (t : list dhcpOfferedAddr) : M dhcpd (list dhcpOfferedAddr) :=
  match n with
  | O => nofuel
  | S n' =>
      if sc_max_leases c <=? i then mret t else
      match buf_read file 0 sizeof_dhcpOfferedAddr with
      | None => mret t
      | Some r =>
          let rest := drop (Z.to_nat sizeof_dhcpOfferedAddr) file in
          let yi := be32 (drop 16 r) in
          if (sc_start c <=? yi) && (yi <=? sc_end c) then
            l ← of_option (t !! Z.to_nat i);
            let e := be32 (drop 20 r) in
            let l' := {| l_chaddr := take 16 r; l_yiaddr := yi;
                         l_expires := if sc_remaining c =? 0 then e else u32 (e + curr);
                         l_hostname := l_hostname l |} in
            read_leases_loop n' (i + 1) curr c rest (<[Z.to_nat i := l']> t)
          else read_leases_loop n' i curr c rest t
      end
  end.

Definition read_leases : M dhcpd unit :=
  curr ← getSysUpTime env;
  ok ← fopen_file;
  if negb ok then mret tt else
  c ← gets server_config;
  fs ← gets d_files;
  match file_content (sc_lease_file c) fs with
  | None => mret tt
  | Some file =>
      t ← gets leases;
      t' ← read_leases_loop (S (length file)) 0 curr c file t;
      modify (set_leases t')
  end.

Definition read_leases2 : M dhcpd unit :=
  curr ← getSysUpTime env;
  ok ← fopen_file;
  if negb ok then mret tt else
  c ← gets server2_config;
  fs ← gets d_files;
  match file_content (sc_lease_file c) fs with
  | None => mret tt
  | Some file =>
      t ← gets leases2;
      t' ← read_leases_loop (S (length file)) 0 curr c file t;
      modify (set_leases2 t')
  end.
End files.
