(* ===== verification/DhcpVi.v ===== *)
(** * The DHCP server: option 125 ([options.c], [files.c] of udhcp)

    The gateway's identity that is sent, and the list of the devices that sent
    theirs.  The list and its strings are modelled as they lie in memory, so that
    a use of freed memory is visible. *)

From stdpp Require Import base numbers list strings gmap.
From Stdlib Require Import ZArith Lia Bool.
From S2P Require Import Prelude CText DhcpPacket DhcpLease DhcpFiles.

Definition VENDOR_ADSL_FORUM_ENTERPRISE_NUMBER : Z := 3561.
Definition VENDOR_ENTERPRISE_LEN : Z := 4.
Definition VENDOR_IDENTIFYING_INFO_LEN : Z := 142.
Definition VENDOR_IDENTIFYING_OPTION_CODE : Z := 125.
Definition VENDOR_OPTION_DATA_OFFSET : Z := 7.
Definition VENDOR_SUBCODE_AND_LEN_BYTES : Z := 2.
Definition VENDOR_IDENTIFYING_FOR_GATEWAY : Z := 1.
Definition VENDOR_IDENTIFYING_FOR_DEVICE : Z := 2.
Definition VENDOR_GATEWAY_OUI_MAX_LEN : Z := 6.
Definition VENDOR_GATEWAY_SERIAL_NUMBER_MAX_LEN : Z := 64.
Definition VENDOR_GATEWAY_PRODUCT_CLASS_MAX_LEN : Z := 64.

(** "%02x" of a byte, "%x" of a number. *)
Definition hex_lower (d : Z) : Z := if d <? 10 then 48 + d else 87 + d.
Definition sprintf_02x (b : Z) : list Z := [hex_lower (b / 16); hex_lower (b mod 16)].
Fixpoint hex_digits (n : nat) (v : Z) : list Z :=
  match n with
  | O => []
  | S n' => if v <? 16 then [hex_lower v] else hex_digits n' (v / 16) ++ [hex_lower (v mod 16)]
  end.
Definition sprintf_x (v : Z) : list Z := hex_digits 8 v.

Section vi_option.
Context (env : dhcp_env).

(** ** Sending *)

(** A sub-option. *)
Definition vi_sub (subcode : Z) (str : list Z) : list Z := subcode :: Z.of_nat (length str) :: str.

(** [serialNum] holds 63 characters; the copy to [VIinfo] is five bytes longer
    than what was filled in. *)
Definition createVIoption {S} (type : Z) : M S (list Z) :=
  if 64 <=? Z.of_nat (length (serial_number env)) then fault else
  let oui := concat (map sprintf_02x (take 3 (base_mac env))) in
  let k := if type =? VENDOR_IDENTIFYING_FOR_DEVICE then 0 else 3 in
  let body := vi_sub (1 + k) oui ++ vi_sub (2 + k) (serial_number env) ++ vi_sub (3 + k) (cstr "EchoLife") in
  let totalLen := VENDOR_ENTERPRISE_LEN + 1 + Z.of_nat (length body) in
  let optionData := [VENDOR_IDENTIFYING_OPTION_CODE; u8 totalLen] ++
                    be_bytes VENDOR_ADSL_FORUM_ENTERPRISE_NUMBER ++ [u8 (totalLen - 5)] ++ body in
  if VENDOR_IDENTIFYING_INFO_LEN <? totalLen + VENDOR_OPTION_DATA_OFFSET then fault else
  mret (optionData ++ take 5 (junk env ++ replicate 5 0)).

(** ** Memory *)

Definition get_vi {A} (f : vi_state → A) : M dhcpd A := gets (λ s, f (vi s)).
Definition mod_vi (f : vi_state → vi_state) : M dhcpd unit := modify (λ s, set_vi (f (vi s)) s).

Definition with_nodes (n : gmap Z vi_info) (v : vi_state) : vi_state :=
  {| vi_nodes := n; vi_strs := vi_strs v; vi_count := vi_count v; vi_head := vi_head v;
     vi_tail := vi_tail v; vi_brk := vi_brk v |}.
Definition with_strs (t : gmap Z (list Z)) (v : vi_state) : vi_state :=
  {| vi_nodes := vi_nodes v; vi_strs := t; vi_count := vi_count v; vi_head := vi_head v;
     vi_tail := vi_tail v; vi_brk := vi_brk v |}.
Definition with_list (count head tail : Z) (v : vi_state) : vi_state :=
  {| vi_nodes := vi_nodes v; vi_strs := vi_strs v; vi_count := count; vi_head := head;
     vi_tail := tail; vi_brk := vi_brk v |}.
Definition with_brk (b : Z) (v : vi_state) : vi_state :=
  {| vi_nodes := vi_nodes v; vi_strs := vi_strs v; vi_count := vi_count v; vi_head := vi_head v;
     vi_tail := vi_tail v; vi_brk := b |}.

(** [malloc]: a new address, or 0. *)
Definition malloc (size : Z) : M dhcpd Z :=
  n ← gets d_mallocs;
  modify (set_dmallocs (S n));;
  if malloc_ok env n (u32 size) then
    b ← get_vi vi_brk; mod_vi (with_brk (b + 1));; mret b
  else mret 0.

(** [free] of a string, a null pointer included; freeing twice is a fault. *)
Definition free_str (a : Z) : M dhcpd unit :=
  if a =? 0 then mret tt else
  t ← get_vi vi_strs;
  match t !! a with
  | Some _ => mod_vi (with_strs (delete a t))
  | None => fault
  end.

Definition node (a : Z) : M dhcpd vi_info := n ← get_vi vi_nodes; of_option (n !! a).
Definition put_vi_node (a : Z) (i : vi_info) : M dhcpd unit :=
  mod_vi (λ v, with_nodes (<[a := i]> (vi_nodes v)) v).
Definition free_node (a : Z) : M dhcpd unit :=
  n ← get_vi vi_nodes;
  match n !! a with
  | Some _ => mod_vi (with_nodes (delete a n))
  | None => fault
  end.

Definition viInfoFree (a : Z) : M dhcpd unit :=
  if a =? 0 then mret tt else
  i ← node a;
  free_str (vi_oui i);;
  free_str (vi_serialNumber i);;
  free_str (vi_productClass i);;
  free_node a.

(** ** The list of devices *)

Definition vi_set_next (x : Z) (i : vi_info) : vi_info :=
  {| vi_enterprise := vi_enterprise i; vi_oui := vi_oui i; vi_serialNumber := vi_serialNumber i;
     vi_productClass := vi_productClass i; vi_ipAddr := vi_ipAddr i; vi_next := x |}.

(** The entry of an address, searched from [p] on. *)
Fixpoint vi_find (n : nat) (p ip : Z) : M dhcpd (option Z) :=
  match n with
  | O => nofuel
  | S n' =>
      if p =? 0 then mret None else
      i ← node p;
      if vi_ipAddr i =? ip then mret (Some p) else vi_find n' (vi_next i) ip
  end.

Definition addViToList (pNew : Z) : M dhcpd unit :=
  new ← node pNew;
  count ← get_vi vi_count;
  head ← get_vi vi_head;
  nodes ← get_vi vi_nodes;
  existing ← (if 0 <? count then vi_find (S (size nodes)) head (vi_ipAddr new) else mret None);
  match existing with
  | Some p => put_vi_node p new;; viInfoFree pNew
  | None =>
      tail ← get_vi vi_tail;
      (if head =? 0 then mod_vi (with_list (count + 1) pNew pNew)
       else last ← node tail;
            put_vi_node tail (vi_set_next pNew last);;
            mod_vi (with_list (count + 1) head pNew))
  end.

(** [fprintf] of a string: "(null)" for a null pointer. *)
Definition print_str (a : Z) : M dhcpd (list Z) :=
  if a =? 0 then mret (cstr "(null)") else
  t ← get_vi vi_strs; bs ← of_option (t !! a); mret (c_string bs).

(** [strcpy (a, "")]. *)
Definition empty_str (a : Z) : M dhcpd unit :=
  t ← get_vi vi_strs;
  match t !! a with
  | Some (_ :: bs) => mod_vi (with_strs (<[a := 0 :: bs]> t))
  | _ => fault
  end.

Fixpoint write_vi_loop (n : nat) (p : Z) (out : list Z) : M dhcpd (list Z) :=
  match n with
  | O => nofuel
  | S n' =>
      if p =? 0 then mret out else
      i ← node p;
      q ← find_lease_by_yiaddr (vi_ipAddr i);
      expired ← match q with
                | Some k => l ← lease_at k; lease_expired env l
                | None => mret false
                end;
      (if expired : bool
       then empty_str (vi_oui i);; empty_str (vi_serialNumber i);; empty_str (vi_productClass i)
       else mret tt);;
      oui ← print_str (vi_oui i);
      serial ← print_str (vi_serialNumber i);
      class ← print_str (vi_productClass i);
      write_vi_loop n' (vi_next i)
        (out ++ cstr "IPaddr " ++ sprintf_x (vi_ipAddr i) ++ cstr " Enterprise " ++
         sprintf_d (s32 (vi_enterprise i)) ++ cstr " OUI " ++ oui ++ cstr " SerialNumber " ++ serial ++
         cstr " ProductClass " ++ class ++ [10])
  end.

Definition vi_file : list Z := cstr "/var/udhcpd/managable.device".

Definition write_viTable : M dhcpd unit :=
  ok ← fopen_file env;
  if negb ok then mret tt else
  count ← get_vi vi_count;
  head ← get_vi vi_head;
  nodes ← get_vi vi_nodes;
  let first := cstr "NumberOfDevices " ++ sprintf_d count ++ [10] in
  out ← (if 0 <? count then write_vi_loop (S (size nodes)) head first else mret first);
  write_file vi_file out.

(** ** Receiving *)

Definition vi_set_sub (kind a : Z) (i : vi_info) : vi_info :=
  {| vi_enterprise := vi_enterprise i;
     vi_oui := if kind =? 1 then a else vi_oui i;
     vi_serialNumber := if kind =? 2 then a else vi_serialNumber i;
     vi_productClass := if kind =? 3 then a else vi_productClass i;
     vi_ipAddr := vi_ipAddr i; vi_next := vi_next i |}.

(** Subcodes 1 and 4 are OUIs, 2 and 5 serial numbers, 3 and 6 product classes;
    0 is any other. *)
Definition vi_kind (subcode : Z) : Z :=
  if (1 <=? subcode) && (subcode <=? 6) then (subcode - 1) mod 3 + 1 else 0.

Definition vi_max (kind : Z) : Z :=
  if kind =? 1 then VENDOR_GATEWAY_OUI_MAX_LEN
  else if kind =? 2 then VENDOR_GATEWAY_SERIAL_NUMBER_MAX_LEN else VENDOR_GATEWAY_PRODUCT_CLASS_MAX_LEN.

(** Frees what was allocated for an entry; 0 pointers are skipped. *)
Definition vi_error (pInfo : Z) (i : vi_info) : M dhcpd Z :=
  free_str (vi_oui i);; free_str (vi_serialNumber i);; free_str (vi_productClass i);;
  free_node pInfo;; mret (-1).

(** The three sub-options; [None] after [viError].  Characters are signed, so a
    length above 127 is negative and passes the test of the length. *)
Fixpoint vi_parse (n : nat) (packet : list Z) (optionPtr pInfo : Z) (i : vi_info) : M dhcpd (option vi_info) :=
  match n with
  | O => mret (Some i)
  | S n' =>
      sub ← peek packet optionPtr;
      len ← peek packet (optionPtr + 1);
      let sublen := s8 len in
      let kind := vi_kind (s8 sub) in
      if kind =? 0 then vi_error pInfo i;; mret None else
      if vi_max kind <? sublen then vi_error pInfo i;; mret None else
      a ← malloc (sublen + 1);
      if a =? 0 then vi_error pInfo (vi_set_sub kind 0 i);; mret None else
      bs ← get_bytes packet (optionPtr + 2) sublen;
      mod_vi (λ v, with_strs (<[a := bs ++ [0]]> (vi_strs v)) v);;
      vi_parse n' packet (optionPtr + 2 + sublen) pInfo (vi_set_sub kind a i)
  end.

(** [option] is a pointer into the message.  The message to the TR-069 client at
    the end, whose result the code ignores, changes nothing the server looks at and
    is left out. *)
Definition saveVIoption (packet : list Z) (option : option Z) (ipAddr : Z) : M dhcpd Z :=
  match option with
  | None => mret (-1)
  | Some q =>
      pInfo ← malloc 24;
      if pInfo =? 0 then fault else
      e ← load32 packet q;
      let i0 := {| vi_enterprise := e; vi_oui := 0; vi_serialNumber := 0; vi_productClass := 0;
                   vi_ipAddr := ipAddr; vi_next := 0 |} in
      put_vi_node pInfo i0;;
      r ← vi_parse 3 packet (q + VENDOR_ENTERPRISE_LEN + 1) pInfo i0;
      match r with
      | None => mret (-1)
      | Some i =>
          put_vi_node pInfo i;;
          addViToList pInfo;;
          write_viTable;;
          mret 0
      end
  end.

(** [viListFree]. *)
Fixpoint vi_list_free_loop (n : nat) (p : Z) : M dhcpd unit :=
  match n with
  | O => nofuel
  | S n' =>
      if p =? 0 then mret tt else
      i ← node p;
      mod_vi (λ v, with_list (vi_count v) (vi_next i) (vi_tail v) v);;
      viInfoFree p;;
      vi_list_free_loop n' (vi_next i)
  end.

Definition viListFree : M dhcpd unit :=
  nodes ← get_vi vi_nodes;
  head ← get_vi vi_head;
  vi_list_free_loop (S (size nodes)) head;;
  mod_vi (λ v, with_list 0 (vi_head v) (vi_tail v) v).
End vi_option.
