(* ===== verification/DhcpServer.v ===== *)
(** * The DHCP server: replies ([serverpacket.c] of udhcp)

    Offers, acknowledgements and refusals: the choice of the address, the options
    of a reply and the way it is sent. *)

From stdpp Require Import base numbers list strings.
From Stdlib Require Import ZArith Lia Bool.
From S2P Require Import Prelude CText DhcpPacket DhcpLease DhcpFiles DhcpVi.

Definition SERVER_PORT : Z := 67.
Definition CLIENT_PORT : Z := 68.
Definition DHCPDISCOVER : Z := 1.
Definition DHCPOFFER : Z := 2.
Definition DHCPREQUEST : Z := 3.
Definition DHCPDECLINE : Z := 4.
Definition DHCPACK : Z := 5.
Definition DHCPNAK : Z := 6.
Definition DHCPRELEASE : Z := 7.
Definition DHCPINFORM : Z := 8.
Definition INADDR_BROADCAST : Z := 0xffffffff.
Definition MAC_BCAST_ADDR : list Z := replicate 6 0xff.

(** [strncpy]: the characters of [src], filled up with zeros. *)
Definition strncpy_chars (src : list Z) (n : nat) : list Z := take n src ++ replicate (n - length src) 0.

(** ** Text *)

(** [strtok_r] with one separator: the non-empty pieces. *)
Fixpoint strtok_from (sep : Z) (s cur : list Z) : list (list Z) :=
  match s with
  | [] => if decide (cur = []) then [] else [cur]
  | c :: s' =>
      if c =? sep then (if decide (cur = []) then [] else [cur]) ++ strtok_from sep s' []
      else strtok_from sep s' (cur ++ [c])
  end.
Definition strtok (sep : Z) (s : list Z) : list (list Z) := strtok_from sep s [].

(** The pieces of a string around every separator, the empty ones included. *)
Fixpoint split_from (sep : Z) (s cur : list Z) : list (list Z) :=
  match s with
  | [] => [cur]
  | c :: s' => if c =? sep then cur :: split_from sep s' [] else split_from sep s' (cur ++ [c])
  end.

Definition BUFSIZE : Z := 1025.
Definition COMMONOPTIONLEN_VDF : Z := 256.

(** The copy of a list of names to a local buffer; a longer one would have no
    terminating NUL there. *)
Definition local_copy {S} (str : list Z) : M S (list Z) :=
  if Z.of_nat (length str) <? COMMONOPTIONLEN_VDF then mret str else fault.

(** An option built in a zeroed buffer of [BUFSIZE] bytes. *)
Definition vdf_option {S} (bs : list Z) : M S (list Z) :=
  if Z.of_nat (length bs) <=? BUFSIZE then mret (bs ++ replicate (Z.to_nat BUFSIZE - length bs) 0) else fault.

Definition vdf_string {S} (code : Z) (str : list Z) : M S (list Z) :=
  vdf_option ([code; u8 (Z.of_nat (length str) + 1)] ++ str ++ [0]).

(** [strtol (s, &end, 10)] when the whole of [s] is the number. *)
Definition is_space (c : Z) : bool := (c =? 32) || ((9 <=? c) && (c <=? 13)).
Fixpoint skip_spaces (s : list Z) : list Z :=
  match s with c :: s' => if is_space c then skip_spaces s' else s | [] => [] end.
Definition strtol_whole (s : list Z) : option Z :=
  let t := skip_spaces s in
  let '(neg, ds) := match t with
                    | 45 :: t' => (true, t')
                    | 43 :: t' => (false, t')
                    | _ => (false, t)
                    end in
  if decide (ds = []) then None
  else if forallb isdigit ds then
    let v := foldl (λ acc c, acc * 10 + (c - 48)) 0 ds in Some (if neg : bool then - v else v)
  else None.

(** A piece of a dotted address. *)
Definition octet_ok (tok : list Z) : bool :=
  match tok with
  | 43 :: _ | 45 :: _ => false
  | _ => match strtol_whole tok with Some v => v <=? 255 | None => false end
  end.

(** Of the first 15 characters, in front of a comma, the first four pieces. *)
Definition ValidateIpAddress (pcIpAddr : list Z) : bool :=
  let acBuf := head (split_from 44 (take 15 pcIpAddr) []) in
  match strtok 46 (default [] acBuf) with
  | a :: b :: c :: d :: _ => octet_ok a && octet_ok b && octet_ok c && octet_ok d
  | _ => false
  end.

Section replies.
Context (env : dhcp_env).

Definition fileoption6 {S} (dns : list Z) : M S (list Z) :=
  buf ← local_copy dns;
  let toks := strtok 44 buf in
  vdf_option ([DHCP_DNS_SERVER; u8 (Z.of_nat (length toks) * 4)] ++
              concat (map (λ t, be_bytes (inet_addr env t)) toks)).

Definition fileoption120ipaddr {S} (dns : list Z) : M S (list Z) :=
  buf ← local_copy dns;
  let toks := strtok 44 buf in
  vdf_option ([DHCP_OUTBOUND_PROXY; u8 (Z.of_nat (length toks) * 4 + 1); 1] ++
              concat (map (λ t, be_bytes (inet_addr env t)) toks)).

(** A name as its labels with their lengths, and a zero. *)
Definition dns_name (tok : list Z) : list Z :=
  concat (map (λ l, u8 (Z.of_nat (length l)) :: l) (split_from 46 tok [])) ++ [0].

Definition fileoption120Domain {S} (dns : list Z) : M S (list Z) :=
  buf ← local_copy dns;
  let names := concat (map dns_name (strtok 44 buf)) in
  let total := Z.of_nat (length names) in
  vdf_option ([DHCP_OUTBOUND_PROXY; if 255 <? total + 1 then 255 else total + 1; 0] ++ names).

(** ** Sending *)

(** The packet is gone unless the result is negative. *)
Definition transmit (pkt : sent_packet) : M dhcpd Z :=
  n ← gets d_sends;
  modify (set_dsends (S n));;
  let r := send_result env n in
  (if 0 <=? r then modify (λ s, set_dsent (d_sent s ++ [pkt]) s) else mret tt);;
  mret r.

Definition raw_packet (payload : list Z) (source_ip source_port dest_ip dest_port : Z)
    (dest_arp : list Z) (ifindex : Z) : M dhcpd Z :=
  '(len, p) ← calc_length payload;
  data ← get_bytes p 0 len;
  transmit (Raw (raw_packet_bytes data source_ip source_port dest_ip dest_port) dest_arp ifindex).

Definition kernel_packet (payload : list Z) (dest_ip : Z) : M dhcpd Z :=
  '(len, p) ← calc_length payload;
  data ← get_bytes p 0 len;
  transmit (Kernel data dest_ip).

Definition send_packet_to_relay (payload : list Z) : M dhcpd Z :=
  giaddr ← load32 payload OFF_GIADDR; kernel_packet payload giaddr.

(** The address and the hardware address a reply goes to. *)
Definition client_address {S} (payload : list Z) (force_broadcast : bool) : M S (Z * list Z) :=
  ciaddr ← load32 payload OFF_CIADDR;
  flags ← load16 payload OFF_FLAGS;
  chaddr ← get_bytes payload OFF_CHADDR 6;
  mret (if force_broadcast then (INADDR_BROADCAST, MAC_BCAST_ADDR)
        else if negb (ciaddr =? 0) then (ciaddr, chaddr)
        else if negb (Z.land flags BROADCAST_FLAG =? 0) then (INADDR_BROADCAST, MAC_BCAST_ADDR)
        else (INADDR_BROADCAST, chaddr)).

Definition send_packet_to_client (payload : list Z) (force_broadcast : bool) : M dhcpd Z :=
  '(ip, mac) ← client_address payload force_broadcast;
  server ← cfg sc_server;
  ifindex ← cfg sc_ifindex;
  raw_packet payload server SERVER_PORT ip CLIENT_PORT mac ifindex.

Definition send_packet (payload : list Z) (force_broadcast : bool) : M dhcpd Z :=
  giaddr ← load32 payload OFF_GIADDR;
  if negb (giaddr =? 0) then send_packet_to_relay payload else send_packet_to_client payload force_broadcast.

(** ** The options of a reply *)

Definition simple_option (packet : list Z) (code data : Z) : M dhcpd (list Z) :=
  '(_, p) ← add_simple_option packet OFF_OPTIONS code data; mret p.
Definition string_option (packet str : list Z) : M dhcpd (list Z) :=
  '(_, p) ← add_option_string packet OFF_OPTIONS str; mret p.

Definition init_packet (oldpacket : list Z) (type : Z) : M dhcpd (list Z) :=
  xid ← get_bytes oldpacket OFF_XID 4;
  flags ← get_bytes oldpacket OFF_FLAGS 2;
  ciaddr ← get_bytes oldpacket OFF_CIADDR 4;
  giaddr ← get_bytes oldpacket OFF_GIADDR 4;
  chaddr ← get_bytes oldpacket OFF_CHADDR 16;
  let packet := [BOOTREPLY; ETH_10MB; ETH_10MB_LEN; 0] ++ xid ++ [0; 0] ++ flags ++ ciaddr ++
                replicate 4 0 ++ replicate 4 0 ++ giaddr ++ chaddr ++ replicate 64 0 ++ replicate 128 0 ++
                be_bytes DHCP_MAGIC ++ DHCP_END :: replicate 1023 0 in
  p1 ← simple_option packet DHCP_MESSAGE_TYPE type;
  server ← cfg sc_server;
  simple_option p1 DHCP_SERVER_ID server.

(** The lease and the two times derived from it, as 32-bit numbers. *)
Definition add_times (packet : list Z) (lease_time : Z) : M dhcpd (list Z) :=
  p1 ← simple_option packet DHCP_LEASE_TIME lease_time;
  p2 ← simple_option p1 DHCP_T1 (lease_time / 2);
  simple_option p2 DHCP_T2 (Z.shiftr (u32 (lease_time * 7)) 3).

(** Which configured options go into a reply; [phone] says that the answer to
    an IP phone gets its own name and time servers. *)
Definition option_wanted (opt121 phone : bool) (code : Z) : bool :=
  negb (code =? DHCP_LEASE_TIME) && negb (code =? DHCP_T1) && negb (code =? DHCP_T2) &&
  negb (code =? DHCP_STATIC_ROUTE) && negb (opt121 && (code =? DHCP_ROUTER)) &&
  negb ((code =? DHCP_DNS_SERVER) && phone) && negb ((code =? DHCP_NTP_SERVER) && phone).

Fixpoint add_wanted (opt121 phone : bool) (curr : list (list Z)) (packet : list Z) : M dhcpd (list Z) :=
  match curr with
  | [] => mret packet
  | data :: rest =>
      p ← (if option_wanted opt121 phone (set_code data) then string_option packet data else mret packet);
      add_wanted opt121 phone rest p
  end.

Definition add_configured (packet : list Z) (phone : bool) : M dhcpd (list Z) :=
  curr ← cfg sc_options;
  f ← gets flag_option121;
  let opt121 := negb (f =? 0) in
  p ← add_wanted opt121 phone curr packet;
  if opt121 then
    server ← cfg sc_server;
    string_option p ([DHCP_STATIC_ROUTE; 5; 0] ++ be_bytes server)
  else mret p.

Definition put_name (packet : list Z) (off : Z) (size : nat) (name : option (list Z)) : M dhcpd (list Z) :=
  match name with
  | Some n => put_bytes packet off (strncpy_chars n (size - 1))
  | None => mret packet
  end.

Definition add_bootp_options (packet : list Z) : M dhcpd (list Z) :=
  siaddr ← cfg sc_siaddr;
  p1 ← store32 packet OFF_SIADDR siaddr;
  sname ← cfg sc_sname;
  p2 ← put_name p1 OFF_SNAME 64 sname;
  boot ← cfg sc_boot_file;
  put_name p2 OFF_FILE 128 boot.

Definition dashed (host : list Z) : list Z := map (λ c, if c =? 46 then 45 else c) host.
Definition DOMAIN_NAME : list Z := cstr "localdomain".

(** The options 12 and 15 for the codes a client asks for; [host] is the local
    variable [szHostName], which the first use changes. *)
Fixpoint add_requested (reqs : list Z) (phone : Z) (packet host : list Z) : M dhcpd (list Z * list Z) :=
  match reqs with
  | [] => mret (packet, host)
  | r :: rest =>
      '(p1, h1) ← (if r =? DHCP_HOST_NAME then
                     let h := dashed host in
                     p ← string_option packet ([DHCP_HOST_NAME; Z.of_nat (length h)] ++ h ++
                                               replicate (126 - length h) 0);
                     mret (p, h)
                   else mret (packet, host));
      p2 ← (if (r =? DHCP_DOMAIN_NAME) && (phone =? 0) then
              string_option p1 ([DHCP_DOMAIN_NAME; 12] ++ DOMAIN_NAME ++ [0] ++ replicate 114 0)
            else mret p1);
      add_requested rest phone p2 h1
  end.

(** The codes of option 55; [None] when the client did not send it. *)
Definition request_list (oldpacket : list Z) : M dhcpd (option (list Z)) :=
  q ← get_option oldpacket DHCP_PARAM_REQ;
  match q with
  | Some a => n ← peek oldpacket (a - 1); reqs ← get_bytes oldpacket a n; mret (Some reqs)
  | None => mret None
  end.

Definition opt_string (packet : list Z) (code : Z) (str : option (list Z)) : M dhcpd (list Z) :=
  match str with
  | Some t => o ← vdf_string code t; string_option packet o
  | None => mret packet
  end.

(** The options for an IP phone. *)
Definition add_phone_options (packet : list Z) : M dhcpd (list Z) :=
  c ← gets server_config;
  p1 ← opt_string packet DHCP_DOMAIN_NAME (sc_pIPPhoneDomainName c);
  p2 ← match sc_pIPPhoneDNSServers c with
       | Some d => o ← fileoption6 d; string_option p1 o
       | None => mret p1
       end;
  p3 ← match sc_pIPPhoneTFTPServer c with
       | Some t => opt_string p2 DHCP_TFTP_SERVER_VDF (Some t)
       | None => opt_string p2 DHCP_TFTP_SERVER_VDF (sc_pIPPhoneTFTPServerName c)
       end;
  match sc_pOutBoundProxy c with
  | Some x => o ← (if ValidateIpAddress x then fileoption120ipaddr x else fileoption120Domain x);
              string_option p3 o
  | None => mret p3
  end.

Definition add_phone_ntp (packet : list Z) (reqs : option (list Z)) : M dhcpd (list Z) :=
  c ← gets server_config;
  match reqs with
  | Some rs =>
      if bool_decide (DHCP_NTP_SERVER ∈ rs) && negb (sc_iPPhoneNtp1 c =? 0) then
        o ← vdf_option (if sc_iPPhoneNtp2 c =? 0
                        then [DHCP_NTP_SERVER; 4] ++ be_bytes (sc_iPPhoneNtp1 c)
                        else [DHCP_NTP_SERVER; 8] ++ be_bytes (sc_iPPhoneNtp1 c) ++ be_bytes (sc_iPPhoneNtp2 c));
        string_option packet o
      else mret packet
  | None => mret packet
  end.

(** The gateway's identity, when the client sent its own. *)
Definition add_identity (packet : list Z) (req : option Z) : M dhcpd (list Z) :=
  match req with
  | Some _ => o ← createVIoption env VENDOR_IDENTIFYING_FOR_GATEWAY; string_option packet o
  | None => mret packet
  end.

(** ** The replies *)

(** The address a client asks for, if it is in the range, not reserved and not
    taken by a lease that runs. *)
Definition requested_free (oldpacket : list Z) : M dhcpd (option Z) :=
  req ← get_option oldpacket DHCP_REQUESTED_IP;
  match req with
  | None => mret None
  | Some q =>
      r ← load32 oldpacket q;
      c ← gets server_config;
      if negb ((sc_start c <=? r) && (r <=? sc_end c)) then mret None else
      res ← reservedIp r;
      if res =? 0 then mret None else
      ok ← not_taken env r true;
      mret (if ok : bool then Some r else None)
  end.

(** The address to offer and the time that is left of a lease the client has. *)
Definition choose_address (oldpacket chaddr : list Z) (router : Z) : M dhcpd (Z * Z) :=
  lease ← cfg sc_lease;
  known ← find_lease_by_chaddr chaddr;
  match known with
  | Some i =>
      l ← lease_at i;
      e ← lease_expired env l;
      if e : bool then mret (l_yiaddr l, lease)
      else now ← getSysUpTime env; mret (l_yiaddr l, u32 (l_expires l - now))
  | None =>
      req ← requested_free oldpacket;
      match req with
      | Some r =>
          server ← cfg sc_server;
          if negb (r =? server) && negb (r =? router) then mret (r, lease)
          else a ← find_address env false; mret (a, lease)
      | None =>
          a ← find_address env false;
          if negb (a =? 0) then mret (a, lease) else
          b ← find_address env true; mret (b, lease)
      end
  end.

Definition sendOffer (oldpacket : list Z) : M dhcpd Z :=
  router ← router_ip;
  packet ← init_packet oldpacket DHCPOFFER;
  chaddr ← get_bytes oldpacket OFF_CHADDR 16;
  '(yiaddr, t0) ← choose_address oldpacket chaddr router;
  if yiaddr =? 0 then mret (-1) else
  c ← gets server_config;
  added ← add_lease env chaddr yiaddr (sc_offer_time c);
  match added with
  | None => mret (-1)
  | Some _ =>
      lt ← get_option oldpacket DHCP_LEASE_TIME;
      t1 ← match lt with
           | Some q => t ← load32 oldpacket q; mret (if sc_lease c <? t then sc_lease c else t)
           | None => mret t0
           end;
      let t := if t1 <? sc_min_lease c then sc_lease c else t1 in
      p0 ← store32 packet OFF_YIADDR yiaddr;
      p1 ← add_times p0 t;
      phone ← gets bIpphone;
      p2 ← add_configured p1 (phone =? 1);
      p3 ← add_bootp_options p2;
      vireq ← get_option oldpacket DHCP_VENDOR_IDENTIFYING;
      p4 ← add_identity p3 vireq;
      reqs ← request_list oldpacket;
      '(p5, _) ← add_requested (default [] reqs) phone p4 (inet_ntoa yiaddr);
      p6 ← (if phone =? 1 then q ← add_phone_options p5; add_phone_ntp q reqs else mret p5);
      send_packet p6 false
  end.

Definition sendNAK (oldpacket : list Z) : M dhcpd Z :=
  packet ← init_packet oldpacket DHCPNAK;
  p ← string_option packet ([DHCP_MESSAGE; 4] ++ cstr "000" ++ [0]);
  send_packet p true.

(** What is done for an IP phone apart from the options: [host] is
    [szHostName]. *)
Definition phone_rules (yiaddr : Z) (host : list Z) : M dhcpd unit :=
  q ← cfg sc_iIPPhoneVLANQoSEnable;
  (if q =? 1 then bcmEnableQosVlan else mret tt);;
  known ← findSipaddr yiaddr;
  if known =? 0 then BcmMERDataRouteRuleGW env host;; addSipAddr yiaddr else mret tt.

Definition ack_time (c : server_config_t) (t : Z) : Z :=
  if sc_lease c <? t then sc_lease c else if t <? sc_min_lease c then sc_lease c else t.

Definition sendACK (oldpacket : list Z) (yiaddr : Z) : M dhcpd Z :=
  c ← gets server_config;
  packet ← init_packet oldpacket DHCPACK;
  p0 ← store32 packet OFF_YIADDR yiaddr;
  lt ← get_option oldpacket DHCP_LEASE_TIME;
  t ← match lt with
      | Some q => t ← load32 oldpacket q; mret (ack_time c t)
      | None => mret (sc_lease c)
      end;
  p1 ← add_times p0 t;
  phone ← gets bIpphone;
  p2 ← add_configured p1 (phone =? 1);
  p3 ← add_bootp_options p2;
  vireq ← get_option oldpacket DHCP_VENDOR_IDENTIFYING;
  p4 ← add_identity p3 vireq;
  (match vireq with
   | Some _ => saveVIoption env oldpacket vireq yiaddr;; mret tt
   | None => mret tt
   end);;
  reqs ← request_list oldpacket;
  '(p5, host) ← add_requested (default [] reqs) phone p4 (inet_ntoa yiaddr);
  p6 ← (if phone =? 1 then
          q ← add_phone_options p5;
          phone_rules yiaddr host;;
          add_phone_ntp q reqs
        else mret p5);
  chaddr ← get_bytes oldpacket OFF_CHADDR 16;
  r ← send_packet p6 false;
  if r <? 0 then mret (-1) else
  add_lease env chaddr yiaddr t;;
  mret 0.

Definition send_inform (oldpacket : list Z) : M dhcpd Z :=
  lease ← cfg sc_lease;
  packet ← init_packet oldpacket DHCPACK;
  p1 ← add_times packet lease;
  p2 ← add_configured p1 false;
  p3 ← add_bootp_options p2;
  send_packet p3 false.
End replies.
