(* ===== verification/DhcpMain.v ===== *)
(** * The DHCP server: messages ([dhcpd.c] of udhcp)

    What the server does with a message: the choice of the address pool, the
    log of what the client reports, and the state of the lease.  A round of the
    main loop handles one event. *)

From stdpp Require Import base numbers list strings.
From Stdlib Require Import ZArith Lia Bool.
From S2P Require Import Prelude CText DhcpPacket DhcpLease DhcpFiles DhcpVi DhcpServer.

(** ** Vendor classes *)

(** [strstr]: the first place of [needle] in [hay]. *)
Fixpoint strstr_at (hay needle : list Z) : option nat :=
  if decide (take (length needle) hay = needle) then Some O else
  match hay with
  | [] => None
  | _ :: hay' => S <$> strstr_at hay' needle
  end.

(** Is [name] an entry of the list, whose entries are separated by '%'?  Only its
    first place in the list is looked at.  [None]: it is nowhere in the list. *)
Definition listed (config name : list Z) : option bool :=
  match strstr_at config name with
  | None => None
  | Some k =>
      let behind := nth (k + length name) config 0 in
      Some (((behind =? 37) || (behind =? 0)) &&
            match k with O => true | S k' => nth k' config 0 =? 37 end)
  end.

(** [opt60_len] is the length of the option as a signed character. *)
Definition isOption60Correct {S} (config : list Z) (packet : list Z) (vendorid opt60_len : Z) : M S bool :=
  if (0 <? opt60_len) && (opt60_len <? 128) then
    bs ← get_bytes packet vendorid opt60_len;
    mret (default false (listed config (c_string bs)))
  else mret false.

(** A lease in the active table or in the other one. *)
Inductive lease_ptr : Type := InFirst (i : Z) | InSecond (i : Z).

(** What [select] and [get_packet] bring: a message, the end of the waiting time,
    or an error of [select]. *)
Inductive event : Type :=
| Received (bytes : option (list Z))
| TimedOut
| SelectFailed.

Section server.
Context (env : dhcp_env).

(** ** The second address pool *)

(** The configuration while a message of the second pool is handled. *)
Definition second_config (c c2 : server_config_t) : server_config_t :=
  {| sc_server := sc_server c2; sc_start := sc_start c2; sc_end := sc_end c2;
     sc_reservedAddr := sc_reservedAddr c; sc_options := sc_options c2;
     sc_interface := sc_interface c2; sc_ifindex := sc_ifindex c2; sc_arp := sc_arp c;
     sc_lease := sc_lease c; sc_max_leases := sc_max_leases c; sc_remaining := sc_remaining c;
     sc_auto_time := sc_auto_time c; sc_decline_time := sc_decline_time c;
     sc_offer_time := sc_offer_time c; sc_min_lease := sc_min_lease c; sc_lease_file := sc_lease_file c;
     sc_notify_file := sc_notify_file c; sc_siaddr := sc_siaddr c; sc_sname := sc_sname c;
     sc_boot_file := sc_boot_file c; sc_pIPPhoneDomainName := sc_pIPPhoneDomainName c;
     sc_pIPPhoneDNSServers := sc_pIPPhoneDNSServers c; sc_pIPPhoneTFTPServer := sc_pIPPhoneTFTPServer c;
     sc_pIPPhoneTFTPServerName := sc_pIPPhoneTFTPServerName c; sc_pOutBoundProxy := sc_pOutBoundProxy c;
     sc_pDhcpOpt60 := sc_pDhcpOpt60 c; sc_iIPPhoneVLANQoSEnable := sc_iIPPhoneVLANQoSEnable c;
     sc_iPPhoneNtp1 := sc_iPPhoneNtp1 c; sc_iPPhoneNtp2 := sc_iPPhoneNtp2 c;
     sc_vendorid := sc_vendorid c2 |}.

(** Does the message belong to the second pool? *)
Definition for_second (packet : list Z) : M dhcpd bool :=
  v ← get_option packet DHCP_VENDOR;
  e2 ← gets g_enblSrv2;
  c2 ← gets server2_config;
  match sc_vendorid c2, v with
  | Some config, Some q =>
      if e2 =? 0 then mret false else
      l ← peek packet (q - 1);
      isOption60Correct config packet q (s8 l)
  | _, _ => mret false
  end.

Definition enter_second (s : dhcpd) : dhcpd :=
  set_leases (leases2 s) (set_tmpls (leases s)
    (set_server_config (second_config (server_config s) (server2_config s))
      (set_tmpSrvCfg (server_config s) s))).

(** The whole configuration in use becomes that of the second pool. *)
Definition leave_second (s : dhcpd) : dhcpd :=
  set_leases (tmpls s) (set_leases2 (leases s)
    (set_server_config (tmpSrvCfg s) (set_server2_config (server_config s) s))).

(** ** What the client reports *)

(** The data of an option of 1 to 127 bytes, copied to a local buffer of [size]
    bytes for the log. *)
Definition report (packet : list Z) (code size : Z) : M dhcpd (option (list Z)) :=
  q ← get_option packet code;
  match q with
  | None => mret None
  | Some a =>
      l ← peek packet (a - 1);
      let iLen := s8 l in
      if (0 <? iLen) && (iLen <? 128) then
        bs ← get_bytes packet a iLen;
        if size <? iLen then fault else mret (Some bs)
      else mret None
  end.

(** Is the client an IP phone? *)
Definition detect_phone (info : option (list Z)) : M dhcpd unit :=
  opt60 ← cfg sc_pDhcpOpt60;
  match info, opt60 with
  | Some bs, Some config =>
      match listed config (c_string bs) with
      | Some true => modify (set_UseIpPhoneVlan 1);; modify (set_bIpphone 1)
      | Some false => mret tt
      | None => if forallb (λ b, b =? 0xff) bs then modify (set_bIpphone 1) else mret tt
      end
  | _, _ => mret tt
  end.

(** The options that are logged: [szUserClassInfo] has 128 bytes, the address of
    option 50 has 4. *)
Definition report_options (packet : list Z) : M dhcpd unit :=
  modify (set_bIpphone 0);;
  modify (set_UseIpPhoneVlan 0);;
  report packet DHCP_HOST_NAME 128;;
  report packet DHCP_DOMAIN_NAME 128;;
  report packet DHCP_REQUESTED_IP 4;;
  info ← report packet DHCP_VENDOR 128;
  detect_phone info;;
  report packet DHCP_CLIENT_ID 128;;
  report packet DHCP_USER_CLASS 128;;
  mret tt.

(** ** The messages *)

Definition get_l (p : lease_ptr) : M dhcpd dhcpOfferedAddr :=
  match p with
  | InFirst i => lease_at i
  | InSecond i => t ← gets leases2; of_option (t !! Z.to_nat i)
  end.

Definition put_l (p : lease_ptr) (l : dhcpOfferedAddr) : M dhcpd unit :=
  match p with
  | InFirst i => put_lease i l
  | InSecond i => modify (λ s, set_leases2 (<[Z.to_nat i := l]> (leases2 s)) s)
  end.

(** The lease of the client, in the active table or else in that of the second
    pool. *)
Definition find_lease (chaddr : list Z) : M dhcpd (option lease_ptr) :=
  a ← find_lease_by_chaddr chaddr;
  match a with
  | Some i => mret (Some (InFirst i))
  | None => b ← find_lease_two_by_chaddr chaddr; mret (InSecond <$> b)
  end.

Definition set_hostname (h : list Z) (l : dhcpOfferedAddr) : dhcpOfferedAddr :=
  {| l_chaddr := l_chaddr l; l_yiaddr := l_yiaddr l; l_expires := l_expires l; l_hostname := h |}.
Definition set_expires (e : Z) (l : dhcpOfferedAddr) : dhcpOfferedAddr :=
  {| l_chaddr := l_chaddr l; l_yiaddr := l_yiaddr l; l_expires := e; l_hostname := l_hostname l |}.
Definition set_chaddr (c : list Z) (l : dhcpOfferedAddr) : dhcpOfferedAddr :=
  {| l_chaddr := c; l_yiaddr := l_yiaddr l; l_expires := l_expires l; l_hostname := l_hostname l |}.

(** The name of the client, through the pointer to its lease; the length is a
    signed character and [strncpy] takes it as it is. *)
Definition put_hostname (packet : list Z) (p : lease_ptr) (hostname : option Z) : M dhcpd unit :=
  l ← get_l p;
  match hostname with
  | Some q =>
      n ← peek packet (q - 1);
      let bytes := if 64 <=? s8 n then 63 else s8 n in
      src ← get_bytes packet q bytes;
      put_l p (set_hostname (strncpy_chars (c_string src) (Z.to_nat bytes) ++ [0] ++
                             drop (Z.to_nat bytes + 1) (l_hostname l)) l)
  | None => put_l p (set_hostname (0 :: drop 1 (l_hostname l)) l)
  end.

Definition load_opt (packet : list Z) (q : option Z) : M dhcpd (option Z) :=
  match q with Some a => v ← load32 packet a; mret (Some v) | None => mret None end.

Definition ack (packet : list Z) (yiaddr : Z) : M dhcpd unit := sendACK env packet yiaddr;; mret tt.
Definition nak (packet : list Z) : M dhcpd unit := sendNAK env packet;; mret tt.

Definition handle_request (packet : list Z) (lease : option lease_ptr) : M dhcpd unit :=
  rq ← get_option packet DHCP_REQUESTED_IP;
  sid ← get_option packet DHCP_SERVER_ID;
  hostname ← get_option packet DHCP_HOST_NAME;
  requested ← load_opt packet rq;
  server_id ← load_opt packet sid;
  report_options packet;;
  match lease with
  | None => nak packet
  | Some p =>
      l ← get_l p;
      server ← cfg sc_server;
      ciaddr ← load32 packet OFF_CIADDR;
      (match server_id, requested with
       | Some id, Some r =>
           if (id =? server) && (r =? l_yiaddr l) then ack packet (l_yiaddr l) else mret tt
       | Some _, None => mret tt
       | None, Some r => if l_yiaddr l =? r then ack packet (l_yiaddr l) else nak packet
       | None, None => if l_yiaddr l =? ciaddr then ack packet (l_yiaddr l) else nak packet
       end);;
      put_hostname packet p hostname
  end.

Definition handle_decline (lease : option lease_ptr) : M dhcpd unit :=
  match lease with
  | Some p =>
      l ← get_l p;
      now ← getSysUpTime env;
      t ← cfg sc_decline_time;
      put_l p (set_expires (u32 (now + t)) (set_chaddr (replicate 16 0) l))
  | None => mret tt
  end.

Definition handle_release (lease : option lease_ptr) : M dhcpd unit :=
  match lease with
  | Some p => l ← get_l p; now ← getSysUpTime env; put_l p (set_expires (u32 now) l)
  | None => mret tt
  end.

Definition handle_discover (packet : list Z) : M dhcpd unit :=
  report_options packet;; sendOffer env packet;; mret tt.

(** The body of the main loop behind [get_packet]. *)
Definition handle_state (packet : list Z) (state : Z) : M dhcpd unit :=
  chaddr ← get_bytes packet OFF_CHADDR 16;
  lease ← find_lease chaddr;
  modify (set_flag_option121 0);;
  (if state =? DHCPDISCOVER then handle_discover packet
   else if state =? DHCPREQUEST then handle_request packet lease
   else if state =? DHCPDECLINE then handle_decline lease
   else if state =? DHCPRELEASE then handle_release lease
   else if state =? DHCPINFORM then send_inform env packet;; mret tt
   else mret tt);;
  modify (set_flag_option121 0).

Definition handle_packet (packet : list Z) : M dhcpd unit :=
  st ← get_option packet DHCP_MESSAGE_TYPE;
  match st with
  | None => mret tt
  | Some q =>
      state ← peek packet q;
      second ← for_second packet;
      e1 ← gets g_enblSrv1;
      if second : bool then
        modify enter_second;;
        handle_state packet state;;
        again ← for_second packet;
        if again : bool then modify leave_second else mret tt
      else if e1 =? 0 then mret tt
      else
        handle_state packet state;;
        again ← for_second packet;
        if again : bool then modify leave_second else mret tt
  end.

Definition write_both : M dhcpd unit := write_leases env;; write_leases2 env.

(** A round of the main loop with an open socket ([server_turn] of [DhcpStart] opens
    it, or ends the server); [timeout_end] is the local variable, an unsigned long. *)
Definition server_round (ev : event) (timeout_end : Z) : M dhcpd Z :=
  auto_time ← cfg sc_auto_time;
  te ← (if auto_time =? 0 then mret timeout_end else
        now ← getSysUpTime env;
        if s32 (timeout_end - now) <=? 0 then
          now2 ← getSysUpTime env;
          write_both;;
          mret (u32 (now2 + auto_time))
        else mret timeout_end);
  match ev with
  | TimedOut =>
      write_both;;
      now ← getSysUpTime env;
      mret (u32 (now + auto_time))
  | SelectFailed => mret te
  | Received bytes =>
      p ← get_packet bytes;
      match p with
      | Some packet => handle_packet packet;; mret te
      | None => mret te
      end
  end.
End server.
