(* ===== verification/DhcpTable.v ===== *)
(** * The table of leases: proofs

    What the operations of [leases.c] do to the table, as functions on lists. *)

From stdpp Require Import base numbers list.
From Stdlib Require Import ZArith Lia Bool.
From S2P Require Import Prelude CText DhcpPacket DhcpLease.

(** ** Frames *)

(** The parts of a configuration that [read_interface] leaves alone. *)
Definition cfg_core (c : server_config_t) : server_config_t := set_server 0 (set_ifindex 0 (set_arp [] c)).

(** [calm s s']: nothing that the promises of the server depend on has changed,
    and the clock has not gone back. *)
Definition calm (s s' : dhcpd) : Prop :=
  leases s' = leases s ∧ leases2 s' = leases2 s ∧ cfg_core (server_config s') = cfg_core (server_config s) ∧
  server2_config s' = server2_config s ∧ g_enblSrv1 s' = g_enblSrv1 s ∧ g_enblSrv2 s' = g_enblSrv2 s ∧
  d_sent s' = d_sent s ∧ (d_clock s ≤ d_clock s')%nat.

#[export] Instance calm_preorder : PreOrder calm.
Proof.
  split; [by repeat split|]. intros a b c (?&?&?&?&?&?&?&?) (?&?&?&?&?&?&?&?).
  repeat split; try (by etrans); lia.
Qed.

(** [pres R m]: whenever [m] returns, the states are related. *)
Definition pres {S A} (R : S → S → Prop) (m : M S A) : Prop := ∀ s a s', m s = Done (a, s') → R s s'.

Section pres.
Context {S : Type} (R : S → S → Prop) `{!PreOrder R}.

Lemma pres_bind {A B} (m : M S A) (f : A → M S B) : pres R m → (∀ a, pres R (f a)) → pres R (m ≫= f).
Proof. intros Hm Hf s b s' (a&s1&E1&E2)%bind_Done_inv. etrans; [by eapply Hm|by eapply Hf]. Qed.

Lemma pres_ret {A} (a : A) : pres R (mret a).
Proof. intros s b s' [= _ <-]. done. Qed.

Lemma pres_gets {A} (f : S → A) : pres R (gets f).
Proof. intros s b s' [= _ <-]. done. Qed.

Lemma pres_fault {A} : pres R (fault (A := A)).
Proof. intros s b s' [=]. Qed.

Lemma pres_nofuel {A} : pres R (nofuel (A := A)).
Proof. intros s b s' [=]. Qed.

Lemma pres_of_option {A} (o : option A) : pres R (of_option o).
Proof. destruct o; [apply pres_ret|apply pres_fault]. Qed.

Lemma pres_modify (f : S → S) : (∀ s, R s (f s)) → pres R (modify f).
Proof. intros H s b s' [= _ <-]. apply H. Qed.
End pres.

Create HintDb pres.
#[export] Hint Resolve pres_ret pres_gets pres_fault pres_nofuel pres_of_option : pres.
#[export] Hint Extern 1 (PreOrder _) => exact _ : pres.

(** [pres_go]: follows the structure of a program. *)
Ltac pres_go :=
  repeat first
    [ progress intros
    | solve [eauto with pres]
    | apply pres_bind; [exact _| |intros ?]
    | match goal with
      | |- pres _ (if ?b then _ else _) => destruct b
      | |- pres _ (match ?x with _ => _ end) => destruct x
      | |- pres _ (let '(_, _) := ?x in _) => destruct x
      end ].

Section frames.
Context {R : dhcpd → dhcpd → Prop} `{!PreOrder R}.

Lemma pres_peek p i : pres R (peek p i).
Proof. unfold peek. pres_go. Qed.
Lemma pres_get_bytes p i n : pres R (get_bytes p i n).
Proof. unfold get_bytes. pres_go. Qed.
Lemma pres_put_bytes p i bs : pres R (put_bytes p i bs).
Proof. unfold put_bytes. pres_go. Qed.
Lemma pres_poke8 p i b : pres R (poke8 p i b).
Proof. unfold poke8. pres_go. Qed.
Lemma pres_cfg {A} (f : server_config_t → A) : pres R (cfg f).
Proof. unfold cfg. pres_go. Qed.
End frames.
#[export] Hint Resolve pres_peek pres_get_bytes pres_put_bytes pres_poke8 pres_cfg : pres.

Section frames2.
Context {R : dhcpd → dhcpd → Prop} `{!PreOrder R}.

Lemma pres_load32 p i : pres R (load32 p i).
Proof. unfold load32. pres_go. Qed.
Lemma pres_load16 p i : pres R (load16 p i).
Proof. unfold load16. pres_go. Qed.

Lemma pres_get_option_loop n p code o i len over curr : pres R (get_option_loop n p code o i len over curr).
Proof. revert o i len over curr. induction n as [|n IH]; intros; cbn [get_option_loop]; pres_go. Qed.
Lemma pres_get_option p code : pres R (get_option p code).
Proof. apply pres_get_option_loop. Qed.
Lemma pres_end_option_loop n p o i : pres R (end_option_loop n p o i).
Proof. revert i. induction n as [|n IH]; intros; cbn [end_option_loop]; pres_go. Qed.
Lemma pres_end_option p o : pres R (end_option p o).
Proof. apply pres_end_option_loop. Qed.
Lemma pres_lease_at i : pres R (lease_at i).
Proof. unfold lease_at. pres_go. Qed.
Lemma pres_find_loop n i t P : pres R (find_loop n i t P).
Proof. revert i. induction n as [|n IH]; intros; cbn [find_loop]; pres_go. Qed.
End frames2.
#[export] Hint Resolve pres_load32 pres_load16 pres_get_option pres_end_option pres_lease_at pres_find_loop : pres.

Section frames3.
Context {R : dhcpd → dhcpd → Prop} `{!PreOrder R}.

Lemma pres_by_chaddr c : pres R (find_lease_by_chaddr c).
Proof. unfold find_lease_by_chaddr. pres_go. Qed.
Lemma pres_two_by_chaddr c : pres R (find_lease_two_by_chaddr c).
Proof. unfold find_lease_two_by_chaddr. pres_go. Qed.
Lemma pres_by_yiaddr y : pres R (find_lease_by_yiaddr y).
Proof. unfold find_lease_by_yiaddr. pres_go. Qed.
Lemma pres_reservedIp y : pres R (reservedIp y).
Proof. unfold reservedIp. pres_go. Qed.
Lemma pres_router_ip : pres R router_ip.
Proof. unfold router_ip. pres_go. Qed.
End frames3.
#[export] Hint Resolve pres_by_chaddr pres_two_by_chaddr pres_by_yiaddr pres_reservedIp pres_router_ip : pres.

Section calm.
Context (env : dhcp_env).

Lemma calm_uptime : pres calm (getSysUpTime env).
Proof. intros s a s' [= _ <-]. repeat split; try done. simpl. lia. Qed.
Hint Resolve calm_uptime : pres.

Lemma calm_expired l : pres calm (lease_expired env l).
Proof. unfold lease_expired. pres_go. Qed.
Hint Resolve calm_expired : pres.

Lemma calm_system n cmd : pres calm (system_cmd n cmd).
Proof. unfold system_cmd. pres_go. apply pres_modify. by repeat split. Qed.

Lemma calm_read_interface : pres calm (read_interface env).
Proof.
  unfold read_interface. pres_go.
  all: apply pres_modify; intros s; by repeat split.
Qed.
Hint Resolve calm_read_interface : pres.

Lemma calm_arpping y : pres calm (arpping env y).
Proof. unfold arpping. pres_go. apply pres_modify; intros s; by repeat split. Qed.
Hint Resolve calm_arpping : pres.

Lemma calm_check_ip y : pres calm (check_ip env y).
Proof. unfold check_ip. pres_go. Qed.
Hint Resolve calm_check_ip : pres.

Lemma calm_not_taken y b : pres calm (not_taken env y b).
Proof. unfold not_taken. pres_go. Qed.
Hint Resolve calm_not_taken : pres.

Lemma calm_find_address_loop n a r b : pres calm (find_address_loop env n a r b).
Proof. revert a. induction n as [|n IH]; intros a; cbn [find_address_loop]; pres_go. Qed.

Lemma calm_find_address b : pres calm (find_address env b).
Proof. unfold find_address. pres_go. apply calm_find_address_loop. Qed.
End calm.
#[export] Hint Resolve calm_uptime calm_expired calm_system calm_read_interface calm_arpping calm_check_ip
  calm_not_taken calm_find_address : pres.

(** ** The operations on the table *)

(** The entries that are used. *)
Definition table_size (s : dhcpd) : nat := Z.to_nat (sc_max_leases (server_config s)).

Definition clears (chaddr : list Z) (yiaddr : Z) (l : dhcpOfferedAddr) : bool :=
  (negb (blank_chaddr chaddr) && same_chaddr l chaddr) || (negb (yiaddr =? 0) && (l_yiaddr l =? yiaddr)).
Definition clear_entry (chaddr : list Z) (yiaddr : Z) (l : dhcpOfferedAddr) : dhcpOfferedAddr :=
  if clears chaddr yiaddr l then no_lease else l.
Definition clear_table (n : nat) (chaddr : list Z) (yiaddr : Z) (t : list dhcpOfferedAddr) : list dhcpOfferedAddr :=
  map (clear_entry chaddr yiaddr) (take n t) ++ drop n t.

(** The first of the entries with the smallest expiry below [old]; [i] is the
    index of the first entry. *)
Fixpoint oldest_in (t : list dhcpOfferedAddr) (i old : Z) (best : option Z) : option Z :=
  match t with
  | [] => best
  | l :: t' => if l_expires l <? old then oldest_in t' (i + 1) (l_expires l) (Some i)
               else oldest_in t' (i + 1) old best
  end.

Lemma lease_at_ok i t s l : leases s = t → t !! Z.to_nat i = Some l → lease_at i s = Done (l, s).
Proof. intros <- E. unfold lease_at. rewrite bind_gets, E. done. Qed.

Lemma lease_at_inv i s l s' : lease_at i s = Done (l, s') → leases s !! Z.to_nat i = Some l ∧ s' = s.
Proof. unfold lease_at. rewrite bind_gets. by destruct (leases s !! Z.to_nat i); [intros [= <- <-]|intros [=]]. Qed.

Lemma put_lease_ok i l s : (Z.to_nat i < length (leases s))%nat →
  put_lease i l s = Done (tt, set_leases (<[Z.to_nat i := l]> (leases s)) s).
Proof. intros H. unfold put_lease. rewrite bind_gets. by rewrite decide_True. Qed.

Lemma clear_loop_ok n i c y pre t s : leases s = pre ++ t → i = Z.of_nat (length pre) → (n ≤ length t)%nat →
  clear_loop n i c y s = Done (tt, set_leases (pre ++ clear_table n c y t) s).
Proof.
  revert i pre t s. induction n as [|n IH]; intros i pre t s Ht Hi Hn; cbn [clear_loop].
  { unfold clear_table. simpl. rewrite drop_0, <- Ht. by destruct s. }
  destruct t as [|l t]; [simpl in Hn; lia|].
  assert ((pre ++ l :: t) !! Z.to_nat i = Some l) as El by (rewrite Hi, Nat2Z.id; by apply list_lookup_middle).
  mstep (lease_at_ok i _ s l Ht El). fold (clears c y l).
  assert (∃ s1, (if clears c y l then put_lease i no_lease else mret tt) s = Done (tt, s1) ∧
                s1 = set_leases ((pre ++ [clear_entry c y l]) ++ t) s) as (s1&E1&->).
  { unfold clear_entry. destruct (clears c y l).
    - rewrite put_lease_ok by (rewrite Ht, length_app; simpl; lia). eexists. split; [done|].
      rewrite Ht, Hi, Nat2Z.id, <- app_assoc. f_equal. rewrite insert_app_r_alt, Nat.sub_diag by lia. done.
    - eexists. split; [done|]. rewrite <- app_assoc. simpl. rewrite <- Ht. by destruct s. }
  mstep E1. rewrite (IH _ (pre ++ [clear_entry c y l]) t); [|done|rewrite length_app; simpl; lia|simpl in Hn; lia].
  unfold clear_table. by rewrite <- app_assoc.
Qed.

Lemma clear_lease_ok c y s : (table_size s ≤ length (leases s))%nat →
  clear_lease c y s = Done (tt, set_leases (clear_table (table_size s) c y (leases s)) s).
Proof. intros H. by apply (clear_loop_ok _ _ _ _ [] (leases s)). Qed.

Lemma oldest_loop_ok n i old best pre t s : leases s = pre ++ t → i = Z.of_nat (length pre) → (n ≤ length t)%nat →
  oldest_loop n i old best s = Done (oldest_in (take n t) i old best, s).
Proof.
  revert i old best pre t. induction n as [|n IH]; intros i old best pre t Ht Hi Hn; cbn [oldest_loop]; [done|].
  destruct t as [|l t]; [simpl in Hn; lia|].
  assert ((pre ++ l :: t) !! Z.to_nat i = Some l) as El by (rewrite Hi, Nat2Z.id; by apply list_lookup_middle).
  mstep (lease_at_ok i _ s l Ht El). cbn [take oldest_in]. simpl in Hn.
  destruct (l_expires l <? old); (apply (IH _ _ _ (pre ++ [l])); [by rewrite <- app_assoc|rewrite length_app; simpl; lia|lia]).
Qed.

Lemma oldest_in_spec t i old best r : oldest_in t i old best = r →
  (r = best ∧ Forall (λ l, old ≤ l_expires l) t) ∨
  (∃ k l, r = Some (i + Z.of_nat k) ∧ t !! k = Some l ∧ l_expires l < old).
Proof.
  revert i old best. induction t as [|l t IH]; intros i old best; simpl.
  { intros <-. left. by split. }
  destruct (Z.ltb_spec (l_expires l) old) as [Hl|Hl].
  - intros [[-> _]|(k&l'&->&Hk&He)]%IH; right.
    + exists O, l. rewrite Z.add_0_r. done.
    + exists (S k), l'. split; [f_equal; lia|]. split; [done|lia].
  - intros [[-> H]|(k&l'&->&Hk&He)]%IH; [left; split; [done|by constructor]|right].
    exists (S k), l'. split; [f_equal; lia|done].
Qed.

Section add.
Context (env : dhcp_env).

(** The table behind [add_lease]: [now] and [now2] are the two readings of the
    clock. *)
Definition lease_added (n : nat) (c : list Z) (y lease now now2 : Z) (t : list dhcpOfferedAddr)
    (r : option Z) (t' : list dhcpOfferedAddr) : Prop :=
  let t1 := clear_table n c y t in
  (r = None ∧ t' = t1 ∧ Forall (λ l, u32 now ≤ l_expires l) (take n t1)) ∨
  (∃ i l, r = Some (Z.of_nat i) ∧ (i < n)%nat ∧ t1 !! i = Some l ∧ l_expires l < u32 now ∧
     t' = <[i := {| l_chaddr := c; l_yiaddr := y; l_expires := u32 (now2 + lease); l_hostname := l_hostname l |}]> t1).

Lemma length_clear_table n c y t : length (clear_table n c y t) = length t.
Proof. unfold clear_table. rewrite length_app, length_map, length_take, length_drop. lia. Qed.

Lemma add_lease_ok c y lease s : (table_size s ≤ length (leases s))%nat →
  ∃ r t' k, add_lease env c y lease s = Done (r, set_dclock k (set_leases t' s)) ∧
    (d_clock s ≤ k)%nat ∧
    lease_added (table_size s) c y lease (clock env (d_clock s)) (clock env (S (d_clock s))) (leases s) r t'.
Proof.
  intros Hn. unfold add_lease. mstep (clear_lease_ok c y s Hn).
  set (t1 := clear_table (table_size s) c y (leases s)).
  assert (length t1 = length (leases s)) as Hl1 by apply length_clear_table.
  unfold oldest_expired_lease.
  assert (getSysUpTime env (set_leases t1 s) = Done (clock env (d_clock s), set_dclock (S (d_clock s)) (set_leases t1 s))) as E1 by done.
  set (s1 := set_dclock (S (d_clock s)) (set_leases t1 s)) in *.
  assert ((now ← getSysUpTime env; n ← cfg sc_max_leases; oldest_loop (Z.to_nat n) 0 (u32 now) None) (set_leases t1 s)
     = Done (oldest_in (take (table_size s) t1) 0 (u32 (clock env (d_clock s))) None, s1)) as E2.
  { mstep E1. unfold cfg. rewrite bind_gets. apply (oldest_loop_ok _ _ _ _ [] t1); [done|done|].
    change (table_size s ≤ length t1)%nat. lia. }
  mstep E2. destruct (oldest_in_spec _ _ _ _ _ (eq_refl (oldest_in (take (table_size s) t1) 0 (u32 (clock env (d_clock s))) None)))
    as [[-> Hall]|(k&l&Hr&Hk&He)].
  - exists None, t1, (S (d_clock s)). split; [done|]. split; [lia|]. left. done.
  - apply lookup_take_Some in Hk as [Hk Hkn]. rewrite Hr.
    mstep (lease_at_ok (0 + Z.of_nat k) t1 s1 l eq_refl ltac:(by rewrite Z.add_0_l, Nat2Z.id)).
    assert (getSysUpTime env s1 = Done (clock env (S (d_clock s)), set_dclock (S (S (d_clock s))) s1)) as E3 by done.
    mstep E3. erewrite bind_Done; [|apply put_lease_ok; cbn [leases set_dclock]; change (leases s1) with t1; lia].
    rewrite Z.add_0_l, Nat2Z.id. eexists _, _, (S (S (d_clock s))). split; [done|]. split; [lia|].
    right. exists k, l. done.
Qed.
End add.

(** ** Searching *)

Lemma find_loop_ok n i t P pre s : i = Z.of_nat (length pre) → (n ≤ length t)%nat →
  find_loop n i (pre ++ t) P s = Done ((λ x, i + Z.of_nat x.1) <$> list_find P (take n t), s).
Proof.
  revert i t pre. induction n as [|n IH]; intros i t pre Hi Hn; cbn [find_loop]; [done|].
  destruct t as [|l t]; [simpl in Hn; lia|].
  rewrite Hi, Nat2Z.id, list_lookup_middle by done. cbn [of_option]. rewrite bind_ret. rewrite <- Hi. cbn [take list_find].
  destruct (P l) eqn:E.
  - rewrite decide_True by (by rewrite ?E). simpl. by rewrite Z.add_0_r.
  - rewrite decide_False by (rewrite ?E; by intros []).
    replace (pre ++ l :: t) with ((pre ++ [l]) ++ t) by (by rewrite <- app_assoc).
    rewrite IH; [|rewrite length_app; simpl; lia|simpl in Hn; lia].
    destruct (list_find (λ x, P x) (take n t)) as [[k x]|]; simpl; [|done]. do 3 f_equal. lia.
Qed.

(** What a search returns: the first entry with the property, or none has it. *)
Definition finds (P : dhcpOfferedAddr → bool) (n : nat) (t : list dhcpOfferedAddr) (r : option Z) : Prop :=
  match r with
  | Some i => ∃ k l, i = Z.of_nat k ∧ (k < n)%nat ∧ t !! k = Some l ∧ P l = true
  | None => ∀ k l, (k < n)%nat → t !! k = Some l → P l = false
  end.

Lemma find_loop_finds n t P s r s' : find_loop n 0 t P s = Done (r, s') → finds P n t r ∧ s' = s.
Proof.
  assert (∀ m i, (∀ k l, (k < Z.to_nat i)%nat → t !! k = Some l → P l = false) → 0 ≤ i → (Z.to_nat i + m)%nat = n →
    find_loop m i t P s = Done (r, s') → finds P n t r ∧ s' = s) as G.
  { induction m as [|m IH]; intros i Hlt Hi Hm; cbn [find_loop].
    - intros [= <- <-]. split; [|done]. intros k l Hk. apply Hlt. lia.
    - destruct (t !! Z.to_nat i) as [l|] eqn:El; cbn [of_option]; [|intros [=]]. rewrite bind_ret.
      destruct (P l) eqn:EP.
      + intros [= <- <-]. split; [|done]. exists (Z.to_nat i), l. repeat split; try done; lia.
      + apply IH; [|lia|lia]. intros k l' Hk. destruct (decide (k = Z.to_nat i)) as [->|]; [by intros ?; simplify_eq|].
        apply Hlt. lia. }
  apply (G n 0); [|lia|done]. intros k l Hk. simpl in Hk. lia.
Qed.

Lemma by_chaddr_finds c s r s' : find_lease_by_chaddr c s = Done (r, s') →
  finds (λ l, same_chaddr l c) (table_size s) (leases s) r ∧ s' = s.
Proof. apply find_loop_finds. Qed.

Lemma by_yiaddr_finds y s r s' : find_lease_by_yiaddr y s = Done (r, s') →
  finds (λ l, l_yiaddr l =? y) (table_size s) (leases s) r ∧ s' = s.
Proof. apply find_loop_finds. Qed.

Lemma two_by_chaddr_finds c s r s' : find_lease_two_by_chaddr c s = Done (r, s') →
  finds (λ l, same_chaddr l c) (Z.to_nat (sc_max_leases (server2_config s))) (leases2 s) r ∧ s' = s.
Proof. apply find_loop_finds. Qed.
