(* ===== verification/DhcpReply.v ===== *)
(** * The replies of the DHCP server: proofs

    What a reply carries: the builders of [DhcpServer] append options and keep
    the addresses, and a reply is sent as it was built.  The files, the rules for
    IP phones and option 125 leave the tables of leases alone. *)

From stdpp Require Import base numbers list sets gmap.
From Stdlib Require Import ZArith Lia Bool.
From S2P Require Import Prelude CText DhcpPacket DhcpOptions DhcpLease DhcpFiles DhcpVi DhcpServer DhcpMain DhcpTable.

(** ** Fields *)

Definition fld (p : list Z) (off n : Z) : list Z := take (Z.to_nat n) (drop (Z.to_nat off) p).

(** The two addresses a promise is about, the number of the exchange and the
    magic number. *)
Definition same_addresses (p p' : list Z) : Prop :=
  fld p' OFF_YIADDR 4 = fld p OFF_YIADDR 4 ∧ fld p' OFF_CHADDR 16 = fld p OFF_CHADDR 16 ∧
  fld p' OFF_XID 4 = fld p OFF_XID 4 ∧ fld p' OFF_COOKIE 4 = fld p OFF_COOKIE 4.

#[export] Instance same_addresses_preorder : PreOrder same_addresses.
Proof. split; [done|]. intros a b c (?&?&?&?) (?&?&?&?). split_and!; by etrans. Qed.

Lemma fld_take p q off n m : take m p = take m q → 0 ≤ off → 0 ≤ n → off + n ≤ Z.of_nat m → fld p off n = fld q off n.
Proof.
  intros H Ho Hn Hm. unfold fld.
  replace (take (Z.to_nat n) (drop (Z.to_nat off) p)) with (take (Z.to_nat n) (drop (Z.to_nat off) (take m p))).
  { rewrite H. rewrite skipn_firstn_comm, take_take. f_equal. lia. }
  rewrite skipn_firstn_comm, take_take. f_equal. lia.
Qed.

Lemma same_header_addresses p p' : same_header p p' → same_addresses p p'.
Proof. intros H. split_and!; by eapply fld_take. Qed.

(** [p'] is the reply [p] with more options. *)
Definition extends (p p' : list Z) : Prop :=
  ∀ its, has_options p its → ∃ l, has_options p' (its ++ l) ∧ same_addresses p p'.

#[export] Instance extends_preorder : PreOrder extends.
Proof.
  split.
  - intros p its H. exists []. by rewrite app_nil_r.
  - intros a b c H1 H2 its (l1&Ha&S1)%H1. destruct (H2 _ Ha) as (l2&Hb&S2). exists (l1 ++ l2).
    rewrite app_assoc. split; [done|by etrans].
Qed.

(** A buffer that starts with an option. *)
Definition opt_shape (o : list Z) : Prop :=
  ∃ code data junk, o = encode_item (Opt code data) ++ junk ∧ item_ok (Opt code data).

Lemma opt_shape_intro code l rest : 0 < code < 255 → code ≠ DHCP_OPTION_OVER → 0 ≤ l ≤ 255 →
  l ≤ Z.of_nat (length rest) → opt_shape (code :: l :: rest).
Proof.
  intros Hc Ho Hl Hr. exists code, (take (Z.to_nat l) rest), (drop (Z.to_nat l) rest).
  assert (Z.of_nat (length (take (Z.to_nat l) rest)) = l) as E by (rewrite length_take; lia).
  split; [simpl; rewrite E; by rewrite take_drop|]. repeat split; try done; lia.
Qed.

(** The configured options are options. *)
Definition options_ok (s : dhcpd) : Prop := Forall opt_shape (sc_options (server_config s)).

(** [grows m p]: what [m] returns extends [p], and the state stays. *)
Definition grows (m : M dhcpd (list Z)) (p : list Z) : Prop :=
  ∀ s p' s', options_ok s → m s = Done (p', s') → s' = s ∧ extends p p'.

Section frames.
Context {R : dhcpd → dhcpd → Prop} `{!PreOrder R}.

Lemma pres_add_option_string p o str : pres R (add_option_string p o str).
Proof. unfold add_option_string. pres_go. Qed.
Lemma pres_simple_bytes n v : pres R (simple_bytes n v).
Proof. unfold simple_bytes. pres_go. Qed.
Hint Resolve pres_simple_bytes : pres.
Lemma pres_add_simple_option p o code v : pres R (add_simple_option p o code v).
Proof. unfold add_simple_option. pres_go. Qed.
Hint Resolve pres_add_option_string pres_add_simple_option : pres.
Lemma pres_string_option p str : pres R (string_option p str).
Proof. unfold string_option. pres_go. Qed.
Lemma pres_simple_option p code v : pres R (simple_option p code v).
Proof. unfold simple_option. pres_go. Qed.
End frames.
#[export] Hint Resolve pres_string_option pres_simple_option : pres.

Lemma string_option_grows p o : opt_shape o → grows (string_option p o) p.
Proof.
  intros (code&data&junk&->&Hok) s p' s' _ E. unfold string_option in E.
  apply bind_Done_inv in E as ([n q]&s1&E1&[= -> ->]).
  split.
  - symmetry. by eapply (pres_add_option_string (R := eq)).
  - intros its Hp.
    destruct (add_option_string_spec p its code data junk s Hp Hok) as [Hfit Hfull].
    destruct (decide (Z.of_nat (length (encode its)) + Z.of_nat (length data) + 3 < OPTIONS_LEN)) as [H|H].
    + destruct (Hfit H) as (p1&E2&H2&S2). rewrite E2 in E1. simplify_eq.
      exists [Opt code data]. split; [done|by apply same_header_addresses].
    + rewrite (Hfull ltac:(lia)) in E1. simplify_eq. exists []. rewrite app_nil_r. done.
Qed.

Lemma grows_ret p : grows (mret p) p.
Proof. intros s p' s' _ [= <- <-]. split; [done|reflexivity]. Qed.

(** A builder that ends with another one. *)
Lemma grows_bind (m : M dhcpd (list Z)) f p : grows m p → (∀ p', grows (f p') p') → grows (m ≫= f) p.
Proof.
  intros Hm Hf s p' s' Hs (q&s1&E1&E2)%bind_Done_inv. apply Hm in E1 as [-> H1]; [|done].
  apply Hf in E2 as [-> H2]; [|done]. split; [done|by etrans].
Qed.

(** The first action only reads. *)
Lemma grows_read {A} (m : M dhcpd A) f p : pres eq m → (∀ a, grows (f a) p) → grows (m ≫= f) p.
Proof.
  intros Hm Hf s p' s' Hs (q&s1&E1&E2)%bind_Done_inv. apply Hm in E1 as <-. by eapply Hf.
Qed.

Lemma grows_fault p : grows fault p.
Proof. by intros s p' s' _ [=]. Qed.

(** ** Writing a field of the header *)

Lemma fld_lookup p q off n : 0 ≤ off → 0 ≤ n →
  (∀ i, (Z.to_nat off ≤ i < Z.to_nat (off + n))%nat → p !! i = q !! i) → fld p off n = fld q off n.
Proof.
  intros Ho Hn H. unfold fld. apply list_eq. intros i. destruct (decide (i < Z.to_nat n)%nat) as [Hi|Hi].
  - rewrite !lookup_take_lt, !lookup_drop by done. apply H. lia.
  - rewrite !lookup_take_ge by lia. done.
Qed.

Lemma put_header p off bs p' : buf_write p off bs = Some p' → off + Z.of_nat (length bs) ≤ OFF_OPTIONS →
  (∀ its, has_options p its → has_options p' its) ∧ fld p' off (Z.of_nat (length bs)) = bs ∧
  (∀ o n, 0 ≤ o → 0 ≤ n → o + n ≤ off ∨ off + Z.of_nat (length bs) ≤ o → fld p' o n = fld p o n).
Proof.
  intros E Hb. pose proof (buf_write_length _ _ _ _ E) as Hl.
  assert (0 ≤ off) as Ho by (by apply buf_write_inv in E as (?&_)).
  assert (∀ i, ¬ (off ≤ Z.of_nat i < off + Z.of_nat (length bs)) → p' !! i = p !! i) as Hi.
  { intros i Hi. rewrite (buf_write_lookup _ _ _ _ i E). by rewrite decide_False. }
  repeat split.
  - destruct H as (Hp&_). rewrite <- Hp. by rewrite Hl.
  - by destruct H as (_&Hok&_).
  - destruct H as (_&_&rest&Hd). exists rest. rewrite <- Hd. apply list_eq. intros i. rewrite !lookup_drop.
    apply Hi. lia.
  - pose proof (buf_read_write_same _ _ _ _ E) as Hr. unfold buf_read in Hr. case_decide; [|done]. by simplify_eq.
  - intros o n Hoo Hn Hd. apply fld_lookup; [done|done|]. intros i Hii. apply Hi. lia.
Qed.

(** ** The builders *)

Lemma simple_option_ok p its code v bs s : has_options p its → item_ok (Opt code bs) → bs ≠ [] →
  simple_length code = Z.of_nat (length bs) → simple_bytes (simple_length code) v s = Done (bs, s) →
  Z.of_nat (length (encode its)) ≤ 100 → Z.of_nat (length bs) ≤ 4 →
  ∃ p', simple_option p code v s = Done (p', s) ∧ has_options p' (its ++ [Opt code bs]) ∧ same_addresses p p'.
Proof.
  intros H Hok Hne Hl Hb Hs Hs2. destruct (add_simple_option_spec p its code v bs s H Hok Hne Hl Hb) as (p'&E&H'&S').
  { unfold OPTIONS_LEN. lia. }
  exists p'. unfold simple_option. mstep E. split; [done|]. split; [done|by apply same_header_addresses].
Qed.

(** Options with a number of four bytes. *)
Lemma number_option_ok p its code v s : has_options p its →
  code ∈ [DHCP_SERVER_ID; DHCP_LEASE_TIME; DHCP_T1; DHCP_T2] → Z.of_nat (length (encode its)) ≤ 100 →
  ∃ p', simple_option p code v s = Done (p', s) ∧ has_options p' (its ++ [Opt code (be_bytes v)]) ∧ same_addresses p p'.
Proof.
  intros H Hc Hs. apply simple_option_ok; try done.
  all: rewrite !elem_of_cons, elem_of_nil in Hc; destruct Hc as [->|[->|[->|[->|[]]]]]; try done;
    repeat split; by vm_compute.
Qed.

Definition reply_base (type server : Z) : list item := [Opt DHCP_MESSAGE_TYPE [type]; Opt DHCP_SERVER_ID (be_bytes server)].
Definition reply_times (t : Z) : list item :=
  [Opt DHCP_LEASE_TIME (be_bytes t); Opt DHCP_T1 (be_bytes (t / 2)); Opt DHCP_T2 (be_bytes (Z.shiftr (u32 (t * 7)) 3))].

Lemma add_times_ok p type server t s : has_options p (reply_base type server) →
  ∃ p', add_times p t s = Done (p', s) ∧ has_options p' (reply_base type server ++ reply_times t) ∧ same_addresses p p'.
Proof.
  intros H. unfold add_times.
  destruct (number_option_ok p _ DHCP_LEASE_TIME t s H) as (p1&E1&H1&S1); [set_solver|by vm_compute|]. mstep E1.
  destruct (number_option_ok p1 _ DHCP_T1 (t / 2) s H1) as (p2&E2&H2&S2); [set_solver|by vm_compute|]. mstep E2.
  destruct (number_option_ok p2 _ DHCP_T2 (Z.shiftr (u32 (t * 7)) 3) s H2) as (p3&E3&H3&S3); [set_solver|by vm_compute|].
  exists p3. split; [done|]. split; [|by do 2 (etrans; [done|])]. by rewrite <- !app_assoc in H3.
Qed.

Lemma get_bytes_ok {S} p off n (s : S) : 0 ≤ off → 0 ≤ n → off + n ≤ Z.of_nat (length p) →
  get_bytes p off n s = Done (fld p off n, s).
Proof. intros. unfold get_bytes. by rewrite buf_read_Some. Qed.

Lemma length_fld p off n : 0 ≤ off → 0 ≤ n → off + n ≤ Z.of_nat (length p) → Z.of_nat (length (fld p off n)) = n.
Proof. intros. unfold fld. rewrite length_take, length_drop. lia. Qed.

Lemma take_app_add {A} (a b : list A) n : take (length a + n) (a ++ b) = a ++ take n b.
Proof. rewrite take_app_ge by lia. f_equal. f_equal. lia. Qed.

Lemma init_packet_ok old type s : Z.of_nat (length old) = sizeof_dhcpMessage → is_byte type →
  ∃ p, init_packet old type s = Done (p, s) ∧
    has_options p (reply_base type (sc_server (server_config s))) ∧
    fld p OFF_YIADDR 4 = replicate 4 0 ∧ fld p OFF_CHADDR 16 = fld old OFF_CHADDR 16 ∧
    fld p OFF_XID 4 = fld old OFF_XID 4 ∧ fld p OFF_COOKIE 4 = be_bytes DHCP_MAGIC.
Proof.
  intros Hl Ht. unfold init_packet.
  assert (∀ off n, 0 ≤ off → 0 ≤ n → off + n ≤ 44 → get_bytes old off n s = Done (fld old off n, s)) as G.
  { intros. apply get_bytes_ok; [done|done|]. rewrite Hl. unfold sizeof_dhcpMessage. lia. }
  assert (∀ off n, 0 ≤ off → 0 ≤ n → off + n ≤ 44 → Z.of_nat (length (fld old off n)) = n) as L.
  { intros. apply length_fld; [done|done|]. rewrite Hl. unfold sizeof_dhcpMessage. lia. }
  mstep (G OFF_XID 4 ltac:(done) ltac:(done) ltac:(done)). mstep (G OFF_FLAGS 2 ltac:(done) ltac:(done) ltac:(done)).
  mstep (G OFF_CIADDR 4 ltac:(done) ltac:(done) ltac:(done)). mstep (G OFF_GIADDR 4 ltac:(done) ltac:(done) ltac:(done)).
  mstep (G OFF_CHADDR 16 ltac:(done) ltac:(done) ltac:(done)).
  set (xid := fld old OFF_XID 4). set (flags := fld old OFF_FLAGS 2). set (ciaddr := fld old OFF_CIADDR 4).
  set (giaddr := fld old OFF_GIADDR 4). set (chaddr := fld old OFF_CHADDR 16).
  assert (length xid = 4%nat) as Lx by (specialize (L OFF_XID 4); unfold xid; unfold OFF_XID in *; lia).
  assert (length flags = 2%nat) as Lf by (specialize (L OFF_FLAGS 2); unfold flags; unfold OFF_FLAGS in *; lia).
  assert (length ciaddr = 4%nat) as Lc by (specialize (L OFF_CIADDR 4); unfold ciaddr; unfold OFF_CIADDR in *; lia).
  assert (length giaddr = 4%nat) as Lg by (specialize (L OFF_GIADDR 4); unfold giaddr; unfold OFF_GIADDR in *; lia).
  assert (length chaddr = 16%nat) as La by (specialize (L OFF_CHADDR 16); unfold chaddr; unfold OFF_CHADDR in *; lia).
  clearbody xid flags ciaddr giaddr chaddr. clear G L.
  set (a := [BOOTREPLY; ETH_10MB; ETH_10MB_LEN; 0] ++ xid ++ [0; 0] ++ flags ++ ciaddr).
  set (packet := [BOOTREPLY; ETH_10MB; ETH_10MB_LEN; 0] ++ _).
  assert (packet = a ++ replicate 4 0 ++ (replicate 4 0 ++ giaddr) ++ chaddr ++
            replicate 192 0 ++ be_bytes DHCP_MAGIC ++ DHCP_END :: replicate 1023 0) as Ep.
  { unfold packet, a. change (replicate 192 0) with (replicate 64 0 ++ replicate 128 0). by rewrite <- !app_assoc. }
  assert (length a = 16%nat) as Lla by (unfold a; rewrite !length_app; simpl; lia).
  assert (fld packet OFF_XID 4 = xid) as Fx.
  { unfold fld. rewrite Ep. unfold a. rewrite <- !app_assoc. change (drop (Z.to_nat OFF_XID) (?h ++ ?t)) with t.
    by rewrite take_app_length' by done. }
  clearbody a. assert (fld packet OFF_YIADDR 4 = replicate 4 0) as Fy.
  { unfold fld. rewrite Ep. rewrite drop_app_length' by (rewrite Lla; done). done. }
  assert (fld packet OFF_CHADDR 16 = chaddr) as Fc.
  { unfold fld. rewrite Ep.
    replace (a ++ replicate 4 0 ++ (replicate 4 0 ++ giaddr) ++ chaddr ++ replicate 192 0 ++ be_bytes DHCP_MAGIC ++ DHCP_END :: replicate 1023 0)
      with ((a ++ replicate 4 0 ++ replicate 4 0 ++ giaddr) ++ chaddr ++ replicate 192 0 ++ be_bytes DHCP_MAGIC ++ DHCP_END :: replicate 1023 0)
      by (by rewrite <- !app_assoc).
    rewrite drop_app_length' by (rewrite !length_app, Lla, Lg; done). by rewrite take_app_length' by done. }
  assert (fld packet OFF_COOKIE 4 = be_bytes DHCP_MAGIC) as Fm.
  { unfold fld. rewrite Ep.
    replace (a ++ replicate 4 0 ++ (replicate 4 0 ++ giaddr) ++ chaddr ++ replicate 192 0 ++ be_bytes DHCP_MAGIC ++ DHCP_END :: replicate 1023 0)
      with ((a ++ replicate 4 0 ++ replicate 4 0 ++ giaddr ++ chaddr ++ replicate 192 0) ++ be_bytes DHCP_MAGIC ++ DHCP_END :: replicate 1023 0)
      by (by rewrite <- !app_assoc).
    rewrite drop_app_length' by (rewrite !length_app, Lla, Lg, La, !length_replicate; done). done. }
  assert (has_options packet []) as Hp.
  { repeat split; [|constructor|].
    - rewrite Ep, !length_app, Lla, Lg, La. cbn [length]. rewrite !length_replicate. done.
    - exists (replicate 1023 0). rewrite Ep.
      replace (a ++ replicate 4 0 ++ (replicate 4 0 ++ giaddr) ++ chaddr ++ replicate 192 0 ++ be_bytes DHCP_MAGIC ++ DHCP_END :: replicate 1023 0)
        with ((a ++ replicate 4 0 ++ replicate 4 0 ++ giaddr ++ chaddr ++ replicate 192 0 ++ be_bytes DHCP_MAGIC) ++ DHCP_END :: replicate 1023 0)
        by (by rewrite <- !app_assoc).
      apply drop_app_length'. rewrite !length_app, Lla, Lg, La, !length_replicate. done. }
  clearbody packet. destruct (simple_option_ok packet [] DHCP_MESSAGE_TYPE type [type] s Hp) as (p1&E1&H1&S1); try done.
  { unfold simple_bytes. change (simple_length DHCP_MESSAGE_TYPE) with 1. simpl. unfold mret, M_ret. do 2 f_equal.
    f_equal. unfold u8. apply Z.mod_small. by unfold is_byte in Ht. }
  mstep E1. unfold cfg. rewrite bind_gets.
  destruct (number_option_ok p1 _ DHCP_SERVER_ID (sc_server (server_config s)) s H1) as (p2&E2&H2&S2); [set_solver|by vm_compute|].
  exists p2. split; [done|]. split; [done|].
  destruct S1 as (Y1&C1&X1&M1), S2 as (Y2&C2&X2&M2). split_and!; congruence.
Qed.

Lemma u8_range v : 0 ≤ u8 v ≤ 255.
Proof. unfold u8. pose proof (Z.mod_pos_bound v (2 ^ 8)). lia. Qed.

Lemma u8_le v : 0 ≤ v → u8 v ≤ v.
Proof. intros. unfold u8. apply Z.mod_le; lia. Qed.

Lemma add_wanted_grows b1 b2 curr p : Forall opt_shape curr → grows (add_wanted b1 b2 curr p) p.
Proof.
  intros H. revert p. induction H as [|o curr Ho _ IH]; intros p; cbn [add_wanted]; [apply grows_ret|].
  apply grows_bind; [|intros p'; apply IH].
  destruct (option_wanted b1 b2 (set_code o)); [by apply string_option_grows|apply grows_ret].
Qed.

Lemma add_configured_grows p b : grows (add_configured p b) p.
Proof.
  intros s p' s' Hs E. unfold add_configured, cfg in E. rewrite !bind_gets in E. revert E.
  generalize (negb (flag_option121 s =? 0)) as f. intros f. revert s p' s' Hs.
  enough (∀ curr, Forall opt_shape curr → grows (p0 ← add_wanted f b curr p;
    if f then server ← gets (λ s, sc_server (server_config s));
              string_option p0 ([DHCP_STATIC_ROUTE; 5; 0] ++ be_bytes server) else mret p0) p) as G.
  { intros s p' s' Hs E. by apply (G _ Hs s p' s' Hs). }
  intros curr Hc. apply grows_bind; [by apply add_wanted_grows|]. intros p0.
  destruct f; [|apply grows_ret]. apply grows_read; [pres_go|]. intros server.
  apply string_option_grows, opt_shape_intro; try done.
Qed.

(** The fields in front of the options that the BOOTP options use. *)
Lemma put_field_grows p off bs : off + Z.of_nat (length bs) ≤ OFF_COOKIE →
  OFF_YIADDR + 4 ≤ off → OFF_CHADDR + 16 ≤ off ∨ off + Z.of_nat (length bs) ≤ OFF_CHADDR →
  grows (put_bytes p off bs) p.
Proof.
  intros Hb Hy Hc s p' s' _ E. unfold put_bytes in E. destruct (buf_write p off bs) as [q|] eqn:Ew; simplify_eq/=.
  injection E as <- <-. split; [done|]. destruct (put_header _ _ _ _ Ew) as (Ho&_&Hf);
    [unfold OFF_COOKIE, OFF_OPTIONS in *; lia|].
  intros its Hi. exists []. rewrite app_nil_r. split; [by apply Ho|].
  split_and!; apply Hf; unfold OFF_YIADDR, OFF_CHADDR, OFF_XID, OFF_COOKIE in *; lia.
Qed.

Lemma length_strncpy n k : length (strncpy_chars n k) = k.
Proof. unfold strncpy_chars. rewrite length_app, length_take, length_replicate. lia. Qed.

Lemma put_name_grows p off k name : off + Z.of_nat (k - 1) ≤ OFF_COOKIE → OFF_CHADDR + 16 ≤ off →
  grows (put_name p off k name) p.
Proof.
  intros Hk Ho. destruct name as [n|]; cbn [put_name]; [|apply grows_ret].
  apply put_field_grows; rewrite ?length_strncpy; [done|unfold OFF_YIADDR, OFF_CHADDR in *; lia|by left].
Qed.

Lemma add_bootp_grows p : grows (add_bootp_options p) p.
Proof.
  unfold add_bootp_options. apply grows_read; [pres_go|]. intros siaddr.
  apply grows_bind; [by apply put_field_grows; [..|right]|]. intros p1.
  apply grows_read; [pres_go|]. intros sname.
  apply grows_bind; [by apply put_name_grows|]. intros p2.
  apply grows_read; [pres_go|]. intros boot. by apply put_name_grows.
Qed.

Lemma vdf_option_shape code l rest o (s s' : dhcpd) : vdf_option (code :: l :: rest) s = Done (o, s') →
  0 < code < 255 → code ≠ DHCP_OPTION_OVER → 0 ≤ l ≤ 255 → opt_shape o ∧ s' = s.
Proof.
  unfold vdf_option. destruct (Z.leb_spec (Z.of_nat (length (code :: l :: rest))) BUFSIZE) as [Hb|]; [|intros [=]].
  intros [= <- <-] Hc Ho Hl. split; [|done]. apply opt_shape_intro; try done.
  rewrite length_app, length_replicate. cbn [length] in *. unfold BUFSIZE in *. lia.
Qed.

(** An option that is built first. *)
Lemma built_grows (m : M dhcpd (list Z)) p :
  (∀ s o s', m s = Done (o, s') → opt_shape o ∧ s' = s) → grows (o ← m; string_option p o) p.
Proof.
  intros Hm s p' s' Hs (o&s1&E1&E2)%bind_Done_inv. apply Hm in E1 as [Ho ->].
  by eapply string_option_grows.
Qed.

Lemma opt_string_grows p code str : 0 < code < 255 → code ≠ DHCP_OPTION_OVER → grows (opt_string p code str) p.
Proof.
  intros Hc Ho. destruct str as [t|]; cbn [opt_string]; [|apply grows_ret].
  apply built_grows. intros s o s' E. eapply vdf_option_shape; [exact E|done|done|apply u8_range].
Qed.

Lemma local_copy_inv t (s : dhcpd) b s' : local_copy t s = Done (b, s') → b = t ∧ s' = s.
Proof. unfold local_copy. by destruct (_ <? _); [intros [= <- <-]|intros [=]]. Qed.

Section env.
Context (env : dhcp_env).

Lemma add_phone_options_grows p : grows (add_phone_options env p) p.
Proof.
  unfold add_phone_options. apply grows_read; [pres_go|]. intros c.
  apply grows_bind; [by apply opt_string_grows|]. intros p1.
  apply grows_bind; [|intros p2; apply grows_bind; [|intros p3]].
  - destruct (sc_pIPPhoneDNSServers c); [|apply grows_ret]. apply built_grows. intros s o s' E.
    unfold fileoption6 in E. apply bind_Done_inv in E as (b&s1&[-> ->]%local_copy_inv&E).
    eapply vdf_option_shape; [exact E|done|done|apply u8_range].
  - destruct (sc_pIPPhoneTFTPServer c); by apply opt_string_grows.
  - destruct (sc_pOutBoundProxy c) as [x|]; [|apply grows_ret]. apply built_grows. intros s o s' E.
    destruct (ValidateIpAddress x).
    + unfold fileoption120ipaddr in E. apply bind_Done_inv in E as (b&s1&[-> ->]%local_copy_inv&E).
      eapply vdf_option_shape; [exact E|done|done|apply u8_range].
    + unfold fileoption120Domain in E. apply bind_Done_inv in E as (b&s1&[-> ->]%local_copy_inv&E).
      eapply vdf_option_shape; [exact E|done|done|]. destruct (Z.ltb_spec 255 (Z.of_nat (length (concat (map dns_name (strtok 44 x)))) + 1)); lia.
Qed.

Lemma add_phone_ntp_grows p reqs : grows (add_phone_ntp p reqs) p.
Proof.
  unfold add_phone_ntp. apply grows_read; [pres_go|]. intros c. destruct reqs as [rs|]; [|apply grows_ret].
  destruct (_ && _); [|apply grows_ret]. apply built_grows. intros s o s' E.
  destruct (sc_iPPhoneNtp2 c =? 0); (eapply vdf_option_shape; [exact E|done..]).
Qed.

Lemma add_identity_grows p req : grows (add_identity env p req) p.
Proof.
  destruct req; cbn [add_identity]; [|apply grows_ret]. apply built_grows. intros s o s' E.
  unfold createVIoption in E. destruct (64 <=? _); [by simplify_eq|].
  cbv zeta in E. set (body := vi_sub _ _ ++ _) in E. clearbody body.
  destruct (Z.ltb_spec VENDOR_IDENTIFYING_INFO_LEN (VENDOR_ENTERPRISE_LEN + 1 + Z.of_nat (length body) + VENDOR_OPTION_DATA_OFFSET)) as [|Hb];
    [by simplify_eq|].
  injection E as <- <-. split; [|done].
  apply opt_shape_intro; [done|done|apply u8_range|].
  pose proof (u8_le (VENDOR_ENTERPRISE_LEN + 1 + Z.of_nat (length body)) ltac:(unfold VENDOR_ENTERPRISE_LEN; lia)) as Hu.
  unfold VENDOR_ENTERPRISE_LEN in *. rewrite ?length_app. cbn [length app]. rewrite ?length_app. lia.
Qed.

Lemma add_requested_grows reqs phone p host s p' h s' : options_ok s → Z.of_nat (length host) ≤ 126 →
  add_requested reqs phone p host s = Done ((p', h), s') → s' = s ∧ extends p p'.
Proof.
  intros Hs. revert p host. induction reqs as [|r reqs IH]; intros p host Hh; cbn [add_requested].
  { intros [= <- <- <-]. split; [done|reflexivity]. }
  intros ([p1 h1]&s1&E1&E)%bind_Done_inv. apply bind_Done_inv in E as (p2&s2&E2&E).
  assert (s1 = s ∧ extends p p1 ∧ Z.of_nat (length h1) ≤ 126) as (->&X1&Hh1).
  { destruct (r =? DHCP_HOST_NAME); [|injection E1 as <- <- <-; split; [done|]; split; [reflexivity|done]].
    apply bind_Done_inv in E1 as (q&s3&E1&[= -> <- ->]).
    assert (length (dashed host) = length host) as Ld by (unfold dashed; by rewrite length_map).
    apply string_option_grows in E1 as [-> X]; [split; [done|]; split; [done|by rewrite Ld]| |done].
    apply opt_shape_intro; [done|done|lia|]. rewrite length_app. lia. }
  assert (s2 = s ∧ extends p1 p2) as (->&X2).
  { destruct (_ && _); [|injection E2 as <- <-; split; [done|reflexivity]].
    apply string_option_grows in E2 as [-> X]; [done| |done]. apply opt_shape_intro; try done. }
  apply IH in E as [-> X]; [|done]. split; [done|]. by etrans; [|etrans].
Qed.
End env.

(** ** Sending a reply *)

(** What is sent of a message. *)
Definition payload_of (pkt : sent_packet) : list Z :=
  match pkt with Raw bytes _ _ => drop 28 bytes | Kernel p _ => p end.

(** [emits s l s']: nothing but the packets [l] was added. *)
Definition emits (s : dhcpd) (l : list sent_packet) (s' : dhcpd) : Prop :=
  d_sent s' = d_sent s ++ l ∧ calm (set_dsent (d_sent s') s) s'.

Lemma calm_emits s s' : calm s s' ↔ emits s [] s'.
Proof.
  unfold emits, calm. rewrite app_nil_r. simpl. split.
  - intros (?&?&?&?&?&?&?&?). by repeat split.
  - intros (?&?&?&?&?&?&?&?&?). by repeat split.
Qed.

Lemma emits_trans s1 s2 s3 a b : emits s1 a s2 → emits s2 b s3 → emits s1 (a ++ b) s3.
Proof.
  unfold emits, calm. simpl. intros (E1&?&?&?&?&?&?&?&?) (E2&?&?&?&?&?&?&?&?).
  rewrite app_assoc, <- E1. repeat split; try done; try (by etrans); lia.
Qed.

Lemma calc_length_inv {St} p its (s : St) len q s' : has_options p its → calc_length p s = Done ((len, q), s') →
  let m := (Z.to_nat OFF_OPTIONS + length (encode its) + 1)%nat in
  s' = s ∧ take m q = take m p ∧ Z.of_nat m ≤ len ∧ length q = length p.
Proof.
  intros H E m. unfold calc_length in E. rewrite (bind_Done _ _ _ _ _ (end_option_spec p its s H)) in E.
  unfold OFF_OPTIONS, sizeof_dhcpMessage, OPTIONS_LEN in *.
  set (pl := 1264 - 1024 + (Z.of_nat (length (encode its)) + 1)) in *. destruct (Z.odd pl).
  - apply bind_Done_inv in E as (q'&s1&E1&[= <- -> ->]). unfold poke8 in E1.
    destruct (buf_write p (pl + 1 - 1) [0]) as [q1|] eqn:Ew; simplify_eq/=. injection E1 as <- <-.
    split; [done|]. split; [|split; [lia|by eapply buf_write_length]].
    apply list_eq. intros i. destruct (decide (i < m)%nat); [|by rewrite !lookup_take_ge by lia].
    rewrite !lookup_take_lt by done. rewrite (buf_write_lookup _ _ _ _ i Ew). rewrite decide_False; [done|simpl; lia].
  - injection E as <- <- <-. repeat split; try done. lia.
Qed.

Lemma raw_packet_payload data a b c d : drop 28 (raw_packet_bytes data a b c d) = data.
Proof. unfold raw_packet_bytes. rewrite app_assoc. by apply drop_app_length'. Qed.

Section send.
Context (env : dhcp_env).

(** The packet [pkt] is the message [p] with the options [its]. *)
Definition is_message (pkt : sent_packet) (p : list Z) (its : list item) : Prop :=
  ∀ o n, 0 ≤ o → 0 ≤ n → o + n ≤ OFF_OPTIONS + Z.of_nat (length (encode its)) + 1 →
    fld (payload_of pkt) o n = fld p o n.

(** A packet to a client has the headers of a reply and at most a message behind
    them. *)
Definition reply_form (pkt : sent_packet) : Prop :=
  match pkt with
  | Raw bytes _ _ => ∃ data source dest, bytes = raw_packet_bytes data source SERVER_PORT dest CLIENT_PORT ∧
      Z.of_nat (length data) ≤ sizeof_dhcpMessage
  | Kernel _ _ => True
  end.

Lemma transmit_inv pkt s r s' : transmit env pkt s = Done (r, s') →
  emits s (if 0 <=? r then [pkt] else []) s'.
Proof.
  unfold transmit. rewrite bind_gets, bind_modify. set (r0 := send_result env (d_sends s)).
  destruct (0 <=? r0) eqn:E; [rewrite bind_modify|rewrite bind_ret]; intros [= <- <-]; rewrite E; unfold emits, calm; simpl;
    rewrite ?app_nil_r; by repeat split.
Qed.

Lemma sent_data {St} p its (s : St) len q data s1 s2 : has_options p its →
  calc_length p s = Done ((len, q), s1) → get_bytes q 0 len s1 = Done (data, s2) →
  s2 = s ∧ (∀ o n, 0 ≤ o → 0 ≤ n → o + n ≤ OFF_OPTIONS + Z.of_nat (length (encode its)) + 1 → fld data o n = fld p o n) ∧
  Z.of_nat (length data) ≤ sizeof_dhcpMessage.
Proof.
  intros H E1 E2. destruct (calc_length_inv _ _ _ _ _ _ H E1) as (->&Ht&Hm&Hlq). unfold get_bytes in E2.
  destruct (buf_read q 0 len) as [d|] eqn:Eb; cbn [of_option] in E2; [|discriminate E2]. injection E2 as <- <-. split; [done|].
  split; [|unfold buf_read in Eb; case_decide; [|done]; injection Eb as <-; rewrite length_take, length_drop, Hlq; destruct H as [H _]; lia].
  intros o n Ho Hn Hon. set (m := (Z.to_nat OFF_OPTIONS + length (encode its) + 1)%nat) in *.
  apply (fld_take _ _ _ _ m); [|done|done|unfold m, OFF_OPTIONS in *; lia].
  rewrite <- Ht. unfold buf_read in Eb. case_decide; [|done]. injection Eb as <-. rewrite drop_0, take_take. f_equal. lia.
Qed.

Lemma send_packet_inv p its b s r s' : has_options p its → send_packet env p b s = Done (r, s') →
  ∃ pkt, is_message pkt p its ∧ reply_form pkt ∧ emits s (if 0 <=? r then [pkt] else []) s'.
Proof.
  intros H E. unfold send_packet in E. apply bind_Done_inv in E as (g&s1&E1&E).
  assert (s1 = s) as -> by (symmetry; by eapply (pres_load32 (R := eq))). destruct (negb (g =? 0)).
  - unfold send_packet_to_relay in E. apply bind_Done_inv in E as (g'&s2&E2&E).
    assert (s2 = s) as -> by (symmetry; by eapply (pres_load32 (R := eq))).
    unfold kernel_packet in E. apply bind_Done_inv in E as ([len q]&s3&E3&E). apply bind_Done_inv in E as (data&s4&E4&E).
    destruct (sent_data _ _ _ _ _ _ _ _ H E3 E4) as (->&Hf&_). exists (Kernel data g').
    split; [exact Hf|split; [done|by eapply transmit_inv]].
  - unfold send_packet_to_client in E. apply bind_Done_inv in E as ([ip mac]&s2&E2&E).
    assert (pres (S := dhcpd) eq (client_address p b)) as Pc by (unfold client_address; pres_go).
    assert (s2 = s) as -> by (symmetry; by eapply Pc). unfold cfg in E. rewrite !bind_gets in E.
    unfold raw_packet in E. apply bind_Done_inv in E as ([len q]&s3&E3&E). apply bind_Done_inv in E as (data&s4&E4&E).
    destruct (sent_data _ _ _ _ _ _ _ _ H E3 E4) as (->&Hf&Hl).
    eexists (Raw _ _ _). split; [|split; [by eexists _, _, _|by eapply transmit_inv]]. unfold is_message, payload_of.
    rewrite raw_packet_payload. exact Hf.
Qed.
End send.

(** ** What leaves the leases alone *)

(** [calm_mod]: a modification of a part that does not matter. *)
Ltac calm_mod := apply pres_modify; intros s; by repeat split.

Section calm.
Context (env : dhcp_env).

Lemma calm_fopen : pres calm (fopen_file env).
Proof. unfold fopen_file. pres_go. calm_mod. Qed.
Hint Resolve calm_fopen : pres.

Lemma calm_write_file f c : pres calm (write_file f c).
Proof. unfold write_file. calm_mod. Qed.
Hint Resolve calm_write_file : pres.

Lemma calm_sip_search n i y : pres calm (sip_search n i y).
Proof. revert i. induction n as [|n IH]; intros i; cbn [sip_search]; unfold sip_at; pres_go. Qed.
Hint Resolve calm_sip_search : pres.

Lemma calm_findSipaddr y : pres calm (findSipaddr y).
Proof. unfold findSipaddr. pres_go. Qed.
Hint Resolve calm_findSipaddr : pres.

Lemma calm_addSipAddr y : pres calm (addSipAddr y).
Proof.
  unfold addSipAddr. generalize (S SIP_MAX) as n. intros n. generalize O as i.
  induction n as [|n IH]; intros i; cbn [add_sip_loop]; unfold sip_at; pres_go. calm_mod.
Qed.
Hint Resolve calm_addSipAddr : pres.

Lemma calm_route h : pres calm (BcmMERDataRouteRuleGW env h).
Proof. unfold BcmMERDataRouteRuleGW. pres_go. Qed.
Lemma calm_delroute h : pres calm (BcmDelMERRouteRuleGW h).
Proof. unfold BcmDelMERRouteRuleGW. pres_go. Qed.
Lemma calm_enable : pres calm bcmEnableQosVlan.
Proof. unfold bcmEnableQosVlan. pres_go. calm_mod. Qed.
Lemma calm_disable : pres calm bcmdisableQosVlan.
Proof. unfold bcmdisableQosVlan. pres_go. calm_mod. Qed.
Hint Resolve calm_route calm_delroute calm_enable calm_disable : pres.

Lemma calm_findSipAddr y : pres calm (findSipAddr y).
Proof. unfold findSipAddr. pres_go; calm_mod. Qed.
Hint Resolve calm_findSipAddr : pres.

Lemma calm_phone_rules y h : pres calm (phone_rules env y h).
Proof. unfold phone_rules. pres_go. Qed.

Lemma calm_notify a b : pres calm (notify a b).
Proof. unfold notify. pres_go. Qed.
Hint Resolve calm_notify : pres.

Lemma calm_write_leases : pres calm (write_leases env).
Proof.
  unfold write_leases.
  assert (∀ n i c out, pres calm (write_leases_loop env n i c out)) as Hl.
  { induction n as [|n IH]; intros; cbn [write_leases_loop]; pres_go. }
  pres_go.
Qed.

Lemma calm_write_leases2 : pres calm (write_leases2 env).
Proof.
  unfold write_leases2.
  assert (∀ t n i c out, pres calm (write_leases2_loop env t n i c out)) as Hl.
  { intros t. induction n as [|n IH]; intros; cbn [write_leases2_loop]; pres_go. }
  pres_go.
Qed.
Hint Resolve calm_write_leases calm_write_leases2 : pres.

Lemma calm_write_both : pres calm (write_both env).
Proof. unfold write_both. pres_go. Qed.

(** ** Option 125 *)

Lemma calm_mod_vi f : pres calm (mod_vi f).
Proof. unfold mod_vi. calm_mod. Qed.
Lemma calm_get_vi {A} (f : vi_state → A) : pres calm (get_vi f).
Proof. unfold get_vi. pres_go. Qed.
Hint Resolve calm_mod_vi calm_get_vi : pres.

Lemma calm_malloc n : pres calm (malloc env n).
Proof. unfold malloc. pres_go. calm_mod. Qed.
Lemma calm_free_str a : pres calm (free_str a).
Proof. unfold free_str. pres_go. Qed.
Lemma calm_free_node a : pres calm (free_node a).
Proof. unfold free_node. pres_go. Qed.
Lemma calm_node a : pres calm (node a).
Proof. unfold node. pres_go. Qed.
Lemma calm_put_vi_node a i : pres calm (put_vi_node a i).
Proof. unfold put_vi_node. pres_go. Qed.
Hint Resolve calm_malloc calm_free_str calm_free_node calm_node calm_put_vi_node : pres.

Lemma calm_viInfoFree a : pres calm (viInfoFree a).
Proof. unfold viInfoFree. pres_go. Qed.
Lemma calm_vi_find n p ip : pres calm (vi_find n p ip).
Proof. revert p. induction n as [|n IH]; intros p; cbn [vi_find]; pres_go. Qed.
Hint Resolve calm_viInfoFree calm_vi_find : pres.

Lemma calm_addViToList a : pres calm (addViToList a).
Proof. unfold addViToList. pres_go. Qed.
Lemma calm_print_str a : pres calm (print_str a).
Proof. unfold print_str. pres_go. Qed.
Lemma calm_empty_str a : pres calm (empty_str a).
Proof. unfold empty_str. pres_go. Qed.
Lemma calm_vi_error a i : pres calm (vi_error a i).
Proof. unfold vi_error. pres_go. Qed.
Hint Resolve calm_addViToList calm_print_str calm_empty_str calm_vi_error : pres.

Lemma calm_write_viTable : pres calm (write_viTable env).
Proof.
  unfold write_viTable.
  assert (∀ n p out, pres calm (write_vi_loop env n p out)) as Hl.
  { induction n as [|n IH]; intros; cbn [write_vi_loop]; pres_go. }
  pres_go.
Qed.
Hint Resolve calm_write_viTable : pres.

Lemma calm_saveVIoption p q ip : pres calm (saveVIoption env p q ip).
Proof.
  assert (∀ n ptr a i, pres calm (vi_parse env n p ptr a i)) as Hl.
  { induction n as [|n IH]; intros; cbn [vi_parse]; pres_go. }
  unfold saveVIoption. pres_go.
Qed.

(** ** Reports *)

Lemma calm_report p c n : pres calm (report p c n).
Proof. unfold report. pres_go. Qed.
Hint Resolve calm_report : pres.

Lemma calm_report_options p : pres calm (report_options p).
Proof. unfold report_options, detect_phone. pres_go; calm_mod. Qed.

Lemma calm_request_list p : pres calm (request_list p).
Proof. unfold request_list. pres_go. Qed.

Lemma calm_requested_free p : pres calm (requested_free env p).
Proof. unfold requested_free. pres_go. Qed.
End calm.
#[export] Hint Resolve calm_phone_rules calm_write_both calm_saveVIoption calm_report_options calm_request_list
  calm_requested_free : pres.

Lemma calm_choose env p c r : pres calm (choose_address env p c r).
Proof. unfold choose_address. pres_go. Qed.
#[export] Hint Resolve calm_choose : pres.
