(* ===== verification/DhcpFind.v ===== *)
(** * The search for a free address: proofs

    [find_address] of [leases.c] ends, what it returns can be handed out, and it
    returns 0 only when nothing can. *)

From stdpp Require Import base numbers list.
From Stdlib Require Import ZArith Lia Bool.
From S2P Require Import Prelude CText DhcpPacket DhcpLease DhcpTable.

Lemma cfg_core_pool c c' : cfg_core c' = cfg_core c →
  sc_end c' = sc_end c ∧ sc_reservedAddr c' = sc_reservedAddr c ∧ sc_interface c' = sc_interface c ∧
  sc_max_leases c' = sc_max_leases c.
Proof. destruct c, c'. unfold cfg_core. simpl. intros [=]. by subst. Qed.

Section find.
Context (env : dhcp_env) (s0 : dhcpd) (router : Z) (check_expired : bool).
Notation c0 := (server_config s0).
Context (Hsize : (table_size s0 ≤ length (leases s0))%nat) (Hname : Z.of_nat (length (sc_interface c0)) < 16).
Context (Hend : sc_end c0 < 2 ^ 32 - 1).

(** An address that the configuration lets the server hand out. *)
Definition eligible (a : Z) : bool :=
  negb (Z.land a 0xff =? 0) && negb (Z.land a 0xff =? 0xff) &&
  negb (reserved_loop (take MAXRESERVEDIP (sc_reservedAddr c0)) a =? 0) && negb (a =? router).

(** The address of the server, as configured or as read from the interface. *)
Definition own (a : Z) : Prop := a = sc_server c0 ∨ ∃ n, if_addr (if_answer env n) = Some a.

(** A lease of the table that counts has the address. *)
Definition taken (a : Z) : Prop :=
  ∃ k l, (k < table_size s0)%nat ∧ leases s0 !! k = Some l ∧ l_yiaddr l = a ∧
    (check_expired = true → ∃ n, u32 (clock env n) ≤ l_expires l).

(** Every lease of the address in the table is over. *)
Definition untaken (a : Z) : Prop :=
  (∀ k l, (k < table_size s0)%nat → leases s0 !! k = Some l → l_yiaddr l ≠ a) ∨
  (check_expired = true ∧ ∃ k l n, (k < table_size s0)%nat ∧ leases s0 !! k = Some l ∧ l_yiaddr l = a ∧
     l_expires l < u32 (clock env n)).

Definition grantable (a : Z) : Prop :=
  eligible a = true ∧ untaken a ∧ ∃ n, arp_answer env n a ≠ 0.

Definition ungrantable (a : Z) : Prop :=
  eligible a = false ∨ own a ∨ taken a ∨ ∃ n, arp_answer env n a = 0.

(** What the search keeps. *)
Definition searching (s : dhcpd) : Prop := calm s0 s ∧ own (sc_server (server_config s)).

Lemma read_interface_total s : searching s → ∃ r s', read_interface env s = Done (r, s') ∧ searching s'.
Proof.
  intros [Hc Ho]. pose proof Hc as (_&_&Ec&_). apply cfg_core_pool in Ec as (_&_&En&_).
  destruct (read_interface env s) as [[r s']| | |] eqn:E.
  { exists r, s'. split; [done|]. split; [etrans; [exact Hc|by eapply calm_read_interface]|].
    revert E. unfold read_interface. rewrite bind_gets, bind_modify. unfold cfg. rewrite bind_gets.
    cbv zeta. destruct (negb _); [by intros [= _ <-]|]. destruct (16 <=? _); [intros [=]|].
    destruct (if_addr (if_answer env (d_ifs s))) as [a|] eqn:Ea; [|by intros [= _ <-]].
    rewrite bind_modify. assert (own a) as Hoa by (right; by exists (d_ifs s)).
    destruct (if_index _); [rewrite bind_modify|by intros [= _ <-]].
    destruct (if_hwaddr _); [rewrite bind_modify|by intros [= _ <-]]. by intros [= _ <-]. }
  all: exfalso; revert E; unfold read_interface, cfg; rewrite bind_gets, bind_modify, bind_gets;
    cbn [server_config set_difs]; rewrite En, (proj2 (Z.leb_gt 16 _)) by lia; cbv zeta;
    destruct (negb _); [by intros [=]|]; destruct (if_addr _); [|by intros [=]]; rewrite bind_modify;
    destruct (if_index _); [rewrite bind_modify|by intros [=]]; destruct (if_hwaddr _); by intros [=].
Qed.

Lemma check_ip_total a s : searching s →
  ∃ u s', check_ip env a s = Done (u, s') ∧ searching s' ∧
    if u : bool then ∃ n, arp_answer env n a = 0 else ∃ n, arp_answer env n a ≠ 0.
Proof.
  intros Hs. destruct (read_interface_total s Hs) as (r&s1&E1&[Hc1 Ho1]). unfold check_ip. mstep E1.
  unfold arpping. eexists _, _. split; [done|]. split; [split; [etrans; [exact Hc1|by repeat split]|exact Ho1]|].
  destruct (Z.eqb_spec (arp_answer env (d_arps s1) a) 0); by eexists.
Qed.

Lemma by_yiaddr_total a s : searching s → ∃ r, find_lease_by_yiaddr a s = Done (r, s).
Proof.
  intros [(El&_&Ec&_) _]. apply cfg_core_pool in Ec as (_&_&_&Em). unfold find_lease_by_yiaddr, cfg. rewrite !bind_gets, El, Em.
  rewrite (find_loop_ok _ _ (leases s0) _ []); [by eexists|done|exact Hsize].
Qed.

Lemma not_taken_total a s : searching s →
  ∃ ok s', not_taken env a check_expired s = Done (ok, s') ∧ searching s' ∧ if ok : bool then untaken a else taken a.
Proof.
  intros Hs. pose proof Hs as [(El&_&Ec&_) _]. apply cfg_core_pool in Ec as (_&_&_&Em).
  assert (table_size s = table_size s0) as En by (unfold table_size; by rewrite Em).
  destruct (by_yiaddr_total a s Hs) as [r E]. unfold not_taken. mstep E.
  apply by_yiaddr_finds in E as [Hf _]. rewrite El, En in Hf. destruct r as [i|]; simpl in Hf.
  - destruct Hf as (k&l&->&Hk&Ek&El2). apply Z.eqb_eq in El2. unfold untaken, taken. destruct check_expired eqn:Ece.
    + mstep (lease_at_ok (Z.of_nat k) (leases s0) s l El ltac:(by rewrite Nat2Z.id)).
      eexists _, _. split; [done|]. split; [split; [|apply Hs]|].
      { destruct Hs as [Hs _]. etrans; [exact Hs|]. repeat split; try done. simpl. lia. }
      destruct (Z.ltb_spec (l_expires l) (u32 (clock env (d_clock s)))).
      * right. split; [done|]. by exists k, l, (d_clock s).
      * exists k, l. split_and!; try done. intros _. by exists (d_clock s).
    + eexists _, _. split; [done|]. split; [done|]. by exists k, l.
  - eexists _, _. split; [done|]. split; [done|]. left. intros k l Hk Ek Hl.
    specialize (Hf k l Hk Ek). by rewrite Hl, Z.eqb_refl in Hf.
Qed.

(** The rest of the range, from [a]. *)
Lemma find_address_loop_spec n a s : searching s → 0 ≤ a → sc_end c0 - a + 2 ≤ Z.of_nat n → (0 < n)%nat →
  ∃ x s', find_address_loop env n a router check_expired s = Done (x, s') ∧ searching s' ∧
    (x ≠ 0 → a ≤ x ≤ sc_end c0 ∧ grantable x) ∧
    (x = 0 → ∀ b, a ≤ b ≤ sc_end c0 → ungrantable b).
Proof.
  revert a s. induction n as [|n IH]; intros a s Hs Ha Hn Hn0; [lia|]. cbn [find_address_loop].
  pose proof Hs as [(_&_&Ec&_) Ho]. apply cfg_core_pool in Ec as (Ee&Er&_&_).
  cbv zeta. unfold cfg. rewrite bind_gets, Ee. destruct (Z.ltb_spec (sc_end c0) a) as [Hlt|Hle].
  { exists 0, s. split_and!; try done; try apply Hs. intros _ b Hb. lia. }
  assert (u32 (a + 1) = a + 1) as Eu by (apply u32_small; lia). rewrite Eu.
  assert (∀ s1, searching s1 → ungrantable a → ∃ x s', find_address_loop env n (a + 1) router check_expired s1 = Done (x, s') ∧
    searching s' ∧ (x ≠ 0 → a ≤ x ≤ sc_end c0 ∧ grantable x) ∧ (x = 0 → ∀ b, a ≤ b ≤ sc_end c0 → ungrantable b)) as Next.
  { intros s1 Hs1 Hu. destruct (IH (a + 1) s1 Hs1 ltac:(lia) ltac:(lia) ltac:(lia)) as (x&s'&E&Hs'&H1&H2).
    exists x, s'. split; [done|]. split; [done|]. split; [intros Hx; destruct (H1 Hx); split; [lia|done]|].
    intros Hx b Hb. destruct (decide (b = a)) as [->|]; [done|]. apply H2; [done|lia]. }
  destruct (Z.land a 0xff =? 0) eqn:E0; [apply Next; [done|]; left; unfold eligible; by rewrite E0|].
  destruct (Z.land a 0xff =? 0xff) eqn:E1; [apply Next; [done|]; left; unfold eligible; by rewrite E1, andb_false_r|].
  unfold reservedIp, cfg. rewrite bind_assoc, bind_gets, bind_ret, Er.
  destruct (reserved_loop (take MAXRESERVEDIP (sc_reservedAddr c0)) a =? 0) eqn:E2;
    [apply Next; [done|]; left; unfold eligible; by rewrite E2, andb_false_r|].
  rewrite bind_gets. destruct (Z.eqb_spec a (sc_server (server_config s))) as [->|_]; [apply Next; [done|by right; left]|].
  cbn [orb]. destruct (a =? router) eqn:E3; [apply Next; [done|]; left; unfold eligible; by rewrite E3, andb_false_r|].
  assert (eligible a = true) as Hel by (unfold eligible; by rewrite E0, E1, E2, E3).
  destruct (not_taken_total a s Hs) as (ok&s1&Et&Hs1&Hok). mstep Et. destruct ok; [|apply Next; [done|by right; right; left]].
  destruct (check_ip_total a s1 Hs1) as (u&s2&Ec2&Hs2&Hu). mstep Ec2. destruct u; [apply Next; [done|by right; right; right]|].
  exists a, s2. split; [done|]. split; [done|]. split; [|intros ->; by vm_compute in Hel].
  intros _. split; [lia|]. done.
Qed.
End find.
