(* ===== verification/DhcpExcl.v ===== *)
(** * The DHCP server gives an address to one client

    The promises of the server are kept in a ledger: an acknowledgement promises
    an address to a client for a time.  Over every run of the server with one
    address pool, whatever messages arrive and whatever fails, no address that is
    promised to a client is offered or acknowledged to another one. *)

From stdpp Require Import base numbers list.
From Stdlib Require Import ZArith Lia Bool.
From S2P Require Import Prelude CText DhcpPacket DhcpOptions DhcpLease DhcpFiles DhcpVi DhcpServer DhcpMain DhcpTable DhcpReply.

(** ** Promises *)

Record grant : Type := { g_chaddr : list Z; g_yiaddr : Z; g_until : Z }.

(** What a packet says: the kind of message, which is its first option, the
    addresses and the lease time, its third option. *)
Definition p_type (pkt : sent_packet) : Z := nth 0 (fld (payload_of pkt) 242 1) 0.
Definition p_yiaddr (pkt : sent_packet) : Z := be32 (fld (payload_of pkt) OFF_YIADDR 4).
Definition p_chaddr (pkt : sent_packet) : list Z := fld (payload_of pkt) OFF_CHADDR 16.
Definition p_lease (pkt : sent_packet) : Z := be32 (fld (payload_of pkt) 251 4).

(** The promises of the packets [l]; a client counts from when it sent its
    request. *)
Definition grants_of (now : Z) (l : list sent_packet) : list grant :=
  concat (map (λ pkt, if (p_type pkt =? DHCPACK) && negb (p_yiaddr pkt =? 0)
    then [{| g_chaddr := p_chaddr pkt; g_yiaddr := p_yiaddr pkt; g_until := now + p_lease pkt |}] else []) l).

(** The kind of a message that arrives, and its sender. *)
Definition message_of (bytes : option (list Z)) : option (Z * list Z) :=
  match get_packet (S := unit) bytes tt with
  | Done (Some p, _) =>
      match get_option (S := unit) p DHCP_MESSAGE_TYPE tt with
      | Done (Some q, _) =>
          match peek (S := unit) p q tt with
          | Done (t, _) => Some (t, fld p OFF_CHADDR 16)
          | _ => None
          end
      | _ => None
      end
  | _ => None
  end.

(** The client gives up what it was promised: it looks for an address, declines
    or releases the one it has. *)
Definition gives_up (ev : event) (chaddr : list Z) : bool :=
  match ev with
  | Received bytes =>
      match message_of bytes with
      | Some (t, c) => ((t =? DHCPDISCOVER) || (t =? DHCPDECLINE) || (t =? DHCPRELEASE)) && bool_decide (c = chaddr)
      | None => false
      end
  | _ => false
  end.

Definition still_held (ev : event) (G : list grant) : list grant := filter (λ g, gives_up ev (g_chaddr g) = false) G.

Section excl.
Context (env : dhcp_env).

(** What a round has sent. *)
Definition sent_since (s s' : dhcpd) : list sent_packet := drop (length (d_sent s)) (d_sent s').

(** The promises after the packets [l] at the time [now]: new ones, and those of
    clients that did not get a new one. *)
Definition ledger (now : Z) (l : list sent_packet) (G : list grant) : list grant :=
  let new := grants_of now l in new ++ filter (λ g, g_chaddr g ∉ map g_chaddr new) G.

(** What arrives is made of bytes. *)
Definition event_ok (ev : event) : Prop :=
  match ev with Received (Some bytes) => Forall is_byte bytes | _ => True end.

(** ** The server *)

(** An entry without an address belongs to nobody. *)
Definition BLANK : list Z := replicate 16 0.

(** An address is in the table at most once, and not behind its used part;
    addresses have 32 bits. *)
Definition leases_ok (n : nat) (t : list dhcpOfferedAddr) : Prop :=
  (∀ i j li lj, t !! i = Some li → t !! j = Some lj → i ≠ j → l_yiaddr li = l_yiaddr lj → l_yiaddr li = 0) ∧
  (∀ i l, (n ≤ i)%nat → t !! i = Some l → l_yiaddr l = 0) ∧
  (∀ i l, t !! i = Some l → 0 ≤ l_yiaddr l < 2 ^ 32 ∧ (l_yiaddr l = 0 → l_chaddr l = BLANK)).

(** The clock goes on and times do not overflow. *)
Definition times_ok (c : server_config_t) : Prop :=
  0 ≤ sc_lease c ∧ 0 ≤ sc_min_lease c ∧ 0 ≤ sc_offer_time c ∧
  ∀ k, 0 < clock env k ≤ clock env (S k) ∧
       clock env k + sc_lease c < 2 ^ 32 ∧ clock env k + sc_offer_time c < 2 ^ 32.

(** The server with one address pool. *)
Definition srv_ok (s : dhcpd) : Prop :=
  (table_size s ≤ length (leases s))%nat ∧ leases_ok (table_size s) (leases s) ∧ options_ok s ∧
  g_enblSrv2 s = 0 ∧ Forall (λ l, l_yiaddr l = 0 ∧ l_chaddr l = BLANK) (leases2 s) ∧ times_ok (server_config s) ∧
  0 ≤ sc_start (server_config s) < 2 ^ 32.

(** The lease of [y] for [c] is in the table, at least until [t]. *)
Definition entry (s : dhcpd) (c : list Z) (y t : Z) : Prop :=
  ∃ k l, (k < table_size s)%nat ∧ leases s !! k = Some l ∧ l_chaddr l = c ∧ l_yiaddr l = y ∧ t ≤ l_expires l.

(** A promise is over or in the table. *)
Definition kept (s : dhcpd) (g : grant) : Prop :=
  g_yiaddr g ≠ 0 → g_until g < clock env (d_clock s) ∨ entry s (g_chaddr g) (g_yiaddr g) (g_until g).

Definition inv (G : list grant) (s : dhcpd) : Prop := srv_ok s ∧ Forall (kept s) G.

(** The runs of the server from a state that is in order, with their ledger. *)
Inductive reach : list grant → dhcpd → Z → Prop :=
| reach_start s te : srv_ok s → reach [] s te
| reach_round G s te ev te' s' :
    reach G s te → event_ok ev → server_round env ev te s = Done (te', s') →
    reach (ledger (clock env (d_clock s)) (sent_since s s') (still_held ev G)) s' te'.

(** No promise of the address of [pkt] to another client is still running. *)
Definition exclusive (G : list grant) (s' : dhcpd) (pkt : sent_packet) : Prop :=
  ∀ g, g ∈ G → g_yiaddr g ≠ 0 → g_yiaddr g = p_yiaddr pkt → g_chaddr g ≠ p_chaddr pkt →
    g_until g < clock env (d_clock s').

(** ** Times *)

Lemma clock_mono c j k : times_ok c → (j ≤ k)%nat → clock env j ≤ clock env k.
Proof.
  intros (_&_&_&H) Hjk. induction Hjk as [|k Hjk IH]; [lia|]. pose proof (H k). lia.
Qed.

Lemma clock_u32 c k : times_ok c → u32 (clock env k) = clock env k.
Proof. intros (?&?&?&H). pose proof (H k). apply u32_small. lia. Qed.

Lemma cfg_core_eq c c' : cfg_core c' = cfg_core c →
  sc_max_leases c' = sc_max_leases c ∧ sc_options c' = sc_options c ∧ sc_lease c' = sc_lease c ∧
  sc_min_lease c' = sc_min_lease c ∧ sc_offer_time c' = sc_offer_time c ∧ sc_start c' = sc_start c.
Proof. destruct c, c'. unfold cfg_core. simpl. intros [=]. by subst. Qed.

Lemma times_ok_core c c' : cfg_core c' = cfg_core c → times_ok c → times_ok c'.
Proof. intros (_&_&E1&E2&E3&_)%cfg_core_eq. unfold times_ok. by rewrite E1, E2, E3. Qed.

(** ** The invariant *)

Lemma calm_size s s' : calm s s' → table_size s' = table_size s.
Proof. intros (_&_&(E&_)%cfg_core_eq&_). unfold table_size. by rewrite E. Qed.

(** A change that keeps the configuration and the second table, in which no
    entry of a promise is lost. *)
Lemma emits_srv_ok s l s' : emits s l s' → srv_ok s → srv_ok s'.
Proof.
  intros (_&E1&E2&E3&_&_&E5&_&_) (H1&H2&H3&H4&H5&H6&H7). cbn [leases leases2 server_config set_dsent g_enblSrv2] in *.
  pose proof (cfg_core_eq _ _ E3) as (Em&Eo&_&_&_&Es). unfold srv_ok, table_size, options_ok in *.
  rewrite E1, E2, Em, Eo, E5, Es. split_and!; try done; try apply H7. by eapply times_ok_core.
Qed.

Lemma emits_kept s l s' g : srv_ok s → emits s l s' → kept s g → kept s' g.
Proof.
  intros (_&_&_&_&_&Ht&_) (_&E1&_&E3&_&_&_&_&Hc) Hk Hg. cbn [leases server_config set_dsent d_clock] in *.
  pose proof (cfg_core_eq _ _ E3) as (Em&_). pose proof (clock_mono _ _ _ Ht Hc).
  destruct (Hk Hg) as [?|(k&e&Hk'&He&?)]; [left; lia|right]. exists k, e. unfold table_size. by rewrite E1, Em.
Qed.

Lemma emits_inv G s l s' : emits s l s' → inv G s → inv G s'.
Proof.
  intros E [H1 H2]. split; [by eapply emits_srv_ok|]. eapply Forall_impl; [exact H2|]. intros g. by eapply emits_kept.
Qed.

Lemma calm_inv G s s' : calm s s' → inv G s → inv G s'.
Proof. intros E%calm_emits. by apply (emits_inv _ _ []). Qed.

Lemma inv_sub G G' s : G' ⊆ G → inv G s → inv G' s.
Proof. intros Hs [H1 H2]. split; [done|]. rewrite Forall_forall in *. auto. Qed.

(** ** Adding a lease *)

Lemma clear_table_lookup n c y t i l' : clear_table n c y t !! i = Some l' →
  ∃ l, t !! i = Some l ∧ l' = if decide (i < n)%nat then clear_entry c y l else l.
Proof.
  unfold clear_table. intros H. destruct (decide (i < n)%nat) as [Hi|Hi].
  - destruct (decide (i < length t)%nat) as [Hl|Hl].
    + rewrite lookup_app_l in H by (rewrite length_map, length_take; lia).
      rewrite list_lookup_fmap, lookup_take_lt in H by done. destruct (t !! i) as [l|]; [|done]. exists l. by simplify_eq/=.
    + apply lookup_lt_Some in H. rewrite length_app, length_map, length_take, length_drop in H. lia.
  - assert (i < length t)%nat as Hl.
    { apply lookup_lt_Some in H. rewrite length_app, length_map, length_take, length_drop in H. lia. }
    rewrite lookup_app_r in H by (rewrite length_map, length_take; lia).
    rewrite length_map, length_take, lookup_drop in H. exists l'. split; [|done]. rewrite <- H. f_equal. lia.
Qed.

Lemma lookup_clear_table n c y t i l : t !! i = Some l →
  clear_table n c y t !! i = Some (if decide (i < n)%nat then clear_entry c y l else l).
Proof.
  intros H. destruct (clear_table n c y t !! i) as [l'|] eqn:E.
  - apply clear_table_lookup in E as (l0&E&->). by simplify_eq.
  - apply lookup_ge_None in E. rewrite length_clear_table in E. apply lookup_lt_Some in H. lia.
Qed.

(** Clearing keeps the addresses apart and removes [y]. *)
Lemma leases_ok_clear n c y t : leases_ok n t → leases_ok n (clear_table n c y t).
Proof.
  intros (H1&H2&H3). split_and!.
  - intros i j li lj (l1&E1&->)%clear_table_lookup (l2&E2&->)%clear_table_lookup Hij. unfold clear_entry.
    specialize (H1 i j l1 l2 E1 E2 Hij). repeat case_decide; repeat case_match; simpl; try done; try (intros; symmetry; done).
  - intros i l Hi (l0&E&->)%clear_table_lookup. rewrite decide_False by lia. by eapply H2.
  - intros i l (l0&E&->)%clear_table_lookup. specialize (H3 i l0 E). unfold clear_entry.
    case_decide; [case_match|]; simpl; done || (split; [lia|done]).
Qed.

Lemma clear_table_y n c y t i l : leases_ok n t → y ≠ 0 → clear_table n c y t !! i = Some l → l_yiaddr l ≠ y.
Proof.
  intros (_&H2&_) Hy (l0&E&->)%clear_table_lookup. case_decide as Hi.
  - unfold clear_entry. destruct (clears c y l0) eqn:Ec; [simpl; by intros <-|]. intros Hl.
    unfold clears in Ec. rewrite Hl, Z.eqb_refl in Ec. apply orb_false_iff in Ec as [_ Ec].
    rewrite (proj2 (Z.eqb_neq y 0) Hy) in Ec. done.
  - rewrite (H2 i l0) by (done || lia). done.
Qed.

Lemma leases_ok_insert n t i l : leases_ok n t → (i < n)%nat → 0 ≤ l_yiaddr l < 2 ^ 32 ∧ (l_yiaddr l = 0 → l_chaddr l = BLANK) →
  (l_yiaddr l ≠ 0 → ∀ j lj, t !! j = Some lj → l_yiaddr lj ≠ l_yiaddr l) → leases_ok n (<[i := l]> t).
Proof.
  intros (H1&H2&H3) Hi Hr Hl. split_and!.
  - intros a b la lb [(<-&<-&_)|[Ha Ea]]%list_lookup_insert_Some [(<-&<-&_)|[Hb Eb]]%list_lookup_insert_Some Hab E.
    + done.
    + destruct (decide (l_yiaddr l = 0)); [done|]. exfalso. by eapply Hl.
    + destruct (decide (l_yiaddr l = 0)); [congruence|]. exfalso. by eapply Hl.
    + by eapply (H1 a b).
  - intros j lj Hj [(<-&<-&_)|[_ Ej]]%list_lookup_insert_Some; [lia|by eapply H2].
  - intros j lj [(<-&<-&_)|[_ Ej]]%list_lookup_insert_Some; [done|by eapply H3].
Qed.

(** Who may get [y]: nobody else has it in a lease that runs. *)
Definition free_for (c : list Z) (y now : Z) (t : list dhcpOfferedAddr) : Prop :=
  y ≠ 0 → ∀ k l, t !! k = Some l → l_yiaddr l = y → l_chaddr l = c ∨ l_expires l < now.

(** The promises a lease of [y] for [c] leaves alone: only nobody gets no
    address. *)
Definition spared (c : list Z) (y : Z) (g : grant) : Prop := g_chaddr g ≠ c ∨ y = 0.
Definition others (c : list Z) (y : Z) (G : list grant) : list grant := filter (spared c y) G.

(** Clearing for a client and an address that is free for it: a promise to
    another client is over, or its entry stays. *)
Lemma cleared_kept c y s g : srv_ok s → free_for c y (clock env (d_clock s)) (leases s) → (y = 0 → c = BLANK) → spared c y g →
  kept s g → g_yiaddr g ≠ 0 → g_until g < clock env (d_clock s) ∨
    ∃ j e, (j < table_size s)%nat ∧ clear_table (table_size s) c y (leases s) !! j = Some e ∧
           l_chaddr e = g_chaddr g ∧ l_yiaddr e = g_yiaddr g ∧ g_until g ≤ l_expires e.
Proof.
  intros Hs Hfree Hbl Hgc Hkg Hy. destruct (Hkg Hy) as [Hu|(j&e&Hj&Ej&Ec&Ey&Eu)]; [by left|].
  pose proof (lookup_clear_table (table_size s) c y _ _ _ Ej) as E1. rewrite decide_True in E1 by done.
  unfold clear_entry in E1. destruct (clears c y e) eqn:Ecl; [left|right; by exists j, e].
  unfold clears in Ecl. apply orb_true_iff in Ecl as [[Eb Ecl]%andb_true_iff|[Hy0 Ecl]%andb_true_iff].
  { unfold same_chaddr in Ecl. rewrite bool_decide_eq_true in Ecl. destruct Hgc as [|Hy0]; [congruence|].
    rewrite (Hbl Hy0) in Eb. discriminate Eb. }
  apply Z.eqb_eq in Ecl. apply negb_true_iff, Z.eqb_neq in Hy0. destruct Hgc as [Hgc|]; [|done].
  destruct (Hfree Hy0 _ _ Ej Ecl); [congruence|lia].
Qed.

(** The table behind [add_lease]. *)
Lemma lease_added_ok c y T s r t' k : srv_ok s → free_for c y (clock env (d_clock s)) (leases s) →
  0 ≤ y < 2 ^ 32 → (y = 0 → c = BLANK) → (d_clock s ≤ k)%nat →
  lease_added (table_size s) c y T (clock env (d_clock s)) (clock env (S (d_clock s))) (leases s) r t' →
  length t' = length (leases s) ∧ leases_ok (table_size s) t' ∧
  ∀ g, spared c y g → kept s g → kept (set_dclock k (set_leases t' s)) g.
Proof.
  intros Hs Hfree Hyr Hbl Hk Hadd. pose proof Hs as (Hn&Hok&_&_&_&Ht&_).
  pose proof (clock_mono _ _ _ Ht Hk) as Hck. pose proof (clock_u32 _ (d_clock s) Ht) as Eu.
  pose proof (leases_ok_clear _ c y _ Hok) as Hok1.
  destruct Hadd as [(->&->&_)|(i&l&->&Hi&El&He&->)].
  - split; [apply length_clear_table|]. split; [done|]. intros g Hgc Hkg Hy.
    destruct (cleared_kept c y s g Hs Hfree Hbl Hgc Hkg Hy) as [?|?]; [left; simpl; lia|by right].
  - split; [by rewrite length_insert, length_clear_table|]. split.
    { apply leases_ok_insert; [done|done|by split|]. simpl. intros Hy0 j lj Ej. exact (clear_table_y _ c y _ _ _ Hok Hy0 Ej). }
    intros g Hgc Hkg Hy. destruct (cleared_kept c y s g Hs Hfree Hbl Hgc Hkg Hy) as [?|(j&e&Hj&Ej&Hr)]; [left; simpl; lia|].
    destruct (decide (j = i)) as [->|Hji].
    + left. assert (e = l) as -> by congruence. rewrite Eu in He. simpl. lia.
    + right. exists j, e. split; [done|]. split; [|done]. cbn [leases set_dclock set_leases].
      rewrite list_lookup_insert_ne by congruence. exact Ej.
Qed.

(** [add_lease] for an address that is free for the client. *)
Lemma add_lease_inv G c y T s r s' :
  inv G s → free_for c y (clock env (d_clock s)) (leases s) → 0 ≤ y < 2 ^ 32 → (y = 0 → c = BLANK) → 0 ≤ T →
  (∀ k, clock env k + T < 2 ^ 32) → add_lease env c y T s = Done (r, s') →
  inv (others c y G) s' ∧ server_config s' = server_config s ∧ d_sent s' = d_sent s ∧ (d_clock s ≤ d_clock s')%nat ∧
  (∀ i, r = Some i → entry s' c y (clock env (d_clock s) + T)) ∧
  (r = None → ∀ k l, (k < table_size s)%nat → leases s !! k = Some l → clears c y l = false).
Proof.
  intros [Hs HG] Hfree Hyr Hbl HT HTb E. pose proof Hs as (Hn&_&Hopt&H2&Hl2&Ht&Hst).
  destruct (add_lease_ok env c y T s Hn) as (r0&t'&k&E0&Hk&Hadd). rewrite E in E0. injection E0 as <- ->.
  destruct (lease_added_ok _ _ _ _ _ _ _ Hs Hfree Hyr Hbl Hk Hadd) as (Hl'&Hok'&Hkept).
  pose proof (clock_u32 _ (d_clock s) Ht) as Eu. destruct Ht as (Ht1&Ht2&Ht3&Ht).
  split_and!; [split|done|done|done|..].
  - split_and!; try done; try apply Hst. change (table_size s ≤ length t')%nat. lia.
  - apply Forall_forall. intros g [Hg1 Hg2]%list_elem_of_filter. apply Hkept; [done|]. by eapply Forall_forall in HG.
  - intros i0 Hr. destruct Hadd as [(->&_)|(i&l&->&Hi&El&He&->)]; [done|].
    eexists i, _. split; [exact Hi|]. cbn [leases set_dclock set_leases]. split.
    { apply list_lookup_insert_eq. apply lookup_lt_Some in El. done. }
    simpl. split_and!; [done|done|]. pose proof (HTb (S (d_clock s))). pose proof (Ht (d_clock s)). rewrite u32_small; lia.
  - intros Hr j l Hj El. destruct Hadd as [(_&_&Hall)|(i&x&->&_)]; [|by simplify_eq].
    destruct (clears c y l) eqn:Ec; [|done]. exfalso.
    pose proof (lookup_clear_table (table_size s) c y _ _ _ El) as E1. rewrite decide_True in E1 by done.
    unfold clear_entry in E1. rewrite Ec in E1. eapply Forall_lookup_1 in Hall; [|by rewrite lookup_take_lt; [exact E1|]].
    simpl in Hall. pose proof (Ht (d_clock s)). lia.
Qed.

(** ** The choice of an address *)

Lemma expired_inv l s b s' : lease_expired env l s = Done (b, s') →
  b = (l_expires l <? u32 (clock env (d_clock s))) ∧ s' = set_dclock (S (d_clock s)) s.
Proof. intros [= <- <-]. done. Qed.

(** Nobody has [y] in a lease that runs. *)
Definition free (y now : Z) (t : list dhcpOfferedAddr) : Prop :=
  ∀ k l, t !! k = Some l → l_yiaddr l = y → l_expires l < now.

Lemma not_taken_free y b s s' : srv_ok s → y ≠ 0 → not_taken env y b s = Done (true, s') →
  free y (clock env (d_clock s')) (leases s).
Proof.
  intros (_&(H1&H2&_)&_&_&_&Ht&_) Hy E. unfold not_taken in E. apply bind_Done_inv in E as (r&s1&[Hf ->]%by_yiaddr_finds&E).
  intros k l El Hl. destruct (decide (k < table_size s)%nat) as [Hk|Hk]; [|rewrite (H2 k l) in Hl by (done || lia); done].
  destruct r as [i|]; simpl in Hf.
  - destruct b; [|by simplify_eq]. destruct Hf as (j&lj&->&Hj&Ej&Pj).
    apply bind_Done_inv in E as (l'&s2&[El' ->]%lease_at_inv&[Eb ->]%expired_inv). rewrite Nat2Z.id in El'.
    assert (l' = lj) as -> by congruence. apply Z.eqb_eq in Pj. destruct (decide (k = j)) as [->|Hkj].
    + assert (lj = l) as -> by congruence. symmetry in Eb. apply Z.ltb_lt in Eb. rewrite (clock_u32 _ _ Ht) in Eb.
      pose proof (clock_mono _ (d_clock s) (S (d_clock s)) Ht). simpl. lia.
    + exfalso. apply Hy. rewrite <- Hl. eapply (H1 k j); [done..|]. congruence.
  - by rewrite (Hf k l Hk El), Z.eqb_refl in Hl || (specialize (Hf k l Hk El); rewrite Hl, Z.eqb_refl in Hf).
Qed.

Lemma find_address_loop_free n a router b s x s' : srv_ok s → find_address_loop env n a router b s = Done (x, s') →
  x ≠ 0 → free x (clock env (d_clock s')) (leases s).
Proof.
  revert a s. induction n as [|n IH]; intros a s Hs; cbn [find_address_loop]; [by intros [=]|].
  unfold cfg. rewrite bind_gets. destruct (_ <? a); [by intros [= <- <-]|].
  destruct (Z.land a 0xff =? 0); [by apply IH|]. destruct (Z.land a 0xff =? 0xff); [by apply IH|].
  intros (r&s1&E1&E)%bind_Done_inv. apply (pres_reservedIp (R := eq)) in E1 as <-.
  destruct (r =? 0); [by eapply IH|]. rewrite bind_gets in E. destruct (_ || _); [by eapply IH|].
  apply bind_Done_inv in E as (ok&s2&E2&E).
  pose proof (calm_not_taken env _ _ _ _ _ E2) as Q2. pose proof (emits_srv_ok _ _ _ (proj1 (calm_emits _ _) Q2) Hs) as Hs2.
  assert (leases s2 = leases s) as El2 by apply Q2.
  destruct ok; [|rewrite <- El2; by eapply IH].
  apply bind_Done_inv in E as (used&s3&E3&E). pose proof (calm_check_ip env _ _ _ _ E3) as Q3.
  pose proof (emits_srv_ok _ _ _ (proj1 (calm_emits _ _) Q3) Hs2) as Hs3.
  assert (leases s3 = leases s) as El3 by (rewrite <- El2; apply Q3).
  destruct used; [rewrite <- El3; by eapply IH|]. injection E as <- <-. intros Hx k l Hk Hl.
  pose proof (not_taken_free a b s s2 Hs Hx E2 k l Hk Hl).
  assert (clock env (d_clock s2) ≤ clock env (d_clock s3)); [|lia]. eapply clock_mono; [apply Hs|]. apply Q3.
Qed.

Lemma find_address_free b s x s' : srv_ok s → find_address env b s = Done (x, s') →
  x ≠ 0 → free x (clock env (d_clock s')) (leases s).
Proof.
  intros Hs (r&s1&E1&E)%bind_Done_inv. apply (pres_router_ip (R := eq)) in E1 as <-.
  unfold cfg in E. rewrite !bind_gets in E. by eapply find_address_loop_free.
Qed.

Lemma free_mono y now now' t : free y now t → now ≤ now' → free y now' t.
Proof. intros H Hn k l Hk Hl. specialize (H k l Hk Hl). lia. Qed.

Lemma requested_free_inv p s r s' : srv_ok s → requested_free env p s = Done (Some r, s') → r ≠ 0 →
  free r (clock env (d_clock s')) (leases s).
Proof.
  intros Hs E Hr. unfold requested_free in E. apply bind_Done_inv in E as (q&s3&E3&E).
  apply (pres_get_option (R := eq)) in E3 as <-. destruct q as [q|]; [|discriminate E].
  apply bind_Done_inv in E as (v&s3&E3&E). apply (pres_load32 (R := eq)) in E3 as <-. rewrite bind_gets in E.
  destruct (negb _); [discriminate E|].
  apply bind_Done_inv in E as (w&s3&E3&E). apply (pres_reservedIp (R := eq)) in E3 as <-.
  destruct (w =? 0); [discriminate E|]. apply bind_Done_inv in E as (ok&s3&E3&E).
  destruct ok; [|discriminate E]. injection E as <- <-. by eapply not_taken_free.
Qed.

Lemma choose_free p c router s y t0 s' : srv_ok s → choose_address env p c router s = Done ((y, t0), s') →
  free_for c y (clock env (d_clock s')) (leases s).
Proof.
  intros Hs E. pose proof Hs as (_&(H1&H2&_)&_&_&_&Ht&_). unfold choose_address in E. unfold cfg in E. rewrite bind_gets in E.
  apply bind_Done_inv in E as (known&s1&[Hf ->]%by_chaddr_finds&E). destruct known as [i|].
  - (* the client is in the table *)
    destruct Hf as (j&lj&->&Hj&Ej&Pj). unfold same_chaddr in Pj. rewrite bool_decide_eq_true in Pj.
    apply bind_Done_inv in E as (l&s2&[El ->]%lease_at_inv&E). rewrite Nat2Z.id in El.
    assert (lj = l) as -> by congruence. apply bind_Done_inv in E as (e&s3&_&E).
    assert (y = l_yiaddr l) as -> by (destruct e; [by injection E as <- _ _|apply bind_Done_inv in E as (x&s4&_&E); by injection E as <- _ _]).
    intros Hy k l' Ek Hl. left. destruct (decide (k = j)) as [->|Hkj]; [congruence|].
    exfalso. apply Hy. rewrite <- Hl. by eapply (H1 k j).
  - apply bind_Done_inv in E as (req&s2&E2&E). pose proof (calm_requested_free env _ _ _ _ E2) as Q2.
    assert (leases s2 = leases s) as El2 by apply Q2.
    pose proof (emits_srv_ok _ _ _ (proj1 (calm_emits _ _) Q2) Hs) as Hs2.
    destruct req as [r|].
    + pose proof (requested_free_inv p s r s2 Hs E2) as Hr.
      rewrite bind_gets in E. destruct (_ && _).
      * injection E as <- _ <-. intros Hy k l Ek Hl. right. by eapply Hr.
      * apply bind_Done_inv in E as (a&s3&E3&E). injection E as <- _ <-. intros Hy k l Ek Hl. right.
        eapply (find_address_free false s2); [done|exact E3|done|by rewrite El2|done].
    + apply bind_Done_inv in E as (a&s3&E3&E). pose proof (calm_find_address env _ _ _ _ E3) as Q3.
      pose proof (emits_srv_ok _ _ _ (proj1 (calm_emits _ _) Q3) Hs2) as Hs3.
      destruct (negb (a =? 0)).
      * injection E as <- _ <-. intros Hy k l Ek Hl. right.
        eapply (find_address_free false s2); [done|exact E3|done|by rewrite El2|done].
      * apply bind_Done_inv in E as (a2&s4&E4&E). injection E as <- _ <-. intros Hy k l Ek Hl. right.
        eapply (find_address_free true s3); [done|exact E4|done| |done].
        assert (leases s3 = leases s2) as -> by apply Q3. by rewrite El2.
Qed.
End excl.
