(* ===== verification/DhcpRun.v ===== *)
(** * The rounds of the DHCP server: proofs

    What each message does to the leases and to the promises of [DhcpExcl]: the
    invariant holds behind every round of the main loop, and a packet that goes
    out names an address that nobody else was promised. *)

From stdpp Require Import base numbers list sets.
From Stdlib Require Import ZArith Lia Bool.
From S2P Require Import Prelude CText DhcpPacket DhcpOptions DhcpLease DhcpFiles DhcpVi DhcpServer DhcpMain DhcpTable DhcpReply DhcpExcl.

(** ** Bytes *)

Lemma be32_range bs : Forall is_byte bs → 0 ≤ be32 bs < 2 ^ 32.
Proof.
  intros H. unfold be32. apply (Forall_take _ 4) in H.
  assert (length (take 4 bs) ≤ 4)%nat as Hl by (rewrite length_take; lia).
  assert (∀ l acc k, Forall is_byte l → (length l ≤ k)%nat → 0 ≤ acc < 2 ^ (32 - 8 * Z.of_nat k) → (k ≤ 4)%nat →
    0 ≤ foldl (λ acc b, acc * 256 + b) acc l < 2 ^ 32) as G.
  { induction l as [|b l IH]; intros acc k Hb Hk Ha Hk4; simpl.
    - split; [lia|]. eapply Z.lt_le_trans; [apply Ha|]. apply Z.pow_le_mono_r; lia.
    - apply Forall_cons in Hb as [Hb1 Hb2]. destruct k as [|k]; [simpl in Hk; lia|]. simpl in Hk.
      apply (IH _ k); [done|lia| |lia]. unfold is_byte in Hb1.
      replace (32 - 8 * Z.of_nat k) with (32 - 8 * Z.of_nat (S k) + 8) by lia. rewrite Z.pow_add_r by lia.
      change (2 ^ 8) with 256. nia. }
  apply (G _ _ 4%nat); [done|done|simpl; lia|lia].
Qed.

Lemma get_bytes_inv {S} p i n (s : S) bs s' : get_bytes p i n s = Done (bs, s') → buf_read p i n = Some bs ∧ s' = s.
Proof. unfold get_bytes. destruct (buf_read p i n); cbn [of_option]; [intros [= <- <-]; done|intros [=]]. Qed.

Lemma put_bytes_inv {S} p i bs (s : S) p' s' : put_bytes p i bs s = Done (p', s') → buf_write p i bs = Some p' ∧ s' = s.
Proof. unfold put_bytes. destruct (buf_write p i bs); cbn [of_option]; [intros [= <- <-]; done|intros [=]]. Qed.

Lemma load32_inv {S} p i (s : S) v s' : load32 p i s = Done (v, s') →
  ∃ bs, buf_read p i 4 = Some bs ∧ v = be32 bs ∧ s' = s.
Proof. intros (bs&s1&[E ->]%get_bytes_inv&[= <- <-])%bind_Done_inv. by exists bs. Qed.

Lemma buf_read_byte p i n bs : Forall is_byte p → buf_read p i n = Some bs → Forall is_byte bs.
Proof. intros H. unfold buf_read. case_decide; [|done]. intros [= <-]. by apply Forall_take, Forall_drop. Qed.

Lemma buf_write_byte p i bs p' : Forall is_byte p → Forall is_byte bs → buf_write p i bs = Some p' → Forall is_byte p'.
Proof.
  intros Hp Hb E. apply Forall_lookup. intros k x Hk. rewrite (buf_write_lookup _ _ _ _ k E) in Hk.
  case_decide; [by eapply Forall_lookup_1 in Hk|by eapply Forall_lookup_1 in Hk].
Qed.

Lemma load32_range {S} p i (s : S) v s' : Forall is_byte p → load32 p i s = Done (v, s') → 0 ≤ v < 2 ^ 32.
Proof. intros H (bs&E&->&_)%load32_inv. apply be32_range. by eapply buf_read_byte. Qed.

(** ** The message that arrives *)

(** [agree m m0]: the two runs of a program that does not use the state. *)
Definition agree {S A} (m : M S A) (m0 : M unit A) : Prop :=
  ∀ s a s', m s = Done (a, s') → s' = s ∧ m0 tt = Done (a, tt).

Section agree.
Context {S : Type}.

Lemma agree_ret {A} (a : A) : agree (S := S) (mret a) (mret a).
Proof. intros s b s' [= <- <-]. done. Qed.
Lemma agree_of_option {A} (o : option A) : agree (S := S) (of_option o) (of_option o).
Proof. destruct o; [apply agree_ret|by intros s b s' [=]]. Qed.
Lemma agree_nofuel {A} : agree (S := S) (nofuel (A := A)) nofuel.
Proof. by intros s b s' [=]. Qed.
Lemma agree_bind {A B} (m : M S A) m0 (f : A → M S B) f0 :
  agree m m0 → (∀ a, agree (f a) (f0 a)) → agree (m ≫= f) (m0 ≫= f0).
Proof.
  intros Hm Hf s b s' (a&s1&E1&E2)%bind_Done_inv. apply Hm in E1 as [-> E1]. apply Hf in E2 as [-> E2].
  split; [done|]. by mstep E1.
Qed.

Ltac agree_go :=
  repeat first
    [ progress intros | apply agree_ret | apply agree_of_option | apply agree_nofuel | solve [eauto]
    | apply agree_bind
    | match goal with
      | |- agree (if ?b then _ else _) _ => destruct b
      | |- agree (match ?x with _ => _ end) _ => destruct x
      end ].

Lemma agree_peek p i : agree (S := S) (peek p i) (peek p i).
Proof. apply agree_of_option. Qed.
Hint Resolve agree_peek : core.
Lemma agree_get_bytes p i n : agree (S := S) (get_bytes p i n) (get_bytes p i n).
Proof. apply agree_of_option. Qed.
Lemma agree_put_bytes p i n : agree (S := S) (put_bytes p i n) (put_bytes p i n).
Proof. apply agree_of_option. Qed.
Hint Resolve agree_get_bytes agree_put_bytes : core.
Lemma agree_load32 p i : agree (S := S) (load32 p i) (load32 p i).
Proof. unfold load32. agree_go. Qed.
Lemma agree_load16 p i : agree (S := S) (load16 p i) (load16 p i).
Proof. unfold load16. agree_go. Qed.
Lemma agree_store16 p i v : agree (S := S) (store16 p i v) (store16 p i v).
Proof. unfold store16. agree_go. Qed.
Hint Resolve agree_load32 agree_load16 agree_store16 : core.

Lemma agree_get_option_loop n p code o i len over curr :
  agree (S := S) (get_option_loop n p code o i len over curr) (get_option_loop n p code o i len over curr).
Proof. revert o i len over curr. induction n as [|n IH]; intros; cbn [get_option_loop]; agree_go. Qed.
Lemma agree_get_option p code : agree (S := S) (get_option p code) (get_option p code).
Proof. apply agree_get_option_loop. Qed.
Hint Resolve agree_get_option : core.
Lemma agree_vendor p v n : agree (S := S) (vendor_is_broken p v n) (vendor_is_broken p v n).
Proof. unfold vendor_is_broken. agree_go. Qed.
Hint Resolve agree_vendor : core.
Lemma agree_force p v ns : agree (S := S) (force_broadcast_flag p v ns) (force_broadcast_flag p v ns).
Proof. revert p. induction ns as [|n ns IH]; intros p; cbn [force_broadcast_flag]; agree_go. Qed.
Hint Resolve agree_force : core.
Lemma agree_get_packet bs : agree (S := S) (get_packet bs) (get_packet bs).
Proof. unfold get_packet. agree_go. Qed.
End agree.

(** A whole message of bytes. *)
Definition message_ok (p : list Z) : Prop := Z.of_nat (length p) = sizeof_dhcpMessage ∧ Forall is_byte p.

Lemma force_message {S} p v ns (s : S) p' s' : message_ok p → force_broadcast_flag p v ns s = Done (p', s') → message_ok p'.
Proof.
  revert p s. induction ns as [|n ns IH]; intros p s Hp; cbn [force_broadcast_flag]; [by intros [= <- <-]|].
  intros (b&s1&_&E)%bind_Done_inv. apply bind_Done_inv in E as (fl&s2&_&E). apply bind_Done_inv in E as (p1&s3&E1&E).
  eapply IH; [|exact E]. destruct (_ && _); [|by injection E1 as <- _].
  apply put_bytes_inv in E1 as [E1 _]. destruct Hp as [Hl Hb]. split.
  - by rewrite (buf_write_length _ _ _ _ E1).
  - eapply buf_write_byte; [exact Hb|apply u16_bytes_bytes|exact E1].
Qed.

Lemma get_packet_message {S} bs (s : S) p s' : Forall is_byte bs → get_packet (Some bs) s = Done (Some p, s') → message_ok p.
Proof.
  intros Hb E. unfold get_packet in E. apply bind_Done_inv in E as (p0&s1&[E0 ->]%put_bytes_inv&E).
  assert (message_ok p0) as H0.
  { split; [rewrite (buf_write_length _ _ _ _ E0); by rewrite length_replicate|].
    eapply buf_write_byte; [|by apply Forall_take|exact E0]. by apply Forall_replicate. }
  clear E0. apply bind_Done_inv in E as (ck&s2&_&E). destruct (negb _); [discriminate E|].
  apply bind_Done_inv in E as (op&s3&_&E). destruct (op =? BOOTREQUEST); [|by injection E as <- _].
  apply bind_Done_inv in E as (v&s4&_&E). destruct v as [v|]; [|by injection E as <- _].
  apply bind_Done_inv in E as (p1&s5&E1&E). injection E as -> _. by eapply force_message.
Qed.

(** ** What a reply says *)

(** The reply [p]: its kind, the server, the number of the exchange, the address,
    the client and the lease time. *)
Definition reply_says (p : list Z) (type server : Z) (x : list Z) (y : Z) (c : list Z) (t : Z) : Prop :=
  ∃ l, has_options p (reply_base type server ++ reply_times t ++ l) ∧
    fld p OFF_YIADDR 4 = be_bytes y ∧ fld p OFF_CHADDR 16 = c ∧ fld p OFF_XID 4 = x ∧ fld p OFF_COOKIE 4 = be_bytes DHCP_MAGIC.

(** The packet [pkt] is such a reply. *)
Definition carries (pkt : sent_packet) (type server : Z) (x : list Z) (y t : Z) : Prop :=
  reply_form pkt ∧ ∃ p l, has_options p (reply_base type server ++ reply_times t ++ l) ∧
    is_message pkt p (reply_base type server ++ reply_times t ++ l) ∧
    fld p OFF_YIADDR 4 = be_bytes y ∧ fld p OFF_XID 4 = x ∧ fld p OFF_COOKIE 4 = be_bytes DHCP_MAGIC.

Lemma reply_says_extends p p' type sv x y c t : reply_says p type sv x y c t → extends p p' → reply_says p' type sv x y c t.
Proof.
  intros (l&H&Hy&Hc&Hx&Hm) E. destruct (E _ H) as (l'&H'&(Ey&Ec&Ex&Em)). exists (l ++ l').
  split; [by rewrite <- !app_assoc in H'|]. split_and!; congruence.
Qed.

(** The first steps of a reply. *)
Lemma reply_start old type y t s p s0 s2 p0 s3 p1 s4 : message_ok old → is_byte type →
  init_packet old type s = Done (p, s0) →
  store32 p OFF_YIADDR y s2 = Done (p0, s3) → add_times p0 t s3 = Done (p1, s4) →
  s4 = s2 ∧ reply_says p1 type (sc_server (server_config s)) (fld old OFF_XID 4) y (fld old OFF_CHADDR 16) t.
Proof.
  intros [Hl _] Ht E [E0 ->]%put_bytes_inv E1. destruct (init_packet_ok old type s Hl Ht) as (q&Eq&Hq&_&Hc&Hx&Hmg).
  rewrite E in Eq. injection Eq as <- ->. destruct (put_header _ _ _ _ E0 ltac:(done)) as (Ho&Hy&Hf).
  destruct (add_times_ok p0 _ _ t s2 (Ho _ Hq)) as (q1&Eq1&Hq1&(Ey&Ec&Ex&Em)). rewrite E1 in Eq1. injection Eq1 as <- ->.
  split; [done|]. exists []. rewrite app_nil_r. split; [done|].
  split; [by rewrite Ey|]. rewrite Ec, Ex, Em, <- Hc, <- Hx, <- Hmg.
  split_and!; apply Hf; unfold OFF_CHADDR, OFF_YIADDR, OFF_XID, OFF_COOKIE; simpl; lia.
Qed.

Lemma fld_options p off n : 0 ≤ off → fld p (OFF_OPTIONS + off) n = take (Z.to_nat n) (drop (Z.to_nat off) (drop (Z.to_nat OFF_OPTIONS) p)).
Proof. intros H. unfold fld. rewrite drop_drop. do 2 f_equal. unfold OFF_OPTIONS. lia. Qed.

Lemma reply_type p type server l : has_options p (reply_base type server ++ l) → fld p 242 1 = [type].
Proof. intros (_&_&rest&E). change 242 with (OFF_OPTIONS + 2). rewrite fld_options, E by done. done. Qed.

Lemma reply_lease p type server t l : has_options p (reply_base type server ++ reply_times t ++ l) → fld p 251 4 = be_bytes t.
Proof. intros (_&_&rest&E). change 251 with (OFF_OPTIONS + 11). rewrite fld_options, E by done. done. Qed.

Section run.
Context (env : dhcp_env).

(** A reply that is sent says what it was built to say. *)
Lemma reply_sent p type sv x y c t b s r s' : reply_says p type sv x y c t → 0 ≤ y < 2 ^ 32 → 0 ≤ t < 2 ^ 32 →
  send_packet env p b s = Done (r, s') →
  ∃ pkt, p_type pkt = type ∧ p_yiaddr pkt = y ∧ p_chaddr pkt = c ∧ p_lease pkt = t ∧ carries pkt type sv x y t ∧
    emits s (if 0 <=? r then [pkt] else []) s'.
Proof.
  intros (l&H&Hy&Hc&Hx&Hmg) Hyr Htr E. destruct (send_packet_inv env _ _ _ _ _ _ H E) as (pkt&Hm&Hfm&He). exists pkt.
  assert (carries pkt type sv x y t) as Hcar by (split; [done|]; by exists p, l).
  assert (15 ≤ Z.of_nat (length (encode (reply_base type sv ++ reply_times t ++ l)))) as Hlen.
  { rewrite app_assoc, encode_app, length_app. cbn. lia. }
  unfold is_message, OFF_OPTIONS in Hm. unfold p_type, p_yiaddr, p_chaddr, p_lease, OFF_YIADDR, OFF_CHADDR in *.
  rewrite !Hm by lia. rewrite (reply_type _ _ _ _ H), (reply_lease _ _ _ _ _ H), Hy, Hc.
  pose proof (be32_be_bytes y [] Hyr) as E1. pose proof (be32_be_bytes t [] Htr) as E2. rewrite app_nil_r in E1, E2. done.
Qed.

(** ** What a message may change *)

(** [serves now G s s']: at most one packet was sent, what it promises is kept,
    and it names the address of an entry of its client. *)
Definition serves (now : Z) (G : list grant) (s s' : dhcpd) : Prop :=
  ∃ l, (length l ≤ 1)%nat ∧ d_sent s' = d_sent s ++ l ∧ (d_clock s ≤ d_clock s')%nat ∧ inv env (ledger now l G) s' ∧
    ∀ pkt, pkt ∈ l → p_yiaddr pkt ≠ 0 → ∃ t, entry s' (p_chaddr pkt) (p_yiaddr pkt) t.

Lemma filter_all {A} (P : A → Prop) `{!∀ x, Decision (P x)} (l : list A) : (∀ x, x ∈ l → P x) → filter P l = l.
Proof.
  induction l as [|x l IH]; intros Hl; [done|]. rewrite filter_cons_True by (apply Hl; set_solver).
  f_equal. apply IH. set_solver.
Qed.

Lemma ledger_nil now G : ledger now [] G = G.
Proof. unfold ledger. simpl. apply filter_all. set_solver. Qed.

Lemma serves_quiet now G s s' : d_sent s' = d_sent s → (d_clock s ≤ d_clock s')%nat → inv env G s' → serves now G s s'.
Proof. intros E1 E2 Hi. exists []. rewrite app_nil_r, ledger_nil. split_and!; try done; [simpl; lia|set_solver]. Qed.

Lemma serves_calm now G s s' : calm s s' → inv env G s → serves now G s s'.
Proof. intros E Hi. apply serves_quiet; [apply E|apply E|by eapply calm_inv]. Qed.

Lemma emits_entry s l s' c y t : emits s l s' → entry s c y t → entry s' c y t.
Proof.
  intros (_&E1&_&E3&_) (k&e&Hk&He&Hr). cbn [leases server_config set_dsent] in *.
  pose proof (cfg_core_eq _ _ E3) as (Em&_). exists k, e. unfold table_size. by rewrite E1, Em.
Qed.

Lemma serves_calm_l now G s s1 s' : calm s s1 → serves now G s1 s' → serves now G s s'.
Proof.
  intros Ec (l&Hl1&E&Hk&Hr). exists l. destruct Ec as (_&_&_&_&_&_&Es&Hc). split_and!; [done|by rewrite E, Es|lia|apply Hr..].
Qed.

Lemma serves_calm_r now G s s1 s' : serves now G s s1 → calm s1 s' → serves now G s s'.
Proof.
  intros (l&Hl1&E&Hk&Hi&He) Ec. exists l. pose proof Ec as (_&_&_&_&_&_&Es&Hc).
  split_and!; [done|by rewrite Es|lia|by eapply calm_inv|].
  intros pkt Hp Hy. destruct (He pkt Hp Hy) as [t Ht]. exists t. eapply emits_entry; [by apply calm_emits|done].
Qed.

(** Packets that give nothing. *)
Lemma grants_of_none now l : (∀ pkt, pkt ∈ l → p_yiaddr pkt = 0 ∨ p_type pkt ≠ DHCPACK) → grants_of now l = [].
Proof.
  induction l as [|pkt l IH]; intros H; [done|]. unfold grants_of. cbn [map concat].
  fold (grants_of now l). rewrite IH by set_solver. rewrite app_nil_r.
  destruct (H pkt) as [E|E]; [set_solver| |].
  - rewrite E. by rewrite andb_false_r.
  - by rewrite (proj2 (Z.eqb_neq _ _) E).
Qed.

Lemma ledger_none now l G : (∀ pkt, pkt ∈ l → p_yiaddr pkt = 0 ∨ p_type pkt ≠ DHCPACK) → ledger now l G = G.
Proof. intros H. unfold ledger. rewrite (grants_of_none _ _ H). simpl. apply filter_all. set_solver. Qed.

Lemma serves_void now G s l s' : (length l ≤ 1)%nat → emits s l s' → (∀ pkt, pkt ∈ l → p_yiaddr pkt = 0) → inv env G s → serves now G s s'.
Proof.
  intros Hl1 E Hl Hi. exists l. pose proof E as (Es&_&_&_&_&_&_&_&Hc). split_and!; [done|done|done| |].
  - rewrite ledger_none by (intros pkt Hp; left; auto). by eapply emits_inv.
  - intros pkt Hp Hy. by rewrite Hl in Hy.
Qed.

(** ** The address of an offer *)

Lemma find_address_loop_range n a router b s x s' : 0 ≤ a < 2 ^ 32 → find_address_loop env n a router b s = Done (x, s') →
  0 ≤ x < 2 ^ 32.
Proof.
  assert (∀ v, 0 ≤ u32 v < 2 ^ 32) as Hu by (intros v; apply Z.mod_pos_bound; lia).
  revert a s. induction n as [|n IH]; intros a s Ha; cbn [find_address_loop]; [by intros [=]|].
  intros (e&s1&_&E)%bind_Done_inv. destruct (e <? a); [injection E as <- _; lia|].
  destruct (Z.land a 0xff =? 0); [exact (IH _ _ (Hu _) E)|]. destruct (Z.land a 0xff =? 0xff); [exact (IH _ _ (Hu _) E)|].
  apply bind_Done_inv in E as (r&s2&_&E). destruct (r =? 0); [exact (IH _ _ (Hu _) E)|].
  apply bind_Done_inv in E as (sv&s3&_&E). destruct (_ || _); [exact (IH _ _ (Hu _) E)|].
  apply bind_Done_inv in E as (ok&s4&_&E). destruct ok; [|exact (IH _ _ (Hu _) E)].
  apply bind_Done_inv in E as (used&s5&_&E). destruct used; [exact (IH _ _ (Hu _) E)|]. by injection E as <- _.
Qed.

Lemma find_address_range b s x s' : srv_ok env s → find_address env b s = Done (x, s') → 0 ≤ x < 2 ^ 32.
Proof.
  intros (_&_&_&_&_&_&Hst) (r&s1&E1&E)%bind_Done_inv. apply (pres_router_ip (R := eq)) in E1 as <-.
  unfold cfg in E. rewrite !bind_gets in E. by eapply find_address_loop_range.
Qed.

Lemma calm_srv s s' : calm s s' → srv_ok env s → srv_ok env s'.
Proof. intros E. apply (emits_srv_ok _ _ []). by apply calm_emits. Qed.

Lemma requested_range p s r s' : Forall is_byte p → requested_free env p s = Done (Some r, s') → 0 ≤ r < 2 ^ 32.
Proof.
  intros Hp (q&s1&_&E)%bind_Done_inv. destruct q as [q|]; [|discriminate E].
  apply bind_Done_inv in E as (v&s2&E2&E). apply (load32_range _ _ _ _ _ Hp) in E2.
  apply bind_Done_inv in E as (c&s3&_&E). destruct (negb _); [discriminate E|].
  apply bind_Done_inv in E as (w&s4&_&E). destruct (w =? 0); [discriminate E|].
  apply bind_Done_inv in E as (ok&s5&_&E). destruct ok; [|discriminate E]. by injection E as <- _.
Qed.

Lemma choose_range p c router s y t0 s' : srv_ok env s → Forall is_byte p →
  choose_address env p c router s = Done ((y, t0), s') → 0 ≤ y < 2 ^ 32 ∧ 0 ≤ t0 < 2 ^ 32.
Proof.
  intros Hs Hp E. unfold choose_address in E. unfold cfg in E. rewrite bind_gets in E.
  assert (0 ≤ sc_lease (server_config s) < 2 ^ 32) as Hl.
  { destruct Hs as (_&_&_&_&_&(Hl&_&_&Ht)&_). pose proof (Ht O). lia. }
  apply bind_Done_inv in E as (known&s1&[_ ->]%by_chaddr_finds&E). destruct known as [i|].
  - apply bind_Done_inv in E as (l&s2&[El ->]%lease_at_inv&E). apply bind_Done_inv in E as (e&s3&_&E).
    assert (y = l_yiaddr l ∧ 0 ≤ t0 < 2 ^ 32) as [-> Ht].
    { destruct e; [by injection E as <- <- _|]. apply bind_Done_inv in E as (x&s4&_&E). injection E as <- <- _.
      split; [done|]. apply Z.mod_pos_bound. lia. }
    destruct Hs as (_&(_&_&H3)&_). split; [by eapply H3|done].
  - apply bind_Done_inv in E as (req&s2&E2&E). pose proof (calm_srv _ _ (calm_requested_free env _ _ _ _ E2) Hs) as Hs2.
    destruct req as [r|].
    + rewrite bind_gets in E. destruct (_ && _); [injection E as <- <- _; split; [exact (requested_range _ _ _ _ Hp E2)|done]|].
      apply bind_Done_inv in E as (a&s3&E3&E). injection E as <- <- _. split; [exact (find_address_range _ _ _ _ Hs2 E3)|done].
    + apply bind_Done_inv in E as (a&s3&E3&E). pose proof (calm_srv _ _ (calm_find_address env _ _ _ _ E3) Hs2) as Hs3.
      destruct (negb (a =? 0)); [injection E as <- <- _; split; [exact (find_address_range _ _ _ _ Hs2 E3)|done]|].
      apply bind_Done_inv in E as (a2&s4&E4&E). injection E as <- <- _. split; [exact (find_address_range _ _ _ _ Hs3 E4)|done].
Qed.

(** ** Offers *)

Definition without (c : list Z) (G : list grant) : list grant := filter (λ g, g_chaddr g ≠ c) G.

Lemma without_sub c G : without c G ⊆ G.
Proof. intros g [_ H]%list_elem_of_filter. done. Qed.

Lemma inv_without G c y s : inv env (others c y G) s → inv env (without c G) s.
Proof.
  apply inv_sub. intros g [H1 H2]%list_elem_of_filter. apply list_elem_of_filter. split; [by left|done].
Qed.

Lemma length_inet_ntoa y : Z.of_nat (length (inet_ntoa y)) ≤ 126.
Proof.
  unfold inet_ntoa, sprintf_lu. rewrite !length_app. cbn [length].
  pose proof (λ v, dec_digits_length 10 v ltac:(lia)) as H.
  pose proof (H (u8 (Z.shiftr y 24))). pose proof (H (u8 (Z.shiftr y 16))). pose proof (H (u8 (Z.shiftr y 8))).
  pose proof (H (u8 y)). lia.
Qed.

(** [pure a]: the first action of the program in the goal's hypothesis reads
    only. *)
Tactic Notation "pure" ident(a) :=
  let s1 := fresh "s" in let E := fresh "E" in let E1 := fresh "E" in let H := fresh "H" in
  intros E; apply bind_Done_inv in E; destruct E as (a&s1&E1&E);
  match type of E1 with ?m ?s = _ => assert (pres eq m) as H by pres_go; apply H in E1; clear H; subst s1 end;
  revert E.

(** [grow H p X]: it extends the reply, as [H] says. *)
Tactic Notation "grow" uconstr(H) ident(p) ident(X) :=
  let s1 := fresh "s" in let E := fresh "E" in let E1 := fresh "E" in
  intros E; apply bind_Done_inv in E; destruct E as (p&s1&E1&E);
  apply H in E1; [|done]; destruct E1 as [E1 X]; subst s1; revert E.

(** The end of both replies. *)
Lemma phone_reply p reqs s p' s' : options_ok s →
  (q ← add_phone_options env p; add_phone_ntp q reqs) s = Done (p', s') → s' = s ∧ extends p p'.
Proof.
  intros Hs. revert s p' s' Hs. fold (grows (q ← add_phone_options env p; add_phone_ntp q reqs) p).
  apply grows_bind; [apply add_phone_options_grows|]. intros q. apply add_phone_ntp_grows.
Qed.

(** What follows the lease in an offer. *)
Lemma offer_built sv old packet y t0 c s r s' : options_ok s → message_ok old → 0 ≤ y < 2 ^ 32 → times_ok env (server_config s) →
  (∃ sa sb, init_packet old DHCPOFFER sa = Done (packet, sb) ∧ sc_server (server_config sa) = sv) → 0 ≤ t0 < 2 ^ 32 → c = server_config s →
  (lt ← get_option old DHCP_LEASE_TIME;
   t1 ← match lt with
        | Some q => t ← load32 old q; mret (if sc_lease c <? t then sc_lease c else t)
        | None => mret t0
        end;
   let t := if t1 <? sc_min_lease c then sc_lease c else t1 in
   p0 ← store32 packet OFF_YIADDR y;
   p1 ← add_times p0 t;
   phone ← gets bIpphone;
   p2 ← add_configured p1 (phone =? 1);
   p3 ← add_bootp_options p2;
   vireq ← get_option old DHCP_VENDOR_IDENTIFYING;
   p4 ← add_identity env p3 vireq;
   reqs ← request_list old;
   '(p5, _) ← add_requested (default [] reqs) phone p4 (inet_ntoa y);
   p6 ← (if phone =? 1 then q ← add_phone_options env p5; add_phone_ntp q reqs else mret p5);
   send_packet env p6 false) s = Done (r, s') →
  ∃ pkt t, p_type pkt = DHCPOFFER ∧ p_yiaddr pkt = y ∧ p_chaddr pkt = fld old OFF_CHADDR 16 ∧
    carries pkt DHCPOFFER sv (fld old OFF_XID 4) y t ∧ 0 ≤ t < 2 ^ 32 ∧
    emits s (if 0 <=? r then [pkt] else []) s'.
Proof.
  intros Hs Hm Hy Ht (sa&sb&Ep&<-) Ht0 ->. set (c := server_config s) in *.
  pure lt. intros (t1&s1&E1&E)%bind_Done_inv.
  assert (s1 = s ∧ 0 ≤ t1 < 2 ^ 32) as [-> Ht1].
  { destruct Ht as (Hl&_&_&Ht). pose proof (Ht O). destruct lt as [q|]; [|by injection E1 as <- <-].
    apply bind_Done_inv in E1 as (t&s2&E2&E1). pose proof (load32_range _ _ _ _ _ (proj2 Hm) E2).
    apply load32_inv in E2 as (_&_&_&->). injection E1 as <- <-. split; [done|]. destruct (Z.ltb_spec (sc_lease c) t); lia. }
  clear E1 lt. cbv zeta in E. set (t := if t1 <? sc_min_lease c then sc_lease c else t1) in E.
  assert (0 ≤ t < 2 ^ 32) as Htr.
  { destruct Ht as (Hl&_&_&Ht). pose proof (Ht O). unfold t. destruct (t1 <? sc_min_lease c); lia. }
  clearbody t. clear Ht0 Ht1. apply bind_Done_inv in E as (p0&s1&E0&E). apply bind_Done_inv in E as (p1&s2&E1&E).
  destruct (reply_start _ DHCPOFFER _ _ _ _ _ _ _ _ _ _ Hm ltac:(done) Ep E0 E1) as [-> H1]. clear E0 E1.
  rewrite bind_gets in E. revert E. grow add_configured_grows p2 X2. grow add_bootp_grows p3 X3. pure vireq.
  grow add_identity_grows p4 X4. pure reqs. intros ([p5 host]&s2&E5&E)%bind_Done_inv.
  apply add_requested_grows in E5 as [-> X5]; [|done|apply length_inet_ntoa].
  apply bind_Done_inv in E as (p6&s2&E6&E).
  assert (s2 = s ∧ extends p5 p6) as [-> X6].
  { destruct (bIpphone s =? 1); [by eapply phone_reply|]. injection E6 as <- <-. split; [done|reflexivity]. }
  destruct (reply_sent p6 DHCPOFFER (sc_server (server_config sa)) (fld old OFF_XID 4) y (fld old OFF_CHADDR 16) t false s r s')
    as (pkt&?&?&?&_&?&?); [|done..|exists pkt, t; split_and!; try done; lia].
  eapply reply_says_extends; [exact H1|]. by do 4 (etrans; [done|]).
Qed.

Lemma chaddr_read old (s : dhcpd) c s' : get_bytes old OFF_CHADDR 16 s = Done (c, s') → c = fld old OFF_CHADDR 16 ∧ s' = s.
Proof.
  intros [E ->]%get_bytes_inv. split; [|done]. unfold buf_read in E. case_decide; [|done]. by injection E as <-.
Qed.

(** The packets of a round that offers an address. *)
Definition offers (old : list Z) (s s' : dhcpd) : Prop :=
  ∀ pkt, pkt ∈ sent_since s s' → ∃ y t, 0 ≤ y < 2 ^ 32 ∧ 0 ≤ t < 2 ^ 32 ∧
    carries pkt DHCPOFFER (sc_server (server_config s)) (fld old OFF_XID 4) y t.

Lemma offers_quiet old s s' : d_sent s' = d_sent s → offers old s s'.
Proof. intros E pkt. unfold sent_since. rewrite E, drop_all. by intros []%not_elem_of_nil. Qed.

Lemma sendOffer_spec now G old s r s' : inv env G s → message_ok old → sendOffer env old s = Done (r, s') →
  serves now (without (fld old OFF_CHADDR 16) G) s s' ∧ offers old s s'.
Proof.
  intros Hi Hm. unfold sendOffer. pure router. intros (packet&s1&Ep&E)%bind_Done_inv.
  destruct (init_packet_ok old DHCPOFFER s (proj1 Hm) ltac:(done)) as (q&Eq&_). rewrite Ep in Eq. injection Eq as <- ->.
  apply bind_Done_inv in E as (c&s1&[Ec ->]%chaddr_read&E). apply bind_Done_inv in E as ([y t0]&s1&E1&E).
  pose proof (calm_choose env _ _ _ _ _ _ E1) as Q1. pose proof (calm_inv _ _ _ _ Q1 Hi) as Hi1.
  assert (d_sent s1 = d_sent s) as Ed by apply Q1. rewrite <- Ec.
  destruct (Z.eqb_spec y 0) as [|Hy].
  { injection E as <- <-. split; [|by apply offers_quiet]. apply (serves_calm_l _ _ _ s1); [done|].
    apply serves_quiet; [done|done|]. apply (inv_sub _ G); [apply without_sub|done]. }
  rewrite bind_gets in E. pose proof (choose_free env _ _ _ _ _ _ _ (proj1 Hi) E1) as Hfree.
  assert (leases s1 = leases s) as El by apply Q1. rewrite <- El in Hfree.
  destruct (choose_range _ _ _ _ _ _ _ (proj1 Hi) (proj2 Hm) E1) as [Hyr Htr].
  pose proof (proj1 Hi1) as (_&_&_&_&_&Ht1&_). pose proof Ht1 as (_&_&Hot&Htk).
  apply bind_Done_inv in E as (added&s2&E2&E).
  destruct (add_lease_inv env G c y _ s1 added s2 Hi1 Hfree Hyr ltac:(done) Hot ltac:(intros k; apply Htk) E2)
    as (Hi2&Ecfg&Es&Hck&Hent&_).
  apply inv_without in Hi2. destruct added as [i|].
  2: { injection E as <- <-. split; [|apply offers_quiet; congruence]. by apply (serves_calm_l _ _ _ s1), serves_quiet. }
  pose proof (proj1 Hi2) as (_&_&Hopt&_&_&Ht2&_).
  destruct (offer_built (sc_server (server_config s)) old packet y t0 (server_config s1) s2 r s') as (pkt&tt0&Ety&Ey&Ech&Hca&Htt&Hem);
    [done|done|done|done|by exists s, s|done|done|exact E|]. clear E.
  split.
  2: { intros pk. unfold sent_since. destruct Hem as (->&_). rewrite Es, Ed, drop_app_length.
       destruct (0 <=? r); [|by intros []%not_elem_of_nil]. intros ->%list_elem_of_singleton. by exists y, tt0. }
  apply (serves_calm_l _ _ _ s1); [done|]. exists (if 0 <=? r then [pkt] else []). pose proof Hem as (Es'&_&_&_&_&_&_&_&Hc'). cbn [set_dsent d_clock] in Hc'.
  split_and!; [destruct (0 <=? r); simpl; lia|by rewrite Es', Es|lia| |].
  - rewrite ledger_none; [by eapply emits_inv|]. intros pk Hpk. right. destruct (0 <=? r); [|set_solver].
    apply list_elem_of_singleton in Hpk as ->. by rewrite Ety.
  - intros pk Hpk Hyp. destruct (0 <=? r); [|set_solver]. apply list_elem_of_singleton in Hpk as ->.
    rewrite Ey, Ech, <- Ec. eexists. eapply emits_entry; [exact Hem|]. by eapply Hent.
Qed.

Lemma sendOffer_serves now G old s r s' : inv env G s → message_ok old → sendOffer env old s = Done (r, s') →
  serves now (without (fld old OFF_CHADDR 16) G) s s'.
Proof. intros. by eapply sendOffer_spec. Qed.

(** ** Acknowledgements *)

Lemma calm_options s s' : calm s s' → options_ok s → options_ok s'.
Proof. intros (_&_&(_&Eo&_)%cfg_core_eq&_). unfold options_ok. by rewrite Eo. Qed.

Lemma ack_time_range c t : 0 ≤ t → 0 ≤ sc_lease c → 0 ≤ ack_time c t ≤ sc_lease c.
Proof. intros. unfold ack_time. destruct (Z.ltb_spec (sc_lease c) t); [lia|]. destruct (t <? sc_min_lease c); lia. Qed.

(** An acknowledgement until it is sent: [k] is what follows. *)
Lemma ack_built {A} old y s (k : Z → list Z → Z → M dhcpd A) a s' : srv_ok env s → message_ok old → 0 ≤ y < 2 ^ 32 →
  (c ← gets server_config;
   packet ← init_packet old DHCPACK;
   p0 ← store32 packet OFF_YIADDR y;
   lt ← get_option old DHCP_LEASE_TIME;
   t ← match lt with
       | Some q => t ← load32 old q; mret (ack_time c t)
       | None => mret (sc_lease c)
       end;
   p1 ← add_times p0 t;
   phone ← gets bIpphone;
   p2 ← add_configured p1 (phone =? 1);
   p3 ← add_bootp_options p2;
   vireq ← get_option old DHCP_VENDOR_IDENTIFYING;
   p4 ← add_identity env p3 vireq;
   (match vireq with
    | Some _ => saveVIoption env old vireq y;; mret tt
    | None => mret tt
    end);;
   reqs ← request_list old;
   '(p5, host) ← add_requested (default [] reqs) phone p4 (inet_ntoa y);
   p6 ← (if phone =? 1 then
           q ← add_phone_options env p5;
           phone_rules env y host;;
           add_phone_ntp q reqs
         else mret p5);
   chaddr ← get_bytes old OFF_CHADDR 16;
   r ← send_packet env p6 false;
   k t chaddr r) s = Done (a, s') →
  ∃ t r s1 s2 pkt, calm s s1 ∧ 0 ≤ t ≤ sc_lease (server_config s) ∧ 
    p_type pkt = DHCPACK ∧ p_yiaddr pkt = y ∧ p_chaddr pkt = fld old OFF_CHADDR 16 ∧ p_lease pkt = t ∧
    carries pkt DHCPACK (sc_server (server_config s)) (fld old OFF_XID 4) y t ∧
    emits s1 (if 0 <=? r then [pkt] else []) s2 ∧ k t (fld old OFF_CHADDR 16) r s2 = Done (a, s').
Proof.
  intros Hs Hm Hy. pose proof Hs as (_&_&Ho&_&_&(Hl&_&_&Ht)&_). specialize (Ht O).
  rewrite bind_gets. set (c := server_config s) in *.
  intros (packet&s1&Ep&E)%bind_Done_inv. apply bind_Done_inv in E as (p0&s2&E0&E). revert E.
  destruct (init_packet_ok old DHCPACK s (proj1 Hm) ltac:(done)) as (q&Eq&_). rewrite Ep in Eq. injection Eq as <- ->.
  pose proof (proj2 (put_bytes_inv _ _ _ _ _ _ E0)) as ->.
  pure lt. intros (t&s1&E1&E)%bind_Done_inv.
  assert (s1 = s ∧ 0 ≤ t ≤ sc_lease c) as [-> Htr].
  { destruct lt as [q|]; [|injection E1 as <- <-; split; [done|lia]].
    apply bind_Done_inv in E1 as (t'&s2&E2&E1). pose proof (load32_range _ _ _ _ _ (proj2 Hm) E2).
    apply load32_inv in E2 as (_&_&_&->). injection E1 as <- <-. split; [done|]. apply ack_time_range; lia. }
  clear E1 lt. apply bind_Done_inv in E as (p1&s2&E1&E).
  destruct (reply_start _ DHCPACK _ _ _ _ _ _ _ _ _ _ Hm ltac:(done) Ep E0 E1) as [-> H1]. clear E0 E1.
  rewrite bind_gets in E. set (phone := bIpphone s) in E. clearbody phone.
  revert E. grow add_configured_grows p2 X2. grow add_bootp_grows p3 X3. pure vireq.
  grow add_identity_grows p4 X4. intros (u&s1&Ev&E)%bind_Done_inv.
  assert (calm s s1) as Q1.
  { assert (pres calm (match vireq with Some _ => saveVIoption env old vireq y;; mret tt | None => mret tt end)) as H by pres_go.
    by eapply H. }
  clear Ev. pose proof (calm_options _ _ Q1 Ho) as Ho1. revert E.
  pure reqs. intros ([p5 host]&s2&E5&E)%bind_Done_inv.
  apply add_requested_grows in E5 as [-> X5]; [|done|apply length_inet_ntoa].
  apply bind_Done_inv in E as (p6&s2&E6&E).
  assert (calm s1 s2 ∧ extends p5 p6) as [Q2 X6].
  { destruct (phone =? 1); [|injection E6 as <- <-; split; reflexivity].
    apply bind_Done_inv in E6 as (q5&s3&Eq5&E6). apply add_phone_options_grows in Eq5 as [-> Xa]; [|done].
    apply bind_Done_inv in E6 as (u'&s3&Er&E6). apply calm_phone_rules in Er.
    apply add_phone_ntp_grows in E6 as [-> Xb]; [|by eapply calm_options]. split; [done|by etrans]. }
  apply bind_Done_inv in E as (ch&s3&[-> ->]%chaddr_read&E). apply bind_Done_inv in E as (r&s3&E7&E).
  destruct (reply_sent p6 DHCPACK (sc_server c) (fld old OFF_XID 4) y (fld old OFF_CHADDR 16) t false s2 r s3) as (pkt&?&?&?&?&?&?); [|done|lia|done|].
  { eapply reply_says_extends; [exact H1|]. by do 4 (etrans; [done|]). }
  exists t, r, s2, s3, pkt. split_and!; try done; [by etrans|lia|lia].
Qed.

(** The client whose address it is. *)
Lemma entry_free_for s c y t now : srv_ok env s → (y ≠ 0 → entry s c y t) → free_for c y now (leases s).
Proof.
  intros (_&(H1&_)&_) He Hy k l Ek El. destruct (He Hy) as (j&e&_&Ej&Ec&Ey&_). left.
  destruct (decide (k = j)) as [->|Hkj]; [congruence|]. exfalso. apply Hy. rewrite <- El. eapply (H1 k j); [done..|]. congruence.
Qed.

Lemma grants_of_one now pkt : p_type pkt = DHCPACK → p_yiaddr pkt ≠ 0 →
  grants_of now [pkt] = [{| g_chaddr := p_chaddr pkt; g_yiaddr := p_yiaddr pkt; g_until := now + p_lease pkt |}].
Proof. intros E1 E2. unfold grants_of. simpl. rewrite E1. by rewrite (proj2 (Z.eqb_neq _ _) E2). Qed.

Lemma sendACK_serves now G old y t0 s r s' : inv env G s → message_ok old → now ≤ clock env (d_clock s) →
  0 ≤ y < 2 ^ 32 → (y = 0 → fld old OFF_CHADDR 16 = BLANK) → (y ≠ 0 → entry s (fld old OFF_CHADDR 16) y t0) →
  sendACK env old y s = Done (r, s') → serves now G s s'.
Proof.
  intros Hi Hm Hnow Hy Hb He E. apply ack_built in E as (t&r0&s1&s2&pkt&Q1&Ht&Ety&Ey&Ech&Elt&_&Hem&E); [|apply Hi|done|done].
  set (c := fld old OFF_CHADDR 16) in *. pose proof (calm_inv _ _ _ _ Q1 Hi) as Hi1.
  pose proof (emits_inv _ _ _ _ _ Hem Hi1) as Hi2. pose proof (proj1 Hi2) as Hs2.
  pose proof Hem as (Es2&_&_&_&_&_&_&_&Hc2). cbn [set_dsent d_clock] in Hc2.
  apply (serves_calm_l _ _ _ s1); [done|]. destruct (Z.ltb_spec r0 0) as [Hr|Hr].
  { injection E as <- <-. rewrite (proj2 (Z.leb_gt 0 r0)) in Es2 by lia. rewrite app_nil_r in Es2. by apply serves_quiet. }
  rewrite (proj2 (Z.leb_le 0 r0) Hr) in *. apply bind_Done_inv in E as (added&s3&E3&E). injection E as <- <-.
  assert (y ≠ 0 → entry s2 c y t0) as He2.
  { intros Hy0. eapply emits_entry; [exact Hem|]. eapply emits_entry; [by apply calm_emits|]. by apply He. }
  pose proof Hs2 as (_&_&_&_&_&(_&_&_&Htk)&_).
  assert (sc_lease (server_config s2) = sc_lease (server_config s)) as Elease.
  { destruct Hem as (_&_&_&E1&_). destruct Q1 as (_&_&E2&_). cbn [server_config set_dsent] in E1.
    apply cfg_core_eq in E1 as (_&_&E1&_). apply cfg_core_eq in E2 as (_&_&E2&_). congruence. }
  destruct (add_lease_inv env G c y t s2 added s3 Hi2 (entry_free_for _ _ _ _ _ Hs2 He2) Hy Hb ltac:(lia)
    ltac:(intros k; pose proof (Htk k); lia) E3) as (Hi3&Ecfg&Es3&Hck&Hent&Hnone).
  assert (y ≠ 0 → entry s3 c y (clock env (d_clock s2) + t)) as Hent3.
  { intros Hy0. destruct added as [i|]; [by eapply Hent|]. exfalso. destruct (He2 Hy0) as (j&e&Hj&Ej&_&Eyj&_).
    pose proof (Hnone eq_refl j e Hj Ej) as Hcl. unfold clears in Hcl. apply orb_false_iff in Hcl as [_ Hcl].
    rewrite Eyj, Z.eqb_refl, (proj2 (Z.eqb_neq y 0) Hy0) in Hcl. done. }
  exists [pkt]. split_and!; [done|by rewrite Es3|lia| |].
  - destruct (decide (y = 0)) as [->|Hy0].
    + rewrite ledger_none; [|intros pk ->%list_elem_of_singleton; by left]. eapply inv_sub; [|exact Hi3].
      intros g Hg. apply list_elem_of_filter. split; [by right|done].
    + assert (clock env (d_clock s) ≤ clock env (d_clock s2)) as Hmono.
      { eapply clock_mono; [apply Hs2|]. destruct Q1 as (_&_&_&_&_&_&_&Hc1). lia. }
      split; [apply Hi3|]. unfold ledger. rewrite grants_of_one by (done || congruence). apply Forall_app. split.
      * apply Forall_singleton. intros _. right. simpl. rewrite Ech, Ey, Elt.
        destruct (Hent3 Hy0) as (k&e&?&?&?&?&?). exists k, e. split_and!; try done. lia.
      * apply Forall_forall. intros g [Hg1 Hg2]%list_elem_of_filter. destruct Hi3 as [_ HG3].
        eapply Forall_forall in HG3; [exact HG3|]. apply list_elem_of_filter. split; [|done]. left. simpl in Hg1.
        intros Hg. apply Hg1. rewrite Ech, Hg. by apply list_elem_of_singleton.
  - intros pk ->%list_elem_of_singleton Hyp. rewrite Ey, Ech in *. eexists. by apply Hent3.
Qed.

(** ** Replies without an address *)

Lemma void_sent p its b s r s' : has_options p its → fld p OFF_YIADDR 4 = replicate 4 0 →
  send_packet env p b s = Done (r, s') → ∃ l, (length l ≤ 1)%nat ∧ emits s l s' ∧ ∀ pkt, pkt ∈ l → p_yiaddr pkt = 0.
Proof.
  intros H Hy E. destruct (send_packet_inv env _ _ _ _ _ _ H E) as (pkt&Hm&_&He). eexists. split; [|split; [exact He|]]; [destruct (0 <=? r); simpl; lia|].
  intros pk Hpk. destruct (0 <=? r); [|set_solver]. apply list_elem_of_singleton in Hpk as ->. unfold p_yiaddr.
  rewrite Hm by (unfold OFF_YIADDR, OFF_OPTIONS; lia). by rewrite Hy.
Qed.

Lemma void_extends p its p' : has_options p its → fld p OFF_YIADDR 4 = replicate 4 0 → extends p p' →
  ∃ its', has_options p' its' ∧ fld p' OFF_YIADDR 4 = replicate 4 0.
Proof. intros H Hy X. destruct (X _ H) as (l&H'&[Ey _]). eexists. split; [exact H'|congruence]. Qed.

Lemma sendNAK_serves now G old s r s' : inv env G s → message_ok old → sendNAK env old s = Done (r, s') → serves now G s s'.
Proof.
  intros Hi Hm (packet&s1&Ep&E)%bind_Done_inv.
  destruct (init_packet_ok old DHCPNAK s (proj1 Hm) ltac:(done)) as (q&Eq&Hq&Hy&_). rewrite Ep in Eq. injection Eq as <- ->.
  apply bind_Done_inv in E as (p&s1&E1&E). apply string_option_grows in E1 as [-> X];
    [|by apply opt_shape_intro|apply Hi].
  destruct (void_extends _ _ _ Hq Hy X) as (its&Hits&Hy'). destruct (void_sent _ _ _ _ _ _ Hits Hy' E) as (l&Hl1&He&Hl).
  by eapply serves_void.
Qed.

Lemma inform_serves now G old s r s' : inv env G s → message_ok old → send_inform env old s = Done (r, s') → serves now G s s'.
Proof.
  intros Hi Hm E. unfold send_inform, cfg in E. rewrite bind_gets in E. apply bind_Done_inv in E as (packet&s1&Ep&E).
  destruct (init_packet_ok old DHCPACK s (proj1 Hm) ltac:(done)) as (q&Eq&Hq&Hy&_). rewrite Ep in Eq. injection Eq as <- ->.
  apply bind_Done_inv in E as (p1&s1&E1&E).
  destruct (add_times_ok packet _ _ (sc_lease (server_config s)) s Hq) as (q1&Eq1&Hq1&[Ey1 _]).
  rewrite E1 in Eq1. injection Eq1 as <- ->. assert (options_ok s) as Ho by apply Hi.
  revert E. grow add_configured_grows p2 X2. grow add_bootp_grows p3 X3. intros E.
  destruct (void_extends _ _ p3 Hq1 ltac:(congruence) ltac:(by etrans)) as (its&Hits&Hy').
  destruct (void_sent _ _ _ _ _ _ Hits Hy' E) as (l&Hl1&He&Hl). by eapply serves_void.
Qed.

(** ** Entries that are written again *)

(** The addresses stay; a lease of a client in [P] may lose its client and get
    another time. *)
Definition retouch (P : list Z → Prop) (l l' : dhcpOfferedAddr) : Prop :=
  l_yiaddr l' = l_yiaddr l ∧ (l_chaddr l' = l_chaddr l ∨ l_chaddr l' = BLANK) ∧
  (P (l_chaddr l) ∨ (l_chaddr l' = l_chaddr l ∧ l_expires l' = l_expires l)).

Definition retouched (P : list Z → Prop) (s s' : dhcpd) : Prop :=
  Forall2 (retouch P) (leases s) (leases s') ∧ Forall2 (retouch P) (leases2 s) (leases2 s') ∧
  calm (set_leases (leases s') (set_leases2 (leases2 s') s)) s'.

Lemma retouch_refl P l : retouch P l l.
Proof. split; [done|]. split; [by left|by right]. Qed.

Lemma retouch_all P t : Forall2 (retouch P) t t.
Proof. apply Forall_Forall2_diag, Forall_forall. intros l _. apply retouch_refl. Qed.

Lemma retouched_srv P s s' : retouched P s s' → srv_ok env s → srv_ok env s'.
Proof.
  intros (F1&F2&Ec) (Hn&(H1&H2&H3)&Ho&H4&H5&H6&H7). pose proof (Forall2_length _ _ _ F1) as Hlen.
  assert (table_size s' = table_size s) as En by exact (calm_size _ _ Ec).
  eapply calm_srv; [exact Ec|]. split_and!; cbn [server_config g_enblSrv2 leases leases2 set_leases set_leases2]; try done; try apply H7.
  - change (table_size s ≤ length (leases s'))%nat. lia.
  - change (leases_ok (table_size s) (leases s')). split_and!.
    + intros i j li lj Ei Ej Hij. destruct (Forall2_lookup_r _ _ _ _ _ F1 Ei) as (ai&Ai&(Eyi&_)).
      destruct (Forall2_lookup_r _ _ _ _ _ F1 Ej) as (aj&Aj&(Eyj&_)). rewrite Eyi, Eyj. by apply (H1 i j).
    + intros i l Hi El. destruct (Forall2_lookup_r _ _ _ _ _ F1 El) as (a&Ea&(Ey&_)). rewrite Ey. by eapply H2.
    + intros i l El. destruct (Forall2_lookup_r _ _ _ _ _ F1 El) as (a&Ea&(Ey&Hch&_)). rewrite Ey.
      destruct (H3 i a Ea) as [Hr Hb]. split; [done|]. intros Hy. destruct Hch as [->| ->]; [by apply Hb|done].
  - apply Forall_forall. intros l Hl. apply list_elem_of_lookup in Hl as [i El].
    destruct (Forall2_lookup_r _ _ _ _ _ F2 El) as (a&Ea&(Ey&Hch&_)).
    eapply Forall_lookup_1 in H5 as [Hya Hca]; [|exact Ea]. rewrite Ey. split; [done|]. destruct Hch as [->| ->]; done.
Qed.

Lemma retouched_entry P s s' c y t : retouched P s s' → ¬ P c → entry s c y t → entry s' c y t.
Proof.
  intros (F1&_&Ec) HP (k&l&Hk&El&Ech&Ey&Et). destruct (Forall2_lookup_l _ _ _ _ _ F1 El) as (l'&El'&(Ey'&_&Hr)).
  exists k, l'. assert (table_size s' = table_size s) as -> by exact (calm_size _ _ Ec).
  destruct Hr as [Hp|[Ec' Ee]]; [by rewrite Ech in Hp|]. split_and!; [done|done|congruence..|lia].
Qed.

Lemma retouched_inv P G s s' : retouched P s s' → (∀ g, g ∈ G → ¬ P (g_chaddr g)) → inv env G s → inv env G s'.
Proof.
  intros Hr HP [Hs HG]. split; [by eapply retouched_srv|]. rewrite Forall_forall in *. intros g Hg Hy.
  destruct (HG g Hg Hy) as [Hu|He]; [left|right; eapply retouched_entry; [done|by apply HP|done]].
  eapply Z.lt_le_trans; [exact Hu|]. eapply clock_mono; [apply Hs|]. apply Hr.
Qed.

Lemma serves_retouched now G s s1 s' : serves now G s s1 → retouched (λ _, False) s1 s' → serves now G s s'.
Proof.
  intros (l&Hl1&E&Hk&Hi&He) Hr. exists l. pose proof Hr as (_&_&(_&_&_&_&_&_&Es&Hc)). cbn [d_sent d_clock set_leases set_leases2] in *.
  split_and!; [done|by rewrite Es|lia|eapply (retouched_inv _ _ _ _ Hr); [tauto|done]|].
  intros pkt Hp Hy. destruct (He pkt Hp Hy) as [t Ht]. exists t. eapply retouched_entry; [exact Hr|tauto|done].
Qed.

(** ** The lease of the client *)

Definition slot (p : lease_ptr) (s : dhcpd) : option dhcpOfferedAddr :=
  match p with InFirst i => leases s !! Z.to_nat i | InSecond i => leases2 s !! Z.to_nat i end.

Lemma get_l_inv p s l s' : get_l p s = Done (l, s') → slot p s = Some l ∧ s' = s.
Proof.
  destruct p as [i|i]; cbn [get_l slot]; [apply lease_at_inv|]. rewrite bind_gets.
  by destruct (leases2 s !! Z.to_nat i); [intros [= <- <-]|intros [=]].
Qed.

Lemma retouch_insert P t i l l' : t !! i = Some l → retouch P l l' → Forall2 (retouch P) t (<[i := l']> t).
Proof.
  intros E H. rewrite <- (list_insert_id t i l E) at 1. apply Forall2_insert; [apply retouch_all|done].
Qed.

Lemma put_l_retouched P p l l' s u s' : slot p s = Some l → retouch P l l' → put_l p l' s = Done (u, s') → retouched P s s'.
Proof.
  destruct p as [i|i]; cbn [put_l slot]; intros E H E1.
  - rewrite put_lease_ok in E1 by (by eapply lookup_lt_Some). injection E1 as _ <-.
    split_and!; cbn [leases leases2 set_leases]; [by eapply retouch_insert|apply retouch_all|by repeat split].
  - injection E1 as _ <-.
    split_and!; cbn [leases leases2 set_leases2]; [apply retouch_all|by eapply retouch_insert|by repeat split].
Qed.

Lemma put_hostname_retouched packet p h s u s' : put_hostname packet p h s = Done (u, s') → retouched (λ _, False) s s'.
Proof.
  intros (l&s1&[El ->]%get_l_inv&E)%bind_Done_inv.
  assert (∀ n, retouch (λ _, False) l (set_hostname n l)) as Hr by (intros n; split; [done|]; split; [by left|by right]).
  destruct h as [q|].
  - apply bind_Done_inv in E as (n&s2&E2&E). apply (pres_peek (R := eq)) in E2 as <-. cbv zeta in E.
    apply bind_Done_inv in E as (src&s2&[_ ->]%get_bytes_inv&E). eapply put_l_retouched; [exact El|apply Hr|exact E].
  - eapply put_l_retouched; [exact El|apply Hr|exact E].
Qed.

(** What is known of the lease that is found. *)
Definition lease_of (c : list Z) (s : dhcpd) (p : lease_ptr) : Prop :=
  ∃ l, slot p s = Some l ∧ l_chaddr l = c ∧ 0 ≤ l_yiaddr l < 2 ^ 32 ∧ (l_yiaddr l = 0 → c = BLANK) ∧
       (l_yiaddr l ≠ 0 → entry s c (l_yiaddr l) (l_expires l)).

Lemma find_lease_of c s r s' : srv_ok env s → find_lease c s = Done (r, s') →
  s' = s ∧ ∀ p, r = Some p → lease_of c s p.
Proof.
  intros (_&(_&_&H3)&_&_&H5&_) (a&s1&[Hf ->]%by_chaddr_finds&E)%bind_Done_inv. destruct a as [i|].
  - injection E as <- <-. split; [done|]. intros p [= <-]. destruct Hf as (k&l&->&Hk&El&Pl).
    unfold same_chaddr in Pl. rewrite bool_decide_eq_true in Pl. destruct (H3 k l El) as [Hr Hb].
    exists l. cbn [slot]. rewrite Nat2Z.id. split; [done|]. split; [done|]. split; [done|].
    split; [intros Hy; rewrite <- Pl; by apply Hb|]. intros _. by exists k, l.
  - apply bind_Done_inv in E as (b&s1&[Hf2 ->]%two_by_chaddr_finds&E). injection E as <- <-. split; [done|].
    intros p Hp. destruct b as [i|]; [|done]. simplify_eq/=. destruct Hf2 as (k&l&->&Hk&El&Pl).
    unfold same_chaddr in Pl. rewrite bool_decide_eq_true in Pl.
    eapply Forall_lookup_1 in H5 as [Hy Hc]; [|exact El]. exists l. cbn [slot]. rewrite Nat2Z.id, Hy.
    split_and!; try done. congruence.
Qed.

Lemma calm_slot p s s' : calm s s' → slot p s' = slot p s.
Proof. intros (E1&E2&_). destruct p; simpl; congruence. Qed.

Lemma calm_lease_of c s s' p : calm s s' → lease_of c s p → lease_of c s' p.
Proof.
  intros Q (l&El&Hr1&Hr2&Hr3&He). exists l. rewrite (calm_slot _ _ _ Q). split_and!; try done; try apply Hr2.
  intros Hy. eapply emits_entry; [by apply calm_emits|auto].
Qed.

(** ** The messages *)

Lemma ack_serves now G old y t0 s u s' : inv env G s → message_ok old → now ≤ clock env (d_clock s) →
  0 ≤ y < 2 ^ 32 → (y = 0 → fld old OFF_CHADDR 16 = BLANK) → (y ≠ 0 → entry s (fld old OFF_CHADDR 16) y t0) →
  ack env old y s = Done (u, s') → serves now G s s'.
Proof. intros ?????? (r&s1&E&[= _ <-])%bind_Done_inv. by eapply sendACK_serves. Qed.

Lemma nak_serves now G old s u s' : inv env G s → message_ok old → nak env old s = Done (u, s') → serves now G s s'.
Proof. intros ?? (r&s1&E&[= _ <-])%bind_Done_inv. by eapply sendNAK_serves. Qed.

Lemma pres_load_opt p q : pres eq (load_opt p q).
Proof. unfold load_opt. pres_go. Qed.

Lemma request_serves now G packet lease s u s' : inv env G s → message_ok packet → now ≤ clock env (d_clock s) →
  (∀ p, lease = Some p → lease_of (fld packet OFF_CHADDR 16) s p) →
  handle_request env packet lease s = Done (u, s') → serves now G s s'.
Proof.
  intros Hi Hm Hnow Hl. unfold handle_request. pure rq. pure sid. pure hostname.
  intros (requested&s1&E1&E)%bind_Done_inv. apply pres_load_opt in E1 as <-.
  apply bind_Done_inv in E as (server_id&s1&E1&E). apply pres_load_opt in E1 as <-.
  apply bind_Done_inv in E as (u1&s1&E1&E). pose proof (calm_report_options _ _ _ _ E1) as Q1.
  pose proof (calm_inv _ _ _ _ Q1 Hi) as Hi1. apply (serves_calm_l _ _ _ s1); [done|].
  destruct lease as [p|]; [|by eapply nak_serves].
  apply bind_Done_inv in E as (l&s2&[El ->]%get_l_inv&E).
  destruct (calm_lease_of _ _ _ _ Q1 (Hl p eq_refl)) as (l0&El0&_&Hyr&Hyb&Hye). assert (l0 = l) as -> by congruence.
  revert E. pure server. pure ciaddr. intros (u2&s2&E2&E)%bind_Done_inv.
  apply (serves_retouched _ _ _ s2); [|by eapply put_hostname_retouched]. clear E.
  assert (clock env (d_clock s) ≤ clock env (d_clock s1)) as Hck by (eapply clock_mono; [apply Hi|apply Q1]).
  assert (∀ s3, ack env packet (l_yiaddr l) s1 = Done (u2, s3) → serves now G s1 s3) as Hack.
  { intros s3 E3. eapply ack_serves; [done|done|lia|done..|exact E3]. }
  assert (∀ s3, nak env packet s1 = Done (u2, s3) → serves now G s1 s3) as Hnak by (intros s3; by apply nak_serves).
  assert (serves now G s1 s1) as Hsame by by apply serves_quiet.
  destruct server_id as [id|], requested as [r|].
  - destruct (_ && _); [by apply Hack|by injection E2 as _ <-].
  - by injection E2 as _ <-.
  - destruct (_ =? r); [by apply Hack|by apply Hnak].
  - destruct (_ =? ciaddr); [by apply Hack|by apply Hnak].
Qed.

Lemma without_none c G g : g ∈ without c G → g_chaddr g ≠ c.
Proof. by intros [H _]%list_elem_of_filter. Qed.

(** The entry of the client loses its client or its time. *)
Lemma given_up_serves now G c p l l' s s1 u s' : inv env G s → calm s s1 → slot p s = Some l → l_chaddr l = c →
  l_yiaddr l' = l_yiaddr l → (l_chaddr l' = l_chaddr l ∨ l_chaddr l' = BLANK) →
  put_l p l' s1 = Done (u, s') → serves now (without c G) s s'.
Proof.
  intros Hi Q El Hc Hy Hch E. apply (serves_calm_l _ _ _ s1); [done|].
  assert (retouched (λ x, x = c) s1 s') as Hr.
  { eapply put_l_retouched; [rewrite (calm_slot _ _ _ Q); exact El| |exact E]. split; [done|]. split; [done|by left]. }
  pose proof Hr as (_&_&(_&_&_&_&_&_&Es&Hck)). apply serves_quiet; [exact Es|exact Hck|].
  eapply (retouched_inv _ _ _ _ Hr); [intros g Hg; exact (without_none _ _ _ Hg)|].
  eapply inv_sub; [apply without_sub|]. by eapply calm_inv.
Qed.

Lemma unheard now G c s : inv env G s → serves now (without c G) s s.
Proof. intros Hi. apply serves_quiet; [done|done|]. eapply inv_sub; [apply without_sub|done]. Qed.

Lemma decline_serves now G c lease s u s' : inv env G s → (∀ p, lease = Some p → lease_of c s p) →
  handle_decline env lease s = Done (u, s') → serves now (without c G) s s'.
Proof.
  intros Hi Hl E. destruct lease as [p|]; [|injection E as _ <-; by apply unheard].
  destruct (Hl p eq_refl) as (l0&El0&Hc&_). apply bind_Done_inv in E as (l&s1&[El ->]%get_l_inv&E).
  assert (l0 = l) as -> by congruence. apply bind_Done_inv in E as (t&s1&E1&E). apply calm_uptime in E1.
  unfold cfg in E. rewrite bind_gets in E. by eapply given_up_serves; [..|exact E]; [| | | | |right].
Qed.

Lemma release_serves now G c lease s u s' : inv env G s → (∀ p, lease = Some p → lease_of c s p) →
  handle_release env lease s = Done (u, s') → serves now (without c G) s s'.
Proof.
  intros Hi Hl E. destruct lease as [p|]; [|injection E as _ <-; by apply unheard].
  destruct (Hl p eq_refl) as (l0&El0&Hc&_). apply bind_Done_inv in E as (l&s1&[El ->]%get_l_inv&E).
  assert (l0 = l) as -> by congruence. apply bind_Done_inv in E as (t&s1&E1&E). apply calm_uptime in E1.
  by eapply given_up_serves; [..|exact E]; [| | | | |left].
Qed.

(** The promises that a message of this kind leaves. *)
Definition left_by (state : Z) (c : list Z) (G : list grant) : list grant :=
  if (state =? DHCPDISCOVER) || (state =? DHCPDECLINE) || (state =? DHCPRELEASE) then without c G else G.

Lemma held_sub state c G : left_by state c G ⊆ G.
Proof. unfold left_by. destruct (_ || _); [apply without_sub|done]. Qed.

Lemma serves_inv now G s s' : serves now G s s' → srv_ok env s'.
Proof. intros (l&_&_&_&[Hs _]&_). done. Qed.

Lemma message_serves now G packet state lease s u s' : inv env G s → message_ok packet → now ≤ clock env (d_clock s) →
  (∀ p, lease = Some p → lease_of (fld packet OFF_CHADDR 16) s p) →
  (if state =? DHCPDISCOVER then handle_discover env packet
   else if state =? DHCPREQUEST then handle_request env packet lease
   else if state =? DHCPDECLINE then handle_decline env lease
   else if state =? DHCPRELEASE then handle_release env lease
   else if state =? DHCPINFORM then send_inform env packet;; mret tt
   else mret tt) s = Done (u, s') → serves now (left_by state (fld packet OFF_CHADDR 16) G) s s'.
Proof.
  intros Hi Hm Hnow Hl. unfold left_by.
  destruct (Z.eqb_spec state DHCPDISCOVER) as [->|_].
  { intros (u1&s1&E1%calm_report_options&E)%bind_Done_inv. apply bind_Done_inv in E as (r&s2&E2&[= _ <-]).
    apply (serves_calm_l _ _ _ s1); [done|]. eapply sendOffer_serves; [by eapply calm_inv|done|exact E2]. }
  destruct (Z.eqb_spec state DHCPREQUEST) as [->|_]; [by apply request_serves|].
  destruct (Z.eqb_spec state DHCPDECLINE) as [->|_]; [by apply decline_serves|].
  destruct (Z.eqb_spec state DHCPRELEASE) as [->|_]; [by apply release_serves|]. cbn [orb].
  destruct (Z.eqb_spec state DHCPINFORM) as [->|_].
  - intros (r&s1&E&[= _ <-])%bind_Done_inv. by eapply inform_serves.
  - intros [= _ <-]. by apply serves_quiet.
Qed.

Lemma calm_flag121 v s : calm s (set_flag_option121 v s).
Proof. by repeat split. Qed.

Lemma handle_state_serves now G packet state s u s' : inv env G s → message_ok packet → now ≤ clock env (d_clock s) →
  handle_state env packet state s = Done (u, s') → serves now (left_by state (fld packet OFF_CHADDR 16) G) s s'.
Proof.
  intros Hi Hm Hnow E. unfold handle_state in E.
  apply bind_Done_inv in E as (c&s1&[-> ->]%chaddr_read&E). apply bind_Done_inv in E as (lease&s1&E1&E).
  apply find_lease_of in E1 as [-> Hl]; [|apply Hi]. rewrite bind_modify in E.
  apply bind_Done_inv in E as (u1&s1&E1&[= _ <-]).
  apply (serves_calm_r _ _ _ s1); [|apply calm_flag121]. apply (serves_calm_l _ _ _ (set_flag_option121 0 s)); [apply calm_flag121|].
  eapply message_serves; [|done|done| |exact E1]; [by eapply calm_inv; [apply calm_flag121|]|].
  intros p Hp. eapply calm_lease_of; [apply calm_flag121|auto].
Qed.

(** The second pool is off. *)
Lemma for_second_off packet s b s' : g_enblSrv2 s = 0 → for_second packet s = Done (b, s') → b = false ∧ s' = s.
Proof.
  intros H. unfold for_second. pure v. rewrite !bind_gets, H. destruct (sc_vendorid _), v; by intros [= <- <-].
Qed.

(** The kind of the message and its client are what [message_of] says. *)
Lemma message_of_ok bytes (s : dhcpd) packet s1 q s2 state s3 :
  get_packet bytes s = Done (Some packet, s1) → get_option packet DHCP_MESSAGE_TYPE s1 = Done (Some q, s2) →
  peek packet q s2 = Done (state, s3) → message_of bytes = Some (state, fld packet OFF_CHADDR 16) ∧ s3 = s.
Proof.
  intros [-> E1]%agree_get_packet [-> E2]%agree_get_option [-> E3]%agree_peek. unfold message_of. by rewrite E1, E2, E3.
Qed.

Lemma still_held_of bytes state c G : message_of bytes = Some (state, c) → still_held (Received bytes) G = left_by state c G.
Proof.
  intros E. unfold still_held, left_by, gives_up. rewrite E. destruct (_ || _); cbn [andb].
  - apply list_filter_iff. intros g. rewrite bool_decide_eq_false. split; congruence.
  - by apply filter_all.
Qed.

Lemma still_held_sub ev G : still_held ev G ⊆ G.
Proof. intros g [_ H]%list_elem_of_filter. done. Qed.

Lemma serves_idle now ev G s s' : calm s s' → inv env G s → serves now (still_held ev G) s s'.
Proof. intros Q Hi. apply serves_calm; [done|]. eapply inv_sub; [apply still_held_sub|done]. Qed.

Lemma handle_packet_serves now G bytes packet s s1 u s' : inv env G s → Forall is_byte bytes → now ≤ clock env (d_clock s) →
  get_packet (Some bytes) s = Done (Some packet, s1) → handle_packet env packet s1 = Done (u, s') →
  serves now (still_held (Received (Some bytes)) G) s s'.
Proof.
  intros Hi Hb Hnow E0 E. pose proof (get_packet_message _ _ _ _ Hb E0) as Hm.
  pose proof (proj1 (agree_get_packet _ _ _ _ E0)) as ->. unfold handle_packet in E.
  apply bind_Done_inv in E as (st&s1&E1&E). pose proof (proj1 (agree_get_option _ _ _ _ _ E1)) as ->.
  destruct st as [q|]; [|injection E as _ <-; by apply serves_idle].
  apply bind_Done_inv in E as (state&s1&E2&E). destruct (message_of_ok _ _ _ _ _ _ _ _ E0 E1 E2) as [Hof ->].
  apply bind_Done_inv in E as (second&s1&E3&E). apply for_second_off in E3 as [-> ->]; [|apply Hi].
  rewrite bind_gets in E. destruct (g_enblSrv1 s =? 0); [injection E as _ <-; by apply serves_idle|].
  rewrite (still_held_of _ _ _ _ Hof). apply bind_Done_inv in E as (u1&s1&E4&E).
  eapply handle_state_serves in E4; [|done|done|done]. apply bind_Done_inv in E as (again&s2&E5&E).
  apply for_second_off in E5 as [-> ->]; [|apply (serves_inv _ _ _ _ E4)]. injection E as _ <-. done.
Qed.

Lemma round_serves G ev te s te' s' : inv env G s → event_ok ev → server_round env ev te s = Done (te', s') →
  serves (clock env (d_clock s)) (still_held ev G) s s'.
Proof.
  intros Hi Hev E. unfold server_round, cfg in E. rewrite bind_gets in E. apply bind_Done_inv in E as (te1&s1&E1&E).
  set (auto := sc_auto_time (server_config s)) in *. clearbody auto.
  assert (calm s s1) as Q1.
  { eassert (pres calm _) as H; [|eapply H; exact E1]. pres_go. }
  pose proof (calm_inv _ _ _ _ Q1 Hi) as Hi1.
  assert (clock env (d_clock s) ≤ clock env (d_clock s1)) as Hck by (eapply clock_mono; [apply Hi|apply Q1]).
  destruct ev as [bytes| |].
  - apply (serves_calm_l _ _ _ s1); [done|]. apply bind_Done_inv in E as (p&s2&E2&E).
    destruct bytes as [bytes|]; [|injection E2 as <- <-; injection E as _ <-; by apply serves_idle].
    destruct p as [packet|].
    + apply bind_Done_inv in E as (u&s3&E3&[= _ <-]). by eapply handle_packet_serves.
    + apply agree_get_packet in E2 as [-> _]. injection E as _ <-. by apply serves_idle.
  - apply serves_idle; [|done]. etrans; [exact Q1|]. eassert (pres calm _) as H; [|eapply H; exact E]. pres_go.
  - injection E as _ <-. by apply serves_idle.
Qed.

(** ** Runs *)

Lemma run_inv G s te : reach env G s te → inv env G s.
Proof.
  induction 1 as [s te Hs|G s te ev te' s' _ IH Hev E]; [by split|].
  destruct (round_serves _ _ _ _ _ _ IH Hev E) as (l&_&El&_&Hi&_). unfold sent_since. by rewrite El, drop_app_length.
Qed.

(** The address of a packet belongs to its client alone. *)
Lemma entry_exclusive s c y t g : srv_ok env s → entry s c y t → kept env s g → g_yiaddr g ≠ 0 → g_yiaddr g = y →
  g_chaddr g ≠ c → g_until g < clock env (d_clock s).
Proof.
  intros (_&(H1&_)&_) (k&l&_&El&Ec&Ey&_) Hk Hg Hy Hne. destruct (Hk Hg) as [Hu|(j&e&_&Ej&Ecj&Eyj&_)]; [done|].
  exfalso. destruct (decide (k = j)) as [->|Hkj]; [congruence|]. apply Hg. rewrite <- Eyj. eapply (H1 j k); [done..|congruence].
Qed.

Lemma grants_of_chaddr now pkt g : g ∈ grants_of now [pkt] → g_chaddr g = p_chaddr pkt.
Proof. unfold grants_of. simpl. destruct (_ && _); simpl; [by intros ->%list_elem_of_singleton|by intros ?%elem_of_nil]. Qed.

Lemma round_exclusive G ev te s te' s' pkt : inv env G s → event_ok ev → server_round env ev te s = Done (te', s') →
  pkt ∈ sent_since s s' → exclusive env (still_held ev G) s' pkt.
Proof.
  intros Hi Hev E Hp. destruct (round_serves _ _ _ _ _ _ Hi Hev E) as (l&Hl1&El&_&[Hs HG]&He).
  unfold sent_since in Hp. rewrite El, drop_app_length in Hp. intros g Hg Hy Ey Hne.
  destruct (He pkt Hp ltac:(congruence)) as [t Ht]. eapply entry_exclusive; [done|exact Ht| |done..].
  assert (l = [pkt]) as ->.
  { destruct l as [|a [|b l]]; [by apply elem_of_nil in Hp| |simpl in Hl1; lia]. by apply list_elem_of_singleton in Hp as ->. }
  eapply Forall_forall in HG; [exact HG|]. apply elem_of_app. right. apply list_elem_of_filter. split; [|done].
  intros (g'&Hg'&Hin)%list_elem_of_fmap. apply grants_of_chaddr in Hin. congruence.
Qed.
End run.
