(* ===== verification/DhcpClaims.v ===== *)
(** * The DHCP server: theorems

    The leases are exclusive; options and packets are well formed and can be read
    back; what is written to the lease file is not what is read. *)

From stdpp Require Import base numbers list strings sets gmap.
From Stdlib Require Import ZArith Lia Bool.
From S2P Require Import Prelude CText DhcpPacket DhcpOptions DhcpLease DhcpFiles DhcpVi DhcpServer DhcpMain DhcpTable DhcpReply DhcpFind DhcpExcl DhcpRun.

(** ** A server to try *)

(** The clock jumps behind the second message, over the end of a lease. *)
Definition try_env : dhcp_env :=
  {| clock := λ n, if (n <? 7)%nat then 1000 else 200000; arp_answer := λ _ _, 1;
     if_answer := λ _, {| if_socket := true; if_addr := Some 0xc0a80101; if_index := Some 3; if_hwaddr := Some [1; 2; 3; 4; 5; 6] |};
     fopen_ok := λ _, true; malloc_ok := λ _ z, z <? 1000; send_result := λ _, 300; inet_addr := λ _, 0;
     serial_number := cstr "SN"; base_mac := [0; 1; 2; 3; 4; 5]; static_nat := 0; junk := [] |}.

Definition try_config : server_config_t :=
  {| sc_server := 0xc0a80101; sc_start := 0xc0a80102; sc_end := 0xc0a801fe; sc_reservedAddr := replicate 8 0;
     sc_options := [[1; 4; 255; 255; 255; 0]; [3; 4; 192; 168; 1; 1]; [6; 4; 192; 168; 1; 1]];
     sc_interface := cstr "br0"; sc_ifindex := 3; sc_arp := [1; 2; 3; 4; 5; 6]; sc_lease := 86400; sc_max_leases := 8;
     sc_remaining := 1; sc_auto_time := 7200; sc_decline_time := 3600; sc_offer_time := 60; sc_min_lease := 60;
     sc_lease_file := cstr "/etc/udhcpd.leases"; sc_notify_file := None; sc_siaddr := 0; sc_sname := None;
     sc_boot_file := None; sc_pIPPhoneDomainName := None; sc_pIPPhoneDNSServers := None; sc_pIPPhoneTFTPServer := None;
     sc_pIPPhoneTFTPServerName := None; sc_pOutBoundProxy := None; sc_pDhcpOpt60 := None; sc_iIPPhoneVLANQoSEnable := 0;
     sc_iPPhoneNtp1 := 0; sc_iPPhoneNtp2 := 0; sc_vendorid := None |}.

Definition try_start : dhcpd :=
  {| server_config := try_config; server2_config := try_config; tmpSrvCfg := try_config;
     leases := replicate 8 no_lease; leases2 := replicate 8 no_lease; tmpls := replicate 8 no_lease;
     g_enblSrv1 := 1; g_enblSrv2 := 0; bIpphone := 0; UseIpPhoneVlan := 0; flag_option121 := 0;
     ipPhoneipaddr := replicate 255 0; g_EnableQosVlan := 0;
     vi := {| vi_nodes := ∅; vi_strs := ∅; vi_count := 0; vi_head := 0; vi_tail := 0; vi_brk := 1 |};
     d_clock := 0; d_arps := 0; d_ifs := 0; d_opens := 0; d_mallocs := 0; d_sends := 0; d_files := []; d_cmds := []; d_sent := [] |}.

(** A message of the client [mac] with the options [opts]. *)
Definition try_message (mac opts : list Z) : event :=
  Received (Some ([1; 1; 6; 0; 1; 2; 3; 4; 0; 0; 0; 0] ++ replicate 16 0 ++ mac ++ replicate (16 - length mac) 0 ++
    replicate 192 0 ++ be_bytes DHCP_MAGIC ++ opts ++ [255])).

Definition try_discover : event := try_message [1; 1; 1; 1; 1; 1] [53; 1; 1; 55; 3; 1; 12; 15].
Definition try_request : event := try_message [1; 1; 1; 1; 1; 1] [53; 1; 3; 50; 4; 192; 168; 1; 2; 54; 4; 192; 168; 1; 1].
(** Another client asks for the address of the first one. *)
Definition try_other : event := try_message [2; 2; 2; 2; 2; 2] [53; 1; 1; 50; 4; 192; 168; 1; 2].

Definition try_round (ev : event) (x : Z * dhcpd) : Z * dhcpd :=
  match server_round try_env ev x.1 x.2 with Done y => y | _ => x end.
Definition try_1 : Z * dhcpd := try_round try_discover (5000, try_start).
Definition try_2 : Z * dhcpd := try_round try_request try_1.
Definition try_3 : Z * dhcpd := try_round try_other try_2.

Lemma try_srv_ok : srv_ok try_env try_start.
Proof.
  split; [apply Nat.leb_le; reflexivity|]. split; [|split; [|split; [done|split; [|split]]]].
  - split; [|split].
    + intros i j li lj [-> _]%lookup_replicate. done.
    + intros i l _ [-> _]%lookup_replicate. done.
    + intros i l [-> _]%lookup_replicate. simpl. split; [lia|done].
  - unfold options_ok. simpl. repeat constructor; apply opt_shape_intro; simpl; unfold DHCP_OPTION_OVER; lia.
  - apply Forall_replicate. done.
  - split; [done|]. split; [done|]. split; [done|]. intros k. cbn [clock try_env server_config try_start try_config sc_lease sc_offer_time].
    destruct (Nat.ltb_spec k 7), (Nat.ltb_spec (S k) 7); lia.
  - simpl. lia.
Qed.

Definition round_done (ev : event) (x y : Z * dhcpd) : Prop := server_round try_env ev x.1 x.2 = Done (y.1, y.2).

Lemma try_round_1 : round_done try_discover (5000, try_start) try_1.
Proof. vm_compute. reflexivity. Qed.
Lemma try_round_2 : round_done try_request try_1 try_2.
Proof. vm_compute. reflexivity. Qed.
Lemma try_round_3 : round_done try_other try_2 try_3.
Proof. vm_compute. reflexivity. Qed.

Lemma try_event mac opts : Forall is_byte mac → Forall is_byte opts → event_ok (try_message mac opts).
Proof.
  intros H1 H2. cbn [event_ok try_message].
  assert (∀ n, Forall is_byte (replicate n 0)) as H0 by (intros; by apply Forall_replicate).
  repeat (apply Forall_app; split); auto; try apply be_bytes_byte; repeat constructor; by vm_compute.
Qed.

(** The promises of the first two rounds. *)
Definition try_ledger : list grant :=
  ledger (clock try_env (d_clock try_1.2)) (sent_since try_1.2 try_2.2) (still_held try_request
    (ledger (clock try_env (d_clock try_start)) (sent_since try_start try_1.2) (still_held try_discover []))).

Lemma try_reach : reach try_env try_ledger try_2.2 try_2.1.
Proof.
  apply (reach_round _ _ try_1.2 try_1.1); [|by apply try_event; repeat constructor|exact try_round_2].
  apply (reach_round _ _ try_start 5000); [|by apply try_event; repeat constructor|exact try_round_1].
  apply reach_start, try_srv_ok.
Qed.

(** ** Exclusive leases *)

(** [C6] The server never gives an address to two clients.  Over every run of the
    server with one address pool, from any table in which no address occurs
    twice, whatever messages arrive and whatever fails: when a packet goes out
    that offers or acknowledges an address, then every promise of that address
    to another client, made by an acknowledgement and not given up since, is
    over. *)
Theorem dhcp_leases_exclusive env G s te ev te' s' pkt :
  reach env G s te → event_ok ev → server_round env ev te s = Done (te', s') → pkt ∈ sent_since s s' →
  exclusive env (still_held ev G) s' pkt.
Proof. intros Hr Hev E Hp. eapply round_exclusive; [by eapply run_inv|done..]. Qed.

(** The second client gets the address of the first one, whose lease is over. *)
Lemma dhcp_leases_exclusive_witness :
  match sent_since try_2.2 try_3.2 with
  | [pkt] => p_yiaddr pkt = 0xc0a80102 ∧ map g_yiaddr (still_held try_other try_ledger) = [0xc0a80102] ∧
             exclusive try_env (still_held try_other try_ledger) try_3.2 pkt
  | _ => False
  end.
Proof.
  assert (∃ pkt, sent_since try_2.2 try_3.2 = [pkt] ∧ p_yiaddr pkt = 0xc0a80102) as (pkt&E&Ey)
    by (eexists; split; vm_compute; reflexivity).
  rewrite E. split; [exact Ey|]. split; [vm_compute; reflexivity|].
  eapply (dhcp_leases_exclusive try_env try_ledger try_2.2 try_2.1 try_other try_3.1).
  - exact try_reach.
  - apply try_event; repeat constructor; by vm_compute.
  - exact try_round_3.
  - rewrite E. by apply list_elem_of_singleton.
Defined.

(** ** Options *)

Lemma field_end o len curr : option_field o len curr → o + len ≤ OFF_OPTIONS + 308.
Proof.
  unfold option_field. rewrite !elem_of_cons, elem_of_nil.
  intros [[= -> -> ->]|[[= -> -> ->]|[[= -> -> ->]|[]]]]; by vm_compute.
Qed.

(** [C35] [get_option] ends on every message of bytes, reads nothing outside it, and
    a pointer it returns points behind the code and the length of an option whose
    data ends in the first 308 bytes of the options or in front of them, so that
    all of it is in the message. *)
Theorem get_option_safe {St} (p : list Z) (code : Z) (s : St) :
  Z.of_nat (length p) = sizeof_dhcpMessage → Forall is_byte p →
  ∃ r, get_option p code s = Done (r, s) ∧
    ∀ q, r = Some q → ∃ l, is_byte l ∧ p !! Z.to_nat (q - 2) = Some code ∧ p !! Z.to_nat (q - 1) = Some l ∧
      46 ≤ q ∧ q + l ≤ OFF_OPTIONS + 308.
Proof.
  intros Hl Hp. destruct (get_option_any p code Hl Hp s) as (r&E&Hr). exists r. split; [done|]. intros q Hq.
  destruct (Hr q Hq) as (o&len&curr&l&Hf&Ho&Hql&Hb&Hc&Hlen). exists l.
  pose proof (field_bounds _ _ _ Hf) as (?&?&?). pose proof (field_end _ _ _ Hf).
  split; [done|]. split; [done|]. split; [done|]. lia.
Qed.

Lemma get_option_safe_witness : ∃ p r, get_option (S := unit) p DHCP_MESSAGE_TYPE tt = Done (r, tt) ∧
  ∀ q, r = Some q → ∃ l, is_byte l ∧ p !! Z.to_nat (q - 2) = Some DHCP_MESSAGE_TYPE ∧ p !! Z.to_nat (q - 1) = Some l ∧
    46 ≤ q ∧ q + l ≤ OFF_OPTIONS + 308.
Proof.
  exists (replicate 240 0 ++ [53; 1; 1; 255] ++ replicate 1020 7).
  apply (get_option_safe _ DHCP_MESSAGE_TYPE tt); [reflexivity|].
  repeat (apply Forall_app; split); try (apply Forall_replicate; by vm_compute). repeat constructor; by vm_compute.
Defined.

Lemma find_item_last its code q data : code ∉ (λ it, match it with Opt c _ => c | Pad => 0 end) <$> its → 
  find_item (its ++ [Opt code data]) code q = Some (q + Z.of_nat (length (encode its)) + 2, data).
Proof.
  revert q. induction its as [|it its IH]; intros q Hc; cbn [app find_item].
  { rewrite Z.eqb_refl. do 2 f_equal. simpl. lia. }
  rewrite fmap_cons, not_elem_of_cons in Hc. destruct Hc as [Hc1 Hc2].
  rewrite encode_cons, length_app, Nat2Z.inj_add, length_encode_item. destruct it as [|c d].
  - rewrite IH by done. do 2 f_equal. lia.
  - rewrite (proj2 (Z.eqb_neq c code)) by congruence. rewrite IH by done. do 2 f_equal. lia.
Qed.

(** The codes of the options of a message. *)
Definition codes (its : list item) : list Z := (λ it, match it with Opt c _ => c | Pad => 0 end) <$> its.

(** [C36] An option that [add_option_string] appends to a message is found again by
    [get_option], with its data, as long as it ends in the first 308 bytes of the
    options; behind them it is lost for every reader that uses [get_option],
    although the message has room for 1024 bytes and [add_option_string] fills
    them. *)
Theorem option_roundtrip {St} p its code data junk (s : St) :
  has_options p its → item_ok (Opt code data) → code ∉ codes its →
  Z.of_nat (length (encode its)) + Z.of_nat (length data) + 3 < OPTIONS_LEN →
  ∃ p', add_option_string p OFF_OPTIONS (encode_item (Opt code data) ++ junk) s = Done ((Z.of_nat (length data) + 2, p'), s) ∧
    let q := OFF_OPTIONS + Z.of_nat (length (encode its)) + 2 in
    get_option p' code s = Done (if q + Z.of_nat (length data) <=? OFF_OPTIONS + 308 then Some q else None, s) ∧
    get_bytes p' q (Z.of_nat (length data)) s = Done (data, s) ∧
    same_header p p'.
Proof.
  intros H Hok Hc Hfit. destruct (add_option_string_spec p its code data junk s H Hok) as [Hadd _].
  destruct (Hadd Hfit) as (p'&E&H'&Hh). exists p'. split; [done|]. cbv zeta.
  split; [|split; [|done]].
  - rewrite (get_option_spec p' code ltac:(apply Hok) (its ++ [Opt code data]) s H'). by rewrite find_item_last.
  - destruct (has_options_split _ _ H') as (hd&rest&Ep&_&Hl&_). unfold get_bytes. rewrite Ep, encode_app.
    replace (hd ++ (encode its ++ encode [Opt code data]) ++ DHCP_END :: rest)
      with ((hd ++ encode its ++ [code; Z.of_nat (length data)]) ++ data ++ DHCP_END :: rest)
      by (cbn [encode map concat encode_item]; rewrite app_nil_r, <- !app_assoc; done).
    rewrite buf_read_mid; [done| |done]. rewrite !length_app. simpl. unfold OFF_OPTIONS in *. lia.
Qed.

Definition try_packet : list Z := replicate 240 0 ++ DHCP_END :: replicate 1023 0.

Lemma option_roundtrip_witness : ∃ p', add_option_string (S := unit) try_packet OFF_OPTIONS [12; 2; 104; 105] tt = Done ((4, p'), tt) ∧
  get_option p' 12 tt = Done (Some 242, tt) ∧ get_bytes p' 242 2 tt = Done ([104; 105], tt).
Proof.
  destruct (option_roundtrip try_packet [] 12 [104; 105] [] tt) as (p'&E1&E2&E3&_).
  - split; [reflexivity|]. split; [constructor|]. exists (replicate 1023 0). reflexivity.
  - split; [lia|]. split; [done|]. simpl. lia.
  - apply not_elem_of_nil.
  - vm_compute. reflexivity.
  - exists p'. split; [exact E1|]. split; [exact E2|exact E3].
Defined.

(** ** Packets *)

(** What a receiver adds for UDP: the addresses, the protocol and the length. *)
Definition pseudo_header (src dst len : Z) : list Z := be_bytes src ++ be_bytes dst ++ [0; 17] ++ u16_bytes len.

Lemma sum_pseudo src dst len : 0 ≤ len < 65536 →
  checksum_sum (pseudo_header src dst len) 0 = checksum_sum (be_bytes src) 0 + checksum_sum (be_bytes dst) 0 + 17 + len.
Proof. intros H. unfold pseudo_header. rewrite !checksum_sum_app, sum_u16 by done. cbn [checksum_sum]. lia. Qed.

(** [C37] A packet that [raw_packet] sends has correct checksums: a receiver that adds
    the 16-bit words of the IP header, or those of the UDP header and the data
    with the pseudo-header, in one's complement, gets 0xffff.  The data has an
    even number of bytes, as [calc_length] makes it. *)
Theorem raw_packet_checksums data src sport dst dport :
  Forall is_byte data → Nat.even (length data) = true → Z.of_nat (length data) ≤ sizeof_dhcpMessage →
  let pkt := raw_packet_bytes data src sport dst dport in
  ones_sum (take 20 pkt) = 0xffff ∧
  ones_sum (pseudo_header src dst (8 + Z.of_nat (length data)) ++ drop 20 pkt) = 0xffff.
Proof.
  intros Hb He Hl. unfold sizeof_dhcpMessage in Hl. cbv zeta. unfold raw_packet_bytes.
  set (len := 8 + Z.of_nat (length data)). assert (0 ≤ len < 1300) as Hlen by lia.
  rewrite take_app_length', drop_app_length' by done.
  pose proof (checksum_sum_range _ Hb). pose proof (checksum_sum_range _ (be_bytes_byte src)).
  pose proof (checksum_sum_range _ (be_bytes_byte dst)). pose proof (checksum_sum_range _ (u16_bytes_bytes sport)).
  pose proof (checksum_sum_range _ (u16_bytes_bytes dport)).
  change (Z.of_nat (length (be_bytes _))) with 4 in *. change (Z.of_nat (length (u16_bytes _))) with 2 in *. split.
  - set (h := ip_header 0x45 (20 + len) 64 0 src dst).
    assert (0 < checksum_sum h 0 < 2 ^ 31) as Hs by (unfold h; rewrite sum_ip by lia; lia).
    pose proof (checksum_range h ltac:(lia)). apply (checksum_verify h); [done| |lia|done|by apply ip_header_bytes].
    unfold h at 2. rewrite !sum_ip by lia. lia.
  - set (u := ip_header 0 len 0 0 src dst ++ udp_header sport dport len 0 ++ data).
    assert (checksum_sum u 0 = len + 17 + checksum_sum (be_bytes src) 0 + checksum_sum (be_bytes dst) 0 +
      (checksum_sum (u16_bytes sport) 0 + checksum_sum (u16_bytes dport) 0 + len + checksum_sum data 0)) as Eu.
    { unfold u. rewrite checksum_sum_app, sum_ip, sum_udp by (done || lia). lia. }
    pose proof (checksum_range u ltac:(lia)). apply (checksum_verify u); [lia| |lia|exact He|].
    + rewrite checksum_sum_app, sum_pseudo, sum_udp by (done || lia). lia.
    + apply Forall_app. split; [|apply Forall_app; split; [apply udp_header_bytes|done]].
      unfold pseudo_header. rewrite !Forall_app. split_and!; try apply be_bytes_byte; try apply u16_bytes_bytes.
      repeat constructor; by vm_compute.
Qed.

Lemma raw_packet_checksums_witness :
  ones_sum (take 20 (raw_packet_bytes [1; 2; 3; 255] 0xc0a80101 67 0xffffffff 68)) = 0xffff ∧
  ones_sum (pseudo_header 0xc0a80101 0xffffffff 12 ++ drop 20 (raw_packet_bytes [1; 2; 3; 255] 0xc0a80101 67 0xffffffff 68)) = 0xffff.
Proof.
  apply (raw_packet_checksums [1; 2; 3; 255] 0xc0a80101 67 0xffffffff 68); [|reflexivity|by vm_compute].
  repeat constructor; by vm_compute.
Defined.

(** ** The search for an address *)

(** [C34] [find_address] ends and is right in both directions.  An address that it
    returns lies in the range of the pool, is no network or broadcast address of
    a class C net, not reserved and not the router's; no lease of it counts, and
    nobody answers for it.  When it returns 0, every address of the range is
    excluded: by the configuration, as the server's own, by a lease that counts,
    or because somebody answers for it.  The pool must end in front of the last
    32-bit address, where the counter would wrap. *)
Theorem find_address_correct env b s router :
  (table_size s ≤ length (leases s))%nat → Z.of_nat (length (sc_interface (server_config s))) < 16 →
  0 ≤ sc_start (server_config s) → sc_end (server_config s) < 2 ^ 32 - 1 → router_ip s = Done (router, s) →
  ∃ x s', find_address env b s = Done (x, s') ∧ calm s s' ∧
    (x ≠ 0 → sc_start (server_config s) ≤ x ≤ sc_end (server_config s) ∧ grantable env s router b x) ∧
    (x = 0 → ∀ a, sc_start (server_config s) ≤ a ≤ sc_end (server_config s) → ungrantable env s router b a).
Proof.
  intros Hsize Hname Hstart Hend Hr. unfold find_address. mstep Hr. unfold cfg. rewrite !bind_gets.
  destruct (find_address_loop_spec env s router b Hsize Hname Hend
    (Z.to_nat (sc_end (server_config s) - sc_start (server_config s)) + 2) (sc_start (server_config s)) s)
    as (x&s'&E&[Hc _]&H1&H2); [split; [done|by left]|done|lia|lia|]. by exists x, s'.
Qed.

Lemma find_address_correct_witness : ∃ x s', find_address try_env false try_start = Done (x, s') ∧ x = 0xc0a80102 ∧
  grantable try_env try_start 0xc0a80101 false x.
Proof.
  destruct (find_address_correct try_env false try_start 0xc0a80101) as (x&s'&E&_&H&_);
    [apply Nat.leb_le; reflexivity|by vm_compute|by vm_compute|by vm_compute|vm_compute; reflexivity|].
  assert (x = 0xc0a80102) as ->.
  { assert (find_address try_env false try_start = Done (0xc0a80102, s')) as E2; [|congruence].
    rewrite E. f_equal. f_equal. clear H. revert E. generalize (eq_refl (find_address try_env false try_start)).
    vm_compute (find_address try_env false try_start) at 2. intros E1 E. rewrite E1 in E. by injection E as <- _. }
  exists 0xc0a80102, s'. split; [exact E|]. split; [reflexivity|]. by apply H.
Defined.

(** ** The lease file *)

(** The fields of a lease have their sizes. *)
Definition lease_shape (l : dhcpOfferedAddr) : Prop := length (l_chaddr l) = 16%nat ∧ length (l_hostname l) = 64%nat.

(** The leases that are written. *)
Definition used_leases (n : nat) (t : list dhcpOfferedAddr) : list dhcpOfferedAddr := filter (λ l, l_yiaddr l ≠ 0) (take n t).

Lemma lease_record_length l x : lease_shape l → length (lease_record l x) = 88%nat.
Proof. intros [H1 H2]. unfold lease_record. rewrite !length_app, H1, H2. done. Qed.

(** The records of the leases [ls] with the times [ts]. *)
Definition lease_records (ls : list dhcpOfferedAddr) (ts : list Z) : list Z := concat (zip_with lease_record ls ts).

Lemma lease_records_length ls ts : Forall lease_shape ls → length ts = length ls → length (lease_records ls ts) = (88 * length ls)%nat.
Proof.
  intros H. revert ts. induction H as [|l ls Hl H IH]; intros [|t ts] Ht; try done. unfold lease_records in *. cbn [zip_with concat].
  rewrite length_app, lease_record_length, IH by (done || by injection Ht). cbn [length]. lia.
Qed.

Lemma write_loop_content env n i curr out s out' s' t : leases s = t →
  write_leases_loop env n (Z.of_nat i) curr out s = Done (out', s') →
  calm s s' ∧ ∃ ts, length ts = length (used_leases n (drop i t)) ∧ out' = out ++ lease_records (used_leases n (drop i t)) ts.
Proof.
  revert i out s. induction n as [|n IH]; intros i out s Ht; cbn [write_leases_loop].
  { intros [= <- <-]. unfold used_leases. rewrite take_0. split; [done|]. exists []. by rewrite app_nil_r. }
  intros (l&s1&[El ->]%lease_at_inv&E)%bind_Done_inv. rewrite Ht, Nat2Z.id in El.
  rewrite (drop_S _ _ _ El). unfold used_leases. cbn [take]. rewrite filter_cons.
  replace (Z.of_nat i + 1) with (Z.of_nat (S i)) in E by lia.
  destruct (Z.eqb_spec (l_yiaddr l) 0) as [Hy|Hy].
  { rewrite decide_False by (intros H; by apply H). by apply (IH (S i)) in E. }
  rewrite decide_True by done. unfold cfg in E. rewrite bind_gets in E. apply bind_Done_inv in E as (x&s1&E1&E).
  assert (calm s s1) as Q1.
  { eassert (pres calm _) as H; [|eapply H; exact E1]. pose proof (calm_findSipAddr (l_yiaddr l)). pres_go. }
  apply (IH (S i)) in E as (Q2&ts&Hts&E); [|by rewrite <- Ht; apply Q1]. split; [by etrans|].
  exists (x :: ts). cbn [length]. split; [by rewrite Hts|]. rewrite E, <- app_assoc. done.
Qed.

(** Entries in front of the one to be filled next stay. *)
Lemma read_loop_below n i curr c file t (s : dhcpd) t' s' j :
  read_leases_loop n (Z.of_nat i) curr c file t s = Done (t', s') → (j < i)%nat → t' !! j = t !! j.
Proof.
  revert i file t s. induction n as [|n IH]; intros i file t s; cbn [read_leases_loop]; [by intros [=]|].
  destruct (sc_max_leases c <=? Z.of_nat i); [by intros [= <- <-]|].
  destruct (buf_read file 0 sizeof_dhcpOfferedAddr) as [r|]; [|by intros [= <- <-]]. cbv zeta. destruct (_ && _).
  - intros (l&s1&E1&E)%bind_Done_inv Hj. replace (Z.of_nat i + 1) with (Z.of_nat (S i)) in E by lia.
    rewrite (IH _ _ _ _ E) by lia. rewrite Nat2Z.id. apply list_lookup_insert_ne. lia.
  - intros E Hj. by apply (IH _ _ _ _ E).
Qed.

(** The record at the start of the file is the first entry of the table. *)
Lemma read_loop_first n curr c l x rest t (s : dhcpd) t' s' : lease_shape l → 0 ≤ l_yiaddr l < 2 ^ 32 → (88 ≤ length rest)%nat →
  0 < sc_max_leases c → sc_start c ≤ l_yiaddr l ≤ sc_end c →
  read_leases_loop n 0 curr c (lease_record l x ++ rest) t s = Done (t', s') →
  ∃ l', t' !! O = Some l' ∧ l_chaddr l' = l_chaddr l ∧ l_yiaddr l' = l_yiaddr l.
Proof.
  intros Hsh Hy Hr Hmax Hin. destruct n as [|n]; cbn [read_leases_loop]; [by intros [=]|]. rewrite (proj2 (Z.leb_gt _ _)) by lia.
  pose proof (lease_record_length l x Hsh) as Hl. destruct Hsh as [Hc _].
  rewrite buf_read_Some by (rewrite ?length_app, ?Hl; unfold sizeof_dhcpOfferedAddr; lia). rewrite Z2Nat.inj_0, drop_0. cbv zeta.
  set (r := take _ _). assert (∃ tl, r = l_chaddr l ++ be_bytes (l_yiaddr l) ++ tl) as [tl Er].
  { unfold r, lease_record. change (Z.to_nat sizeof_dhcpOfferedAddr) with (16 + (4 + 132))%nat. rewrite <- !app_assoc, <- Hc.
    rewrite take_app_add. change 4%nat with (length (be_bytes (l_yiaddr l))). rewrite take_app_add. by eexists. }
  rewrite Er. rewrite drop_app_length', be32_be_bytes, take_app_length' by (done || lia).
  rewrite (proj2 (Z.leb_le (sc_start c) _)), (proj2 (Z.leb_le _ (sc_end c))) by lia. cbn [andb].
  intros (l0&s1&E1&E)%bind_Done_inv. rewrite (read_loop_below _ 1 _ _ _ _ _ _ _ O E) by lia.
  unfold of_option in E1. destruct (t !! _) eqn:Et; [|done].
  rewrite list_lookup_insert_eq by (by eapply lookup_lt_Some). by eexists.
Qed.

Lemma read_loop_keeps n i curr c file t (s : dhcpd) t' s' j :
  read_leases_loop n (Z.of_nat i) curr c file t s = Done (t', s') → (i + length file / 152 ≤ j)%nat → t' !! j = t !! j.
Proof.
  revert i file t s. induction n as [|n IH]; intros i file t s; cbn [read_leases_loop]; [by intros [=]|].
  destruct (sc_max_leases c <=? Z.of_nat i); [by intros [= <- <-]|].
  destruct (buf_read file 0 sizeof_dhcpOfferedAddr) as [r|] eqn:Er; [|by intros [= <- <-]].
  assert (152 ≤ length file)%nat as Hl.
  { unfold buf_read, sizeof_dhcpOfferedAddr in Er. case_decide; [|done]. lia. }
  cbv zeta. change (Z.to_nat sizeof_dhcpOfferedAddr) with 152%nat.
  assert (length file / 152 = S (length (drop 152 file) / 152))%nat as Ed.
  { rewrite length_drop. replace (length file) with (length file - 152 + 1 * 152)%nat at 1 by lia.
    rewrite Nat.div_add by lia. lia. }
  destruct (_ && _).
  - intros (l&s1&E1&E)%bind_Done_inv Hj. replace (Z.of_nat i + 1) with (Z.of_nat (S i)) in E by lia.
    rewrite (IH _ _ _ _ E) by lia. rewrite Nat2Z.id. apply list_lookup_insert_ne. lia.
  - intros E Hj. apply (IH _ _ _ _ E). lia.
Qed.

Lemma file_content_head path c fs : file_content path ((path, c) :: fs) = Some c.
Proof. unfold file_content. simpl. by rewrite decide_True. Qed.

Lemma write_leases_file env s u s' : fopen_ok env (d_opens s) = true →
  write_leases env s = Done (u, s') →
  let used := used_leases (table_size s) (leases s) in
  ∃ ts, length ts = length used ∧ file_content (sc_lease_file (server_config s)) (d_files s') = Some (lease_records used ts).
Proof.
  intros Hok (curr&s1&[= _ <-]&E)%bind_Done_inv. unfold fopen_file in E.
  rewrite bind_assoc, bind_gets, bind_assoc, bind_modify, bind_ret in E. cbn [d_opens set_dclock] in E. rewrite Hok in E. cbn [negb] in E.
  unfold cfg in E. rewrite bind_gets in E. apply bind_Done_inv in E as (out&s2&E1&E).
  apply (write_loop_content env _ 0) with (t := leases s) in E1 as (Q&ts&Hts&El); [|done].
  rewrite drop_0 in Hts, El. cbn [app] in El. rewrite bind_gets in E.
  assert (sc_lease_file (server_config s2) = sc_lease_file (server_config s)) as Ef.
  { destruct Q as (_&_&Ec&_). cbn [server_config set_dopens set_dclock] in Ec. revert Ec.
    destruct (server_config s2), (server_config s). unfold cfg_core. simpl. by intros [=]. }
  rewrite Ef in E. unfold write_file in E. rewrite bind_modify, bind_gets in E. exists ts. split; [exact Hts|]. cbv zeta. rewrite El in E.
  unfold notify in E. destruct (sc_notify_file _).
  - unfold system_cmd in E. destruct (_ <? _); [|discriminate E].
    injection E as _ <-. apply file_content_head.
  - injection E as _ <-. apply file_content_head.
Qed.

(** [C38] The lease file does not bring the leases back.  [write_leases] writes 88
    bytes for each lease, but [read_leases] reads records of 152 bytes, the size
    of the structure in memory: of [k] leases that are written at most 88 k / 152
    entries of the table are filled when the file is read, so with one lease
    nothing is read; with two or more the first one gets its hardware address and
    its address back, if the address is in the pool. *)
Theorem lease_file_loses env env' s u s1 s2 u' s3 :
  Forall lease_shape (leases s) → fopen_ok env (d_opens s) = true → write_leases env s = Done (u, s1) →
  d_files s2 = d_files s1 → sc_lease_file (server_config s2) = sc_lease_file (server_config s) →
  read_leases env' s2 = Done (u', s3) →
  let used := used_leases (table_size s) (leases s) in
  (∀ i, (88 * length used / 152 ≤ i)%nat → leases s3 !! i = leases s2 !! i) ∧
  (∀ l l2 ls, used = l :: l2 :: ls → fopen_ok env' (d_opens s2) = true → 0 < sc_max_leases (server_config s2) →
     0 ≤ l_yiaddr l < 2 ^ 32 → sc_start (server_config s2) ≤ l_yiaddr l ≤ sc_end (server_config s2) →
     ∃ l', leases s3 !! O = Some l' ∧ l_chaddr l' = l_chaddr l ∧ l_yiaddr l' = l_yiaddr l).
Proof.
  intros Hsh Hok Ew Ed Ef Er used. destruct (write_leases_file _ _ _ _ Hok Ew) as (ts&Hts&Eo). fold used in Hts, Eo.
  assert (Forall lease_shape used) as Hus.
  { apply Forall_forall. intros l Hl. unfold used, used_leases in Hl. apply list_elem_of_filter in Hl as [_ Hl].
    rewrite Forall_forall in Hsh. apply Hsh. apply elem_of_take in Hl as (i&Hi&_). by eapply list_elem_of_lookup_2. }
  apply bind_Done_inv in Er as (curr&sa&[= <- <-]&E). unfold fopen_file in E.
  rewrite bind_assoc, bind_gets, bind_assoc, bind_modify, bind_ret in E. cbn [d_opens set_dclock] in E.
  destruct (fopen_ok env' (d_opens s2)) eqn:Eok; cbn [negb] in E; [|injection E as _ <-; by split].
  rewrite !bind_gets in E. cbn [d_files server_config set_dopens set_dclock leases] in E. rewrite Ed, Ef, Eo in E.
  rewrite bind_gets in E. cbn [leases set_dopens set_dclock] in E. apply bind_Done_inv in E as (t'&sb&E1&[= _ <-]).
  cbn [leases set_leases]. split.
  - intros i Hi. apply (read_loop_keeps _ 0 _ _ _ _ _ _ _ _ E1). by rewrite lease_records_length.
  - intros l l2 ls Eu _ Hmax Hy Hin. rewrite Eu in *. destruct ts as [|x [|y ts]]; [done|done|].
    apply Forall_cons in Hus as [Hl [Hl2 _]%Forall_cons].
    eapply (read_loop_first _ _ _ l x (lease_records (l2 :: ls) (y :: ts))); [done|done| |done|done|exact E1].
    unfold lease_records. cbn [zip_with concat]. rewrite length_app, lease_record_length by done. lia.
Qed.

(** The lease of the first client is written; a server that starts with the file
    knows nothing of it.  When a second lease is written behind it, the server gets
    the address of the first one back, and not the second one. *)
Definition try_lease (a : Z) (l : dhcpOfferedAddr) : dhcpOfferedAddr :=
  {| l_chaddr := l_chaddr l; l_yiaddr := a; l_expires := l_expires l; l_hostname := l_hostname l |}.
Definition try_two : dhcpd :=
  set_leases (match leases try_2.2 with l :: _ :: t => l :: try_lease 0xc0a80103 l :: t | t => t end) try_2.2.
Definition try_written (s : dhcpd) : dhcpd := match write_leases try_env s with Done (_, s') => s' | _ => try_start end.
Definition try_restart (s : dhcpd) : dhcpd := set_dfiles (d_files (try_written s)) try_start.
Definition try_read (s : dhcpd) : dhcpd := match read_leases try_env (try_restart s) with Done (_, s') => s' | _ => try_start end.

Definition shape_ok (l : dhcpOfferedAddr) : bool := (length (l_chaddr l) =? 16)%nat && (length (l_hostname l) =? 64)%nat.

Lemma shapes_ok t : forallb shape_ok t = true → Forall lease_shape t.
Proof.
  intros H. apply Forall_forall. intros l Hl. rewrite forallb_forall in H. specialize (H l (proj1 (list_elem_of_In _ _) Hl)).
  apply andb_true_iff in H as [H1 H2]. split; by apply Nat.eqb_eq.
Qed.

Lemma lease_file_loses_witness :
  (map l_yiaddr (leases try_2.2) = [0xc0a80102; 0; 0; 0; 0; 0; 0; 0] ∧
   leases (try_read try_2.2) !! O = leases (try_restart try_2.2) !! O ∧ l_yiaddr <$> leases (try_restart try_2.2) !! O = Some 0) ∧
  (map l_yiaddr (leases try_two) = [0xc0a80102; 0xc0a80103; 0; 0; 0; 0; 0; 0] ∧
   (∃ l', leases (try_read try_two) !! O = Some l' ∧ l_yiaddr l' = 0xc0a80102) ∧
   leases (try_read try_two) !! 1%nat = leases (try_restart try_two) !! 1%nat).
Proof.
  split.
  - split; [vm_compute; reflexivity|]. split; [|vm_compute; reflexivity].
    destruct (lease_file_loses try_env try_env try_2.2 tt (try_written try_2.2) (try_restart try_2.2) tt (try_read try_2.2)) as [H _];
      [apply shapes_ok; vm_compute; reflexivity|vm_compute; reflexivity..|].
    apply H. apply Nat.leb_le. vm_compute. reflexivity.
  - split; [vm_compute; reflexivity|].
    destruct (lease_file_loses try_env try_env try_two tt (try_written try_two) (try_restart try_two) tt (try_read try_two)) as [H1 H2];
      [apply shapes_ok; vm_compute; reflexivity|vm_compute; reflexivity..|].
    split; [|apply H1; apply Nat.leb_le; vm_compute; reflexivity].
    assert (∃ l l2 ls, used_leases (table_size try_two) (leases try_two) = l :: l2 :: ls ∧ l_yiaddr l = 0xc0a80102) as (l&l2&ls&Eu&Ey)
      by (vm_compute; do 3 eexists; split; reflexivity).
    destruct (H2 l l2 ls Eu) as (l'&E&_&E'); [vm_compute; reflexivity..|rewrite Ey; split; [discriminate|reflexivity]|
      rewrite Ey; vm_compute; split; discriminate|].
    exists l'. split; [exact E|]. rewrite E'. exact Ey.
Defined.
