(* ===== verification/DhcpConf.v ===== *)
(** * The DHCP server: its configuration file ([files.c] of udhcp)

    [read_config] with its table of keywords and their handlers, and the functions
    of the C library that it uses.  Strings are their characters without the NUL.
    Memory for the strings and options is there. *)

From stdpp Require Import base numbers list strings.
From Stdlib Require Import ZArith Lia Bool.
From S2P Require Import Prelude CText DhcpPacket DhcpLease DhcpFiles.

(** ** Functions of the C library *)

Definition one_of (set : list Z) (c : Z) : bool := bool_decide (c ∈ set).

(** [s + strspn (s, set)]. *)
Fixpoint skip_span (set s : list Z) : list Z :=
  match s with
  | [] => []
  | c :: s' => if one_of set c then skip_span set s' else s
  end.

(** What is in front of the first character of [set], and the rest from there on:
    [strcspn] cuts there. *)
Fixpoint cut_at (set s : list Z) : list Z * list Z :=
  match s with
  | [] => ([], [])
  | c :: s' => if one_of set c then ([], s) else let '(a, b) := cut_at set s' in (c :: a, b)
  end.

(** A call of [strtok]: the token and where the next call goes on. *)
Definition strtok_next (set s : list Z) : option (list Z * list Z) :=
  match skip_span set s with
  | [] => None
  | t => let '(a, b) := cut_at set t in Some (a, drop 1 b)
  end.

Definition tolower (c : Z) : Z := if (65 <=? c) && (c <=? 90) then c + 32 else c.

(** [strcasecmp (a, b) == 0]. *)
Definition strcaseeq (a b : list Z) : bool := bool_decide (map tolower a = map tolower b).

Definition isspace (c : Z) : bool := (c =? 32) || ((9 <=? c) && (c <=? 13)).

Definition digit_of (c : Z) : Z :=
  if (48 <=? c) && (c <=? 57) then c - 48
  else if (97 <=? c) && (c <=? 122) then c - 87
  else if (65 <=? c) && (c <=? 90) then c - 55
  else 99.

Fixpoint digits_in (base : Z) (s : list Z) (acc : Z) : Z :=
  match s with
  | [] => acc
  | c :: s' => if digit_of c <? base then digits_in base s' (acc * base + digit_of c) else acc
  end.

(** The digits of [strtol] and [strtoul] with base 0. *)
Definition number_of (s : list Z) : Z :=
  match s with
  | 48 :: x :: c :: s' =>
      if ((x =? 120) || (x =? 88)) && (digit_of c <? 16) then digits_in 16 (c :: s') 0 else digits_in 8 (x :: c :: s') 0
  | 48 :: s' => digits_in 8 s' 0
  | _ => digits_in 10 s 0
  end.

Fixpoint skip_blanks (s : list Z) : list Z :=
  match s with
  | c :: s' => if isspace c then skip_blanks s' else s
  | [] => []
  end.

(** The sign and the magnitude. *)
Definition signed_number (s : list Z) : bool * Z :=
  match skip_blanks s with
  | 45 :: s' => (true, number_of s')
  | 43 :: s' => (false, number_of s')
  | s' => (false, number_of s')
  end.

Definition strtoul (s : list Z) : Z :=
  let '(neg, v) := signed_number s in
  if 2 ^ 32 <=? v then 2 ^ 32 - 1 else if neg : bool then u32 (- v) else v.

Definition strtol (s : list Z) : Z :=
  let '(neg, v) := signed_number s in
  if neg : bool then Z.max (- v) (- 2 ^ 31) else Z.min v (2 ^ 31 - 1).

(** [fgets]: at most [n] characters, up to the end of a line. *)
Fixpoint fgets (n : nat) (s : list Z) : list Z * list Z :=
  match n, s with
  | S n', c :: s' => if c =? 10 then ([c], s') else let '(a, b) := fgets n' s' in (c :: a, b)
  | _, _ => ([], s)
  end.

(** ** Fields of the configuration *)

Inductive nvar : Type :=
  | V_start | V_end | V_max_leases | V_remaining | V_auto_time | V_decline_time | V_offer_time
  | V_min_lease | V_siaddr | V_iIPPhoneVLANQoSEnable | V_iPPhoneNtp1 | V_iPPhoneNtp2
  | V_conflict_time.

Inductive svar : Type :=
  | S_interface | S_lease_file | S_notify_file | S_sname | S_boot_file | S_pIPPhoneDomainName
  | S_pIPPhoneDNSServers | S_pIPPhoneTFTPServer | S_pIPPhoneTFTPServerName | S_pOutBoundProxy
  | S_pDhcpOpt60 | S_vendorid | S_pidfile | S_decline_file.

#[global] Instance nvar_eq_dec : EqDecision nvar.
Proof. solve_decision. Defined.
#[global] Instance svar_eq_dec : EqDecision svar.
Proof. solve_decision. Defined.

(** A [server_config_t] with the three fields that only this file uses. *)
Record pconf : Type := {
  pc : server_config_t;
  pc_conflict_time : Z;
  pc_pidfile : option (list Z);
  pc_decline_file : option (list Z)
}.

(** Writes to a field. *)
Definition put_num (v : nvar) (x : Z) (p : pconf) : pconf :=
  let c := pc p in
  let u w old := if decide (v = w) then x else old in
  {| pc := {|
     sc_server := sc_server c; sc_start := u V_start (sc_start c); sc_end := u V_end (sc_end c);
     sc_reservedAddr := sc_reservedAddr c; sc_options := sc_options c;
     sc_interface := sc_interface c; sc_ifindex := sc_ifindex c; sc_arp := sc_arp c;
     sc_lease := sc_lease c; sc_max_leases := u V_max_leases (sc_max_leases c);
     sc_remaining := u V_remaining (sc_remaining c);
     sc_auto_time := u V_auto_time (sc_auto_time c);
     sc_decline_time := u V_decline_time (sc_decline_time c);
     sc_offer_time := u V_offer_time (sc_offer_time c);
     sc_min_lease := u V_min_lease (sc_min_lease c); sc_lease_file := sc_lease_file c;
     sc_notify_file := sc_notify_file c; sc_siaddr := u V_siaddr (sc_siaddr c);
     sc_sname := sc_sname c; sc_boot_file := sc_boot_file c;
     sc_pIPPhoneDomainName := sc_pIPPhoneDomainName c;
     sc_pIPPhoneDNSServers := sc_pIPPhoneDNSServers c;
     sc_pIPPhoneTFTPServer := sc_pIPPhoneTFTPServer c;
     sc_pIPPhoneTFTPServerName := sc_pIPPhoneTFTPServerName c;
     sc_pOutBoundProxy := sc_pOutBoundProxy c; sc_pDhcpOpt60 := sc_pDhcpOpt60 c;
     sc_iIPPhoneVLANQoSEnable := u V_iIPPhoneVLANQoSEnable (sc_iIPPhoneVLANQoSEnable c);
     sc_iPPhoneNtp1 := u V_iPPhoneNtp1 (sc_iPPhoneNtp1 c);
     sc_iPPhoneNtp2 := u V_iPPhoneNtp2 (sc_iPPhoneNtp2 c); sc_vendorid := sc_vendorid c |};
     pc_conflict_time := u V_conflict_time (pc_conflict_time p); pc_pidfile := pc_pidfile p;
     pc_decline_file := pc_decline_file p |}.

Definition put_str (v : svar) (x : list Z) (p : pconf) : pconf :=
  let c := pc p in
  let u w old := if decide (v = w) then Some x else old in
  let u0 w old := if decide (v = w) then x else old in
  {| pc := {|
     sc_server := sc_server c; sc_start := sc_start c; sc_end := sc_end c;
     sc_reservedAddr := sc_reservedAddr c; sc_options := sc_options c;
     sc_interface := u0 S_interface (sc_interface c); sc_ifindex := sc_ifindex c;
     sc_arp := sc_arp c; sc_lease := sc_lease c; sc_max_leases := sc_max_leases c;
     sc_remaining := sc_remaining c; sc_auto_time := sc_auto_time c;
     sc_decline_time := sc_decline_time c; sc_offer_time := sc_offer_time c;
     sc_min_lease := sc_min_lease c; sc_lease_file := u0 S_lease_file (sc_lease_file c);
     sc_notify_file := u S_notify_file (sc_notify_file c); sc_siaddr := sc_siaddr c;
     sc_sname := u S_sname (sc_sname c); sc_boot_file := u S_boot_file (sc_boot_file c);
     sc_pIPPhoneDomainName := u S_pIPPhoneDomainName (sc_pIPPhoneDomainName c);
     sc_pIPPhoneDNSServers := u S_pIPPhoneDNSServers (sc_pIPPhoneDNSServers c);
     sc_pIPPhoneTFTPServer := u S_pIPPhoneTFTPServer (sc_pIPPhoneTFTPServer c);
     sc_pIPPhoneTFTPServerName := u S_pIPPhoneTFTPServerName (sc_pIPPhoneTFTPServerName c);
     sc_pOutBoundProxy := u S_pOutBoundProxy (sc_pOutBoundProxy c);
     sc_pDhcpOpt60 := u S_pDhcpOpt60 (sc_pDhcpOpt60 c);
     sc_iIPPhoneVLANQoSEnable := sc_iIPPhoneVLANQoSEnable c; sc_iPPhoneNtp1 := sc_iPPhoneNtp1 c;
     sc_iPPhoneNtp2 := sc_iPPhoneNtp2 c; sc_vendorid := u S_vendorid (sc_vendorid c) |};
     pc_conflict_time := pc_conflict_time p; pc_pidfile := u S_pidfile (pc_pidfile p);
     pc_decline_file := u S_decline_file (pc_decline_file p) |}.

Definition put_options (x : list (list Z)) (p : pconf) : pconf :=
  let c := pc p in
  {| pc := {|
     sc_server := sc_server c; sc_start := sc_start c; sc_end := sc_end c;
     sc_reservedAddr := sc_reservedAddr c; sc_options := x; sc_interface := sc_interface c;
     sc_ifindex := sc_ifindex c; sc_arp := sc_arp c; sc_lease := sc_lease c;
     sc_max_leases := sc_max_leases c; sc_remaining := sc_remaining c;
     sc_auto_time := sc_auto_time c; sc_decline_time := sc_decline_time c;
     sc_offer_time := sc_offer_time c; sc_min_lease := sc_min_lease c;
     sc_lease_file := sc_lease_file c; sc_notify_file := sc_notify_file c;
     sc_siaddr := sc_siaddr c; sc_sname := sc_sname c; sc_boot_file := sc_boot_file c;
     sc_pIPPhoneDomainName := sc_pIPPhoneDomainName c;
     sc_pIPPhoneDNSServers := sc_pIPPhoneDNSServers c;
     sc_pIPPhoneTFTPServer := sc_pIPPhoneTFTPServer c;
     sc_pIPPhoneTFTPServerName := sc_pIPPhoneTFTPServerName c;
     sc_pOutBoundProxy := sc_pOutBoundProxy c; sc_pDhcpOpt60 := sc_pDhcpOpt60 c;
     sc_iIPPhoneVLANQoSEnable := sc_iIPPhoneVLANQoSEnable c; sc_iPPhoneNtp1 := sc_iPPhoneNtp1 c;
     sc_iPPhoneNtp2 := sc_iPPhoneNtp2 c; sc_vendorid := sc_vendorid c |};
     pc_conflict_time := pc_conflict_time p; pc_pidfile := pc_pidfile p; pc_decline_file := pc_decline_file p |}.

Definition put_reserved (x : list Z) (p : pconf) : pconf :=
  let c := pc p in
  {| pc := {|
     sc_server := sc_server c; sc_start := sc_start c; sc_end := sc_end c; sc_reservedAddr := x;
     sc_options := sc_options c; sc_interface := sc_interface c; sc_ifindex := sc_ifindex c;
     sc_arp := sc_arp c; sc_lease := sc_lease c; sc_max_leases := sc_max_leases c;
     sc_remaining := sc_remaining c; sc_auto_time := sc_auto_time c;
     sc_decline_time := sc_decline_time c; sc_offer_time := sc_offer_time c;
     sc_min_lease := sc_min_lease c; sc_lease_file := sc_lease_file c;
     sc_notify_file := sc_notify_file c; sc_siaddr := sc_siaddr c; sc_sname := sc_sname c;
     sc_boot_file := sc_boot_file c; sc_pIPPhoneDomainName := sc_pIPPhoneDomainName c;
     sc_pIPPhoneDNSServers := sc_pIPPhoneDNSServers c;
     sc_pIPPhoneTFTPServer := sc_pIPPhoneTFTPServer c;
     sc_pIPPhoneTFTPServerName := sc_pIPPhoneTFTPServerName c;
     sc_pOutBoundProxy := sc_pOutBoundProxy c; sc_pDhcpOpt60 := sc_pDhcpOpt60 c;
     sc_iIPPhoneVLANQoSEnable := sc_iIPPhoneVLANQoSEnable c; sc_iPPhoneNtp1 := sc_iPPhoneNtp1 c;
     sc_iPPhoneNtp2 := sc_iPPhoneNtp2 c; sc_vendorid := sc_vendorid c |};
     pc_conflict_time := pc_conflict_time p; pc_pidfile := pc_pidfile p; pc_decline_file := pc_decline_file p |}.

(** Behind the [memset]; a NULL that a default replaces is an empty string. *)
Definition zero_config : server_config_t :=
  {|
     sc_server := 0; sc_start := 0; sc_end := 0; sc_reservedAddr := replicate 8 0;
     sc_options := []; sc_interface := []; sc_ifindex := 0; sc_arp := replicate 6 0; sc_lease := 0;
     sc_max_leases := 0; sc_remaining := 0; sc_auto_time := 0; sc_decline_time := 0;
     sc_offer_time := 0; sc_min_lease := 0; sc_lease_file := []; sc_notify_file := None;
     sc_siaddr := 0; sc_sname := None; sc_boot_file := None; sc_pIPPhoneDomainName := None;
     sc_pIPPhoneDNSServers := None; sc_pIPPhoneTFTPServer := None;
     sc_pIPPhoneTFTPServerName := None; sc_pOutBoundProxy := None; sc_pDhcpOpt60 := None;
     sc_iIPPhoneVLANQoSEnable := 0; sc_iPPhoneNtp1 := 0; sc_iPPhoneNtp2 := 0; sc_vendorid := None |}.

Record conf : Type := {
  cf_first : pconf;
  cf_second : pconf;
  cf_enblSrv1 : Z;
  cf_enblSrv2 : Z;
  cf_calls : nat
}.

Inductive pool : Type := First | Second.

Definition on_pool (p : pool) (f : pconf → pconf) (c : conf) : conf :=
  match p with
  | First => {| cf_first := f (cf_first c); cf_second := cf_second c; cf_enblSrv1 := cf_enblSrv1 c;
                cf_enblSrv2 := cf_enblSrv2 c; cf_calls := cf_calls c |}
  | Second => {| cf_first := cf_first c; cf_second := f (cf_second c); cf_enblSrv1 := cf_enblSrv1 c;
                 cf_enblSrv2 := cf_enblSrv2 c; cf_calls := cf_calls c |}
  end.
Definition pool_of (p : pool) (c : conf) : pconf := match p with First => cf_first c | Second => cf_second c end.
Definition set_enbl (p : pool) (x : Z) (c : conf) : conf :=
  {| cf_first := cf_first c; cf_second := cf_second c;
     cf_enblSrv1 := match p with First => x | Second => cf_enblSrv1 c end;
     cf_enblSrv2 := match p with First => cf_enblSrv2 c | Second => x end; cf_calls := cf_calls c |}.
Definition put_calls (n : nat) (c : conf) : conf :=
  {| cf_first := cf_first c; cf_second := cf_second c; cf_enblSrv1 := cf_enblSrv1 c;
     cf_enblSrv2 := cf_enblSrv2 c; cf_calls := n |}.

Definition zero_pconf : pconf :=
  {| pc := zero_config; pc_conflict_time := 0; pc_pidfile := None; pc_decline_file := None |}.
Definition zero_conf : conf :=
  {| cf_first := zero_pconf; cf_second := zero_pconf; cf_enblSrv1 := 0; cf_enblSrv2 := 0; cf_calls := 0 |}.

(** A handler with the variable it writes to. *)
Inductive handler : Type :=
| H_ip (p : pool) (v : nvar)
| H_rsvip
| H_str (p : pool) (v : svar)
| H_opt (p : pool)
| H_u32 (p : pool) (v : nvar)
| H_yn (p : pool) (v : nvar)
| H_enbl (p : pool).

Record config_keyword : Type := { kw_name : string; kw_handler : handler; kw_def : string }.

(** The entries in front of the terminating one.  A name has room for 20
    characters: that of IPPhoneVLANQoSEnable has no NUL of its own and ends at the
    first byte of the pointer behind it, which is 0. *)
Definition keywords : list config_keyword :=
  let kw n h d := {| kw_name := n; kw_handler := h; kw_def := d |} in
  [ kw "start" (H_ip First V_start) "192.168.0.20";
    kw "end" (H_ip First V_end) "192.168.0.254";
    kw "ReservedIpstr" H_rsvip "";
    kw "interface" (H_str First S_interface) "eth0";
    kw "option" (H_opt First) "";
    kw "opt" (H_opt First) "";
    kw "max_leases" (H_u32 First V_max_leases) "254";
    kw "remaining" (H_yn First V_remaining) "yes";
    kw "auto_time" (H_u32 First V_auto_time) "7200";
    kw "decline_time" (H_u32 First V_decline_time) "3600";
    kw "conflict_time" (H_u32 First V_conflict_time) "3600";
    kw "offer_time" (H_u32 First V_offer_time) "60";
    kw "min_lease" (H_u32 First V_min_lease) "60";
    kw "lease_file" (H_str First S_lease_file) "/etc/udhcpd.leases";
    kw "pidfile" (H_str First S_pidfile) "/var/run/udhcpd.pid";
    kw "notify_file" (H_str First S_notify_file) "";
    kw "siaddr" (H_ip First V_siaddr) "0.0.0.0";
    kw "sname" (H_str First S_sname) "";
    kw "IPPhoneDomainName" (H_str First S_pIPPhoneDomainName) "";
    kw "IPPhoneDNSServers" (H_str First S_pIPPhoneDNSServers) "";
    kw "IPPhoneTFTPServerIp" (H_str First S_pIPPhoneTFTPServer) "";
    kw "TFTPServerName" (H_str First S_pIPPhoneTFTPServerName) "";
    kw "OutBoundProxy" (H_str First S_pOutBoundProxy) "";
    kw "DhcpOpt60" (H_str First S_pDhcpOpt60) "";
    kw "IPPhoneVLANQoSEnable" (H_u32 First V_iIPPhoneVLANQoSEnable) "0";
    kw "IPPhoneNtpSvr1" (H_ip First V_iPPhoneNtp1) "0.0.0.0";
    kw "IPPhoneNtpSvr2" (H_ip First V_iPPhoneNtp2) "0.0.0.0";
    kw "boot_file" (H_str First S_boot_file) "";
    kw "vendorid" (H_str First S_vendorid) "";
    kw "decline_file" (H_str First S_decline_file) "";
    kw "enblsrv1" (H_enbl First) "0";
    kw "enblsrv2" (H_enbl Second) "0";
    kw "start2" (H_ip Second V_start) "0.0.0.0";
    kw "end2" (H_ip Second V_end) "0.0.0.0";
    kw "interface2" (H_str Second S_interface) "eth0";
    kw "option2" (H_opt Second) "";
    kw "max_leases2" (H_u32 Second V_max_leases) "254";
    kw "offer_time2" (H_u32 Second V_offer_time) "60";
    kw "min_lease2" (H_u32 Second V_min_lease) "60";
    kw "opt2" (H_opt Second) "";
    kw "remaining2" (H_yn Second V_remaining) "yes";
    kw "auto_time2" (H_u32 Second V_auto_time) "7200";
    kw "decline_time2" (H_u32 Second V_decline_time) "3600";
    kw "conflict_time2" (H_u32 Second V_conflict_time) "3600";
    kw "notify_file2" (H_str Second S_notify_file) "";
    kw "siaddr2" (H_ip Second V_siaddr) "0.0.0.0";
    kw "sname2" (H_str Second S_sname) "";
    kw "boot_file2" (H_str Second S_boot_file) "";
    kw "classid2" (H_str Second S_vendorid) "";
    kw "lease_file2" (H_str Second S_lease_file) "/etc/udhcpd2.leases" ]%string.

(** ** The handlers *)

(** [inet_aton] is [None] when the text is no address; [stack] is what the local
    buffer of the [n]-th call of [read_opt] holds at first. *)
Section config.
Context (env : dhcp_env) (inet_aton : list Z → option Z) (stack : nat → list Z).

(** A variable that no address is found for keeps its value. *)
Definition read_ip (line : list Z) (p : pool) (v : nvar) : M conf Z :=
  (match inet_aton line with
   | Some a => modify (on_pool p (put_num v a))
   | None => mret tt
   end);;
  mret 1.

Definition read_str (line : list Z) (p : pool) (v : svar) : M conf Z :=
  modify (on_pool p (put_str v line));; mret 1.

(** Into an [unsigned long], or into an [int] (IPPhoneVLANQoSEnable). *)
Definition read_u32 (line : list Z) (p : pool) (v : nvar) : M conf Z :=
  let x := strtoul line in
  modify (on_pool p (put_num v (if decide (v = V_iIPPhoneVLANQoSEnable) then s32 x else x)));; mret 1.

Definition yes_no (line : list Z) : option Z :=
  if strcaseeq (cstr "yes") line || bool_decide (cstr "1" = line) || strcaseeq (cstr "true") line then Some 1
  else if strcaseeq (cstr "no") line || bool_decide (cstr "0" = line) || strcaseeq (cstr "false") line then Some 0
  else None.

Definition read_yn (line : list Z) (p : pool) (v : nvar) : M conf Z :=
  match yes_no line with
  | Some x => modify (on_pool p (put_num v x));; mret 1
  | None => mret 0
  end.

Definition find_named (name : list Z) : option dhcp_option :=
  snd <$> list_find (λ o, cstr (opt_name o) = name) options.

(** [memcpy] to the start of the buffer. *)
Definition over (bs buffer : list Z) : list Z := bs ++ drop (length bs) buffer.

(** The value [val] in the buffer: its length and the buffer, unless it cannot be
    read, and what is left of the line. *)
Definition read_value (type : Z) (val rest buffer : list Z) : option Z * list Z * list Z :=
  let ip t := match inet_aton t with Some a => be_bytes a | None => [] end in
  let fixed bs := (Some (nth (Z.to_nat type) option_lengths 0), over bs buffer, rest) in
  let two x := [u8 (Z.shiftr x 8); u8 x] in
  if type =? OPTION_IP then fixed (ip val)
  else if type =? OPTION_IP_PAIR then
    let b := over (ip val) buffer in
    match strtok_next (cstr ", /-" ++ [9]) rest with
    | Some (t, rest') => (Some 8, take 4 b ++ over (ip t) (drop 4 b), rest')
    | None => (None, b, [])
    end
  else if type =? OPTION_STRING then
    let n := Z.min (Z.of_nat (length val)) 254 in
    (Some n, over (take (Z.to_nat n) val) buffer, rest)
  else if type =? OPTION_BOOLEAN then
    match yes_no val with Some x => fixed [x] | None => (None, buffer, rest) end
  else if type =? OPTION_U8 then fixed [u8 (strtoul val)]
  else if type =? OPTION_U16 then fixed (two (strtoul val))
  else if type =? OPTION_S16 then fixed (two (strtol val))
  else if type =? OPTION_U32 then fixed (be_bytes (strtoul val))
  else if type =? OPTION_S32 then fixed (be_bytes (u32 (strtol val)))
  else fixed [].

Definition takes_list (o : dhcp_option) : bool :=
  negb (Z.land (opt_flags o) OPTION_LIST =? 0) || ((240 <=? u8 (opt_code o)) && (u8 (opt_code o) <=? 245)).

Fixpoint read_opt_loop (n : nat) (o : dhcp_option) (rest buffer : list Z) (opts : list (list Z)) : M conf (list (list Z)) :=
  match n with
  | O => nofuel
  | S n' =>
      match strtok_next (cstr "," ++ [9]) rest with
      | None => mret opts
      | Some (val, rest') =>
          match read_value (Z.land (opt_flags o) TYPE_MASK) val rest' buffer with
          | (Some len, buffer', rest'') =>
              let opts' := attach_option opts o (take (Z.to_nat len) buffer') in
              if takes_list o then read_opt_loop n' o rest'' buffer' opts' else mret opts'
          | (None, _, _) => mret opts
          end
      end
  end.

Definition read_opt (line : list Z) (p : pool) : M conf Z :=
  k ← gets cf_calls;
  modify (put_calls (S k));;
  match strtok_next (cstr " =" ++ [9]) line with
  | None => mret 0
  | Some (opt, rest) =>
      match find_named opt with
      | None => mret 0
      | Some o =>
          opts ← gets (λ c, sc_options (pc (pool_of p c)));
          opts' ← read_opt_loop (S (length rest)) o rest (stack k) opts;
          modify (on_pool p (put_options opts'));;
          mret 1
      end
  end.

(** The list is copied to [buffer] (128 characters), each address but the last one
    to [ip] (16). *)
Fixpoint reserved_aton_loop (n : nat) (i : nat) (pstart : list Z) (addrs : list Z) : M conf (list Z) :=
  match n with
  | O => mret addrs
  | S n' =>
      match cut_at [44] pstart with
      | (_, []) => mret (<[i := inet_addr env pstart]> addrs)
      | (ip, _ :: rest) =>
          if (16 <=? length ip)%nat then fault
          else reserved_aton_loop n' (S i) rest (<[i := inet_addr env ip]> addrs)
      end
  end.

Definition reserved_aton (reservedIp : list Z) (addrs : list Z) : M conf (list Z) :=
  if (128 <=? length reservedIp)%nat then fault else reserved_aton_loop MAXRESERVEDIP 0 reservedIp addrs.

Definition read_rsvip (line : list Z) : M conf Z :=
  addrs ← gets (λ c, sc_reservedAddr (pc (cf_first c)));
  addrs' ← reserved_aton line addrs;
  modify (on_pool First (put_reserved addrs'));;
  mret 1.

Definition handle (h : handler) (line : list Z) : M conf Z :=
  match h with
  | H_ip p v => read_ip line p v
  | H_rsvip => read_rsvip line
  | H_str p v => read_str line p v
  | H_opt p => read_opt line p
  | H_u32 p v => read_u32 line p v
  | H_yn p v => read_yn line p v
  | H_enbl p => modify (set_enbl p (s32 (strtoul line)));; mret 1
  end.

(** ** The file *)

Fixpoint set_defaults (kws : list config_keyword) : M conf unit :=
  match kws with
  | [] => mret tt
  | k :: kws' =>
      (if decide (kw_def k = "") then mret 0 else handle (kw_handler k) (cstr (kw_def k)));;
      set_defaults kws'
  end.

(** Every keyword that the token is. *)
Fixpoint dispatch (kws : list config_keyword) (token line : list Z) : M conf unit :=
  match kws with
  | [] => mret tt
  | k :: kws' =>
      (if strcaseeq token (cstr (kw_name k)) then handle (kw_handler k) line else mret 0);;
      dispatch kws' token line
  end.

(** The token and the value of a line, [None] when the line has none. *)
Definition split_line (buffer : list Z) : option (list Z * list Z) :=
  let b := (cut_at [35] (cut_at [10] (c_string buffer)).1).1 in
  let '(token, line) := cut_at (cstr " =" ++ [9]) (skip_span (cstr " " ++ [9]) b) in
  match line with
  | [] => None
  | _ :: line' =>
      match skip_span (cstr " =" ++ [9]) line' with
      | [] => None
      | v => Some (token, v)
      end
  end.

Definition read_line (buffer : list Z) : M conf unit :=
  match split_line buffer with
  | Some (token, line) => dispatch keywords token line
  | None => mret tt
  end.

Fixpoint read_lines (n : nat) (file : list Z) : M conf unit :=
  match n, file with
  | O, _ => nofuel
  | _, [] => mret tt
  | S n', _ => let '(buffer, file') := fgets 299 file in read_line buffer;; read_lines n' file'
  end.

(** [None]: the file cannot be opened. *)
Definition read_config (file : option (list Z)) : M conf Z :=
  set_defaults keywords;;
  match file with
  | None => mret 0
  | Some text => read_lines (S (length text)) text;; mret 1
  end.
End config.
