(* ===== verification/DhcpStart.v ===== *)
(** * The DHCP server: start-up and signals ([dhcpd.c], [files.c], [pidfile.c] of udhcp)

    From the start of the program to its main loop, and what the signal handlers
    do.  A signal is taken while the server waits for a message. *)

From stdpp Require Import base numbers list strings gmap.
From Stdlib Require Import ZArith Lia Bool.
From S2P Require Import Prelude CText DhcpPacket DhcpLease DhcpFiles DhcpVi DhcpServer DhcpMain DhcpConf.

Definition DHCPD_CONF_FILE : list Z := cstr "/etc/udhcpd.conf".

(** What the rest of the system answers: [open] of the pid file and the lock on
    it, [fork] (−1, or 0 in the child), the number of the process, and what
    /var/ipphonentp holds. *)
Record start_env : Type := {
  inet_aton : list Z → option Z;
  stack : nat → list Z;
  open_ok : bool;
  lock_free : bool;
  fork_result : Z;
  getpid : Z;
  ntp_file : option (list Z)
}.

(** The program ends, or it serves; [timeout_end] is the variable of the main
    loop, [pidfile] the name of the pid file. *)
Inductive started : Type :=
| Exits (code : Z)
| Serving (timeout_end : Z) (pidfile : option (list Z)).

Section start.
Context (env : dhcp_env) (sys : start_env).

(** ** The pid file *)

(** [true]: the file is open. *)
Definition pidfile_acquire (pidfile : option (list Z)) : M dhcpd bool :=
  match pidfile with
  | None => mret false
  | Some _ => if open_ok sys then if lock_free sys then mret true else blocked else mret false
  end.

(** The file is not truncated: the number is written over what it holds. *)
Definition pidfile_write_release (pidfile : option (list Z)) (opened : bool) : M dhcpd unit :=
  match pidfile with
  | Some path =>
      if opened then
        fs ← gets d_files;
        write_file path (over (sprintf_d (getpid sys) ++ [10]) (default [] (file_content path fs)))
      else mret tt
  | None => mret tt
  end.

Definition pidfile_delete (pidfile : option (list Z)) : M dhcpd unit :=
  match pidfile with
  | Some path => modify (λ s, set_dfiles (filter (λ f, f.1 ≠ path) (d_files s)) s)
  | None => mret tt
  end.

Definition exit_server (pidfile : option (list Z)) (retval : Z) : M dhcpd started :=
  pidfile_delete pidfile;; mret (Exits retval).

(** ** The configuration *)

Definition set_config (c : conf) (s : dhcpd) : dhcpd :=
  {| server_config := pc (cf_first c); server2_config := pc (cf_second c); tmpSrvCfg := zero_config;
     leases := leases s; leases2 := leases2 s; tmpls := tmpls s;
     g_enblSrv1 := cf_enblSrv1 c; g_enblSrv2 := cf_enblSrv2 c; bIpphone := bIpphone s;
     UseIpPhoneVlan := UseIpPhoneVlan s; flag_option121 := flag_option121 s; ipPhoneipaddr := replicate SIP_MAX 0;
     g_EnableQosVlan := g_EnableQosVlan s; vi := vi s; d_clock := d_clock s; d_arps := d_arps s;
     d_ifs := d_ifs s; d_opens := d_opens s; d_mallocs := d_mallocs s; d_sends := d_sends s;
     d_files := d_files s; d_cmds := d_cmds s; d_sent := d_sent s |}.

(** Runs on a state of its own. *)
Definition run_on {S T A} (m : M T A) (t : T) : M S T := λ s,
  match m t with
  | Done (_, t') => Done (t', s)
  | Fault => Fault
  | Blocked => Blocked
  | NoFuel => NoFuel
  end.

Definition load_config : M dhcpd conf :=
  ok ← fopen_file env;
  fs ← gets d_files;
  c ← run_on (read_config env (inet_aton sys) (stack sys)
                (if ok : bool then file_content DHCPD_CONF_FILE fs else None)) zero_conf;
  modify (set_config c);;
  mret c.

Definition dns_cmd (dns : list Z) : command :=
  cstr "iptables -t mangle -A PREROUTING -d " ++ dns ++ cstr "  -j MARK --set-mark 285212691/0xff0000ff".

Fixpoint mark_each (dnss : list (list Z)) : M dhcpd unit :=
  match dnss with
  | [] => mret tt
  | d :: dnss' => system_cmd sizeof_szCmdMark (dns_cmd d);; mark_each dnss'
  end.

Definition MarkIPphoneDNSRequestRule (destDns : list Z) : M dhcpd unit :=
  buf ← local_copy destDns; mark_each (strtok 44 buf).

(** The time of the option in the configuration. *)
Definition lease_time_of (opts : list (list Z)) : M dhcpd Z :=
  match find_option opts DHCP_LEASE_TIME with
  | Some data => load32 data 2
  | None => mret LEASE_TIME
  end.

(** ** The tables *)

(** [malloc] and [memset] of a table: the product is an unsigned int, and the
    pointer is not tested. *)
Definition new_table (n : Z) : M dhcpd (list dhcpOfferedAddr) :=
  let size := u32 (sizeof_dhcpOfferedAddr * n) in
  k ← gets d_mallocs;
  modify (set_dmallocs (S k));;
  if malloc_ok env k size then mret (replicate (Z.to_nat (size `div` sizeof_dhcpOfferedAddr)) no_lease) else fault.

Definition no_vi : vi_state :=
  {| vi_nodes := ∅; vi_strs := ∅; vi_count := 0; vi_head := 0; vi_tail := 0; vi_brk := 1 |}.

Definition new_vi : M dhcpd unit :=
  k ← gets d_mallocs;
  modify (set_dmallocs (S k));;
  if malloc_ok env k 12 then modify (set_vi no_vi) else fault.

(** ** The interfaces *)

(** The address, index and hardware address of the interface [name]; [None] when
    the program ends, [Some None] when there is no socket. *)
Definition ask_interface (name : list Z) : M dhcpd (option (option (Z * Z * list Z))) :=
  n ← gets d_ifs;
  modify (set_difs (S n));;
  let r := if_answer env n in
  if negb (if_socket r) then mret (Some None) else
  if 16 <=? Z.of_nat (length name) then fault else
  match if_addr r, if_index r, if_hwaddr r with
  | Some a, Some x, Some h => mret (Some (Some (a, x, h)))
  | _, _, _ => mret None
  end.

Definition put_interface (v : Z * Z * list Z) (c : server_config_t) : server_config_t :=
  let '(a, x, h) := v in set_arp h (set_ifindex x (set_server a c)).

(** Does the program go on? *)
Definition first_interface : M dhcpd bool :=
  name ← cfg sc_interface;
  r ← ask_interface name;
  match r with
  | Some (Some v) => modify (λ s, set_server_config (put_interface v (server_config s)) s);; mret true
  | _ => mret false
  end.

Definition second_interface : M dhcpd bool :=
  e2 ← gets g_enblSrv2;
  if e2 =? 0 then mret true else
  name ← gets (λ s, sc_interface (server2_config s));
  r ← ask_interface name;
  match r with
  | Some (Some v) => modify (λ s, set_server2_config (put_interface v (server2_config s)) s);; mret true
  | Some None => mret true
  | None => mret false
  end.

(** ** The start *)

(** The tables of leases, as the configuration wants them and filled from their
    files. *)
Definition make_tables : M dhcpd unit :=
  t1 ← (opts ← cfg sc_options; lease_time_of opts);
  modify (λ s, set_server_config (set_lease t1 (server_config s)) s);;
  n1 ← cfg sc_max_leases;
  n2 ← gets (λ s, sc_max_leases (server2_config s));
  let max_lease_in_both := if n2 <? n1 then n1 else n2 in
  tmp ← new_table max_lease_in_both;
  modify (set_tmpls tmp);;
  l1 ← new_table max_lease_in_both;
  modify (set_leases l1);;
  read_leases env;;
  t2 ← (opts ← gets (λ s, sc_options (server2_config s)); lease_time_of opts);
  modify (λ s, set_server2_config (set_lease t2 (server2_config s)) s);;
  l2 ← new_table max_lease_in_both;
  modify (set_leases2 l2);;
  read_leases2 env.

(** [malloc] of [declines], which nothing uses in this build. *)
Definition new_declines : M dhcpd unit := k ← gets d_mallocs; modify (set_dmallocs (S k)).

Definition startup : M dhcpd started :=
  opened0 ← pidfile_acquire None;
  pidfile_write_release None opened0;;
  c ← load_config;
  dns ← cfg sc_pIPPhoneDNSServers;
  (match dns with Some d => MarkIPphoneDNSRequestRule d | None => mret tt end);;
  make_tables;;
  new_declines;;
  new_vi;;
  let pidfile := pc_pidfile (cf_first c) in
  ok1 ← first_interface;
  if negb ok1 then exit_server pidfile 1 else
  ok2 ← second_interface;
  if negb ok2 then exit_server pidfile 1 else
  opened ← pidfile_acquire pidfile;
  if fork_result sys =? -1 then exit_server pidfile 1 else
  if negb (fork_result sys =? 0) then mret (Exits 0) else
  pidfile_write_release pidfile opened;;
  now ← getSysUpTime env;
  auto_time ← cfg sc_auto_time;
  mret (Serving (u32 (now + auto_time)) pidfile).

(** ** Signals *)

(** The marks on the packets of the IP phones; the array is read before the index
    is compared with its size. *)
Fixpoint mark_sip_loop (n : nat) (i : nat) (flag : Z) : M dhcpd unit :=
  match n with
  | O => nofuel
  | S n' =>
      a ← sip_at i;
      if (a =? 0) || (SIP_MAX <=? i)%nat then mret tt else
      let ip := inet_ntoa a in
      let quiet := cstr " 2>/dev/null" in
      system_cmd sizeof_szCmdMark (port_cmd "-D" ip "123" ++ quiet);;
      system_cmd sizeof_szCmdMark (port_cmd "-D" ip "69" ++ quiet);;
      (if flag =? 1 then
         system_cmd sizeof_szCmdMark (port_cmd "-A" ip "123");;
         system_cmd sizeof_szCmdMark (port_cmd "-A" ip "69")
       else mret tt);;
      mark_sip_loop n' (S i) flag
  end.

Definition setMarkForSipAddr (flag : Z) : M dhcpd unit :=
  mark_sip_loop (S SIP_MAX) 0 flag;;
  system_cmd 1024 (cstr "echo 9 > /proc/sys/net/ipv4/netfilter/ip_conntrack_dns").

(** The lines of the file: the address in front of the first line end, and what
    follows the last one that was seen.  The character behind a line end is not
    looked at, and the end of the buffer is not either. *)
Fixpoint ntp_lines (nCount : nat) (p : nat) (buf : list Z) (ntp1 ntp2 : list Z) : M dhcpd (list Z * list Z) :=
  match nCount with
  | O => mret (ntp1, ntp2)
  | S nCount' =>
      c ← of_option (buf !! p);
      if c =? 10 then
        let buf' := <[p := 0]> buf in
        let ntp2' := if (p + 1 + 31 <? 255)%nat then take 31 (drop (p + 1) buf') else ntp2 in
        ntp_lines nCount' (p + 2) buf' (take 31 buf') ntp2'
      else ntp_lines nCount' (p + 1) buf ntp1 ntp2
  end.

Definition INADDR_NONE : Z := 0xffffffff.

Definition ntp_address (text : list Z) (old : Z) : Z :=
  match c_string text with
  | [] => old
  | t => if inet_addr env t =? INADDR_NONE then old else inet_addr env t
  end.

Definition setIPPhoneNtpCfg : M dhcpd unit :=
  match ntp_file sys with
  | None => mret tt
  | Some file =>
      let got := take 256 file in
      r ← ntp_lines (length got) 0 (got ++ replicate (256 - length got) 0) [] [];
      modify (λ s, let c := server_config s in
        set_server_config (set_iPPhoneNtp2 (ntp_address r.2 (sc_iPPhoneNtp2 c))
          (set_iPPhoneNtp1 (ntp_address r.1 (sc_iPPhoneNtp1 c)) c)) s)
  end.

Inductive signal : Type := SIGUSR1 | SIGUSR2 | SIGTERM | SIGHUP | SIGILL.

(** [None]: the server goes on. *)
Definition on_signal (sig : signal) (pidfile : option (list Z)) : M dhcpd (option started) :=
  match sig with
  | SIGUSR1 => write_leases env;; mret None
  | SIGUSR2 => setIPPhoneNtpCfg;; mret None
  | SIGTERM => r ← exit_server pidfile 0; mret (Some r)
  | SIGHUP => setMarkForSipAddr 1;; mret None
  | SIGILL => setMarkForSipAddr 0;; mret None
  end.

(** ** The main loop *)

(** A turn of the loop: the socket, closed at the start, after a time-out and after
    an error of [select], is opened again, and without one ([listens] is the answer
    of [dhcpd_listen_socket]) the server ends; otherwise a round.  The result is the
    end, or whether the socket is open and [timeout_end]. *)
Definition server_turn (pidfile : option (list Z)) (listens : bool) (ev : event) (socket_open : bool) (timeout_end : Z)
  : M dhcpd (started + bool * Z) :=
  if negb socket_open && negb listens then r ← exit_server pidfile 0; mret (inl r)
  else
    te ← server_round env ev timeout_end;
    mret (inr (match ev with Received _ => true | _ => false end, te)).
End start.
