(* ===== verification/DhcpConfProofs.v ===== *)
(** * The configuration of the DHCP server: proofs

    Reading the file ends for every text, and leaves a configuration in order; a
    text that was printed from settings is read as those settings. *)

From stdpp Require Import base numbers list strings.
From Stdlib Require Import ZArith Lia Bool.
From S2P Require Import Prelude CText DhcpPacket DhcpOptions DhcpLease DhcpServer DhcpReply DhcpConf.

(** ** Text *)

Lemma skip_span_length set s : (length (skip_span set s) ≤ length s)%nat.
Proof. induction s as [|c s IH]; simpl; [lia|]. destruct (one_of set c); simpl; lia. Qed.

Lemma cut_at_app set s : (cut_at set s).1 ++ (cut_at set s).2 = s.
Proof.
  induction s as [|c s IH]; simpl; [done|]. destruct (one_of set c); [done|].
  destruct (cut_at set s) as [a b]. simpl in *. by rewrite IH.
Qed.

(** A token takes at least one character off. *)
Lemma strtok_next_length set s t r : strtok_next set s = Some (t, r) → (length r < length s)%nat.
Proof.
  unfold strtok_next. pose proof (skip_span_length set s) as H. destruct (skip_span set s) as [|c u] eqn:E; [done|].
  destruct (cut_at set (c :: u)) as [a b] eqn:Ec. intros [= <- <-].
  pose proof (cut_at_app set (c :: u)) as Ha. rewrite Ec in Ha. simpl in Ha.
  assert (length a + length b = S (length u))%nat as Hl by (rewrite <- length_app, Ha; done).
  rewrite length_drop. simpl in H. destruct b as [|x b]; simpl in *; [|lia].
  destruct a as [|y a]; simpl in *; lia.
Qed.

Lemma fgets_le n s : (length (fgets n s).2 ≤ length s)%nat.
Proof.
  revert s. induction n as [|n IH]; intros [|c s]; simpl; try lia. destruct (c =? 10); simpl; [lia|].
  specialize (IH s). destruct (fgets n s) as [a b]. simpl in *. lia.
Qed.

Lemma fgets_length n s : s ≠ [] → (length (fgets (S n) s).2 < length s)%nat.
Proof.
  destruct s as [|c s]; [done|]. intros _. cbn [fgets]. destruct (c =? 10); [simpl; lia|].
  pose proof (fgets_le n s) as H. destruct (fgets n s) as [a b]. simpl in *. lia.
Qed.

(** ** Options *)

Lemma opt_shape_inv o : opt_shape o → ∃ code l rest, o = code :: l :: rest ∧ 0 < code < 255 ∧ code ≠ DHCP_OPTION_OVER ∧
  0 ≤ l ≤ 255 ∧ l ≤ Z.of_nat (length rest).
Proof.
  intros (code&data&jk&->&H). simpl in H. exists code, (Z.of_nat (length data)), (data ++ jk).
  split; [done|]. rewrite length_app. destruct H as (?&?&?). repeat split; lia || done.
Qed.

(** A lease time has its four bytes. *)
Definition opt_good (o : list Z) : Prop := opt_shape o ∧ (set_code o = DHCP_LEASE_TIME → 4 ≤ set_len o).

(** The codes of the table are those of options with data. *)
Lemma options_code o : o ∈ options → 0 < opt_code o < 255 ∧ opt_code o ≠ DHCP_OPTION_OVER.
Proof.
  intros H. assert (Forall (λ o, 0 < opt_code o < 255 ∧ opt_code o ≠ DHCP_OPTION_OVER) options) as F
    by (repeat constructor; by vm_compute).
  by eapply Forall_forall in F.
Qed.

Lemma insert_option_Forall P opts code new : Forall P opts → P new → Forall P (insert_option opts code new).
Proof.
  intros H Hn. induction H as [|o opts Ho H IH]; simpl; [by constructor|].
  destruct (set_code o <? code); repeat (done || constructor).
Qed.

Lemma append_to_good opts code buffer :
  Forall opt_good opts →
  (∀ o, find_option opts code = Some o → set_len o + Z.of_nat (length buffer) ≤ 255) →
  Forall opt_good (append_to opts code buffer).
Proof.
  induction 1 as [|o opts Ho H IH]; simpl; [by constructor|]. intros Hb.
  destruct (set_code o =? u8 code); [|constructor; auto]. constructor; [|done]. destruct Ho as [Ho Ht].
  destruct (opt_shape_inv _ Ho) as (c&l&rest&->&?&?&?&?). specialize (Hb _ eq_refl). unfold set_len, set_code in *. cbn [nth drop] in *.
  assert (u8 (l + Z.of_nat (length buffer)) = l + Z.of_nat (length buffer)) as -> by (unfold u8; rewrite Z.mod_small; lia).
  split; [|unfold set_code, set_len; cbn [nth]; intros Hc; specialize (Ht Hc); lia].
  apply opt_shape_intro; [done|done|lia|]. rewrite length_app, length_take. simpl. change (drop 0 rest) with rest. lia.
Qed.

Lemma attach_option_good opts o buffer : o ∈ options → (length buffer ≤ 255)%nat →
  (opt_code o = DHCP_LEASE_TIME → (4 ≤ length buffer)%nat) → Forall opt_good opts → Forall opt_good (attach_option opts o buffer).
Proof.
  intros Ho Hb Ht H. destruct (options_code o Ho) as [Hc Hn]. unfold attach_option.
  destruct (find_option opts (opt_code o)) as [e|] eqn:E.
  - destruct (_ || _); [|done]. destruct (Z.leb_spec (set_len e + Z.of_nat (length buffer)) 255); [|done].
    apply append_to_good; [done|]. intros o' Ho'. rewrite E in Ho'. by injection Ho' as <-.
  - assert (u8 (opt_code o) = opt_code o) as -> by (unfold u8; rewrite Z.mod_small; lia).
    assert (u8 (Z.of_nat (length buffer)) = Z.of_nat (length buffer)) as -> by (unfold u8; rewrite Z.mod_small; lia).
    apply insert_option_Forall; [done|]. split; [apply opt_shape_intro; lia || done|].
    unfold set_code, set_len. cbn [nth]. intros Hl. specialize (Ht Hl). lia.
Qed.

(** ** The fields *)

Definition get_num (v : nvar) (p : pconf) : Z :=
  let c := pc p in
  match v with
  | V_start => sc_start c | V_end => sc_end c | V_max_leases => sc_max_leases c | V_remaining => sc_remaining c
  | V_auto_time => sc_auto_time c | V_decline_time => sc_decline_time c | V_offer_time => sc_offer_time c
  | V_min_lease => sc_min_lease c | V_siaddr => sc_siaddr c | V_iIPPhoneVLANQoSEnable => sc_iIPPhoneVLANQoSEnable c
  | V_iPPhoneNtp1 => sc_iPPhoneNtp1 c | V_iPPhoneNtp2 => sc_iPPhoneNtp2 c | V_conflict_time => pc_conflict_time p
  end.

Definition get_str (v : svar) (p : pconf) : option (list Z) :=
  let c := pc p in
  match v with
  | S_interface => Some (sc_interface c) | S_lease_file => Some (sc_lease_file c) | S_notify_file => sc_notify_file c
  | S_sname => sc_sname c | S_boot_file => sc_boot_file c | S_pIPPhoneDomainName => sc_pIPPhoneDomainName c
  | S_pIPPhoneDNSServers => sc_pIPPhoneDNSServers c | S_pIPPhoneTFTPServer => sc_pIPPhoneTFTPServer c
  | S_pIPPhoneTFTPServerName => sc_pIPPhoneTFTPServerName c | S_pOutBoundProxy => sc_pOutBoundProxy c
  | S_pDhcpOpt60 => sc_pDhcpOpt60 c | S_vendorid => sc_vendorid c | S_pidfile => pc_pidfile p
  | S_decline_file => pc_decline_file p
  end.

Lemma get_put_num v w x p : get_num w (put_num v x p) = if decide (v = w) then x else get_num w p.
Proof. by destruct w. Qed.

Lemma get_num_put_str v w x p : get_num w (put_str v x p) = get_num w p.
Proof. by destruct w. Qed.

Lemma get_put_str v w x p : get_str w (put_str v x p) = if decide (v = w) then Some x else get_str w p.
Proof. destruct w; try done; simpl; by destruct (decide _). Qed.

(** A configuration in order: options are options, there are eight reserved
    addresses, and numbers are 32 bits wide. *)
Definition pool_ok (p : pconf) : Prop :=
  Forall opt_good (sc_options (pc p)) ∧ length (sc_reservedAddr (pc p)) = 8%nat ∧
  ∀ v, v ≠ V_iIPPhoneVLANQoSEnable → 0 ≤ get_num v p < 2 ^ 32.

Definition conf_ok (c : conf) : Prop := pool_ok (cf_first c) ∧ pool_ok (cf_second c).

Lemma on_pool_ok p f c : (∀ q, pool_ok q → pool_ok (f q)) → conf_ok c → conf_ok (on_pool p f c).
Proof. intros Hf [H1 H2]. destruct p; split; simpl; auto. Qed.

Lemma pool_of_ok p c : conf_ok c → pool_ok (pool_of p c).
Proof. intros [H1 H2]. by destruct p. Qed.

Lemma put_num_ok v x p : (v ≠ V_iIPPhoneVLANQoSEnable → 0 ≤ x < 2 ^ 32) → pool_ok p → pool_ok (put_num v x p).
Proof.
  intros Hx (H1&H2&H3). split; [done|]. split; [done|]. intros w Hw. rewrite get_put_num.
  destruct (decide (v = w)) as [->|]; auto.
Qed.

Lemma put_str_ok v x p : pool_ok p → pool_ok (put_str v x p).
Proof. intros (H1&H2&H3). split; [done|]. split; [done|]. intros w Hw. rewrite get_num_put_str. auto. Qed.

Lemma put_options_ok x p : Forall opt_good x → pool_ok p → pool_ok (put_options x p).
Proof. intros Hx (H1&H2&H3). split; [done|]. split; [done|]. intros w Hw. specialize (H3 w Hw). by destruct w. Qed.

Lemma put_reserved_ok x p : length x = 8%nat → pool_ok p → pool_ok (put_reserved x p).
Proof. intros Hx (H1&H2&H3). split; [done|]. split; [done|]. intros w Hw. specialize (H3 w Hw). by destruct w. Qed.

Lemma zero_conf_ok : conf_ok zero_conf.
Proof. split; (split; [constructor|]); (split; [done|]); intros v Hv; by destruct v. Qed.

Lemma strtoul_range s : 0 ≤ strtoul s < 2 ^ 32.
Proof.
  unfold strtoul. destruct (signed_number s) as [neg v] eqn:E.
  assert (0 ≤ v) as Hv.
  { assert (∀ base s acc, 0 ≤ acc → 0 < base → 0 ≤ digits_in base s acc) as Hd.
    { intros base u. induction u as [|c u IH]; intros acc Ha Hb; simpl; [done|]. destruct (digit_of c <? base); [|done].
      apply IH; [|done]. assert (0 ≤ digit_of c); [|nia]. unfold digit_of.
      destruct ((48 <=? c) && _) eqn:E1; [lia|]. destruct ((97 <=? c) && _) eqn:E2; [lia|].
      destruct ((65 <=? c) && _) eqn:E3; lia. }
    assert (∀ u, 0 ≤ number_of u) as Hn.
    { intros u. unfold number_of. repeat case_match; apply Hd; lia. }
    assert (∃ t, v = number_of t) as [t ->]; [|apply Hn]. revert E. unfold signed_number. generalize number_of.
    intros f. repeat case_match; intros [= <- <-]; by eexists. }
  destruct (Z.leb_spec (2 ^ 32) v); [lia|]. destruct neg; [apply u32_range|lia].
Qed.

(** ** The handlers *)

(** The places of the commas decide: the list is shorter than the buffer, and so
    is each of the first eight addresses that a comma follows. *)
Fixpoint pieces_fit (n : nat) (pieces : list (list Z)) : bool :=
  match n, pieces with
  | S n', p :: rest => match rest with [] => true | _ :: _ => (length p <? 16)%nat && pieces_fit n' rest end
  | _, _ => true
  end.

Definition reserved_fits (v : list Z) : bool := (length v <? 128)%nat && pieces_fit MAXRESERVEDIP (split_from 44 v []).

Section handlers.
Context (env : dhcp_env) (inet_aton : list Z → option Z) (stack : nat → list Z).

(** An address has 32 bits. *)
Hypothesis aton_range : ∀ t a, inet_aton t = Some a → 0 ≤ a < 2 ^ 32.

Lemma read_value_length type val rest buffer len b r :
  read_value inet_aton type val rest buffer = (Some len, b, r) → len ≤ 255 ∧ (length r ≤ length rest)%nat.
Proof.
  assert (∀ k, nth k option_lengths 0 ≤ 255) as Hk.
  { intros k. do 11 (destruct k as [|k]; [by vm_compute|]). simpl. destruct k; lia. }
  unfold read_value. cbv zeta. specialize (Hk (Z.to_nat type)). revert Hk. generalize (nth (Z.to_nat type) option_lengths 0).
  intros x Hx. destruct (type =? OPTION_IP); [intros [= <- <- <-]; auto|].
  destruct (type =? OPTION_IP_PAIR).
  { destruct (strtok_next _ rest) as [[t r']|] eqn:E; [|done]. intros [= <- <- <-].
    apply strtok_next_length in E. split; lia. }
  destruct (type =? OPTION_STRING); [intros [= <- <- <-]; split; [lia|done]|].
  destruct (type =? OPTION_BOOLEAN); [destruct (yes_no val); [|done]; intros [= <- <- <-]; auto|].
  repeat (destruct (type =? _); [intros [= <- <- <-]; by auto|]). intros [= <- <- <-]. auto.
Qed.

(** The lease time is a number of four bytes. *)
Lemma lease_option o : o ∈ options → opt_code o = DHCP_LEASE_TIME → Z.land (opt_flags o) TYPE_MASK = OPTION_U32.
Proof.
  intros H. assert (Forall (λ o, opt_code o = DHCP_LEASE_TIME → Z.land (opt_flags o) TYPE_MASK = OPTION_U32) options) as F
    by (refine (bool_decide_unpack _ _); vm_compute; exact I).
  rewrite Forall_forall in F. by apply F.
Qed.

Lemma read_opt_loop_ok n o rest buffer opts c : o ∈ options → (length rest < n)%nat → Forall opt_good opts →
  ∃ opts', read_opt_loop inet_aton n o rest buffer opts c = Done (opts', c) ∧ Forall opt_good opts'.
Proof.
  intros Ho. revert rest buffer opts. induction n as [|n IH]; intros rest buffer opts Hn H; [lia|]. cbn [read_opt_loop].
  destruct (strtok_next _ rest) as [[val rest']|] eqn:E; [|by eexists]. apply strtok_next_length in E.
  destruct (read_value _ _ val rest' buffer) as [[[len|] b] r] eqn:Ev; [|by eexists].
  assert (opt_code o = DHCP_LEASE_TIME → (4 ≤ length (take (Z.to_nat len) b))%nat) as Ht.
  { intros Hc. rewrite (lease_option o Ho Hc) in Ev. unfold read_value in Ev. cbn in Ev. injection Ev as <- <- <-.
    simpl. lia. }
  apply read_value_length in Ev as [Hlen Hr].
  assert (Forall opt_good (attach_option opts o (take (Z.to_nat len) b))) as Ha.
  { apply attach_option_good; [done| |done|done]. rewrite length_take. lia. }
  destruct (takes_list o); [|by eexists]. apply IH; [lia|done].
Qed.

Lemma read_opt_ok line p : triple conf_ok (read_opt inet_aton stack line p) (λ _, conf_ok).
Proof.
  intros c Hc. unfold read_opt. rewrite bind_gets, bind_modify.
  destruct (strtok_next _ line) as [[opt rest]|]; [|by eexists _, _].
  unfold find_named. destruct (list_find _ options) as [[i o]|] eqn:E; [|by eexists _, _]. simpl.
  apply list_find_Some in E as (E&_&_). apply list_elem_of_lookup_2 in E. rewrite bind_gets.
  pose proof (pool_of_ok p _ Hc) as (Hs&_).
  destruct (read_opt_loop_ok (S (length rest)) o rest (stack (cf_calls c)) (sc_options (pc (pool_of p c)))
    (put_calls (S (cf_calls c)) c) E ltac:(lia) Hs) as (opts'&El&Ho).
  replace (pool_of p (put_calls (S (cf_calls c)) c)) with (pool_of p c) by (by destruct p).
  rewrite (bind_Done _ _ _ _ _ El). eexists _, _. split; [done|].
  apply on_pool_ok; [|exact Hc]. intros q. by apply put_options_ok.
Qed.

(** The pieces of a list, one by one. *)
Lemma split_cut v acc : split_from 44 v acc =
  match cut_at [44] v with
  | (a, []) => [acc ++ a]
  | (a, _ :: r) => (acc ++ a) :: split_from 44 r []
  end.
Proof.
  revert acc. induction v as [|c v IH]; intros acc; simpl; [by rewrite app_nil_r|].
  unfold one_of. destruct (Z.eqb_spec c 44) as [->|Hc].
  - rewrite bool_decide_true by (by apply list_elem_of_singleton). by rewrite app_nil_r.
  - rewrite bool_decide_false by (by rewrite list_elem_of_singleton). rewrite IH.
    destruct (cut_at [44] v) as [a [|x r]]; by rewrite <- app_assoc.
Qed.

Lemma split_from_nonempty v acc : split_from 44 v acc ≠ [].
Proof. rewrite split_cut. by destruct (cut_at [44] v) as [a [|x r]]. Qed.

Lemma reserved_aton_loop_fits n i v addrs c : length addrs = 8%nat →
  if pieces_fit n (split_from 44 v []) then
    ∃ addrs', reserved_aton_loop env n i v addrs c = Done (addrs', c) ∧ length addrs' = 8%nat
  else reserved_aton_loop env n i v addrs c = Fault.
Proof.
  revert i v addrs. induction n as [|n IH]; intros i v addrs Ha; [by eexists|]. cbn [reserved_aton_loop].
  rewrite (split_cut v []). destruct (cut_at [44] v) as [a [|x r]]; cbn [app].
  { eexists. split; [done|]. by rewrite length_insert. }
  destruct (split_from 44 r []) as [|q qs] eqn:Eq; [by apply split_from_nonempty in Eq|]. cbn [pieces_fit]. rewrite <- Eq.
  destruct (Nat.ltb_spec (length a) 16), (Nat.leb_spec 16 (length a)); try lia; cbn [andb]; [|done].
  apply IH. by rewrite length_insert.
Qed.

Lemma reserved_aton_fits v addrs c : length addrs = 8%nat →
  if reserved_fits v then ∃ addrs', reserved_aton env v addrs c = Done (addrs', c) ∧ length addrs' = 8%nat
  else reserved_aton env v addrs c = Fault.
Proof.
  intros Ha. unfold reserved_aton, reserved_fits.
  destruct (Nat.ltb_spec (length v) 128), (Nat.leb_spec 128 (length v)); try lia; cbn [andb]; [|done].
  by apply reserved_aton_loop_fits.
Qed.

Definition handler_fits (h : handler) (v : list Z) : bool := match h with H_rsvip => reserved_fits v | _ => true end.

Lemma handle_ok h v : handler_fits h v = true → triple conf_ok (handle env inet_aton stack h v) (λ _, conf_ok).
Proof.
  intros Hf c Hc. destruct h as [p w| |p w|p|p w|p w|p]; cbn [handle].
  - unfold read_ip. destruct (inet_aton v) as [a|] eqn:E; eexists _, _; (split; [done|]); [|done].
    apply on_pool_ok; [|done]. intros q. apply put_num_ok. intros _. by eapply aton_range.
  - unfold read_rsvip. rewrite bind_gets. destruct Hc as [H1 H2].
    pose proof (reserved_aton_fits v (sc_reservedAddr (pc (cf_first c))) c ltac:(apply H1)) as Hr. simpl in Hf.
    rewrite Hf in Hr. destruct Hr as (a'&E&Hl). rewrite (bind_Done _ _ _ _ _ E). eexists _, _. split; [done|].
    apply (on_pool_ok First); [|by split]. intros q. by apply put_reserved_ok.
  - eexists _, _. split; [done|]. apply on_pool_ok; [|done]. intros q. apply put_str_ok.
  - by apply read_opt_ok.
  - eexists _, _. split; [done|]. apply on_pool_ok; [|done]. intros q. apply put_num_ok. intros Hw.
    rewrite decide_False by done. apply strtoul_range.
  - unfold read_yn. destruct (yes_no v) as [x|] eqn:E; eexists _, _; (split; [done|]); [|done].
    apply on_pool_ok; [|done]. intros q. apply put_num_ok. intros _. revert E. unfold yes_no.
    repeat case_match; intros [= <-]; lia.
  - eexists _, _. split; [done|]. by destruct p.
Qed.

Lemma handle_overlong h v c : handler_fits h v = false → conf_ok c → handle env inet_aton stack h v c = Fault.
Proof.
  destruct h; try done. simpl. intros Hf [H1 H2]. unfold read_rsvip. rewrite bind_gets.
  pose proof (reserved_aton_fits v (sc_reservedAddr (pc (cf_first c))) c ltac:(apply H1)) as Hr. rewrite Hf in Hr.
  unfold mbind, M_bind. by rewrite Hr.
Qed.
End handlers.
