(* ===== verification/DhcpConfRead.v ===== *)
(** * Reading the configuration of the DHCP server: proofs

    The whole file: which texts are read without a fault, and that a text that was
    printed from settings is read as those settings. *)

From stdpp Require Import base numbers list strings.
From Stdlib Require Import ZArith Lia Bool.
From S2P Require Import Prelude CText DhcpPacket DhcpOptions DhcpLease DhcpServer DhcpReply DhcpConf DhcpConfProofs.

(** ** The lines of a file *)

(** The pieces that [fgets] gets. *)
Fixpoint buffers (n : nat) (file : list Z) : list (list Z) :=
  match n, file with
  | O, _ | _, [] => []
  | S n', _ => (fgets 299 file).1 :: buffers n' (fgets 299 file).2
  end.

(** No reserved list of the line is too long for its buffers. *)
Definition line_fits (buffer : list Z) : bool :=
  match split_line buffer with
  | Some (token, v) => forallb (λ k, negb (strcaseeq token (cstr (kw_name k))) || handler_fits (kw_handler k) v) keywords
  | None => true
  end.

Definition file_fits (file : list Z) : bool := forallb line_fits (buffers (length file) file).

Section read.
Context (env : dhcp_env) (inet_aton : list Z → option Z) (stack : nat → list Z).
Hypothesis aton_range : ∀ t a, inet_aton t = Some a → 0 ≤ a < 2 ^ 32.

(** [ends b m]: from a configuration in order, [m] returns and leaves one when
    [b], and faults otherwise. *)
Definition ends {A} (b : bool) (m : M conf A) : Prop :=
  ∀ c, conf_ok c → if b then ∃ a c', m c = Done (a, c') ∧ conf_ok c' else m c = Fault.

Lemma ends_bind {A B} b1 b2 (m : M conf A) (f : A → M conf B) :
  ends b1 m → (∀ a, ends b2 (f a)) → ends (b1 && b2) (m ≫= f).
Proof.
  intros Hm Hf c Hc. specialize (Hm c Hc). destruct b1.
  - destruct Hm as (a&c'&E&Hc'). rewrite (bind_Done _ _ _ _ _ E). by apply Hf.
  - simpl. unfold mbind, M_bind. by rewrite Hm.
Qed.

Lemma ends_ret {A} (a : A) : ends true (mret a).
Proof. intros c Hc. by exists a, c. Qed.

Lemma ends_handle h v : ends (handler_fits h v) (handle env inet_aton stack h v).
Proof.
  intros c Hc. destruct (handler_fits h v) eqn:E; [by eapply handle_ok|by apply handle_overlong].
Qed.

Lemma ends_dispatch kws token v :
  ends (forallb (λ k, negb (strcaseeq token (cstr (kw_name k))) || handler_fits (kw_handler k) v) kws)
    (dispatch env inet_aton stack kws token v).
Proof.
  induction kws as [|k kws IH]; [by apply ends_ret|]. cbn [forallb dispatch]. apply ends_bind; [|done].
  destruct (strcaseeq _ _); [apply ends_handle|apply ends_ret].
Qed.

Lemma ends_line buffer : ends (line_fits buffer) (read_line env inet_aton stack buffer).
Proof.
  unfold line_fits, read_line. destruct (split_line buffer) as [[token v]|]; [apply ends_dispatch|by apply ends_ret].
Qed.

(** Reading takes a round for each piece, and one to see the end. *)
Lemma ends_lines n m file : (length file < n)%nat → (length file ≤ m)%nat →
  ends (forallb line_fits (buffers m file)) (read_lines env inet_aton stack n file).
Proof.
  revert m file. induction n as [|n IH]; intros m file Hn Hm; [lia|].
  destruct file as [|x file]; [destruct m; by apply ends_ret|]. destruct m as [|m]; [simpl in Hm; lia|].
  pose proof (fgets_length 298 (x :: file) ltac:(done)) as Hl. unfold buffers; fold buffers. cbn [forallb].
  unfold read_lines; fold (read_lines env inet_aton stack).
  destruct (fgets 299 (x :: file)) as [b r]. cbn [fst snd] in *. simpl in Hn, Hm, Hl.
  apply ends_bind; [apply ends_line|]. intros _. apply IH; lia.
Qed.

Lemma ends_defaults kws : forallb (λ k, handler_fits (kw_handler k) (cstr (kw_def k))) kws = true →
  ends true (set_defaults env inet_aton stack kws).
Proof.
  induction kws as [|k kws IH]; [by intros; apply ends_ret|]. cbn [forallb set_defaults]. intros [H1 H2]%andb_true_iff.
  apply (ends_bind true true); [|auto]. destruct (decide (kw_def k = "")); [apply ends_ret|].
  rewrite <- H1. apply ends_handle.
Qed.

Lemma ends_config file : ends (default true (file_fits <$> file)) (read_config env inet_aton stack file).
Proof.
  unfold read_config. apply (ends_bind true); [apply ends_defaults; by vm_compute|]. intros _.
  destruct file as [text|]; [|apply ends_ret]. cbn [fmap option_fmap option_map default].
  rewrite <- (andb_true_r (file_fits text)). apply (ends_bind _ true); [|intros; apply ends_ret].
  apply ends_lines; lia.
Qed.
End read.

(** ** Text *)

Lemma one_of_true set c : c ∈ set → one_of set c = true.
Proof. intros. by apply bool_decide_true. Qed.

Lemma one_of_false set c : c ∉ set → one_of set c = false.
Proof. intros. by apply bool_decide_false. Qed.

Lemma cut_at_stop set a b : Forall (λ c, c ∉ set) a → match b with [] => True | c :: _ => c ∈ set end →
  cut_at set (a ++ b) = (a, b).
Proof.
  induction 1 as [|c a Hc H IH]; intros Hb; simpl.
  - destruct b as [|c b]; [done|]. simpl. by rewrite one_of_true.
  - by rewrite one_of_false, IH.
Qed.

Lemma skip_span_stop set s : match s with [] => True | c :: _ => c ∉ set end → skip_span set s = s.
Proof. destruct s as [|c s]; [done|]. intros H. simpl. by rewrite one_of_false. Qed.

(** A token in front of a separator or of the end. *)
Lemma strtok_next_stop set a b : a ≠ [] → Forall (λ c, c ∉ set) a → match b with [] => True | c :: _ => c ∈ set end →
  strtok_next set (a ++ b) = Some (a, drop 1 b).
Proof.
  intros Ha H Hb. unfold strtok_next. rewrite skip_span_stop; [|destruct H; [done|by simpl]].
  destruct a as [|x a]; [done|]. cbn [app]. by rewrite app_comm_cons, cut_at_stop.
Qed.

Lemma c_string_id s : Forall (λ c, c ≠ 0) s → c_string s = s.
Proof.
  induction 1 as [|c s Hc H IH]; simpl; [done|]. rewrite (proj2 (Z.eqb_neq _ _)) by done. by rewrite IH.
Qed.

Lemma fgets_line n a r : Forall (λ c, c ≠ 10) a → (length a < n)%nat → fgets n (a ++ 10 :: r) = (a ++ [10], r).
Proof.
  intros H. revert n. induction H as [|c a Hc H IH]; intros n Hn; destruct n as [|n]; simpl in *; try lia; [done|].
  rewrite (proj2 (Z.eqb_neq _ _)) by done. by rewrite IH by lia.
Qed.

(** ** Settings *)

Inductive setting : Type :=
| SetIp (p : pool) (v : nvar) (a : Z)
| SetNum (p : pool) (v : nvar) (n : Z)
| SetYn (p : pool) (v : nvar) (b : bool)
| SetStr (p : pool) (v : svar) (s : list Z)
| SetEnbl (p : pool) (n : Z)
| SetAddrs (p : pool) (o : dhcp_option) (addrs : list Z).

#[global] Instance pool_eq_dec : EqDecision pool.
Proof. solve_decision. Defined.
#[global] Instance handler_eq_dec : EqDecision handler.
Proof. solve_decision. Defined.

(** The first keyword with this handler. *)
Definition keyword_of (h : handler) : option config_keyword := snd <$> list_find (λ k, kw_handler k = h) keywords.

Definition handler_of (s : setting) : handler :=
  match s with
  | SetIp p v _ => H_ip p v
  | SetNum p v _ => H_u32 p v
  | SetYn p v _ => H_yn p v
  | SetStr p v _ => H_str p v
  | SetEnbl p _ => H_enbl p
  | SetAddrs p _ _ => H_opt p
  end.

(** The addresses, with commas between them. *)
Fixpoint comma_list (addrs : list Z) : list Z :=
  match addrs with
  | [] => []
  | a :: rest => inet_ntoa a ++ match rest with [] => [] | _ => 44 :: comma_list rest end
  end.

Definition value_of (s : setting) : list Z :=
  match s with
  | SetIp _ _ a => inet_ntoa a
  | SetNum _ _ n | SetEnbl _ n => sprintf_lu n
  | SetYn _ _ b => if b then cstr "yes" else cstr "no"
  | SetStr _ _ s => s
  | SetAddrs _ o addrs => cstr (opt_name o) ++ [32] ++ comma_list addrs
  end.

(** The line of a setting. *)
Definition print_setting (s : setting) : list Z :=
  match keyword_of (handler_of s) with
  | Some k => cstr (kw_name k) ++ [32] ++ value_of s ++ [10]
  | None => []
  end.

Definition apply_setting (c : conf) (s : setting) : conf :=
  match s with
  | SetIp p v x | SetNum p v x => on_pool p (put_num v (if decide (v = V_iIPPhoneVLANQoSEnable) then s32 x else x)) c
  | SetYn p v b => on_pool p (put_num v (if b then 1 else 0)) c
  | SetStr p v s => on_pool p (put_str v s) c
  | SetEnbl p n => set_enbl p (s32 n) c
  | SetAddrs p o addrs =>
      on_pool p (put_options (fold_left (λ os a, attach_option os o (be_bytes a)) addrs (sc_options (pc (pool_of p c)))))
        (put_calls (S (cf_calls c)) c)
  end.

(** What can be printed: the keyword exists and the line has at most 299
    characters; numbers are 32 bits wide; a string has characters that a line can
    have, and does not start with a separator; a list of addresses is for an option
    that takes one. *)
Definition setting_ok (s : setting) : Prop :=
  is_Some (keyword_of (handler_of s)) ∧ (length (print_setting s) ≤ 299)%nat ∧
  match s with
  | SetIp _ v x => 0 ≤ x < 2 ^ 32 ∧ v ≠ V_iIPPhoneVLANQoSEnable
  | SetNum _ _ x | SetEnbl _ x => 0 ≤ x < 2 ^ 32
  | SetYn _ _ _ => True
  | SetStr _ _ s => Forall (λ c, c ∉ [0; 10; 35]) s ∧ match s with [] => False | c :: _ => c ∉ cstr " =" ++ [9] end
  | SetAddrs _ o addrs => o ∈ options ∧ opt_flags o = Z.lor OPTION_IP OPTION_LIST ∧ addrs ≠ [] ∧
      Forall (λ a, 0 ≤ a < 2 ^ 32) addrs
  end.

(** ** Keywords *)

(** No two keywords are the same but for the case of their letters. *)
Lemma keywords_distinct : NoDup (map (λ k, map tolower (cstr (kw_name k))) keywords).
Proof. refine (bool_decide_unpack _ _). vm_compute. exact I. Qed.

(** A keyword starts with a letter and has no separator. *)
Definition name_chars (name : list Z) : Prop :=
  Forall (λ c, c ∉ [0; 10; 35] ++ cstr " =" ++ [9]) name ∧ name ≠ [].

Lemma keyword_chars k : k ∈ keywords → name_chars (cstr (kw_name k)).
Proof.
  intros H. assert (Forall (λ k, name_chars (cstr (kw_name k))) keywords) as F; [|by eapply Forall_forall in F].
  refine (bool_decide_unpack _ _). vm_compute. exact I.
Qed.

Lemma option_chars o : o ∈ options → name_chars (cstr (opt_name o)) ∧ find_named (cstr (opt_name o)) = Some o.
Proof.
  intros H. assert (Forall (λ o, name_chars (cstr (opt_name o))) options) as F1
    by (refine (bool_decide_unpack _ _); vm_compute; exact I).
  assert (Forall (λ o, find_named (cstr (opt_name o)) = Some o) options) as F2 by (repeat constructor).
  rewrite Forall_forall in F1, F2. split; [by apply F1|by apply F2].
Qed.

Lemma keyword_of_Some h k : keyword_of h = Some k → k ∈ keywords ∧ kw_handler k = h.
Proof.
  unfold keyword_of. destruct (list_find _ keywords) as [[i k']|] eqn:E; [|done]. intros [= <-].
  apply list_find_Some in E as (E&Hk&_). split; [by eapply list_elem_of_lookup_2|done].
Qed.

Section print.
Context (env : dhcp_env) (inet_aton : list Z → option Z) (stack : nat → list Z).

Lemma dispatch_none kws token v c : map tolower token ∉ map (λ k, map tolower (cstr (kw_name k))) kws →
  dispatch env inet_aton stack kws token v c = Done (tt, c).
Proof.
  induction kws as [|k kws IH]; [done|]. cbn [map dispatch]. rewrite not_elem_of_cons. intros [Hk Hks].
  unfold strcaseeq. rewrite bool_decide_false by done. by apply IH.
Qed.

(** The keyword's own handler is called, and no other one. *)
Lemma dispatch_keyword k v c r c' : k ∈ keywords → handle env inet_aton stack (kw_handler k) v c = Done (r, c') →
  dispatch env inet_aton stack keywords (cstr (kw_name k)) v c = Done (tt, c').
Proof.
  pose proof keywords_distinct as Hd. revert Hd. generalize keywords. intros kws Hd Hk Eh.
  induction kws as [|k0 kws IH]; [by apply elem_of_nil in Hk|]. cbn [map dispatch] in *.
  apply NoDup_cons in Hd as [Hn Hd]. apply elem_of_cons in Hk as [->|Hk].
  - unfold strcaseeq. rewrite bool_decide_true by done. rewrite (bind_Done _ _ _ _ _ Eh). by apply dispatch_none.
  - unfold strcaseeq. rewrite bool_decide_false; [by apply IH|]. intros E. apply Hn. rewrite <- E.
    by apply (list_elem_of_fmap_2 (λ k, map tolower (cstr (kw_name k)))).
Qed.

(** A printed line is taken apart into the keyword and the value. *)
Lemma split_printed name v : name_chars name → Forall (λ c, c ∉ [0; 10; 35]) v →
  match v with [] => False | c :: _ => c ∉ cstr " =" ++ [9] end →
  split_line (name ++ [32] ++ v ++ [10]) = Some (name, v).
Proof.
  intros [Hn Hne] Hv Hv0. unfold split_line.
  assert (Forall (λ c, c ∉ [0; 10; 35]) (name ++ [32] ++ v)) as Hall.
  { apply Forall_app. split; [eapply Forall_impl; [exact Hn|]; intros c [Hc _]%not_elem_of_app; exact Hc|].
    apply Forall_app. split; [|done]. apply Forall_singleton. rewrite !not_elem_of_cons. repeat split; try done. apply not_elem_of_nil. }
  assert (name ++ [32] ++ v ++ [10] = (name ++ [32] ++ v) ++ [10]) as -> by (by rewrite <- !app_assoc).
  rewrite c_string_id.
  2:{ apply Forall_app. split; [|by apply Forall_singleton]. eapply Forall_impl; [exact Hall|]. intros c Hc ->. apply Hc. left. }
  rewrite cut_at_stop; [|eapply Forall_impl; [exact Hall|]; intros c Hc E; apply Hc; apply list_elem_of_singleton in E as ->; right; left|left].
  cbn [fst]. rewrite <- (app_nil_r (name ++ [32] ++ v)) at 1.
  rewrite cut_at_stop; [|eapply Forall_impl; [exact Hall|]; intros c Hc E; apply Hc; apply list_elem_of_singleton in E as ->; do 2 right; left|done].
  cbn [fst].
  assert (Forall (λ c, c ∉ cstr " =" ++ [9]) name) as Hs.
  { eapply Forall_impl; [exact Hn|]. intros c [_ Hc]%not_elem_of_app. exact Hc. }
  rewrite skip_span_stop.
  2:{ destruct Hs as [|c name Hc _]; [done|]. simpl. intros E. apply Hc. change (c ∈ [32; 61; 9]). change (c ∈ [32; 9]) in E.
      rewrite !elem_of_cons in *. naive_solver. }
  rewrite cut_at_stop; [|done|left]. cbn [app]. rewrite skip_span_stop by (by destruct v). by destruct v.
Qed.

(** ** Values *)

Lemma digits_in_dec n v t : 0 ≤ v < 10 ^ Z.of_nat n → (0 < n)%nat → digits_in 10 (dec_digits n v ++ t) 0 = digits_in 10 t v.
Proof.
  revert v t; induction n as [|n IH]; intros v t Hv Hn; [lia|].
  rewrite Nat2Z.inj_succ, Z.pow_succ_r in Hv by lia. rewrite dec_digits_step.
  assert (∀ d, 0 ≤ d < 10 → digit_of (48 + d) = d) as Hd.
  { intros d ?. unfold digit_of. rewrite (proj2 (Z.leb_le _ _)), (proj2 (Z.leb_le _ _)) by lia. cbn [andb]. lia. }
  destruct (Z.ltb_spec v 10).
  { cbn [app digits_in]. rewrite Hd by lia. rewrite (proj2 (Z.ltb_lt v 10)) by lia. f_equal. }
  pose proof (Z.mod_pos_bound v 10 ltac:(lia)). destruct n as [|n]; [simpl in Hv; lia|].
  rewrite <- app_assoc, IH; [|split; [apply Z.div_pos; lia|apply Z.div_lt_upper_bound; lia]|lia].
  cbn [app digits_in]. rewrite Hd by lia. rewrite (proj2 (Z.ltb_lt (v mod 10) 10)) by lia.
  f_equal. pose proof (Z.div_mod v 10). lia.
Qed.

(** A number does not start with a zero. *)
Lemma dec_digits_head n v : 0 < v < 10 ^ Z.of_nat n → ∃ c l, dec_digits n v = c :: l ∧ 49 ≤ c ≤ 57.
Proof.
  revert v; induction n as [|n IH]; intros v Hv; [simpl in Hv; lia|].
  rewrite Nat2Z.inj_succ, Z.pow_succ_r in Hv by lia. rewrite dec_digits_step.
  destruct (Z.ltb_spec v 10); [exists (48 + v), []; split; [done|lia]|].
  destruct (IH (v / 10)) as (c&l&->&Hc); [split; [apply Z.div_str_pos; lia|apply Z.div_lt_upper_bound; lia]|].
  by exists c, (l ++ [48 + v mod 10]).
Qed.

Lemma strtoul_lu v : 0 ≤ v < 2 ^ 32 → strtoul (sprintf_lu v) = v.
Proof.
  intros Hv. destruct (decide (v = 0)) as [->|Hv0]; [done|].
  assert (v < 10 ^ Z.of_nat 10) as Hlt by (change (10 ^ Z.of_nat 10) with 10000000000; lia).
  pose proof (digits_in_dec 10 v [] ltac:(lia) ltac:(lia)) as E. rewrite app_nil_r in E. change (digits_in 10 [] v) with v in E.
  destruct (dec_digits_head 10 v ltac:(lia)) as (c&l&Ec&Hc). unfold sprintf_lu. rewrite Ec in *.
  assert (signed_number (c :: l) = (false, v)) as Es; [|unfold strtoul; rewrite Es; destruct (Z.leb_spec (2 ^ 32) v); lia].
  assert (c ∈ [49; 50; 51; 52; 53; 54; 55; 56; 57]) as Hin by (rewrite !elem_of_cons; lia).
  rewrite !elem_of_cons in Hin.
  destruct Hin as [->|[->|[->|[->|[->|[->|[->|[->|[->|[]%elem_of_nil]]]]]]]]];
    match type of E with ?d = _ => change (signed_number _) with (false, d) end; by rewrite E.
Qed.

Lemma lu_chars v : 0 ≤ v → Forall (λ c, 48 ≤ c ≤ 57) (sprintf_lu v) ∧ sprintf_lu v ≠ [].
Proof.
  intros Hv. split; [by apply dec_digits_Forall|]. intros E. pose proof (dec_digits_length 10 v) as H. unfold sprintf_lu in E.
  rewrite E in H. simpl in H. lia.
Qed.

Lemma ntoa_chars a : Forall (λ c, 46 ≤ c ≤ 57) (inet_ntoa a) ∧ ∃ c l, inet_ntoa a = c :: l ∧ 48 ≤ c ≤ 57.
Proof.
  assert (∀ v, Forall (λ c, 46 ≤ c ≤ 57) (sprintf_lu (u8 v))) as H.
  { intros v. eapply Forall_impl; [apply (lu_chars (u8 v)), u8_range|]. simpl. lia. }
  assert (Forall (λ c, 46 ≤ c ≤ 57) [46]) as Hd by (constructor; [lia|constructor]).
  split.
  - unfold inet_ntoa. repeat (apply Forall_app; split); auto.
  - destruct (lu_chars (u8 (Z.shiftr a 24)) ltac:(apply u8_range)) as [Hc Hne]. unfold inet_ntoa.
    destruct Hc as [|c l Hc _]; [done|]. by eexists c, _.
Qed.

Hypothesis aton_ntoa : ∀ a, 0 ≤ a < 2 ^ 32 → inet_aton (inet_ntoa a) = Some a.

Lemma read_addrs o addrs n buffer opts c : opt_flags o = Z.lor OPTION_IP OPTION_LIST → Forall (λ a, 0 ≤ a < 2 ^ 32) addrs →
  (length (comma_list addrs) < n)%nat →
  read_opt_loop inet_aton n o (comma_list addrs) buffer opts c =
    Done (fold_left (λ os a, attach_option os o (be_bytes a)) addrs opts, c).
Proof.
  intros Ho H. revert n buffer opts. induction H as [|a addrs Ha H IH]; intros n buffer opts Hn; (destruct n as [|n]; [lia|]).
  - done.
  - cbn [comma_list read_opt_loop] in *. destruct (ntoa_chars a) as [Hc (x&l&El&_)].
    rewrite strtok_next_stop; [|by rewrite El| |destruct addrs; [done|left]].
    2:{ eapply Forall_impl; [exact Hc|]. simpl. intros y Hy. change (y ∉ [44; 9]). rewrite !not_elem_of_cons. split; [lia|]. split; [lia|apply not_elem_of_nil]. }
    assert (drop 1 match addrs with [] => [] | _ => 44 :: comma_list addrs end = comma_list addrs) as -> by (by destruct addrs).
    assert (read_value inet_aton (Z.land (opt_flags o) TYPE_MASK) (inet_ntoa a) (comma_list addrs) buffer =
      (Some 4, over (be_bytes a) buffer, comma_list addrs)) as ->.
    { rewrite Ho. unfold read_value. change (Z.land (Z.lor OPTION_IP OPTION_LIST) TYPE_MASK =? OPTION_IP) with true.
      cbv iota zeta beta. by rewrite aton_ntoa. }
    assert (takes_list o = true) as -> by (unfold takes_list; by rewrite Ho).
    assert (take (Z.to_nat 4) (over (be_bytes a) buffer) = be_bytes a) as -> by done.
    apply IH. rewrite length_app, El in Hn. destruct addrs; cbn [comma_list length] in *; lia.
Qed.

(** ** Round trip *)

Lemma comma_chars addrs : Forall (λ c, 44 ≤ c ≤ 57) (comma_list addrs).
Proof.
  induction addrs as [|a addrs IH]; [constructor|]. cbn [comma_list]. apply Forall_app. split.
  - eapply Forall_impl; [apply ntoa_chars|]. simpl. lia.
  - destruct addrs; [constructor|]. constructor; [lia|done].
Qed.

Lemma plain_digits lo l : 36 ≤ lo → Forall (λ c, lo ≤ c ≤ 57) l → Forall (λ c, c ∉ [0; 10; 35]) l.
Proof.
  intros Hlo H. eapply Forall_impl; [exact H|]. simpl. intros c Hc. rewrite !not_elem_of_cons.
  repeat split; try lia. apply not_elem_of_nil.
Qed.

Lemma plain_head c : 48 ≤ c ≤ 57 → c ∉ cstr " =" ++ [9].
Proof. intros Hc. change (c ∉ [32; 61; 9]). rewrite !not_elem_of_cons. repeat split; try lia. apply not_elem_of_nil. Qed.

(** A value is one that a line can have. *)
Lemma value_chars s : setting_ok s → Forall (λ c, c ∉ [0; 10; 35]) (value_of s) ∧
  match value_of s with [] => False | c :: _ => c ∉ cstr " =" ++ [9] end.
Proof.
  intros (_&_&H). destruct s as [p v a|p v n|p v b|p v t|p n|p o addrs]; cbn [value_of].
  - destruct (ntoa_chars a) as [Hc (c&l&E&Hd)]. split; [by apply (plain_digits 46)|]. rewrite E. by apply plain_head.
  - destruct (lu_chars n) as [Hc Hne]; [lia|]. split; [by apply (plain_digits 48)|]. destruct Hc; [done|by apply plain_head].
  - destruct b; split; try (refine (bool_decide_unpack _ _); vm_compute; exact I).
  - done.
  - destruct (lu_chars n) as [Hc Hne]; [lia|]. split; [by apply (plain_digits 48)|]. destruct Hc; [done|by apply plain_head].
  - destruct H as (Ho&_). destruct (option_chars o Ho) as [[Hc Hne] _]. split.
    + apply Forall_app. split; [eapply Forall_impl; [exact Hc|]; intros c [H1 _]%not_elem_of_app; exact H1|].
      apply Forall_app. split; [|eapply (plain_digits 44), comma_chars; lia].
      apply Forall_singleton. rewrite !not_elem_of_cons. repeat split; try done. apply not_elem_of_nil.
    + destruct Hc as [|c l Hc _]; [done|]. cbn [app]. intros E. apply Hc. apply elem_of_app. by right.
Qed.

Lemma handle_setting s c : setting_ok s →
  ∃ r, handle env inet_aton stack (handler_of s) (value_of s) c = Done (r, apply_setting c s).
Proof.
  intros (_&_&H). destruct s as [p v a|p v n|p v b|p v t|p n|p o addrs]; cbn [handler_of value_of handle apply_setting].
  - unfold read_ip. destruct H as [Ha Hv]. rewrite aton_ntoa by done. eexists. by rewrite (decide_False (P := v = _)) by done.
  - unfold read_u32. rewrite strtoul_lu by done. by eexists.
  - destruct b; by eexists.
  - by eexists.
  - rewrite strtoul_lu by done. by eexists.
  - destruct H as (Ho&Hf&Hne&Ha). destruct (option_chars o Ho) as [[Hc Hn] Ef]. unfold read_opt. rewrite bind_gets, bind_modify.
    rewrite strtok_next_stop; [|done| |left].
    2:{ eapply Forall_impl; [exact Hc|]. intros x [_ Hx]%not_elem_of_app. exact Hx. }
    rewrite Ef, bind_gets. cbn [drop app].
    rewrite (bind_Done _ _ _ _ _ (read_addrs o addrs _ _ _ _ Hf Ha (Nat.lt_succ_diag_r _))).
    eexists. unfold modify, mret, M_ret, mbind, M_bind. by destruct p.
Qed.

Lemma read_settings ss n c : Forall setting_ok ss → (length (concat (map print_setting ss)) < n)%nat →
  read_lines env inet_aton stack n (concat (map print_setting ss)) c = Done (tt, fold_left apply_setting ss c).
Proof.
  intros H. revert n c. induction H as [|s ss Hs H IH]; intros n c Hn; (destruct n as [|n]; [lia|]); [done|].
  cbn [map concat] in *. destruct (value_chars s Hs) as [Hv Hv0]. destruct (handle_setting s c Hs) as [r Eh].
  destruct Hs as ([k Ek]&Hl&_). 
  assert (print_setting s = cstr (kw_name k) ++ [32] ++ value_of s ++ [10]) as Ep by (unfold print_setting; by rewrite Ek).
  rewrite Ep in *. apply keyword_of_Some in Ek as [Hk Eh']. rewrite <- Eh' in Eh. pose proof (keyword_chars k Hk) as [Hc Hne].
  set (name := cstr (kw_name k)) in *. set (v := value_of s) in *.
  assert (fgets 299 ((name ++ [32] ++ v ++ [10]) ++ concat (map print_setting ss)) =
    (name ++ [32] ++ v ++ [10], concat (map print_setting ss))) as Ef.
  { assert (∀ r, (name ++ [32] ++ v ++ [10]) ++ r = (name ++ [32] ++ v) ++ 10 :: r) as Er
      by (intros; by rewrite <- !app_assoc).
    rewrite Er, fgets_line; [by rewrite <- (Er []), app_nil_r| |].
    - apply Forall_app. split; [eapply Forall_impl; [exact Hc|]; intros x Hx ->; apply Hx; right; left|].
      apply Forall_app. split; [by apply Forall_singleton|]. eapply Forall_impl; [exact Hv|]. intros x Hx ->. apply Hx. right. left.
    - rewrite !length_app in *. simpl in *. lia. }
  unfold read_lines; fold (read_lines env inet_aton stack).
  destruct ((name ++ [32] ++ v ++ [10]) ++ concat (map print_setting ss)) as [|x0 file] eqn:E0; [by destruct name|].
  rewrite Ef. unfold read_line. rewrite (split_printed name v) by done.
  rewrite (bind_Done _ _ _ _ _ (dispatch_keyword k v c r _ Hk Eh)). apply IH.
  rewrite <- E0, !length_app in Hn. simpl in Hn. lia.
Qed.

(** The defaults are for variables that any value can be written to. *)
Lemma defaults_total kws c :
  forallb (λ k, bool_decide (kw_def k = "") || match kw_handler k with H_rsvip | H_opt _ => false | _ => true end) kws = true →
  ∃ c', set_defaults env inet_aton stack kws c = Done (tt, c').
Proof.
  revert c. induction kws as [|k kws IH]; intros c H; [by eexists|]. cbn [forallb set_defaults] in *.
  apply andb_true_iff in H as [Hk H].
  assert (∃ r c1, (if decide (kw_def k = "") then mret 0 else handle env inet_aton stack (kw_handler k) (cstr (kw_def k))) c = Done (r, c1))
    as (r&c1&E); [|rewrite (bind_Done _ _ _ _ _ E); auto].
  destruct (decide (kw_def k = "")) as [|Hd]; [by eexists _, _|]. rewrite bool_decide_false in Hk by done. cbn [orb] in Hk.
  destruct (kw_handler k); try done; cbn [handle]; unfold read_ip, read_yn; repeat case_match; by eexists _, _.
Qed.
End print.
