(* ===== verification/DhcpBootClaims.v ===== *)
(** * The start of the DHCP server: theorems

    The start-up ends in a server that is in order: the promises of the main loop
    hold from the start.  What the configuration file does to the server, and what
    its signals do; defects of both at the end. *)

From stdpp Require Import base numbers list strings gmap.
From Stdlib Require Import ZArith Lia Bool.
From S2P Require Import Prelude CText DhcpPacket DhcpOptions DhcpLease DhcpFiles DhcpVi DhcpServer DhcpMain DhcpConf DhcpStart DhcpTable DhcpReply DhcpExcl DhcpConfProofs DhcpConfRead.

(** ** The start-up *)

Section boot.
Context (env : dhcp_env) (sys : start_env).

(** What [inet_aton] finds is an address. *)
Definition aton_bounded : Prop := ∀ t a, inet_aton sys t = Some a → 0 ≤ a < 2 ^ 32.

(** The file that the server starts from, and what is read from it. *)
Definition conf_text (s : dhcpd) : option (list Z) :=
  if fopen_ok env (d_opens s) then file_content DHCPD_CONF_FILE (d_files s) else None.

Definition configured (s : dhcpd) (c : conf) : Prop :=
  ∃ r, read_config env (inet_aton sys) (stack sys) (conf_text s) zero_conf = Done (r, c).

(** The lease time of the configuration. *)
Definition lease_of_conf (p : pconf) : Z :=
  match find_option (sc_options (pc p)) DHCP_LEASE_TIME with
  | Some data => be32 (take 4 (drop 2 data))
  | None => LEASE_TIME
  end.

Lemma find_option_elem opts code o : find_option opts code = Some o → o ∈ opts ∧ set_code o = u8 code.
Proof.
  induction opts as [|a opts IH]; simpl; [done|]. destruct (Z.eqb_spec (set_code a) (u8 code)).
  - intros [= <-]. split; [left|done].
  - intros H. apply IH in H as [H1 H2]. split; [by right|done].
Qed.

Lemma lease_time_of_ok p s : pool_ok p → lease_time_of (sc_options (pc p)) s = Done (lease_of_conf p, s).
Proof.
  intros (Ho&_). unfold lease_time_of, lease_of_conf. destruct (find_option _ _) as [data|] eqn:E; [|done].
  apply find_option_elem in E as [Hin Hc]. rewrite Forall_forall in Ho. destruct (Ho data Hin) as [Hs Ht].
  specialize (Ht Hc). destruct (opt_shape_inv _ Hs) as (c&l&rest&->&?&?&?&?). unfold set_len in Ht. cbn [nth] in Ht.
  unfold load32, get_bytes. rewrite buf_read_Some; [done|lia|lia|]. cbn [length]. lia.
Qed.

Hypothesis memory : ∀ k z, malloc_ok env k z = true.

Lemma new_table_ok n s : 0 ≤ n → sizeof_dhcpOfferedAddr * n < 2 ^ 32 →
  new_table env n s = Done (replicate (Z.to_nat n) no_lease, set_dmallocs (S (d_mallocs s)) s).
Proof.
  intros Hn Hs. unfold new_table. rewrite bind_gets, bind_modify, memory.
  rewrite u32_small by (change sizeof_dhcpOfferedAddr with 152 in *; lia).
  change sizeof_dhcpOfferedAddr with 152. by rewrite Z.mul_comm, Z.div_mul.
Qed.

(** Without a lease file nothing is read. *)
Lemma read_leases_none s : file_content (sc_lease_file (server_config s)) (d_files s) = None →
  read_leases env s = Done (tt, set_dopens (S (d_opens s)) (set_dclock (S (d_clock s)) s)).
Proof.
  intros H. unfold read_leases, getSysUpTime, fopen_file.
  rewrite bind_assoc, bind_gets, bind_assoc, bind_modify, bind_ret, bind_assoc, bind_gets, bind_assoc, bind_modify, bind_ret.
  cbn [d_opens set_dclock]. destruct (fopen_ok env (d_opens s)); [|done]. cbn [negb]. rewrite !bind_gets.
  cbn [server_config server2_config d_files set_dopens set_dclock]. by rewrite H.
Qed.

Lemma read_leases2_none s : file_content (sc_lease_file (server2_config s)) (d_files s) = None →
  read_leases2 env s = Done (tt, set_dopens (S (d_opens s)) (set_dclock (S (d_clock s)) s)).
Proof.
  intros H. unfold read_leases2, getSysUpTime, fopen_file.
  rewrite bind_assoc, bind_gets, bind_assoc, bind_modify, bind_ret, bind_assoc, bind_gets, bind_assoc, bind_modify, bind_ret.
  cbn [d_opens set_dclock]. destruct (fopen_ok env (d_opens s)); [|done]. cbn [negb]. rewrite !bind_gets.
  cbn [server_config server2_config d_files set_dopens set_dclock]. by rewrite H.
Qed.

(** [tables n p1 p2 s]: the tables of [s] have [n] empty entries, and the
    configurations of [s] are [p1] and [p2] with their lease times. *)
Definition tables (n : nat) (p1 p2 : pconf) (s : dhcpd) : Prop :=
  leases s = replicate n no_lease ∧ leases2 s = replicate n no_lease ∧
  server_config s = set_lease (lease_of_conf p1) (pc p1) ∧ server2_config s = set_lease (lease_of_conf p2) (pc p2).

Lemma make_tables_ok p1 p2 s : pool_ok p1 → pool_ok p2 → server_config s = pc p1 → server2_config s = pc p2 →
  sizeof_dhcpOfferedAddr * Z.max (sc_max_leases (pc p1)) (sc_max_leases (pc p2)) < 2 ^ 32 →
  file_content (sc_lease_file (pc p1)) (d_files s) = None → file_content (sc_lease_file (pc p2)) (d_files s) = None →
  ∃ s', make_tables env s = Done (tt, s') ∧
    tables (Z.to_nat (Z.max (sc_max_leases (pc p1)) (sc_max_leases (pc p2)))) p1 p2 s' ∧
    g_enblSrv1 s' = g_enblSrv1 s ∧ g_enblSrv2 s' = g_enblSrv2 s.
Proof.
  intros H1 H2 E1 E2 Hmax Hf1 Hf2. set (n := Z.max _ _) in *.
  assert (0 ≤ n) as Hn. { pose proof (proj2 (proj2 H1) V_max_leases ltac:(done)) as X. simpl in X. lia. }
  assert ((if sc_max_leases (pc p2) <? sc_max_leases (pc p1) then sc_max_leases (pc p1) else sc_max_leases (pc p2)) = n) as En.
  { unfold n. destruct (Z.ltb_spec (sc_max_leases (pc p2)) (sc_max_leases (pc p1))); lia. }
  unfold make_tables, cfg. rewrite bind_assoc, bind_gets, E1, (bind_Done _ _ _ _ _ (lease_time_of_ok p1 s H1)).
  rewrite bind_modify, !bind_gets. cbn [server_config server2_config set_server_config]. rewrite E1, E2.
  change (sc_max_leases (set_lease _ ?c)) with (sc_max_leases c). cbv zeta. rewrite En.
  rewrite (bind_Done _ _ _ _ _ (new_table_ok n _ Hn Hmax)), bind_modify.
  rewrite (bind_Done _ _ _ _ _ (new_table_ok n _ Hn Hmax)), bind_modify.
  erewrite (bind_Done (read_leases env)) by (apply read_leases_none; exact Hf1).
  rewrite bind_assoc, bind_gets. cbn [server2_config set_leases set_tmpls set_dmallocs set_dopens set_dclock set_server_config].
  rewrite E2, (bind_Done _ _ _ _ _ (lease_time_of_ok p2 _ H2)), bind_modify.
  rewrite (bind_Done _ _ _ _ _ (new_table_ok n _ Hn Hmax)), bind_modify.
  eexists. split; [apply read_leases2_none; cbn; rewrite E2; exact Hf2|]. unfold tables. cbn. by rewrite E2.
Qed.

(** ** The whole start *)

Lemma load_config_ok s c : configured s c →
  load_config env sys s = Done (c, set_config c (set_dopens (S (d_opens s)) s)).
Proof.
  intros [r E]. unfold load_config, fopen_file. rewrite bind_assoc, bind_gets, bind_assoc, bind_modify, bind_ret, bind_gets.
  unfold run_on. cbn [d_files set_dopens]. unfold conf_text in E. unfold mbind at 1, M_bind at 1. by rewrite E.
Qed.

Lemma configured_ok s c : aton_bounded → configured s c → conf_ok c.
Proof.
  intros Ha [r E]. pose proof (ends_config env (inet_aton sys) (stack sys) Ha (conf_text s) zero_conf zero_conf_ok) as H.
  destruct (default _ _); [|congruence]. destruct H as (a&c'&E'&Hc). congruence.
Qed.

(** The configuration that starts one pool: no phones, a name that fits, tables
    that fit the memory, times that do not overflow, and no lease files yet. *)
Definition one_pool (s : dhcpd) (c : conf) : Prop :=
  let p1 := cf_first c in let p2 := cf_second c in
  cf_enblSrv2 c = 0 ∧ sc_pIPPhoneDNSServers (pc p1) = None ∧ (length (sc_interface (pc p1)) < 16)%nat ∧
  sizeof_dhcpOfferedAddr * Z.max (sc_max_leases (pc p1)) (sc_max_leases (pc p2)) < 2 ^ 32 ∧
  file_content (sc_lease_file (pc p1)) (d_files s) = None ∧ file_content (sc_lease_file (pc p2)) (d_files s) = None ∧
  times_ok env (set_lease (lease_of_conf p1) (pc p1)).

(** The interface answers, the pid file can be locked, and this is the child. *)
Definition system_up : Prop :=
  (∀ n, ∃ a x h, if_answer env n = {| if_socket := true; if_addr := Some a; if_index := Some x; if_hwaddr := Some h |}) ∧
  lock_free sys = true ∧ fork_result sys = 0.

Lemma tables_srv_ok n p1 p2 s : tables n p1 p2 s → pool_ok p1 → (Z.to_nat (sc_max_leases (pc p1)) ≤ n)%nat → g_enblSrv2 s = 0 →
  times_ok env (set_lease (lease_of_conf p1) (pc p1)) → srv_ok env s.
Proof.
  intros (El&El2&Ec&_) (Ho&_&Hr) Hn H2 Ht. unfold srv_ok, table_size, options_ok. rewrite El, El2, Ec, length_replicate.
  split; [done|]. split; [|split; [|split; [done|split; [by apply Forall_replicate|split; [done|]]]]].
  - split; [|split].
    + intros i j li lj [-> _]%lookup_replicate. done.
    + intros i l _ [-> _]%lookup_replicate. done.
    + intros i l [-> _]%lookup_replicate. split; [by vm_compute|done].
  - eapply Forall_impl; [exact Ho|]. by intros o [H _].
  - apply (Hr V_start). done.
Qed.

Lemma srv_ok_interface v s : srv_ok env s → srv_ok env (set_server_config (put_interface v (server_config s)) s).
Proof. by destruct v as [[a x] h]. Qed.

Lemma first_interface_ok s : system_up → (length (sc_interface (server_config s)) < 16)%nat →
  ∃ v, first_interface env s = Done (true, set_server_config (put_interface v (server_config s)) (set_difs (S (d_ifs s)) s)) ∧
    ∃ a x h, v = (a, x, h) ∧
      if_answer env (d_ifs s) = {| if_socket := true; if_addr := Some a; if_index := Some x; if_hwaddr := Some h |}.
Proof.
  intros (Hi&_) Hn. unfold first_interface, cfg. rewrite bind_gets. unfold ask_interface. rewrite bind_assoc, bind_gets, bind_assoc, bind_modify.
  destruct (Hi (d_ifs s)) as (a&x&h&E). rewrite E. cbn [if_socket negb if_addr if_index if_hwaddr]. cbv zeta.
  rewrite (proj2 (Z.leb_gt 16 _)) by lia. exists (a, x, h). split; [done|]. by exists a, x, h.
Qed.

(** The configuration the server starts with: the pool of the file, with the lease
    time of its options and what the interface answers. *)
Definition started_with (c : conf) (cfg : server_config_t) : Prop :=
  ∃ n a x h, if_answer env n = {| if_socket := true; if_addr := Some a; if_index := Some x; if_hwaddr := Some h |} ∧
    cfg = put_interface (a, x, h) (set_lease (lease_of_conf (cf_first c)) (pc (cf_first c))).

Lemma startup_ok s0 c : aton_bounded → configured s0 c → one_pool s0 c → system_up →
  ∃ te s, startup env sys s0 = Done (Serving te (pc_pidfile (cf_first c)), s) ∧ srv_ok env s ∧
    g_enblSrv1 s = cf_enblSrv1 c ∧ leases s = replicate (length (leases s)) no_lease ∧ started_with c (server_config s).
Proof.
  intros Ha Hc (He&Hd&Hi&Hm&Hf1&Hf2&Ht) Hu. pose proof (configured_ok _ _ Ha Hc) as [Hp1 Hp2].
  unfold startup. cbn [pidfile_acquire pidfile_write_release]. rewrite !bind_ret, (bind_Done _ _ _ _ _ (load_config_ok s0 c Hc)).
  unfold cfg. rewrite bind_gets. cbn [server_config set_config]. rewrite Hd, bind_ret.
  destruct (make_tables_ok (cf_first c) (cf_second c) (set_config c (set_dopens (S (d_opens s0)) s0)) Hp1 Hp2 eq_refl eq_refl Hm Hf1 Hf2)
    as (s1&E1&HT&G1&G2). rewrite (bind_Done _ _ _ _ _ E1). cbn [g_enblSrv1 g_enblSrv2 set_config] in G1, G2.
  assert (srv_ok env s1) as Hs1 by (eapply tables_srv_ok; [exact HT|done|lia|congruence|done]).
  unfold new_declines. rewrite bind_assoc, bind_gets, bind_modify. unfold new_vi. rewrite bind_assoc, bind_gets, bind_assoc, bind_modify, memory, bind_modify.
  cbv zeta. set (s2 := set_vi no_vi _). assert (srv_ok env s2) as Hs2 by exact Hs1.
  assert (server_config s2 = set_lease (lease_of_conf (cf_first c)) (pc (cf_first c))) as Ec by apply HT.
  assert (leases s2 = leases s1 ∧ g_enblSrv1 s2 = cf_enblSrv1 c ∧ g_enblSrv2 s2 = 0) as (El&Eg1&Eg2)
    by (split; [done|]; split; [exact G1|]; change (g_enblSrv2 s1 = 0); congruence).
  assert (leases s2 = replicate (length (leases s2)) no_lease) as Er.
  { rewrite El. destruct HT as (->&_). by rewrite length_replicate. }
  clearbody s2. destruct (first_interface_ok s2 Hu) as (v&Ev&Hv); [by rewrite Ec|]. rewrite (bind_Done _ _ _ _ _ Ev). cbn [negb].
  unfold second_interface. rewrite bind_assoc, bind_gets. cbn [g_enblSrv2 set_server_config set_difs]. rewrite Eg2. cbn [Z.eqb]. rewrite bind_ret. cbn [negb].
  assert (srv_ok env (set_server_config (put_interface v (server_config s2)) (set_difs (S (d_ifs s2)) s2))) as Hs3
    by (apply (srv_ok_interface v (set_difs (S (d_ifs s2)) s2)); exact Hs2).
  destruct Hu as (_&Hl&Hk).
  assert (∃ b, pidfile_acquire sys (pc_pidfile (cf_first c)) (set_server_config (put_interface v (server_config s2)) (set_difs (S (d_ifs s2)) s2)) =
    Done (b, set_server_config (put_interface v (server_config s2)) (set_difs (S (d_ifs s2)) s2))) as [b Eb].
  { unfold pidfile_acquire. destruct (pc_pidfile _); [|by eexists]. rewrite Hl. destruct (open_ok sys); by eexists. }
  rewrite (bind_Done _ _ _ _ _ Eb), Hk. cbn [Z.eqb negb].
  unfold pidfile_write_release, write_file, getSysUpTime.
  destruct (pc_pidfile (cf_first c)) as [path|]; [destruct b|]; eexists _, _; (split; [reflexivity|]); (split; [done|]);
    (split; [done|]); (split; [done|]); destruct Hv as (a&x&h&->&Hv); exists (d_ifs s2), a, x, h; (split; [exact Hv|]); cbn; by rewrite Ec.
Qed.
End boot.

(** ** A system to try *)

(** Four numbers up to 255 with dots between them. *)
Definition quad_aton (s : list Z) : option Z :=
  match split_from 46 s [] with
  | [a; b; c; d] =>
      let ok t := bool_decide (t ≠ []) && forallb isdigit t && (digits_in 10 t 0 <? 256) in
      if ok a && ok b && ok c && ok d
      then Some (be32 [digits_in 10 a 0; digits_in 10 b 0; digits_in 10 c 0; digits_in 10 d 0]) else None
  | _ => None
  end.

Lemma split_piece sep x r acc : Forall (λ c, c ≠ sep) x → split_from sep (x ++ sep :: r) acc = (acc ++ x) :: split_from sep r [].
Proof.
  intros H. revert acc. induction H as [|c x Hc H IH]; intros acc; simpl; [by rewrite Z.eqb_refl, app_nil_r|].
  rewrite (proj2 (Z.eqb_neq _ _)) by done. rewrite IH. by rewrite <- app_assoc.
Qed.

Lemma split_last sep x acc : Forall (λ c, c ≠ sep) x → split_from sep x acc = [acc ++ x].
Proof.
  intros H. revert acc. induction H as [|c x Hc H IH]; intros acc; simpl; [by rewrite app_nil_r|].
  rewrite (proj2 (Z.eqb_neq _ _)) by done. rewrite IH. by rewrite <- app_assoc.
Qed.

Lemma lu_value v : 0 ≤ v < 256 → digits_in 10 (sprintf_lu v) 0 = v.
Proof.
  intros Hv. pose proof (digits_in_dec 10 v [] ltac:(change (10 ^ Z.of_nat 10) with 10000000000; lia) ltac:(lia)) as E.
  by rewrite app_nil_r in E.
Qed.

Lemma quad_ntoa a : 0 ≤ a < 2 ^ 32 → quad_aton (inet_ntoa a) = Some a.
Proof.
  intros Ha. assert (∀ v, 0 ≤ u8 v < 256) as Hr by (intros v; pose proof (u8_range v); lia). unfold quad_aton, inet_ntoa.
  assert (∀ v, Forall (λ c, c ≠ 46) (sprintf_lu (u8 v))) as Hd.
  { intros v. eapply Forall_impl; [apply (lu_chars (u8 v)), Hr|]. simpl. lia. }
  cbn [app]. rewrite !split_piece, split_last by auto. cbn [app].
  assert (∀ v, bool_decide (sprintf_lu (u8 v) ≠ []) && forallb isdigit (sprintf_lu (u8 v)) && (digits_in 10 (sprintf_lu (u8 v)) 0 <? 256) = true) as Hok.
  { intros v. destruct (lu_chars (u8 v) ltac:(apply Hr)) as [Hc Hne]. rewrite bool_decide_true by done.
    rewrite lu_value by apply Hr. rewrite (proj2 (Z.ltb_lt _ _)) by apply Hr. rewrite andb_true_r. cbn [andb].
    apply Is_true_true_1, forallb_True. eapply Forall_impl; [exact Hc|]. intros c Hx. by rewrite isdigit_digit by exact Hx. }
  cbv zeta. rewrite !Hok. cbn [andb]. rewrite !lu_value by apply Hr. f_equal. apply (be32_be_bytes a []). done.
Qed.

Definition try_sys : start_env :=
  {| inet_aton := quad_aton; stack := λ _, replicate 255 0xaa; open_ok := true; lock_free := true; fork_result := 0;
     getpid := 99; ntp_file := Some (cstr "10.0.0.1" ++ [10] ++ cstr "10.0.0.2") |}.

Lemma quad_bounded : aton_bounded try_sys.
Proof.
  intros t a. cbn [inet_aton try_sys]. unfold quad_aton.
  destruct (split_from 46 t []) as [|x1 [|x2 [|x3 [|x4 [|]]]]]; try done. cbv zeta.
  destruct (_ && _) eqn:E; [|done]. intros [= <-].
  assert (∀ x, forallb isdigit x = true → 0 ≤ digits_in 10 x 0) as Hp.
  { intros x Hx. assert (∀ acc, 0 ≤ acc → 0 ≤ digits_in 10 x acc) as H; [|by apply H].
    induction x as [|c x IH]; intros acc Hacc; simpl in *; [done|]. apply andb_true_iff in Hx as [Hc Hx].
    destruct (digit_of c <? 10); [|done]. apply IH; [done|]. unfold isdigit in Hc. unfold digit_of. rewrite Hc. lia. }
  rewrite !andb_true_iff, !Z.ltb_lt in E. destruct E as [[[((?&?)&?) ((?&?)&?)] ((?&?)&?)] ((?&?)&?)].
  pose proof (Hp x1 ltac:(done)). pose proof (Hp x2 ltac:(done)). pose proof (Hp x3 ltac:(done)). pose proof (Hp x4 ltac:(done)).
  unfold be32. cbn [take foldl]. lia.
Qed.

(** ** The configuration file *)

(** [C33] Whatever the configuration file holds, and when it cannot be opened, reading it
    ends.  When no list of reserved addresses is longer than 127 characters and no
    address of such a list that a comma follows longer than 15, it returns, and
    leaves a configuration in order: every configured option is a well-formed
    option, a lease time has its four bytes, and the numbers have 32 bits.  With a
    longer list a local buffer overflows.  The allocations of the parser are taken
    to succeed. *)
Theorem read_config_safe env aton stk file :
  (∀ t a, aton t = Some a → 0 ≤ a < 2 ^ 32) →
  if default true (file_fits <$> file)
  then ∃ r c, read_config env aton stk file zero_conf = Done (r, c) ∧ conf_ok c
  else read_config env aton stk file zero_conf = Fault.
Proof. intros Ha. exact (ends_config env aton stk Ha file zero_conf zero_conf_ok). Qed.

Definition no_env : dhcp_env :=
  {| clock := λ n, Z.of_nat (S n) `min` 1000; arp_answer := λ _ _, 1;
     if_answer := λ _, {| if_socket := true; if_addr := Some 0xc0a80101; if_index := Some 3; if_hwaddr := Some [1; 2; 3; 4; 5; 6] |};
     fopen_ok := λ _, true; malloc_ok := λ _ _, true; send_result := λ _, 300; inet_addr := λ t, default 0xffffffff (quad_aton t);
     serial_number := cstr "SN"; base_mac := [0; 1; 2; 3; 4; 5]; static_nat := 0; junk := [] |}.

Definition try_text : list Z :=
  cstr "start 192.168.1.2" ++ [10] ++ cstr " End=192.168.1.9# the last one" ++ [10] ++ cstr "opt lease 3600" ++ [10] ++
  cstr "max_leases 0x10" ++ [10] ++ cstr "ReservedIpstr 192.168.1.3,192.168.1.4" ++ [10] ++ cstr "enblsrv1 1".

Lemma read_config_safe_witness : ∃ c, read_config no_env quad_aton (stack try_sys) (Some try_text) zero_conf = Done (1, c) ∧
  conf_ok c ∧ sc_end (pc (cf_first c)) = 0xc0a80109 ∧ sc_max_leases (pc (cf_first c)) = 16 ∧
  read_config no_env quad_aton (stack try_sys) (Some (cstr "ReservedIpstr " ++ replicate 128 49)) zero_conf = Fault.
Proof.
  pose proof (read_config_safe no_env quad_aton (stack try_sys) (Some try_text) quad_bounded) as H.
  pose proof (read_config_safe no_env quad_aton (stack try_sys) (Some (cstr "ReservedIpstr " ++ replicate 128 49)) quad_bounded) as H2.
  assert (default true (file_fits <$> Some try_text) = true) as E by (vm_compute; reflexivity). rewrite E in H.
  assert (default true (file_fits <$> Some (cstr "ReservedIpstr " ++ replicate 128 49)) = false) as E2 by (vm_compute; reflexivity).
  rewrite E2 in H2. destruct H as (r&c&Er&Hc). exists c.
  assert (match read_config no_env quad_aton (stack try_sys) (Some try_text) zero_conf with
          | Done (1, c) => sc_end (pc (cf_first c)) = 0xc0a80109 ∧ sc_max_leases (pc (cf_first c)) = 16 | _ => False end) as Ev
    by (vm_compute; split; reflexivity).
  rewrite Er in Ev. destruct r as [|[r|r|]|r]; try done. destruct Ev as [Ev1 Ev2].
  exact (conj Er (conj Hc (conj Ev1 (conj Ev2 H2)))).
Defined.

(** [C32] Settings survive the file: when settings are printed one to a line, each with
    its keyword, addresses as dotted quads, numbers in decimal and lists of
    addresses with commas, then the server that reads the file has exactly these
    settings, in their order, over its defaults. *)
Theorem config_round_trip env aton stk ss :
  (∀ a, 0 ≤ a < 2 ^ 32 → aton (inet_ntoa a) = Some a) → Forall setting_ok ss →
  ∃ c0, set_defaults env aton stk keywords zero_conf = Done (tt, c0) ∧
    read_config env aton stk (Some (concat (map print_setting ss))) zero_conf = Done (1, fold_left apply_setting ss c0).
Proof.
  intros Ha Hs.
  assert (∃ c0, set_defaults env aton stk keywords zero_conf = Done (tt, c0)) as [c0 E0].
  { apply defaults_total. vm_compute. reflexivity. }
  exists c0. split; [done|]. unfold read_config. rewrite (bind_Done _ _ _ _ _ E0).
  rewrite (bind_Done _ _ _ _ _ (read_settings env aton stk Ha ss _ c0 Hs (Nat.lt_succ_diag_r _))). done.
Qed.

Definition dns_option : dhcp_option := {| opt_name := "dns"; opt_flags := Z.lor OPTION_IP OPTION_LIST; opt_code := 0x06 |}.
Definition try_settings : list setting :=
  [SetIp First V_start 0xc0a80114; SetNum First V_max_leases 100; SetYn First V_remaining false;
   SetStr First S_interface (cstr "br0"); SetEnbl First 1; SetAddrs First dns_option [0xc0a80101; 0x08080808]].

Lemma config_round_trip_witness : Forall setting_ok try_settings ∧
  ∃ c, read_config no_env quad_aton (stack try_sys) (Some (concat (map print_setting try_settings))) zero_conf = Done (1, c) ∧
    sc_options (pc (cf_first c)) = [[6; 8; 192; 168; 1; 1; 8; 8; 8; 8]].
Proof.
  assert (Forall setting_ok try_settings) as Hs.
  { repeat constructor; try (vm_compute; by eauto); try (apply Nat.leb_le; vm_compute; reflexivity); try (simpl; lia); try done;
      try (refine (bool_decide_unpack _ _); vm_compute; exact I). }
  split; [exact Hs|]. destruct (config_round_trip no_env quad_aton (stack try_sys) try_settings quad_ntoa Hs) as (c0&E0&E).
  eexists. split; [exact E|]. assert (c0 = match set_defaults no_env quad_aton (stack try_sys) keywords zero_conf with Done (_, c) => c | _ => zero_conf end)
    as -> by (by rewrite E0). vm_compute. reflexivity.
Defined.

(** ** The start *)

(** [C30] The server starts in order.  From any configuration file that configures one
    address pool, with memory, an interface that answers and no lease files yet, the
    start-up ends in the main loop, with an empty table of leases, the address,
    index and hardware address the interface answered, every other setting as read
    from the file (the options, the range of addresses, the times), the lease time of
    the options or the default one, and everything that the exclusiveness of leases
    needs.  The pool has no DNS servers for IP phones, an interface name of at most
    15 characters, a table that fits 32 bits, and times that do not overflow. *)
Theorem startup_in_order env sys s0 c :
  (∀ k z, malloc_ok env k z = true) → aton_bounded sys → configured env sys s0 c → one_pool env s0 c → system_up env sys →
  ∃ te s, startup env sys s0 = Done (Serving te (pc_pidfile (cf_first c)), s) ∧ reach env [] s te ∧
    g_enblSrv1 s = cf_enblSrv1 c ∧ leases s = replicate (length (leases s)) no_lease ∧
    (∃ n a x h, if_answer env n = {| if_socket := true; if_addr := Some a; if_index := Some x; if_hwaddr := Some h |} ∧
       server_config s = put_interface (a, x, h) (set_lease (lease_of_conf (cf_first c)) (pc (cf_first c)))) ∧
    sc_options (server_config s) = sc_options (pc (cf_first c)) ∧
    sc_start (server_config s) = sc_start (pc (cf_first c)) ∧ sc_end (server_config s) = sc_end (pc (cf_first c)) ∧
    sc_lease (server_config s) = lease_of_conf (cf_first c).
Proof.
  intros Hm Ha Hc Hp Hu. destruct (startup_ok env sys Hm s0 c Ha Hc Hp Hu) as (te&s&E&Hs&H1&H2&H3).
  exists te, s. split; [done|]. split; [by apply reach_start|]. split; [done|]. split; [done|]. split; [exact H3|].
  by destruct H3 as (n&a&x&h&_&->).
Qed.

Definition try_boot : dhcpd :=
  {| server_config := zero_config; server2_config := zero_config; tmpSrvCfg := zero_config; leases := []; leases2 := []; tmpls := [];
     g_enblSrv1 := 0; g_enblSrv2 := 0; bIpphone := 0; UseIpPhoneVlan := 0; flag_option121 := 0; ipPhoneipaddr := replicate 255 0;
     g_EnableQosVlan := 0; vi := no_vi; d_clock := 0; d_arps := 0; d_ifs := 0; d_opens := 0; d_mallocs := 0; d_sends := 0;
     d_files := [(DHCPD_CONF_FILE, try_text); (cstr "/var/run/udhcpd.pid", cstr "12345" ++ [10])]; d_cmds := []; d_sent := [] |}.

Definition try_conf : conf :=
  match read_config no_env quad_aton (stack try_sys) (Some try_text) zero_conf with Done (_, c) => c | _ => zero_conf end.

Lemma startup_in_order_witness : ∃ te s,
  startup no_env try_sys try_boot = Done (Serving te (Some (cstr "/var/run/udhcpd.pid")), s) ∧ reach no_env [] s te.
Proof.
  destruct (startup_in_order no_env try_sys try_boot try_conf) as (te&s&E&Hr&_); [done|exact quad_bounded| | | |].
  - exists 1. vm_compute. reflexivity.
  - split; [vm_compute; reflexivity|]. split; [vm_compute; reflexivity|]. split; [apply Nat.ltb_lt; vm_compute; reflexivity|].
    split; [apply Z.ltb_lt; vm_compute; reflexivity|]. split; [vm_compute; reflexivity|]. split; [vm_compute; reflexivity|].
    assert (sc_lease (set_lease (lease_of_conf (cf_first try_conf)) (pc (cf_first try_conf))) = 3600 ∧
      sc_min_lease (set_lease (lease_of_conf (cf_first try_conf)) (pc (cf_first try_conf))) = 60 ∧
      sc_offer_time (set_lease (lease_of_conf (cf_first try_conf)) (pc (cf_first try_conf))) = 60) as (E1&E2&E3)
      by (split; [|split]; vm_compute; reflexivity).
    unfold times_ok. rewrite E1, E2, E3. split; [lia|]. split; [lia|]. split; [lia|]. intros k. cbn [clock no_env]. lia.
  - split; [|done]. intros n. by eexists _, _, _.
  - exists te, s. split; [|exact Hr]. rewrite E. do 2 f_equal.
Defined.

(** ** The main loop *)

(** A turn of the main loop is a round of the server, with the socket open again
    or still; when the socket cannot be opened the server ends with its tables as
    they are and its pid file gone. *)
Theorem server_turn_cases env pidfile listens ev o te s :
  (o || listens = true → ∀ te' s', server_round env ev te s = Done (te', s') →
     ∃ o', server_turn env pidfile listens ev o te s = Done (inr (o', te'), s')) ∧
  (o || listens = false → ∃ s', server_turn env pidfile listens ev o te s = Done (inl (Exits 0), s') ∧
     leases s' = leases s ∧ leases2 s' = leases2 s ∧ d_sent s' = d_sent s ∧
     ∀ path, pidfile = Some path → file_content path (d_files s') = None).
Proof.
  unfold server_turn. destruct o, listens; cbn [orb negb andb]; (split; intros H; try done).
  1-3: intros te' s' E; eexists; by rewrite (bind_Done _ _ _ _ _ E).
  unfold exit_server, pidfile_delete. destruct pidfile as [path|]; (eexists; split; [reflexivity|]); (split; [done|]);
    (split; [done|]); (split; [done|]); [|done]. intros ? [= <-]. cbn. unfold file_content.
  rewrite (proj2 (list_find_None _ _)); [done|]. rewrite Forall_forall. by intros f [Hp _]%list_elem_of_filter.
Qed.

(** ** Signals *)

Lemma ntp_skip m k p buf n1 n2 (s : dhcpd) : (p + m ≤ length buf)%nat → Forall (λ c, c ≠ 10) (take m (drop p buf)) →
  ntp_lines (m + k) p buf n1 n2 s = ntp_lines k (p + m) buf n1 n2 s.
Proof.
  revert p. induction m as [|m IH]; intros p Hl H; [by rewrite Nat.add_0_r|]. cbn [Nat.add ntp_lines].
  destruct (lookup_lt_is_Some_2 buf p) as [c Ec]; [lia|]. rewrite Ec. unfold of_option. rewrite bind_ret.
  rewrite (drop_S _ _ _ Ec) in H. cbn [take] in H. apply Forall_cons in H as [Hc H].
  rewrite (proj2 (Z.eqb_neq _ _)) by done. replace (p + 1)%nat with (S p) by lia. rewrite IH; [f_equal; lia|lia|done].
Qed.

(** A text of at most 30 characters that has neither line ends nor NULs. *)
Definition ntp_text (t : list Z) : Prop := t ≠ [] ∧ (length t ≤ 30)%nat ∧ Forall (λ c, c ≠ 10 ∧ c ≠ 0) t.

Lemma c_string_stop t r : Forall (λ c, c ≠ 10 ∧ c ≠ 0) t → c_string (t ++ 0 :: r) = t.
Proof. induction 1 as [|c t [_ Hc] H IH]; simpl; [done|]. rewrite (proj2 (Z.eqb_neq _ _)) by done. by rewrite IH. Qed.

Lemma c_string_pad t n k : Forall (λ c, c ≠ 10 ∧ c ≠ 0) t → (length t < n)%nat → (0 < k)%nat →
  c_string (take n (t ++ replicate k 0)) = t.
Proof.
  intros H Hn Hk. destruct n as [|n]; [lia|]. destruct k as [|k]; [lia|]. cbn [replicate].
  rewrite (take_app_ge t) by lia. destruct (S n - length t)%nat as [|j] eqn:E; [lia|]. cbn [firstn].
  by apply c_string_stop.
Qed.

(** The addresses of the time servers that are announced to IP phones: with the
    two addresses in a file, a line end between them and none behind them, both are
    taken over (an address that cannot be read leaves the old one). *)
Theorem ntp_servers_set env sys s t1 t2 : ntp_text t1 → ntp_text t2 → ntp_file sys = Some (t1 ++ [10] ++ t2) →
  setIPPhoneNtpCfg env sys s = Done (tt, let c := server_config s in
    set_server_config (set_iPPhoneNtp2 (ntp_address env t2 (sc_iPPhoneNtp2 c)) (set_iPPhoneNtp1 (ntp_address env t1 (sc_iPPhoneNtp1 c)) c)) s).
Proof.
  intros (N1&L1&H1) (N2&L2&H2) Ef. unfold setIPPhoneNtpCfg. rewrite Ef.
  assert (length (t1 ++ [10] ++ t2) = (length t1 + S (length t2))%nat) as El by (rewrite !length_app; simpl; lia).
  rewrite take_ge by lia. rewrite El. set (pad := replicate _ 0).
  assert (Forall (λ c, c ≠ 10) t1 ∧ Forall (λ c, c ≠ 10) t2) as [A1 A2]
    by (split; [eapply Forall_impl; [exact H1|]|eapply Forall_impl; [exact H2|]]; simpl; naive_solver).
  assert (ntp_lines (length t1 + S (length t2)) 0 ((t1 ++ [10] ++ t2) ++ pad) [] [] s =
    Done ((take 31 (t1 ++ [0] ++ t2 ++ pad), take 31 (t2 ++ pad)), s)) as E.
  { rewrite ntp_skip; [|rewrite !length_app; lia|rewrite drop_0, <- !app_assoc, take_app_length; exact A1]. cbn [Nat.add ntp_lines].
    rewrite <- !app_assoc. cbn [app]. rewrite list_lookup_middle by done. unfold of_option. rewrite bind_ret. cbn [Z.eqb Pos.eqb].
    assert (<[length t1 := 0]> (t1 ++ 10 :: t2 ++ pad) = t1 ++ 0 :: t2 ++ pad) as Ei
      by (rewrite insert_app_r_alt, Nat.sub_diag by lia; done).
    cbv zeta. rewrite Ei. replace (length t1 + 1 + 31 <? 255)%nat with true by (symmetry; apply Nat.ltb_lt; lia).
    assert (drop (length t1 + 1) (t1 ++ 0 :: t2 ++ pad) = t2 ++ pad) as Ed.
    { rewrite drop_app_ge by lia. by replace (length t1 + 1 - length t1)%nat with 1%nat by lia. }
    rewrite Ed. replace (length t2) with (length t2 + 0)%nat at 1 by lia. rewrite ntp_skip; [done| |].
    - rewrite !length_app. cbn [length]. rewrite length_app. unfold pad. rewrite length_replicate. lia.
    - replace (length t1 + 2)%nat with ((length t1 + 1) + 1)%nat by lia. rewrite <- drop_drop, Ed. apply Forall_take, Forall_drop.
      apply Forall_app. split; [done|]. by apply Forall_replicate. }
  rewrite (bind_Done _ _ _ _ _ E). cbn [fst snd]. unfold ntp_address.
  assert (c_string (take 31 (t2 ++ pad)) = t2) as -> by (apply c_string_pad; done || lia).
  assert (c_string (take 31 (t1 ++ [0] ++ t2 ++ pad)) = t1) as ->.
  { rewrite take_app_ge by lia. destruct (31 - length t1)%nat as [|j] eqn:Ej; [lia|]. cbn [app firstn].
    by apply c_string_stop. }
  assert (c_string t1 = t1 ∧ c_string t2 = t2) as [-> ->]; [|done].
  split; apply c_string_id; [eapply Forall_impl; [exact H1|]|eapply Forall_impl; [exact H2|]]; simpl; naive_solver.
Qed.

Lemma ntp_servers_set_witness : ∃ s, setIPPhoneNtpCfg no_env try_sys try_boot = Done (tt, s) ∧
  sc_iPPhoneNtp1 (server_config s) = 0x0a000001 ∧ sc_iPPhoneNtp2 (server_config s) = 0x0a000002.
Proof.
  eexists. split; [apply (ntp_servers_set no_env try_sys try_boot (cstr "10.0.0.1") (cstr "10.0.0.2")); [| |reflexivity]|].
  - split; [done|]. split; [apply Nat.leb_le; reflexivity|]. repeat constructor; done.
  - split; [done|]. split; [apply Nat.leb_le; reflexivity|]. repeat constructor; done.
  - split; vm_compute; reflexivity.
Defined.

(** ** Defects *)

(** With a line end behind the second address as well, that address is lost: what
    follows the last line end is taken for it. *)
Theorem ntp_second_lost env sys s : ntp_file sys = Some (cstr "10.0.0.1" ++ [10] ++ cstr "10.0.0.2" ++ [10]) →
  setIPPhoneNtpCfg env sys s = Done (tt, let c := server_config s in
    set_server_config (set_iPPhoneNtp2 (sc_iPPhoneNtp2 c) (set_iPPhoneNtp1 (ntp_address env (cstr "10.0.0.1") (sc_iPPhoneNtp1 c)) c)) s).
Proof. intros E. unfold setIPPhoneNtpCfg. rewrite E. reflexivity. Qed.

(** The sample configuration separates the addresses of a list with a blank; the
    second one is not read. *)
Theorem blank_separates_nothing aton stk c a : aton (cstr "192.168.10.2 192.168.10.10") = Some a →
  sc_options (pc (cf_first c)) = [] → ∃ c',
  read_opt aton stk (cstr "dns" ++ [9] ++ cstr "192.168.10.2 192.168.10.10") First c = Done (1, c') ∧
  sc_options (pc (cf_first c')) = [6 :: 4 :: be_bytes a].
Proof.
  intros Ha Ho. unfold read_opt. rewrite bind_gets, bind_modify.
  change (strtok_next _ _) with (Some (cstr "dns", cstr "192.168.10.2 192.168.10.10")). cbv iota beta.
  change (find_named (cstr "dns")) with (Some dns_option). cbv iota beta. rewrite bind_gets. cbn [pool_of cf_first put_calls]. rewrite Ho.
  eexists. cbn [length cstr map]. cbn [read_opt_loop].
  change (strtok_next _ (cstr "192.168.10.2 192.168.10.10")) with (Some (cstr "192.168.10.2 192.168.10.10", @nil Z)).
  unfold read_value. change (Z.land (opt_flags dns_option) TYPE_MASK =? OPTION_IP) with true. cbv iota zeta beta. rewrite Ha.
  split; reflexivity.
Qed.

(** A server for the log, for booting or of the kind "address or name" is not read
    at all: the option gets 128 bytes of the stack instead. *)
Theorem address_or_name_not_read aton stk c addr : sc_options (pc (cf_first c)) = [] → length (stk (cf_calls c)) = 255%nat →
  addr ≠ [] → Forall (λ x, x ∉ cstr "," ++ [9]) addr → ∃ c',
  read_opt aton stk (cstr "logsvr" ++ [9] ++ addr) First c = Done (1, c') ∧
  sc_options (pc (cf_first c')) = [7 :: 128 :: take 128 (stk (cf_calls c))].
Proof.
  intros Ho Hl Hne Ha. unfold read_opt. rewrite bind_gets, bind_modify.
  rewrite (strtok_next_stop _ (cstr "logsvr") ([9] ++ addr)); [|done|refine (bool_decide_unpack _ _); vm_compute; exact I|right; right; left].
  change (drop 1 ([9] ++ addr)) with addr. set (o := {| opt_name := "logsvr"; opt_flags := OPTION_IP_STRING; opt_code := 0x07 |}).
  change (find_named (cstr "logsvr")) with (Some o). cbv iota beta. rewrite bind_gets. cbn [pool_of cf_first put_calls]. rewrite Ho.
  assert (strtok_next (cstr "," ++ [9]) addr = Some (addr, [])) as Et by (rewrite <- (app_nil_r addr) at 1; by rewrite strtok_next_stop).
  cbn [read_opt_loop]. rewrite Et.
  change (read_value aton (Z.land (opt_flags o) TYPE_MASK) addr [] (stk (cf_calls c))) with (Some 128, stk (cf_calls c), @nil Z).
  cbv iota beta. change (takes_list o) with false. cbv iota. eexists. split; [reflexivity|].
  cbn [cf_first on_pool pc put_options sc_options]. unfold attach_option. cbn [find_option insert_option].
  rewrite length_take, Hl. reflexivity.
Qed.

(** A number of leases whose table does not fit the address space gets a table
    without an entry, and the server takes it for one with all of them. *)
Theorem huge_table_empty env s : malloc_ok env (d_mallocs s) 32 = true →
  new_table env 28256364 s = Done ([], set_dmallocs (S (d_mallocs s)) s).
Proof.
  intros H. unfold new_table. rewrite bind_gets, bind_modify.
  change (u32 (sizeof_dhcpOfferedAddr * 28256364)) with 32. by rewrite H.
Qed.

(** What an older pid file holds stays behind a shorter number. *)
Theorem pid_file_keeps_rest sys s path : getpid sys = 99 → file_content path (d_files s) = Some (cstr "12345" ++ [10]) →
  ∃ s', pidfile_write_release sys (Some path) true s = Done (tt, s') ∧
    file_content path (d_files s') = Some (cstr "99" ++ [10] ++ cstr "45" ++ [10]).
Proof.
  intros Hp Hf. unfold pidfile_write_release. rewrite bind_gets, Hf, Hp. eexists. split; [reflexivity|].
  unfold file_content. cbn [d_files set_dfiles list_find]. rewrite decide_True by done. reflexivity.
Qed.
