(* ===== verification/DhcpArp.v ===== *)
(** * The DHCP server: ARP requests ([arpping.c] of udhcp)

    Before an address is handed out the server asks for it with an ARP request.
    What happens while it waits for the answer is a list of rounds of its loop. *)

From stdpp Require Import base numbers list.
From Stdlib Require Import ZArith Lia Bool.
From S2P Require Import Prelude DhcpPacket DhcpLease DhcpServer.

(** ** Messages: [struct arpMsg], 60 bytes *)

Definition ETH_P_ARP : list Z := [8; 6].
Definition ETH_P_IP : list Z := [8; 0].
Definition ARPOP_REQUEST : Z := 1.
Definition ARPOP_REPLY : Z := 2.

Definition mkArpMsg (opcode tInaddr : Z) (tHaddr : list Z) (sInaddr : Z) (sHaddr : list Z) : list Z :=
  MAC_BCAST_ADDR ++ sHaddr ++ ETH_P_ARP ++ [0; 1] ++ ETH_P_IP ++ [6; 4] ++ [0; opcode] ++ sHaddr ++ be_bytes sInaddr ++
  (if opcode =? ARPOP_REPLY then tHaddr else replicate 6 0) ++ be_bytes tInaddr ++ replicate 18 0.

Definition sizeof_arpMsg : nat := 60.

(** The fields that are compared. *)
Definition arp_operation (m : list Z) : list Z := take 2 (drop 20 m).
Definition arp_sInaddr (m : list Z) : Z := be32 (drop 28 m).
Definition arp_tHaddr (m : list Z) : list Z := take 6 (drop 32 m).

Definition valid_reply (m haddr : list Z) (inaddr : Z) : bool :=
  bool_decide (arp_operation m = [0; ARPOP_REPLY]) && bool_decide (arp_tHaddr m = haddr) && (arp_sInaddr m =? inaddr).

(** ** Waiting *)

(** A round: [select] fails, is interrupted, ends without a message, or there is a
    message ([None]: [recv] fails). *)
Inductive arp_round : Type :=
| A_error
| A_interrupted
| A_nothing
| A_message (bytes : option (list Z)).

(** What [recv] leaves in the buffer. *)
Definition recv_into (arp : list Z) (bytes : option (list Z)) : list Z :=
  match bytes with
  | Some bs => take sizeof_arpMsg bs ++ drop (length (take sizeof_arpMsg bs)) arp
  | None => arp
  end.

(** The loop; a round comes with the seconds that it took.  [Blocked]: the rounds
    are over and it still waits. *)
Fixpoint arp_wait (rounds : list (arp_round * Z)) (inaddr : Z) (haddr arp : list Z) (timeout rv : Z) : outcome Z :=
  if timeout <=? 0 then Done rv else
  match rounds with
  | [] => Blocked
  | (r, t) :: rest =>
      match r with
      | A_error => arp_wait rest inaddr haddr arp (timeout - t) 0
      | A_interrupted | A_nothing => arp_wait rest inaddr haddr arp (timeout - t) rv
      | A_message bytes =>
          let arp' := recv_into arp bytes in
          let rv' := match bytes with Some _ => rv | None => 0 end in
          if valid_reply arp' haddr inaddr then Done 0 else arp_wait rest inaddr haddr arp' (timeout - t) rv'
      end
  end.

(** [sent]: the request went out; it does not when there is no socket.  The name of
    the interface is copied to 14 characters. *)
Definition arpCheck (rounds : list (arp_round * Z)) (sent : bool) (inaddr addr : Z) (haddr ifname : list Z) (timeout : Z) : outcome Z :=
  if (14 <=? length ifname)%nat then Fault else
  arp_wait rounds inaddr haddr (mkArpMsg ARPOP_REQUEST inaddr [] addr haddr) timeout (if sent then 1 else 0).

(** ** What the answer means *)

(** The rounds that start before the time is over. *)
Fixpoint in_time (rounds : list (arp_round * Z)) (timeout : Z) : list arp_round :=
  match rounds with
  | [] => []
  | (r, t) :: rest => if timeout <=? 0 then [] else r :: in_time rest (timeout - t)
  end.

(** The whole message of a round, when it has one. *)
Definition replies (haddr : list Z) (inaddr : Z) (r : arp_round) : bool :=
  match r with
  | A_message (Some bs) => (length bs =? sizeof_arpMsg)%nat && valid_reply bs haddr inaddr
  | _ => false
  end.
Definition fails (r : arp_round) : bool :=
  match r with A_error | A_message None => true | _ => false end.
Definition whole (r : arp_round) : bool :=
  match r with A_message (Some bs) => (length bs =? sizeof_arpMsg)%nat | _ => true end.

Lemma length_mkArpMsg opcode t sh si : length sh = 6%nat → length (mkArpMsg opcode t [] si sh) = if opcode =? ARPOP_REPLY then 54%nat else 60%nat.
Proof. intros H. unfold mkArpMsg. rewrite !length_app, !length_replicate, H. by destruct (opcode =? ARPOP_REPLY). Qed.

(** The request asks for the address, and is not taken for its own answer. *)
Lemma request_no_reply t si sh haddr : length sh = 6%nat → valid_reply (mkArpMsg ARPOP_REQUEST t [] si sh) haddr t = false.
Proof.
  intros H. do 6 (destruct sh as [|? sh]; [done|]). destruct sh; [|done]. unfold valid_reply, arp_operation, mkArpMsg. simpl.
  done.
Qed.

Lemma recv_whole arp bs : length bs = sizeof_arpMsg → length arp = sizeof_arpMsg → recv_into arp (Some bs) = bs.
Proof.
  intros H1 H2. unfold recv_into. rewrite take_ge, drop_ge by (rewrite ?H1; lia). by rewrite app_nil_r.
Qed.

(** The rounds take no negative time, and enough of it in all. *)
Definition long_enough (rounds : list (arp_round * Z)) (timeout : Z) : Prop :=
  Forall (λ x, 0 ≤ x.2) rounds ∧ timeout ≤ foldr (λ x acc, x.2 + acc) 0 rounds.

Lemma arp_wait_answer rounds inaddr haddr arp timeout rv :
  length arp = sizeof_arpMsg → valid_reply arp haddr inaddr = false → forallb whole (in_time rounds timeout) = true →
  long_enough rounds timeout → rv = 0 ∨ rv = 1 →
  arp_wait rounds inaddr haddr arp timeout rv =
    Done (if (rv =? 0) || existsb (λ r, fails r || replies haddr inaddr r) (in_time rounds timeout) then 0 else 1).
Proof.
  revert arp timeout rv. induction rounds as [|[r t] rounds IH]; intros arp timeout rv Hl Hv Hw [Hp Hs] Hr.
  - simpl in Hs |- *. rewrite (proj2 (Z.leb_le _ _)) by done. by destruct Hr as [-> | ->].
  - cbn [arp_wait in_time] in *. destruct (Z.leb_spec timeout 0); [simpl; by destruct Hr as [-> | ->]|].
    cbn [forallb] in Hw. apply andb_true_iff in Hw as [Hw Hws]. apply Forall_cons in Hp as [Ht Hp]. simpl in Ht, Hs.
    assert (long_enough rounds (timeout - t)) as Hlong by (split; [done|lia]). cbn [existsb].
    destruct r as [| | |[bs|]]; cbn [fails replies orb whole] in *.
    + rewrite IH by auto. by rewrite !orb_true_r.
    + by apply IH.
    + by apply IH.
    + apply Nat.eqb_eq in Hw. rewrite (recv_whole _ _ Hw Hl). rewrite (proj2 (Nat.eqb_eq _ _) Hw). cbn [andb].
      destruct (valid_reply bs haddr inaddr) eqn:E; cbn [orb]; [by rewrite orb_true_r|]. by apply IH.
    + cbn [recv_into]. rewrite Hv. rewrite IH by auto. by rewrite !orb_true_r.
Qed.

(** The check of an address ends when its time is over, and says that the address
    is free exactly when the request went out, nothing failed, and no reply came
    from that address in time. *)
Theorem arpCheck_correct rounds sent inaddr addr haddr ifname timeout :
  length haddr = 6%nat → (length ifname < 14)%nat → forallb whole (in_time rounds timeout) = true → long_enough rounds timeout →
  ∃ rv, arpCheck rounds sent inaddr addr haddr ifname timeout = Done rv ∧
    (rv = 1 ↔ sent = true ∧ Forall (λ r, fails r = false ∧ replies haddr inaddr r = false) (in_time rounds timeout)).
Proof.
  intros Hh Hn Hw Hlong. unfold arpCheck. rewrite (proj2 (Nat.leb_gt _ _)) by done.
  rewrite arp_wait_answer; [|by rewrite length_mkArpMsg|by apply request_no_reply|done|done|destruct sent; auto].
  eexists. split; [reflexivity|].
  assert (existsb (λ r, fails r || replies haddr inaddr r) (in_time rounds timeout) = false ↔
    Forall (λ r, fails r = false ∧ replies haddr inaddr r = false) (in_time rounds timeout)) as <-.
  { clear. induction (in_time rounds timeout) as [|r l IH]; simpl; [done|]. rewrite Forall_cons, !orb_false_iff, IH. done. }
  destruct sent; cbn [Z.eqb orb]; [|naive_solver]. destruct (existsb _ _); naive_solver.
Qed.

(** Without a socket every address seems to be in use, so that none is given. *)
Theorem no_socket_no_address rounds inaddr addr haddr ifname timeout rv :
  length haddr = 6%nat → forallb whole (in_time rounds timeout) = true → long_enough rounds timeout →
  arpCheck rounds false inaddr addr haddr ifname timeout = Done rv → rv = 0.
Proof.
  intros Hh Hw Hlong. unfold arpCheck. destruct (14 <=? _)%nat; [done|].
  rewrite arp_wait_answer; [|by rewrite length_mkArpMsg|by apply request_no_reply|done|done|by left]. by intros [= <-].
Qed.
