(* ===== verification/DhcpScript.v ===== *)
(** * The DHCP client: what a reply sets up ([script.c] of udhcp)

    The client forks a child for every event.  The child turns the options of the
    reply into the environment of a script and saves them in files; the static
    buffers of [script.c] are its copies, empty whenever it starts.  The client
    itself then installs the static routes the child has saved.  The build has
    none of [SUPPORT_SYSLOG_AUTOCONF], [SUPPORT_SNTP_AUTOCONF] and
    [SUPPORT_TR69C]. *)

From stdpp Require Import base numbers list strings.
From Stdlib Require Import ZArith Lia Bool.
From S2P Require Import Prelude CText DhcpPacket DhcpLease DhcpFiles DhcpConf.

(** ** The system around the client *)

(** Files by name, the commands handed to a shell, the values written to the
    store of temporary values, the messages to the configuration manager and to the
    TR-069 client, the scripts that were run (with their argument and environment), and the number
    of calls of [malloc]. *)
Record world : Type := {
  w_files : list (list Z * list Z);
  w_cmds : list command;
  w_tmp : list (list Z * list Z);
  w_msgs : list (Z * list Z);
  w_tr69 : list (Z * list Z);
  w_execs : list (list Z * list Z * list (list Z));
  w_mallocs : nat
}.

Definition set_wfiles (v : list (list Z * list Z)) (w : world) : world :=
  {| w_files := v; w_cmds := w_cmds w; w_tmp := w_tmp w; w_msgs := w_msgs w; w_tr69 := w_tr69 w; w_execs := w_execs w; w_mallocs := w_mallocs w |}.
Definition add_wcmd (c : command) (w : world) : world :=
  {| w_files := w_files w; w_cmds := w_cmds w ++ [c]; w_tmp := w_tmp w; w_msgs := w_msgs w; w_tr69 := w_tr69 w; w_execs := w_execs w; w_mallocs := w_mallocs w |}.
Definition add_wtmp (v : list Z * list Z) (w : world) : world :=
  {| w_files := w_files w; w_cmds := w_cmds w; w_tmp := w_tmp w ++ [v]; w_msgs := w_msgs w; w_tr69 := w_tr69 w; w_execs := w_execs w; w_mallocs := w_mallocs w |}.
Definition add_wmsg (v : Z * list Z) (w : world) : world :=
  {| w_files := w_files w; w_cmds := w_cmds w; w_tmp := w_tmp w; w_msgs := w_msgs w ++ [v]; w_tr69 := w_tr69 w; w_execs := w_execs w; w_mallocs := w_mallocs w |}.
Definition add_wtr69 (v : Z * list Z) (w : world) : world :=
  {| w_files := w_files w; w_cmds := w_cmds w; w_tmp := w_tmp w; w_msgs := w_msgs w; w_tr69 := w_tr69 w ++ [v]; w_execs := w_execs w; w_mallocs := w_mallocs w |}.
Definition add_wexec (v : list Z * list Z * list (list Z)) (w : world) : world :=
  {| w_files := w_files w; w_cmds := w_cmds w; w_tmp := w_tmp w; w_msgs := w_msgs w; w_tr69 := w_tr69 w; w_execs := w_execs w ++ [v]; w_mallocs := w_mallocs w |}.
Definition set_wmallocs (v : nat) (w : world) : world :=
  {| w_files := w_files w; w_cmds := w_cmds w; w_tmp := w_tmp w; w_msgs := w_msgs w; w_tr69 := w_tr69 w; w_execs := w_execs w; w_mallocs := v |}.

(** A state with a world in it. *)
Class HasWorld (S : Type) : Type := { world_of : S → world; put_world : world → S → S }.

(** What the system answers: is memory left, can a file be written, can a message
    be sent, the variables PATH and HOME of the environment ("PATH=..."), and what
    the stack holds. *)
Record script_env : Type := {
  se_malloc : nat → bool;
  se_writable : list Z → bool;
  se_msgs : bool;
  se_PATH : option (list Z);
  se_HOME : option (list Z);
  se_stack : list Z
}.

Section world.
Context {S : Type} `{HasWorld S} (sys : script_env).

Definition on_world (f : world → world) : M S unit := modify (λ s, put_world (f (world_of s)) s).

(** [sprintf] to a buffer of [size] characters. *)
Definition fits (size : Z) (text : list Z) : M S (list Z) :=
  if Z.of_nat (length text) <? size then mret text else fault.

(** [system], or [bcmSystemEx], of a command built in such a buffer. *)
Definition shell (size : Z) (cmd : command) : M S unit := c ← fits size cmd; on_world (add_wcmd c).

Definition TMPFILE_MAX_ITEM_NAME : Z := 16.
Definition TMPFILE_MAX_ITEM_VALUE : Z := 512.

Definition tmpfile_writevalue (name value : list Z) : M S Z :=
  if (TMPFILE_MAX_ITEM_NAME <=? Z.of_nat (length name)) || (TMPFILE_MAX_ITEM_VALUE <=? Z.of_nat (length value)) then mret (-1)
  else if se_msgs sys then on_world (add_wtmp (name, value));; mret 0 else mret (-1).

(** [malloc]: is there memory? *)
Definition alloc : M S bool :=
  n ← gets (λ s, w_mallocs (world_of s)); on_world (set_wmallocs (Datatypes.S n));; mret (se_malloc sys n).

(** A pointer that is used without a look at it. *)
Definition alloc_or_fault : M S unit := ok ← alloc; if ok : bool then mret tt else fault.

Definition put_file (path content : list Z) : M S unit :=
  on_world (λ w, set_wfiles ((path, content) :: filter (λ f, f.1 ≠ path) (w_files w)) w).

(** "rm -rf" of a file, and "echo text > path". *)
Definition shell_rm (path : list Z) : M S unit :=
  shell (Z.of_nat 264) (cstr "rm -rf " ++ path);; on_world (λ w, set_wfiles (filter (λ f, f.1 ≠ path) (w_files w)) w).
Definition shell_echo (size : Z) (line path : list Z) : M S unit :=
  shell size (cstr "echo " ++ line ++ cstr " > " ++ path);;
  if se_writable sys path then put_file path (line ++ [10]) else mret tt.

Definition the_file (path : list Z) : M S (option (list Z)) := gets (λ s, file_content path (w_files (world_of s))).

(** A line in the file; with [check], only when there is no such file. *)
Definition file_save (path content : list Z) (check : bool) : M S unit :=
  old ← the_file path;
  if check && bool_decide (is_Some old) then mret tt
  else if se_writable sys path then put_file path (content ++ [10]) else mret tt.
End world.

(** ** Messages to the TR-069 client *)

Definition TR069_MAX_CONTENT : Z := 1520.
Definition GET_DHCP_OPTION43 : Z := 5.

(** [fscanf]'s "%d" finds a number: blanks, a sign, and a digit. *)
Fixpoint scans_number (signed : bool) (l : list Z) : bool :=
  match l with
  | c :: l' =>
      if (48 <=? c) && (c <=? 57) then true
      else if negb signed && ((c =? 43) || (c =? 45)) then scans_number true l'
      else if negb signed && ((c =? 32) || ((9 <=? c) && (c <=? 13))) then scans_number false l'
      else false
  | [] => false
  end.

(** The message goes out when the file of the process holds a number and the queue
    takes it; its content is filled up with zeros. *)
Definition TR069_SendMessage {S} `{HasWorld S} (sys : script_env) (msg_type : Z) (content : list Z) (content_len : Z) : M S Z :=
  if TR069_MAX_CONTENT <? content_len then mret (-1)
  else
    pidfile ← the_file (cstr "tr69pid");
    match pidfile with
    | None => mret (-1)
    | Some text =>
        if negb (scans_number false text) then mret (-1)
        else if se_msgs sys then
          bs ← get_bytes (content ++ [0]) 0 content_len;
          on_world (add_wtr69 (msg_type, bs ++ replicate (Z.to_nat (TR069_MAX_CONTENT - content_len)) 0));;
          mret 0
        else mret (-1)
    end.

(** ** The static buffers *)

Inductive static_buf : Type :=
| Local_ip | Router_ip | Dns_ip | Subnet_ip | Root_path | Timezone | Logsvr1 | Logsvr2 | Logsvr_string
| Hostname_string | Domain_string | Ntpsvr1 | Ntpsvr2 | Ntpsvr_string | Tftpsvr1 | Tftpsvr2 | Tftp_string
| Bootfile_string | Option_43 | Option_121.

#[global] Instance static_buf_eq_dec : EqDecision static_buf.
Proof. solve_decision. Defined.

Definition buf_size (b : static_buf) : Z :=
  match b with
  | Local_ip | Router_ip | Subnet_ip | Logsvr1 | Logsvr2 | Ntpsvr1 | Ntpsvr2 | Tftpsvr1 | Tftpsvr2 => 32
  | Dns_ip | Logsvr_string | Hostname_string | Domain_string | Ntpsvr_string | Tftp_string | Bootfile_string => 128
  | Root_path | Option_121 => 256
  | Timezone => 8
  | Option_43 => 258
  end.

(** The bytes in front of the NUL that was stored last, the length of option 121,
    and the place of the next server of a pair. *)
Record script : Type := {
  ss_statics : static_buf → list Z;
  option121_lenth : Z;
  opt_seqnum : Z;
  ss_world : world
}.

#[global] Instance script_world : HasWorld script :=
  {| world_of := ss_world;
     put_world w s := {| ss_statics := ss_statics s; option121_lenth := option121_lenth s; opt_seqnum := opt_seqnum s; ss_world := w |} |}.

Definition put_static (b : static_buf) (v : list Z) (s : script) : script :=
  {| ss_statics x := if decide (x = b) then v else ss_statics s x; option121_lenth := option121_lenth s;
     opt_seqnum := opt_seqnum s; ss_world := ss_world s |}.
Definition set_option121_lenth (v : Z) (s : script) : script :=
  {| ss_statics := ss_statics s; option121_lenth := v; opt_seqnum := opt_seqnum s; ss_world := ss_world s |}.
Definition set_opt_seqnum (v : Z) (s : script) : script :=
  {| ss_statics := ss_statics s; option121_lenth := option121_lenth s; opt_seqnum := v; ss_world := ss_world s |}.

(** A child that has just been forked. *)
Definition fresh_child (w : world) : script :=
  {| ss_statics _ := []; option121_lenth := 0; opt_seqnum := 0; ss_world := w |}.

(** Stores bytes and a NUL. *)
Definition save (b : static_buf) (v : list Z) : M script unit :=
  if Z.of_nat (length v) <? buf_size b then modify (put_static b v) else fault.
(** The buffer as a string. *)
Definition text (b : static_buf) : M script (list Z) := gets (λ s, c_string (ss_statics s b)).

Definition ip_text (a b c d : Z) : list Z :=
  sprintf_lu a ++ [46] ++ sprintf_lu b ++ [46] ++ sprintf_lu c ++ [46] ++ sprintf_lu d.

(** ** The text of an option *)

Definition named (name : string) (o : dhcp_option) : bool := bool_decide (opt_name o = name).
Definition option_type (o : dhcp_option) : Z := Z.land (opt_flags o) TYPE_MASK.

Definition option_is_ip (len : Z) : bool := (4 =? len) || (8 =? len).

(** [len] is the length byte of the option. *)
Definition max_option_length (len : Z) (o : dhcp_option) : Z :=
  let type := option_type o in
  if (type =? OPTION_IP) || (type =? OPTION_IP_PAIR) then len `div` 4 * 17
  else if type =? OPTION_STRING then len + 1
  else if type =? OPTION_BOOLEAN then len * 5
  else if type =? OPTION_U8 then len * 5
  else if type =? OPTION_U16 then len `div` 2 * 7
  else if type =? OPTION_S16 then len `div` 2 * 8
  else if type =? OPTION_U32 then len `div` 4 * 12
  else if type =? OPTION_S32 then len `div` 4 * 13
  else 0.

Definition four (packet : list Z) (p : Z) : M script (list Z) :=
  a ← peek packet p; b ← peek packet (p + 1); c ← peek packet (p + 2); d ← peek packet (p + 3);
  mret (ip_text a b c d).

(** The first server goes to [b1], the next one to [b2]; all pairs share the
    variable that tells which. *)
Definition save_pair (b1 b2 : static_buf) (ip : list Z) : M script unit :=
  q ← gets opt_seqnum;
  if q =? 0 then save b1 ip;; modify (set_opt_seqnum (q + 1)) else save b2 ip;; modify (set_opt_seqnum 0).

Definition save_server (o : dhcp_option) (ip : list Z) : M script unit :=
  (if named "logsvr" o then save_pair Logsvr1 Logsvr2 ip else mret tt);;
  (if named "tftp" o then save_pair Tftpsvr1 Tftpsvr2 ip else mret tt);;
  (if named "ntpsvr" o then save_pair Ntpsvr1 Ntpsvr2 ip else mret tt).

Definition DHCP_OPTION_128 : Z := 128.

(** [len] bytes from [option] go to [b] when they are fewer than [max]. *)
Definition save_bytes (b : static_buf) (max : Z) (packet : list Z) (option len : Z) : M script unit :=
  if len <? max then bs ← get_bytes packet option len; save b bs else mret tt.

Definition save_server_name (o : dhcp_option) (packet : list Z) (option len : Z) : M script unit :=
  (if named "logsvr" o then save_bytes Logsvr_string DHCP_OPTION_128 packet option len else mret tt);;
  (if named "ntpsvr" o then save_bytes Ntpsvr_string DHCP_OPTION_128 packet option len else mret tt);;
  (if named "tftp" o then save_bytes Tftp_string DHCP_OPTION_128 packet option len else mret tt).

(** The branch of an address. *)
Definition fill_ip (o : dhcp_option) (packet : list Z) (option : Z) : M script (list Z) :=
  ip ← four packet option;
  (if named "dns" o then
     dns ← text Dns_ip; save Dns_ip (dns ++ cstr "nameserver " ++ ip ++ [10])
   else mret tt);;
  (if named "router" o then save Router_ip ip else mret tt);;
  (if named "subnet" o then save Subnet_ip ip else mret tt);;
  (if named "ntpsvr" o then save_pair Ntpsvr1 Ntpsvr2 ip else mret tt);;
  mret ip.

(** The branch of a string: what is kept of it. *)
Definition keep_string (sys : script_env) (o : dhcp_option) (packet : list Z) (option len : Z) : M script unit :=
  (if named "option121" o && (len <? DHCP_OPTION_128) then
     bs ← get_bytes packet option len; save Option_121 bs;; modify (set_option121_lenth len)
   else mret tt);;
  (if named "hostname" o then save_bytes Hostname_string DHCP_OPTION_128 packet option len else mret tt);;
  (if named "domain" o then save_bytes Domain_string DHCP_OPTION_128 packet option len else mret tt);;
  (if named "tftp" o then save_bytes Tftp_string DHCP_OPTION_128 packet option len else mret tt);;
  (if named "bootfile" o then save_bytes Bootfile_string DHCP_OPTION_128 packet option len else mret tt);;
  (if named "tr069acs" o && (len <? 257) then
     bs ← get_bytes packet option len; save Option_43 bs;; TR069_SendMessage sys GET_DHCP_OPTION43 bs len;; mret tt
   else mret tt);;
  (if named "rootpath" o then save_bytes Root_path 256 packet option len else mret tt).

(** The text of the value at [option] and the length it takes in the option. *)
Definition fill_value (o : dhcp_option) (packet : list Z) (option len : Z) : M script (list Z * Z) :=
  let type := option_type o in
  let optlen := nth (Z.to_nat type) option_lengths 0 in
  if type =? OPTION_IP_STRING then
    n ← (if option_is_ip len then ip ← four packet option; save_server o ip;; mret 4
         else save_server_name o packet option len;; mret optlen);
    t ← fill_ip o packet option; mret (t, n)
  else if type =? OPTION_IP then t ← fill_ip o packet option; mret (t, optlen)
  else if type =? OPTION_IP_PAIR then
    a ← four packet option; b ← four packet (option + 4); mret (a ++ cstr ", " ++ b, optlen)
  else if type =? OPTION_BOOLEAN then b ← peek packet option; mret (if b =? 0 then cstr "no" else cstr "yes", optlen)
  else if type =? OPTION_U8 then b ← peek packet option; mret (sprintf_lu b, optlen)
  else if (type =? OPTION_U16) || (type =? OPTION_S16) then v ← load16 packet option; mret (sprintf_lu v, optlen)
  else if type =? OPTION_U32 then v ← load32 packet option; mret (sprintf_lu v, optlen)
  else if type =? OPTION_S32 then
    v ← load32 packet option;
    let t := sprintf_d (s32 v) in
    (if named "timezone" o then save Timezone t else mret tt);; mret (t, optlen)
  else mret ([], optlen).

(** The values of an option, separated by blanks, behind what is in [dest]. *)
Fixpoint fill_loop (n : nat) (o : dhcp_option) (packet : list Z) (option len : Z) (dest : list Z) : M script (list Z) :=
  match n with
  | O => nofuel
  | S n' =>
      '(t, optlen) ← fill_value o packet option len;
      if len - optlen <=? 0 then mret (dest ++ t)
      else fill_loop n' o packet (option + optlen) (len - optlen) (dest ++ t ++ [32])
  end.

(** [dest] is what [fill_envp] has allocated: [size] characters.  A round takes
    at least one byte of the option. *)
Definition fill_options (sys : script_env) (size : Z) (packet : list Z) (option : Z) (o : dhcp_option) : M script (list Z) :=
  len ← peek packet (option - 1);
  let dest := cstr (opt_name o) ++ [61] in
  t ← (if option_type o =? OPTION_STRING then
         keep_string sys o packet option len;; bs ← get_bytes packet option len; mret (dest ++ bs)
       else fill_loop 256 o packet option len dest);
  fits size t.

(** ** Static routes (option 121) *)

Definition IFC_LARGE_LEN : nat := 264.
Definition PATH_WAN_ROOT : list Z := cstr "/var/fyi/sys".
Definition PATH_WAN_DIR : list Z := cstr "/proc/var/fyi/wan".
Definition slash (a b : list Z) : list Z := a ++ [47] ++ b.

Definition mask_table : list Z := [128; 192; 224; 240; 248; 252; 254; 255].
(** [mask\[i\]]. *)
Definition mask_at (i : Z) : M script Z := of_option (if decide (0 ≤ i) then mask_table !! Z.to_nat i else None).

(** [sprintf (stRtEntry, "%s %s %s\n", ...)] and [fputs]. *)
Definition route_entry (destIp subMask gwIp : list Z) : list Z := destIp ++ [32] ++ subMask ++ [32] ++ gwIp ++ [10].

(** The bytes of option 121 from [i] on, of [len]; [out] is what has been written
    to the file. *)
Fixpoint route_loop (n : nat) (opt : list Z) (len i : Z) (out : list Z) : M script (list Z) :=
  match n with
  | O => nofuel
  | S n' =>
      if len <=? i then mret out else
      let at_ k := peek opt (i + k) in
      maskwidth ← at_ 0;
      let gw k := (a ← at_ k; b ← at_ (k + 1); c ← at_ (k + 2); d ← at_ (k + 3); mret (ip_text a b c d)) in
      if (maskwidth =? 0) && (i + 4 <? len) then
        g ← gw 1; save Router_ip g;; route_loop n' opt len (i + 5) out
      else if (1 <=? maskwidth) && (maskwidth <=? 8) && (i + 5 <? len) then
        m ← mask_at (maskwidth - 1); a ← at_ 1; g ← gw 2;
        route_loop n' opt len (i + 6) (out ++ route_entry (ip_text (Z.land a m) 0 0 0) (ip_text m 0 0 0) g)
      else if (9 <=? maskwidth) && (maskwidth <=? 16) && (i + 6 <? len) then
        m ← mask_at (maskwidth - 9); a ← at_ 1; b ← at_ 2; g ← gw 3;
        route_loop n' opt len (i + 7) (out ++ route_entry (ip_text a (Z.land b m) 0 0) (ip_text 255 m 0 0) g)
      else if (17 <=? maskwidth) && (maskwidth <=? 24) && (i + 7 <? len) then
        m ← mask_at (maskwidth - 17); a ← at_ 1; b ← at_ 2; c ← at_ 3; g ← gw 4;
        route_loop n' opt len (i + 8) (out ++ route_entry (ip_text a b (Z.land c m) 0) (ip_text 255 255 m 0) g)
      else if (25 <=? maskwidth) && (maskwidth <=? 32) && (i + 8 <? len) then
        m ← mask_at (maskwidth - 25); a ← at_ 1; b ← at_ 2; c ← at_ 3; d ← at_ 4; g ← gw 5;
        route_loop n' opt len (i + 9) (out ++ route_entry (ip_text a b c (Z.land d m)) (ip_text 255 255 255 m) g)
      else mret out
  end.

Section child.
Context (sys : script_env).
(** [session_path], [client_config.Interface] and [client_config.script]. *)
Context (session_path Interface scriptname : list Z).

(** A round takes at least five bytes. *)
Definition file_save_route : M script unit :=
  len ← gets option121_lenth;
  if decide (session_path = []) then mret tt else
  stpath ← fits 128 (slash PATH_WAN_ROOT (slash session_path (cstr "staticroute")));
  if se_writable sys stpath then
    put_file stpath [];;
    opt ← gets (λ s, ss_statics s Option_121);
    out ← route_loop (S (Z.to_nat len)) opt len 0 [];
    put_file stpath out
  else mret tt.

(** ** What is saved *)

Definition PATH_GW : list Z := cstr "/var/fyi/sys/gateway".
Definition wan_file (name : string) : M script (list Z) :=
  fits 128 (slash PATH_WAN_DIR (slash session_path (cstr name))).

(** Is the mobile network in use?  An empty file leaves what the stack holds. *)
Definition data_flag : M script bool :=
  f ← the_file (cstr "/var/HspaDataStatus");
  match f with
  | Some content =>
      let temps := match fgets 31 content with ([], _) => se_stack sys | (line, _) => line end in
      mret (bool_decide (49 ∈ c_string temps))
  | None => mret false
  end.

Definition save_value (name : string) (b : static_buf) : M script unit :=
  v ← text b; tmpfile_writevalue sys (cstr name) v;; mret tt.
(** The value, if there is one. *)
Definition save_some (name : string) (b : static_buf) : M script unit :=
  v ← text b; if decide (v = []) then mret tt else save_value name b.
(** The second of two servers is saved when there is a first one. *)
Definition save_two (name1 : string) (b1 : static_buf) (name2 : string) (b2 : static_buf) : M script unit :=
  v ← text b1; if decide (v = []) then mret tt else save_value name1 b1;; save_some name2 b2.

Definition DNSSRV_DHCP_TYPE : Z := 3.

(** The address, the mask, and the name servers and the gateway of the system. *)
Definition save_addresses : M script bool :=
  path1 ← (if decide (session_path = []) then mret [] else wan_file "ipaddress");
  ip ← text Local_ip;
  file_save sys path1 ip false;;
  path2 ← (if decide (session_path = []) then mret path1 else wan_file "subnetmask");
  subnet ← text Subnet_ip;
  (if decide (subnet = []) then mret tt else file_save sys path2 subnet false);;
  shell 128 (cstr "mkdir -p /var/fyi/sys");;
  dns ← text Dns_ip;
  flag ← (if decide (dns = []) then mret false else
          flag ← data_flag;
          file_save sys (cstr "/var/fyi/sys/dynamicdns") dns (negb flag);;
          (if flag : bool then shell 128 (cstr "echo 0 >/var/HspaDataStatus");; put_file (cstr "/var/HspaDataStatus") (cstr "0" ++ [10])
           else mret tt);;
          mret flag);
  router ← text Router_ip;
  (if decide (router = []) then mret tt else file_save sys PATH_GW router (negb flag));;
  mret flag.

(** The files of the interface; option 121 may change the gateway. *)
Definition save_interface : M script unit :=
  if decide (session_path = []) then mret tt else
  dns ← text Dns_ip;
  (if decide (dns = []) then mret tt else
     dir ← fits 128 (slash PATH_WAN_ROOT session_path);
     shell 128 (cstr "mkdir -p " ++ dir);;
     path ← fits 128 (slash PATH_WAN_ROOT (slash session_path (cstr "dns")));
     file_save sys path dns false);;
  (if se_msgs sys then on_world (add_wmsg (DNSSRV_DHCP_TYPE, take 127 session_path)) else mret tt);;
  o121 ← text Option_121;
  (if decide (o121 = []) then mret tt else file_save_route);;
  router ← text Router_ip;
  (if decide (router = []) then mret tt else
     shell 128 (cstr "mkdir -p " ++ slash PATH_WAN_ROOT session_path);;
     dfpath ← fits 128 (slash PATH_WAN_ROOT (slash session_path (cstr "gateway")));
     file_save sys dfpath router false).

(** The values for other programs. *)
Definition save_values : M script unit :=
  router ← text Router_ip;
  (if decide (router = []) then mret tt else
     fileName ← fits 128 (cstr "gw_" ++ Interface);
     tmpfile_writevalue sys fileName router;; mret tt);;
  save_value "RootPath" Root_path;;
  save_some "timezone" Timezone;;
  save_two "logsvr1" Logsvr1 "logsvr2" Logsvr2;;
  save_some "logsvr_string" Logsvr_string;;
  save_two "tftpsvr1" Tftpsvr1 "tftpsvr2" Tftpsvr2;;
  save_some "tftp_string" Tftp_string;;
  save_some "hostname" Hostname_string;;
  save_some "domain" Domain_string;;
  save_two "ntpsvr1" Ntpsvr1 "ntpsvr2" Ntpsvr2;;
  save_some "ntpsvr_string" Ntpsvr_string;;
  save_some "tftp_string" Tftp_string;;
  save_some "bootfile" Bootfile_string;;
  save_some "option_43" Option_43.

Definition config_save : M script unit :=
  save_addresses;;
  save_interface;;
  dns ← text Dns_ip;
  (if decide (dns = []) then mret tt else path ← wan_file "dns"; file_save sys path dns false);;
  save_values.

(** ** The environment of the script *)

(** A variable for every option of the table the message has. *)
Fixpoint fill_all (os : list dhcp_option) (packet : list Z) (envp : list (list Z)) : M script (list (list Z)) :=
  match os with
  | [] => mret envp
  | o :: os' =>
      q ← get_option packet (opt_code o);
      match q with
      | None => fill_all os' packet envp
      | Some temp =>
          len ← peek packet (temp - 1);
          ok ← alloc sys;
          if ok : bool then
            t ← fill_options sys (max_option_length len o + Z.of_nat (length (cstr (opt_name o))) + 2) packet temp o;
            fill_all os' packet (envp ++ [c_string t])
          else fill_all os' packet envp
      end
  end.

(** A variable from a fixed field, whose last byte is made a NUL. *)
Definition field_var (name : string) (packet : list Z) (off size : Z) (given : bool) (envp : list (list Z)) : M script (list (list Z)) :=
  b ← peek packet off;
  if given && negb (b =? 0) then
    bs ← get_bytes packet off (size - 1);
    alloc_or_fault sys;;
    mret (envp ++ [cstr name ++ [61] ++ c_string bs])
  else mret envp.

Definition fill_envp (packet : option (list Z)) : M script (list (list Z)) :=
  alloc_or_fault sys;;
  alloc_or_fault sys;;
  let env0 := cstr "interface=" ++ Interface in
  ok ← alloc sys;
  let path := default (cstr "PATH=/bin:/usr/bin:/sbin:/usr/sbin") (se_PATH sys) in
  let home := default (cstr "HOME=/") (se_HOME sys) in
  match packet with
  | None => mret (if ok : bool then [env0; cstr "ip=0.0.0.0"; path; home] else [env0])
  | Some p =>
      if negb ok then fault else
      ip ← four p OFF_YIADDR;
      save Local_ip ip;;
      save Dns_ip [];;
      over ← (o ← get_option p DHCP_OPTION_OVER; match o with Some q => peek p q | None => mret 0 end);
      envp ← fill_all options p [env0; cstr "ip=" ++ ip; path; home];
      si ← load32 p OFF_SIADDR;
      envp1 ← (if si =? 0 then mret envp else
               alloc_or_fault sys;; mret (envp ++ [cstr "siaddr=" ++ ip]));
      envp2 ← field_var "boot_file" p OFF_FILE 128 (Z.land over FILE_FIELD =? 0) envp1;
      envp3 ← field_var "sname" p OFF_SNAME 64 (Z.land over SNAME_FIELD =? 0) envp2;
      config_save;;
      mret envp3
  end.

(** The child: the script gets its name and [name] as its arguments. *)
Definition script_child (packet : option (list Z)) (name : list Z) : M script unit :=
  envp ← fill_envp packet; on_world (add_wexec (scriptname, name, envp)).
End child.
