(* ===== verification/DhcpClient.v ===== *)
(** * The DHCP client ([clientpacket.c], [dhcpc.c], [dhcpc.h] of udhcp)

    The variables of the client and what it gets from the system around it, the
    messages the client sends, its signal handlers, and its main loop as a
    machine that takes one event a round: the loop waits in [select] until its
    timer runs out, a packet comes or a signal is taken.  Time is the system's up
    time in seconds; it passes while the client waits, for as long as an event
    says, and when the client sleeps.  The build is that of the server, with
    [VDF_FORCERENEW] and [SUPPORT_DHCP_SURGE]. *)

From stdpp Require Import base numbers list strings.
From Stdlib Require Import ZArith Lia Bool.
From S2P Require Import Prelude CText DhcpPacket DhcpLease DhcpFiles DhcpVi DhcpServer DhcpConf DhcpScript.

(** ** Data *)

Definition INIT_SELECTING : Z := 0.
Definition REQUESTING : Z := 1.
Definition BOUND : Z := 2.
Definition RENEWING : Z := 3.
Definition REBINDING : Z := 4.
Definition INIT_REBOOT : Z := 5.
Definition RENEW_REQUESTED : Z := 6.
Definition RELEASED : Z := 7.

Definition LISTEN_NONE : Z := 0.
Definition LISTEN_KERNEL : Z := 1.
Definition LISTEN_RAW : Z := 2.

Definition DHCPFORCERENEW : Z := 9.
Definition ICMP_DHCP_AUTOACL_MAX : nat := 16.
Definition DHCP_COMMAND_LEN : Z := 255.

(** Strings are their characters; an option is its code, length and data. *)
Record client_config_t : Type := {
  cc_foreground : Z;
  cc_quit_after_lease : Z;
  cc_abort_if_no_lease : Z;
  cc_interface : list Z;
  cc_Interface : list Z;
  cc_pidfile : option (list Z);
  cc_script : list Z;
  cc_clientid : option (list Z);
  cc_hostname : option (list Z);
  cc_ifindex : Z;
  cc_arp : list Z
}.

Definition set_clientid (v : option (list Z)) (c : client_config_t) : client_config_t :=
  {| cc_foreground := cc_foreground c; cc_quit_after_lease := cc_quit_after_lease c; cc_abort_if_no_lease := cc_abort_if_no_lease c;
     cc_interface := cc_interface c; cc_Interface := cc_Interface c; cc_pidfile := cc_pidfile c; cc_script := cc_script c;
     cc_clientid := v; cc_hostname := cc_hostname c; cc_ifindex := cc_ifindex c; cc_arp := cc_arp c |}.
Definition set_foreground (v : Z) (c : client_config_t) : client_config_t :=
  {| cc_foreground := v; cc_quit_after_lease := cc_quit_after_lease c; cc_abort_if_no_lease := cc_abort_if_no_lease c;
     cc_interface := cc_interface c; cc_Interface := cc_Interface c; cc_pidfile := cc_pidfile c; cc_script := cc_script c;
     cc_clientid := cc_clientid c; cc_hostname := cc_hostname c; cc_ifindex := cc_ifindex c; cc_arp := cc_arp c |}.

(** The variables of the program and of its main function: [c_now] is the up time,
    [c_seed] and [c_drawn] the last [srand] and the calls of [rand] since,
    [c_seeded] the variable [initialized] of [random_xid], [c_packet] the buffer a
    message is read into, [c_wakes] counts the calls that wake the monitor task.
    The other counters number the calls of the system. *)
Record dhcpc : Type := {
  cl_config : client_config_t;
  c_state : Z;
  c_requested_ip : Z;
  c_server_addr : Z;
  c_gGwIp : list (list Z);
  c_pre_server_addr : list Z;
  c_acl_dhcp_flag : Z;
  c_timeout : Z;
  c_packet_num : Z;
  c_discover_times : Z;
  c_session_path : list Z;
  c_status_path : list Z;
  c_pid_path : list Z;
  c_vendor_class_id : list Z;
  c_listen_mode : Z;
  c_old_mode : Z;
  c_oldStatus : Z;
  c_t1 : Z;
  c_t2 : Z;
  c_xid : Z;
  c_start : Z;
  c_lease : Z;
  c_fd : Z;
  c_packet : list Z;
  c_seeded : bool;
  c_seed : Z;
  c_drawn : nat;
  c_lrands : nat;
  c_now : Z;
  c_tmp_gets : nat;
  c_serials : nat;
  c_sockets : nat;
  c_forks : nat;
  c_sends : nat;
  c_sent : list sent_packet;
  c_wakes : nat;
  cl_world : world
}.

Definition set_cl_config (v : client_config_t) (s : dhcpc) : dhcpc :=
  {| cl_config := v; c_state := c_state s; c_requested_ip := c_requested_ip s; c_server_addr := c_server_addr s;
     c_gGwIp := c_gGwIp s; c_pre_server_addr := c_pre_server_addr s; c_acl_dhcp_flag := c_acl_dhcp_flag s;
     c_timeout := c_timeout s; c_packet_num := c_packet_num s; c_discover_times := c_discover_times s;
     c_session_path := c_session_path s; c_status_path := c_status_path s; c_pid_path := c_pid_path s;
     c_vendor_class_id := c_vendor_class_id s; c_listen_mode := c_listen_mode s; c_old_mode := c_old_mode s;
     c_oldStatus := c_oldStatus s; c_t1 := c_t1 s; c_t2 := c_t2 s; c_xid := c_xid s; c_start := c_start s;
     c_lease := c_lease s; c_fd := c_fd s; c_packet := c_packet s; c_seeded := c_seeded s; c_seed := c_seed s;
     c_drawn := c_drawn s; c_lrands := c_lrands s; c_now := c_now s; c_tmp_gets := c_tmp_gets s; c_serials := c_serials s;
     c_sockets := c_sockets s; c_forks := c_forks s; c_sends := c_sends s; c_sent := c_sent s; c_wakes := c_wakes s;
     cl_world := cl_world s |}.
Definition set_c_state (v : Z) (s : dhcpc) : dhcpc :=
  {| cl_config := cl_config s; c_state := v; c_requested_ip := c_requested_ip s; c_server_addr := c_server_addr s;
     c_gGwIp := c_gGwIp s; c_pre_server_addr := c_pre_server_addr s; c_acl_dhcp_flag := c_acl_dhcp_flag s;
     c_timeout := c_timeout s; c_packet_num := c_packet_num s; c_discover_times := c_discover_times s;
     c_session_path := c_session_path s; c_status_path := c_status_path s; c_pid_path := c_pid_path s;
     c_vendor_class_id := c_vendor_class_id s; c_listen_mode := c_listen_mode s; c_old_mode := c_old_mode s;
     c_oldStatus := c_oldStatus s; c_t1 := c_t1 s; c_t2 := c_t2 s; c_xid := c_xid s; c_start := c_start s;
     c_lease := c_lease s; c_fd := c_fd s; c_packet := c_packet s; c_seeded := c_seeded s; c_seed := c_seed s;
     c_drawn := c_drawn s; c_lrands := c_lrands s; c_now := c_now s; c_tmp_gets := c_tmp_gets s; c_serials := c_serials s;
     c_sockets := c_sockets s; c_forks := c_forks s; c_sends := c_sends s; c_sent := c_sent s; c_wakes := c_wakes s;
     cl_world := cl_world s |}.
Definition set_c_requested_ip (v : Z) (s : dhcpc) : dhcpc :=
  {| cl_config := cl_config s; c_state := c_state s; c_requested_ip := v; c_server_addr := c_server_addr s;
     c_gGwIp := c_gGwIp s; c_pre_server_addr := c_pre_server_addr s; c_acl_dhcp_flag := c_acl_dhcp_flag s;
     c_timeout := c_timeout s; c_packet_num := c_packet_num s; c_discover_times := c_discover_times s;
     c_session_path := c_session_path s; c_status_path := c_status_path s; c_pid_path := c_pid_path s;
     c_vendor_class_id := c_vendor_class_id s; c_listen_mode := c_listen_mode s; c_old_mode := c_old_mode s;
     c_oldStatus := c_oldStatus s; c_t1 := c_t1 s; c_t2 := c_t2 s; c_xid := c_xid s; c_start := c_start s;
     c_lease := c_lease s; c_fd := c_fd s; c_packet := c_packet s; c_seeded := c_seeded s; c_seed := c_seed s;
     c_drawn := c_drawn s; c_lrands := c_lrands s; c_now := c_now s; c_tmp_gets := c_tmp_gets s; c_serials := c_serials s;
     c_sockets := c_sockets s; c_forks := c_forks s; c_sends := c_sends s; c_sent := c_sent s; c_wakes := c_wakes s;
     cl_world := cl_world s |}.
Definition set_c_server_addr (v : Z) (s : dhcpc) : dhcpc :=
  {| cl_config := cl_config s; c_state := c_state s; c_requested_ip := c_requested_ip s; c_server_addr := v;
     c_gGwIp := c_gGwIp s; c_pre_server_addr := c_pre_server_addr s; c_acl_dhcp_flag := c_acl_dhcp_flag s;
     c_timeout := c_timeout s; c_packet_num := c_packet_num s; c_discover_times := c_discover_times s;
     c_session_path := c_session_path s; c_status_path := c_status_path s; c_pid_path := c_pid_path s;
     c_vendor_class_id := c_vendor_class_id s; c_listen_mode := c_listen_mode s; c_old_mode := c_old_mode s;
     c_oldStatus := c_oldStatus s; c_t1 := c_t1 s; c_t2 := c_t2 s; c_xid := c_xid s; c_start := c_start s;
     c_lease := c_lease s; c_fd := c_fd s; c_packet := c_packet s; c_seeded := c_seeded s; c_seed := c_seed s;
     c_drawn := c_drawn s; c_lrands := c_lrands s; c_now := c_now s; c_tmp_gets := c_tmp_gets s; c_serials := c_serials s;
     c_sockets := c_sockets s; c_forks := c_forks s; c_sends := c_sends s; c_sent := c_sent s; c_wakes := c_wakes s;
     cl_world := cl_world s |}.
Definition set_c_gGwIp (v : list (list Z)) (s : dhcpc) : dhcpc :=
  {| cl_config := cl_config s; c_state := c_state s; c_requested_ip := c_requested_ip s; c_server_addr := c_server_addr s;
     c_gGwIp := v; c_pre_server_addr := c_pre_server_addr s; c_acl_dhcp_flag := c_acl_dhcp_flag s;
     c_timeout := c_timeout s; c_packet_num := c_packet_num s; c_discover_times := c_discover_times s;
     c_session_path := c_session_path s; c_status_path := c_status_path s; c_pid_path := c_pid_path s;
     c_vendor_class_id := c_vendor_class_id s; c_listen_mode := c_listen_mode s; c_old_mode := c_old_mode s;
     c_oldStatus := c_oldStatus s; c_t1 := c_t1 s; c_t2 := c_t2 s; c_xid := c_xid s; c_start := c_start s;
     c_lease := c_lease s; c_fd := c_fd s; c_packet := c_packet s; c_seeded := c_seeded s; c_seed := c_seed s;
     c_drawn := c_drawn s; c_lrands := c_lrands s; c_now := c_now s; c_tmp_gets := c_tmp_gets s; c_serials := c_serials s;
     c_sockets := c_sockets s; c_forks := c_forks s; c_sends := c_sends s; c_sent := c_sent s; c_wakes := c_wakes s;
     cl_world := cl_world s |}.
Definition set_c_pre_server_addr (v : list Z) (s : dhcpc) : dhcpc :=
  {| cl_config := cl_config s; c_state := c_state s; c_requested_ip := c_requested_ip s; c_server_addr := c_server_addr s;
     c_gGwIp := c_gGwIp s; c_pre_server_addr := v; c_acl_dhcp_flag := c_acl_dhcp_flag s; c_timeout := c_timeout s;
     c_packet_num := c_packet_num s; c_discover_times := c_discover_times s; c_session_path := c_session_path s;
     c_status_path := c_status_path s; c_pid_path := c_pid_path s; c_vendor_class_id := c_vendor_class_id s;
     c_listen_mode := c_listen_mode s; c_old_mode := c_old_mode s; c_oldStatus := c_oldStatus s; c_t1 := c_t1 s;
     c_t2 := c_t2 s; c_xid := c_xid s; c_start := c_start s; c_lease := c_lease s; c_fd := c_fd s; c_packet := c_packet s;
     c_seeded := c_seeded s; c_seed := c_seed s; c_drawn := c_drawn s; c_lrands := c_lrands s; c_now := c_now s;
     c_tmp_gets := c_tmp_gets s; c_serials := c_serials s; c_sockets := c_sockets s; c_forks := c_forks s;
     c_sends := c_sends s; c_sent := c_sent s; c_wakes := c_wakes s; cl_world := cl_world s |}.
Definition set_c_acl_dhcp_flag (v : Z) (s : dhcpc) : dhcpc :=
  {| cl_config := cl_config s; c_state := c_state s; c_requested_ip := c_requested_ip s; c_server_addr := c_server_addr s;
     c_gGwIp := c_gGwIp s; c_pre_server_addr := c_pre_server_addr s; c_acl_dhcp_flag := v; c_timeout := c_timeout s;
     c_packet_num := c_packet_num s; c_discover_times := c_discover_times s; c_session_path := c_session_path s;
     c_status_path := c_status_path s; c_pid_path := c_pid_path s; c_vendor_class_id := c_vendor_class_id s;
     c_listen_mode := c_listen_mode s; c_old_mode := c_old_mode s; c_oldStatus := c_oldStatus s; c_t1 := c_t1 s;
     c_t2 := c_t2 s; c_xid := c_xid s; c_start := c_start s; c_lease := c_lease s; c_fd := c_fd s; c_packet := c_packet s;
     c_seeded := c_seeded s; c_seed := c_seed s; c_drawn := c_drawn s; c_lrands := c_lrands s; c_now := c_now s;
     c_tmp_gets := c_tmp_gets s; c_serials := c_serials s; c_sockets := c_sockets s; c_forks := c_forks s;
     c_sends := c_sends s; c_sent := c_sent s; c_wakes := c_wakes s; cl_world := cl_world s |}.
Definition set_c_timeout (v : Z) (s : dhcpc) : dhcpc :=
  {| cl_config := cl_config s; c_state := c_state s; c_requested_ip := c_requested_ip s; c_server_addr := c_server_addr s;
     c_gGwIp := c_gGwIp s; c_pre_server_addr := c_pre_server_addr s; c_acl_dhcp_flag := c_acl_dhcp_flag s; c_timeout := v;
     c_packet_num := c_packet_num s; c_discover_times := c_discover_times s; c_session_path := c_session_path s;
     c_status_path := c_status_path s; c_pid_path := c_pid_path s; c_vendor_class_id := c_vendor_class_id s;
     c_listen_mode := c_listen_mode s; c_old_mode := c_old_mode s; c_oldStatus := c_oldStatus s; c_t1 := c_t1 s;
     c_t2 := c_t2 s; c_xid := c_xid s; c_start := c_start s; c_lease := c_lease s; c_fd := c_fd s; c_packet := c_packet s;
     c_seeded := c_seeded s; c_seed := c_seed s; c_drawn := c_drawn s; c_lrands := c_lrands s; c_now := c_now s;
     c_tmp_gets := c_tmp_gets s; c_serials := c_serials s; c_sockets := c_sockets s; c_forks := c_forks s;
     c_sends := c_sends s; c_sent := c_sent s; c_wakes := c_wakes s; cl_world := cl_world s |}.
Definition set_c_packet_num (v : Z) (s : dhcpc) : dhcpc :=
  {| cl_config := cl_config s; c_state := c_state s; c_requested_ip := c_requested_ip s; c_server_addr := c_server_addr s;
     c_gGwIp := c_gGwIp s; c_pre_server_addr := c_pre_server_addr s; c_acl_dhcp_flag := c_acl_dhcp_flag s;
     c_timeout := c_timeout s; c_packet_num := v; c_discover_times := c_discover_times s;
     c_session_path := c_session_path s; c_status_path := c_status_path s; c_pid_path := c_pid_path s;
     c_vendor_class_id := c_vendor_class_id s; c_listen_mode := c_listen_mode s; c_old_mode := c_old_mode s;
     c_oldStatus := c_oldStatus s; c_t1 := c_t1 s; c_t2 := c_t2 s; c_xid := c_xid s; c_start := c_start s;
     c_lease := c_lease s; c_fd := c_fd s; c_packet := c_packet s; c_seeded := c_seeded s; c_seed := c_seed s;
     c_drawn := c_drawn s; c_lrands := c_lrands s; c_now := c_now s; c_tmp_gets := c_tmp_gets s; c_serials := c_serials s;
     c_sockets := c_sockets s; c_forks := c_forks s; c_sends := c_sends s; c_sent := c_sent s; c_wakes := c_wakes s;
     cl_world := cl_world s |}.
Definition set_c_discover_times (v : Z) (s : dhcpc) : dhcpc :=
  {| cl_config := cl_config s; c_state := c_state s; c_requested_ip := c_requested_ip s; c_server_addr := c_server_addr s;
     c_gGwIp := c_gGwIp s; c_pre_server_addr := c_pre_server_addr s; c_acl_dhcp_flag := c_acl_dhcp_flag s;
     c_timeout := c_timeout s; c_packet_num := c_packet_num s; c_discover_times := v; c_session_path := c_session_path s;
     c_status_path := c_status_path s; c_pid_path := c_pid_path s; c_vendor_class_id := c_vendor_class_id s;
     c_listen_mode := c_listen_mode s; c_old_mode := c_old_mode s; c_oldStatus := c_oldStatus s; c_t1 := c_t1 s;
     c_t2 := c_t2 s; c_xid := c_xid s; c_start := c_start s; c_lease := c_lease s; c_fd := c_fd s; c_packet := c_packet s;
     c_seeded := c_seeded s; c_seed := c_seed s; c_drawn := c_drawn s; c_lrands := c_lrands s; c_now := c_now s;
     c_tmp_gets := c_tmp_gets s; c_serials := c_serials s; c_sockets := c_sockets s; c_forks := c_forks s;
     c_sends := c_sends s; c_sent := c_sent s; c_wakes := c_wakes s; cl_world := cl_world s |}.
Definition set_c_session_path (v : list Z) (s : dhcpc) : dhcpc :=
  {| cl_config := cl_config s; c_state := c_state s; c_requested_ip := c_requested_ip s; c_server_addr := c_server_addr s;
     c_gGwIp := c_gGwIp s; c_pre_server_addr := c_pre_server_addr s; c_acl_dhcp_flag := c_acl_dhcp_flag s;
     c_timeout := c_timeout s; c_packet_num := c_packet_num s; c_discover_times := c_discover_times s;
     c_session_path := v; c_status_path := c_status_path s; c_pid_path := c_pid_path s;
     c_vendor_class_id := c_vendor_class_id s; c_listen_mode := c_listen_mode s; c_old_mode := c_old_mode s;
     c_oldStatus := c_oldStatus s; c_t1 := c_t1 s; c_t2 := c_t2 s; c_xid := c_xid s; c_start := c_start s;
     c_lease := c_lease s; c_fd := c_fd s; c_packet := c_packet s; c_seeded := c_seeded s; c_seed := c_seed s;
     c_drawn := c_drawn s; c_lrands := c_lrands s; c_now := c_now s; c_tmp_gets := c_tmp_gets s; c_serials := c_serials s;
     c_sockets := c_sockets s; c_forks := c_forks s; c_sends := c_sends s; c_sent := c_sent s; c_wakes := c_wakes s;
     cl_world := cl_world s |}.
Definition set_c_status_path (v : list Z) (s : dhcpc) : dhcpc :=
  {| cl_config := cl_config s; c_state := c_state s; c_requested_ip := c_requested_ip s; c_server_addr := c_server_addr s;
     c_gGwIp := c_gGwIp s; c_pre_server_addr := c_pre_server_addr s; c_acl_dhcp_flag := c_acl_dhcp_flag s;
     c_timeout := c_timeout s; c_packet_num := c_packet_num s; c_discover_times := c_discover_times s;
     c_session_path := c_session_path s; c_status_path := v; c_pid_path := c_pid_path s;
     c_vendor_class_id := c_vendor_class_id s; c_listen_mode := c_listen_mode s; c_old_mode := c_old_mode s;
     c_oldStatus := c_oldStatus s; c_t1 := c_t1 s; c_t2 := c_t2 s; c_xid := c_xid s; c_start := c_start s;
     c_lease := c_lease s; c_fd := c_fd s; c_packet := c_packet s; c_seeded := c_seeded s; c_seed := c_seed s;
     c_drawn := c_drawn s; c_lrands := c_lrands s; c_now := c_now s; c_tmp_gets := c_tmp_gets s; c_serials := c_serials s;
     c_sockets := c_sockets s; c_forks := c_forks s; c_sends := c_sends s; c_sent := c_sent s; c_wakes := c_wakes s;
     cl_world := cl_world s |}.
Definition set_c_pid_path (v : list Z) (s : dhcpc) : dhcpc :=
  {| cl_config := cl_config s; c_state := c_state s; c_requested_ip := c_requested_ip s; c_server_addr := c_server_addr s;
     c_gGwIp := c_gGwIp s; c_pre_server_addr := c_pre_server_addr s; c_acl_dhcp_flag := c_acl_dhcp_flag s;
     c_timeout := c_timeout s; c_packet_num := c_packet_num s; c_discover_times := c_discover_times s;
     c_session_path := c_session_path s; c_status_path := c_status_path s; c_pid_path := v;
     c_vendor_class_id := c_vendor_class_id s; c_listen_mode := c_listen_mode s; c_old_mode := c_old_mode s;
     c_oldStatus := c_oldStatus s; c_t1 := c_t1 s; c_t2 := c_t2 s; c_xid := c_xid s; c_start := c_start s;
     c_lease := c_lease s; c_fd := c_fd s; c_packet := c_packet s; c_seeded := c_seeded s; c_seed := c_seed s;
     c_drawn := c_drawn s; c_lrands := c_lrands s; c_now := c_now s; c_tmp_gets := c_tmp_gets s; c_serials := c_serials s;
     c_sockets := c_sockets s; c_forks := c_forks s; c_sends := c_sends s; c_sent := c_sent s; c_wakes := c_wakes s;
     cl_world := cl_world s |}.
Definition set_c_vendor_class_id (v : list Z) (s : dhcpc) : dhcpc :=
  {| cl_config := cl_config s; c_state := c_state s; c_requested_ip := c_requested_ip s; c_server_addr := c_server_addr s;
     c_gGwIp := c_gGwIp s; c_pre_server_addr := c_pre_server_addr s; c_acl_dhcp_flag := c_acl_dhcp_flag s;
     c_timeout := c_timeout s; c_packet_num := c_packet_num s; c_discover_times := c_discover_times s;
     c_session_path := c_session_path s; c_status_path := c_status_path s; c_pid_path := c_pid_path s;
     c_vendor_class_id := v; c_listen_mode := c_listen_mode s; c_old_mode := c_old_mode s; c_oldStatus := c_oldStatus s;
     c_t1 := c_t1 s; c_t2 := c_t2 s; c_xid := c_xid s; c_start := c_start s; c_lease := c_lease s; c_fd := c_fd s;
     c_packet := c_packet s; c_seeded := c_seeded s; c_seed := c_seed s; c_drawn := c_drawn s; c_lrands := c_lrands s;
     c_now := c_now s; c_tmp_gets := c_tmp_gets s; c_serials := c_serials s; c_sockets := c_sockets s;
     c_forks := c_forks s; c_sends := c_sends s; c_sent := c_sent s; c_wakes := c_wakes s; cl_world := cl_world s |}.
Definition set_c_listen_mode (v : Z) (s : dhcpc) : dhcpc :=
  {| cl_config := cl_config s; c_state := c_state s; c_requested_ip := c_requested_ip s; c_server_addr := c_server_addr s;
     c_gGwIp := c_gGwIp s; c_pre_server_addr := c_pre_server_addr s; c_acl_dhcp_flag := c_acl_dhcp_flag s;
     c_timeout := c_timeout s; c_packet_num := c_packet_num s; c_discover_times := c_discover_times s;
     c_session_path := c_session_path s; c_status_path := c_status_path s; c_pid_path := c_pid_path s;
     c_vendor_class_id := c_vendor_class_id s; c_listen_mode := v; c_old_mode := c_old_mode s;
     c_oldStatus := c_oldStatus s; c_t1 := c_t1 s; c_t2 := c_t2 s; c_xid := c_xid s; c_start := c_start s;
     c_lease := c_lease s; c_fd := c_fd s; c_packet := c_packet s; c_seeded := c_seeded s; c_seed := c_seed s;
     c_drawn := c_drawn s; c_lrands := c_lrands s; c_now := c_now s; c_tmp_gets := c_tmp_gets s; c_serials := c_serials s;
     c_sockets := c_sockets s; c_forks := c_forks s; c_sends := c_sends s; c_sent := c_sent s; c_wakes := c_wakes s;
     cl_world := cl_world s |}.
Definition set_c_old_mode (v : Z) (s : dhcpc) : dhcpc :=
  {| cl_config := cl_config s; c_state := c_state s; c_requested_ip := c_requested_ip s; c_server_addr := c_server_addr s;
     c_gGwIp := c_gGwIp s; c_pre_server_addr := c_pre_server_addr s; c_acl_dhcp_flag := c_acl_dhcp_flag s;
     c_timeout := c_timeout s; c_packet_num := c_packet_num s; c_discover_times := c_discover_times s;
     c_session_path := c_session_path s; c_status_path := c_status_path s; c_pid_path := c_pid_path s;
     c_vendor_class_id := c_vendor_class_id s; c_listen_mode := c_listen_mode s; c_old_mode := v;
     c_oldStatus := c_oldStatus s; c_t1 := c_t1 s; c_t2 := c_t2 s; c_xid := c_xid s; c_start := c_start s;
     c_lease := c_lease s; c_fd := c_fd s; c_packet := c_packet s; c_seeded := c_seeded s; c_seed := c_seed s;
     c_drawn := c_drawn s; c_lrands := c_lrands s; c_now := c_now s; c_tmp_gets := c_tmp_gets s; c_serials := c_serials s;
     c_sockets := c_sockets s; c_forks := c_forks s; c_sends := c_sends s; c_sent := c_sent s; c_wakes := c_wakes s;
     cl_world := cl_world s |}.
Definition set_c_oldStatus (v : Z) (s : dhcpc) : dhcpc :=
  {| cl_config := cl_config s; c_state := c_state s; c_requested_ip := c_requested_ip s; c_server_addr := c_server_addr s;
     c_gGwIp := c_gGwIp s; c_pre_server_addr := c_pre_server_addr s; c_acl_dhcp_flag := c_acl_dhcp_flag s;
     c_timeout := c_timeout s; c_packet_num := c_packet_num s; c_discover_times := c_discover_times s;
     c_session_path := c_session_path s; c_status_path := c_status_path s; c_pid_path := c_pid_path s;
     c_vendor_class_id := c_vendor_class_id s; c_listen_mode := c_listen_mode s; c_old_mode := c_old_mode s;
     c_oldStatus := v; c_t1 := c_t1 s; c_t2 := c_t2 s; c_xid := c_xid s; c_start := c_start s; c_lease := c_lease s;
     c_fd := c_fd s; c_packet := c_packet s; c_seeded := c_seeded s; c_seed := c_seed s; c_drawn := c_drawn s;
     c_lrands := c_lrands s; c_now := c_now s; c_tmp_gets := c_tmp_gets s; c_serials := c_serials s;
     c_sockets := c_sockets s; c_forks := c_forks s; c_sends := c_sends s; c_sent := c_sent s; c_wakes := c_wakes s;
     cl_world := cl_world s |}.
Definition set_c_t1 (v : Z) (s : dhcpc) : dhcpc :=
  {| cl_config := cl_config s; c_state := c_state s; c_requested_ip := c_requested_ip s; c_server_addr := c_server_addr s;
     c_gGwIp := c_gGwIp s; c_pre_server_addr := c_pre_server_addr s; c_acl_dhcp_flag := c_acl_dhcp_flag s;
     c_timeout := c_timeout s; c_packet_num := c_packet_num s; c_discover_times := c_discover_times s;
     c_session_path := c_session_path s; c_status_path := c_status_path s; c_pid_path := c_pid_path s;
     c_vendor_class_id := c_vendor_class_id s; c_listen_mode := c_listen_mode s; c_old_mode := c_old_mode s;
     c_oldStatus := c_oldStatus s; c_t1 := v; c_t2 := c_t2 s; c_xid := c_xid s; c_start := c_start s;
     c_lease := c_lease s; c_fd := c_fd s; c_packet := c_packet s; c_seeded := c_seeded s; c_seed := c_seed s;
     c_drawn := c_drawn s; c_lrands := c_lrands s; c_now := c_now s; c_tmp_gets := c_tmp_gets s; c_serials := c_serials s;
     c_sockets := c_sockets s; c_forks := c_forks s; c_sends := c_sends s; c_sent := c_sent s; c_wakes := c_wakes s;
     cl_world := cl_world s |}.
Definition set_c_t2 (v : Z) (s : dhcpc) : dhcpc :=
  {| cl_config := cl_config s; c_state := c_state s; c_requested_ip := c_requested_ip s; c_server_addr := c_server_addr s;
     c_gGwIp := c_gGwIp s; c_pre_server_addr := c_pre_server_addr s; c_acl_dhcp_flag := c_acl_dhcp_flag s;
     c_timeout := c_timeout s; c_packet_num := c_packet_num s; c_discover_times := c_discover_times s;
     c_session_path := c_session_path s; c_status_path := c_status_path s; c_pid_path := c_pid_path s;
     c_vendor_class_id := c_vendor_class_id s; c_listen_mode := c_listen_mode s; c_old_mode := c_old_mode s;
     c_oldStatus := c_oldStatus s; c_t1 := c_t1 s; c_t2 := v; c_xid := c_xid s; c_start := c_start s;
     c_lease := c_lease s; c_fd := c_fd s; c_packet := c_packet s; c_seeded := c_seeded s; c_seed := c_seed s;
     c_drawn := c_drawn s; c_lrands := c_lrands s; c_now := c_now s; c_tmp_gets := c_tmp_gets s; c_serials := c_serials s;
     c_sockets := c_sockets s; c_forks := c_forks s; c_sends := c_sends s; c_sent := c_sent s; c_wakes := c_wakes s;
     cl_world := cl_world s |}.
Definition set_c_xid (v : Z) (s : dhcpc) : dhcpc :=
  {| cl_config := cl_config s; c_state := c_state s; c_requested_ip := c_requested_ip s; c_server_addr := c_server_addr s;
     c_gGwIp := c_gGwIp s; c_pre_server_addr := c_pre_server_addr s; c_acl_dhcp_flag := c_acl_dhcp_flag s;
     c_timeout := c_timeout s; c_packet_num := c_packet_num s; c_discover_times := c_discover_times s;
     c_session_path := c_session_path s; c_status_path := c_status_path s; c_pid_path := c_pid_path s;
     c_vendor_class_id := c_vendor_class_id s; c_listen_mode := c_listen_mode s; c_old_mode := c_old_mode s;
     c_oldStatus := c_oldStatus s; c_t1 := c_t1 s; c_t2 := c_t2 s; c_xid := v; c_start := c_start s; c_lease := c_lease s;
     c_fd := c_fd s; c_packet := c_packet s; c_seeded := c_seeded s; c_seed := c_seed s; c_drawn := c_drawn s;
     c_lrands := c_lrands s; c_now := c_now s; c_tmp_gets := c_tmp_gets s; c_serials := c_serials s;
     c_sockets := c_sockets s; c_forks := c_forks s; c_sends := c_sends s; c_sent := c_sent s; c_wakes := c_wakes s;
     cl_world := cl_world s |}.
Definition set_c_start (v : Z) (s : dhcpc) : dhcpc :=
  {| cl_config := cl_config s; c_state := c_state s; c_requested_ip := c_requested_ip s; c_server_addr := c_server_addr s;
     c_gGwIp := c_gGwIp s; c_pre_server_addr := c_pre_server_addr s; c_acl_dhcp_flag := c_acl_dhcp_flag s;
     c_timeout := c_timeout s; c_packet_num := c_packet_num s; c_discover_times := c_discover_times s;
     c_session_path := c_session_path s; c_status_path := c_status_path s; c_pid_path := c_pid_path s;
     c_vendor_class_id := c_vendor_class_id s; c_listen_mode := c_listen_mode s; c_old_mode := c_old_mode s;
     c_oldStatus := c_oldStatus s; c_t1 := c_t1 s; c_t2 := c_t2 s; c_xid := c_xid s; c_start := v; c_lease := c_lease s;
     c_fd := c_fd s; c_packet := c_packet s; c_seeded := c_seeded s; c_seed := c_seed s; c_drawn := c_drawn s;
     c_lrands := c_lrands s; c_now := c_now s; c_tmp_gets := c_tmp_gets s; c_serials := c_serials s;
     c_sockets := c_sockets s; c_forks := c_forks s; c_sends := c_sends s; c_sent := c_sent s; c_wakes := c_wakes s;
     cl_world := cl_world s |}.
Definition set_c_lease (v : Z) (s : dhcpc) : dhcpc :=
  {| cl_config := cl_config s; c_state := c_state s; c_requested_ip := c_requested_ip s; c_server_addr := c_server_addr s;
     c_gGwIp := c_gGwIp s; c_pre_server_addr := c_pre_server_addr s; c_acl_dhcp_flag := c_acl_dhcp_flag s;
     c_timeout := c_timeout s; c_packet_num := c_packet_num s; c_discover_times := c_discover_times s;
     c_session_path := c_session_path s; c_status_path := c_status_path s; c_pid_path := c_pid_path s;
     c_vendor_class_id := c_vendor_class_id s; c_listen_mode := c_listen_mode s; c_old_mode := c_old_mode s;
     c_oldStatus := c_oldStatus s; c_t1 := c_t1 s; c_t2 := c_t2 s; c_xid := c_xid s; c_start := c_start s; c_lease := v;
     c_fd := c_fd s; c_packet := c_packet s; c_seeded := c_seeded s; c_seed := c_seed s; c_drawn := c_drawn s;
     c_lrands := c_lrands s; c_now := c_now s; c_tmp_gets := c_tmp_gets s; c_serials := c_serials s;
     c_sockets := c_sockets s; c_forks := c_forks s; c_sends := c_sends s; c_sent := c_sent s; c_wakes := c_wakes s;
     cl_world := cl_world s |}.
Definition set_c_fd (v : Z) (s : dhcpc) : dhcpc :=
  {| cl_config := cl_config s; c_state := c_state s; c_requested_ip := c_requested_ip s; c_server_addr := c_server_addr s;
     c_gGwIp := c_gGwIp s; c_pre_server_addr := c_pre_server_addr s; c_acl_dhcp_flag := c_acl_dhcp_flag s;
     c_timeout := c_timeout s; c_packet_num := c_packet_num s; c_discover_times := c_discover_times s;
     c_session_path := c_session_path s; c_status_path := c_status_path s; c_pid_path := c_pid_path s;
     c_vendor_class_id := c_vendor_class_id s; c_listen_mode := c_listen_mode s; c_old_mode := c_old_mode s;
     c_oldStatus := c_oldStatus s; c_t1 := c_t1 s; c_t2 := c_t2 s; c_xid := c_xid s; c_start := c_start s;
     c_lease := c_lease s; c_fd := v; c_packet := c_packet s; c_seeded := c_seeded s; c_seed := c_seed s;
     c_drawn := c_drawn s; c_lrands := c_lrands s; c_now := c_now s; c_tmp_gets := c_tmp_gets s; c_serials := c_serials s;
     c_sockets := c_sockets s; c_forks := c_forks s; c_sends := c_sends s; c_sent := c_sent s; c_wakes := c_wakes s;
     cl_world := cl_world s |}.
Definition set_c_packet (v : list Z) (s : dhcpc) : dhcpc :=
  {| cl_config := cl_config s; c_state := c_state s; c_requested_ip := c_requested_ip s; c_server_addr := c_server_addr s;
     c_gGwIp := c_gGwIp s; c_pre_server_addr := c_pre_server_addr s; c_acl_dhcp_flag := c_acl_dhcp_flag s;
     c_timeout := c_timeout s; c_packet_num := c_packet_num s; c_discover_times := c_discover_times s;
     c_session_path := c_session_path s; c_status_path := c_status_path s; c_pid_path := c_pid_path s;
     c_vendor_class_id := c_vendor_class_id s; c_listen_mode := c_listen_mode s; c_old_mode := c_old_mode s;
     c_oldStatus := c_oldStatus s; c_t1 := c_t1 s; c_t2 := c_t2 s; c_xid := c_xid s; c_start := c_start s;
     c_lease := c_lease s; c_fd := c_fd s; c_packet := v; c_seeded := c_seeded s; c_seed := c_seed s;
     c_drawn := c_drawn s; c_lrands := c_lrands s; c_now := c_now s; c_tmp_gets := c_tmp_gets s; c_serials := c_serials s;
     c_sockets := c_sockets s; c_forks := c_forks s; c_sends := c_sends s; c_sent := c_sent s; c_wakes := c_wakes s;
     cl_world := cl_world s |}.
Definition set_c_seeded (v : bool) (s : dhcpc) : dhcpc :=
  {| cl_config := cl_config s; c_state := c_state s; c_requested_ip := c_requested_ip s; c_server_addr := c_server_addr s;
     c_gGwIp := c_gGwIp s; c_pre_server_addr := c_pre_server_addr s; c_acl_dhcp_flag := c_acl_dhcp_flag s;
     c_timeout := c_timeout s; c_packet_num := c_packet_num s; c_discover_times := c_discover_times s;
     c_session_path := c_session_path s; c_status_path := c_status_path s; c_pid_path := c_pid_path s;
     c_vendor_class_id := c_vendor_class_id s; c_listen_mode := c_listen_mode s; c_old_mode := c_old_mode s;
     c_oldStatus := c_oldStatus s; c_t1 := c_t1 s; c_t2 := c_t2 s; c_xid := c_xid s; c_start := c_start s;
     c_lease := c_lease s; c_fd := c_fd s; c_packet := c_packet s; c_seeded := v; c_seed := c_seed s;
     c_drawn := c_drawn s; c_lrands := c_lrands s; c_now := c_now s; c_tmp_gets := c_tmp_gets s; c_serials := c_serials s;
     c_sockets := c_sockets s; c_forks := c_forks s; c_sends := c_sends s; c_sent := c_sent s; c_wakes := c_wakes s;
     cl_world := cl_world s |}.
Definition set_c_seed (v : Z) (s : dhcpc) : dhcpc :=
  {| cl_config := cl_config s; c_state := c_state s; c_requested_ip := c_requested_ip s; c_server_addr := c_server_addr s;
     c_gGwIp := c_gGwIp s; c_pre_server_addr := c_pre_server_addr s; c_acl_dhcp_flag := c_acl_dhcp_flag s;
     c_timeout := c_timeout s; c_packet_num := c_packet_num s; c_discover_times := c_discover_times s;
     c_session_path := c_session_path s; c_status_path := c_status_path s; c_pid_path := c_pid_path s;
     c_vendor_class_id := c_vendor_class_id s; c_listen_mode := c_listen_mode s; c_old_mode := c_old_mode s;
     c_oldStatus := c_oldStatus s; c_t1 := c_t1 s; c_t2 := c_t2 s; c_xid := c_xid s; c_start := c_start s;
     c_lease := c_lease s; c_fd := c_fd s; c_packet := c_packet s; c_seeded := c_seeded s; c_seed := v;
     c_drawn := c_drawn s; c_lrands := c_lrands s; c_now := c_now s; c_tmp_gets := c_tmp_gets s; c_serials := c_serials s;
     c_sockets := c_sockets s; c_forks := c_forks s; c_sends := c_sends s; c_sent := c_sent s; c_wakes := c_wakes s;
     cl_world := cl_world s |}.
Definition set_c_drawn (v : nat) (s : dhcpc) : dhcpc :=
  {| cl_config := cl_config s; c_state := c_state s; c_requested_ip := c_requested_ip s; c_server_addr := c_server_addr s;
     c_gGwIp := c_gGwIp s; c_pre_server_addr := c_pre_server_addr s; c_acl_dhcp_flag := c_acl_dhcp_flag s;
     c_timeout := c_timeout s; c_packet_num := c_packet_num s; c_discover_times := c_discover_times s;
     c_session_path := c_session_path s; c_status_path := c_status_path s; c_pid_path := c_pid_path s;
     c_vendor_class_id := c_vendor_class_id s; c_listen_mode := c_listen_mode s; c_old_mode := c_old_mode s;
     c_oldStatus := c_oldStatus s; c_t1 := c_t1 s; c_t2 := c_t2 s; c_xid := c_xid s; c_start := c_start s;
     c_lease := c_lease s; c_fd := c_fd s; c_packet := c_packet s; c_seeded := c_seeded s; c_seed := c_seed s;
     c_drawn := v; c_lrands := c_lrands s; c_now := c_now s; c_tmp_gets := c_tmp_gets s; c_serials := c_serials s;
     c_sockets := c_sockets s; c_forks := c_forks s; c_sends := c_sends s; c_sent := c_sent s; c_wakes := c_wakes s;
     cl_world := cl_world s |}.
Definition set_c_lrands (v : nat) (s : dhcpc) : dhcpc :=
  {| cl_config := cl_config s; c_state := c_state s; c_requested_ip := c_requested_ip s; c_server_addr := c_server_addr s;
     c_gGwIp := c_gGwIp s; c_pre_server_addr := c_pre_server_addr s; c_acl_dhcp_flag := c_acl_dhcp_flag s;
     c_timeout := c_timeout s; c_packet_num := c_packet_num s; c_discover_times := c_discover_times s;
     c_session_path := c_session_path s; c_status_path := c_status_path s; c_pid_path := c_pid_path s;
     c_vendor_class_id := c_vendor_class_id s; c_listen_mode := c_listen_mode s; c_old_mode := c_old_mode s;
     c_oldStatus := c_oldStatus s; c_t1 := c_t1 s; c_t2 := c_t2 s; c_xid := c_xid s; c_start := c_start s;
     c_lease := c_lease s; c_fd := c_fd s; c_packet := c_packet s; c_seeded := c_seeded s; c_seed := c_seed s;
     c_drawn := c_drawn s; c_lrands := v; c_now := c_now s; c_tmp_gets := c_tmp_gets s; c_serials := c_serials s;
     c_sockets := c_sockets s; c_forks := c_forks s; c_sends := c_sends s; c_sent := c_sent s; c_wakes := c_wakes s;
     cl_world := cl_world s |}.
Definition set_c_now (v : Z) (s : dhcpc) : dhcpc :=
  {| cl_config := cl_config s; c_state := c_state s; c_requested_ip := c_requested_ip s; c_server_addr := c_server_addr s;
     c_gGwIp := c_gGwIp s; c_pre_server_addr := c_pre_server_addr s; c_acl_dhcp_flag := c_acl_dhcp_flag s;
     c_timeout := c_timeout s; c_packet_num := c_packet_num s; c_discover_times := c_discover_times s;
     c_session_path := c_session_path s; c_status_path := c_status_path s; c_pid_path := c_pid_path s;
     c_vendor_class_id := c_vendor_class_id s; c_listen_mode := c_listen_mode s; c_old_mode := c_old_mode s;
     c_oldStatus := c_oldStatus s; c_t1 := c_t1 s; c_t2 := c_t2 s; c_xid := c_xid s; c_start := c_start s;
     c_lease := c_lease s; c_fd := c_fd s; c_packet := c_packet s; c_seeded := c_seeded s; c_seed := c_seed s;
     c_drawn := c_drawn s; c_lrands := c_lrands s; c_now := v; c_tmp_gets := c_tmp_gets s; c_serials := c_serials s;
     c_sockets := c_sockets s; c_forks := c_forks s; c_sends := c_sends s; c_sent := c_sent s; c_wakes := c_wakes s;
     cl_world := cl_world s |}.
Definition set_c_tmp_gets (v : nat) (s : dhcpc) : dhcpc :=
  {| cl_config := cl_config s; c_state := c_state s; c_requested_ip := c_requested_ip s; c_server_addr := c_server_addr s;
     c_gGwIp := c_gGwIp s; c_pre_server_addr := c_pre_server_addr s; c_acl_dhcp_flag := c_acl_dhcp_flag s;
     c_timeout := c_timeout s; c_packet_num := c_packet_num s; c_discover_times := c_discover_times s;
     c_session_path := c_session_path s; c_status_path := c_status_path s; c_pid_path := c_pid_path s;
     c_vendor_class_id := c_vendor_class_id s; c_listen_mode := c_listen_mode s; c_old_mode := c_old_mode s;
     c_oldStatus := c_oldStatus s; c_t1 := c_t1 s; c_t2 := c_t2 s; c_xid := c_xid s; c_start := c_start s;
     c_lease := c_lease s; c_fd := c_fd s; c_packet := c_packet s; c_seeded := c_seeded s; c_seed := c_seed s;
     c_drawn := c_drawn s; c_lrands := c_lrands s; c_now := c_now s; c_tmp_gets := v; c_serials := c_serials s;
     c_sockets := c_sockets s; c_forks := c_forks s; c_sends := c_sends s; c_sent := c_sent s; c_wakes := c_wakes s;
     cl_world := cl_world s |}.
Definition set_c_serials (v : nat) (s : dhcpc) : dhcpc :=
  {| cl_config := cl_config s; c_state := c_state s; c_requested_ip := c_requested_ip s; c_server_addr := c_server_addr s;
     c_gGwIp := c_gGwIp s; c_pre_server_addr := c_pre_server_addr s; c_acl_dhcp_flag := c_acl_dhcp_flag s;
     c_timeout := c_timeout s; c_packet_num := c_packet_num s; c_discover_times := c_discover_times s;
     c_session_path := c_session_path s; c_status_path := c_status_path s; c_pid_path := c_pid_path s;
     c_vendor_class_id := c_vendor_class_id s; c_listen_mode := c_listen_mode s; c_old_mode := c_old_mode s;
     c_oldStatus := c_oldStatus s; c_t1 := c_t1 s; c_t2 := c_t2 s; c_xid := c_xid s; c_start := c_start s;
     c_lease := c_lease s; c_fd := c_fd s; c_packet := c_packet s; c_seeded := c_seeded s; c_seed := c_seed s;
     c_drawn := c_drawn s; c_lrands := c_lrands s; c_now := c_now s; c_tmp_gets := c_tmp_gets s; c_serials := v;
     c_sockets := c_sockets s; c_forks := c_forks s; c_sends := c_sends s; c_sent := c_sent s; c_wakes := c_wakes s;
     cl_world := cl_world s |}.
Definition set_c_sockets (v : nat) (s : dhcpc) : dhcpc :=
  {| cl_config := cl_config s; c_state := c_state s; c_requested_ip := c_requested_ip s; c_server_addr := c_server_addr s;
     c_gGwIp := c_gGwIp s; c_pre_server_addr := c_pre_server_addr s; c_acl_dhcp_flag := c_acl_dhcp_flag s;
     c_timeout := c_timeout s; c_packet_num := c_packet_num s; c_discover_times := c_discover_times s;
     c_session_path := c_session_path s; c_status_path := c_status_path s; c_pid_path := c_pid_path s;
     c_vendor_class_id := c_vendor_class_id s; c_listen_mode := c_listen_mode s; c_old_mode := c_old_mode s;
     c_oldStatus := c_oldStatus s; c_t1 := c_t1 s; c_t2 := c_t2 s; c_xid := c_xid s; c_start := c_start s;
     c_lease := c_lease s; c_fd := c_fd s; c_packet := c_packet s; c_seeded := c_seeded s; c_seed := c_seed s;
     c_drawn := c_drawn s; c_lrands := c_lrands s; c_now := c_now s; c_tmp_gets := c_tmp_gets s; c_serials := c_serials s;
     c_sockets := v; c_forks := c_forks s; c_sends := c_sends s; c_sent := c_sent s; c_wakes := c_wakes s;
     cl_world := cl_world s |}.
Definition set_c_forks (v : nat) (s : dhcpc) : dhcpc :=
  {| cl_config := cl_config s; c_state := c_state s; c_requested_ip := c_requested_ip s; c_server_addr := c_server_addr s;
     c_gGwIp := c_gGwIp s; c_pre_server_addr := c_pre_server_addr s; c_acl_dhcp_flag := c_acl_dhcp_flag s;
     c_timeout := c_timeout s; c_packet_num := c_packet_num s; c_discover_times := c_discover_times s;
     c_session_path := c_session_path s; c_status_path := c_status_path s; c_pid_path := c_pid_path s;
     c_vendor_class_id := c_vendor_class_id s; c_listen_mode := c_listen_mode s; c_old_mode := c_old_mode s;
     c_oldStatus := c_oldStatus s; c_t1 := c_t1 s; c_t2 := c_t2 s; c_xid := c_xid s; c_start := c_start s;
     c_lease := c_lease s; c_fd := c_fd s; c_packet := c_packet s; c_seeded := c_seeded s; c_seed := c_seed s;
     c_drawn := c_drawn s; c_lrands := c_lrands s; c_now := c_now s; c_tmp_gets := c_tmp_gets s; c_serials := c_serials s;
     c_sockets := c_sockets s; c_forks := v; c_sends := c_sends s; c_sent := c_sent s; c_wakes := c_wakes s;
     cl_world := cl_world s |}.
Definition set_c_sends (v : nat) (s : dhcpc) : dhcpc :=
  {| cl_config := cl_config s; c_state := c_state s; c_requested_ip := c_requested_ip s; c_server_addr := c_server_addr s;
     c_gGwIp := c_gGwIp s; c_pre_server_addr := c_pre_server_addr s; c_acl_dhcp_flag := c_acl_dhcp_flag s;
     c_timeout := c_timeout s; c_packet_num := c_packet_num s; c_discover_times := c_discover_times s;
     c_session_path := c_session_path s; c_status_path := c_status_path s; c_pid_path := c_pid_path s;
     c_vendor_class_id := c_vendor_class_id s; c_listen_mode := c_listen_mode s; c_old_mode := c_old_mode s;
     c_oldStatus := c_oldStatus s; c_t1 := c_t1 s; c_t2 := c_t2 s; c_xid := c_xid s; c_start := c_start s;
     c_lease := c_lease s; c_fd := c_fd s; c_packet := c_packet s; c_seeded := c_seeded s; c_seed := c_seed s;
     c_drawn := c_drawn s; c_lrands := c_lrands s; c_now := c_now s; c_tmp_gets := c_tmp_gets s; c_serials := c_serials s;
     c_sockets := c_sockets s; c_forks := c_forks s; c_sends := v; c_sent := c_sent s; c_wakes := c_wakes s;
     cl_world := cl_world s |}.
Definition set_c_sent (v : list sent_packet) (s : dhcpc) : dhcpc :=
  {| cl_config := cl_config s; c_state := c_state s; c_requested_ip := c_requested_ip s; c_server_addr := c_server_addr s;
     c_gGwIp := c_gGwIp s; c_pre_server_addr := c_pre_server_addr s; c_acl_dhcp_flag := c_acl_dhcp_flag s;
     c_timeout := c_timeout s; c_packet_num := c_packet_num s; c_discover_times := c_discover_times s;
     c_session_path := c_session_path s; c_status_path := c_status_path s; c_pid_path := c_pid_path s;
     c_vendor_class_id := c_vendor_class_id s; c_listen_mode := c_listen_mode s; c_old_mode := c_old_mode s;
     c_oldStatus := c_oldStatus s; c_t1 := c_t1 s; c_t2 := c_t2 s; c_xid := c_xid s; c_start := c_start s;
     c_lease := c_lease s; c_fd := c_fd s; c_packet := c_packet s; c_seeded := c_seeded s; c_seed := c_seed s;
     c_drawn := c_drawn s; c_lrands := c_lrands s; c_now := c_now s; c_tmp_gets := c_tmp_gets s; c_serials := c_serials s;
     c_sockets := c_sockets s; c_forks := c_forks s; c_sends := c_sends s; c_sent := v; c_wakes := c_wakes s;
     cl_world := cl_world s |}.
Definition set_c_wakes (v : nat) (s : dhcpc) : dhcpc :=
  {| cl_config := cl_config s; c_state := c_state s; c_requested_ip := c_requested_ip s; c_server_addr := c_server_addr s;
     c_gGwIp := c_gGwIp s; c_pre_server_addr := c_pre_server_addr s; c_acl_dhcp_flag := c_acl_dhcp_flag s;
     c_timeout := c_timeout s; c_packet_num := c_packet_num s; c_discover_times := c_discover_times s;
     c_session_path := c_session_path s; c_status_path := c_status_path s; c_pid_path := c_pid_path s;
     c_vendor_class_id := c_vendor_class_id s; c_listen_mode := c_listen_mode s; c_old_mode := c_old_mode s;
     c_oldStatus := c_oldStatus s; c_t1 := c_t1 s; c_t2 := c_t2 s; c_xid := c_xid s; c_start := c_start s;
     c_lease := c_lease s; c_fd := c_fd s; c_packet := c_packet s; c_seeded := c_seeded s; c_seed := c_seed s;
     c_drawn := c_drawn s; c_lrands := c_lrands s; c_now := c_now s; c_tmp_gets := c_tmp_gets s; c_serials := c_serials s;
     c_sockets := c_sockets s; c_forks := c_forks s; c_sends := c_sends s; c_sent := c_sent s; c_wakes := v;
     cl_world := cl_world s |}.
Definition set_cl_world (v : world) (s : dhcpc) : dhcpc :=
  {| cl_config := cl_config s; c_state := c_state s; c_requested_ip := c_requested_ip s; c_server_addr := c_server_addr s;
     c_gGwIp := c_gGwIp s; c_pre_server_addr := c_pre_server_addr s; c_acl_dhcp_flag := c_acl_dhcp_flag s;
     c_timeout := c_timeout s; c_packet_num := c_packet_num s; c_discover_times := c_discover_times s;
     c_session_path := c_session_path s; c_status_path := c_status_path s; c_pid_path := c_pid_path s;
     c_vendor_class_id := c_vendor_class_id s; c_listen_mode := c_listen_mode s; c_old_mode := c_old_mode s;
     c_oldStatus := c_oldStatus s; c_t1 := c_t1 s; c_t2 := c_t2 s; c_xid := c_xid s; c_start := c_start s;
     c_lease := c_lease s; c_fd := c_fd s; c_packet := c_packet s; c_seeded := c_seeded s; c_seed := c_seed s;
     c_drawn := c_drawn s; c_lrands := c_lrands s; c_now := c_now s; c_tmp_gets := c_tmp_gets s; c_serials := c_serials s;
     c_sockets := c_sockets s; c_forks := c_forks s; c_sends := c_sends s; c_sent := c_sent s; c_wakes := c_wakes s;
     cl_world := v |}.

#[global] Instance dhcpc_world : HasWorld dhcpc :=
  {| world_of := cl_world; put_world := set_cl_world |}.

(** What comes from outside: the random numbers ([ce_rand seed n] is the [n]-th
    number after [srand seed]), the time of day, the serial number of the board,
    the values other programs have stored, the results of opening a socket, of
    sending and of [fork], the device of the board, the pid file, and what an
    uninitialised variable holds. *)
Record client_env : Type := {
  ce_rand : Z → nat → Z;
  ce_time : Z;
  ce_lrand48 : nat → Z;
  ce_serial : nat → list Z;
  ce_tmp : nat → list Z → option (list Z);
  ce_socket : nat → Z;
  ce_send : nat → Z;
  ce_fork : nat → Z;
  ce_getpid : Z;
  ce_board : nat → bool;
  ce_open_pid : bool;
  ce_lock_free : bool;
  ce_inet_aton : list Z → option Z;
  ce_junk : Z
}.

Section client.
Context (env : dhcp_env) (sys : script_env) (cenv : client_env).

Definition conf_of {A} (f : client_config_t → A) : M dhcpc A := gets (λ s, f (cl_config s)).
Definition up_time : M dhcpc Z := gets c_now.
Definition pass (seconds : Z) : M dhcpc unit := modify (λ s, set_c_now (c_now s + seconds) s).

(** ** Messages *)

Definition srand (seed : Z) : M dhcpc unit := modify (set_c_seed seed);; modify (set_c_drawn 0).
Definition rand : M dhcpc Z :=
  seed ← gets c_seed; n ← gets c_drawn; modify (set_c_drawn (S n));; mret (ce_rand cenv seed n).

Definition random_xid : M dhcpc Z :=
  initialized ← gets c_seeded;
  (if initialized : bool then mret tt else srand (ce_time cenv);; modify (set_c_seeded true));;
  rand.

(** The serial number, asked for up to four times; the client sleeps a second
    after each of the first three, the successful one included. *)
Fixpoint read_serial (tries : nat) : M dhcpc (list Z) :=
  n ← gets c_serials;
  modify (set_c_serials (S n));;
  let serial := c_string (ce_serial cenv n) in
  if 33 <=? Z.of_nat (length serial) then fault else
  match tries with
  | O => mret serial
  | S tries' => pass 1;; if decide (serial = []) then read_serial tries' else mret serial
  end.

Definition add_string (p str : list Z) : M dhcpc (list Z) := r ← add_option_string p OFF_OPTIONS str; mret r.2.
Definition opt_simple (p : list Z) (code data : Z) : M dhcpc (list Z) := r ← add_simple_option p OFF_OPTIONS code data; mret r.2.

Definition VDF_VERNDOR : list Z := cstr "dslforum.org".

(** The header of a message to a server. *)
Definition blank_request (arp : list Z) : list Z :=
  [BOOTREQUEST; ETH_10MB; ETH_10MB_LEN] ++ replicate 25 0 ++ arp ++ replicate 10 0 ++
  replicate (64 + 128) 0 ++ be_bytes DHCP_MAGIC ++ [DHCP_END] ++ replicate 1023 0.

Definition vendor_option (vendor_class : list Z) : M dhcpc (list Z) :=
  match vendor_class with
  | [] => mret ([DHCP_VENDOR; Z.of_nat (length VDF_VERNDOR)] ++ VDF_VERNDOR)
  | _ => if 64 <=? Z.of_nat (length vendor_class) then fault
         else mret ([DHCP_VENDOR; Z.of_nat (length vendor_class)] ++ vendor_class)
  end.

Definition init_packet (type : Z) : M dhcpc (list Z) :=
  arp ← conf_of cc_arp;
  p1 ← opt_simple (blank_request arp) DHCP_MESSAGE_TYPE type;
  serial ← read_serial 3;
  ok ← alloc sys;
  p2 ← (if ok : bool then
          let clientid := [DHCP_CLIENT_ID; Z.of_nat (length serial) + 1; 0] ++ serial in
          modify (λ s, set_cl_config (set_clientid (Some clientid) (cl_config s)) s);;
          add_string p1 clientid
        else modify (λ s, set_cl_config (set_clientid None (cl_config s)) s);; mret p1);
  hostname ← conf_of cc_hostname;
  p3 ← match hostname with Some h => add_string p2 h | None => mret p2 end;
  vendor_class ← gets c_vendor_class_id;
  v ← vendor_option vendor_class;
  add_string p3 v.

Definition PARM_REQUESTS : list Z :=
  [DHCP_STATIC_ROUTE; 0x01; DHCP_ROUTER; DHCP_DNS_SERVER; DHCP_DOMAIN_NAME; 0x11; 0x1c; 0x02; 0x04; 0x07;
   DHCP_NTP_SERVER; 0x42; 0x43; 0x2b].

Definition add_requests (p : list Z) : M dhcpc (list Z) :=
  add_string p ([DHCP_PARAM_REQ; Z.of_nat (length PARM_REQUESTS)] ++ PARM_REQUESTS).

(** The packet is gone unless the result is negative. *)
Definition send_out (pkt : sent_packet) : M dhcpc Z :=
  n ← gets c_sends;
  modify (set_c_sends (S n));;
  let r := ce_send cenv n in
  (if 0 <=? r then modify (λ s, set_c_sent (c_sent s ++ [pkt]) s) else mret tt);;
  mret r.

(** To all servers, by [raw_packet]; to one, by [kernel_packet]. *)
Definition broadcast (p : list Z) : M dhcpc Z :=
  '(len, q) ← calc_length p;
  data ← get_bytes q 0 len;
  ifindex ← conf_of cc_ifindex;
  send_out (Raw (raw_packet_bytes data 0 CLIENT_PORT INADDR_BROADCAST SERVER_PORT) MAC_BCAST_ADDR ifindex).
Definition unicast (p : list Z) (server : Z) : M dhcpc Z :=
  '(len, q) ← calc_length p;
  data ← get_bytes q 0 len;
  send_out (Kernel data server).

Definition add_gateway (p : list Z) : M dhcpc (list Z) :=
  o ← createVIoption env VENDOR_IDENTIFYING_FOR_GATEWAY; add_string p o.

Definition user_class : list Z := [DHCP_USER_CLASS; 4; 3; 72; 87; 71].

Definition send_discover (xid requested : Z) : M dhcpc Z :=
  p0 ← init_packet DHCPDISCOVER;
  p1 ← store32 p0 OFF_XID xid;
  p2 ← (if requested =? 0 then mret p1 else opt_simple p1 DHCP_REQUESTED_IP requested);
  p3 ← add_requests p2;
  p4 ← add_gateway p3;
  p5 ← add_string p4 user_class;
  broadcast p5.

Definition send_selecting (xid server requested : Z) : M dhcpc Z :=
  p0 ← init_packet DHCPREQUEST;
  p1 ← store32 p0 OFF_XID xid;
  p2 ← opt_simple p1 DHCP_REQUESTED_IP requested;
  p3 ← opt_simple p2 DHCP_SERVER_ID server;
  p4 ← add_requests p3;
  p5 ← add_gateway p4;
  broadcast p5.

Definition send_renewal (p : list Z) (server : Z) : M dhcpc Z :=
  if server =? 0 then broadcast p else unicast p server.

Definition send_renew (xid server ciaddr : Z) : M dhcpc Z :=
  p0 ← init_packet DHCPREQUEST;
  p1 ← store32 p0 OFF_XID xid;
  p2 ← store32 p1 OFF_CIADDR ciaddr;
  send_renewal p2 server.

Definition send_renew_with_request (xid server ciaddr : Z) : M dhcpc Z :=
  p0 ← init_packet DHCPREQUEST;
  p1 ← store32 p0 OFF_XID xid;
  p2 ← store32 p1 OFF_CIADDR ciaddr;
  p3 ← add_requests p2;
  send_renewal p3 server.

Definition send_release (server ciaddr : Z) : M dhcpc Z :=
  p0 ← init_packet DHCPRELEASE;
  x ← random_xid;
  p1 ← store32 p0 OFF_XID x;
  p2 ← store32 p1 OFF_CIADDR ciaddr;
  p3 ← opt_simple p2 DHCP_REQUESTED_IP ciaddr;
  p4 ← opt_simple p3 DHCP_SERVER_ID server;
  unicast p4 server.

(** ** Reading a message *)

(** The headers in front of a message. *)
Definition sizeof_headers : Z := 28.

(** [bytes] is what [read] returns, [None] an error.  The message is copied over
    the one in [c_packet]; what is behind it stays. *)
Definition get_raw_packet (bytes : option (list Z)) : M dhcpc Z :=
  match bytes with
  | None => mret (-1)
  | Some bs =>
      let got := take (Z.to_nat (sizeof_headers + sizeof_dhcpMessage)) bs in
      let n := Z.of_nat (length got) in
      if n <? sizeof_headers then mret (-1) else
      protocol ← peek got 9;
      ver ← peek got 0;
      dest ← load16 got 22;
      if negb (protocol =? 17) || negb (ver =? 0x45) || negb (dest =? CLIENT_PORT) then mret (-1) else
      check ← load16 got 10;
      header ← get_bytes got 0 20;
      if negb (check =? checksum (take 10 header ++ [0; 0] ++ drop 12 header)) then mret (-1) else
      old ← gets c_packet;
      data ← get_bytes got sizeof_headers (n - sizeof_headers);
      new ← put_bytes old 0 data;
      modify (set_c_packet new);;
      cookie ← load32 new OFF_COOKIE;
      if cookie =? DHCP_MAGIC then mret (n - sizeof_headers) else mret (-1)
  end.

(** [get_packet] on the buffer of the client: it is cleared first and holds what
    was read even when that is refused. *)
Definition get_kernel_packet (bytes : option (list Z)) : M dhcpc Z :=
  got ← put_bytes (replicate (Z.to_nat sizeof_dhcpMessage) 0) 0 (take (Z.to_nat sizeof_dhcpMessage) (default [] bytes));
  modify (set_c_packet got);;
  r ← get_packet bytes;
  match r with
  | Some p => modify (set_c_packet p);; mret (Z.of_nat (length (default [] bytes)))
  | None => mret (-1)
  end.

(** ** Helpers of the main loop *)

(** What another program has stored under [name], copied to a buffer of [size]
    bytes when it is not longer than [len]. *)
Definition tmpfile_getvalue (name : list Z) (size len : Z) : M dhcpc (option (list Z)) :=
  if TMPFILE_MAX_ITEM_NAME <=? Z.of_nat (length name) then mret None else
  n ← gets c_tmp_gets;
  modify (set_c_tmp_gets (S n));;
  match ce_tmp cenv n name with
  | None => mret None
  | Some v =>
      if len <? Z.of_nat (length v) then mret None
      else if size <=? Z.of_nat (length v) then fault
      else mret (Some v)
  end.

Definition setStatus (status : Z) : M dhcpc unit :=
  path ← gets c_status_path;
  shell_echo sys 128 (sprintf_d status) path;;
  old ← gets c_oldStatus;
  if old =? status then mret tt else
  modify (set_c_oldStatus status);;
  n ← gets c_wakes;
  if ce_board cenv n then modify (set_c_wakes (S n)) else mret tt.

Definition setPid : M dhcpc unit :=
  path ← gets c_pid_path; shell_echo sys 128 (sprintf_d (ce_getpid cenv)) path.

Definition next_fork : M dhcpc Z := n ← gets c_forks; modify (set_c_forks (S n));; mret (ce_fork cenv n).

(** The script runs in a child; when [fork] fails it does not run. *)
Definition run_script (packet : option (list Z)) (name : string) : M dhcpc unit :=
  pid ← next_fork;
  if pid <? 0 then mret tt else
  session ← gets c_session_path;
  Interface ← conf_of cc_Interface;
  script ← conf_of cc_script;
  w ← gets cl_world;
  match script_child sys session Interface script packet (cstr name) (fresh_child w) with
  | Done (_, s') => modify (set_cl_world (ss_world s'))
  | Fault => fault
  | Blocked => blocked
  | NoFuel => nofuel
  end.

(** ** Static routes *)

(** A word of [sscanf]'s "%s", into an array of 16 characters. *)
Fixpoint word (s : list Z) : list Z * list Z :=
  match s with
  | c :: s' => if isspace c then ([], s) else let '(a, b) := word s' in (c :: a, b)
  | [] => ([], [])
  end.
Definition scan_word (s : list Z) (old : option (list Z)) : M dhcpc (option (list Z) * option (list Z)) :=
  match skip_blanks s with
  | [] => mret (old, None)
  | t => let '(a, rest) := word t in if 16 <=? Z.of_nat (length a) then fault else mret (Some a, Some rest)
  end.

(** The variables [addr], [mask] and [gtwy]; [None] has never been set. *)
Definition route_vars : Type := option (list Z) * option (list Z) * option (list Z).

Definition scan_route (line : list Z) (v : route_vars) : M dhcpc route_vars :=
  let '(addr, mask, gtwy) := v in
  '(addr', r1) ← scan_word line addr;
  match r1 with
  | None => mret (addr', mask, gtwy)
  | Some l1 =>
      '(mask', r2) ← scan_word l1 mask;
      match r2 with
      | None => mret (addr', mask', gtwy)
      | Some l2 => '(gtwy', _) ← scan_word l2 gtwy; mret (addr', mask', gtwy')
      end
  end.

Definition no_gateway : list Z := cstr "0.0.0.0".

Definition route_cmd (op : string) (addr mask gtwy dev : list Z) : list Z :=
  cstr "route " ++ cstr op ++ cstr " -net " ++ addr ++ cstr " netmask " ++ mask ++ cstr " metric 1" ++
  (if decide (gtwy = no_gateway) then [] else cstr " gw " ++ gtwy) ++ cstr " dev " ++ dev ++ cstr " 2>/dev/null".

Definition run_route (op : string) (v : route_vars) : M dhcpc unit :=
  dev ← gets c_session_path;
  match v with
  | (Some addr, Some mask, Some gtwy) => shell (Z.of_nat IFC_LARGE_LEN) (route_cmd op addr mask gtwy dev)
  | _ => fault
  end.

(** The lines of a file. *)
Fixpoint lines_of (n : nat) (s : list Z) : list (list Z) :=
  match n, s with
  | S n', _ :: _ => let '(a, b) := fgets (IFC_LARGE_LEN - 1) s in a :: lines_of n' b
  | _, _ => []
  end.

Fixpoint delete_routes (lines : list (list Z)) (v : route_vars) : M dhcpc route_vars :=
  match lines with
  | [] => mret v
  | l :: lines' => v' ← scan_route l v; run_route "del" v';; delete_routes lines' v'
  end.

(** A gateway that is not among the first [entryIndex] is remembered. *)
Definition note_gateway (gtwy : list Z) (entryIndex : nat) : M dhcpc nat :=
  known ← gets (λ s, take entryIndex (c_gGwIp s));
  if bool_decide (gtwy ∈ known) then mret entryIndex
  else if (entryIndex <? ICMP_DHCP_AUTOACL_MAX)%nat then
    modify (λ s, set_c_gGwIp (<[entryIndex := gtwy]> (c_gGwIp s)) s);; mret (S entryIndex)
  else mret entryIndex.

(** [old] is what has been written to the file of the old routes. *)
Fixpoint add_routes (lines : list (list Z)) (v : route_vars) (entryIndex : nat) : M dhcpc unit :=
  match lines with
  | [] => mret tt
  | l :: lines' =>
      v' ← scan_route l v;
      e ← match v' with
          | (_, _, Some gtwy) => if decide (gtwy = no_gateway) then mret entryIndex else note_gateway gtwy entryIndex
          | _ => fault
          end;
      run_route "add" v';;
      add_routes lines' v' e
  end.

Definition run_staticRoute : M dhcpc unit :=
  session ← gets c_session_path;
  fDirectory ← fits (Z.of_nat IFC_LARGE_LEN) (slash PATH_WAN_ROOT (slash session (cstr "staticroute")));
  oldDirectory ← fits (Z.of_nat IFC_LARGE_LEN) (slash PATH_WAN_ROOT (slash session (cstr "oldstaticroute")));
  fsRoute ← the_file fDirectory;
  match fsRoute with
  | None => mret tt
  | Some routes =>
      if negb (se_writable sys oldDirectory) then mret tt else
      old ← the_file oldDirectory;
      let olds := default [] old in
      v ← delete_routes (lines_of (length olds) olds) (None, None, None);
      let news := lines_of (length routes) routes in
      add_routes news v 0;;
      put_file oldDirectory (concat news);;
      shell_rm fDirectory
  end.

(** ** The rules for pings of the gateways *)

Definition icmp_rule (op : string) (a : Z) : list Z :=
  cstr "iptables " ++ cstr op ++ cstr " INPUT -s " ++ inet_ntoa a ++ cstr " -p icmp --icmp-type 8/0 -j ACCEPT".

Fixpoint rules (op : string) (addrs : list Z) : M dhcpc unit :=
  match addrs with
  | [] => mret tt
  | a :: addrs' => (if a =? 0 then mret tt else shell DHCP_COMMAND_LEN (icmp_rule op a));; rules op addrs'
  end.

(** The addresses of the gateways of option 121; [last] is [gw_addr], which keeps
    its value when a text is no address. *)
Fixpoint gateway_addrs (texts : list (list Z)) (last : Z) : list Z :=
  match texts with
  | [] => []
  | t :: texts' =>
      if decide (t = []) then 0 :: gateway_addrs texts' last
      else let a := default last (ce_inet_aton cenv t) in a :: gateway_addrs texts' a
  end.

Definition Automatic_ACL_DHCP (file : list Z) : M dhcpc unit :=
  Interface ← conf_of cc_Interface;
  fileName ← fits 128 (cstr "gw_" ++ Interface);
  gw ← tmpfile_getvalue fileName 32 32;
  gws ← gets c_gGwIp;
  let gw_ip := default [] gw in
  let cur := if decide (gw_ip ≠ [] ∧ gw_ip ≠ no_gateway)
             then default (ce_junk cenv) (ce_inet_aton cenv gw_ip) :: replicate (ICMP_DHCP_AUTOACL_MAX - 1) 0
             else gateway_addrs gws (ce_junk cenv) in
  pre ← gets c_pre_server_addr;
  rules "-D" pre;;
  rules "-I" cur;;
  let used := filter (λ a, a ≠ 0) cur in
  let list := concat (map (λ a, sprintf_lu (u32 a) ++ [32]) used) ++
              concat (replicate (ICMP_DHCP_AUTOACL_MAX - length used) (cstr "0 ")) in
  shell 512 (cstr "echo " ++ list ++ cstr "> " ++ file);;
  modify (set_c_pre_server_addr cur).

(** ** The end of the program *)

Definition pidfile_remove (pidfile : option (list Z)) : M dhcpc unit :=
  match pidfile with
  | Some path => on_world (λ w, set_wfiles (filter (λ f, f.1 ≠ path) (w_files w)) w)
  | None => mret tt
  end.

(** The program ends with this result. *)
Definition exit_client (retval : Z) : M dhcpc (option Z) :=
  pidfile ← conf_of cc_pidfile; pidfile_remove pidfile;; mret (Some retval).

(** [pidfile_acquire] and [pidfile_write_release] around [inside]. *)
Definition pidfile_lock (pidfile : option (list Z)) : M dhcpc bool :=
  match pidfile with
  | None => mret false
  | Some _ => if ce_open_pid cenv then if ce_lock_free cenv then mret true else blocked else mret false
  end.
Definition pidfile_store (pidfile : option (list Z)) (opened : bool) : M dhcpc unit :=
  match pidfile with
  | Some path =>
      if opened then
        old ← the_file path;
        put_file path (over (sprintf_d (ce_getpid cenv) ++ [10]) (default [] old))
      else mret tt
  | None => mret tt
  end.

(** The program goes on in a child; the parent ends with 0. *)
Definition background : M dhcpc (option Z) :=
  quit ← conf_of cc_quit_after_lease;
  if negb (quit =? 0) then exit_client 0 else
  fg ← conf_of cc_foreground;
  if negb (fg =? 0) then mret None else
  pidfile ← conf_of cc_pidfile;
  opened ← pidfile_lock pidfile;
  pid ← next_fork;
  if pid <? 0 then exit_client 1 else
  if 0 <? pid then mret (Some 0) else
  setPid;;
  modify (λ s, set_cl_config (set_foreground 1 (cl_config s)) s);;
  pidfile_store pidfile opened;;
  mret None.

(** ** Signals *)

Inductive client_signal : Type := Renew | Release | Terminate.

Definition in_lease (st : Z) : bool := (st =? BOUND) || (st =? RENEWING) || (st =? REBINDING).

Definition renew_requested : M dhcpc unit :=
  st ← gets c_state;
  (if in_lease st then
     modify (set_c_listen_mode LISTEN_KERNEL);; modify (set_c_packet_num 0);; modify (set_c_state RENEW_REQUESTED)
   else mret tt);;
  st' ← gets c_state;
  (if st' =? RELEASED then
     modify (set_c_listen_mode LISTEN_RAW);; modify (set_c_state INIT_SELECTING);; modify (set_c_packet_num 0)
   else mret tt);;
  modify (set_c_timeout 0).

Definition release_requested : M dhcpc unit :=
  st ← gets c_state;
  (if in_lease st then
     server ← gets c_server_addr; ip ← gets c_requested_ip;
     send_release server ip;;
     run_script None "deconfig"
   else mret tt);;
  modify (set_c_listen_mode LISTEN_NONE);;
  modify (set_c_state RELEASED);;
  modify (set_c_timeout 0x7fffffff).

Definition terminate : M dhcpc (option Z) :=
  flag ← gets c_acl_dhcp_flag;
  (if flag =? 1 then tmpfile_writevalue sys (cstr "acl_dhcp") (cstr "0");; mret tt else mret tt);;
  pre ← gets c_pre_server_addr;
  rules "-D" pre;;
  exit_client 0.

Definition on_client_signal (sig : client_signal) : M dhcpc (option Z) :=
  match sig with
  | Renew => renew_requested;; mret None
  | Release => release_requested;; mret None
  | Terminate => terminate
  end.

(** ** The main loop *)

(** What ends the wait and how many seconds later: [Nothing] is the timer, and
    the seconds count from its end. *)
Inductive happening : Type :=
| Nothing
| Arrives (bytes : option (list Z))
| Signalled (sig : client_signal)
| SelectError.

Record cevent : Type := { ev_after : Z; ev_what : happening }.

(** The socket that fits the mode. *)
Definition reopen : M dhcpc (option Z) :=
  mode ← gets c_listen_mode;
  old ← gets c_old_mode;
  f ← gets c_fd;
  if (old =? mode) && negb (f =? -1) then mret None else
  modify (set_c_old_mode mode);;
  modify (set_c_fd (-1));;
  if (mode =? LISTEN_RAW) || (mode =? LISTEN_KERNEL) then
    n ← gets c_sockets;
    modify (set_c_sockets (S n));;
    modify (set_c_fd (ce_socket cenv n));;
    if ce_socket cenv n <? 0 then exit_client 0 else mret None
  else mret None.

(** [atoi] of three numbers printed with "%02d". *)
Definition two_digits (b : Z) : list Z := if b <? 10 then [48; 48 + b] else sprintf_lu b.
Definition mac_seed (bs : list Z) : Z := digits_in 10 (concat (map two_digits bs)) 0.

Definition wan_name (Interface : list Z) (name : string) : M dhcpc (list Z) :=
  fits 128 (slash PATH_WAN_DIR (slash Interface (cstr name))).

(** Without a lease the interface gets an address of 169.254.0.0/16 that depends
    on the hardware address; the random numbers go on from there. *)
Definition link_local : M dhcpc unit :=
  arp ← conf_of cc_arp;
  srand (mac_seed (take 3 arp));;
  r3 ← rand;
  srand (mac_seed (take 3 (drop 3 arp)));;
  r4 ← rand;
  let ip3 := r3 mod 256 in
  let ip4 := if r4 mod 255 =? 0 then 1 else r4 mod 255 in
  let ip := cstr "169.254." ++ sprintf_d ip3 ++ [46] ++ sprintf_d ip4 in
  Interface ← conf_of cc_Interface;
  interface ← conf_of cc_interface;
  status ← wan_name Interface "status";
  shell_echo sys 128 (cstr "4") status;;
  daemonstatus ← wan_name Interface "daemonstatus";
  shell_echo sys 128 (cstr "0") daemonstatus;;
  ipaddress ← wan_name Interface "ipaddress";
  shell_echo sys 128 ip ipaddress;;
  shell 128 (cstr "ifconfig " ++ (if decide (interface = cstr "br0") then Interface else interface) ++ [32] ++ ip).

(** [10 * (lrand48 () / (RAND_MAX + 1.0))] is exact. *)
Definition req_timeout (base range : Z) : M dhcpc Z :=
  n ← gets c_lrands; modify (set_c_lrands (S n));; mret (base + range * ce_lrand48 cenv n / 2 ^ 31).

Definition timeout_in (seconds : Z) : M dhcpc unit :=
  t ← up_time; modify (set_c_timeout (s32 (t + seconds))).

Definition start_over : M dhcpc unit :=
  modify (set_c_state INIT_SELECTING);; timeout_in 0;; modify (set_c_packet_num 0);; modify (set_c_listen_mode LISTEN_RAW).

Definition selecting_timeout : M dhcpc (option Z) :=
  setStatus 0;;
  n ← gets c_packet_num;
  if n <? 2 then
    (if n =? 0 then x ← random_xid; modify (set_c_xid x) else mret tt);;
    x ← gets c_xid; ip ← gets c_requested_ip;
    send_discover x ip;;
    t ← (if n =? 1 then req_timeout 40 90 else req_timeout 10 10);
    timeout_in t;;
    modify (set_c_packet_num (n + 1));;
    mret None
  else
    abort ← conf_of cc_abort_if_no_lease;
    if negb (abort =? 0) then exit_client 1 else
    d ← gets c_discover_times;
    (if 3 =? d + 1 then modify (set_c_discover_times 0);; link_local else modify (set_c_discover_times (d + 1)));;
    modify (set_c_packet_num 0);;
    timeout_in 0;;
    mret None.

Definition requesting_timeout : M dhcpc unit :=
  n ← gets c_packet_num;
  if n <? 3 then
    st ← gets c_state;
    x ← gets c_xid; server ← gets c_server_addr; ip ← gets c_requested_ip;
    (if st =? RENEW_REQUESTED then send_renew_with_request x server ip else send_selecting x server ip);;
    timeout_in (if n =? 2 then 4 else 2);;
    modify (set_c_packet_num (n + 1))
  else link_local;; start_over.

(** How close the two times may come. *)
Definition margin (lease : Z) : Z := lease `div` 14400 + 1.

Definition renewing_timeout : M dhcpc unit :=
  a ← gets c_t1; b ← gets c_t2; l ← gets c_lease;
  if u32 (b - a) <=? margin l then
    modify (set_c_state REBINDING);;
    t ← up_time;
    modify (set_c_timeout (s32 (t + u32 (b - a))))
  else
    x ← gets c_xid; server ← gets c_server_addr; ip ← gets c_requested_ip;
    send_renew x server ip;;
    let a' := u32 (u32 (b - a) `div` 2 + a) in
    modify (set_c_t1 a');;
    st ← gets c_start;
    modify (set_c_timeout (s32 (a' + st))).

Definition rebinding_timeout : M dhcpc unit :=
  b ← gets c_t2; l ← gets c_lease;
  if u32 (l - b) <=? margin l then
    link_local;;
    modify (set_c_state INIT_SELECTING);;
    run_script None "deconfig";;
    timeout_in 0;;
    modify (set_c_packet_num 0);;
    modify (set_c_listen_mode LISTEN_RAW)
  else
    x ← gets c_xid; ip ← gets c_requested_ip;
    send_renew x 0 ip;;
    let b' := u32 (u32 (l - b) `div` 2 + b) in
    modify (set_c_t2 b');;
    st ← gets c_start;
    modify (set_c_timeout (s32 (b' + st))).

Definition timed_out : M dhcpc (option Z) :=
  st ← gets c_state;
  if st =? INIT_SELECTING then selecting_timeout
  else if (st =? RENEW_REQUESTED) || (st =? REQUESTING) then requesting_timeout;; mret None
  else if st =? BOUND then
    modify (set_c_state RENEWING);; modify (set_c_listen_mode LISTEN_KERNEL);; renewing_timeout;; mret None
  else if st =? RENEWING then renewing_timeout;; mret None
  else if st =? REBINDING then rebinding_timeout;; mret None
  else if st =? RELEASED then modify (set_c_timeout 0x7fffffff);; mret None
  else mret None.

(** ** Replies *)

Definition on_offer (p : list Z) : M dhcpc unit :=
  temp ← get_option p DHCP_SERVER_ID;
  match temp with
  | Some q =>
      server ← load32 p q;
      modify (set_c_server_addr server);;
      x ← load32 p OFF_XID;
      modify (set_c_xid x);;
      y ← load32 p OFF_YIADDR;
      modify (set_c_requested_ip y);;
      modify (set_c_state REQUESTING);;
      timeout_in 0;;
      modify (set_c_packet_num 0)
  | None => mret tt
  end.

(** The file of the rules for pings: another client of the router has the other
    one. *)
Definition dhcp_file (flag : Z) : list Z :=
  if flag =? 1 then cstr "/proc/sys/net/ipv4/icmp_acl_dhcp_1" else cstr "/proc/sys/net/ipv4/icmp_acl_dhcp_2".

Definition on_ack (p : list Z) : M dhcpc (option Z) :=
  temp ← get_option p DHCP_LEASE_TIME;
  l ← match temp with Some q => load32 p q | None => mret (60 * 60) end;
  modify (set_c_lease l);;
  modify (set_c_t1 (l `div` 2));;
  modify (set_c_t2 (Z.shiftr (u32 (l * 7)) 3));;
  t ← up_time;
  modify (set_c_start (u32 t));;
  modify (set_c_timeout (s32 (l `div` 2 + u32 t)));;
  y ← load32 p OFF_YIADDR;
  modify (set_c_requested_ip y);;
  st ← gets c_state;
  run_script (Some p) (if (st =? RENEWING) || (st =? REBINDING) then "renew" else "bound");;
  run_staticRoute;;
  modify (set_c_state BOUND);;
  modify (set_c_listen_mode LISTEN_KERNEL);;
  flag ← gets c_acl_dhcp_flag;
  Automatic_ACL_DHCP (dhcp_file flag);;
  setStatus 1;;
  background.

Definition on_nak : M dhcpc unit :=
  st ← gets c_state;
  (if st =? REQUESTING then mret tt else run_script None "deconfig");;
  modify (set_c_state INIT_SELECTING);;
  timeout_in 0;;
  modify (set_c_requested_ip 0);;
  modify (set_c_packet_num 0);;
  modify (set_c_listen_mode LISTEN_RAW);;
  setStatus 0;;
  session ← gets c_session_path;
  path ← wan_name session "status";
  shell_echo sys 128 (cstr "4") path.

(** A message with our number in the buffer. *)
Definition on_message (p : list Z) : M dhcpc (option Z) :=
  message ← get_option p DHCP_MESSAGE_TYPE;
  match message with
  | None => mret None
  | Some q =>
      type ← peek p q;
      st ← gets c_state;
      if st =? INIT_SELECTING then (if type =? DHCPOFFER then on_offer p else mret tt);; mret None
      else if (st =? RENEW_REQUESTED) || (st =? REQUESTING) || (st =? RENEWING) || (st =? REBINDING) then
        if type =? DHCPACK then on_ack p
        else if type =? DHCPNAK then on_nak;; mret None
        else mret None
      else if st =? BOUND then (if type =? DHCPFORCERENEW then renew_requested else mret tt);; mret None
      else mret None
  end.

Definition arrived (bytes : option (list Z)) : M dhcpc (option Z) :=
  mode ← gets c_listen_mode;
  if mode =? LISTEN_NONE then mret None else
  r ← (if mode =? LISTEN_KERNEL then get_kernel_packet bytes else get_raw_packet bytes);
  if r <? 0 then mret None else
  p ← gets c_packet;
  x ← load32 p OFF_XID;
  ours ← gets c_xid;
  if x =? ours then on_message p else mret None.

(** A round of the loop; [Some r] when the program ends with [r].  When the time
    is up already, the client does not wait: a packet stays in the socket. *)
Definition client_round (ev : cevent) : M dhcpc (option Z) :=
  ended ← reopen;
  match ended with
  | Some r => mret (Some r)
  | None =>
      limit ← gets c_timeout;
      t ← up_time;
      let tv_sec := s32 (limit - t) in
      pass (ev_after ev);;
      if 0 <? tv_sec then
        match ev_what ev with
        | Nothing => pass tv_sec;; timed_out
        | Arrives bytes => arrived bytes
        | Signalled sig => on_client_signal sig
        | SelectError => mret None
        end
      else timed_out
  end.

(** The loop, until the program ends or no more events come. *)
Fixpoint client_rounds (evs : list cevent) : M dhcpc (option Z) :=
  match evs with
  | [] => mret None
  | ev :: evs' => r ← client_round ev; match r with Some v => mret (Some v) | None => client_rounds evs' end
  end.

(** ** The start *)

(** An option of the command line with its argument, as [getopt_long] delivers
    them. *)
Definition arg : Type := Z * list Z.

Definition change_config (f : client_config_t → client_config_t) : M dhcpc unit :=
  modify (λ s, set_cl_config (f (cl_config s)) s).

(** Code, length and data, at most 255 of them. *)
Definition arg_option (code : Z) (optarg : list Z) : list Z :=
  let data := take 255 optarg in [code; Z.of_nat (length data)] ++ data.

Definition set_session (optarg : list Z) : M dhcpc unit :=
  p ← fits 64 optarg; modify (set_c_session_path p).

(** [Some r]: the program ends. *)
Definition apply_arg (a : arg) : M dhcpc (option Z) :=
  let '(c, optarg) := a in
  if c =? 99 then ok ← alloc sys; if ok : bool then change_config (set_clientid (Some (arg_option DHCP_CLIENT_ID optarg)));; mret None else fault
  else if c =? 102 then change_config (set_foreground 1);; mret None
  else if c =? 72 then ok ← alloc sys;
    if ok : bool then change_config (λ k, {| cc_foreground := cc_foreground k; cc_quit_after_lease := cc_quit_after_lease k;
      cc_abort_if_no_lease := cc_abort_if_no_lease k; cc_interface := cc_interface k; cc_Interface := cc_Interface k;
      cc_pidfile := cc_pidfile k; cc_script := cc_script k; cc_clientid := cc_clientid k;
      cc_hostname := Some (arg_option DHCP_HOST_NAME optarg); cc_ifindex := cc_ifindex k; cc_arp := cc_arp k |});; mret None else fault
  else if c =? 104 then mret (Some 0)
  else if c =? 105 then
    change_config (λ k, {| cc_foreground := cc_foreground k; cc_quit_after_lease := cc_quit_after_lease k;
      cc_abort_if_no_lease := cc_abort_if_no_lease k; cc_interface := optarg; cc_Interface := optarg;
      cc_pidfile := cc_pidfile k; cc_script := cc_script k; cc_clientid := cc_clientid k;
      cc_hostname := cc_hostname k; cc_ifindex := cc_ifindex k; cc_arp := cc_arp k |});;
    set_session optarg;; mret None
  else if c =? 73 then
    change_config (λ k, {| cc_foreground := cc_foreground k; cc_quit_after_lease := cc_quit_after_lease k;
      cc_abort_if_no_lease := cc_abort_if_no_lease k; cc_interface := cc_interface k; cc_Interface := optarg;
      cc_pidfile := cc_pidfile k; cc_script := cc_script k; cc_clientid := cc_clientid k;
      cc_hostname := cc_hostname k; cc_ifindex := cc_ifindex k; cc_arp := cc_arp k |});;
    set_session optarg;; mret None
  else if c =? 110 then
    change_config (λ k, {| cc_foreground := cc_foreground k; cc_quit_after_lease := cc_quit_after_lease k;
      cc_abort_if_no_lease := 1; cc_interface := cc_interface k; cc_Interface := cc_Interface k;
      cc_pidfile := cc_pidfile k; cc_script := cc_script k; cc_clientid := cc_clientid k;
      cc_hostname := cc_hostname k; cc_ifindex := cc_ifindex k; cc_arp := cc_arp k |});; mret None
  else if c =? 112 then
    change_config (λ k, {| cc_foreground := cc_foreground k; cc_quit_after_lease := cc_quit_after_lease k;
      cc_abort_if_no_lease := cc_abort_if_no_lease k; cc_interface := cc_interface k; cc_Interface := cc_Interface k;
      cc_pidfile := Some optarg; cc_script := cc_script k; cc_clientid := cc_clientid k;
      cc_hostname := cc_hostname k; cc_ifindex := cc_ifindex k; cc_arp := cc_arp k |});; mret None
  else if c =? 113 then
    change_config (λ k, {| cc_foreground := cc_foreground k; cc_quit_after_lease := 1;
      cc_abort_if_no_lease := cc_abort_if_no_lease k; cc_interface := cc_interface k; cc_Interface := cc_Interface k;
      cc_pidfile := cc_pidfile k; cc_script := cc_script k; cc_clientid := cc_clientid k;
      cc_hostname := cc_hostname k; cc_ifindex := cc_ifindex k; cc_arp := cc_arp k |});; mret None
  else if c =? 114 then modify (set_c_requested_ip (inet_addr env optarg));; mret None
  else if c =? 100 then
    f ← the_file (cstr "/var/dhcpClassIdentifier");
    (match fgets 127 (default [] f) with
     | ([], _) => mret tt
     | (line, _) => modify (set_c_vendor_class_id (c_string line))
     end);; mret None
  else if c =? 115 then
    change_config (λ k, {| cc_foreground := cc_foreground k; cc_quit_after_lease := cc_quit_after_lease k;
      cc_abort_if_no_lease := cc_abort_if_no_lease k; cc_interface := cc_interface k; cc_Interface := cc_Interface k;
      cc_pidfile := cc_pidfile k; cc_script := optarg; cc_clientid := cc_clientid k;
      cc_hostname := cc_hostname k; cc_ifindex := cc_ifindex k; cc_arp := cc_arp k |});; mret None
  else mret None.

Fixpoint apply_args (args : list arg) : M dhcpc (option Z) :=
  match args with
  | [] => mret None
  | a :: args' => r ← apply_arg a; match r with Some v => mret (Some v) | None => apply_args args' end
  end.

(** [-m]: the first message waits. *)
Definition surge (args : list arg) : bool := existsb (λ a, a.1 =? 109) args.

(** Which of the two files of rules is free; the flag has one character. *)
Definition choose_acl : M dhcpc unit :=
  modify (set_c_pre_server_addr (replicate ICMP_DHCP_AUTOACL_MAX 0));;
  v ← tmpfile_getvalue (cstr "acl_dhcp") 1 1;
  let used := match v with
              | Some t => negb (bool_decide (head (t ++ [0]) = Some 48))
              | None => false
              end in
  if used then modify (set_c_acl_dhcp_flag 2)
  else modify (set_c_acl_dhcp_flag 1);; tmpfile_writevalue sys (cstr "acl_dhcp") (cstr "1");; mret tt.

Definition client_start (args : list arg) : M dhcpc (option Z) :=
  choose_acl;;
  r ← apply_args args;
  match r with
  | Some v => mret (Some v)
  | None =>
      session ← gets c_session_path;
      (if decide (session = []) then mret tt else
         a ← fits 128 (slash PATH_WAN_DIR (slash session (cstr "daemonstatus")));
         b ← fits 128 (slash PATH_WAN_DIR (slash session (cstr "pid")));
         modify (set_c_status_path a);; modify (set_c_pid_path b));;
      pidfile ← conf_of cc_pidfile;
      opened ← pidfile_lock pidfile;
      pidfile_store pidfile opened;;
      let i := if_answer env 0 in
      interface ← conf_of cc_interface;
      if negb (if_socket i) then exit_client 1 else
      if 16 <=? Z.of_nat (length interface) then fault else
      match if_index i, if_hwaddr i with
      | Some x, Some h =>
          change_config (λ k, {| cc_foreground := cc_foreground k; cc_quit_after_lease := cc_quit_after_lease k;
            cc_abort_if_no_lease := cc_abort_if_no_lease k; cc_interface := cc_interface k; cc_Interface := cc_Interface k;
            cc_pidfile := cc_pidfile k; cc_script := cc_script k; cc_clientid := cc_clientid k;
            cc_hostname := cc_hostname k; cc_ifindex := x; cc_arp := h |});;
          (if surge args then
             srand (mac_seed (take 3 (drop 3 h)));; r ← rand; timeout_in (r mod 7200)
           else mret tt);;
          modify (set_c_state INIT_SELECTING);;
          setStatus 0;;
          mret None
      | _, _ => exit_client 1
      end
  end.
End client.

Definition default_config : client_config_t :=
  {| cc_foreground := 0; cc_quit_after_lease := 0; cc_abort_if_no_lease := 0; cc_interface := cstr "eth0";
     cc_Interface := cstr "eth0"; cc_pidfile := None; cc_script := cstr "/etc/dhcp/dhcp_getdata"; cc_clientid := None;
     cc_hostname := None; cc_ifindex := 0; cc_arp := replicate 6 0 |}.

(** The program before its main function runs; [junk] is what the buffer for a
    message holds. *)
Definition initial (junk : list Z) (t : Z) (w : world) : dhcpc :=
  {| cl_config := default_config; c_state := 0; c_requested_ip := 0; c_server_addr := 0;
     c_gGwIp := replicate ICMP_DHCP_AUTOACL_MAX []; c_pre_server_addr := replicate ICMP_DHCP_AUTOACL_MAX 0;
     c_acl_dhcp_flag := 0; c_timeout := 0; c_packet_num := 0; c_discover_times := 0; c_session_path := [];
     c_status_path := []; c_pid_path := []; c_vendor_class_id := []; c_listen_mode := LISTEN_RAW; c_old_mode := LISTEN_RAW;
     c_oldStatus := -1; c_t1 := 0; c_t2 := 0; c_xid := 0; c_start := 0; c_lease := 0; c_fd := -1; c_packet := junk;
     c_seeded := false; c_seed := 1; c_drawn := 0; c_lrands := 0; c_now := t; c_tmp_gets := 0; c_serials := 0;
     c_sockets := 0; c_forks := 0; c_sends := 0; c_sent := []; c_wakes := 0; cl_world := w |}.

Strategy 100 [fill_envp config_save createVIoption].
