(* ===== verification/DhcpClientRead.v ===== *)
(** * The DHCP client: reading a reply

    What the server of this program sends as a reply the client reads as it was
    meant: the raw packet passes its tests, and the message in the client's buffer
    has the options of the reply. *)

From stdpp Require Import base numbers list sets.
From Stdlib Require Import ZArith Lia Bool.
From S2P Require Import Prelude CText DhcpPacket DhcpOptions DhcpLease DhcpFiles DhcpVi DhcpServer DhcpTable DhcpReply DhcpExcl DhcpRun DhcpScript DhcpClient.

(** ** Bytes *)

Lemma load16_at {S} a v b i (s : S) : Z.of_nat (length a) = i → 0 ≤ v < 2 ^ 16 → load16 (a ++ u16_bytes v ++ b) i s = Done (v, s).
Proof.
  intros Hi Hv. unfold load16, get_bytes. rewrite (buf_read_mid a (u16_bytes v) b) by done. cbn [of_option]. rewrite bind_ret.
  unfold mret, M_ret. do 2 f_equal. unfold be16_of, u16_bytes, u8. cbn [take foldl].
  rewrite Z.shiftr_div_pow2 by lia. change (2 ^ 8) with 256. change (2 ^ 16) with 65536 in Hv.
  rewrite Z.mul_0_l, Z.add_0_l, (Z.mod_small (v / 256)) by (Z.to_euclidean_division_equations; lia).
  rewrite Z.mul_comm. symmetry. by apply Z.div_mod.
Qed.

Lemma load32_fld {S} p i (s : S) : 0 ≤ i → i + 4 ≤ Z.of_nat (length p) → load32 p i s = Done (be32 (fld p i 4), s).
Proof. intros. unfold load32. by rewrite (bind_Done _ _ _ _ _ (get_bytes_ok p i 4 s ltac:(done) ltac:(done) ltac:(done))). Qed.

Lemma be32_be v : 0 ≤ v < 2 ^ 32 → be32 (be_bytes v) = v.
Proof. intros Hv. pose proof (be32_be_bytes v [] Hv) as E. by rewrite app_nil_r in E. Qed.

Lemma checksum_u16 bs : 0 ≤ checksum bs < 2 ^ 16.
Proof. unfold checksum, u16. apply Z.mod_pos_bound. lia. Qed.

(** ** Options in a buffer that starts like a message *)

(** [q] starts with the bytes of [p] up to the end of its options. *)
Lemma has_options_prefix p q its : has_options p its → Z.of_nat (length q) = sizeof_dhcpMessage →
  let m := (Z.to_nat OFF_OPTIONS + length (encode its) + 1)%nat in
  take m q = take m p → has_options q its.
Proof.
  intros (Hl&Hok&rest&Hd) Hq m E. split; [done|]. split; [done|]. exists (drop m q).
  assert (drop (Z.to_nat OFF_OPTIONS) (take m q) = encode its ++ [DHCP_END]) as Ed.
  { rewrite E. replace m with (Z.to_nat OFF_OPTIONS + (length (encode its) + 1))%nat by (unfold m; lia).
    rewrite skipn_firstn_comm. rewrite Hd.
    replace (Z.to_nat OFF_OPTIONS + (length (encode its) + 1) - Z.to_nat OFF_OPTIONS)%nat with (length (encode its) + 1)%nat by lia.
    rewrite take_app_add. done. }
  rewrite <- (take_drop m q) at 1. rewrite drop_app_le; [by rewrite Ed, <- app_assoc|].
  rewrite length_take. unfold m, OFF_OPTIONS, sizeof_dhcpMessage in *.
  apply (f_equal length) in Hd. rewrite length_drop, length_app in Hd. simpl in Hd. lia.
Qed.

(** The message of a packet, as a prefix. *)
Lemma is_message_prefix pkt p its : is_message pkt p its →
  let m := (Z.to_nat OFF_OPTIONS + length (encode its) + 1)%nat in take m (payload_of pkt) = take m p.
Proof.
  intros H m. specialize (H 0 (Z.of_nat m) ltac:(lia) ltac:(lia)). unfold fld in H. rewrite Nat2Z.id in H. apply H.
  unfold m, OFF_OPTIONS. lia.
Qed.

(** The bytes of an option that is found. *)
Lemma find_item_bytes its code pre rest p pos data : drop (Z.to_nat OFF_OPTIONS) p = pre ++ encode its ++ rest →
  find_item its code (OFF_OPTIONS + Z.of_nat (length pre)) = Some (pos, data) →
  fld p pos (Z.of_nat (length data)) = data ∧ OFF_OPTIONS + Z.of_nat (length pre) + 2 ≤ pos ∧
  pos + Z.of_nat (length data) ≤ Z.of_nat (length p).
Proof.
  revert pre. induction its as [|it its IH]; intros pre Hd; [done|]. rewrite encode_cons, <- app_assoc in Hd.
  destruct it as [|c d]; cbn [find_item].
  - intros E. destruct (IH (pre ++ [DHCP_PADDING])) as (H1&H2&H3); [by rewrite Hd, <- app_assoc| |].
    { rewrite length_app. cbn [length]. rewrite <- E. f_equal. lia. }
    rewrite length_app in H2. split; [done|]. split; [lia|done].
  - destruct (c =? code).
    + intros [= <- <-]. split; [|split; [lia|]].
      * replace (OFF_OPTIONS + Z.of_nat (length pre) + 2) with (OFF_OPTIONS + Z.of_nat (length (pre ++ [c; Z.of_nat (length d)])))
          by (rewrite length_app; simpl; lia).
        rewrite fld_options, !Nat2Z.id, Hd by lia. 
        replace (pre ++ encode_item (Opt c d) ++ encode its ++ rest) with ((pre ++ [c; Z.of_nat (length d)]) ++ d ++ encode its ++ rest)
          by (by rewrite <- app_assoc).
        rewrite drop_app_length. by rewrite take_app_length.
      * apply (f_equal length) in Hd. rewrite length_drop, !length_app in Hd. cbn [length encode_item] in Hd. unfold OFF_OPTIONS in *. lia.
    + intros E. destruct (IH (pre ++ encode_item (Opt c d))) as (H1&H2&H3); [by rewrite Hd, <- app_assoc| |].
      { rewrite length_app. rewrite <- E. f_equal. cbn [length encode_item]. lia. }
      rewrite length_app in H2. split; [done|]. split; [lia|done].
Qed.

Lemma option_bytes p its code pos data : has_options p its → find_item its code OFF_OPTIONS = Some (pos, data) →
  fld p pos (Z.of_nat (length data)) = data ∧ OFF_OPTIONS + 2 ≤ pos ∧ pos + Z.of_nat (length data) ≤ Z.of_nat (length p).
Proof.
  intros (_&_&rest&Hd) E. destruct (find_item_bytes its code [] (DHCP_END :: rest) p pos data Hd) as (?&?&?); [by rewrite Z.add_0_r|].
  split; [done|]. split; [simpl in *; lia|done].
Qed.

(** A number of four bytes, and a single byte. *)
Lemma option_number {S} p its code pos v (s : S) : has_options p its → find_item its code OFF_OPTIONS = Some (pos, be_bytes v) →
  0 ≤ v < 2 ^ 32 → load32 p pos s = Done (v, s).
Proof.
  intros H E Hv. destruct (option_bytes _ _ _ _ _ H E) as (Hf&Hp&Hl). unfold OFF_OPTIONS in *.
  change (Z.of_nat (length (be_bytes v))) with 4 in *. rewrite load32_fld by lia. by rewrite Hf, be32_be.
Qed.

Lemma option_byte {S} p its code pos b (s : S) : has_options p its → find_item its code OFF_OPTIONS = Some (pos, [b]) →
  peek p pos s = Done (b, s).
Proof.
  intros H E. destruct (option_bytes _ _ _ _ _ H E) as (Hf&Hp&Hl). cbn [length] in *. unfold OFF_OPTIONS in *.
  unfold peek. rewrite decide_True by lia. unfold fld in Hf. change (Z.to_nat (Z.of_nat 1)) with 1%nat in Hf.
  destruct (drop (Z.to_nat pos) p) as [|x r] eqn:Ed; [done|]. injection Hf as ->.
  by rewrite <- (Nat.add_0_r (Z.to_nat pos)), <- lookup_drop, Ed.
Qed.

Section client.
Context (env : dhcp_env) (sys : script_env) (cenv : client_env).

(** ** The raw packet *)

Lemma raw_packet_split data source dest : ∃ a b c,
  raw_packet_bytes data source SERVER_PORT dest CLIENT_PORT =
    (0x45 :: a) ++ u16_bytes (checksum ((0x45 :: a) ++ [0; 0] ++ b)) ++ b ++ u16_bytes SERVER_PORT ++ u16_bytes CLIENT_PORT ++ c ++ data ∧
  length a = 9%nat ∧ nth 8 a 0 = 17 ∧ length b = 8%nat ∧ length c = 4%nat.
Proof.
  unfold raw_packet_bytes. set (ulen := 8 + Z.of_nat (length data)). unfold udp_header. set (uc := checksum (_ ++ _)).
  unfold ip_header. 
  exists (0 :: u16_bytes (20 + ulen) ++ [0; 0; 0; 0] ++ [64; 17]), (be_bytes source ++ be_bytes dest), (u16_bytes ulen ++ u16_bytes uc).
  split; [|done]. unfold u16_bytes, be_bytes. cbn [app]. change (u8 (Z.shiftr 0 8)) with 0. change (u8 0) with 0. reflexivity.
Qed.

(** The client accepts it and has the message in front of its buffer. *)
Lemma get_raw_reply data source dest s : Z.of_nat (length (c_packet s)) = sizeof_dhcpMessage →
  OFF_OPTIONS ≤ Z.of_nat (length data) ≤ sizeof_dhcpMessage → fld data OFF_COOKIE 4 = be_bytes DHCP_MAGIC →
  get_raw_packet (Some (raw_packet_bytes data source SERVER_PORT dest CLIENT_PORT)) s =
    Done (Z.of_nat (length data), set_c_packet (data ++ drop (length data) (c_packet s)) s).
Proof.
  intros Hp Hd Hc. destruct (raw_packet_split data source dest) as (a&b&c&->&Ha&Hpr&Hb&Hlc).
  set (chk := checksum _). pose proof (checksum_u16 ((0x45 :: a) ++ [0; 0] ++ b)) as Hck. fold chk in Hck.
  unfold get_raw_packet. set (pkt := (0x45 :: a) ++ _).
  assert (Z.of_nat (length pkt) = 28 + Z.of_nat (length data)) as Hl.
  { unfold pkt. rewrite !length_app. cbn [length]. rewrite Ha, Hb, Hlc. cbn. lia. }
  unfold sizeof_headers, sizeof_dhcpMessage, OFF_OPTIONS, OFF_COOKIE in *.
  rewrite take_ge by lia. rewrite Hl. rewrite (proj2 (Z.ltb_ge _ _)) by lia.
  assert (peek pkt 9 s = Done (17, s)) as E9.
  { assert (a !! 8%nat = Some 17) as H8.
    { destruct (lookup_lt_is_Some_2 a 8) as [x Hx]; [lia|]. rewrite Hx. f_equal. rewrite <- Hpr. symmetry. by apply nth_lookup_Some. }
    unfold peek, pkt. rewrite decide_True by lia. rewrite <- app_comm_cons.
    change (Z.to_nat 9) with 9%nat. cbn [lookup list_lookup]. rewrite (lookup_app_l a) by lia. by rewrite H8. }
  mstep E9. assert (peek pkt 0 s = Done (0x45, s)) as E0 by done. mstep E0.
  assert (load16 pkt 22 s = Done (CLIENT_PORT, s)) as E22.
  { unfold pkt.
    replace ((0x45 :: a) ++ u16_bytes chk ++ b ++ u16_bytes SERVER_PORT ++ u16_bytes CLIENT_PORT ++ c ++ data)
      with (((0x45 :: a) ++ u16_bytes chk ++ b ++ u16_bytes SERVER_PORT) ++ u16_bytes CLIENT_PORT ++ c ++ data) by (by rewrite <- !app_assoc).
    apply (load16_at ((0x45 :: a) ++ u16_bytes chk ++ b ++ u16_bytes SERVER_PORT)); [rewrite !length_app; cbn [length]; rewrite Ha, Hb; done|done]. }
  mstep E22. change (negb (17 =? 17) || negb (0x45 =? 0x45) || negb (CLIENT_PORT =? CLIENT_PORT)) with false. cbv iota.
  assert (load16 pkt 10 s = Done (chk, s)) as E10 by (unfold pkt; apply load16_at; [simpl; lia|done]).
  mstep E10. assert (get_bytes pkt 0 20 s = Done ((0x45 :: a) ++ u16_bytes chk ++ b, s)) as Eh.
  { unfold pkt, get_bytes.
    replace ((0x45 :: a) ++ u16_bytes chk ++ b ++ u16_bytes SERVER_PORT ++ u16_bytes CLIENT_PORT ++ c ++ data)
      with ([] ++ ((0x45 :: a) ++ u16_bytes chk ++ b) ++ u16_bytes SERVER_PORT ++ u16_bytes CLIENT_PORT ++ c ++ data) by (by rewrite <- !app_assoc).
    rewrite buf_read_mid; [done|done|rewrite !length_app; cbn [length]; rewrite Ha, Hb; done]. }
  mstep Eh.
  replace (take 10 ((0x45 :: a) ++ u16_bytes chk ++ b) ++ [0; 0] ++ drop 12 ((0x45 :: a) ++ u16_bytes chk ++ b))
    with ((0x45 :: a) ++ [0; 0] ++ b).
  2: { rewrite take_app_length' by (simpl; lia). f_equal. f_equal.
       rewrite app_assoc. rewrite drop_app_length'; [done|]. rewrite length_app. simpl. lia. }
  fold chk. rewrite Z.eqb_refl. cbn [negb]. rewrite bind_gets.
  assert (get_bytes pkt 28 (28 + Z.of_nat (length data) - 28) s = Done (data, s)) as Edt.
  { unfold pkt, get_bytes.
    replace ((0x45 :: a) ++ u16_bytes chk ++ b ++ u16_bytes SERVER_PORT ++ u16_bytes CLIENT_PORT ++ c ++ data)
      with (((0x45 :: a) ++ u16_bytes chk ++ b ++ u16_bytes SERVER_PORT ++ u16_bytes CLIENT_PORT ++ c) ++ data ++ []) by (by rewrite app_nil_r, <- !app_assoc).
    rewrite buf_read_mid; [done|rewrite !length_app; cbn [length]; rewrite Ha, Hb, Hlc; done|lia]. }
  mstep Edt. unfold put_bytes. rewrite buf_write_Some by lia. cbn [of_option]. rewrite bind_ret, bind_modify.
  change (take (Z.to_nat 0) (c_packet s)) with (@nil Z). cbn [app Z.to_nat Nat.add].
  set (q := data ++ drop (length data) (c_packet s)).
  assert (fld q 236 4 = fld data 236 4) as Ef.
  { apply (fld_take _ _ _ _ 240); [|lia..]. unfold q. apply take_app_le. lia. }
  mstep (load32_fld q 236 (set_c_packet q s) ltac:(lia) ltac:(unfold q; rewrite length_app, length_drop; lia)).
  rewrite Ef, Hc, be32_be by done. change (DHCP_MAGIC =? DHCP_MAGIC) with true. cbv iota.
  unfold mret, M_ret. do 2 f_equal. lia.
Qed.

(** ** A reply of the server *)

(** The reply [pkt] is in the buffer [q]. *)
Definition reply_in (q : list Z) (type server : Z) (x : list Z) (y t : Z) : Prop :=
  ∃ l, has_options q (reply_base type server ++ reply_times t ++ l) ∧ fld q OFF_YIADDR 4 = be_bytes y ∧ fld q OFF_XID 4 = x.

Lemma reply_arrives type sv x y t bytes mac ix s : carries (Raw bytes mac ix) type sv x y t →
  Z.of_nat (length (c_packet s)) = sizeof_dhcpMessage → c_listen_mode s = LISTEN_RAW → be32 x = c_xid s →
  ∃ q, reply_in q type sv x y t ∧ Z.of_nat (length q) = sizeof_dhcpMessage ∧
    arrived sys cenv (Some bytes) s = on_message sys cenv q (set_c_packet q s).
Proof.
  intros [(data&source&dest&->&Hdl) (p&l&Ho&Hm&Hy&Hx&Hc)] Hl Hmode Hxid.
  set (its := reply_base type sv ++ reply_times t ++ l) in *.
  pose proof (is_message_prefix _ _ _ Hm) as Hpre. cbv zeta in Hpre. cbn [payload_of] in Hpre. rewrite raw_packet_payload in Hpre.
  set (m := (Z.to_nat OFF_OPTIONS + length (encode its) + 1)%nat) in *.
  assert (m ≤ length p)%nat as Hmp.
  { destruct Ho as (Hlp&_&rest&Hd). apply (f_equal length) in Hd. rewrite length_drop, length_app in Hd. cbn [length] in Hd.
    unfold m, OFF_OPTIONS, sizeof_dhcpMessage in *. lia. }
  assert (m ≤ length data)%nat as Hmd.
  { apply (f_equal length) in Hpre. rewrite !length_take in Hpre. lia. }
  assert (240 < Z.of_nat m) as Hm240 by (unfold m, OFF_OPTIONS; lia).
  exists (data ++ drop (length data) (c_packet s)). set (q := data ++ _).
  assert (Z.of_nat (length q) = sizeof_dhcpMessage) as Hq by (unfold q; rewrite length_app, length_drop; lia).
  assert (take m q = take m p) as Eq by (unfold q; rewrite take_app_le by done; done).
  assert (∀ o n, 0 ≤ o → 0 ≤ n → o + n ≤ 240 → fld q o n = fld p o n) as Ef by (intros; apply (fld_take _ _ _ _ m); [done|lia..]).
  split; [|split; [done|]].
  - exists l. split; [by eapply has_options_prefix|]. unfold OFF_YIADDR, OFF_XID in *. by rewrite !Ef.
  - unfold arrived. rewrite bind_gets, Hmode. change (LISTEN_RAW =? LISTEN_NONE) with false.
    change (LISTEN_RAW =? LISTEN_KERNEL) with false. cbv iota.
    assert (fld data OFF_COOKIE 4 = be_bytes DHCP_MAGIC) as Hck.
    { rewrite <- Hc. apply (fld_take _ _ _ _ m); [done|unfold OFF_COOKIE; lia..]. }
    mstep (get_raw_reply data source dest s Hl ltac:(unfold OFF_OPTIONS; lia) Hck).
    rewrite (proj2 (Z.ltb_ge _ _)) by lia. rewrite bind_gets. cbn [c_packet set_c_packet]. fold q.
    mstep (load32_fld q OFF_XID (set_c_packet q s) ltac:(done) ltac:(rewrite Hq; done)).
    rewrite bind_gets. cbn [c_xid set_c_packet]. unfold OFF_XID in *. rewrite Ef by lia. by rewrite Hx, Hxid, Z.eqb_refl.
Qed.

(** ** What the client takes from it *)

Lemma reply_fields q type sv x y t (s : dhcpc) : reply_in q type sv x y t → Z.of_nat (length q) = sizeof_dhcpMessage →
  0 ≤ sv < 2 ^ 32 → 0 ≤ y < 2 ^ 32 → 0 ≤ t < 2 ^ 32 →
  (∃ i, get_option q DHCP_MESSAGE_TYPE s = Done (Some i, s) ∧ ∀ s' : dhcpc, peek q i s' = Done (type, s')) ∧
  (∃ i, get_option q DHCP_SERVER_ID s = Done (Some i, s) ∧ ∀ s' : dhcpc, load32 q i s' = Done (sv, s')) ∧
  (∃ i, get_option q DHCP_LEASE_TIME s = Done (Some i, s) ∧ ∀ s' : dhcpc, load32 q i s' = Done (t, s')) ∧
  (∀ s' : dhcpc, load32 q OFF_YIADDR s' = Done (y, s')) ∧ (∀ s' : dhcpc, load32 q OFF_XID s' = Done (be32 x, s')).
Proof.
  intros (l&Ho&Hy&Hx) Hl Hsv Hyr Htr. split_and!.
  - exists 242. split; [by rewrite (get_option_spec q DHCP_MESSAGE_TYPE ltac:(done) _ s Ho)|].
    intros s'. by apply (option_byte q _ DHCP_MESSAGE_TYPE 242 type s' Ho).
  - exists 245. split; [by rewrite (get_option_spec q DHCP_SERVER_ID ltac:(done) _ s Ho)|].
    intros s'. by apply (option_number q _ DHCP_SERVER_ID 245 sv s' Ho).
  - exists 251. split; [by rewrite (get_option_spec q DHCP_LEASE_TIME ltac:(done) _ s Ho)|].
    intros s'. by apply (option_number q _ DHCP_LEASE_TIME 251 t s' Ho).
  - intros s'. rewrite load32_fld by (rewrite ?Hl; done). by rewrite Hy, be32_be.
  - intros s'. rewrite load32_fld by (rewrite ?Hl; done). by rewrite Hx.
Qed.

(** An offer makes a client without an address ask for what it offers. *)
Lemma offer_taken q sv x y t s : reply_in q DHCPOFFER sv x y t → Z.of_nat (length q) = sizeof_dhcpMessage →
  0 ≤ sv < 2 ^ 32 → 0 ≤ y < 2 ^ 32 → 0 ≤ t < 2 ^ 32 → c_state s = INIT_SELECTING →
  on_message sys cenv q s = Done (None,
    set_c_packet_num 0 (set_c_timeout (s32 (c_now s + 0)) (set_c_state REQUESTING
      (set_c_requested_ip y (set_c_xid (be32 x) (set_c_server_addr sv s)))))).
Proof.
  intros Hr Hl Hsv Hyr Htr Hst. destruct (reply_fields q DHCPOFFER sv x y t s Hr Hl Hsv Hyr Htr) as ((i1&E1&V1)&(i2&E2&V2)&_&Ey&Ex).
  unfold on_message. mstep E1. mstep (V1 s). rewrite bind_gets, Hst. cbv [INIT_SELECTING]. change (0 =? 0) with true.
  change (DHCPOFFER =? DHCPOFFER) with true. cbv iota. unfold on_offer. rewrite bind_assoc. mstep E2. rewrite bind_assoc.
  mstep (V2 s). rewrite bind_assoc, bind_modify, bind_assoc. mstep (Ex (set_c_server_addr sv s)).
  rewrite bind_assoc, bind_modify, bind_assoc. mstep (Ey (set_c_xid (be32 x) (set_c_server_addr sv s))). reflexivity.
Qed.
End client.
