(* ===== verification/DhcpClientSend.v ===== *)
(** * The DHCP client: its messages

    What the messages of the client carry, and what building and sending one
    changes: the client has slept a second for the serial number, has a new client
    identifier, and has sent.  Then a message of the client as the server of this
    program reads it. *)

From stdpp Require Import base numbers list sets strings.
From Stdlib Require Import ZArith Lia Bool.
From S2P Require Import Prelude CText DhcpPacket DhcpOptions DhcpLease DhcpFiles DhcpVi DhcpServer DhcpTable DhcpReply DhcpExcl DhcpRun DhcpScript DhcpClient DhcpClientRead.

(** ** A client in order *)

(** The hardware address, the host name and the vendor class the client has been
    started with. *)
Record client_ok (s : dhcpc) : Prop := {
  ok_arp : length (cc_arp (cl_config s)) = 6%nat;
  ok_hostname : ∀ h, cc_hostname (cl_config s) = Some h → ∃ name, h = arg_option DHCP_HOST_NAME name;
  ok_vendor : Z.of_nat (length (c_vendor_class_id s)) < 64
}.

(** The board has a serial number of at most 32 characters. *)
Definition serial_ok (cenv : client_env) : Prop :=
  ∀ n, c_string (ce_serial cenv n) ≠ [] ∧ Z.of_nat (length (c_string (ce_serial cenv n))) ≤ 32.

(** What goes out when the client sends [pkt] in [s]: the packet, unless the
    system's answer to this transmission is negative. *)
Definition goes_out (cenv : client_env) (s : dhcpc) (pkt : sent_packet) : list sent_packet :=
  if 0 <=? ce_send cenv (c_sends s) then [pkt] else [].

(** [moved cenv r s s' pkt]: the message [pkt] was built and given to the system,
    which answered [r]. *)
Definition moved (cenv : client_env) (r : Z) (s s' : dhcpc) (pkt : sent_packet) : Prop :=
  ∃ id n w, r = ce_send cenv (c_sends s) ∧ s' = set_c_sent (c_sent s ++ goes_out cenv s pkt) (set_c_sends (S (c_sends s))
    (set_c_serials n (set_c_now (c_now s + 1) (set_cl_config (set_clientid id (cl_config s)) (set_cl_world w s))))).

Lemma moved_ok cenv r s s' pkt : moved cenv r s s' pkt → client_ok s → client_ok s'.
Proof. intros (id&n&w&_&->) [H1 H2 H3]. by split. Qed.

(** ** Options of a message *)

Section items.
Context (sys : script_env) (cenv : client_env).

Definition vendor_data (class : list Z) : list Z := match class with [] => VDF_VERNDOR | _ => class end.

Definition request_items (type : Z) (serial : option (list Z)) (s : dhcpc) : list item :=
  [Opt DHCP_MESSAGE_TYPE [type]] ++
  match serial with Some n => [Opt DHCP_CLIENT_ID (0 :: n)] | None => [] end ++
  match cc_hostname (cl_config s) with Some h => [Opt DHCP_HOST_NAME (drop 2 h)] | None => [] end ++
  [Opt DHCP_VENDOR (vendor_data (c_vendor_class_id s))].

(** How much of the options they take. *)
Lemma request_items_bound type serial s k : client_ok s → (∀ n, serial = Some n → Z.of_nat (length n) ≤ 32) →
  0 ≤ k → (∀ h, cc_hostname (cl_config s) = Some h → Z.of_nat (length h) ≤ k) →
  Z.of_nat (length (encode (request_items type serial s))) ≤ 104 + k.
Proof.
  intros [_ Hh Hv] Hs Hk Hhk. unfold request_items. rewrite !encode_app, !length_app. unfold encode at 1 4. cbn [map concat].
  rewrite !app_nil_r. cbn [encode_item length].
  assert (Z.of_nat (length (vendor_data (c_vendor_class_id s))) ≤ 64) as Hvd.
  { unfold vendor_data. destruct (c_vendor_class_id s) as [|a c]; [done|lia]. }
  assert (Z.of_nat (length (encode match serial with Some n => [Opt DHCP_CLIENT_ID (0 :: n)] | None => [] end)) ≤ 35) as H1.
  { destruct serial as [n|]; [|done]. specialize (Hs n eq_refl). unfold encode. cbn [map concat encode_item]. rewrite app_nil_r. cbn [length]. lia. }
  assert (Z.of_nat (length (encode match cc_hostname (cl_config s) with Some h => [Opt DHCP_HOST_NAME (drop 2 h)] | None => [] end)) ≤ k) as H2.
  { destruct (cc_hostname (cl_config s)) as [h|]; [|done]. specialize (Hhk h eq_refl). destruct (Hh h eq_refl) as (name&->). revert Hhk.
    unfold arg_option, encode. cbv zeta. set (d := take 255 name). rewrite length_app.
    change (drop 2 ([DHCP_HOST_NAME; Z.of_nat (length d)] ++ d)) with d.
    cbn [map concat encode_item]. rewrite app_nil_r. cbn [length]. lia. }
  lia.
Qed.

Lemma request_items_length type serial s : client_ok s → (∀ n, serial = Some n → Z.of_nat (length n) ≤ 32) →
  Z.of_nat (length (encode (request_items type serial s))) ≤ 104 + 257.
Proof.
  intros Hok Hs. apply request_items_bound; [done|done|done|]. intros h Eh. destruct (ok_hostname _ Hok h Eh) as (name&->).
  unfold arg_option. cbv zeta. rewrite length_app, length_take. cbn [length]. lia.
Qed.
End items.

Section send.
Context (env : dhcp_env) (sys : script_env) (cenv : client_env).

Lemma opt_simple_ok p its code v bs (s : dhcpc) : has_options p its → item_ok (Opt code bs) → bs ≠ [] →
  simple_length code = Z.of_nat (length bs) → simple_bytes (simple_length code) v s = Done (bs, s) →
  Z.of_nat (length (encode its)) + Z.of_nat (length bs) + 2 < OPTIONS_LEN →
  ∃ p', opt_simple p code v s = Done (p', s) ∧ has_options p' (its ++ [Opt code bs]) ∧ same_header p p'.
Proof.
  intros H1 H2 H3 H4 H5 H6. destruct (add_simple_option_spec p its code v bs s H1 H2 H3 H4 H5 H6) as (p'&E&?&?).
  exists p'. unfold opt_simple. by mstep E.
Qed.

Lemma opt_address_ok p its code v (s : dhcpc) : has_options p its → code = DHCP_REQUESTED_IP ∨ code = DHCP_SERVER_ID →
  Z.of_nat (length (encode its)) + 6 < OPTIONS_LEN →
  ∃ p', opt_simple p code v s = Done (p', s) ∧ has_options p' (its ++ [Opt code (be_bytes v)]) ∧ same_header p p'.
Proof.
  intros H Hc Hl. apply opt_simple_ok; [done| |done| | |change (Z.of_nat (length (be_bytes v))) with 4; lia];
    destruct Hc; subst code; try reflexivity; repeat split; by vm_compute.
Qed.

Lemma add_string_ok p its code data junk (s : dhcpc) : has_options p its → item_ok (Opt code data) →
  Z.of_nat (length (encode its)) + Z.of_nat (length data) + 3 < OPTIONS_LEN →
  ∃ p', add_string p (encode_item (Opt code data) ++ junk) s = Done (p', s) ∧ has_options p' (its ++ [Opt code data]) ∧ same_header p p'.
Proof.
  intros H Hi Hl. destruct (add_option_string_spec p its code data junk s H Hi) as [H1 _]. destruct (H1 Hl) as (p'&E&?&?).
  exists p'. unfold add_string. by mstep E.
Qed.

Lemma blank_options arp : length arp = 6%nat → has_options (blank_request arp) [].
Proof.
  intros Ha. do 6 (destruct arp as [|? arp]; [done|]). destruct arp; [|done]. split; [done|]. split; [constructor|].
  by exists (replicate 1023 0).
Qed.

Lemma read_serial_ok s : serial_ok cenv → ∃ n, read_serial cenv 3 s =
  Done (c_string (ce_serial cenv (c_serials s)), set_c_now (c_now s + 1) (set_c_serials n s)).
Proof.
  intros Hs. destruct (Hs (c_serials s)) as [Hne Hl]. exists (S (c_serials s)). cbn [read_serial].
  rewrite bind_gets, bind_modify. cbv zeta. rewrite (proj2 (Z.leb_gt _ _)) by lia. unfold pass. rewrite bind_modify.
  by rewrite decide_False.
Qed.

(** The header of a request. *)
Definition req_header (p : list Z) (x ci : Z) (arp : list Z) : Prop :=
  fld p OFF_OP 1 = [BOOTREQUEST] ∧ fld p OFF_XID 4 = be_bytes x ∧ fld p OFF_CIADDR 4 = be_bytes ci ∧
  fld p OFF_GIADDR 4 = be_bytes 0 ∧ fld p OFF_CHADDR 16 = arp ++ replicate 10 0 ∧ fld p OFF_COOKIE 4 = be_bytes DHCP_MAGIC.

Lemma req_header_same p p' x ci arp : req_header p x ci arp → same_header p p' → req_header p' x ci arp.
Proof.
  intros (H1&H2&H3&H4&H5&H6) Hh.
  assert (∀ o n, 0 ≤ o → 0 ≤ n → o + n ≤ OFF_OPTIONS → fld p' o n = fld p o n) as E by (intros; eapply fld_take; [exact Hh|done..]).
  unfold req_header. rewrite !E by (unfold OFF_OP, OFF_XID, OFF_CIADDR, OFF_GIADDR, OFF_CHADDR, OFF_COOKIE, OFF_OPTIONS; lia). done.
Qed.

(** The client identifier, with the serial number [ser] when memory is left. *)
Lemma clientid_step p1 type ser (ok : bool) s : has_options p1 [Opt DHCP_MESSAGE_TYPE [type]] → Z.of_nat (length ser) ≤ 32 →
  ∃ p2 id serial, (if ok then
      modify (λ s0, set_cl_config (set_clientid (Some ([DHCP_CLIENT_ID; Z.of_nat (length ser) + 1; 0] ++ ser)) (cl_config s0)) s0);;
      add_string p1 ([DHCP_CLIENT_ID; Z.of_nat (length ser) + 1; 0] ++ ser)
      else modify (λ s0, set_cl_config (set_clientid None (cl_config s0)) s0);; mret p1) s =
      Done (p2, set_cl_config (set_clientid id (cl_config s)) s) ∧
    has_options p2 (Opt DHCP_MESSAGE_TYPE [type] :: match serial with Some m => [Opt DHCP_CLIENT_ID (0 :: m)] | None => [] end) ∧
    same_header p1 p2 ∧ (∀ m, serial = Some m → Z.of_nat (length m) ≤ 32).
Proof.
  intros O1 Hlen. destruct ok; rewrite bind_modify.
  - set (s3 := set_cl_config _ s).
    destruct (add_string_ok p1 _ DHCP_CLIENT_ID (0 :: ser) [] s3 O1) as (p2&E&O&Sh); [|unfold OPTIONS_LEN; cbn [encode map concat encode_item app length]; lia|].
    { repeat split; [done|cbn [length]; lia]. }
    rewrite app_nil_r in E. cbn [encode_item length] in E.
    replace (Z.of_nat (S (length ser))) with (Z.of_nat (length ser) + 1) in E by lia.
    eexists p2, _, (Some ser). split; [exact E|]. split; [exact O|]. split; [done|]. by intros m [= <-].
  - exists p1, None, None. split; [done|]. split; [exact O1|]. split; [done|]. by intros m [=].
Qed.

Definition hostname_items (c : client_config_t) : list item :=
  match cc_hostname c with Some h => [Opt DHCP_HOST_NAME (drop 2 h)] | None => [] end.

Lemma hostname_step p2 its s s' : client_ok s → has_options p2 its → Z.of_nat (length (encode its)) ≤ 38 →
  ∃ p3, match cc_hostname (cl_config s) with Some h => add_string p2 h | None => mret p2 end s' = Done (p3, s') ∧
    has_options p3 (its ++ hostname_items (cl_config s)) ∧ same_header p2 p3 ∧
    Z.of_nat (length (encode (hostname_items (cl_config s)))) ≤ 257.
Proof.
  intros [_ Hh _] O2 L2. unfold hostname_items. destruct (cc_hostname (cl_config s)) as [h|] eqn:Eh.
  - destruct (Hh h eq_refl) as (name&->). unfold arg_option. cbv zeta. set (d := take 255 name).
    change (drop 2 ([DHCP_HOST_NAME; Z.of_nat (length d)] ++ d)) with d.
    assert (Z.of_nat (length d) ≤ 255) as Hd by (unfold d; rewrite length_take; lia).
    destruct (add_string_ok p2 its DHCP_HOST_NAME d [] s' O2) as (p3&E&O&Sh); [by repeat split|unfold OPTIONS_LEN; lia|].
    rewrite app_nil_r in E. exists p3. split; [exact E|]. split; [done|]. split; [done|].
    unfold encode. cbn [map concat encode_item]. rewrite app_nil_r. cbn [length]. lia.
  - exists p2. rewrite app_nil_r. by split_and!.
Qed.

Lemma vendor_step class (s : dhcpc) : Z.of_nat (length class) < 64 →
  vendor_option class s = Done (encode_item (Opt DHCP_VENDOR (vendor_data class)), s) ∧ Z.of_nat (length (vendor_data class)) ≤ 64.
Proof.
  intros Hv. unfold vendor_option, vendor_data. destruct class as [|c r]; [done|].
  rewrite (proj2 (Z.leb_gt _ _)) by lia. split; [done|lia].
Qed.

Lemma blank_header arp : length arp = 6%nat → req_header (blank_request arp) 0 0 arp.
Proof. intros Ha. unfold req_header. do 6 (destruct arp as [|? arp]; [done|]). by destruct arp. Qed.

(** The message that is built first. *)
Lemma init_packet_built type s : client_ok s → serial_ok cenv → is_byte type →
  ∃ p serial id n w, init_packet sys cenv type s = Done (p, set_c_serials n (set_c_now (c_now s + 1)
      (set_cl_config (set_clientid id (cl_config s)) (set_cl_world w s)))) ∧
    has_options p (request_items type serial s) ∧ req_header p 0 0 (cc_arp (cl_config s)) ∧
    (∀ m, serial = Some m → Z.of_nat (length m) ≤ 32).
Proof.
  intros Hok Hser Ht. pose proof Hok as [Ha _ Hv]. unfold init_packet, conf_of. rewrite bind_gets.
  set (arp := cc_arp (cl_config s)) in *.
  destruct (opt_simple_ok (blank_request arp) [] DHCP_MESSAGE_TYPE type [type] s (blank_options arp Ha)) as (p1&E1&O1&S1);
    [repeat split; by vm_compute|done|done| |by vm_compute|].
  { unfold simple_bytes. change (simple_length DHCP_MESSAGE_TYPE) with 1. cbn [Z.eqb Pos.eqb]. unfold mret, M_ret. do 3 f_equal.
    unfold u8. by apply Z.mod_small. }
  mstep E1. destruct (read_serial_ok s Hser) as [n E2]. mstep E2. set (ser := c_string (ce_serial cenv (c_serials s))).
  destruct (Hser (c_serials s)) as [_ Hlen]. fold ser in Hlen. unfold alloc. rewrite bind_assoc, bind_gets.
  unfold on_world. rewrite bind_assoc, bind_modify, bind_ret.
  set (ok := se_malloc sys _). clearbody ok. set (s2 := put_world _ _).
  destruct (clientid_step p1 type ser ok s2 O1 Hlen) as (p2&id&serial&E3&O2&S2&Hs).
  mstep E3. unfold s2 in *. clear E1 E2 E3 s2 ok. rewrite bind_gets. cbn [cl_config set_cl_config set_clientid cc_hostname].
  set (s4 := set_cl_config _ _). set (its2 := Opt DHCP_MESSAGE_TYPE [type] :: _) in O2.
  assert (Z.of_nat (length (encode its2)) ≤ 38) as L2.
  { unfold its2. rewrite encode_cons, length_app. destruct serial as [m|]; [|done]. specialize (Hs m eq_refl).
    unfold encode. cbn [map concat encode_item app length]. rewrite app_nil_r. cbn [length]. lia. }
  destruct (hostname_step p2 its2 s s4 Hok O2 L2) as (p3&E4&O3&S3&L3). mstep E4. clear E4. rewrite bind_gets.
  change (c_vendor_class_id s4) with (c_vendor_class_id s). set (vc := c_vendor_class_id s) in *.
  destruct (vendor_step vc s4 Hv) as [E5 Hvd]. mstep E5.
  destruct (add_string_ok p3 (its2 ++ hostname_items (cl_config s)) DHCP_VENDOR (vendor_data vc) [] s4 O3) as (p4&E6&O4&S4).
  { repeat split; [done|lia]. } { rewrite encode_app, length_app. unfold OPTIONS_LEN. lia. }
  rewrite app_nil_r in E6. eexists p4, serial, id, n, _. split; [exact E6|]. split; [|split; [|done]].
  - unfold its2 in O4. rewrite <- app_assoc in O4. exact O4.
  - do 4 (eapply req_header_same; [|eassumption]). by apply blank_header.
Qed.

(** ** Sending *)

Lemma calc_length_ok {St} p its (s : St) : has_options p its →
  ∃ len q, calc_length p s = Done ((len, q), s) ∧ 0 ≤ len ≤ sizeof_dhcpMessage ∧ Z.of_nat (length q) = sizeof_dhcpMessage.
Proof.
  intros H. unfold calc_length. mstep (end_option_spec p its s H). destruct H as (Hl&_&rest&Hd).
  apply (f_equal length) in Hd. rewrite length_drop, length_app in Hd. cbn [length] in Hd.
  set (pl := sizeof_dhcpMessage - OPTIONS_LEN + (Z.of_nat (length (encode its)) + 1)). unfold sizeof_dhcpMessage, OPTIONS_LEN, OFF_OPTIONS in *.
  destruct (Z.odd pl) eqn:Eo.
  - assert (pl ≠ 1264) by (intros E; by rewrite E in Eo). assert (0 ≤ pl < 1264) by (unfold pl in *; lia).
    unfold poke8. destruct (buf_write p (pl + 1 - 1) [0]) as [q|] eqn:Ew.
    + cbn [of_option]. rewrite bind_ret. exists (pl + 1), q. split; [done|]. split; [lia|]. by rewrite (buf_write_length _ _ _ _ Ew).
    + exfalso. rewrite buf_write_Some in Ew by (simpl; lia). done.
  - exists pl, p. split; [done|]. split; [unfold pl; lia|done].
Qed.

(** [pkt] is a message of the client with these options. *)
Definition client_message (pkt : sent_packet) (its : list item) (x ci : Z) (arp : list Z) : Prop :=
  ∃ p, has_options p its ∧ is_message pkt p its ∧ req_header p x ci arp ∧ Z.of_nat (length (payload_of pkt)) ≤ sizeof_dhcpMessage.

(** The packet goes out, unless the system fails, and nothing else happens. *)
Definition sent_one (r : Z) (s s' : dhcpc) (pkt : sent_packet) : Prop :=
  r = ce_send cenv (c_sends s) ∧ s' = set_c_sent (c_sent s ++ goes_out cenv s pkt) (set_c_sends (S (c_sends s)) s).

Lemma send_out_ok pkt s : ∃ r s', send_out cenv pkt s = Done (r, s') ∧ sent_one r s s' pkt.
Proof.
  unfold send_out, sent_one, goes_out. rewrite bind_gets, bind_modify. set (r := ce_send cenv (c_sends s)). exists r.
  destruct (0 <=? r).
  - rewrite bind_modify. by eexists.
  - rewrite bind_ret. eexists. split; [reflexivity|]. by rewrite app_nil_r.
Qed.

Lemma message_data p its x ci arp (s : dhcpc) : has_options p its → req_header p x ci arp →
  ∃ len q data, calc_length p s = Done ((len, q), s) ∧ get_bytes q 0 len s = Done (data, s) ∧
    ∀ pkt, payload_of pkt = data → client_message pkt its x ci arp.
Proof.
  intros H Hh. destruct (calc_length_ok p its s H) as (len&q&E1&Hlen&Hq). exists len, q.
  unfold sizeof_dhcpMessage in *.
  pose proof (get_bytes_ok q 0 len s ltac:(lia) ltac:(lia) ltac:(lia)) as E2.
  destruct (sent_data p its s len q (fld q 0 len) s s H E1 E2) as (_&Hf&Hl). exists (fld q 0 len). split; [done|]. split; [done|].
  intros pkt Hp. exists p. split; [done|]. split; [|split; [done|by rewrite Hp]]. intros o n Ho Hn Hon. rewrite Hp. by apply Hf.
Qed.

Lemma broadcast_ok p its x ci arp s : has_options p its → req_header p x ci arp →
  ∃ r s' bytes, broadcast cenv p s = Done (r, s') ∧ sent_one r s s' (Raw bytes MAC_BCAST_ADDR (cc_ifindex (cl_config s))) ∧
    client_message (Raw bytes MAC_BCAST_ADDR (cc_ifindex (cl_config s))) its x ci arp.
Proof.
  intros H Hh. destruct (message_data p its x ci arp s H Hh) as (len&q&data&E1&E2&Hm). unfold broadcast. mstep E1. mstep E2.
  unfold conf_of. rewrite bind_gets. destruct (send_out_ok (Raw (raw_packet_bytes data 0 CLIENT_PORT INADDR_BROADCAST SERVER_PORT)
    MAC_BCAST_ADDR (cc_ifindex (cl_config s))) s) as (r&s'&E3&Hs). exists r, s'. eexists. split; [exact E3|]. split; [exact Hs|].
  apply Hm. apply raw_packet_payload.
Qed.

Lemma unicast_ok p its x ci arp server s : has_options p its → req_header p x ci arp →
  ∃ r s' data, unicast cenv p server s = Done (r, s') ∧ sent_one r s s' (Kernel data server) ∧
    client_message (Kernel data server) its x ci arp.
Proof.
  intros H Hh. destruct (message_data p its x ci arp s H Hh) as (len&q&data&E1&E2&Hm). unfold unicast. mstep E1. mstep E2.
  destruct (send_out_ok (Kernel data server) s) as (r&s'&E3&Hs). exists r, s', data. split; [exact E3|]. split; [exact Hs|]. by apply Hm.
Qed.

(** Writing a number into the header. *)
Lemma write_word p its off v (s : dhcpc) : has_options p its → 0 ≤ off → off + 4 ≤ OFF_OPTIONS →
  ∃ p', store32 p off v s = Done (p', s) ∧ has_options p' its ∧ fld p' off 4 = be_bytes v ∧
    ∀ o n, 0 ≤ o → 0 ≤ n → o + n ≤ off ∨ off + 4 ≤ o → fld p' o n = fld p o n.
Proof.
  intros H H0 Hoff. pose proof H as (Hl&_). unfold store32, put_bytes.
  assert (∃ p', buf_write p off (be_bytes v) = Some p') as [p' Ew].
  { eexists. apply buf_write_Some; unfold OFF_OPTIONS, sizeof_dhcpMessage in *; simpl; lia. }
  rewrite Ew. destruct (put_header _ _ _ _ Ew ltac:(done)) as (Ho&Hv&Hf). exists p'. split; [done|]. split; [by apply Ho|]. by split.
Qed.

Lemma put_xid p its x ci arp v (s : dhcpc) : has_options p its → req_header p x ci arp →
  ∃ p', store32 p OFF_XID v s = Done (p', s) ∧ has_options p' its ∧ req_header p' v ci arp.
Proof.
  intros H (H1&H2&H3&H4&H5&H6). destruct (write_word p its OFF_XID v s H ltac:(done) ltac:(done)) as (p'&E&Ho&Hv&Hf).
  exists p'. split; [done|]. split; [done|]. unfold req_header. rewrite Hv. rewrite !Hf by (vm_compute; intuition discriminate). done.
Qed.

Lemma put_ciaddr p its x ci arp v (s : dhcpc) : has_options p its → req_header p x ci arp →
  ∃ p', store32 p OFF_CIADDR v s = Done (p', s) ∧ has_options p' its ∧ req_header p' x v arp.
Proof.
  intros H (H1&H2&H3&H4&H5&H6). destruct (write_word p its OFF_CIADDR v s H ltac:(done) ltac:(done)) as (p'&E&Ho&Hv&Hf).
  exists p'. split; [done|]. split; [done|]. unfold req_header. rewrite Hv. rewrite !Hf by (vm_compute; intuition discriminate). done.
Qed.

(** ** The messages *)

(** What [init_packet] and the transmission change together. *)
Lemma moved_intro r s s1 s' n id w pkt :
  s1 = set_c_serials n (set_c_now (c_now s + 1) (set_cl_config (set_clientid id (cl_config s)) (set_cl_world w s))) →
  sent_one r s1 s' pkt → moved cenv r s s' pkt.
Proof. intros -> [-> ->]. by exists id, n, w. Qed.

(** A renewal, to the server or to all. *)
Lemma send_renew_ok x server ci s : client_ok s → serial_ok cenv →
  ∃ r s' pkt serial, send_renew sys cenv x server ci s = Done (r, s') ∧ moved cenv r s s' pkt ∧
    client_message pkt (request_items DHCPREQUEST serial s) x ci (cc_arp (cl_config s)) ∧
    (∀ m, serial = Some m → Z.of_nat (length m) ≤ 32).
Proof.
  intros Hok Hs. destruct (init_packet_built DHCPREQUEST s Hok Hs ltac:(done)) as (p0&serial&id&n&w&E0&O0&R0&Hser).
  unfold send_renew. mstep E0. set (s1 := set_c_serials _ _) in *.
  destruct (put_xid _ _ _ _ _ x s1 O0 R0) as (p1&E1&O1&R1). mstep E1.
  destruct (put_ciaddr _ _ _ _ _ ci s1 O1 R1) as (p2&E2&O2&R2). mstep E2. unfold send_renewal. destruct (server =? 0).
  - destruct (broadcast_ok _ _ _ _ _ s1 O2 R2) as (r&s'&bytes&E3&Hs1&Hm). eexists r, s', _, serial. split; [exact E3|]. split; [by eapply moved_intro|done].
  - destruct (unicast_ok _ _ _ _ _ server s1 O2 R2) as (r&s'&data&E3&Hs1&Hm). eexists r, s', _, serial. split; [exact E3|]. split; [by eapply moved_intro|done].
Qed.

(** The identity of the gateway fits when the serial number does. *)
Lemma gateway_option : Z.of_nat (length (serial_number env)) ≤ 63 → ∃ data junk, Z.of_nat (length data) ≤ 88 ∧
  ∀ St (s : St), createVIoption env VENDOR_IDENTIFYING_FOR_GATEWAY s = Done (encode_item (Opt DHCP_VENDOR_IDENTIFYING data) ++ junk, s).
Proof.
  intros Hs. unfold createVIoption. rewrite (proj2 (Z.leb_gt _ _)) by lia. cbv zeta. set (body := vi_sub _ _ ++ _).
  assert (Z.of_nat (length body) ≤ 83) as Hb.
  { unfold body, vi_sub. rewrite !length_app. cbn [length]. 
    assert (length (concat (map sprintf_02x (take 3 (base_mac env)))) ≤ 6)%nat as Ho.
    { destruct (base_mac env) as [|a [|b [|c r]]]; rewrite ?take_0; cbn [take firstn map concat app sprintf_02x length]; rewrite ?take_0; cbn [map concat length]; lia. }
    change (length (cstr "EchoLife")) with 8%nat. lia. }
  clearbody body. unfold VENDOR_ENTERPRISE_LEN, VENDOR_OPTION_DATA_OFFSET, VENDOR_IDENTIFYING_INFO_LEN.
  set (total := 4 + 1 + Z.of_nat (length body)).
  exists (be_bytes VENDOR_ADSL_FORUM_ENTERPRISE_NUMBER ++ [u8 (total - 5)] ++ body), (take 5 (junk env ++ replicate 5 0)).
  assert (Z.of_nat (length (be_bytes VENDOR_ADSL_FORUM_ENTERPRISE_NUMBER ++ [u8 (total - 5)] ++ body)) = total) as El.
  { rewrite !length_app. cbn [length]. change (length (be_bytes VENDOR_ADSL_FORUM_ENTERPRISE_NUMBER)) with 4%nat. unfold total. lia. }
  split; [unfold total in *; lia|]. intros St s. rewrite (proj2 (Z.ltb_ge _ _)) by (unfold total; lia). cbn [encode_item]. rewrite El.
  replace (u8 total) with total by (symmetry; apply Z.mod_small; unfold total; lia). done.
Qed.

Lemma add_requests_ok p its (s : dhcpc) : has_options p its → Z.of_nat (length (encode its)) ≤ 900 →
  ∃ p', add_requests p s = Done (p', s) ∧ has_options p' (its ++ [Opt DHCP_PARAM_REQ PARM_REQUESTS]) ∧ same_header p p'.
Proof.
  intros H Hl. destruct (add_string_ok p its DHCP_PARAM_REQ PARM_REQUESTS [] s H) as (p'&E&?&?); [by repeat split| |].
  { unfold OPTIONS_LEN. change (Z.of_nat (length PARM_REQUESTS)) with 14. lia. }
  exists p'. split; [|done]. rewrite app_nil_r in E. exact E.
Qed.

(** The request for an address that was offered. *)
Definition selecting_items (serial : option (list Z)) (server requested : Z) (identity : list Z) (s : dhcpc) : list item :=
  request_items DHCPREQUEST serial s ++ [Opt DHCP_REQUESTED_IP (be_bytes requested); Opt DHCP_SERVER_ID (be_bytes server);
    Opt DHCP_PARAM_REQ PARM_REQUESTS; Opt DHCP_VENDOR_IDENTIFYING identity].

Lemma send_selecting_ok x server requested s : client_ok s → serial_ok cenv → Z.of_nat (length (serial_number env)) ≤ 63 →
  ∃ r s' bytes serial identity, send_selecting env sys cenv x server requested s = Done (r, s') ∧
    moved cenv r s s' (Raw bytes MAC_BCAST_ADDR (cc_ifindex (cl_config s))) ∧
    client_message (Raw bytes MAC_BCAST_ADDR (cc_ifindex (cl_config s))) (selecting_items serial server requested identity s) x 0 (cc_arp (cl_config s)) ∧
    (∀ m, serial = Some m → Z.of_nat (length m) ≤ 32) ∧ Z.of_nat (length identity) ≤ 88.
Proof.
  intros Hok Hs Hg. destruct (init_packet_built DHCPREQUEST s Hok Hs ltac:(done)) as (p0&serial&id&n&w&E0&O0&R0&Hser).
  pose proof (request_items_length DHCPREQUEST serial s Hok Hser) as L0.
  destruct (gateway_option Hg) as (identity&junk&Hid&Eg). unfold send_selecting. mstep E0. set (s1 := set_c_serials _ _) in *.
  destruct (put_xid _ _ _ _ _ x s1 O0 R0) as (p1&E1&O1&R1). mstep E1.
  destruct (opt_address_ok p1 _ DHCP_REQUESTED_IP requested s1 O1 (or_introl eq_refl)) as (p2&E2&O2&S2); [unfold OPTIONS_LEN; lia|]. mstep E2.
  assert (∀ its it, Z.of_nat (length (encode (its ++ [it]))) = Z.of_nat (length (encode its)) + Z.of_nat (length (encode_item it))) as La.
  { intros. rewrite encode_app, length_app. unfold encode at 2. cbn [map concat]. rewrite app_nil_r. lia. }
  destruct (opt_address_ok p2 _ DHCP_SERVER_ID server s1 O2 (or_intror eq_refl)) as (p3&E3&O3&S3);
    [rewrite La; unfold OPTIONS_LEN; cbn [encode_item length]; change (length (be_bytes requested)) with 4%nat; lia|]. mstep E3.
  destruct (add_requests_ok p3 _ s1 O3) as (p4&E4&O4&S4);
    [rewrite !La; cbn [encode_item length]; change (length (be_bytes requested)) with 4%nat; change (length (be_bytes server)) with 4%nat; lia|]. mstep E4.
  unfold add_gateway. rewrite bind_assoc. mstep (Eg _ s1).
  destruct (add_string_ok p4 _ DHCP_VENDOR_IDENTIFYING identity junk s1 O4) as (p5&E5&O5&S5); [repeat split; [done|lia]| |].
  { rewrite !La. cbn [encode_item length]. change (length (be_bytes requested)) with 4%nat. change (length (be_bytes server)) with 4%nat.
    change (length PARM_REQUESTS) with 14%nat. unfold OPTIONS_LEN. lia. }
  mstep E5. assert (req_header p5 x 0 (cc_arp (cl_config s))) as R5.
  { eapply req_header_same; [|exact S5]. eapply req_header_same; [|exact S4]. eapply req_header_same; [|exact S3]. by eapply req_header_same. }
  rewrite <- !app_assoc in O5. destruct (broadcast_ok _ _ _ _ _ s1 O5 R5) as (r&s'&bytes&E6&Hs1&Hm).
  exists r, s', bytes, serial, identity. split; [exact E6|]. split; [by eapply moved_intro|]. by split_and!.
Qed.
End send.

(** ** What a server makes of the messages *)

Lemma find_item_end its code o pos data : find_item its code o = Some (pos, data) →
  o + 2 ≤ pos ∧ pos + Z.of_nat (length data) ≤ o + Z.of_nat (length (encode its)).
Proof.
  revert o. induction its as [|it its IH]; intros o; [done|]. rewrite encode_cons, length_app. destruct it as [|c d]; cbn [find_item].
  - intros E%IH. cbn [encode_item length]. lia.
  - cbn [encode_item length]. destruct (c =? code); [intros [= <- <-]; lia|]. intros E%IH. lia.
Qed.

Lemma peek_ok {St} p i (s : St) : 0 ≤ i < Z.of_nat (length p) → ∃ b, peek p i s = Done (b, s).
Proof.
  intros Hi. unfold peek. rewrite decide_True by lia. destruct (lookup_lt_is_Some_2 p (Z.to_nat i)) as [b Eb]; [lia|].
  exists b. by rewrite Eb.
Qed.

Lemma peek_fld {St} p i b (s : St) : 0 ≤ i → fld p i 1 = [b] → peek p i s = Done (b, s).
Proof.
  intros Hi E. unfold peek. rewrite decide_True by lia. unfold fld in E. change (Z.to_nat 1) with 1%nat in E.
  destruct (drop (Z.to_nat i) p) as [|x r] eqn:Ed; [done|]. injection E as ->.
  by rewrite <- (Nat.add_0_r (Z.to_nat i)), <- lookup_drop, Ed.
Qed.

(** The flag that is set for broken clients is in the header. *)
Lemma force_ok {St} p its x ci arp v names (s : St) : has_options p its → req_header p x ci arp →
  1 ≤ v → v + 128 ≤ sizeof_dhcpMessage →
  ∃ q, force_broadcast_flag p v names s = Done (q, s) ∧ has_options q its ∧ req_header q x ci arp.
Proof.
  revert p. induction names as [|n names IH]; intros p Ho Hh H1 H2; cbn [force_broadcast_flag]; [by exists p|].
  pose proof Ho as (Hl&_). unfold sizeof_dhcpMessage in *.
  assert (∃ b, vendor_is_broken p v n s = Done (b, s)) as [b Eb].
  { unfold vendor_is_broken. destruct (peek_ok p (v + (OPT_LEN - 2)) s) as [l El]; [unfold OPT_LEN; lia|]. mstep El.
    destruct (Z.eqb_spec (s8 l) (Z.of_nat (length n))) as [E|E]; [|by eexists].
    assert (s8 l < 128) as Hs by (unfold s8; pose proof (Z.mod_pos_bound (l + 2 ^ 7) (2 ^ 8)); lia).
    mstep (get_bytes_ok p v (s8 l) s ltac:(lia) ltac:(lia) ltac:(lia)). by eexists. }
  mstep Eb. unfold load16. rewrite bind_assoc. mstep (get_bytes_ok p OFF_FLAGS 2 s ltac:(done) ltac:(done) ltac:(unfold OFF_FLAGS; lia)).
  rewrite bind_ret. set (fl := be16_of _). destruct (b && (Z.land fl BROADCAST_FLAG =? 0)).
  - unfold store16, put_bytes. set (bs := u16_bytes _).
    assert (∃ p', buf_write p OFF_FLAGS bs = Some p') as [p' Ew].
    { eexists. apply buf_write_Some; unfold OFF_FLAGS; [lia|]. change (Z.of_nat (length bs)) with 2. lia. }
    rewrite Ew. cbn [of_option]. rewrite bind_ret.
    destruct (put_header _ _ _ _ Ew ltac:(done)) as (Ho'&_&Hf). apply IH; [by apply Ho'| |done|done].
    destruct Hh as (?&?&?&?&?&?). unfold req_header. rewrite !Hf by (vm_compute; intuition discriminate). done.
  - rewrite bind_ret. by apply IH.
Qed.

(** The server reads the message the client has built. *)
Lemma server_reads {St} pkt its x ci arp (s : St) : client_message pkt its x ci arp → Z.of_nat (length (encode its)) ≤ 800 →
  ∃ q, get_packet (Some (payload_of pkt)) s = Done (Some q, s) ∧ has_options q its ∧ req_header q x ci arp.
Proof.
  intros (p&Ho&Hm&Hh&Hl) Hlen. pose proof (is_message_prefix _ _ _ Hm) as Hpre. cbv zeta in Hpre.
  set (m := (Z.to_nat OFF_OPTIONS + length (encode its) + 1)%nat) in *. set (data := payload_of pkt) in *.
  pose proof Ho as (Hlp&_). unfold sizeof_dhcpMessage in *.
  assert (240 < Z.of_nat m ∧ Z.of_nat m ≤ 1264) as [Hm1 Hm2] by (unfold m, OFF_OPTIONS; lia).
  assert (m ≤ length data)%nat as Hmd by (apply (f_equal length) in Hpre; rewrite !length_take in Hpre; lia).
  unfold get_packet. unfold sizeof_dhcpMessage. rewrite take_ge by lia. unfold put_bytes.
  rewrite buf_write_Some by (rewrite ?length_replicate; lia). cbn [of_option]. rewrite bind_ret. rewrite take_0. cbn [app].
  set (q := data ++ _). assert (Z.of_nat (length q) = 1264) as Hq by (unfold q; rewrite length_app, length_drop, length_replicate; lia).
  assert (take m q = take m p) as Eq by (unfold q; by rewrite take_app_le).
  assert (has_options q its) as Oq by (by eapply has_options_prefix).
  assert (req_header q x ci arp) as Hhq.
  { destruct Hh as (?&?&?&?&?&?). unfold req_header.
    assert (∀ o n, 0 ≤ o → 0 ≤ n → o + n ≤ 240 → fld q o n = fld p o n) as Ef by (intros; apply (fld_take _ _ _ _ m); [done|lia..]).
    rewrite !Ef by (vm_compute; done). done. }
  pose proof Hhq as (Hop&_&_&_&_&Hck). mstep (load32_fld q OFF_COOKIE s ltac:(done) ltac:(rewrite Hq; done)).
  rewrite Hck, be32_be by done. change (DHCP_MAGIC =? DHCP_MAGIC) with true. cbn [negb].
  mstep (peek_fld q OFF_OP BOOTREQUEST s ltac:(done) Hop). change (BOOTREQUEST =? BOOTREQUEST) with true. cbv iota.
  mstep (get_option_spec q DHCP_VENDOR ltac:(done) its s Oq). destruct (find_item its DHCP_VENDOR OFF_OPTIONS) as [[v d]|] eqn:Ev.
  - apply find_item_end in Ev as [Hv1 Hv2]. unfold OFF_OPTIONS in *.
    cbn [opt_found]. destruct (_ <=? _); [|by exists q].
    destruct (force_ok q its x ci arp v broken_vendors s Oq Hhq) as (q'&E&?&?); [lia|unfold sizeof_dhcpMessage; lia|]. exists q'. by mstep E.
  - by exists q.
Qed.

(** ** The options of a request *)

(** [q], as the server has read it, asks for the renewal of the lease of the
    address [ci], or for the address [y] the server [sv] has offered. *)
Definition asks_renewal {St} (q : list Z) (s : St) : Prop :=
  (∃ i, get_option q DHCP_MESSAGE_TYPE s = Done (Some i, s) ∧ peek q i s = Done (DHCPREQUEST, s)) ∧
  get_option q DHCP_REQUESTED_IP s = Done (None, s) ∧ get_option q DHCP_SERVER_ID s = Done (None, s).

Definition asks_for {St} (q : list Z) (y sv : Z) (s : St) : Prop :=
  (∃ i, get_option q DHCP_MESSAGE_TYPE s = Done (Some i, s) ∧ peek q i s = Done (DHCPREQUEST, s)) ∧
  (∃ i, get_option q DHCP_REQUESTED_IP s = Done (Some i, s) ∧ load32 q i s = Done (y, s)) ∧
  (∃ i, get_option q DHCP_SERVER_ID s = Done (Some i, s) ∧ load32 q i s = Done (sv, s)).

(** The options every message starts with are not those. *)
Lemma request_items_other type serial s code o : code ≠ DHCP_MESSAGE_TYPE → code ≠ DHCP_CLIENT_ID → code ≠ DHCP_HOST_NAME →
  code ≠ DHCP_VENDOR → find_item (request_items type serial s) code o = None.
Proof.
  intros H1 H2 H3 H4. unfold request_items. rewrite !find_item_app.
  assert (∀ c d o, c ≠ code → find_item [Opt c d] code o = None) as Hn by (intros c d o0 Hc; cbn [find_item]; by rewrite (proj2 (Z.eqb_neq _ _) Hc)).
  rewrite !Hn by done. destruct serial as [n|], (cc_hostname (cl_config s)) as [h|]; rewrite ?Hn by done; done.
Qed.

(** A host name of at most 190 characters leaves the options behind it in the part
    of a message the server searches. *)
Definition hostname_short (s : dhcpc) : Prop := ∀ h, cc_hostname (cl_config s) = Some h → Z.of_nat (length h) ≤ 192.

Lemma request_items_short type serial s : client_ok s → hostname_short s → (∀ n, serial = Some n → Z.of_nat (length n) ≤ 32) →
  Z.of_nat (length (encode (request_items type serial s))) ≤ 296.
Proof. intros. by apply (request_items_bound type serial s 192). Qed.

Lemma renewal_read {St} q serial s (t : St) : has_options q (request_items DHCPREQUEST serial s) → asks_renewal q t.
Proof.
  intros H. split; [|split].
  - exists 242. split; [by rewrite (get_option_spec q DHCP_MESSAGE_TYPE ltac:(done) _ t H)|].
    by apply (option_byte q _ DHCP_MESSAGE_TYPE 242 DHCPREQUEST t H).
  - by rewrite (get_option_spec q DHCP_REQUESTED_IP ltac:(done) _ t H), request_items_other.
  - by rewrite (get_option_spec q DHCP_SERVER_ID ltac:(done) _ t H), request_items_other.
Qed.

Lemma selecting_read {St} q serial sv y identity s (t : St) : has_options q (selecting_items serial sv y identity s) →
  0 ≤ sv < 2 ^ 32 → 0 ≤ y < 2 ^ 32 → Z.of_nat (length (encode (request_items DHCPREQUEST serial s))) ≤ 296 → asks_for q y sv t.
Proof.
  intros H Hsv Hy Hlen. set (n := OFF_OPTIONS + Z.of_nat (length (encode (request_items DHCPREQUEST serial s)))).
  assert (find_item (selecting_items serial sv y identity s) DHCP_REQUESTED_IP OFF_OPTIONS = Some (n + 2, be_bytes y)) as E1
    by (unfold selecting_items; by rewrite find_item_app, request_items_other).
  assert (find_item (selecting_items serial sv y identity s) DHCP_SERVER_ID OFF_OPTIONS = Some (n + 8, be_bytes sv)) as E2.
  { unfold selecting_items. rewrite find_item_app, request_items_other by done. fold n. cbn. do 2 f_equal. lia. }
  split; [|split].
  - exists 242. split; [by rewrite (get_option_spec q DHCP_MESSAGE_TYPE ltac:(done) _ t H)|].
    by apply (option_byte q _ DHCP_MESSAGE_TYPE 242 DHCPREQUEST t H).
  - exists (n + 2). split; [by rewrite (get_option_spec q DHCP_REQUESTED_IP ltac:(done) _ t H), E1; cbn [opt_found]; rewrite (proj2 (Z.leb_le _ _)) by (unfold n; change (length (be_bytes y)) with 4%nat; lia)|]. by eapply option_number.
  - exists (n + 8). split; [by rewrite (get_option_spec q DHCP_SERVER_ID ltac:(done) _ t H), E2; cbn [opt_found]; rewrite (proj2 (Z.leb_le _ _)) by (unfold n; change (length (be_bytes sv)) with 4%nat; lia)|]. by eapply option_number.
Qed.

Lemma selecting_items_short serial sv y identity s : client_ok s → hostname_short s →
  (∀ n, serial = Some n → Z.of_nat (length n) ≤ 32) → Z.of_nat (length identity) ≤ 88 →
  Z.of_nat (length (encode (selecting_items serial sv y identity s))) ≤ 800.
Proof.
  intros Hok Hsh Hs Hi. pose proof (request_items_short DHCPREQUEST serial s Hok Hsh Hs) as Hr. unfold selecting_items.
  rewrite encode_app, length_app. unfold encode at 2. cbn [map concat encode_item]. rewrite !length_app. cbn [length].
  change (length (be_bytes y)) with 4%nat. change (length (be_bytes sv)) with 4%nat. change (length PARM_REQUESTS) with 14%nat. lia.
Qed.

(** The server reads the request for an address as it was meant. *)
Lemma selecting_understood {St} pkt serial sv y identity x s (t : St) : client_ok s → hostname_short s →
  (∀ n, serial = Some n → Z.of_nat (length n) ≤ 32) → Z.of_nat (length identity) ≤ 88 → 0 ≤ sv < 2 ^ 32 → 0 ≤ y < 2 ^ 32 →
  client_message pkt (selecting_items serial sv y identity s) x 0 (cc_arp (cl_config s)) →
  ∃ q, get_packet (Some (payload_of pkt)) t = Done (Some q, t) ∧ asks_for q y sv t ∧
    fld q OFF_XID 4 = be_bytes x ∧ fld q OFF_CHADDR 16 = cc_arp (cl_config s) ++ replicate 10 0.
Proof.
  intros Hok Hsh Hs Hi Hsv Hy Hm.
  destruct (server_reads pkt _ x 0 _ t Hm (selecting_items_short serial sv y identity s Hok Hsh Hs Hi)) as (q&E&Ho&(_&Hx&_&_&Hch&_)).
  exists q. split; [done|]. split; [|done]. eapply selecting_read; [exact Ho|done|done|]. by apply request_items_short.
Qed.
