(* ===== verification/DhcpClientTime.v ===== *)
(** * The DHCP client: the end of a lease

    A client that gets no answer asks for its lease in ever shorter intervals, and
    gives its address up.  The timers as an abstract clock, that the main loop
    follows it, and how long it runs. *)

From stdpp Require Import base numbers list sets strings.
From Stdlib Require Import ZArith Lia Bool.
From S2P Require Import Prelude CText DhcpPacket DhcpOptions DhcpLease DhcpFiles DhcpVi DhcpServer DhcpTable DhcpReply DhcpExcl DhcpRun DhcpScript DhcpClient DhcpClientRead DhcpClientSend.

(** ** The clock of a lease *)

Inductive lease_phase : Type := Renew_ | Rebind_ | Lost_.

Record lease_clock : Type := {
  lc_phase : lease_phase;
  lc_t1 : Z;
  lc_t2 : Z;
  lc_lease : Z;
  lc_start : Z;
  lc_timeout : Z;
  lc_now : Z
}.

(** A round in which the timer runs out and the client wakes [late] seconds
    later: it enters the next phase, or sends a message, which takes a second. *)
Definition tick (late : Z) (c : lease_clock) : lease_clock :=
  let now := Z.max (lc_now c) (lc_timeout c) + late in
  let gap1 := lc_t2 c - lc_t1 c in
  let gap2 := lc_lease c - lc_t2 c in
  match lc_phase c with
  | Renew_ =>
      if gap1 <=? margin (lc_lease c) then
        {| lc_phase := Rebind_; lc_t1 := lc_t1 c; lc_t2 := lc_t2 c; lc_lease := lc_lease c; lc_start := lc_start c;
           lc_timeout := now + gap1; lc_now := now |}
      else
        {| lc_phase := Renew_; lc_t1 := lc_t1 c + gap1 / 2; lc_t2 := lc_t2 c; lc_lease := lc_lease c; lc_start := lc_start c;
           lc_timeout := lc_start c + (lc_t1 c + gap1 / 2); lc_now := now + 1 |}
  | Rebind_ =>
      if gap2 <=? margin (lc_lease c) then
        {| lc_phase := Lost_; lc_t1 := lc_t1 c; lc_t2 := lc_t2 c; lc_lease := lc_lease c; lc_start := lc_start c;
           lc_timeout := now; lc_now := now |}
      else
        {| lc_phase := Rebind_; lc_t1 := lc_t1 c; lc_t2 := lc_t2 c + gap2 / 2; lc_lease := lc_lease c; lc_start := lc_start c;
           lc_timeout := lc_start c + (lc_t2 c + gap2 / 2); lc_now := now + 1 |}
  | Lost_ => c
  end.

Fixpoint clock_ticks (lates : list Z) (c : lease_clock) : lease_clock :=
  match lates with
  | [] => c
  | l :: lates' => clock_ticks lates' (tick l c)
  end.

(** [D] is how late the client has been so far, all in all: no more than that is
    it behind. *)
Definition clock_ok (D : Z) (c : lease_clock) : Prop :=
  0 ≤ lc_t1 c ≤ lc_t2 c ∧ lc_t2 c ≤ lc_lease c ∧ 0 ≤ lc_start c ≤ lc_now c ∧ 0 ≤ D ∧
  match lc_phase c with
  | Renew_ => lc_timeout c = lc_start c + lc_t1 c ∧ lc_now c ≤ lc_start c + lc_t1 c + D
  | Rebind_ => lc_start c ≤ lc_timeout c ≤ lc_start c + lc_t2 c + D ∧ lc_now c ≤ lc_start c + lc_t2 c + D
  | Lost_ => lc_now c ≤ lc_start c + lc_lease c + D
  end.

Lemma margin_pos l : 0 ≤ l → 1 ≤ margin l.
Proof. intros. unfold margin. pose proof (Z.div_pos l 14400). lia. Qed.

Lemma tick_ok D late c : clock_ok D c → 0 ≤ late → lc_phase c ≠ Lost_ →
  clock_ok (D + late) (tick late c) ∧ lc_lease (tick late c) = lc_lease c ∧ lc_start (tick late c) = lc_start c.
Proof.
  intros (H1&H2&H3&H4&H5) Hl Hp. pose proof (margin_pos (lc_lease c) ltac:(lia)) as Hm. unfold clock_ok, tick.
  destruct (lc_phase c); [| |done].
  - destruct (Z.leb_spec (lc_t2 c - lc_t1 c) (margin (lc_lease c))) as [Hg|Hg]; cbn [lc_phase lc_t1 lc_t2 lc_lease lc_start lc_timeout lc_now].
    + split; [|done]. repeat split; lia.
    + assert (1 ≤ (lc_t2 c - lc_t1 c) / 2 ≤ lc_t2 c - lc_t1 c) as Hh.
      { split; [apply Z.div_le_lower_bound; lia|apply Z.div_le_upper_bound; lia]. }
      split; [|done]. repeat split; lia.
  - destruct (Z.leb_spec (lc_lease c - lc_t2 c) (margin (lc_lease c))) as [Hg|Hg]; cbn [lc_phase lc_t1 lc_t2 lc_lease lc_start lc_timeout lc_now].
    + split; [|done]. repeat split; lia.
    + assert (1 ≤ (lc_lease c - lc_t2 c) / 2 ≤ lc_lease c - lc_t2 c) as Hh.
      { split; [apply Z.div_le_lower_bound; lia|apply Z.div_le_upper_bound; lia]. }
      split; [|done]. repeat split; lia.
Qed.

(** ** How many rounds *)

(** How often an interval can be halved before it is short enough. *)
Definition halvings (k : nat) (gap lease : Z) : Prop := (gap - 1) / 2 ^ Z.of_nat k ≤ lease / 14400.

Lemma halve_step k gap lease : 2 ≤ gap → halvings (S k) gap lease → halvings k (gap - gap / 2) lease.
Proof.
  unfold halvings. intros Hg H. replace (gap - gap / 2 - 1) with ((gap - 1) / 2) by (Z.to_euclidean_division_equations; lia).
  rewrite Nat2Z.inj_succ, Z.pow_succ_r in H by lia. rewrite Z.div_div by (try apply Z.pow_pos_nonneg; lia). done.
Qed.

Lemma halvings_short gap lease : halvings 0 gap lease → gap ≤ margin lease.
Proof. unfold halvings, margin. rewrite Z.div_1_r. lia. Qed.

Lemma margin_halvings k gap lease : gap ≤ margin lease → 1 ≤ gap → halvings k gap lease.
Proof.
  unfold halvings, margin. intros H H1. etrans; [|apply (Z.le_trans _ (gap - 1)); [reflexivity|lia]].
  apply Z.div_le_upper_bound; [apply Z.pow_pos_nonneg; lia|].
  assert (1 ≤ 2 ^ Z.of_nat k) by (pose proof (Z.pow_pos_nonneg 2 (Z.of_nat k)); lia). nia.
Qed.

(** How long until the next phase, and what it is. *)
Definition gap (c : lease_clock) : Z :=
  match lc_phase c with Renew_ => lc_t2 c - lc_t1 c | Rebind_ => lc_lease c - lc_t2 c | Lost_ => 0 end.
Definition next_phase (p : lease_phase) : lease_phase := match p with Renew_ => Rebind_ | _ => Lost_ end.

Lemma tick_short l c : lc_phase c ≠ Lost_ → gap c ≤ margin (lc_lease c) →
  lc_phase (tick l c) = next_phase (lc_phase c) ∧ lc_t2 (tick l c) = lc_t2 c.
Proof. intros Hp Hg. unfold gap, tick in *. destruct (lc_phase c); [| |done]; by rewrite (proj2 (Z.leb_le _ _)). Qed.

Lemma tick_long l c : lc_phase c ≠ Lost_ → margin (lc_lease c) < gap c →
  lc_phase (tick l c) = lc_phase c ∧ gap (tick l c) = gap c - gap c / 2 ∧ (lc_phase c = Renew_ → lc_t2 (tick l c) = lc_t2 c).
Proof.
  intros Hp Hg. unfold gap, tick in *. destruct (lc_phase c); [| |done]; rewrite (proj2 (Z.leb_gt _ _)) by done;
    (split; [done|]; split; [cbn; lia|done]).
Qed.

(** A phase ends when the interval has been halved often enough. *)
Lemma phase_ends k lates D c : length lates = S k → Forall (λ l, 0 ≤ l) lates → clock_ok D c → lc_phase c ≠ Lost_ →
  halvings k (gap c) (lc_lease c) →
  ∃ n, (n < length lates)%nat ∧ lc_phase (clock_ticks (take (S n) lates) c) = next_phase (lc_phase c) ∧
    (lc_phase c = Renew_ → lc_t2 (clock_ticks (take (S n) lates) c) = lc_t2 c) ∧
    (∀ j, (j ≤ n)%nat → lc_phase (clock_ticks (take j lates) c) = lc_phase c).
Proof.
  revert lates D c. induction k as [|k IH]; intros lates D c Hl Hp Hc Hph Hh; (destruct lates as [|l lates]; [done|]);
    apply Forall_cons in Hp as [Hl0 Hp].
  - destruct (tick_short l c Hph (halvings_short _ _ Hh)) as [E1 E2]. exists O. split; [simpl; lia|].
    cbn [take firstn clock_ticks]. rewrite take_0. cbn [clock_ticks]. split; [done|]. split; [done|]. intros j Hj. by assert (j = O) as -> by lia.
  - destruct (Z.leb_spec (gap c) (margin (lc_lease c))) as [Hg|Hg].
    + destruct (tick_short l c Hph Hg) as [E1 E2]. exists O. split; [simpl; lia|].
      cbn [take firstn clock_ticks]. rewrite take_0. cbn [clock_ticks]. split; [done|]. split; [done|]. intros j Hj. by assert (j = O) as -> by lia.
    + destruct (tick_ok D l c Hc Hl0 Hph) as (Hc'&El&_). destruct (tick_long l c Hph Hg) as (Ep&Eg&Et).
      pose proof (margin_pos (lc_lease c) ltac:(unfold clock_ok in Hc; lia)) as Hm.
      destruct (IH lates (D + l) (tick l c)) as (n&Hn&Hlost&Ht&Hall); [simpl in Hl; lia|done|done|by rewrite Ep| |].
      { rewrite El, Eg. apply halve_step; [lia|done]. }
      rewrite Ep in *. exists (S n). split; [simpl; lia|]. split; [done|].
      split; [intros Hr; rewrite <- Et by done; by apply Ht|]. intros [|j] Hj; [done|]. apply (Hall j). lia.
Qed.

Lemma ticks_app a b c : clock_ticks (a ++ b) c = clock_ticks b (clock_ticks a c).
Proof. revert c. induction a as [|l a IH]; intros c; [done|]. apply IH. Qed.

Definition total (lates : list Z) : Z := foldr Z.add 0 lates.

Lemma total_app a b : total (a ++ b) = total a + total b.
Proof. unfold total. induction a as [|x a IH]; simpl in *; lia. Qed.

Lemma total_nonneg lates : Forall (λ l, 0 ≤ l) lates → 0 ≤ total lates.
Proof. unfold total. induction 1; simpl in *; lia. Qed.

(** The bound on the time holds as long as the lease does, and for a round more. *)
Lemma ticks_ok lates D c : clock_ok D c → Forall (λ l, 0 ≤ l) lates →
  (∀ j, (j < length lates)%nat → lc_phase (clock_ticks (take j lates) c) ≠ Lost_) →
  clock_ok (D + total lates) (clock_ticks lates c) ∧ lc_lease (clock_ticks lates c) = lc_lease c ∧ lc_start (clock_ticks lates c) = lc_start c.
Proof.
  revert D c. induction lates as [|l lates IH]; intros D c Hc Hp Hj.
  - cbn. by rewrite Z.add_0_r.
  - apply Forall_cons in Hp as [Hl Hp]. destruct (tick_ok D l c Hc Hl (Hj O ltac:(simpl; lia))) as (Hc'&El&Es).
    destruct (IH (D + l) (tick l c) Hc' Hp) as (H1&H2&H3).
    + intros j Hjl. apply (Hj (S j)). simpl. lia.
    + cbn [clock_ticks total foldr]. fold (total lates). rewrite Z.add_assoc. split; [done|]. split; congruence.
Qed.

(** After 26 rounds at most the lease is given up. *)
Lemma clock_ends lates D c : length lates = 26%nat → Forall (λ l, 0 ≤ l) lates → clock_ok D c → lc_phase c = Renew_ →
  lc_t1 c = lc_lease c / 2 → lc_t2 c = 7 * lc_lease c / 8 →
  ∃ n, (n < 26)%nat ∧ lc_phase (clock_ticks (take (S n) lates) c) = Lost_ ∧
    (∀ j, (j ≤ n)%nat → lc_phase (clock_ticks (take j lates) c) ≠ Lost_).
Proof.
  intros Hl Hp Hc Hph Ht1 Ht2. set (l := lc_lease c) in *. assert (0 ≤ l) as Hl0 by (unfold clock_ok in Hc; lia).
  rewrite <- (take_drop 14 lates) in Hp. apply Forall_app in Hp as [Hp1 Hp2].
  destruct (phase_ends 13 (take 14 lates) D c) as (n1&Hn1&E1&T1&A1); [rewrite length_take; lia|done|done|by rewrite Hph| |].
  { unfold halvings, gap. rewrite Hph. fold l. rewrite Ht1, Ht2. change (2 ^ Z.of_nat 13) with 8192. Z.to_euclidean_division_equations; lia. }
  rewrite length_take in Hn1. rewrite Hph in *. cbn [next_phase] in E1. specialize (T1 eq_refl).
  rewrite take_take in E1, T1. rewrite Nat.min_l in E1, T1 by lia. set (c1 := clock_ticks (take (S n1) lates) c) in *.
  assert (∀ j, (j ≤ n1)%nat → lc_phase (clock_ticks (take j lates) c) = Renew_) as A1'.
  { intros j Hj. rewrite <- (A1 j Hj). by rewrite take_take, Nat.min_l by lia. }
  assert (Forall (λ l, 0 ≤ l) lates) as Hp by (rewrite <- (take_drop 14 lates); by apply Forall_app).
  destruct (ticks_ok (take (S n1) lates) D c Hc) as (Hc1&El1&_); [by apply Forall_take| |].
  { intros j Hj. rewrite length_take in Hj. rewrite take_take, Nat.min_l by lia. rewrite A1' by lia. done. }
  fold c1 in Hc1, El1. set (rest := drop (S n1) lates).
  destruct (phase_ends 11 (take 12 rest) (D + total (take (S n1) lates)) c1) as (n2&Hn2&E2&_&A2);
    [rewrite length_take; unfold rest; rewrite length_drop; lia|by apply Forall_take, Forall_drop|done|by rewrite E1| |].
  { unfold halvings, gap. rewrite E1, El1, T1. fold l. rewrite Ht2. change (2 ^ Z.of_nat 11) with 2048. Z.to_euclidean_division_equations; lia. }
  rewrite length_take in Hn2. rewrite E1 in *. cbn [next_phase] in E2.
  assert (∀ j, (j ≤ 12)%nat → clock_ticks (take (S n1 + j) lates) c = clock_ticks (take j (take 12 rest)) c1) as Ej.
  { intros j Hj. rewrite take_take, Nat.min_l by lia. rewrite <- (take_drop (S n1) lates) at 1. fold rest.
    rewrite take_app_add' by (rewrite length_take; lia). apply ticks_app. }
  exists (S n1 + n2)%nat. split; [lia|]. split; [replace (S (S n1 + n2)) with (S n1 + S n2)%nat by lia; rewrite Ej by lia; done|].
  intros j Hj. destruct (le_lt_dec j n1) as [Hj1|Hj1]; [by rewrite A1'|]. replace j with (S n1 + (j - S n1))%nat by lia.
  rewrite Ej by lia. rewrite A2 by lia. done.
Qed.

(** ** The rounds of a client that hears nothing *)

Lemma lu_length v : 0 ≤ v < 256 → Z.of_nat (length (sprintf_lu v)) ≤ 3.
Proof.
  intros Hv. unfold sprintf_lu. rewrite dec_digits_step. destruct (Z.ltb_spec v 10); [simpl; lia|].
  rewrite length_app, dec_digits_step. destruct (Z.ltb_spec (v / 10) 10); [simpl; lia|]. rewrite length_app, dec_digits_step.
  rewrite (proj2 (Z.ltb_lt _ _)) by (Z.to_euclidean_division_equations; lia). simpl. lia.
Qed.

Lemma d_length v : 0 ≤ v < 256 → Z.of_nat (length (sprintf_d v)) ≤ 3.
Proof. intros Hv. unfold sprintf_d. rewrite (proj2 (Z.ltb_ge _ _)) by lia. by apply lu_length. Qed.

Lemma cstr_length name : length (cstr name) = String.length name.
Proof. unfold cstr. rewrite length_map. induction name; simpl; [done|by f_equal]. Qed.

Section idle.
Context (env : dhcp_env) (sys : script_env) (cenv : client_env).

(** The system has memory and sockets and knows the serial number of the board. *)
Definition host_ok : Prop := serial_ok cenv ∧ (∀ n, 0 ≤ ce_socket cenv n) ∧ (∀ n, se_malloc sys n = true).

(** The names of the interface have the length Linux allows. *)
Definition idle_ok (s : dhcpc) : Prop :=
  client_ok s ∧ Z.of_nat (length (cc_interface (cl_config s))) < 16 ∧ Z.of_nat (length (cc_Interface (cl_config s))) < 16 ∧
  (c_listen_mode s = LISTEN_KERNEL ∨ c_listen_mode s = LISTEN_RAW).

(** What stays the same while a lease runs out. *)
Definition clock_of (s : dhcpc) : lease_clock :=
  {| lc_phase := if (c_state s =? BOUND) || (c_state s =? RENEWING) then Renew_ else if c_state s =? REBINDING then Rebind_ else Lost_;
     lc_t1 := c_t1 s; lc_t2 := c_t2 s; lc_lease := c_lease s; lc_start := c_start s; lc_timeout := c_timeout s; lc_now := c_now s |}.

Lemma echo_ok line path (s : dhcpc) : Z.of_nat (length line) ≤ 20 → Z.of_nat (length path) ≤ 60 →
  ∃ w, shell_echo sys 128 line path s = Done (tt, set_cl_world w s).
Proof.
  intros H1 H2. unfold shell_echo, shell, fits. rewrite !length_app.
  change (length (cstr "echo ")) with 5%nat. change (length (cstr " > ")) with 3%nat.
  rewrite (proj2 (Z.ltb_lt _ _)) by lia. rewrite bind_assoc, bind_ret. unfold on_world. rewrite bind_modify.
  destruct (se_writable sys path); eexists; reflexivity.
Qed.

Lemma wan_name_ok Interface name (s : dhcpc) : Z.of_nat (length Interface) < 16 → (String.length name ≤ 12)%nat →
  ∃ path, wan_name Interface name s = Done (path, s) ∧ Z.of_nat (length path) ≤ 60.
Proof.
  intros H1 H2. unfold wan_name, fits, slash. exists (PATH_WAN_DIR ++ [47] ++ Interface ++ [47] ++ cstr name).
  assert (Z.of_nat (length (PATH_WAN_DIR ++ [47] ++ Interface ++ [47] ++ cstr name)) ≤ 60) as Hl.
  { rewrite !length_app. change (length PATH_WAN_DIR) with 17%nat. cbn [length].
    rewrite cstr_length. lia. }
  by rewrite (proj2 (Z.ltb_lt _ _)) by lia.
Qed.

(** The last command gives the interface a link-local address. *)
Definition link_local_set (c : client_config_t) (w : world) : Prop :=
  ∃ a b, 0 ≤ a < 256 ∧ 0 < b < 255 ∧ last (w_cmds w) = Some (cstr "ifconfig " ++
    (if decide (cc_interface c = cstr "br0") then cc_Interface c else cc_interface c) ++ [32] ++ cstr "169.254." ++ sprintf_d a ++ [46] ++ sprintf_d b).

(** The lease is given up. *)
Definition given_up (s : dhcpc) : Prop := c_state s = INIT_SELECTING ∧ link_local_set (cl_config s) (cl_world s).

Ltac msimp := repeat first [rewrite bind_assoc | rewrite bind_gets | rewrite bind_modify | rewrite bind_ret].

(** A link-local address is set whatever the random numbers are. *)
Lemma link_local_ok s : idle_ok s → ∃ a b w, link_local sys cenv s = Done (tt, set_cl_world w (set_c_drawn a (set_c_seed b s))) ∧
  link_local_set (cl_config s) w.
Proof.
  intros (_&Hi&HI&_). unfold link_local, conf_of, srand, rand. msimp. set (s1 := set_c_drawn _ _).
  set (ip3 := ce_rand _ _ _ mod 256). set (r4 := ce_rand _ _ _ mod 255). cbv zeta.
  set (ip4 := if r4 =? 0 then 1 else r4).
  assert (0 ≤ ip3 < 256) as H3 by (apply Z.mod_pos_bound; lia). assert (0 < ip4 < 255) as H4.
  { assert (0 ≤ r4 < 255) by (apply Z.mod_pos_bound; lia). unfold ip4. destruct (Z.eqb_spec r4 0); lia. }
  clearbody ip3 ip4. clear r4. set (ip := cstr "169.254." ++ _).
  assert (Z.of_nat (length ip) ≤ 15) as Hip.
  { unfold ip. rewrite !length_app. change (length (cstr "169.254.")) with 8%nat. cbn [length].
    pose proof (d_length ip3 H3). pose proof (d_length ip4 ltac:(lia)). lia. }
  cbn [cl_config set_c_drawn set_c_seed]. assert (cl_config s1 = cl_config s) as -> by done.
  destruct (wan_name_ok (cc_Interface (cl_config s)) "status" s1) as (p1&E1&L1); [done|simpl; lia|]. mstep E1.
  destruct (echo_ok (cstr "4") p1 s1) as (w1&E2); [done..|]. mstep E2. set (s2 := set_cl_world w1 s1).
  destruct (wan_name_ok (cc_Interface (cl_config s)) "daemonstatus" s2) as (p2&E3&L2); [done|simpl; lia|]. mstep E3.
  destruct (echo_ok (cstr "0") p2 s2) as (w2&E4); [done..|]. mstep E4. set (s3 := set_cl_world w2 s2).
  destruct (wan_name_ok (cc_Interface (cl_config s)) "ipaddress" s3) as (p3&E5&L3); [done|simpl; lia|]. mstep E5.
  destruct (echo_ok ip p3 s3) as (w3&E6); [lia|done|]. mstep E6. set (s4 := set_cl_world w3 s3).
  unfold shell, fits. rewrite (proj2 (Z.ltb_lt _ _)).
  - rewrite bind_ret. unfold on_world, modify. eexists _, _, _. split; [reflexivity|]. exists ip3, ip4. split; [done|]. split; [done|].
    cbn [w_cmds add_wcmd]. by rewrite last_snoc.
  - rewrite !length_app. change (length (cstr "ifconfig ")) with 9%nat. cbn [length].
    destruct (decide (cc_interface (cl_config s) = cstr "br0")); lia.
Qed.

(** The script that takes the address away always runs. *)
Lemma deconfig_ok s : (∀ n, se_malloc sys n = true) → ∃ n w, run_script sys cenv None "deconfig" s = Done (tt, set_cl_world w (set_c_forks n s)) ∧
  w_cmds w = w_cmds (cl_world s).
Proof.
  intros Hm. unfold run_script, next_fork, conf_of. msimp. destruct (_ <? 0).
  { exists (S (c_forks s)), (cl_world s). split; [by destruct s|done]. }
  unfold script_child, fill_envp, alloc_or_fault, alloc, on_world. repeat (msimp; rewrite ?Hm).
  eexists _, _. split; reflexivity.
Qed.

Lemma reopen_ok s : idle_ok s → (∀ n, 0 ≤ ce_socket cenv n) →
  ∃ m f n, reopen cenv s = Done (None, set_c_old_mode m (set_c_fd f (set_c_sockets n s))).
Proof.
  intros (_&_&_&Hl) Hs. unfold reopen. rewrite !bind_gets. destruct (_ && _).
  { exists (c_old_mode s), (c_fd s), (c_sockets s). by destruct s. }
  rewrite !bind_modify. assert ((c_listen_mode s =? LISTEN_RAW) || (c_listen_mode s =? LISTEN_KERNEL) = true) as -> by (by destruct Hl as [-> | ->]).
  msimp. rewrite (proj2 (Z.ltb_ge _ _)) by apply Hs. eexists _, _, _. reflexivity.
Qed.

Lemma moved_idle r s s' pkt : moved cenv r s s' pkt → idle_ok s → idle_ok s'.
Proof. intros Hm (H1&H2&H3&H4). split; [by eapply moved_ok|]. by destruct Hm as (id&n&w&_&->). Qed.

Lemma idle_same s s' : cl_config s' = cl_config s → c_vendor_class_id s' = c_vendor_class_id s → c_listen_mode s' = c_listen_mode s →
  idle_ok s → idle_ok s'.
Proof. intros E1 E2 E3 ([H1 H2 H3]&H4&H5&H6). split; [split|]; rewrite ?E1, ?E2, ?E3; done. Qed.

(** The timers of a lease fit 32 bits. *)
Definition timers_ok (s : dhcpc) : Prop :=
  0 ≤ c_t1 s ≤ c_t2 s ∧ c_t2 s ≤ c_lease s ∧ 0 ≤ c_start s ∧ 0 ≤ c_now s ∧ c_start s + c_lease s < 2 ^ 31 ∧
  c_now s < 2 ^ 31 ∧ (c_state s ≠ REBINDING → c_now s + (c_t2 s - c_t1 s) < 2 ^ 31).

(** The states a client gets into when nobody answers. *)
Definition unanswered (s : dhcpc) : Prop := c_state s = RENEWING ∨ c_state s = REBINDING ∨ given_up s.

(** A client whose time is up takes a step of the clock. *)
Lemma renewing_ok s : idle_ok s → serial_ok cenv → timers_ok s → c_state s = RENEWING → c_timeout s ≤ c_now s →
  ∃ s', renewing_timeout sys cenv s = Done (tt, s') ∧ clock_of s' = tick 0 (clock_of s) ∧ idle_ok s' ∧ unanswered s'.
Proof.
  intros Hok Hser (H1&H2&H3&H4&H5&Hnow&H6) Hst Ht. specialize (H6 ltac:(by rewrite Hst)). change (2 ^ 31) with 2147483648 in *. unfold renewing_timeout. rewrite !bind_gets.
  unfold clock_of, tick. rewrite Hst. change (RENEWING =? BOUND) with false. change (RENEWING =? RENEWING) with true.
  cbn [orb lc_phase lc_t1 lc_t2 lc_lease lc_start lc_timeout lc_now]. rewrite (u32_small (_ - _)) by lia.
  destruct (Z.leb_spec (c_t2 s - c_t1 s) (margin (c_lease s))) as [Hg|Hg].
  - rewrite bind_modify. unfold up_time. rewrite bind_gets. eexists. split; [reflexivity|]. split; [|split; [by apply (idle_same s)|by right; left]].
    cbn. rewrite s32_small by lia. f_equal; lia.
  - destruct (send_renew_ok sys cenv (c_xid s) (c_server_addr s) (c_requested_ip s) s (proj1 Hok) Hser) as (r&s1&pkt&ser&E&Hm&_).
    rewrite ?bind_gets. mstep E.
    rewrite bind_modify, bind_gets. pose proof (moved_idle _ _ _ _ Hm Hok) as Hok'. destruct Hm as (id&n&w&_&->).
    assert (0 ≤ (c_t2 s - c_t1 s) / 2 ≤ c_t2 s - c_t1 s) by (Z.to_euclidean_division_equations; lia).
    eexists. split; [reflexivity|]. split; [|split; [refine (idle_same _ _ _ _ _ Hok'); cbn; reflexivity|by left]]. cbn. rewrite Hst. cbn. rewrite u32_small, s32_small by lia. f_equal; lia.
Qed.

Lemma rebinding_ok s : idle_ok s → host_ok → timers_ok s → c_state s = REBINDING → c_timeout s ≤ c_now s →
  ∃ s', rebinding_timeout sys cenv s = Done (tt, s') ∧ clock_of s' = tick 0 (clock_of s) ∧ idle_ok s' ∧ unanswered s'.
Proof.
  intros Hok (Hser&_&Hmem) (H1&H2&H3&H4&H5&Hnow&_) Hst Ht. change (2 ^ 31) with 2147483648 in *. unfold rebinding_timeout. rewrite !bind_gets.
  unfold clock_of, tick. rewrite Hst. change (REBINDING =? BOUND) with false. change (REBINDING =? RENEWING) with false.
  change (REBINDING =? REBINDING) with true.
  cbn [orb lc_phase lc_t1 lc_t2 lc_lease lc_start lc_timeout lc_now]. rewrite (u32_small (_ - _)) by lia.
  destruct (Z.leb_spec (c_lease s - c_t2 s) (margin (c_lease s))) as [Hg|Hg].
  - destruct (link_local_ok s Hok) as (a&b&w&E&Hll). mstep E. rewrite bind_modify.
    destruct (deconfig_ok (set_c_state INIT_SELECTING (set_cl_world w (set_c_drawn a (set_c_seed b s)))) Hmem) as (n&w'&E'&Ew). mstep E'.
    unfold timeout_in, up_time. msimp. eexists. split; [reflexivity|]. cbn. rewrite s32_small by lia. split; [f_equal; lia|].
    split; [destruct Hok as ([]&?&?&_); split; [by split|]; split; [done|]; split; [done|]; by right|].
    right; right. split; [done|]. destruct Hll as (x&y&?&?&?). exists x, y. split; [done|]. split; [done|]. cbn. by rewrite Ew.
  - destruct (send_renew_ok sys cenv (c_xid s) 0 (c_requested_ip s) s (proj1 Hok) Hser) as (r&s1&pkt&ser&E&Hm&_).
    rewrite ?bind_gets. mstep E.
    rewrite bind_modify, bind_gets. pose proof (moved_idle _ _ _ _ Hm Hok) as Hok'. destruct Hm as (id&n&w&_&->).
    assert (0 ≤ (c_lease s - c_t2 s) / 2 ≤ c_lease s - c_t2 s) by (Z.to_euclidean_division_equations; lia).
    eexists. split; [reflexivity|]. split; [|split; [refine (idle_same _ _ _ _ _ Hok'); cbn; reflexivity|by right; left]]. cbn. rewrite Hst. cbn. rewrite u32_small, s32_small by lia. f_equal; lia.
Qed.

Lemma timed_out_ok s : idle_ok s → host_ok → timers_ok s → lc_phase (clock_of s) ≠ Lost_ → c_timeout s ≤ c_now s →
  ∃ s', timed_out env sys cenv s = Done (None, s') ∧ clock_of s' = tick 0 (clock_of s) ∧ idle_ok s' ∧ unanswered s'.
Proof.
  intros Hok Hsys Ht Hp Htime. unfold timed_out. rewrite bind_gets.
  assert (c_state s = BOUND ∨ c_state s = RENEWING ∨ c_state s = REBINDING) as Hst.
  { cbn in Hp. destruct (Z.eqb_spec (c_state s) BOUND); [by left|]. destruct (Z.eqb_spec (c_state s) RENEWING); [by right; left|].
    destruct (Z.eqb_spec (c_state s) REBINDING); [by right; right|done]. }
  destruct Hst as [Hst|[Hst|Hst]]; rewrite Hst; cbv [INIT_SELECTING RENEW_REQUESTED REQUESTING BOUND RENEWING REBINDING]; cbn [Z.eqb Pos.eqb orb].
  - rewrite !bind_modify. set (s1 := set_c_listen_mode _ _).
    assert (idle_ok s1) as Hok1. { destruct Hok as ([]&?&?&_). split; [by split|]. split; [done|]. split; [done|]. by left. }
    assert (timers_ok s1) as Ht1. { destruct Ht as (?&?&?&?&?&?&H6). repeat split; [apply H|apply H|done..|]. intros _. apply H6. by rewrite Hst. }
    destruct (renewing_ok s1 Hok1 (proj1 Hsys) Ht1 eq_refl Htime) as (s'&E&Ec&Hok'). mstep E. exists s'. split; [done|]. split; [|done].
    rewrite Ec. f_equal. unfold clock_of. by rewrite Hst.
  - destruct (renewing_ok s Hok (proj1 Hsys) Ht Hst Htime) as (s'&E&Ec&Hok'). mstep E. by exists s'.
  - destruct (rebinding_ok s Hok Hsys Ht Hst Htime) as (s'&E&Ec&Hok'). mstep E. by exists s'.
Qed.

(** A silent round of the client is a step of the clock. *)
Lemma silent_round D late s : idle_ok s → host_ok → clock_ok D (clock_of s) → lc_phase (clock_of s) ≠ Lost_ → 0 ≤ late →
  c_start s + c_lease s + D + late < 2 ^ 31 →
  ∃ s', client_round env sys cenv {| ev_after := late; ev_what := Nothing |} s = Done (None, s') ∧
    clock_of s' = tick late (clock_of s) ∧ idle_ok s' ∧ unanswered s'.
Proof.
  intros Hok Hsys Hc Hp Hl Hb. unfold client_round. destruct (reopen_ok s Hok (proj1 (proj2 Hsys))) as (m&f&n&E). mstep E.
  set (s1 := set_c_old_mode _ _). assert (clock_of s1 = clock_of s) as Ec by done. assert (idle_ok s1) as Hok1 by (by apply (idle_same s)).
  assert (c_now s1 = c_now s ∧ c_timeout s1 = c_timeout s ∧ c_state s1 = c_state s) as (En&Et&Est) by done. clearbody s1. clear E.
  rewrite bind_gets. unfold up_time, pass. rewrite bind_gets. cbv zeta. rewrite bind_modify. cbn [ev_what ev_after].
  change (2 ^ 31) with 2147483648 in *.
  assert (∀ now, now = Z.max (c_now s) (c_timeout s) + late → ∃ s', timed_out env sys cenv (set_c_now now s1) = Done (None, s') ∧
      clock_of s' = tick late (clock_of s) ∧ idle_ok s' ∧ unanswered s') as Hgo.
  { intros now Hnow. assert (clock_of (set_c_now now s1) = {| lc_phase := lc_phase (clock_of s); lc_t1 := c_t1 s; lc_t2 := c_t2 s;
      lc_lease := c_lease s; lc_start := c_start s; lc_timeout := c_timeout s; lc_now := now |}) as Ec1.
    { injection Ec as E1 E2 E3 E4 E5 E6. unfold clock_of. cbn. congruence. }
    assert (c_t1 s1 = c_t1 s ∧ c_t2 s1 = c_t2 s ∧ c_lease s1 = c_lease s ∧ c_start s1 = c_start s) as (T1&T2&T3&T4) by (by injection Ec).
    destruct (timed_out_ok (set_c_now now s1)) as (s'&E&Ec'&Hok'); [by apply (idle_same s1)|done| |by rewrite Ec1|cbn; lia|].
    - unfold timers_ok. cbn. rewrite T1, T2, T3, T4. destruct Hc as (C1&C2&C3&C4&C5). cbn in C1, C2, C3, C5. cbn in Hp.
      assert (c_state s1 ≠ REBINDING → (c_state s =? BOUND) || (c_state s =? RENEWING) = true) as Hs1.
      { intros Hne. destruct ((c_state s =? BOUND) || (c_state s =? RENEWING)) eqn:Eb; [done|].
        destruct (Z.eqb_spec (c_state s) REBINDING) as [Er|Er]; [|done]. congruence. }
      destruct ((c_state s =? BOUND) || (c_state s =? RENEWING)); [|destruct (c_state s =? REBINDING); [|done]].
      + lia.
      + assert (c_state s1 = REBINDING) as Er by (destruct (Z.eq_dec (c_state s1) REBINDING) as [|Hne]; [done|by specialize (Hs1 Hne)]). lia.
    - exists s'. split; [done|]. split; [|done]. rewrite Ec', Ec1. unfold tick. cbn [lc_phase lc_t1 lc_t2 lc_lease lc_start lc_timeout lc_now].
      change (lc_timeout (clock_of s)) with (c_timeout s). change (lc_now (clock_of s)) with (c_now s). replace (Z.max now (c_timeout s) + 0) with (Z.max (c_now s) (c_timeout s) + late) by lia.
      by destruct (lc_phase (clock_of s)) eqn:Eph. }
  assert (0 ≤ c_now s < 2147483648 ∧ 0 ≤ c_timeout s < 2147483648) as [B1 B2].
  { destruct Hc as (C1&C2&C3&C4&C5). cbn in C1, C2, C3, C5. cbn in Hp.
    destruct ((c_state s =? BOUND) || (c_state s =? RENEWING)); [|destruct (c_state s =? REBINDING); [|done]]; lia. }
  rewrite Et, En. rewrite s32_small by lia. destruct (Z.ltb_spec 0 (c_timeout s - c_now s)) as [Hw|Hw].
  - rewrite bind_modify. cbn [c_now set_c_now]. apply Hgo. lia.
  - apply Hgo. lia.
Qed.

Definition silent (late : Z) : cevent := {| ev_after := late; ev_what := Nothing |}.

(** Silent rounds are steps of the clock until the lease is given up. *)
Lemma silent_rounds lates D s : idle_ok s → host_ok → clock_ok D (clock_of s) → Forall (λ l, 0 ≤ l) lates →
  (∀ j, (j < length lates)%nat → lc_phase (clock_ticks (take j lates) (clock_of s)) ≠ Lost_) →
  c_start s + c_lease s + D + total lates < 2 ^ 31 →
  ∃ s', client_rounds env sys cenv (map silent lates) s = Done (None, s') ∧ clock_of s' = clock_ticks lates (clock_of s) ∧
    (lates ≠ [] → unanswered s').
Proof.
  revert D s. induction lates as [|l lates IH]; intros D s Hok Hsys Hc Hp Hj Hb; [by exists s|].
  apply Forall_cons in Hp as [Hl Hp]. pose proof (total_nonneg _ Hp) as Htot. cbn [total foldr] in Hb. fold (total lates) in Hb.
  assert (lc_phase (clock_of s) ≠ Lost_) as Hp0 by (apply (Hj O); simpl; lia).
  destruct (silent_round D l s Hok Hsys Hc Hp0 Hl ltac:(lia)) as (s1&E&Ec&Hok1&Hu). cbn [map client_rounds]. unfold silent at 1. mstep E.
  destruct (tick_ok D l (clock_of s) Hc Hl Hp0) as (Hc1&E1&E2). rewrite <- Ec in Hc1, E1, E2.
  destruct (IH (D + l) s1) as (s'&E'&Ec'&Hu'); [done|done|done|done| | |].
  - intros j Hjl. rewrite Ec. apply (Hj (S j)). simpl. lia.
  - cbn in E1, E2. rewrite E1, E2. lia.
  - exists s'. split; [done|]. split; [by rewrite Ec', Ec|]. intros _. destruct lates; [|by apply Hu'].
    cbn in E'. injection E' as <-. done.
Qed.

(** The lease of [l] seconds, as an acknowledgement leaves it. *)
Definition holds_lease (l : Z) (s : dhcpc) : Prop :=
  c_state s = BOUND ∧ c_lease s = l ∧ c_t1 s = l / 2 ∧ c_t2 s = Z.shiftr (u32 (l * 7)) 3 ∧
  c_timeout s = s32 (l / 2 + c_start s) ∧ c_start s ≤ c_now s ≤ c_start s + l / 2.

Lemma holds_lease_clock l s : holds_lease l s → 0 ≤ l → l * 7 < 2 ^ 32 → 0 ≤ c_start s → c_start s + l < 2 ^ 31 →
  clock_ok 0 (clock_of s) ∧ lc_phase (clock_of s) = Renew_ ∧ c_t2 s = 7 * l / 8.
Proof.
  intros (Hst&El&E1&E2&Et&Hn) Hl H7 Hs Hb. change (2 ^ 31) with 2147483648 in *. change (2 ^ 32) with 4294967296 in *.
  rewrite Z.shiftr_div_pow2, u32_small in E2 by lia. change (2 ^ 3) with 8 in E2. replace (l * 7) with (7 * l) in E2 by lia.
  rewrite s32_small in Et by (Z.to_euclidean_division_equations; lia).
  assert (lc_phase (clock_of s) = Renew_) as Hph by (cbn; by rewrite Hst). split; [|done].
  unfold clock_ok. rewrite Hph. cbn. rewrite El, E1, E2, Et. Z.to_euclidean_division_equations. lia.
Qed.
End idle.
