(* ===== verification/DhcpClientRoutes.v ===== *)
(** * The DHCP client: static routes

    The routes of option 121 as RFC 3442 encodes them: what the child of the client
    writes to the file of the routes, and the commands the client runs for them. *)

From stdpp Require Import base numbers list sets strings.
From Stdlib Require Import ZArith Lia Bool.
From S2P Require Import Prelude CText DhcpPacket DhcpLease DhcpFiles DhcpConf DhcpConfProofs DhcpConfRead DhcpTable DhcpReply DhcpScript DhcpClient DhcpClientRead DhcpClientTime.

(** ** Routes *)

(** A network with the width of its mask, and the gateway to it. *)
Record route : Type := { rt_width : Z; rt_dest : Z; rt_gw : Z }.

Definition route_ok (r : route) : Prop := 0 ≤ rt_width r ≤ 32 ∧ 0 ≤ rt_dest r < 2 ^ 32 ∧ 0 ≤ rt_gw r < 2 ^ 32.

(** RFC 3442: only the significant octets of the network are there. *)
Definition encode_route (r : route) : list Z :=
  rt_width r :: take (Z.to_nat ((rt_width r + 7) / 8)) (be_bytes (rt_dest r)) ++ be_bytes (rt_gw r).

Definition netmask (w : Z) : Z := 2 ^ 32 - 2 ^ (32 - w).

(** The network, its mask and the gateway as text. *)
Definition route_text (r : route) : list Z * list Z * list Z :=
  (inet_ntoa (Z.land (rt_dest r) (netmask (rt_width r))), inet_ntoa (netmask (rt_width r)), inet_ntoa (rt_gw r)).

Definition route_line (r : route) : list Z :=
  let '(a, m, g) := route_text r in route_entry a m g.

(** A route to everywhere is the default gateway; it has no line. *)
Definition is_default (r : route) : bool := rt_width r =? 0.
Definition lines_for (rs : list route) : list Z := concat (map route_line (filter (λ r, is_default r = false) rs)).

(** ** Octets *)

Lemma u8_shiftr_land d m k : 0 ≤ k → u8 (Z.shiftr (Z.land d m) k) = Z.land (u8 (Z.shiftr d k)) (u8 (Z.shiftr m k)).
Proof.
  intros Hk. unfold u8. change 256 with (2 ^ 8). rewrite Z.shiftr_land. rewrite <- !Z.land_ones by lia.
  apply Z.bits_inj'. intros n Hn. rewrite !Z.land_spec. destruct (Z.testbit (Z.ones 8) n); rewrite ?andb_true_r, ?andb_false_r; done.
Qed.

Lemma u8_land d m : u8 (Z.land d m) = Z.land (u8 d) (u8 m).
Proof. pose proof (u8_shiftr_land d m 0 ltac:(done)) as E. by rewrite !Z.shiftr_0_r in E. Qed.

Lemma u8_land_255 v : Z.land (u8 v) 255 = u8 v.
Proof. change 255 with (Z.ones 8). rewrite Z.land_ones by lia. unfold u8. apply Z.mod_small, Z.mod_pos_bound. done. Qed.

Lemma ntoa_octets v : inet_ntoa v = ip_text (u8 (Z.shiftr v 24)) (u8 (Z.shiftr v 16)) (u8 (Z.shiftr v 8)) (u8 v).
Proof. done. Qed.

(** The octets of a network by the octets of its mask. *)
Lemma network_text d m a b c e : be_bytes m = [a; b; c; e] →
  inet_ntoa (Z.land d m) = ip_text (Z.land (u8 (Z.shiftr d 24)) a) (Z.land (u8 (Z.shiftr d 16)) b) (Z.land (u8 (Z.shiftr d 8)) c) (Z.land (u8 d) e)
  ∧ inet_ntoa m = ip_text a b c e.
Proof.
  intros [= <- <- <- <-]. rewrite !ntoa_octets. split; [|done]. rewrite !u8_shiftr_land, u8_land by lia. done.
Qed.

(** The mask of a width, by the octet it ends in. *)
Lemma mask_octets w i : 0 ≤ i < 8 → mask_table !! Z.to_nat i = Some w →
  be_bytes (netmask (i + 1)) = [w; 0; 0; 0] ∧ be_bytes (netmask (i + 9)) = [255; w; 0; 0] ∧
  be_bytes (netmask (i + 17)) = [255; 255; w; 0] ∧ be_bytes (netmask (i + 25)) = [255; 255; 255; w].
Proof.
  intros Hi. assert (i = 0 ∨ i = 1 ∨ i = 2 ∨ i = 3 ∨ i = 4 ∨ i = 5 ∨ i = 6 ∨ i = 7) as Hc by lia.
  repeat destruct Hc as [-> | Hc]; [..|subst i]; intros [= <-]; by vm_compute.
Qed.

Lemma mask_at_ok i (s : script) : 0 ≤ i < 8 → ∃ w, mask_at i s = Done (w, s) ∧ mask_table !! Z.to_nat i = Some w.
Proof.
  intros Hi. destruct (lookup_lt_is_Some_2 mask_table (Z.to_nat i)) as [w Hw]; [simpl; lia|].
  exists w. split; [|done]. unfold mask_at. rewrite decide_True by lia. by rewrite Hw.
Qed.

(** ** The file of the routes *)

Lemma octet_at {St} opt pre l i k b (s : St) : opt = pre ++ l → i = Z.of_nat (length pre) → 0 ≤ k → l !! Z.to_nat k = Some b →
  peek opt (i + k) s = Done (b, s).
Proof.
  intros -> -> Hk Hb. unfold peek. rewrite decide_True by lia.
  replace (Z.to_nat (Z.of_nat (length pre) + k)) with (length pre + Z.to_nat k)%nat by lia.
  rewrite lookup_app_r by lia. replace (length pre + Z.to_nat k - length pre)%nat with (Z.to_nat k) by lia. by rewrite Hb.
Qed.

(** Reads the next octet of the option. *)
Ltac octet Hpk :=
  rewrite ?bind_assoc;
  match goal with
  | |- context [(peek _ (_ + ?k) ≫= _) ?s] => rewrite (bind_Done _ _ _ _ _ (Hpk k _ s ltac:(lia) eq_refl))
  end.

(** The tests for the width of a mask. *)
Ltac width_tests :=
  repeat match goal with
  | |- context [?a <=? ?b] => first [rewrite (proj2 (Z.leb_le a b)) by lia | rewrite (proj2 (Z.leb_gt a b)) by lia]
  | |- context [?a <? ?b] => first [rewrite (proj2 (Z.ltb_lt a b)) by lia | rewrite (proj2 (Z.ltb_ge a b)) by lia]
  | |- context [?a =? ?b] => first [rewrite (proj2 (Z.eqb_eq a b)) by lia | rewrite (proj2 (Z.eqb_neq a b)) by lia]
  end; cbn [andb].

Lemma route_step n opt pre r rest len i out s : route_ok r → 1 ≤ rt_width r → opt = pre ++ encode_route r ++ rest →
  len = Z.of_nat (length opt) → i = Z.of_nat (length pre) →
  route_loop (S n) opt len i out s = route_loop n opt len (i + Z.of_nat (length (encode_route r))) (out ++ route_line r) s.
Proof.
  intros (Hw&_&_) Hw1 Ho Hlen Hi. unfold route_line, route_text. destruct r as [w d g]. cbn [rt_width rt_dest rt_gw] in *.
  unfold encode_route in Ho |- *. cbn [rt_width rt_dest rt_gw] in *. 
  assert (∃ c, (w + 7) / 8 = Z.of_nat c ∧ (1 ≤ c ≤ 4)%nat ∧ 8 * Z.of_nat c - 7 ≤ w ≤ 8 * Z.of_nat c) as (c&Hc&Hc4&Hwc).
  { exists (Z.to_nat ((w + 7) / 8)). Z.to_euclidean_division_equations. lia. }
  rewrite Hc, Nat2Z.id in Ho |- *.
  assert (Hpk : ∀ k b (s : script), 0 ≤ k → ((w :: take c (be_bytes d) ++ be_bytes g) ++ rest) !! Z.to_nat k = Some b → peek opt (i + k) s = Done (b, s))
    by (intros k b s' Hk Hb; by apply (octet_at _ _ _ _ _ _ _ Ho Hi)).
  assert (len = i + 1 + Z.of_nat c + 4 + Z.of_nat (length rest)) as Hl.
  { rewrite Hlen, Ho, !length_app. cbn [length]. rewrite length_app, length_take. change (length (be_bytes d)) with 4%nat.
    change (length (be_bytes g)) with 4%nat. lia. }
  clear Ho Hlen. cbn [route_loop]. rewrite (proj2 (Z.leb_gt _ _)) by lia. octet Hpk.
  assert (∀ k, w - k ∈ seqZ 0 8 → ∃ m, mask_at (w - k) s = Done (m, s) ∧ mask_table !! Z.to_nat (w - k) = Some m ∧ 0 ≤ w - k < 8) as Hmask.
  { intros k Hk%elem_of_seqZ. destruct (mask_at_ok (w - k) s) as (m&?&?); [lia|]. exists m. split_and!; try done; lia. }
  assert (c = 1 ∨ c = 2 ∨ c = 3 ∨ c = 4)%nat as Hcases by lia.
  repeat destruct Hcases as [-> | Hcases]; [..|subst c]; cbn [Z.of_nat] in *; width_tests.
  - destruct (Hmask 1) as (m&Em&Hm&Hr); [apply elem_of_seqZ; lia|]. mstep Em. destruct (mask_octets m (w - 1) Hr Hm) as (M&_).
    rewrite Z.sub_add in M. destruct (network_text d _ _ _ _ _ M) as [-> ->]. do 5 octet Hpk. rewrite !Z.land_0_r. done.
  - destruct (Hmask 9) as (m&Em&Hm&Hr); [apply elem_of_seqZ; lia|]. mstep Em. destruct (mask_octets m (w - 9) Hr Hm) as (_&M&_).
    rewrite Z.sub_add in M. destruct (network_text d _ _ _ _ _ M) as [-> ->]. do 6 octet Hpk. rewrite !Z.land_0_r, !u8_land_255. done.
  - destruct (Hmask 17) as (m&Em&Hm&Hr); [apply elem_of_seqZ; lia|]. mstep Em. destruct (mask_octets m (w - 17) Hr Hm) as (_&_&M&_).
    rewrite Z.sub_add in M. destruct (network_text d _ _ _ _ _ M) as [-> ->]. do 7 octet Hpk. rewrite !Z.land_0_r, !u8_land_255. done.
  - destruct (Hmask 25) as (m&Em&Hm&Hr); [apply elem_of_seqZ; lia|]. mstep Em. destruct (mask_octets m (w - 25) Hr Hm) as (_&_&_&M).
    rewrite Z.sub_add in M. destruct (network_text d _ _ _ _ _ M) as [-> ->]. do 8 octet Hpk. rewrite !u8_land_255. done.
Qed.

Lemma ntoa_length v : Z.of_nat (length (inet_ntoa v)) ≤ 15.
Proof.
  unfold inet_ntoa. rewrite !length_app. cbn [length].
  assert (∀ x, Z.of_nat (length (sprintf_lu (u8 x))) ≤ 3) as H by (intros x; apply lu_length; pose proof (u8_range x); lia).
  pose proof (H (Z.shiftr v 24)). pose proof (H (Z.shiftr v 16)). pose proof (H (Z.shiftr v 8)). pose proof (H v). lia.
Qed.

Lemma default_step n opt pre r rest len i out s : is_default r = true → opt = pre ++ encode_route r ++ rest →
  len = Z.of_nat (length opt) → i = Z.of_nat (length pre) →
  route_loop (S n) opt len i out s =
    route_loop n opt len (i + Z.of_nat (length (encode_route r))) out (put_static Router_ip (inet_ntoa (rt_gw r)) s).
Proof.
  intros Hd Ho Hlen Hi. destruct r as [w d g]. unfold is_default in Hd. cbn [rt_width rt_gw] in *. apply Z.eqb_eq in Hd as ->.
  unfold encode_route in Ho |- *. cbn [rt_width rt_dest rt_gw] in *. change (Z.to_nat ((0 + 7) / 8)) with 0%nat in *.
  rewrite take_0 in *. cbn [app] in *.
  assert (Hpk : ∀ k b (s : script), 0 ≤ k → (0 :: be_bytes g ++ rest) !! Z.to_nat k = Some b → peek opt (i + k) s = Done (b, s))
    by (intros k b s' Hk Hb; by apply (octet_at _ _ _ _ _ _ _ Ho Hi)).
  assert (len = i + 5 + Z.of_nat (length rest)) as Hl.
  { rewrite Hlen, Ho, !length_app. cbn [length]. rewrite length_app. change (length (be_bytes g)) with 4%nat. lia. }
  clear Ho Hlen. cbn [route_loop]. rewrite (proj2 (Z.leb_gt _ _)) by lia. octet Hpk. width_tests. do 4 octet Hpk. rewrite bind_ret.
  rewrite <- ntoa_octets. unfold save. cbn [buf_size]. pose proof (ntoa_length g). rewrite (proj2 (Z.ltb_lt _ _)) by lia. by rewrite bind_modify.
Qed.

(** The default route is the router of the lease. *)
Definition after_routes (rs : list route) (s : script) : script :=
  foldl (λ s r, if is_default r then put_static Router_ip (inet_ntoa (rt_gw r)) s else s) s rs.

Lemma route_loop_ok rs n opt pre len i out s : Forall route_ok rs → (length rs < n)%nat →
  opt = pre ++ concat (map encode_route rs) → len = Z.of_nat (length opt) → i = Z.of_nat (length pre) →
  route_loop n opt len i out s = Done (out ++ lines_for rs, after_routes rs s).
Proof.
  intros Hok. revert n pre i out s. induction Hok as [|r rs Hr Hok IH]; intros n pre i out s Hn Ho Hlen Hi; (destruct n as [|n]; [simpl in Hn; lia|]).
  - cbn [map concat] in Ho. rewrite app_nil_r in Ho. subst. cbn [route_loop]. rewrite (proj2 (Z.leb_le _ _)) by lia. unfold lines_for. by rewrite app_nil_r.
  - cbn [map concat] in Ho. pose proof Ho as Ho'. rewrite app_assoc in Ho'.
    assert (i + Z.of_nat (length (encode_route r)) = Z.of_nat (length (pre ++ encode_route r))) as Hi' by (rewrite length_app; lia).
    cbn [length] in Hn. destruct (is_default r) eqn:Ed.
    + rewrite (default_step n opt pre r _ len i out s Ed Ho Hlen Hi). rewrite (IH n _ _ _ _ ltac:(lia) Ho' Hlen Hi').
      unfold lines_for, after_routes. cbn [foldl]. rewrite filter_cons_False, Ed by (by rewrite Ed). done.
    + assert (1 ≤ rt_width r) as Hw by (unfold is_default in Ed; apply Z.eqb_neq in Ed; destruct Hr; lia).
      rewrite (route_step n opt pre r _ len i out s Hr Hw Ho Hlen Hi). rewrite (IH n _ _ _ _ ltac:(lia) Ho' Hlen Hi').
      unfold lines_for, after_routes. cbn [foldl]. rewrite filter_cons_True, Ed by done. cbn [map concat]. by rewrite <- app_assoc.
Qed.

Lemma file_content_put path content files : file_content path ((path, content) :: files) = Some content.
Proof. unfold file_content. cbn [list_find]. by rewrite decide_True. Qed.

Lemma file_content_other path path' content files : path ≠ path' →
  file_content path ((path', content) :: filter (λ f, f.1 ≠ path') files) = file_content path files.
Proof.
  intros Hp. unfold file_content. cbn [list_find]. rewrite decide_False by (simpl; congruence).
  induction files as [|f files IH]; [done|]. destruct (decide (f.1 = path')) as [E|E].
  - rewrite filter_cons_False by (intros H; by apply H). cbn [list_find]. rewrite (decide_False (P := f.1 = path)) by congruence.
    rewrite IH. by destruct (list_find _ files) as [[]|].
  - rewrite filter_cons_True by done. cbn [list_find]. destruct (decide (f.1 = path)); [done|].
    destruct (list_find _ (filter _ files)) as [[]|], (list_find _ files) as [[]|]; simpl in *; congruence.
Qed.

(** ** The lines of the file *)

Lemma ntoa_word a rest : word (inet_ntoa a ++ 32 :: rest) = (inet_ntoa a, 32 :: rest) ∧ word (inet_ntoa a ++ 10 :: rest) = (inet_ntoa a, 10 :: rest).
Proof.
  destruct (ntoa_chars a) as [H _]. induction H as [|c l Hc H IH]; [done|]. cbn [app word].
  assert (isspace c = false) as -> by (unfold isspace; rewrite (proj2 (Z.eqb_neq _ _)) by lia; cbn [orb]; apply andb_false_iff; right; apply Z.leb_gt; lia).
  destruct IH as [-> ->]. done.
Qed.

Lemma ntoa_skip a rest : skip_blanks (inet_ntoa a ++ rest) = inet_ntoa a ++ rest ∧ skip_blanks (32 :: inet_ntoa a ++ rest) = inet_ntoa a ++ rest
  ∧ ∃ c l, inet_ntoa a ++ rest = c :: l.
Proof.
  destruct (ntoa_chars a) as [_ (c&l&E&Hc)]. rewrite E. cbn [app skip_blanks].
  assert (isspace c = false) as -> by (unfold isspace; rewrite (proj2 (Z.eqb_neq _ _)) by lia; cbn [orb]; apply andb_false_iff; right; apply Z.leb_gt; lia).
  split; [done|]. split; [done|]. by eexists _, _.
Qed.

Lemma scan_first a rest old (s : dhcpc) : scan_word (inet_ntoa a ++ 32 :: rest) old s = Done ((Some (inet_ntoa a), Some (32 :: rest)), s).
Proof.
  unfold scan_word. destruct (ntoa_skip a (32 :: rest)) as (->&_&c&l&E). pose proof (proj1 (ntoa_word a rest)) as Ew. pose proof (ntoa_length a).
  rewrite E in *. cbv beta iota. rewrite Ew. by rewrite (proj2 (Z.leb_gt _ _)) by lia.
Qed.

Lemma scan_next a rest old (s : dhcpc) :
  scan_word (32 :: inet_ntoa a ++ 32 :: rest) old s = Done ((Some (inet_ntoa a), Some (32 :: rest)), s) ∧
  scan_word (32 :: inet_ntoa a ++ 10 :: rest) old s = Done ((Some (inet_ntoa a), Some (10 :: rest)), s).
Proof.
  unfold scan_word. destruct (ntoa_word a rest) as [W1 W2]. pose proof (ntoa_length a).
  destruct (ntoa_skip a (32 :: rest)) as (_&->&c1&l1&E1). destruct (ntoa_skip a (10 :: rest)) as (_&->&c2&l2&E2).
  rewrite E1, E2 in *. cbv beta iota. rewrite W1, W2. by rewrite (proj2 (Z.leb_gt _ _)) by lia.
Qed.

(** A line is read as the route it was written for. *)
Lemma scan_route_line r v (s : dhcpc) : scan_route (route_line r) v s =
  Done (let '(a, m, g) := route_text r in (Some a, Some m, Some g), s).
Proof.
  destruct v as [[v1 v2] v3]. unfold scan_route, route_line, route_text, route_entry. cbn [app].
  mstep (scan_first (Z.land (rt_dest r) (netmask (rt_width r))) (inet_ntoa (netmask (rt_width r)) ++ 32 :: inet_ntoa (rt_gw r) ++ [10]) v1 s).
  mstep (proj1 (scan_next (netmask (rt_width r)) (inet_ntoa (rt_gw r) ++ [10]) v2 s)).
  by mstep (proj2 (scan_next (rt_gw r) [] v3 s)).
Qed.

Lemma route_line_fgets r rest : fgets (IFC_LARGE_LEN - 1) (route_line r ++ rest) = (route_line r, rest).
Proof.
  unfold route_line, route_text, route_entry.
  set (a := inet_ntoa (Z.land _ _)). set (m := inet_ntoa (netmask _)). set (g := inet_ntoa (rt_gw r)).
  replace ((a ++ [32] ++ m ++ [32] ++ g ++ [10]) ++ rest) with ((a ++ [32] ++ m ++ [32] ++ g) ++ 10 :: rest) by (by rewrite <- !app_assoc).
  assert (∀ v, Forall (λ c, c ≠ 10) (inet_ntoa v)) as Hn.
  { intros v. eapply Forall_impl; [apply ntoa_chars|]. simpl. lia. }
  rewrite fgets_line.
  - by rewrite <- !app_assoc.
  - rewrite !Forall_app, !Forall_singleton. split_and!; first [apply Hn | lia].
  - pose proof (ntoa_length (Z.land (rt_dest r) (netmask (rt_width r)))) as H1. fold a in H1.
    pose proof (ntoa_length (netmask (rt_width r))) as H2. fold m in H2. pose proof (ntoa_length (rt_gw r)) as H3. fold g in H3.
    rewrite !length_app. cbn [length]. unfold IFC_LARGE_LEN. lia.
Qed.

Lemma route_line_cons r : ∃ c l, route_line r = c :: l.
Proof.
  unfold route_line, route_text, route_entry. destruct (ntoa_chars (Z.land (rt_dest r) (netmask (rt_width r)))) as [_ (c&l&->&_)]. by eexists _, _.
Qed.

Lemma lines_of_routes rs n : (length rs ≤ n)%nat → lines_of n (concat (map route_line rs)) = map route_line rs.
Proof.
  revert n. induction rs as [|r rs IH]; intros n Hn; [by destruct n|]. destruct n as [|n]; [simpl in Hn; lia|]. cbn [map concat].
  pose proof (route_line_fgets r (concat (map route_line rs))) as E. destruct (route_line_cons r) as (c&l&El). rewrite El in *.
  cbn [lines_of app]. rewrite <- app_comm_cons in E. rewrite E. rewrite IH by (simpl in Hn; lia). done.
Qed.

Lemma lines_count rs : (length rs ≤ length (concat (map route_line rs)))%nat.
Proof.
  induction rs as [|r rs IH]; [done|]. cbn [map concat length]. rewrite length_app. destruct (route_line_cons r) as (c&l&->). simpl. lia.
Qed.

(** ** The commands *)

(** The command for a route of the interface [dev]. *)
Definition command_for (op : string) (dev : list Z) (r : route) : command :=
  let '(a, m, g) := route_text r in route_cmd op a m g dev.

Definition add_cmds (cs : list command) (w : world) : world :=
  {| w_files := w_files w; w_cmds := w_cmds w ++ cs; w_tmp := w_tmp w; w_msgs := w_msgs w; w_tr69 := w_tr69 w; w_execs := w_execs w; w_mallocs := w_mallocs w |}.

Lemma add_cmds_nil w : add_cmds [] w = w.
Proof. unfold add_cmds. rewrite app_nil_r. by destruct w. Qed.

Lemma run_route_ok op r s : (String.length op ≤ 3)%nat → Z.of_nat (length (c_session_path s)) < 64 →
  run_route op (let '(a, m, g) := route_text r in (Some a, Some m, Some g)) s =
    Done (tt, set_cl_world (add_cmds [command_for op (c_session_path s) r] (cl_world s)) s).
Proof.
  intros Hop Hd. unfold run_route, route_text. rewrite bind_gets. unfold shell, fits. rewrite (proj2 (Z.ltb_lt _ _)).
  - rewrite bind_ret. unfold on_world, modify. reflexivity.
  - unfold route_cmd. rewrite !length_app.
    pose proof (ntoa_length (Z.land (rt_dest r) (netmask (rt_width r)))). pose proof (ntoa_length (netmask (rt_width r))).
    assert (Z.of_nat (length (if decide (inet_ntoa (rt_gw r) = no_gateway) then [] else cstr " gw " ++ inet_ntoa (rt_gw r))) ≤ 19) as Hg.
    { pose proof (ntoa_length (rt_gw r)). destruct (decide _); [simpl; lia|]. rewrite length_app. change (length (cstr " gw ")) with 4%nat. lia. }
    rewrite (cstr_length op).
    change (length (cstr "route ")) with 6%nat. change (length (cstr " -net ")) with 6%nat. change (length (cstr " netmask ")) with 9%nat.
    change (length (cstr " metric 1")) with 9%nat. change (length (cstr " dev ")) with 5%nat. change (length (cstr " 2>/dev/null")) with 12%nat.
    unfold IFC_LARGE_LEN. lia.
Qed.

Lemma delete_routes_ok rs v s : Z.of_nat (length (c_session_path s)) < 64 →
  ∃ v', delete_routes (map route_line rs) v s =
    Done (v', set_cl_world (add_cmds (map (command_for "del" (c_session_path s)) rs) (cl_world s)) s).
Proof.
  revert v s. induction rs as [|r rs IH]; intros v s Hs; cbn [map delete_routes].
  - exists v. rewrite add_cmds_nil. by destruct s.
  - mstep (scan_route_line r v s). mstep (run_route_ok "del" r s ltac:(simpl; lia) Hs). set (s1 := set_cl_world _ s).
    destruct (IH (let '(a, m, g) := route_text r in (Some a, Some m, Some g)) s1 Hs) as (v'&E). exists v'. etrans; [exact E|].
    unfold s1, add_cmds. cbn. by rewrite <- app_assoc.
Qed.

Lemma note_gateway_ok g e s : ∃ gs e', note_gateway g e s = Done (e', set_c_gGwIp gs s).
Proof.
  unfold note_gateway. rewrite bind_gets. destruct (bool_decide _); [exists (c_gGwIp s), e; by destruct s|].
  destruct (e <? _)%nat; [rewrite bind_modify; by eexists _, _|]. exists (c_gGwIp s), e. by destruct s.
Qed.

Lemma add_routes_ok rs v e s : Z.of_nat (length (c_session_path s)) < 64 →
  ∃ gs, add_routes (map route_line rs) v e s =
    Done (tt, set_c_gGwIp gs (set_cl_world (add_cmds (map (command_for "add" (c_session_path s)) rs) (cl_world s)) s)).
Proof.
  revert v e s. induction rs as [|r rs IH]; intros v e s Hs; cbn [map add_routes].
  - exists (c_gGwIp s). rewrite add_cmds_nil. by destruct s.
  - mstep (scan_route_line r v s).
    assert (∃ gs e', (if decide (inet_ntoa (rt_gw r) = no_gateway) then mret e else note_gateway (inet_ntoa (rt_gw r)) e) s = Done (e', set_c_gGwIp gs s)) as (gs&e'&Eg).
    { destruct (decide _); [exists (c_gGwIp s), e; by destruct s|]. apply note_gateway_ok. }
    mstep Eg. set (s1 := set_c_gGwIp gs s). mstep (run_route_ok "add" r s1 ltac:(simpl; lia) Hs). set (s2 := set_cl_world _ s1).
    destruct (IH (let '(a, m, g) := route_text r in (Some a, Some m, Some g)) e' s2 Hs) as (gs'&E). exists gs'. etrans; [exact E|].
    unfold s2, s1, add_cmds. cbn. by rewrite <- app_assoc.
Qed.

Definition route_file (session : list Z) (name : string) : list Z := slash PATH_WAN_ROOT (slash session (cstr name)).

Lemma route_file_length session name : Z.of_nat (length session) < 64 → (String.length name ≤ 14)%nat →
  Z.of_nat (length (route_file session name)) < 100.
Proof.
  intros H1 H2. unfold route_file, slash. rewrite !length_app. change (length PATH_WAN_ROOT) with 12%nat. cbn [length].
  rewrite cstr_length. lia.
Qed.

Lemma route_files_differ session : route_file session "oldstaticroute" ≠ route_file session "staticroute".
Proof. unfold route_file, slash. intros E%app_inv_head%app_inv_head%app_inv_head%app_inv_head. by vm_compute in E. Qed.

Section routes.
Context (sys : script_env).

(** The child writes the routes of the option to the file. *)
Lemma file_save_route_ok rs session s : Forall route_ok rs → session ≠ [] → Z.of_nat (length session) < 64 →
  ss_statics s Option_121 = concat (map encode_route rs) → option121_lenth s = Z.of_nat (length (ss_statics s Option_121)) →
  se_writable sys (route_file session "staticroute") = true →
  ∃ w, file_save_route sys session s = Done (tt, put_world w (after_routes rs s)) ∧
    file_content (route_file session "staticroute") (w_files w) = Some (lines_for rs) ∧
    file_content (route_file session "oldstaticroute") (w_files w) = file_content (route_file session "oldstaticroute") (w_files (ss_world s)) ∧
    w_cmds w = w_cmds (ss_world s).
Proof.
  intros Hok Hne Hl Ho Hlen Hw. pose proof (route_file_length session "staticroute" Hl ltac:(simpl; lia)) as Hf.
  unfold file_save_route. rewrite bind_gets, decide_False by done. fold (route_file session "staticroute").
  set (path := route_file session "staticroute") in *. unfold fits. rewrite (proj2 (Z.ltb_lt _ _)) by lia. rewrite bind_ret, Hw.
  unfold put_file, on_world. rewrite bind_modify, bind_gets. set (s1 := put_world _ s).
  change (ss_statics s1 Option_121) with (ss_statics s Option_121).
  assert (length rs ≤ length (ss_statics s Option_121))%nat as Hn.
  { rewrite Ho. clear. induction rs as [|r rs IH]; [done|]. cbn [map concat]. rewrite length_app. unfold encode_route at 1. cbn [length]. lia. }
  mstep (route_loop_ok rs (S (Z.to_nat (option121_lenth s))) (ss_statics s Option_121) [] _ 0 [] s1 Hok ltac:(lia) Ho Hlen eq_refl).
  assert (ss_world (after_routes rs s1) = ss_world s1 ∧ ∀ w, put_world w (after_routes rs s1) = put_world w (after_routes rs s)) as [Ew Ep].
  { unfold after_routes. clearbody path. unfold s1. clear. set (w1 := set_wfiles _ _). clearbody w1. revert s. induction rs as [|r rs IH]; intros s; [done|].
    cbn [foldl]. destruct (is_default r); [exact (IH (put_static Router_ip (inet_ntoa (rt_gw r)) s))|exact (IH s)]. }
  unfold modify. eexists. split; [rewrite Ep; reflexivity|].
  change (world_of (after_routes rs s1)) with (ss_world (after_routes rs s1)). rewrite Ew.
  split; [apply file_content_put|]. split; [|done]. cbn [w_files set_wfiles].
  rewrite file_content_other by apply route_files_differ. change (w_files (ss_world s1)) with ((path, []) :: filter (λ f, f.1 ≠ path) (w_files (ss_world s))).
  by rewrite file_content_other by apply route_files_differ.
Qed.

(** *** The files of the interface *)

(** The files of the routes are the same in both worlds. *)
Definition same_routes (session : list Z) (w w' : world) : Prop :=
  ∀ name, name = "staticroute"%string ∨ name = "oldstaticroute"%string →
    file_content (route_file session name) (w_files w') = file_content (route_file session name) (w_files w).

Lemma same_routes_trans session w1 w2 w3 : same_routes session w1 w2 → same_routes session w2 w3 → same_routes session w1 w3.
Proof. intros H1 H2 name Hn. by rewrite H2, H1. Qed.

Lemma route_files_apart session name name' : cstr name ≠ cstr name' → route_file session name ≠ route_file session name'.
Proof. unfold route_file, slash. intros H E%app_inv_head%app_inv_head%app_inv_head%app_inv_head. done. Qed.

(** A directory is made, and a file other than those of the routes is written. *)
Lemma save_in_session session name content s : Z.of_nat (length session) < 64 → name = "dns"%string ∨ name = "gateway"%string →
  ∃ w, (shell 128 (cstr "mkdir -p " ++ slash PATH_WAN_ROOT session);;
        path ← fits 128 (slash PATH_WAN_ROOT (slash session (cstr name)));
        file_save sys path content false) s = Done (tt, put_world w s) ∧ same_routes session (ss_world s) w.
Proof.
  intros Hl Hname. fold (route_file session name).
  assert (Z.of_nat (length (route_file session name)) < 100) as Hf by (apply route_file_length; [done|destruct Hname as [-> | ->]; simpl; lia]).
  assert (Z.of_nat (length (cstr "mkdir -p " ++ slash PATH_WAN_ROOT session)) < 128) as Hm.
  { unfold slash. rewrite !length_app. change (length (cstr "mkdir -p ")) with 9%nat. change (length PATH_WAN_ROOT) with 12%nat. cbn [length]. lia. }
  unfold shell, fits. rewrite (proj2 (Z.ltb_lt _ _) Hm), (proj2 (Z.ltb_lt (Z.of_nat (length (route_file session name))) 128)) by lia.
  rewrite bind_assoc, bind_ret. unfold on_world. rewrite bind_modify, bind_ret. unfold file_save, the_file. rewrite bind_gets. cbn [andb].
  destruct (se_writable sys (route_file session name)).
  - eexists. split; [reflexivity|]. intros other Hother. cbn [w_files set_wfiles].
    rewrite file_content_other; [done|]. apply route_files_apart.
    by destruct Hname as [-> | ->], Hother as [-> | ->].
  - eexists. split; [reflexivity|]. by intros.
Qed.

(** The part of [save_interface] in front of the routes, and the part behind. *)
Definition interface_dns (session : list Z) : M script unit :=
  dns ← text Dns_ip;
  (if decide (dns = []) then mret tt else
     dir ← fits 128 (slash PATH_WAN_ROOT session);
     shell 128 (cstr "mkdir -p " ++ dir);;
     path ← fits 128 (slash PATH_WAN_ROOT (slash session (cstr "dns")));
     file_save sys path dns false);;
  (if se_msgs sys then on_world (add_wmsg (DNSSRV_DHCP_TYPE, take 127 session)) else mret tt).

Definition interface_gateway (session : list Z) : M script unit :=
  router ← text Router_ip;
  (if decide (router = []) then mret tt else
     shell 128 (cstr "mkdir -p " ++ slash PATH_WAN_ROOT session);;
     dfpath ← fits 128 (slash PATH_WAN_ROOT (slash session (cstr "gateway")));
     file_save sys dfpath router false).

Lemma save_interface_eq session s : session ≠ [] → save_interface sys session s =
  (interface_dns session;; o121 ← text Option_121;
   (if decide (o121 = []) then mret tt else file_save_route sys session);; interface_gateway session) s.
Proof.
  intros Hne. unfold save_interface, interface_dns. rewrite decide_False by done.
  unfold text. rewrite !bind_assoc, !bind_gets. case_decide.
  - rewrite !bind_ret, bind_assoc. done.
  - by rewrite !bind_assoc.
Qed.

Lemma interface_dns_ok session s : Z.of_nat (length session) < 64 →
  ∃ w, interface_dns session s = Done (tt, put_world w s) ∧ same_routes session (ss_world s) w.
Proof.
  intros Hl. unfold interface_dns, text. rewrite bind_gets.
  assert (∃ w, (if decide (c_string (ss_statics s Dns_ip) = []) then mret tt else
     dir ← fits 128 (slash PATH_WAN_ROOT session);
     shell 128 (cstr "mkdir -p " ++ dir);;
     path ← fits 128 (slash PATH_WAN_ROOT (slash session (cstr "dns")));
     file_save sys path (c_string (ss_statics s Dns_ip)) false) s = Done (tt, put_world w s) ∧ same_routes session (ss_world s) w) as (w&E&Hw).
  { case_decide; [exists (ss_world s); split; [by destruct s|by intros]|].
    assert (Z.of_nat (length (slash PATH_WAN_ROOT session)) < 128) as Hd.
    { unfold slash. rewrite !length_app. change (length PATH_WAN_ROOT) with 12%nat. cbn [length]. lia. }
    assert (fits 128 (slash PATH_WAN_ROOT session) s = Done (slash PATH_WAN_ROOT session, s)) as Ef
      by (unfold fits; by rewrite (proj2 (Z.ltb_lt _ _) Hd)).
    mstep Ef. apply save_in_session; [done|by left]. }
  mstep E. destruct (se_msgs sys); [|by exists w]. eexists. split; [reflexivity|]. intros name Hn. by apply Hw.
Qed.

Lemma interface_gateway_ok session s : Z.of_nat (length session) < 64 →
  ∃ w, interface_gateway session s = Done (tt, put_world w s) ∧ same_routes session (ss_world s) w.
Proof.
  intros Hl. unfold interface_gateway, text. rewrite bind_gets.
  case_decide; [exists (ss_world s); split; [by destruct s|by intros]|]. apply save_in_session; [done|by right].
Qed.

Lemma after_routes_statics rs w s : ss_statics (after_routes rs (put_world w s)) = ss_statics (after_routes rs s).
Proof.
  unfold after_routes. revert s. induction rs as [|r rs IH]; intros s; [done|]. cbn [foldl].
  destruct (is_default r); [|apply IH]. exact (IH (put_static Router_ip (inet_ntoa (rt_gw r)) s)).
Qed.

(** The guard of option 121 is the length of its bytes as a string. *)
Lemma routes_text r rs : route_ok r →
  c_string (concat (map encode_route (r :: rs))) = [] ↔ is_default r = true.
Proof.
  intros ((H0&_)&_). cbn [map concat]. unfold encode_route at 1, is_default. cbn [app c_string].
  destruct (Z.eqb_spec (rt_width r) 0); [done|]. by split.
Qed.

(** A list of routes whose first is not the default one is written to its file. *)
Lemma save_interface_routes r rs session s : Forall route_ok (r :: rs) → is_default r = false → session ≠ [] → Z.of_nat (length session) < 64 →
  ss_statics s Option_121 = concat (map encode_route (r :: rs)) → option121_lenth s = Z.of_nat (length (ss_statics s Option_121)) →
  se_writable sys (route_file session "staticroute") = true →
  ∃ s', save_interface sys session s = Done (tt, s') ∧ ss_statics s' = ss_statics (after_routes (r :: rs) s) ∧
    file_content (route_file session "staticroute") (w_files (ss_world s')) = Some (lines_for (r :: rs)) ∧
    file_content (route_file session "oldstaticroute") (w_files (ss_world s')) = file_content (route_file session "oldstaticroute") (w_files (ss_world s)).
Proof.
  intros Hok Hd Hne Hl Ho Hlen Hw. rewrite save_interface_eq by done.
  destruct (interface_dns_ok session s Hl) as (w1&E1&Hw1). mstep E1. unfold text. rewrite bind_gets.
  rewrite decide_False; cycle 1.
  { change (ss_statics (put_world w1 s) Option_121) with (ss_statics s Option_121).
    rewrite Ho, routes_text by (by inversion Hok). by rewrite Hd. }
  destruct (file_save_route_ok (r :: rs) session (put_world w1 s) Hok Hne Hl) as (w2&E2&Hn&Hold&_); [exact Ho|exact Hlen|exact Hw|]. mstep E2.
  destruct (interface_gateway_ok session (put_world w2 (after_routes (r :: rs) (put_world w1 s))) Hl) as (w3&E3&Hw3).
  rewrite E3. eexists. split; [reflexivity|]. split; [apply (after_routes_statics (r :: rs) w1 s)|].
  change (ss_world (put_world w3 (put_world w2 (after_routes (r :: rs) (put_world w1 s))))) with w3.
  rewrite !Hw3 by auto. split; [exact Hn|]. change (ss_world (put_world w2 (after_routes (r :: rs) (put_world w1 s)))) with w2.
  rewrite Hold. apply Hw1. by right.
Qed.

(** One that starts with the default route is not looked at. *)
Lemma save_interface_ignores r rs session s : route_ok r → is_default r = true → session ≠ [] → Z.of_nat (length session) < 64 →
  ss_statics s Option_121 = concat (map encode_route (r :: rs)) →
  ∃ s', save_interface sys session s = Done (tt, s') ∧ ss_statics s' = ss_statics s ∧ same_routes session (ss_world s) (ss_world s').
Proof.
  intros Hok Hd Hne Hl Ho. rewrite save_interface_eq by done.
  destruct (interface_dns_ok session s Hl) as (w1&E1&Hw1). mstep E1. unfold text. rewrite bind_gets.
  rewrite decide_True by (change (ss_statics (put_world w1 s) Option_121) with (ss_statics s Option_121); rewrite Ho; by apply routes_text).
  rewrite bind_ret. destruct (interface_gateway_ok session (put_world w1 s) Hl) as (w3&E3&Hw3).
  rewrite E3. eexists. split; [reflexivity|]. split; [done|]. by eapply same_routes_trans.
Qed.

(** The client deletes the old routes and adds the new ones. *)
Lemma run_staticRoute_ok rs olds s : let session := c_session_path s in Z.of_nat (length session) < 64 →
  file_content (route_file session "staticroute") (w_files (cl_world s)) = Some (lines_for rs) →
  default [] (file_content (route_file session "oldstaticroute") (w_files (cl_world s))) = lines_for olds →
  se_writable sys (route_file session "oldstaticroute") = true →
  ∃ s', run_staticRoute sys s = Done (tt, s') ∧
    w_cmds (cl_world s') = w_cmds (cl_world s) ++ map (command_for "del" session) (filter (λ r, is_default r = false) olds) ++
      map (command_for "add" session) (filter (λ r, is_default r = false) rs) ++ [cstr "rm -rf " ++ route_file session "staticroute"] ∧
    file_content (route_file session "oldstaticroute") (w_files (cl_world s')) = Some (lines_for rs) ∧
    file_content (route_file session "staticroute") (w_files (cl_world s')) = None.
Proof.
  intros session Hl Hnew Hold Hw. pose proof (route_file_length session "staticroute" Hl ltac:(simpl; lia)) as Hf.
  pose proof (route_file_length session "oldstaticroute" Hl ltac:(simpl; lia)) as Hf'. unfold run_staticRoute.
  rewrite bind_gets. fold session. fold (route_file session "staticroute") (route_file session "oldstaticroute").
  set (path := route_file session "staticroute") in *. set (old := route_file session "oldstaticroute") in *.
  unfold fits. rewrite !(proj2 (Z.ltb_lt _ (Z.of_nat IFC_LARGE_LEN))) by (unfold IFC_LARGE_LEN; lia). rewrite !bind_ret.
  unfold the_file. rewrite bind_gets. change (world_of s) with (cl_world s). rewrite Hnew, Hw. cbn [negb]. rewrite bind_gets. change (world_of s) with (cl_world s). rewrite Hold. cbv zeta.
  unfold lines_for. rewrite !lines_of_routes by apply lines_count. set (os := filter _ olds). set (ns := filter _ rs).
  destruct (delete_routes_ok os (None, None, None) s Hl) as (v&Ed). mstep Ed. set (s1 := set_cl_world _ s).
  destruct (add_routes_ok ns v 0 s1 Hl) as (gs&Ea). mstep Ea. set (s2 := set_c_gGwIp _ _).
  unfold put_file, on_world. rewrite bind_modify. set (s3 := put_world _ s2). unfold shell_rm, shell, fits.
  rewrite (proj2 (Z.ltb_lt _ _)) by (rewrite length_app; change (length (cstr "rm -rf ")) with 7%nat; lia). rewrite bind_assoc, bind_ret.
  unfold on_world. rewrite bind_modify. eexists. split; [reflexivity|].
  split_and!.
  - cbn. by rewrite <- !app_assoc.
  - change (file_content old (filter (λ f, f.1 ≠ path) ((old, concat (map route_line ns)) :: filter (λ f, f.1 ≠ old) (w_files (world_of s2)))) =
      Some (concat (map route_line ns))).
    assert (old ≠ path) as Hd by apply route_files_differ. rewrite filter_cons_True by done. apply file_content_put.
  - unfold file_content. rewrite (proj2 (list_find_None _ _)); [done|]. rewrite Forall_forall. intros f [Hp _]%list_elem_of_filter. done.
Qed.
End routes.
