(* ===== verification/DhcpClientClaims.v ===== *)
(** * The DHCP client: theorems

    The client takes what the server of this program offers, the server reads what
    the client asks for, a lease is not used after its end, and the static routes of
    a lease are installed. *)

From stdpp Require Import base numbers list sets strings.
From Stdlib Require Import ZArith Lia Bool.
From S2P Require Import Prelude CText DhcpPacket DhcpOptions DhcpLease DhcpFiles DhcpVi DhcpServer DhcpMain DhcpTable DhcpReply DhcpExcl DhcpRun DhcpClaims DhcpScript DhcpClient DhcpClientRead DhcpClientSend DhcpClientTime DhcpClientRoutes.

(** ** A client to try, and its talk with a server *)

Definition try_script_env : script_env :=
  {| se_malloc _ := true; se_writable p := negb (bool_decide (p = [])); se_msgs := true; se_PATH := None; se_HOME := None; se_stack := [] |}.
Definition try_cenv : client_env :=
  {| ce_rand s n := (s * 7 + Z.of_nat n + 12345) mod 2 ^ 31; ce_time := 99; ce_lrand48 _ := 0; ce_serial _ := cstr "SN1";
     ce_tmp _ _ := None; ce_socket _ := 5; ce_send _ := 1; ce_fork _ := 0; ce_getpid := 77; ce_board _ := true;
     ce_open_pid := true; ce_lock_free := true; ce_inet_aton _ := None; ce_junk := 0 |}.
Definition try_world : world := {| w_files := []; w_cmds := []; w_tmp := []; w_msgs := []; w_tr69 := []; w_execs := []; w_mallocs := 0 |}.

Definition try_step {A} (d : A) (m : M dhcpc A) (s : dhcpc) : dhcpc := match m s with Done y => y.2 | _ => s end.
Definition try_client (ev : cevent) (s : dhcpc) : dhcpc := try_step None (client_round try_env try_script_env try_cenv ev) s.

(** The last packet of a list, and the message in it. *)
Definition last_packet (l : list sent_packet) : sent_packet := default (Kernel [] 0) (last l).
Definition bytes_of (pkt : sent_packet) : list Z := match pkt with Raw bytes _ _ => bytes | Kernel bytes _ => bytes end.

(** Discover, offer, request and acknowledgement. *)
Definition client_1 : dhcpc := try_client (silent 0)
  (try_step None (client_start try_env try_script_env try_cenv [(105, cstr "ppp0")]) (initial (replicate 1264 0) 100 try_world)).
Definition server_1 : Z * dhcpd := try_round (Received (Some (payload_of (last_packet (c_sent client_1))))) (5000, try_start).
Definition client_2 : dhcpc := try_client {| ev_after := 1; ev_what := Arrives (Some (bytes_of (last_packet (d_sent server_1.2)))) |} client_1.
Definition client_3 : dhcpc := try_client (silent 0) client_2.
Definition server_2 : Z * dhcpd := try_round (Received (Some (payload_of (last_packet (c_sent client_3))))) server_1.
Definition client_4 : dhcpc := try_client {| ev_after := 1; ev_what := Arrives (Some (bytes_of (last_packet (d_sent server_2.2)))) |} client_3.

Lemma try_talk : (c_state client_1, c_state client_2, c_state client_3, c_state client_4, c_requested_ip client_4, c_lease client_4) =
  (INIT_SELECTING, REQUESTING, REQUESTING, BOUND, 0xc0a80102, 86400).
Proof. vm_compute. reflexivity. Qed.

Lemma try_system : host_ok try_script_env try_cenv.
Proof. split; [|done]. intros n. split; [done|by vm_compute]. Qed.

(** ** The end of a lease *)

Definition has_lease (s : dhcpc) : Prop := c_state s = BOUND ∨ c_state s = RENEWING ∨ c_state s = REBINDING.

Lemma clock_has_lease s : lc_phase (clock_of s) ≠ Lost_ ↔ has_lease s.
Proof.
  unfold has_lease. cbn. destruct (Z.eqb_spec (c_state s) BOUND) as [E|E]; [by rewrite E; intuition|].
  destruct (Z.eqb_spec (c_state s) RENEWING) as [E'|E']; [by rewrite E'; intuition|]. cbn [orb].
  destruct (Z.eqb_spec (c_state s) REBINDING) as [E''|E'']; [by rewrite E''; intuition|]. intuition.
Qed.

(** [C8] A client that gets no answer does not use its address after the end of the
    lease.  Let it hold a lease of [l] seconds, at most about 19 years (not an infinite
    one), and hear nothing: every round ends
    with its timer, and the client runs as many seconds later than it asked for as
    [lates] says.  It takes at most 26 rounds, each of them returns, and in all but
    the last one the client still has the lease; then it has given the address up for
    a link-local one and looks for a server again, no later than the end of the lease
    plus the time it was late all in all. *)
Theorem lease_not_outlived env sys cenv l lates s :
  host_ok sys cenv → idle_ok s → holds_lease l s → 0 ≤ l → l * 7 < 2 ^ 32 → 0 ≤ c_start s →
  length lates = 26%nat → Forall (λ d, 0 ≤ d) lates → c_start s + l + total lates < 2 ^ 31 →
  ∃ n s', (0 < n ≤ 26)%nat ∧ client_rounds env sys cenv (map silent (take n lates)) s = Done (None, s') ∧
    given_up s' ∧ c_now s' ≤ c_start s + l + total (take n lates) ∧
    ∀ j, (j < n)%nat → ∃ sj, client_rounds env sys cenv (map silent (take j lates)) s = Done (None, sj) ∧ has_lease sj.
Proof.
  intros Hsys Hok Hlease Hl H7 Hst Hlen Hp Hb. pose proof (total_nonneg _ Hp) as Htot.
  destruct (holds_lease_clock l s Hlease Hl H7 Hst ltac:(lia)) as (Hc&Hph&Et2).
  destruct Hlease as (_&El&Et1&_). destruct (clock_ends lates 0 (clock_of s) Hlen Hp Hc Hph) as (n&Hn&Hlost&Hbefore);
    [cbn; by rewrite El|cbn; by rewrite El|].
  assert (∀ m, (m ≤ 26)%nat → total (take m lates) ≤ total lates) as Hle.
  { intros m Hm. rewrite <- (take_drop m lates) at 2. rewrite total_app. pose proof (total_nonneg _ (Forall_drop _ m _ Hp)). lia. }
  assert (∀ m, (m ≤ S n)%nat → ∃ sm, client_rounds env sys cenv (map silent (take m lates)) s = Done (None, sm) ∧
      clock_of sm = clock_ticks (take m lates) (clock_of s) ∧ (take m lates ≠ [] → unanswered sm)) as Hrun.
  { intros m Hm. apply (silent_rounds env sys cenv (take m lates) 0 s); [done..|by apply Forall_take| |].
    - intros j Hj. rewrite length_take in Hj. rewrite take_take, Nat.min_l by lia. apply Hbefore. lia.
    - pose proof (Hle m ltac:(lia)). rewrite El. lia. }
  destruct (Hrun (S n) ltac:(lia)) as (s'&E&Ec&Hu). exists (S n), s'. split; [lia|]. split; [done|]. split; [|split].
  - destruct Hu as [Hr|[Hr|Hg]]; [destruct lates; [done|by simpl]| | |done]; (rewrite <- Ec in Hlost; exfalso; revert Hlost; apply clock_has_lease; unfold has_lease; by auto).
  - destruct (ticks_ok (take (S n) lates) 0 (clock_of s) Hc ltac:(by apply Forall_take)) as (Hc'&E1&E2).
    + intros j Hj. rewrite length_take in Hj. rewrite take_take, Nat.min_l by lia. apply Hbefore. lia.
    + rewrite <- Ec in Hc', E1, E2, Hlost. unfold clock_ok in Hc'. rewrite Hlost in Hc'. cbn in Hc', E1, E2. rewrite El in E1. lia.
  - intros j Hj. destruct (Hrun j ltac:(lia)) as (sj&Ej&Ecj&_). exists sj. split; [done|]. apply clock_has_lease. rewrite Ecj. apply Hbefore. lia.
Qed.

Lemma try_idle : idle_ok client_4.
Proof. split; [split|split; [|split]]; [by vm_compute|by vm_compute|by vm_compute|by vm_compute|by vm_compute|left; by vm_compute]. Qed.

(** The lease of the client in the talk. *)
Lemma lease_not_outlived_witness : ∃ n s', (0 < n ≤ 26)%nat ∧
  client_rounds try_env try_script_env try_cenv (map silent (take n (replicate 26 2))) client_4 = Done (None, s') ∧ given_up s' ∧
  c_now s' ≤ 104 + 86400 + 2 * Z.of_nat n.
Proof.
  destruct (lease_not_outlived try_env try_script_env try_cenv 86400 (replicate 26 2) client_4) as (n&s'&Hn&E&Hg&Ht&_).
  - exact try_system.
  - exact try_idle.
  - repeat split; by vm_compute.
  - done.
  - done.
  - by vm_compute.
  - done.
  - by apply Forall_replicate.
  - by vm_compute.
  - exists n, s'. split; [done|]. split; [done|]. split; [done|]. rewrite take_replicate, Nat.min_l in Ht by lia.
    assert (total (replicate n 2) = 2 * Z.of_nat n) as Et.
    { clear. induction n as [|n IH]; [done|]. cbn [replicate total foldr]. fold (total (replicate n 2)). lia. }
    assert (c_start client_4 = 104) as Es by (vm_compute; reflexivity). lia.
Defined.

(** ** An offer and what the client makes of it *)

Section talk.
Context (env : dhcp_env) (sys : script_env) (cenv : client_env).

Lemma carries_yiaddr pkt type sv x y t : carries pkt type sv x y t → 0 ≤ y < 2 ^ 32 → p_yiaddr pkt = y.
Proof.
  intros [_ (p&l&_&Hm&Hy&_)] Hr. unfold p_yiaddr. rewrite Hm by (unfold OFF_YIADDR, OFF_OPTIONS; lia). by rewrite Hy, be32_be.
Qed.

(** The client has taken the offer of [y] by the server [sv]. *)
Definition takes (c : dhcpc) (sv y now : Z) (c' : dhcpc) : Prop :=
  c_state c' = REQUESTING ∧ c_requested_ip c' = y ∧ c_server_addr c' = sv ∧ c_xid c' = c_xid c ∧ c_packet_num c' = 0 ∧
  c_now c' = now ∧ c_timeout c' = s32 now ∧ cl_config c' = cl_config c ∧ c_vendor_class_id c' = c_vendor_class_id c ∧
  c_listen_mode c' = c_listen_mode c ∧ c_sent c' = c_sent c ∧ c_sends c' = c_sends c.

(** A client that looks for an address and waits for an answer. *)
Definition waits_for_offer (c : dhcpc) : Prop :=
  idle_ok c ∧ c_state c = INIT_SELECTING ∧ c_listen_mode c = LISTEN_RAW ∧ Z.of_nat (length (c_packet c)) = sizeof_dhcpMessage ∧
  0 ≤ c_now c < c_timeout c ∧ c_timeout c < 2 ^ 31.

Lemma offer_round sv x y t bytes mac ix d c : carries (Raw bytes mac ix) DHCPOFFER sv x y t →
  0 ≤ sv < 2 ^ 32 → 0 ≤ y < 2 ^ 32 → 0 ≤ t < 2 ^ 32 → be32 x = c_xid c → waits_for_offer c → (∀ n, 0 ≤ ce_socket cenv n) →
  ∃ c', client_round env sys cenv {| ev_after := d; ev_what := Arrives (Some bytes) |} c = Done (None, c') ∧ takes c sv y (c_now c + d) c'.
Proof.
  intros Hca Hsv Hy Ht Hx (Hok&Hst&Hmode&Hlen&Hnow&Hlim) Hs. change (2 ^ 31) with 2147483648 in *. unfold client_round.
  destruct (reopen_ok cenv c Hok Hs) as (m&f&n&E). mstep E. set (c1 := set_c_old_mode _ _).
  rewrite bind_gets. unfold up_time, pass. rewrite bind_gets. cbv zeta. rewrite bind_modify. cbn [ev_what ev_after].
  change (c_timeout c1) with (c_timeout c). change (c_now c1) with (c_now c). rewrite s32_small by lia. rewrite (proj2 (Z.ltb_lt _ _)) by lia.
  set (c2 := set_c_now _ c1). destruct (reply_arrives sys cenv DHCPOFFER sv x y t bytes mac ix c2 Hca Hlen Hmode Hx) as (q&Hq&Hql&->).
  rewrite (offer_taken sys cenv q sv x y t (set_c_packet q c2) Hq Hql Hsv Hy Ht Hst). eexists. split; [reflexivity|].
  unfold takes. cbn. rewrite Z.add_0_r. split_and!; done.
Qed.

(** The next round sends the request. *)
Lemma request_round sv y d c c' : takes c sv y (c_now c') c' → idle_ok c → host_ok sys cenv → hostname_short c →
  Z.of_nat (length (serial_number env)) ≤ 63 → 0 ≤ sv < 2 ^ 32 → 0 ≤ y < 2 ^ 32 → 0 ≤ c_now c' < 2 ^ 31 →
  ∃ c'' pkt, client_round env sys cenv (silent d) c' = Done (None, c'') ∧ c_sent c'' = c_sent c ++ goes_out cenv c pkt ∧
    c_state c'' = REQUESTING ∧
    ∀ St (s : St), ∃ q, get_packet (Some (payload_of pkt)) s = Done (Some q, s) ∧ asks_for q y sv s ∧
      fld q OFF_XID 4 = be_bytes (c_xid c) ∧ fld q OFF_CHADDR 16 = cc_arp (cl_config c) ++ replicate 10 0.
Proof.
  intros (Hst&Hip&Hsa&Hx&Hpn&Hn&Ht&Hcf&Hvc&Hmode&Hsent&Hsends) Hok (Hser&Hsock&_) Hsh Hg Hsv Hy Hnow.
  assert (idle_ok c') as Hok' by (by apply (idle_same c)). change (2 ^ 31) with 2147483648 in *.
  unfold client_round, silent. destruct (reopen_ok cenv c' Hok' Hsock) as (m&f&n&E). mstep E. set (c1 := set_c_old_mode _ _).
  rewrite bind_gets. unfold up_time, pass. rewrite bind_gets. cbv zeta. rewrite bind_modify. cbn [ev_what ev_after].
  change (c_timeout c1) with (c_timeout c'). change (c_now c1) with (c_now c'). rewrite Ht, (s32_small (c_now c')) by lia.
  rewrite Z.sub_diag. change (0 <? s32 0) with false. cbv iota. set (c2 := set_c_now _ c1).
  assert (client_ok c2) as Hok2 by (destruct Hok' as ([]&_); by split). unfold timed_out. rewrite bind_gets. change (c_state c2) with (c_state c').
  rewrite Hst. change (REQUESTING =? INIT_SELECTING) with false. change ((REQUESTING =? RENEW_REQUESTED) || (REQUESTING =? REQUESTING)) with true.
  cbv iota. unfold requesting_timeout. rewrite bind_assoc, bind_gets. change (c_packet_num c2) with (c_packet_num c'). rewrite Hpn. change (0 <? 3) with true. cbv iota.
  rewrite !bind_assoc, !bind_gets. change (c_state c2) with (c_state c'). rewrite Hst. change (REQUESTING =? RENEW_REQUESTED) with false. cbv iota.
  destruct (send_selecting_ok env sys cenv (c_xid c2) (c_server_addr c2) (c_requested_ip c2) c2 Hok2 Hser Hg)
    as (r&c3&bytes&serial&identity&Es&Hm&Hms&Hsl&Hil).
  repeat (rewrite bind_assoc || rewrite bind_gets). mstep Es. destruct Hm as (id&k&w&_&->). unfold timeout_in, up_time. repeat (rewrite bind_assoc || rewrite bind_gets || rewrite bind_modify).
  eexists _, (Raw bytes MAC_BCAST_ADDR _). split; [reflexivity|]. split; [unfold goes_out; by rewrite <- Hsent, <- Hsends|]. split; [exact Hst|]. intros St s.
  change (c_xid c2) with (c_xid c') in Hms. change (c_server_addr c2) with (c_server_addr c') in Hms. change (c_requested_ip c2) with (c_requested_ip c') in Hms.
  rewrite Hx, Hsa, Hip in Hms. assert (cl_config c2 = cl_config c) as Ec by done. rewrite <- Ec.
  eapply selecting_understood; [exact Hok2|by unfold hostname_short; rewrite Ec|exact Hsl|exact Hil|done|done|exact Hms].
Qed.
End talk.

(** [C7] What the server offers is what it is asked for.  Let the server, in order, send
    an offer in answer to the message [old], and a client that looks for an address
    with the transaction number of [old] receive it before its timer.  Then the
    client takes the address of the offer and the server it is from, and in the next
    round it builds one request and gives it to the system, and the request goes out
    exactly when the system's answer to that transmission is not negative; the
    server, with its own functions, reads it as a DHCPREQUEST for the address it has
    offered, for its own address as the server, with the transaction number and the
    hardware address of the client.  The client has a hardware address of six bytes,
    interface names of at most 15 characters, a host name of at most 190 and a vendor
    class of at most 63, the board a serial number of 1 to 32 (at most 63 in the
    identity of the gateway), and the system memory and sockets. *)
Theorem offer_requested env_s env sys cenv old srv r srv' bytes mac ix c d1 d2 :
  srv_ok env_s srv → message_ok old → 0 ≤ sc_server (server_config srv) < 2 ^ 32 →
  sendOffer env_s old srv = Done (r, srv') → Raw bytes mac ix ∈ sent_since srv srv' →
  waits_for_offer c → be32 (fld old OFF_XID 4) = c_xid c → host_ok sys cenv → hostname_short c →
  Z.of_nat (length (serial_number env)) ≤ 63 → 0 ≤ d1 → c_now c + d1 < 2 ^ 31 →
  let y := p_yiaddr (Raw bytes mac ix) in let sv := sc_server (server_config srv) in
  ∃ c' c'' pkt,
    client_round env sys cenv {| ev_after := d1; ev_what := Arrives (Some bytes) |} c = Done (None, c') ∧
    c_requested_ip c' = y ∧ c_server_addr c' = sv ∧
    client_round env sys cenv (silent d2) c' = Done (None, c'') ∧ c_state c'' = REQUESTING ∧
    c_sent c'' = c_sent c ++ (if 0 <=? ce_send cenv (c_sends c) then [pkt] else []) ∧
    ∀ St (s : St), ∃ q, get_packet (Some (payload_of pkt)) s = Done (Some q, s) ∧ asks_for q y sv s ∧
      fld q OFF_XID 4 = be_bytes (c_xid c) ∧ fld q OFF_CHADDR 16 = cc_arp (cl_config c) ++ replicate 10 0.
Proof.
  intros Hsrv Hm Hsv E Hp Hw Hx Hsys Hsh Hg Hd1 Hb y sv.
  assert (inv env_s [] srv) as Hi by (split; [done|constructor]).
  destruct (sendOffer_spec env_s 0 [] old srv r srv' Hi Hm E) as [_ Hof]. destruct (Hof _ Hp) as (y'&t&Hy&Ht&Hca).
  assert (y = y') as Ey by (unfold y; by eapply carries_yiaddr). rewrite Ey.
  destruct (offer_round env sys cenv _ _ _ _ _ _ _ d1 c Hca Hsv Hy Ht Hx Hw (proj1 (proj2 Hsys))) as (c'&E1&Ht1).
  pose proof Ht1 as (_&H2&H3&_&_&H6&_). destruct Hw as (Hok&_&_&_&Hnow&_). rewrite <- H6 in Ht1.
  destruct (request_round env sys cenv sv y' d2 c c' Ht1 Hok Hsys Hsh Hg Hsv Hy ltac:(lia)) as (c''&pkt&E2&Hs&Hst&Hread).
  exists c', c'', pkt. by split_and!.
Qed.

(** The first messages of the talk. *)
Definition try_old : list Z := match get_packet (S := unit) (Some (payload_of (last_packet (c_sent client_1)))) tt with Done (Some p, _) => p | _ => [] end.
Definition try_offered : dhcpd := match sendOffer try_env try_old try_start with Done (_, s) => s | _ => try_start end.

Lemma try_waits : waits_for_offer client_1.
Proof.
  assert (c_state client_1 = INIT_SELECTING) as H1 by (vm_compute; reflexivity).
  assert (c_listen_mode client_1 = LISTEN_RAW) as H2 by (vm_compute; reflexivity).
  assert (length (c_packet client_1) = 1264%nat) as H3 by (vm_compute; reflexivity).
  assert (c_now client_1 = 101) as H4 by (vm_compute; reflexivity).
  assert (c_timeout client_1 = 111) as H5 by (vm_compute; reflexivity).
  split; [|split; [exact H1|split; [exact H2|rewrite H3, H4, H5; clear; by vm_compute]]]. clear.
  split; [split|split; [|split]]; [by vm_compute|by vm_compute|by vm_compute|by vm_compute|by vm_compute|right; by vm_compute].
Qed.

Lemma offer_requested_witness : ∃ bytes mac ix, sent_since try_start try_offered = [Raw bytes mac ix] ∧
  p_yiaddr (Raw bytes mac ix) = 0xc0a80102 ∧
  ∃ c' c'' pkt, client_round try_env try_script_env try_cenv {| ev_after := 1; ev_what := Arrives (Some bytes) |} client_1 = Done (None, c') ∧
    client_round try_env try_script_env try_cenv (silent 0) c' = Done (None, c'') ∧ c_sent c'' = c_sent client_1 ++ [pkt] ∧
    ∃ q, get_packet (Some (payload_of pkt)) tt = Done (Some q, tt) ∧ asks_for q 0xc0a80102 0xc0a80101 tt.
Proof.
  assert (∃ bytes mac ix, sent_since try_start try_offered = [Raw bytes mac ix] ∧ p_yiaddr (Raw bytes mac ix) = 0xc0a80102) as (bytes&mac&ix&Es&Ey)
    by (eexists _, _, _; split; vm_compute; reflexivity).
  exists bytes, mac, ix. split; [exact Es|]. split; [exact Ey|].
  assert (∃ r, sendOffer try_env try_old try_start = Done (r, try_offered)) as [r E] by (eexists; vm_compute; reflexivity).
  destruct (offer_requested try_env try_env try_script_env try_cenv try_old try_start r try_offered bytes mac ix client_1 1 0) as (c'&c''&pkt&E1&_&_&E2&_&E3&H).
  - exact try_srv_ok.
  - split; [vm_compute; reflexivity|]. apply (Forall_impl (λ b, (0 <=? b) && (b <? 256) = true)).
    + apply Forall_forall. intros b. rewrite list_elem_of_In. revert b. apply List.forallb_forall. vm_compute. reflexivity.
    + intros b [H1 H2]%andb_true_iff. unfold is_byte. lia.
  - clear. by vm_compute.
  - exact E.
  - rewrite Es. by apply list_elem_of_singleton.
  - exact try_waits.
  - vm_compute. reflexivity.
  - exact try_system.
  - clear. intros h. by vm_compute.
  - clear. by vm_compute.
  - clear. by vm_compute.
  - clear. by vm_compute.
  - exists c', c'', pkt. split; [exact E1|]. split; [exact E2|]. split; [exact E3|]. destruct (H unit tt) as (q&Eq&Ha&_).
    rewrite Ey in Ha. exists q. split; [exact Eq|exact Ha].
Defined.

(** ** Renewals *)

(** [C31] A renewal is understood.  For a client with a hardware address of six bytes, a
    host name of at most 190 and a vendor class of at most 63 characters, on a board
    with a serial number of 1 to 32 characters, [send_renew] returns after a second
    with the system's answer [r] to one transmission: the renewal is added to what
    was sent exactly when [r] is not negative.  The server reads it as a request to
    renew: a DHCPREQUEST that names the address in [ciaddr] and has neither a
    requested address nor a server in its options, with the transaction number and
    the hardware address of the client. *)
Theorem renewal_understood {St} sys cenv x server ip c (t : St) :
  client_ok c → serial_ok cenv → hostname_short c →
  ∃ r c' pkt, send_renew sys cenv x server ip c = Done (r, c') ∧ r = ce_send cenv (c_sends c) ∧
    c_sent c' = c_sent c ++ (if 0 <=? r then [pkt] else []) ∧ c_now c' = c_now c + 1 ∧ c_state c' = c_state c ∧
    ∃ q, get_packet (Some (payload_of pkt)) t = Done (Some q, t) ∧ asks_renewal q t ∧ fld q OFF_XID 4 = be_bytes x ∧
      fld q OFF_CIADDR 4 = be_bytes ip ∧ fld q OFF_CHADDR 16 = cc_arp (cl_config c) ++ replicate 10 0.
Proof.
  intros Hok Hs Hsh. destruct (send_renew_ok sys cenv x server ip c Hok Hs) as (r&c'&pkt&serial&E&Hm&Hmsg&Hser).
  exists r, c', pkt. split; [done|]. destruct Hm as (id&n&w&Er&->). split; [exact Er|].
  split; [unfold goes_out; by rewrite Er|]. split; [done|]. split; [done|].
  pose proof (request_items_short DHCPREQUEST serial c Hok Hsh Hser) as Hlen.
  destruct (server_reads pkt _ x ip _ t Hmsg ltac:(lia)) as (q&Eq&Ho&(_&Hx&Hci&_&Hch&_)). exists q. split; [done|]. split; [|done].
  by eapply renewal_read.
Qed.

Lemma renewal_understood_witness : ∃ r c' pkt,
  send_renew try_script_env try_cenv (c_xid client_4) (c_server_addr client_4) 0xc0a80102 client_4 = Done (r, c') ∧
  c_sent c' = c_sent client_4 ++ [pkt] ∧
  ∃ q, get_packet (Some (payload_of pkt)) tt = Done (Some q, tt) ∧ asks_renewal q tt ∧ fld q OFF_CIADDR 4 = be_bytes 0xc0a80102.
Proof.
  destruct (renewal_understood try_script_env try_cenv (c_xid client_4) (c_server_addr client_4) 0xc0a80102 client_4 tt) as (r&c'&pkt&E&Hr&Hs&_&_&q&Eq&Ha&_&Hci&_).
  - apply try_idle.
  - apply try_system.
  - intros h. by vm_compute.
  - exists r, c', pkt. split; [exact E|]. rewrite Hr in Hs. split; [exact Hs|]. exists q. split; [exact Eq|]. split; [exact Ha|exact Hci].
Defined.

(** ** Static routes *)




